(* ===== verification/_CoqProject ===== *)
-Q . S2P
Prelude.v
DList.v
Timer.v
Sched.v
SchedInv.v
SchedOps.v
SchedApi.v
SchedWait.v
SchedTimer.v
SchedCheck.v
SchedProps.v
Sync.v
SyncView.v
SyncOps.v
SyncSys.v
SyncInv.v
SyncSteps.v
SyncCalls.v
SyncFinish.v
SyncStep.v
SyncProps.v
SyncLost.v
Bst.v
BstRep.v
BstOps.v
BstInsert.v
BstDelete.v
BstProps.v
LibcMem.v
LibcStr.v
LibcNum.v
LibcSearch.v
Cbuf.v
CbufProps.v
CbufEvent.v
SchedLists.v
Thread.v
ThreadInv.v
ThreadOps.v
ThreadCalls.v
ThreadCreate.v
ThreadProps.v
Pmm.v
PmmInv.v
PmmGrab.v
PmmAlloc.v
PmmRun.v
PmmFree.v
PmmPages.v
PmmReserve.v
PmmInit.v
PmmArena.v
PmmOutcome.v
PmmExample.v
PmmProps.v
ResGroup.v
ResInv.v
ResOps.v
ResAlloc.v
ResProps.v
Vmm.v
VmmApi.v
VmmSpot.v
VmmTree.v
VmmRegions.v
VmmPlace.v
VmmAlloc.v
VmmInv.v
VmmMap.v
VmmObj.v
VmmNew.v
VmmSteps.v
VmmShape.v
VmmPhys.v
VmmProps.v
VmmExample.v
Printf.v
PrintfSpec.v
PrintfProps.v
