(* ===== verification/Prelude.v ===== *)
(** * The LK embedded kernel (Trusty branch): verification library

    This development models the portable core of the kernel under src/ as functions
    on explicit state and proves what each part promises. It is read from the top of
    _CoqProject; every file says at its head what it holds.

    ** The parts and the files that model them

    - Intrusive lists, include/shared/lk/list.h: [DList]. Memory is a map from node
      addresses to nodes. [run_refines] shows that every call does on memory what the
      same call does on sequences, so the other files keep queues as sequences of
      object addresses ([node_in_list] and [node_delete] below).
    - Kernel timers, kernel/timer.c: [Timer]. Queues sorted by due time, the comparator
      of each cpu, the tick.
    - The scheduler and wait queues, kernel/thread.c and kernel/mp.c: [Sched] has the
      definitions. [SchedInv] has the invariant and the choice of the next thread,
      [SchedOps] rescheduling, [SchedApi] and [SchedWait] the calls, [SchedLists] what they
      leave alone, [SchedCheck] a checker of the invariant and an example, [SchedTimer]
      the proof that Timer keeps the promises ([TimerLaws]) the scheduler relies on,
      [SchedProps] the theorems.
    - Mutexes, semaphores and events, kernel/mutex.c, semaphore.c, event.c: [Sync].
      [SyncView] and [SyncOps] run the operations; [SyncSys] is a transition system in
      which threads on any number of cpus call them, are switched out inside them, are
      preempted and time out; [SyncInv], [SyncSteps], [SyncCalls], [SyncFinish] and
      [SyncStep] carry its invariant; [SyncProps] has the theorems, [SyncLost] the one on
      wake-ups that are lost.
    - The life of a thread, kernel/thread.c: [Thread] (creation, detaching, joining,
      exit, exit from a panic, the reaper, and the memory a thread owns), [ThreadInv],
      [ThreadOps], [ThreadCalls] and [ThreadCreate] (one operation at a time),
      [ThreadProps] (the theorems and an example).
    - The WAVL tree, lib/binary_search_tree: [Bst], [BstRep], [BstOps], [BstInsert],
      [BstDelete], [BstProps].
    - The C library, lib/libc: [LibcMem] (copying and filling), [LibcStr] (strings and
      character classes), [LibcNum] (reading numbers), [LibcSearch] (bsearch).
    - Formatted output, lib/libc/printf.c: [Printf] has the engine, over any output
      function, and the functions that print to a buffer; [PrintfSpec] gives the text a
      format stands for as a list and shows that the engine hands exactly this to every
      [Sink]; [PrintfProps] has the buffer as a sink, and the theorems.
    - The circular buffer, lib/cbuf and lk/pow2.h: [Cbuf], [CbufProps], [CbufEvent].

    - Physical pages, kernel/vm/pmm.c: [Pmm] has the arenas, the page structs, the free
      lists and every operation on them. [PmmInv] is the invariant, [PmmGrab] what taking
      pages does to it, [PmmAlloc] the loop over one arena, [PmmRun] the search for a run,
      [PmmFree] giving pages back, [PmmPages] and [PmmOutcome] whole allocations,
      [PmmReserve] reservations, [PmmInit] and [PmmArena] adding arenas; [PmmOutcome] also
      has addresses and the public calls; [PmmExample] is a machine with two arenas, [PmmProps]
      the theorems.
    - Resource groups, kernel/vm/res_group.c, and the memory objects of pmm.c that draw on
      them: [ResGroup] (the operations), [ResInv] (who owns which reservation), [ResOps]
      and [ResAlloc] (groups, objects), [ResProps] (runs of calls).
    - The virtual memory manager, kernel/vm/vmm.c and parts of vm.c: [Vmm] (regions, the
      choice of a spot, reserved spaces and references) and [VmmApi] (mapping, the public
      calls, address spaces) have the definitions. [VmmSpot] is about one gap, [VmmTree]
      about the loops over regions, [VmmRegions] and [VmmPlace] about regions in trees,
      [VmmAlloc] about finding room for a region, [VmmInv] has the invariant, lookup and
      freeing, [VmmMap] mapping a region and what becomes of a request for one, [VmmObj]
      and [VmmNew] mapping an object, [VmmSteps] the remaining calls, [VmmProps] the theorems. [VmmShape] and
      [VmmPhys] show that the objects of pmm.c are what vmm.c expects; [VmmExample] runs
      the calls on a small machine.

    ** How they interact

    Interfaces are type classes. [TimerOps] is what the scheduler uses of timers and
    [TimerLaws] what it relies on; [SchedTimer] discharges both with the model of
    timer.c. [EventOps] and [EventLaws] are what the circular buffer uses of an event;
    [CbufEvent] discharges them with the event of Sync on the scheduler. [Config] has the
    number of cpus and the idle threads, [ThreadBuild] the build options of thread.c.
    The state of a layer is a record that holds the state of the layer below:
    [sched] holds the timers, [kernel] holds [sched] and the objects of Sync, [tsys]
    holds [sched] and the memory of the threads. [PmmConfig] has the page size and the
    initial mappings; the locks of pmm.c are flags of its state, since nothing that is
    modelled of it is interrupted while it holds them. [ObjRefs] is the reference counting
    of reflist.h, which other repositories provide, and [RefLaws] what it documents;
    [rsys] holds the physical memory, the groups and the objects. [vsys] holds the
    regions, trees and address spaces, over any memory objects: [PhysObjs] are their
    operations and [PhysLaws] what vmm.c relies on, which [VmmPhys] discharges with [rsys].
    [ArchMmu] are the calls of arch/mmu.h, and [ArchLaws] what that header promises of the
    page tables; [VmmConfig] has the build options and the random numbers of lib/rand,
    [VmmLaws] their range. [Sink] is what the engine of printf needs of an output function;
    [PrintfProps] discharges it with the one that fills a buffer. [PrintfConfig] is
    RELEASE_BUILD.

    ** Conventions

    A kernel function is a function of type [M S A]: from a state to a result and a
    state, or to [None], which stands for an execution without a defined outcome: a
    failed ASSERT or DEBUG_ASSERT, a panic, a spin lock that its own cpu holds, an access
    outside every object, signed overflow. A theorem that says a call returns [Some]
    therefore says that none of these happens. The first argument [cpu] is the cpu that
    executes the call. A function whose caller may lose the cpu returns [Switched] at
    that point and a second function, named [..._resumed], [..._resume] or [..._finish],
    is the rest, run when the thread has the cpu again; what happens in between is any
    sequence of other steps. Pointers are integers and 0 is NULL; machine integers are
    [Z] with [u32], [u64] and [i32] at the points where the code wraps; long, size_t and
    pointers have 64 bits.

    Loops run on fuel. The bound is one round per element of what is walked and one
    more (nodes of the memory, bytes of a string, entries of a queue), 32 rounds for
    the bitmap of run queues, 65 for a halving search, the number of due timers for the
    tick and the number of dead threads for the reaper; the theorems show each to be
    enough, on every state of the invariant. The search for a run has one round per page
    of the arena, freeing one per page of the list, mapping a region one per page of it,
    the search for the last spot of a gap one per page of the alignment; destroying
    reserved spaces is bounded by their number. The engine of printf has one round per byte
    of memory for the formats and one for the characters of each, padding one per
    character of the width, a number one per byte of its buffer.

    ** What the theorems show

    - [DList.run_refines], [CbufEvent.cbuf_refines_queue]: refinement of sequences and of
      a bounded queue; [CbufEvent.cbuf_blocking_read]: who waits on an empty buffer, and
      that a write wakes all of them.
    - [SchedProps]: the next thread is the first that may run in the highest queue; yields,
      preemption, blocking, waking and time-outs do just what they should and keep the
      invariant [sched_inv]; no assertion fails.
    - [SyncProps]: mutual exclusion, no overdrawn semaphore and no failed assertion in
      every run; no wake-up is lost as long as nobody uses a time-out. [SyncLost]: a
      wake-up of a mutex that a time-out has swallowed is lost in every further run.
    - [ThreadProps]: a thread owns its struct and stacks from creation until exactly one
      join, detach or round of the reaper gives them back; exits wake who waits for them.
    - [Timer], [BstProps]: order, balance and membership are kept, loops end, searches are
      logarithmic.
    - [PmmProps]: an allocation takes exactly so many free pages or none, freeing is its
      inverse, the search for a run agrees with a plain search, reservations are
      honoured, adding an arena keeps the invariant, pages and addresses correspond.
    - [ResProps]: in every run of calls the reserved pages are exactly those of the groups, a
      group gets what it has reserved, an object that goes leaves its group as it was.
    - [VmmProps]: in every run of calls regions keep their places and guard pages and the page
      tables map exactly their pages; a spot is found exactly if there is one; a mapping
      is whole or leaves nothing behind; what is allocated can be freed again. The one
      assertion a request for an address can fail is described.
    - [LibcMem], [LibcStr], [LibcNum], [LibcSearch]: results, bounds, saturation and errors,
      with the inputs on which strlcat and bsearch leave their arrays.
    - [PrintfProps]: printing to a buffer gives the text of the format, cut where the buffer
      ends; %lld and strtoll are inverse; filtered output hides numbers; a number in a
      field filled up on the right loses its sign.

    ** What is not modelled

    Interrupts are assumed enabled where a call is made, and asserts that they are off
    are implied by the held lock. THREAD_STATS, kernel event logging, debug LEDs and the
    empty hook platform_cpu_priority_set are left out; [thread_dump], the statistics and
    the early initialisation of thread.c too. The scheduler's calls are atomic where the
    thread lock is held. The following parts are not modelled: ports, the
    console commands of pmm.c and vmm.c, the names of regions, the initial page tables of
    vm.c, asid.c, bootalloc.c and the other files of kernel/vm, arch_mmu_pick_spot of 32-bit
    arm (the default is modelled), deferred calls, stdio and the
    floating-point conversions of printf, the kernel log, the heap
    (dlmalloc is third-party code), the consoles, start-up code, the architecture ports
    (assembly and registers), drivers, device trees, Rust bindings, tests and tools. *)
From stdpp Require Import base gmap list strings.
From Stdlib Require Import ZArith Lia.

Declare Scope lk_scope.
Delimit Scope lk_scope with lk.

#[export] Set Default Goal Selector "!".
#[export] Set Warnings "-notation-overridden,-clear-no-such-hyp,-level-tolerance".

(** ** Effects: state passing with failure

    A kernel operation reads and writes a state [S] and returns an [A].
    [None] stands for an execution that has no defined outcome: a failed
    [ASSERT]/[DEBUG_ASSERT], a [panic], or an access through a pointer that
    designates no object of the model. *)
Definition M (S A : Type) : Type := S -> option (A * S).

Definition ret {S A : Type} (a : A) : M S A := fun s => Some (a, s).

Definition bind {S A B : Type} (m : M S A) (k : A -> M S B) : M S B :=
  fun s => match m s with
           | Some (a, s') => k a s'
           | None => None
           end.

Definition panic {S A : Type} : M S A := fun _ => None.

(** [DEBUG_ASSERT(b)] (and [ASSERT]). *)
Definition assert_ {S : Type} (b : bool) : M S unit :=
  if b then ret tt else panic.

Definition gets {S A : Type} (f : S -> A) : M S A := fun s => Some (f s, s).

Definition modify {S : Type} (f : S -> S) : M S unit := fun s => Some (tt, f s).

(** Read a partial projection; a missing object is a failure. *)
Definition getsome {S A : Type} (f : S -> option A) : M S A :=
  fun s => match f s with
           | Some a => Some (a, s)
           | None => None
           end.

Definition when {S : Type} (b : bool) (m : M S unit) : M S unit :=
  if b then m else ret tt.

Notation "x <- m ;; k" := (bind m (fun x => k))
  (at level 100, m at next level, right associativity) : lk_scope.
Notation "m ;; k" := (bind m (fun _ => k))
  (at level 100, right associativity) : lk_scope.

(** ** Machine integers *)
Definition u8 (z : Z) : Z := (z mod 2 ^ 8)%Z.
Definition u32 (z : Z) : Z := (z mod 2 ^ 32)%Z.
Definition u64 (z : Z) : Z := (z mod 2 ^ 64)%Z.
(** Two's complement reading of the low 32 (64) bits. *)
Definition i32 (z : Z) : Z := ((z + 2 ^ 31) mod 2 ^ 32 - 2 ^ 31)%Z.
Definition i64 (z : Z) : Z := ((z + 2 ^ 63) mod 2 ^ 64 - 2 ^ 63)%Z.
Definition INT_MAX : Z := (2 ^ 31 - 1)%Z.
Definition INT_MIN : Z := (- 2 ^ 31)%Z.
Definition UINT32_MAX : Z := (2 ^ 32 - 1)%Z.

(** ** Lemmas on the monad *)
Lemma bind_Some {S A B} (m : M S A) (k : A -> M S B) s r :
  bind m k s = Some r <-> exists a s', m s = Some (a, s') /\ k a s' = Some r.
Proof.
  unfold bind. destruct (m s) as [[a s']|]; split.
  - intros H. by exists a, s'.
  - intros (a' & s'' & H & ?). by simplify_eq.
  - done.
  - intros (? & ? & ? & ?). done.
Qed.

Lemma bind_eq {S A B} (m : M S A) (k : A -> M S B) s a s' :
  m s = Some (a, s') -> bind m k s = k a s'.
Proof. unfold bind. by intros ->. Qed.

Lemma bind_assoc {S A B C} (m : M S A) (k : A -> M S B) (k' : B -> M S C) s :
  bind (bind m k) k' s = bind m (fun a => bind (k a) k') s.
Proof. unfold bind. by destruct (m s) as [[??]|]. Qed.

Lemma bind_then {S A B C} (m : M S A) (n : M S B) (k : B -> M S C) s b s' :
  bind m (fun _ => n) s = Some (b, s') -> bind m (fun _ => bind n k) s = k b s'.
Proof. intros H. rewrite <- (bind_assoc m (fun _ => n) k). by apply bind_eq. Qed.

Lemma ret_bind {S A B} (a : A) (k : A -> M S B) s : bind (ret a) k s = k a s.
Proof. done. Qed.

Lemma assert_Some {S} b (s : S) r : assert_ b s = Some r <-> b = true /\ r = (tt, s).
Proof.
  destruct b; unfold assert_, ret, panic; split; intros H; try done.
  - by simplify_eq.
  - by destruct H as [_ ->].
  - by destruct H.
Qed.

Lemma getsome_Some {S A} (f : S -> option A) s r :
  getsome f s = Some r <-> exists a, f s = Some a /\ r = (a, s).
Proof. unfold getsome. destruct (f s); naive_solver. Qed.

Lemma assert_true {S} b (s : S) : b = true -> assert_ b s = Some (tt, s).
Proof. by intros ->. Qed.

Lemma getsome_eq {S A} (f : S -> option A) s a :
  f s = Some a -> getsome f s = Some (a, s).
Proof. unfold getsome. by intros ->. Qed.

(** ** Machine integer lemmas *)
Lemma u32_range z : (0 <= u32 z < 2 ^ 32)%Z.
Proof. apply Z.mod_pos_bound. lia. Qed.

Lemma u32_small z : (0 <= z < 2 ^ 32)%Z -> u32 z = z.
Proof. intros. by apply Z.mod_small. Qed.

Lemma u64_range z : (0 <= u64 z < 2 ^ 64)%Z.
Proof. apply Z.mod_pos_bound. lia. Qed.

Lemma u64_small z : (0 <= z < 2 ^ 64)%Z -> u64 z = z.
Proof. intros. by apply Z.mod_small. Qed.

Lemma i32_small z : (INT_MIN <= z <= INT_MAX)%Z -> i32 z = z.
Proof. unfold i32, INT_MIN, INT_MAX. intros. rewrite Z.mod_small; lia. Qed.

Lemma i32_range z : (INT_MIN <= i32 z <= INT_MAX)%Z.
Proof.
  unfold i32, INT_MIN, INT_MAX.
  pose proof (Z.mod_pos_bound (z + 2 ^ 31) (2 ^ 32)). lia.
Qed.

(** ** Automation *)
Create HintDb lk.
#[export] Hint Resolve u32_range u64_range i32_range : lk.
Create Rewrite HintDb lkrw.
#[export] Hint Rewrite @ret_bind @bind_assoc : lkrw.

(** Run one monadic step whose outcome is known. *)
Ltac mstep := rewrite ?ret_bind, ?bind_assoc; erewrite bind_eq by (first [eassumption | reflexivity]).
(** Invert a successful run [... = Some _] into the runs of its parts. *)
Ltac minv :=
  repeat match goal with
  | H : bind _ _ _ = Some _ |- _ => apply bind_Some in H as (? & ? & ? & ?)
  | H : assert_ _ _ = Some _ |- _ => apply assert_Some in H as [? ?]
  | H : getsome _ _ = Some _ |- _ => apply getsome_Some in H as (? & ? & ?)
  | H : ret _ _ = Some _ |- _ => unfold ret in H
  | H : modify _ _ = Some _ |- _ => unfold modify in H
  | H : gets _ _ = Some _ |- _ => unfold gets in H
  | _ => progress simplify_eq
  end.

(** Turn boolean tests in the context into propositions. *)
Ltac bprop :=
  repeat match goal with
  | H : (_ =? _)%Z = true |- _ => apply Z.eqb_eq in H
  | H : (_ =? _)%Z = false |- _ => apply Z.eqb_neq in H
  | H : (_ <? _)%Z = true |- _ => apply Z.ltb_lt in H
  | H : (_ <? _)%Z = false |- _ => apply Z.ltb_ge in H
  | H : (_ <=? _)%Z = true |- _ => apply Z.leb_le in H
  | H : (_ <=? _)%Z = false |- _ => apply Z.leb_gt in H
  | H : (_ >? _)%Z = true |- _ => rewrite Z.gtb_ltb in H
  | H : (_ >? _)%Z = false |- _ => rewrite Z.gtb_ltb in H
  | H : (_ >=? _)%Z = true |- _ => rewrite Z.geb_leb in H
  | H : (_ >=? _)%Z = false |- _ => rewrite Z.geb_leb in H
  | H : (_ && _) = true |- _ => apply andb_true_iff in H as [? ?]
  | H : (_ || _) = false |- _ => apply orb_false_iff in H as [? ?]
  | H : negb _ = true |- _ => apply negb_true_iff in H
  | H : negb _ = false |- _ => apply negb_false_iff in H
  end.

(** ** Queues of nodes

    Users of list.h keep queues of intrusive nodes. A queue is the sequence of
    the objects linked on it and a family of queues is a finite map; DList
    proves that the operations of list.h act on such a family as below. *)
Section queues.
  Context `{Countable K}.
  Implicit Types (qs : gmap K (list Z)).

Definition node_in_list (t : Z) qs : bool := bool_decide (map_Exists (fun _ q => t ∈ q) qs).
Definition node_delete (t : Z) qs : gmap K (list Z) := filter (fun x => x <> t) <$> qs.

Lemma node_in_list_true t qs :
  node_in_list t qs = true <-> exists k q, qs !! k = Some q /\ t ∈ q.
Proof. unfold node_in_list. by rewrite bool_decide_eq_true. Qed.

Lemma node_in_list_false t qs :
  node_in_list t qs = false <-> forall k q, qs !! k = Some q -> t ∉ q.
Proof.
  unfold node_in_list. rewrite bool_decide_eq_false. split.
  - intros Hn k q Hk Ht. apply Hn. by exists k, q.
  - intros Hn (k & q & Hk & Ht). by eapply Hn.
Qed.

Lemma node_delete_lookup t qs k :
  node_delete t qs !! k = filter (fun x => x <> t) <$> qs !! k.
Proof. apply lookup_fmap. Qed.

Lemma node_delete_notin t qs : node_in_list t (node_delete t qs) = false.
Proof.
  apply node_in_list_false. intros k q. rewrite node_delete_lookup.
  intros (q0 & _ & ->)%fmap_Some. by intros [? _]%list_elem_of_filter.
Qed.
End queues.

Lemma filter_ne_id (t : Z) (q : list Z) : t ∉ q -> filter (fun x => x <> t) q = q.
Proof.
  induction q as [|x q IH]; [done|]. intros [??]%not_elem_of_cons.
  rewrite filter_cons_True by done. by rewrite IH.
Qed.

Lemma filter_ne_head (t : Z) (q : list Z) : NoDup (t :: q) -> filter (fun x => x <> t) (t :: q) = q.
Proof.
  intros [? _]%NoDup_cons. rewrite filter_cons_False by (intros Hn; by apply Hn).
  by apply filter_ne_id.
Qed.

Lemma elem_of_filter_ne (t x : Z) (q : list Z) : x ∈ filter (fun y => y <> t) q <-> x <> t /\ x ∈ q.
Proof. by rewrite list_elem_of_filter. Qed.

(** A failed-assertion test known to hold. *)
Lemma assert_bind {S A} b (k : unit -> M S A) s : b = true -> bind (assert_ b) k s = k tt s.
Proof. by intros ->. Qed.
Lemma modify_bind {S A} (f : S -> S) (k : unit -> M S A) s : bind (modify f) k s = k tt (f s).
Proof. done. Qed.
Lemma gets_bind {S A B} (f : S -> B) (k : B -> M S A) s : bind (gets f) k s = k (f s) s.
Proof. done. Qed.
#[export] Hint Rewrite @modify_bind @gets_bind : lkrw.

Lemma filter_ext_in {A} (P Q : A -> Prop) `{forall x, Decision (P x)} `{forall x, Decision (Q x)} (l : list A) :
  (forall x, x ∈ l -> P x <-> Q x) -> filter P l = filter Q l.
Proof.
  induction l as [|x l IH]; intros Hpq; [done|]. rewrite !filter_cons.
  rewrite IH by (intros y Hy; apply Hpq; by right).
  pose proof (Hpq x ltac:(left)). do 2 case_decide; tauto.
Qed.

Lemma app_inj_tail_not_in {A} (t : A) (q q1 q2 : list A) : NoDup (q ++ [t]) -> q ++ [t] = q1 ++ t :: q2 -> q1 = q.
Proof.
  intros Hnd Heq. destruct q2 as [|y q2 _] using rev_ind.
  - by apply app_inj_tail in Heq as [-> _].
  - change (q1 ++ t :: q2 ++ [y]) with (q1 ++ (t :: q2) ++ [y]) in Heq. rewrite app_assoc in Heq.
    apply app_inj_tail in Heq as [-> ->]. apply NoDup_app in Hnd as (_ & Hn & _). exfalso.
    apply (Hn y); [apply elem_of_app; right; by left|by left].
Qed.
