(* ===== verification/DList.v ===== *)
(** * Intrusive doubly linked lists (include/shared/lk/list.h)

    The memory is a finite map from node addresses to [list_node] structs;
    every operation of list.h is translated to the loads and stores it does.
    [dlist h l xs] says that the circular list whose head node is at [l] holds
    the items [xs].  The theorems show that each operation refines the operation
    on sequences that [abs_step] gives, that all other lists of the memory are
    left alone, and that the loops end. *)
From stdpp Require Import base gmap list.
From Stdlib Require Import ZArith Lia.
From S2P Require Import Prelude.

Local Open Scope Z_scope.
Local Open Scope lk_scope.

(** ** Data *)
Record list_node := mk_node { prev : Z; next : Z }.

#[export] Instance list_node_eq_dec : EqDecision list_node.
Proof. solve_decision. Defined.

Abbreviation memory := (gmap Z list_node).
Definition NULL : Z := 0.

(** [p->next], [p->prev] and the corresponding stores. *)
Definition load_next (p : Z) : M memory Z := getsome (fun h => next <$> h !! p).
Definition load_prev (p : Z) : M memory Z := getsome (fun h => prev <$> h !! p).
Definition store_next (p v : Z) : M memory unit := fun h =>
  n ← h !! p; Some (tt, <[p := mk_node (prev n) v]> h).
Definition store_prev (p v : Z) : M memory unit := fun h =>
  n ← h !! p; Some (tt, <[p := mk_node v (next n)]> h).

(** ** Operations *)
Definition list_initialize (list : Z) : M memory unit :=
  store_next list list ;;
  store_prev list list.

Definition list_clear_node (item : Z) : M memory unit :=
  store_next item NULL ;;
  store_prev item NULL.

Definition list_in_list (item : Z) : M memory bool :=
  p <- load_prev item ;;
  n <- load_next item ;;
  ret (if (p =? NULL) && (n =? NULL) then false else true).

Definition list_add_head (list item : Z) : M memory unit :=
  n <- load_next list ;;
  store_next item n ;;
  store_prev item list ;;
  n' <- load_next list ;;
  store_prev n' item ;;
  store_next list item.

Definition list_add_tail (list item : Z) : M memory unit :=
  p <- load_prev list ;;
  store_prev item p ;;
  store_next item list ;;
  p' <- load_prev list ;;
  store_next p' item ;;
  store_prev list item.

Definition list_delete (item : Z) : M memory unit :=
  n <- load_next item ;;
  p <- load_prev item ;;
  store_prev n p ;;
  p' <- load_prev item ;;
  n' <- load_next item ;;
  store_next p' n' ;;
  store_next item NULL ;;
  store_prev item NULL.

Definition list_remove_head (list : Z) : M memory Z :=
  n <- load_next list ;;
  if negb (n =? list) then
    item <- load_next list ;;
    list_delete item ;;
    ret item
  else ret NULL.

Definition list_remove_tail (list : Z) : M memory Z :=
  p <- load_prev list ;;
  if negb (p =? list) then
    item <- load_prev list ;;
    list_delete item ;;
    ret item
  else ret NULL.

Definition list_peek_head (list : Z) : M memory Z :=
  n <- load_next list ;;
  if negb (n =? list) then load_next list else ret NULL.

Definition list_peek_tail (list : Z) : M memory Z :=
  p <- load_prev list ;;
  if negb (p =? list) then load_prev list else ret NULL.

Definition list_prev (list item : Z) : M memory Z :=
  p <- load_prev item ;;
  if negb (p =? list) then load_prev item else ret NULL.

Definition list_prev_wrap (list item : Z) : M memory Z :=
  p <- load_prev item ;;
  if negb (p =? list) then load_prev item
  else
    pp <- load_prev p ;;
    if negb (pp =? list) then load_prev p else ret NULL.

Definition list_next (list item : Z) : M memory Z :=
  n <- load_next item ;;
  if negb (n =? list) then load_next item else ret NULL.

Definition list_next_wrap (list item : Z) : M memory Z :=
  n <- load_next item ;;
  if negb (n =? list) then load_next item
  else
    nn <- load_next n ;;
    if negb (nn =? list) then load_next n else ret NULL.

Definition list_is_empty (list : Z) : M memory bool :=
  n <- load_next list ;;
  ret (if n =? list then true else false).

(** [list_for_every(list, node)]: [body] is run on every node from [node] on,
    with an accumulator for the variables the loop updates. The loop has no
    bound of its own; running out of [fuel] is a failure. *)
Fixpoint list_for_every_from {A : Type} (fuel : nat) (list node : Z)
    (body : Z -> A -> M memory A) (acc : A) : M memory A :=
  if node =? list then ret acc
  else match fuel with
       | O => panic
       | S fuel' =>
           acc' <- body node acc ;;
           n <- load_next node ;;
           list_for_every_from fuel' list n body acc'
       end.

Definition list_for_every {A : Type} (fuel : nat) (list : Z)
    (body : Z -> A -> M memory A) (acc : A) : M memory A :=
  n <- load_next list ;;
  list_for_every_from fuel list n body acc.

(** [list_for_every_safe(list, node, temp_node)]: the successor is read before
    the body runs, so the body may unlink the node. *)
Fixpoint list_for_every_safe_from {A : Type} (fuel : nat) (list node temp : Z)
    (body : Z -> A -> M memory A) (acc : A) : M memory A :=
  if node =? list then ret acc
  else match fuel with
       | O => panic
       | S fuel' =>
           acc' <- body node acc ;;
           n <- load_next temp ;;
           list_for_every_safe_from fuel' list temp n body acc'
       end.

Definition list_for_every_safe {A : Type} (fuel : nat) (list : Z)
    (body : Z -> A -> M memory A) (acc : A) : M memory A :=
  node <- load_next list ;;
  temp <- load_next node ;;
  list_for_every_safe_from fuel list node temp body acc.

(** [list_for_every_entry_safe(list, entry, unused, type, member)]: the cursor
    moves on before the body runs. The entry is identified with its node, as
    [containerof] only shifts the address. *)
Fixpoint list_for_every_entry_safe_from {A : Type} (fuel : nat) (list cursor : Z)
    (body : Z -> A -> M memory A) (acc : A) : M memory A :=
  if cursor =? list then ret acc
  else match fuel with
       | O => panic
       | S fuel' =>
           n <- load_next cursor ;;
           acc' <- body cursor acc ;;
           list_for_every_entry_safe_from fuel' list n body acc'
       end.

Definition list_for_every_entry_safe {A : Type} (fuel : nat) (list : Z)
    (body : Z -> A -> M memory A) (acc : A) : M memory A :=
  n <- load_next list ;;
  list_for_every_entry_safe_from fuel list n body acc.

Definition list_length (fuel : nat) (list : Z) : M memory Z :=
  list_for_every fuel list (fun _ cnt => ret (cnt + 1)) 0.

Definition list_splice_after (dest_item src_list : Z) : M memory unit :=
  src_next <- load_next src_list ;;
  src_prev <- load_prev src_list ;;
  store_prev src_next dest_item ;;
  dn <- load_next dest_item ;;
  store_next src_prev dn ;;
  dn' <- load_next dest_item ;;
  sp <- load_prev src_list ;;
  store_prev dn' sp ;;
  sn <- load_next src_list ;;
  store_next dest_item sn ;;
  list_initialize src_list.

Definition list_splice_before (dest_item src_list : Z) : M memory unit :=
  p <- load_prev dest_item ;;
  list_splice_after p src_list.

Definition list_splice_head (dest_list src_list : Z) : M memory unit :=
  list_splice_after dest_list src_list.

Definition list_splice_tail (dest_list src_list : Z) : M memory unit :=
  p <- load_prev dest_list ;;
  list_splice_after p src_list.

(** ** The abstract view *)
Definition nxt (h : memory) (p : Z) : option Z := next <$> h !! p.
Definition prv (h : memory) (p : Z) : option Z := prev <$> h !! p.

(** From [p] the forward links go through [xs] to [q], and the backward links
    mirror them. *)
Fixpoint links (h : memory) (p : Z) (xs : list Z) (q : Z) : Prop :=
  match xs with
  | [] => nxt h p = Some q /\ prv h q = Some p
  | x :: xs' => nxt h p = Some x /\ prv h x = Some p /\ links h x xs' q
  end.

(** A closed ring through the nodes [c]. *)
Definition ring (h : memory) (c : list Z) : Prop :=
  match c with
  | [] => True
  | p :: xs => links h p xs p
  end /\ NoDup c /\ NULL ∉ c.

Definition dlist (h : memory) (l : Z) (xs : list Z) : Prop := ring h (l :: xs).

(** The lists of a memory by head address, and the nodes that are cleared. *)
Record abs := mk_abs { lists : gmap Z (list Z); free : gset Z }.

Record models (h : memory) (a : abs) : Prop := {
  models_lists : forall l xs, lists a !! l = Some xs -> dlist h l xs;
  models_disjoint : forall l1 l2 xs1 xs2, l1 <> l2 ->
    lists a !! l1 = Some xs1 -> lists a !! l2 = Some xs2 -> (l1 :: xs1) ## (l2 :: xs2);
  models_free : forall p, p ∈ free a -> h !! p = Some (mk_node NULL NULL) /\ p <> NULL;
  models_free_out : forall l xs p, lists a !! l = Some xs -> p ∈ free a -> p ∉ l :: xs
}.

(** Calls of the interface. [l] is the head of the list a call is about; [e] is an item of
    it, or the head itself. [ClearNode] is called on a cleared node or on the head of an
    empty list, and [Length] has the rounds its loop may take. *)
Inductive call :=
| Initialize (l : Z)
| AddHead (l i : Z) | AddTail (l i : Z)
| AddAfter (l e i : Z) | AddBefore (l e i : Z)
| Delete (l i : Z)
| RemoveHead (l : Z) | RemoveTail (l : Z)
| PeekHead (l : Z) | PeekTail (l : Z)
| IsEmpty (l : Z)
| InList (i : Z)
| ClearNode (i : Z)
| Next (l e : Z) | NextWrap (l e : Z)
| Prev (l e : Z) | PrevWrap (l e : Z)
| Length (fuel : nat) (l : Z)
| SpliceAfter (d e s : Z) | SpliceBefore (d e s : Z)
| SpliceHead (d s : Z) | SpliceTail (d s : Z).

Definition run (c : call) : M memory Z :=
  match c with
  | Initialize l => list_initialize l ;; ret 0
  | AddHead l i => list_add_head l i ;; ret 0
  | AddTail l i => list_add_tail l i ;; ret 0
  | AddAfter _ e i => list_add_head e i ;; ret 0
  | AddBefore _ e i => list_add_tail e i ;; ret 0
  | Delete _ i => list_delete i ;; ret 0
  | RemoveHead l => list_remove_head l
  | RemoveTail l => list_remove_tail l
  | PeekHead l => list_peek_head l
  | PeekTail l => list_peek_tail l
  | IsEmpty l => b <- list_is_empty l ;; ret (Z.b2z b)
  | InList i => b <- list_in_list i ;; ret (Z.b2z b)
  | ClearNode i => list_clear_node i ;; ret 0
  | Next l e => list_next l e
  | NextWrap l e => list_next_wrap l e
  | Prev l e => list_prev l e
  | PrevWrap l e => list_prev_wrap l e
  | Length fuel l => list_length fuel l
  | SpliceAfter _ e s => list_splice_after e s ;; ret 0
  | SpliceBefore _ e s => list_splice_before e s ;; ret 0
  | SpliceHead d s => list_splice_head d s ;; ret 0
  | SpliceTail d s => list_splice_tail d s ;; ret 0
  end.

(** [x] inserted after (before) the first occurrence of [e]. *)
Fixpoint insert_after (e x : Z) (l : list Z) : list Z :=
  match l with
  | [] => []
  | y :: l' => if decide (y = e) then y :: x :: l' else y :: insert_after e x l'
  end.
Fixpoint insert_before (e x : Z) (l : list Z) : list Z :=
  match l with
  | [] => []
  | y :: l' => if decide (y = e) then x :: y :: l' else y :: insert_before e x l'
  end.

(** [ys] inserted behind (in front of) the first occurrence of [e]. *)
Fixpoint splice_after (e : Z) (ys l : list Z) : list Z :=
  match l with
  | [] => []
  | y :: l' => if decide (y = e) then y :: ys ++ l' else y :: splice_after e ys l'
  end.
Fixpoint splice_before (e : Z) (ys l : list Z) : list Z :=
  match l with
  | [] => []
  | y :: l' => if decide (y = e) then ys ++ y :: l' else y :: splice_before e ys l'
  end.
(** What follows the first occurrence of [e]. *)
Fixpoint following (e : Z) (l : list Z) : option Z :=
  match l with
  | [] => None
  | y :: l' => if decide (y = e) then head l' else following e l'
  end.

Definition remove_item (x : Z) (l : list Z) : list Z := filter (fun y => y <> x) l.

Definition put (a : abs) (l : Z) (xs : list Z) (f : gset Z) : abs :=
  mk_abs (<[l := xs]> (lists a)) f.

(** What each call promises on sequences; [None] is a call outside its contract. *)
Definition abs_step (c : call) (a : abs) : option (Z * abs) :=
  match c with
  | Initialize l =>
      if decide (l ∈ free a) then Some (0, put a l [] (free a ∖ {[l]})) else None
  | AddHead l i =>
      xs ← lists a !! l;
      if decide (i ∈ free a) then Some (0, put a l (i :: xs) (free a ∖ {[i]})) else None
  | AddTail l i =>
      xs ← lists a !! l;
      if decide (i ∈ free a) then Some (0, put a l (xs ++ [i]) (free a ∖ {[i]})) else None
  | AddAfter l e i =>
      xs ← lists a !! l;
      if decide (i ∈ free a /\ e ∈ xs)
      then Some (0, put a l (insert_after e i xs) (free a ∖ {[i]})) else None
  | AddBefore l e i =>
      xs ← lists a !! l;
      if decide (i ∈ free a /\ e ∈ xs)
      then Some (0, put a l (insert_before e i xs) (free a ∖ {[i]})) else None
  | Delete l i =>
      xs ← lists a !! l;
      if decide (i ∈ xs)
      then Some (0, put a l (remove_item i xs) (free a ∪ {[i]})) else None
  | RemoveHead l =>
      xs ← lists a !! l;
      match xs with
      | [] => Some (NULL, a)
      | x :: xs' => Some (x, put a l xs' (free a ∪ {[x]}))
      end
  | RemoveTail l =>
      xs ← lists a !! l;
      match last xs with
      | None => Some (NULL, a)
      | Some x => Some (x, put a l (removelast xs) (free a ∪ {[x]}))
      end
  | PeekHead l => xs ← lists a !! l; Some (default NULL (head xs), a)
  | PeekTail l => xs ← lists a !! l; Some (default NULL (last xs), a)
  | IsEmpty l => xs ← lists a !! l; Some (Z.b2z (bool_decide (xs = [])), a)
  | InList i =>
      if decide (i ∈ free a) then Some (0, a)
      else if decide (map_Exists (fun _ xs => i ∈ xs) (lists a)) then Some (1, a)
      else None
  | ClearNode i =>
      if decide (i ∈ free a) then Some (0, a)
      else
        xs ← lists a !! i;
        match xs with
        | [] => Some (0, mk_abs (delete i (lists a)) (free a ∪ {[i]}))
        | _ => None
        end
  | Next l e =>
      xs ← lists a !! l;
      if decide (e ∈ l :: xs) then Some (default NULL (following e (l :: xs)), a) else None
  | NextWrap l e =>
      xs ← lists a !! l;
      if decide (e ∈ l :: xs) then Some (default (default NULL (head xs)) (following e (l :: xs)), a) else None
  | Prev l e =>
      xs ← lists a !! l;
      if decide (e ∈ l :: xs) then Some (default NULL (following e (l :: reverse xs)), a) else None
  | PrevWrap l e =>
      xs ← lists a !! l;
      if decide (e ∈ l :: xs) then Some (default (default NULL (last xs)) (following e (l :: reverse xs)), a) else None
  | Length fuel l =>
      xs ← lists a !! l;
      if decide (length xs <= fuel)%nat then Some (Z.of_nat (length xs), a) else None
  | SpliceAfter d e s =>
      xs ← lists a !! d; ys ← lists a !! s;
      if decide (d <> s /\ e ∈ xs)
      then Some (0, mk_abs (<[s := []]> (<[d := splice_after e ys xs]> (lists a))) (free a)) else None
  | SpliceBefore d e s =>
      xs ← lists a !! d; ys ← lists a !! s;
      if decide (d <> s /\ e ∈ xs)
      then Some (0, mk_abs (<[s := []]> (<[d := splice_before e ys xs]> (lists a))) (free a)) else None
  | SpliceHead d s =>
      xs ← lists a !! d; ys ← lists a !! s;
      if decide (d <> s)
      then Some (0, mk_abs (<[s := []]> (<[d := ys ++ xs]> (lists a))) (free a)) else None
  | SpliceTail d s =>
      xs ← lists a !! d; ys ← lists a !! s;
      if decide (d <> s)
      then Some (0, mk_abs (<[s := []]> (<[d := xs ++ ys]> (lists a))) (free a)) else None
  end.

(** ** Stores *)
Definition set_next (p v : Z) (h : memory) : memory := alter (fun n => mk_node (prev n) v) p h.
Definition set_prev (p v : Z) (h : memory) : memory := alter (fun n => mk_node v (next n)) p h.

Arguments set_next : simpl never.
Arguments set_prev : simpl never.

Lemma load_next_eq h p v : nxt h p = Some v -> load_next p h = Some (v, h).
Proof. apply (getsome_eq (fun h : memory => next <$> h !! p)). Qed.

Lemma load_prev_eq h p v : prv h p = Some v -> load_prev p h = Some (v, h).
Proof. apply (getsome_eq (fun h : memory => prev <$> h !! p)). Qed.

Lemma store_next_eq h p v : is_Some (h !! p) -> store_next p v h = Some (tt, set_next p v h).
Proof.
  intros [n Hn]. unfold store_next, set_next. rewrite Hn. cbn. do 2 f_equal.
  apply map_eq. intros q. rewrite lookup_alter, lookup_insert.
  case_decide; subst; [by rewrite Hn|done].
Qed.

Lemma store_prev_eq h p v : is_Some (h !! p) -> store_prev p v h = Some (tt, set_prev p v h).
Proof.
  intros [n Hn]. unfold store_prev, set_prev. rewrite Hn. cbn. do 2 f_equal.
  apply map_eq. intros q. rewrite lookup_alter, lookup_insert.
  case_decide; subst; [by rewrite Hn|done].
Qed.

Lemma nxt_set_next h p v q :
  nxt (set_next p v h) q = if decide (p = q) then (fun _ => v) <$> h !! q else nxt h q.
Proof.
  unfold nxt, set_next. rewrite lookup_alter. case_decide; subst; [|done].
  by destruct (h !! q).
Qed.
Lemma prv_set_next h p v q : prv (set_next p v h) q = prv h q.
Proof.
  unfold prv, set_next. rewrite lookup_alter. case_decide; subst; [|done].
  by destruct (h !! q).
Qed.
Lemma prv_set_prev h p v q :
  prv (set_prev p v h) q = if decide (p = q) then (fun _ => v) <$> h !! q else prv h q.
Proof.
  unfold prv, set_prev. rewrite lookup_alter. case_decide; subst; [|done].
  by destruct (h !! q).
Qed.
Lemma nxt_set_prev h p v q : nxt (set_prev p v h) q = nxt h q.
Proof.
  unfold nxt, set_prev. rewrite lookup_alter. case_decide; subst; [|done].
  by destruct (h !! q).
Qed.

Lemma alive_set_next h p v q : is_Some (set_next p v h !! q) <-> is_Some (h !! q).
Proof.
  unfold set_next. rewrite lookup_alter. case_decide; [|done]. subst.
  by rewrite fmap_is_Some.
Qed.
Lemma alive_set_prev h p v q : is_Some (set_prev p v h !! q) <-> is_Some (h !! q).
Proof.
  unfold set_prev. rewrite lookup_alter. case_decide; [|done]. subst.
  by rewrite fmap_is_Some.
Qed.

Lemma nxt_alive h p v : nxt h p = Some v -> is_Some (h !! p).
Proof. unfold nxt. destruct (h !! p); naive_solver. Qed.
Lemma prv_alive h p v : prv h p = Some v -> is_Some (h !! p).
Proof. unfold prv. destruct (h !! p); naive_solver. Qed.

Lemma node_eq h p n : nxt h p = Some (next n) -> prv h p = Some (prev n) -> h !! p = Some n.
Proof.
  unfold nxt, prv. destruct (h !! p) as [[]|]; cbn; intros; simplify_eq. by destruct n.
Qed.

Lemma const_alive (h : memory) p (v : Z) : is_Some (h !! p) -> ((fun _ => v) <$> h !! p) = Some v.
Proof. by intros [n ->]. Qed.

Lemma set_next_ne h p v q : p <> q -> set_next p v h !! q = h !! q.
Proof. intros. by apply lookup_alter_ne. Qed.
Lemma set_prev_ne h p v q : p <> q -> set_prev p v h !! q = h !! q.
Proof. intros. by apply lookup_alter_ne. Qed.

Lemma set_next_id h p v : nxt h p = Some v -> set_next p v h = h.
Proof.
  unfold nxt, set_next. intros H. apply map_eq. intros q. rewrite lookup_alter.
  case_decide; subst; [|done]. by destruct (h !! q) as [[]|]; cbn in *; simplify_eq.
Qed.
Lemma set_prev_id h p v : prv h p = Some v -> set_prev p v h = h.
Proof.
  unfold prv, set_prev. intros H. apply map_eq. intros q. rewrite lookup_alter.
  case_decide; subst; [|done]. by destruct (h !! q) as [[]|]; cbn in *; simplify_eq.
Qed.

#[export] Hint Rewrite nxt_set_next prv_set_next nxt_set_prev prv_set_prev : lkrw.
#[export] Hint Rewrite alive_set_next alive_set_prev : lkrw.
#[export] Hint Resolve nxt_alive prv_alive const_alive : lk.

(** Decide the address comparisons that the stores leave. *)
Ltac heap :=
  autorewrite with lkrw;
  repeat first [ rewrite decide_True by congruence | rewrite decide_False by congruence ];
  rewrite ?const_alive by (autorewrite with lkrw; eauto with lk);
  autorewrite with lkrw; eauto with lk.

(** One load or store of a run. *)
Ltac hstep :=
  rewrite ?ret_bind, ?bind_assoc;
  first [ erewrite bind_eq by (apply load_next_eq; heap)
        | erewrite bind_eq by (apply load_prev_eq; heap)
        | erewrite bind_eq by (apply store_next_eq; heap)
        | erewrite bind_eq by (apply store_prev_eq; heap)
        | rewrite store_next_eq by heap
        | rewrite store_prev_eq by heap ].

(** ** Links and rings *)
Lemma links_app h p xs y ys q :
  links h p (xs ++ y :: ys) q <-> links h p xs y /\ links h y ys q.
Proof. revert p. induction xs as [|x xs IH]; intros p; cbn; [tauto|]. rewrite IH. tauto. Qed.

Lemma links_frame h h' p xs q :
  (forall a, a ∈ p :: xs -> nxt h' a = nxt h a) ->
  (forall b, b ∈ xs ++ [q] -> prv h' b = prv h b) ->
  links h p xs q -> links h' p xs q.
Proof.
  revert p. induction xs as [|x xs IH]; intros p Hn Hp; cbn.
  - rewrite Hn by set_solver. rewrite Hp by set_solver. done.
  - intros (H1 & H2 & H3). rewrite Hn by set_solver. rewrite Hp by set_solver.
    split_and!; [done..|]. apply IH; [intros; apply Hn; set_solver
      | intros; apply Hp; set_solver | done].
Qed.

Lemma ring_rotate h a b : ring h (a ++ b) <-> ring h (b ++ a).
Proof.
  unfold ring. assert (NoDup (a ++ b) <-> NoDup (b ++ a)) as ->
    by (by rewrite Permutation_app_comm).
  assert (NULL ∉ a ++ b <-> NULL ∉ b ++ a) as -> by (rewrite !not_elem_of_app; tauto).
  destruct a as [|p a], b as [|y b]; cbn; rewrite ?app_nil_r; [done..|].
  rewrite !links_app. tauto.
Qed.

Lemma ring_frame h h' c : (forall p, p ∈ c -> h' !! p = h !! p) -> ring h c -> ring h' c.
Proof.
  intros Hf (Hl & ? & ?). split; [|done]. destruct c as [|p c]; [done|].
  assert (forall q, q ∈ p :: c -> nxt h' q = nxt h q /\ prv h' q = prv h q) as Hq
    by (intros; unfold nxt, prv; by rewrite Hf).
  revert Hl. apply links_frame; intros; apply Hq; set_solver.
Qed.

Lemma ring_cons h p x c :
  ring h (p :: x :: c) <->
  nxt h p = Some x /\ prv h x = Some p /\ links h x c p /\ NoDup (p :: x :: c) /\ NULL ∉ p :: x :: c.
Proof. unfold ring. cbn. tauto. Qed.

Lemma ring_last h p c z :
  ring h (p :: c ++ [z]) -> nxt h z = Some p /\ prv h p = Some z.
Proof. intros ((Hl & H)%links_app & _). exact H. Qed.

Lemma ring_alive h c p : ring h c -> p ∈ c -> is_Some (h !! p).
Proof.
  intros Hr (a & b & ->)%list_elem_of_split.
  apply ring_rotate in Hr as [Hr _]. cbn in Hr.
  destruct (b ++ a); destruct Hr as [Hr _]; eauto with lk.
Qed.

(** Every node of a ring has a successor in it and is its predecessor. *)
Lemma ring_succ h p c :
  ring h (p :: c) ->
  nxt h p = Some (default p (head c)) /\ prv h (default p (head c)) = Some p.
Proof. intros [Hr _]. destruct c; cbn in Hr |- *; tauto. Qed.

Lemma ring_pred h p c :
  ring h (p :: c) ->
  prv h p = Some (default p (last c)) /\ nxt h (default p (last c)) = Some p.
Proof.
  destruct c as [|z c _] using rev_ind; intros Hr.
  - destruct Hr as [Hr _]. cbn in *. tauto.
  - rewrite last_snoc. cbn. apply ring_last in Hr. tauto.
Qed.

(** ** Each operation on a ring

    [frame h h' c]: only the nodes of [c] differ. *)
Definition frame (h h' : memory) (c : list Z) : Prop := forall p, p ∉ c -> h' !! p = h !! p.

Lemma NoDup_second {A} (p i : A) c : NoDup (p :: c) -> i ∉ p :: c -> NoDup (p :: i :: c).
Proof.
  intros H1 H2. assert (NoDup (i :: p :: c)) as H by (by constructor).
  revert H. by rewrite (Permutation_swap i p).
Qed.

Lemma add_after_ring h p i c :
  ring h (p :: c) -> i ∉ p :: c -> i <> NULL -> is_Some (h !! i) ->
  exists h', list_add_head p i h = Some (tt, h') /\
    ring h' (p :: i :: c) /\ frame h h' (i :: p :: c).
Proof.
  intros Hr Hi Hnull Hal. unfold list_add_head.
  pose proof (ring_succ _ _ _ Hr) as [Hs Hps].
  set (n := default p (head c)) in *.
  assert (p <> i) by set_solver.
  assert (n <> i) by (subst n; destruct c; set_solver).
  assert (is_Some (h !! p)) by eauto with lk.
  assert (is_Some (h !! n)) by eauto with lk.
  do 6 hstep. eexists. split; [reflexivity|].
  assert (n ∈ p :: c) by (subst n; destruct c; set_solver). split.
  - destruct Hr as (Hl & Hnd & Hz). split; [|split; [by apply NoDup_second|set_solver]].
    cbn. split_and!; [heap..|]. destruct c as [|x c]; cbn in *.
    + split; heap.
    + destruct Hl as (_ & _ & Hl). apply NoDup_cons in Hnd as [? [? ?]%NoDup_cons].
      split_and!; [heap..|]. revert Hl. apply links_frame; intros; heap.
      all: rewrite !decide_False by set_solver; heap.
  - intros q Hq. rewrite !set_next_ne, set_prev_ne, set_prev_ne, set_next_ne by set_solver. done.
Qed.

Lemma add_before_ring h p i c :
  ring h (p :: c) -> i ∉ p :: c -> i <> NULL -> is_Some (h !! i) ->
  exists h', list_add_tail p i h = Some (tt, h') /\
    ring h' (i :: p :: c) /\ frame h h' (i :: p :: c).
Proof.
  intros Hr Hi Hnull Hal. unfold list_add_tail.
  pose proof (ring_pred _ _ _ Hr) as [Hs Hps].
  set (z := default p (last c)) in *.
  assert (z ∈ p :: c) as Hz.
  { subst z. destruct (last c) as [z|] eqn:E; cbn; [|set_solver].
    apply last_Some_elem_of in E. set_solver. }
  assert (p <> i) by set_solver.
  assert (z <> i) by set_solver.
  assert (is_Some (h !! p)) by eauto with lk.
  assert (is_Some (h !! z)) by eauto with lk.
  do 6 hstep. eexists. split; [reflexivity|]. split.
  - destruct Hr as (Hl & Hnd & Hn). split; [|split; [by constructor|set_solver]].
    cbn. split_and!; [heap..|].
    destruct c as [|y c _] using rev_ind; cbn in *.
    + subst z. split; heap.
    + subst z. rewrite last_snoc in *. cbn in *. apply links_app in Hl as [Hl _].
      apply links_app. split; [|split; heap].
      assert (y ∉ p :: c) as Hy.
      { change (p :: c ++ [y]) with ((p :: c) ++ [y]) in Hnd.
        apply NoDup_app in Hnd. set_solver. }
      revert Hl. apply NoDup_cons in Hnd as [? ?].
      apply links_frame; intros; heap.
      all: rewrite !decide_False by set_solver; heap.
  - intros q Hq. rewrite !set_prev_ne, set_next_ne, set_next_ne, set_prev_ne by set_solver. done.
Qed.

Lemma delete_ring h p i c :
  ring h (p :: i :: c) ->
  exists h', list_delete i h = Some (tt, h') /\
    ring h' (p :: c) /\ h' !! i = Some (mk_node NULL NULL) /\ frame h h' (p :: i :: c).
Proof.
  intros Hr. unfold list_delete.
  assert (ring h (i :: c ++ [p])) as Hi
    by (apply (ring_rotate _ [p] (i :: c)) in Hr; exact Hr).
  pose proof (ring_succ _ _ _ Hi) as [Hn Hpn].
  pose proof (ring_last _ _ _ _ Hi) as [Hpi Hip].
  set (n := default i (head (c ++ [p]))) in *.
  assert (n ∈ c ++ [p]) as Hin by (subst n; destruct c; cbn; set_solver).
  destruct (proj1 (ring_cons _ _ _ _) Hr) as (_ & _ & Hl & Hnd & Hz).
  pose proof Hnd as [Hpc [Hic Hc]%NoDup_cons]%NoDup_cons.
  assert (i ∉ p :: c) by set_solver. assert (p ∉ c) by set_solver.
  assert (n <> i) by (intros ->; set_solver). assert (p <> i) by set_solver.
  assert (is_Some (h !! p)) by eauto with lk.
  assert (is_Some (h !! n)) by eauto with lk.
  assert (is_Some (h !! i)) by eauto with lk.
  do 8 hstep. eexists. split; [reflexivity|]. split_and!.
  - split; [|split; [by constructor|set_solver]].
    destruct c as [|x c]; cbn in *.
    + subst n. split; heap.
    + subst n. destruct Hl as (Hix & Hxi & Hl).
      split_and!; [heap..|].
      apply NoDup_cons in Hc as [? ?].
      revert Hl. apply links_frame; intros; heap.
      all: rewrite !decide_False by set_solver; heap.
  - apply node_eq; heap.
  - intros q Hq.
    rewrite set_prev_ne, !set_next_ne, set_prev_ne by set_solver. done.
Qed.

(** A chain whose first node is exchanged for another. *)
Lemma links_restart h h' p p' xs q :
  links h p xs q ->
  nxt h' p' = Some (default q (head xs)) ->
  prv h' (default q (head xs)) = Some p' ->
  (forall a, a ∈ xs -> nxt h' a = nxt h a) ->
  (forall b, b ∈ tail (xs ++ [q]) -> prv h' b = prv h b) ->
  links h' p' xs q.
Proof.
  destruct xs as [|x xs]; cbn; [tauto|]. intros (_ & _ & Hl) ? ? Hn Hp.
  split_and!; [done..|]. revert Hl. by apply links_frame.
Qed.

Lemma initialize_ring h s :
  is_Some (h !! s) -> s <> NULL ->
  exists h', list_initialize s h = Some (tt, h') /\ ring h' [s] /\ frame h h' [s].
Proof.
  intros Hs Hz. unfold list_initialize. do 2 hstep.
  eexists. split; [reflexivity|]. split.
  - split; [|split; [by apply NoDup_singleton|set_solver]]. cbn. split; heap.
  - intros q Hq. rewrite set_prev_ne, set_next_ne by set_solver. done.
Qed.

Lemma splice_nil_ring h d c s :
  ring h (d :: c) -> ring h [s] -> s ∉ d :: c ->
  exists h', list_splice_after d s h = Some (tt, h') /\
    ring h' (d :: c) /\ ring h' [s] /\ frame h h' (s :: d :: c).
Proof.
  intros Hd Hs Hni. unfold list_splice_after.
  pose proof (ring_succ _ _ _ Hd) as [Hn Hpn].
  pose proof (ring_succ _ _ _ Hs) as [Hns Hps].
  set (n := default d (head c)) in *. cbn in Hns, Hps.
  assert (n ∈ d :: c) as Hin by (subst n; destruct c; set_solver).
  assert (n <> s) by (intros ->; set_solver). assert (d <> s) by set_solver.
  assert (is_Some (h !! d) /\ is_Some (h !! s)) as [? ?] by eauto with lk.
  assert (is_Some (h !! n)) by eauto with lk.
  do 10 hstep. rewrite (set_next_id _ d), (set_prev_id _ n) by heap.
  destruct (initialize_ring (set_next s n (set_prev s d h)) s) as (h' & -> & Hr' & Hf');
    [heap|by destruct Hs; set_solver|].
  assert (frame h h' [s]) as Hf.
  { intros q Hq. rewrite Hf', set_next_ne, set_prev_ne by set_solver. done. }
  exists h'. split_and!; [done| |done|].
  - revert Hd. apply ring_frame. intros q Hq. apply Hf. set_solver.
  - intros q Hq. apply Hf. set_solver.
Qed.

Lemma elem_of_tail {A} (x : A) l : x ∈ tail l -> x ∈ l.
Proof. destruct l; [done|by right]. Qed.
Lemma head_not_in_tail {A} (l : list A) d : NoDup l -> default d (head l) ∉ tail l.
Proof. destruct l; cbn; [set_solver|]. by intros [? _]%NoDup_cons. Qed.
Lemma not_elem_of_cons3 {A} (x a b c : A) : x <> a -> x <> b -> x <> c -> x ∉ [a; b; c].
Proof. intros. rewrite !not_elem_of_cons. split_and!; [done..|apply not_elem_of_nil]. Qed.

Lemma not_elem_of_cons4 {A} (x a b c : A) : x ∉ [a; b; c] -> x <> a /\ x <> b /\ x <> c /\ True.
Proof. rewrite !not_elem_of_cons. tauto. Qed.

(** The chain [s -> ys ++ [z]] moved behind [d], whose old successor is [n]. *)
Lemma splice_links h h' d c s ys z :
  let n := default d (head c) in
  let y := default s (head (ys ++ [z])) in
  links h d c d -> links h s (ys ++ [z]) s ->
  NoDup (d :: c) -> NoDup (s :: ys ++ [z]) -> (d :: c) ## (s :: ys ++ [z]) ->
  nxt h' d = Some y -> prv h' y = Some d ->
  nxt h' z = Some n -> prv h' n = Some z ->
  (forall a, a ∉ [s; d; z] -> nxt h' a = nxt h a) ->
  (forall b, b ∉ [s; y; n] -> prv h' b = prv h b) ->
  links h' d ((ys ++ [z]) ++ c) d.
Proof.
  intros n y Hld Hls [Hdc Hndc]%NoDup_cons [Hsy Hndy]%NoDup_cons Hdis Hdy Hyd Hzn Hnz Hnx Hpv.
  assert (n ∈ d :: c) as Hin by (unfold n; clear; destruct c; cbn; set_solver).
  assert (y ∈ ys ++ [z]) as Hiy by (unfold y; clear; destruct ys; cbn; set_solver).
  assert (forall a b, a ∈ d :: c -> b ∈ s :: ys ++ [z] -> a <> b) as Hne
    by (intros a b Ha Hb ->; by apply (Hdis b)).
  assert (z ∈ ys ++ [z]) as Hiz by (clear; set_solver).
  rewrite <- app_assoc. apply links_app. split.
  - apply links_app in Hls as [Hls _]. clear Hdis.
    assert (default z (head ys) = y) as Hhd by (unfold y; by destruct ys).
    eapply links_restart; [exact Hls|rewrite ?Hhd; done..| |].
    + intros a Ha. assert (a ∈ ys ++ [z]) by (apply elem_of_app; by left).
      apply NoDup_app in Hndy as (_ & Hdz & _). apply Hnx.
      apply not_elem_of_cons3; [by intros ->| |intros ->; by apply (Hdz z Ha); left].
      apply not_eq_sym, Hne; [left|by right].
    + intros b Hb. assert (b ∈ ys ++ [z]) by (by apply elem_of_tail).
      apply Hpv. apply not_elem_of_cons3; [by intros ->| |apply not_eq_sym, Hne; [done|by right]].
      intros ->. by apply (head_not_in_tail _ s Hndy).
  - eapply links_restart; [exact Hld|done..| |].
    + intros a Ha. apply Hnx. apply not_elem_of_cons3; [|by intros ->|]; apply Hne; first [by right|by left].
    + intros b Hb. assert (b ∈ d :: c) as Hbc.
      { apply elem_of_tail, elem_of_app in Hb as [?|?%list_elem_of_singleton]; [by right|subst; left]. }
      apply Hpv. apply not_elem_of_cons3; [apply Hne; [done|left]|apply Hne; [done|by right]|].
      intros ->. apply (head_not_in_tail (c ++ [d]) d); [|unfold n in Hb; by destruct c].
      rewrite Permutation_app_comm. by constructor.
Qed.

Lemma splice_cons_ring h d c s ys z :
  ring h (d :: c) -> ring h (s :: ys ++ [z]) -> (d :: c) ## (s :: ys ++ [z]) ->
  exists h', list_splice_after d s h = Some (tt, h') /\
    ring h' (d :: (ys ++ [z]) ++ c) /\ ring h' [s] /\
    frame h h' ((s :: ys ++ [z]) ++ d :: c).
Proof.
  intros Hd Hs Hdis. unfold list_splice_after.
  pose proof (ring_succ _ _ _ Hd) as [Hn Hpn].
  pose proof (ring_succ _ _ _ Hs) as [Hns Hps].
  pose proof (ring_last _ _ _ _ Hs) as [Hzs Hsz].
  destruct Hd as (Hld & Hnd & Hzd). destruct Hs as (Hls & Hnds & Hzs').
  pose proof (splice_links h) as Hlinks. specialize Hlinks with (1 := Hld) (2 := Hls).
  set (n := default d (head c)) in *.
  set (y := default s (head (ys ++ [z]))) in *.
  assert (n ∈ d :: c) as Hin by (unfold n; destruct c; set_solver).
  assert (y ∈ ys ++ [z]) as Hiy by (unfold y; destruct ys; cbn; set_solver).
  assert (s <> y /\ s <> z) as [? ?]
    by (apply NoDup_cons in Hnds as [? ?]; split; intros E; rewrite E in *; set_solver).
  assert (forall a b, a ∈ d :: c -> b ∈ s :: ys ++ [z] -> a <> b) as Hne
    by (intros a b Ha Hb ->; by apply (Hdis b)).
  assert (y ∈ s :: ys ++ [z] /\ z ∈ s :: ys ++ [z]) as [? ?] by set_solver.
  assert (d <> s /\ d <> y /\ d <> z) as (? & ? & ?)
    by (split_and!; apply Hne; first [done|left]).
  assert (n <> s /\ n <> y /\ n <> z) as (? & ? & ?)
    by (split_and!; apply Hne; first [done|left]).
  assert (is_Some (h !! d)) by eauto with lk.
  assert (is_Some (h !! s)) by eauto with lk.
  assert (is_Some (h !! n)) by eauto with lk.
  assert (is_Some (h !! y)) by eauto with lk.
  assert (is_Some (h !! z)) by eauto with lk.
  do 10 hstep.
  set (h1 := set_next d y (set_prev n z (set_next z n (set_prev y d h)))).
  destruct (initialize_ring h1 s) as (h' & -> & Hr' & Hf'); [subst h1; heap|by intros ->; apply Hzs'; left|].
  assert (forall q, q <> s -> nxt h' q = nxt h1 q /\ prv h' q = prv h1 q) as Hq
    by (intros; unfold nxt, prv; rewrite Hf' by set_solver; done).
  exists h'. split_and!; [done|split; [|split]|done|].
  - apply Hlinks; [done..| | | | | |].
    1: rewrite (proj1 (Hq d ltac:(congruence))); subst h1; heap.
    1: rewrite (proj2 (Hq y ltac:(congruence))); subst h1; heap.
    1: rewrite (proj1 (Hq z ltac:(congruence))); subst h1; heap.
    1: rewrite (proj2 (Hq n ltac:(congruence))); subst h1; heap.
    + intros a (?&?&?&_)%not_elem_of_cons4. rewrite (proj1 (Hq a ltac:(congruence))). subst h1. heap.
    + intros a (?&?&?&_)%not_elem_of_cons4. rewrite (proj2 (Hq a ltac:(congruence))). subst h1. heap.
  - apply NoDup_cons in Hnds as [? ?]. apply NoDup_cons in Hnd as [? ?].
    apply NoDup_cons. split.
    { intros [Hd|Hd]%elem_of_app; [|done]. apply (Hne d d); [left|by right|done]. }
    apply NoDup_app. split_and!; [done| |done].
    intros x Hx Hxc. apply (Hne x x); [by right|by right|done].
  - apply not_elem_of_cons in Hzd as [??]. apply not_elem_of_cons in Hzs' as [??].
    rewrite not_elem_of_cons, not_elem_of_app. done.
  - intros q [Hqs Hqd]%not_elem_of_app.
    assert (forall x, x ∈ s :: ys ++ [z] -> x <> q) as Hs by (by intros x ? ->).
    assert (forall x, x ∈ d :: c -> x <> q) as Hd by (by intros x ? ->).
    rewrite Hf' by (rewrite list_elem_of_singleton; apply not_eq_sym, Hs; left). subst h1.
    rewrite set_next_ne, set_prev_ne, set_next_ne, set_prev_ne; [done|..].
    all: first [by apply Hs|by apply Hd|apply Hd; left].
Qed.

Lemma splice_after_ring h d c s ys :
  ring h (d :: c) -> ring h (s :: ys) -> (d :: c) ## (s :: ys) ->
  exists h', list_splice_after d s h = Some (tt, h') /\
    ring h' (d :: ys ++ c) /\ ring h' [s] /\ frame h h' ((s :: ys) ++ d :: c).
Proof.
  destruct ys as [|z ys _] using rev_ind; intros Hd Hs Hdis.
  - destruct (splice_nil_ring h d c s) as (h' & ? & ? & ? & Hf); [done..|set_solver|].
    by exists h'.
  - by apply splice_cons_ring.
Qed.

(** ** Sequences *)
Lemma insert_after_split e i a b : e ∉ a -> insert_after e i (a ++ e :: b) = a ++ e :: i :: b.
Proof.
  induction a as [|x a IH]; cbn; intros He; [by rewrite decide_True|].
  apply not_elem_of_cons in He as [??]. rewrite decide_False by done. by rewrite IH.
Qed.

Lemma insert_before_split e i a b : e ∉ a -> insert_before e i (a ++ e :: b) = a ++ i :: e :: b.
Proof.
  induction a as [|x a IH]; cbn; intros He; [by rewrite decide_True|].
  apply not_elem_of_cons in He as [??]. rewrite decide_False by done. by rewrite IH.
Qed.

Lemma splice_after_split e ys a b : e ∉ a -> splice_after e ys (a ++ e :: b) = a ++ e :: ys ++ b.
Proof.
  induction a as [|x a IH]; cbn; intros He; [by rewrite decide_True|].
  apply not_elem_of_cons in He as [??]. rewrite decide_False by done. by rewrite IH.
Qed.

Lemma splice_before_split e ys a b : e ∉ a -> splice_before e ys (a ++ e :: b) = a ++ ys ++ e :: b.
Proof.
  induction a as [|x a IH]; cbn; intros He; [by rewrite decide_True|].
  apply not_elem_of_cons in He as [??]. rewrite decide_False by done. by rewrite IH.
Qed.

Lemma following_split e a b : e ∉ a -> following e (a ++ e :: b) = head b.
Proof.
  induction a as [|x a IH]; cbn; intros He; [by rewrite decide_True|].
  apply not_elem_of_cons in He as [??]. rewrite decide_False by done. by rewrite IH.
Qed.

Lemma following_head e b : following e (e :: b) = head b.
Proof. by apply (following_split e [] b), not_elem_of_nil. Qed.

Lemma remove_item_notin x l : x ∉ l -> remove_item x l = l.
Proof.
  unfold remove_item. induction l as [|y l IH]; [done|]. intros [??]%not_elem_of_cons.
  rewrite filter_cons_True by done. by rewrite IH.
Qed.

Lemma remove_item_split x a b : x ∉ a -> x ∉ b -> remove_item x (a ++ x :: b) = a ++ b.
Proof.
  intros. unfold remove_item. rewrite filter_app, filter_cons_False by (intros E; by apply E).
  fold (remove_item x a) (remove_item x b). by rewrite !remove_item_notin.
Qed.

Lemma dlist_NoDup h l xs : dlist h l xs -> NoDup (l :: xs).
Proof. by intros (_ & ? & _). Qed.

Lemma dlist_split h l xs x :
  dlist h l xs -> x ∈ xs ->
  exists a b, xs = a ++ x :: b /\ x ∉ a /\ x ∉ b /\ x <> l /\ ring h (x :: b ++ l :: a).
Proof.
  intros Hd (a & b & ->)%list_elem_of_split. exists a, b.
  pose proof (dlist_NoDup _ _ _ Hd) as [Hl [Ha [Hab Hb]]%NoDup_app]%NoDup_cons.
  apply NoDup_cons in Hb as [? ?]. apply not_elem_of_app in Hl as [? [? ?]%not_elem_of_cons].
  split_and!; [done| |done|done|].
  - intros ?. by apply (Hab x); [|left].
  - change (ring h ((l :: a) ++ (x :: b))) in Hd. by apply ring_rotate in Hd.
Qed.

(** The nodes a call on list [l] may touch. *)
Definition owned (a : abs) (l p : Z) : Prop :=
  (exists xs, lists a !! l = Some xs /\ p ∈ l :: xs) \/ p ∈ free a.

Lemma owned_list a l xs p : lists a !! l = Some xs -> p ∈ l :: xs -> owned a l p.
Proof. left. eauto. Qed.
Lemma owned_free a l p : p ∈ free a -> owned a l p.
Proof. by right. Qed.

Lemma owned_other h a l p l' xs' :
  models h a -> owned a l p -> l' <> l -> lists a !! l' = Some xs' -> p ∉ l' :: xs'.
Proof.
  intros Hm [(xs & Hl & Hp)|Hp] Hne Hl'.
  - intros Hin. by apply (models_disjoint _ _ Hm l' l xs' xs Hne Hl' Hl p).
  - by eapply models_free_out.
Qed.

(** An update of one list, with everything it touches owned, keeps the model. *)
Lemma models_put h h' a l F xs' f' :
  models h a -> dlist h' l xs' -> frame h h' F ->
  (forall p, p ∈ F -> owned a l p) -> (forall p, p ∈ l :: xs' -> owned a l p) ->
  (forall p, p ∈ f' -> owned a l p /\ p ∉ l :: xs' /\
     (p ∈ free a /\ p ∉ F \/ h' !! p = Some (mk_node NULL NULL) /\ p <> NULL)) ->
  models h' (put a l xs' f').
Proof.
  intros Hm Hd Hf HF Hown Hfree. constructor; cbn.
  - intros l2 xs2. destruct (decide (l = l2)) as [<-|Hne].
    + rewrite lookup_insert_eq. by intros [= <-].
    + rewrite lookup_insert_ne by done. intros Hl2.
      eapply ring_frame; [|by eapply models_lists]. intros p Hp. apply Hf. intros Hp'%HF.
      by eapply owned_other in Hp'; [|done..].
  - assert (forall l1 xs1, l1 <> l -> lists a !! l1 = Some xs1 -> (l1 :: xs1) ## (l :: xs')) as Hdis.
    { intros l1 xs1 ? ? p Hp Hp'%Hown. by eapply owned_other in Hp'; [|done..]. }
    intros l1 l2 xs1 xs2 Hne.
    destruct (decide (l = l1)) as [<-|], (decide (l = l2)) as [<-|];
      rewrite ?lookup_insert_eq, ?lookup_insert_ne by done; intros Hl1 Hl2; simplify_eq.
    + intros p ??. by apply (Hdis l2 xs2 (not_eq_sym Hne) Hl2 p).
    + by apply Hdis.
    + by eapply models_disjoint.
  - intros p (Ho & Hp & [[Hpf HpF]|?])%Hfree; [|done]. rewrite Hf by done.
    by eapply models_free.
  - intros l1 xs1 p Hl1 (Ho & Hp & _)%Hfree. destruct (decide (l = l1)) as [<-|Hne].
    + rewrite lookup_insert_eq in Hl1. by simplify_eq.
    + rewrite lookup_insert_ne in Hl1 by done. by eapply owned_other.
Qed.

Lemma models_free_add h a i : models h a -> i ∈ free a -> is_Some (h !! i) /\ i <> NULL.
Proof. intros Hm [Hi ?]%(models_free _ _ Hm). by rewrite Hi. Qed.

Ltac run_put h' := exists h'; split; [done|eapply models_put; [eassumption| |eassumption| | |]].

Lemma init_refines h a l :
  models h a -> l ∈ free a ->
  exists h', run (Initialize l) h = Some (0, h') /\ models h' (put a l [] (free a ∖ {[l]})).
Proof.
  intros Hm Hl. pose proof (models_free_add _ _ _ Hm Hl) as [Hal Hz].
  destruct (initialize_ring h l Hal Hz) as (h' & E & Hr & Hf).
  cbn. rewrite (bind_eq _ _ _ _ _ E). run_put h'; [done|..].
  - intros p ->%list_elem_of_singleton. by right.
  - intros p ->%list_elem_of_singleton. by right.
  - intros p [? ?]%elem_of_difference. split_and!; [by right|set_solver|left; set_solver].
Qed.

(** Adding the free node [i] somewhere in list [l]. *)
Lemma add_models h h' a l i xs ys F :
  models h a -> lists a !! l = Some xs -> i ∈ free a -> frame h h' F ->
  F ≡ₚ i :: l :: xs -> dlist h' l ys -> ys ≡ₚ i :: xs ->
  models h' (put a l ys (free a ∖ {[i]})).
Proof.
  intros Hm Hl Hi Hf HF Hys Hperm.
  assert (forall p, p ∈ i :: l :: xs -> owned a l p) as Ho.
  { intros p [->|Hp']%elem_of_cons; [by right|]. by eapply owned_list. }
  assert (l :: ys ≡ₚ i :: l :: xs) as Hp by (by rewrite Hperm, (Permutation_swap i l)).
  eapply models_put; [done..| | |].
  - intros p. rewrite HF. apply Ho.
  - intros p. rewrite Hp. apply Ho.
  - intros p [Hpf Hpi]%elem_of_difference. rewrite HF, Hp.
    assert (p ∉ i :: l :: xs) as Hout.
    { intros [->|Hin]%elem_of_cons; [set_solver|]. by eapply models_free_out. }
    split_and!; [by right|done|by left].
Qed.

(** Taking the item [i] out of list [l]. *)
Lemma remove_models h h' a l i xs ys F :
  models h a -> lists a !! l = Some xs -> frame h h' F ->
  F ≡ₚ l :: xs -> dlist h' l ys -> xs ≡ₚ i :: ys -> h' !! i = Some (mk_node NULL NULL) ->
  models h' (put a l ys (free a ∪ {[i]})).
Proof.
  intros Hm Hl Hf HF Hys Hperm Hi.
  pose proof (models_lists _ _ Hm _ _ Hl) as (_ & Hnd & Hz).
  assert (forall p, p ∈ l :: xs -> owned a l p) as Ho by (intros; by eapply owned_list).
  assert (i ∉ l :: ys) as Hout.
  { rewrite Hperm, (Permutation_swap i l) in Hnd. by apply NoDup_cons in Hnd as [? _]. }
  eapply models_put; [done..| | |].
  - intros p. rewrite HF. apply Ho.
  - intros p Hp. apply Ho. rewrite Hperm. set_solver.
  - intros p [Hpf| ->%elem_of_singleton]%elem_of_union.
    + pose proof (models_free_out _ _ Hm _ _ _ Hl Hpf) as Hn. rewrite HF.
      split_and!; [by right|rewrite Hperm in Hn; set_solver|by left].
    + split_and!; [apply Ho; rewrite Hperm; set_solver|done|right; split; [done|]].
      intros ->. apply Hz. rewrite Hperm. set_solver.
Qed.

(** The adding calls differ in the node they start from and in the position. *)
Lemma add_refines h a l i xs ys (op : M memory unit) F c :
  models h a -> lists a !! l = Some xs -> i ∈ free a ->
  (exists h', op h = Some (tt, h') /\ ring h' c /\ frame h h' F) ->
  F ≡ₚ i :: l :: xs -> (forall h', ring h' c -> dlist h' l ys) -> ys ≡ₚ i :: xs ->
  exists h', (op ;; ret 0) h = Some (0, h') /\ models h' (put a l ys (free a ∖ {[i]})).
Proof.
  intros Hm Hl Hi (h' & E & Hr & Hf) HF Hrot Hp. exists h'. split.
  - by rewrite (bind_eq _ _ _ _ _ E).
  - eapply add_models; eauto.
Qed.

Lemma delete_dlist h l xs i :
  dlist h l xs -> i ∈ xs ->
  exists h', list_delete i h = Some (tt, h') /\ dlist h' l (remove_item i xs) /\
    h' !! i = Some (mk_node NULL NULL) /\ frame h h' (l :: xs) /\ xs ≡ₚ i :: remove_item i xs.
Proof.
  intros Hd Hi. destruct (dlist_split _ _ _ _ Hd Hi) as (a & b & -> & Ha & Hb & Hil & Hr).
  rewrite remove_item_split by done.
  assert (exists p c, b ++ l :: a = c ++ [p]) as (p & c & Hpc).
  { destruct (exists_last (l := b ++ l :: a)) as (c & p & ->); [by destruct b|]. eauto. }
  rewrite Hpc in Hr. change (i :: c ++ [p]) with ((i :: c) ++ [p]) in Hr.
  apply ring_rotate in Hr. destruct (delete_ring _ _ _ _ Hr) as (h' & E & Hr' & Hn & Hf).
  exists h'. split_and!; [done| |done| |by rewrite Permutation_middle].
  - apply (ring_rotate _ [p] c) in Hr'. rewrite <- Hpc in Hr'. by apply ring_rotate in Hr'.
  - intros q Hq. apply Hf. contradict Hq.
    assert (p :: i :: c ≡ₚ l :: a ++ i :: b) as <-; [|done].
    rewrite (Permutation_swap i p), (Permutation_cons_append c p), <- Hpc.
    rewrite <- (Permutation_middle a b i), (Permutation_swap i l). constructor.
    by rewrite (Permutation_app_comm b).
Qed.

Lemma delete_refines h a l xs i :
  models h a -> lists a !! l = Some xs -> i ∈ xs ->
  exists h', list_delete i h = Some (tt, h') /\
    models h' (put a l (remove_item i xs) (free a ∪ {[i]})).
Proof.
  intros Hm Hl Hi.
  destruct (delete_dlist _ _ _ _ (models_lists _ _ Hm _ _ Hl) Hi) as (h' & E & Hd & Hn & Hf & Hp).
  exists h'. split; [done|]. by eapply remove_models.
Qed.

Lemma splice_models h h' a d s xs ys zs F :
  models h a -> d <> s -> lists a !! d = Some xs -> lists a !! s = Some ys ->
  frame h h' F -> F ≡ₚ (s :: ys) ++ d :: xs -> dlist h' d zs -> dlist h' s [] -> zs ≡ₚ ys ++ xs ->
  models h' (mk_abs (<[s := []]> (<[d := zs]> (lists a))) (free a)).
Proof.
  intros Hm Hds Hd Hs Hf HF Hzs Hnil Hp.
  assert (forall p, p ∈ F -> p ∈ d :: xs \/ p ∈ s :: ys) as HF'.
  { intros p. rewrite HF, elem_of_app. tauto. }
  assert (forall p, p ∈ d :: zs -> p ∈ d :: xs \/ p ∈ s :: ys) as Hz.
  { intros p. rewrite Hp. set_solver. }
  assert (forall l ls p, lists a !! l = Some ls -> l <> d -> l <> s ->
    p ∈ l :: ls -> p ∈ d :: xs \/ p ∈ s :: ys -> False) as Hout.
  { intros l ls p Hl ?? Hin [?|?].
    - by apply (models_disjoint _ _ Hm l d ls xs) with p.
    - by apply (models_disjoint _ _ Hm l s ls ys) with p. }
  assert (s ∉ d :: zs) as Hsz.
  { rewrite Hp. pose proof (dlist_NoDup _ _ _ (models_lists _ _ Hm _ _ Hs)) as [? _]%NoDup_cons.
    pose proof (models_disjoint _ _ Hm d s xs ys Hds Hd Hs s). set_solver. }
  constructor; cbn.
  - intros l ls. rewrite !lookup_insert. repeat case_decide; subst; [by intros [= <-]..|].
    intros Hl. eapply ring_frame; [|by eapply models_lists].
    intros p Hin. apply Hf. intros Hin'%HF'. by eapply Hout.
  - intros l1 l2 l1s l2s Hne. rewrite !lookup_insert.
    repeat case_decide; subst; intros Hl1 Hl2; simplify_eq; intros p Hp1 Hp2.
    + by apply list_elem_of_singleton in Hp1 as ->.
    + apply list_elem_of_singleton in Hp1 as ->. eapply (Hout l2); [done..|]. set_solver.
    + by apply list_elem_of_singleton in Hp2 as ->.
    + apply Hz in Hp1. by eapply (Hout l2).
    + apply list_elem_of_singleton in Hp2 as ->. eapply (Hout l1); [done..|]. set_solver.
    + apply Hz in Hp2. by eapply (Hout l1).
    + by eapply (models_disjoint _ _ Hm l1 l2).
  - intros p Hpf. rewrite Hf; [by eapply models_free|].
    intros [Hin|Hin]%HF'; by eapply models_free_out in Hin.
  - intros l ls p. rewrite !lookup_insert. repeat case_decide; subst; intros Hl Hpf Hin; simplify_eq.
    + eapply (models_free_out h a Hm); [exact Hs|exact Hpf|]. apply list_elem_of_singleton in Hin as ->. left.
    + apply Hz in Hin as [Hin|Hin]; by eapply models_free_out in Hin.
    + by eapply models_free_out in Hin.
Qed.

Lemma dlist_next h l xs : dlist h l xs -> nxt h l = Some (default l (head xs)).
Proof. intros H. by apply ring_succ in H as [? _]. Qed.
Lemma dlist_prev h l xs : dlist h l xs -> prv h l = Some (default l (last xs)).
Proof. intros H. by apply ring_pred in H as [? _]. Qed.

Lemma remove_item_head x l : NoDup (x :: l) -> remove_item x (x :: l) = l.
Proof. intros [? _]%NoDup_cons. by apply (remove_item_split x [] l); [apply not_elem_of_nil|]. Qed.

Lemma remove_item_last x l : NoDup (l ++ [x]) -> remove_item x (l ++ [x]) = l.
Proof.
  intros (_ & H & _)%NoDup_app. rewrite remove_item_split; [by rewrite app_nil_r| |apply not_elem_of_nil].
  intros Hx. by apply (H x Hx); left.
Qed.

Lemma remove_head_refines h a l xs :
  models h a -> lists a !! l = Some xs ->
  exists h' r a', list_remove_head l h = Some (r, h') /\ models h' a' /\
    abs_step (RemoveHead l) a = Some (r, a').
Proof.
  intros Hm Hl. pose proof (models_lists _ _ Hm _ _ Hl) as Hd.
  pose proof (dlist_NoDup _ _ _ Hd) as Hnd. unfold list_remove_head.
  pose proof (load_next_eq _ _ _ (dlist_next _ _ _ Hd)) as Hn.
  cbn. rewrite Hl. cbn. rewrite (bind_eq _ _ _ _ _ Hn). destruct xs as [|x xs]; cbn.
  - rewrite Z.eqb_refl. cbn. by do 3 eexists.
  - apply NoDup_cons in Hnd as [Hlx Hnd].
    rewrite (proj2 (Z.eqb_neq x l)) by set_solver. cbn. rewrite (bind_eq _ _ _ _ _ Hn). cbn.
    destruct (delete_refines h a l (x :: xs) x) as (h' & E & Hm'); [done..|by left|].
    rewrite remove_item_head in Hm' by done. rewrite (bind_eq _ _ _ _ _ E). by do 3 eexists.
Qed.

Lemma remove_tail_refines h a l xs :
  models h a -> lists a !! l = Some xs ->
  exists h' r a', list_remove_tail l h = Some (r, h') /\ models h' a' /\
    abs_step (RemoveTail l) a = Some (r, a').
Proof.
  intros Hm Hl. pose proof (models_lists _ _ Hm _ _ Hl) as Hd.
  pose proof (dlist_NoDup _ _ _ Hd) as Hnd. unfold list_remove_tail.
  pose proof (load_prev_eq _ _ _ (dlist_prev _ _ _ Hd)) as Hp.
  cbn. rewrite Hl. cbn. rewrite (bind_eq _ _ _ _ _ Hp).
  destruct xs as [|x xs _] using rev_ind; cbn.
  - rewrite Z.eqb_refl. cbn. by do 3 eexists.
  - apply NoDup_cons in Hnd as [Hlx Hnd]. rewrite last_snoc in *. cbn in *.
    rewrite (proj2 (Z.eqb_neq x l)) by set_solver. cbn. rewrite (bind_eq _ _ _ _ _ Hp). cbn.
    destruct (delete_refines h a l (xs ++ [x]) x) as (h' & E & Hm'); [done..|set_solver|].
    rewrite remove_item_last in Hm' by done. rewrite (bind_eq _ _ _ _ _ E).
    rewrite removelast_last. by do 3 eexists.
Qed.

(** A node of a list never carries two null links. *)
Lemma in_list_dlist h l xs i : dlist h l xs -> i ∈ xs -> list_in_list i h = Some (true, h).
Proof.
  intros Hd Hi. destruct (dlist_split _ _ _ _ Hd Hi) as (a & b & -> & _ & _ & _ & Hr).
  pose proof (ring_succ _ _ _ Hr) as [Hn _]. pose proof (ring_pred _ _ _ Hr) as [Hp _].
  unfold list_in_list. rewrite (bind_eq _ _ _ _ _ (load_prev_eq _ _ _ Hp)).
  rewrite (bind_eq _ _ _ _ _ (load_next_eq _ _ _ Hn)).
  destruct Hr as (_ & _ & Hz). unfold ret. do 2 f_equal.
  rewrite (proj2 (Z.eqb_neq _ NULL)); [done|]. intros E. apply Hz. rewrite <- E.
  destruct (last _) eqn:El; cbn; [|left]. right. by apply last_Some_elem_of.
Qed.

Lemma in_list_free h a i : models h a -> i ∈ free a -> list_in_list i h = Some (false, h).
Proof.
  intros Hm [Hi _]%(models_free _ _ Hm). unfold list_in_list, load_prev, load_next, getsome, bind.
  rewrite Hi. cbn. by rewrite Hi.
Qed.

Lemma splice_refines h a d s xs ys :
  models h a -> d <> s -> lists a !! d = Some xs -> lists a !! s = Some ys ->
  exists h', (list_splice_head d s ;; ret 0) h = Some (0, h') /\
    models h' (mk_abs (<[s := []]> (<[d := ys ++ xs]> (lists a))) (free a)).
Proof.
  intros Hm Hne Hd Hs.
  destruct (splice_after_ring h d xs s ys) as (h' & E & Hr & Hr' & Hf).
  - by eapply models_lists.
  - by eapply models_lists.
  - by eapply models_disjoint.
  - exists h'. split; [unfold list_splice_head; by rewrite (bind_eq _ _ _ _ _ E)|].
    by eapply splice_models.
Qed.

Lemma splice_tail_refines h a d s xs ys :
  models h a -> d <> s -> lists a !! d = Some xs -> lists a !! s = Some ys ->
  exists h', (list_splice_tail d s ;; ret 0) h = Some (0, h') /\
    models h' (mk_abs (<[s := []]> (<[d := xs ++ ys]> (lists a))) (free a)).
Proof.
  intros Hm Hne Hd Hs. pose proof (models_lists _ _ Hm _ _ Hd) as Hl.
  assert (exists p c, d :: xs = c ++ [p] /\ prv h d = Some p) as (p & c & Hpc & Hp).
  { rewrite (dlist_prev _ _ _ Hl). destruct xs as [|x xs _] using rev_ind.
    - by exists d, [].
    - rewrite last_snoc. by exists x, (d :: xs). }
  unfold list_splice_tail. rewrite bind_assoc, (bind_eq _ _ _ _ _ (load_prev_eq _ _ _ Hp)).
  unfold dlist in Hl. rewrite Hpc in Hl. apply ring_rotate in Hl. cbn in Hl.
  destruct (splice_after_ring h p c s ys Hl) as (h' & E & Hr & Hr' & Hf).
  - by eapply models_lists.
  - pose proof (models_disjoint _ _ Hm d s xs ys Hne Hd Hs) as Hdis. rewrite Hpc in Hdis.
    intros x. rewrite elem_of_cons. specialize (Hdis x). rewrite elem_of_app, list_elem_of_singleton in Hdis.
    tauto.
  - exists h'. split; [by rewrite (bind_eq _ _ _ _ _ E)|].
    eapply (splice_models h h' a d s xs ys (xs ++ ys)); [done..| | |done|by rewrite Permutation_app_comm].
    + by rewrite Hpc, (Permutation_app_comm c).
    + unfold dlist. change (d :: xs ++ ys) with ((d :: xs) ++ ys). rewrite Hpc, <- app_assoc.
      by apply ring_rotate.
Qed.

(** The neighbours of a node in a list, the head included. *)
Lemma dlist_following h l xs e :
  dlist h l xs -> e ∈ l :: xs -> nxt h e = Some (default l (following e (l :: xs))).
Proof.
  intros Hd [->|He]%elem_of_cons; [rewrite following_head; by apply dlist_next|].
  destruct (dlist_split _ _ _ _ Hd He) as (a & b & -> & Ha & _ & Hne & Hr).
  change (l :: a ++ e :: b) with ((l :: a) ++ e :: b). rewrite following_split by (by apply not_elem_of_cons).
  apply ring_succ in Hr as [-> _]. by destruct b.
Qed.

Lemma head_reverse (a : list Z) : head (reverse a) = last a.
Proof. destruct a as [|x a _] using rev_ind; [done|]. by rewrite reverse_snoc, last_snoc. Qed.

Lemma dlist_preceding h l xs e :
  dlist h l xs -> e ∈ l :: xs -> prv h e = Some (default l (following e (l :: reverse xs))).
Proof.
  intros Hd [->|He]%elem_of_cons; [rewrite following_head, head_reverse; by apply dlist_prev|].
  destruct (dlist_split _ _ _ _ Hd He) as (a & b & -> & _ & Hb & Hne & Hr).
  rewrite reverse_app, reverse_cons, <- app_assoc. change (l :: reverse b ++ [e] ++ reverse a) with ((l :: reverse b) ++ e :: reverse a).
  rewrite following_split, head_reverse by (rewrite not_elem_of_cons, elem_of_reverse; done).
  apply ring_pred in Hr as [-> _]. rewrite last_app, last_cons. by destruct (last a).
Qed.

Lemma following_elem e l x : following e l = Some x -> x ∈ tail l.
Proof.
  induction l as [|y l IH]; cbn; [done|]. case_decide; [by intros ?%head_Some_elem_of|].
  intros Hx%IH. destruct l; [done|]. by right.
Qed.

(** [list_next] and [list_prev], with [load] one of the links and [ys] the items in its
    direction. *)
Lemma step_run (load : Z -> M memory Z) h l ys e r :
  load e h = Some (default l (following e (l :: ys)), h) -> l ∉ ys -> r = default NULL (following e (l :: ys)) ->
  (n <- load e ;; if negb (n =? l) then load e else ret NULL) h = Some (r, h).
Proof.
  intros E Hl ->. rewrite (bind_eq _ _ _ _ _ E). destruct (following e (l :: ys)) as [x|] eqn:F; cbn.
  - apply following_elem in F. cbn in F. rewrite (proj2 (Z.eqb_neq x l)) by (by intros ->). exact E.
  - by rewrite Z.eqb_refl.
Qed.

Lemma wrap_run (load : Z -> M memory Z) h l ys e r :
  load e h = Some (default l (following e (l :: ys)), h) -> load l h = Some (default l (head ys), h) -> l ∉ ys ->
  r = default (default NULL (head ys)) (following e (l :: ys)) ->
  (n <- load e ;; if negb (n =? l) then load e else nn <- load n ;; if negb (nn =? l) then load n else ret NULL) h = Some (r, h).
Proof.
  intros E El Hl ->. rewrite (bind_eq _ _ _ _ _ E). destruct (following e (l :: ys)) as [x|] eqn:F; cbn.
  - apply following_elem in F. cbn in F. rewrite (proj2 (Z.eqb_neq x l)) by (by intros ->). exact E.
  - rewrite Z.eqb_refl. cbn. rewrite (bind_eq _ _ _ _ _ El). destruct ys as [|y ys]; cbn; [by rewrite Z.eqb_refl|].
    rewrite (proj2 (Z.eqb_neq y l)) by (intros ->; by apply Hl; left). exact El.
Qed.

Lemma neighbours_refine h a l xs e :
  models h a -> lists a !! l = Some xs -> e ∈ l :: xs ->
  list_next l e h = Some (default NULL (following e (l :: xs)), h) /\
  list_next_wrap l e h = Some (default (default NULL (head xs)) (following e (l :: xs)), h) /\
  list_prev l e h = Some (default NULL (following e (l :: reverse xs)), h) /\
  list_prev_wrap l e h = Some (default (default NULL (last xs)) (following e (l :: reverse xs)), h).
Proof.
  intros Hm Hl He. pose proof (models_lists _ _ Hm _ _ Hl) as Hd.
  pose proof (dlist_NoDup _ _ _ Hd) as [Hx _]%NoDup_cons. assert (l ∉ reverse xs) as Hx' by (by rewrite elem_of_reverse).
  pose proof (load_next_eq _ _ _ (dlist_following _ _ _ _ Hd He)) as En. pose proof (load_prev_eq _ _ _ (dlist_preceding _ _ _ _ Hd He)) as Ep.
  pose proof (load_next_eq _ _ _ (dlist_next _ _ _ Hd)) as Eln. pose proof (load_prev_eq _ _ _ (dlist_prev _ _ _ Hd)) as Elp.
  rewrite <- head_reverse in Elp. split_and!.
  - by eapply step_run.
  - by eapply wrap_run.
  - by eapply step_run.
  - eapply wrap_run; [done..|]. by rewrite head_reverse.
Qed.

(** The head of an empty list becomes a cleared node. *)
Lemma clear_refines h a i :
  models h a -> lists a !! i = Some [] ->
  exists h', list_clear_node i h = Some (tt, h') /\ models h' (mk_abs (delete i (lists a)) (free a ∪ {[i]})).
Proof.
  intros Hm Hi. pose proof (models_lists _ _ Hm _ _ Hi) as Hd. pose proof (proj2 (proj2 Hd)) as Hz.
  assert (is_Some (h !! i)) as Hal by (apply (nxt_alive _ _ _ (dlist_next _ _ _ Hd))). destruct Hal as [n Hn].
  exists (<[i := mk_node NULL NULL]> h). split.
  { unfold list_clear_node, store_next, store_prev, bind. rewrite Hn. cbn. rewrite lookup_insert_eq. cbn. by rewrite insert_insert_eq. }
  assert (forall l xs, delete i (lists a) !! l = Some xs -> l <> i /\ lists a !! l = Some xs /\ i ∉ l :: xs) as Hdel.
  { intros l xs [Hne Hl]%lookup_delete_Some. split_and!; [done|done|]. intros Hin. by apply (models_disjoint _ _ Hm l i xs [] (not_eq_sym Hne) Hl Hi i Hin), list_elem_of_here. }
  constructor; cbn.
  - intros l xs (Hne & Hl & Hout)%Hdel. eapply ring_frame; [|by eapply models_lists]. intros p Hp. rewrite lookup_insert_ne; [done|]. by intros <-.
  - intros l1 l2 xs1 xs2 Hne (_ & H1 & _)%Hdel (_ & H2 & _)%Hdel. by eapply models_disjoint.
  - intros p [Hp| ->%elem_of_singleton]%elem_of_union.
    + assert (i <> p) as Hne by (intros <-; apply (models_free_out _ _ Hm _ _ _ Hi Hp); left). rewrite lookup_insert_ne by done. by eapply models_free.
    + rewrite lookup_insert_eq. split; [done|]. intros ->. apply Hz. left.
  - intros l xs p (Hne & Hl & Hout)%Hdel [Hp| ->%elem_of_singleton]%elem_of_union; [by eapply models_free_out|done].
Qed.

Lemma clear_free_refines h a i : models h a -> i ∈ free a -> list_clear_node i h = Some (tt, h).
Proof.
  intros Hm Hi. destruct (models_free _ _ Hm _ Hi) as [Hn _]. unfold list_clear_node, store_next, store_prev, bind. rewrite Hn. cbn.
  rewrite lookup_insert_eq. cbn. by rewrite insert_insert_eq, insert_id.
Qed.

(** Moving the items of [s] behind the node [p] of the list [d]. *)
Lemma splice_at_refines h a d s xs ys zs p c :
  models h a -> d <> s -> lists a !! d = Some xs -> lists a !! s = Some ys -> ring h (p :: c) -> p :: c ≡ₚ d :: xs ->
  zs ≡ₚ ys ++ xs -> (forall h', ring h' (p :: ys ++ c) -> dlist h' d zs) ->
  exists h', (list_splice_after p s ;; ret 0) h = Some (0, h') /\
    models h' (mk_abs (<[s := []]> (<[d := zs]> (lists a))) (free a)).
Proof.
  intros Hm Hne Hd Hs Hr Hp Hz Hrot. destruct (splice_after_ring h p c s ys Hr) as (h' & E & Hr' & Hr'' & Hf).
  - by eapply models_lists.
  - intros x. rewrite Hp. by apply (models_disjoint _ _ Hm d s xs ys Hne Hd Hs).
  - exists h'. split; [by rewrite (bind_eq _ _ _ _ _ E)|]. eapply splice_models; [done..| |by apply Hrot|done|done]. by rewrite Hp.
Qed.

Lemma splice_after_refines h a d e s xs ys :
  models h a -> d <> s -> lists a !! d = Some xs -> lists a !! s = Some ys -> e ∈ xs ->
  exists h', run (SpliceAfter d e s) h = Some (0, h') /\
    models h' (mk_abs (<[s := []]> (<[d := splice_after e ys xs]> (lists a))) (free a)).
Proof.
  intros Hm Hne Hd Hs He. destruct (dlist_split _ _ _ _ (models_lists _ _ Hm _ _ Hd) He) as (b & c & -> & Hb & _ & _ & Hr).
  rewrite splice_after_split by done. eapply splice_at_refines; [done..| | |].
  - change (e :: c ++ d :: b) with ((e :: c) ++ (d :: b)). by rewrite Permutation_app_comm.
  - rewrite <- !Permutation_middle. f_equiv. by rewrite Permutation_app_swap_app.
  - intros h' Hr'. apply (ring_rotate h' (d :: b) (e :: ys ++ c)). cbn. by rewrite <- app_assoc.
Qed.

Lemma splice_before_refines h a d e s xs ys :
  models h a -> d <> s -> lists a !! d = Some xs -> lists a !! s = Some ys -> e ∈ xs ->
  exists h', run (SpliceBefore d e s) h = Some (0, h') /\
    models h' (mk_abs (<[s := []]> (<[d := splice_before e ys xs]> (lists a))) (free a)).
Proof.
  intros Hm Hne Hd Hs He. destruct (dlist_split _ _ _ _ (models_lists _ _ Hm _ _ Hd) He) as (b & c & -> & Hb & _ & _ & Hr).
  rewrite splice_before_split by done. destruct (exists_last (l := c ++ d :: b)) as (k & p & Hk); [by destruct c|].
  pose proof (ring_pred _ _ _ Hr) as [Hp _]. rewrite Hk, last_snoc in Hp. cbn in Hp. cbn [run]. unfold list_splice_before.
  rewrite bind_assoc, (bind_eq _ _ _ _ _ (load_prev_eq _ _ _ Hp)). rewrite Hk in Hr. change (e :: k ++ [p]) with ((e :: k) ++ [p]) in Hr. apply ring_rotate in Hr.
  eapply splice_at_refines; [done..|exact Hr| | |].
  - rewrite (Permutation_cons_append _ p). cbn. rewrite <- Hk. change (e :: c ++ d :: b) with ((e :: c) ++ (d :: b)). by rewrite Permutation_app_comm.
  - by rewrite Permutation_app_swap_app.
  - intros h' Hr'. change (p :: ys ++ e :: k) with ([p] ++ (ys ++ e :: k)) in Hr'. apply ring_rotate in Hr'. rewrite <- app_assoc in Hr'. cbn in Hr'. rewrite <- Hk in Hr'.
    change (ys ++ e :: c ++ d :: b) with (ys ++ (e :: c) ++ d :: b) in Hr'. rewrite app_assoc in Hr'. by apply ring_rotate in Hr'.
Qed.

Lemma free_fresh h a l xs i :
  models h a -> lists a !! l = Some xs -> i ∈ free a ->
  i ∉ l :: xs /\ i <> NULL /\ is_Some (h !! i).
Proof.
  intros Hm Hl Hi. pose proof (models_free_add _ _ _ Hm Hi) as [? ?].
  split_and!; [by eapply models_free_out|done|done].
Qed.

Lemma add_head_refines h a l xs i :
  models h a -> lists a !! l = Some xs -> i ∈ free a ->
  exists h', run (AddHead l i) h = Some (0, h') /\ models h' (put a l (i :: xs) (free a ∖ {[i]})).
Proof.
  intros Hm Hl Hi. destruct (free_fresh _ _ _ _ _ Hm Hl Hi) as (? & ? & ?).
  eapply add_refines; [done..|eapply add_after_ring; [by eapply models_lists|done..]| |by intros| ]; reflexivity.
Qed.

Lemma add_tail_refines h a l xs i :
  models h a -> lists a !! l = Some xs -> i ∈ free a ->
  exists h', run (AddTail l i) h = Some (0, h') /\ models h' (put a l (xs ++ [i]) (free a ∖ {[i]})).
Proof.
  intros Hm Hl Hi. destruct (free_fresh _ _ _ _ _ Hm Hl Hi) as (? & ? & ?).
  eapply add_refines; [done..|eapply add_before_ring; [by eapply models_lists|done..]|done| |].
  - intros h'. apply (ring_rotate h' [i] (l :: xs)).
  - by rewrite Permutation_app_comm.
Qed.

Lemma add_after_refines h a l xs e i :
  models h a -> lists a !! l = Some xs -> i ∈ free a -> e ∈ xs ->
  exists h', run (AddAfter l e i) h = Some (0, h') /\
    models h' (put a l (insert_after e i xs) (free a ∖ {[i]})).
Proof.
  intros Hm Hl Hi He. destruct (free_fresh _ _ _ _ _ Hm Hl Hi) as (Hf & ? & ?).
  destruct (dlist_split _ _ _ _ (models_lists _ _ Hm _ _ Hl) He) as (b & c & -> & ? & ? & ? & Hr).
  rewrite insert_after_split by done.
  assert (e :: c ++ l :: b ≡ₚ l :: b ++ e :: c) as Hp.
  { change (e :: c ++ l :: b) with ((e :: c) ++ (l :: b)). by rewrite Permutation_app_comm. }
  eapply add_refines; [done..|eapply add_after_ring; [exact Hr|by rewrite Hp|done..]| | |].
  - by rewrite Hp.
  - intros h' Hr'. by apply (ring_rotate h' (e :: i :: c) (l :: b)) in Hr'.
  - by rewrite (Permutation_swap i e), <- Permutation_middle.
Qed.

Lemma add_before_refines h a l xs e i :
  models h a -> lists a !! l = Some xs -> i ∈ free a -> e ∈ xs ->
  exists h', run (AddBefore l e i) h = Some (0, h') /\
    models h' (put a l (insert_before e i xs) (free a ∖ {[i]})).
Proof.
  intros Hm Hl Hi He. destruct (free_fresh _ _ _ _ _ Hm Hl Hi) as (Hf & ? & ?).
  destruct (dlist_split _ _ _ _ (models_lists _ _ Hm _ _ Hl) He) as (b & c & -> & ? & ? & ? & Hr).
  rewrite insert_before_split by done.
  assert (e :: c ++ l :: b ≡ₚ l :: b ++ e :: c) as Hp.
  { change (e :: c ++ l :: b) with ((e :: c) ++ (l :: b)). by rewrite Permutation_app_comm. }
  eapply add_refines; [done..|eapply add_before_ring; [exact Hr|by rewrite Hp|done..]| | |].
  - by rewrite Hp.
  - intros h' Hr'. by apply (ring_rotate h' (i :: e :: c) (l :: b)) in Hr'.
  - by rewrite <- Permutation_middle.
Qed.

Lemma peek_empty_refines h a l xs :
  models h a -> lists a !! l = Some xs ->
  list_peek_head l h = Some (default NULL (head xs), h) /\
  list_peek_tail l h = Some (default NULL (last xs), h) /\
  list_is_empty l h = Some (bool_decide (xs = []), h).
Proof.
  intros Hm Hl. pose proof (models_lists _ _ Hm _ _ Hl) as Hd.
  pose proof (load_next_eq _ _ _ (dlist_next _ _ _ Hd)) as Hn.
  pose proof (load_prev_eq _ _ _ (dlist_prev _ _ _ Hd)) as Hp.
  pose proof (dlist_NoDup _ _ _ Hd) as [Hlx _]%NoDup_cons.
  unfold list_peek_head, list_peek_tail, list_is_empty.
  rewrite !(bind_eq _ _ _ _ _ Hn), !(bind_eq _ _ _ _ _ Hp).
  destruct xs as [|x xs _] using rev_ind; [cbn; by rewrite Z.eqb_refl|].
  rewrite last_snoc in *. assert (x <> l) by (intros ->; apply Hlx; set_solver).
  assert (exists y ys, xs ++ [x] = y :: ys) as (y & ys & E) by (destruct xs; cbn; eauto).
  rewrite E in *. cbn in Hn, Hp |- *.
  rewrite (proj2 (Z.eqb_neq x l)), (proj2 (Z.eqb_neq y l)) by set_solver. cbn. by rewrite Hn, Hp.
Qed.

(** ** Loops *)
Lemma list_for_every_from_pure {A} (f : Z -> A -> A) fuel h l p xs (acc : A) :
  links h p xs l -> l ∉ xs -> (length xs <= fuel)%nat ->
  list_for_every_from fuel l (default l (head xs)) (fun x a => ret (f x a)) acc h =
  Some (fold_left (fun a x => f x a) xs acc, h).
Proof.
  revert fuel p acc. induction xs as [|x xs IH]; intros fuel p acc Hl Hx Hlen; cbn.
  - by destruct fuel; cbn; rewrite Z.eqb_refl.
  - apply not_elem_of_cons in Hx as [Hne Hx]. destruct fuel as [|fuel]; [cbn in Hlen; lia|].
    cbn. rewrite (proj2 (Z.eqb_neq x l)) by done. destruct Hl as (_ & _ & Hl).
    rewrite ret_bind. assert (nxt h x = Some (default l (head xs))) as Hn
      by (destruct xs; cbn in Hl |- *; tauto).
    rewrite (bind_eq _ _ _ _ _ (load_next_eq _ _ _ Hn)). apply (IH _ x); [done..|cbn in Hlen; lia].
Qed.

(** The body of a traversal that unlinks the entries chosen by [P]. *)
Definition visit_and_delete (P : Z -> bool) (x : Z) (seen : list Z) : M memory (list Z) :=
  if P x then list_delete x ;; ret (seen ++ [x]) else ret (seen ++ [x]).

Lemma safe_loop (P : Z -> bool) fuel h l kept xs seen :
  dlist h l (kept ++ xs) -> (length xs <= fuel)%nat ->
  exists h', list_for_every_entry_safe_from fuel l (default l (head xs)) (visit_and_delete P) seen h =
      Some (seen ++ xs, h') /\
    dlist h' l (kept ++ filter (fun x => P x = false) xs) /\ frame h h' (l :: kept ++ xs).
Proof.
  revert fuel h kept seen. induction xs as [|x xs IH]; intros fuel h kept seen Hd Hlen.
  - exists h. rewrite !app_nil_r in *. destruct fuel; cbn; by rewrite Z.eqb_refl.
  - pose proof (dlist_NoDup _ _ _ Hd) as [Hlk Hnd]%NoDup_cons.
    assert (x <> l /\ x ∉ kept /\ x ∉ xs) as (Hxl & Hxk & Hxs).
    { apply not_elem_of_app in Hlk as [_ [? _]%not_elem_of_cons].
      apply NoDup_app in Hnd as (_ & Hk & [? _]%NoDup_cons). split_and!; [done| |done].
      intros ?. by apply (Hk x); [|left]. }
    destruct fuel as [|fuel]; cbn in Hlen; [lia|].
    change (default l (head (x :: xs))) with x. cbn [list_for_every_entry_safe_from].
    rewrite (proj2 (Z.eqb_neq x l)) by done.
    assert (nxt h x = Some (default l (head xs))) as Hn.
    { destruct Hd as (Hl & _). apply links_app in Hl as [_ Hl]. destruct xs; cbn in Hl |- *; tauto. }
    rewrite (bind_eq _ _ _ _ _ (load_next_eq _ _ _ Hn)). unfold visit_and_delete at 1.
    destruct (P x) eqn:HP.
    + destruct (delete_dlist h l (kept ++ x :: xs) x Hd) as (h1 & E & Hd1 & _ & Hf1 & _); [set_solver|].
      rewrite remove_item_split in Hd1 by done.
      rewrite bind_assoc, (bind_eq _ _ _ _ _ E), ret_bind.
      destruct (IH fuel h1 kept (seen ++ [x]) Hd1 ltac:(lia)) as (h' & -> & Hd' & Hf').
      exists h'. rewrite <- app_assoc. split_and!; [done| |].
      * by rewrite filter_cons_False by (by rewrite HP).
      * intros q Hq. rewrite Hf', Hf1; [done|done|].
        contradict Hq. rewrite elem_of_cons, elem_of_app in *. rewrite elem_of_cons. tauto.
    + rewrite ret_bind. replace (kept ++ x :: xs) with ((kept ++ [x]) ++ xs) in * by (by rewrite <- app_assoc).
      destruct (IH fuel h (kept ++ [x]) (seen ++ [x]) Hd ltac:(lia)) as (h' & -> & Hd' & Hf').
      exists h'. rewrite <- app_assoc. split_and!; [done| |done].
      rewrite filter_cons_True by done. by rewrite <- app_assoc in Hd'.
Qed.

Lemma length_run fuel h l xs :
  dlist h l xs -> (length xs <= fuel)%nat ->
  list_length fuel l h = Some (Z.of_nat (length xs), h).
Proof.
  intros Hd Hlen. unfold list_length, list_for_every.
  rewrite (bind_eq _ _ _ _ _ (load_next_eq _ _ _ (dlist_next _ _ _ Hd))).
  pose proof (dlist_NoDup _ _ _ Hd) as [Hlx _]%NoDup_cons. destruct Hd as (Hl & _).
  rewrite (list_for_every_from_pure (fun _ cnt => cnt + 1) _ _ _ _ _ _ Hl) by done.
  do 2 f_equal. transitivity (0 + Z.of_nat (length xs)); [|lia].
  generalize 0. induction xs as [|x xs IH] in Hlen |- *; intros z; cbn [fold_left length] in *; [lia|].
  rewrite IH by lia. lia.
Qed.

(** ** Properties *)

(** C1: every function of list.h, run on a memory that holds the abstract lists, does on
    the abstract sequences what [abs_step] says and returns the same value; in particular
    it touches no other list of the memory, and the memory keeps holding well-formed
    rings. The neighbours of an item or of the head, with and without wrapping around, are
    among them; the macros that walk a list have theorems of their own below. *)
Theorem run_refines c h a r a' :
  models h a -> abs_step c a = Some (r, a') ->
  exists h', run c h = Some (r, h') /\ models h' a'.
Proof.
  intros Hm. destruct c; cbn [abs_step]; intros Hstep.
  all: repeat match goal with
    | H : context [lists ?b !! ?l] |- _ =>
        lazymatch type of H with lists _ !! _ = _ => fail | _ => idtac end;
        destruct (lists b !! l) eqn:?; cbn [mbind option_bind] in H; [|done]
    | H : context [if decide ?P then _ else _] |- _ => destruct (decide P); [|first [done|idtac]]
    end; simplify_eq.
  - by apply init_refines.
  - by apply add_head_refines.
  - by apply add_tail_refines.
  - apply add_after_refines; naive_solver.
  - apply add_before_refines; naive_solver.
  - cbn. edestruct delete_refines as (h' & E & ?); [done..|]. exists h'.
    by rewrite (bind_eq _ _ _ _ _ E).
  - edestruct remove_head_refines as (h' & r' & a'' & ? & ? & E); [done..|].
    cbn in E. rewrite Heqo in E. cbn in E. exists h'. by simplify_eq.
  - edestruct remove_tail_refines as (h' & r' & a'' & ? & ? & E); [done..|].
    cbn in E. rewrite Heqo in E. cbn in E. exists h'. by simplify_eq.
  - exists h. split; [|done]. by apply (peek_empty_refines _ _ _ _ Hm Heqo).
  - exists h. split; [|done]. by apply (peek_empty_refines _ _ _ _ Hm Heqo).
  - exists h. split; [|done]. pose proof (peek_empty_refines _ _ _ _ Hm Heqo) as (_ & _ & E).
    cbn. by rewrite (bind_eq _ _ _ _ _ E).
  - exists h. split; [|done]. cbn.
    by rewrite (bind_eq _ _ _ _ _ (in_list_free _ _ _ Hm ltac:(eassumption))).
  - exists h. split; [|done]. destruct m as (l & xs & Hl & Hi). cbn.
    by rewrite (bind_eq _ _ _ _ _ (in_list_dlist _ _ _ _ (models_lists _ _ Hm _ _ Hl) Hi)).
  - exists h. split; [|done]. cbn. by rewrite (bind_eq _ _ _ _ _ (clear_free_refines _ _ _ Hm ltac:(eassumption))).
  - match goal with H : context [match ?ys with _ => _ end] |- _ => destruct ys; [|done] end. simplify_eq.
    edestruct clear_refines as (h' & E & ?); [done..|]. exists h'. cbn. by rewrite (bind_eq _ _ _ _ _ E).
  - exists h. split; [|done]. by apply (neighbours_refine _ _ _ _ _ Hm Heqo).
  - exists h. split; [|done]. by apply (neighbours_refine _ _ _ _ _ Hm Heqo).
  - exists h. split; [|done]. by apply (neighbours_refine _ _ _ _ _ Hm Heqo).
  - exists h. split; [|done]. by apply (neighbours_refine _ _ _ _ _ Hm Heqo).
  - exists h. split; [|done]. apply length_run; [by eapply models_lists|done].
  - apply splice_after_refines; naive_solver.
  - apply splice_before_refines; naive_solver.
  - by apply splice_refines.
  - by apply splice_tail_refines.
Qed.

(** A memory with three lists: [10] holds [11; 12], [20] holds [21], [30] is
    empty; node [13] is cleared. *)
Definition example_memory : memory :=
  list_to_map [(10, mk_node 12 11); (11, mk_node 10 12); (12, mk_node 11 10);
               (20, mk_node 21 21); (21, mk_node 20 20); (30, mk_node 30 30);
               (13, mk_node 0 0)].
Definition example_abs : abs :=
  mk_abs (list_to_map [(10, [11; 12]); (20, [21]); (30, [])]) {[13]}.

Lemma example_lists l xs :
  lists example_abs !! l = Some xs -> (l, xs) ∈ [(10, [11; 12]); (20, [21]); (30, [])].
Proof. apply elem_of_list_to_map_2. Qed.

Lemma example_models : models example_memory example_abs.
Proof.
  constructor.
  - intros l xs Hl%example_lists. set_unfold in Hl.
    destruct_or! Hl; simplify_eq; (split; [cbn; tauto|split; [|set_solver by lia]]).
    all: repeat (apply NoDup_cons; split; [set_solver by lia|]); apply NoDup_nil_2.
  - intros l1 l2 xs1 xs2 Hne Hl1%example_lists Hl2%example_lists. set_unfold in Hl1. set_unfold in Hl2.
    destruct_or! Hl1; destruct_or! Hl2; simplify_eq; intros p H1 H2; set_unfold in H1; set_unfold in H2; lia.
  - intros p. cbn [free example_abs]. intros ->%elem_of_singleton. done.
  - intros l xs p Hl%example_lists. cbn [free example_abs]. intros ->%elem_of_singleton. set_unfold in Hl.
    destruct_or! Hl; simplify_eq; intros H; set_unfold in H; lia.
Qed.

Lemma run_refines_witness :
  exists h', run (SpliceTail 10 20) example_memory = Some (0, h') /\
    models h' (mk_abs (<[20 := []]> (<[10 := [11; 12; 21]]> (lists example_abs))) {[13]}).
Proof. apply (run_refines (SpliceTail 10 20) _ example_abs _ _ example_models). reflexivity. Defined.

(** [list_length] ends after one pass over a well-formed list and returns
    the number of items, leaving the memory as it is. *)
Theorem list_length_total fuel h l xs :
  dlist h l xs -> (length xs <= fuel)%nat ->
  list_length fuel l h = Some (Z.of_nat (length xs), h).
Proof. apply length_run. Qed.

Lemma list_length_total_witness :
  list_length 2 10 example_memory = Some (2, example_memory).
Proof.
  apply (list_length_total 2 example_memory 10 [11; 12]); [|cbn; lia].
  by apply (models_lists _ _ example_models).
Defined.

(** [list_for_every_entry_safe] visits every entry of the list exactly once
    and in order although the body unlinks the entries it is done with; it
    ends, and what remains linked is exactly what the body kept. *)
Theorem list_for_every_entry_safe_delete P fuel h l xs :
  dlist h l xs -> (length xs <= fuel)%nat ->
  exists h', list_for_every_entry_safe fuel l (visit_and_delete P) [] h = Some (xs, h') /\
    dlist h' l (filter (fun x => P x = false) xs) /\ frame h h' (l :: xs).
Proof.
  intros Hd Hlen. unfold list_for_every_entry_safe.
  rewrite (bind_eq _ _ _ _ _ (load_next_eq _ _ _ (dlist_next _ _ _ Hd))).
  by apply (safe_loop P fuel h l [] xs []).
Qed.

Lemma list_for_every_entry_safe_delete_witness :
  exists h', list_for_every_entry_safe 2 10 (visit_and_delete Z.odd) [] example_memory = Some ([11; 12], h') /\
    dlist h' 10 [12] /\ frame example_memory h' [10; 11; 12].
Proof.
  apply (list_for_every_entry_safe_delete Z.odd 2 example_memory 10 [11; 12]); [|cbn; lia].
  by apply (models_lists _ _ example_models).
Defined.
