(* ===== verification/Timer.v ===== *)
(** * Kernel timers (kernel/timer.c)

    [timer_state] holds the timer objects by address, the per-cpu queues
    [timers[cpu].timer_queue], the timer spin lock and the one-shot hardware
    timer of each cpu. Callbacks are client code, a parameter of [timer_tick];
    so is what other threads do while [timer_cancel_sync] yields. *)
From stdpp Require Import base gmap list sorting.
From Stdlib Require Import ZArith Lia.
From S2P Require Import Prelude.

Local Open Scope Z_scope.
Local Open Scope lk_scope.

(** ** Time (include/lk/types.h) *)
Definition time_delta (a b : Z) : Z := i64 (a - b).
Definition time_gt (a b : Z) : bool := time_delta a b >? 0.
Definition time_lt (a b : Z) : bool := time_delta a b <? 0.

(** ** State *)
Definition TIMER_MAGIC : Z := 0x74696D72.

Record timer_t := mk_timer {
  t_magic : Z;
  t_cpu : Z;
  t_running : bool;
  scheduled_time : Z;
  periodic_time : Z;
  t_callback : Z;
  t_arg : Z
}.

Definition TIMER_INITIAL_VALUE : timer_t := mk_timer TIMER_MAGIC UINT32_MAX false 0 0 0 0.

Record timer_state := mk_timer_state {
  timer_objs : gmap Z timer_t;
  timer_queue : gmap Z (list Z);
  timer_locked : bool;
  hw_timer : gmap Z Z
}.

Definition with_objs (f : gmap Z timer_t -> gmap Z timer_t) (s : timer_state) : timer_state :=
  mk_timer_state (f (timer_objs s)) (timer_queue s) (timer_locked s) (hw_timer s).
Definition with_queue (f : gmap Z (list Z) -> gmap Z (list Z)) (s : timer_state) : timer_state :=
  mk_timer_state (timer_objs s) (f (timer_queue s)) (timer_locked s) (hw_timer s).
Definition with_hw (f : gmap Z Z -> gmap Z Z) (s : timer_state) : timer_state :=
  mk_timer_state (timer_objs s) (timer_queue s) (timer_locked s) (f (hw_timer s)).

Definition timer_lock : M timer_state unit := fun s =>
  if timer_locked s then None
  else Some (tt, mk_timer_state (timer_objs s) (timer_queue s) true (hw_timer s)).
Definition timer_unlock : M timer_state unit := fun s =>
  Some (tt, mk_timer_state (timer_objs s) (timer_queue s) false (hw_timer s)).

Definition get_timer (t : Z) : M timer_state timer_t := getsome (fun s => timer_objs s !! t).
Definition set_timer (t : Z) (o : timer_t) : M timer_state unit :=
  modify (with_objs (<[t := o]>)).
Definition get_queue (cpu : Z) : M timer_state (list Z) := getsome (fun s => timer_queue s !! cpu).

(** [list_peek_head_type(&timers[cpu].timer_queue, timer_t, node)], 0 for NULL. *)
Definition peek_timer (cpu : Z) : M timer_state Z :=
  q <- get_queue cpu ;; ret (default 0 (head q)).

(** platform_set_oneshot_timer / platform_stop_timer: the comparator of a cpu. *)
Definition platform_set_oneshot_timer (cpu when_ : Z) : M timer_state unit :=
  modify (with_hw (<[cpu := when_]>)).
Definition platform_stop_timer (cpu : Z) : M timer_state unit :=
  modify (with_hw (delete cpu)).

(** ** Operations *)
Definition timer_initialize (t : Z) : M timer_state unit := set_timer t TIMER_INITIAL_VALUE.

(** The walk of [insert_timer_in_queue]: before the first entry that is due
    later, else at the tail. *)
Fixpoint insert_walk (objs : gmap Z timer_t) (t when_ : Z) (q : list Z) : option (list Z) :=
  match q with
  | [] => Some [t]
  | e :: q' =>
      o ← objs !! e;
      if time_gt (scheduled_time o) when_ then Some (t :: e :: q')
      else r ← insert_walk objs t when_ q'; Some (e :: r)
  end.

Definition insert_timer_in_queue (cpu t : Z) : M timer_state unit :=
  o <- get_timer t ;;
  q <- get_queue cpu ;;
  q' <- getsome (fun s => insert_walk (timer_objs s) t (scheduled_time o) q) ;;
  modify (with_queue (<[cpu := q']>)).

Section timer.
Variable SMP_MAX_CPUS : Z.
Variable PLATFORM_HAS_DYNAMIC_TIMER : bool.
(** [callback(timer, now, arg)]; the result is [INT_RESCHEDULE] for [true]. *)
Variable run_callback : Z -> Z -> Z -> Z -> M timer_state bool.
(** [thread_yield()] as the timer code sees it. *)
Variable thread_yield : M timer_state unit.

Definition timer_set (cpu now t delay period callback arg : Z) : M timer_state unit :=
  o <- get_timer t ;;
  assert_ (t_magic o =? TIMER_MAGIC) ;;
  timer_lock ;;
  linked <- gets (fun s => node_in_list t (timer_queue s)) ;;
  (if linked then panic else ret tt) ;;
  assert_ (negb (t_running o) || (t_cpu o =? cpu)) ;;
  assert_ (cpu <? SMP_MAX_CPUS) ;;
  set_timer t (mk_timer (t_magic o) cpu (t_running o) (u64 (now + delay)) period callback arg) ;;
  insert_timer_in_queue cpu t ;;
  (if PLATFORM_HAS_DYNAMIC_TIMER then
     h <- peek_timer cpu ;;
     when (h =? t) (platform_set_oneshot_timer cpu (u64 (now + delay)))
   else ret tt) ;;
  timer_unlock.

Definition timer_set_oneshot_ns (cpu now t delay callback arg : Z) : M timer_state unit :=
  timer_set cpu now t (if delay =? 0 then 1 else delay) 0 callback arg.

Definition timer_set_periodic_ns (cpu now t period callback arg : Z) : M timer_state unit :=
  let period := if period =? 0 then 1 else period in
  timer_set cpu now t period period callback arg.

(** [while (wait && timer->running)] of [timer_cancel_etc]. *)
Fixpoint wait_callback (fuel : nat) (wait : bool) (t : Z) : M timer_state unit :=
  o <- get_timer t ;;
  if wait && t_running o then
    match fuel with
    | O => panic
    | S fuel' => timer_unlock ;; thread_yield ;; timer_lock ;; wait_callback fuel' wait t
    end
  else ret tt.

Definition timer_cancel_etc (fuel : nat) (cpu now : Z) (ints_disabled : bool) (t : Z) (wait : bool)
    : M timer_state unit :=
  o <- get_timer t ;;
  assert_ (t_magic o =? TIMER_MAGIC) ;;
  assert_ (negb wait || negb ints_disabled) ;;
  assert_ (ints_disabled || wait) ;;
  timer_lock ;;
  assert_ (wait || (cpu =? t_cpu o)) ;;
  wait_callback fuel wait t ;;
  oldhead <- (if PLATFORM_HAS_DYNAMIC_TIMER then
                assert_ (cpu <? SMP_MAX_CPUS) ;; peek_timer cpu
              else ret 0) ;;
  modify (with_queue (node_delete t)) ;;
  o' <- get_timer t ;;
  set_timer t (mk_timer (t_magic o') (t_cpu o') (t_running o') (scheduled_time o') 0
                 (t_callback o') (t_arg o')) ;;
  (if PLATFORM_HAS_DYNAMIC_TIMER then
     newhead <- peek_timer cpu ;;
     if newhead =? 0 then platform_stop_timer cpu
     else if negb (newhead =? oldhead) then
       n <- get_timer newhead ;;
       platform_set_oneshot_timer cpu
         (if time_lt (scheduled_time n) now then now else scheduled_time n)
     else ret tt
   else ret tt) ;;
  timer_unlock.

Definition set_running (t : Z) (b : bool) : M timer_state unit :=
  o <- get_timer t ;;
  set_timer t (mk_timer (t_magic o) (t_cpu o) b (scheduled_time o) (periodic_time o)
                 (t_callback o) (t_arg o)).

(** One round of the [for (;;)] loop of [timer_tick] on the due timer [t]; the
    lock is held at both ends. *)
Definition timer_fire (cpu now t : Z) (ret_ : bool) : M timer_state bool :=
  o <- get_timer t ;;
  assert_ (t_magic o =? TIMER_MAGIC) ;;
  modify (with_queue (node_delete t)) ;;
  set_running t true ;;
  timer_unlock ;;
  let periodic := periodic_time o >? 0 in
  r <- run_callback (t_callback o) t now (t_arg o) ;;
  timer_lock ;;
  o' <- get_timer t ;;
  assert_ (t_magic o' =? TIMER_MAGIC) ;;
  set_running t false ;;
  linked <- gets (fun s => node_in_list t (timer_queue s)) ;;
  (if periodic && negb linked && (periodic_time o' >? 0) then
     o2 <- get_timer t ;;
     set_timer t (mk_timer (t_magic o2) (t_cpu o2) (t_running o2) (u64 (now + periodic_time o2))
                    (periodic_time o2) (t_callback o2) (t_arg o2)) ;;
     insert_timer_in_queue cpu t
   else ret tt) ;;
  ret (if r then true else ret_).

Fixpoint timer_tick_loop (fuel : nat) (cpu now : Z) (ret_ : bool) : M timer_state bool :=
  t <- peek_timer cpu ;;
  if t =? 0 then ret ret_
  else
    o <- get_timer t ;;
    if time_lt now (scheduled_time o) then ret ret_
    else match fuel with
         | O => panic
         | S fuel' =>
             ret' <- timer_fire cpu now t ret_ ;;
             timer_tick_loop fuel' cpu now ret'
         end.

(** The lock is released only in the [PLATFORM_HAS_DYNAMIC_TIMER] part. *)
Definition timer_tick (fuel : nat) (cpu now : Z) : M timer_state bool :=
  assert_ (cpu <? SMP_MAX_CPUS) ;;
  timer_lock ;;
  r <- timer_tick_loop fuel cpu now false ;;
  (if PLATFORM_HAS_DYNAMIC_TIMER then
     t <- peek_timer cpu ;;
     (if negb (t =? 0) then
        o <- get_timer t ;;
        assert_ (time_gt (scheduled_time o) now) ;;
        platform_set_oneshot_timer cpu (scheduled_time o)
      else ret tt) ;;
     timer_unlock
   else ret tt) ;;
  ret r.
End timer.

(** [timer_init]: every cpu's queue is empty; the statically allocated objects
    are left alone. *)
Definition timer_init (ncpus : nat) : M timer_state unit := fun s =>
  Some (tt, mk_timer_state (timer_objs s)
    (list_to_map ((fun i => (Z.of_nat i, [])) <$> seq 0 ncpus)) false (hw_timer s)).

(** ** Well-formed timer state *)

(** Times below the wrap-around of the signed comparison. *)
Definition in_window (z : Z) : Prop := 0 <= z < 2 ^ 63.

(** Periods that cannot push a time out of the window. *)
Definition in_period (z : Z) : Prop := 0 <= z < 2 ^ 62.

Definition due_le (objs : gmap Z timer_t) (a b : Z) : Prop :=
  match objs !! a, objs !! b with
  | Some x, Some y => scheduled_time x <= scheduled_time y
  | _, _ => False
  end.

Record queued (s : timer_state) (cpu t : Z) : Prop := {
  queued_obj : exists o, timer_objs s !! t = Some o /\ t_magic o = TIMER_MAGIC /\ t_cpu o = cpu /\
    in_window (scheduled_time o) /\ in_period (periodic_time o);
  queued_nonnull : t <> 0
}.

Record timers_wf (s : timer_state) : Prop := {
  wf_queued : forall cpu q t, timer_queue s !! cpu = Some q -> t ∈ q -> queued s cpu t;
  wf_nodup : forall cpu q, timer_queue s !! cpu = Some q -> NoDup q;
  wf_sorted : forall cpu q, timer_queue s !! cpu = Some q -> StronglySorted (due_le (timer_objs s)) q
}.

(** The entries of a cpu's queue that are due at [now]. *)
Definition due_at (s : timer_state) (now t : Z) : Prop :=
  exists o, timer_objs s !! t = Some o /\ scheduled_time o <= now.

#[export] Instance due_at_dec s now t : Decision (due_at s now t).
Proof.
  destruct (timer_objs s !! t) as [o|] eqn:E.
  - destruct (decide (scheduled_time o <= now)); [left; by exists o|].
    right. intros (o' & ? & ?). by simplify_eq.
  - right. intros (o' & ? & ?). by simplify_eq.
Defined.

Definition due (s : timer_state) (cpu now : Z) : list Z :=
  filter (due_at s now) (default [] (timer_queue s !! cpu)).

(** ** Lemmas *)
Lemma i64_small z : - 2 ^ 63 <= z < 2 ^ 63 -> i64 z = z.
Proof. intros. unfold i64. rewrite Z.mod_small; lia. Qed.

Lemma time_gt_window a b : in_window a -> in_window b -> time_gt a b = (b <? a).
Proof.
  unfold in_window, time_gt, time_delta. intros. rewrite i64_small by lia.
  rewrite Z.gtb_ltb. destruct (Z.ltb_spec 0 (a - b)), (Z.ltb_spec b a); lia || done.
Qed.
Lemma time_lt_window a b : in_window a -> in_window b -> time_lt a b = (a <? b).
Proof.
  unfold in_window, time_lt, time_delta. intros. rewrite i64_small by lia.
  destruct (Z.ltb_spec (a - b) 0), (Z.ltb_spec a b); lia || done.
Qed.

Lemma in_period_window z : in_period z -> in_window z.
Proof. unfold in_period, in_window. lia. Qed.
#[export] Hint Resolve in_period_window : lk.

(** What the walk does: [t] goes behind every entry due no later than it. *)
Lemma insert_walk_split objs t when_ q :
  in_window when_ ->
  Forall (fun e => exists o, objs !! e = Some o /\ in_window (scheduled_time o)) q ->
  StronglySorted (due_le objs) q ->
  exists q1 q2, q = q1 ++ q2 /\ insert_walk objs t when_ q = Some (q1 ++ t :: q2) /\
    Forall (fun e => exists o, objs !! e = Some o /\ scheduled_time o <= when_) q1 /\
    Forall (fun e => exists o, objs !! e = Some o /\ when_ < scheduled_time o) q2.
Proof.
  intros Hw. induction q as [|e q IH]; intros Hq Hs; cbn; [by exists [], []|].
  apply Forall_cons in Hq as [(o & Ho & Hwo) Hq]. apply StronglySorted_inv in Hs as [Hs He].
  rewrite Ho. cbn. rewrite time_gt_window by done. destruct (Z.ltb_spec when_ (scheduled_time o)).
  - exists [], (e :: q). split_and!; [done..|]. constructor; [by exists o|].
    eapply Forall_impl; [exact He|]. intros e'. unfold due_le. rewrite Ho.
    destruct (objs !! e') as [o'|]; [|done]. intros. exists o'. split; [done|lia].
  - destruct (IH Hq Hs) as (q1 & q2 & -> & -> & H1 & H2). exists (e :: q1), q2.
    split_and!; [done..| |done]. constructor; [by exists o|done].
Qed.

Lemma due_le_insert objs t o q :
  t ∉ q -> StronglySorted (due_le objs) q -> StronglySorted (due_le (<[t := o]> objs)) q.
Proof.
  induction q as [|e q IH]; [constructor|]. intros [??]%not_elem_of_cons [Hs He]%StronglySorted_inv.
  constructor; [by apply IH|]. rewrite Forall_forall in He |- *. intros x Hx. specialize (He x Hx).
  unfold due_le in *. rewrite !lookup_insert_ne; [done|..]; [intros ->|done].
  done.
Qed.

(** The walk keeps the queue sorted. *)
Lemma insert_walk_sorted objs t o q1 q2 :
  objs !! t = Some o ->
  StronglySorted (due_le objs) (q1 ++ q2) ->
  Forall (fun e => exists o', objs !! e = Some o' /\ scheduled_time o' <= scheduled_time o) q1 ->
  Forall (fun e => exists o', objs !! e = Some o' /\ scheduled_time o < scheduled_time o') q2 ->
  StronglySorted (due_le objs) (q1 ++ t :: q2).
Proof.
  intros Ho. induction q1 as [|e q1 IH]; cbn; intros Hs H1 H2.
  - constructor; [done|]. eapply Forall_impl; [exact H2|].
    intros e (o' & He & ?). unfold due_le. rewrite Ho, He. lia.
  - apply StronglySorted_inv in Hs as [Hs He]. apply Forall_cons in H1 as [(oe & Hoe & ?) H1].
    constructor; [by apply IH|]. apply Forall_app in He as [He1 He2].
    apply Forall_app. split; [done|]. constructor; [|done].
    unfold due_le. by rewrite Hoe, Ho.
Qed.

Lemma get_timer_eq s t o : timer_objs s !! t = Some o -> get_timer t s = Some (o, s).
Proof. intros. by apply getsome_eq. Qed.
Lemma get_queue_eq s cpu q : timer_queue s !! cpu = Some q -> get_queue cpu s = Some (q, s).
Proof. intros. by apply getsome_eq. Qed.

(** One read of a run. *)
Ltac gstep :=
  rewrite ?ret_bind, ?bind_assoc;
  first [ erewrite bind_eq by (apply get_timer_eq; eassumption)
        | erewrite bind_eq by (apply get_queue_eq; eassumption)
        | erewrite bind_eq by (apply getsome_eq; eassumption) ].

Lemma timers_wf_ext s s' :
  timer_objs s' = timer_objs s -> timer_queue s' = timer_queue s -> timers_wf s -> timers_wf s'.
Proof.
  intros Ho Hq [H1 H2 H3]. constructor; rewrite Hq, ?Ho; [|done..].
  intros cpu q t Hl Ht. destruct (H1 cpu q t Hl Ht) as [Hobj ?]. split; [by rewrite Ho|done].
Qed.

Lemma wf_set_obj s t o :
  timers_wf s -> node_in_list t (timer_queue s) = false -> timers_wf (with_objs (<[t := o]>) s).
Proof.
  intros [H1 H2 H3] Hn. rewrite node_in_list_false in Hn. constructor; cbn; [|done|].
  - intros cpu q x Hq Hx. destruct (H1 cpu q x Hq Hx) as [(o' & ? & ?) ?].
    split; [|done]. exists o'. cbn. rewrite lookup_insert_ne; [done|intros ->; by eapply Hn].
  - intros cpu q Hq. apply due_le_insert; [by eapply Hn|by eapply H3].
Qed.

Lemma StronglySorted_mono {A} (R R' : A -> A -> Prop) l :
  (forall a b, R a b -> R' a b) -> StronglySorted R l -> StronglySorted R' l.
Proof. intros HR. induction 1; constructor; [done|]. eapply Forall_impl; eauto. Qed.

Lemma StronglySorted_filter {A} (R : A -> A -> Prop) (P : A -> Prop) `{forall x, Decision (P x)} l :
  StronglySorted R l -> StronglySorted R (filter P l).
Proof.
  induction 1 as [|x l Hs IH Hx]; [constructor|]. rewrite filter_cons.
  case_decide; [|done]. constructor; [done|].
  rewrite Forall_forall in Hx |- *. intros y [_ ?]%list_elem_of_filter. by apply Hx.
Qed.

Lemma wf_delete s t : timers_wf s -> timers_wf (with_queue (node_delete t) s).
Proof.
  intros [H1 H2 H3]. constructor; cbn; intros cpu q.
  - intros x. rewrite node_delete_lookup. intros (q' & Hq & ->)%fmap_Some [? Hx]%elem_of_filter_ne.
    destruct (H1 cpu q' x Hq Hx). by split.
  - rewrite node_delete_lookup. intros (q' & Hq & ->)%fmap_Some. apply NoDup_filter. by eapply H2.
  - rewrite node_delete_lookup. intros (q' & Hq & ->)%fmap_Some. apply StronglySorted_filter. by eapply H3.
Qed.

Lemma insert_timer_spec cpu t s o q :
  timers_wf s -> timer_objs s !! t = Some o -> t_magic o = TIMER_MAGIC -> t_cpu o = cpu ->
  in_window (scheduled_time o) -> in_period (periodic_time o) -> t <> 0 -> timer_queue s !! cpu = Some q ->
  node_in_list t (timer_queue s) = false ->
  exists q1 q2, q = q1 ++ q2 /\
    insert_timer_in_queue cpu t s = Some (tt, with_queue (<[cpu := q1 ++ t :: q2]>) s) /\
    timers_wf (with_queue (<[cpu := q1 ++ t :: q2]>) s) /\
    Forall (fun e => exists o', timer_objs s !! e = Some o' /\ scheduled_time o' <= scheduled_time o) q1 /\
    Forall (fun e => exists o', timer_objs s !! e = Some o' /\ scheduled_time o < scheduled_time o') q2.
Proof.
  intros Hwf Ho Hmag Hcpu Hw Hper Hnz Hq Hn. pose proof Hn as Hn'. rewrite node_in_list_false in Hn'.
  destruct (insert_walk_split (timer_objs s) t (scheduled_time o) q Hw) as (q1 & q2 & E & Hwalk & H1 & H2).
  { apply Forall_forall. intros e He. destruct (wf_queued _ Hwf cpu q e Hq He) as [(oe & ? & _ & _ & ? & _) _]. eauto. }
  { by eapply wf_sorted. }
  exists q1, q2. split_and!; [done| | |done..].
  - unfold insert_timer_in_queue. by do 3 gstep.
  - assert (forall x, x ∈ q1 ++ t :: q2 -> x = t \/ x ∈ q) as Hin by (subst q; set_solver).
    constructor; cbn; intros c p; rewrite lookup_insert; (case_decide; [subst c|]).
    + intros x [= <-] [->|Hx]%Hin; [split; [by exists o|done]|].
      by destruct (wf_queued _ Hwf cpu q x Hq Hx).
    + intros x Hp Hx. by destruct (wf_queued _ Hwf _ p x Hp Hx).
    + intros [= <-]. rewrite <- Permutation_middle, <- E. constructor; [by eapply Hn'|by eapply wf_nodup].
    + by apply (wf_nodup _ Hwf).
    + intros [= <-]. eapply insert_walk_sorted; [done| |done..]. rewrite <- E. by eapply wf_sorted.
    + by apply (wf_sorted _ Hwf).
Qed.

Lemma node_in_list_ext `{Countable K} t (qs : gmap K (list Z)) k q q' :
  qs !! k = Some q -> (t ∈ q' -> t ∈ q) -> node_in_list t qs = false ->
  node_in_list t (<[k := q']> qs) = false.
Proof.
  intros Hk Hin. rewrite !node_in_list_false. intros Hn k' p.
  rewrite lookup_insert. case_decide; subst; [|by apply Hn].
  intros [= <-] Ht. by eapply Hn; [|apply Hin].
Qed.

Lemma timer_lock_bind {A} (k : unit -> M timer_state A) s :
  timer_locked s = false ->
  bind timer_lock k s = k tt (mk_timer_state (timer_objs s) (timer_queue s) true (hw_timer s)).
Proof. intros H. unfold bind, timer_lock. by rewrite H. Qed.

Lemma peek_timer_eq s cpu q : timer_queue s !! cpu = Some q -> peek_timer cpu s = Some (default 0 (head q), s).
Proof. intros H. unfold peek_timer. by gstep. Qed.

Lemma head_insert_eq (q1 q2 : list Z) (t : Z) :
  t ∉ q1 -> (default 0 (head (q1 ++ t :: q2)) =? t) = bool_decide (q1 = []).
Proof.
  destruct q1 as [|x q1]; cbn; intros Ht; [by rewrite Z.eqb_refl|].
  apply not_elem_of_cons in Ht as [? _]. by apply Z.eqb_neq.
Qed.

Section spec.
Variable SMP_MAX_CPUS : Z.
Variable dyn : bool.

Lemma timer_set_run cpu now t delay period callback arg s o q :
  timers_wf s -> timer_locked s = false -> timer_objs s !! t = Some o -> t <> 0 ->
  t_magic o = TIMER_MAGIC -> node_in_list t (timer_queue s) = false ->
  (t_running o = true -> t_cpu o = cpu) -> cpu < SMP_MAX_CPUS ->
  timer_queue s !! cpu = Some q -> in_window (now + delay) -> in_period period ->
  exists q1 q2,
    let o' := mk_timer (t_magic o) cpu (t_running o) (now + delay) period callback arg in
    let s' := mk_timer_state (<[t := o']> (timer_objs s)) (<[cpu := q1 ++ t :: q2]> (timer_queue s)) false
                (if dyn && bool_decide (q1 = []) then <[cpu := now + delay]> (hw_timer s) else hw_timer s) in
    q = q1 ++ q2 /\
    timer_set SMP_MAX_CPUS dyn cpu now t delay period callback arg s = Some (tt, s') /\
    timers_wf s' /\
    Forall (fun e => exists oe, timer_objs s !! e = Some oe /\ scheduled_time oe <= now + delay) q1 /\
    Forall (fun e => exists oe, timer_objs s !! e = Some oe /\ now + delay < scheduled_time oe) q2.
Proof.
  intros Hwf Hl Ho Hnz Hm Hn Hrun Hcpu Hq Hw Hper.
  set (o' := mk_timer (t_magic o) cpu (t_running o) (now + delay) period callback arg).
  set (s1 := mk_timer_state (<[t := o']> (timer_objs s)) (timer_queue s) true (hw_timer s)).
  assert (timers_wf s1) as Hwf1.
  { eapply (timers_wf_ext (with_objs (<[t := o']>) s)); [done..|]. by apply wf_set_obj. }
  assert (t ∉ q) as Htq by (rewrite node_in_list_false in Hn; by eapply Hn).
  destruct (insert_timer_spec cpu t s1 o' q) as (q1 & q2 & E & Hins & Hwf2 & H1 & H2);
    [done|by apply lookup_insert_eq|done..|].
  exists q1, q2. cbn -[bool_decide]. split_and!; [done| | | |].
  - unfold timer_set. gstep. rewrite assert_bind by (by apply Z.eqb_eq).
    rewrite timer_lock_bind by done. rewrite gets_bind. cbn [timer_queue]. rewrite Hn, ret_bind.
    rewrite assert_bind by (destruct (t_running o); [by apply Z.eqb_eq, Hrun|done]).
    rewrite assert_bind by (by apply Z.ltb_lt).
    unfold set_timer. rewrite modify_bind. rewrite u64_small by (unfold in_window in Hw; lia).
    fold o'. change (with_objs _ _) with s1. rewrite (bind_eq _ _ _ _ _ Hins).
    destruct dyn; cbn [andb]; [|done].
    rewrite bind_assoc. erewrite bind_eq by (apply peek_timer_eq, lookup_insert_eq).
    rewrite head_insert_eq by set_solver. by case_bool_decide.
  - eapply timers_wf_ext; [..|exact Hwf2]; done.
  - apply Forall_forall. intros e He. rewrite Forall_forall in H1. destruct (H1 e He) as (oe & Hoe & ?).
    exists oe. split; [|done]. cbn in Hoe. by rewrite lookup_insert_ne in Hoe by set_solver.
  - apply Forall_forall. intros e He. rewrite Forall_forall in H2. destruct (H2 e He) as (oe & Hoe & ?).
    exists oe. split; [|done]. cbn in Hoe. by rewrite lookup_insert_ne in Hoe by set_solver.
Qed.
(** The comparator of a cpu is set for the first timer of its queue, or for a
    moment that has already come. *)
Definition armed (now : Z) (s : timer_state) (cpu : Z) : Prop :=
  forall t q o, timer_queue s !! cpu = Some (t :: q) -> timer_objs s !! t = Some o ->
  exists w, hw_timer s !! cpu = Some w /\ w <= Z.max now (scheduled_time o).

(** The comparator after a cancellation that leaves [q'] of the queue [q]. *)
Definition hw_after_cancel (cpu now : Z) (s : timer_state) (q q' : list Z) : gmap Z Z :=
  match q' with
  | [] => delete cpu (hw_timer s)
  | n :: _ =>
      if default 0 (head q) =? n then hw_timer s
      else match timer_objs s !! n with
           | Some o => <[cpu := Z.max now (scheduled_time o)]> (hw_timer s)
           | None => hw_timer s
           end
  end.

Lemma wait_callback_skip yield fuel wait t s o :
  timer_objs s !! t = Some o -> wait && t_running o = false -> wait_callback yield fuel wait t s = Some (tt, s).
Proof. intros Ho Hw. destruct fuel; cbn; gstep; by rewrite Hw. Qed.

Lemma timer_cancel_run yield fuel cpu now ints wait t s o q :
  timers_wf s -> timer_locked s = false -> timer_objs s !! t = Some o ->
  t_magic o = TIMER_MAGIC -> ints = negb wait -> (if wait then t_running o = false else t_cpu o = cpu) ->
  cpu < SMP_MAX_CPUS -> timer_queue s !! cpu = Some q -> in_window now ->
  let o' := mk_timer (t_magic o) (t_cpu o) (t_running o) (scheduled_time o) 0 (t_callback o) (t_arg o) in
  let q' := filter (fun x => x <> t) q in
  timer_cancel_etc SMP_MAX_CPUS dyn yield fuel cpu now ints t wait s =
  Some (tt, mk_timer_state (<[t := o']> (timer_objs s)) (node_delete t (timer_queue s)) false
              (if dyn then hw_after_cancel cpu now s q q' else hw_timer s)).
Proof.
  intros Hwf Hl Ho Hm -> Hc Hcpu Hq Hnow o' q'. unfold timer_cancel_etc. gstep.
  rewrite assert_bind by (by apply Z.eqb_eq). rewrite assert_bind by (by destruct wait).
  rewrite assert_bind by (by destruct wait). rewrite timer_lock_bind by done.
  rewrite assert_bind by (destruct wait; [done|cbn; by apply Z.eqb_eq]).
  erewrite bind_eq by (eapply wait_callback_skip; [exact Ho|by destruct wait]).
  assert (node_delete t (timer_queue s) !! cpu = Some q') as Hq'
    by (rewrite node_delete_lookup, Hq; done).
  destruct dyn.
  - rewrite bind_assoc, assert_bind by (by apply Z.ltb_lt).
    erewrite bind_eq by (apply peek_timer_eq; exact Hq). rewrite modify_bind. cbn [timer_objs with_queue].
    erewrite bind_eq by (apply get_timer_eq; exact Ho). unfold set_timer. rewrite modify_bind. fold o'.
    rewrite bind_assoc. erewrite bind_eq by (apply peek_timer_eq; exact Hq').
    unfold hw_after_cancel. destruct q' as [|n p] eqn:Eq'; cbn [head default from_option id]; [done|].
    assert (n <> t /\ n ∈ q) as [Hnt Hnq].
    { apply elem_of_filter_ne. fold q'. rewrite Eq'. left. }
    destruct (wf_queued _ Hwf cpu q n Hq Hnq) as [(on & Hon & _ & _ & Hw & _) Hnz].
    rewrite (proj2 (Z.eqb_neq n 0)) by done. rewrite (Z.eqb_sym n).
    destruct (_ =? n); cbn [negb]; [done|].
    rewrite bind_assoc. erewrite bind_eq by (apply get_timer_eq; cbn; by rewrite lookup_insert_ne).
    rewrite Hon, time_lt_window by done.
    replace (if scheduled_time on <? now then now else scheduled_time on)
      with (Z.max now (scheduled_time on)) by (destruct (Z.ltb_spec (scheduled_time on) now); lia).
    done.
  - rewrite ret_bind, modify_bind. cbn [timer_objs with_queue].
    by erewrite bind_eq by (apply get_timer_eq; exact Ho).
Qed.

Lemma armed_filter now s cpu t q :
  timers_wf s -> armed now s cpu -> timer_queue s !! cpu = Some q ->
  forall x q' o, filter (fun y => y <> t) q = x :: q' -> timer_objs s !! x = Some o ->
  (default 0 (head q) = x \/ default 0 (head q) = t) /\
  exists w, hw_timer s !! cpu = Some w /\ w <= Z.max now (scheduled_time o).
Proof.
  intros Hwf Ha Hq x q' o Hf Ho. destruct q as [|y q]; [done|].
  destruct (wf_queued _ Hwf cpu (y :: q) y Hq ltac:(left)) as [(oy & Hoy & _) _].
  destruct (Ha y q oy Hq Hoy) as (w & Hw & Hle). cbn.
  destruct (decide (y = t)) as [->|Hyt].
  - split; [by right|]. exists w. split; [done|].
    rewrite filter_cons_False in Hf by (intros E; by apply E).
    pose proof (wf_sorted _ Hwf cpu _ Hq) as [_ Hs]%StronglySorted_inv. rewrite Forall_forall in Hs.
    assert (x ∈ q) as Hx by (eapply elem_of_filter_ne; rewrite Hf; left).
    specialize (Hs x Hx). unfold due_le in Hs. rewrite Hoy, Ho in Hs. lia.
  - rewrite filter_cons_True in Hf by done. injection Hf as -> <-. split; [by left|].
    exists w. split; [done|]. congruence.
Qed.

Lemma cancel_armed cpu now t s q cpu' :
  timers_wf s -> armed now s cpu' -> timer_queue s !! cpu = Some q -> dyn = true ->
  forall o o', timer_objs s !! t = Some o -> scheduled_time o' = scheduled_time o ->
  armed now (mk_timer_state (<[t := o']> (timer_objs s)) (node_delete t (timer_queue s)) false
              (if dyn then hw_after_cancel cpu now s q (filter (fun x => x <> t) q) else hw_timer s)) cpu'.
Proof.
  intros Hwf Ha Hq -> o o' Ho Hs x p ox. cbn -[hw_after_cancel]. rewrite node_delete_lookup.
  intros (q0 & Hq0 & Hf)%fmap_Some Hox. symmetry in Hf.
  assert (x <> t) as Hxt by (assert (x ∈ x :: p) as Hx by left; rewrite <- Hf in Hx;
    by apply elem_of_filter_ne in Hx as [? _]).
  rewrite lookup_insert_ne in Hox by done.
  destruct (armed_filter now s cpu' t q0 Hwf Ha Hq0 x p ox Hf Hox) as (_ & w & Hw & Hle).
  unfold hw_after_cancel. destruct (decide (cpu' = cpu)) as [->|Hne].
  - replace q0 with q in * by congruence. rewrite Hf. destruct (_ =? x); [by exists w|].
    rewrite Hox. rewrite lookup_insert_eq. eexists. split; [done|lia].
  - exists w. split; [|done].
    destruct (filter _ q) as [|n ?]; [by rewrite lookup_delete_ne|].
    destruct (_ =? n); [done|]. destruct (timer_objs s !! n); [|done]. by rewrite lookup_insert_ne.
Qed.

(** ** The tick *)

Lemma wf_update_obj s t o o' :
  timers_wf s -> timer_objs s !! t = Some o -> t_magic o' = t_magic o -> t_cpu o' = t_cpu o ->
  scheduled_time o' = scheduled_time o -> in_period (periodic_time o') \/ periodic_time o' = periodic_time o ->
  timers_wf (with_objs (<[t := o']> ) s).
Proof.
  intros [H1 H2 H3] Ho Hm Hc Hs Hp. constructor; cbn; [|done|].
  - intros cpu q x Hq Hx. destruct (H1 cpu q x Hq Hx) as [(ox & Hox & ? & ? & ? & ?) ?].
    split; [|done]. cbn. rewrite lookup_insert. case_decide; [|by exists ox].
    subst x. exists o'. replace ox with o in * by congruence. rewrite Hm, Hc, Hs.
    split_and!; [done..|]. destruct Hp as [?|Hp]; [done|]. by rewrite Hp.
  - intros cpu q Hq. eapply StronglySorted_mono; [|by eapply H3].
    intros a b. unfold due_le. rewrite !lookup_insert.
    repeat case_decide; subst; rewrite ?Ho, ?Hs; done.
Qed.

Lemma due_update_obj s t o o' cpu now :
  timer_objs s !! t = Some o -> scheduled_time o' = scheduled_time o ->
  due (with_objs (<[t := o']>) s) cpu now = due s cpu now.
Proof.
  intros Ho Hs. unfold due. cbn. apply list_filter_iff. intros x. unfold due_at. cbn.
  rewrite lookup_insert. case_decide; [|done]. subst x. rewrite Ho.
  split; intros (o1 & [= <-] & ?); eexists; (split; [done|lia]).
Qed.

Lemma due_insert_later s t o cpu q qa qb now :
  timer_queue s !! cpu = Some q -> q = qa ++ qb -> t ∉ q -> now < scheduled_time o ->
  due (with_queue (<[cpu := qa ++ t :: qb]>) (with_objs (<[t := o]>) s)) cpu now = due s cpu now.
Proof.
  intros Hq -> Ht Hs. unfold due. cbn [timer_queue with_queue with_objs].
  rewrite lookup_insert_eq, Hq. cbn [default from_option id].
  assert (~ due_at (with_queue (<[cpu := qa ++ t :: qb]>) (with_objs (<[t := o]>) s)) now t) as Hn.
  { intros (o' & Ho' & ?). cbn in Ho'. rewrite lookup_insert_eq in Ho'. simplify_eq. lia. }
  rewrite filter_app, filter_cons_False by done. rewrite <- filter_app.
  apply filter_ext_in. intros x Hx. unfold due_at. cbn.
  by rewrite lookup_insert_ne by (intros ->; done).
Qed.

(** What a callback must respect; what it does to other timers is free, as long
    as it adds none that is already due on the cpu being served. *)
Definition callback_ok (run_callback : Z -> Z -> Z -> Z -> M timer_state bool) (cpu now : Z) : Prop :=
  forall c t a s o,
    timers_wf s -> timer_locked s = false -> is_Some (timer_queue s !! cpu) ->
    timer_objs s !! t = Some o -> t_magic o = TIMER_MAGIC -> t_cpu o = cpu -> t <> 0 -> in_period (periodic_time o) ->
    exists b s' o', run_callback c t now a s = Some (b, s') /\
      timers_wf s' /\ timer_locked s' = false /\ is_Some (timer_queue s' !! cpu) /\
      timer_objs s' !! t = Some o' /\ t_magic o' = TIMER_MAGIC /\ t_cpu o' = cpu /\
      in_period (periodic_time o') /\
      (length (due s' cpu now) <= length (due s cpu now))%nat.

Lemma timer_fire_run cb cpu now t q s r :
  callback_ok cb cpu now -> timers_wf s -> timer_locked s = true ->
  timer_queue s !! cpu = Some (t :: q) -> due_at s now t -> in_period now ->
  exists r' s', timer_fire cb cpu now t r s = Some (r', s') /\ timers_wf s' /\
    timer_locked s' = true /\ is_Some (timer_queue s' !! cpu) /\
    (length (due s' cpu now) < length (due s cpu now))%nat.
Proof.
  intros Hcb Hwf Hl Hq Hdue Hnow.
  destruct (wf_queued _ Hwf cpu _ t Hq ltac:(left)) as [(o & Ho & Hm & Hc & Hw & Hp) Hnz].
  set (o1 := mk_timer (t_magic o) (t_cpu o) true (scheduled_time o) (periodic_time o) (t_callback o) (t_arg o)).
  set (s1 := mk_timer_state (<[t := o1]> (timer_objs s)) (node_delete t (timer_queue s)) false (hw_timer s)).
  assert (timers_wf s1) as Hwf1.
  { eapply (timers_wf_ext (with_objs (<[t := o1]>) (with_queue (node_delete t) s))); [done..|].
    eapply wf_update_obj; [by apply wf_delete|exact Ho|done|done|done|by right]. }
  assert (node_delete t (timer_queue s) !! cpu = Some q) as Hq1.
  { rewrite node_delete_lookup, Hq. cbn [fmap option_fmap option_map]. f_equal.
    apply filter_ne_head. exact (wf_nodup _ Hwf _ _ Hq). }
  assert (length (due s1 cpu now) < length (due s cpu now))%nat as Hlen.
  { assert (due s1 cpu now = filter (due_at s now) q) as ->.
    { transitivity (due (with_queue (node_delete t) s) cpu now);
        [by apply (due_update_obj (with_queue (node_delete t) s) t o o1)|].
      unfold due. cbn [timer_queue with_queue]. by rewrite Hq1. }
    unfold due. rewrite Hq. cbn [default from_option id]. rewrite filter_cons_True by done. cbn. lia. }
  destruct (Hcb (t_callback o1) t (t_arg o1) s1 o1) as
    (b & s2 & o2 & Erun & Hwf2 & Hl2 & [q2 Hq2] & Ho2 & Hm2 & Hc2 & Hw2 & Hlen2);
    [done|done|by (exists q; exact Hq1)|by apply lookup_insert_eq|done..|].
  set (o3 := mk_timer (t_magic o2) (t_cpu o2) false (scheduled_time o2) (periodic_time o2) (t_callback o2) (t_arg o2)).
  set (s3 := mk_timer_state (<[t := o3]> (timer_objs s2)) (timer_queue s2) true (hw_timer s2)).
  assert (timers_wf s3) as Hwf3.
  { eapply (timers_wf_ext (with_objs (<[t := o3]>) s2)); [done..|]. eapply wf_update_obj; [done..|by right]. }
  assert (due s3 cpu now = due s2 cpu now) as Hdue3 by (by apply (due_update_obj s2 t o2 o3)).
  unfold timer_fire, set_running. gstep. rewrite assert_bind by (by apply Z.eqb_eq).
  rewrite modify_bind, bind_assoc. erewrite bind_eq by (apply get_timer_eq; exact Ho).
  unfold set_timer. rewrite modify_bind. erewrite bind_eq by reflexivity. cbn [timer_objs timer_queue hw_timer with_objs with_queue].
  fold o1 s1. erewrite bind_eq by (exact Erun). rewrite timer_lock_bind by done.
  erewrite bind_eq by (apply get_timer_eq; exact Ho2). rewrite assert_bind by (by apply Z.eqb_eq).
  rewrite bind_assoc. erewrite bind_eq by (apply get_timer_eq; exact Ho2).
  rewrite modify_bind, gets_bind.
  match goal with |- context [with_objs ?f (mk_timer_state ?a ?b ?c ?d)] =>
    change (with_objs f (mk_timer_state a b c d)) with s3 end.
  destruct ((periodic_time o >? 0) && negb (node_in_list t (timer_queue s3)) && (periodic_time o2 >? 0)) eqn:Eb.
  - bprop.
    set (o4 := mk_timer (t_magic o3) (t_cpu o3) (t_running o3) (u64 (now + periodic_time o3))
                 (periodic_time o3) (t_callback o3) (t_arg o3)).
    rewrite bind_assoc. erewrite bind_eq by (apply get_timer_eq, lookup_insert_eq).
    rewrite ?bind_assoc, modify_bind. fold o4.
    assert (timers_wf (with_objs (<[t := o4]>) s3)) as Hwf4 by (by apply wf_set_obj).
    assert (scheduled_time o4 = now + periodic_time o2) as Hs4
      by (cbn; apply u64_small; unfold in_period in *; lia).
    destruct (insert_timer_spec cpu t (with_objs (<[t := o4]>) s3) o4 q2) as (qa & qb & E & Hins & Hwf5 & _ & _);
      [done|by apply lookup_insert_eq|done|done|rewrite Hs4; unfold in_period, in_window in *; lia|done..|].
    erewrite bind_eq by (exact Hins). do 2 eexists. split_and!; [reflexivity|done|done| |].
    + cbn. rewrite lookup_insert_eq. by eexists.
    + eapply Nat.le_lt_trans; [|exact Hlen]. etransitivity; [|exact Hlen2]. rewrite <- Hdue3.
      rewrite (due_insert_later s3 t o4 cpu q2 qa qb now); [done|exact Hq2|exact E| |rewrite Hs4; lia].
      apply (proj1 (node_in_list_false t (timer_queue s3)) ltac:(done) cpu q2 Hq2).
  - rewrite ret_bind. do 2 eexists. split_and!; [reflexivity|done|done|by exists q2|]. rewrite Hdue3. lia.
Qed.

Lemma due_nil_head s cpu now t q :
  timer_queue s !! cpu = Some (t :: q) -> due_at s now t -> due s cpu now <> [].
Proof. intros Hq Hd. unfold due. rewrite Hq. cbn [default from_option id]. by rewrite filter_cons_True. Qed.

Lemma due_nil_later s cpu now t q :
  timers_wf s -> timer_queue s !! cpu = Some (t :: q) -> ~ due_at s now t -> due s cpu now = [].
Proof.
  intros Hwf Hq Hn. unfold due. rewrite Hq. cbn [default from_option id].
  apply elem_of_nil_inv. intros x [(ox & Hox & ?) Hx]%list_elem_of_filter. apply Hn.
  destruct (wf_queued _ Hwf cpu _ t Hq ltac:(left)) as [(o & Ho & _) _].
  exists o. split; [done|]. apply elem_of_cons in Hx as [->|Hx]; [congruence|].
  pose proof (wf_sorted _ Hwf cpu _ Hq) as [_ Hs]%StronglySorted_inv. rewrite Forall_forall in Hs.
  specialize (Hs x Hx). unfold due_le in Hs. rewrite Ho, Hox in Hs. lia.
Qed.

Lemma timer_tick_loop_run cb cpu now :
  callback_ok cb cpu now -> in_period now ->
  forall fuel s r, timers_wf s -> timer_locked s = true -> is_Some (timer_queue s !! cpu) ->
  (length (due s cpu now) <= fuel)%nat ->
  exists r' s', timer_tick_loop cb fuel cpu now r s = Some (r', s') /\ timers_wf s' /\
    timer_locked s' = true /\ is_Some (timer_queue s' !! cpu) /\ due s' cpu now = [].
Proof.
  intros Hcb Hnow. induction fuel as [|fuel IH]; intros s r Hwf Hl [q Hq] Hlen.
  all: cbn [timer_tick_loop]; erewrite bind_eq by (apply peek_timer_eq; exact Hq).
  all: destruct q as [|t q]; [exists r, s; split_and!; [done|done|done|by eexists|unfold due; by rewrite Hq]|].
  all: destruct (wf_queued _ Hwf cpu _ t Hq ltac:(left)) as [(o & Ho & _ & _ & Hw & _) Hnz].
  all: cbn [head default from_option id]; rewrite (proj2 (Z.eqb_neq t 0)) by done.
  all: gstep; rewrite time_lt_window by eauto with lk; destruct (Z.ltb_spec now (scheduled_time o)).
  all: try (exists r, s; split_and!; [done|done|done|by eexists|]; eapply due_nil_later; [done|exact Hq|];
    intros (o' & ? & ?); simplify_eq; lia).
  all: assert (due_at s now t) as Hd by (by exists o).
  - pose proof (due_nil_head _ _ _ _ _ Hq Hd). by destruct (due s cpu now); cbn in Hlen; [|lia].
  - destruct (timer_fire_run cb cpu now t q s r Hcb Hwf Hl Hq Hd Hnow) as (r1 & s1 & E & ? & ? & ? & ?).
    erewrite bind_eq by (exact E). apply IH; [done..|lia].
Qed.

(** ** The lock *)
Lemma timer_lock_inv s u s' : timer_lock s = Some (u, s') -> timer_locked s' = true.
Proof. unfold timer_lock. destruct (timer_locked s); naive_solver. Qed.

Lemma timer_fire_locked cb cpu now t r s r' s' :
  timer_fire cb cpu now t r s = Some (r', s') -> timer_locked s' = true.
Proof.
  unfold timer_fire, set_running, insert_timer_in_queue, get_timer, get_queue, set_timer. intros H. minv.
  match goal with H : timer_lock _ = Some _ |- _ => apply timer_lock_inv in H end.
  repeat match goal with H : (if ?b then _ else _) _ = Some _ |- _ => destruct b; minv end; done.
Qed.

Lemma timer_tick_loop_locked cb cpu now fuel r s r' s' :
  timer_tick_loop cb fuel cpu now r s = Some (r', s') -> timer_locked s = true -> timer_locked s' = true.
Proof.
  revert r s. induction fuel as [|fuel IH]; intros r s H Hl; cbn [timer_tick_loop] in H.
  all: unfold peek_timer, get_queue, get_timer in H; minv.
  all: repeat match goal with H : (if ?b then _ else _) _ = Some _ |- _ => destruct b; minv end; try done.
  eapply IH; [eassumption|]. by eapply timer_fire_locked.
Qed.

Lemma locked_set d cpu now t delay period f arg s :
  timer_locked s = true -> timer_set SMP_MAX_CPUS d cpu now t delay period f arg s = None.
Proof.
  intros Hl. destruct (timer_set _ _ _ _ _ _ _ _ _ s) as [[u s']|] eqn:E; [|done].
  unfold timer_set, get_timer in E. minv.
  match goal with H : timer_lock _ = Some _ |- _ => unfold timer_lock in H; by rewrite Hl in H end.
Qed.

Lemma locked_tick d cb fuel cpu now s :
  timer_locked s = true -> timer_tick SMP_MAX_CPUS d cb fuel cpu now s = None.
Proof.
  intros Hl. destruct (timer_tick _ _ _ _ _ _ s) as [[u s']|] eqn:E; [|done].
  unfold timer_tick in E. minv.
  match goal with H : timer_lock _ = Some _ |- _ => unfold timer_lock in H; by rewrite Hl in H end.
Qed.

(** ** Properties *)

(** C2: setting a timer files it behind every entry of this cpu's queue that is
    due no later and before every entry that is due later (so equal times fire in
    the order they were set), keeps all queues well formed, programs the
    comparator exactly when the new timer became the first one, and so never
    leaves a queue whose first timer is later than its comparator. *)
Theorem timer_set_sorted cpu now t delay period callback arg s o q :
  timers_wf s -> timer_locked s = false -> timer_objs s !! t = Some o -> t <> 0 ->
  t_magic o = TIMER_MAGIC -> node_in_list t (timer_queue s) = false ->
  (t_running o = true -> t_cpu o = cpu) -> cpu < SMP_MAX_CPUS ->
  timer_queue s !! cpu = Some q -> in_window (now + delay) -> in_period period ->
  exists q1 q2 s',
    timer_set SMP_MAX_CPUS dyn cpu now t delay period callback arg s = Some (tt, s') /\
    q = q1 ++ q2 /\ timer_queue s' = <[cpu := q1 ++ t :: q2]> (timer_queue s) /\
    Forall (fun e => exists oe, timer_objs s !! e = Some oe /\ scheduled_time oe <= now + delay) q1 /\
    Forall (fun e => exists oe, timer_objs s !! e = Some oe /\ now + delay < scheduled_time oe) q2 /\
    timers_wf s' /\ timer_locked s' = false /\
    (dyn = true -> (forall c, armed now s c) -> forall c, armed now s' c).
Proof.
  intros Hwf Hl Ho Hnz Hm Hn Hrun Hcpu Hq Hw Hper.
  destruct (timer_set_run cpu now t delay period callback arg s o q) as (q1 & q2 & E & Hrun' & Hwf' & H1 & H2);
    [done..|].
  exists q1, q2. eexists. split_and!; [exact Hrun'|done..|].
  rewrite node_in_list_false in Hn. intros -> Ha c x p ox. cbn [timer_queue timer_objs hw_timer andb].
  rewrite lookup_insert. case_decide as Hc.
  - subst c. intros [= Hp] Hox. destruct q1 as [|y q1]; cbn in Hp; simplify_eq; cbn.
    + rewrite !lookup_insert_eq in *. simplify_eq. eexists. split; [done|]. cbn. lia.
    + rewrite lookup_insert_ne in Hox by (intros ->; eapply Hn; [exact Hq|left]).
      by apply (Ha cpu x (q1 ++ q2)).
  - intros Hp Hox. rewrite lookup_insert_ne in Hox by (intros ->; eapply Hn; [exact Hp|left]).
    destruct (Ha c x p ox Hp Hox) as (w & ? & ?). exists w. split; [|done].
    case_bool_decide; [|done]. by rewrite lookup_insert_ne.
Qed.

(** Cancelling a timer that is not running takes it out of whatever queue it
    was in and out of no other, clears its period so that the tick cannot put it
    back, and leaves no cpu with a pending first timer its comparator misses. *)
Theorem timer_cancel_removes yield fuel cpu now (wait : bool) t s o q :
  timers_wf s -> timer_locked s = false -> timer_objs s !! t = Some o ->
  t_magic o = TIMER_MAGIC -> (if wait then t_running o = false else t_cpu o = cpu) ->
  cpu < SMP_MAX_CPUS -> timer_queue s !! cpu = Some q -> in_window now ->
  exists s',
    timer_cancel_etc SMP_MAX_CPUS dyn yield fuel cpu now (negb wait) t wait s = Some (tt, s') /\
    timers_wf s' /\ timer_locked s' = false /\
    node_in_list t (timer_queue s') = false /\
    (forall c x, x <> t -> (exists p, timer_queue s' !! c = Some p /\ x ∈ p) <->
                          (exists p, timer_queue s !! c = Some p /\ x ∈ p)) /\
    (exists o', timer_objs s' !! t = Some o' /\ periodic_time o' = 0) /\
    (dyn = true -> (forall c, armed now s c) -> forall c, armed now s' c).
Proof.
  intros Hwf Hl Ho Hm Hc Hcpu Hq Hnow. eexists. split; [by eapply timer_cancel_run|].
  split_and!; [|done|apply node_delete_notin| | |].
  - match goal with |- timers_wf (mk_timer_state (<[t := ?o1]> _) _ _ _) =>
      eapply (timers_wf_ext (with_objs (<[t := o1]>) (with_queue (node_delete t) s))); [done..|] end.
    eapply wf_update_obj; [by apply wf_delete|exact Ho|done|done|done|by left].
  - intros c x Hx. cbn [timer_queue]. rewrite node_delete_lookup. split.
    + intros (p & (p0 & Hp & ->)%fmap_Some & [_ ?]%elem_of_filter_ne). by exists p0.
    + intros (p & -> & ?). eexists. split; [done|]. by apply elem_of_filter_ne.
  - eexists. cbn [timer_objs]. rewrite lookup_insert_eq. by split.
  - intros Hd Ha c. by eapply cancel_armed.
Qed.

(** C3: the timer interrupt ends after at most one round per due timer whatever
    the callbacks do (as long as they add no timer that is already due), leaves
    no due timer in the queue of the cpu, keeps the queues well formed, and with
    a dynamic timer releases the lock with the comparator set for the next one. *)
Theorem timer_tick_total cb cpu now fuel s :
  callback_ok cb cpu now -> in_period now -> cpu < SMP_MAX_CPUS ->
  timers_wf s -> timer_locked s = false -> is_Some (timer_queue s !! cpu) ->
  (length (due s cpu now) <= fuel)%nat ->
  exists r s', timer_tick SMP_MAX_CPUS dyn cb fuel cpu now s = Some (r, s') /\ timers_wf s' /\
    due s' cpu now = [] /\
    (dyn = true -> timer_locked s' = false /\
       forall t q o, timer_queue s' !! cpu = Some (t :: q) -> timer_objs s' !! t = Some o ->
       hw_timer s' !! cpu = Some (scheduled_time o)).
Proof.
  intros Hcb Hnow Hcpu Hwf Hl Hq Hfuel. unfold timer_tick. rewrite assert_bind by (by apply Z.ltb_lt).
  rewrite timer_lock_bind by done. set (s1 := mk_timer_state _ _ _ _).
  destruct (timer_tick_loop_run cb cpu now Hcb Hnow fuel s1 false) as (r & s2 & E & Hwf2 & Hl2 & [q2 Hq2] & Hd2);
    [apply (timers_wf_ext s); done|done..|].
  erewrite bind_eq by (exact E). destruct dyn; cbn [negb]; [|by exists r, s2].
  rewrite bind_assoc. erewrite bind_eq by (apply peek_timer_eq; exact Hq2). destruct q2 as [|t q2].
  - exists r. eexists. split_and!; [reflexivity|by apply (timers_wf_ext s2)|unfold due in *; by cbn; rewrite Hq2|].
    intros _. split; [done|]. cbn. rewrite Hq2. naive_solver.
  - destruct (wf_queued _ Hwf2 cpu _ t Hq2 ltac:(left)) as [(o & Ho & _ & _ & Hw & _) Hnz].
    assert (now < scheduled_time o) as Hlater.
    { apply Z.nle_gt. intros Hle. by apply (due_nil_head s2 cpu now t q2 Hq2); [exists o|]. }
    cbn [head default from_option id]. rewrite (proj2 (Z.eqb_neq t 0)) by done. cbn [negb].
    rewrite !bind_assoc. gstep.
    rewrite ?bind_assoc, assert_bind by (rewrite time_gt_window by eauto with lk; by apply Z.ltb_lt).
    exists r. eexists. split_and!; [reflexivity|by apply (timers_wf_ext s2)| |].
    + unfold due in *. cbn. rewrite Hq2 in *. cbn in *. exact Hd2.
    + intros _. split; [done|]. cbn. rewrite Hq2. intros t' q' o' [= <- <-] Ho'.
      rewrite lookup_insert_eq. congruence.
Qed.

(** Without a dynamic timer [timer_tick] returns with [timer_lock] still
    held, so that no timer can be set, cancelled or served on any cpu afterwards. *)
Theorem timer_tick_keeps_lock cb cpu now fuel s r s' :
  timer_tick SMP_MAX_CPUS false cb fuel cpu now s = Some (r, s') ->
  timer_locked s' = true /\
  (forall d cpu' now' t delay period f arg,
     timer_set SMP_MAX_CPUS d cpu' now' t delay period f arg s' = None) /\
  (forall d cb' fuel' cpu' now', timer_tick SMP_MAX_CPUS d cb' fuel' cpu' now' s' = None).
Proof.
  intros Hrun. assert (timer_locked s' = true) as Hl.
  { unfold timer_tick in Hrun. minv. eapply timer_tick_loop_locked; [eassumption|].
    match goal with H : timer_lock _ = Some _ |- _ => by apply timer_lock_inv in H end. }
  split_and!; [done|intros; eapply locked_set; eassumption|intros; by apply locked_tick].
Qed.
End spec.

(** ** A concrete state: cpu 0 waits for timer 100 at 10 and timer 101 (periodic)
    at 30, timer 102 is idle. *)
Definition example_timers : timer_state :=
  mk_timer_state
    (list_to_map [(100, mk_timer TIMER_MAGIC 0 false 10 0 7 0); (101, mk_timer TIMER_MAGIC 0 false 30 20 8 0);
                  (102, TIMER_INITIAL_VALUE)])
    (list_to_map [(0, [100; 101]); (1, [])]) false (list_to_map [(0, 10)]).

(** A callback that does nothing. *)
Definition idle_callback (c t now a : Z) : M timer_state bool := ret false.

Lemma example_queues cpu q : timer_queue example_timers !! cpu = Some q -> (cpu, q) ∈ [(0, [100; 101]); (1, [])].
Proof. apply elem_of_list_to_map_2. Qed.

Lemma example_timers_wf : timers_wf example_timers.
Proof.
  constructor; intros cpu q.
  - intros t Hq%example_queues Ht. set_unfold in Hq. destruct_or! Hq; simplify_eq; set_unfold in Ht; [|done].
    destruct_or! Ht; subst; (split; [eexists; split; [reflexivity|]; unfold in_window, in_period; cbn; lia|done]).
  - intros Hq%example_queues. set_unfold in Hq. destruct_or! Hq; simplify_eq.
    all: repeat (apply NoDup_cons; split; [set_solver by lia|]); apply NoDup_nil_2.
  - intros Hq%example_queues. set_unfold in Hq. destruct_or! Hq; simplify_eq.
    all: repeat constructor. vm_compute. discriminate.
Qed.

Lemma timer_set_sorted_witness :
  exists q1 q2 s',
    timer_set 2 true 0 5 102 10 0 9 0 example_timers = Some (tt, s') /\
    [100; 101] = q1 ++ q2 /\ timer_queue s' = <[0 := q1 ++ 102 :: q2]> (timer_queue example_timers) /\
    Forall (fun e => exists oe, timer_objs example_timers !! e = Some oe /\ scheduled_time oe <= 5 + 10) q1 /\
    Forall (fun e => exists oe, timer_objs example_timers !! e = Some oe /\ 5 + 10 < scheduled_time oe) q2 /\
    timers_wf s' /\ timer_locked s' = false /\
    (true = true -> (forall c, armed 5 example_timers c) -> forall c, armed 5 s' c).
Proof.
  eapply (timer_set_sorted 2 true 0 5 102 10 0 9 0 example_timers TIMER_INITIAL_VALUE [100; 101]).
  all: first [exact example_timers_wf|reflexivity|lia|done|unfold in_window, in_period; lia].
Defined.

Lemma timer_cancel_removes_witness :
  exists s',
    timer_cancel_etc 2 true (ret tt) 0 0 5 true 100 false example_timers = Some (tt, s') /\
    timers_wf s' /\ timer_locked s' = false /\
    node_in_list 100 (timer_queue s') = false /\
    (forall c x, x <> 100 -> (exists p, timer_queue s' !! c = Some p /\ x ∈ p) <->
                          (exists p, timer_queue example_timers !! c = Some p /\ x ∈ p)) /\
    (exists o', timer_objs s' !! 100 = Some o' /\ periodic_time o' = 0) /\
    (true = true -> (forall c, armed 5 example_timers c) -> forall c, armed 5 s' c).
Proof.
  eapply (timer_cancel_removes 2 true (ret tt) 0 0 5 false 100 example_timers _ [100; 101]).
  all: first [exact example_timers_wf|reflexivity|lia|done|unfold in_window, in_period; lia].
Defined.

Lemma idle_callback_ok cpu now : callback_ok idle_callback cpu now.
Proof. intros c t a s o ????????. exists false, s, o. split_and!; done. Qed.

Lemma timer_tick_total_witness :
  exists r s', timer_tick 2 true idle_callback 2 0 30 example_timers = Some (r, s') /\ timers_wf s' /\
    due s' 0 30 = [] /\
    (true = true -> timer_locked s' = false /\
       forall t q o, timer_queue s' !! 0 = Some (t :: q) -> timer_objs s' !! t = Some o ->
       hw_timer s' !! 0 = Some (scheduled_time o)).
Proof.
  apply (timer_tick_total 2 true idle_callback 0 30 2 example_timers).
  all: first [exact example_timers_wf|apply idle_callback_ok|reflexivity|by eexists|unfold in_period; lia|vm_compute; lia].
Defined.

Lemma timer_tick_keeps_lock_witness :
  exists r s', timer_tick 2 false idle_callback 2 0 5 example_timers = Some (r, s') /\
  timer_locked s' = true /\
  (forall d cpu' now' t delay period f arg,
     timer_set 2 d cpu' now' t delay period f arg s' = None) /\
  (forall d cb' fuel' cpu' now', timer_tick 2 d cb' fuel' cpu' now' s' = None).
Proof.
  destruct (timer_tick 2 false idle_callback 2 0 5 example_timers) as [[r s']|] eqn:E;
    [|vm_compute in E; discriminate].
  exists r, s'. split; [reflexivity|]. by apply (timer_tick_keeps_lock 2 idle_callback 0 5 2 example_timers r s').
Defined.
