(* ===== verification/Sched.v ===== *)
(** * Threads, run queues and wait queues (kernel/thread.c, kernel/mp.c)

    [sched] is the state that the thread lock protects. Every operation is
    executed by a cpu, its first argument; [arch_curr_cpu_num()] is that cpu.
    An operation that reschedules ends with [Switched] when the cpu left the
    calling thread's stack: the rest of the caller's code runs when that thread
    is switched to again, and the thread lock is then still held by the cpu. *)
From stdpp Require Import base gmap list.
From Stdlib Require Import ZArith Lia.
From S2P Require Import Prelude.

Local Open Scope Z_scope.
Local Open Scope lk_scope.

(** ** Constants (include/kernel/thread.h, include/uapi/uapi/err.h) *)
Definition NO_ERROR : Z := 0.
Definition ERR_NOT_READY : Z := -3.
Definition ERR_OBJECT_DESTROYED : Z := -11.
Definition ERR_NOT_BLOCKED : Z := -12.
Definition ERR_TIMED_OUT : Z := -13.
Definition ERR_THREAD_DETACHED : Z := -34.
Definition INFINITE_TIME : Z := UINT32_MAX.

Definition THREAD_FLAG_DETACHED : Z := 1.
Definition THREAD_FLAG_REAL_TIME : Z := 8.
Definition THREAD_FLAG_IDLE : Z := 16.
Definition THREAD_MAGIC : Z := 0x74687264.
Definition WAIT_QUEUE_MAGIC : Z := 0x77616974.

Definition NUM_PRIORITIES : Z := 32.
Definition HIGHEST_PRIORITY : Z := 31.
Definition DEFAULT_PRIORITY : Z := 16.
Definition IDLE_PRIORITY : Z := 0.

(** ** Data *)
Inductive thread_state :=
| THREAD_SUSPENDED | THREAD_READY | THREAD_RUNNING | THREAD_BLOCKED | THREAD_SLEEPING | THREAD_DEATH.

#[export] Instance thread_state_eq_dec : EqDecision thread_state.
Proof. solve_decision. Defined.

Definition state_eqb (a b : thread_state) : bool := bool_decide (a = b).

(** Wait queues: one embedded in an object at an address, the one in a thread
    struct that joiners wait on, and the reaper's. *)
Inductive wait_queue_ptr := WaitQueueAt (a : Z) | RetcodeWaitQueue (t : Z) | ReaperWaitQueue.

#[export] Instance wait_queue_ptr_eq_dec : EqDecision wait_queue_ptr.
Proof. solve_decision. Defined.
#[export] Instance wait_queue_ptr_countable : Countable wait_queue_ptr.
Proof.
  apply (inj_countable'
    (fun w => match w with WaitQueueAt a => (0%nat, a) | RetcodeWaitQueue t => (1%nat, t) | ReaperWaitQueue => (2%nat, 0) end)
    (fun p => match p with (0%nat, a) => WaitQueueAt a | (1%nat, t) => RetcodeWaitQueue t | _ => ReaperWaitQueue end)).
  by intros [].
Defined.

Record thread_t := mk_thread {
  magic : Z;
  cookie : Z;
  priority : Z;
  state : thread_state;
  remaining_quantum : Z;
  flags : Z;
  curr_cpu : Z;
  pinned_cpu : Z;
  aspace : Z;
  blocking_wait_queue : option wait_queue_ptr;
  wait_queue_block_ret : Z;
  retcode : Z
}.

Record wait_queue_t := mk_wait_queue { wq_magic : Z; wq_count : Z }.

Record mp_state := mk_mp { active_cpus : Z; idle_cpus : Z; realtime_cpus : Z }.

(** The list heads a [queue_node] can be linked on. *)
Inductive queue_head := RunQueue (p : Z) | WaitList (w : wait_queue_ptr).
#[export] Instance queue_head_eq_dec : EqDecision queue_head.
Proof. solve_decision. Defined.
#[export] Instance queue_head_countable : Countable queue_head.
Proof.
  apply (inj_countable'
    (fun q => match q with RunQueue p => inl p | WaitList w => inr w end)
    (fun s => match s with inl p => RunQueue p | inr w => WaitList w end)).
  by intros [].
Defined.

Record sched (T : Type) := mk_sched {
  threads : gmap Z thread_t;
  thread_list : list Z;
  dead_threads : list Z;
  queues : gmap queue_head (list Z);
  run_queue_bitmap : Z;
  cpu_priority : gmap Z Z;
  wait_queues : gmap wait_queue_ptr wait_queue_t;
  current : gmap Z Z;
  thread_lock_owner : Z;
  mp : mp_state;
  mmu_context : gmap Z Z;
  sent_ipis : list Z;
  timers : T
}.
Arguments mk_sched {T}.
Arguments threads {T}. Arguments thread_list {T}. Arguments dead_threads {T}. Arguments queues {T}.
Arguments run_queue_bitmap {T}. Arguments cpu_priority {T}. Arguments wait_queues {T}.
Arguments current {T}. Arguments thread_lock_owner {T}. Arguments mp {T}.
Arguments mmu_context {T}. Arguments sent_ipis {T}. Arguments timers {T}.

(** What the scheduler uses of kernel/timer.c: the preemption timer of each cpu
    and the timers on the stacks of blocked and sleeping threads. *)
Class TimerOps (T : Type) := {
  preempt_cancel : Z -> M T unit;
  preempt_set_periodic : Z -> Z -> M T unit;
  set_timeout : Z -> Z -> Z -> M T unit;
  cancel_timeout : Z -> Z -> M T unit
}.

(** Build-time parameters: the number of cpus and the addresses of the
    statically allocated idle threads. *)
Class Config := {
  SMP_MAX_CPUS : Z;
  idle_thread : Z -> Z
}.

(** The way back to a caller that may have been switched out. *)
Inductive outcome (A : Type) := Return (a : A) | Switched.
Arguments Return {A}. Arguments Switched {A}.

Section sched.
Context {T : Type} `{!TimerOps T} `{!Config}.
Implicit Types (s : sched T) (t cpu : Z) (w : wait_queue_ptr).
Local Abbreviation MS := (M (sched T)).

(** ** Field updates *)
Definition with_threads (f : gmap Z thread_t -> gmap Z thread_t) s : sched T :=
  mk_sched (f (threads s)) (thread_list s) (dead_threads s) (queues s) (run_queue_bitmap s) (cpu_priority s)
    (wait_queues s) (current s) (thread_lock_owner s) (mp s) (mmu_context s) (sent_ipis s) (timers s).
Definition with_thread_lists (f g : list Z -> list Z) s : sched T :=
  mk_sched (threads s) (f (thread_list s)) (g (dead_threads s)) (queues s) (run_queue_bitmap s) (cpu_priority s)
    (wait_queues s) (current s) (thread_lock_owner s) (mp s) (mmu_context s) (sent_ipis s) (timers s).
Definition with_queues (f : gmap queue_head (list Z) -> gmap queue_head (list Z)) s : sched T :=
  mk_sched (threads s) (thread_list s) (dead_threads s) (f (queues s)) (run_queue_bitmap s) (cpu_priority s)
    (wait_queues s) (current s) (thread_lock_owner s) (mp s) (mmu_context s) (sent_ipis s) (timers s).
Definition with_bitmap (f : Z -> Z) s : sched T :=
  mk_sched (threads s) (thread_list s) (dead_threads s) (queues s) (f (run_queue_bitmap s)) (cpu_priority s)
    (wait_queues s) (current s) (thread_lock_owner s) (mp s) (mmu_context s) (sent_ipis s) (timers s).
Definition with_cpu_priority (f : gmap Z Z -> gmap Z Z) s : sched T :=
  mk_sched (threads s) (thread_list s) (dead_threads s) (queues s) (run_queue_bitmap s) (f (cpu_priority s))
    (wait_queues s) (current s) (thread_lock_owner s) (mp s) (mmu_context s) (sent_ipis s) (timers s).
Definition with_wait_queues (f : gmap wait_queue_ptr wait_queue_t -> gmap wait_queue_ptr wait_queue_t) s : sched T :=
  mk_sched (threads s) (thread_list s) (dead_threads s) (queues s) (run_queue_bitmap s) (cpu_priority s)
    (f (wait_queues s)) (current s) (thread_lock_owner s) (mp s) (mmu_context s) (sent_ipis s) (timers s).
Definition with_current (f : gmap Z Z -> gmap Z Z) s : sched T :=
  mk_sched (threads s) (thread_list s) (dead_threads s) (queues s) (run_queue_bitmap s) (cpu_priority s)
    (wait_queues s) (f (current s)) (thread_lock_owner s) (mp s) (mmu_context s) (sent_ipis s) (timers s).
Definition with_owner (o : Z) s : sched T :=
  mk_sched (threads s) (thread_list s) (dead_threads s) (queues s) (run_queue_bitmap s) (cpu_priority s)
    (wait_queues s) (current s) o (mp s) (mmu_context s) (sent_ipis s) (timers s).
Definition with_mp (f : mp_state -> mp_state) s : sched T :=
  mk_sched (threads s) (thread_list s) (dead_threads s) (queues s) (run_queue_bitmap s) (cpu_priority s)
    (wait_queues s) (current s) (thread_lock_owner s) (f (mp s)) (mmu_context s) (sent_ipis s) (timers s).
Definition with_mmu (f : gmap Z Z -> gmap Z Z) s : sched T :=
  mk_sched (threads s) (thread_list s) (dead_threads s) (queues s) (run_queue_bitmap s) (cpu_priority s)
    (wait_queues s) (current s) (thread_lock_owner s) (mp s) (f (mmu_context s)) (sent_ipis s) (timers s).
Definition with_ipis (f : list Z -> list Z) s : sched T :=
  mk_sched (threads s) (thread_list s) (dead_threads s) (queues s) (run_queue_bitmap s) (cpu_priority s)
    (wait_queues s) (current s) (thread_lock_owner s) (mp s) (mmu_context s) (f (sent_ipis s)) (timers s).
Definition with_timers (x : T) s : sched T :=
  mk_sched (threads s) (thread_list s) (dead_threads s) (queues s) (run_queue_bitmap s) (cpu_priority s)
    (wait_queues s) (current s) (thread_lock_owner s) (mp s) (mmu_context s) (sent_ipis s) x.

(** Run a timer operation on the timer part of the state. *)
Definition on_timers {A} (m : M T A) : MS A := fun s =>
  match m (timers s) with
  | Some (a, x) => Some (a, with_timers x s)
  | None => None
  end.

Definition set_state (x : thread_state) (th : thread_t) : thread_t :=
  mk_thread (magic th) (cookie th) (priority th) x (remaining_quantum th) (flags th) (curr_cpu th)
    (pinned_cpu th) (aspace th) (blocking_wait_queue th) (wait_queue_block_ret th) (retcode th).
Definition set_quantum (x : Z) (th : thread_t) : thread_t :=
  mk_thread (magic th) (cookie th) (priority th) (state th) x (flags th) (curr_cpu th)
    (pinned_cpu th) (aspace th) (blocking_wait_queue th) (wait_queue_block_ret th) (retcode th).
Definition set_flags (x : Z) (th : thread_t) : thread_t :=
  mk_thread (magic th) (cookie th) (priority th) (state th) (remaining_quantum th) x (curr_cpu th)
    (pinned_cpu th) (aspace th) (blocking_wait_queue th) (wait_queue_block_ret th) (retcode th).
Definition set_curr_cpu (x : Z) (th : thread_t) : thread_t :=
  mk_thread (magic th) (cookie th) (priority th) (state th) (remaining_quantum th) (flags th) x
    (pinned_cpu th) (aspace th) (blocking_wait_queue th) (wait_queue_block_ret th) (retcode th).
Definition set_pinned (x : Z) (th : thread_t) : thread_t :=
  mk_thread (magic th) (cookie th) (priority th) (state th) (remaining_quantum th) (flags th) (curr_cpu th)
    x (aspace th) (blocking_wait_queue th) (wait_queue_block_ret th) (retcode th).
Definition set_priority (x : Z) (th : thread_t) : thread_t :=
  mk_thread (magic th) (cookie th) x (state th) (remaining_quantum th) (flags th) (curr_cpu th)
    (pinned_cpu th) (aspace th) (blocking_wait_queue th) (wait_queue_block_ret th) (retcode th).
Definition set_wait (q : option wait_queue_ptr) (r : Z) (th : thread_t) : thread_t :=
  mk_thread (magic th) (cookie th) (priority th) (state th) (remaining_quantum th) (flags th) (curr_cpu th)
    (pinned_cpu th) (aspace th) q r (retcode th).
Definition set_retcode (x : Z) (th : thread_t) : thread_t :=
  mk_thread (magic th) (cookie th) (priority th) (state th) (remaining_quantum th) (flags th) (curr_cpu th)
    (pinned_cpu th) (aspace th) (blocking_wait_queue th) (wait_queue_block_ret th) x.
Definition set_magic (x : Z) (th : thread_t) : thread_t :=
  mk_thread x (cookie th) (priority th) (state th) (remaining_quantum th) (flags th) (curr_cpu th)
    (pinned_cpu th) (aspace th) (blocking_wait_queue th) (wait_queue_block_ret th) (retcode th).

(** ** Accesses *)
Definition get_thread t : MS thread_t := getsome (fun s => threads s !! t).
Definition upd_thread t (f : thread_t -> thread_t) : MS unit := fun s =>
  match threads s !! t with
  | Some th => Some (tt, with_threads (<[t := f th]>) s)
  | None => None
  end.
Definition get_current_thread cpu : MS Z := getsome (fun s => current s !! cpu).
Definition set_current_thread cpu t : MS unit := modify (with_current (<[cpu := t]>)).
Definition get_list (q : queue_head) : MS (list Z) := getsome (fun s => queues s !! q).
Definition set_list (q : queue_head) (l : list Z) : MS unit := modify (with_queues (<[q := l]>)).
Definition queue_node_in_list t : MS bool := gets (fun s => node_in_list t (queues s)).
Definition get_wait_queue w : MS wait_queue_t := getsome (fun s => wait_queues s !! w).
Definition get_cpu_priority cpu : MS Z := getsome (fun s => cpu_priority s !! cpu).
Definition set_cpu_priority cpu (p : Z) : MS unit := modify (with_cpu_priority (<[cpu := p]>)).

Definition thread_lock_held cpu : MS bool := gets (fun s => thread_lock_owner s =? cpu).

(** [THREAD_LOCK]: a cpu that finds the lock taken spins, and has no outcome
    from this state. *)
Definition THREAD_LOCK cpu : MS unit := fun s =>
  if thread_lock_owner s =? SMP_MAX_CPUS then Some (tt, with_owner cpu s) else None.
Definition THREAD_UNLOCK cpu : MS unit := fun s =>
  if thread_lock_owner s =? cpu then Some (tt, with_owner SMP_MAX_CPUS s) else None.

(** ** Run queue *)
Definition bit (n : Z) : Z := Z.shiftl 1 n.
(** [x & ~(1U << n)] on 32-bit values. *)
Definition clear_bit (n x : Z) : Z := Z.ldiff x (bit n).

Definition insert_in_run_queue_head cpu t : MS unit :=
  th <- get_thread t ;;
  assert_ (magic th =? THREAD_MAGIC) ;;
  assert_ (state_eqb (state th) THREAD_READY) ;;
  linked <- queue_node_in_list t ;;
  assert_ (negb linked) ;;
  held <- thread_lock_held cpu ;;
  assert_ held ;;
  q <- get_list (RunQueue (priority th)) ;;
  set_list (RunQueue (priority th)) (t :: q) ;;
  modify (with_bitmap (fun b => Z.lor b (bit (priority th)))).

Definition insert_in_run_queue_tail cpu t : MS unit :=
  th <- get_thread t ;;
  assert_ (magic th =? THREAD_MAGIC) ;;
  assert_ (state_eqb (state th) THREAD_READY) ;;
  linked <- queue_node_in_list t ;;
  assert_ (negb linked) ;;
  held <- thread_lock_held cpu ;;
  assert_ held ;;
  q <- get_list (RunQueue (priority th)) ;;
  set_list (RunQueue (priority th)) (q ++ [t]) ;;
  modify (with_bitmap (fun b => Z.lor b (bit (priority th)))).

Definition delete_from_run_queue cpu t : MS unit :=
  th <- get_thread t ;;
  assert_ (magic th =? THREAD_MAGIC) ;;
  assert_ (state_eqb (state th) THREAD_READY) ;;
  linked <- queue_node_in_list t ;;
  assert_ linked ;;
  held <- thread_lock_held cpu ;;
  assert_ held ;;
  modify (with_queues (node_delete t)) ;;
  q <- get_list (RunQueue (priority th)) ;;
  when (bool_decide (q = [])) (modify (with_bitmap (clear_bit (priority th)))).

(** ** Cookies *)
Definition thread_get_expected_cookie t s : option Z :=
  b ← threads s !! idle_thread 0; Some (Z.lxor (Z.lxor (cookie b) (idle_thread 0)) t).

Definition thread_check_cookie t : MS unit :=
  e <- getsome (thread_get_expected_cookie t) ;;
  th <- get_thread t ;;
  if negb (cookie th =? e) then panic else ret tt.

(** ** Flags *)
Definition has_flag (f : Z) (th : thread_t) : bool := negb (Z.land (flags th) f =? 0).
Definition thread_is_realtime (th : thread_t) : bool :=
  has_flag THREAD_FLAG_REAL_TIME th && (priority th >? DEFAULT_PRIORITY).
Definition thread_is_idle (th : thread_t) : bool := has_flag THREAD_FLAG_IDLE th.
Definition thread_is_real_time_or_idle (th : thread_t) : bool :=
  has_flag (Z.lor THREAD_FLAG_REAL_TIME THREAD_FLAG_IDLE) th.

Definition thread_set_real_time cpu t : MS Z :=
  th <- get_thread t ;;
  assert_ (magic th =? THREAD_MAGIC) ;;
  THREAD_LOCK cpu ;;
  c <- get_current_thread cpu ;;
  when (t =? c) (on_timers (preempt_cancel cpu)) ;;
  upd_thread t (fun th => set_flags (Z.lor (flags th) THREAD_FLAG_REAL_TIME) th) ;;
  THREAD_UNLOCK cpu ;;
  ret NO_ERROR.

(** ** Other cpus (kernel/mp.c) *)
Definition mp_is_cpu_active (cpu : Z) (m : mp_state) : bool := Z.testbit (active_cpus m) cpu.
Definition mp_set_cpu_idle (cpu : Z) (m : mp_state) : mp_state :=
  mk_mp (active_cpus m) (Z.lor (idle_cpus m) (bit cpu)) (realtime_cpus m).
Definition mp_set_cpu_busy (cpu : Z) (m : mp_state) : mp_state :=
  mk_mp (active_cpus m) (clear_bit cpu (idle_cpus m)) (realtime_cpus m).
Definition mp_set_cpu_realtime (cpu : Z) (m : mp_state) : mp_state :=
  mk_mp (active_cpus m) (idle_cpus m) (Z.lor (realtime_cpus m) (bit cpu)).
Definition mp_set_cpu_non_realtime (cpu : Z) (m : mp_state) : mp_state :=
  mk_mp (active_cpus m) (idle_cpus m) (clear_bit cpu (realtime_cpus m)).
Definition mp_set_curr_cpu_active cpu (m : mp_state) : mp_state :=
  mk_mp (Z.lor (active_cpus m) (bit cpu)) (idle_cpus m) (realtime_cpus m).

Definition MP_RESCHEDULE_FLAG_REALTIME : Z := 1.

Definition mp_reschedule cpu (target flags : Z) : MS unit :=
  m <- gets mp ;;
  let target := Z.land target (active_cpus m) in
  let target := if Z.land flags MP_RESCHEDULE_FLAG_REALTIME =? 0
                then Z.ldiff target (realtime_cpus m) else target in
  let target := clear_bit cpu target in
  modify (with_ipis (fun l => l ++ [target])).

Definition mp_mbx_reschedule_irq cpu : MS bool :=
  m <- gets mp ;; ret (mp_is_cpu_active cpu m).

Definition thread_get_mp_reschedule_target cpu (current_thread t : Z) : MS Z :=
  c <- get_thread current_thread ;;
  th <- get_thread t ;;
  if negb (pinned_cpu th =? -1) && (pinned_cpu c =? pinned_cpu th) then ret 0
  else if (pinned_cpu th =? -1) || (pinned_cpu th =? cpu) then ret 0
  else
    let target_cpu := pinned_cpu th in
    assert_ ((0 <=? target_cpu) && (target_cpu <? SMP_MAX_CPUS)) ;;
    p <- get_cpu_priority target_cpu ;;
    if priority th <? p then ret 0
    else
      set_cpu_priority target_cpu (priority th) ;;
      ret (bit target_cpu).

Definition thread_mp_reschedule cpu (current_thread t : Z) : MS unit :=
  target <- thread_get_mp_reschedule_target cpu current_thread t ;;
  mp_reschedule cpu target 0.

(** ** Choosing the next thread *)
Definition eligible cpu (th : thread_t) : bool := (pinned_cpu th <? 0) || (pinned_cpu th =? cpu).

(** [list_for_every_entry] over one run queue. *)
Fixpoint first_eligible cpu (l : list Z) : MS (option Z) :=
  match l with
  | [] => ret None
  | t :: l' =>
      th <- get_thread t ;;
      if eligible cpu th then ret (Some t) else first_eligible cpu l'
  end.

Fixpoint get_top_thread_from (fuel : nat) cpu (unlink : bool) (local_run_queue_bitmap : Z)
    : MS (option Z) :=
  if local_run_queue_bitmap =? 0 then
    if cpu <? 0 then ret None else ret (Some (idle_thread cpu))
  else match fuel with
       | O => panic
       | S fuel' =>
           let next_queue := Z.log2 local_run_queue_bitmap in
           l <- get_list (RunQueue next_queue) ;;
           found <- first_eligible cpu l ;;
           match found with
           | Some t =>
               when unlink (delete_from_run_queue cpu t) ;;
               ret (Some t)
           | None => get_top_thread_from fuel' cpu unlink (clear_bit next_queue local_run_queue_bitmap)
           end
       end.

(** One round per priority is enough: each clears the highest bit left. *)
Definition get_top_thread cpu (unlink : bool) : MS (option Z) :=
  b <- gets run_queue_bitmap ;;
  get_top_thread_from 32 cpu unlink b.

Definition thread_pinned_cond_mp_reschedule (this_cpu current_thread t : Z) cpu : MS unit :=
  th <- get_thread t ;;
  if (pinned_cpu th >? -1) && negb (pinned_cpu th =? cpu) then
    assert_ ((curr_cpu th =? cpu) || (curr_cpu th =? -1)) ;;
    thread_mp_reschedule this_cpu current_thread t
  else ret tt.

(** The loop over the cpus of [thread_cond_mp_reschedule]. *)
Definition best_cpu_step (m : mp_state) (prio : gmap Z Z) (best : Z * Z) (i : Z) : Z * Z :=
  if negb (mp_is_cpu_active i m) then best
  else let p := default 0 (prio !! i) in
       if p <? snd best then (i, p) else best.

Definition cpus : list Z := Z.of_nat <$> seq 0 (Z.to_nat SMP_MAX_CPUS).

Definition thread_cond_mp_reschedule cpu : MS unit :=
  top <- get_top_thread (-1) false ;;
  held <- thread_lock_held cpu ;;
  assert_ held ;;
  m <- gets mp ;;
  prio <- gets cpu_priority ;;
  let '(best_cpu, best_cpu_priority) :=
    fold_left (best_cpu_step m prio) cpus (UINT32_MAX, INT_MAX) in
  match top with
  | None => ret tt
  | Some t =>
      th <- get_thread t ;;
      if priority th <=? best_cpu_priority then ret tt
      else
        set_cpu_priority best_cpu (priority th) ;;
        mp_reschedule cpu (bit best_cpu) 0
  end.

(** vmm_context_switch (kernel/vm/vmm.c) *)
Definition vmm_context_switch cpu (oldspace newspace : Z) : MS unit :=
  held <- thread_lock_held cpu ;;
  assert_ held ;;
  modify (with_mmu (<[cpu := newspace]>)).

Definition MS2NS (ms : Z) : Z := ms * 1000 * 1000.

(** The preemption timer when the cpu goes from [old] to [new]. *)
Definition switch_preempt_timer cpu (old new : thread_t) : MS unit :=
  if thread_is_real_time_or_idle new then
    thread_cond_mp_reschedule cpu ;;
    when (negb (thread_is_real_time_or_idle old)) (on_timers (preempt_cancel cpu))
  else
    when (thread_is_real_time_or_idle old) (on_timers (preempt_set_periodic cpu (MS2NS 10))).

(** The part of [thread_resched] that leaves one thread for another. *)
Definition switch_threads cpu (oldthread newthread : Z) : MS (outcome unit) :=
  upd_thread newthread (fun n => if remaining_quantum n <=? 0 then set_quantum 5 n else n) ;;
  upd_thread oldthread (set_curr_cpu (-1)) ;;
  upd_thread newthread (set_curr_cpu cpu) ;;
  old <- get_thread oldthread ;;
  new <- get_thread newthread ;;
  modify (with_mp (if thread_is_idle new then mp_set_cpu_idle cpu else mp_set_cpu_busy cpu)) ;;
  modify (with_mp (if thread_is_realtime new then mp_set_cpu_realtime cpu
                   else mp_set_cpu_non_realtime cpu)) ;;
  switch_preempt_timer cpu old new ;;
  set_cpu_priority cpu (priority new) ;;
  set_current_thread cpu newthread ;;
  thread_check_cookie newthread ;;
  when (negb (aspace new =? aspace old)) (vmm_context_switch cpu (aspace old) (aspace new)) ;;
  ret Switched.

Definition thread_resched cpu : MS (outcome unit) :=
  current_thread <- get_current_thread cpu ;;
  c <- get_thread current_thread ;;
  held <- thread_lock_held cpu ;;
  assert_ held ;;
  assert_ (negb (state_eqb (state c) THREAD_RUNNING)) ;;
  thread_check_cookie current_thread ;;
  top <- get_top_thread cpu true ;;
  match top with
  | None => panic
  | Some newthread =>
      thread_pinned_cond_mp_reschedule cpu newthread current_thread cpu ;;
      upd_thread newthread (set_state THREAD_RUNNING) ;;
      let oldthread := current_thread in
      if newthread =? oldthread then
        old <- get_thread oldthread ;;
        p <- get_cpu_priority cpu ;;
        when (negb (p =? priority old)) (set_cpu_priority cpu (priority old)) ;;
        ret (Return tt)
      else
        switch_threads cpu oldthread newthread
  end.

(** The end of an operation whose last call may have switched threads: the
    unlock belongs to the thread, so a switched-out caller does it later. *)
Definition finish cpu {A} (o : outcome unit) (a : A) : MS (outcome A) :=
  match o with
  | Return _ => THREAD_UNLOCK cpu ;; ret (Return a)
  | Switched => ret Switched
  end.

Definition thread_yield cpu : MS (outcome unit) :=
  current_thread <- get_current_thread cpu ;;
  c <- get_thread current_thread ;;
  assert_ (magic c =? THREAD_MAGIC) ;;
  assert_ (state_eqb (state c) THREAD_RUNNING) ;;
  THREAD_LOCK cpu ;;
  upd_thread current_thread (set_state THREAD_READY) ;;
  upd_thread current_thread (set_quantum 0) ;;
  when (negb (thread_is_idle c)) (insert_in_run_queue_tail cpu current_thread) ;;
  o <- thread_resched cpu ;;
  finish cpu o tt.

Definition thread_preempt_inner cpu (lock_held : bool) : MS (outcome unit) :=
  current_thread <- get_current_thread cpu ;;
  c <- get_thread current_thread ;;
  assert_ (magic c =? THREAD_MAGIC) ;;
  assert_ (state_eqb (state c) THREAD_RUNNING) ;;
  when (negb lock_held) (THREAD_LOCK cpu) ;;
  upd_thread current_thread (set_state THREAD_READY) ;;
  when (negb (thread_is_idle c))
    (if remaining_quantum c >? 0 then insert_in_run_queue_head cpu current_thread
     else insert_in_run_queue_tail cpu current_thread) ;;
  o <- thread_resched cpu ;;
  if lock_held then ret o else finish cpu o tt.

Definition thread_preempt cpu : MS (outcome unit) := thread_preempt_inner cpu false.

Definition thread_preempt_lock_held cpu : MS (outcome unit) :=
  held <- thread_lock_held cpu ;;
  assert_ held ;;
  thread_preempt_inner cpu true.

Definition thread_resume cpu (ints_disabled : bool) t : MS (outcome Z) :=
  th <- get_thread t ;;
  assert_ (magic th =? THREAD_MAGIC) ;;
  assert_ (negb (state_eqb (state th) THREAD_DEATH)) ;;
  thread_check_cookie t ;;
  THREAD_LOCK cpu ;;
  resched <- (if state_eqb (state th) THREAD_SUSPENDED then
                upd_thread t (set_state THREAD_READY) ;;
                insert_in_run_queue_head cpu t ;;
                ret (negb ints_disabled)
              else ret false) ;;
  c <- get_current_thread cpu ;;
  thread_mp_reschedule cpu c t ;;
  THREAD_UNLOCK cpu ;;
  if resched then
    o <- thread_yield cpu ;;
    match o with
    | Return _ => ret (Return NO_ERROR)
    | Switched => ret Switched
    end
  else ret (Return NO_ERROR).

Definition thread_block cpu : MS (outcome unit) :=
  current_thread <- get_current_thread cpu ;;
  c <- get_thread current_thread ;;
  assert_ (magic c =? THREAD_MAGIC) ;;
  assert_ (state_eqb (state c) THREAD_BLOCKED) ;;
  held <- thread_lock_held cpu ;;
  assert_ held ;;
  assert_ (negb (thread_is_idle c)) ;;
  thread_resched cpu.

Definition thread_unblock cpu t (resched : bool) : MS (outcome unit) :=
  th <- get_thread t ;;
  assert_ (magic th =? THREAD_MAGIC) ;;
  assert_ (state_eqb (state th) THREAD_BLOCKED) ;;
  held <- thread_lock_held cpu ;;
  assert_ held ;;
  assert_ (negb (thread_is_idle th)) ;;
  thread_check_cookie t ;;
  upd_thread t (set_state THREAD_READY) ;;
  insert_in_run_queue_head cpu t ;;
  c <- get_current_thread cpu ;;
  thread_mp_reschedule cpu c t ;;
  if resched then thread_resched cpu else ret (Return tt).

(** The preemption tick; [true] is [INT_RESCHEDULE]. *)
Definition thread_timer_callback cpu : MS bool :=
  current_thread <- get_current_thread cpu ;;
  c <- get_thread current_thread ;;
  if thread_is_idle c then ret false
  else
    THREAD_LOCK cpu ;;
    thread_cond_mp_reschedule cpu ;;
    THREAD_UNLOCK cpu ;;
    if thread_is_real_time_or_idle c then ret false
    else
      upd_thread current_thread (set_quantum (remaining_quantum c - 1)) ;;
      ret (remaining_quantum c - 1 <=? 0).

Definition thread_sleep_handler cpu t : MS bool :=
  th <- get_thread t ;;
  assert_ (magic th =? THREAD_MAGIC) ;;
  assert_ (state_eqb (state th) THREAD_SLEEPING) ;;
  thread_check_cookie t ;;
  THREAD_LOCK cpu ;;
  upd_thread t (set_state THREAD_READY) ;;
  insert_in_run_queue_head cpu t ;;
  c <- get_current_thread cpu ;;
  thread_pinned_cond_mp_reschedule cpu c t cpu ;;
  THREAD_UNLOCK cpu ;;
  ret true.

(** Up to the switch; the timer is cancelled when the thread is back
    ([thread_sleep_ns_resume]). *)
Definition thread_sleep_ns cpu (delay_ns : Z) : MS (outcome unit) :=
  current_thread <- get_current_thread cpu ;;
  c <- get_thread current_thread ;;
  assert_ (magic c =? THREAD_MAGIC) ;;
  assert_ (state_eqb (state c) THREAD_RUNNING) ;;
  assert_ (negb (thread_is_idle c)) ;;
  THREAD_LOCK cpu ;;
  on_timers (set_timeout cpu current_thread delay_ns) ;;
  upd_thread current_thread (set_state THREAD_SLEEPING) ;;
  thread_resched cpu.

Definition thread_sleep_ns_resume cpu : MS unit :=
  current_thread <- get_current_thread cpu ;;
  THREAD_UNLOCK cpu ;;
  on_timers (cancel_timeout cpu current_thread).

Definition thread_sleep_until_ns cpu (now_ns target_time_ns : Z) : MS (outcome unit) :=
  if now_ns <? target_time_ns then thread_sleep_ns cpu (target_time_ns - now_ns)
  else ret (Return tt).

Definition thread_set_priority cpu (priority : Z) : MS (outcome unit) :=
  held <- thread_lock_held cpu ;;
  assert_ (negb held) ;;
  current_thread <- get_current_thread cpu ;;
  THREAD_LOCK cpu ;;
  let priority := if priority <=? IDLE_PRIORITY then IDLE_PRIORITY + 1 else priority in
  let priority := if priority >? HIGHEST_PRIORITY then HIGHEST_PRIORITY else priority in
  upd_thread current_thread (set_priority priority) ;;
  upd_thread current_thread (set_state THREAD_READY) ;;
  insert_in_run_queue_head cpu current_thread ;;
  o <- thread_resched cpu ;;
  finish cpu o tt.

(** The [switch] of [thread_set_pinned_cpu], with the lock held. *)
Definition set_pinned_cpu_switch this_cpu t (cpu : Z) (th : thread_t) : MS (outcome unit) :=
  current_thread <- get_current_thread this_cpu ;;
  c <- get_thread current_thread ;;
  match state th with
  | THREAD_SUSPENDED => ret (Return tt)
  | THREAD_READY =>
      assert_ (negb (thread_is_idle th)) ;;
      assert_ (curr_cpu th =? -1) ;;
      assert_ (negb (t =? current_thread)) ;;
      if (cpu =? -1) || (cpu =? this_cpu) then
        if priority c <? priority th then thread_preempt_lock_held this_cpu
        else
          when ((cpu =? -1) && thread_is_realtime c) (thread_cond_mp_reschedule this_cpu) ;;
          ret (Return tt)
      else
        thread_mp_reschedule this_cpu current_thread t ;;
        ret (Return tt)
  | THREAD_RUNNING =>
      assert_ (negb (thread_is_idle th)) ;;
      assert_ (curr_cpu th >? -1) ;;
      if cpu =? -1 then ret (Return tt)
      else if t =? current_thread then
        assert_ (curr_cpu th =? this_cpu) ;;
        thread_preempt_lock_held this_cpu
      else
        assert_ (negb (curr_cpu th =? this_cpu)) ;;
        mp_reschedule this_cpu (bit (curr_cpu th)) 0 ;;
        ret (Return tt)
  | THREAD_BLOCKED | THREAD_SLEEPING =>
      assert_ (negb (thread_is_idle th)) ;;
      assert_ (negb (t =? current_thread)) ;;
      ret (Return tt)
  | THREAD_DEATH => panic
  end.

Definition thread_set_pinned_cpu this_cpu t (cpu : Z) : MS (outcome unit) :=
  th <- get_thread t ;;
  assert_ (magic th =? THREAD_MAGIC) ;;
  assert_ ((cpu >=? -1) && (cpu <? SMP_MAX_CPUS)) ;;
  held <- thread_lock_held this_cpu ;;
  assert_ (negb held) ;;
  THREAD_LOCK this_cpu ;;
  if pinned_cpu th =? cpu then finish this_cpu (Return tt) tt
  else
    upd_thread t (set_pinned cpu) ;;
    if (cpu >? -1) && (cpu =? curr_cpu th) then finish this_cpu (Return tt) tt
    else
      o <- set_pinned_cpu_switch this_cpu t cpu th ;;
      finish this_cpu o tt.

(** ** Wait queues *)
Definition wait_queue_init w : MS unit :=
  modify (with_wait_queues (<[w := mk_wait_queue WAIT_QUEUE_MAGIC 0]>)) ;;
  set_list (WaitList w) [].

Definition set_wait_queue w (q : wait_queue_t) : MS unit := modify (with_wait_queues (<[w := q]>)).
Definition add_count w (d : Z) : MS unit :=
  q <- get_wait_queue w ;;
  set_wait_queue w (mk_wait_queue (wq_magic q) (wq_count q + d)).

(** The part of [wait_queue_block] after [thread_resched]: the timeout is
    cancelled without the lock, then the lock is taken again. *)
Definition wait_queue_block_cancel cpu (timeout : Z) : MS unit :=
  current_thread <- get_current_thread cpu ;;
  if timeout =? INFINITE_TIME then ret tt
  else
    THREAD_UNLOCK cpu ;;
    on_timers (cancel_timeout cpu current_thread) ;;
    THREAD_LOCK cpu.

Definition wait_queue_block_resume cpu (timeout : Z) : MS Z :=
  wait_queue_block_cancel cpu timeout ;;
  current_thread <- get_current_thread cpu ;;
  c <- get_thread current_thread ;;
  ret (wait_queue_block_ret c).

(** Up to the switch; the caller is back in [wait_queue_block_resume]. *)
Definition wait_queue_block cpu w (timeout : Z) : MS (outcome Z) :=
  current_thread <- get_current_thread cpu ;;
  q <- get_wait_queue w ;;
  c <- get_thread current_thread ;;
  assert_ (wq_magic q =? WAIT_QUEUE_MAGIC) ;;
  assert_ (state_eqb (state c) THREAD_RUNNING) ;;
  held <- thread_lock_held cpu ;;
  assert_ held ;;
  if timeout =? 0 then ret (Return ERR_TIMED_OUT)
  else
    l <- get_list (WaitList w) ;;
    set_list (WaitList w) (l ++ [current_thread]) ;;
    add_count w 1 ;;
    upd_thread current_thread (set_state THREAD_BLOCKED) ;;
    upd_thread current_thread (set_wait (Some w) NO_ERROR) ;;
    when (negb (timeout =? INFINITE_TIME))
      (on_timers (set_timeout cpu current_thread (MS2NS timeout))) ;;
    o <- thread_resched cpu ;;
    match o with
    | Switched => ret Switched
    | Return _ => r <- wait_queue_block_resume cpu timeout ;; ret (Return r)
    end.

(** [list_remove_head_type(&wait->list, thread_t, queue_node)] *)
Definition remove_head (q : queue_head) : MS (option Z) :=
  l <- get_list q ;;
  match l with
  | [] => ret None
  | t :: l' => set_list q l' ;; ret (Some t)
  end.

(** A thread taken off a wait queue is made ready. *)
Definition make_ready t (wait_queue_error : Z) : MS unit :=
  th <- get_thread t ;;
  assert_ (magic th =? THREAD_MAGIC) ;;
  assert_ (state_eqb (state th) THREAD_BLOCKED) ;;
  thread_check_cookie t ;;
  upd_thread t (set_state THREAD_READY) ;;
  upd_thread t (set_wait None wait_queue_error).

(** The result and whether the caller is still on the cpu. *)
Definition wait_queue_wake_one cpu w (reschedule : bool) (wait_queue_error : Z)
    : MS (Z * outcome unit) :=
  current_thread <- get_current_thread cpu ;;
  q <- get_wait_queue w ;;
  assert_ (wq_magic q =? WAIT_QUEUE_MAGIC) ;;
  held <- thread_lock_held cpu ;;
  assert_ held ;;
  head <- remove_head (WaitList w) ;;
  match head with
  | None => ret (0, Return tt)
  | Some t =>
      add_count w (-1) ;;
      make_ready t wait_queue_error ;;
      when reschedule
        (upd_thread current_thread (set_state THREAD_READY) ;;
         insert_in_run_queue_head cpu current_thread) ;;
      insert_in_run_queue_head cpu t ;;
      thread_mp_reschedule cpu current_thread t ;;
      o <- (if reschedule then thread_resched cpu else ret (Return tt)) ;;
      ret (1, o)
  end.

(** The [while] loop of [wait_queue_wake_all]: the number of threads woken and
    the cpus to signal. *)
Fixpoint wake_loop (fuel : nat) cpu (current_thread : Z) w (wait_queue_error : Z) (n mask : Z)
    : MS (Z * Z) :=
  head <- remove_head (WaitList w) ;;
  match head with
  | None => ret (n, mask)
  | Some t =>
      match fuel with
      | O => panic
      | S fuel' =>
          add_count w (-1) ;;
          make_ready t wait_queue_error ;;
          insert_in_run_queue_head cpu t ;;
          m <- thread_get_mp_reschedule_target cpu current_thread t ;;
          wake_loop fuel' cpu current_thread w wait_queue_error (n + 1) (Z.lor mask m)
      end
  end.

Definition wait_queue_wake_all cpu w (reschedule : bool) (wait_queue_error : Z)
    : MS (Z * outcome unit) :=
  current_thread <- get_current_thread cpu ;;
  q <- get_wait_queue w ;;
  assert_ (wq_magic q =? WAIT_QUEUE_MAGIC) ;;
  held <- thread_lock_held cpu ;;
  assert_ held ;;
  when (reschedule && (wq_count q >? 0))
    (upd_thread current_thread (set_state THREAD_READY) ;;
     insert_in_run_queue_head cpu current_thread) ;;
  l <- get_list (WaitList w) ;;
  r <- wake_loop (length l) cpu current_thread w wait_queue_error 0 0 ;;
  q' <- get_wait_queue w ;;
  assert_ (wq_count q' =? 0) ;;
  c <- get_thread current_thread ;;
  if fst r >? 0 then
    mp_reschedule cpu (snd r) 0 ;;
    if reschedule then
      assert_ (state_eqb (state c) THREAD_READY) ;;
      o <- thread_resched cpu ;;
      ret (fst r, o)
    else
      assert_ (negb (state_eqb (state c) THREAD_READY)) ;;
      ret (fst r, Return tt)
  else
    assert_ (negb (state_eqb (state c) THREAD_READY)) ;;
    ret (fst r, Return tt).

(** The end of [wait_queue_destroy], when the caller runs again. *)
Definition wait_queue_destroy_resume w : MS unit :=
  q <- get_wait_queue w ;;
  set_wait_queue w (mk_wait_queue 0 (wq_count q)).

Definition wait_queue_destroy cpu w (reschedule : bool) : MS (outcome unit) :=
  q <- get_wait_queue w ;;
  assert_ (wq_magic q =? WAIT_QUEUE_MAGIC) ;;
  held <- thread_lock_held cpu ;;
  assert_ held ;;
  r <- wait_queue_wake_all cpu w reschedule ERR_OBJECT_DESTROYED ;;
  match snd r with
  | Return _ => wait_queue_destroy_resume w ;; ret (Return tt)
  | Switched => ret Switched
  end.

Definition thread_unblock_from_wait_queue cpu t (wait_queue_error : Z) : MS Z :=
  th <- get_thread t ;;
  assert_ (magic th =? THREAD_MAGIC) ;;
  held <- thread_lock_held cpu ;;
  assert_ held ;;
  thread_check_cookie t ;;
  if negb (state_eqb (state th) THREAD_BLOCKED) then ret ERR_NOT_BLOCKED
  else
    w <- getsome (fun _ => blocking_wait_queue th) ;;
    q <- get_wait_queue w ;;
    assert_ (wq_magic q =? WAIT_QUEUE_MAGIC) ;;
    linked <- queue_node_in_list t ;;
    assert_ linked ;;
    modify (with_queues (node_delete t)) ;;
    add_count w (-1) ;;
    upd_thread t (set_wait None wait_queue_error) ;;
    upd_thread t (set_state THREAD_READY) ;;
    insert_in_run_queue_head cpu t ;;
    c <- get_current_thread cpu ;;
    thread_mp_reschedule cpu c t ;;
    ret NO_ERROR.

Definition wait_queue_timeout_handler cpu t : MS bool :=
  th <- get_thread t ;;
  assert_ (magic th =? THREAD_MAGIC) ;;
  THREAD_LOCK cpu ;;
  r <- thread_unblock_from_wait_queue cpu t ERR_TIMED_OUT ;;
  THREAD_UNLOCK cpu ;;
  ret (r >=? NO_ERROR).
End sched.
