(* ===== verification/SchedInv.v ===== *)
(** * Scheduler invariant and the choice of the next thread

    [sched_wf] is the well-formedness of the state the thread lock protects.
    This file proves that the reads of the scheduler cannot fail on a
    well-formed state, that threads can be put on queues and taken off them
    without breaking it, and what [get_top_thread] returns; SchedOps builds the
    theorems on the operations of kernel/thread.c on it. *)
From stdpp Require Import base gmap list.
From Stdlib Require Import ZArith Lia.
From S2P Require Import Prelude Sched.

Local Open Scope Z_scope.
Local Open Scope lk_scope.

(** What the scheduler needs of the timers: a preemption timer that is pending
    can be cancelled and one that is not can be set; the timer on the stack of a
    thread can be set up when it is not pending and cancelled from then on; and
    nothing else changes. *)
Class TimerLaws (T : Type) `{!TimerOps T} `{!Config} := {
  timer_ok : T -> Prop;
  preempt_pending : T -> Z -> bool;
  timeout_pending : T -> Z -> bool;
  timeout_live : T -> Z -> bool;
  preempt_cancel_law : forall x cpu, timer_ok x -> 0 <= cpu < SMP_MAX_CPUS -> preempt_pending x cpu = true ->
    exists x', preempt_cancel cpu x = Some (tt, x') /\ timer_ok x' /\
      (forall c, 0 <= c < SMP_MAX_CPUS ->
         preempt_pending x' c = if decide (c = cpu) then false else preempt_pending x c) /\
      (forall t, timeout_pending x' t = timeout_pending x t /\ timeout_live x' t = timeout_live x t);
  preempt_set_law : forall x cpu, timer_ok x -> 0 <= cpu < SMP_MAX_CPUS -> preempt_pending x cpu = false ->
    exists x', preempt_set_periodic cpu (MS2NS 10) x = Some (tt, x') /\ timer_ok x' /\
      (forall c, 0 <= c < SMP_MAX_CPUS ->
         preempt_pending x' c = if decide (c = cpu) then true else preempt_pending x c) /\
      (forall t, timeout_pending x' t = timeout_pending x t /\ timeout_live x' t = timeout_live x t);
  set_timeout_law : forall x cpu t delay, timer_ok x -> 0 <= cpu < SMP_MAX_CPUS -> timeout_pending x t = false ->
    0 <= delay < 2 ^ 62 ->
    exists x', set_timeout cpu t delay x = Some (tt, x') /\ timer_ok x' /\
      (forall c, 0 <= c < SMP_MAX_CPUS -> preempt_pending x' c = preempt_pending x c) /\
      (forall u, timeout_pending x' u = (if decide (u = t) then true else timeout_pending x u) /\
                 timeout_live x' u = if decide (u = t) then true else timeout_live x u);
  cancel_timeout_law : forall x cpu t, timer_ok x -> 0 <= cpu < SMP_MAX_CPUS -> timeout_live x t = true ->
    exists x', cancel_timeout cpu t x = Some (tt, x') /\ timer_ok x' /\
      (forall c, 0 <= c < SMP_MAX_CPUS -> preempt_pending x' c = preempt_pending x c) /\
      (forall u, timeout_pending x' u = (if decide (u = t) then false else timeout_pending x u) /\
                 timeout_live x' u = timeout_live x u)
}.

Class ConfigLaws `{!Config} := {
  smp_range : 0 < SMP_MAX_CPUS <= 32;
  idle_thread_inj : forall a b, idle_thread a = idle_thread b -> a = b
}.

(** ** Sets of threads in transition *)
Definition none : Z -> Prop := fun _ => False.
Definition plus (t : Z) (E : Z -> Prop) : Z -> Prop := fun x => x = t \/ E x.
Definition minus (t : Z) (E : Z -> Prop) : Z -> Prop := fun x => x <> t /\ E x.

Section inv.
Context {T : Type} `{!TimerOps T} `{!Config} `{!TimerLaws T} `{!ConfigLaws}.
Implicit Types (s : sched T) (t cpu : Z) (w : wait_queue_ptr) (th : thread_t) (E : Z -> Prop).

Definition valid_cpu (cpu : Z) : Prop := 0 <= cpu < SMP_MAX_CPUS.

(** [E] holds the threads in transition: the operation that has the lock took
    them off their queue, or changed their state, and has not filed them yet.
    [queues_wf] is about queues, threads and the bitmap, [current_wf] about which
    thread is on which cpu. *)
Record queues_wf (E : Z -> Prop) s : Prop := {
  wf_run : forall p q t, queues s !! RunQueue p = Some q -> t ∈ q ->
    exists th, threads s !! t = Some th /\ state th = THREAD_READY /\ priority th = p /\
      thread_is_idle th = false /\ ~ E t;
  wf_wait : forall w l t, queues s !! WaitList w = Some l -> t ∈ l ->
    exists th, threads s !! t = Some th /\ state th = THREAD_BLOCKED /\
      blocking_wait_queue th = Some w /\ thread_is_idle th = false /\ ~ E t;
  wf_nodup : forall h q, queues s !! h = Some q -> NoDup q;
  wf_prio : forall p, 0 <= p < NUM_PRIORITIES -> is_Some (queues s !! RunQueue p);
  wf_bits : 0 <= run_queue_bitmap s < 2 ^ NUM_PRIORITIES;
  wf_bitmap : forall p q, queues s !! RunQueue p = Some q ->
    Z.testbit (run_queue_bitmap s) p = negb (bool_decide (q = []));
  wf_count : forall w l, queues s !! WaitList w = Some l ->
    exists q, wait_queues s !! w = Some q /\ wq_count q = Z.of_nat (length l) /\
      (wq_magic q = WAIT_QUEUE_MAGIC \/ l = []);
  wf_blocked : forall t th, threads s !! t = Some th -> state th = THREAD_BLOCKED -> ~ E t ->
    exists w l, blocking_wait_queue th = Some w /\ queues s !! WaitList w = Some l /\ t ∈ l;
  wf_ready : forall t th, threads s !! t = Some th -> state th = THREAD_READY ->
    thread_is_idle th = false -> ~ E t -> exists q, queues s !! RunQueue (priority th) = Some q /\ t ∈ q;
  wf_thread : forall t th, threads s !! t = Some th ->
    magic th = THREAD_MAGIC /\ 0 <= priority th < NUM_PRIORITIES /\ -1 <= pinned_cpu th < SMP_MAX_CPUS;
  wf_cookie : forall t th, threads s !! t = Some th -> thread_get_expected_cookie t s = Some (cookie th);
  wf_idle : forall cpu, valid_cpu cpu -> exists th, threads s !! idle_thread cpu = Some th /\
    thread_is_idle th = true;
  wf_cpu_priority : forall cpu, valid_cpu cpu -> is_Some (cpu_priority s !! cpu)
}.

Record current_wf (E : Z -> Prop) s : Prop := {
  wf_idle_current : forall c cpu, valid_cpu cpu -> current s !! c = Some (idle_thread cpu) -> c = cpu;
  wf_current : forall c t, current s !! c = Some t -> valid_cpu c /\ exists th, threads s !! t = Some th /\
    curr_cpu th = c /\ (c <> thread_lock_owner s -> state th = THREAD_RUNNING /\ ~ E t);
  wf_curr_cpu : forall t th, threads s !! t = Some th ->
    curr_cpu th = -1 \/ current s !! curr_cpu th = Some t;
  wf_running : forall t th, threads s !! t = Some th -> state th = THREAD_RUNNING -> ~ E t ->
    curr_cpu th <> -1
}.

Record sched_wf (E : Z -> Prop) s : Prop := {
  wf_queues :> queues_wf E s;
  wf_cpus :> current_wf E s
}.

(** ** Reads *)
Lemma get_thread_eq s t th : threads s !! t = Some th -> get_thread t s = Some (th, s).
Proof. intros. by apply getsome_eq. Qed.
Lemma get_list_eq s h q : queues s !! h = Some q -> get_list h s = Some (q, s).
Proof. intros. by apply getsome_eq. Qed.
Lemma get_current_eq s cpu t : current s !! cpu = Some t -> get_current_thread cpu s = Some (t, s).
Proof. intros. by apply getsome_eq. Qed.
Lemma get_wait_queue_eq s w q : wait_queues s !! w = Some q -> get_wait_queue w s = Some (q, s).
Proof. intros. by apply getsome_eq. Qed.
Lemma get_cpu_priority_eq s cpu p : cpu_priority s !! cpu = Some p -> get_cpu_priority cpu s = Some (p, s).
Proof. intros. by apply getsome_eq. Qed.
Lemma upd_thread_eq s t th f :
  threads s !! t = Some th -> upd_thread t f s = Some (tt, with_threads (<[t := f th]>) s).
Proof. intros Hth. unfold upd_thread. by rewrite Hth. Qed.

Lemma check_cookie_eq E s t th :
  queues_wf E s -> threads s !! t = Some th -> thread_check_cookie t s = Some (tt, s).
Proof.
  intros Hwf Ht. unfold thread_check_cookie.
  erewrite bind_eq by (apply getsome_eq; by eapply wf_cookie).
  erewrite bind_eq by (by apply get_thread_eq). by rewrite Z.eqb_refl.
Qed.

Lemma state_eqb_true a b : state_eqb a b = true <-> a = b.
Proof. apply bool_decide_eq_true. Qed.
Lemma state_eqb_false a b : state_eqb a b = false <-> a <> b.
Proof. apply bool_decide_eq_false. Qed.

(** ** Bits *)
Lemma bits_bound x n : 0 <= n -> 0 <= x -> (forall m, n <= m -> Z.testbit x m = false) -> x < 2 ^ n.
Proof.
  intros Hn Hx Hb. assert (x mod 2 ^ n = x) as <-; [|apply Z.mod_pos_bound; lia].
  apply Z.bits_inj'. intros m Hm. destruct (Z.lt_ge_cases m n).
  - by rewrite Z.mod_pow2_bits_low.
  - rewrite Z.mod_pow2_bits_high by lia. by rewrite Hb.
Qed.

Lemma bit_spec n m : 0 <= n -> 0 <= m -> Z.testbit (bit n) m = (n =? m).
Proof.
  intros. unfold bit. rewrite Z.shiftl_1_l.
  destruct (Z.eqb_spec n m) as [->|]; [by apply Z.pow2_bits_true|by apply Z.pow2_bits_false].
Qed.

Lemma clear_bit_spec n x m : 0 <= n -> 0 <= m ->
  Z.testbit (clear_bit n x) m = Z.testbit x m && negb (n =? m).
Proof. intros. unfold clear_bit. by rewrite Z.ldiff_spec, bit_spec. Qed.

Lemma set_bit_spec n x m : 0 <= n -> 0 <= m ->
  Z.testbit (Z.lor x (bit n)) m = Z.testbit x m || (n =? m).
Proof. intros. by rewrite Z.lor_spec, bit_spec. Qed.

Lemma clear_bit_nonneg n x : 0 <= x -> 0 <= clear_bit n x.
Proof. intros. unfold clear_bit. apply Z.ldiff_nonneg. by left. Qed.

Lemma bits_above x k m : 0 <= k -> 0 <= x < 2 ^ k -> k <= m -> Z.testbit x m = false.
Proof.
  intros Hk Hx Hm. rewrite <- (Z.mod_small x (2 ^ k)) by lia. apply Z.mod_pow2_bits_high. lia.
Qed.

Lemma clear_bit_bound n x k : 0 <= n -> 0 <= k -> 0 <= x < 2 ^ k -> 0 <= clear_bit n x < 2 ^ k.
Proof.
  intros ?? Hx. split; [apply clear_bit_nonneg; lia|]. apply bits_bound; [done|apply clear_bit_nonneg; lia|].
  intros m ?. rewrite clear_bit_spec by lia. by rewrite (bits_above x k m).
Qed.

Lemma set_bit_bound n x k : 0 <= n < k -> 0 <= x < 2 ^ k -> 0 <= Z.lor x (bit n) < 2 ^ k.
Proof.
  intros ? Hx. assert (0 <= Z.lor x (bit n)) as Hnn.
  { apply Z.lor_nonneg. split; [lia|]. unfold bit. apply Z.shiftl_nonneg. lia. }
  split; [done|]. apply bits_bound; [lia|done|]. intros m ?. rewrite set_bit_spec by lia.
  rewrite (proj2 (Z.eqb_neq n m)) by lia. rewrite orb_false_r. apply (bits_above x k m); lia.
Qed.

Lemma clear_top_bound b : 0 < b -> 0 <= clear_bit (Z.log2 b) b < 2 ^ Z.log2 b.
Proof.
  intros Hb. pose proof (Z.log2_nonneg b). split; [apply clear_bit_nonneg; lia|].
  apply bits_bound; [done|apply clear_bit_nonneg; lia|]. intros m Hm.
  rewrite clear_bit_spec by lia. destruct (Z.eqb_spec (Z.log2 b) m); [apply andb_false_r|].
  rewrite Z.bits_above_log2; [done|lia|lia].
Qed.
End inv.

(** One read or passed assertion of a run. *)
Ltac sstep :=
  rewrite ?ret_bind, ?bind_assoc, ?gets_bind, ?modify_bind;
  first [ erewrite bind_eq by (apply get_thread_eq; eassumption)
        | erewrite bind_eq by (apply get_current_eq; eassumption)
        | erewrite bind_eq by (apply get_list_eq; eassumption)
        | erewrite bind_eq by (apply get_wait_queue_eq; eassumption)
        | erewrite bind_eq by (apply get_cpu_priority_eq; eassumption)
        | erewrite bind_eq by (eapply check_cookie_eq; first [eassumption | eapply wf_queues; eassumption])
        | erewrite bind_eq by (apply upd_thread_eq; eassumption)
        | rewrite assert_bind by (first [by apply Z.eqb_eq | by apply state_eqb_true
            | by apply negb_true_iff, state_eqb_false | done]) ].

Section queues.
Context {T : Type} `{!TimerOps T} `{!Config} `{!ConfigLaws}.
Implicit Types (s : sched T) (t cpu : Z) (w : wait_queue_ptr) (th : thread_t) (E : Z -> Prop).

(** ** Filing threads *)
Lemma wf_notin E s t h q : queues_wf E s -> E t -> queues s !! h = Some q -> t ∉ q.
Proof.
  intros Hwf Ht Hq Hin. destruct h as [p|w].
  - by destruct (wf_run _ _ Hwf _ _ _ Hq Hin) as (? & ? & ? & ? & ? & ?).
  - by destruct (wf_wait _ _ Hwf _ _ _ Hq Hin) as (? & ? & ? & ? & ? & ?).
Qed.

Lemma wf_not_linked E s t : queues_wf E s -> E t -> node_in_list t (queues s) = false.
Proof. intros Hwf Ht. apply node_in_list_false. intros h q Hq. by eapply wf_notin. Qed.

(** A thread is on at most one queue, its own. *)
Lemma wf_run_unique E s t h q p q' :
  queues_wf E s -> queues s !! RunQueue p = Some q' -> t ∈ q' -> queues s !! h = Some q -> t ∈ q -> h = RunQueue p.
Proof.
  intros Hwf Hq' Ht' Hq Ht. destruct (wf_run _ _ Hwf _ _ _ Hq' Ht') as (th & ? & ? & ? & _).
  destruct h as [p2|w].
  - destruct (wf_run _ _ Hwf _ _ _ Hq Ht) as (? & ? & ? & ? & _). congruence.
  - destruct (wf_wait _ _ Hwf _ _ _ Hq Ht) as (? & ? & ? & _). congruence.
Qed.

Lemma wf_wait_unique E s t h q w l :
  queues_wf E s -> queues s !! WaitList w = Some l -> t ∈ l -> queues s !! h = Some q -> t ∈ q -> h = WaitList w.
Proof.
  intros Hwf Hq' Ht' Hq Ht. destruct (wf_wait _ _ Hwf _ _ _ Hq' Ht') as (th & ? & ? & ? & _).
  destruct h as [p2|w2].
  - destruct (wf_run _ _ Hwf _ _ _ Hq Ht) as (? & ? & ? & ? & _). congruence.
  - destruct (wf_wait _ _ Hwf _ _ _ Hq Ht) as (? & ? & ? & ? & _). congruence.
Qed.

(** Threads enter transition: they must be on no queue and be no other cpu's
    current thread. *)
Lemma wf_detach E s t :
  sched_wf E s -> node_in_list t (queues s) = false ->
  (forall c, current s !! c = Some t -> c = thread_lock_owner s) -> sched_wf (plus t E) s.
Proof.
  intros Hwf Hn Hc. rewrite node_in_list_false in Hn. unfold plus. split; constructor; try apply (wf_queues _ _ Hwf); try apply (wf_cpus _ _ Hwf).
  - intros p q x Hq Hx. destruct (wf_run _ _ Hwf _ _ _ Hq Hx) as (th & ? & ? & ? & ? & ?).
    exists th. split_and!; [done..|]. intros [->|]; [by eapply Hn|done].
  - intros p q x Hq Hx. destruct (wf_wait _ _ Hwf _ _ _ Hq Hx) as (th & ? & ? & ? & ? & ?).
    exists th. split_and!; [done..|]. intros [->|]; [by eapply Hn|done].
  - intros x th ???. eapply (wf_blocked _ _ Hwf); tauto.
  - intros x th ????. eapply (wf_ready _ _ Hwf); tauto.
  - intros c x Hx. destruct (wf_current _ _ Hwf _ _ Hx) as (? & th & ? & ? & Hr). split; [done|].
    exists th. split_and!; [done..|]. intros Ho. destruct (Hr Ho). split; [done|].
    intros [->|]; [|done]. by apply Ho, Hc.
  - intros x th ???. eapply (wf_running _ _ Hwf); [done..|tauto].
Qed.

(** Threads leave transition: with a state that needs no queue. *)
Lemma wf_attach E s t th :
  sched_wf E s -> threads s !! t = Some th ->
  (state th = THREAD_READY -> thread_is_idle th = true) -> state th <> THREAD_BLOCKED ->
  (state th = THREAD_RUNNING -> curr_cpu th <> -1) ->
  sched_wf (minus t E) s.
Proof.
  intros Hwf Ht H1 H2 H3. unfold minus. split; constructor; try apply (wf_queues _ _ Hwf); try apply (wf_cpus _ _ Hwf).
  - intros p q x Hq Hx. destruct (wf_run _ _ Hwf _ _ _ Hq Hx) as (th' & ? & ? & ? & ? & ?).
    exists th'. split_and!; [done..|tauto].
  - intros p q x Hq Hx. destruct (wf_wait _ _ Hwf _ _ _ Hq Hx) as (th' & ? & ? & ? & ? & ?).
    exists th'. split_and!; [done..|tauto].
  - intros x th' ???. destruct (decide (x = t)) as [->|]; [congruence|].
    eapply (wf_blocked _ _ Hwf); tauto.
  - intros x th' ????. destruct (decide (x = t)) as [->|].
    + assert (th' = th) as -> by congruence. rewrite H1 in *; done.
    + eapply (wf_ready _ _ Hwf); tauto.
  - intros c x Hx. destruct (wf_current _ _ Hwf _ _ Hx) as (? & th' & ? & ? & Hr). split; [done|].
    exists th'. split_and!; [done..|]. intros Ho. destruct (Hr Ho). split; [done|tauto].
  - intros x th' ???. destruct (decide (x = t)) as [->|].
    + assert (th' = th) as -> by congruence. tauto.
    + eapply (wf_running _ _ Hwf); [done..|tauto].
Qed.

(** ** Updating a thread

    A thread in transition may be updated at will, but for its identity; any
    other keeps what its queue says about it. *)
Record same_identity th th' : Prop := {
  si_magic : magic th' = THREAD_MAGIC;
  si_priority : 0 <= priority th' < NUM_PRIORITIES;
  si_pinned : -1 <= pinned_cpu th' < SMP_MAX_CPUS;
  si_cookie : cookie th' = cookie th;
  si_idle : thread_is_idle th' = thread_is_idle th
}.

Definition filed_alike E t th th' : Prop :=
  E t \/ (state th' = state th /\ priority th' = priority th /\ blocking_wait_queue th' = blocking_wait_queue th).

Lemma cookie_update s t th th' x :
  threads s !! t = Some th -> cookie th' = cookie th ->
  thread_get_expected_cookie x (with_threads <[t := th']> s) = thread_get_expected_cookie x s.
Proof.
  intros Ht Hc. unfold thread_get_expected_cookie, with_threads. cbn. destruct (decide (idle_thread 0 = t)) as [->|].
  - rewrite lookup_insert_eq, Ht. cbn. by rewrite Hc.
  - by rewrite lookup_insert_ne.
Qed.

Lemma queues_wf_update E s t th th' :
  queues_wf E s -> threads s !! t = Some th -> same_identity th th' -> filed_alike E t th th' ->
  queues_wf E (with_threads <[t := th']> s).
Proof.
  intros Hwf Ht [Hm Hp Hpin Hc Hi] Hf. destruct Hwf. unfold filed_alike in Hf.
  assert (forall x y, <[t := th']> (threads s) !! x = Some y -> x = t /\ y = th' \/ x <> t /\ threads s !! x = Some y) as Hl.
  { intros x y. rewrite lookup_insert_Some. naive_solver. }
  constructor; try done; unfold with_threads; cbn [threads queues wait_queues].
  - intros p q x Hq Hx. destruct (wf_run0 _ _ _ Hq Hx) as (y & Hy & ? & ? & ? & ?).
    destruct (decide (x = t)) as [->|]; [|exists y; by rewrite lookup_insert_ne]. simplify_eq.
    destruct Hf as [?|(? & ? & ?)]; [done|]. exists th'. rewrite lookup_insert_eq. split_and!; congruence.
  - intros w q x Hq Hx. destruct (wf_wait0 _ _ _ Hq Hx) as (y & Hy & ? & ? & ? & ?).
    destruct (decide (x = t)) as [->|]; [|exists y; by rewrite lookup_insert_ne]. simplify_eq.
    destruct Hf as [?|(? & ? & ?)]; [done|]. exists th'. rewrite lookup_insert_eq. split_and!; congruence.
  - intros x y [[-> ->]|[??]]%Hl; [|by apply wf_blocked0]. intros ??.
    destruct Hf as [?|(Hs & _ & ->)]; [done|]. rewrite Hs in *. by apply wf_blocked0.
  - intros x y [[-> ->]|[??]]%Hl; [|by apply wf_ready0]. intros ???.
    destruct Hf as [?|(Hs & -> & _)]; [done|]. rewrite Hs, Hi in *. by apply wf_ready0.
  - intros x y [[-> ->]|[??]]%Hl; [done|by eapply wf_thread0].
  - intros x y Hx. fold (with_threads <[t := th']> s). rewrite (cookie_update s t th th' x Ht Hc).
    destruct (Hl _ _ Hx) as [[-> ->]|[??]]; [|by apply wf_cookie0]. rewrite Hc. by apply wf_cookie0.
  - intros c Hv. destruct (wf_idle0 c Hv) as (y & ? & ?). destruct (decide (idle_thread c = t)) as [<-|].
    + rewrite lookup_insert_eq. exists th'. split; [done|]. congruence.
    + rewrite lookup_insert_ne by done. by exists y.
Qed.

Lemma current_wf_update E s t th th' :
  current_wf E s -> threads s !! t = Some th -> curr_cpu th' = curr_cpu th ->
  E t \/ state th' = state th -> current_wf E (with_threads <[t := th']> s).
Proof.
  intros Hwf Ht Hcc Hf. destruct Hwf. constructor; try done; unfold with_threads; cbn [threads current thread_lock_owner].
  - intros c x Hx. destruct (wf_current0 c x Hx) as (? & y & ? & ? & Hr). split; [done|].
    destruct (decide (x = t)) as [->|]; [|exists y; by rewrite lookup_insert_ne].
    rewrite lookup_insert_eq. exists th'. simplify_eq. split_and!; [done|done|].
    intros Ho. destruct (Hr Ho). destruct Hf as [|Hf]; [done|]. by rewrite Hf.
  - intros x y [[<- <-]|[??]]%lookup_insert_Some; [|by apply wf_curr_cpu0]. rewrite Hcc. by apply wf_curr_cpu0.
  - intros x y [[<- <-]|[??]]%lookup_insert_Some; [|by eapply wf_running0]. intros ??.
    destruct Hf as [|Hf]; [done|]. rewrite Hcc. rewrite Hf in *. by eapply wf_running0.
Qed.

Lemma wf_update E s t th th' :
  sched_wf E s -> threads s !! t = Some th -> same_identity th th' -> filed_alike E t th th' ->
  curr_cpu th' = curr_cpu th -> sched_wf E (with_threads <[t := th']> s).
Proof.
  intros [Hq Hc] ? ? Hf ?. split; [by eapply queues_wf_update|]. eapply current_wf_update; [done..|].
  destruct Hf as [|(? & _)]; tauto.
Qed.

(** [queues_wf] reads no other field. *)
Lemma queues_wf_ext E s s' :
  threads s' = threads s -> queues s' = queues s -> run_queue_bitmap s' = run_queue_bitmap s ->
  wait_queues s' = wait_queues s ->
  (forall c, is_Some (cpu_priority s !! c) -> is_Some (cpu_priority s' !! c)) ->
  queues_wf E s -> queues_wf E s'.
Proof.
  intros Ht Hq Hb Hw Hp Hwf. destruct Hwf. constructor; rewrite ?Ht, ?Hq, ?Hb, ?Hw; try done.
  - intros t th Hx. unfold thread_get_expected_cookie. rewrite Ht. by apply wf_cookie0.
  - intros c Hc. by apply Hp, wf_cpu_priority0.
Qed.

Lemma node_delete_id t (qs : gmap queue_head (list Z)) : node_in_list t qs = false -> node_delete t qs = qs.
Proof.
  intros Hn. rewrite node_in_list_false in Hn. apply map_eq. intros h. rewrite node_delete_lookup.
  destruct (qs !! h) as [q|] eqn:Hq; [|done]. cbn. f_equal. apply filter_ne_id. by eapply Hn.
Qed.

(** Only the cpu that has the lock can have a thread that does not run. *)
Lemma wf_current_owner E s t th c :
  current_wf E s -> threads s !! t = Some th -> state th <> THREAD_RUNNING \/ E t ->
  current s !! c = Some t -> c = thread_lock_owner s.
Proof.
  intros Hwf Ht Hst Hc. destruct (wf_current _ _ Hwf _ _ Hc) as (_ & y & Hy & _ & Hr).
  destruct (decide (c = thread_lock_owner s)) as [|Hne]; [done|]. destruct (Hr Hne). simplify_eq. naive_solver.
Qed.

(** The set of threads in transition matters by its members only. *)
Lemma wf_iff E E' s : (forall x, E x <-> E' x) -> sched_wf E s -> sched_wf E' s.
Proof.
  intros He Hwf. split; constructor; try apply (wf_queues _ _ Hwf); try apply (wf_cpus _ _ Hwf);
    try (setoid_rewrite <- He; first [apply (wf_queues _ _ Hwf) | apply (wf_cpus _ _ Hwf)]).
Qed.

(** ** Linking on and unlinking from a run queue *)
Definition linked_run (p : Z) (q' : list Z) s : sched T :=
  with_bitmap (fun b => Z.lor b (bit p)) (with_queues (<[RunQueue p := q']>) s).

Lemma wf_link_run E s t th q q' :
  sched_wf E s -> E t -> threads s !! t = Some th -> state th = THREAD_READY ->
  thread_is_idle th = false -> queues s !! RunQueue (priority th) = Some q -> q' ≡ₚ t :: q ->
  sched_wf (minus t E) (linked_run (priority th) q' s).
Proof.
  intros Hwf He Ht Hst Hi Hq Hperm. destruct (wf_thread _ _ Hwf _ _ Ht) as (_ & Hp & _).
  assert (forall x, x ∈ q' <-> x = t \/ x ∈ q) as Hin by (intros x; by rewrite Hperm, elem_of_cons).
  pose proof (wf_bits _ _ Hwf) as Hb. unfold minus.
  split; constructor; unfold linked_run, with_bitmap, with_queues;
    cbn [queues threads run_queue_bitmap wait_queues current thread_lock_owner cpu_priority].
  - intros p r x [[[= <-] <-]|[??]]%lookup_insert_Some Hx.
    + apply Hin in Hx as [->|Hx]; [exists th; split_and!; [done..|tauto]|].
      destruct (wf_run _ _ Hwf _ _ _ Hq Hx) as (y & ? & ? & ? & ? & ?). exists y. split_and!; [done..|tauto].
    + destruct (wf_run _ _ Hwf p r x) as (y & ? & ? & ? & ? & ?); [done..|]. exists y. split_and!; [done..|tauto].
  - intros w r x [[? _]|[_ ?]]%lookup_insert_Some Hx; [done|].
    destruct (wf_wait _ _ Hwf w r x) as (y & ? & ? & ? & ? & ?); [done..|]. exists y. split_and!; [done..|tauto].
  - intros h r [[<- <-]|[??]]%lookup_insert_Some; [|by eapply (wf_nodup _ _ Hwf)].
    rewrite Hperm. apply NoDup_cons. split; [by eapply (wf_notin E s); [apply Hwf|..]|by eapply (wf_nodup _ _ Hwf)].
  - intros p ?. rewrite lookup_insert_is_Some. destruct (decide (RunQueue (priority th) = RunQueue p)); [by left|].
    right. split; [done|by apply (wf_prio _ _ Hwf)].
  - apply set_bit_bound; [unfold NUM_PRIORITIES in *; lia|done].
  - intros p r [[[= <-] <-]|[Hne Hr]]%lookup_insert_Some.
    + rewrite set_bit_spec, Z.eqb_refl, orb_true_r by lia. rewrite bool_decide_eq_false_2; [done|].
      intros ->. by apply Permutation_nil_l in Hperm.
    + destruct (Z.lt_ge_cases p 0).
      * pose proof (wf_bitmap _ _ Hwf p r Hr) as Hb'. rewrite Z.testbit_neg_r in * by done. done.
      * rewrite set_bit_spec by lia. rewrite (proj2 (Z.eqb_neq _ _)) by congruence.
        rewrite orb_false_r. by apply (wf_bitmap _ _ Hwf).
  - intros w l [[? _]|[_ ?]]%lookup_insert_Some; [done|]. by apply (wf_count _ _ Hwf).
  - intros x y ???. destruct (decide (x = t)) as [->|]; [congruence|].
    destruct (wf_blocked _ _ Hwf x y) as (w & l & ? & ? & ?); [done..|tauto|].
    exists w, l. by rewrite lookup_insert_ne.
  - intros x y Hx ???. destruct (decide (x = t)) as [->|].
    + simplify_eq. exists q'. rewrite lookup_insert_eq. split; [done|]. apply Hin. by left.
    + destruct (wf_ready _ _ Hwf x y) as (r & Hr & ?); [done..|tauto|].
      destruct (decide (priority th = priority y)) as [He'|].
      * rewrite He' in *. simplify_eq. exists q'. rewrite lookup_insert_eq. split; [done|]. apply Hin. by right.
      * exists r. by rewrite lookup_insert_ne by congruence.
  - apply (wf_thread _ _ Hwf).
  - apply (wf_cookie _ _ Hwf).
  - apply (wf_idle _ _ Hwf).
  - apply (wf_cpu_priority _ _ Hwf).
  - apply (wf_idle_current _ _ Hwf).
  - intros c x Hx. destruct (wf_current _ _ Hwf _ _ Hx) as (? & y & ? & ? & Hr). split; [done|].
    exists y. split_and!; [done..|]. intros Ho. destruct (Hr Ho). split; [done|tauto].
  - apply (wf_curr_cpu _ _ Hwf).
  - intros x y ???. destruct (decide (x = t)) as [->|]; [congruence|].
    eapply (wf_running _ _ Hwf); [done..|tauto].
Qed.

Definition unlinked (t : Z) (s : sched T) : sched T := with_queues (node_delete t) s.

Definition unlinked_run (t p : Z) (q : list Z) s : sched T :=
  if bool_decide (filter (fun x => x <> t) q = []) then with_bitmap (clear_bit p) (unlinked t s)
  else unlinked t s.

(** Unlinking touches only the queue the thread is on. *)
Lemma node_delete_other s t h r :
  (forall q, queues s !! h = Some q -> t ∉ q) -> node_delete t (queues s) !! h = Some r ->
  queues s !! h = Some r.
Proof.
  intros Hn. rewrite node_delete_lookup. intros (q & Hq & ->)%fmap_Some.
  by rewrite filter_ne_id by (by apply Hn).
Qed.

Lemma node_delete_keeps s t h q x :
  queues s !! h = Some q -> x ∈ q -> x <> t ->
  exists q', node_delete t (queues s) !! h = Some q' /\ x ∈ q'.
Proof.
  intros Hq Hx Hne. rewrite node_delete_lookup, Hq. eexists. split; [done|]. by apply elem_of_filter_ne.
Qed.

Lemma unlinked_run_queues t p q s : queues (unlinked_run t p q s) = node_delete t (queues s).
Proof. unfold unlinked_run. by case_bool_decide. Qed.

Lemma wf_unlink_run E s t th q :
  sched_wf E s -> threads s !! t = Some th -> queues s !! RunQueue (priority th) = Some q -> t ∈ q ->
  (forall c, current s !! c = Some t -> c = thread_lock_owner s) ->
  sched_wf (plus t E) (unlinked_run t (priority th) q s).
Proof.
  intros Hwf Ht Hq Hin Hcur. destruct (wf_thread _ _ Hwf _ _ Ht) as (_ & Hp & _).
  pose proof (wf_bits _ _ Hwf) as Hb. unfold plus.
  assert (forall h r, node_delete t (queues s) !! h = Some r -> h <> RunQueue (priority th) -> queues s !! h = Some r) as Hother.
  { intros h r Hr Hne. eapply node_delete_other; [|exact Hr]. intros q' Hq' Ht'. eapply Hne, wf_run_unique; [apply Hwf|done..]. }
  assert (run_queue_bitmap (unlinked_run t (priority th) q s) =
    if bool_decide (filter (fun x => x <> t) q = []) then clear_bit (priority th) (run_queue_bitmap s)
    else run_queue_bitmap s) as Hbm by (unfold unlinked_run; by case_bool_decide).
  assert (forall A (f : sched T -> A), (forall s0 g, f (with_bitmap g s0) = f s0) ->
    f (unlinked_run t (priority th) q s) = f (unlinked t s)) as Hf.
  { intros A f Hf. unfold unlinked_run. case_bool_decide; [by rewrite Hf|done]. }
  split; constructor.
  all: rewrite ?unlinked_run_queues, ?(Hf _ threads), ?(Hf _ wait_queues), ?(Hf _ current), ?(Hf _ thread_lock_owner), ?(Hf _ cpu_priority) by done.
  all: unfold unlinked, with_queues; cbn [threads wait_queues current thread_lock_owner cpu_priority].
  - intros p r x Hr Hx. rewrite node_delete_lookup in Hr. apply fmap_Some in Hr as (r0 & Hr & ->).
    apply elem_of_filter_ne in Hx as [Hne Hx].
    destruct (wf_run _ _ Hwf _ _ _ Hr Hx) as (y & ? & ? & ? & ? & ?). exists y. split_and!; [done..|tauto].
  - intros w r x Hr Hx. rewrite node_delete_lookup in Hr. apply fmap_Some in Hr as (r0 & Hr & ->).
    apply elem_of_filter_ne in Hx as [Hne Hx].
    destruct (wf_wait _ _ Hwf _ _ _ Hr Hx) as (y & ? & ? & ? & ? & ?). exists y. split_and!; [done..|tauto].
  - intros h r Hr. rewrite node_delete_lookup in Hr. apply fmap_Some in Hr as (r0 & Hr & ->).
    apply list.NoDup_filter. by eapply (wf_nodup _ _ Hwf).
  - intros p Hp'. rewrite node_delete_lookup. apply fmap_is_Some. by apply (wf_prio _ _ Hwf).
  - rewrite Hbm. case_bool_decide; [apply clear_bit_bound; unfold NUM_PRIORITIES in *; lia|done].
  - intros p r Hr. rewrite Hbm. destruct (decide (p = priority th)) as [->|Hne].
    + rewrite node_delete_lookup, Hq in Hr. cbn in Hr. simplify_eq. case_bool_decide as Hnil.
      * rewrite clear_bit_spec, Z.eqb_refl by lia. by rewrite andb_false_r.
      * rewrite (wf_bitmap _ _ Hwf _ _ Hq), bool_decide_eq_false_2; [done|]. by intros ->.
    + apply Hother in Hr; [|congruence]. rewrite <- (wf_bitmap _ _ Hwf _ _ Hr). case_bool_decide; [|done].
      destruct (Z.lt_ge_cases p 0); [by rewrite !Z.testbit_neg_r|].
      rewrite clear_bit_spec by lia. rewrite (proj2 (Z.eqb_neq _ _)) by done. apply andb_true_r.
  - intros w l Hl. apply (wf_count _ _ Hwf). by apply Hother.
  - intros x y ???. destruct (wf_blocked _ _ Hwf x y) as (w & l & ? & ? & ?); [done..|tauto|].
    destruct (node_delete_keeps s t (WaitList w) l x) as (l' & ? & ?); [done..|tauto|]. by exists w, l'.
  - intros x y ????. destruct (wf_ready _ _ Hwf x y) as (r & Hr & ?); [done..|tauto|].
    eapply node_delete_keeps; [done..|tauto].
  - apply (wf_thread _ _ Hwf).
  - intros x y Hx. unfold thread_get_expected_cookie. rewrite (Hf _ threads) by done. by apply (wf_cookie _ _ Hwf).
  - apply (wf_idle _ _ Hwf).
  - apply (wf_cpu_priority _ _ Hwf).
  - apply (wf_idle_current _ _ Hwf).
  - intros c x Hx. destruct (wf_current _ _ Hwf _ _ Hx) as (? & y & ? & ? & Hr). split; [done|].
    exists y. split_and!; [done..|]. intros Ho. destruct (Hr Ho). split; [done|].
    intros [->|]; [|done]. by apply Ho, Hcur.
  - apply (wf_curr_cpu _ _ Hwf).
  - intros x y ???. eapply (wf_running _ _ Hwf); [done..|tauto].
Qed.
End queues.

Section top.
Context {T : Type} `{!TimerOps T} `{!Config} `{!ConfigLaws}.
Implicit Types (s : sched T) (t cpu : Z) (w : wait_queue_ptr) (th : thread_t) (E : Z -> Prop).

(** ** The choice of the next thread *)
Definition can_run s cpu t : Prop := exists th, threads s !! t = Some th /\ eligible cpu th = true.

Definition no_candidate s cpu (q : list Z) : Prop := Forall (fun t => ~ can_run s cpu t) q.

(** What [get_top_thread(cpu, unlink)] promises: the first thread that may run on
    the cpu in the highest queue that has one, and the idle thread (or NULL) only
    when no queue has one. The last index is the state it leaves. *)
Inductive top_thread s cpu (unlink : bool) : option Z -> sched T -> Prop :=
| top_none : cpu < 0 -> (forall p q, queues s !! RunQueue p = Some q -> no_candidate s cpu q) ->
    top_thread s cpu unlink None s
| top_idle : 0 <= cpu -> (forall p q, queues s !! RunQueue p = Some q -> no_candidate s cpu q) ->
    top_thread s cpu unlink (Some (idle_thread cpu)) s
| top_found p q1 t q2 th :
    queues s !! RunQueue p = Some (q1 ++ t :: q2) -> threads s !! t = Some th -> priority th = p ->
    eligible cpu th = true -> no_candidate s cpu q1 ->
    (forall p' q, p < p' -> queues s !! RunQueue p' = Some q -> no_candidate s cpu q) ->
    top_thread s cpu unlink (Some t) (if unlink then unlinked_run t p (q1 ++ t :: q2) s else s).

Lemma first_eligible_run E s cpu p q :
  queues_wf E s -> queues s !! RunQueue p = Some q ->
  (exists q1 t q2, q = q1 ++ t :: q2 /\ can_run s cpu t /\ no_candidate s cpu q1 /\
     first_eligible cpu q s = Some (Some t, s)) \/
  (no_candidate s cpu q /\ first_eligible cpu q s = Some (None, s)).
Proof.
  intros Hwf Hq.
  assert (forall t, t ∈ q -> exists th, threads s !! t = Some th) as Hth.
  { intros t Ht. destruct (wf_run _ _ Hwf _ _ _ Hq Ht) as (th & ? & _). by exists th. }
  clear Hq. induction q as [|x q IH]; [right; split; [constructor|done]|].
  destruct (Hth x) as [th Hx]; [left|]. cbn [first_eligible].
  rewrite (bind_eq _ _ _ _ _ (get_thread_eq s x th Hx)). destruct (eligible cpu th) eqn:He.
  - left. exists [], x, q. split_and!; [done|by exists th|constructor|done].
  - assert (~ can_run s cpu x) as Hn by (intros (y & ? & ?); congruence).
    destruct IH as [(q1 & t & q2 & -> & ? & ? & ?)|[??]].
    + intros t Ht. apply Hth. by right.
    + left. exists (x :: q1), t, q2. split_and!; [done..|by constructor|done].
    + right. split; [by constructor|done].
Qed.

Lemma delete_from_run_queue_run E s cpu t th q :
  queues_wf E s -> thread_lock_owner s = cpu -> threads s !! t = Some th ->
  queues s !! RunQueue (priority th) = Some q -> t ∈ q ->
  delete_from_run_queue cpu t s = Some (tt, unlinked_run t (priority th) q s).
Proof.
  intros Hwf Ho Ht Hq Hin. destruct (wf_run _ _ Hwf _ _ _ Hq Hin) as (y & ? & ? & _). simplify_eq.
  destruct (wf_thread _ _ Hwf _ _ Ht) as (? & _). unfold delete_from_run_queue. sstep.
  sstep. sstep. unfold queue_node_in_list, thread_lock_held. rewrite gets_bind.
  rewrite assert_bind by (apply node_in_list_true; eauto). rewrite gets_bind.
  rewrite assert_bind by (by apply Z.eqb_eq). rewrite modify_bind.
  assert (queues (unlinked t s) !! RunQueue (priority th) = Some (filter (fun x => x <> t) q)) as Hq'
    by (unfold unlinked, with_queues; cbn; by rewrite node_delete_lookup, Hq).
  fold (unlinked t s). rewrite (bind_eq _ _ _ _ _ (get_list_eq _ _ _ Hq')).
  unfold unlinked_run, when, modify, ret. by case_bool_decide.
Qed.

(** The queues whose bit is already cleared have no candidate. *)
Record top_inv s cpu (b : Z) : Prop := {
  ti_done : forall p q, queues s !! RunQueue p = Some q -> Z.testbit b p = false -> no_candidate s cpu q;
  ti_sub : forall p, Z.testbit b p = true -> Z.testbit (run_queue_bitmap s) p = true
}.

Lemma top_inv_init E s cpu : queues_wf E s -> top_inv s cpu (run_queue_bitmap s).
Proof.
  intros Hwf. split; [|done]. intros p q Hq. rewrite (wf_bitmap _ _ Hwf _ _ Hq).
  intros Hn%negb_false_iff%bool_decide_eq_true. subst. constructor.
Qed.

Lemma get_top_thread_from_run E s cpu unlink fuel b :
  queues_wf E s -> (unlink = true -> thread_lock_owner s = cpu) -> top_inv s cpu b ->
  0 <= b < 2 ^ Z.of_nat fuel ->
  exists r s', get_top_thread_from fuel cpu unlink b s = Some (r, s') /\ top_thread s cpu unlink r s'.
Proof.
  intros Hwf Ho. revert b. induction fuel as [|fuel IH]; intros b Hti Hb.
  all: cbn [get_top_thread_from]; destruct (Z.eqb_spec b 0) as [->|Hnz].
  1, 3: assert (forall p q, queues s !! RunQueue p = Some q -> no_candidate s cpu q) as Hno
    by (intros p q Hq; eapply ti_done; [exact Hti|exact Hq|apply Z.bits_0]).
  1, 2: destruct (Z.ltb_spec cpu 0); eexists _, _; (split; [reflexivity|by constructor]).
  { cbn in Hb. lia. }
  set (n := Z.log2 b). assert (0 <= n < Z.of_nat (S fuel)) as Hn.
  { split; [apply Z.log2_nonneg|apply Z.log2_lt_pow2; lia]. }
  assert (Z.testbit b n = true) as Hbit by (apply Z.bit_log2; lia).
  assert (0 <= n < NUM_PRIORITIES) as Hn32.
  { split; [lia|]. apply Z.nle_gt. intros ?. apply (ti_sub _ _ _ Hti) in Hbit.
    rewrite (bits_above _ NUM_PRIORITIES n) in Hbit; [done|unfold NUM_PRIORITIES; lia|apply (wf_bits _ _ Hwf)|done]. }
  destruct (wf_prio _ _ Hwf n Hn32) as [q Hq]. rewrite (bind_eq _ _ _ _ _ (get_list_eq _ _ _ Hq)).
  destruct (first_eligible_run E s cpu n q Hwf Hq) as [(q1 & t & q2 & -> & Hrun & Hq1 & Hf)|[Hno Hf]];
    rewrite (bind_eq _ _ _ _ _ Hf).
  - destruct (wf_run _ _ Hwf _ _ t Hq) as (th & Ht & ? & Hp & _); [set_solver|].
    exists (Some t), (if unlink then unlinked_run t n (q1 ++ t :: q2) s else s). split.
    + destruct unlink; [|reflexivity]. cbn [when]. subst n. rewrite <- Hp in Hq.
      rewrite (bind_eq _ _ _ _ _ (delete_from_run_queue_run E s cpu t th _ Hwf (Ho eq_refl) Ht Hq ltac:(set_solver))).
      by rewrite Hp.
    + destruct Hrun as (y & ? & ?). simplify_eq. eapply top_found; [done..|].
      intros p' q Hlt Hq'. eapply ti_done; [exact Hti|exact Hq'|]. apply Z.bits_above_log2; lia.
  - apply IH.
    + split.
      * intros p q' Hq'. destruct (Z.lt_ge_cases p 0).
        { intros _. eapply ti_done; [exact Hti|exact Hq'|]. by apply Z.testbit_neg_r. }
        rewrite clear_bit_spec by lia. destruct (Z.eqb_spec n p) as [<-|]; [intros _; by simplify_eq|].
        rewrite andb_true_r. by apply (ti_done _ _ _ Hti).
      * intros p. destruct (Z.lt_ge_cases p 0); [by rewrite Z.testbit_neg_r|].
        rewrite clear_bit_spec by lia. intros [? _]%andb_true_iff. by apply (ti_sub _ _ _ Hti).
    + pose proof (clear_top_bound b ltac:(lia)). assert (2 ^ Z.log2 b <= 2 ^ Z.of_nat fuel); [|subst n; lia].
      apply Z.pow_le_mono_r; lia.
Qed.

Lemma get_top_thread_run E s cpu unlink :
  queues_wf E s -> (unlink = true -> thread_lock_owner s = cpu) ->
  exists r s', get_top_thread cpu unlink s = Some (r, s') /\ top_thread s cpu unlink r s'.
Proof.
  intros Hwf Ho. eapply get_top_thread_from_run; [done..|by eapply top_inv_init|].
  apply (wf_bits _ _ Hwf).
Qed.
End top.
