(* ===== verification/SchedOps.v ===== *)
(** * Rescheduling (kernel/thread.c)

    Requests to other cpus change nothing but the log of interrupts and the
    recorded cpu priorities; [thread_resched] ends with the best thread running
    on the cpu and a well-formed state. *)
From stdpp Require Import base gmap list.
From Stdlib Require Import ZArith Lia.
From S2P Require Import Prelude Sched SchedInv.

Local Open Scope Z_scope.
Local Open Scope lk_scope.

Section ops.
Context {T : Type} `{!TimerOps T} `{!Config} `{!TimerLaws T} `{!ConfigLaws}.
Implicit Types (s : sched T) (t cpu : Z) (w : wait_queue_ptr) (th : thread_t) (E : Z -> Prop).

(** ** Signalling other cpus *)
Definition signalled s s' : Prop :=
  exists f g, s' = with_ipis g (with_cpu_priority f s) /\
    forall c, is_Some (cpu_priority s !! c) -> is_Some (cpu_priority s' !! c).

Lemma signalled_refl s : signalled s s.
Proof. exists id, id. by destruct s. Qed.

Lemma signalled_trans s1 s2 s3 : signalled s1 s2 -> signalled s2 s3 -> signalled s1 s3.
Proof.
  intros (f & g & -> & H1) (f' & g' & -> & H2). exists (f' ∘ f), (g' ∘ g). split; [done|].
  intros c Hc. by apply H2, H1.
Qed.

Lemma signalled_ipis g s : signalled s (with_ipis g s).
Proof. exists id, g. by destruct s. Qed.

Lemma signalled_priority c p s : signalled s (with_cpu_priority <[c := p]> s).
Proof.
  exists (<[c := p]>), id. split; [by destruct s|]. intros c' ?. cbn. apply lookup_insert_is_Some'. by right.
Qed.

Lemma queues_wf_signalled E s s' : signalled s s' -> queues_wf E s -> queues_wf E s'.
Proof.
  intros (f & g & -> & Hp) Hwf. destruct Hwf. constructor; try done. intros c Hc. by apply Hp, wf_cpu_priority.
Qed.

Lemma wf_signalled E s s' : signalled s s' -> sched_wf E s -> sched_wf E s'.
Proof.
  intros Hs [Hq Hc]. split; [by eapply queues_wf_signalled|]. destruct Hs as (f & g & -> & Hp).
  destruct Hc. by constructor.
Qed.

Lemma signalled_fields s s' : signalled s s' ->
  threads s' = threads s /\ queues s' = queues s /\ wait_queues s' = wait_queues s /\
  current s' = current s /\ thread_lock_owner s' = thread_lock_owner s /\ timers s' = timers s /\
  mmu_context s' = mmu_context s /\ run_queue_bitmap s' = run_queue_bitmap s /\ mp s' = mp s.
Proof. by intros (f & g & -> & _). Qed.

Lemma mp_reschedule_run cpu target flags s :
  exists s', mp_reschedule cpu target flags s = Some (tt, s') /\ signalled s s'.
Proof. unfold mp_reschedule. rewrite gets_bind. eexists. split; [reflexivity|]. apply signalled_ipis. Qed.

Lemma reschedule_target_run E s cpu c t :
  queues_wf E s -> is_Some (threads s !! c) -> is_Some (threads s !! t) ->
  exists m s', thread_get_mp_reschedule_target cpu c t s = Some (m, s') /\ signalled s s'.
Proof.
  intros Hwf [cth Hc] [th Ht]. unfold thread_get_mp_reschedule_target. do 2 sstep.
  destruct (_ && _); [eexists _, s; split; [reflexivity|apply signalled_refl]|].
  destruct (_ || _) eqn:Hpin; [eexists _, s; split; [reflexivity|apply signalled_refl]|].
  destruct (wf_thread _ _ Hwf _ _ Ht) as (_ & _ & ?). bprop.
  rewrite assert_bind by (apply andb_true_iff; split; [apply Z.leb_le|apply Z.ltb_lt]; lia).
  destruct (wf_cpu_priority _ _ Hwf (pinned_cpu th)) as [p Hp]; [unfold valid_cpu; lia|]. sstep.
  destruct (_ <? _); [eexists _, s; split; [reflexivity|apply signalled_refl]|].
  eexists _, _. split; [reflexivity|]. apply signalled_priority.
Qed.

Lemma thread_mp_reschedule_run E s cpu c t :
  queues_wf E s -> is_Some (threads s !! c) -> is_Some (threads s !! t) ->
  exists s', thread_mp_reschedule cpu c t s = Some (tt, s') /\ signalled s s'.
Proof.
  intros Hwf Hc Ht. destruct (reschedule_target_run E s cpu c t Hwf Hc Ht) as (m & s1 & Hm & Hs).
  unfold thread_mp_reschedule. rewrite (bind_eq _ _ _ _ _ Hm).
  destruct (mp_reschedule_run cpu m 0 s1) as (s2 & ? & ?). exists s2. split; [done|]. by eapply signalled_trans.
Qed.

Lemma thread_pinned_cond_mp_reschedule_run E s this_cpu c t th cpu :
  queues_wf E s -> is_Some (threads s !! c) -> threads s !! t = Some th ->
  curr_cpu th = cpu \/ curr_cpu th = -1 ->
  exists s', thread_pinned_cond_mp_reschedule this_cpu c t cpu s = Some (tt, s') /\ signalled s s'.
Proof.
  intros Hwf Hc Ht Hcpu. unfold thread_pinned_cond_mp_reschedule. sstep.
  destruct (_ && _); [|eexists; split; [reflexivity|apply signalled_refl]].
  rewrite assert_bind by (apply orb_true_iff; rewrite !Z.eqb_eq; done).
  eapply thread_mp_reschedule_run; [done..|by eexists].
Qed.

Lemma top_thread_some s cpu t s' :
  top_thread s cpu false (Some t) s' -> 0 <= cpu \/ is_Some (threads s !! t).
Proof. inversion 1; subst; [by left|right; by eexists]. Qed.

Lemma thread_cond_mp_reschedule_run E s cpu :
  queues_wf E s -> thread_lock_owner s = cpu ->
  exists s', thread_cond_mp_reschedule cpu s = Some (tt, s') /\ signalled s s'.
Proof.
  intros Hwf Ho. destruct (get_top_thread_run E s (-1) false Hwf ltac:(done)) as (r & s1 & Htop & Hspec).
  unfold thread_cond_mp_reschedule. rewrite (bind_eq _ _ _ _ _ Htop).
  assert (s1 = s) as -> by (by inversion Hspec).
  unfold thread_lock_held. rewrite !gets_bind, assert_bind by (by apply Z.eqb_eq). rewrite !gets_bind.
  destruct (fold_left _ _ _) as [best prio]. destruct r as [t|]; [|eexists; split; [reflexivity|apply signalled_refl]].
  destruct (top_thread_some _ _ _ _ Hspec) as [?|[th Ht]]; [lia|]. sstep.
  destruct (_ <=? _); [eexists; split; [reflexivity|apply signalled_refl]|].
  unfold set_cpu_priority. rewrite modify_bind. set (s1 := with_cpu_priority _ s).
  destruct (mp_reschedule_run cpu (bit best) 0 s1) as (s2 & ? & ?). exists s2. split; [done|].
  eapply signalled_trans; [apply signalled_priority|done].
Qed.

(** ** Taking the best thread off its queue *)

(** [new] is the thread [get_top_thread] picks on the cpu. *)
Definition best s cpu (new : Z) : Prop := exists s1, top_thread s cpu true (Some new) s1.

Lemma top_thread_wf s cpu new s1 :
  sched_wf none s -> thread_lock_owner s = cpu -> valid_cpu cpu -> top_thread s cpu true (Some new) s1 ->
  sched_wf (plus new none) s1 /\ threads s1 = threads s /\ queues s1 = node_delete new (queues s) /\
  wait_queues s1 = wait_queues s /\ current s1 = current s /\ thread_lock_owner s1 = cpu /\
  timers s1 = timers s /\ mmu_context s1 = mmu_context s /\
  exists n, threads s !! new = Some n /\ (thread_is_idle n = true -> new = idle_thread cpu) /\ state n <> THREAD_BLOCKED.
Proof.
  intros Hwf Ho Hv Htop. inversion Htop; subst; clear Htop.
  - destruct (wf_idle _ _ Hwf _ Hv) as (n & Hn & Hi).
    assert (node_in_list (idle_thread (thread_lock_owner s1)) (queues s1) = false) as Hnl.
    { apply node_in_list_false. intros [p|w] q Hq Hin.
      - destruct (wf_run _ _ Hwf _ _ _ Hq Hin) as (? & ? & ? & ? & ? & ?). simplify_eq. congruence.
      - destruct (wf_wait _ _ Hwf _ _ _ Hq Hin) as (? & ? & ? & ? & ? & ?). simplify_eq. congruence. }
    split_and!; [|done|by rewrite node_delete_id|done..|].
    + apply wf_detach; [done..|]. intros c Hc. by apply (wf_idle_current _ _ Hwf).
    + exists n. split_and!; [done..|]. intros Hb.
      destruct (wf_blocked _ _ Hwf _ _ Hn Hb) as (w & l & ? & Hl & Hin); [by intros []|].
      by eapply (proj1 (node_in_list_false _ _) Hnl).
  - match goal with Hq : queues s !! _ = Some (_ ++ new :: _), Ht : threads s !! new = Some ?x |- _ =>
      rename x into n; rename Hq into Hq'; rename Ht into Hn end.
    destruct (wf_run _ _ Hwf _ _ new Hq') as (y & ? & Hst & _ & Hi & _); [set_solver|]. simplify_eq.
    split_and!; [|unfold unlinked_run; case_bool_decide; done|apply unlinked_run_queues| | | | | |];
      try (unfold unlinked_run; case_bool_decide; done).
    + eapply wf_unlink_run; [done..|set_solver|]. intros c. eapply (wf_current_owner _ _ _ _ _ Hwf); [done|].
      left. congruence.
    + exists n. split_and!; [done|congruence|congruence].
Qed.

(** ** Switching *)
Lemma current_wf_switch s s' cpu old new o' n' :
  current_wf (plus new none) s -> thread_lock_owner s = cpu -> valid_cpu cpu ->
  current s !! cpu = Some old -> old <> new ->
  (forall x, x <> new -> x <> old -> threads s' !! x = threads s !! x) ->
  threads s' !! old = Some o' -> curr_cpu o' = -1 -> state o' <> THREAD_RUNNING ->
  threads s' !! new = Some n' -> curr_cpu n' = cpu ->
  (forall c, valid_cpu c -> new = idle_thread c -> c = cpu) ->
  current s' = <[cpu := new]> (current s) -> thread_lock_owner s' = cpu ->
  current_wf (plus new none) s'.
Proof.
  intros Hwf Ho Hv Hold Hne Hx Hto Hco Hso Htn Hcn Hidle Hcur Ho'. unfold plus, none in *.
  destruct (wf_current _ _ Hwf _ _ Hold) as (_ & oth & Hoth & Hocpu & _).
  assert (forall c t, c <> cpu -> current s !! c = Some t -> t <> new /\ t <> old) as Hothers.
  { intros c t Hc Ht. destruct (wf_current _ _ Hwf _ _ Ht) as (_ & y & Hy & Hyc & Hr).
    destruct Hr as [_ He]; [congruence|]. split; [tauto|]. intros ->. congruence. }
  constructor; rewrite ?Hcur, ?Ho'.
  - intros c c' Hv' [[<- He]|[Hc He]]%lookup_insert_Some; [by symmetry; apply Hidle|].
    by apply (wf_idle_current _ _ Hwf).
  - intros c t [[<- <-]|[Hc Ht]]%lookup_insert_Some; [split; [done|]; by exists n'|].
    destruct (Hothers c t) as [Hn1 Hn2]; [done..|]. rewrite Hx by done.
    destruct (wf_current _ _ Hwf _ _ Ht) as (? & y & ? & ? & Hr). split; [done|]. exists y. split_and!; [done..|].
    intros _. apply Hr. congruence.
  - intros t th Ht. destruct (decide (t = new)) as [->|]; [right; assert (th = n') as -> by congruence; by rewrite Hcn, lookup_insert_eq|].
    destruct (decide (t = old)) as [->|]; [left; congruence|]. rewrite Hx in Ht by done.
    destruct (wf_curr_cpu _ _ Hwf _ _ Ht) as [|Hc]; [by left|right].
    rewrite lookup_insert_ne; [done|]. intros He. rewrite <- He in Hc. congruence.
  - intros t th Ht Hr He. destruct (decide (t = new)) as [->|]; [tauto|].
    destruct (decide (t = old)) as [->|]; [congruence|]. rewrite Hx in Ht by done.
    eapply (wf_running _ _ Hwf); [done..|tauto].
Qed.

(** The preemption timer of a cpu runs exactly when its thread is preemptible. *)
Definition preempt_wf s cpu : Prop :=
  timer_ok (timers s) /\ forall t th, current s !! cpu = Some t -> threads s !! t = Some th ->
    preempt_pending (timers s) cpu = negb (thread_is_real_time_or_idle th).

Lemma switch_preempt_timer_run E s cpu old new :
  queues_wf E s -> valid_cpu cpu -> thread_lock_owner s = cpu -> timer_ok (timers s) ->
  preempt_pending (timers s) cpu = negb (thread_is_real_time_or_idle old) ->
  exists s1 x, switch_preempt_timer cpu old new s = Some (tt, with_timers x s1) /\ signalled s s1 /\
    timer_ok x /\
    (forall c, valid_cpu c -> preempt_pending x c =
       if decide (c = cpu) then negb (thread_is_real_time_or_idle new) else preempt_pending (timers s) c) /\
    (forall t, timeout_pending x t = timeout_pending (timers s) t /\ timeout_live x t = timeout_live (timers s) t).
Proof.
  intros Hwf Hv Ho Hok Hp. unfold switch_preempt_timer, when.
  assert (forall s1, with_timers (timers s1) s1 = s1) as Hid by (by intros []).
  destruct (thread_is_real_time_or_idle new).
  - destruct (thread_cond_mp_reschedule_run E s cpu Hwf Ho) as (s1 & Hr & Hs). rewrite (bind_eq _ _ _ _ _ Hr).
    destruct (signalled_fields _ _ Hs) as (_ & _ & _ & _ & _ & Ht & _).
    destruct (thread_is_real_time_or_idle old); cbn [negb] in *.
    + exists s1, (timers s1). rewrite Hid, Ht. split_and!; [done..| |done]. intros c ?. by case_decide; subst.
    + destruct (preempt_cancel_law (timers s) cpu Hok Hv Hp) as (x & Hx & ? & ? & ?).
      exists s1, x. unfold on_timers. rewrite Ht, Hx. by split_and!.
  - destruct (thread_is_real_time_or_idle old); cbn [negb] in *.
    + destruct (preempt_set_law (timers s) cpu Hok Hv Hp) as (x & Hx & ? & ? & ?).
      exists s, x. unfold on_timers. rewrite Hx. split_and!; [done|apply signalled_refl|done..].
    + exists s, (timers s). rewrite Hid. split_and!; [done|apply signalled_refl|done| |done].
      intros c ?. by case_decide; subst.
Qed.

(** What [thread_resched] leaves: [new] is the best thread and runs on the cpu
    with a fresh quantum if it had none, the old thread has left the cpu, no
    other thread, queue or timer changed, and the memory context, the preemption
    timer and the recorded priority of the cpu are those of [new]. *)
Record rescheduled s cpu (old new : Z) (o : outcome unit) s' : Prop := {
  rs_best : best s cpu new;
  rs_wf : sched_wf none s';
  rs_owner : thread_lock_owner s' = cpu;
  rs_current : current s' = <[cpu := new]> (current s);
  rs_outcome : o = if decide (new = old) then Return tt else Switched;
  rs_new : exists n n', threads s !! new = Some n /\ threads s' !! new = Some n' /\
    state n' = THREAD_RUNNING /\ priority n' = priority n /\ aspace n' = aspace n /\
    pinned_cpu n' = pinned_cpu n /\ flags n' = flags n /\ wait_queue_block_ret n' = wait_queue_block_ret n /\
    blocking_wait_queue n' = blocking_wait_queue n /\ (new <> old -> 0 < remaining_quantum n') /\
    cpu_priority s' !! cpu = Some (priority n') /\
    (forall o, threads s !! old = Some o -> mmu_context s !! cpu = Some (aspace o) ->
       mmu_context s' !! cpu = Some (aspace n'));
  rs_old : new <> old -> threads s' !! old = set_curr_cpu (-1) <$> threads s !! old;
  rs_other : forall t, t <> new -> t <> old -> threads s' !! t = threads s !! t;
  rs_queues : queues s' = node_delete new (queues s);
  rs_wait_queues : wait_queues s' = wait_queues s;
  rs_preempt : preempt_wf s' cpu;
  rs_preempt_other : forall c, valid_cpu c -> c <> cpu -> preempt_pending (timers s') c = preempt_pending (timers s) c;
  rs_timeouts : forall t, timeout_pending (timers s') t = timeout_pending (timers s) t /\
    timeout_live (timers s') t = timeout_live (timers s) t
}.

Lemma same_identity_keep E s t th th' :
  queues_wf E s -> threads s !! t = Some th ->
  magic th' = magic th -> priority th' = priority th -> pinned_cpu th' = pinned_cpu th ->
  cookie th' = cookie th -> flags th' = flags th -> same_identity th th'.
Proof.
  intros Hwf Ht Hm Hp Hpin Hc Hf. destruct (wf_thread _ _ Hwf _ _ Ht) as (? & ? & ?).
  constructor; [congruence|rewrite Hp; done|rewrite Hpin; done|done|unfold thread_is_idle, has_flag; by rewrite Hf].
Qed.
End ops.

Ltac keep := eapply same_identity_keep; [eassumption|eassumption|reflexivity..].

Section resched.
Context {T : Type} `{!TimerOps T} `{!Config} `{!TimerLaws T} `{!ConfigLaws}.
Implicit Types (s : sched T) (t cpu : Z) (w : wait_queue_ptr) (th : thread_t) (E : Z -> Prop).

(** The new thread as it starts to run. *)
Definition refill (n : thread_t) : thread_t := if remaining_quantum n <=? 0 then set_quantum 5 n else n.

Lemma refill_same n : magic (refill n) = magic n /\ priority (refill n) = priority n /\
  pinned_cpu (refill n) = pinned_cpu n /\ cookie (refill n) = cookie n /\ flags (refill n) = flags n /\
  state (refill n) = state n /\ aspace (refill n) = aspace n /\ curr_cpu (refill n) = curr_cpu n /\
  blocking_wait_queue (refill n) = blocking_wait_queue n /\ wait_queue_block_ret (refill n) = wait_queue_block_ret n /\
  0 < remaining_quantum (refill n).
Proof. unfold refill. destruct (Z.leb_spec (remaining_quantum n) 0); split_and!; done. Qed.

(** The threads as [switch_threads] leaves them. *)
Definition switched_threads cpu (old new : Z) (o n : thread_t) (m : gmap Z thread_t) : gmap Z thread_t :=
  <[new := set_curr_cpu cpu (refill n)]> (<[old := set_curr_cpu (-1) o]> (<[new := refill n]> m)).

Lemma queues_wf_switched s cpu old new o n :
  queues_wf (plus new none) s -> threads s !! old = Some o -> threads s !! new = Some n -> old <> new ->
  queues_wf (plus new none) (with_threads (fun m => switched_threads cpu old new o n m) s).
Proof.
  intros Hwf Ho Hn Hne. destruct (refill_same n) as (? & ? & ? & ? & ? & ?).
  pose (s1 := with_threads <[new := refill n]> s).
  assert (queues_wf (plus new none) s1) as Hs1.
  { eapply queues_wf_update; [done|exact Hn| |by left; left]. eapply same_identity_keep; [exact Hwf|exact Hn|done..]. }
  assert (threads s1 !! old = Some o) as Ho1 by (cbn; by rewrite lookup_insert_ne).
  pose (s2 := with_threads <[old := set_curr_cpu (-1) o]> s1).
  assert (queues_wf (plus new none) s2) as Hs2.
  { eapply queues_wf_update; [done|exact Ho1| |by right]. eapply same_identity_keep; [exact Hs1|exact Ho1|done..]. }
  assert (threads s2 !! new = Some (refill n)) as Hn2 by (cbn; by rewrite lookup_insert_ne, lookup_insert_eq).
  apply (queues_wf_update _ s2 new (refill n)); [done|done| |by left; left].
  eapply same_identity_keep; [exact Hs2|exact Hn2|done..].
Qed.

Lemma switched_lookup cpu old new o n m x :
  old <> new -> switched_threads cpu old new o n m !! x =
    if decide (x = new) then Some (set_curr_cpu cpu (refill n))
    else if decide (x = old) then Some (set_curr_cpu (-1) o) else m !! x.
Proof.
  intros Hne. unfold switched_threads. repeat case_decide; subst.
  - apply lookup_insert_eq.
  - rewrite lookup_insert_ne by done. apply lookup_insert_eq.
  - by rewrite !lookup_insert_ne.
Qed.

Lemma switch_threads_run s cpu old new o n :
  queues_wf (plus new none) s -> valid_cpu cpu -> thread_lock_owner s = cpu -> old <> new ->
  threads s !! old = Some o -> threads s !! new = Some n ->
  timer_ok (timers s) -> preempt_pending (timers s) cpu = negb (thread_is_real_time_or_idle o) ->
  exists s', switch_threads cpu old new s = Some (Switched, s') /\ queues_wf (plus new none) s' /\
    thread_lock_owner s' = cpu /\ threads s' = switched_threads cpu old new o n (threads s) /\
    current s' = <[cpu := new]> (current s) /\ queues s' = queues s /\ wait_queues s' = wait_queues s /\
    cpu_priority s' !! cpu = Some (priority n) /\ timer_ok (timers s') /\
    (forall c, valid_cpu c -> preempt_pending (timers s') c =
       if decide (c = cpu) then negb (thread_is_real_time_or_idle n) else preempt_pending (timers s) c) /\
    (forall t, timeout_pending (timers s') t = timeout_pending (timers s) t /\
       timeout_live (timers s') t = timeout_live (timers s) t) /\
    (mmu_context s !! cpu = Some (aspace o) -> mmu_context s' !! cpu = Some (aspace n)).
Proof.
  intros Hwf Hv Hown Hne Ho Hn Hok Hp. destruct (refill_same n) as (Hm & Hpr & Hpin & Hck & Hfl & Hst & Has & Hcc & _).
  unfold switch_threads. rewrite (bind_eq _ _ _ _ _ (upd_thread_eq _ _ _ _ Hn)).
  set (s1 := with_threads _ s).
  assert (threads s1 !! old = Some o) as Ho1 by (cbn; by rewrite lookup_insert_ne).
  rewrite (bind_eq _ _ _ _ _ (upd_thread_eq _ _ _ _ Ho1)). set (s2 := with_threads _ s1).
  assert (threads s2 !! new = Some (refill n)) as Hn2 by (cbn; by rewrite lookup_insert_ne, lookup_insert_eq).
  rewrite (bind_eq _ _ _ _ _ (upd_thread_eq _ _ _ _ Hn2)).
  change (with_threads <[new := set_curr_cpu cpu (refill n)]> s2)
    with (with_threads (fun m => switched_threads cpu old new o n m) s).
  set (s3 := with_threads _ s). pose proof (queues_wf_switched s cpu old new o n Hwf Ho Hn Hne) as Hwf3. fold s3 in Hwf3.
  assert (threads s3 !! old = Some (set_curr_cpu (-1) o)) as Ho3
    by (cbn; rewrite switched_lookup by done; by rewrite decide_False, decide_True by done).
  assert (threads s3 !! new = Some (set_curr_cpu cpu (refill n))) as Hn3
    by (cbn; rewrite switched_lookup by done; by rewrite decide_True).
  rewrite (bind_eq _ _ _ _ _ (get_thread_eq _ _ _ Ho3)), (bind_eq _ _ _ _ _ (get_thread_eq _ _ _ Hn3)).
  rewrite !modify_bind. set (s4 := with_mp _ (with_mp _ s3)).
  assert (queues_wf (plus new none) s4) as Hwf4 by (by apply (queues_wf_ext _ s3)).
  destruct (switch_preempt_timer_run (plus new none) s4 cpu (set_curr_cpu (-1) o) (set_curr_cpu cpu (refill n)))
    as (s5 & x & Hsp & Hsig & Hok' & Hpp & Hto); [done..|].
  rewrite (bind_eq _ _ _ _ _ Hsp). unfold set_cpu_priority, set_current_thread. rewrite !modify_bind.
  set (s6 := with_current _ _).
  destruct (signalled_fields _ _ Hsig) as (Ht5 & Hq5 & Hw5 & Hc5 & Hlo5 & _ & Hmm5 & Hb5 & _).
  assert (queues_wf (plus new none) s6) as Hwf6.
  { eapply (queues_wf_ext _ s5); try done.
    - intros c ?. cbn. apply lookup_insert_is_Some'. by right.
    - by eapply queues_wf_signalled. }
  assert (threads s6 = threads s3) as Ht6 by done.
  erewrite bind_eq by (eapply check_cookie_eq; [exact Hwf6|by rewrite Ht6]).
  assert (thread_is_real_time_or_idle (set_curr_cpu cpu (refill n)) = thread_is_real_time_or_idle n) as Hrt
    by (unfold thread_is_real_time_or_idle, has_flag; cbn; by rewrite Hfl).
  assert (cpu_priority s6 !! cpu = Some (priority n)) as Hcp6 by (cbn; rewrite lookup_insert_eq; by rewrite Hpr).
  destruct (Z.eqb_spec (aspace (set_curr_cpu cpu (refill n))) (aspace (set_curr_cpu (-1) o))) as [Ha|Ha]; cbn [negb when].
  - exists s6. split; [reflexivity|]. split_and!; try done.
    + cbn. by rewrite Hlo5.
    + cbn. by rewrite Hc5.
    + intros c Hc. cbn. rewrite (Hpp c Hc), Hrt. done.
    + cbn. rewrite Hmm5. cbn in Ha. cbn. rewrite <- Has, Ha. done.
  - unfold vmm_context_switch, thread_lock_held. rewrite ?bind_assoc, gets_bind.
    rewrite ?bind_assoc, assert_bind by (apply Z.eqb_eq; cbn; by rewrite Hlo5). rewrite modify_bind.
    eexists. split; [reflexivity|]. split_and!; try done.
    + by apply (queues_wf_ext _ s6).
    + cbn. by rewrite Hlo5.
    + cbn. by rewrite Hc5.
    + intros c Hc. cbn. rewrite (Hpp c Hc), Hrt. done.
    + intros _. cbn. rewrite lookup_insert_eq. by rewrite Has.
Qed.
(** The state in which an operation may call [thread_resched]. *)
Record may_resched s cpu (old : Z) (o : thread_t) : Prop := {
  mr_wf : sched_wf none s;
  mr_owner : thread_lock_owner s = cpu;
  mr_current : current s !! cpu = Some old;
  mr_thread : threads s !! old = Some o;
  mr_state : state o <> THREAD_RUNNING;
  mr_preempt : preempt_wf s cpu
}.

Lemma top_thread_pick s cpu :
  sched_wf none s -> thread_lock_owner s = cpu -> valid_cpu cpu ->
  exists new s1, get_top_thread cpu true s = Some (Some new, s1) /\ top_thread s cpu true (Some new) s1.
Proof.
  intros Hwf Ho [Hv _]. destruct (get_top_thread_run none s cpu true Hwf ltac:(done)) as (r & s1 & Hr & Hspec).
  destruct r as [new|]; [by exists new, s1|]. inversion Hspec. lia.
Qed.

Lemma wf_resume_same E s cpu t n :
  sched_wf (plus t E) s -> threads s !! t = Some n -> state n = THREAD_RUNNING -> curr_cpu n <> -1 ->
  (forall x, E x -> x <> t) -> sched_wf E s.
Proof.
  intros Hwf Hn Hst Hcc He. apply (wf_iff (minus t (plus t E))).
  - intros x. unfold minus, plus. specialize (He x). naive_solver.
  - eapply wf_attach; [done|exact Hn|congruence|congruence|done].
Qed.

Lemma thread_resched_run s cpu old o :
  may_resched s cpu old o -> exists out new s', thread_resched cpu s = Some (out, s') /\ rescheduled s cpu old new out s'.
Proof.
  intros [Hwf Hown Hcur Ho Hst [Hok Hpp]]. destruct (wf_current _ _ Hwf _ _ Hcur) as (Hv & o' & Ho' & Hocpu & _).
  assert (o' = o) as -> by congruence. clear Ho'. unfold thread_resched. do 2 sstep. unfold thread_lock_held. rewrite gets_bind.
  rewrite assert_bind by (by apply Z.eqb_eq). do 2 sstep.
  destruct (top_thread_pick s cpu Hwf Hown Hv) as (new & s1 & Htop & Hspec). rewrite (bind_eq _ _ _ _ _ Htop).
  destruct (top_thread_wf s cpu new s1 Hwf Hown Hv Hspec)
    as (Hwf1 & Ht1 & Hq1 & Hw1 & Hc1 & Ho1 & Htm1 & Hmm1 & n & Hn & Hidle & Hnb).
  destruct (thread_pinned_cond_mp_reschedule_run (plus new none) s1 cpu new old o cpu) as (s2 & Hr2 & Hsig);
    [apply Hwf1|by rewrite Ht1; eexists|by rewrite Ht1|by left|]. rewrite (bind_eq _ _ _ _ _ Hr2).
  apply (wf_signalled _ _ _ Hsig) in Hwf1 as Hwf2.
  destruct (signalled_fields _ _ Hsig) as (Ht2 & Hq2 & Hw2 & Hc2 & Ho2 & Htm2 & Hmm2 & _).
  rewrite Ht1 in Ht2. rewrite Hc1 in Hc2. rewrite Ho1 in Ho2. rewrite Htm1 in Htm2. rewrite Hmm1 in Hmm2.
  assert (threads s2 !! new = Some n) as Hn2 by (by rewrite Ht2).
  rewrite (bind_eq _ _ _ _ _ (upd_thread_eq _ _ _ _ Hn2)). set (s3 := with_threads _ s2).
  assert (threads s3 !! new = Some (set_state THREAD_RUNNING n)) as Hn3 by apply lookup_insert_eq.
  assert (sched_wf (plus new none) s3) as Hwf3.
  { eapply wf_update; [done|done|eapply same_identity_keep; [apply Hwf2|done..]|by left; left|done]. }
  destruct (Z.eqb_spec new old) as [->|Hne].
  - assert (n = o) as -> by congruence. rewrite (bind_eq _ _ _ _ _ (get_thread_eq _ _ _ Hn3)).
    destruct (wf_cpu_priority _ _ Hwf3 cpu Hv) as [p Hp]. rewrite (bind_eq _ _ _ _ _ (get_cpu_priority_eq _ _ _ Hp)).
    set (s4 := if p =? priority o then s3 else with_cpu_priority <[cpu := priority o]> s3).
    assert (signalled s3 s4) as Hs4 by (unfold s4; case_match; [apply signalled_refl|apply signalled_priority]).
    exists (Return tt), old, s4. split; [unfold s4, when; cbn; by destruct (p =? priority o)|].
    destruct (signalled_fields _ _ Hs4) as (Ht4 & Hq4 & Hw4 & Hc4 & Ho4 & Htm4 & Hmm4 & _).
    assert (cpu_priority s4 !! cpu = Some (priority o)) as Hp4.
    { unfold s4. destruct (Z.eqb_spec p (priority o)); [by subst|apply lookup_insert_eq]. }
    constructor; rewrite ?Htm4, ?Hc4, ?Ho4, ?Ht4, ?Hq4, ?Hw4, ?decide_True by done; try done.
    + by exists s1.
    + eapply wf_signalled; [exact Hs4|]. eapply (wf_resume_same _ _ cpu); [exact Hwf3|exact Hn3|done| |done].
      destruct Hv. cbn. lia.
    + cbn. rewrite Hc2. by rewrite insert_id.
    + exists o, (set_state THREAD_RUNNING o). split_and!; try done. intros o'' Ho'' Hm''. rewrite Hmm4.
      change (mmu_context s3) with (mmu_context s2). rewrite Hmm2. assert (o'' = o) as -> by congruence. done.
    + intros t ??. cbn. rewrite lookup_insert_ne by done. by rewrite Ht2.
    + cbn. by rewrite Hq2, Hq1.
    + cbn. by rewrite Hw2.
    + split; rewrite ?Htm4, ?Hc4, ?Ht4; cbn; rewrite Htm2; [done|]. intros t th. rewrite Hc2. intros Hct Hth.
      assert (t = old) as -> by congruence. rewrite lookup_insert_eq in Hth. injection Hth as <-. exact (Hpp old o Hcur Ho).
    + intros c ??. cbn. by rewrite Htm2.
    + intros t. cbn. by rewrite Htm2.
  - assert (threads s3 !! old = Some o) as Ho3 by (cbn; by rewrite lookup_insert_ne, Ht2).
    destruct (switch_threads_run s3 cpu old new o (set_state THREAD_RUNNING n))
      as (s4 & Hr4 & Hwf4 & Ho4 & Ht4 & Hc4 & Hq4 & Hw4 & Hp4 & Hok4 & Hpp4 & Hto4 & Hmm4); try done.
    { apply Hwf3. } { cbn. by rewrite Htm2. } { cbn. rewrite Htm2. by apply Hpp with old. }
    exists Switched, new, s4. split; [exact Hr4|]. cbn in Hc4. rewrite Hc2 in Hc4.
    destruct (refill_same (set_state THREAD_RUNNING n)) as (Hm & Hpr & Hpin & Hck & Hfl & Hst' & Has & Hcc & Hbw & Hbr & Hq).
    set (n' := set_curr_cpu cpu (refill (set_state THREAD_RUNNING n))) in *.
    assert (forall x, threads s4 !! x = if decide (x = new) then Some n'
      else if decide (x = old) then Some (set_curr_cpu (-1) o) else threads s !! x) as Hx.
    { intros x. rewrite Ht4, switched_lookup by done. repeat case_decide; [done..|].
      cbn. by rewrite lookup_insert_ne, Ht2. }
    assert (threads s4 !! new = Some n') as Hn4 by (by rewrite Hx, decide_True).
    assert (threads s4 !! old = Some (set_curr_cpu (-1) o)) as Ho4' by (by rewrite Hx, decide_False, decide_True).
    constructor; try done.
    + by exists s1.
    + eapply (wf_resume_same _ _ cpu); [split; [exact Hwf4|]|exact Hn4|done|destruct Hv; cbn; lia|done].
      eapply (current_wf_switch s3 s4 cpu old new); [apply Hwf3|done|done|cbn; by rewrite Hc2|done| |exact Ho4'|done|done|exact Hn4|done| |cbn; by rewrite Hc2|done].
      * intros x ??. rewrite Hx, !decide_False by done. cbn. by rewrite lookup_insert_ne, Ht2.
      * intros c Hc ->. destruct (wf_idle _ _ Hwf c Hc) as (y & Hy & Hi). simplify_eq.
        apply idle_thread_inj. by apply Hidle.
    + by rewrite decide_False.
    + exists n, n'. split_and!; try done; [by rewrite Hp4; unfold n'; cbn; rewrite Hpr|]. intros o'' Ho'' Hm''.
      assert (o'' = o) as -> by congruence. rewrite Hmm4; [|change (mmu_context s3) with (mmu_context s2); by rewrite Hmm2].
      f_equal. symmetry. exact Has.
    + intros _. by rewrite Ho4', Ho.
    + intros t ??. by rewrite Hx, !decide_False.
    + by rewrite Hq4, <- Hq1, <- Hq2.
    + by rewrite Hw4, <- Hw1, <- Hw2.
    + split; [done|]. intros t th Hc Hth. rewrite Hc4, lookup_insert_eq in Hc. simplify_eq.
      rewrite Hpp4, decide_True by done. f_equal. unfold thread_is_real_time_or_idle, has_flag. cbn. by rewrite Hfl.
    + intros c Hvc Hc. rewrite Hpp4, decide_False by done. cbn. by rewrite Htm2.
    + intros t. destruct (Hto4 t) as [-> ->]. cbn. by rewrite Htm2.
Qed.
End resched.

Section quiet.
Context {T : Type} `{!TimerOps T} `{!Config} `{!TimerLaws T} `{!ConfigLaws}.
Implicit Types (s : sched T) (t cpu : Z) (w : wait_queue_ptr) (th : thread_t) (E : Z -> Prop).

(** ** The scheduler between operations

    [owner] has the lock ([SMP_MAX_CPUS] for none) and every cpu runs its
    current thread. *)
Record sched_inv (owner : Z) s : Prop := {
  inv_wf : sched_wf none s;
  inv_owner : thread_lock_owner s = owner;
  inv_running : forall c t, current s !! c = Some t -> exists th, threads s !! t = Some th /\ state th = THREAD_RUNNING;
  inv_preempt : forall c, preempt_wf s c
}.

Definition unlocked : Z := SMP_MAX_CPUS.

(** The same while the cpu's own thread is being moved: only that thread may
    be in any state. *)
Record sched_busy (E : Z -> Prop) cpu s : Prop := {
  busy_wf : sched_wf E s;
  busy_owner : thread_lock_owner s = cpu;
  busy_preempt : forall c, preempt_wf s c
}.

Lemma current_wf_unlock s o :
  current_wf none s -> (forall c t, current s !! c = Some t -> exists th, threads s !! t = Some th /\ state th = THREAD_RUNNING) ->
  current_wf none (with_owner o s).
Proof.
  intros Hwf Hr. constructor; try apply Hwf. intros c t Hc. cbn in *.
  destruct (wf_current _ _ Hwf c t Hc) as (? & th & Ht & ? & _). split; [done|]. exists th. split_and!; [done..|].
  intros _. destruct (Hr c t Hc) as (th' & ? & ?). simplify_eq. by split; [|intros []].
Qed.

Lemma sched_wf_owner s o :
  sched_wf none s -> (forall c t, current s !! c = Some t -> exists th, threads s !! t = Some th /\ state th = THREAD_RUNNING) ->
  sched_wf none (with_owner o s).
Proof. intros [Hq Hc] Hr. split; [by apply (queues_wf_ext _ s)|by apply current_wf_unlock]. Qed.

Lemma THREAD_LOCK_run cpu s :
  sched_inv unlocked s -> exists s', THREAD_LOCK cpu s = Some (tt, s') /\ s' = with_owner cpu s /\ sched_inv cpu s'.
Proof.
  intros [Hwf Ho Hr Hp]. unfold THREAD_LOCK. rewrite Ho, Z.eqb_refl. eexists. split_and!; [reflexivity|done|].
  constructor; [by apply sched_wf_owner|done..].
Qed.

Lemma THREAD_UNLOCK_run cpu s :
  sched_inv cpu s -> THREAD_UNLOCK cpu s = Some (tt, with_owner unlocked s) /\ sched_inv unlocked (with_owner unlocked s).
Proof.
  intros [Hwf Ho Hr Hp]. unfold THREAD_UNLOCK. rewrite Ho, Z.eqb_refl. split; [done|].
  constructor; [by apply sched_wf_owner|done..].
Qed.

Lemma inv_busy cpu s : sched_inv cpu s -> sched_busy none cpu s.
Proof. intros [? ? ? ?]. by constructor. Qed.

(** [preempt_wf] under updates that leave the flags alone. *)
Lemma preempt_wf_update s t th th' c :
  threads s !! t = Some th -> flags th' = flags th -> preempt_wf s c -> preempt_wf (with_threads <[t := th']> s) c.
Proof.
  intros Ht Hf [Hok Hp]. split; [done|]. cbn. intros x y Hx [[<- <-]|[? ?]]%lookup_insert_Some; [|by eapply Hp].
  rewrite (Hp _ _ Hx Ht). unfold thread_is_real_time_or_idle, has_flag. by rewrite Hf.
Qed.

Lemma preempt_wf_ext s s' c :
  timers s' = timers s -> current s' = current s -> threads s' = threads s -> preempt_wf s c -> preempt_wf s' c.
Proof. unfold preempt_wf. by intros -> -> ->. Qed.

Lemma busy_signalled E cpu s s' : signalled s s' -> sched_busy E cpu s -> sched_busy E cpu s'.
Proof.
  intros Hs [Hwf Ho Hp]. destruct (signalled_fields _ _ Hs) as (Ht & _ & _ & Hc & Ho' & Htm & _).
  constructor; [by eapply wf_signalled|congruence|]. intros c. by eapply preempt_wf_ext.
Qed.

(** A thread in transition changes; its identity and flags do not. *)
Lemma busy_update E cpu s t th th' :
  sched_busy E cpu s -> E t -> threads s !! t = Some th -> magic th' = magic th ->
  0 <= priority th' < NUM_PRIORITIES -> pinned_cpu th' = pinned_cpu th ->
  cookie th' = cookie th -> flags th' = flags th -> curr_cpu th' = curr_cpu th ->
  sched_busy E cpu (with_threads <[t := th']> s).
Proof.
  intros [Hwf Ho Hp] He Ht Hm Hpr Hpin Hc Hf Hcc. destruct (wf_thread _ _ Hwf _ _ Ht) as (? & ? & ?).
  constructor; [|done|intros c; by eapply preempt_wf_update].
  eapply wf_update; [done..| |by left|done]. constructor; [congruence|done|rewrite Hpin; done|done|].
  unfold thread_is_idle, has_flag. by rewrite Hf.
Qed.

(** The cpu's own thread, or one that is on no queue and no cpu, enters transition. *)
Lemma busy_detach E cpu s t :
  sched_busy E cpu s -> node_in_list t (queues s) = false ->
  (forall c, current s !! c = Some t -> c = cpu) -> sched_busy (plus t E) cpu s.
Proof. intros [Hwf Ho Hp] Hn Hc. constructor; [|done..]. apply wf_detach; [done..|]. by rewrite Ho. Qed.

Lemma wf_unqueued E s t th :
  queues_wf E s -> threads s !! t = Some th -> state th <> THREAD_READY -> state th <> THREAD_BLOCKED ->
  node_in_list t (queues s) = false.
Proof.
  intros Hwf Ht H1 H2. apply node_in_list_false. intros [p|w] q Hq Hin.
  - destruct (wf_run _ _ Hwf _ _ _ Hq Hin) as (? & ? & ? & _). congruence.
  - destruct (wf_wait _ _ Hwf _ _ _ Hq Hin) as (? & ? & ? & _). congruence.
Qed.

Lemma wf_current_unique E s c c' t :
  current_wf E s -> current s !! c = Some t -> current s !! c' = Some t -> c = c'.
Proof.
  intros Hwf H1 H2. destruct (wf_current _ _ Hwf _ _ H1) as (_ & ? & ? & ? & _).
  destruct (wf_current _ _ Hwf _ _ H2) as (_ & ? & ? & ? & _). congruence.
Qed.

(** ** Filing a ready thread *)
Lemma insert_head_run E cpu s t th :
  sched_busy E cpu s -> E t -> threads s !! t = Some th -> state th = THREAD_READY -> thread_is_idle th = false ->
  exists q, queues s !! RunQueue (priority th) = Some q /\
    insert_in_run_queue_head cpu t s = Some (tt, linked_run (priority th) (t :: q) s) /\
    sched_busy (minus t E) cpu (linked_run (priority th) (t :: q) s).
Proof.
  intros [Hwf Ho Hp] He Ht Hst Hi. destruct (wf_thread _ _ Hwf _ _ Ht) as (Hm & Hpr & _).
  destruct (wf_prio _ _ Hwf _ Hpr) as [q Hq]. exists q. split_and!; [done| |].
  - unfold insert_in_run_queue_head, queue_node_in_list, thread_lock_held, set_list. do 3 sstep. rewrite gets_bind.
    rewrite assert_bind by (by rewrite (wf_not_linked E s t Hwf He)). rewrite gets_bind.
    rewrite assert_bind by (by apply Z.eqb_eq). sstep. by rewrite modify_bind.
  - constructor; [by eapply wf_link_run|done..].
Qed.

Lemma insert_tail_run E cpu s t th :
  sched_busy E cpu s -> E t -> threads s !! t = Some th -> state th = THREAD_READY -> thread_is_idle th = false ->
  exists q, queues s !! RunQueue (priority th) = Some q /\
    insert_in_run_queue_tail cpu t s = Some (tt, linked_run (priority th) (q ++ [t]) s) /\
    sched_busy (minus t E) cpu (linked_run (priority th) (q ++ [t]) s).
Proof.
  intros [Hwf Ho Hp] He Ht Hst Hi. destruct (wf_thread _ _ Hwf _ _ Ht) as (Hm & Hpr & _).
  destruct (wf_prio _ _ Hwf _ Hpr) as [q Hq]. exists q. split_and!; [done| |].
  - unfold insert_in_run_queue_tail, queue_node_in_list, thread_lock_held, set_list. do 3 sstep. rewrite gets_bind.
    rewrite assert_bind by (by rewrite (wf_not_linked E s t Hwf He)). rewrite gets_bind.
    rewrite assert_bind by (by apply Z.eqb_eq). sstep. by rewrite modify_bind.
  - constructor; [|done..]. eapply wf_link_run; [done..|]. rewrite Permutation_app_comm. done.
Qed.
End quiet.
