(* ===== verification/SchedApi.v ===== *)
(** * The operations of the scheduler keep it well formed (kernel/thread.c)

    Each operation that a thread can call, run from a state where every cpu runs
    its thread, ends without a failed assertion in such a state again, with the
    lock free if the caller kept the cpu and held by the cpu if it was switched
    out (the thread switched to gives it up). *)
From stdpp Require Import base gmap list.
From Stdlib Require Import ZArith Lia.
From S2P Require Import Prelude Sched SchedInv SchedOps.

Local Open Scope Z_scope.
Local Open Scope lk_scope.

Section api.
Context {T : Type} `{!TimerOps T} `{!Config} `{!TimerLaws T} `{!ConfigLaws}.
Implicit Types (s : sched T) (t cpu : Z) (w : wait_queue_ptr) (th : thread_t) (E : Z -> Prop).

(** The owner of the lock after an operation that returns or switches. *)
Definition owner_after {A} cpu (o : outcome A) (kept : Z) : Z :=
  match o with Return _ => kept | Switched => cpu end.

Lemma resched_run cpu s t th :
  sched_busy none cpu s -> current s !! cpu = Some t -> threads s !! t = Some th -> state th <> THREAD_RUNNING ->
  exists o new s', thread_resched cpu s = Some (o, s') /\ rescheduled s cpu t new o s' /\ sched_inv cpu s'.
Proof.
  intros [Hwf Ho Hp] Hc Ht Hst. destruct (thread_resched_run s cpu t th) as (o & new & s' & Hr & Hrs); [by constructor|].
  exists o, new, s'. split_and!; [done..|]. destruct Hrs as [_ Hwf' Ho' Hc' _ (n & n' & Hn & Hn' & Hnst & _) Hold Hoth _ _ Hpre Hpo _].
  assert (forall c x, c <> cpu -> current s' !! c = Some x -> current s !! c = Some x /\ threads s' !! x = threads s !! x) as Hx.
  { intros c x Hne Hx. assert (x <> new) as Hxn.
    { intros ->. apply Hne. eapply (wf_current_unique none s'); [apply Hwf'|exact Hx|]. by rewrite Hc', lookup_insert_eq. }
    rewrite Hc', lookup_insert_ne in Hx by done. split; [done|]. apply Hoth; [done|].
    intros ->. apply Hne. by eapply (wf_current_unique none s); [apply Hwf|..]. }
  constructor; [done|done| |].
  - intros c x Hcx. destruct (decide (c = cpu)) as [->|Hne].
    + rewrite Hc', lookup_insert_eq in Hcx. simplify_eq. by exists n'.
    + destruct (wf_current _ _ Hwf' _ _ Hcx) as (_ & y & Hy & _ & Hrun). rewrite Ho' in Hrun.
      destruct (Hrun Hne). by exists y.
  - intros c. destruct (decide (c = cpu)) as [->|Hne]; [done|]. split; [apply Hpre|]. intros x y Hcx Hy.
    destruct (Hx c x Hne Hcx) as [H1 H2]. rewrite H2 in Hy.
    destruct (wf_current _ _ Hwf _ _ H1) as [Hvc _]. rewrite Hpo by done. by eapply (Hp c).
Qed.

Lemma finish_run {A} cpu (o : outcome unit) (a : A) s :
  sched_inv cpu s -> exists o' s', finish cpu o a s = Some (o', s') /\ sched_inv (owner_after cpu o unlocked) s' /\
    o' = match o with Return _ => Return a | Switched => Switched end /\
    s' = match o with Return _ => with_owner unlocked s | Switched => s end.
Proof.
  intros Hinv. destruct o as [[]|]; [|by exists Switched, s]. destruct (THREAD_UNLOCK_run cpu s Hinv) as [Hu Hi].
  exists (Return a), (with_owner unlocked s). unfold finish. rewrite (bind_eq _ _ _ _ _ Hu). by split_and!.
Qed.

(** ** The current thread leaves the processor *)

(** A cpu that has the lock may change its own thread, which is on no queue. *)
Lemma detach_self cpu s t th :
  sched_inv cpu s -> current s !! cpu = Some t -> threads s !! t = Some th -> sched_busy (plus t none) cpu s.
Proof.
  intros Hinv Hc Ht. destruct (inv_running _ _ Hinv _ _ Hc) as (? & ? & ?). simplify_eq.
  apply busy_detach; [by apply inv_busy| |].
  - eapply wf_unqueued; [apply Hinv|done|congruence..].
  - intros c Hc'. by eapply (wf_current_unique none s); [apply Hinv|..].
Qed.

Lemma busy_iff E E' cpu s : (forall x, E x <-> E' x) -> sched_busy E cpu s -> sched_busy E' cpu s.
Proof. intros He [? ? ?]. constructor; [by eapply wf_iff|done..]. Qed.

Lemma minus_plus t E : ~ E t -> forall x, minus t (plus t E) x <-> E x.
Proof. intros Hn x. unfold minus, plus. split; [naive_solver|]. intros ?. split; [by intros ->|by right]. Qed.

Lemma busy_attach E cpu s t th :
  sched_busy (plus t E) cpu s -> ~ E t -> threads s !! t = Some th ->
  (state th = THREAD_READY -> thread_is_idle th = true) -> state th <> THREAD_BLOCKED ->
  (state th = THREAD_RUNNING -> curr_cpu th <> -1) -> sched_busy E cpu s.
Proof.
  intros [Hwf Ho Hp] Hn Ht H1 H2 H3. constructor; [|done..]. apply (wf_iff (minus t (plus t E))); [by apply minus_plus|].
  by eapply wf_attach.
Qed.

Lemma upd_self cpu s t th th' :
  sched_busy (plus t none) cpu s -> threads s !! t = Some th -> magic th' = magic th ->
  0 <= priority th' < NUM_PRIORITIES -> pinned_cpu th' = pinned_cpu th ->
  cookie th' = cookie th -> flags th' = flags th -> curr_cpu th' = curr_cpu th ->
  sched_busy (plus t none) cpu (with_threads <[t := th']> s) /\ threads (with_threads <[t := th']> s) !! t = Some th'.
Proof. intros. split; [eapply busy_update; [done|by left|done..]|apply lookup_insert_eq]. Qed.

(** Putting the current thread back: the idle thread goes on no queue, any other
    on the queue of its priority at one of the ends. *)
Definition requeued (front : bool) t th s s' : Prop :=
  if thread_is_idle th then s' = s
  else exists q, queues s !! RunQueue (priority th) = Some q /\
    s' = linked_run (priority th) (if front then t :: q else q ++ [t]) s.

Lemma requeue_run (front : bool) cpu s t th :
  sched_busy (plus t none) cpu s -> threads s !! t = Some th -> state th = THREAD_READY ->
  exists s', when (negb (thread_is_idle th)) (if front then insert_in_run_queue_head cpu t else insert_in_run_queue_tail cpu t) s
      = Some (tt, s') /\ sched_busy none cpu s' /\ requeued front t th s s'.
Proof.
  intros Hb Ht Hst. unfold requeued. destruct (thread_is_idle th) eqn:Hi; cbn [negb when].
  - exists s. split_and!; try done. eapply busy_attach; [exact Hb|by intros []|done|done|congruence|congruence].
  - assert (forall x, minus t (plus t none) x <-> none x) as He by (apply minus_plus; by intros []).
    destruct front.
    + destruct (insert_head_run _ _ _ _ _ Hb ltac:(by left) Ht Hst Hi) as (q & Hq & Hr & Hb').
      eexists. split_and!; [exact Hr|by eapply busy_iff|by exists q].
    + destruct (insert_tail_run _ _ _ _ _ Hb ltac:(by left) Ht Hst Hi) as (q & Hq & Hr & Hb').
      eexists. split_and!; [exact Hr|by eapply busy_iff|by exists q].
Qed.

Lemma requeued_fields front t th s s' :
  requeued front t th s s' -> threads s' = threads s /\ current s' = current s /\ wait_queues s' = wait_queues s /\
    timers s' = timers s /\ thread_lock_owner s' = thread_lock_owner s /\ mmu_context s' = mmu_context s.
Proof. unfold requeued. destruct (thread_is_idle th); [by intros ->|]. by intros (q & _ & ->). Qed.

(** The current thread [t], as [th'] says, is put back and the best thread runs:
    the common end of yielding, preemption and priority changes. *)
Lemma put_back_run (front : bool) cpu s t th th' :
  sched_inv cpu s -> current s !! cpu = Some t -> threads s !! t = Some th -> magic th' = magic th ->
  0 <= priority th' < NUM_PRIORITIES -> pinned_cpu th' = pinned_cpu th ->
  cookie th' = cookie th -> flags th' = flags th -> curr_cpu th' = curr_cpu th -> state th' = THREAD_READY ->
  exists s2 o new s3,
    when (negb (thread_is_idle th')) (if front then insert_in_run_queue_head cpu t else insert_in_run_queue_tail cpu t)
      (with_threads <[t := th']> s) = Some (tt, s2) /\
    requeued front t th' (with_threads <[t := th']> s) s2 /\
    sched_wf none s2 /\ thread_resched cpu s2 = Some (o, s3) /\ rescheduled s2 cpu t new o s3 /\ sched_inv cpu s3.
Proof.
  intros Hinv Hc Ht Hm Hp Hpin Hck Hf Hcc Hst.
  destruct (upd_self cpu s t th th') as [Hb Ht']; [by eapply detach_self|done..|].
  destruct (requeue_run front cpu _ t th' Hb Ht' Hst) as (s2 & Hr2 & Hb2 & Hq).
  destruct (requeued_fields _ _ _ _ _ Hq) as (Ht2 & Hc2 & _).
  destruct (resched_run cpu s2 t th' Hb2) as (o & new & s3 & Hr3 & Hrs & Hinv3); [by rewrite Hc2|by rewrite Ht2|congruence|].
  exists s2, o, new, s3. split_and!; try done. apply Hb2.
Qed.

Lemma with_threads_twice t a b s :
  with_threads <[t := b]> (with_threads <[t := a]> s) = with_threads <[t := b]> s.
Proof. unfold with_threads. cbn. by rewrite insert_insert_eq. Qed.

Lemma with_owner_id o s : thread_lock_owner s = o -> with_owner o s = s.
Proof. intros <-. by destruct s. Qed.

Lemma thread_yield_run cpu s t th :
  sched_inv unlocked s -> current s !! cpu = Some t -> threads s !! t = Some th ->
  let th' := set_quantum 0 (set_state THREAD_READY th) in
  exists s2 o new s3 s',
    requeued false t th' (with_threads <[t := th']> (with_owner cpu s)) s2 /\
    sched_wf none s2 /\ rescheduled s2 cpu t new o s3 /\ sched_inv cpu s3 /\ thread_yield cpu s = Some (o, s') /\
    s' = (match o with Return _ => with_owner unlocked s3 | Switched => s3 end) /\
    sched_inv (owner_after cpu o unlocked) s'.
Proof.
  intros Hinv Hc Ht th'. destruct (inv_running _ _ Hinv _ _ Hc) as (? & ? & Hst). simplify_eq.
  destruct (wf_thread _ _ (inv_wf _ _ Hinv) _ _ Ht) as (Hm & Hp & _).
  destruct (THREAD_LOCK_run cpu s Hinv) as (s0 & Hl & Hs0 & Hinv0).
  assert (threads s0 !! t = Some th) as Ht0 by (by rewrite Hs0).
  destruct (put_back_run false cpu s0 t th th') as (s2 & o & new & s3 & Hi & Hq & Hwf2 & Hr & Hrs & Hinv3);
    [done|by rewrite Hs0|done..|].
  destruct (finish_run cpu o tt s3 Hinv3) as (o' & s' & Hf & Hinv' & Ho' & Hs').
  exists s2, o, new, s3, s'. rewrite <- Hs0. split_and!; [done..| |done|done].
  unfold thread_yield. do 4 sstep. rewrite (bind_eq _ _ _ _ _ Hl). sstep.
  erewrite bind_eq by (apply upd_thread_eq, lookup_insert_eq). rewrite with_threads_twice.
  change (set_quantum 0 (set_state THREAD_READY th)) with th'. change (thread_is_idle th) with (thread_is_idle th').
  rewrite (bind_eq _ _ _ _ _ Hi), (bind_eq _ _ _ _ _ Hr), Hf. rewrite Ho'. by destruct o as [[]|].
Qed.

Lemma thread_preempt_inner_run cpu s t th (lock_held : bool) :
  sched_inv (if lock_held then cpu else unlocked) s -> current s !! cpu = Some t -> threads s !! t = Some th ->
  let th' := set_state THREAD_READY th in
  exists s2 o new s3 s',
    requeued (remaining_quantum th >? 0) t th' (with_threads <[t := th']> (with_owner cpu s)) s2 /\
    sched_wf none s2 /\ rescheduled s2 cpu t new o s3 /\ sched_inv cpu s3 /\ thread_preempt_inner cpu lock_held s = Some (o, s') /\
    s' = (match o with Return _ => if lock_held then s3 else with_owner unlocked s3 | Switched => s3 end) /\
    sched_inv (owner_after cpu o (if lock_held then cpu else unlocked)) s'.
Proof.
  intros Hinv Hc Ht th'. destruct (inv_running _ _ Hinv _ _ Hc) as (? & ? & Hst). simplify_eq.
  destruct (wf_thread _ _ (inv_wf _ _ Hinv) _ _ Ht) as (Hm & Hp & _).
  assert (exists s0, when (negb lock_held) (THREAD_LOCK cpu) s = Some (tt, s0) /\ s0 = with_owner cpu s /\ sched_inv cpu s0)
    as (s0 & Hl & Hs0 & Hinv0).
  { destruct lock_held; [|by apply THREAD_LOCK_run]. exists s. split_and!; [done| |done].
    symmetry. by apply with_owner_id, (inv_owner _ _ Hinv). }
  assert (threads s0 !! t = Some th) as Ht0 by (by rewrite Hs0).
  destruct (put_back_run (remaining_quantum th >? 0) cpu s0 t th th') as (s2 & o & new & s3 & Hi & Hq & Hwf2 & Hr & Hrs & Hinv3);
    [done|by rewrite Hs0|done..|].
  destruct (finish_run cpu o tt s3 Hinv3) as (o' & s' & Hf & Hinv' & Ho' & Hs').
  exists s2, o, new, s3, (if lock_held then s3 else s'). rewrite <- Hs0. split_and!; [done..| | |].
  - unfold thread_preempt_inner. do 4 sstep. rewrite (bind_eq _ _ _ _ _ Hl). sstep.
    change (set_state THREAD_READY th) with th'. change (thread_is_idle th) with (thread_is_idle th').
    rewrite (bind_eq _ _ _ _ _ Hi), (bind_eq _ _ _ _ _ Hr). destruct lock_held; [done|].
    rewrite Hf, Ho'. by destruct o as [[]|].
  - rewrite Hs'. by destruct o as [[]|], lock_held.
  - destruct lock_held; [|done]. by destruct o.
Qed.
(** ** Who runs next *)

(** No thread on a run queue of priority at least [p] can run on the cpu. *)
Definition none_from s cpu (p : Z) : Prop :=
  forall p' q x, p <= p' -> queues s !! RunQueue p' = Some q -> x ∈ q -> ~ can_run s cpu x.

(** The queue of the thread's priority before it was put back. *)
Lemma requeued_lookup front t th s s' :
  thread_is_idle th = false -> requeued front t th s s' ->
  exists q, queues s !! RunQueue (priority th) = Some q /\
    queues s' !! RunQueue (priority th) = Some (if front then t :: q else q ++ [t]) /\
    (forall h, h <> RunQueue (priority th) -> queues s' !! h = queues s !! h).
Proof.
  unfold requeued. intros ->. intros (q & Hq & ->). exists q. cbn. rewrite lookup_insert_eq. split_and!; [done..|].
  intros h Hne. by rewrite lookup_insert_ne.
Qed.

Lemma can_run_ext s s' cpu t th' x :
  threads s' = <[t := th']> (threads s) -> x <> t -> can_run s' cpu x <-> can_run s cpu x.
Proof. unfold can_run. intros -> Hne. by rewrite lookup_insert_ne. Qed.

(** The thread put back is picked again when it may run here, exactly if nothing
    that goes before it may. *)
Lemma best_put_back (front : bool) cpu s0 s2 t th new :
  sched_wf none s2 -> threads s2 !! t = Some th -> thread_is_idle th = false ->
  requeued front t th s0 s2 -> best s2 cpu new -> valid_cpu cpu ->
  (new = t -> eligible cpu th = true /\
     forall p q x, (if front then priority th < p else priority th <= p) -> queues s0 !! RunQueue p = Some q ->
       x ∈ q -> x <> t -> ~ can_run s2 cpu x) /\
  (new <> t -> eligible cpu th = true ->
     exists p q x, (if front then priority th < p else priority th <= p) /\ queues s0 !! RunQueue p = Some q /\
       x ∈ q /\ can_run s2 cpu x /\ new = x /\ exists n, threads s2 !! new = Some n /\ priority n = p).
Proof.
  intros Hwf Ht Hi Hq [s3 Htop] Hv.
  destruct (requeued_lookup front t th s0 s2 Hi Hq) as (q & Hq0 & Hq2 & Hother).
  assert (t ∈ (if front then t :: q else q ++ [t])) as Hin by (destruct front; set_solver).
  assert (NoDup (if front then t :: q else q ++ [t])) as Hnd by (by eapply (wf_nodup _ _ Hwf)).
  inversion Htop as [? ? | ? Hno | p q1 ? q2 n Hqp Hn Hp He Hn1 Hhigh]; subst.
  - split.
    + intros <-. destruct (wf_idle _ _ Hwf _ Hv) as (y & Hy & Hyi). simplify_eq. congruence.
    + intros Hne He. specialize (Hno _ _ Hq2). unfold no_candidate in Hno. rewrite Forall_forall in Hno.
      exfalso. apply (Hno t Hin). by exists th.
  - split.
    + intros ->. assert (n = th) as -> by congruence. split; [done|]. intros p q' x Hpx Hq' Hx Hne.
      destruct (decide (p = priority th)) as [->|Hpne].
      * destruct front; [lia|]. assert (q' = q) as -> by congruence.
        assert (q1 = q) as ->.
        { rewrite Hq2 in Hqp. injection Hqp as Hqp. by eapply (app_inj_tail_not_in t). }
        unfold no_candidate in Hn1. rewrite Forall_forall in Hn1. by apply Hn1.
      * assert (priority th < p) as Hlt by (destruct front; lia).
        assert (queues s2 !! RunQueue p = Some q') as Hq2' by (rewrite Hother by congruence; done).
        pose proof (Hhigh p q' Hlt Hq2') as Hno. unfold no_candidate in Hno. rewrite Forall_forall in Hno. by apply Hno.
    + intros Hne Het. destruct (Z.lt_trichotomy (priority n) (priority th)) as [Hlt|[Heq|Hgt]].
      * exfalso. pose proof (Hhigh _ _ Hlt Hq2) as Hno. unfold no_candidate in Hno. rewrite Forall_forall in Hno.
        apply (Hno t Hin). by exists th.
      * rewrite Heq, Hq2 in Hqp. injection Hqp as Hqp. destruct front.
        { exfalso. destruct q1 as [|y q1]; [by simplify_eq/=|]. cbn in Hqp. injection Hqp as <- _.
          unfold no_candidate in Hn1. apply Forall_cons in Hn1 as [Hn1 _]. apply Hn1. by exists th. }
        assert (new ∈ q) as Hnq by (assert (new ∈ q ++ [t]) by (rewrite Hqp; set_solver); set_solver).
        exists (priority th), q, new. split_and!; [lia|done|done|by exists n|done|by exists n].
      * exists (priority n), (q1 ++ new :: q2), new.
        split_and!; [destruct front; lia|rewrite <- Hother by (intros [= ?]; lia); done|set_solver|by exists n|done|by exists n].
Qed.
(** The outcome of putting the current thread back, in terms of the state before. *)
Lemma put_back_outcome (front : bool) cpu s s0 s2 s3 t th th' new o owner :
  sched_inv owner s -> current s !! cpu = Some t -> threads s !! t = Some th -> thread_is_idle th = false ->
  queues s0 = queues s -> threads s0 = <[t := th']> (threads s) ->
  priority th' = priority th -> flags th' = flags th -> pinned_cpu th' = pinned_cpu th ->
  sched_wf none s2 -> requeued front t th' s0 s2 -> rescheduled s2 cpu t new o s3 -> valid_cpu cpu ->
  match o with
  | Return _ => current s3 !! cpu = Some t /\ eligible cpu th = true /\
      forall p q x, (if front then priority th < p else priority th <= p) -> queues s !! RunQueue p = Some q ->
        x ∈ q -> ~ can_run s cpu x
  | Switched => exists new n q, current s3 !! cpu = Some new /\ new <> t /\ threads s3 !! new = Some n /\
      queues s3 !! RunQueue (priority th) = Some (if front then t :: q else q ++ [t]) /\
      (eligible cpu th = true -> (if front then priority th < priority n else priority th <= priority n) /\
         can_run s cpu new /\ exists q', queues s !! RunQueue (priority n) = Some q' /\ new ∈ q')
  end.
Proof.
  intros Hinv Hc Ht Hi Hq0 Ht0 Hpr Hfl Hpin Hwf2 Hrq Hrs Hv.
  destruct (requeued_fields _ _ _ _ _ Hrq) as (Ht2 & _). rewrite Ht0 in Ht2.
  assert (thread_is_idle th' = false) as Hi' by (unfold thread_is_idle, has_flag in *; by rewrite Hfl).
  assert (threads s2 !! t = Some th') as Hth2 by (by rewrite Ht2, lookup_insert_eq).
  assert (eligible cpu th' = eligible cpu th) as Hel by (unfold eligible; by rewrite Hpin).
  assert (forall p q x, queues s !! RunQueue p = Some q -> x ∈ q -> x <> t) as Hnt.
  { intros p q x Hq Hx ->. destruct (wf_run _ _ (inv_wf _ _ Hinv) _ _ _ Hq Hx) as (y & ? & ? & _).
    destruct (inv_running _ _ Hinv _ _ Hc) as (? & ? & ?). congruence. }
  destruct (best_put_back front cpu s0 s2 t th' new Hwf2 Hth2 Hi' Hrq (rs_best _ _ _ _ _ _ Hrs) Hv) as [Hsame Hother].
  rewrite Hpr, Hel, Hq0 in *. destruct Hrs as [_ _ _ Hcur -> (n & n' & Hn & Hn' & _ & Hnp & _) _ _ Hqs _ _ _ _].
  destruct (decide (new = t)) as [->|Hne].
  - destruct (Hsame eq_refl) as [He Hno]. split_and!; [by rewrite Hcur, lookup_insert_eq|done|].
    intros p q x Hp Hq Hx Hrun. pose proof (Hnt _ _ _ Hq Hx). eapply (Hno p q x); [done..|].
    by eapply (can_run_ext s s2).
  - destruct (requeued_lookup _ _ _ _ _ Hi' Hrq) as (q & Hq & Hq2 & _). rewrite Hpr in Hq2.
    exists new, n', (filter (fun x => x <> new) q). split_and!; [by rewrite Hcur, lookup_insert_eq|done|done| |].
    + rewrite Hqs, node_delete_lookup, Hq2. cbn. f_equal. destruct front.
      * by rewrite filter_cons_True.
      * rewrite filter_app. f_equal. by rewrite filter_cons_True.
    + intros He. destruct (Hother Hne He) as (p & q' & x & Hp & Hq' & Hx & Hrun & <- & y & Hy & <-).
      assert (y = n) as -> by congruence. rewrite Hnp. split_and!; [done| |by exists q'].
      eapply (can_run_ext s s2); [done..|]. done.
Qed.
(** A wait queue is made, or made again while nobody waits on it. *)
Lemma wait_queue_init_run w (s : sched T) o :
  sched_inv o s -> queues s !! WaitList w = None \/ queues s !! WaitList w = Some [] ->
  exists s', wait_queue_init w s = Some (tt, s') /\ sched_inv o s' /\ threads s' = threads s /\ current s' = current s /\ timers s' = timers s /\
    queues s' = <[WaitList w := []]> (queues s) /\ wait_queues s' = <[w := mk_wait_queue WAIT_QUEUE_MAGIC 0]> (wait_queues s).
Proof.
  intros [Hwf Ho Hr Hp] Hw. unfold wait_queue_init. rewrite modify_bind. eexists. split; [reflexivity|]. split; [|by split_and!].
  constructor; [|done|exact Hr|exact Hp]. destruct Hwf as [Hq Hc]. split; [|by destruct Hc; constructor].
  assert (forall h q, (<[WaitList w := []]> (queues s)) !! h = Some q -> q = [] \/ (h <> WaitList w /\ queues s !! h = Some q)) as Hi.
  { intros h q [[? ?]|[? ?]]%lookup_insert_Some; [by left|by right]. }
  destruct Hq as [H1 H2 H3 H4 H5 H6 H7 H8 H9 H10 H11 H12 H13]. constructor; cbn; try done.
  - intros p q t [->|[_ Hx]]%Hi Ht; [by apply elem_of_nil in Ht|by eapply H1].
  - intros w' l t [->|[_ Hx]]%Hi Ht; [by apply elem_of_nil in Ht|by eapply H2].
  - intros h q [->|[_ Hx]]%Hi; [by apply NoDup_nil_2|by eapply H3].
  - intros p Hpr. rewrite lookup_insert_ne by done. by apply H4.
  - intros p q Hx. rewrite lookup_insert_ne in Hx by done. by apply H6.
  - intros w' l Hx. destruct (decide (w' = w)) as [->|Hne].
    + rewrite lookup_insert_eq in Hx. injection Hx as <-. rewrite lookup_insert_eq. eexists. split; [done|]. split; [done|by left].
    + rewrite lookup_insert_ne in Hx by congruence. rewrite lookup_insert_ne by done. by apply H7.
  - intros t th Ht Hst He. destruct (H8 t th Ht Hst He) as (w' & l & Hb & Hl & Hin). exists w', l. split; [done|]. split; [|done].
    rewrite lookup_insert_ne; [done|]. intros [= <-]. destruct Hw as [Hw|Hw]; rewrite Hw in Hl; [done|]. injection Hl as <-. by apply elem_of_nil in Hin.
  - intros t th Ht Hst Hid He. destruct (H9 t th Ht Hst Hid He) as (q & Hx & Hin). exists q. by rewrite lookup_insert_ne.
Qed.

End api.
