(* ===== verification/SchedWait.v ===== *)
(** * Wait queues keep the scheduler well formed (kernel/thread.c)

    Blocking puts the caller behind the waiters and always leaves the cpu to
    another thread; waking takes waiters off from the front and makes them ready
    with the error they are to see; a time-out takes its own thread off. *)
From stdpp Require Import base gmap list.
From Stdlib Require Import ZArith Lia.
From S2P Require Import Prelude Sched SchedInv SchedOps SchedApi.

Local Open Scope Z_scope.
Local Open Scope lk_scope.

Section wait.
Context {T : Type} `{!TimerOps T} `{!Config} `{!TimerLaws T} `{!ConfigLaws}.
Implicit Types (s : sched T) (t cpu : Z) (w : wait_queue_ptr) (th : thread_t) (E : Z -> Prop).

(** ** Linking on and unlinking from a wait queue *)
Definition linked_wait w (l : list Z) (q : wait_queue_t) (d : Z) s : sched T :=
  with_wait_queues <[w := mk_wait_queue (wq_magic q) (wq_count q + d)]> (with_queues <[WaitList w := l]> s).

Lemma current_wf_ext E E' s s' :
  threads s' = threads s -> current s' = current s -> thread_lock_owner s' = thread_lock_owner s ->
  (forall c t, current s !! c = Some t -> c <> thread_lock_owner s -> ~ E t -> ~ E' t) ->
  (forall t th, threads s !! t = Some th -> state th = THREAD_RUNNING -> ~ E' t -> ~ E t) ->
  current_wf E s -> current_wf E' s'.
Proof.
  intros Ht Hc Ho He1 He2 Hwf. constructor; rewrite ?Ht, ?Hc, ?Ho; try apply Hwf.
  - intros c t Hct. destruct (wf_current _ _ Hwf _ _ Hct) as (? & th & ? & ? & Hr). split; [done|].
    exists th. split_and!; [done..|]. intros Hne. destruct (Hr Hne). split; [done|by eapply He1].
  - intros t th Hth Hst Hne. eapply (wf_running _ _ Hwf); [done..|by eapply He2].
Qed.

Lemma wf_link_wait E s t th w l q :
  sched_wf E s -> E t -> threads s !! t = Some th -> state th = THREAD_BLOCKED -> blocking_wait_queue th = Some w ->
  thread_is_idle th = false -> queues s !! WaitList w = Some l -> wait_queues s !! w = Some q ->
  wq_magic q = WAIT_QUEUE_MAGIC -> sched_wf (minus t E) (linked_wait w (l ++ [t]) q 1 s).
Proof.
  intros Hwf He Ht Hst Hbw Hi Hl Hq Hm. destruct (wf_count _ _ Hwf _ _ Hl) as (q' & ? & Hcnt & _). simplify_eq.
  assert (t ∉ l) as Hnt by (eapply (wf_notin E s); [apply Hwf|done..]).
  split; [|eapply (current_wf_ext E _ s); [done|done|done| | |apply Hwf]; unfold minus].
  2: { intros c x _ _ Hn [_ ?]. done. }
  2: { intros x y Hx Hs Hn HE. apply Hn. split; [|done]. intros ->. congruence. }
  unfold minus. constructor; unfold linked_wait, with_wait_queues, with_queues;
    cbn [queues threads run_queue_bitmap wait_queues cpu_priority]; try apply Hwf.
  - intros p r x [[? _]|[_ ?]]%lookup_insert_Some Hx; [done|].
    destruct (wf_run _ _ Hwf p r x) as (y & ? & ? & ? & ? & ?); [done..|]. exists y. split_and!; [done..|tauto].
  - intros w' r x [[[= <-] <-]|[??]]%lookup_insert_Some Hx.
    + apply elem_of_app in Hx as [Hx| ->%list_elem_of_singleton].
      * destruct (wf_wait _ _ Hwf _ _ _ Hl Hx) as (y & ? & ? & ? & ? & ?). exists y. split_and!; [done..|tauto].
      * exists th. split_and!; [done..|tauto].
    + destruct (wf_wait _ _ Hwf w' r x) as (y & ? & ? & ? & ? & ?); [done..|]. exists y. split_and!; [done..|tauto].
  - intros h r [[<- <-]|[??]]%lookup_insert_Some; [|by eapply (wf_nodup _ _ Hwf)].
    rewrite Permutation_app_comm. apply NoDup_cons. split; [done|by eapply (wf_nodup _ _ Hwf)].
  - intros p Hp. rewrite lookup_insert_ne by done. by apply (wf_prio _ _ Hwf).
  - intros p r. rewrite lookup_insert_ne by done. by apply (wf_bitmap _ _ Hwf).
  - intros w' r [[[= <-] <-]|[Hne ?]]%lookup_insert_Some.
    + rewrite lookup_insert_eq. eexists. split; [done|]. cbn. rewrite length_app, Hcnt. cbn. split; [lia|by left].
    + rewrite lookup_insert_ne by congruence. by apply (wf_count _ _ Hwf).
  - intros x y Hx Hs Hn. destruct (decide (x = t)) as [->|].
    + assert (y = th) as -> by congruence. exists w, (l ++ [t]). rewrite lookup_insert_eq. split_and!; [done..|set_solver].
    + destruct (wf_blocked _ _ Hwf x y) as (w' & r & ? & Hr & ?); [done..|tauto|].
      destruct (decide (w' = w)) as [->|].
      * simplify_eq. exists w, (l ++ [t]). rewrite lookup_insert_eq. split_and!; [done..|]. apply elem_of_app. by left.
      * exists w', r. by rewrite lookup_insert_ne by congruence.
  - intros x y Hx Hs ? Hn. rewrite lookup_insert_ne by done. destruct (decide (x = t)) as [->|]; [congruence|].
    apply (wf_ready _ _ Hwf x y); [done..|tauto].
Qed.

Lemma length_filter_ne (t : Z) (l : list Z) :
  NoDup l -> t ∈ l -> Z.of_nat (length (filter (fun x => x <> t) l)) = Z.of_nat (length l) - 1.
Proof.
  intros Hnd (l1 & l2 & ->)%list_elem_of_split. rewrite filter_app, filter_cons_False by (intros E; by apply E).
  apply NoDup_app in Hnd as (_ & Hd & [Hn2 _]%NoDup_cons). rewrite !filter_ne_id; [|done|].
  - rewrite !length_app. cbn. lia.
  - intros Hin. apply (Hd t Hin). by left.
Qed.

Lemma wf_unlink_wait E s t w l q :
  sched_wf E s -> queues s !! WaitList w = Some l -> t ∈ l -> wait_queues s !! w = Some q ->
  sched_wf (plus t E) (linked_wait w (filter (fun x => x <> t) l) q (-1) s).
Proof.
  intros Hwf Hl Hin Hq. destruct (wf_wait _ _ Hwf _ _ _ Hl Hin) as (th & Ht & Hst & Hbw & Hi & He).
  destruct (wf_count _ _ Hwf _ _ Hl) as (q' & ? & Hcnt & Hm). simplify_eq.
  pose proof (wf_nodup _ _ Hwf _ _ Hl) as Hnd.
  split; [|eapply (current_wf_ext E _ s); [done|done|done| | |apply Hwf]; unfold plus].
  2: { intros c x Hc Ho Hn [->|?]; [|done]. apply Ho.
       eapply (wf_current_owner E s t th); [apply Hwf|done|left; congruence|done]. }
  2: { intros x y Hx Hs Hn HE. apply Hn. by right. }
  unfold plus. constructor; unfold linked_wait, with_wait_queues, with_queues;
    cbn [queues threads run_queue_bitmap wait_queues cpu_priority]; try apply Hwf; intros *.
  - intros [[? _]|[_ Hr]]%lookup_insert_Some Hx; [done|].
    destruct (wf_run _ _ Hwf _ _ _ Hr Hx) as (y & ? & ? & ? & ? & ?). exists y. split_and!; [done..|].
    intros [->|?]; [congruence|done].
  - intros [[[= <-] <-]|[Hne Hr]]%lookup_insert_Some Hx.
    + apply elem_of_filter_ne in Hx as [Hne Hx].
      destruct (wf_wait _ _ Hwf _ _ _ Hl Hx) as (y & ? & ? & ? & ? & ?). exists y. split_and!; [done..|tauto].
    + destruct (wf_wait _ _ Hwf _ _ _ Hr Hx) as (y & ? & ? & ? & ? & ?). exists y. split_and!; [done..|].
      intros [->|?]; [congruence|done].
  - intros [[<- <-]|[_ Hr]]%lookup_insert_Some; [by apply list.NoDup_filter|by eapply (wf_nodup _ _ Hwf)].
  - intros Hp. rewrite lookup_insert_ne by done. by apply (wf_prio _ _ Hwf).
  - rewrite lookup_insert_ne by done. by apply (wf_bitmap _ _ Hwf).
  - intros [[[= <-] <-]|[Hne Hr]]%lookup_insert_Some.
    + rewrite lookup_insert_eq. eexists. split; [done|]. cbn. rewrite length_filter_ne by done. split; [lia|].
      destruct Hm as [| ->]; [by left|by apply elem_of_nil in Hin].
    + rewrite lookup_insert_ne by congruence. by apply (wf_count _ _ Hwf).
  - intros Hx Hs Hn. destruct (wf_blocked _ _ Hwf _ _ Hx Hs) as (w' & r & ? & Hr & ?); [tauto|].
    destruct (decide (w' = w)) as [->|].
    + simplify_eq. exists w, (filter (fun x => x <> t) l). rewrite lookup_insert_eq. split_and!; [done..|].
      apply elem_of_filter_ne. split; [tauto|done].
    + exists w', r. by rewrite lookup_insert_ne by congruence.
  - intros Hx Hs ? Hn. rewrite lookup_insert_ne by done. eapply (wf_ready _ _ Hwf); [done..|tauto].
Qed.
(** ** Blocking *)
Lemma busy_timers E cpu s x :
  sched_busy E cpu s -> timer_ok x -> (forall c, valid_cpu c -> preempt_pending x c = preempt_pending (timers s) c) ->
  sched_busy E cpu (with_timers x s).
Proof.
  intros [[Hq Hc] Ho Hp] Hok Hpp. constructor; [|done|].
  - split; [by apply (queues_wf_ext _ s)|]. eapply (current_wf_ext E _ s); done.
  - intros c. split; [done|]. intros t th Hct Hth. destruct (wf_current _ _ Hc _ _ Hct) as [Hv _].
    cbn [timers with_timers]. rewrite Hpp by done. by eapply Hp.
Qed.

(** The best thread was ready, or is the idle thread. *)
Lemma best_ready s cpu new n :
  sched_wf none s -> best s cpu new -> threads s !! new = Some n -> valid_cpu cpu ->
  state n = THREAD_READY \/ thread_is_idle n = true.
Proof.
  intros Hwf [s1 Htop] Hn Hv. inversion Htop as [? ?|? ?|p q1 ? q2 y Hq Hy]; subst.
  - right. destruct (wf_idle _ _ Hwf _ Hv) as (y & ? & ?). congruence.
  - left. destruct (wf_run _ _ Hwf _ _ new Hq) as (z & ? & ? & _); [set_solver|]. congruence.
Qed.

(** A thread that is neither ready nor idle leaves the cpu when it reschedules. *)
Lemma leave_run cpu s t th :
  sched_busy none cpu s -> current s !! cpu = Some t -> threads s !! t = Some th ->
  state th <> THREAD_RUNNING -> state th <> THREAD_READY -> thread_is_idle th = false ->
  exists new s', thread_resched cpu s = Some (Switched, s') /\ rescheduled s cpu t new Switched s' /\
    sched_inv cpu s' /\ new <> t.
Proof.
  intros Hb Hc Ht Hr Hrd Hi. destruct (wf_current _ _ (busy_wf _ _ _ Hb) _ _ Hc) as [Hv _].
  destruct (resched_run cpu s t th Hb Hc Ht Hr) as (o & new & s' & Hrun & Hrs & Hinv).
  assert (new <> t) as Hne.
  { intros ->. destruct (best_ready s cpu t th) as [|]; [apply Hb|apply Hrs|done|done|congruence..]. }
  pose proof (rs_outcome _ _ _ _ _ _ Hrs) as Ho. rewrite decide_False in Ho by done. subst o.
  by exists new, s'.
Qed.

(** The thread struct of a caller that blocks on [w]. *)
Definition blocked w th : thread_t := set_wait (Some w) NO_ERROR (set_state THREAD_BLOCKED th).

Lemma wait_queue_block_run cpu s w timeout t th q l :
  sched_inv cpu s -> current s !! cpu = Some t -> threads s !! t = Some th -> thread_is_idle th = false ->
  wait_queues s !! w = Some q -> wq_magic q = WAIT_QUEUE_MAGIC -> queues s !! WaitList w = Some l ->
  0 < timeout <= INFINITE_TIME -> timeout_pending (timers s) t = false ->
  exists s2 new s', wait_queue_block cpu w timeout s = Some (Switched, s') /\
    threads s2 = <[t := blocked w th]> (threads s) /\ queues s2 = <[WaitList w := l ++ [t]]> (queues s) /\
    wait_queues s2 = <[w := mk_wait_queue (wq_magic q) (wq_count q + 1)]> (wait_queues s) /\
    current s2 = current s /\
    (forall u, timeout_pending (timers s2) u =
       (if decide (u = t) then negb (timeout =? INFINITE_TIME) else timeout_pending (timers s) u) /\
       timeout_live (timers s2) u =
       (if decide (u = t) then negb (timeout =? INFINITE_TIME) || timeout_live (timers s) u else timeout_live (timers s) u)) /\
    sched_wf none s2 /\ rescheduled s2 cpu t new Switched s' /\ sched_inv cpu s' /\ new <> t.
Proof.
  intros Hinv Hc Ht Hi Hq Hm Hl Hto Hpend. destruct (inv_running _ _ Hinv _ _ Hc) as (? & ? & Hst). simplify_eq.
  destruct (wf_thread _ _ (inv_wf _ _ Hinv) _ _ Ht) as (Hmag & Hp & _).
  destruct (wf_current _ _ (inv_wf _ _ Hinv) _ _ Hc) as [Hv _].
  destruct (upd_self cpu s t th (blocked w th)) as [Hb Ht1]; [by eapply detach_self|done..|].
  set (s1 := with_threads _ s) in *.
  assert (sched_busy none cpu (linked_wait w (l ++ [t]) q 1 s1)) as Hb2.
  { constructor; [|exact (busy_owner _ _ _ Hb)|exact (busy_preempt _ _ _ Hb)]. apply (wf_iff (minus t (plus t none))); [by apply minus_plus; intros []|].
    eapply wf_link_wait; [apply Hb|by left|done|done..]. }
  set (s2 := linked_wait w (l ++ [t]) q 1 s1) in *.
  assert (exists x, timer_ok x /\ when (negb (timeout =? INFINITE_TIME)) (on_timers (set_timeout cpu t (MS2NS timeout))) s2
      = Some (tt, with_timers x s2) /\ (forall c, valid_cpu c -> preempt_pending x c = preempt_pending (timers s) c) /\
    (forall u, timeout_pending x u = (if decide (u = t) then negb (timeout =? INFINITE_TIME) else timeout_pending (timers s) u) /\
       timeout_live x u = (if decide (u = t) then negb (timeout =? INFINITE_TIME) || timeout_live (timers s) u
                           else timeout_live (timers s) u))) as (x & Hok & Hx & Hpp & Htm).
  { destruct (Z.eqb_spec timeout INFINITE_TIME) as [|Hne]; cbn [negb when].
    - exists (timers s). split_and!; [apply (inv_preempt _ _ Hinv cpu)|done|done|].
      intros u. split; case_decide; [by subst|done|done|done].
    - destruct (set_timeout_law (timers s) cpu t (MS2NS timeout)) as (x & Hx & Hok & Hpp & Htm);
        [apply (inv_preempt _ _ Hinv cpu)|done|done|unfold MS2NS, INFINITE_TIME, UINT32_MAX in *; lia|].
      exists x. split_and!; [done| |done|exact Htm]. unfold on_timers. change (timers s2) with (timers s).
      by rewrite Hx. }
  pose proof (busy_timers none cpu s2 x Hb2 Hok Hpp) as Hb3.
  destruct (leave_run cpu (with_timers x s2) t (blocked w th)) as (new & s' & Hr & Hrs & Hinv' & Hne);
    [exact Hb3|done|done|done|done|done|].
  exists (with_timers x s2), new, s'. split_and!; try done.
  - unfold wait_queue_block. do 3 sstep. do 2 sstep. unfold thread_lock_held. rewrite gets_bind.
    rewrite assert_bind by (apply Z.eqb_eq, (inv_owner _ _ Hinv)). rewrite (proj2 (Z.eqb_neq timeout 0)) by lia.
    sstep. unfold set_list, add_count, set_wait_queue. rewrite modify_bind, bind_assoc.
    erewrite bind_eq by (apply get_wait_queue_eq; exact Hq). rewrite modify_bind.
    erewrite bind_eq by (apply upd_thread_eq; exact Ht).
    erewrite bind_eq by (apply upd_thread_eq, lookup_insert_eq). rewrite with_threads_twice.
    match goal with |- bind _ _ ?s0 = _ => change s0 with s2 end.
    rewrite (bind_eq _ _ _ _ _ Hx), (bind_eq _ _ _ _ _ Hr). done.
  - apply (busy_wf _ _ _ Hb3).
Qed.
(** ** Waking *)

(** The thread struct of a waiter that is woken with [err]. *)
Definition woken (err : Z) th : thread_t := set_wait None err (set_state THREAD_READY th).

Lemma filter_head (t : Z) (l : list Z) : NoDup (t :: l) -> filter (fun x => x <> t) (t :: l) = l.
Proof. apply filter_ne_head. Qed.

Lemma busy_unlink_wait E cpu s t w l q :
  sched_busy E cpu s -> queues s !! WaitList w = Some l -> t ∈ l -> wait_queues s !! w = Some q ->
  sched_busy (plus t E) cpu (linked_wait w (filter (fun x => x <> t) l) q (-1) s).
Proof. intros [Hwf Ho Hp] ???. constructor; [by apply wf_unlink_wait|exact Ho|exact Hp]. Qed.

(** A waiter off its queue becomes ready; it is not yet on a run queue. *)
Lemma make_ready_run E cpu s t th err :
  sched_busy E cpu s -> E t -> threads s !! t = Some th -> state th = THREAD_BLOCKED ->
  make_ready t err s = Some (tt, with_threads <[t := woken err th]> s) /\
  sched_busy E cpu (with_threads <[t := woken err th]> s).
Proof.
  intros Hb He Ht Hst. destruct (wf_thread _ _ (busy_wf _ _ _ Hb) _ _ Ht) as (Hm & Hp & _). split.
  - unfold make_ready. do 3 sstep. pose proof (busy_wf _ _ _ Hb) as Hwf. do 2 sstep.
    erewrite upd_thread_eq by apply lookup_insert_eq. by rewrite with_threads_twice.
  - eapply busy_update; done.
Qed.

Lemma take_first_run E cpu s w t l q err :
  sched_busy E cpu s -> queues s !! WaitList w = Some (t :: l) -> wait_queues s !! w = Some q ->
  exists th, threads s !! t = Some th /\ state th = THREAD_BLOCKED /\ thread_is_idle th = false /\ ~ E t /\
    remove_head (WaitList w) s = Some (Some t, with_queues <[WaitList w := l]> s) /\
    add_count w (-1) (with_queues <[WaitList w := l]> s) = Some (tt, linked_wait w l q (-1) s) /\
    make_ready t err (linked_wait w l q (-1) s) = Some (tt, with_threads <[t := woken err th]> (linked_wait w l q (-1) s)) /\
    sched_busy (plus t E) cpu (with_threads <[t := woken err th]> (linked_wait w l q (-1) s)).
Proof.
  intros Hb Hl Hq. destruct (wf_wait _ _ (busy_wf _ _ _ Hb) _ _ t Hl) as (th & Ht & Hst & _ & Hi & He); [by left|].
  pose proof (busy_unlink_wait E cpu s t w _ q Hb Hl ltac:(by left) Hq) as Hb1.
  rewrite filter_head in Hb1 by (by eapply (wf_nodup _ _ (busy_wf _ _ _ Hb))).
  destruct (make_ready_run (plus t E) cpu _ t th err Hb1 ltac:(by left) Ht Hst) as [Hr Hb2].
  exists th. split_and!; try done.
  - unfold remove_head. by rewrite (bind_eq _ _ _ _ _ (get_list_eq _ _ _ Hl)).
  - unfold add_count. by erewrite bind_eq by (apply get_wait_queue_eq; exact Hq).
Qed.

(** The current thread goes to the head of its run queue. *)
Lemma self_to_head cpu s c cth E :
  sched_busy E cpu s -> current s !! cpu = Some c -> threads s !! c = Some cth -> state cth = THREAD_RUNNING ->
  thread_is_idle cth = false -> ~ E c ->
  exists q, queues s !! RunQueue (priority cth) = Some q /\
    let s' := linked_run (priority cth) (c :: q) (with_threads <[c := set_state THREAD_READY cth]> s) in
    bind (upd_thread c (set_state THREAD_READY)) (fun _ => insert_in_run_queue_head cpu c) s = Some (tt, s') /\
    sched_busy E cpu s'.
Proof.
  intros Hb Hc Ht Hst Hi Hn. destruct (wf_thread _ _ (busy_wf _ _ _ Hb) _ _ Ht) as (Hm & Hp & _).
  assert (sched_busy (plus c E) cpu s) as Hb0.
  { apply busy_detach; [done| |].
    - eapply wf_unqueued; [apply (busy_wf _ _ _ Hb)|done|congruence..].
    - intros c' Hc'. by eapply (wf_current_unique E s); [apply (busy_wf _ _ _ Hb)|..]. }
  assert (sched_busy (plus c E) cpu (with_threads <[c := set_state THREAD_READY cth]> s)) as Hb1
    by (eapply busy_update; [done|by left|done..]).
  destruct (insert_head_run _ _ _ c (set_state THREAD_READY cth) Hb1) as (q & Hq & Hr & Hb2);
    [by left|apply lookup_insert_eq|done|done|].
  exists q. split; [done|]. cbn zeta. split.
  - by rewrite (bind_eq _ _ _ _ _ (upd_thread_eq _ _ _ _ Ht)).
  - eapply busy_iff; [by apply minus_plus|exact Hb2].
Qed.

(** The woken thread goes to the head of its run queue and its cpu is told. *)
Lemma ready_to_head E cpu s c t th :
  sched_busy (plus t E) cpu s -> ~ E t -> is_Some (threads s !! c) -> threads s !! t = Some th ->
  state th = THREAD_READY -> thread_is_idle th = false ->
  exists q, queues s !! RunQueue (priority th) = Some q /\
    let s1 := linked_run (priority th) (t :: q) s in
    insert_in_run_queue_head cpu t s = Some (tt, s1) /\ sched_busy E cpu s1 /\
    (exists m s2, thread_get_mp_reschedule_target cpu c t s1 = Some (m, s2) /\ signalled s1 s2 /\ sched_busy E cpu s2) /\
    (exists s2, thread_mp_reschedule cpu c t s1 = Some (tt, s2) /\ signalled s1 s2 /\ sched_busy E cpu s2).
Proof.
  intros Hb Hn Hc Ht Hst Hi. destruct (insert_head_run _ _ _ t th Hb ltac:(by left) Ht Hst Hi) as (q & Hq & Hr & Hb1).
  assert (sched_busy E cpu (linked_run (priority th) (t :: q) s)) as Hb2 by (eapply busy_iff; [by apply minus_plus|exact Hb1]).
  exists q. split; [done|]. cbn zeta. split_and!; [done..| |].
  - destruct (reschedule_target_run E (linked_run (priority th) (t :: q) s) cpu c t) as (m & s2 & ? & ?);
      [apply (busy_wf _ _ _ Hb2)|done|by eexists|].
    exists m, s2. split_and!; [done..|by eapply busy_signalled].
  - destruct (thread_mp_reschedule_run E (linked_run (priority th) (t :: q) s) cpu c t) as (s2 & ? & ?);
      [apply (busy_wf _ _ _ Hb2)|done|by eexists|].
    exists s2. split_and!; [done..|by eapply busy_signalled].
Qed.
Lemma busy_inv cpu s c cth :
  sched_busy none cpu s -> current s !! cpu = Some c -> threads s !! c = Some cth -> state cth = THREAD_RUNNING ->
  sched_inv cpu s.
Proof.
  intros [Hwf Ho Hp] Hc Hct Hst. constructor; [done..| |done]. intros c' t Hc'.
  destruct (decide (c' = cpu)) as [->|Hne]; [simplify_eq; by exists cth|].
  destruct (wf_current _ _ Hwf _ _ Hc') as (_ & th & ? & _ & Hr). rewrite Ho in Hr. destruct (Hr Hne). by exists th.
Qed.

(** A waiter is not the current thread of the cpu. *)
Lemma waiter_not_current cpu s w l c t :
  sched_inv cpu s -> current s !! cpu = Some c -> queues s !! WaitList w = Some l -> t ∈ l -> c <> t.
Proof.
  intros Hinv Hc Hl Ht ->. destruct (wf_wait _ _ (inv_wf _ _ Hinv) _ _ _ Hl Ht) as (? & ? & ? & _).
  destruct (inv_running _ _ Hinv _ _ Hc) as (? & ? & ?). congruence.
Qed.

Lemma wake_one_empty cpu s w q err c (resched : bool) :
  sched_inv cpu s -> current s !! cpu = Some c -> wait_queues s !! w = Some q -> wq_magic q = WAIT_QUEUE_MAGIC ->
  queues s !! WaitList w = Some [] -> wait_queue_wake_one cpu w resched err s = Some ((0, Return tt), s).
Proof.
  intros Hinv Hc Hq Hm Hl. unfold wait_queue_wake_one. do 3 sstep. unfold thread_lock_held. rewrite gets_bind.
  rewrite assert_bind by (apply Z.eqb_eq, (inv_owner _ _ Hinv)).
  unfold remove_head. rewrite bind_assoc. by sstep.
Qed.

(** The run queue of a priority once [t] is at its head. *)
Definition woken_queues w t (l qp : list Z) (p : Z) (qs : gmap queue_head (list Z)) : gmap queue_head (list Z) :=
  <[RunQueue p := t :: qp]> (<[WaitList w := l]> qs).

Lemma wake_one_run cpu s w q err c t l :
  sched_inv cpu s -> current s !! cpu = Some c -> wait_queues s !! w = Some q -> wq_magic q = WAIT_QUEUE_MAGIC ->
  queues s !! WaitList w = Some (t :: l) ->
  exists th qp s', threads s !! t = Some th /\ queues s !! RunQueue (priority th) = Some qp /\
    wait_queue_wake_one cpu w false err s = Some ((1, Return tt), s') /\ sched_inv cpu s' /\
    threads s' = <[t := woken err th]> (threads s) /\ queues s' = woken_queues w t l qp (priority th) (queues s) /\
    wait_queues s' = <[w := mk_wait_queue (wq_magic q) (wq_count q + -1)]> (wait_queues s) /\
    current s' = current s /\ timers s' = timers s.
Proof.
  intros Hinv Hc Hq Hm Hl. destruct (take_first_run none cpu s w t l q err (inv_busy _ _ Hinv) Hl Hq)
    as (th & Ht & Hst & Hi & He & Hr1 & Hr2 & Hr3 & Hb).
  pose proof (waiter_not_current cpu s w _ c t Hinv Hc Hl ltac:(by left)) as Hne.
  destruct (inv_running _ _ Hinv _ _ Hc) as (cth & Hcth & Hcst).
  set (s1 := with_threads <[t := woken err th]> (linked_wait w l q (-1) s)) in *.
  assert (threads s1 !! t = Some (woken err th)) as Ht1 by apply lookup_insert_eq.
  assert (threads s1 !! c = Some cth) as Hc1 by (cbn; by rewrite lookup_insert_ne).
  destruct (ready_to_head none cpu s1 c t (woken err th) Hb He) as (qp & Hqp & Hr4 & _ & _ & (s2 & Hr5 & Hsig & Hb2));
    [by eexists|done|done|done|].
  destruct (signalled_fields _ _ Hsig) as (Ht2 & Hq2 & Hw2 & Hc2 & _ & Htm2 & _).
  exists th, qp, s2. split_and!; [done| | | |by rewrite Ht2|by rewrite Hq2|by rewrite Hw2|by rewrite Hc2|by rewrite Htm2].
  - cbn in Hqp. rewrite lookup_insert_ne in Hqp by done. exact Hqp.
  - unfold wait_queue_wake_one. do 3 sstep. unfold thread_lock_held. rewrite gets_bind.
    rewrite assert_bind by (apply Z.eqb_eq, (inv_owner _ _ Hinv)).
    rewrite (bind_eq _ _ _ _ _ Hr1), (bind_eq _ _ _ _ _ Hr2), (bind_eq _ _ _ _ _ Hr3).
    cbn [when]. rewrite ret_bind, (bind_eq _ _ _ _ _ Hr4), (bind_eq _ _ _ _ _ Hr5). done.
  - eapply busy_inv; [exact Hb2|by rewrite Hc2|rewrite Ht2; exact Hc1|done].
Qed.

(** With [reschedule] the caller goes to the head of its queue first, then the
    woken thread to the head of its own, and the best thread runs. *)
Lemma wake_one_resched_run cpu s w q err c cth t l :
  sched_inv cpu s -> current s !! cpu = Some c -> threads s !! c = Some cth -> thread_is_idle cth = false ->
  wait_queues s !! w = Some q -> wq_magic q = WAIT_QUEUE_MAGIC -> queues s !! WaitList w = Some (t :: l) ->
  exists th s2 o new s', threads s !! t = Some th /\
    wait_queue_wake_one cpu w true err s = Some ((1, o), s') /\
    threads s2 = <[c := set_state THREAD_READY cth]> (<[t := woken err th]> (threads s)) /\
    (exists qc qt, queues s !! RunQueue (priority cth) = Some qc /\
       <[RunQueue (priority cth) := c :: qc]> (queues s) !! RunQueue (priority th) = Some qt /\
       queues s2 = <[RunQueue (priority th) := t :: qt]> (<[RunQueue (priority cth) := c :: qc]> (<[WaitList w := l]> (queues s)))) /\
    wait_queues s2 = <[w := mk_wait_queue (wq_magic q) (wq_count q + -1)]> (wait_queues s) /\
    current s2 = current s /\ timers s2 = timers s /\
    sched_wf none s2 /\ rescheduled s2 cpu c new o s' /\ sched_inv cpu s'.
Proof.
  intros Hinv Hc Hcth Hci Hq Hm Hl. destruct (take_first_run none cpu s w t l q err (inv_busy _ _ Hinv) Hl Hq)
    as (th & Ht & Hst & Hi & He & Hr1 & Hr2 & Hr3 & Hb).
  pose proof (waiter_not_current cpu s w _ c t Hinv Hc Hl ltac:(by left)) as Hne.
  destruct (inv_running _ _ Hinv _ _ Hc) as (cth' & ? & Hcst). assert (cth' = cth) as -> by congruence.
  set (s1 := with_threads <[t := woken err th]> (linked_wait w l q (-1) s)) in *.
  assert (threads s1 !! c = Some cth) as Hc1 by (cbn; by rewrite lookup_insert_ne).
  destruct (self_to_head cpu s1 c cth _ Hb Hc Hc1 Hcst Hci) as (qc & Hqc & Hr4 & Hb4);
    [intros [?|[]]; by apply Hne|].
  set (s4 := linked_run _ _ _) in *.
  assert (threads s4 !! t = Some (woken err th)) as Ht4.
  { cbn. rewrite lookup_insert_ne by done. apply lookup_insert_eq. }
  destruct (ready_to_head none cpu s4 c t (woken err th) Hb4 He) as (qt & Hqt & Hr5 & _ & _ & (s2 & Hr6 & Hsig & Hb2));
    [cbn; rewrite lookup_insert_eq; by eexists|done|done|done|].
  destruct (signalled_fields _ _ Hsig) as (Ht2 & Hq2 & Hw2 & Hc2 & _ & Htm2 & _).
  destruct (resched_run cpu s2 c (set_state THREAD_READY cth) Hb2) as (o & new & s' & Hr7 & Hrs & Hinv');
    [by rewrite Hc2|rewrite Ht2; cbn; apply lookup_insert_eq|done|].
  cbn in Hqc. rewrite lookup_insert_ne in Hqc by done.
  exists th, s2, o, new, s'. split_and!; [done| |by rewrite Ht2| |by rewrite Hw2|by rewrite Hc2|by rewrite Htm2|apply (busy_wf _ _ _ Hb2)|done|done].
  - unfold wait_queue_wake_one. do 3 sstep. unfold thread_lock_held. rewrite gets_bind.
    rewrite assert_bind by (apply Z.eqb_eq, (inv_owner _ _ Hinv)).
    rewrite (bind_eq _ _ _ _ _ Hr1), (bind_eq _ _ _ _ _ Hr2), (bind_eq _ _ _ _ _ Hr3).
    cbn [when]. rewrite (bind_eq _ _ _ _ _ Hr4), (bind_eq _ _ _ _ _ Hr5), (bind_eq _ _ _ _ _ Hr6).
    by rewrite (bind_eq _ _ _ _ _ Hr7).
  - exists qc, qt. split_and!; [done| |by rewrite Hq2]. cbn in Hqt.
    destruct (decide (priority cth = priority th)) as [Heq|Hn].
    + rewrite Heq in *. rewrite lookup_insert_eq in *. done.
    + rewrite lookup_insert_ne in * by congruence. rewrite lookup_insert_ne in Hqt by done. done.
Qed.
(** ** Waking all *)
Definition has_priority (m : gmap Z thread_t) (p t : Z) : bool :=
  match m !! t with Some th => priority th =? p | None => false end.

(** The waiters of priority [p], in the order of the wait queue. *)
Definition waiters_at (m : gmap Z thread_t) (p : Z) (l : list Z) : list Z :=
  filter (fun t => has_priority m p t = true) l.

(** What waking all of [l] does to threads and queues: each waiter goes to the
    head of its run queue, so equals are left in reverse order. *)
Record all_woken w (err : Z) (l : list Z) s s' : Prop := {
  aw_woken : forall t, t ∈ l -> threads s' !! t = woken err <$> threads s !! t;
  aw_other : forall t, t ∉ l -> threads s' !! t = threads s !! t;
  aw_empty : queues s' !! WaitList w = Some [];
  aw_waits : forall w', w' <> w -> queues s' !! WaitList w' = queues s !! WaitList w';
  aw_runs : forall p qp, queues s !! RunQueue p = Some qp ->
    queues s' !! RunQueue p = Some (rev (waiters_at (threads s) p l) ++ qp);
  aw_counts : forall w', wait_queues s' !! w' = if decide (w' = w)
    then (fun q => mk_wait_queue (wq_magic q) (wq_count q - Z.of_nat (length l))) <$> wait_queues s !! w
    else wait_queues s !! w';
  aw_current : current s' = current s;
  aw_timers : timers s' = timers s
}.

Lemma waiters_at_ext m m' p l :
  (forall t, t ∈ l -> has_priority m p t = has_priority m' p t) -> waiters_at m p l = waiters_at m' p l.
Proof. intros He. apply filter_ext_in. intros t Ht. by rewrite He. Qed.

Lemma all_woken_cons w err t l th qp q s s2 s' :
  NoDup (t :: l) -> threads s !! t = Some th -> queues s !! RunQueue (priority th) = Some qp ->
  wait_queues s !! w = Some q ->
  threads s2 = <[t := woken err th]> (threads s) -> queues s2 = woken_queues w t l qp (priority th) (queues s) ->
  wait_queues s2 = <[w := mk_wait_queue (wq_magic q) (wq_count q + -1)]> (wait_queues s) ->
  current s2 = current s -> timers s2 = timers s -> all_woken w err l s2 s' -> all_woken w err (t :: l) s s'.
Proof.
  intros [Hnt Hnd]%NoDup_cons Ht Hqp Hq Ht2 Hq2 Hw2 Hc2 Htm2 [H1 H2 H3 H4 H5 H6 H7 H8]. constructor.
  - intros x [->|Hx]%elem_of_cons.
    + rewrite H2 by done. by rewrite Ht2, lookup_insert_eq, Ht.
    + rewrite H1 by done. rewrite Ht2, lookup_insert_ne; [done|]. by intros ->.
  - intros x [Hne Hx]%not_elem_of_cons. rewrite H2 by done. by rewrite Ht2, lookup_insert_ne.
  - done.
  - intros w' Hne. rewrite H4 by done. rewrite Hq2. unfold woken_queues.
    rewrite lookup_insert_ne by done. by rewrite lookup_insert_ne by congruence.
  - intros p r Hr.
    assert (queues s2 !! RunQueue p = Some (if decide (p = priority th) then t :: r else r)) as Hr2.
    { rewrite Hq2. unfold woken_queues. case_decide as Hp.
      - subst p. rewrite lookup_insert_eq. congruence.
      - by rewrite !lookup_insert_ne by congruence. }
    rewrite (H5 _ _ Hr2). f_equal. rewrite (waiters_at_ext (threads s2) (threads s)).
    2: { intros x Hx. unfold has_priority. rewrite Ht2, lookup_insert_ne; [done|]. by intros ->. }
    unfold waiters_at. rewrite filter_cons.
    assert (has_priority (threads s) p t = (priority th =? p)) as Hhp by (unfold has_priority; by rewrite Ht).
    destruct (decide (p = priority th)) as [->|Hne].
    + rewrite decide_True by (rewrite Hhp; apply Z.eqb_refl). cbn [rev]. by rewrite <- app_assoc.
    + rewrite decide_False; [done|]. rewrite Hhp. intros ?%Z.eqb_eq. congruence.
  - intros w'. rewrite H6, Hw2. case_decide as Hw.
    + rewrite lookup_insert_eq, Hq. cbn. do 2 f_equal. cbn. lia.
    + by rewrite lookup_insert_ne.
  - congruence.
  - congruence.
Qed.

Lemma wake_loop_run cpu w err c l : forall fuel s q n mask,
  (length l <= fuel)%nat -> sched_busy none cpu s -> is_Some (threads s !! c) ->
  queues s !! WaitList w = Some l -> wait_queues s !! w = Some q ->
  exists m s', wake_loop fuel cpu c w err n mask s = Some ((n + Z.of_nat (length l), m), s') /\
    sched_busy none cpu s' /\ all_woken w err l s s'.
Proof.
  induction l as [|t l IH]; intros fuel s q n mask Hf Hb Hc Hl Hq.
  - exists mask, s. split_and!; [|done|].
    + destruct fuel; cbn [wake_loop]; unfold remove_head; rewrite bind_assoc; sstep; cbn; by rewrite Z.add_0_r.
    + constructor; try done; [by intros t ?%elem_of_nil|].
      intros w'. case_decide; [|done]. subst. rewrite Hq. cbn. rewrite Z.sub_0_r. by destruct q.
  - destruct fuel as [|fuel]; [cbn in Hf; lia|]. cbn [wake_loop].
    destruct (take_first_run none cpu s w t l q err Hb Hl Hq) as (th & Ht & Hst & Hi & He & Hr1 & Hr2 & Hr3 & Hb1).
    set (s1 := with_threads <[t := woken err th]> (linked_wait w l q (-1) s)) in *.
    assert (threads s1 !! t = Some (woken err th)) as Ht1 by apply lookup_insert_eq.
    assert (is_Some (threads s1 !! c)) as Hc1 by (apply lookup_insert_is_Some'; by right).
    destruct (ready_to_head none cpu s1 c t (woken err th) Hb1 He Hc1 Ht1) as (qp & Hqp & Hr4 & _ & (m & s2 & Hr5 & Hsig & Hb2) & _);
      [done|done|].
    destruct (signalled_fields _ _ Hsig) as (Ht2 & Hq2 & Hw2 & Hc2 & _ & Htm2 & _).
    assert (queues s !! RunQueue (priority th) = Some qp) as Hqp'
      by (cbn in Hqp; rewrite lookup_insert_ne in Hqp by done; exact Hqp).
    destruct (IH fuel s2 (mk_wait_queue (wq_magic q) (wq_count q + -1)) (n + 1) (Z.lor mask m)) as (m' & s' & Hr6 & Hb6 & Hw6).
    { cbn in Hf. lia. } { done. } { by rewrite Ht2. }
    { rewrite Hq2. cbn. rewrite lookup_insert_ne by done. apply lookup_insert_eq. }
    { rewrite Hw2. apply lookup_insert_eq. }
    exists m', s'. split_and!; [|done|].
    + rewrite (bind_eq _ _ _ _ _ Hr1), (bind_eq _ _ _ _ _ Hr2), (bind_eq _ _ _ _ _ Hr3).
      rewrite (bind_eq _ _ _ _ _ Hr4), (bind_eq _ _ _ _ _ Hr5), Hr6. do 3 f_equal. cbn [length]. lia.
    + eapply all_woken_cons; [by eapply (wf_nodup _ _ (busy_wf _ _ _ Hb))|done..|exact Hw6].
Qed.
Lemma all_woken_signalled w err l s s1 s2 : signalled s1 s2 -> all_woken w err l s s1 -> all_woken w err l s s2.
Proof.
  intros Hs [H1 H2 H3 H4 H5 H6 H7 H8]. destruct (signalled_fields _ _ Hs) as (Ht & Hq & Hw & Hc & _ & Htm & _).
  constructor; rewrite ?Ht, ?Hq, ?Hw, ?Hc, ?Htm; done.
Qed.

Lemma wf_count_of E s w l q :
  queues_wf E s -> queues s !! WaitList w = Some l -> wait_queues s !! w = Some q -> wq_count q = Z.of_nat (length l).
Proof. intros Hwf Hl Hq. destruct (wf_count _ _ Hwf _ _ Hl) as (q' & ? & ? & _). congruence. Qed.

Lemma not_waiting E s w l c cth :
  queues_wf E s -> threads s !! c = Some cth -> state cth <> THREAD_BLOCKED -> queues s !! WaitList w = Some l -> c ∉ l.
Proof. intros Hwf Hc Hst Hl Hin. destruct (wf_wait _ _ Hwf _ _ _ Hl Hin) as (? & ? & ? & _). congruence. Qed.

Lemma wake_all_busy_run cpu s w q err c cth l :
  sched_busy none cpu s -> current s !! cpu = Some c -> threads s !! c = Some cth -> state cth <> THREAD_READY -> c ∉ l ->
  wait_queues s !! w = Some q -> wq_magic q = WAIT_QUEUE_MAGIC -> queues s !! WaitList w = Some l ->
  exists s', wait_queue_wake_all cpu w false err s = Some ((Z.of_nat (length l), Return tt), s') /\
    sched_busy none cpu s' /\ all_woken w err l s s'.
Proof.
  intros Hbusy Hc Hcth Hst Hcl Hq Hm Hl.
  pose proof (wf_count_of none s w l q (busy_wf _ _ _ Hbusy) Hl Hq) as Hcnt.
  destruct (wake_loop_run cpu w err c l (length l) s q 0 0) as (m & s1 & Hr & Hb & Hw); [done|done|by eexists|done..|].
  pose proof Hw as [_ Ho _ _ _ Hws Hcur _]. pose proof (Hws w) as Hw1. rewrite decide_True, Hq in Hw1 by done. cbn in Hw1.
  assert (threads s1 !! c = Some cth) as Hc1 by (by rewrite Ho).
  set (s2 := if (0 + Z.of_nat (length l)) >? 0 then (mp_reschedule cpu m 0 s1) else Some (tt, s1)).
  assert (exists s3, s2 = Some (tt, s3) /\ signalled s1 s3) as (s3 & Hs2 & Hsig).
  { unfold s2. case_match; [apply mp_reschedule_run|]. exists s1. split; [done|apply signalled_refl]. }
  exists s3. split_and!; [|by eapply busy_signalled|by eapply all_woken_signalled].
  unfold wait_queue_wake_all. do 3 sstep. unfold thread_lock_held. rewrite gets_bind.
  rewrite assert_bind by (apply Z.eqb_eq, (busy_owner _ _ _ Hbusy)). cbn [andb when]. rewrite ret_bind.
  sstep. rewrite (bind_eq _ _ _ _ _ Hr). rewrite (bind_eq _ _ _ _ _ (get_wait_queue_eq _ _ _ Hw1)).
  rewrite assert_bind by (cbn; apply Z.eqb_eq; lia). rewrite (bind_eq _ _ _ _ _ (get_thread_eq _ _ _ Hc1)).
  cbn [fst snd]. unfold s2 in Hs2. assert (state_eqb (state cth) THREAD_READY = false) as Hns by (by apply state_eqb_false).
  destruct ((0 + Z.of_nat (length l)) >? 0).
  - rewrite (bind_eq _ _ _ _ _ Hs2), assert_bind by (by rewrite Hns). done.
  - rewrite assert_bind by (by rewrite Hns). injection Hs2 as ->. done.
Qed.

Lemma wake_all_run cpu s w q err c cth l :
  sched_inv cpu s -> current s !! cpu = Some c -> threads s !! c = Some cth ->
  wait_queues s !! w = Some q -> wq_magic q = WAIT_QUEUE_MAGIC -> queues s !! WaitList w = Some l ->
  exists s', wait_queue_wake_all cpu w false err s = Some ((Z.of_nat (length l), Return tt), s') /\
    sched_inv cpu s' /\ all_woken w err l s s'.
Proof.
  intros Hinv Hc Hcth Hq Hm Hl. destruct (inv_running _ _ Hinv _ _ Hc) as (cth' & ? & Hst).
  assert (cth' = cth) as -> by congruence.
  assert (c ∉ l) as Hcl by (eapply (not_waiting none s); [apply (inv_wf _ _ Hinv)|done|congruence|done]).
  destruct (wake_all_busy_run cpu s w q err c cth l) as (s' & Hr & Hb & Hw); [by apply inv_busy|done|done|congruence|done..|].
  exists s'. split_and!; [done| |done]. pose proof Hw as [_ Ho _ _ _ _ Hcur _].
  eapply busy_inv; [exact Hb|by rewrite Hcur|by rewrite Ho|done].
Qed.

Lemma wake_all_resched_run cpu s w q err c cth l :
  sched_inv cpu s -> current s !! cpu = Some c -> threads s !! c = Some cth -> thread_is_idle cth = false ->
  wait_queues s !! w = Some q -> wq_magic q = WAIT_QUEUE_MAGIC -> queues s !! WaitList w = Some l ->
  (l = [] /\ wait_queue_wake_all cpu w true err s = Some ((0, Return tt), s)) \/
  (l <> [] /\ exists qc s2 o new s', queues s !! RunQueue (priority cth) = Some qc /\
    wait_queue_wake_all cpu w true err s = Some ((Z.of_nat (length l), o), s') /\
    all_woken w err l (linked_run (priority cth) (c :: qc) (with_threads <[c := set_state THREAD_READY cth]> s)) s2 /\
    sched_wf none s2 /\ rescheduled s2 cpu c new o s' /\ sched_inv cpu s').
Proof.
  intros Hinv Hc Hcth Hci Hq Hm Hl. destruct (inv_running _ _ Hinv _ _ Hc) as (cth' & ? & Hst).
  assert (cth' = cth) as -> by congruence.
  assert (c ∉ l) as Hcl by (eapply (not_waiting none s); [apply (inv_wf _ _ Hinv)|done|congruence|done]).
  pose proof (wf_count_of none s w l q (inv_wf _ _ Hinv) Hl Hq) as Hcnt.
  assert (state_eqb (state cth) THREAD_READY = false) as Hns by (apply state_eqb_false; congruence).
  destruct l as [|t l]; [left|right].
  - split; [done|]. unfold wait_queue_wake_all. do 3 sstep. unfold thread_lock_held. rewrite gets_bind.
    rewrite assert_bind by (apply Z.eqb_eq, (inv_owner _ _ Hinv)). assert (wq_count q >? 0 = false) as -> by (by rewrite Hcnt).
    cbn [andb when]. rewrite ret_bind. sstep. cbn [length wake_loop]. unfold remove_head. rewrite !bind_assoc. sstep.
    cbv beta iota. rewrite ret_bind. cbv beta iota. rewrite ret_bind. sstep. rewrite assert_bind by (by rewrite Hcnt). sstep.
    change ((0, 0).1 >? 0) with false. cbv iota. by rewrite assert_bind by (by rewrite Hns).
  - split; [done|].
    destruct (self_to_head cpu s c cth none (inv_busy _ _ Hinv) Hc Hcth Hst Hci) as (qc & Hqc & Hr1 & Hb1); [by intros []|].
    set (s1 := linked_run _ _ _) in *.
    assert (queues s1 !! WaitList w = Some (t :: l)) as Hl1 by (cbn; by rewrite lookup_insert_ne).
    destruct (wake_loop_run cpu w err c (t :: l) (length (t :: l)) s1 q 0 0) as (m & s2 & Hr2 & Hb2 & Hw);
      [done|done|apply lookup_insert_is_Some'; right; by eexists|done|done|].
    pose proof Hw as [_ Ho _ _ _ Hws Hcur _]. pose proof (Hws w) as Hw1. rewrite decide_True in Hw1 by done.
    change (wait_queues s1 !! w) with (wait_queues s !! w) in Hw1. rewrite Hq in Hw1. cbn [fmap option_fmap option_map] in Hw1.
    assert (threads s2 !! c = Some (set_state THREAD_READY cth)) as Hc2 by (rewrite Ho by done; apply lookup_insert_eq).
    destruct (mp_reschedule_run cpu m 0 s2) as (s3 & Hr3 & Hsig).
    pose proof (busy_signalled _ _ _ _ Hsig Hb2) as Hb3.
    destruct (signalled_fields _ _ Hsig) as (Ht3 & _ & _ & Hc3 & _).
    destruct (resched_run cpu s3 c (set_state THREAD_READY cth) Hb3) as (o & new & s' & Hr4 & Hrs & Hinv');
      [by rewrite Hc3, Hcur|by rewrite Ht3|done|].
    exists qc, s3, o, new, s'. split_and!; [done| |by eapply all_woken_signalled|apply (busy_wf _ _ _ Hb3)|done|done].
    unfold wait_queue_wake_all. do 3 sstep. unfold thread_lock_held. rewrite gets_bind.
    rewrite assert_bind by (apply Z.eqb_eq, (inv_owner _ _ Hinv)).
    assert (wq_count q >? 0 = true) as Hpos by (rewrite Hcnt; apply Z.gtb_lt; cbn; lia).
    rewrite Hpos. cbn [andb when]. rewrite (bind_eq _ _ _ _ _ Hr1), (bind_eq _ _ _ _ _ (get_list_eq _ _ _ Hl1)).
    rewrite (bind_eq _ _ _ _ _ Hr2), (bind_eq _ _ _ _ _ (get_wait_queue_eq _ _ _ Hw1)).
    rewrite assert_bind by (apply Z.eqb_eq; cbn [wq_count]; lia). rewrite (bind_eq _ _ _ _ _ (get_thread_eq _ _ _ Hc2)).
    cbn [fst snd]. assert (0 + Z.of_nat (length (t :: l)) >? 0 = true) as -> by (apply Z.gtb_lt; cbn; lia).
    rewrite (bind_eq _ _ _ _ _ Hr3), assert_bind by done. by rewrite (bind_eq _ _ _ _ _ Hr4).
Qed.
(** ** Time-outs and removal of one waiter *)
Lemma node_delete_wait E s t w l :
  queues_wf E s -> queues s !! WaitList w = Some l -> t ∈ l ->
  node_delete t (queues s) = <[WaitList w := filter (fun x => x <> t) l]> (queues s).
Proof.
  intros Hwf Hl Ht. apply map_eq. intros h. rewrite node_delete_lookup. destruct (decide (h = WaitList w)) as [->|Hne].
  - by rewrite lookup_insert_eq, Hl.
  - rewrite lookup_insert_ne by done. destruct (queues s !! h) as [q|] eqn:Hq; [|done]. cbn. f_equal.
    apply filter_ne_id. intros Hin. apply Hne. by eapply (wf_wait_unique E s t h q).
Qed.

Lemma unblock_not_blocked cpu s t th err :
  sched_inv cpu s -> threads s !! t = Some th -> state th <> THREAD_BLOCKED ->
  thread_unblock_from_wait_queue cpu t err s = Some (ERR_NOT_BLOCKED, s).
Proof.
  intros Hinv Ht Hst. destruct (wf_thread _ _ (inv_wf _ _ Hinv) _ _ Ht) as (Hm & _).
  pose proof (inv_wf _ _ Hinv) as Hwf. unfold thread_unblock_from_wait_queue, thread_lock_held. do 2 sstep. rewrite gets_bind.
  rewrite assert_bind by (apply Z.eqb_eq, (inv_owner _ _ Hinv)). sstep.
  by rewrite (proj2 (state_eqb_false _ _) Hst).
Qed.

Lemma unblock_run cpu s t th err c :
  sched_inv cpu s -> current s !! cpu = Some c -> threads s !! t = Some th -> state th = THREAD_BLOCKED ->
  exists w l q qp s', blocking_wait_queue th = Some w /\ queues s !! WaitList w = Some l /\ t ∈ l /\
    wait_queues s !! w = Some q /\ queues s !! RunQueue (priority th) = Some qp /\
    thread_unblock_from_wait_queue cpu t err s = Some (NO_ERROR, s') /\ sched_inv cpu s' /\
    threads s' = <[t := woken err th]> (threads s) /\
    queues s' = woken_queues w t (filter (fun x => x <> t) l) qp (priority th) (queues s) /\
    wait_queues s' = <[w := mk_wait_queue (wq_magic q) (wq_count q + -1)]> (wait_queues s) /\
    current s' = current s /\ timers s' = timers s.
Proof.
  intros Hinv Hc Ht Hst. pose proof (inv_wf _ _ Hinv) as Hwf. destruct (wf_thread _ _ Hwf _ _ Ht) as (Hm & Hpr & _).
  destruct (wf_blocked _ _ Hwf _ _ Ht Hst) as (w & l & Hbw & Hl & Hin); [by intros []|].
  destruct (wf_wait _ _ Hwf _ _ _ Hl Hin) as (th' & ? & _ & _ & Hi & _). assert (th' = th) as -> by congruence.
  destruct (wf_count _ _ Hwf _ _ Hl) as (q & Hq & _ & [Hqm| ->]); [|by apply elem_of_nil in Hin].
  pose proof (busy_unlink_wait none cpu s t w l q (inv_busy _ _ Hinv) Hl Hin Hq) as Hb1.
  destruct (make_ready_run (plus t none) cpu _ t th err Hb1 ltac:(by left) Ht Hst) as [_ Hb2].
  pose proof (waiter_not_current cpu s w _ c t Hinv Hc Hl Hin) as Hne.
  destruct (inv_running _ _ Hinv _ _ Hc) as (cth & Hcth & Hcst).
  set (s1 := with_threads <[t := woken err th]> (linked_wait w (filter (fun x => x <> t) l) q (-1) s)) in *.
  assert (threads s1 !! t = Some (woken err th)) as Ht1 by apply lookup_insert_eq.
  assert (threads s1 !! c = Some cth) as Hc1 by (cbn; by rewrite lookup_insert_ne).
  destruct (ready_to_head none cpu s1 c t (woken err th) Hb2) as (qp & Hqp & Hr4 & _ & _ & (s2 & Hr5 & Hsig & Hb5));
    [by intros []|by eexists|done|done|done|].
  destruct (signalled_fields _ _ Hsig) as (Ht2 & Hq2 & Hw2 & Hc2 & _ & Htm2 & _).
  exists w, l, q, qp, s2.
  split_and!; [done|done|done|done| | | |by rewrite Ht2|by rewrite Hq2|by rewrite Hw2|by rewrite Hc2|by rewrite Htm2].
  - cbn in Hqp. rewrite lookup_insert_ne in Hqp by done. exact Hqp.
  - unfold thread_unblock_from_wait_queue, thread_lock_held. do 2 sstep. rewrite gets_bind.
    rewrite assert_bind by (apply Z.eqb_eq, (inv_owner _ _ Hinv)). sstep.
    rewrite (proj2 (state_eqb_true _ _) Hst). cbn [negb].
    erewrite bind_eq by (apply getsome_eq; exact Hbw). sstep. sstep. unfold queue_node_in_list. rewrite gets_bind.
    rewrite assert_bind by (apply node_in_list_true; eauto). rewrite modify_bind.
    unfold add_count, set_wait_queue. rewrite bind_assoc. erewrite bind_eq by (apply get_wait_queue_eq; exact Hq).
    rewrite modify_bind. erewrite bind_eq by (apply upd_thread_eq; exact Ht).
    erewrite bind_eq by (apply upd_thread_eq, lookup_insert_eq). rewrite with_threads_twice.
    assert (with_queues (node_delete t) s = with_queues <[WaitList w := filter (fun x => x <> t) l]> s) as Heq
      by (unfold with_queues; by rewrite (node_delete_wait none s t w l (wf_queues _ _ Hwf) Hl Hin)).
    rewrite Heq. match goal with |- bind _ _ ?s0 = _ => change s0 with s1 end.
    rewrite (bind_eq _ _ _ _ _ Hr4). erewrite bind_eq by (apply get_current_eq; exact Hc).
    by rewrite (bind_eq _ _ _ _ _ Hr5).
  - eapply busy_inv; [exact Hb5|by rewrite Hc2|by rewrite Ht2|done].
Qed.

(** A passed time-out wakes exactly a thread that is still waiting. *)
Lemma timeout_handler_run cpu s t th c :
  sched_inv unlocked s -> current s !! cpu = Some c -> threads s !! t = Some th ->
  exists s', wait_queue_timeout_handler cpu t s = Some (state_eqb (state th) THREAD_BLOCKED, s') /\
    sched_inv unlocked s' /\ current s' = current s /\ timers s' = timers s /\
    (state th <> THREAD_BLOCKED -> s' = s) /\
    (state th = THREAD_BLOCKED -> threads s' = <[t := woken ERR_TIMED_OUT th]> (threads s) /\
       forall w l, queues s !! WaitList w = Some l -> queues s' !! WaitList w = Some (filter (fun x => x <> t) l)).
Proof.
  intros Hinv Hc Ht. destruct (wf_thread _ _ (inv_wf _ _ Hinv) _ _ Ht) as (Hm & _).
  destruct (THREAD_LOCK_run cpu s Hinv) as (s0 & Hl & Hs0 & Hinv0).
  assert (threads s0 !! t = Some th) as Ht0 by (by rewrite Hs0).
  assert (current s0 !! cpu = Some c) as Hc0 by (by rewrite Hs0).
  unfold wait_queue_timeout_handler. do 2 sstep. rewrite (bind_eq _ _ _ _ _ Hl).
  destruct (decide (state th = THREAD_BLOCKED)) as [Hst|Hst].
  - destruct (unblock_run cpu s0 t th ERR_TIMED_OUT c Hinv0 Hc0 Ht0 Hst)
      as (w & l & q & qp & s1 & _ & Hwl & Hin & _ & _ & Hr & Hinv1 & Ht1 & Hq1 & _ & Hc1 & Htm1).
    destruct (THREAD_UNLOCK_run cpu s1 Hinv1) as [Hu Hinv2]. rewrite (bind_eq _ _ _ _ _ Hr), (bind_eq _ _ _ _ _ Hu).
    eexists. split_and!; [by rewrite (proj2 (state_eqb_true _ _) Hst)|done| | |done|].
    + cbn. by rewrite Hc1, Hs0.
    + cbn. by rewrite Htm1, Hs0.
    + intros _. cbn. split; [by rewrite Ht1, Hs0|]. intros w' l' Hl'. rewrite Hq1. unfold woken_queues.
      rewrite lookup_insert_ne by done. rewrite Hs0. cbn.
      rewrite <- (node_delete_wait none s t w l) by (try apply (inv_wf _ _ Hinv); by rewrite Hs0 in Hwl).
      by rewrite node_delete_lookup, Hl'.
  - rewrite (bind_eq _ _ _ _ _ (unblock_not_blocked cpu s0 t th ERR_TIMED_OUT Hinv0 Ht0 Hst)).
    destruct (THREAD_UNLOCK_run cpu s0 Hinv0) as [Hu Hinv2]. rewrite (bind_eq _ _ _ _ _ Hu).
    assert (with_owner unlocked s0 = s) as Heq by (rewrite Hs0; apply (with_owner_id unlocked s (inv_owner _ _ Hinv))).
    rewrite Heq in *. exists s. split_and!; try done. by rewrite (proj2 (state_eqb_false _ _) Hst).
Qed.
(** ** Sleeping and resuming *)
Lemma thread_sleep_ns_run cpu s t th delay :
  sched_inv unlocked s -> current s !! cpu = Some t -> threads s !! t = Some th -> thread_is_idle th = false ->
  0 <= delay < 2 ^ 62 -> timeout_pending (timers s) t = false ->
  exists s2 new s', thread_sleep_ns cpu delay s = Some (Switched, s') /\
    threads s2 = <[t := set_state THREAD_SLEEPING th]> (threads s) /\ queues s2 = queues s /\
    wait_queues s2 = wait_queues s /\ current s2 = current s /\ timeout_live (timers s2) t = true /\
    sched_wf none s2 /\ rescheduled s2 cpu t new Switched s' /\ sched_inv cpu s' /\ new <> t.
Proof.
  intros Hinv Hc Ht Hi Hd Hpend. destruct (inv_running _ _ Hinv _ _ Hc) as (th' & ? & Hst).
  assert (th' = th) as -> by congruence. destruct (wf_thread _ _ (inv_wf _ _ Hinv) _ _ Ht) as (Hm & Hp & _).
  destruct (wf_current _ _ (inv_wf _ _ Hinv) _ _ Hc) as [Hv _].
  destruct (THREAD_LOCK_run cpu s Hinv) as (s0 & Hl & Hs0 & Hinv0).
  assert (threads s0 !! t = Some th) as Ht0 by (by rewrite Hs0).
  assert (current s0 !! cpu = Some t) as Hc0 by (by rewrite Hs0).
  destruct (set_timeout_law (timers s0) cpu t delay) as (x & Hx & Hok & Hpp & Htm);
    [apply (inv_preempt _ _ Hinv0 cpu)|done|by rewrite Hs0|done|].
  pose proof (busy_timers none cpu s0 x (inv_busy _ _ Hinv0) Hok Hpp) as Hb1.
  assert (sched_inv cpu (with_timers x s0)) as Hinv1 by (by eapply busy_inv).
  destruct (upd_self cpu (with_timers x s0) t th (set_state THREAD_SLEEPING th)) as [Hb2 Ht2];
    [by eapply detach_self|done..|].
  set (s2 := with_threads _ (with_timers x s0)) in *.
  assert (sched_busy none cpu s2) as Hb3 by (eapply busy_attach; [exact Hb2|by intros []|exact Ht2|done..]).
  destruct (leave_run cpu s2 t (set_state THREAD_SLEEPING th) Hb3) as (new & s' & Hr & Hrs & Hinv' & Hne); [done..|].
  exists s2, new, s'. split_and!; try done; try (unfold s2; cbn; by rewrite Hs0).
  - unfold thread_sleep_ns. do 4 sstep. rewrite assert_bind by (by rewrite Hi). rewrite (bind_eq _ _ _ _ _ Hl). unfold on_timers at 1.
    unfold bind at 1. rewrite Hx. by rewrite (bind_eq _ _ _ _ _ (upd_thread_eq (with_timers x s0) t th _ Ht0)).
  - cbn. destruct (Htm t) as [_ ->]. by rewrite decide_True.
  - apply (busy_wf _ _ _ Hb3).
Qed.

(** Back from a wait with a time-out: the lock is given up, the timer cancelled
    and the lock taken again. *)
Lemma wait_queue_block_cancel_run cpu s t timeout :
  sched_inv cpu s -> current s !! cpu = Some t -> (timeout <> INFINITE_TIME -> timeout_live (timers s) t = true) ->
  exists x, wait_queue_block_cancel cpu timeout s = Some (tt, with_timers x s) /\ sched_inv cpu (with_timers x s) /\
    (forall u, timeout_pending x u =
       if decide (u = t) then (if timeout =? INFINITE_TIME then timeout_pending (timers s) u else false)
       else timeout_pending (timers s) u) /\
    (forall u, timeout_live x u = timeout_live (timers s) u).
Proof.
  intros Hinv Hc Hlive. destruct (inv_running _ _ Hinv _ _ Hc) as (th & Ht & Hst).
  destruct (wf_current _ _ (inv_wf _ _ Hinv) _ _ Hc) as [Hv _].
  unfold wait_queue_block_cancel. sstep. destruct (Z.eqb_spec timeout INFINITE_TIME) as [|Hne].
  - exists (timers s). assert (with_timers (timers s) s = s) as -> by (by destruct s).
    split_and!; [done..|intros u; by case_decide|done].
  - destruct (THREAD_UNLOCK_run cpu s Hinv) as [Hu Hinv1]. rewrite (bind_eq _ _ _ _ _ Hu).
    destruct (cancel_timeout_law (timers s) cpu t) as (x & Hx & Hok & Hpp & Htm);
      [apply (inv_preempt _ _ Hinv cpu)|done|by apply Hlive|].
    assert (sched_inv cpu (with_timers x s)) as Hinv2.
    { eapply busy_inv; [apply busy_timers; [by apply inv_busy|done|done]|exact Hc|exact Ht|done]. }
    exists x. split_and!; [|done|intros u; apply Htm|intros u; apply Htm].
    unfold on_timers, bind. change (timers (with_owner unlocked s)) with (timers s). rewrite Hx.
    unfold THREAD_LOCK. cbn [thread_lock_owner with_timers with_owner unlocked]. unfold unlocked. rewrite Z.eqb_refl. do 2 f_equal.
    pose proof (inv_owner _ _ Hinv) as Ho. destruct s. cbn in *. by subst.
Qed.

Lemma wait_queue_block_resume_run cpu s t th timeout :
  sched_inv cpu s -> current s !! cpu = Some t -> threads s !! t = Some th ->
  (timeout <> INFINITE_TIME -> timeout_live (timers s) t = true) ->
  exists x, wait_queue_block_resume cpu timeout s = Some (wait_queue_block_ret th, with_timers x s) /\
    sched_inv cpu (with_timers x s) /\
    (forall u, timeout_pending x u =
       if decide (u = t) then (if timeout =? INFINITE_TIME then timeout_pending (timers s) u else false)
       else timeout_pending (timers s) u) /\
    (forall u, timeout_live x u = timeout_live (timers s) u).
Proof.
  intros Hinv Hc Ht Hlive.
  destruct (wait_queue_block_cancel_run cpu s t timeout Hinv Hc Hlive) as (x & Hr & Hinv' & H1 & H2).
  exists x. split_and!; [|done..]. unfold wait_queue_block_resume. rewrite (bind_eq _ _ _ _ _ Hr).
  erewrite bind_eq by (apply get_current_eq; exact Hc). by erewrite bind_eq by (apply get_thread_eq; exact Ht).
Qed.

(** A thread on no queue that becomes ready: the end of a sleep, a thread started. *)
Lemma start_run cpu s t th :
  sched_inv cpu s -> threads s !! t = Some th -> thread_is_idle th = false ->
  state th = THREAD_SLEEPING \/ state th = THREAD_SUSPENDED ->
  exists qp, queues s !! RunQueue (priority th) = Some qp /\
    let s1 := linked_run (priority th) (t :: qp) (with_threads <[t := set_state THREAD_READY th]> s) in
    bind (upd_thread t (set_state THREAD_READY)) (fun _ => insert_in_run_queue_head cpu t) s = Some (tt, s1) /\
    sched_inv cpu s1.
Proof.
  intros Hinv Ht Hi Hst. destruct (wf_thread _ _ (inv_wf _ _ Hinv) _ _ Ht) as (Hm & Hp & _).
  assert (forall c, current s !! c <> Some t) as Hnc.
  { intros c Hc. destruct (inv_running _ _ Hinv _ _ Hc) as (th' & ? & ?). destruct Hst; congruence. }
  assert (sched_busy (plus t none) cpu s) as Hb0.
  { apply busy_detach; [by apply inv_busy| |].
    - eapply wf_unqueued; [apply (inv_wf _ _ Hinv)|done|destruct Hst; congruence..].
    - intros c' Hc'. by apply Hnc in Hc'. }
  destruct (upd_self cpu s t th (set_state THREAD_READY th) Hb0) as [Hb1 Ht1]; [done..|].
  destruct (insert_head_run _ _ _ t (set_state THREAD_READY th) Hb1) as (q & Hq & Hr & Hb2);
    [by left|apply lookup_insert_eq|done|done|].
  exists q. split; [done|]. cbn zeta. split.
  - by rewrite (bind_eq _ _ _ _ _ (upd_thread_eq _ _ _ _ Ht)).
  - constructor; [| | |apply Hb2].
    + eapply wf_iff; [apply minus_plus; by intros []|apply Hb2].
    + apply (inv_owner _ _ Hinv).
    + intros c x Hc. cbn in *. destruct (inv_running _ _ Hinv _ _ Hc) as (y & ? & ?). exists y.
      rewrite lookup_insert_ne; [done|]. intros <-. by apply Hnc in Hc.
Qed.

Lemma inv_signalled cpu s s' : signalled s s' -> sched_inv cpu s -> sched_inv cpu s'.
Proof.
  intros Hs [Hwf Ho Hr Hp]. destruct (signalled_fields _ _ Hs) as (Ht & _ & _ & Hc & Ho' & Htm & _).
  constructor; [by eapply wf_signalled|congruence|by rewrite Hc, Ht|]. intros c. by eapply preempt_wf_ext.
Qed.

Lemma thread_sleep_handler_run cpu s c t th :
  sched_inv unlocked s -> current s !! cpu = Some c -> threads s !! t = Some th -> thread_is_idle th = false ->
  state th = THREAD_SLEEPING ->
  exists qp s', thread_sleep_handler cpu t s = Some (true, s') /\ sched_inv unlocked s' /\
    queues s !! RunQueue (priority th) = Some qp /\
    threads s' = <[t := set_state THREAD_READY th]> (threads s) /\
    queues s' = <[RunQueue (priority th) := t :: qp]> (queues s) /\ current s' = current s /\ timers s' = timers s.
Proof.
  intros Hinv Hc Ht Hi Hst. destruct (wf_thread _ _ (inv_wf _ _ Hinv) _ _ Ht) as (Hm & _).
  pose proof (inv_wf _ _ Hinv) as Hwf. destruct (THREAD_LOCK_run cpu s Hinv) as (s0 & Hl & Hs0 & Hinv0).
  assert (threads s0 !! t = Some th) as Ht0 by (by rewrite Hs0).
  destruct (start_run cpu s0 t th Hinv0 Ht0 Hi ltac:(by left)) as (qp & Hqp & Hr & Hinv1).
  set (s1 := linked_run _ _ _) in *.
  assert (current s1 !! cpu = Some c) as Hc1 by (by cbn; rewrite Hs0).
  assert (curr_cpu th = -1) as Hcc.
  { destruct (wf_curr_cpu _ _ Hwf _ _ Ht) as [|Hcur]; [done|]. destruct (inv_running _ _ Hinv _ _ Hcur) as (? & ? & ?). congruence. }
  destruct (inv_running _ _ Hinv1 _ _ Hc1) as (cth & Hcth & _).
  destruct (thread_pinned_cond_mp_reschedule_run none s1 cpu c t (set_state THREAD_READY th) cpu) as (s2 & Hr2 & Hsig);
    [apply (inv_wf _ _ Hinv1)|by eexists|apply lookup_insert_eq|by right|].
  pose proof (inv_signalled _ _ _ Hsig Hinv1) as Hinv2. destruct (THREAD_UNLOCK_run cpu s2 Hinv2) as [Hu Hinv3].
  destruct (signalled_fields _ _ Hsig) as (Ht2 & Hq2 & _ & Hc2 & _ & Htm2 & _).
  exists qp, (with_owner unlocked s2).
  split_and!; [|done|by rewrite Hs0 in Hqp|cbn; rewrite Ht2; cbn; by rewrite Hs0|cbn; rewrite Hq2; cbn; by rewrite Hs0
    |cbn; rewrite Hc2; cbn; by rewrite Hs0|cbn; rewrite Htm2; cbn; by rewrite Hs0].
  unfold thread_sleep_handler. do 4 sstep. rewrite (bind_eq _ _ _ _ _ Hl).
  rewrite (bind_then _ _ _ _ _ _ Hr). rewrite (bind_eq _ _ _ _ _ (get_current_eq _ _ _ Hc1)), (bind_eq _ _ _ _ _ Hr2). by rewrite (bind_eq _ _ _ _ _ Hu).
Qed.
End wait.
