(* ===== verification/SchedTimer.v ===== *)
(** * The scheduler's timers are kernel timers

    kernel/thread.c keeps one preemption timer per cpu and one timer on the
    stack of each blocked or sleeping thread. This file runs the scheduler's
    requests on the model of kernel/timer.c and proves the laws the scheduler
    relies on. *)
From stdpp Require Import base gmap list.
From Stdlib Require Import ZArith Lia.
From S2P Require Import Prelude Timer Sched SchedInv.

Local Open Scope Z_scope.
Local Open Scope lk_scope.

Lemma decide_inj {A} (a b : Z) (f : Z -> Z) (x y : A) :
  (forall a b, f a = f b -> a = b) -> (if decide (f a = f b) then x else y) = if decide (a = b) then x else y.
Proof. intros Hinj. repeat case_decide; try done; [exfalso; eauto|congruence]. Qed.

(** The time of the operations, the kind of hardware timer and where the timer
    objects are. *)
Class TimerPlace := {
  now_ns : Z;
  dynamic_timer : bool;
  preempt_timer : Z -> Z;
  stack_timer : Z -> Z;
  thread_timer_callback_id : Z;
  thread_sleep_handler_id : Z
}.

Class TimerPlaceOk `{!TimerPlace} := {
  now_in_period : in_period now_ns;
  preempt_timer_inj : forall a b, preempt_timer a = preempt_timer b -> a = b;
  stack_timer_inj : forall a b, stack_timer a = stack_timer b -> a = b;
  timers_apart : forall a b, preempt_timer a <> stack_timer b;
  preempt_timer_nonnull : forall a, preempt_timer a <> 0;
  stack_timer_nonnull : forall a, stack_timer a <> 0
}.

Section place.
Context `{!Config} `{!TimerPlace}.

(** [timer_cancel] with the lock held and [timer_cancel_sync] without; the
    callback of the timer is not running. *)
#[export] Instance kernel_timers : TimerOps timer_state := {
  preempt_cancel cpu :=
    timer_cancel_etc SMP_MAX_CPUS dynamic_timer (ret tt) 0 cpu now_ns true (preempt_timer cpu) false;
  preempt_set_periodic cpu period :=
    timer_set_periodic_ns SMP_MAX_CPUS dynamic_timer cpu now_ns (preempt_timer cpu) period thread_timer_callback_id 0;
  set_timeout cpu t delay :=
    timer_initialize (stack_timer t) ;;
    timer_set_oneshot_ns SMP_MAX_CPUS dynamic_timer cpu now_ns (stack_timer t) delay thread_sleep_handler_id t;
  cancel_timeout cpu t :=
    timer_cancel_etc SMP_MAX_CPUS dynamic_timer (ret tt) 0 cpu now_ns false (stack_timer t) true
}.

Definition linked_timer (x : timer_state) (a : Z) : bool := node_in_list a (timer_queue x).
Definition live_timer (x : timer_state) (a : Z) : bool :=
  match timer_objs x !! a with
  | Some o => (t_magic o =? TIMER_MAGIC) && negb (t_running o)
  | None => false
  end.

(** The timers as the scheduler leaves them. *)
Record kernel_timers_ok (x : timer_state) : Prop := {
  kt_wf : timers_wf x;
  kt_unlocked : timer_locked x = false;
  kt_queues : forall cpu, 0 <= cpu < SMP_MAX_CPUS -> is_Some (timer_queue x !! cpu);
  kt_preempt : forall cpu, 0 <= cpu < SMP_MAX_CPUS -> live_timer x (preempt_timer cpu) = true /\
    (linked_timer x (preempt_timer cpu) = true ->
       exists o, timer_objs x !! preempt_timer cpu = Some o /\ t_cpu o = cpu)
}.

Lemma live_timer_true x a : live_timer x a = true ->
  exists o, timer_objs x !! a = Some o /\ t_magic o = TIMER_MAGIC /\ t_running o = false.
Proof. unfold live_timer. destruct (timer_objs x !! a) as [o|]; [|done]. intros. bprop. by exists o. Qed.

Lemma linked_insert x a b q1 q2 cpu :
  timer_queue x !! cpu = Some (q1 ++ q2) ->
  node_in_list b (<[cpu := q1 ++ a :: q2]> (timer_queue x)) = if decide (b = a) then true else linked_timer x b.
Proof.
  intros Hq. case_decide as Hb.
  - subst b. apply node_in_list_true. exists cpu, (q1 ++ a :: q2). rewrite lookup_insert_eq. split; [done|].
    apply elem_of_app. right. by left.
  - destruct (linked_timer x b) eqn:Hl; unfold linked_timer in Hl.
    + apply node_in_list_true in Hl as (k & p & Hk & Hp). apply node_in_list_true.
      destruct (decide (k = cpu)) as [->|].
      * exists cpu, (q1 ++ a :: q2). rewrite lookup_insert_eq. split; [done|]. simplify_eq.
        apply elem_of_app in Hp as [?|?]; apply elem_of_app; [by left|right; by right].
      * exists k, p. by rewrite lookup_insert_ne.
    + eapply node_in_list_ext; [exact Hq| |done]. rewrite !elem_of_app, elem_of_cons. naive_solver.
Qed.

Lemma linked_delete x a b :
  node_in_list b (node_delete a (timer_queue x)) = if decide (b = a) then false else linked_timer x b.
Proof.
  case_decide as Hb; [subst; apply node_delete_notin|]. destruct (linked_timer x b) eqn:Hl; unfold linked_timer in Hl.
  - apply node_in_list_true in Hl as (k & p & Hk & Hp). apply node_in_list_true.
    exists k, (filter (fun y => y <> a) p). rewrite node_delete_lookup, Hk. split; [done|]. by apply elem_of_filter_ne.
  - apply node_in_list_false. intros k p. rewrite node_delete_lookup. intros (p0 & Hk & ->)%fmap_Some.
    intros [_ Hp]%elem_of_filter_ne. by eapply (proj1 (node_in_list_false _ _) Hl).
Qed.

Lemma live_insert x a b o q l h : t_magic o = TIMER_MAGIC -> t_running o = false ->
  live_timer (mk_timer_state (<[a := o]> (timer_objs x)) q l h) b = if decide (b = a) then true else live_timer x b.
Proof.
  intros Hm Hr. unfold live_timer. cbn. case_decide as Hb.
  - subst. by rewrite lookup_insert_eq, Hm, Hr.
  - by rewrite lookup_insert_ne.
Qed.

Section laws.
Context `{!ConfigLaws} `{!TimerPlaceOk}.

Lemma timer_set_ok x cpu a delay period cb arg :
  kernel_timers_ok x -> 0 <= cpu < SMP_MAX_CPUS -> live_timer x a = true -> linked_timer x a = false -> a <> 0 ->
  in_window (now_ns + delay) -> in_period period -> (forall c, a = preempt_timer c -> c = cpu) ->
  exists x', timer_set SMP_MAX_CPUS dynamic_timer cpu now_ns a delay period cb arg x = Some (tt, x') /\
    kernel_timers_ok x' /\
    (forall b, linked_timer x' b = if decide (b = a) then true else linked_timer x b) /\
    (forall b, live_timer x' b = if decide (b = a) then true else live_timer x b).
Proof.
  intros Hok Hcpu Hlive Hn Ha Hw Hp Hc. destruct (live_timer_true _ _ Hlive) as (o & Ho & Hm & Hr).
  destruct (kt_queues _ Hok cpu Hcpu) as [q Hq].
  destruct (timer_set_run SMP_MAX_CPUS dynamic_timer cpu now_ns a delay period cb arg x o q)
    as (q1 & q2 & -> & Hrun & Hwf & _); [apply Hok|apply Hok|done|done|done|done|congruence|lia|done|done|done|].
  eexists. split; [exact Hrun|].
  assert (forall b, linked_timer (mk_timer_state
     (<[a := mk_timer (t_magic o) cpu (t_running o) (now_ns + delay) period cb arg]> (timer_objs x))
     (<[cpu := q1 ++ a :: q2]> (timer_queue x)) false
     (if dynamic_timer && bool_decide (q1 = []) then <[cpu := now_ns + delay]> (hw_timer x) else hw_timer x)) b
     = if decide (b = a) then true else linked_timer x b) as Hl by (intros b; by apply linked_insert).
  split_and!; [|exact Hl|intros b; by apply live_insert].
  constructor; [done|done| |].
  - intros c Hvc. cbn. rewrite lookup_insert_is_Some. destruct (decide (cpu = c)); [by left|right].
    split; [done|by apply (kt_queues _ Hok)].
  - intros c Hvc. destruct (kt_preempt _ Hok c Hvc) as [Hlc Hkc]. rewrite Hl, live_insert by done.
    cbn [timer_objs]. case_decide as Hca.
    + split; [done|]. intros _. rewrite Hca, lookup_insert_eq. eexists. split; [done|]. cbn. symmetry. by apply Hc.
    + split; [done|]. by rewrite lookup_insert_ne by done.
Qed.

Lemma timer_cancel_ok x cpu a wait :
  kernel_timers_ok x -> 0 <= cpu < SMP_MAX_CPUS -> live_timer x a = true ->
  (wait = false -> exists o, timer_objs x !! a = Some o /\ t_cpu o = cpu) ->
  exists x', timer_cancel_etc SMP_MAX_CPUS dynamic_timer (ret tt) 0 cpu now_ns (negb wait) a wait x = Some (tt, x') /\
    kernel_timers_ok x' /\
    (forall b, linked_timer x' b = if decide (b = a) then false else linked_timer x b) /\
    (forall b, live_timer x' b = live_timer x b).
Proof.
  intros Hok Hcpu Hlive Hc. destruct (live_timer_true _ _ Hlive) as (o & Ho & Hm & Hr).
  destruct (kt_queues _ Hok cpu Hcpu) as [q Hq].
  eexists. split.
  { apply (timer_cancel_run SMP_MAX_CPUS dynamic_timer (ret tt) 0 cpu now_ns (negb wait) wait a x o q);
      [apply Hok|apply Hok|done..| |lia|done|by apply in_period_window, now_in_period].
    destruct wait; [done|]. destruct (Hc eq_refl) as (o' & ? & ?). congruence. }
  set (o' := mk_timer _ _ _ _ _ _ _). split_and!; [constructor| |].
  - eapply (timers_wf_ext (with_objs (<[a := o']>) (with_queue (node_delete a) x))); [done..|].
    eapply wf_update_obj; [by apply wf_delete, Hok|exact Ho|done|done|done|left; cbn; unfold in_period; lia].
  - done.
  - intros c Hvc. cbn. rewrite node_delete_lookup. apply fmap_is_Some. by apply (kt_queues _ Hok).
  - intros c Hvc. destruct (kt_preempt _ Hok c Hvc) as [Hlc Hkc]. rewrite live_insert by done.
    unfold linked_timer. cbn [timer_queue timer_objs]. rewrite linked_delete. case_decide as Hca; [done|].
    split; [done|]. by rewrite lookup_insert_ne by done.
  - intros b. unfold linked_timer. cbn [timer_queue]. by rewrite linked_delete.
  - intros b. rewrite live_insert by done. case_decide; [by subst|done].
Qed.

Lemma timer_initialize_ok x a :
  kernel_timers_ok x -> linked_timer x a = false -> (forall c, a <> preempt_timer c) ->
  exists x', timer_initialize a x = Some (tt, x') /\ kernel_timers_ok x' /\
    (forall b, linked_timer x' b = linked_timer x b) /\
    (forall b, live_timer x' b = if decide (b = a) then true else live_timer x b).
Proof.
  intros Hok Hn Hc. eexists. split; [reflexivity|].
  assert (forall b, live_timer (with_objs <[a := TIMER_INITIAL_VALUE]> x) b = if decide (b = a) then true else live_timer x b)
    as Hl by (intros b; by apply live_insert).
  split_and!; [constructor| |exact Hl].
  - by apply wf_set_obj; [apply Hok|].
  - apply Hok.
  - apply Hok.
  - intros c Hvc. destruct (kt_preempt _ Hok c Hvc) as [Hlc Hkc]. rewrite Hl, decide_False by (intros E; by eapply Hc).
    split; [done|]. cbn. by rewrite lookup_insert_ne by (intros E; by eapply Hc).
  - done.
Qed.

(** The laws the scheduler relies on hold of kernel/timer.c. *)
#[export] Instance kernel_timer_laws : TimerLaws timer_state.
Proof.
  refine {| timer_ok := kernel_timers_ok;
            preempt_pending x cpu := linked_timer x (preempt_timer cpu);
            timeout_pending x t := linked_timer x (stack_timer t);
            timeout_live x t := live_timer x (stack_timer t) |}.
  all: pose proof now_in_period as Hnow; unfold in_period in Hnow.
  - intros x cpu Hok Hcpu Hp. destruct (kt_preempt _ Hok cpu Hcpu) as [Hlive Hk].
    destruct (timer_cancel_ok x cpu (preempt_timer cpu) false) as (x' & Hr & Hok' & Hl & Hv); [done..|by intros _; apply Hk|].
    exists x'. split_and!; [exact Hr|done| |].
    + intros c _. rewrite Hl. apply decide_inj, preempt_timer_inj.
    + intros t. rewrite Hl, Hv. by rewrite decide_False by (intros E; by eapply timers_apart).
  - intros x cpu Hok Hcpu Hp. destruct (kt_preempt _ Hok cpu Hcpu) as [Hlive Hk].
    destruct (timer_set_ok x cpu (preempt_timer cpu) (MS2NS 10) (MS2NS 10) thread_timer_callback_id 0)
      as (x' & Hr & Hok' & Hl & Hv);
      [done..|apply preempt_timer_nonnull|unfold in_window, MS2NS; lia|unfold in_period, MS2NS; lia|
       by intros c ?%preempt_timer_inj|].
    exists x'. split_and!; [exact Hr|done| |].
    + intros c _. rewrite Hl. apply decide_inj, preempt_timer_inj.
    + intros t. rewrite Hl, Hv. by rewrite !decide_False by (intros E; by eapply timers_apart).
  - intros x cpu t delay Hok Hcpu Hp Hd.
    destruct (timer_initialize_ok x (stack_timer t)) as (x1 & Hr1 & Hok1 & Hl1 & Hv1);
      [done|done|intros c E; by eapply timers_apart|].
    destruct (timer_set_ok x1 cpu (stack_timer t) (if delay =? 0 then 1 else delay) 0 thread_sleep_handler_id t)
      as (x' & Hr & Hok' & Hl & Hv);
      [done|done|by rewrite Hv1, decide_True|by rewrite Hl1|apply stack_timer_nonnull|
       unfold in_window; case_match; lia|unfold in_period; lia|intros c E; exfalso; by eapply timers_apart|].
    exists x'. split_and!; [|done| |].
    + unfold set_timeout, kernel_timers. by rewrite (bind_eq _ _ _ _ _ Hr1).
    + intros c _. rewrite Hl, Hl1. by rewrite decide_False by apply timers_apart.
    + intros u. rewrite Hl, Hl1, Hv, Hv1, !(decide_inj _ _ stack_timer) by apply stack_timer_inj. by case_decide.
  - intros x cpu t Hok Hcpu Hlive.
    destruct (timer_cancel_ok x cpu (stack_timer t) true) as (x' & Hr & Hok' & Hl & Hv); [done..|].
    exists x'. split_and!; [exact Hr|done| |].
    + intros c _. rewrite Hl. by rewrite decide_False by apply timers_apart.
    + intros u. rewrite Hl, Hv. split; [|done]. apply decide_inj, stack_timer_inj.
Defined.
End laws.
End place.
