(* ===== verification/SchedCheck.v ===== *)
(** * Deciding the scheduler invariant

    [sched_wf] quantifies over finite maps only, so it can be evaluated on a
    concrete state; the checker is sound, and an example state passes it. *)
From stdpp Require Import base gmap list.
From Stdlib Require Import ZArith Lia.
From S2P Require Import Prelude Timer Sched SchedInv SchedOps SchedTimer.

Local Open Scope Z_scope.

Section check.
Context {T : Type} `{!TimerOps T} `{!Config} `{!TimerLaws T} `{!ConfigLaws}.
Implicit Types (s : sched T) (t cpu : Z) (th : thread_t).

Definition all_of {K A} `{Countable K} (f : K -> A -> bool) (m : gmap K A) : bool :=
  forallb (fun p => f p.1 p.2) (map_to_list m).

Lemma all_of_lookup {K A} `{Countable K} (f : K -> A -> bool) (m : gmap K A) k a :
  all_of f m = true -> m !! k = Some a -> f k a = true.
Proof.
  intros Hf Hk. unfold all_of in Hf. rewrite forallb_forall in Hf. apply (Hf (k, a)).
  by apply list_elem_of_In, elem_of_map_to_list.
Qed.

Definition has_thread s t (f : thread_t -> bool) : bool :=
  match threads s !! t with Some th => f th | None => false end.

Lemma has_thread_true s t f : has_thread s t f = true -> exists th, threads s !! t = Some th /\ f th = true.
Proof. unfold has_thread. destruct (threads s !! t); [eauto|done]. Qed.

Definition elem_b (t : Z) (l : list Z) : bool := bool_decide (t ∈ l).

(** The queue an entry is on agrees with the thread. *)
Definition check_queue s (h : queue_head) (q : list Z) : bool :=
  bool_decide (NoDup q) &&
  match h with
  | RunQueue p =>
      eqb (Z.testbit (run_queue_bitmap s) p) (negb (bool_decide (q = []))) &&
      forallb (fun t => has_thread s t (fun th =>
        state_eqb (state th) THREAD_READY && (priority th =? p) && negb (thread_is_idle th))) q
  | WaitList w =>
      match wait_queues s !! w with
      | Some v => (wq_count v =? Z.of_nat (length q)) && ((wq_magic v =? WAIT_QUEUE_MAGIC) || bool_decide (q = []))
      | None => false
      end &&
      forallb (fun t => has_thread s t (fun th =>
        state_eqb (state th) THREAD_BLOCKED && bool_decide (blocking_wait_queue th = Some w) &&
        negb (thread_is_idle th))) q
  end.

Definition on_queue s (h : queue_head) t : bool :=
  match queues s !! h with Some q => elem_b t q | None => false end.

Definition check_thread s t th : bool :=
  (negb (state_eqb (state th) THREAD_BLOCKED) ||
     match blocking_wait_queue th with Some w => on_queue s (WaitList w) t | None => false end) &&
  (negb (state_eqb (state th) THREAD_READY) || thread_is_idle th || on_queue s (RunQueue (priority th)) t) &&
  ((magic th =? THREAD_MAGIC) && (0 <=? priority th) && (priority th <? NUM_PRIORITIES) &&
     (-1 <=? pinned_cpu th) && (pinned_cpu th <? SMP_MAX_CPUS)) &&
  bool_decide (thread_get_expected_cookie t s = Some (cookie th)) &&
  ((curr_cpu th =? -1) || bool_decide (current s !! curr_cpu th = Some t)) &&
  (negb (state_eqb (state th) THREAD_RUNNING) || negb (curr_cpu th =? -1)).

Definition check_current s c t : bool :=
  (0 <=? c) && (c <? SMP_MAX_CPUS) &&
  has_thread s t (fun th => (curr_cpu th =? c) &&
    ((c =? thread_lock_owner s) || state_eqb (state th) THREAD_RUNNING)) &&
  forallb (fun c' => negb (t =? idle_thread c') || (c =? c')) cpus.

Definition check_cpu s c : bool :=
  has_thread s (idle_thread c) thread_is_idle && bool_decide (is_Some (cpu_priority s !! c)).

Definition sched_wf_check s : bool :=
  all_of (check_queue s) (queues s) && all_of (check_thread s) (threads s) && all_of (check_current s) (current s) &&
  forallb (check_cpu s) cpus &&
  forallb (fun p => bool_decide (is_Some (queues s !! RunQueue (Z.of_nat p)))) (seq 0 32) &&
  (0 <=? run_queue_bitmap s) && (run_queue_bitmap s <? 2 ^ NUM_PRIORITIES).

Lemma in_cpus c : valid_cpu c -> In c cpus.
Proof.
  unfold valid_cpu, cpus. intros Hc. apply list_elem_of_In, list_elem_of_fmap. exists (Z.to_nat c).
  split; [lia|]. apply elem_of_seq. lia.
Qed.

Lemma check_queue_elem s h q t :
  check_queue s h q = true -> t ∈ q ->
  match h with
  | RunQueue p => exists th, threads s !! t = Some th /\ state th = THREAD_READY /\ priority th = p /\ thread_is_idle th = false
  | WaitList w => exists th, threads s !! t = Some th /\ state th = THREAD_BLOCKED /\ blocking_wait_queue th = Some w /\
      thread_is_idle th = false
  end.
Proof.
  intros Hq Ht. apply list_elem_of_In in Ht. unfold check_queue in Hq. destruct h; bprop.
  all: match goal with H : forallb _ _ = true |- _ => rewrite forallb_forall in H; specialize (H t Ht) end.
  all: match goal with H : has_thread _ _ _ = true |- _ => apply has_thread_true in H as (th & ? & ?) end; bprop.
  - exists th. split_and!; [done|by apply state_eqb_true|done..].
  - exists th. split_and!; [done|by apply state_eqb_true|by eapply bool_decide_eq_true_1|done].
Qed.

Lemma on_queue_true s h t : on_queue s h t = true -> exists q, queues s !! h = Some q /\ t ∈ q.
Proof. unfold on_queue, elem_b. destruct (queues s !! h); [|done]. intros ?%bool_decide_eq_true. eauto. Qed.

Lemma sched_wf_check_sound s : sched_wf_check s = true -> sched_wf none s.
Proof.
  unfold sched_wf_check. intros Hc. bprop.
  match goal with H1 : all_of (check_queue s) _ = true, H2 : all_of (check_thread s) _ = true,
    H3 : all_of (check_current s) _ = true |- _ => rename H1 into Hq; rename H2 into Ht; rename H3 into Hcur end.
  match goal with H1 : forallb (check_cpu s) _ = true, H2 : forallb _ (seq 0 32) = true |- _ =>
    rewrite forallb_forall in H1, H2; rename H1 into Hcpu; rename H2 into Hp end.
  assert (forall t th, threads s !! t = Some th -> check_thread s t th = true) as Hthr
    by (intros t th; by apply all_of_lookup).
  assert (forall h q, queues s !! h = Some q -> check_queue s h q = true) as Hqu
    by (intros h q; by apply all_of_lookup).
  assert (forall c t, current s !! c = Some t -> check_current s c t = true) as Hcu
    by (intros c t; by apply all_of_lookup).
  split; constructor.
  - intros p q t Hl Hin. destruct (check_queue_elem s _ _ _ (Hqu _ _ Hl) Hin) as (th & ? & ? & ? & ?).
    exists th. split_and!; [done..|intros []].
  - intros w q t Hl Hin. destruct (check_queue_elem s _ _ _ (Hqu _ _ Hl) Hin) as (th & ? & ? & ? & ?).
    exists th. split_and!; [done..|intros []].
  - intros h q Hl. specialize (Hqu _ _ Hl). unfold check_queue in Hqu. bprop. by eapply bool_decide_eq_true_1.
  - intros p Hr. eapply bool_decide_eq_true_1. rewrite <- (Z2Nat.id p) by lia. apply Hp.
    apply list_elem_of_In, elem_of_seq. unfold NUM_PRIORITIES in Hr. lia.
  - by split.
  - intros p q Hl. specialize (Hqu _ _ Hl). unfold check_queue in Hqu. bprop. by apply eqb_true_iff.
  - intros w l Hl. specialize (Hqu _ _ Hl). unfold check_queue in Hqu. bprop.
    destruct (wait_queues s !! w) as [v|]; [|done]. bprop. exists v. split_and!; [done..|].
    match goal with H : _ || _ = true |- _ => apply orb_true_iff in H as [?|?] end; bprop; [by left|right].
    by eapply bool_decide_eq_true_1.
  - intros t th Hl Hst _. specialize (Hthr _ _ Hl). unfold check_thread in Hthr.
    rewrite (proj2 (state_eqb_true _ _) Hst) in Hthr. cbn [negb orb] in Hthr. bprop.
    destruct (blocking_wait_queue th) as [w|]; [|done]. exists w.
    match goal with H : on_queue _ _ _ = true |- _ => apply on_queue_true in H as (l & ? & ?) end. eauto.
  - intros t th Hl Hst Hi _. specialize (Hthr _ _ Hl). unfold check_thread in Hthr.
    rewrite (proj2 (state_eqb_true _ _) Hst), Hi in Hthr. cbn [negb orb] in Hthr. bprop.
    by apply on_queue_true.
  - intros t th Hl. specialize (Hthr _ _ Hl). unfold check_thread in Hthr. bprop. done.
  - intros t th Hl. specialize (Hthr _ _ Hl). unfold check_thread in Hthr. bprop. by eapply bool_decide_eq_true_1.
  - intros c Hc. specialize (Hcpu c (in_cpus c Hc)). unfold check_cpu in Hcpu. bprop. by apply has_thread_true.
  - intros c Hc. specialize (Hcpu c (in_cpus c Hc)). unfold check_cpu in Hcpu. bprop. by eapply bool_decide_eq_true_1.
  - intros c c' Hc Hl. specialize (Hcu _ _ Hl). unfold check_current in Hcu. bprop.
    match goal with H : forallb _ cpus = true |- _ => rewrite forallb_forall in H; specialize (H c' (in_cpus c' Hc)) end.
    rewrite Z.eqb_refl in *. cbn in *. by apply Z.eqb_eq.
  - intros c t Hl. specialize (Hcu _ _ Hl). unfold check_current in Hcu. bprop. split; [done|].
    match goal with H : has_thread _ _ _ = true |- _ => apply has_thread_true in H as (th & ? & ?) end. bprop.
    exists th. split_and!; [done..|]. intros Hne. split; [|intros []].
    match goal with H : _ || _ = true |- _ => apply orb_true_iff in H as [?|?] end; bprop; [done|].
    by apply state_eqb_true.
  - intros t th Hl. specialize (Hthr _ _ Hl). unfold check_thread in Hthr. bprop.
    match goal with H : (curr_cpu th =? -1) || _ = true |- _ => apply orb_true_iff in H as [?|?] end; bprop; [by left|right].
    by eapply bool_decide_eq_true_1.
  - intros t th Hl Hst _. specialize (Hthr _ _ Hl). unfold check_thread in Hthr.
    rewrite (proj2 (state_eqb_true _ _) Hst) in Hthr. cbn [negb orb] in Hthr. by bprop.
Qed.
End check.

(** ** An example

    Two cpus: thread 1 runs on cpu 0 and cpu 1 idles; thread 2 is ready on any
    cpu, thread 3 only on cpu 1; threads 4 and 5 wait on the queue at 500, 6 is
    suspended and 7 sleeps. *)
Module Example.
#[export] Instance config : Config := { SMP_MAX_CPUS := 2; idle_thread c := 1000 + c }.
#[export] Instance config_laws : ConfigLaws.
Proof. constructor; cbn; lia. Qed.

#[export] Instance place : TimerPlace := {
  now_ns := 1000; dynamic_timer := true; preempt_timer c := 4 * c + 1; stack_timer t := 4 * t + 2;
  thread_timer_callback_id := 1; thread_sleep_handler_id := 2 }.
#[export] Instance place_ok : TimerPlaceOk.
Proof. constructor; cbn; unfold in_period; intros; lia. Qed.

Definition example_thread (t prio : Z) (st : thread_state) (fl cpu pin : Z) (bw : option wait_queue_ptr) : Z * thread_t :=
  (t, mk_thread THREAD_MAGIC (Z.lxor 7777 t) prio st 5 fl cpu pin 0 bw 0 0).

Definition example_threads : gmap Z thread_t := list_to_map
  [example_thread 1000 0 THREAD_READY THREAD_FLAG_IDLE (-1) 0 None;
   example_thread 1001 0 THREAD_RUNNING THREAD_FLAG_IDLE 1 1 None;
   example_thread 1 16 THREAD_RUNNING 0 0 (-1) None;
   example_thread 2 16 THREAD_READY 0 (-1) (-1) None;
   example_thread 3 20 THREAD_READY 0 (-1) 1 None;
   example_thread 4 10 THREAD_BLOCKED 0 (-1) (-1) (Some (WaitQueueAt 500));
   example_thread 5 24 THREAD_BLOCKED 0 (-1) (-1) (Some (WaitQueueAt 500));
   example_thread 6 12 THREAD_SUSPENDED 0 (-1) (-1) None;
   example_thread 7 12 THREAD_SLEEPING 0 (-1) (-1) None].

Definition example_queues (p16 p20 : list Z) (wl : list Z) : gmap queue_head (list Z) :=
  <[WaitList (WaitQueueAt 500) := wl]> (<[RunQueue 16 := p16]> (<[RunQueue 20 := p20]>
    (list_to_map ((fun p => (RunQueue (Z.of_nat p), [])) <$> seq 0 32)))).

Definition preempt_object (cpu : Z) (armed : bool) : timer_t :=
  mk_timer TIMER_MAGIC (if armed then cpu else UINT32_MAX) false (if armed then 2000 else 0) (if armed then MS2NS 10 else 0) 1 0.

Definition example_kernel_timers : timer_state :=
  mk_timer_state (list_to_map [(1, preempt_object 0 true); (5, preempt_object 1 false)])
    (list_to_map [(0, [1]); (1, [])]) false (list_to_map [(0, 2000)]).

Definition example_sched : sched timer_state :=
  mk_sched example_threads [1; 2; 3; 4; 5; 6; 7] [] (example_queues [2] [3] [4; 5])
    (2 ^ 16 + 2 ^ 20) (list_to_map [(0, 16); (1, 0)])
    (list_to_map [(WaitQueueAt 500, mk_wait_queue WAIT_QUEUE_MAGIC 2)])
    (list_to_map [(0, 1); (1, 1001)]) SMP_MAX_CPUS (mk_mp 3 2 0) (list_to_map [(0, 0); (1, 0)]) [] example_kernel_timers.

Lemma example_sched_wf : sched_wf none example_sched.
Proof. apply sched_wf_check_sound. vm_compute. reflexivity. Qed.

Lemma example_kernel_timers_ok : kernel_timers_ok example_kernel_timers.
Proof.
  constructor.
  - constructor; intros cpu q; cbn [timer_queue example_kernel_timers].
    + intros t Hq%elem_of_list_to_map_2 Ht. set_unfold in Hq. destruct_or! Hq; simplify_eq; set_unfold in Ht; [|done].
      destruct Ht as [->|[]]. split; [|done]. eexists. split; [reflexivity|]. by vm_compute.
    + intros Hq%elem_of_list_to_map_2. set_unfold in Hq. destruct_or! Hq; simplify_eq; [|by apply NoDup_nil_2].
      apply NoDup_singleton.
    + intros Hq%elem_of_list_to_map_2. set_unfold in Hq. destruct_or! Hq; simplify_eq; repeat constructor.
  - done.
  - intros cpu Hc. cbn in Hc. assert (cpu = 0 \/ cpu = 1) as [->| ->] by lia; by eexists.
  - intros cpu Hc. cbn in Hc. assert (cpu = 0 \/ cpu = 1) as [->| ->] by lia; (split; [reflexivity|]).
    + intros _. by eexists.
    + intros H. vm_compute in H. discriminate.
Qed.

Lemma example_preempt c : preempt_wf example_sched c.
Proof.
  split; [apply example_kernel_timers_ok|]. intros t th Hc%elem_of_list_to_map_2. set_unfold in Hc.
  destruct_or! Hc; simplify_eq; intros [= <-]; reflexivity.
Qed.

Lemma example_inv : sched_inv unlocked example_sched.
Proof.
  constructor; [apply example_sched_wf|done| |apply example_preempt].
  intros c t Hc%elem_of_list_to_map_2. set_unfold in Hc. destruct_or! Hc; simplify_eq; eexists; split; reflexivity.
Qed.

(** The same with the lock held by a cpu, and with cpu 0's thread asleep. *)
Definition example_locked (cpu : Z) : sched timer_state := with_owner cpu example_sched.

Lemma example_locked_inv cpu : sched_inv cpu (example_locked cpu).
Proof.
  pose proof example_inv as [Hwf _ Hr Hp]. constructor; [by apply sched_wf_owner|done..].
Qed.

Definition example_asleep : sched timer_state :=
  with_threads (alter (set_state THREAD_SLEEPING) 1) (example_locked 0).

Lemma example_asleep_wf : sched_wf none example_asleep.
Proof. apply sched_wf_check_sound. vm_compute. reflexivity. Qed.

Lemma example_asleep_preempt : preempt_wf example_asleep 0.
Proof.
  split; [apply example_kernel_timers_ok|]. intros t th [= <-] [= <-]. reflexivity.
Qed.
End Example.
