(* ===== verification/SchedProps.v ===== *)
(** * What the scheduler guarantees: choice of the next thread, yielding, preemption *)
From stdpp Require Import base gmap list.
From Stdlib Require Import ZArith Lia.
From S2P Require Import Prelude Timer Sched SchedInv SchedOps SchedApi SchedTimer SchedCheck SchedWait.

Local Open Scope Z_scope.
Local Open Scope lk_scope.

Section props.
Context {T : Type} `{!TimerOps T} `{!Config} `{!TimerLaws T} `{!ConfigLaws}.
Implicit Types (s : sched T) (t cpu : Z) (w : wait_queue_ptr) (th : thread_t).

Lemma no_candidate_elem s cpu q x : no_candidate s cpu q -> x ∈ q -> ~ can_run s cpu x.
Proof. unfold no_candidate. rewrite Forall_forall. auto. Qed.

(** C4: on a well-formed state the search for the next thread ends within its 32
    rounds. It returns a thread of the run queues that may run on the cpu and
    that no other such thread precedes, by priority first and by position in the
    queue second; if there is none it returns the cpu's idle thread, or NULL when
    no cpu is named. Taking the thread off its queue leaves every other queue and
    entry in place and a bitmap that tells which queues are not empty. *)
Theorem get_top_thread_highest s cpu (unlink : bool) :
  sched_wf none s -> (unlink = true -> thread_lock_owner s = cpu) ->
  exists r s', get_top_thread cpu unlink s = Some (r, s') /\
    match r with
    | None => cpu < 0 /\ forall p q x, queues s !! RunQueue p = Some q -> x ∈ q -> ~ can_run s cpu x
    | Some t =>
        (0 <= cpu /\ t = idle_thread cpu /\
           (forall p q x, queues s !! RunQueue p = Some q -> x ∈ q -> ~ can_run s cpu x)) \/
        (exists th q1 q2, threads s !! t = Some th /\ state th = THREAD_READY /\ eligible cpu th = true /\
           queues s !! RunQueue (priority th) = Some (q1 ++ t :: q2) /\ (forall x, x ∈ q1 -> ~ can_run s cpu x) /\
           (forall p q x, priority th < p -> queues s !! RunQueue p = Some q -> x ∈ q -> ~ can_run s cpu x) /\
           (if unlink then
              queues s' = <[RunQueue (priority th) := q1 ++ q2]> (queues s) /\
              (forall p q, queues s' !! RunQueue p = Some q ->
                 Z.testbit (run_queue_bitmap s') p = negb (bool_decide (q = [])))
            else s' = s))
    end.
Proof.
  intros Hwf Ho. destruct (get_top_thread_run none s cpu unlink Hwf Ho) as (r & s' & Hr & Hspec).
  exists r, s'. split; [done|].
  inversion Hspec as [? Hno|? Hno|p q1 t q2 th Hq Ht Hp He Hq1 Hhi]; subst; clear Hspec.
  - split; [done|]. intros p q x Hq. by eapply no_candidate_elem, Hno.
  - left. split_and!; [done..|]. intros p q x Hq. by eapply no_candidate_elem, Hno.
  - right. destruct (wf_run _ _ Hwf _ _ t Hq) as (th' & ? & Hst & _); [set_solver|]. simplify_eq.
    exists th, q1, q2. split_and!; [done..| | |].
    + intros x. by apply no_candidate_elem.
    + intros p q x Hlt Hq'. by eapply no_candidate_elem, Hhi.
    + destruct unlink; [|done]. rewrite unlinked_run_queues. split.
      * pose proof (wf_nodup _ _ Hwf _ _ Hq) as Hnd. apply map_eq. intros h. rewrite node_delete_lookup.
        destruct (decide (h = RunQueue (priority th))) as [->|Hne].
        { rewrite Hq, lookup_insert_eq. cbn. f_equal. rewrite filter_app, filter_cons_False by (intros E; by apply E).
          apply NoDup_app in Hnd as (_ & Hd & [Hn2 _]%NoDup_cons).
          rewrite !filter_ne_id; [done|done|]. intros Hin. apply (Hd t Hin). by left. }
        rewrite lookup_insert_ne by done. destruct (queues s !! h) as [q|] eqn:Hh; [|done]. cbn. f_equal.
        apply filter_ne_id. intros Hin. apply Hne.
        eapply (wf_run_unique none s t h q); [apply Hwf|exact Hq|set_solver|exact Hh|done].
      * intros p q Hq'. rewrite <- (unlinked_run_queues t (priority th) (q1 ++ t :: q2)) in Hq'.
        eapply (wf_bitmap (plus t none)); [|exact Hq'].
        eapply wf_unlink_run; [done..|set_solver|]. intros c.
        eapply (wf_current_owner none); [apply Hwf|done|left; congruence].
Qed.

(** C5: rescheduling never fails an assertion: it ends with the best thread (in
    the sense of C8) running on the cpu, on a well-formed state. The old thread
    has left the cpu unless it was picked itself; every other thread, queue and
    pending time-out is as before; the new thread has quantum left; and the
    preemption timer, the memory context and the recorded priority of the cpu are
    those of the new thread. *)
Theorem thread_resched_runs_best s cpu old o :
  sched_wf none s -> thread_lock_owner s = cpu -> current s !! cpu = Some old -> threads s !! old = Some o ->
  state o <> THREAD_RUNNING -> preempt_wf s cpu ->
  exists out new s', thread_resched cpu s = Some (out, s') /\ rescheduled s cpu old new out s'.
Proof. intros. apply (thread_resched_run s cpu old o). by constructor. Qed.

(** C6: yielding is round robin. The scheduler is well formed afterwards. The
    caller keeps the cpu only if no other thread of its priority or above may
    run there; otherwise it goes behind all threads of its priority and, if the
    caller may still run on this cpu, a thread of the run queues with at least
    its priority runs. *)
Theorem thread_yield_round_robin s cpu t th :
  sched_inv unlocked s -> current s !! cpu = Some t -> threads s !! t = Some th -> thread_is_idle th = false ->
  exists o s', thread_yield cpu s = Some (o, s') /\ sched_inv (owner_after cpu o unlocked) s' /\
    match o with
    | Return _ => current s' !! cpu = Some t /\ eligible cpu th = true /\
        forall p q x, priority th <= p -> queues s !! RunQueue p = Some q -> x ∈ q -> ~ can_run s cpu x
    | Switched => exists new n q, current s' !! cpu = Some new /\ new <> t /\ threads s' !! new = Some n /\
        queues s' !! RunQueue (priority th) = Some (q ++ [t]) /\
        (eligible cpu th = true -> priority th <= priority n /\ can_run s cpu new /\
           exists q', queues s !! RunQueue (priority n) = Some q' /\ new ∈ q')
    end.
Proof.
  intros Hinv Hc Ht Hi. destruct (wf_current _ _ (inv_wf _ _ Hinv) _ _ Hc) as [Hv _].
  destruct (thread_yield_run cpu s t th Hinv Hc Ht) as (s2 & o & new & s3 & s' & Hrq & Hwf2 & Hrs & _ & Hr & Hs' & Hinv').
  exists o, s'. split_and!; [done..|].
  pose proof (put_back_outcome false cpu s (with_threads <[t := set_quantum 0 (set_state THREAD_READY th)]> (with_owner cpu s))
    s2 s3 t th _ new o _ Hinv Hc Ht Hi eq_refl eq_refl eq_refl eq_refl eq_refl Hwf2 Hrq Hrs Hv) as Hout.
  destruct o as [[]|]; rewrite Hs'; exact Hout.
Qed.

(** A thread that is preempted with quantum left goes to the front of its
    queue and keeps the cpu unless a thread of strictly higher priority may run
    there; one without quantum left goes to the back, and then equal priority is
    enough. Either way the scheduler is well formed afterwards and no assertion
    fails, with the lock taken by the operation or held by the caller. *)
Theorem thread_preempt_keeps_cpu s cpu t th (lock_held : bool) :
  sched_inv (if lock_held then cpu else unlocked) s -> current s !! cpu = Some t -> threads s !! t = Some th ->
  thread_is_idle th = false ->
  let front := remaining_quantum th >? 0 in
  exists o s', thread_preempt_inner cpu lock_held s = Some (o, s') /\
    sched_inv (owner_after cpu o (if lock_held then cpu else unlocked)) s' /\
    match o with
    | Return _ => current s' !! cpu = Some t /\ eligible cpu th = true /\
        forall p q x, (if front then priority th < p else priority th <= p) -> queues s !! RunQueue p = Some q ->
          x ∈ q -> ~ can_run s cpu x
    | Switched => exists new n q, current s' !! cpu = Some new /\ new <> t /\ threads s' !! new = Some n /\
        queues s' !! RunQueue (priority th) = Some (if front then t :: q else q ++ [t]) /\
        (eligible cpu th = true -> (if front then priority th < priority n else priority th <= priority n) /\
           can_run s cpu new /\ exists q', queues s !! RunQueue (priority n) = Some q' /\ new ∈ q')
    end.
Proof.
  intros Hinv Hc Ht Hi front. destruct (wf_current _ _ (inv_wf _ _ Hinv) _ _ Hc) as [Hv _].
  destruct (thread_preempt_inner_run cpu s t th lock_held Hinv Hc Ht)
    as (s2 & o & new & s3 & s' & Hrq & Hwf2 & Hrs & _ & Hr & Hs' & Hinv').
  exists o, s'. split_and!; [done..|].
  pose proof (put_back_outcome front cpu s (with_threads <[t := set_state THREAD_READY th]> (with_owner cpu s))
    s2 s3 t th _ new o _ Hinv Hc Ht Hi eq_refl eq_refl eq_refl eq_refl eq_refl Hwf2 Hrq Hrs Hv) as Hout.
  destruct o as [[]|], lock_held; rewrite Hs'; exact Hout.
Qed.

(** A thread that blocks on a wait queue goes behind its waiters and never
    keeps the cpu: the best other thread (or the idle thread) runs, whatever the
    time-out; every other thread but the new one is as before, and a time-out is
    pending exactly if one was asked for. *)
Theorem wait_queue_block_last cpu s w timeout t th q l :
  sched_inv cpu s -> current s !! cpu = Some t -> threads s !! t = Some th -> thread_is_idle th = false ->
  wait_queues s !! w = Some q -> wq_magic q = WAIT_QUEUE_MAGIC -> queues s !! WaitList w = Some l ->
  0 < timeout <= INFINITE_TIME -> timeout_pending (timers s) t = false ->
  exists new s', wait_queue_block cpu w timeout s = Some (Switched, s') /\ sched_inv cpu s' /\
    current s' = <[cpu := new]> (current s) /\ new <> t /\
    queues s' !! WaitList w = Some (l ++ [t]) /\
    (exists q', wait_queues s' !! w = Some q' /\ wq_count q' = Z.of_nat (length (l ++ [t]))) /\
    threads s' !! t = Some (set_curr_cpu (-1) (blocked w th)) /\
    (forall u, u <> t -> u <> new -> threads s' !! u = threads s !! u) /\
    timeout_pending (timers s') t = negb (timeout =? INFINITE_TIME).
Proof.
  intros Hinv Hc Ht Hi Hq Hm Hl Hto Hp.
  destruct (wait_queue_block_run cpu s w timeout t th q l Hinv Hc Ht Hi Hq Hm Hl Hto Hp)
    as (s2 & new & s' & Hr & Ht2 & Hq2 & Hw2 & Hc2 & Htm & Hwf2 & Hrs & Hinv' & Hne).
  assert (queues s' !! WaitList w = Some (l ++ [t])) as Hl'.
  { rewrite (rs_queues _ _ _ _ _ _ Hrs), node_delete_lookup, Hq2, lookup_insert_eq. cbn. f_equal.
    apply filter_ne_id. intros Hin. destruct (rs_new _ _ _ _ _ _ Hrs) as (n & _ & Hn & _).
    destruct (wf_current _ _ (inv_wf _ _ Hinv) _ _ Hc) as [Hv _].
    destruct (wf_wait _ _ Hwf2 w (l ++ [t]) new) as (y & Hy & Hyst & _ & Hyi & _); [by rewrite Hq2, lookup_insert_eq|done|].
    destruct (best_ready s2 cpu new y Hwf2 (rs_best _ _ _ _ _ _ Hrs) Hy Hv); congruence. }
  exists new, s'. split_and!; [done|done|by rewrite (rs_current _ _ _ _ _ _ Hrs), Hc2|done|done| | | |].
  - destruct (wf_count _ _ (inv_wf _ _ Hinv') _ _ Hl') as (q' & ? & ? & _). by exists q'.
  - by rewrite (rs_old _ _ _ _ _ _ Hrs Hne), Ht2, lookup_insert_eq.
  - intros u ??. rewrite (rs_other _ _ _ _ _ _ Hrs) by done. by rewrite Ht2, lookup_insert_ne.
  - destruct (rs_timeouts _ _ _ _ _ _ Hrs t) as [-> _]. destruct (Htm t) as [-> _]. by rewrite decide_True.
Qed.

(** Waking all waiters ends after one round per waiter, empties the wait
    queue, makes every waiter ready with the given error at the head of its run
    queue (so that equals end up in reverse order of waiting) and touches no other
    thread or wait queue; its result is the number of threads woken. *)
Theorem wait_queue_wake_all_wakes cpu s w q err c cth l :
  sched_inv cpu s -> current s !! cpu = Some c -> threads s !! c = Some cth ->
  wait_queues s !! w = Some q -> wq_magic q = WAIT_QUEUE_MAGIC -> queues s !! WaitList w = Some l ->
  exists s', wait_queue_wake_all cpu w false err s = Some ((Z.of_nat (length l), Return tt), s') /\
    sched_inv cpu s' /\ all_woken w err l s s' /\
    (exists q', wait_queues s' !! w = Some q' /\ wq_count q' = 0).
Proof.
  intros Hinv Hc Hct Hq Hm Hl. destruct (wake_all_run cpu s w q err c cth l Hinv Hc Hct Hq Hm Hl) as (s' & Hr & Hinv' & Hw).
  exists s'. split_and!; [done..|]. destruct (wf_count _ _ (inv_wf _ _ Hinv') w []) as (q' & ? & ? & _); [apply Hw|].
  by exists q'.
Qed.

(** The handler of a passed time-out takes exactly a thread that still waits
    off its wait queue and makes it ready with ERR_TIMED_OUT; a thread that was
    woken in the meantime is left alone. The other waiters keep their order. *)
Theorem timeout_wakes_waiter cpu s t th c :
  sched_inv unlocked s -> current s !! cpu = Some c -> threads s !! t = Some th ->
  exists s', wait_queue_timeout_handler cpu t s = Some (state_eqb (state th) THREAD_BLOCKED, s') /\
    sched_inv unlocked s' /\ (state th <> THREAD_BLOCKED -> s' = s) /\
    (state th = THREAD_BLOCKED -> threads s' = <[t := woken ERR_TIMED_OUT th]> (threads s) /\
       (forall w l, queues s !! WaitList w = Some l ->
          queues s' !! WaitList w = Some (filter (fun x => x <> t) l))).
Proof.
  intros Hinv Hc Ht. destruct (timeout_handler_run cpu s t th c Hinv Hc Ht)
    as (s' & Hr & Hinv' & _ & _ & H1 & H2). exists s'. split_and!; [done..|]. intros Hst.
  destruct (H2 Hst) as [? Hqs]. by split.
Qed.
End props.

(** ** The properties at the example *)
Import Example.

Lemma get_top_thread_highest_witness :
  sched_wf none (example_locked 1) /\
  exists r s', get_top_thread 1 true (example_locked 1) = Some (r, s') /\ r = Some 3 /\
    match r with
    | None => 1 < 0 /\ forall p q x, queues (example_locked 1) !! RunQueue p = Some q -> x ∈ q -> ~ can_run (example_locked 1) 1 x
    | Some t =>
        (0 <= 1 /\ t = idle_thread 1 /\
           (forall p q x, queues (example_locked 1) !! RunQueue p = Some q -> x ∈ q -> ~ can_run (example_locked 1) 1 x)) \/
        (exists th q1 q2, threads (example_locked 1) !! t = Some th /\ state th = THREAD_READY /\ eligible 1 th = true /\
           queues (example_locked 1) !! RunQueue (priority th) = Some (q1 ++ t :: q2) /\
           (forall x, x ∈ q1 -> ~ can_run (example_locked 1) 1 x) /\
           (forall p q x, priority th < p -> queues (example_locked 1) !! RunQueue p = Some q -> x ∈ q ->
              ~ can_run (example_locked 1) 1 x) /\
           (if true then
              queues s' = <[RunQueue (priority th) := q1 ++ q2]> (queues (example_locked 1)) /\
              (forall p q, queues s' !! RunQueue p = Some q ->
                 Z.testbit (run_queue_bitmap s') p = negb (bool_decide (q = [])))
            else s' = example_locked 1))
    end.
Proof.
  split; [apply example_locked_inv|].
  destruct (get_top_thread_highest (example_locked 1) 1 true) as (r & s' & Hr & Hspec);
    [apply example_locked_inv|reflexivity|].
  exists r, s'. split; [exact Hr|]. split; [|exact Hspec].
  assert (fst <$> get_top_thread 1 true (example_locked 1) = Some (Some 3)) as Ho by (vm_compute; reflexivity).
  rewrite Hr in Ho. by injection Ho.
Defined.

Lemma thread_resched_runs_best_witness :
  exists out new s', thread_resched 0 example_asleep = Some (out, s') /\ new = 2 /\
    rescheduled example_asleep 0 1 new out s'.
Proof.
  destruct (thread_resched_runs_best example_asleep 0 1 (set_state THREAD_SLEEPING (example_thread 1 16 THREAD_RUNNING 0 0 (-1) None).2))
    as (out & new & s' & Hr & Hrs);
    [apply example_asleep_wf|reflexivity|reflexivity|vm_compute; reflexivity|discriminate|apply example_asleep_preempt|].
  exists out, new, s'. split; [exact Hr|]. split; [|exact Hrs].
  assert ((fun r => current r.2 !! 0) <$> thread_resched 0 example_asleep = Some (Some 2)) as Ho by (vm_compute; reflexivity).
  rewrite Hr in Ho. cbn in Ho. rewrite (rs_current _ _ _ _ _ _ Hrs), lookup_insert_eq in Ho. congruence.
Defined.

Lemma thread_yield_round_robin_witness :
  exists o s', thread_yield 0 example_sched = Some (o, s') /\ sched_inv (owner_after 0 o unlocked) s' /\ o = Switched.
Proof.
  destruct (thread_yield_round_robin example_sched 0 1 (example_thread 1 16 THREAD_RUNNING 0 0 (-1) None).2)
    as (o & s' & Hr & Hinv & _); [apply example_inv|reflexivity|reflexivity|reflexivity|].
  exists o, s'. split; [exact Hr|]. split; [exact Hinv|].
  assert (fst <$> thread_yield 0 example_sched = Some Switched) as Ho by (vm_compute; reflexivity).
  rewrite Hr in Ho. by injection Ho.
Defined.

Lemma thread_preempt_keeps_cpu_witness :
  exists o s', thread_preempt_inner 0 false example_sched = Some (o, s') /\
    sched_inv (owner_after 0 o unlocked) s' /\ o = Return tt.
Proof.
  destruct (thread_preempt_keeps_cpu example_sched 0 1 (example_thread 1 16 THREAD_RUNNING 0 0 (-1) None).2 false)
    as (o & s' & Hr & Hinv & _); [apply example_inv|reflexivity|reflexivity|reflexivity|].
  exists o, s'. split; [exact Hr|]. split; [exact Hinv|].
  assert (fst <$> thread_preempt_inner 0 false example_sched = Some (Return tt)) as Ho by (vm_compute; reflexivity).
  rewrite Hr in Ho. by injection Ho.
Defined.

Definition thread1 : thread_t := (example_thread 1 16 THREAD_RUNNING 0 0 (-1) None).2.
Definition thread4 : thread_t := (example_thread 4 10 THREAD_BLOCKED 0 (-1) (-1) (Some (WaitQueueAt 500))).2.
Definition queue500 : wait_queue_t := mk_wait_queue WAIT_QUEUE_MAGIC 2.

Lemma wait_queue_block_last_witness :
  exists new s', wait_queue_block 0 (WaitQueueAt 500) 100 (example_locked 0) = Some (Switched, s') /\ sched_inv 0 s' /\
    current s' = <[0 := new]> (current (example_locked 0)) /\ new <> 1 /\
    queues s' !! WaitList (WaitQueueAt 500) = Some [4; 5; 1] /\
    (exists q', wait_queues s' !! WaitQueueAt 500 = Some q' /\ wq_count q' = Z.of_nat (length ([4; 5] ++ [1]))) /\
    threads s' !! 1 = Some (set_curr_cpu (-1) (blocked (WaitQueueAt 500) thread1)) /\
    (forall u, u <> 1 -> u <> new -> threads s' !! u = threads (example_locked 0) !! u) /\
    timeout_pending (timers s') 1 = negb (100 =? INFINITE_TIME).
Proof.
  apply (wait_queue_block_last 0 (example_locked 0) (WaitQueueAt 500) 100 1 thread1 queue500 [4; 5]).
  all: first [apply example_locked_inv|reflexivity|unfold INFINITE_TIME, UINT32_MAX; lia].
Defined.

Lemma wait_queue_wake_all_wakes_witness :
  exists s', wait_queue_wake_all 0 (WaitQueueAt 500) false ERR_OBJECT_DESTROYED (example_locked 0) = Some ((2, Return tt), s') /\
    sched_inv 0 s' /\ all_woken (WaitQueueAt 500) ERR_OBJECT_DESTROYED [4; 5] (example_locked 0) s' /\
    (exists q', wait_queues s' !! WaitQueueAt 500 = Some q' /\ wq_count q' = 0).
Proof.
  apply (wait_queue_wake_all_wakes 0 (example_locked 0) (WaitQueueAt 500) queue500 ERR_OBJECT_DESTROYED 1 thread1 [4; 5]).
  all: first [apply example_locked_inv|reflexivity].
Defined.

Lemma timeout_wakes_waiter_witness :
  exists s', wait_queue_timeout_handler 0 4 example_sched = Some (true, s') /\
    sched_inv unlocked s' /\ (state thread4 <> THREAD_BLOCKED -> s' = example_sched) /\
    (state thread4 = THREAD_BLOCKED -> threads s' = <[4 := woken ERR_TIMED_OUT thread4]> (threads example_sched) /\
       (forall w l, queues example_sched !! WaitList w = Some l ->
          queues s' !! WaitList w = Some (filter (fun x => x <> 4) l))).
Proof.
  apply (timeout_wakes_waiter 0 example_sched 4 thread4 1).
  all: first [apply example_inv|reflexivity].
Defined.
