(* ===== verification/Sync.v ===== *)
(** * Mutexes, semaphores and events (kernel/mutex.c, semaphore.c, event.c)

    The three objects keep a word or two of state beside a wait queue, and all of
    it is protected by the thread lock. An operation whose caller may be switched
    out is split there, as in Sched: the second half runs when the thread has the
    cpu, and with it the lock, again. Calls are made with interrupts enabled; the
    checks of LK_DEBUGLEVEL > 0 are in. *)
From stdpp Require Import base gmap list.
From Stdlib Require Import ZArith Lia.
From S2P Require Import Prelude Sched.

Local Open Scope Z_scope.
Local Open Scope lk_scope.

Definition MUTEX_MAGIC : Z := 0x6D757478.
Definition EVENT_MAGIC : Z := 0x65766E74.
Definition SEMAPHORE_MAGIC : Z := 0x73656D61.
Definition EVENT_FLAG_AUTOUNSIGNAL : Z := 1.

(** The objects without their wait queue, which is the one at their address. *)
Record mutex_t := mk_mutex { m_magic : Z; m_holder : Z; m_count : Z }.
Record semaphore_t := mk_semaphore { sem_magic : Z; sem_count : Z }.
Record event_t := mk_event { e_magic : Z; e_signaled : bool; e_flags : Z }.

Record kernel (T : Type) := mk_kernel {
  ks : sched T;
  mutexes : gmap Z mutex_t;
  semaphores : gmap Z semaphore_t;
  events : gmap Z event_t
}.
Arguments mk_kernel {T}. Arguments ks {T}. Arguments mutexes {T}. Arguments semaphores {T}. Arguments events {T}.

Section sync.
Context {T : Type} `{!TimerOps T} `{!Config}.
Implicit Types (k : kernel T) (cpu m e : Z).
Local Abbreviation MK := (M (kernel T)).

Definition with_ks (s : sched T) k : kernel T := mk_kernel s (mutexes k) (semaphores k) (events k).
Definition with_mutexes (f : gmap Z mutex_t -> gmap Z mutex_t) k : kernel T :=
  mk_kernel (ks k) (f (mutexes k)) (semaphores k) (events k).
Definition with_semaphores (f : gmap Z semaphore_t -> gmap Z semaphore_t) k : kernel T :=
  mk_kernel (ks k) (mutexes k) (f (semaphores k)) (events k).
Definition with_events (f : gmap Z event_t -> gmap Z event_t) k : kernel T :=
  mk_kernel (ks k) (mutexes k) (semaphores k) (f (events k)).

(** Run a scheduler operation. *)
Definition lift {A} (op : M (sched T) A) : MK A := fun k =>
  match op (ks k) with
  | Some (a, s) => Some (a, with_ks s k)
  | None => None
  end.

Definition get_mutex m : MK mutex_t := getsome (fun k => mutexes k !! m).
Definition set_mutex m (x : mutex_t) : MK unit := modify (with_mutexes <[m := x]>).
Definition get_sem (a : Z) : MK semaphore_t := getsome (fun k => semaphores k !! a).
Definition set_sem (a : Z) (x : semaphore_t) : MK unit := modify (with_semaphores <[a := x]>).
Definition get_event e : MK event_t := getsome (fun k => events k !! e).
Definition set_event e (x : event_t) : MK unit := modify (with_events <[e := x]>).

(** The end of a call that leaves with the lock to give up. *)
Definition unlock_return cpu (o : outcome unit) (r : Z) : MK (outcome Z) :=
  match o with
  | Return _ => lift (THREAD_UNLOCK cpu) ;; ret (Return r)
  | Switched => ret Switched
  end.

(** ** Mutex *)
Definition mutex_init m : MK unit :=
  set_mutex m (mk_mutex MUTEX_MAGIC 0 0) ;; lift (wait_queue_init (WaitQueueAt m)).

Definition is_mutex_held cpu m : MK bool :=
  x <- get_mutex m ;;
  t <- lift (get_current_thread cpu) ;;
  ret (m_holder x =? t).

(** After the wait, or without one: back out on a time-out, else take the mutex. *)
Definition mutex_acquire_finish cpu m (r : Z) : MK Z :=
  (if r <? NO_ERROR then
     when (r =? ERR_TIMED_OUT)
       (x <- get_mutex m ;; set_mutex m (mk_mutex (m_magic x) (m_holder x) (m_count x - 1)))
   else
     t <- lift (get_current_thread cpu) ;;
     x <- get_mutex m ;;
     set_mutex m (mk_mutex (m_magic x) t (m_count x))) ;;
  lift (THREAD_UNLOCK cpu) ;;
  ret r.

Definition mutex_acquire_timeout cpu m (timeout : Z) : MK (outcome Z) :=
  x <- get_mutex m ;;
  assert_ (m_magic x =? MUTEX_MAGIC) ;;
  t <- lift (get_current_thread cpu) ;;
  (if t =? m_holder x then panic else ret tt) ;;
  lift (THREAD_LOCK cpu) ;;
  set_mutex m (mk_mutex (m_magic x) (m_holder x) (m_count x + 1)) ;;
  if m_count x + 1 >? 1 then
    o <- lift (wait_queue_block cpu (WaitQueueAt m) timeout) ;;
    match o with
    | Return r => r' <- mutex_acquire_finish cpu m r ;; ret (Return r')
    | Switched => ret Switched
    end
  else
    r' <- mutex_acquire_finish cpu m NO_ERROR ;; ret (Return r').

Definition mutex_acquire cpu m : MK (outcome Z) := mutex_acquire_timeout cpu m INFINITE_TIME.

Definition mutex_release cpu m : MK (outcome Z) :=
  x <- get_mutex m ;;
  assert_ (m_magic x =? MUTEX_MAGIC) ;;
  t <- lift (get_current_thread cpu) ;;
  (if negb (t =? m_holder x) then panic else ret tt) ;;
  lift (THREAD_LOCK cpu) ;;
  set_mutex m (mk_mutex (m_magic x) 0 (m_count x - 1)) ;;
  if m_count x - 1 >=? 1 then
    r <- lift (wait_queue_wake_one cpu (WaitQueueAt m) true NO_ERROR) ;;
    unlock_return cpu (snd r) NO_ERROR
  else unlock_return cpu (Return tt) NO_ERROR.

Definition mutex_destroy cpu m : MK (outcome Z) :=
  x <- get_mutex m ;;
  assert_ (m_magic x =? MUTEX_MAGIC) ;;
  t <- lift (get_current_thread cpu) ;;
  (if negb (m_holder x =? 0) && negb (t =? m_holder x) then panic else ret tt) ;;
  lift (THREAD_LOCK cpu) ;;
  set_mutex m (mk_mutex 0 (m_holder x) 0) ;;
  o <- lift (wait_queue_destroy cpu (WaitQueueAt m) true) ;;
  unlock_return cpu o NO_ERROR.

(** ** Semaphore *)
Definition sem_init (a value : Z) : MK unit :=
  set_sem a (mk_semaphore SEMAPHORE_MAGIC (i32 value)) ;; lift (wait_queue_init (WaitQueueAt a)).

Definition sem_destroy cpu (a : Z) : MK (outcome Z) :=
  lift (THREAD_LOCK cpu) ;;
  x <- get_sem a ;;
  set_sem a (mk_semaphore (sem_magic x) 0) ;;
  o <- lift (wait_queue_destroy cpu (WaitQueueAt a) true) ;;
  unlock_return cpu o NO_ERROR.

Definition sem_post cpu (a : Z) (resched : bool) : MK (outcome Z) :=
  lift (THREAD_LOCK cpu) ;;
  x <- get_sem a ;;
  assert_ (sem_count x <? INT_MAX) ;;
  set_sem a (mk_semaphore (sem_magic x) (sem_count x + 1)) ;;
  if sem_count x + 1 <=? 0 then
    r <- lift (wait_queue_wake_one cpu (WaitQueueAt a) resched NO_ERROR) ;;
    unlock_return cpu (snd r) (fst r)
  else unlock_return cpu (Return tt) 0.

(** After the wait of [sem_timedwait]. *)
Definition sem_wait_finish cpu (a r : Z) : MK Z :=
  when ((r <? NO_ERROR) && (r =? ERR_TIMED_OUT))
    (x <- get_sem a ;; set_sem a (mk_semaphore (sem_magic x) (sem_count x + 1))) ;;
  lift (THREAD_UNLOCK cpu) ;;
  ret r.

Definition sem_timedwait cpu (a timeout : Z) : MK (outcome Z) :=
  lift (THREAD_LOCK cpu) ;;
  x <- get_sem a ;;
  set_sem a (mk_semaphore (sem_magic x) (sem_count x - 1)) ;;
  if sem_count x - 1 <? 0 then
    o <- lift (wait_queue_block cpu (WaitQueueAt a) timeout) ;;
    match o with
    | Return r => r' <- sem_wait_finish cpu a r ;; ret (Return r')
    | Switched => ret Switched
    end
  else unlock_return cpu (Return tt) NO_ERROR.

(** [sem_wait] has no back-out: it waits without a time-out. *)
Definition sem_wait cpu (a : Z) : MK (outcome Z) :=
  lift (THREAD_LOCK cpu) ;;
  x <- get_sem a ;;
  set_sem a (mk_semaphore (sem_magic x) (sem_count x - 1)) ;;
  if sem_count x - 1 <? 0 then
    o <- lift (wait_queue_block cpu (WaitQueueAt a) INFINITE_TIME) ;;
    match o with
    | Return r => unlock_return cpu (Return tt) r
    | Switched => ret Switched
    end
  else unlock_return cpu (Return tt) NO_ERROR.

Definition sem_trywait cpu (a : Z) : MK (outcome Z) :=
  lift (THREAD_LOCK cpu) ;;
  x <- get_sem a ;;
  if sem_count x <=? 0 then unlock_return cpu (Return tt) ERR_NOT_READY
  else
    set_sem a (mk_semaphore (sem_magic x) (sem_count x - 1)) ;;
    unlock_return cpu (Return tt) NO_ERROR.

(** ** Event *)
Definition event_init e (initial : bool) (flags : Z) : MK unit :=
  set_event e (mk_event EVENT_MAGIC initial flags) ;; lift (wait_queue_init (WaitQueueAt e)).

Definition event_destroy cpu e : MK (outcome Z) :=
  x <- get_event e ;;
  assert_ (e_magic x =? EVENT_MAGIC) ;;
  lift (THREAD_LOCK cpu) ;;
  set_event e (mk_event 0 false 0) ;;
  o <- lift (wait_queue_destroy cpu (WaitQueueAt e) true) ;;
  unlock_return cpu o NO_ERROR.

Definition autounsignal (x : event_t) : bool := negb (Z.land (e_flags x) EVENT_FLAG_AUTOUNSIGNAL =? 0).

Definition event_wait_timeout cpu e (timeout : Z) : MK (outcome Z) :=
  x <- get_event e ;;
  assert_ (e_magic x =? EVENT_MAGIC) ;;
  lift (THREAD_LOCK cpu) ;;
  if e_signaled x then
    when (autounsignal x) (set_event e (mk_event (e_magic x) false (e_flags x))) ;;
    unlock_return cpu (Return tt) NO_ERROR
  else
    o <- lift (wait_queue_block cpu (WaitQueueAt e) timeout) ;;
    match o with
    | Return r => unlock_return cpu (Return tt) r
    | Switched => ret Switched
    end.

Definition event_wait cpu e : MK (outcome Z) := event_wait_timeout cpu e INFINITE_TIME.

(** With [EVENT_FLAG_AUTOUNSIGNAL] the result of the wake-up is looked at when
    the caller is back on its cpu; having woken a thread it only unlocks. *)
Definition event_signal cpu e (reschedule : bool) : MK (outcome Z) :=
  x <- get_event e ;;
  assert_ (e_magic x =? EVENT_MAGIC) ;;
  lift (THREAD_LOCK cpu) ;;
  if negb (e_signaled x) then
    if autounsignal x then
      r <- lift (wait_queue_wake_one cpu (WaitQueueAt e) reschedule NO_ERROR) ;;
      when (fst r <=? 0) (set_event e (mk_event (e_magic x) true (e_flags x))) ;;
      unlock_return cpu (snd r) NO_ERROR
    else
      set_event e (mk_event (e_magic x) true (e_flags x)) ;;
      r <- lift (wait_queue_wake_all cpu (WaitQueueAt e) reschedule NO_ERROR) ;;
      unlock_return cpu (snd r) NO_ERROR
  else unlock_return cpu (Return tt) NO_ERROR.

Definition event_unsignal e : MK Z :=
  x <- get_event e ;;
  assert_ (e_magic x =? EVENT_MAGIC) ;;
  set_event e (mk_event (e_magic x) false (e_flags x)) ;;
  ret NO_ERROR.
End sync.
