(* ===== verification/SyncView.v ===== *)
(** * What the scheduler does, as far as waiting is concerned

    The view of a thread is the wait queue it is blocked on, if any, and the
    result of its last wait. Rescheduling leaves all views alone; blocking,
    waking and time-outs change one. Each lemma runs one operation of the
    scheduler from a quiet state and says what happens to the views, to the
    current threads and to the time-outs. *)
From stdpp Require Import base gmap list.
From Stdlib Require Import ZArith Lia.
From S2P Require Import Prelude Sched SchedInv SchedOps SchedApi SchedWait.

Local Open Scope Z_scope.
Local Open Scope lk_scope.

Section view.
Context {T : Type} `{!TimerOps T} `{!Config} `{!TimerLaws T} `{!ConfigLaws}.
Implicit Types (s : sched T) (t cpu : Z) (w : wait_queue_ptr) (th : thread_t).

Definition blocked_on th : option wait_queue_ptr :=
  if state_eqb (state th) THREAD_BLOCKED then blocking_wait_queue th else None.

Definition view_of th : option wait_queue_ptr * Z := (blocked_on th, wait_queue_block_ret th).
Definition view s t : option (option wait_queue_ptr * Z) := view_of <$> threads s !! t.

Lemma blocked_on_other th : state th <> THREAD_BLOCKED -> blocked_on th = None.
Proof. intros Hs. unfold blocked_on. by rewrite (proj2 (state_eqb_false _ _) Hs). Qed.

Lemma blocked_on_blocked th : state th = THREAD_BLOCKED -> blocked_on th = blocking_wait_queue th.
Proof. intros Hs. unfold blocked_on. by rewrite (proj2 (state_eqb_true _ _) Hs). Qed.

(** What an operation of thread [t] on [cpu] does beside the views. *)
Record moved cpu t (o : outcome unit) (kept : Z) s s' : Prop := {
  mv_inv : sched_inv (owner_after cpu o kept) s';
  mv_current : match o with
               | Return _ => current s' = current s
               | Switched => exists new, new <> t /\ current s' = <[cpu := new]> (current s)
               end;
  mv_idle : forall u, thread_is_idle <$> threads s' !! u = thread_is_idle <$> threads s !! u;
  mv_queues : forall w, is_Some (queues s' !! WaitList w) <-> is_Some (queues s !! WaitList w);
  mv_waits : forall w, wq_magic <$> wait_queues s' !! w = wq_magic <$> wait_queues s !! w
}.

Definition same_timeouts s s' : Prop :=
  forall u, timeout_pending (timers s') u = timeout_pending (timers s) u /\
            timeout_live (timers s') u = timeout_live (timers s) u.

Lemma rescheduled_view s cpu old new o s' :
  sched_wf none s -> current s !! cpu = Some old -> rescheduled s cpu old new o s' -> forall u, view s' u = view s u.
Proof.
  intros Hwf Hc Hrs u. destruct (wf_current _ _ Hwf _ _ Hc) as [Hv (oth & Hold & _)]. unfold view.
  destruct (rs_new _ _ _ _ _ _ Hrs) as (n & n' & Hn & Hn' & Hst & _ & _ & _ & Hfl & Hret & _).
  destruct (decide (u = new)) as [->|Hne].
  - rewrite Hn, Hn'. cbn. f_equal. unfold view_of. rewrite Hret. f_equal.
    rewrite (blocked_on_other n') by congruence.
    assert (state n <> THREAD_BLOCKED) as Hnb; [|by rewrite blocked_on_other].
    intros Hb. destruct (best_ready s cpu new n Hwf (rs_best _ _ _ _ _ _ Hrs) Hn Hv) as [?|Hi]; [congruence|].
    destruct (wf_blocked _ _ Hwf _ _ Hn Hb) as (w & l & _ & Hl & Hin); [by intros []|].
    destruct (wf_wait _ _ Hwf _ _ _ Hl Hin) as (? & ? & _ & _ & ? & _). congruence.
  - destruct (decide (u = old)) as [->|Hne'].
    + rewrite (rs_old _ _ _ _ _ _ Hrs), Hold by done. done.
    + by rewrite (rs_other _ _ _ _ _ _ Hrs) by done.
Qed.

Lemma rescheduled_idle s cpu old new o s' :
  is_Some (threads s !! old) -> rescheduled s cpu old new o s' ->
  forall u, thread_is_idle <$> threads s' !! u = thread_is_idle <$> threads s !! u.
Proof.
  intros [oth Hold] Hrs u. destruct (rs_new _ _ _ _ _ _ Hrs) as (n & n' & Hn & Hn' & _ & _ & _ & _ & Hfl & _).
  destruct (decide (u = new)) as [->|Hne].
  - rewrite Hn, Hn'. cbn. unfold thread_is_idle, has_flag. by rewrite Hfl.
  - destruct (decide (u = old)) as [->|Hne'].
    + rewrite (rs_old _ _ _ _ _ _ Hrs), Hold by done. done.
    + by rewrite (rs_other _ _ _ _ _ _ Hrs) by done.
Qed.

Lemma node_delete_is_Some t (qs : gmap queue_head (list Z)) h : is_Some (node_delete t qs !! h) <-> is_Some (qs !! h).
Proof. rewrite node_delete_lookup. apply fmap_is_Some. Qed.

(** A reschedule that ends an operation, given what came before it. *)
Lemma rescheduled_moved s0 s cpu t new o s' kept :
  sched_wf none s -> current s !! cpu = Some t -> rescheduled s cpu t new o s' -> sched_inv cpu s' ->
  current s = current s0 ->
  (forall u, thread_is_idle <$> threads s !! u = thread_is_idle <$> threads s0 !! u) ->
  (forall w, is_Some (queues s !! WaitList w) <-> is_Some (queues s0 !! WaitList w)) ->
  (forall w, wq_magic <$> wait_queues s !! w = wq_magic <$> wait_queues s0 !! w) ->
  (kept = cpu \/ o = Switched) -> moved cpu t o kept s0 s'.
Proof.
  intros Hwf Hc Hrs Hinv Hcur Hidle Hq Hw Hk.
  assert (o = if decide (new = t) then Return tt else Switched) as Ho by apply (rs_outcome _ _ _ _ _ _ Hrs).
  constructor.
  - destruct o as [[]|]; [|done]. by destruct Hk as [->|].
  - rewrite (rs_current _ _ _ _ _ _ Hrs), Hcur. destruct (decide (new = t)) as [->|Hne]; subst o.
    + apply insert_id. congruence.
    + by exists new.
  - intros u. rewrite <- Hidle. eapply rescheduled_idle; [|exact Hrs].
    destruct (wf_current _ _ Hwf _ _ Hc) as [_ (th & ? & _)]. by eexists.
  - intros w. rewrite (rs_queues _ _ _ _ _ _ Hrs), node_delete_is_Some. apply Hq.
  - intros w. by rewrite (rs_wait_queues _ _ _ _ _ _ Hrs).
Qed.

(** Giving the lock up afterwards. *)
Lemma moved_unlock cpu t o s0 s :
  moved cpu t o cpu s0 s ->
  moved cpu t o unlocked s0 (match o with Return _ => with_owner unlocked s | Switched => s end).
Proof.
  intros [Hinv Hc Hi Hq Hw]. destruct o as [[]|]; [|by constructor].
  constructor; try done. exact (proj2 (THREAD_UNLOCK_run cpu s Hinv)).
Qed.

Lemma threads_idle_update m t th th' u :
  m !! t = Some th -> thread_is_idle th' = thread_is_idle th ->
  thread_is_idle <$> (<[t := th']> m : gmap Z thread_t) !! u = thread_is_idle <$> m !! u.
Proof.
  intros Ht Hi. destruct (decide (u = t)) as [->|]; [rewrite lookup_insert_eq, Ht; cbn; by f_equal|by rewrite lookup_insert_ne].
Qed.

Lemma view_update s s' t th th' :
  threads s !! t = Some th -> threads s' = <[t := th']> (threads s) ->
  forall u, view s' u = if decide (u = t) then Some (view_of th') else view s u.
Proof.
  intros Ht Hs u. unfold view. rewrite Hs. case_decide; subst; [by rewrite lookup_insert_eq|by rewrite lookup_insert_ne].
Qed.

(** ** Yielding and preemption *)
Lemma requeued_moved front t th s s' :
  requeued front t th s s' ->
  (forall w, is_Some (queues s' !! WaitList w) <-> is_Some (queues s !! WaitList w)).
Proof.
  unfold requeued. destruct (thread_is_idle th); [by intros ->|]. intros (q & _ & ->) w. cbn.
  by rewrite lookup_insert_ne.
Qed.

(** The common end: the thread as [th'] is put back and the best one runs. *)
Lemma put_back_moved front cpu s t th th' s2 o new s3 :
  current s !! cpu = Some t -> threads s !! t = Some th -> thread_is_idle th' = thread_is_idle th ->
  view_of th' = view_of th -> requeued front t th' (with_threads <[t := th']> (with_owner cpu s)) s2 ->
  sched_wf none s2 -> rescheduled s2 cpu t new o s3 -> sched_inv cpu s3 ->
  moved cpu t o cpu s s3 /\ (forall u, view s3 u = view s u) /\ same_timeouts s s3.
Proof.
  intros Hc Ht Hi Hview Hrq Hwf2 Hrs Hinv. destruct (requeued_fields _ _ _ _ _ Hrq) as (Ht2 & Hc2 & Hw2 & Htm2 & _).
  cbn in Ht2, Hc2, Hw2, Htm2. split_and!.
  - eapply (rescheduled_moved s s2); [done|by rewrite Hc2|done|done|done| | | |by left].
    + intros u. rewrite Ht2. by apply (threads_idle_update _ _ th).
    + intros w. by rewrite (requeued_moved _ _ _ _ _ Hrq).
    + intros w. by rewrite Hw2.
  - intros u. rewrite (rescheduled_view _ _ _ _ _ _ Hwf2 ltac:(by rewrite Hc2) Hrs).
    rewrite (view_update s s2 t th th' Ht Ht2). case_decide; [|done]. subst u. unfold view. by rewrite Ht, Hview.
  - intros u. destruct (rs_timeouts _ _ _ _ _ _ Hrs u) as [-> ->]. by rewrite Htm2.
Qed.

Lemma running_view th th' :
  state th = THREAD_RUNNING -> state th' = THREAD_READY -> wait_queue_block_ret th' = wait_queue_block_ret th ->
  view_of th' = view_of th.
Proof. intros H1 H2 H3. unfold view_of. rewrite !blocked_on_other by congruence. by rewrite H3. Qed.

Lemma same_timeouts_unlock cpu (o : outcome unit) s s' :
  same_timeouts s s' -> same_timeouts s (match o with Return _ => with_owner unlocked s' | Switched => s' end).
Proof. by destruct o. Qed.

Lemma yield_moved cpu s t :
  sched_inv unlocked s -> current s !! cpu = Some t ->
  exists o s', thread_yield cpu s = Some (o, s') /\ moved cpu t o unlocked s s' /\
    (forall u, view s' u = view s u) /\ same_timeouts s s'.
Proof.
  intros Hinv Hc. destruct (inv_running _ _ Hinv _ _ Hc) as (th & Ht & Hst).
  destruct (thread_yield_run cpu s t th Hinv Hc Ht) as (s2 & o & new & s3 & s' & Hrq & Hwf2 & Hrs & Hinv3 & Hr & Hs' & _).
  destruct (put_back_moved false cpu s t th (set_quantum 0 (set_state THREAD_READY th)) s2 o new s3) as (Hm & Hv & Htm);
    [done|done|done|by apply running_view|done..|].
  exists o, s'. split; [done|]. rewrite Hs'. split_and!; [by apply moved_unlock| |by apply same_timeouts_unlock].
  intros u. rewrite <- Hv. by destruct o.
Qed.

Lemma preempt_moved cpu s t :
  sched_inv unlocked s -> current s !! cpu = Some t ->
  exists o s', thread_preempt cpu s = Some (o, s') /\ moved cpu t o unlocked s s' /\
    (forall u, view s' u = view s u) /\ same_timeouts s s'.
Proof.
  intros Hinv Hc. destruct (inv_running _ _ Hinv _ _ Hc) as (th & Ht & Hst).
  destruct (thread_preempt_inner_run cpu s t th false Hinv Hc Ht)
    as (s2 & o & new & s3 & s' & Hrq & Hwf2 & Hrs & Hinv3 & Hr & Hs' & _).
  destruct (put_back_moved (remaining_quantum th >? 0) cpu s t th (set_state THREAD_READY th) s2 o new s3) as (Hm & Hv & Htm);
    [done|done|done|by apply running_view|done..|].
  exists o, s'. split; [done|]. rewrite Hs'. split_and!; [by apply moved_unlock| |by apply same_timeouts_unlock].
  intros u. rewrite <- Hv. by destruct o.
Qed.

(** ** Blocking *)
Lemma block_moved cpu s w timeout t q l th :
  sched_inv cpu s -> current s !! cpu = Some t -> threads s !! t = Some th -> thread_is_idle th = false ->
  wait_queues s !! w = Some q -> wq_magic q = WAIT_QUEUE_MAGIC -> queues s !! WaitList w = Some l ->
  0 < timeout <= INFINITE_TIME -> timeout_pending (timers s) t = false ->
  exists s', wait_queue_block cpu w timeout s = Some (Switched, s') /\ moved cpu t Switched unlocked s s' /\
    (forall u, view s' u = if decide (u = t) then Some (Some w, NO_ERROR) else view s u) /\
    (forall u, timeout_pending (timers s') u =
       (if decide (u = t) then negb (timeout =? INFINITE_TIME) else timeout_pending (timers s) u) /\
       timeout_live (timers s') u =
       (if decide (u = t) then negb (timeout =? INFINITE_TIME) || timeout_live (timers s) u else timeout_live (timers s) u)).
Proof.
  intros Hinv Hc Ht Hi Hq Hm Hl Hto Hp.
  destruct (wait_queue_block_run cpu s w timeout t th q l Hinv Hc Ht Hi Hq Hm Hl Hto Hp)
    as (s2 & new & s' & Hr & Ht2 & Hq2 & Hw2 & Hc2 & Htm2 & Hwf2 & Hrs & Hinv' & Hne).
  exists s'. split_and!; [done| | |].
  - eapply (rescheduled_moved s s2); [done|by rewrite Hc2|done|done|done| | | |by right].
    + intros u. rewrite Ht2. by apply (threads_idle_update _ _ th).
    + intros w'. rewrite Hq2. destruct (decide (w' = w)) as [->|].
      * rewrite lookup_insert_eq, Hl. split; by eexists.
      * by rewrite lookup_insert_ne by congruence.
    + intros w'. rewrite Hw2. destruct (decide (w' = w)) as [->|]; [by rewrite lookup_insert_eq, Hq|by rewrite lookup_insert_ne].
  - intros u. rewrite (rescheduled_view _ _ _ _ _ _ Hwf2 ltac:(by rewrite Hc2) Hrs).
    rewrite (view_update s s2 t th _ Ht Ht2). done.
  - intros u. destruct (rs_timeouts _ _ _ _ _ _ Hrs u) as [-> ->]. apply Htm2.
Qed.

(** ** Waking *)
Lemma woken_view err th : view_of (woken err th) = (None, err).
Proof. done. Qed.

Lemma woken_queues_is_Some w t l l0 qp p (qs : gmap queue_head (list Z)) w' :
  qs !! WaitList w = Some l0 -> is_Some (woken_queues w t l qp p qs !! WaitList w') <-> is_Some (qs !! WaitList w').
Proof.
  intros Hl. unfold woken_queues. rewrite lookup_insert_ne by done.
  destruct (decide (w' = w)) as [->|]; [rewrite lookup_insert_eq, Hl; split; by eexists|by rewrite lookup_insert_ne by congruence].
Qed.

Lemma waits_update (m : gmap wait_queue_ptr wait_queue_t) w q d w' :
  m !! w = Some q ->
  wq_magic <$> <[w := mk_wait_queue (wq_magic q) (wq_count q + d)]> m !! w' = wq_magic <$> m !! w'.
Proof.
  intros Hq. destruct (decide (w' = w)) as [->|]; [by rewrite lookup_insert_eq, Hq|by rewrite lookup_insert_ne].
Qed.

(** The head of a wait queue in terms of views. *)
Lemma waiter_view owner s w l t : sched_inv owner s -> queues s !! WaitList w = Some l -> t ∈ l ->
  exists th, threads s !! t = Some th /\ blocked_on th = Some w /\ thread_is_idle th = false.
Proof.
  intros Hinv Hl Ht. destruct (wf_wait _ _ (inv_wf _ _ Hinv) _ _ _ Hl Ht) as (th & ? & Hst & Hb & ? & _).
  exists th. split_and!; [done|by rewrite blocked_on_blocked|done].
Qed.

Lemma no_waiter_view owner s w : sched_inv owner s -> queues s !! WaitList w = Some [] ->
  forall t r, view s t <> Some (Some w, r).
Proof.
  intros Hinv Hl t r. unfold view. destruct (threads s !! t) as [th|] eqn:Ht; [|done]. intros [= Hb _].
  unfold blocked_on in Hb. destruct (state_eqb (state th) THREAD_BLOCKED) eqn:Hst; [|done]. apply state_eqb_true in Hst.
  destruct (wf_blocked _ _ (inv_wf _ _ Hinv) _ _ Ht Hst) as (w' & l' & ? & ? & Hin); [by intros []|].
  assert (l' = []) as -> by congruence. by apply elem_of_nil in Hin.
Qed.

Lemma wake_one_moved cpu s w q c cth (resched : bool) t l err :
  sched_inv cpu s -> current s !! cpu = Some c -> threads s !! c = Some cth -> thread_is_idle cth = false ->
  wait_queues s !! w = Some q -> wq_magic q = WAIT_QUEUE_MAGIC -> queues s !! WaitList w = Some (t :: l) ->
  exists o s', wait_queue_wake_one cpu w resched err s = Some ((1, o), s') /\ moved cpu c o cpu s s' /\
    (exists r, view s t = Some (Some w, r)) /\ c <> t /\
    (forall u, view s' u = if decide (u = t) then Some (None, err) else view s u) /\ same_timeouts s s'.
Proof.
  intros Hinv Hc Hct Hci Hq Hm Hl. pose proof (waiter_not_current cpu s w _ c t Hinv Hc Hl ltac:(by left)) as Hne.
  destruct (waiter_view cpu s w _ t Hinv Hl ltac:(by left)) as (th & Ht & Hb & Hti).
  destruct (inv_running _ _ Hinv _ _ Hc) as (cth' & ? & Hcst). assert (cth' = cth) as -> by congruence.
  destruct resched.
  - destruct (wake_one_resched_run cpu s w q err c cth t l Hinv Hc Hct Hci Hq Hm Hl)
      as (th' & s2 & o & new & s' & ? & Hr & Ht2 & (qc & qt & Hqc & Hqt & Hq2) & Hw2 & Hc2 & Htm2 & Hwf2 & Hrs & Hinv').
    assert (th' = th) as -> by congruence.
    exists o, s'. split_and!; [done| |unfold view; rewrite Ht; cbn; unfold view_of; rewrite Hb; by eexists|done| |].
    + eapply (rescheduled_moved s s2); [done|by rewrite Hc2|done|done|done| | | |by left].
      * intros u. rewrite Ht2. rewrite (threads_idle_update _ c cth) by (by rewrite ?lookup_insert_ne).
        by apply (threads_idle_update _ t th).
      * intros w'. rewrite Hq2, !lookup_insert_ne by done. destruct (decide (w' = w)) as [->|].
        { rewrite lookup_insert_eq, Hl. split; by eexists. }
        by rewrite lookup_insert_ne by congruence.
      * intros w'. rewrite Hw2. by apply waits_update.
    + intros u. rewrite (rescheduled_view _ _ _ _ _ _ Hwf2 ltac:(by rewrite Hc2) Hrs).
      unfold view. rewrite Ht2. case_decide as Hu.
      * subst u. by rewrite lookup_insert_ne, lookup_insert_eq.
      * destruct (decide (u = c)) as [->|]; [|by rewrite !lookup_insert_ne].
        rewrite lookup_insert_eq, Hct. cbn. f_equal. by apply running_view.
    + intros u. destruct (rs_timeouts _ _ _ _ _ _ Hrs u) as [-> ->]. by rewrite Htm2.
  - destruct (wake_one_run cpu s w q err c t l Hinv Hc Hq Hm Hl)
      as (th' & qp & s' & ? & Hqp & Hr & Hinv' & Ht' & Hq' & Hw' & Hc' & Htm').
    assert (th' = th) as -> by congruence.
    exists (Return tt), s'. split_and!; [done| |unfold view; rewrite Ht; cbn; unfold view_of; rewrite Hb; by eexists|done| |].
    + constructor; [done|done| | |].
      * intros u. rewrite Ht'. by apply (threads_idle_update _ t th).
      * intros w'. rewrite Hq'. by eapply woken_queues_is_Some.
      * intros w'. rewrite Hw'. by apply waits_update.
    + intros u. by rewrite (view_update s s' t th _ Ht Ht').
    + intros u. by rewrite Htm'.
Qed.

(** ** Time-outs *)
Lemma timeout_moved cpu s c t th :
  sched_inv unlocked s -> current s !! cpu = Some c -> threads s !! t = Some th ->
  exists b s', wait_queue_timeout_handler cpu t s = Some (b, s') /\ moved cpu c (Return tt) unlocked s s' /\
    (forall u, view s' u = if decide (u = t) then
       match blocked_on th with Some _ => Some (None, ERR_TIMED_OUT) | None => view s t end else view s u) /\
    same_timeouts s s'.
Proof.
  intros Hinv Hc Ht. pose proof (inv_wf _ _ Hinv) as Hwf.
  destruct (wf_thread _ _ Hwf _ _ Ht) as (Hm & _).
  destruct (THREAD_LOCK_run cpu s Hinv) as (s0 & Hl & Hs0 & Hinv0).
  assert (threads s0 !! t = Some th) as Ht0 by (by rewrite Hs0).
  assert (current s0 !! cpu = Some c) as Hc0 by (by rewrite Hs0).
  unfold wait_queue_timeout_handler. rewrite (bind_eq _ _ _ _ _ (get_thread_eq _ _ _ Ht)).
  rewrite assert_bind by (by apply Z.eqb_eq). rewrite (bind_eq _ _ _ _ _ Hl).
  destruct (decide (state th = THREAD_BLOCKED)) as [Hst|Hst].
  - destruct (unblock_run cpu s0 t th ERR_TIMED_OUT c Hinv0 Hc0 Ht0 Hst)
      as (w & l & q & qp & s1 & Hbw & Hwl & Hin & Hq & _ & Hr & Hinv1 & Ht1 & Hq1 & Hw1 & Hc1 & Htm1).
    destruct (THREAD_UNLOCK_run cpu s1 Hinv1) as [Hu Hinv2]. rewrite (bind_eq _ _ _ _ _ Hr), (bind_eq _ _ _ _ _ Hu).
    exists true, (with_owner unlocked s1). split_and!; [done| | |].
    + constructor; [done|cbn; by rewrite Hc1, Hs0| | |]; cbn.
      * intros u. rewrite Ht1, Hs0. by apply (threads_idle_update _ t th).
      * intros w'. rewrite Hq1, Hs0. rewrite Hs0 in Hwl. by eapply woken_queues_is_Some.
      * intros w'. rewrite Hw1, Hs0. rewrite Hs0 in Hq. by apply waits_update.
    + intros u. rewrite blocked_on_blocked, Hbw by done.
      assert (threads (with_owner unlocked s1) = <[t := woken ERR_TIMED_OUT th]> (threads s)) as Ht2
        by (cbn; by rewrite Ht1, Hs0).
      by rewrite (view_update s _ t th _ Ht Ht2).
    + intros u. cbn. by rewrite Htm1, Hs0.
  - rewrite (bind_eq _ _ _ _ _ (unblock_not_blocked cpu s0 t th ERR_TIMED_OUT Hinv0 Ht0 Hst)).
    destruct (THREAD_UNLOCK_run cpu s0 Hinv0) as [Hu Hinv2]. rewrite (bind_eq _ _ _ _ _ Hu).
    assert (with_owner unlocked s0 = s) as Heq by (rewrite Hs0; apply (with_owner_id unlocked s (inv_owner _ _ Hinv))).
    rewrite Heq. exists false, s. split_and!; [done|by constructor| |done].
    intros u. rewrite blocked_on_other by done. by case_decide; subst.
Qed.
End view.
