(* ===== verification/SyncOps.v ===== *)
(** * The operations of mutexes and semaphores, branch by branch

    From a state where no cpu has the lock, each operation ends in one of the
    outcomes listed here, or fails a check of its own (a holder that acquires
    again, a release by another thread, a destroyed object). *)
From stdpp Require Import base gmap list.
From Stdlib Require Import ZArith Lia.
From S2P Require Import Prelude Sched SchedInv SchedOps SchedApi SchedWait Sync SyncView.

Local Open Scope Z_scope.
Local Open Scope lk_scope.

Section ops.
Context {T : Type} `{!TimerOps T} `{!Config} `{!TimerLaws T} `{!ConfigLaws}.
Implicit Types (s : sched T) (k : kernel T) (t cpu m : Z).

Lemma lift_eq {A} (op : M (sched T) A) k a s : op (ks k) = Some (a, s) -> lift op k = Some (a, with_ks s k).
Proof. intros Hop. unfold lift. by rewrite Hop. Qed.

Lemma lift_inv {A} (op : M (sched T) A) k a k' : lift op k = Some (a, k') -> exists s, op (ks k) = Some (a, s) /\ k' = with_ks s k.
Proof. unfold lift. destruct (op (ks k)) as [[a' s]|]; [|done]. intros [= -> <-]. by exists s. Qed.

(** Two kernels that differ in the scheduler, mutexes and semaphores as said. *)
Definition becomes k s ms ss k' : Prop :=
  ks k' = s /\ mutexes k' = ms /\ semaphores k' = ss /\ events k' = events k.

Lemma lock_unlock s cpu : sched_inv unlocked s -> with_owner unlocked (with_owner cpu s) = s.
Proof. intros Hinv. pose proof (inv_owner _ _ Hinv) as Ho. destruct s. cbn in *. by subst. Qed.

Lemma unlock_eq k cpu s0 :
  sched_inv unlocked s0 -> ks k = with_owner cpu s0 -> lift (THREAD_UNLOCK cpu) k = Some (tt, with_ks s0 k).
Proof.
  intros Hinv Hk. apply lift_eq. rewrite Hk. unfold THREAD_UNLOCK. cbn [thread_lock_owner with_owner].
  rewrite Z.eqb_refl. do 2 f_equal. by apply lock_unlock.
Qed.

Lemma lift_current k cpu t : current (ks k) !! cpu = Some t -> lift (get_current_thread cpu) k = Some (t, k).
Proof. intros Hc. rewrite (lift_eq _ _ t (ks k)); [by destruct k|by apply get_current_eq]. Qed.

Lemma lift_lock k cpu : sched_inv unlocked (ks k) -> lift (THREAD_LOCK cpu) k = Some (tt, with_ks (with_owner cpu (ks k)) k).
Proof.
  intros Hinv. apply lift_eq. destruct (THREAD_LOCK_run cpu _ Hinv) as (s' & -> & -> & _). done.
Qed.


(** ** What an operation did besides changing the word of its object *)
Inductive did := Quiet | Blocks (a timeout : Z) | Wakes (a u : Z) | Nobody (a : Z).

Definition view_after t (d : did) (vw : Z -> option (option wait_queue_ptr * Z)) (u : Z) :=
  match d with
  | Blocks a _ => if decide (u = t) then Some (Some (WaitQueueAt a), NO_ERROR) else vw u
  | Wakes _ v => if decide (u = v) then Some (None, NO_ERROR) else vw u
  | _ => vw u
  end.

Definition timeouts_after t (d : did) s s' : Prop :=
  match d with
  | Blocks _ timeout => forall u,
      timeout_pending (timers s') u = (if decide (u = t) then negb (timeout =? INFINITE_TIME) else timeout_pending (timers s) u) /\
      timeout_live (timers s') u =
        (if decide (u = t) then negb (timeout =? INFINITE_TIME) || timeout_live (timers s) u else timeout_live (timers s) u)
  | _ => same_timeouts s s'
  end.

Definition did_before t (d : did) s : Prop :=
  match d with
  | Wakes a v => v <> t /\ exists r, view s v = Some (Some (WaitQueueAt a), r)
  | Nobody a => forall u r, view s u <> Some (Some (WaitQueueAt a), r)
  | Quiet | Blocks _ _ => True
  end.

Record effect cpu t (o : outcome unit) (d : did) s s' : Prop := {
  ef_moved : moved cpu t o unlocked s s';
  ef_view : forall u, view s' u = view_after t d (view s) u;
  ef_timeouts : timeouts_after t d s s';
  ef_before : did_before t d s;
  ef_blocks : forall a timeout, d = Blocks a timeout -> o = Switched
}.

Definition wait_ok s (a : Z) : Prop :=
  is_Some (queues s !! WaitList (WaitQueueAt a)) /\ wq_magic <$> wait_queues s !! WaitQueueAt a = Some WAIT_QUEUE_MAGIC.

Definition forget {A} (o : outcome A) : outcome unit := match o with Return _ => Return tt | Switched => Switched end.

Lemma wait_ok_effect cpu t o d s s' a : effect cpu t o d s s' -> wait_ok s' a <-> wait_ok s a.
Proof. intros [Hm _ _ _ _]. unfold wait_ok. by rewrite (mv_queues _ _ _ _ _ _ Hm), (mv_waits _ _ _ _ _ _ Hm). Qed.

Lemma moved_lock cpu t o kept c s s' : moved cpu t o kept (with_owner c s) s' -> moved cpu t o kept s s'.
Proof. intros [????]. by constructor. Qed.

Lemma quiet_effect cpu t s : sched_inv unlocked s -> effect cpu t (Return tt) Quiet s s.
Proof. intros Hinv. by constructor; [constructor|..]. Qed.

(** Taking the lock, doing something that moves the thread, and giving it up. *)
Lemma wake_unlock_run cpu t th a k (resched : bool) :
  sched_inv cpu (ks k) -> current (ks k) !! cpu = Some t -> threads (ks k) !! t = Some th -> thread_is_idle th = false ->
  wait_ok (ks k) a ->
  exists n o d k', (forall r', exists k1, lift (wait_queue_wake_one cpu (WaitQueueAt a) resched NO_ERROR) k = Some ((n, o), k1) /\
      unlock_return cpu o r' k1 = Some (match o with Return _ => Return r' | Switched => Switched end, k')) /\
    effect cpu t o d (with_owner unlocked (ks k)) (ks k') /\
    ((n = 1 /\ exists u, d = Wakes a u) \/ (n = 0 /\ d = Nobody a)) /\ becomes k (ks k') (mutexes k) (semaphores k) k'.
Proof.
  intros Hinv Hc Ht Hi [[l Hl] Hq]. apply fmap_Some in Hq as (q & Hq & Hm).
  assert (forall k1, sched_inv cpu (ks k1) -> lift (THREAD_UNLOCK cpu) k1 = Some (tt, with_ks (with_owner unlocked (ks k1)) k1)) as Hun.
  { intros k1 Hk1. apply lift_eq. apply (THREAD_UNLOCK_run cpu _ Hk1). }
  assert (sched_inv unlocked (with_owner unlocked (ks k))) as Hinvu by (by apply (THREAD_UNLOCK_run cpu (ks k) Hinv)).
  destruct l as [|v l].
  - pose proof (wake_one_empty cpu (ks k) (WaitQueueAt a) q NO_ERROR t resched Hinv Hc Hq ltac:(done) Hl) as Hr.
    exists 0, (Return tt), (Nobody a), (with_ks (with_owner unlocked (ks k)) k). split_and!.
    + intros r'. exists k. split; [rewrite (lift_eq _ _ _ _ Hr); by destruct k|].
      cbn. by rewrite (bind_eq _ _ _ _ _ (Hun _ Hinv)).
    + constructor; [by constructor|done|done| |done]. intros u r. by apply (no_waiter_view cpu (ks k)).
    + by right.
    + done.
  - destruct (wake_one_moved cpu (ks k) (WaitQueueAt a) q t th resched v l NO_ERROR Hinv Hc Ht Hi Hq ltac:(done) Hl)
      as (o & s' & Hr & Hmv & Hv & Hne & Hview & Htm).
    set (s2 := match o with Return _ => with_owner unlocked s' | Switched => s' end).
    exists 1, o, (Wakes a v), (with_ks s2 k). split_and!.
    + intros r'. exists (with_ks s' k). split; [by apply lift_eq|]. subst s2. destruct o as [[]|]; cbn; [|done].
      assert (sched_inv cpu s') as Hi' by apply (mv_inv _ _ _ _ _ _ Hmv).
      by rewrite (bind_eq _ _ _ _ _ (Hun (with_ks s' k) Hi')).
    + constructor.
      * destruct (moved_unlock _ _ _ _ _ Hmv) as [????]. subst s2. by constructor.
      * intros u. cbn [view_after]. rewrite <- Hview. subst s2. by destruct o.
      * intros u. specialize (Htm u). subst s2. by destruct o.
      * split; [done|]. destruct Hv as [r Hv]. by exists r.
      * done.
    + left. split; [done|]. by eexists.
    + done.
Qed.

Lemma block_run cpu t th a timeout k :
  sched_inv cpu (ks k) -> current (ks k) !! cpu = Some t -> threads (ks k) !! t = Some th -> thread_is_idle th = false ->
  wait_ok (ks k) a -> 0 <= timeout <= INFINITE_TIME -> timeout_pending (timers (ks k)) t = false ->
  if timeout =? 0 then lift (wait_queue_block cpu (WaitQueueAt a) 0) k = Some (Return ERR_TIMED_OUT, k)
  else exists k', lift (wait_queue_block cpu (WaitQueueAt a) timeout) k = Some (Switched, k') /\
    effect cpu t Switched (Blocks a timeout) (ks k) (ks k') /\ becomes k (ks k') (mutexes k) (semaphores k) k'.
Proof.
  intros Hinv Hc Ht Hi [[l Hl] Hq] Hto Hp. apply fmap_Some in Hq as (q & Hq & Hm).
  destruct (Z.eqb_spec timeout 0) as [->|Hne].
  - rewrite (lift_eq _ _ (Return ERR_TIMED_OUT) (ks k)); [by destruct k|]. unfold wait_queue_block.
    destruct (inv_running _ _ Hinv _ _ Hc) as (th' & ? & Hst). assert (th' = th) as -> by congruence.
    do 3 sstep. rewrite assert_bind by (by apply Z.eqb_eq). rewrite assert_bind by (by apply state_eqb_true).
    unfold thread_lock_held. rewrite gets_bind. by rewrite assert_bind by (apply Z.eqb_eq, (inv_owner _ _ Hinv)).
  - destruct (block_moved cpu (ks k) (WaitQueueAt a) timeout t q l th Hinv Hc Ht Hi Hq ltac:(done) Hl ltac:(lia) Hp)
      as (s' & Hr & Hmv & Hview & Htm).
    exists (with_ks s' k). split_and!; [by apply lift_eq| |done].
    by constructor.
Qed.

(** The caller: it runs on [cpu] and nobody has the lock. *)
Record caller cpu t k : Prop := {
  ca_inv : sched_inv unlocked (ks k);
  ca_current : current (ks k) !! cpu = Some t;
  ca_thread : exists th, threads (ks k) !! t = Some th /\ thread_is_idle th = false
}.

Lemma moved_unlock_lock cpu t o kept s s' :
  sched_inv unlocked s -> moved cpu t o kept (with_owner unlocked (with_owner cpu s)) s' -> moved cpu t o kept s s'.
Proof. intros Hinv. by rewrite lock_unlock. Qed.

Lemma effect_lock cpu t o d c s s' : effect cpu t o d (with_owner c s) s' -> effect cpu t o d s s'.
Proof. intros [Hm Hv Htm Hb Hs]. constructor; [by eapply moved_lock|done..]. Qed.

(** ** Mutex *)
Definition acquire_ok m t (x : mutex_t) : mutex_t := mk_mutex (m_magic x) t (m_count x).
Definition acquire_backed_out (x : mutex_t) : mutex_t := mk_mutex (m_magic x) (m_holder x) (m_count x - 1).

Lemma acquire_finish_run cpu m r k s0 t x :
  ks k = with_owner cpu s0 -> sched_inv unlocked s0 -> current s0 !! cpu = Some t -> mutexes k !! m = Some x ->
  exists k', mutex_acquire_finish cpu m r k = Some (r, k') /\
    becomes k s0 (if r <? 0 then if r =? ERR_TIMED_OUT then <[m := acquire_backed_out x]> (mutexes k) else mutexes k
                  else <[m := acquire_ok m t x]> (mutexes k)) (semaphores k) k'.
Proof.
  intros Hk Hinv Hc Hx. unfold mutex_acquire_finish, NO_ERROR.
  assert (lift (get_current_thread cpu) k = Some (t, k)) as Hcur.
  { rewrite (lift_eq _ _ t (ks k)); [by destruct k|]. rewrite Hk. by apply get_current_eq. }
  assert (get_mutex m k = Some (x, k)) as Hg by (by apply getsome_eq).
  destruct (r <? 0).
  - unfold when. destruct (r =? ERR_TIMED_OUT).
    + rewrite bind_assoc, (bind_eq _ _ _ _ _ Hg). unfold set_mutex. rewrite modify_bind.
      erewrite bind_eq by (eapply unlock_eq; [exact Hinv|exact Hk]). eexists. split; [reflexivity|]. by split_and!.
    + rewrite ret_bind. erewrite bind_eq by (eapply unlock_eq; [exact Hinv|exact Hk]).
      eexists. split; [reflexivity|]. by split_and!.
  - rewrite bind_assoc, (bind_eq _ _ _ _ _ Hcur), bind_assoc, (bind_eq _ _ _ _ _ Hg). unfold set_mutex. rewrite modify_bind.
    erewrite bind_eq by (eapply unlock_eq; [exact Hinv|exact Hk]). eexists. split; [reflexivity|]. by split_and!.
Qed.

Definition mutex_ready m k x : Prop := mutexes k !! m = Some x /\ m_magic x = MUTEX_MAGIC /\ wait_ok (ks k) m.

Lemma mutex_ready_get cpu t m k x {A} (f : mutex_t -> M (kernel T) A) :
  mutex_ready m k x -> bind (get_mutex m) f k = f x k.
Proof. intros (Hx & _). by rewrite (bind_eq _ _ _ _ _ (getsome_eq (fun k => mutexes k !! m) _ _ Hx)). Qed.

Lemma acquire_run cpu t m timeout k x :
  caller cpu t k -> mutex_ready m k x -> t <> m_holder x -> 0 <= timeout <= INFINITE_TIME ->
  timeout_pending (timers (ks k)) t = false ->
  exists o d k', mutex_acquire_timeout cpu m timeout k = Some (o, k') /\ effect cpu t (forget o) d (ks k) (ks k') /\
    let x1 := mk_mutex (m_magic x) (m_holder x) (m_count x + 1) in
    if m_count x + 1 >? 1 then
      if timeout =? 0 then o = Return ERR_TIMED_OUT /\ d = Quiet /\
        becomes k (ks k') (<[m := acquire_backed_out x1]> (mutexes k)) (semaphores k) k'
      else o = Switched /\ d = Blocks m timeout /\ becomes k (ks k') (<[m := x1]> (mutexes k)) (semaphores k) k'
    else o = Return NO_ERROR /\ d = Quiet /\ becomes k (ks k') (<[m := acquire_ok m t x1]> (mutexes k)) (semaphores k) k'.
Proof.
  intros [Hinv Hc (th & Ht & Hi)] Hr Hh Hto Hp. unfold mutex_acquire_timeout. rewrite (mutex_ready_get cpu t _ _ _ _ Hr).
  destruct Hr as (Hx & Hm & Hw). rewrite assert_bind by (by apply Z.eqb_eq).
  rewrite (bind_eq _ _ _ _ _ (lift_current _ _ _ Hc)). rewrite (proj2 (Z.eqb_neq _ _) Hh), ret_bind.
  rewrite (bind_eq _ _ _ _ _ (lift_lock _ cpu Hinv)). unfold set_mutex. rewrite modify_bind.
  set (x1 := mk_mutex (m_magic x) (m_holder x) (m_count x + 1)) in *.
  set (k1 := with_mutexes <[m := x1]> (with_ks (with_owner cpu (ks k)) k)) in *.
  assert (forall r, exists k2, mutex_acquire_finish cpu m r k1 = Some (r, k2) /\ becomes k (ks k)
    (if r <? 0 then if r =? ERR_TIMED_OUT then <[m := acquire_backed_out x1]> (mutexes k) else <[m := x1]> (mutexes k)
     else <[m := acquire_ok m t x1]> (mutexes k)) (semaphores k) k2) as Hfin.
  { intros r. destruct (acquire_finish_run cpu m r k1 (ks k) t x1) as (k2 & Hr2 & Hs & Hms & Hss & He);
      [done|done|done|apply lookup_insert_eq|].
    exists k2. split; [done|]. split_and!; [done| |done|done]. rewrite Hms. cbn [mutexes k1 with_mutexes with_ks].
    rewrite !insert_insert_eq. done. }
  destruct (m_count x + 1 >? 1).
  - assert (sched_inv cpu (with_owner cpu (ks k))) as Hinv1.
    { destruct (THREAD_LOCK_run cpu _ Hinv) as (? & _ & -> & ?). done. }
    pose proof (block_run cpu t th m timeout k1 Hinv1 Hc Ht Hi Hw Hto Hp) as Hb. destruct (Z.eqb_spec timeout 0) as [->|Hne].
    + destruct (Hfin ERR_TIMED_OUT) as (k2 & Hr2 & Hk2). exists (Return ERR_TIMED_OUT), Quiet, k2.
      rewrite (bind_eq _ _ _ _ _ Hb), (bind_eq _ _ _ _ _ Hr2). destruct Hk2 as (Hs2 & Hms2 & Hss2 & He2).
      rewrite Hs2. split_and!; [done|by apply quiet_effect|done..].
    + destruct Hb as (k' & Hr & Heff & Hbc). rewrite (bind_eq _ _ _ _ _ Hr). exists Switched, (Blocks m timeout), k'.
      split_and!; [done|exact (effect_lock _ _ _ _ cpu _ _ Heff)|done..].
  - destruct (Hfin NO_ERROR) as (k2 & Hr2 & Hk2). exists (Return NO_ERROR), Quiet, k2. rewrite (bind_eq _ _ _ _ _ Hr2).
    destruct Hk2 as (Hs2 & Hms2 & Hss2 & He2). rewrite Hs2. split_and!; [done|by apply quiet_effect|done..].
Qed.

Lemma release_run cpu t m k x :
  caller cpu t k -> mutex_ready m k x -> t = m_holder x ->
  exists o d k', mutex_release cpu m k = Some (o, k') /\ effect cpu t (forget o) d (ks k) (ks k') /\
    (o = Switched \/ o = Return NO_ERROR) /\
    (if m_count x - 1 >=? 1 then (exists u, d = Wakes m u) \/ d = Nobody m else d = Quiet) /\
    becomes k (ks k') (<[m := mk_mutex (m_magic x) 0 (m_count x - 1)]> (mutexes k)) (semaphores k) k'.
Proof.
  intros [Hinv Hc (th & Ht & Hi)] Hr Hh. unfold mutex_release. rewrite (mutex_ready_get cpu t _ _ _ _ Hr).
  destruct Hr as (Hx & Hm & Hw). rewrite assert_bind by (by apply Z.eqb_eq).
  rewrite (bind_eq _ _ _ _ _ (lift_current _ _ _ Hc)). rewrite (proj2 (Z.eqb_eq _ _) Hh). cbn [negb]. rewrite ret_bind.
  rewrite (bind_eq _ _ _ _ _ (lift_lock _ cpu Hinv)). unfold set_mutex. rewrite modify_bind.
  set (k1 := with_mutexes <[m := mk_mutex (m_magic x) 0 (m_count x - 1)]> (with_ks (with_owner cpu (ks k)) k)) in *.
  destruct (m_count x - 1 >=? 1).
  - assert (sched_inv cpu (with_owner cpu (ks k))) as Hinv1.
    { destruct (THREAD_LOCK_run cpu _ Hinv) as (? & _ & -> & ?). done. }
    destruct (wake_unlock_run cpu t th m k1 true Hinv1 Hc Ht Hi Hw) as (n & o & d & k' & Hrun & Heff & Hd & Hb).
    destruct (Hrun NO_ERROR) as (k2 & Hr2 & Hu). rewrite (bind_eq _ _ _ _ _ Hr2). cbn [snd]. rewrite Hu.
    eexists _, d, k'. split_and!; [done| | | |done].
    + apply (effect_lock _ _ _ _ cpu), (effect_lock _ _ _ _ unlocked). by destruct o as [[]|].
    + destruct o; auto.
    + destruct Hd as [[_ ?]|[_ ?]]; auto.
  - unfold unlock_return. erewrite bind_eq by (by eapply unlock_eq). eexists _, Quiet, _.
    split_and!; [done|by apply quiet_effect|by right|done..].
Qed.

(** ** Semaphore *)
Definition sem_ready (a : Z) k x : Prop := semaphores k !! a = Some x /\ wait_ok (ks k) a.
Definition sem_add d (x : semaphore_t) : semaphore_t := mk_semaphore (sem_magic x) (sem_count x + d).

Lemma get_sem_eq (a : Z) k x : semaphores k !! a = Some x -> get_sem a k = Some (x, k).
Proof. intros Hx. by apply getsome_eq. Qed.

Lemma locked_inv cpu t k : caller cpu t k -> sched_inv cpu (with_owner cpu (ks k)).
Proof. intros Hca. destruct (THREAD_LOCK_run cpu _ (ca_inv _ _ _ Hca)) as (? & _ & -> & ?). done. Qed.

Lemma sem_wait_finish_run cpu (a : Z) r k s0 x :
  ks k = with_owner cpu s0 -> sched_inv unlocked s0 -> semaphores k !! a = Some x ->
  exists k', sem_wait_finish cpu a r k = Some (r, k') /\
    becomes k s0 (mutexes k) (if r =? ERR_TIMED_OUT then <[a := sem_add 1 x]> (semaphores k) else semaphores k) k'.
Proof.
  intros Hk Hinv Hx. unfold sem_wait_finish, NO_ERROR, when.
  destruct (Z.eqb_spec r ERR_TIMED_OUT) as [->|Hne].
  - change (ERR_TIMED_OUT <? 0) with true. cbn [andb]. rewrite bind_assoc, (bind_eq _ _ _ _ _ (get_sem_eq _ _ _ Hx)).
    unfold set_sem. rewrite modify_bind. erewrite bind_eq by (eapply unlock_eq; [exact Hinv|exact Hk]).
    eexists. split; [reflexivity|]. by split_and!.
  - rewrite andb_false_r. rewrite ret_bind. erewrite bind_eq by (eapply unlock_eq; [exact Hinv|exact Hk]).
    eexists. split; [reflexivity|]. by split_and!.
Qed.

(** The end of a call that changed a word and moved no thread. *)
Lemma unlock_return_run cpu t k k1 r :
  caller cpu t k -> ks k1 = with_owner cpu (ks k) -> events k1 = events k ->
  exists k', unlock_return cpu (Return tt) r k1 = Some (Return r, k') /\ effect cpu t (Return tt) Quiet (ks k) (ks k') /\
    becomes k (ks k') (mutexes k1) (semaphores k1) k'.
Proof.
  intros Hca Hk He. unfold unlock_return. erewrite bind_eq by (eapply unlock_eq; [apply (ca_inv _ _ _ Hca)|exact Hk]).
  eexists. split; [done|]. split; [by apply quiet_effect, (ca_inv _ _ _ Hca)|done].
Qed.

Lemma sem_post_run cpu t a (resched : bool) k x :
  caller cpu t k -> sem_ready a k x -> sem_count x < INT_MAX ->
  exists o d k', sem_post cpu a resched k = Some (o, k') /\ effect cpu t (forget o) d (ks k) (ks k') /\
    (o = Switched \/ (o = Return 0 /\ ~ exists u, d = Wakes a u) \/ (o = Return 1 /\ exists u, d = Wakes a u)) /\
    (if sem_count x + 1 <=? 0 then (exists u, d = Wakes a u) \/ d = Nobody a else d = Quiet) /\
    becomes k (ks k') (mutexes k) (<[a := sem_add 1 x]> (semaphores k)) k'.
Proof.
  intros Hca [Hx Hw] Hmax. pose proof (locked_inv _ _ _ Hca) as Hinv1. pose proof Hca as [Hinv Hc (th & Ht & Hi)].
  unfold sem_post. rewrite (bind_eq _ _ _ _ _ (lift_lock _ cpu Hinv)).
  rewrite (bind_eq (get_sem a) _ _ x _) by (by apply get_sem_eq). rewrite assert_bind by (by apply Z.ltb_lt).
  unfold set_sem. rewrite modify_bind.
  set (k1 := with_semaphores _ _).
  destruct (sem_count x + 1 <=? 0).
  - destruct (wake_unlock_run cpu t th a k1 resched Hinv1 Hc Ht Hi Hw) as (n & o & d & k' & Hrun & Heff & Hd & Hb).
    destruct (Hrun n) as (k2 & Hr2 & Hu). rewrite (bind_eq _ _ _ _ _ Hr2). cbn [fst snd]. rewrite Hu.
    eexists _, d, k'. split_and!; [done| | | |done].
    + apply (effect_lock _ _ _ _ cpu), (effect_lock _ _ _ _ unlocked). by destruct o as [[]|].
    + destruct o; [|by left]. right. destruct Hd as [[-> ?]|[-> ->]]; [right; done|left]. split; [done|]. by intros [? ?].
    + destruct Hd as [[_ ?]|[_ ?]]; auto.
  - destruct (unlock_return_run cpu t k k1 0 Hca ltac:(done) ltac:(done)) as (k' & Hr & Heff & Hb).
    exists (Return 0), Quiet, k'. split_and!; [done|done| |done|done]. right; left. split; [done|]. by intros [? ?].
Qed.

Lemma sem_wait_run cpu t a timeout k x :
  caller cpu t k -> sem_ready a k x -> 0 <= timeout <= INFINITE_TIME -> timeout_pending (timers (ks k)) t = false ->
  exists o d k', (if timeout =? INFINITE_TIME then sem_wait cpu a else sem_timedwait cpu a timeout) k = Some (o, k') /\
    effect cpu t (forget o) d (ks k) (ks k') /\
    if sem_count x - 1 <? 0 then
      if timeout =? 0 then o = Return ERR_TIMED_OUT /\ d = Quiet /\ becomes k (ks k') (mutexes k) (<[a := sem_add 0 x]> (semaphores k)) k'
      else o = Switched /\ d = Blocks a timeout /\ becomes k (ks k') (mutexes k) (<[a := sem_add (-1) x]> (semaphores k)) k'
    else o = Return NO_ERROR /\ d = Quiet /\ becomes k (ks k') (mutexes k) (<[a := sem_add (-1) x]> (semaphores k)) k'.
Proof.
  intros Hca [Hx Hw] Hto Hp. pose proof (locked_inv _ _ _ Hca) as Hinv1. pose proof Hca as [Hinv Hc (th & Ht & Hi)].
  set (k1 := with_semaphores <[a := sem_add (-1) x]> (with_ks (with_owner cpu (ks k)) k)).
  pose proof (block_run cpu t th a timeout k1 Hinv1 Hc Ht Hi Hw Hto Hp) as Hb.
  destruct (unlock_return_run cpu t k k1 NO_ERROR Hca ltac:(done) ltac:(done)) as (k2 & Hr2 & Heff2 & Hb2).
  assert (forall f : semaphore_t -> M (kernel T) (outcome Z), bind (lift (THREAD_LOCK cpu)) (fun _ => bind (get_sem a) f) k = f x (with_ks (with_owner cpu (ks k)) k)) as Hstart.
  { intros f. rewrite (bind_eq _ _ _ _ _ (lift_lock _ cpu Hinv)). by rewrite (bind_eq (get_sem a) _ _ x _) by (by apply get_sem_eq). }
  destruct (Z.eqb_spec timeout INFINITE_TIME) as [->|Hinf].
  - unfold sem_wait. rewrite Hstart. unfold set_sem. rewrite modify_bind. change (with_semaphores _ _) with k1.
    destruct (sem_count x - 1 <? 0); [|by exists (Return NO_ERROR), Quiet, k2].
    change (INFINITE_TIME =? 0) with false in *. destruct Hb as (k' & Hr & Heff & Hbc). rewrite (bind_eq _ _ _ _ _ Hr).
    exists Switched, (Blocks a INFINITE_TIME), k'. split_and!; [done|exact (effect_lock _ _ _ _ cpu _ _ Heff)|done..].
  - unfold sem_timedwait. rewrite Hstart. unfold set_sem. rewrite modify_bind. change (with_semaphores _ _) with k1.
    destruct (sem_count x - 1 <? 0); [|by exists (Return NO_ERROR), Quiet, k2].
    destruct (Z.eqb_spec timeout 0) as [->|Hne].
    + destruct (sem_wait_finish_run cpu a ERR_TIMED_OUT k1 (ks k) (sem_add (-1) x)) as (k' & Hr & Hs & Hms & Hss & He);
        [done|done|apply lookup_insert_eq|].
      rewrite (bind_eq _ _ _ _ _ Hb), (bind_eq _ _ _ _ _ Hr). exists (Return ERR_TIMED_OUT), Quiet, k'.
      rewrite Hs. split; [done|]. split; [by apply quiet_effect|]. split; [done|]. split; [done|]. split; [done|].
      split; [done|]. split; [|done]. rewrite Hss. cbn. rewrite insert_insert_eq. f_equal. unfold sem_add. cbn. f_equal. lia.
    + destruct Hb as (k' & Hr & Heff & Hbc). rewrite (bind_eq _ _ _ _ _ Hr).
      exists Switched, (Blocks a timeout), k'. split_and!; [done|exact (effect_lock _ _ _ _ cpu _ _ Heff)|done..].
Qed.

Lemma sem_trywait_run cpu t a k x :
  caller cpu t k -> sem_ready a k x ->
  exists k', let ok := negb (sem_count x <=? 0) in
    sem_trywait cpu a k = Some (Return (if ok then NO_ERROR else ERR_NOT_READY), k') /\
    effect cpu t (Return tt) Quiet (ks k) (ks k') /\
    becomes k (ks k') (mutexes k) (if ok then <[a := sem_add (-1) x]> (semaphores k) else semaphores k) k'.
Proof.
  intros Hca [Hx Hw]. pose proof Hca as [Hinv _ _]. unfold sem_trywait. rewrite (bind_eq _ _ _ _ _ (lift_lock _ cpu Hinv)).
  rewrite (bind_eq (get_sem a) _ _ x _) by (by apply get_sem_eq). destruct (sem_count x <=? 0); cbn [negb].
  - destruct (unlock_return_run cpu t k (with_ks (with_owner cpu (ks k)) k) ERR_NOT_READY Hca ltac:(done) ltac:(done)) as (k' & Hr & Heff & Hb).
    by exists k'.
  - unfold set_sem. rewrite modify_bind. set (k1 := with_semaphores _ _).
    destruct (unlock_return_run cpu t k k1 NO_ERROR Hca ltac:(done) ltac:(done)) as (k' & Hr & Heff & Hb). by exists k'.
Qed.
End ops.
