(* ===== verification/SyncSys.v ===== *)
(** * Threads that use mutexes: the interleavings

    Threads call the operations of Sync on their cpus. A call whose thread is
    switched out leaves a frame on that thread's stack; the frame says what the
    thread does when it has the cpu again. A step is a section between two
    points where other cpus or interrupts may come in: calls, the return of a
    switched-out call with the lock it takes over, the second locking after a
    cancelled time-out, preemption, and time-outs. *)
From stdpp Require Import base gmap list.
From Stdlib Require Import ZArith Lia.
From S2P Require Import Prelude Sched Sync.

Local Open Scope Z_scope.
Local Open Scope lk_scope.

Inductive call :=
| CYield
| CMutexAcquire (m timeout : Z)
| CMutexRelease (m : Z)
| CSemWait (a timeout : Z)
| CSemPost (a : Z) (resched : bool)
| CSemTryWait (a : Z).

(** [FCall]: switched out in a call; [FRelock]: back from a wait, the time-out is
    cancelled, about to take the lock again. *)
Inductive frame := FCall (c : call) | FRelock (c : call).

Inductive event :=
| EvCall (cpu : Z) (c : call)
| EvResume (cpu : Z)
| EvRelock (cpu : Z)
| EvPreempt (cpu : Z)
| EvTimeout (cpu t : Z).

(** What the calls so far amount to: which thread holds which mutex, what a
    semaphore was given in all, less the waits that succeeded, and whether any
    call could time out. *)
Record ghost_t := mk_ghost { held : list (Z * Z); tokens : gmap Z Z; timed : bool }.

Record sys (T : Type) := mk_sys {
  kn : kernel T;
  stacks : gmap Z (list frame);
  ghost : ghost_t
}.
Arguments mk_sys {T}. Arguments kn {T}. Arguments stacks {T}. Arguments ghost {T}.

Section sys.
Context {T : Type} `{!TimerOps T} `{!Config}.
Implicit Types (k : kernel T) (g : sys T) (cpu t : Z).

(** The time-out of the wait a call may be switched out in. *)
Definition wait_of (c : call) : option (Z * Z) :=
  match c with
  | CMutexAcquire m timeout => Some (m, timeout)
  | CSemWait a timeout => Some (a, timeout)
  | _ => None
  end.

Definition exec cpu (c : call) : M (kernel T) (outcome Z) :=
  match c with
  | CYield => o <- lift (thread_yield cpu) ;;
              ret (match o with Return _ => Return NO_ERROR | Switched => Switched end)
  | CMutexAcquire m timeout => mutex_acquire_timeout cpu m timeout
  | CMutexRelease m => mutex_release cpu m
  | CSemWait a timeout => if timeout =? INFINITE_TIME then sem_wait cpu a else sem_timedwait cpu a timeout
  | CSemPost a resched => sem_post cpu a resched
  | CSemTryWait a => sem_trywait cpu a
  end.

(** What is left of a call once its thread runs with the lock held; [r] is the
    result of its wait, if it waited. *)
Definition finish_call cpu (c : call) (r : Z) : M (kernel T) Z :=
  match c with
  | CMutexAcquire m _ => mutex_acquire_finish cpu m r
  | CSemWait a timeout =>
      if timeout =? INFINITE_TIME then lift (THREAD_UNLOCK cpu) ;; ret r else sem_wait_finish cpu a r
  | CSemPost _ _ => lift (THREAD_UNLOCK cpu) ;; ret 1
  | CYield | CMutexRelease _ | CSemTryWait _ => lift (THREAD_UNLOCK cpu) ;; ret NO_ERROR
  end.

Definition is_finite_wait (c : call) : bool :=
  match wait_of c with Some (_, timeout) => negb (timeout =? INFINITE_TIME) | None => false end.

Definition add_tokens (a d : Z) (h : ghost_t) : ghost_t :=
  mk_ghost (held h) (alter (fun n => n + d) a (tokens h)) (timed h).

Definition note_return t (c : call) (r : Z) (h : ghost_t) : ghost_t :=
  if r =? NO_ERROR then
    match c with
    | CMutexAcquire m _ => mk_ghost ((m, t) :: held h) (tokens h) (timed h)
    | CSemWait a _ | CSemTryWait a => add_tokens a (-1) h
    | _ => h
    end
  else h.
Definition note_call t (c : call) (h : ghost_t) : ghost_t :=
  match c with
  | CMutexRelease m => mk_ghost (filter (fun p => p <> (m, t)) (held h)) (tokens h) (timed h)
  | CSemPost a _ => add_tokens a 1 h
  | CMutexAcquire _ _ | CSemWait _ _ => mk_ghost (held h) (tokens h) (timed h || is_finite_wait c)
  | _ => h
  end.

Definition stack_of g t : list frame := default [] (stacks g !! t).

Definition wait_result cpu : M (kernel T) Z :=
  t <- lift (get_current_thread cpu) ;;
  th <- lift (get_thread t) ;;
  ret (wait_queue_block_ret th).

(** The result of [exec] or of a finished call, noted. *)
Definition after_call t (c : call) (rest : list frame) (o : outcome Z) k g : sys T :=
  match o with
  | Return r => mk_sys k (<[t := rest]> (stacks g)) (note_return t c r (ghost g))
  | Switched => mk_sys k (<[t := FCall c :: rest]> (stacks g)) (ghost g)
  end.

Definition step (ev : event) g : option (sys T) :=
  match ev with
  | EvCall cpu c =>
      t ← current (ks (kn g)) !! cpu;
      th ← threads (ks (kn g)) !! t;
      if bool_decide (stack_of g t = []) && negb (thread_is_idle th) &&
         (thread_lock_owner (ks (kn g)) =? SMP_MAX_CPUS) &&
         match wait_of c with Some (_, timeout) => (0 <=? timeout) && (timeout <=? INFINITE_TIME) | None => true end
      then '(o, k) ← exec cpu c (kn g);
           Some (after_call t c [] o k (mk_sys k (stacks g) (note_call t c (ghost g))))
      else None
  | EvResume cpu =>
      t ← current (ks (kn g)) !! cpu;
      if thread_lock_owner (ks (kn g)) =? cpu then
        match stack_of g t with
        | FCall c :: rest =>
            if is_finite_wait c then
              '(_, k) ← lift (THREAD_UNLOCK cpu ;; on_timers (cancel_timeout cpu t)) (kn g);
              Some (mk_sys k (<[t := FRelock c :: rest]> (stacks g)) (ghost g))
            else
              '(r, k1) ← wait_result cpu (kn g);
              '(r', k) ← finish_call cpu c r k1;
              Some (after_call t c rest (Return r') k g)
        | _ => None
        end
      else None
  | EvRelock cpu =>
      t ← current (ks (kn g)) !! cpu;
      match stack_of g t with
      | FRelock c :: rest =>
          '(_, k1) ← lift (THREAD_LOCK cpu) (kn g);
          '(r, k2) ← wait_result cpu k1;
          '(r', k) ← finish_call cpu c r k2;
          Some (after_call t c rest (Return r') k g)
      | _ => None
      end
  | EvPreempt cpu =>
      t ← current (ks (kn g)) !! cpu;
      if thread_lock_owner (ks (kn g)) =? SMP_MAX_CPUS then
        '(o, k) ← lift (thread_preempt cpu) (kn g);
        Some (mk_sys k
          (match o with Return _ => stacks g | Switched => <[t := FCall CYield :: stack_of g t]> (stacks g) end) (ghost g))
      else None
  | EvTimeout cpu t =>
      _ ← current (ks (kn g)) !! cpu;
      match stack_of g t with
      | FCall c :: _ =>
          if is_finite_wait c then
            '(_, k) ← lift (wait_queue_timeout_handler cpu t) (kn g);
            Some (mk_sys k (stacks g) (ghost g))
          else None
      | _ => None
      end
  end.

Fixpoint steps (evs : list event) g : option (sys T) :=
  match evs with
  | [] => Some g
  | ev :: evs => g' ← step ev g; steps evs g'
  end.
End sys.
