(* ===== verification/SyncInv.v ===== *)
(** * The invariant of threads that use mutexes and semaphores

    [sys_inv] ties four things together: the scheduler ([shape_inv]: which thread
    may be in the middle of which call), the wait queues ([view_inv]), the
    time-outs ([time_inv]) and the words of the objects ([object_inv], which
    counts threads). Every step of SyncSys preserves it. *)
From stdpp Require Import base gmap list.
From Stdlib Require Import ZArith Lia.
From S2P Require Import Prelude Sched SchedInv SchedOps SchedApi SchedWait Sync SyncView SyncOps SyncSys.

Local Open Scope Z_scope.
Local Open Scope lk_scope.

(** ** Counting threads *)
Definition total (f : Z -> list frame -> Z) (m : gmap Z (list frame)) : Z :=
  map_fold (fun t st acc => f t st + acc) 0 m.

Lemma total_insert f m t st : m !! t = None -> total f (<[t := st]> m) = f t st + total f m.
Proof. intros Hm. unfold total. rewrite map_fold_insert_L; [done| |done]. intros. lia. Qed.

Lemma total_delete f m t st : m !! t = Some st -> total f m = f t st + total f (delete t m).
Proof. intros Hm. rewrite <- total_insert by apply lookup_delete_eq. by rewrite insert_delete_id. Qed.

Lemma total_ext f f' m : (forall t st, m !! t = Some st -> f t st = f' t st) -> total f m = total f' m.
Proof.
  induction m as [|t st m Hm IH] using map_ind; intros He; [done|].
  rewrite !total_insert by done. rewrite (He t st) by apply lookup_insert_eq. f_equal. apply IH.
  intros u su Hu. apply He. rewrite lookup_insert_ne; [done|]. congruence.
Qed.

(** One thread changes; the others count as before. *)
Lemma total_change f f' m t st0 st :
  m !! t = Some st0 -> (forall u su, u <> t -> m !! u = Some su -> f' u su = f u su) ->
  total f' (<[t := st]> m) = total f m - f t st0 + f' t st.
Proof.
  intros Hm He. rewrite (total_delete f m t st0 Hm). rewrite <- insert_delete_eq.
  rewrite total_insert by apply lookup_delete_eq.
  rewrite (total_ext f' f (delete t m)); [lia|]. intros u su [Hne Hu]%lookup_delete_Some. by apply He.
Qed.

Lemma total_same f f' m t st0 :
  m !! t = Some st0 -> (forall u su, u <> t -> m !! u = Some su -> f' u su = f u su) ->
  total f' m = total f m - f t st0 + f' t st0.
Proof. intros Hm He. rewrite <- (total_change f f' m t st0 st0 Hm He). by rewrite insert_id. Qed.

Lemma total_nonneg f m : (forall t st, 0 <= f t st) -> 0 <= total f m.
Proof.
  intros Hf. induction m as [|t st m Hm IH] using map_ind; [done|]. rewrite total_insert by done.
  pose proof (Hf t st). lia.
Qed.

Lemma total_ge f m t st : (forall t st, 0 <= f t st) -> m !! t = Some st -> f t st <= total f m.
Proof. intros Hf Hm. rewrite (total_delete f m t st Hm). pose proof (total_nonneg f (delete t m) Hf). lia. Qed.

(** ** Objects, and the threads waiting for them *)
Inductive obj := OMutex (m : Z) | OSem (a : Z).

#[export] Instance obj_eq_dec : EqDecision obj.
Proof. solve_decision. Defined.

Definition obj_addr (o : obj) : Z := match o with OMutex m => m | OSem a => a end.

Definition target (c : call) : option obj :=
  match c with
  | CMutexAcquire m _ => Some (OMutex m)
  | CSemWait a _ => Some (OSem a)
  | _ => None
  end.

Definition frame_call (f : frame) : call := match f with FCall c | FRelock c => c end.

(** The object a thread with these frames is in a wait for. *)
Fixpoint stack_target (st : list frame) : option obj :=
  match st with
  | [] => None
  | f :: st => match target (frame_call f) with Some o => Some o | None => stack_target st end
  end.

Lemma wait_of_target c a timeout : wait_of c = Some (a, timeout) -> exists o, target c = Some o /\ obj_addr o = a.
Proof. destruct c; cbn; intros [= <- <-]; eexists; done. Qed.

Lemma target_wait_of c o : target c = Some o -> exists timeout, wait_of c = Some (obj_addr o, timeout).
Proof. destruct c; cbn; intros [= <-]; eexists; done. Qed.

Lemma target_None c : wait_of c = None -> target c = None.
Proof. by destruct c. Qed.

Abbreviation views := (Z -> option (option wait_queue_ptr * Z)).

Definition at_obj (o : obj) (t : Z) (st : list frame) : Z := Z.b2z (bool_decide (stack_target st = Some o)).
Definition granted_at (o : obj) (vw : views) (t : Z) (st : list frame) : Z :=
  Z.b2z (bool_decide (stack_target st = Some o) && bool_decide (vw t = Some (None, NO_ERROR))).

(** The threads in a wait for [o], and those of them whose wait ended well. *)
Definition waits (o : obj) (sk : gmap Z (list frame)) : Z := total (at_obj o) sk.
Definition grants (o : obj) (vw : views) (sk : gmap Z (list frame)) : Z := total (granted_at o vw) sk.

Lemma at_obj_nonneg o t st : 0 <= at_obj o t st.
Proof. unfold at_obj. destruct (bool_decide _); cbn; lia. Qed.
Lemma granted_at_nonneg o vw t st : 0 <= granted_at o vw t st.
Proof. unfold granted_at. destruct (_ && _); cbn; lia. Qed.
Lemma granted_at_le o vw t st : granted_at o vw t st <= at_obj o t st.
Proof. unfold granted_at, at_obj. do 2 destruct (bool_decide _); cbn; lia. Qed.

Lemma total_le f f' m : (forall t st, m !! t = Some st -> f t st <= f' t st) -> total f m <= total f' m.
Proof.
  induction m as [|t st m Hm IH] using map_ind; intros Hf; [done|]. rewrite !total_insert by done.
  pose proof (Hf t st ltac:(apply lookup_insert_eq)). enough (total f m <= total f' m) by lia. apply IH.
  intros u su Hu. apply Hf. rewrite lookup_insert_ne; [done|]. congruence.
Qed.

Lemma waits_nonneg o sk : 0 <= waits o sk.
Proof. apply total_nonneg, at_obj_nonneg. Qed.
Lemma grants_nonneg o vw sk : 0 <= grants o vw sk.
Proof. apply total_nonneg, granted_at_nonneg. Qed.
Lemma grants_waits o vw sk : grants o vw sk <= waits o sk.
Proof. apply total_le. intros. apply granted_at_le. Qed.

(** One thread changes its stack or its view. *)
Lemma waits_insert o sk t st0 st : sk !! t = Some st0 -> waits o (<[t := st]> sk) = waits o sk - at_obj o t st0 + at_obj o t st.
Proof. intros Ht. by apply total_change. Qed.

Lemma grants_insert o (vw vw' : views) sk t st0 st :
  sk !! t = Some st0 -> (forall u, u <> t -> vw' u = vw u) ->
  grants o vw' (<[t := st]> sk) = grants o vw sk - granted_at o vw t st0 + granted_at o vw' t st.
Proof. intros Ht Hv. apply total_change; [done|]. intros u su Hu _. unfold granted_at. by rewrite Hv. Qed.

Lemma grants_view o (vw vw' : views) sk t st0 :
  sk !! t = Some st0 -> (forall u, u <> t -> vw' u = vw u) ->
  grants o vw' sk = grants o vw sk - granted_at o vw t st0 + granted_at o vw' t st0.
Proof. intros Ht Hv. apply total_same; [done|]. intros u su Hu _. unfold granted_at. by rewrite Hv. Qed.

Lemma grants_ext o (vw vw' : views) sk : (forall t, vw' t = vw t) -> grants o vw' sk = grants o vw sk.
Proof. intros Hv. apply total_ext. intros. unfold granted_at. by rewrite Hv. Qed.

(** The stacks of a thread that runs undisturbed, and of one that does not run. *)
Definition running_stack (st : list frame) : Prop :=
  st = [] \/ exists c, st = [FRelock c] /\ is_finite_wait c = true.
Definition waiting_stack (st : list frame) : Prop :=
  exists c rest, st = FCall c :: rest /\ (rest = [] \/ (c = CYield /\ running_stack rest)).

Section inv.
Context {T : Type} `{!TimerOps T} `{!Config} `{!TimerLaws T} `{!ConfigLaws}.
Implicit Types (s : sched T) (k : kernel T) (g : sys T) (t cpu m : Z) (th : thread_t).

Definition sch g : sched T := ks (kn g).
Definition owner g : Z := thread_lock_owner (sch g).

Record shape_inv s (sk : gmap Z (list frame)) : Prop := {
  sh_sched : sched_inv (thread_lock_owner s) s;
  sh_owner : thread_lock_owner s = unlocked \/ is_Some (current s !! thread_lock_owner s);
  sh_dom : forall t, is_Some (threads s !! t) <-> is_Some (sk !! t);
  sh_null : threads s !! 0 = None;
  sh_running : forall c t st, current s !! c = Some t -> c <> thread_lock_owner s -> sk !! t = Some st -> running_stack st;
  sh_waiting : forall t st, sk !! t = Some st -> (forall c, current s !! c = Some t -> c = thread_lock_owner s) ->
    waiting_stack st
}.

(** A waiting thread is in the call that waits there; a thread back from a wait
    has a result its call may see. *)
Definition good_view (st : list frame) (v : option (option wait_queue_ptr * Z)) : Prop :=
  match v with
  | Some (Some w, _) => exists c a timeout, st = [FCall c] /\ wait_of c = Some (a, timeout) /\ w = WaitQueueAt a
  | Some (None, r) => forall f, f ∈ st -> is_Some (wait_of (frame_call f)) ->
      r = NO_ERROR \/ (r = ERR_TIMED_OUT /\ is_finite_wait (frame_call f) = true)
  | None => True
  end.

Definition view_inv (vw : Z -> option (option wait_queue_ptr * Z)) (sk : gmap Z (list frame)) : Prop :=
  forall t st, sk !! t = Some st -> good_view st (vw t).

Definition time_inv s (sk : gmap Z (list frame)) : Prop :=
  forall t st, sk !! t = Some st ->
    (timeout_pending (timers s) t = true -> exists c rest, st = FCall c :: rest /\ is_finite_wait c = true) /\
    (forall c rest, st = FCall c :: rest -> is_finite_wait c = true -> timeout_live (timers s) t = true).

(** ** The shape after an operation of the current thread *)
Lemma shape_moved s s' sk cpu t o st' :
  shape_inv s sk -> current s !! cpu = Some t -> thread_lock_owner s = unlocked \/ thread_lock_owner s = cpu ->
  (forall u, is_Some (threads s' !! u) <-> is_Some (threads s !! u)) ->
  moved cpu t o unlocked s s' ->
  match o with Return _ => running_stack st' | Switched => waiting_stack st' end ->
  shape_inv s' (<[t := st']> sk).
Proof.
  intros Hsh Hc Ho Hth [Hinv Hcur _ _ _] Hst.
  pose proof (inv_wf _ _ (sh_sched _ _ Hsh)) as Hwf.
  destruct (wf_current _ _ Hwf _ _ Hc) as (Hv & th & Ht & _).
  assert (forall c u, current s !! c = Some u -> c <> cpu -> u <> t /\ c <> thread_lock_owner s) as Hoth.
  { intros c u Hcu Hne. split; [intros ->; apply Hne; by eapply (wf_current_unique none s); [apply Hwf|..]|].
    destruct (wf_current _ _ Hwf _ _ Hcu) as [Hvc _]. unfold valid_cpu, unlocked in *. destruct Ho; lia. }
  constructor.
  - by rewrite (inv_owner _ _ Hinv).
  - destruct o as [[]|]; [left; by apply (inv_owner _ _ Hinv)|right]. destruct Hcur as (new & _ & ->).
    rewrite (inv_owner _ _ Hinv). cbn. rewrite lookup_insert_eq. by eexists.
  - intros u. rewrite Hth, (sh_dom _ _ Hsh). destruct (decide (u = t)) as [->|]; [|by rewrite lookup_insert_ne].
    rewrite lookup_insert_eq. split; [by eexists|]. intros _. apply (sh_dom _ _ Hsh). by eexists.
  - destruct (threads s' !! 0) eqn:Hz; [|done]. exfalso.
    assert (is_Some (threads s !! 0)) as [? Hx] by (apply Hth; by eexists). by rewrite (sh_null _ _ Hsh) in Hx.
  - intros c u su Hcu Hne Hu. rewrite (inv_owner _ _ Hinv) in Hne. destruct o as [[]|]; cbn in Hne.
    + rewrite Hcur in Hcu. destruct (decide (c = cpu)) as [->|Hcc].
      * assert (u = t) as -> by congruence. rewrite lookup_insert_eq in Hu. by simplify_eq.
      * destruct (Hoth c u Hcu Hcc) as [Hut Hco]. rewrite lookup_insert_ne in Hu by done. by eapply (sh_running _ _ Hsh).
    + destruct Hcur as (new & Hnew & Hcur). rewrite Hcur, lookup_insert_ne in Hcu by done.
      destruct (Hoth c u Hcu Hne) as [Hut Hco]. rewrite lookup_insert_ne in Hu by done. by eapply (sh_running _ _ Hsh).
  - intros u su Hu Hnc. rewrite (inv_owner _ _ Hinv) in Hnc. destruct o as [[]|]; cbn in Hnc.
    + rewrite Hcur in Hnc.
      assert (forall c, current s !! c <> Some u) as Hno.
      { intros c Hcu. pose proof (Hnc c Hcu) as ->. destruct (wf_current _ _ Hwf _ _ Hcu) as [Hvc _].
        unfold valid_cpu, unlocked in *. lia. }
      assert (u <> t) as Hut by (intros ->; by eapply Hno). rewrite lookup_insert_ne in Hu by done.
      apply (sh_waiting _ _ Hsh u); [done|]. intros c Hcu. by apply Hno in Hcu.
    + destruct Hcur as (new & Hnew & Hcur). destruct (decide (u = t)) as [->|Hut].
      { rewrite lookup_insert_eq in Hu. by simplify_eq. }
      rewrite lookup_insert_ne in Hu by done. apply (sh_waiting _ _ Hsh u); [done|].
      intros c Hcu. exfalso. destruct (decide (c = cpu)) as [->|Hcc]; [congruence|].
      apply Hcc, Hnc. by rewrite Hcur, lookup_insert_ne.
Qed.

(** ** The words of the objects *)
Definition obj_exists k (o : obj) : Prop :=
  match o with OMutex m => is_Some (mutexes k !! m) | OSem a => is_Some (semaphores k !! a) end.

Definition own (x : mutex_t) : Z := if m_holder x =? 0 then 0 else 1.

(** The word of a mutex counts its holder and the threads in a wait for it. At
    most one thread holds it or has been handed it; if no call can time out,
    exactly one as soon as the word is positive. *)
Record mutex_inv (vw : views) (sk : gmap Z (list frame)) (gh : ghost_t) m (x : mutex_t) : Prop := {
  mi_magic : m_magic x = MUTEX_MAGIC;
  mi_count : m_count x = own x + waits (OMutex m) sk;
  mi_excl : own x + grants (OMutex m) vw sk <= 1;
  mi_held : forall t, (m, t) ∈ held gh <-> t = m_holder x /\ t <> 0;
  mi_handed : timed gh = false -> 0 < m_count x -> 1 <= own x + grants (OMutex m) vw sk
}.

(** The word of a semaphore is its tokens less the threads in a wait for it.
    Tokens that have been handed over are still there; if no call can time out,
    a thread waits on only when all tokens have been. *)
Record sem_inv (vw : views) (sk : gmap Z (list frame)) (gh : ghost_t) (a : Z) (x : semaphore_t) (n : Z) : Prop := {
  si_tokens : tokens gh !! a = Some n;
  si_count : sem_count x = n - waits (OSem a) sk;
  si_granted : grants (OSem a) vw sk <= n;
  si_handed : timed gh = false -> grants (OSem a) vw sk < waits (OSem a) sk -> grants (OSem a) vw sk = n
}.

(** [sem_trywait] never leaves the cpu. *)
Definition may_switch (c : call) : bool := match c with CSemTryWait _ => false | _ => true end.

Record object_inv k (sk : gmap Z (list frame)) (gh : ghost_t) : Prop := {
  oi_mutex : forall m x, mutexes k !! m = Some x -> mutex_inv (view (ks k)) sk gh m x;
  oi_sem : forall a x, semaphores k !! a = Some x -> exists n, sem_inv (view (ks k)) sk gh a x n;
  oi_wait_ok : forall o, obj_exists k o -> wait_ok (ks k) (obj_addr o);
  oi_disjoint : forall m a, is_Some (mutexes k !! m) -> is_Some (semaphores k !! a) -> m <> a;
  oi_typed : forall t st o, sk !! t = Some st -> stack_target st = Some o -> obj_exists k o;
  oi_held : forall m t, (m, t) ∈ held gh -> is_Some (mutexes k !! m);
  oi_switched : forall t st f, sk !! t = Some st -> f ∈ st -> may_switch (frame_call f) = true;
  oi_timed : timed gh = false -> forall t st f, sk !! t = Some st -> f ∈ st -> is_finite_wait (frame_call f) = false
}.

Record sys_inv g : Prop := {
  in_shape : shape_inv (sch g) (stacks g);
  in_view : view_inv (view (sch g)) (stacks g);
  in_time : time_inv (sch g) (stacks g);
  in_object : object_inv (kn g) (stacks g) (ghost g)
}.

Lemma obj_addr_inj k sk gh o o' :
  object_inv k sk gh -> obj_exists k o -> obj_exists k o' -> obj_addr o = obj_addr o' -> o = o'.
Proof.
  intros Hoi. destruct o as [m|a], o' as [m'|a']; cbn; intros He He' Ha; subst; try done.
  - by destruct (oi_disjoint _ _ _ Hoi _ _ He He').
  - by destruct (oi_disjoint _ _ _ Hoi _ _ He' He).
Qed.

(** A change confined to one object. *)
Definition keeps (o : obj) (vw vw' : views) (sk sk' : gmap Z (list frame)) : Prop :=
  waits o sk' = waits o sk /\ grants o vw' sk' = grants o vw sk.

Definition keeps_ghost (o : obj) (gh gh' : ghost_t) : Prop :=
  match o with
  | OMutex m => forall t, (m, t) ∈ held gh' <-> (m, t) ∈ held gh
  | OSem a => tokens gh' !! a = tokens gh !! a
  end.

Lemma mutex_inv_keeps (vw vw' : views) sk sk' gh gh' m x :
  keeps (OMutex m) vw vw' sk sk' -> keeps_ghost (OMutex m) gh gh' -> (timed gh' = false -> timed gh = false) ->
  mutex_inv vw sk gh m x -> mutex_inv vw' sk' gh' m x.
Proof.
  intros [Hw Hg] Hh Ht [Hm Hc He Hhd Hha]. constructor; rewrite ?Hw, ?Hg; auto. intros t. by rewrite (Hh t).
Qed.

Lemma sem_inv_keeps (vw vw' : views) sk sk' gh gh' a x n :
  keeps (OSem a) vw vw' sk sk' -> keeps_ghost (OSem a) gh gh' -> (timed gh' = false -> timed gh = false) ->
  sem_inv vw sk gh a x n -> sem_inv vw' sk' gh' a x n.
Proof. cbn. intros [Hw Hg] Hh Ht [Htk Hc Hgr Hha]. constructor; rewrite ?Hw, ?Hg, ?Hh; auto. Qed.

Lemma object_inv_change k k' sk sk' gh gh' (o : option obj) :
  object_inv k sk gh ->
  (forall a, wait_ok (ks k) a -> wait_ok (ks k') a) ->
  (forall o', obj_exists k' o' <-> obj_exists k o') ->
  (forall m, o <> Some (OMutex m) -> mutexes k' !! m = mutexes k !! m) ->
  (forall a, o <> Some (OSem a) -> semaphores k' !! a = semaphores k !! a) ->
  (forall o', o <> Some o' -> obj_exists k o' -> keeps o' (view (ks k)) (view (ks k')) sk sk' /\ keeps_ghost o' gh gh') ->
  (timed gh' = false -> timed gh = false /\
     forall t st f, sk' !! t = Some st -> f ∈ st -> is_finite_wait (frame_call f) = false) ->
  (forall t st o', sk' !! t = Some st -> stack_target st = Some o' -> obj_exists k o') ->
  (forall t st f, sk' !! t = Some st -> f ∈ st -> may_switch (frame_call f) = true) ->
  (forall m t, (m, t) ∈ held gh' -> is_Some (mutexes k !! m)) ->
  match o with
  | Some (OMutex m) => forall x, mutexes k' !! m = Some x -> mutex_inv (view (ks k')) sk' gh' m x
  | Some (OSem a) => forall x, semaphores k' !! a = Some x -> exists n, sem_inv (view (ks k')) sk' gh' a x n
  | None => True
  end ->
  object_inv k' sk' gh'.
Proof.
  intros Hoi Hwo Hex Hm Hs Hk Ht Hty Hsw Hh Ho. constructor.
  - intros m x Hx. destruct (decide (o = Some (OMutex m))) as [->|Hne]; [by apply Ho|].
    rewrite Hm in Hx by done. destruct (Hk _ Hne) as [??]; [by eexists|].
    eapply mutex_inv_keeps; [done|done|by intros Hf; destruct (Ht Hf)|]. by apply (oi_mutex _ _ _ Hoi).
  - intros a x Hx. destruct (decide (o = Some (OSem a))) as [->|Hne]; [by apply Ho|].
    rewrite Hs in Hx by done. destruct (Hk _ Hne) as [??]; [by eexists|].
    destruct (oi_sem _ _ _ Hoi _ _ Hx) as [n Hn]. exists n.
    eapply sem_inv_keeps; [done|done|by intros Hf; destruct (Ht Hf)|done].
  - intros o' Ho'%Hex. by apply Hwo, (oi_wait_ok _ _ _ Hoi).
  - intros m a Hm' Ha'. pose proof (proj1 (Hex (OMutex m)) Hm'). pose proof (proj1 (Hex (OSem a)) Ha').
    by apply (oi_disjoint _ _ _ Hoi).
  - intros t st o' Hst Htg. apply Hex. by eapply Hty.
  - intros m t Hin. apply (Hex (OMutex m)). by eapply Hh.
  - done.
  - intros Hti. by apply Ht.
Qed.
End inv.
