(* ===== verification/SyncSteps.v ===== *)
(** * Every step keeps the invariant of SyncInv

    [exec_effect] says what a call may have done to views, time-outs and words;
    [call_parts] and [call_counts] turn that into the invariant. The second half
    of a call is [finish_call]. *)
From stdpp Require Import base gmap list.
From Stdlib Require Import ZArith Lia.
From S2P Require Import Prelude Sched SchedInv SchedOps SchedApi SchedWait Sync SyncView SyncOps SyncSys SyncInv.

Local Open Scope Z_scope.
Local Open Scope lk_scope.

Section steps.
Context {T : Type} `{!TimerOps T} `{!Config} `{!TimerLaws T} `{!ConfigLaws}.
Implicit Types (s : sched T) (k : kernel T) (g : sys T) (t cpu m : Z) (th : thread_t) (c : call) (gh : ghost_t).

Lemma running_thread_view owner s cpu t :
  sched_inv owner s -> current s !! cpu = Some t -> exists r, view s t = Some (None, r).
Proof.
  intros Hinv Hc. destruct (inv_running _ _ Hinv _ _ Hc) as (th & Ht & Hst). exists (wait_queue_block_ret th).
  unfold view. rewrite Ht. cbn. unfold view_of. by rewrite blocked_on_other by congruence.
Qed.

Lemma moved_threads cpu t o kept s s' u :
  moved cpu t o kept s s' -> is_Some (threads s' !! u) <-> is_Some (threads s !! u).
Proof.
  intros Hm. pose proof (mv_idle _ _ _ _ _ _ Hm u) as Hi.
  destruct (threads s' !! u), (threads s !! u); cbn in Hi; split; intros [? ?]; try done; by eexists.
Qed.

(** The stack a call leaves. *)
Definition left_by {A} c (rest : list frame) (o : outcome A) : list frame :=
  match o with Return _ => rest | Switched => FCall c :: rest end.

Lemma finite_target c : wait_of c = None -> is_finite_wait c = false.
Proof. unfold is_finite_wait. by intros ->. Qed.

(** What [exec] promises of the views: a wait blocks, nothing else does. *)
Definition call_did c (o : outcome Z) (d : did) : Prop :=
  match d with
  | Blocks a timeout => wait_of c = Some (a, timeout) /\ o = Switched
  | _ => o = Switched -> wait_of c = None
  end.

Lemma view_inv_after s s' sk cpu t o d st0 st' :
  view_inv (view s) sk -> effect cpu t o d s s' -> sk !! t = Some st0 ->
  good_view st' (view s' t) -> view_inv (view s') (<[t := st']> sk).
Proof.
  intros Hvi Heff Hst Hg u su Hu. destruct (decide (u = t)) as [->|Hne].
  { rewrite lookup_insert_eq in Hu. by simplify_eq. }
  rewrite lookup_insert_ne in Hu by done. rewrite (ef_view _ _ _ _ _ _ Heff).
  destruct d as [|a timeout|a v|a]; cbn; try by apply Hvi.
  - rewrite decide_False by done. by apply Hvi.
  - case_decide; [|by apply Hvi]. cbn. intros f _ _. by left.
Qed.

Lemma time_inv_after s s' sk cpu t o d st' :
  time_inv s sk -> effect cpu t o d s s' ->
  (timeout_pending (timers s') t = true -> exists c rest, st' = FCall c :: rest /\ is_finite_wait c = true) ->
  (forall c rest, st' = FCall c :: rest -> is_finite_wait c = true -> timeout_live (timers s') t = true) ->
  time_inv s' (<[t := st']> sk).
Proof.
  intros Hti Heff H1 H2 u su Hu. destruct (decide (u = t)) as [->|Hne].
  { rewrite lookup_insert_eq in Hu. by simplify_eq. }
  rewrite lookup_insert_ne in Hu by done.
  assert (timeout_pending (timers s') u = timeout_pending (timers s) u /\ timeout_live (timers s') u = timeout_live (timers s) u)
    as [-> ->]; [|by apply Hti].
  pose proof (ef_timeouts _ _ _ _ _ _ Heff) as Htm. destruct d as [|a timeout|a v|a]; try apply Htm.
  specialize (Htm u). by rewrite !decide_False in Htm by done.
Qed.

Lemma call_parts s s' sk cpu t c (o : outcome Z) d :
  shape_inv s sk -> view_inv (view s) sk -> time_inv s sk -> thread_lock_owner s = unlocked ->
  current s !! cpu = Some t -> sk !! t = Some [] -> effect cpu t (forget o) d s s' -> call_did c o d ->
  shape_inv s' (<[t := left_by c [] o]> sk) /\ view_inv (view s') (<[t := left_by c [] o]> sk) /\
  time_inv s' (<[t := left_by c [] o]> sk).
Proof.
  intros Hsh Hvi Hti Ho Hc Hst Heff Hd. pose proof (ef_moved _ _ _ _ _ _ Heff) as Hmv.
  assert (sched_inv unlocked s) as Hinv by (rewrite <- Ho; apply Hsh).
  destruct (running_thread_view _ _ _ _ Hinv Hc) as [r Hr].
  assert (timeout_pending (timers s) t = false) as Hp.
  { destruct (timeout_pending (timers s) t) eqn:Hp; [|done].
    by destruct (proj1 (Hti _ _ Hst) Hp) as (c' & rest & ? & _). }
  split_and!.
  - eapply shape_moved; [done|done|by left| |done|].
    + intros u. by eapply moved_threads.
    + destruct o; cbn; [by left|]. exists c, []. split; [done|by left].
  - eapply view_inv_after; [done|done|done|]. rewrite (ef_view _ _ _ _ _ _ Heff).
    assert (call_did c o d -> (forall a timeout, d <> Blocks a timeout) -> good_view (left_by c [] o) (Some (None, r))) as Hq.
    { intros Hcd Hnb f Hf Hw. destruct o as [|]; cbn in Hf; [by apply elem_of_nil in Hf|].
      apply list_elem_of_singleton in Hf as ->. cbn in Hw. destruct d as [|a timeout|a v|a]; cbn in Hcd;
        try (rewrite Hcd in Hw by done; by destruct Hw). by destruct (Hnb a timeout). }
    destruct d as [|a timeout|a v|a]; cbn [view_after]; rewrite ?Hr; try by apply Hq.
    + rewrite decide_True by done. destruct Hd as [Hw ->]. cbn. by exists c, a, timeout.
    + destruct (ef_before _ _ _ _ _ _ Heff) as [Hne _]. rewrite decide_False by congruence. by apply Hq.
  - pose proof (ef_timeouts _ _ _ _ _ _ Heff) as Htm.
    assert (same_timeouts s s' -> (o = Switched -> wait_of c = None) -> time_inv s' (<[t := left_by c [] o]> sk)) as Hq.
    { intros Hs Hw. eapply time_inv_after; [done|done| |].
      - destruct (Hs t) as [-> _]. by rewrite Hp.
      - intros c' rest Heq Hf. destruct o; cbn in Heq; [done|]. injection Heq as <- <-.
        by rewrite finite_target in Hf by (by apply Hw). }
    destruct d as [|a timeout|a v|a]; cbn in Hd, Htm; try by apply Hq.
    destruct Hd as [Hw ->]. specialize (Htm t). rewrite !decide_True in Htm by done. destruct Htm as [Hp' Hl'].
    eapply time_inv_after; [done|done| |].
    + intros Hpt. exists c, []. split; [done|]. unfold is_finite_wait. rewrite Hw. congruence.
    + intros c' rest [= <- <-] Hf. unfold is_finite_wait in Hf. rewrite Hw in Hf. by rewrite Hl', Hf.
Qed.

(** ** Counting after an operation *)
Definition bonus (ob : obj) (d : did) : Z :=
  match d with Wakes a _ => Z.b2z (bool_decide (obj_addr ob = a)) | _ => 0 end.

Lemma woken_thread k sk gh t a u :
  shape_inv (ks k) sk -> view_inv (view (ks k)) sk -> object_inv k sk gh -> did_before t (Wakes a u) (ks k) ->
  exists st o r, sk !! u = Some st /\ stack_target st = Some o /\ obj_addr o = a /\ obj_exists k o /\
    view (ks k) u = Some (Some (WaitQueueAt a), r).
Proof.
  intros Hsh Hvi Hoi [Hne [r Hr]].
  assert (is_Some (sk !! u)) as [st Hst].
  { apply (sh_dom _ _ Hsh). unfold view in Hr. destruct (threads (ks k) !! u); [by eexists|done]. }
  pose proof (Hvi _ _ Hst) as Hg. rewrite Hr in Hg. destruct Hg as (c & a' & timeout & -> & Hw & [= <-]).
  destruct (wait_of_target _ _ _ Hw) as (o & Ho & Ha). exists [FCall c], o, r.
  assert (stack_target [FCall c] = Some o) as Hto by (cbn; by rewrite Ho).
  split_and!; [done|done|done| |done]. by eapply (oi_typed _ _ _ Hoi).
Qed.

Lemma effect_counts k k' sk gh cpu t o d st0 st' ob :
  shape_inv (ks k) sk -> view_inv (view (ks k)) sk -> object_inv k sk gh -> effect cpu t o d (ks k) (ks k') ->
  sk !! t = Some st0 -> obj_exists k ob ->
  waits ob (<[t := st']> sk) = waits ob sk - at_obj ob t st0 + at_obj ob t st' /\
  grants ob (view (ks k')) (<[t := st']> sk) =
    grants ob (view (ks k)) sk - granted_at ob (view (ks k)) t st0 + granted_at ob (view (ks k')) t st' + bonus ob d.
Proof.
  intros Hsh Hvi Hoi Heff Hst Hob. split; [by apply waits_insert|].
  pose proof (ef_view _ _ _ _ _ _ Heff) as Hv. destruct d as [|a timeout|a u|a]; cbn [bonus].
  - rewrite (grants_insert ob (view (ks k)) (view (ks k')) sk t st0 st' Hst) by (intros u Hu; by rewrite Hv). lia.
  - rewrite (grants_insert ob (view (ks k)) (view (ks k')) sk t st0 st' Hst); [lia|].
    intros u Hu. rewrite Hv. cbn. by rewrite decide_False.
  - pose proof (ef_before _ _ _ _ _ _ Heff) as Hb. destruct (woken_thread k sk gh t a u Hsh Hvi Hoi Hb)
      as (stu & o' & r & Hstu & Htg & Ha & Ho' & Hr). destruct Hb as [Hne _].
    rewrite (grants_insert ob (view (ks k')) (view (ks k')) sk t st0 st' Hst) by done.
    rewrite (grants_view ob (view (ks k)) (view (ks k')) sk u stu Hstu).
    2: { intros v Hu. rewrite Hv. cbn. by rewrite decide_False. }
    assert (granted_at ob (view (ks k')) t st0 = granted_at ob (view (ks k)) t st0) as ->.
    { unfold granted_at. rewrite Hv. cbn. by rewrite decide_False. }
    assert (granted_at ob (view (ks k)) u stu = 0) as ->.
    { unfold granted_at. rewrite Hr, Htg. rewrite (bool_decide_eq_false_2 (Some _ = Some (None, _))) by done.
      by rewrite andb_false_r. }
    assert (granted_at ob (view (ks k')) u stu = Z.b2z (bool_decide (obj_addr ob = a))) as ->; [|lia].
    unfold granted_at. rewrite Hv, Htg. cbn. rewrite decide_True by done.
    rewrite (bool_decide_eq_true_2 (Some (None, NO_ERROR) = _)) by done. rewrite andb_true_r. f_equal.
    apply bool_decide_ext. split; [by intros [= ->]|]. intros Hoa. f_equal. symmetry.
    eapply obj_addr_inj; [done|done|done|congruence].
  - rewrite (grants_insert ob (view (ks k)) (view (ks k')) sk t st0 st' Hst) by (intros u Hu; by rewrite Hv). lia.
Qed.

(** ... of a call, which starts with an empty stack. *)
Definition joins c (d : did) (ob : obj) : Z :=
  match d with Blocks _ _ => Z.b2z (bool_decide (target c = Some ob)) | _ => 0 end.

Lemma call_counts k k' sk gh cpu t c (o : outcome Z) d ob :
  shape_inv (ks k) sk -> view_inv (view (ks k)) sk -> object_inv k sk gh -> effect cpu t (forget o) d (ks k) (ks k') ->
  sk !! t = Some [] -> call_did c o d -> obj_exists k ob ->
  waits ob (<[t := left_by c [] o]> sk) = waits ob sk + joins c d ob /\
  grants ob (view (ks k')) (<[t := left_by c [] o]> sk) = grants ob (view (ks k)) sk + bonus ob d.
Proof.
  intros Hsh Hvi Hoi Heff Hst Hd Hob.
  destruct (effect_counts k k' sk gh cpu t _ d [] (left_by c [] o) ob Hsh Hvi Hoi Heff Hst Hob) as [-> ->].
  change (at_obj ob t []) with 0. change (granted_at ob (view (ks k)) t []) with 0.
  assert (at_obj ob t (left_by c [] o) = joins c d ob) as ->.
  { unfold at_obj, joins. destruct d as [|a timeout|a u|a]; cbn in Hd; try by (destruct o; cbn; [done|]; rewrite (target_None c) by (by apply Hd)).
    destruct Hd as [Hw ->]. cbn. by destruct (wait_of_target _ _ _ Hw) as (o' & -> & _). }
  assert (granted_at ob (view (ks k')) t (left_by c [] o) = 0) as ->; [|lia].
  unfold granted_at. destruct d as [|a timeout|a u|a]; cbn in Hd; try by (destruct o; cbn; [done|]; rewrite (target_None c) by (by apply Hd)).
  rewrite (ef_view _ _ _ _ _ _ Heff). cbn. rewrite decide_True by done.
  rewrite (bool_decide_eq_false_2 (Some _ = Some (None, _))) by done. by rewrite andb_false_r.
Qed.

(** With no time-outs about, a thread still waits if there are more waits than grants. *)
Lemma all_granted k sk gh ob :
  shape_inv (ks k) sk -> view_inv (view (ks k)) sk -> object_inv k sk gh -> timed gh = false ->
  (forall u r, view (ks k) u <> Some (Some (WaitQueueAt (obj_addr ob)), r)) -> grants ob (view (ks k)) sk = waits ob sk.
Proof.
  intros Hsh Hvi Hoi Ht Hno. apply total_ext. intros u st Hst. unfold granted_at, at_obj. f_equal.
  destruct (decide (stack_target st = Some ob)) as [Htg|]; [|by rewrite bool_decide_eq_false_2].
  rewrite (bool_decide_eq_true_2 (stack_target st = _)) by done. cbn. apply bool_decide_eq_true.
  assert (is_Some (threads (ks k) !! u)) as [th Hth] by (apply (sh_dom _ _ Hsh); by eexists).
  destruct (view (ks k) u) as [[[w|] r]|] eqn:Hv; [| |unfold view in Hv; by rewrite Hth in Hv].
  - pose proof (Hvi _ _ Hst) as Hg. rewrite Hv in Hg. destruct Hg as (c & a & timeout & -> & Hw & ->).
    destruct (wait_of_target _ _ _ Hw) as (o' & Ho' & Ha). cbn in Htg. rewrite Ho' in Htg. injection Htg as ->.
    subst a. by destruct (Hno u r).
  - pose proof (Hvi _ _ Hst) as Hg. rewrite Hv in Hg. cbn in Hg.
    assert (exists f, f ∈ st /\ is_Some (wait_of (frame_call f))) as (f & Hf & Hw).
    { clear -Htg. induction st as [|f st IH]; cbn in Htg; [done|]. destruct (target (frame_call f)) as [o|] eqn:Ho.
      - exists f. split; [by left|]. destruct (target_wait_of _ _ Ho) as [? ->]. by eexists.
      - destruct IH as (f' & ? & ?); [done|]. exists f'. split; [by right|done]. }
    destruct (Hg f Hf Hw) as [->|[_ Hfin]]; [done|]. by rewrite (oi_timed _ _ _ Hoi Ht _ _ _ Hst Hf) in Hfin.
Qed.
End steps.
