(* ===== verification/SyncCalls.v ===== *)
(** * The words of the objects after a call *)
From stdpp Require Import base gmap list.
From Stdlib Require Import ZArith Lia.
From S2P Require Import Prelude Sched SchedInv SchedOps SchedApi SchedWait Sync SyncView SyncOps SyncSys SyncInv SyncSteps.

Local Open Scope Z_scope.
Local Open Scope lk_scope.

Section calls.
Context {T : Type} `{!TimerOps T} `{!Config} `{!TimerLaws T} `{!ConfigLaws}.
Implicit Types (s : sched T) (k : kernel T) (g : sys T) (t cpu m : Z) (th : thread_t) (c : call) (gh : ghost_t).

(** What [call_parts], [call_counts] and the lemmas below share: a quiet system
    in which [t] on [cpu] is in no call. *)
Record ready k (sk : gmap Z (list frame)) gh cpu t : Prop := {
  rd_shape : shape_inv (ks k) sk;
  rd_view : view_inv (view (ks k)) sk;
  rd_time : time_inv (ks k) sk;
  rd_object : object_inv k sk gh;
  rd_caller : caller cpu t k;
  rd_stack : sk !! t = Some []
}.

Lemma object_inv_call k k' sk gh gh' cpu t c (o : outcome Z) d (ob : option obj) :
  ready k sk gh cpu t -> effect cpu t (forget o) d (ks k) (ks k') -> call_did c o d ->
  (o = Switched -> may_switch c = true /\ forall o', target c = Some o' -> obj_exists k o') ->
  (forall o', obj_exists k' o' <-> obj_exists k o') ->
  (forall m, ob <> Some (OMutex m) -> mutexes k' !! m = mutexes k !! m) ->
  (forall a, ob <> Some (OSem a) -> semaphores k' !! a = semaphores k !! a) ->
  (forall o', ob <> Some o' -> obj_exists k o' -> joins c d o' = 0 /\ bonus o' d = 0 /\ keeps_ghost o' gh gh') ->
  (timed gh' = false -> timed gh = false /\ is_finite_wait c = false) ->
  (forall m u, (m, u) ∈ held gh' -> is_Some (mutexes k !! m)) ->
  match ob with
  | Some (OMutex m) => forall x, mutexes k' !! m = Some x -> mutex_inv (view (ks k')) (<[t := left_by c [] o]> sk) gh' m x
  | Some (OSem a) => forall x, semaphores k' !! a = Some x ->
      exists n, sem_inv (view (ks k')) (<[t := left_by c [] o]> sk) gh' a x n
  | None => True
  end ->
  object_inv k' (<[t := left_by c [] o]> sk) gh'.
Proof.
  intros [Hsh Hvi Hti Hoi Hca Hst] Heff Hd Hsw Hex Hm Hs Hk Ht Hh Hob.
  assert (forall P : frame -> Prop, (o = Switched -> P (FCall c)) -> (forall u st f, sk !! u = Some st -> f ∈ st -> P f) ->
    forall u st f, <[t := left_by c [] o]> sk !! u = Some st -> f ∈ st -> P f) as Hframes.
  { intros P Hc Hold u st f Hu Hf. destruct (decide (u = t)) as [->|Hne].
    - rewrite lookup_insert_eq in Hu. injection Hu as <-. destruct o; cbn in Hf; [by apply elem_of_nil in Hf|].
      apply list_elem_of_singleton in Hf as ->. by apply Hc.
    - rewrite lookup_insert_ne in Hu by done. by eapply Hold. }
  eapply (object_inv_change k k' sk _ gh gh' ob); try done.
  - intros a. by apply (wait_ok_effect _ _ _ _ _ _ _ Heff).
  - intros o' Hne Ho'. destruct (Hk o' Hne Ho') as (Hj & Hb & Hg). split; [|done].
    destruct (call_counts k k' sk gh cpu t c o d o' Hsh Hvi Hoi Heff Hst Hd Ho') as [Hw Hgr]. split; lia.
  - intros Hti'. destruct (Ht Hti') as [Ht0 Hf]. split; [done|].
    apply (Hframes (fun f => is_finite_wait (frame_call f) = false)); [done|]. by apply (oi_timed _ _ _ Hoi).
  - intros u st o' Hu Htg. destruct (decide (u = t)) as [->|Hne].
    + rewrite lookup_insert_eq in Hu. injection Hu as <-. destruct o; cbn in Htg; [done|].
      destruct (target c) eqn:Hc; [|done]. apply Hsw; congruence.
    + rewrite lookup_insert_ne in Hu by done. by eapply (oi_typed _ _ _ Hoi).
  - apply (Hframes (fun f => may_switch (frame_call f) = true)); [intros Hx; by destruct (Hsw Hx)|]. apply (oi_switched _ _ _ Hoi).
Qed.

Lemma timed_note t c gh : timed (note_call t c gh) = false -> timed gh = false /\ is_finite_wait c = false.
Proof. destruct c; cbn; auto; by intros [??]%orb_false_iff. Qed.

Lemma exists_insert_mutex k s m x y ss k' :
  becomes k s (<[m := y]> (mutexes k)) ss k' -> mutexes k !! m = Some x -> ss = semaphores k ->
  forall o, obj_exists k' o <-> obj_exists k o.
Proof.
  intros (_ & Hm & Hs & _) Hx -> [m'|a]; cbn; rewrite ?Hm, ?Hs; [|done]. rewrite lookup_insert_is_Some'.
  split; [|by right]. intros [<-|]; [by eexists|done].
Qed.

Lemma exists_insert_sem k s (a : Z) x y ms k' :
  becomes k s ms (<[a := y]> (semaphores k)) k' -> semaphores k !! a = Some x -> ms = mutexes k ->
  forall o, obj_exists k' o <-> obj_exists k o.
Proof.
  intros (_ & Hm & Hs & _) Hx -> [m|a']; cbn; rewrite ?Hm, ?Hs; [done|]. rewrite lookup_insert_is_Some'.
  split; [|by right]. intros [<-|]; [by eexists|done].
Qed.

Lemma caller_nonzero k sk gh cpu t : ready k sk gh cpu t -> t <> 0.
Proof.
  intros Hrd ->. destruct (ca_thread _ _ _ (rd_caller _ _ _ _ _ Hrd)) as (th & Hth & _).
  by rewrite (sh_null _ _ (rd_shape _ _ _ _ _ Hrd)) in Hth.
Qed.

Lemma ready_not_pending k sk gh cpu t : ready k sk gh cpu t -> timeout_pending (timers (ks k)) t = false.
Proof.
  intros Hrd. destruct (timeout_pending _ t) eqn:Hp; [|done].
  by destruct (proj1 (rd_time _ _ _ _ _ Hrd _ _ (rd_stack _ _ _ _ _ Hrd)) Hp) as (c' & rest & ? & _).
Qed.

Lemma ready_mutex k sk gh cpu t m x : ready k sk gh cpu t -> mutexes k !! m = Some x -> mutex_ready m k x.
Proof.
  intros Hrd Hx. split_and!; [done|exact (mi_magic _ _ _ _ _ (oi_mutex _ _ _ (rd_object _ _ _ _ _ Hrd) _ _ Hx))|].
  apply (oi_wait_ok _ _ _ (rd_object _ _ _ _ _ Hrd) (OMutex m)). by eexists.
Qed.

Lemma ready_sem k sk gh cpu t a x : ready k sk gh cpu t -> semaphores k !! a = Some x -> sem_ready a k x.
Proof.
  intros Hrd Hx. split; [done|]. apply (oi_wait_ok _ _ _ (rd_object _ _ _ _ _ Hrd) (OSem a)). by eexists.
Qed.

(** What a call and its ghost bookkeeping leave behind. *)
Definition gone_well k sk gh cpu t c : Prop :=
  exists o d k', exec cpu c k = Some (o, k') /\ effect cpu t (forget o) d (ks k) (ks k') /\ call_did c o d /\
    object_inv k' (<[t := left_by c [] o]> sk)
      (match o with Return r => note_return t c r (note_call t c gh) | Switched => note_call t c gh end).

(** A call on one mutex: what is left to show is about its word. *)
Lemma mutex_call k sk gh cpu t c (o : outcome Z) d k' m x y :
  ready k sk gh cpu t -> effect cpu t (forget o) d (ks k) (ks k') -> call_did c o d -> exec cpu c k = Some (o, k') ->
  mutexes k !! m = Some x -> becomes k (ks k') (<[m := y]> (mutexes k)) (semaphores k) k' ->
  (c = CMutexRelease m \/ exists timeout, c = CMutexAcquire m timeout) ->
  (forall o', obj_exists k o' -> OMutex m <> o' -> joins c d o' = 0 /\ bonus o' d = 0) ->
  (waits (OMutex m) (<[t := left_by c [] o]> sk) = waits (OMutex m) sk + joins c d (OMutex m) ->
   grants (OMutex m) (view (ks k')) (<[t := left_by c [] o]> sk) = grants (OMutex m) (view (ks k)) sk + bonus (OMutex m) d ->
   mutex_inv (view (ks k')) (<[t := left_by c [] o]> sk)
     (match o with Return r => note_return t c r (note_call t c gh) | Switched => note_call t c gh end) m y) ->
  gone_well k sk gh cpu t c.
Proof.
  intros Hrd Heff Hd Hr Hx Hb Hc Hoth Hy. exists o, d, k'. split_and!; [done..|].
  destruct (call_counts k k' sk gh cpu t c o d (OMutex m) (rd_shape _ _ _ _ _ Hrd) (rd_view _ _ _ _ _ Hrd)
    (rd_object _ _ _ _ _ Hrd) Heff (rd_stack _ _ _ _ _ Hrd) Hd ltac:(by eexists)) as [Hw Hg].
  set (gh' := match o with Return r => _ | Switched => _ end) in *.
  assert (tokens gh' = tokens gh /\ (timed gh' = timed (note_call t c gh)) /\
    forall m' u, (m', u) ∈ held gh' -> (m', u) ∈ held gh \/ m' = m) as (Htk & Htm & Hhd).
  { subst gh'. unfold note_return. destruct Hc as [->|[timeout ->]]; destruct o as [r|]; try destruct (r =? NO_ERROR);
      split_and!; try done; cbn; intros m' u; rewrite ?elem_of_cons, ?list_elem_of_filter; try tauto.
    intros [[= -> ->]|]; auto. }
  assert (forall m' u, m' <> m -> (m', u) ∈ held gh -> (m', u) ∈ held gh') as Hhd'.
  { intros m' u Hne Hu. subst gh'. unfold note_return. destruct Hc as [->|[timeout ->]]; destruct o as [r|]; try destruct (r =? NO_ERROR);
      cbn; rewrite ?elem_of_cons, ?list_elem_of_filter; auto; split; congruence. }
  eapply (object_inv_call k k' sk gh gh' cpu t c o d (Some (OMutex m))); try done.
  - intros _. destruct Hc as [->|[timeout ->]]; (split; [done|]); intros o' [= <-]. by eexists.
  - by eapply exists_insert_mutex.
  - intros m' Hm'. destruct Hb as (_ & -> & _). rewrite lookup_insert_ne; [done|congruence].
  - intros a _. by destruct Hb as (_ & _ & -> & _).
  - intros o' Ho' Hex'. destruct (Hoth o' Hex') as [-> ->]; [congruence|]. split_and!; [done..|].
    destruct o' as [m'|a']; cbn; [|by rewrite Htk]. intros u. assert (m' <> m) by congruence. split; [|by apply Hhd'].
    by intros [?|?]%Hhd.
  - rewrite Htm. apply timed_note.
  - intros m' u [Hin| ->]%Hhd; [by eapply (oi_held _ _ _ (rd_object _ _ _ _ _ Hrd))|by eexists].
  - intros x' Hx'. destruct Hb as (_ & Hms & _). rewrite Hms, lookup_insert_eq in Hx'. injection Hx' as <-. by apply Hy.
Qed.

Lemma acquire_object k sk gh cpu t m timeout x :
  ready k sk gh cpu t -> mutexes k !! m = Some x -> t <> m_holder x -> 0 <= timeout <= INFINITE_TIME ->
  gone_well k sk gh cpu t (CMutexAcquire m timeout).
Proof.
  intros Hrd Hx Hne Hto. set (c := CMutexAcquire m timeout).
  destruct (acquire_run cpu t m timeout k x (rd_caller _ _ _ _ _ Hrd) (ready_mutex _ _ _ _ _ _ _ Hrd Hx) Hne Hto
    (ready_not_pending _ _ _ _ _ Hrd)) as (o & d & k' & Hr & Heff & Hcases).
  pose proof (oi_mutex _ _ _ (rd_object _ _ _ _ _ Hrd) _ _ Hx) as [Hmg Hcnt Hex Hhd Hha].
  pose proof (waits_nonneg (OMutex m) sk) as Hw0. pose proof (grants_nonneg (OMutex m) (view (ks k)) sk) as Hg0.
  pose proof (grants_waits (OMutex m) (view (ks k)) sk) as Hgw. pose proof (caller_nonzero _ _ _ _ _ Hrd) as Ht0.
  destruct (Z.gtb_spec (m_count x + 1) 1) as [Hc1|Hc1]; [destruct (Z.eqb_spec timeout 0) as [Hz|Hz]|];
    destruct Hcases as (-> & -> & Hb).
  - eapply (mutex_call k sk gh cpu t c); try done; [right; by eexists|]. intros Hw Hg.
    constructor; unfold own in *; cbn in Hw, Hg |- *; rewrite ?Hw, ?Hg; [done|lia|lia|done|].
    intros [Hti _]%orb_false_iff Hp. specialize (Hha Hti). lia.
  - eapply (mutex_call k sk gh cpu t c); try done; [right; by eexists| |].
    { intros o' _ Ho'. split; [|done]. cbn. by rewrite bool_decide_eq_false_2 by congruence. }
    intros Hw Hg. assert (joins c (Blocks m timeout) (OMutex m) = 1) as Hj by (cbn; by rewrite bool_decide_eq_true_2).
    constructor; unfold own in *; cbn -[joins] in Hw, Hg |- *; rewrite ?Hw, ?Hg, ?Hj; [done|lia|lia|done|].
    intros [Hti _]%orb_false_iff Hp. specialize (Hha Hti). lia.
  - eapply (mutex_call k sk gh cpu t c); try done; [right; by eexists|]. intros Hw Hg.
    assert (m_holder x = 0) as Hx0 by (unfold own in *; destruct (Z.eqb_spec (m_holder x) 0); lia).
    constructor; unfold own in *; cbn in Hw, Hg |- *; rewrite ?Hw, ?Hg, ?(proj2 (Z.eqb_neq _ _) Ht0), ?Hx0 in *; cbn in *; try done; try lia.
    intros u. rewrite elem_of_cons. split; [|intros [-> _]; by left]. intros [[= ->]|[? ?]%Hhd]; [done|congruence].
Qed.

Lemma release_object k sk gh cpu t m x :
  ready k sk gh cpu t -> mutexes k !! m = Some x -> t = m_holder x -> gone_well k sk gh cpu t (CMutexRelease m).
Proof.
  intros Hrd Hx He. set (c := CMutexRelease m).
  destruct (release_run cpu t m k x (rd_caller _ _ _ _ _ Hrd) (ready_mutex _ _ _ _ _ _ _ Hrd Hx) He)
    as (o & d & k' & Hr & Heff & Ho & Hd & Hb).
  pose proof (oi_mutex _ _ _ (rd_object _ _ _ _ _ Hrd) _ _ Hx) as [Hmg Hcnt Hex Hhd Hha].
  pose proof (waits_nonneg (OMutex m) sk) as Hw0. pose proof (grants_nonneg (OMutex m) (view (ks k)) sk) as Hg0.
  pose proof (caller_nonzero _ _ _ _ _ Hrd) as Ht0.
  assert (own x = 1) as Hown by (unfold own; subst t; by rewrite (proj2 (Z.eqb_neq _ _) Ht0)).
  assert (d = Quiet \/ d = Nobody m \/ exists u, d = Wakes m u) as Hdd
    by (destruct (m_count x - 1 >=? 1); [destruct Hd|]; auto).
  assert (call_did c o d) as Hcd by (by destruct Hdd as [->|[->|[u ->]]]).
  eapply (mutex_call k sk gh cpu t c); try done; [by left| |].
  { intros o' Hex' Ho'. destruct Hdd as [->|[->|[u ->]]]; cbn; try done. split; [done|].
    rewrite bool_decide_eq_false_2; [done|]. intros Ha. apply Ho'.
    by eapply (obj_addr_inj k sk gh (OMutex m)); [apply Hrd|by eexists|..]. }
  intros Hw Hg. assert (joins c d (OMutex m) = 0) as Hj by (by destruct Hdd as [->|[->|[u ->]]]).
  assert (note_call t c gh = match o with Return r => note_return t c r (note_call t c gh) | Switched => note_call t c gh end) as <-
    by (destruct Ho as [->| ->]; done).
  assert (0 <= bonus (OMutex m) d <= 1) as Hb1.
  { destruct Hdd as [->|[->|[u ->]]]; cbn; [lia|lia|]. by rewrite bool_decide_eq_true_2. }
  constructor; unfold own; cbn [note_call c held timed m_magic m_holder m_count]; rewrite ?Hw, ?Hg, ?Hj; cbn [Z.eqb]; [done|lia|lia| |].
  - intros u. rewrite list_elem_of_filter, Hhd. split; [|lia]. intros [Hne [-> _]]. by subst t.
  - intros Hti Hp. destruct Hdd as [->|[->|[u ->]]]; cbn [bonus].
    + exfalso. destruct (Z.geb_spec (m_count x - 1) 1); [by destruct Hd as [[u ?]|]|lia].
    + pose proof (all_granted k sk gh (OMutex m) (rd_shape _ _ _ _ _ Hrd) (rd_view _ _ _ _ _ Hrd) (rd_object _ _ _ _ _ Hrd) Hti
        (ef_before _ _ _ _ _ _ Heff)). lia.
    + cbn [obj_addr]. rewrite bool_decide_eq_true_2 by done. cbn. lia.
Qed.

(** ** Semaphores *)
Definition calls_sem c (a : Z) : Prop :=
  c = CSemTryWait a \/ (exists resched, c = CSemPost a resched) \/ exists timeout, c = CSemWait a timeout.

(** What the call adds to the tokens. *)
Definition gain c (o : outcome Z) : Z :=
  match c, o with
  | CSemPost _ _, _ => 1
  | CSemWait _ _, Return r | CSemTryWait _, Return r => if r =? NO_ERROR then -1 else 0
  | _, _ => 0
  end.

Definition ghost_after t c (o : outcome Z) gh : ghost_t :=
  match o with Return r => note_return t c r (note_call t c gh) | Switched => note_call t c gh end.

Lemma ghost_after_sem t c (o : outcome Z) gh a :
  calls_sem c a -> held (ghost_after t c o gh) = held gh /\ timed (ghost_after t c o gh) = timed (note_call t c gh) /\
    (forall a', a' <> a -> tokens (ghost_after t c o gh) !! a' = tokens gh !! a') /\
    forall n, tokens gh !! a = Some n -> tokens (ghost_after t c o gh) !! a = Some (n + gain c o).
Proof.
  intros Hc. assert (forall n, n + 0 = n) as Hz by lia. assert (forall n, tokens gh !! a = Some n -> tokens gh !! a = Some (n + 0)) as Hz' by (intros n ->; by rewrite Hz).
  unfold ghost_after, note_return, gain. destruct Hc as [->|[[b ->]|[timeout ->]]]; destruct o as [r|]; try destruct (r =? NO_ERROR);
    cbn; split_and!; try done; try (intros a' Ha'; by rewrite lookup_alter_ne by congruence);
    intros n Hn; by rewrite lookup_alter_eq, Hn.
Qed.

Lemma sem_call k sk gh cpu t c (o : outcome Z) d k' a x y n :
  ready k sk gh cpu t -> effect cpu t (forget o) d (ks k) (ks k') -> call_did c o d -> exec cpu c k = Some (o, k') ->
  semaphores k !! a = Some x -> becomes k (ks k') (mutexes k) (<[a := y]> (semaphores k)) k' -> calls_sem c a ->
  (o = Switched -> may_switch c = true) ->
  (forall o', obj_exists k o' -> OSem a <> o' -> joins c d o' = 0 /\ bonus o' d = 0) ->
  sem_inv (view (ks k)) sk gh a x n ->
  (waits (OSem a) (<[t := left_by c [] o]> sk) = waits (OSem a) sk + joins c d (OSem a) ->
   grants (OSem a) (view (ks k')) (<[t := left_by c [] o]> sk) = grants (OSem a) (view (ks k)) sk + bonus (OSem a) d ->
   tokens (ghost_after t c o gh) !! a = Some (n + gain c o) ->
   sem_inv (view (ks k')) (<[t := left_by c [] o]> sk) (ghost_after t c o gh) a y (n + gain c o)) ->
  gone_well k sk gh cpu t c.
Proof.
  intros Hrd Heff Hd Hr Hx Hb Hc Hsw Hoth Hinv Hy. exists o, d, k'. split_and!; [done..|].
  destruct (call_counts k k' sk gh cpu t c o d (OSem a) (rd_shape _ _ _ _ _ Hrd) (rd_view _ _ _ _ _ Hrd)
    (rd_object _ _ _ _ _ Hrd) Heff (rd_stack _ _ _ _ _ Hrd) Hd ltac:(by eexists)) as [Hw Hg].
  destruct (ghost_after_sem t c o gh a Hc) as (Hhd & Htm & Htk & Htk'). fold (ghost_after t c o gh).
  eapply (object_inv_call k k' sk gh _ cpu t c o d (Some (OSem a))); try done.
  - intros Ho. split; [by apply Hsw|]. destruct Hc as [->|[[b ->]|[timeout ->]]]; intros o' [= <-]. by eexists.
  - by eapply exists_insert_sem.
  - intros m' _. by destruct Hb as (_ & -> & _).
  - intros a' Ha'. destruct Hb as (_ & _ & -> & _). rewrite lookup_insert_ne; [done|congruence].
  - intros o' Ho' Hex'. destruct (Hoth o' Hex') as [-> ->]; [congruence|]. split_and!; [done..|].
    destruct o' as [m'|a']; cbn; [by rewrite Hhd|]. apply Htk. congruence.
  - rewrite Htm. apply timed_note.
  - rewrite Hhd. apply (oi_held _ _ _ (rd_object _ _ _ _ _ Hrd)).
  - intros x' Hx'. destruct Hb as (_ & _ & Hss & _). rewrite Hss, lookup_insert_eq in Hx'. injection Hx' as <-.
    eexists. apply Hy; [done|done|]. apply Htk'. apply Hinv.
Qed.

Lemma no_bonus_else k sk gh c d a (o' : obj) :
  object_inv k sk gh -> obj_exists k (OSem a) -> d = Quiet \/ d = Nobody a \/ (exists u, d = Wakes a u) ->
  obj_exists k o' -> OSem a <> o' -> joins c d o' = 0 /\ bonus o' d = 0.
Proof.
  intros Hoi Ha [->|[->|[u ->]]] Hex' Ho'; cbn; try done. split; [done|]. rewrite bool_decide_eq_false_2; [done|].
  intros Hq. apply Ho'. by eapply (obj_addr_inj k sk gh).
Qed.

Lemma sem_wait_object k sk gh cpu t a timeout x :
  ready k sk gh cpu t -> semaphores k !! a = Some x -> 0 <= timeout <= INFINITE_TIME ->
  gone_well k sk gh cpu t (CSemWait a timeout).
Proof.
  intros Hrd Hx Hto. set (c := CSemWait a timeout).
  destruct (sem_wait_run cpu t a timeout k x (rd_caller _ _ _ _ _ Hrd) (ready_sem _ _ _ _ _ _ _ Hrd Hx) Hto
    (ready_not_pending _ _ _ _ _ Hrd)) as (o & d & k' & Hr & Heff & Hcases).
  destruct (oi_sem _ _ _ (rd_object _ _ _ _ _ Hrd) _ _ Hx) as (n & Hinv). pose proof Hinv as [Htk Hcnt Hgr Hha].
  pose proof (waits_nonneg (OSem a) sk) as Hw0. pose proof (grants_waits (OSem a) (view (ks k)) sk) as Hgw.
  assert (calls_sem c a) as Hca by (right; right; by eexists).
  destruct (Z.ltb_spec (sem_count x - 1) 0) as [Hc1|Hc1]; [destruct (Z.eqb_spec timeout 0) as [Hz|Hz]|];
    destruct Hcases as (-> & -> & Hb).
  - eapply (sem_call k sk gh cpu t c); try done. intros Hw Hg Ht.
    constructor; rewrite ?Hw, ?Hg; cbn; [done|lia|lia|]. intros [Hti _]%orb_false_iff Hp. specialize (Hha Hti). lia.
  - eapply (sem_call k sk gh cpu t c); try done.
    { intros o' _ Ho'. split; [|done]. cbn. by rewrite bool_decide_eq_false_2 by congruence. }
    intros Hw Hg Ht. assert (joins c (Blocks a timeout) (OSem a) = 1) as Hj by (cbn; by rewrite bool_decide_eq_true_2).
    constructor; rewrite ?Hw, ?Hg, ?Hj; cbn; [done|lia|lia|]. intros [Hti _]%orb_false_iff Hp. specialize (Hha Hti). lia.
  - eapply (sem_call k sk gh cpu t c); try done. intros Hw Hg Ht.
    constructor; rewrite ?Hw, ?Hg; cbn in *; [done|lia|lia|]. intros [Hti _]%orb_false_iff Hp. specialize (Hha Hti). lia.
Qed.

Lemma sem_post_object k sk gh cpu t a (resched : bool) x :
  ready k sk gh cpu t -> semaphores k !! a = Some x -> sem_count x < INT_MAX ->
  gone_well k sk gh cpu t (CSemPost a resched).
Proof.
  intros Hrd Hx Hmax. set (c := CSemPost a resched).
  destruct (sem_post_run cpu t a resched k x (rd_caller _ _ _ _ _ Hrd) (ready_sem _ _ _ _ _ _ _ Hrd Hx) Hmax)
    as (o & d & k' & Hr & Heff & Ho & Hd & Hb).
  destruct (oi_sem _ _ _ (rd_object _ _ _ _ _ Hrd) _ _ Hx) as (n & Hinv). pose proof Hinv as [Htk Hcnt Hgr Hha].
  pose proof (waits_nonneg (OSem a) sk) as Hw0. pose proof (grants_waits (OSem a) (view (ks k)) sk) as Hgw.
  assert (d = Quiet \/ d = Nobody a \/ exists u, d = Wakes a u) as Hdd
    by (destruct (sem_count x + 1 <=? 0); [destruct Hd|]; auto).
  assert (call_did c o d) as Hcd by (by destruct Hdd as [->|[->|[u ->]]]).
  eapply (sem_call k sk gh cpu t c); try done.
  - right; left. by eexists.
  - intros o'. by eapply no_bonus_else; [apply Hrd|by eexists|].
  - intros Hw Hg Ht. assert (joins c d (OSem a) = 0) as Hj by (by destruct Hdd as [->|[->|[u ->]]]).
    assert (0 <= bonus (OSem a) d <= 1) as Hb1.
    { destruct Hdd as [->|[->|[u ->]]]; cbn; [lia|lia|]. by rewrite bool_decide_eq_true_2. }
    assert (gain c o = 1) as Hgain by (by destruct Ho as [->|[[-> _]|[-> _]]]).
    destruct (ghost_after_sem t c o gh a ltac:(right; left; by eexists)) as (_ & Htm & _).
    constructor; rewrite ?Hw, ?Hg, ?Hj, ?Hgain; cbn [sem_add sem_count]; [by rewrite Ht, Hgain|lia|lia|].
    rewrite Htm. intros Hti Hp. specialize (Hha Hti). destruct Hdd as [->|[->|[u ->]]]; cbn [bonus] in *.
    + destruct (Z.leb_spec (sem_count x + 1) 0); [by destruct Hd as [[u ?]|]|lia].
    + pose proof (all_granted k sk gh (OSem a) (rd_shape _ _ _ _ _ Hrd) (rd_view _ _ _ _ _ Hrd) (rd_object _ _ _ _ _ Hrd) Hti
        (ef_before _ _ _ _ _ _ Heff)). lia.
    + cbn [obj_addr] in *. rewrite bool_decide_eq_true_2 in * by done. cbn in *. lia.
Qed.

Lemma sem_trywait_object k sk gh cpu t a x :
  ready k sk gh cpu t -> semaphores k !! a = Some x -> gone_well k sk gh cpu t (CSemTryWait a).
Proof.
  intros Hrd Hx. set (c := CSemTryWait a).
  destruct (sem_trywait_run cpu t a k x (rd_caller _ _ _ _ _ Hrd) (ready_sem _ _ _ _ _ _ _ Hrd Hx)) as (k' & Hr & Heff & Hb).
  destruct (oi_sem _ _ _ (rd_object _ _ _ _ _ Hrd) _ _ Hx) as (n & Hinv). pose proof Hinv as [Htk Hcnt Hgr Hha].
  pose proof (grants_waits (OSem a) (view (ks k)) sk) as Hgw.
  assert (calls_sem c a) as Hca by (by left).
  assert (exists r, gain c (Return r) = - Z.b2z (negb (sem_count x <=? 0)) /\ exec cpu c k = Some (Return r, k')) as (r & Hgain & Hr').
  { eexists. split; [|exact Hr]. by destruct (sem_count x <=? 0). }
  assert (becomes k (ks k') (mutexes k) (<[a := sem_add (- Z.b2z (negb (sem_count x <=? 0))) x]> (semaphores k)) k') as Hb'.
  { destruct (sem_count x <=? 0); [|done]. cbn in *. rewrite insert_id; [done|]. rewrite Hx. f_equal. unfold sem_add.
    destruct x; cbn. f_equal. lia. }
  eapply (sem_call k sk gh cpu t c (Return r) Quiet); try done. rewrite Hgain. intros Hw Hg Ht.
  destruct (ghost_after_sem t c (Return r) gh a Hca) as (_ & Htm & _).
  constructor; rewrite ?Hw, ?Hg; cbn -[Z.leb ghost_after]; [done| | |]; try rewrite Htm.
  - lia.
  - destruct (Z.leb_spec (sem_count x) 0); cbn; lia.
  - intros Hti Hp. cbn in Hp. specialize (Hha Hti). destruct (Z.leb_spec (sem_count x) 0); cbn; lia.
Qed.

Lemma yield_object k sk gh cpu t : ready k sk gh cpu t -> gone_well k sk gh cpu t CYield.
Proof.
  intros Hrd. destruct (yield_moved cpu (ks k) t (ca_inv _ _ _ (rd_caller _ _ _ _ _ Hrd)) (ca_current _ _ _ (rd_caller _ _ _ _ _ Hrd)))
    as (o & s' & Hr & Hm & Hv & Htm).
  set (o' := match o with Return _ => Return NO_ERROR | Switched => Switched end).
  assert (exec cpu CYield k = Some (o', with_ks s' k)) as He by (unfold exec; by rewrite (bind_eq _ _ _ _ _ (lift_eq _ _ _ _ Hr))).
  assert (effect cpu t (forget o') Quiet (ks k) (ks (with_ks s' k))) as Heff.
  { assert (forget o' = o) as -> by (subst o'; by destruct o as [[]|]). by constructor. }
  assert (call_did CYield o' Quiet) as Hcd by done.
  exists o', Quiet, (with_ks s' k). split_and!; [done..|].
  assert (match o' with Return r => note_return t CYield r (note_call t CYield gh) | Switched => note_call t CYield gh end = gh) as ->
    by (by destruct o).
  eapply (object_inv_call k _ sk gh gh cpu t CYield o' Quiet None); try done; [by intros []|].
  apply (oi_held _ _ _ (rd_object _ _ _ _ _ Hrd)).
Qed.
End calls.
