(* ===== verification/SyncFinish.v ===== *)
(** * The second half of a call, preemption and time-outs *)
From stdpp Require Import base gmap list.
From Stdlib Require Import ZArith Lia.
From S2P Require Import Prelude Sched SchedInv SchedOps SchedApi SchedWait Sync SyncView SyncOps SyncSys SyncInv SyncSteps.

Local Open Scope Z_scope.
Local Open Scope lk_scope.

Section finish.
Context {T : Type} `{!TimerOps T} `{!Config} `{!TimerLaws T} `{!ConfigLaws}.
Implicit Types (s : sched T) (k : kernel T) (g : sys T) (t cpu m r : Z) (th : thread_t) (c : call) (gh : ghost_t).

(** The words a thread leaves when its wait is over. *)
Definition finished_mutexes t c r (ms : gmap Z mutex_t) : gmap Z mutex_t :=
  match c with
  | CMutexAcquire m _ => alter (fun x => if r =? NO_ERROR then acquire_ok m t x else acquire_backed_out x) m ms
  | _ => ms
  end.
Definition finished_sems c r (ss : gmap Z semaphore_t) : gmap Z semaphore_t :=
  match c with
  | CSemWait a _ => alter (fun x => if r =? NO_ERROR then x else sem_add 1 x) a ss
  | _ => ss
  end.

Definition wait_over c r : Prop := r = NO_ERROR \/ (r = ERR_TIMED_OUT /\ is_finite_wait c = true).

Lemma unlock_ret_run k cpu s0 r :
  sched_inv unlocked s0 -> ks k = with_owner cpu s0 ->
  exists k', bind (lift (THREAD_UNLOCK cpu)) (fun _ => ret r) k = Some (r, k') /\ becomes k s0 (mutexes k) (semaphores k) k'.
Proof.
  intros Hinv Hk. exists (with_ks s0 k). split; [|done]. by rewrite (bind_eq _ _ _ _ _ (unlock_eq k cpu s0 Hinv Hk)).
Qed.

Lemma finish_call_run cpu c r k s0 t :
  ks k = with_owner cpu s0 -> sched_inv unlocked s0 -> current s0 !! cpu = Some t ->
  (forall o, target c = Some o -> obj_exists k o) -> may_switch c = true -> (is_Some (target c) -> wait_over c r) ->
  exists r' k', finish_call cpu c r k = Some (r', k') /\
    (forall gh, note_return t c r' gh = if bool_decide (is_Some (target c)) then note_return t c r gh else gh) /\
    becomes k s0 (finished_mutexes t c r (mutexes k)) (finished_sems c r (semaphores k)) k'.
Proof.
  intros Hk Hinv Hc Hob Hsw Hover.
  assert (forall v, exists k', bind (lift (THREAD_UNLOCK cpu)) (fun _ => ret v) k = Some (v, k') /\
    becomes k s0 (mutexes k) (semaphores k) k') as Hun by (intros v; by apply unlock_ret_run).
  destruct c as [|m timeout|m|a timeout|a b|a]; cbn [finish_call finished_mutexes finished_sems target] in *; try done.
  - destruct (Hun NO_ERROR) as (k' & Hr & Hb). by exists NO_ERROR, k'.
  - destruct (Hob _ eq_refl) as [x Hx]. cbn in Hx.
    destruct (acquire_finish_run cpu m r k s0 t x Hk Hinv Hc Hx) as (k' & Hr & Hs & Hms & Hss & He).
    exists r, k'. split; [done|]. split; [done|]. split; [done|]. split; [|done]. rewrite Hms. apply map_eq. intros i.
    destruct (Hover ltac:(by eexists)) as [->|[-> _]]; cbn;
      (destruct (decide (i = m)) as [->|]; [by rewrite lookup_alter_eq, lookup_insert_eq, Hx|by rewrite lookup_alter_ne, lookup_insert_ne]).
  - destruct (Hun NO_ERROR) as (k' & Hr & Hb). by exists NO_ERROR, k'.
  - destruct (Hob _ eq_refl) as [x Hx]. cbn in Hx. destruct (Z.eqb_spec timeout INFINITE_TIME) as [->|Hne].
    + destruct (Hover ltac:(by eexists)) as [->|[_ Hf]]; [|done]. destruct (Hun NO_ERROR) as (k' & Hr & Hb).
      exists NO_ERROR, k'. split_and!; [done|done|]. cbn. rewrite alter_id; [done|]. done.
    + destruct (sem_wait_finish_run cpu a r k s0 x Hk Hinv Hx) as (k' & Hr & Hs & Hms & Hss & He).
      exists r, k'. split; [done|]. split; [done|]. split; [done|]. split; [done|]. split; [|done]. rewrite Hss.
      destruct (Hover ltac:(by eexists)) as [->|[-> _]]; cbn; [by rewrite alter_id|].
      apply map_eq; intros i; destruct (decide (i = a)) as [->|]; [|by rewrite lookup_alter_ne, lookup_insert_ne].
      by rewrite lookup_alter_eq, lookup_insert_eq, Hx.
  - destruct (Hun 1) as (k' & Hr & Hb). by exists 1, k'.
Qed.

Lemma finished_exists k k' s t c r o :
  becomes k s (finished_mutexes t c r (mutexes k)) (finished_sems c r (semaphores k)) k' -> obj_exists k' o <-> obj_exists k o.
Proof.
  intros (_ & Hm & Hs & _). destruct o as [m|a]; cbn; rewrite ?Hm, ?Hs; destruct c; try done; cbn; by rewrite lookup_alter_is_Some.
Qed.

(** ** The invariant after it *)
Lemma pop_frames (sk : gmap Z (list frame)) t f rest (P : frame -> Prop) :
  sk !! t = Some (f :: rest) -> (forall u st f, sk !! u = Some st -> f ∈ st -> P f) ->
  forall u st f, <[t := rest]> sk !! u = Some st -> f ∈ st -> P f.
Proof.
  intros Hst Hold u st f' Hu Hin. destruct (decide (u = t)) as [->|]; [|rewrite lookup_insert_ne in Hu by done; by eapply Hold].
  rewrite lookup_insert_eq in Hu. injection Hu as <-. eapply Hold; [exact Hst|by right].
Qed.

(** A frame popped off a stack: only the object its call waited for notices. *)
Lemma pop_counts (sk : gmap Z (list frame)) (vw vw' : views) t f rest o r :
  sk !! t = Some (f :: rest) -> (is_Some (target (frame_call f)) -> rest = []) -> vw t = Some (None, r) ->
  (forall u, vw' u = vw u) ->
  let d := if bool_decide (target (frame_call f) = Some o) then 1 else 0 in
  waits o (<[t := rest]> sk) = waits o sk - d /\
  grants o vw' (<[t := rest]> sk) = grants o vw sk - (if r =? NO_ERROR then d else 0).
Proof.
  intros Hst Hrest Hr Hv d. rewrite (waits_insert o sk t _ rest Hst), (grants_insert o vw vw' sk t _ rest Hst) by done.
  assert (at_obj o t (f :: rest) - at_obj o t rest = d /\
    granted_at o vw t (f :: rest) - granted_at o vw' t rest = if r =? NO_ERROR then d else 0) as [??]; [|lia].
  unfold granted_at, at_obj, d. rewrite Hv, Hr. cbn. destruct (target (frame_call f)) as [o'|].
  - rewrite (Hrest ltac:(by eexists)). cbn. destruct (Z.eqb_spec r NO_ERROR) as [->|Hne].
    + rewrite (bool_decide_eq_true_2 (Some (None, NO_ERROR) = _)) by done. by destruct (bool_decide (Some o' = Some o)).
    + rewrite (bool_decide_eq_false_2 (Some (None, r) = _)) by congruence. by destruct (bool_decide (Some o' = Some o)).
  - rewrite (bool_decide_eq_false_2 (None = Some o)) by done. destruct (r =? NO_ERROR); lia.
Qed.

Lemma finish_mutex_inv (vw vw' : views) sk sk' gh m timeout t r x :
  mutex_inv vw sk gh m x -> wait_over (CMutexAcquire m timeout) r -> t <> 0 ->
  (is_finite_wait (CMutexAcquire m timeout) = true -> timed gh = true) ->
  waits (OMutex m) sk' = waits (OMutex m) sk - 1 -> grants (OMutex m) vw' sk' = grants (OMutex m) vw sk - (if r =? NO_ERROR then 1 else 0) ->
  mutex_inv vw' sk' (note_return t (CMutexAcquire m timeout) r gh) m
    (if r =? NO_ERROR then acquire_ok m t x else acquire_backed_out x).
Proof.
  intros [Hmg Hcnt Hex Hhd Hha] Hover Ht Hfin Hw Hg. pose proof (grants_nonneg (OMutex m) vw' sk') as Hg0.
  destruct Hover as [->|[-> Hf]]; cbn in *.
  - assert (m_holder x = 0) as Hx0 by (unfold own in Hex; destruct (Z.eqb_spec (m_holder x) 0); lia).
    unfold own in *. rewrite Hx0 in *. cbn in *.
    constructor; unfold own; cbn; rewrite ?Hw, ?Hg, ?(proj2 (Z.eqb_neq _ _) Ht); [done|lia|lia| |lia].
    intros u. rewrite elem_of_cons. split; [|intros [-> _]; by left]. intros [[= ->]|[-> ?]%Hhd]; done.
  - unfold own in *. constructor; unfold own; cbn; rewrite ?Hw, ?Hg; [done|lia|lia|done|]. by rewrite Hfin.
Qed.

Lemma finish_sem_inv (vw vw' : views) sk sk' gh (a : Z) timeout t r x n :
  sem_inv vw sk gh a x n -> wait_over (CSemWait a timeout) r ->
  (is_finite_wait (CSemWait a timeout) = true -> timed gh = true) ->
  waits (OSem a) sk' = waits (OSem a) sk - 1 -> grants (OSem a) vw' sk' = grants (OSem a) vw sk - (if r =? NO_ERROR then 1 else 0) ->
  exists n', sem_inv vw' sk' (note_return t (CSemWait a timeout) r gh) a (if r =? NO_ERROR then x else sem_add 1 x) n'.
Proof.
  intros [Htk Hcnt Hgr Hha] Hover Hfin Hw Hg.
  destruct Hover as [->|[-> Hf]]; cbn in *.
  - exists (n + -1). constructor; cbn; rewrite ?Hw, ?Hg; [by rewrite lookup_alter_eq, Htk|lia|lia|].
    intros Hti Hp. specialize (Hha Hti). lia.
  - exists n. constructor; cbn; rewrite ?Hw, ?Hg; [done|lia|lia|]. by rewrite Hfin.
Qed.

Lemma finish_object k k' sk gh t c r f rest :
  object_inv k sk gh -> sk !! t = Some (f :: rest) -> frame_call f = c -> (is_Some (target c) -> wait_over c r /\ rest = []) ->
  (forall u, view (ks k') u = view (ks k) u) -> view (ks k) t = Some (None, r) -> (forall a, wait_ok (ks k) a -> wait_ok (ks k') a) ->
  becomes k (ks k') (finished_mutexes t c r (mutexes k)) (finished_sems c r (semaphores k)) k' -> t <> 0 ->
  object_inv k' (<[t := rest]> sk) (if bool_decide (is_Some (target c)) then note_return t c r gh else gh).
Proof.
  intros Hoi Hst Hf Hover Hv Hr Hwo Hb Ht0.
  assert (is_Some (target (frame_call f)) -> rest = []) as Hrest by (rewrite Hf; by intros [_ ?]%Hover).
  pose proof (fun o => pop_counts sk (view (ks k)) (view (ks k')) t f rest o r Hst Hrest Hr Hv) as Hcnt. rewrite Hf in Hcnt.
  assert (is_finite_wait c = true -> timed gh = true) as Hfin.
  { intros Hfc. destruct (timed gh) eqn:Hti; [done|]. rewrite <- Hf in Hfc.
    by rewrite (oi_timed _ _ _ Hoi Hti _ _ f Hst ltac:(by left)) in Hfc. }
  set (v := if bool_decide _ then _ else gh).
  assert (timed v = timed gh /\ (forall o, target c <> Some o -> keeps_ghost o gh v) /\
    (forall m u, (m, u) ∈ held v -> (m, u) ∈ held gh \/ target c = Some (OMutex m))) as (Hti & Hkg & Hh).
  { subst v. case_bool_decide; [|by split_and!; [|intros []|auto]]. unfold note_return.
    destruct (r =? NO_ERROR); [|by split_and!; [|intros []|auto]].
    destruct c as [|m timeout|m|a timeout|a b|a]; (split_and!; [done| |]); cbn; auto; try (by intros []).
    - intros [m'|a'] Hne; cbn; [|done]. intros u. rewrite elem_of_cons. split; [|by right]. intros [[= -> ->]|]; done.
    - intros m' u. rewrite elem_of_cons. intros [[= -> ->]|]; auto.
    - intros [m'|a'] Hne; cbn; [done|]. rewrite lookup_alter_ne; [done|congruence].
    - by destruct H1. }
  eapply (object_inv_change k k' sk _ gh v (target c)); try done.
  - intros o. by eapply finished_exists.
  - intros m Hm. destruct Hb as (_ & -> & _). destruct c; try done. cbn in *. apply lookup_alter_ne. congruence.
  - intros a Ha. destruct Hb as (_ & _ & -> & _). destruct c; try done. cbn in *. apply lookup_alter_ne. congruence.
  - intros o Hne Ho. destruct (Hcnt o) as [Hw Hg]. rewrite bool_decide_eq_false_2 in Hw, Hg by done.
    split; [split; destruct (r =? NO_ERROR); lia|by apply Hkg].
  - rewrite Hti. intros Hti0. split; [done|].
    apply (pop_frames sk t f rest (fun f => is_finite_wait (frame_call f) = false) Hst). by apply (oi_timed _ _ _ Hoi).
  - intros u st o Hu Htg. destruct (decide (u = t)) as [->|]; [|rewrite lookup_insert_ne in Hu by done; by eapply (oi_typed _ _ _ Hoi)].
    rewrite lookup_insert_eq in Hu. injection Hu as <-. eapply (oi_typed _ _ _ Hoi); [exact Hst|]. cbn. rewrite Hf.
    destruct (target c) eqn:Htc; [|done]. by rewrite Hrest in Htg by (rewrite Hf, Htc; by eexists).
  - apply (pop_frames sk t f rest (fun f => may_switch (frame_call f) = true) Hst). apply (oi_switched _ _ _ Hoi).
  - intros m u [Hin|Htg]%Hh; [by eapply (oi_held _ _ _ Hoi)|]. apply (oi_typed _ _ _ Hoi t _ (OMutex m) Hst). cbn. by rewrite Hf, Htg.
  - destruct c as [|m timeout|m|a timeout|a b|a]; cbn [target] in *; try done; subst v.
    + destruct (Hcnt (OMutex m)) as [Hw Hg]. rewrite bool_decide_eq_true_2 in Hw, Hg |- * by (try done; by eexists).
      intros y Hy. destruct Hb as (_ & Hms & _). rewrite Hms in Hy. cbn in Hy. apply lookup_alter_Some in Hy as [(_ & x & Hx & ->)|[? _]]; [|done].
      eapply finish_mutex_inv; try done; [by apply (oi_mutex _ _ _ Hoi)|by apply Hover; eexists].
    + destruct (Hcnt (OSem a)) as [Hw Hg]. rewrite bool_decide_eq_true_2 in Hw, Hg |- * by (try done; by eexists).
      intros y Hy. destruct Hb as (_ & _ & Hss & _). rewrite Hss in Hy. cbn in Hy. apply lookup_alter_Some in Hy as [(_ & x & Hx & ->)|[? _]]; [|done].
      destruct (oi_sem _ _ _ Hoi _ _ Hx) as [n Hn].
      eapply finish_sem_inv; try done. by apply Hover; eexists.
Qed.
End finish.
