(* ===== verification/SyncStep.v ===== *)
(** * Steps of threads that use mutexes and semaphores keep the invariant *)
From stdpp Require Import base gmap list.
From Stdlib Require Import ZArith Lia.
From S2P Require Import Prelude Sched SchedInv SchedOps SchedApi SchedWait Sync SyncView SyncOps SyncSys SyncInv SyncSteps SyncCalls SyncFinish.

Local Open Scope Z_scope.
Local Open Scope lk_scope.

Section step.
Context {T : Type} `{!TimerOps T} `{!Config} `{!TimerLaws T} `{!ConfigLaws}.
Implicit Types (s : sched T) (k : kernel T) (g : sys T) (t cpu m r : Z) (th : thread_t) (c : call) (gh : ghost_t).

(** ** Calls *)
Definition call_ok k t c : Prop :=
  match c with
  | CYield => True
  | CMutexAcquire m _ => exists x, mutexes k !! m = Some x /\ t <> m_holder x
  | CMutexRelease m => exists x, mutexes k !! m = Some x /\ t = m_holder x
  | CSemWait a _ | CSemTryWait a => is_Some (semaphores k !! a)
  | CSemPost a _ => exists x, semaphores k !! a = Some x /\ sem_count x < INT_MAX
  end.

Definition timeout_ok c : Prop :=
  match wait_of c with Some (_, timeout) => 0 <= timeout <= INFINITE_TIME | None => True end.

Lemma exec_well k sk gh cpu t c : ready k sk gh cpu t -> call_ok k t c -> timeout_ok c -> gone_well k sk gh cpu t c.
Proof.
  intros Hrd Hok Hto. destruct c as [|m timeout|m|a timeout|a b|a]; cbn in Hok, Hto.
  - by apply yield_object.
  - destruct Hok as (x & Hx & Hne). by eapply acquire_object.
  - destruct Hok as (x & Hx & He). by eapply release_object.
  - destruct Hok as [x Hx]. by eapply sem_wait_object.
  - destruct Hok as (x & Hx & Hm). by eapply sem_post_object.
  - destruct Hok as [x Hx]. by eapply sem_trywait_object.
Qed.

(** A call that got anywhere passed its own checks. *)
Lemma lock_then {A} cpu (f : M (kernel T) A) k :
  sched_inv unlocked (ks k) -> bind (lift (THREAD_LOCK cpu)) (fun _ => f) k = f (with_ks (with_owner cpu (ks k)) k).
Proof. intros Hinv. by rewrite (bind_eq _ _ _ _ _ (lift_lock _ cpu Hinv)). Qed.

Lemma get_then {A B} (field : kernel T -> option A) (f : A -> M (kernel T) B) k :
  is_Some (bind (getsome field) f k) -> exists x, field k = Some x /\ bind (getsome field) f k = f x k.
Proof. unfold bind, getsome. destruct (field k) as [x|]; [by exists x|by intros [? ?]]. Qed.

Lemma exec_call_ok k cpu t c :
  sched_inv unlocked (ks k) -> current (ks k) !! cpu = Some t -> is_Some (exec cpu c k) -> call_ok k t c.
Proof.
  intros Hinv Hc. pose proof (lift_current k cpu t Hc) as Hcur.
  destruct c as [|m timeout|m|a timeout|a b|a]; cbn; [done| | | | |].
  - unfold mutex_acquire_timeout. intros Hd. destruct (get_then _ _ _ Hd) as (x & Hx & He). unfold get_mutex in Hd. rewrite He in Hd.
    destruct (m_magic x =? MUTEX_MAGIC); [|by destruct Hd]. cbn [assert_] in Hd. rewrite ret_bind, (bind_eq _ _ _ _ _ Hcur) in Hd.
    destruct (Z.eqb_spec t (m_holder x)); [by destruct Hd|]. by exists x.
  - unfold mutex_release. intros Hd. destruct (get_then _ _ _ Hd) as (x & Hx & He). unfold get_mutex in Hd. rewrite He in Hd.
    destruct (m_magic x =? MUTEX_MAGIC); [|by destruct Hd]. cbn [assert_] in Hd. rewrite ret_bind, (bind_eq _ _ _ _ _ Hcur) in Hd.
    destruct (Z.eqb_spec t (m_holder x)); [|by destruct Hd]. by exists x.
  - destruct (timeout =? INFINITE_TIME); [unfold sem_wait|unfold sem_timedwait]; rewrite lock_then by done;
      intros Hd; destruct (get_then _ _ _ Hd) as (x & Hx & _); by exists x.
  - unfold sem_post. rewrite lock_then by done. intros Hd. destruct (get_then _ _ _ Hd) as (x & Hx & He).
    unfold get_sem in Hd. rewrite He in Hd. destruct (Z.ltb_spec (sem_count x) INT_MAX); [|by destruct Hd]. by exists x.
  - unfold sem_trywait. rewrite lock_then by done. intros Hd; destruct (get_then _ _ _ Hd) as (x & Hx & _); by exists x.
Qed.

Lemma gone_well_sys g cpu t c :
  sys_inv g -> ready (kn g) (stacks g) (ghost g) cpu t -> gone_well (kn g) (stacks g) (ghost g) cpu t c ->
  exists o k, exec cpu c (kn g) = Some (o, k) /\
    sys_inv (after_call t c [] o k (mk_sys k (stacks g) (note_call t c (ghost g)))).
Proof.
  intros Hsys Hrd (o & d & k' & Hr & Heff & Hd & Hoi). exists o, k'. split; [done|].
  destruct (call_parts (sch g) (ks k') (stacks g) cpu t c o d (in_shape _ Hsys) (in_view _ Hsys) (in_time _ Hsys)
    (inv_owner _ _ (ca_inv _ _ _ (rd_caller _ _ _ _ _ Hrd))) (ca_current _ _ _ (rd_caller _ _ _ _ _ Hrd)) (rd_stack _ _ _ _ _ Hrd) Heff Hd)
    as (Hsh & Hvi & Hti).
  by destruct o as [r|].
Qed.

(** ** The second half *)
Lemma wait_result_run k cpu s0 t r :
  ks k = with_owner cpu s0 -> current s0 !! cpu = Some t -> view s0 t = Some (None, r) -> wait_result cpu k = Some (r, k).
Proof.
  intros Hk Hc Hv. unfold view in Hv. destruct (threads s0 !! t) as [th|] eqn:Hth; [|done]. injection Hv as _ Hr.
  unfold wait_result. rewrite (bind_eq _ _ _ _ _ (lift_current k cpu t ltac:(by rewrite Hk))).
  assert (lift (get_thread t) k = Some (th, k)) as Hg.
  { rewrite (lift_eq _ _ th (ks k)); [by destruct k|]. apply get_thread_eq. by rewrite Hk. }
  rewrite (bind_eq _ _ _ _ _ Hg). by rewrite Hr.
Qed.

(** Leaving a call: only the lock, the words and the caller's stack change. *)
Lemma leave_sys g cpu t f rest k' v s0 :
  sys_inv g -> current (sch g) !! cpu = Some t -> thread_lock_owner (sch g) = unlocked \/ thread_lock_owner (sch g) = cpu ->
  s0 = with_owner unlocked (sch g) -> sched_inv unlocked s0 -> ks k' = s0 -> stacks g !! t = Some (f :: rest) ->
  (forall c, f = FCall c -> is_finite_wait c = false) -> running_stack rest -> object_inv k' (<[t := rest]> (stacks g)) v ->
  sys_inv (mk_sys k' (<[t := rest]> (stacks g)) v).
Proof.
  intros Hsys Hc Ho -> Hinv Hk Hst Hnf Hrun Hoi.
  destruct (running_thread_view _ _ _ _ (sh_sched _ _ (in_shape _ Hsys)) Hc) as [r Hr].
  constructor; cbn [kn stacks ghost]; [| | |done]; unfold sch; cbn [kn]; rewrite Hk.
  - eapply (shape_moved (sch g) _ _ cpu t (Return tt)); [apply Hsys|done|done|done| |done]. by constructor.
  - intros u su Hu. destruct (decide (u = t)) as [->|]; [|rewrite lookup_insert_ne in Hu by done; by apply (in_view _ Hsys)].
    rewrite lookup_insert_eq in Hu. injection Hu as <-. change (view (with_owner unlocked (sch g)) t) with (view (sch g) t).
    pose proof (in_view _ Hsys _ _ Hst) as Hg. rewrite Hr in *. intros f' Hf'. apply Hg. by right.
  - intros u su Hu. cbn [timers with_owner]. destruct (decide (u = t)) as [->|]; [|rewrite lookup_insert_ne in Hu by done; by apply (in_time _ Hsys)].
    rewrite lookup_insert_eq in Hu. injection Hu as <-. split.
    + intros Hp. destruct (proj1 (in_time _ Hsys _ _ Hst) Hp) as (c & rest' & [= -> ->] & Hf). by rewrite (Hnf c) in Hf.
    + intros c rest' -> Hf. destruct Hrun as [|(c' & ? & _)]; done.
Qed.

Lemma current_stack g cpu t f c rest :
  sys_inv g -> current (sch g) !! cpu = Some t -> stacks g !! t = Some (f :: rest) ->
  (thread_lock_owner (sch g) = cpu /\ f = FCall c) \/ (thread_lock_owner (sch g) = unlocked /\ f = FRelock c) ->
  running_stack rest /\ (rest = [] \/ c = CYield).
Proof.
  intros Hsys Hc Hst Hcase. pose proof (in_shape _ Hsys) as Hsh. pose proof (inv_wf _ _ (sh_sched _ _ Hsh)) as Hwf.
  destruct Hcase as [(Hown & ->)|[Hown ->]].
  - destruct (sh_waiting _ _ Hsh t _ Hst) as (c' & rest' & [= <- <-] & [->|[-> ?]]); [|by split; [left|left]|by split; [|right]].
    intros c' Hc'. rewrite Hown. by eapply (wf_current_unique none (sch g)); [apply Hwf|..].
  - destruct (sh_running _ _ Hsh cpu t (FRelock c :: rest) Hc) as [|(c' & Heq & _)]; [|done|done|injection Heq as _ ->; by split; left].
    destruct (wf_current _ _ Hwf _ _ Hc) as [Hv _]. rewrite Hown. unfold valid_cpu, unlocked in *. lia.
Qed.

Lemma finish_sys g cpu t f c rest :
  sys_inv g -> current (sch g) !! cpu = Some t -> stacks g !! t = Some (f :: rest) -> frame_call f = c ->
  (thread_lock_owner (sch g) = cpu /\ f = FCall c /\ is_finite_wait c = false) \/ (thread_lock_owner (sch g) = unlocked /\ f = FRelock c) ->
  let k1 := with_ks (with_owner cpu (sch g)) (kn g) in
  exists r r' k', wait_result cpu k1 = Some (r, k1) /\ finish_call cpu c r k1 = Some (r', k') /\
    sys_inv (after_call t c rest (Return r') k' g).
Proof.
  intros Hsys Hc Hst Hf Hcase k1. pose proof (in_shape _ Hsys) as Hsh. pose proof (in_object _ Hsys) as Hoi.
  assert (thread_lock_owner (sch g) = unlocked \/ thread_lock_owner (sch g) = cpu) as Ho by (destruct Hcase as [(? & _)|[? _]]; auto).
  assert (sched_inv unlocked (with_owner unlocked (sch g))) as Hinv.
  { destruct Ho as [Ho|Ho]; pose proof (sh_sched _ _ Hsh) as Hs; rewrite Ho in Hs; [by rewrite (with_owner_id unlocked)|].
    by apply (THREAD_UNLOCK_run cpu). }
  destruct (running_thread_view _ _ _ _ (sh_sched _ _ Hsh) Hc) as [r Hr].
  set (s0 := with_owner unlocked (sch g)) in *.
  assert (ks k1 = with_owner cpu s0) as Hk by done.
  destruct (current_stack g cpu t f c rest Hsys Hc Hst ltac:(destruct Hcase as [(? & ? & _)|]; auto)) as [Hrun Hstack].
  assert (is_Some (target c) -> wait_over c r /\ rest = []) as Hover.
  { intros [o Htg]. destruct (target_wait_of _ _ Htg) as [timeout Hw]. split.
    - pose proof (in_view _ Hsys _ _ Hst) as Hg. rewrite Hr in Hg. specialize (Hg f ltac:(by left)).
      rewrite Hf in Hg. apply Hg. rewrite Hw. by eexists.
    - destruct Hstack as [?| ->]; done. }
  destruct (finish_call_run cpu c r k1 s0 t Hk Hinv Hc) as (r' & k' & Hr' & Hnote & Hb).
  { intros o Ho'. apply (oi_typed _ _ _ Hoi t _ o Hst). cbn. by rewrite Hf, Ho'. }
  { rewrite <- Hf. apply (oi_switched _ _ _ Hoi t _ f Hst). by left. }
  { intros Ht. by apply Hover. }
  exists r, r', k'. split_and!; [by eapply wait_result_run|done|].
  destruct Hb as (Hks & Hms & Hss & He).
  eapply (leave_sys g cpu t f rest k' _ s0); try done.
  - intros c' ->. by destruct Hcase as [(_ & [= <-] & ?)|[_ ?]].
  - rewrite Hnote. eapply (finish_object (kn g) k' (stacks g) (ghost g) t c r f rest); try done; rewrite ?Hks; try done.
    destruct (decide (t = 0)) as [->|]; [|done]. exfalso.
    destruct (inv_running _ _ Hinv _ _ Hc) as (th & Hth & _). change (threads s0) with (threads (sch g)) in Hth. by rewrite (sh_null _ _ Hsh) in Hth.
Qed.

(** ** Steps that leave every object alone *)
Lemma object_inv_same k k' sk gh t st0 st' :
  object_inv k sk gh -> sk !! t = Some st0 -> stack_target st' = stack_target st0 ->
  (forall f, f ∈ st' -> frame_call f = CYield \/ exists f0, f0 ∈ st0 /\ frame_call f0 = frame_call f) ->
  (forall u, view (ks k') u = Some (None, NO_ERROR) <-> view (ks k) u = Some (None, NO_ERROR)) ->
  (forall a, wait_ok (ks k) a -> wait_ok (ks k') a) -> mutexes k' = mutexes k -> semaphores k' = semaphores k ->
  object_inv k' (<[t := st']> sk) gh.
Proof.
  intros Hoi Hst Htg Hf Hv Hwo Hm Hs.
  assert (forall (P : call -> Prop), P CYield -> (forall u st f, sk !! u = Some st -> f ∈ st -> P (frame_call f)) ->
    forall u st f, <[t := st']> sk !! u = Some st -> f ∈ st -> P (frame_call f)) as Hframes.
  { intros P Hy Hold u st f Hu Hin. destruct (decide (u = t)) as [->|]; [|rewrite lookup_insert_ne in Hu by done; by eapply Hold].
    rewrite lookup_insert_eq in Hu. injection Hu as <-. destruct (Hf f Hin) as [->|(f0 & Hin0 & <-)]; [done|by eapply Hold]. }
  assert (forall o u st0' st1, stack_target st1 = stack_target st0' ->
    granted_at o (view (ks k')) u st1 = granted_at o (view (ks k)) u st0') as Hgr.
  { intros o u st1 st2 Heq. unfold granted_at. rewrite Heq. do 2 f_equal. by apply bool_decide_ext. }
  eapply (object_inv_change k k' sk _ gh gh None); try done.
  - intros [m|a]; cbn; by rewrite ?Hm, ?Hs.
  - intros m _. by rewrite Hm.
  - intros a _. by rewrite Hs.
  - intros o _ _. split; [|by destruct o]. split.
    + rewrite (waits_insert o sk t st0 st' Hst). unfold at_obj. rewrite Htg. lia.
    + unfold grants. rewrite (total_change (granted_at o (view (ks k))) _ sk t st0 st' Hst) by (intros; by apply Hgr).
      rewrite (Hgr o t st0 st' Htg). lia.
  - intros Hti. split; [done|]. apply (Hframes (fun c => is_finite_wait c = false)); [done|by apply (oi_timed _ _ _ Hoi)].
  - intros u st o Hu Hto. destruct (decide (u = t)) as [->|]; [|rewrite lookup_insert_ne in Hu by done; by eapply (oi_typed _ _ _ Hoi)].
    rewrite lookup_insert_eq in Hu. injection Hu as <-. rewrite Htg in Hto. by eapply (oi_typed _ _ _ Hoi).
  - apply (Hframes (fun c => may_switch c = true)); [done|apply (oi_switched _ _ _ Hoi)].
  - apply (oi_held _ _ _ Hoi).
Qed.

(** Back from a wait with a time-out: the timer is cancelled without the lock. *)
Lemma cancel_sys g cpu t c rest :
  sys_inv g -> current (sch g) !! cpu = Some t -> thread_lock_owner (sch g) = cpu -> stacks g !! t = Some (FCall c :: rest) ->
  is_finite_wait c = true ->
  exists k, lift (bind (THREAD_UNLOCK cpu) (fun _ => on_timers (cancel_timeout cpu t))) (kn g) = Some (tt, k) /\
    sys_inv (mk_sys k (<[t := FRelock c :: rest]> (stacks g)) (ghost g)).
Proof.
  intros Hsys Hc Hown Hst Hf. pose proof (in_shape _ Hsys) as Hsh.
  pose proof (sh_sched _ _ Hsh) as Hinv. rewrite Hown in Hinv. destruct (THREAD_UNLOCK_run cpu _ Hinv) as [Hul Hinv0].
  destruct (current_stack g cpu t (FCall c) c rest Hsys Hc Hst ltac:(by left)) as [_ [->| ->]]; [|done].
  destruct (cancel_timeout_law (timers (sch g)) cpu t) as (x & Hx & Hok & Hpp & Htm);
    [apply (inv_preempt _ _ Hinv cpu)|by apply (wf_current _ _ (inv_wf _ _ Hinv) _ _ Hc)|by eapply (in_time _ Hsys)|].
  destruct (inv_running _ _ Hinv _ _ Hc) as (th & Hth & Hstate).
  assert (sched_inv cpu (with_timers x (sch g))) as Hinvx.
  { eapply busy_inv; [apply busy_timers; [by apply inv_busy|done|done]|exact Hc|exact Hth|done]. }
  set (s' := with_owner unlocked (with_timers x (sch g))).
  assert (sched_inv unlocked s') as Hinv' by (by apply (THREAD_UNLOCK_run cpu)).
  destruct (running_thread_view _ _ _ _ Hinv Hc) as [r Hr].
  exists (with_ks s' (kn g)). split.
  { apply lift_eq. rewrite (bind_eq _ _ _ _ _ Hul). unfold on_timers. cbn [timers with_owner]. change (timers (ks (kn g))) with (timers (sch g)).
    by rewrite Hx. }
  constructor; cbn [kn stacks ghost]; unfold sch; cbn [kn ks with_ks].
  - eapply (shape_moved (sch g) _ _ cpu t (Return tt)); [done|done|by right|done|by constructor|]. right. by exists c.
  - intros u su Hu. destruct (decide (u = t)) as [->|]; [|rewrite lookup_insert_ne in Hu by done; by apply (in_view _ Hsys)].
    rewrite lookup_insert_eq in Hu. injection Hu as <-. change (view s' t) with (view (sch g) t).
    pose proof (in_view _ Hsys _ _ Hst) as Hg. rewrite Hr in *. intros f Hin. apply list_elem_of_singleton in Hin as ->.
    apply (Hg (FCall c)). by left.
  - intros u su Hu. cbn [timers with_owner with_timers s']. destruct (Htm u) as [Hp Hl]. rewrite Hp, Hl. unfold s'. cbn.
    destruct (decide (u = t)) as [->|]; [|rewrite lookup_insert_ne in Hu by done; by apply (in_time _ Hsys)].
    rewrite lookup_insert_eq in Hu. injection Hu as <-. by split.
  - eapply (object_inv_same (kn g) _ _ _ t [FCall c]); try done; [apply Hsys|].
    intros f Hin. right. apply list_elem_of_singleton in Hin as ->. exists (FCall c). split; [by left|done].
Qed.

Lemma running_not_owner g cpu t :
  sys_inv g -> current (sch g) !! cpu = Some t -> thread_lock_owner (sch g) = unlocked ->
  sched_inv unlocked (sch g) /\ exists st, stacks g !! t = Some st /\ running_stack st.
Proof.
  intros Hsys Hc Hown. pose proof (in_shape _ Hsys) as Hsh. pose proof (sh_sched _ _ Hsh) as Hinv. rewrite Hown in Hinv.
  split; [done|]. destruct (wf_current _ _ (inv_wf _ _ Hinv) _ _ Hc) as (Hv & th & Hth & _).
  assert (is_Some (stacks g !! t)) as [st Hst] by (apply (sh_dom _ _ Hsh); by eexists).
  exists st. split; [done|]. eapply (sh_running _ _ Hsh); [exact Hc| |done]. rewrite Hown. unfold valid_cpu, unlocked in *. lia.
Qed.

Lemma wait_ok_moved cpu t o kept s s' a : moved cpu t o kept s s' -> wait_ok s a -> wait_ok s' a.
Proof. intros Hm. unfold wait_ok. by rewrite (mv_queues _ _ _ _ _ _ Hm), (mv_waits _ _ _ _ _ _ Hm). Qed.

Lemma stack_of_eq g t st : stacks g !! t = Some st -> stack_of g t = st.
Proof. unfold stack_of. by intros ->. Qed.

Lemma preempt_sys g cpu t :
  sys_inv g -> current (sch g) !! cpu = Some t -> thread_lock_owner (sch g) = unlocked ->
  exists o k, lift (thread_preempt cpu) (kn g) = Some (o, k) /\
    sys_inv (mk_sys k (match o with Return _ => stacks g | Switched => <[t := FCall CYield :: stack_of g t]> (stacks g) end) (ghost g)).
Proof.
  intros Hsys Hc Hown. destruct (running_not_owner g cpu t Hsys Hc Hown) as (Hinv & st & Hst & Hrun).
  destruct (preempt_moved cpu (sch g) t Hinv Hc) as (o & s' & Hr & Hm & Hv & Htm). exists o, (with_ks s' (kn g)).
  split; [by apply lift_eq|]. rewrite (stack_of_eq g t st Hst).
  set (st' := match o with Return _ => st | Switched => FCall CYield :: st end).
  assert (match o with Return _ => stacks g | Switched => <[t := FCall CYield :: st]> (stacks g) end = <[t := st']> (stacks g)) as ->
    by (destruct o; [by rewrite insert_id|done]).
  destruct (running_thread_view _ _ _ _ Hinv Hc) as [r Hvt].
  constructor; cbn [kn stacks ghost]; unfold sch; cbn [kn ks with_ks].
  - eapply (shape_moved (sch g) _ _ cpu t o); [apply Hsys|done|by left|intros u; by eapply moved_threads|done|].
    destruct o; [done|]. exists CYield, st. split; [done|]. by right.
  - intros u su Hu. rewrite Hv. destruct (decide (u = t)) as [->|]; [|rewrite lookup_insert_ne in Hu by done; by apply (in_view _ Hsys)].
    rewrite lookup_insert_eq in Hu. injection Hu as <-. pose proof (in_view _ Hsys _ _ Hst) as Hg. rewrite Hvt in *.
    destruct o; [done|]. intros f [->|Hin]%elem_of_cons; [by intros [? ?]|by apply Hg].
  - intros u su Hu. destruct (Htm u) as [Hp Hl]. rewrite Hp, Hl.
    destruct (decide (u = t)) as [->|]; [|rewrite lookup_insert_ne in Hu by done; by apply (in_time _ Hsys)].
    rewrite lookup_insert_eq in Hu. injection Hu as <-. destruct o; [by apply (in_time _ Hsys)|]. split; [|by intros c rest [= <- <-]].
    intros Hpt. destruct (proj1 (in_time _ Hsys _ _ Hst) Hpt) as (c & rest & -> & Hf). by destruct Hrun as [|(? & ? & _)].
  - eapply (object_inv_same (kn g) _ _ _ t st); try done; [apply Hsys|by destruct o| | |].
    + intros f Hin. destruct o; [right; by exists f|]. apply elem_of_cons in Hin as [->|Hin]; [by left|right; by exists f].
    + intros u. cbn. by rewrite Hv.
    + intros a. by eapply wait_ok_moved.
Qed.

Lemma timeout_sys g cpu t c rest t0 :
  sys_inv g -> current (sch g) !! cpu = Some t0 -> thread_lock_owner (sch g) = unlocked -> stacks g !! t = Some (FCall c :: rest) ->
  is_finite_wait c = true ->
  exists b k, lift (wait_queue_timeout_handler cpu t) (kn g) = Some (b, k) /\ sys_inv (mk_sys k (stacks g) (ghost g)).
Proof.
  intros Hsys Hc Hown Hst Hf. destruct (running_not_owner g cpu t0 Hsys Hc Hown) as (Hinv & st & Hst0 & Hrun).
  assert (is_Some (threads (sch g) !! t)) as [th Hth] by (apply (sh_dom _ _ (in_shape _ Hsys)); by eexists).
  destruct (timeout_moved cpu (sch g) t0 t th Hinv Hc Hth) as (b & s' & Hr & Hm & Hv & Htm). exists b, (with_ks s' (kn g)).
  split; [by apply lift_eq|].
  assert (<[t := FCall c :: rest]> (stacks g) = stacks g) as Hid by (by rewrite insert_id).
  assert (forall u, (view s' u = view (sch g) u) \/ (u = t /\ view s' u = Some (None, ERR_TIMED_OUT) /\ exists w r, view (sch g) t = Some (Some w, r))) as Hv'.
  { intros u. rewrite Hv. case_decide as Hu; [|by left]. subst u. destruct (blocked_on th) as [w|] eqn:Hb; [|by left]. right.
    split_and!; [done|done|]. exists w, (wait_queue_block_ret th). unfold view. rewrite Hth. cbn. unfold view_of. by rewrite Hb. }
  constructor; cbn [kn stacks ghost]; unfold sch; cbn [kn ks with_ks].
  - rewrite <- (insert_id (stacks g) t0 st Hst0).
    eapply (shape_moved (sch g) _ _ cpu t0 (Return tt)); [apply Hsys|done|by left|intros u; by eapply moved_threads|done|done].
  - intros u su Hu. destruct (Hv' u) as [->|(-> & -> & w & r & Hvt)]; [by apply (in_view _ Hsys)|].
    pose proof (in_view _ Hsys _ _ Hu) as Hg. rewrite Hvt in Hg. destruct Hg as (c' & a & timeout & -> & Hw & ->).
    rewrite Hst in Hu. injection Hu as -> ->. intros f Hin%list_elem_of_singleton. subst f. by right.
  - intros u su Hu. destruct (Htm u) as [-> ->]. by apply (in_time _ Hsys).
  - rewrite <- Hid. eapply (object_inv_same (kn g) _ _ _ t (FCall c :: rest)); try done; [apply Hsys| | |].
    + intros f Hin. right. by exists f.
    + intros u. cbn. destruct (Hv' u) as [->|(-> & -> & w & r & Hvt)]; [done|]. change (ks (kn g)) with (sch g). rewrite Hvt. done.
    + intros a. by eapply wait_ok_moved.
Qed.
End step.
