(* ===== verification/SyncProps.v ===== *)
(** * What mutexes and semaphores guarantee under every interleaving *)
From stdpp Require Import base gmap list.
From Stdlib Require Import ZArith Lia.
From S2P Require Import Prelude Timer Sched SchedInv SchedOps SchedApi SchedWait SchedTimer SchedCheck Sync SyncView SyncOps SyncSys SyncInv SyncSteps SyncCalls SyncFinish SyncStep.

Local Open Scope Z_scope.
Local Open Scope lk_scope.

Section props.
Context {T : Type} `{!TimerOps T} `{!Config} `{!TimerLaws T} `{!ConfigLaws}.
Implicit Types (s : sched T) (k : kernel T) (g : sys T) (t cpu m r : Z) (th : thread_t) (c : call).

Lemma total_positive (f : Z -> list frame -> Z) (sk : gmap Z (list frame)) :
  1 <= 0 + total f sk -> exists t st, sk !! t = Some st /\ 0 < f t st.
Proof.
  induction sk as [|t st sk Ht IH] using map_ind; [done|]. rewrite total_insert by done. intros Hp.
  destruct (decide (0 < f t st)) as [|Hn]; [exists t, st; by rewrite lookup_insert_eq|].
  destruct IH as (u & su & Hu & Hf); [lia|]. exists u, su. rewrite lookup_insert_ne; [done|]. congruence.
Qed.

(** ** The start: threads in no call, objects as their initialisation leaves them *)
Record sys_start g : Prop := {
  st_sched : sched_inv unlocked (sch g);
  st_null : threads (sch g) !! 0 = None;
  st_dom : forall t, is_Some (threads (sch g) !! t) <-> is_Some (stacks g !! t);
  st_stacks : forall t st, stacks g !! t = Some st ->
    (st = [] /\ exists cpu, current (sch g) !! cpu = Some t) \/
    (st = [FCall CYield] /\ forall cpu, current (sch g) !! cpu <> Some t);
  st_views : forall t w r, view (sch g) t <> Some (Some w, r);
  st_timeouts : forall t, is_Some (stacks g !! t) -> timeout_pending (timers (sch g)) t = false;
  st_mutex : forall m x, mutexes (kn g) !! m = Some x -> x = mk_mutex MUTEX_MAGIC 0 0;
  st_sem : forall a x, semaphores (kn g) !! a = Some x -> 0 <= sem_count x /\ tokens (ghost g) !! a = Some (sem_count x);
  st_wait_ok : forall o, obj_exists (kn g) o -> wait_ok (sch g) (obj_addr o);
  st_disjoint : forall m a, is_Some (mutexes (kn g) !! m) -> is_Some (semaphores (kn g) !! a) -> m <> a;
  st_held : held (ghost g) = [];
  st_timed : timed (ghost g) = false
}.

Lemma start_totals g o : sys_start g -> waits o (stacks g) = 0 /\ grants o (view (sch g)) (stacks g) = 0.
Proof.
  intros Hst. assert (forall (f : Z -> list frame -> Z) (sk : gmap Z (list frame)), (forall t st, sk !! t = Some st -> f t st = 0) -> total f sk = 0) as Hz.
  { intros f sk Hf. rewrite (total_ext f (fun _ _ => 0)) by done. clear. induction sk as [|t st sk Hm IH] using map_ind; [done|].
    rewrite total_insert by done. lia. }
  split; apply Hz; intros t st Ht; unfold at_obj, granted_at;
    destruct (st_stacks _ Hst _ _ Ht) as [[-> _]|[-> _]]; done.
Qed.

Lemma start_inv g : sys_start g -> sys_inv g.
Proof.
  intros Hst. pose proof (st_sched _ Hst) as Hinv. pose proof (fun o => start_totals g o Hst) as Htot.
  assert (forall t st f, stacks g !! t = Some st -> f ∈ st -> frame_call f = CYield) as Hfr.
  { intros t st f Ht Hf. destruct (st_stacks _ Hst _ _ Ht) as [[-> _]|[-> _]]; [by apply elem_of_nil in Hf|].
    by apply list_elem_of_singleton in Hf as ->. }
  constructor.
  - constructor; rewrite ?(inv_owner _ _ Hinv); try apply Hst; [by left| |].
    + intros c t st Hc _ Ht. destruct (st_stacks _ Hst _ _ Ht) as [[-> _]|[_ Hn]]; [by left|by apply Hn in Hc].
    + intros t st Ht Hn. destruct (st_stacks _ Hst _ _ Ht) as [[-> [c Hc]]|[-> _]].
      * destruct (wf_current _ _ (inv_wf _ _ Hinv) _ _ Hc) as [Hv _]. rewrite (Hn c Hc) in Hv. unfold valid_cpu, unlocked in Hv. lia.
      * exists CYield, []. split; [done|by left].
  - intros t st Ht. destruct (view (sch g) t) as [[[w|] r]|] eqn:Hv; [by apply (st_views _ Hst) in Hv| |done].
    intros f Hf. rewrite (Hfr _ _ _ Ht Hf). by intros [? ?].
  - intros t st Ht. rewrite (st_timeouts _ Hst) by (by eexists). split; [done|]. intros c rest -> Hf.
    assert (c = CYield) as -> by (apply (Hfr _ _ (FCall c) Ht); by left). done.
  - constructor; try apply Hst.
    + intros m x Hx. rewrite (st_mutex _ Hst _ _ Hx). destruct (Htot (OMutex m)) as [Hw Hg]. change (ks (kn g)) with (sch g).
      constructor; cbn; rewrite ?Hw, ?Hg; cbn; try done; try lia. rewrite (st_held _ Hst). intros t. split; [by intros ?%elem_of_nil|by intros [-> ?]].
    + intros a x Hx. destruct (st_sem _ Hst _ _ Hx) as [Hn Htk]. destruct (Htot (OSem a)) as [Hw Hg]. change (ks (kn g)) with (sch g).
      exists (sem_count x). constructor; cbn; rewrite ?Hw, ?Hg; [done|lia|lia|lia].
    + intros t st o Ht Htg. destruct (st_stacks _ Hst _ _ Ht) as [[-> _]|[-> _]]; done.
    + rewrite (st_held _ Hst). by intros m t ?%elem_of_nil.
    + intros t st f Ht Hf. by rewrite (Hfr _ _ _ Ht Hf).
    + intros _ t st f Ht Hf. by rewrite (Hfr _ _ _ Ht Hf).
Qed.

(** ** Which steps are possible *)
Definition enabled (ev : event) g : Prop :=
  match ev with
  | EvCall cpu c => exists t th, current (sch g) !! cpu = Some t /\ threads (sch g) !! t = Some th /\ thread_is_idle th = false /\
      stacks g !! t = Some [] /\ thread_lock_owner (sch g) = unlocked /\ timeout_ok c /\ call_ok (kn g) t c
  | EvResume cpu => exists t c rest, current (sch g) !! cpu = Some t /\ thread_lock_owner (sch g) = cpu /\ stacks g !! t = Some (FCall c :: rest)
  | EvRelock cpu => exists t c rest, current (sch g) !! cpu = Some t /\ thread_lock_owner (sch g) = unlocked /\ stacks g !! t = Some (FRelock c :: rest)
  | EvPreempt cpu => is_Some (current (sch g) !! cpu) /\ thread_lock_owner (sch g) = unlocked
  | EvTimeout cpu t => is_Some (current (sch g) !! cpu) /\ thread_lock_owner (sch g) = unlocked /\
      exists c rest, stacks g !! t = Some (FCall c :: rest) /\ is_finite_wait c = true
  end.

Lemma with_ks_id g cpu : thread_lock_owner (sch g) = cpu -> with_ks (with_owner cpu (sch g)) (kn g) = kn g.
Proof. intros <-. unfold sch. destruct g as [[s ? ? ?] ? ?]. by destruct s. Qed.

Lemma enabled_step ev g : sys_inv g -> enabled ev g -> exists g', step ev g = Some g' /\ sys_inv g'.
Proof.
  intros Hsys Hen. pose proof (in_shape _ Hsys) as Hsh. destruct ev as [cpu c|cpu|cpu|cpu|cpu t]; cbn in Hen.
  - destruct Hen as (t & th & Hc & Hth & Hi & Hst & Hown & Hto & Hok).
    assert (ready (kn g) (stacks g) (ghost g) cpu t) as Hrd.
    { constructor; try apply Hsys; [|done]. constructor; [|done|by exists th]. pose proof (sh_sched _ _ Hsh) as Hi'. by rewrite Hown in Hi'. }
    destruct (gone_well_sys g cpu t c Hsys Hrd (exec_well _ _ _ _ _ _ Hrd Hok Hto)) as (o & k & He & Hsys').
    eexists. split; [|exact Hsys']. cbn. change (ks (kn g)) with (sch g). rewrite Hc. cbn. rewrite Hth. cbn. rewrite (stack_of_eq g t [] Hst), Hi, Hown. unfold unlocked. rewrite Z.eqb_refl.
    assert (match wait_of c with Some (_, timeout) => (0 <=? timeout) && (timeout <=? INFINITE_TIME) | None => true end = true) as ->.
    { unfold timeout_ok in Hto. destruct (wait_of c) as [[a timeout]|]; [|done]. apply andb_true_iff. split; apply Z.leb_le; lia. }
    cbn. by rewrite He.
  - destruct Hen as (t & c & rest & Hc & Hown & Hst). cbn. change (ks (kn g)) with (sch g). rewrite Hc. cbn.
    rewrite Hown, Z.eqb_refl, (stack_of_eq g t _ Hst). destruct (is_finite_wait c) eqn:Hf.
    + destruct (cancel_sys g cpu t c rest Hsys Hc Hown Hst Hf) as (k & -> & Hsys'). by eexists.
    + destruct (finish_sys g cpu t (FCall c) c rest Hsys Hc Hst eq_refl ltac:(by left)) as (r & r' & k' & Hr & Hr' & Hsys').
      rewrite with_ks_id in Hr, Hr' by done. rewrite Hr. cbn. rewrite Hr'. cbn. by eexists.
  - destruct Hen as (t & c & rest & Hc & Hown & Hst). cbn. change (ks (kn g)) with (sch g). rewrite Hc. cbn.
    rewrite (stack_of_eq g t _ Hst). pose proof (sh_sched _ _ Hsh) as Hi'. rewrite Hown in Hi'. rewrite (lift_lock _ cpu Hi').
    destruct (finish_sys g cpu t (FRelock c) c rest Hsys Hc Hst eq_refl ltac:(by right)) as (r & r' & k' & Hr & Hr' & Hsys').
    cbn. change (ks (kn g)) with (sch g). rewrite Hr. cbn. rewrite Hr'. cbn. by eexists.
  - destruct Hen as ([t Hc] & Hown). cbn. change (ks (kn g)) with (sch g). rewrite Hc. cbn. rewrite Hown, Z.eqb_refl.
    destruct (preempt_sys g cpu t Hsys Hc Hown) as (o & k & -> & Hsys'). cbn. by eexists.
  - destruct Hen as ([t0 Hc] & Hown & c & rest & Hst & Hf). cbn. change (ks (kn g)) with (sch g). rewrite Hc. cbn.
    rewrite (stack_of_eq g t _ Hst), Hf. destruct (timeout_sys g cpu t c rest t0 Hsys Hc Hown Hst Hf) as (b & k & -> & Hsys'). cbn. by eexists.
Qed.

Lemma lock_free cpu k res : lift (THREAD_LOCK cpu) k = Some res -> thread_lock_owner (ks k) = unlocked.
Proof. unfold lift, THREAD_LOCK. destruct (Z.eqb_spec (thread_lock_owner (ks k)) SMP_MAX_CPUS); [done|]. done. Qed.

Lemma timeout_handler_lock_free cpu t k res :
  lift (wait_queue_timeout_handler cpu t) k = Some res -> thread_lock_owner (ks k) = unlocked.
Proof.
  unfold lift. destruct (wait_queue_timeout_handler cpu t (ks k)) as [p|] eqn:Hw; [|done]. intros _.
  unfold wait_queue_timeout_handler, get_thread in Hw. apply bind_Some in Hw as (th & s1 & Hg & Hw).
  apply getsome_Some in Hg as (? & _ & [= <- ->]). apply bind_Some in Hw as (u & s2 & Ha & Hw).
  apply assert_Some in Ha as [_ [= -> ->]]. apply bind_Some in Hw as (u' & s3 & Hlk & _).
  unfold THREAD_LOCK in Hlk. destruct (Z.eqb_spec (thread_lock_owner (ks k)) SMP_MAX_CPUS); done.
Qed.

Lemma step_enabled ev g g' : sys_inv g -> step ev g = Some g' -> enabled ev g.
Proof.
  intros Hsys. pose proof (in_shape _ Hsys) as Hsh.
  assert (forall t f rest, stack_of g t = f :: rest -> stacks g !! t = Some (f :: rest)) as Hso.
  { intros t f rest. unfold stack_of. destruct (stacks g !! t); cbn; congruence. }
  destruct ev as [cpu c|cpu|cpu|cpu|cpu t]; cbn; change (ks (kn g)) with (sch g).
  - destruct (current (sch g) !! cpu) as [t|] eqn:Hc; [|done]. cbn.
    destruct (threads (sch g) !! t) as [th|] eqn:Hth; [|done]. cbn.
    destruct (bool_decide (stack_of g t = [])) eqn:Hb; [|done]. apply bool_decide_eq_true in Hb.
    destruct (thread_is_idle th) eqn:Hi; [done|]. destruct (Z.eqb_spec (thread_lock_owner (sch g)) SMP_MAX_CPUS) as [Hown|]; [|done].
    cbn. destruct (match wait_of c with Some _ => _ | None => _ end) eqn:Hto; [|done].
    destruct (exec cpu c (kn g)) as [[o k]|] eqn:He; [|done]. intros _. exists t, th. split_and!; [done..| |done| |].
    + assert (is_Some (stacks g !! t)) as [st Hst] by (apply (sh_dom _ _ Hsh); by eexists). unfold stack_of in Hb. by rewrite Hst in *; cbn in Hb; subst.
    + unfold timeout_ok. destruct (wait_of c) as [[a timeout]|]; [|done]. bprop. lia.
    + eapply exec_call_ok; [|exact Hc|by eexists]. pose proof (sh_sched _ _ Hsh) as Hs. by rewrite Hown in Hs.
  - destruct (current (sch g) !! cpu) as [t|] eqn:Hc; [|done]. cbn. destruct (Z.eqb_spec (thread_lock_owner (sch g)) cpu) as [Hown|]; [|done].
    destruct (stack_of g t) as [|[c|c] rest] eqn:Hst; [done| |done]. intros _. exists t, c, rest. auto.
  - destruct (current (sch g) !! cpu) as [t|] eqn:Hc; [|done]. cbn.
    destruct (stack_of g t) as [|[c|c] rest] eqn:Hst; [done|done|].
    destruct (lift (THREAD_LOCK cpu) (kn g)) as [[u k]|] eqn:Hl; [|done]. intros _. exists t, c, rest. split_and!; auto. by eapply lock_free.
  - destruct (current (sch g) !! cpu) as [t|] eqn:Hc; [|done]. cbn. destruct (Z.eqb_spec (thread_lock_owner (sch g)) SMP_MAX_CPUS) as [Hown|]; [|done].
    intros _. split; [by eexists|done].
  - destruct (current (sch g) !! cpu) as [t0|] eqn:Hc; [|done]. cbn. destruct (stack_of g t) as [|[c|c] rest] eqn:Hst; [done| |done].
    destruct (is_finite_wait c) eqn:Hf; [|done].
    destruct (lift (wait_queue_timeout_handler cpu t) (kn g)) as [[b k]|] eqn:Hl; [|done]. intros _.
    split_and!; [by eexists| |by exists c, rest; auto]. by eapply timeout_handler_lock_free.
Qed.

Lemma steps_inv evs : forall g g', sys_inv g -> steps evs g = Some g' -> sys_inv g'.
Proof.
  induction evs as [|ev evs IH]; cbn; intros g g' Hsys; [by intros [= <-]|].
  destruct (step ev g) as [g1|] eqn:Hs; [|done]. cbn. apply IH.
  destruct (enabled_step ev g Hsys (step_enabled _ _ _ Hsys Hs)) as (g2 & Hs2 & Hsys2). congruence.
Qed.

(** ** The guarantees *)

(** C7: from a start in which no thread is in a call, after any sequence of
    calls, resumptions, preemptions and time-outs on any number of cpus, at most
    one thread holds a mutex: one whose acquisition succeeded and which has not
    released it since. The mutex names it as its holder, and its word is positive
    and counts it and the threads in a wait for it. *)
Theorem mutual_exclusion g0 evs g :
  sys_start g0 -> steps evs g0 = Some g ->
  forall m t, (m, t) ∈ held (ghost g) ->
    (forall u, (m, u) ∈ held (ghost g) -> u = t) /\
    exists x, mutexes (kn g) !! m = Some x /\ m_holder x = t /\ m_count x = 1 + waits (OMutex m) (stacks g).
Proof.
  intros Hst Hr m t Hin. pose proof (in_object _ (steps_inv _ _ _ (start_inv _ Hst) Hr)) as Hoi.
  destruct (oi_held _ _ _ Hoi _ _ Hin) as [x Hx]. pose proof (oi_mutex _ _ _ Hoi _ _ Hx) as Hm.
  destruct (proj1 (mi_held _ _ _ _ _ Hm t) Hin) as [Ht Ht0]. split.
  - intros u Hu. destruct (proj1 (mi_held _ _ _ _ _ Hm u) Hu). congruence.
  - exists x. split_and!; [done..|]. rewrite (mi_count _ _ _ _ _ Hm). unfold own. by rewrite (proj2 (Z.eqb_neq _ _)) by congruence.
Qed.

(** C8: in the same runs a semaphore is never overdrawn: its initial value and
    the posts so far cover the waits that succeeded and those whose thread has
    been woken but has not run yet. Its word is what is left, less the threads in
    a wait for it. *)
Theorem semaphore_not_overdrawn g0 evs g :
  sys_start g0 -> steps evs g0 = Some g ->
  forall a x, semaphores (kn g) !! a = Some x ->
    exists n, tokens (ghost g) !! a = Some n /\ 0 <= grants (OSem a) (view (sch g)) (stacks g) <= n /\
      sem_count x = n - waits (OSem a) (stacks g).
Proof.
  intros Hst Hr a x Hx. pose proof (in_object _ (steps_inv _ _ _ (start_inv _ Hst) Hr)) as Hoi.
  destruct (oi_sem _ _ _ Hoi _ _ Hx) as [n [Htk Hc Hg _]]. exists n. pose proof (grants_nonneg (OSem a) (view (sch g)) (stacks g)).
  by split_and!.
Qed.

(** C9: in the same runs every step that makes sense is defined, so none of the
    assertions of the mutexes, semaphores, wait queues, the scheduler and the
    timers it uses can fail; the callers only have to name existing objects, not
    acquire a mutex they hold or release one they do not, and not post a
    semaphore beyond INT_MAX. As long as some cpu runs a thread a step makes sense. *)
Theorem no_assertion_fails g0 evs g :
  sys_start g0 -> steps evs g0 = Some g ->
  (forall ev, enabled ev g <-> is_Some (step ev g)) /\
  (forall cpu, is_Some (current (sch g) !! cpu) -> exists ev, enabled ev g).
Proof.
  intros Hst Hr. pose proof (steps_inv _ _ _ (start_inv _ Hst) Hr) as Hsys. split.
  - intros ev. split; [|intros [g' Hg']; by eapply step_enabled].
    intros Hen. destruct (enabled_step ev g Hsys Hen) as (g' & Hg' & _). by eexists.
  - intros cpu Hc. pose proof (in_shape _ Hsys) as Hsh. destruct (sh_owner _ _ Hsh) as [Hown|[t Ht]].
    + exists (EvPreempt cpu). by split.
    + exists (EvResume (thread_lock_owner (sch g))). assert (is_Some (threads (sch g) !! t)) as Hth.
      { destruct (inv_running _ _ (sh_sched _ _ Hsh) _ _ Ht) as (th & ? & _). by eexists. }
      apply (sh_dom _ _ Hsh) in Hth as [st Hstk]. destruct (sh_waiting _ _ Hsh t st Hstk) as (c & rest & -> & _); [|by exists t, c, rest].
      intros c Hc'. by eapply (wf_current_unique none (sch g)); [apply (inv_wf _ _ (sh_sched _ _ Hsh))|..].
Qed.

(** C10: as long as no call is given a time-out no wake-up is lost. While some
    thread waits for a mutex, the mutex is held or has been handed to a thread
    that will take it; while one waits on for a semaphore, every token left has
    been handed to a thread. *)
Theorem untimed_wakeups_kept g0 evs g :
  sys_start g0 -> steps evs g0 = Some g -> timed (ghost g) = false ->
  (forall m x, mutexes (kn g) !! m = Some x -> 0 < waits (OMutex m) (stacks g) ->
     (exists t, (m, t) ∈ held (ghost g)) \/
     exists t st, stacks g !! t = Some st /\ stack_target st = Some (OMutex m) /\ view (sch g) t = Some (None, NO_ERROR)) /\
  (forall a x, semaphores (kn g) !! a = Some x -> grants (OSem a) (view (sch g)) (stacks g) < waits (OSem a) (stacks g) ->
     tokens (ghost g) !! a = Some (grants (OSem a) (view (sch g)) (stacks g))).
Proof.
  intros Hst Hr Hti. pose proof (in_object _ (steps_inv _ _ _ (start_inv _ Hst) Hr)) as Hoi. split.
  - intros m x Hx Hw. pose proof (oi_mutex _ _ _ Hoi _ _ Hx) as Hm. pose proof (mi_count _ _ _ _ _ Hm) as Hcnt.
    pose proof (mi_handed _ _ _ _ _ Hm Hti) as Hha. unfold own in *. destruct (Z.eqb_spec (m_holder x) 0) as [Hz|Hz].
    + right. apply total_positive in Hha; [|lia]. destruct Hha as (t & st & Ht & Hg). exists t, st. split; [done|].
      unfold granted_at in Hg. destruct (bool_decide _ && bool_decide _) eqn:Hb; [|done]. bprop.
      by split; eapply bool_decide_eq_true_1.
    + left. exists (m_holder x). by apply (mi_held _ _ _ _ _ Hm).
  - intros a x Hx Hlt. destruct (oi_sem _ _ _ Hoi _ _ Hx) as [n [Htk _ _ Hha]]. rewrite Htk. f_equal. symmetry. exact (Hha Hti Hlt).
Qed.
End props.

(** ** Two cpus, three threads, a mutex at 500 and a semaphore at 600 *)
Module SyncExample.
Import SchedCheck.Example.

Definition start_threads : gmap Z thread_t := list_to_map
  [example_thread 1000 0 THREAD_READY THREAD_FLAG_IDLE (-1) 0 None;
   example_thread 1001 0 THREAD_RUNNING THREAD_FLAG_IDLE 1 1 None;
   example_thread 1 16 THREAD_RUNNING 0 0 0 None;
   example_thread 2 16 THREAD_READY 0 (-1) 0 None;
   example_thread 3 16 THREAD_READY 0 (-1) 0 None].

Definition start_sched : sched timer_state :=
  mk_sched start_threads [1; 2; 3] []
    (<[WaitList (WaitQueueAt 600) := []]> (<[WaitList (WaitQueueAt 500) := []]> (<[RunQueue 16 := [2; 3]]>
      (list_to_map ((fun p => (RunQueue (Z.of_nat p), [])) <$> seq 0 32)))))
    (2 ^ 16) (list_to_map [(0, 16); (1, 0)])
    (list_to_map [(WaitQueueAt 500, mk_wait_queue WAIT_QUEUE_MAGIC 0); (WaitQueueAt 600, mk_wait_queue WAIT_QUEUE_MAGIC 0)])
    (list_to_map [(0, 1); (1, 1001)]) SMP_MAX_CPUS (mk_mp 3 2 0) (list_to_map [(0, 0); (1, 0)]) [] example_kernel_timers.

Definition start : sys timer_state :=
  mk_sys (mk_kernel start_sched {[500 := mk_mutex MUTEX_MAGIC 0 0]} {[600 := mk_semaphore SEMAPHORE_MAGIC 1]} ∅)
    (list_to_map [(1000, [FCall CYield]); (1001, []); (1, []); (2, [FCall CYield]); (3, [FCall CYield])])
    (mk_ghost [] {[600 := 1]} false).

Lemma start_mutex m x : mutexes (kn start) !! m = Some x -> m = 500 /\ x = mk_mutex MUTEX_MAGIC 0 0.
Proof. cbn. by intros [<- <-]%lookup_singleton_Some. Qed.
Lemma start_sem (a : Z) x : semaphores (kn start) !! a = Some x -> a = 600 /\ x = mk_semaphore SEMAPHORE_MAGIC 1.
Proof. cbn. by intros [<- <-]%lookup_singleton_Some. Qed.

Lemma start_is_start : sys_start start.
Proof.
  constructor.
  - constructor; [by apply sched_wf_check_sound; vm_compute|done| |].
    + intros c t Hc%elem_of_list_to_map_2. set_unfold in Hc. destruct_or! Hc; simplify_eq; eexists; split; reflexivity.
    + intros c. split; [apply example_kernel_timers_ok|]. intros t th Hc%elem_of_list_to_map_2. set_unfold in Hc.
      destruct_or! Hc; simplify_eq; intros [= <-]; reflexivity.
  - done.
  - assert (dom start_threads = dom (stacks start)) as Hd by (by vm_compute). intros t.
    change (threads (sch start)) with start_threads. by rewrite <- !elem_of_dom, Hd.
  - intros t st Hst%elem_of_list_to_map_2. set_unfold in Hst.
    destruct_or! Hst; simplify_eq; first [by left; split; [|exists 0]|by left; split; [|exists 1]|right; (split; [done|])];
      intros cpu Hc%elem_of_list_to_map_2; set_unfold in Hc; destruct_or! Hc; simplify_eq.
  - intros t w r. unfold view. destruct (threads (sch start) !! t) as [th|] eqn:Hth; [|done].
    apply elem_of_list_to_map_2 in Hth. set_unfold in Hth. unfold example_thread in Hth.
    destruct_or! Hth; simplify_eq; done.
  - intros t [st Hst%elem_of_list_to_map_2]. set_unfold in Hst. destruct_or! Hst; by simplify_eq.
  - by intros m x [_ ->]%start_mutex.
  - by intros a x [-> ->]%start_sem.
  - intros [m|a] [x Hx]; [apply start_mutex in Hx as [-> _]|apply start_sem in Hx as [-> _]]; (split; [by eexists|done]).
  - by intros m a [x [-> _]%start_mutex] [y [-> _]%start_sem].
  - done.
  - done.
Qed.

Definition forever : call := CMutexAcquire 500 INFINITE_TIME.

(** Thread 1 takes the mutex, thread 2 waits for it, and thread 1 is back. *)
Definition contended : list event :=
  [EvCall 0 forever; EvCall 0 CYield; EvResume 0; EvCall 0 forever; EvResume 0; EvCall 0 CYield; EvResume 0].

(** The same with a time-out, which fires; then thread 1 gives the mutex up. *)
Definition abandoned_mutex : list event :=
  [EvCall 0 forever; EvCall 0 CYield; EvResume 0; EvCall 0 (CMutexAcquire 500 5); EvResume 0; EvCall 0 CYield; EvResume 0;
   EvTimeout 1 2; EvCall 0 (CMutexRelease 500); EvCall 0 forever; EvResume 0; EvRelock 0].
Definition abandoned_sem : list event :=
  [EvCall 0 (CSemWait 600 INFINITE_TIME); EvCall 0 CYield; EvResume 0; EvCall 0 (CSemWait 600 5); EvResume 0; EvCall 0 CYield; EvResume 0;
   EvTimeout 1 2; EvCall 0 (CSemPost 600 true); EvCall 0 (CSemWait 600 INFINITE_TIME); EvResume 0; EvRelock 0;
   EvCall 0 (CSemPost 600 true)].

Lemma observe {A} evs (f : sys timer_state -> A) a :
  f <$> steps evs start = Some a -> exists g, steps evs start = Some g /\ f g = a.
Proof. destruct (steps evs start) as [g|]; [|done]. intros [= <-]. by exists g. Qed.
End SyncExample.

Import SchedCheck.Example SyncExample.

(** With a time-out a wake-up can be lost. Thread 2 times out in
    [mutex_acquire_timeout] but has not run yet when thread 1 releases the mutex:
    the word still counts it, [wait_queue_wake_one] finds nobody, and thread 1,
    acquiring again, waits for a mutex that nobody holds and nobody was handed;
    once thread 2 has backed out no thread is left that could wake it. *)
Theorem mutex_wakeup_lost :
  exists g, steps abandoned_mutex start = Some g /\
    held (ghost g) = [] /\ mutexes (kn g) !! 500 = Some (mk_mutex MUTEX_MAGIC 0 1) /\
    view (sch g) 1 = Some (Some (WaitQueueAt 500), 0) /\ waits (OMutex 500) (stacks g) = 1 /\
    grants (OMutex 500) (view (sch g)) (stacks g) = 0.
Proof.
  destruct (observe abandoned_mutex
    (fun g => (held (ghost g), mutexes (kn g) !! 500, view (sch g) 1, waits (OMutex 500) (stacks g), grants (OMutex 500) (view (sch g)) (stacks g)))
    ([], Some (mk_mutex MUTEX_MAGIC 0 1), Some (Some (WaitQueueAt 500), 0), 1, 0)) as (g & Hg & Ho); [vm_compute; reflexivity|].
  injection Ho as ? ? ? ? ?. exists g. by split_and!.
Qed.

(** The same with [sem_timedwait]: the tokens are there, the word is
    positive, and thread 1 still waits; posts no longer wake it. *)
Theorem semaphore_wakeup_lost :
  exists g, steps abandoned_sem start = Some g /\
    tokens (ghost g) !! 600 = Some 2 /\ semaphores (kn g) !! 600 = Some (mk_semaphore SEMAPHORE_MAGIC 1) /\
    view (sch g) 1 = Some (Some (WaitQueueAt 600), 0).
Proof.
  destruct (observe abandoned_sem (fun g => (tokens (ghost g) !! 600, semaphores (kn g) !! 600, view (sch g) 1))
    (Some 2, Some (mk_semaphore SEMAPHORE_MAGIC 1), Some (Some (WaitQueueAt 600), 0))) as (g & Hg & Ho); [vm_compute; reflexivity|].
  injection Ho as ? ? ?. exists g. by split_and!.
Qed.

Lemma mutual_exclusion_witness :
  exists g, steps contended start = Some g /\ held (ghost g) = [(500, 1)] /\ (forall u, (500, u) ∈ held (ghost g) -> u = 1).
Proof.
  destruct (observe contended (fun g => held (ghost g)) [(500, 1)]) as (g & Hg & Hh); [vm_compute; reflexivity|].
  exists g. split_and!; [done..|]. apply (mutual_exclusion start contended g start_is_start Hg 500 1). rewrite Hh. by left.
Defined.

Lemma semaphore_not_overdrawn_witness :
  exists g, steps abandoned_sem start = Some g /\
    exists n, tokens (ghost g) !! 600 = Some n /\ 0 <= grants (OSem 600) (view (sch g)) (stacks g) <= n /\
      1 = n - waits (OSem 600) (stacks g).
Proof.
  destruct (observe abandoned_sem (fun g => semaphores (kn g) !! 600) (Some (mk_semaphore SEMAPHORE_MAGIC 1))) as (g & Hg & Hs);
    [vm_compute; reflexivity|].
  exists g. split; [done|]. apply (semaphore_not_overdrawn start abandoned_sem g start_is_start Hg 600 _ Hs).
Defined.

Lemma no_assertion_fails_witness :
  exists g, steps contended start = Some g /\ (forall ev, enabled ev g <-> is_Some (step ev g)) /\ exists ev, enabled ev g.
Proof.
  destruct (observe contended (fun g => current (sch g) !! 0) (Some 1)) as (g & Hg & Hc); [vm_compute; reflexivity|].
  exists g. split; [done|]. destruct (no_assertion_fails start contended g start_is_start Hg) as [He Hp].
  split; [done|]. apply (Hp 0). rewrite Hc. by eexists.
Defined.

Lemma untimed_wakeups_kept_witness :
  exists g, steps contended start = Some g /\
    ((exists t, (500, t) ∈ held (ghost g)) \/
     exists t st, stacks g !! t = Some st /\ stack_target st = Some (OMutex 500) /\ view (sch g) t = Some (None, NO_ERROR)).
Proof.
  destruct (observe contended (fun g => (timed (ghost g), mutexes (kn g) !! 500, waits (OMutex 500) (stacks g)))
    (false, Some (mk_mutex MUTEX_MAGIC 1 2), 1)) as (g & Hg & Ho); [vm_compute; reflexivity|].
  injection Ho as Ht Hm Hw. exists g. split; [done|].
  apply (proj1 (untimed_wakeups_kept start contended g start_is_start Hg Ht) 500 _ Hm). by rewrite Hw.
Defined.
