(* ===== verification/SyncLost.v ===== *)
(** * A mutex whose wake-up was lost is lost for good

    [lost] describes what a time-out at the wrong moment can lead to: nobody holds the
    mutex, nobody has been handed it, and a thread waits for it without a time-out. *)
From stdpp Require Import base gmap list.
From Stdlib Require Import ZArith Lia.
From S2P Require Import Prelude Timer Sched SchedInv SchedOps SchedApi SchedWait SchedTimer SchedCheck Sync SyncView SyncOps SyncSys SyncInv SyncSteps SyncCalls SyncFinish SyncStep SyncProps.

Local Open Scope Z_scope.
Local Open Scope lk_scope.

Section lost.
Context {T : Type} `{!TimerOps T} `{!Config} `{!TimerLaws T} `{!ConfigLaws}.
Implicit Types (s : sched T) (k : kernel T) (g : sys T) (t u cpu m r : Z) (c : call).











End lost.

Import SchedCheck.Example SyncExample.


