(* ===== verification/Bst.v ===== *)
(** * Binary search trees (lib/binary_search_tree)

    The tree is a WAVL tree of intrusive nodes with parent pointers: a node's
    rank is one or two more than its children's, NULL having rank 0, and a leaf
    has rank 1. A node is named by its address and NULL is 0; ranks are [size_t],
    their arithmetic wraps at 64 bits. Loops run on fuel: one round per node of
    the memory and one more, which BstProps shows to be enough. *)
From stdpp Require Import base gmap list.
From Stdlib Require Import ZArith Lia.
From S2P Require Import Prelude.

Local Open Scope Z_scope.
Local Open Scope lk_scope.

Definition NULL : Z := 0.

Record bst_node := mk_bst_node { rank : Z; parent : Z; child0 : Z; child1 : Z }.

(** The memory of nodes and the root of the tree. *)
Record bst_root := mk_bst_root { bst_nodes : gmap Z bst_node; root : Z }.

Definition child (d : bool) (n : bst_node) : Z := if d then child1 n else child0 n.
Definition set_child (d : bool) (c : Z) (n : bst_node) : bst_node :=
  if d then mk_bst_node (rank n) (parent n) (child0 n) c else mk_bst_node (rank n) (parent n) c (child1 n).
Definition set_parent (p : Z) (n : bst_node) : bst_node := mk_bst_node (rank n) p (child0 n) (child1 n).
Definition set_rank (k : Z) (n : bst_node) : bst_node := mk_bst_node k (parent n) (child0 n) (child1 n).

Definition with_nodes (f : gmap Z bst_node -> gmap Z bst_node) (s : bst_root) : bst_root := mk_bst_root (f (bst_nodes s)) (root s).
Definition with_root (p : Z) (s : bst_root) : bst_root := mk_bst_root (bst_nodes s) p.

Local Abbreviation MB := (M bst_root).

Definition get_node (p : Z) : MB bst_node := getsome (fun s => if p =? NULL then None else bst_nodes s !! p).
Definition upd_node (p : Z) (f : bst_node -> bst_node) : MB unit :=
  n <- get_node p ;; modify (with_nodes <[p := f n]>).

Definition bst_fuel : MB nat := gets (fun s => S (size (bst_nodes s))).

Definition bst_node_initialize (node : Z) : MB unit := upd_node node (set_rank 0).
Definition bst_root_initialize : MB unit := modify (with_root NULL).
Definition bst_is_empty : MB bool := gets (fun s => root s =? NULL).

Definition bst_node_rank (node : Z) : MB Z :=
  if node =? NULL then ret 0 else n <- get_node node ;; ret (rank n).

Definition bst_is_right_child (node : Z) : MB bool :=
  n <- get_node node ;;
  if parent n =? NULL then ret false
  else
    p <- get_node (parent n) ;;
    assert_ ((child0 p =? node) || (child1 p =? node)) ;;
    ret (child1 p =? node).

(** A [struct bst_node **]: the root or a child of a node. *)
Inductive bst_ptr := RootPtr | ChildPtr (p : Z) (d : bool).

Definition load (l : bst_ptr) : MB Z :=
  match l with
  | RootPtr => gets root
  | ChildPtr p d => n <- get_node p ;; ret (child d n)
  end.
Definition store (l : bst_ptr) (v : Z) : MB unit :=
  match l with
  | RootPtr => modify (with_root v)
  | ChildPtr p d => upd_node p (set_child d v)
  end.

Definition bst_parent_ptr (node : Z) : MB bst_ptr :=
  n <- get_node node ;;
  parent_ptr <- (if parent n =? NULL then ret RootPtr
                 else d <- bst_is_right_child node ;; ret (ChildPtr (parent n) d)) ;;
  v <- load parent_ptr ;;
  assert_ (v =? node) ;;
  ret parent_ptr.

Definition bst_link_node (p : Z) (is_right_child : bool) (c : Z) : MB unit :=
  upd_node p (set_child is_right_child c) ;;
  when (negb (c =? NULL)) (upd_node c (set_parent p)).

Definition bst_move_node (old_node new_node : Z) : MB unit :=
  parent_ptr <- bst_parent_ptr old_node ;;
  store parent_ptr new_node ;;
  o <- get_node old_node ;;
  when (negb (new_node =? NULL)) (upd_node new_node (set_parent (parent o))) ;;
  upd_node old_node (set_parent NULL).

Definition bst_rotate (up down : Z) (up_was_right_child : bool) : MB unit :=
  d <- get_node down ;;
  assert_ (child up_was_right_child d =? up) ;;
  u <- get_node up ;;
  let move_subtree := child (negb up_was_right_child) u in
  bst_move_node down up ;;
  bst_link_node down up_was_right_child move_subtree ;;
  bst_link_node up (negb up_was_right_child) down.

Definition add_rank (node k : Z) : MB unit := upd_node node (fun n => set_rank (u64 (rank n + k)) n).

Definition bst_rotate_insert (up1 down : Z) (up_was_right_child : bool) : MB unit :=
  d <- get_node down ;;
  assert_ (child up_was_right_child d =? up1) ;;
  u <- get_node up1 ;;
  assert_ (rank u =? rank d) ;;
  rd <- bst_node_rank (child (negb up_was_right_child) d) ;;
  assert_ (rank d >=? u64 (rd + 2)) ;;
  let up2 := child (negb up_was_right_child) u in
  r2 <- bst_node_rank up2 ;;
  if r2 >=? u64 (rank d - 1) then
    assert_ (r2 =? u64 (rank d - 1)) ;;
    add_rank up2 1 ;;
    u' <- get_node up1 ;;
    u2 <- get_node up2 ;;
    assert_ (rank u' =? rank u2) ;;
    bst_rotate up2 up1 (negb up_was_right_child) ;;
    add_rank up1 (-1) ;;
    bst_rotate up2 down up_was_right_child ;;
    add_rank down (-1)
  else
    bst_rotate up1 down up_was_right_child ;;
    add_rank down (-1).

(** The loop of [bst_update_rank_insert]. *)
Fixpoint update_rank_insert (fuel : nat) (node : Z) : MB unit :=
  if node =? NULL then ret tt
  else
    match fuel with
    | O => panic
    | S fuel =>
        is_right_child <- bst_is_right_child node ;;
        n <- get_node node ;;
        let r := u64 (rank n + 1) in
        let node := parent n in
        if node =? NULL then ret tt
        else
          n <- get_node node ;;
          if rank n >=? r then assert_ (rank n =? r)
          else
            assert_ (u64 (rank n + 1) =? r) ;;
            ro <- bst_node_rank (child (negb is_right_child) n) ;;
            if u64 (ro + 2) <? r then bst_rotate_insert (child is_right_child n) node is_right_child
            else
              upd_node node (set_rank r) ;;
              update_rank_insert fuel node
    end.

Definition bst_update_rank_insert (node : Z) : MB unit :=
  n <- get_node node ;;
  assert_ (rank n =? 1) ;;
  fuel <- bst_fuel ;;
  update_rank_insert fuel node.

Definition bst_rotate_delete (up1 down : Z) (up_was_right_child : bool) : MB unit :=
  d <- get_node down ;;
  assert_ (child up_was_right_child d =? up1) ;;
  u <- get_node up1 ;;
  assert_ (rank u =? u64 (rank d - 1)) ;;
  rd <- bst_node_rank (child (negb up_was_right_child) d) ;;
  assert_ (rank d =? u64 (rd + 3)) ;;
  let up2 := child (negb up_was_right_child) u in
  ra <- bst_node_rank (child up_was_right_child u) ;;
  if ra <=? u64 (rank d - 3) then
    r2 <- bst_node_rank up2 ;;
    assert_ (r2 =? u64 (rank d - 2)) ;;
    assert_ (rank u =? u64 (rank d - 1)) ;;
    u2 <- get_node up2 ;;
    assert_ (rank u2 =? u64 (rank d - 2)) ;;
    bst_rotate up2 up1 (negb up_was_right_child) ;;
    bst_rotate up2 down up_was_right_child ;;
    add_rank up2 2 ;;
    add_rank up1 (-1) ;;
    add_rank down (-2)
  else
    bst_rotate up1 down up_was_right_child ;;
    add_rank up1 1 ;;
    add_rank down (-1) ;;
    d <- get_node down ;;
    r0 <- bst_node_rank (child0 d) ;;
    (if r0 =? u64 (rank d - 2) then
       r1 <- bst_node_rank (child1 d) ;;
       when (r1 =? u64 (rank d - 2)) (add_rank down (-1))
     else ret tt).

(** The loop of [bst_update_rank_delete]. *)
Fixpoint update_rank_delete (fuel : nat) (node : Z) (is_right_child : bool) : MB unit :=
  if node =? NULL then ret tt
  else
    match fuel with
    | O => panic
    | S fuel =>
        n <- get_node node ;;
        let other := child (negb is_right_child) n in
        ro <- bst_node_rank other ;;
        rc <- bst_node_rank (child is_right_child n) ;;
        assert_ (rank n >? ro) ;;
        assert_ (u64 (rank n - 1) >? rc) ;;
        assert_ (rank n <=? u64 (ro + 2)) ;;
        let leaf := (child0 n =? NULL) && (child1 n =? NULL) in
        (if leaf then assert_ (rank n =? 2) else ret tt) ;;
        if negb leaf && (rank n <=? u64 (rc + 2)) then ret tt
        else
          assert_ (rank n >? 1) ;;
          add_rank node (-1) ;;
          n <- get_node node ;;
          let up := d <- bst_is_right_child node ;; n <- get_node node ;; update_rank_delete fuel (parent n) d in
          if rank n <=? ro then
            assert_ (rank n =? ro) ;;
            o <- get_node other ;;
            r0 <- bst_node_rank (child0 o) ;;
            r1 <- bst_node_rank (child1 o) ;;
            if (r0 =? u64 (rank n - 2)) && (r1 =? u64 (rank n - 2)) then
              add_rank other (-1) ;; up
            else
              add_rank node 1 ;;
              bst_rotate_delete other node (negb is_right_child)
          else up
    end.

Definition bst_update_rank_delete (node : Z) (is_right_child : bool) : MB unit :=
  n <- get_node node ;;
  rc <- bst_node_rank (child is_right_child n) ;;
  ro <- bst_node_rank (child (negb is_right_child) n) ;;
  assert_ (rc <=? ro) ;;
  fuel <- bst_fuel ;;
  update_rank_delete fuel node is_right_child.

(** The loop of [bst_find_edge]. *)
Fixpoint find_edge (fuel : nat) (node : Z) (edge : bool) : MB Z :=
  match fuel with
  | O => panic
  | S fuel =>
      n <- get_node node ;;
      if child edge n =? NULL then ret node else find_edge fuel (child edge n) edge
  end.
Definition bst_find_edge (node : Z) (edge : bool) : MB Z := fuel <- bst_fuel ;; find_edge fuel node edge.

Definition bst_delete_all_helper (node : Z) : MB unit :=
  n <- get_node node ;;
  assert_ (child0 n =? NULL) ;;
  bst_move_node node (child1 n).

(** [edge_node] takes over the children and the rank of [node]. *)
Definition adopt_children (node edge_node : Z) : MB unit :=
  n <- get_node node ;;
  bst_link_node edge_node false (child0 n) ;;
  n <- get_node node ;;
  bst_link_node edge_node true (child1 n) ;;
  n <- get_node node ;;
  upd_node edge_node (set_rank (rank n)).

Definition bst_delete (node : Z) : MB unit :=
  node_is_right_child <- bst_is_right_child node ;;
  n <- get_node node ;;
  r <- (if child0 n =? NULL then ret (child1 n, parent n, node_is_right_child)
        else if child1 n =? NULL then ret (child0 n, parent n, node_is_right_child)
        else
          edge_node <- bst_find_edge (child (negb node_is_right_child) n) node_is_right_child ;;
          e <- get_node edge_node ;;
          d <- bst_is_right_child edge_node ;;
          let start := if parent e =? node then (edge_node, negb node_is_right_child) else (parent e, d) in
          assert_ (negb (fst start =? NULL)) ;;
          bst_move_node edge_node (child (negb node_is_right_child) e) ;;
          adopt_children node edge_node ;;
          ret (edge_node, fst start, snd start)) ;;
  let '(new_child, update_rank_start, update_rank_is_right_child) := r in
  bst_move_node node new_child ;;
  upd_node node (set_rank 0) ;;
  if update_rank_start =? NULL then ret tt
  else bst_update_rank_delete update_rank_start update_rank_is_right_child.

(** The loop of [bst_prev_next] over the parents. *)
Fixpoint next_parent (fuel : nat) (node : Z) (dir_next : bool) : MB Z :=
  match fuel with
  | O => panic
  | S fuel =>
      d <- bst_is_right_child node ;;
      n <- get_node node ;;
      if Bool.eqb d dir_next then
        if parent n =? NULL then ret NULL else next_parent fuel (parent n) dir_next
      else ret (parent n)
  end.

Definition bst_prev_next (node : Z) (dir_next : bool) : MB Z :=
  next_child <- (if node =? NULL then gets root else n <- get_node node ;; ret (child dir_next n)) ;;
  if (node =? NULL) && (next_child =? NULL) then ret NULL
  else if negb (next_child =? NULL) then bst_find_edge next_child (negb dir_next)
  else fuel <- bst_fuel ;; next_parent fuel node dir_next.

Definition bst_prev (node : Z) : MB Z := bst_prev_next node false.
Definition bst_next (node : Z) : MB Z := bst_prev_next node true.

(** ** Operations that compare

    [compare a b] is positive if [b] comes after [a] and 0 on a match. *)
Section compare.
Context (compare : Z -> Z -> Z).

Fixpoint search_from (fuel : nat) (cmp : Z -> Z) (tree_node : Z) : MB Z :=
  if tree_node =? NULL then ret NULL
  else
    match fuel with
    | O => panic
    | S fuel =>
        n <- get_node tree_node ;;
        if cmp tree_node =? 0 then ret tree_node
        else search_from fuel cmp (child (cmp tree_node >? 0) n)
    end.

Definition bst_search (node : Z) : MB Z :=
  assert_ (negb (node =? NULL)) ;;
  fuel <- bst_fuel ;; r <- gets root ;; search_from fuel (fun a => compare a node) r.

(** The loop of [bst_insert]. *)
Fixpoint insert_at (fuel : nat) (node p : Z) (parent_ptr : bst_ptr) : MB bool :=
  match fuel with
  | O => panic
  | S fuel =>
      tree_node <- load parent_ptr ;;
      if tree_node =? NULL then
        upd_node node (fun _ => mk_bst_node 1 p NULL NULL) ;;
        store parent_ptr node ;;
        bst_update_rank_insert node ;;
        ret true
      else if compare tree_node node =? 0 then ret false
      else insert_at fuel node tree_node (ChildPtr tree_node (compare tree_node node >? 0))
  end.

Definition bst_insert (node : Z) : MB bool :=
  n <- get_node node ;;
  assert_ (rank n =? 0) ;;
  fuel <- bst_fuel ;;
  insert_at (S fuel) node NULL RootPtr.
End compare.

Definition bst_search_key {K : Type} (compare_key : Z -> K -> Z) (key : K) : MB Z :=
  fuel <- bst_fuel ;; r <- gets root ;; search_from fuel (fun a => compare_key a key) r.

(** [bst_for_every_entry]: the cursor moves on before the body runs. The state is
    the tree beside whatever the body works on. *)
Section loops.
Context {S : Type} (on_tree : forall A, MB A -> M S A) (body : Z -> M S unit).

Fixpoint for_every_entry (fuel : nat) (cursor : Z) : M S unit :=
  if cursor =? NULL then ret tt
  else
    match fuel with
    | O => panic
    | Datatypes.S fuel =>
        next <- on_tree Z (bst_next cursor) ;;
        body cursor ;;
        for_every_entry fuel next
    end.
Definition bst_for_every_entry (fuel : nat) : M S unit :=
  first <- on_tree Z (bst_next NULL) ;; for_every_entry fuel first.

Fixpoint for_every_entry_delete (fuel : nat) (cursor : Z) : M S unit :=
  if cursor =? NULL then ret tt
  else
    match fuel with
    | O => panic
    | Datatypes.S fuel =>
        next <- on_tree Z (bst_next cursor) ;;
        on_tree unit (bst_delete_all_helper cursor) ;;
        body cursor ;;
        for_every_entry_delete fuel next
    end.
Definition bst_for_every_entry_delete (fuel : nat) : M S unit :=
  first <- on_tree Z (bst_next NULL) ;; for_every_entry_delete fuel first.
End loops.
