(* ===== verification/BstRep.v ===== *)
(** * Trees in memory

    [tree] is what the memory of nodes represents. A walk through a tree is a
    subtree in a context, the list of the frames from the subtree up to the root;
    [at_ctx s c t] says that the memory holds [plug c t], and zipping and
    unzipping a frame keeps it. The primitive operations are run on it. *)
From stdpp Require Import base gmap list.
From Stdlib Require Import ZArith Lia.
From S2P Require Import Prelude Bst.

Local Open Scope Z_scope.
Local Open Scope lk_scope.

Inductive tree := Leaf | Node (k : Z) (l : tree) (x : Z) (r : tree).

#[export] Instance tree_eq_dec : EqDecision tree.
Proof. solve_decision. Defined.

Fixpoint elems (t : tree) : list Z :=
  match t with Leaf => [] | Node _ l x r => elems l ++ x :: elems r end.
Definition ptr (t : tree) : Z := match t with Leaf => NULL | Node _ _ x _ => x end.
Definition rk (t : tree) : Z := match t with Leaf => 0 | Node k _ _ _ => k end.

(** A node with [a] on side [d] (right if [d]) and [b] on the other. *)
Definition nd (d : bool) k (a : tree) (x : Z) (b : tree) : tree := if d then Node k b x a else Node k a x b.
Definition mknd (d : bool) (k p a b : Z) : bst_node := if d then mk_bst_node k p b a else mk_bst_node k p a b.

Record bframe := Fr { fr_side : bool; fr_node : Z; fr_rank : Z; fr_sib : tree }.

#[export] Instance bframe_eq_dec : EqDecision bframe.
Proof. solve_decision. Defined.
Abbreviation ctx := (list bframe).

Fixpoint plug (c : ctx) (t : tree) : tree :=
  match c with [] => t | Fr d x k sib :: c => plug c (nd d k t x sib) end.
Definition cptr (c : ctx) : Z := match c with [] => NULL | Fr _ x _ _ :: _ => x end.

(** What precedes and follows the hole in order. *)
Fixpoint pre (c : ctx) : list Z :=
  match c with [] => [] | Fr d x _ sib :: c => if d then pre c ++ elems sib ++ [x] else pre c end.
Fixpoint post (c : ctx) : list Z :=
  match c with [] => [] | Fr d x _ sib :: c => if d then post c else x :: elems sib ++ post c end.

Lemma elems_plug c t : elems (plug c t) = pre c ++ elems t ++ post c.
Proof.
  revert t. induction c as [|[[] x k sib] c IH]; intros t; cbn; [by rewrite app_nil_r| |]; rewrite IH; cbn;
    by rewrite <- !app_assoc.
Qed.

Fixpoint rep (m : gmap Z bst_node) (p : Z) (t : tree) : Prop :=
  match t with
  | Leaf => True
  | Node k l x r => x <> NULL /\ m !! x = Some (mk_bst_node k p (ptr l) (ptr r)) /\ rep m x l /\ rep m x r
  end.

Fixpoint rep_ctx (s : bst_root) (c : ctx) (hole : Z) : Prop :=
  match c with
  | [] => root s = hole
  | Fr d x k sib :: c => x <> NULL /\ bst_nodes s !! x = Some (mknd d k (cptr c) hole (ptr sib)) /\
      rep (bst_nodes s) x sib /\ rep_ctx s c x
  end.

Record at_ctx (s : bst_root) (c : ctx) (t : tree) : Prop := {
  at_rep : rep (bst_nodes s) (cptr c) t;
  at_hole : rep_ctx s c (ptr t);
  at_nodup : NoDup (elems (plug c t))
}.

Definition holds (s : bst_root) (t : tree) : Prop := at_ctx s [] t.

(** ** Nodes by side *)
Lemma child_mknd d k p a b : child d (mknd d k p a b) = a.
Proof. by destruct d. Qed.
Lemma child_mknd_other d k p a b : child (negb d) (mknd d k p a b) = b.
Proof. by destruct d. Qed.
Lemma rank_mknd d k p a b : rank (mknd d k p a b) = k.
Proof. by destruct d. Qed.
Lemma parent_mknd d k p a b : parent (mknd d k p a b) = p.
Proof. by destruct d. Qed.
Lemma set_child_mknd d k p a b c : set_child d c (mknd d k p a b) = mknd d k p c b.
Proof. by destruct d. Qed.
Lemma set_child_mknd_other d k p a b c : set_child (negb d) c (mknd d k p a b) = mknd d k p a c.
Proof. by destruct d. Qed.
Lemma set_parent_mknd d k p a b q : set_parent q (mknd d k p a b) = mknd d k q a b.
Proof. by destruct d. Qed.
Lemma set_rank_mknd d k p a b k' : set_rank k' (mknd d k p a b) = mknd d k' p a b.
Proof. by destruct d. Qed.
Lemma mknd_negb d k p a b : mknd (negb d) k p a b = mknd d k p b a.
Proof. by destruct d. Qed.

Lemma nd_negb d k a x b : nd (negb d) k a x b = nd d k b x a.
Proof. by destruct d. Qed.
Lemma ptr_nd d k a x b : ptr (nd d k a x b) = x.
Proof. by destruct d. Qed.
Lemma rk_nd d k a x b : rk (nd d k a x b) = k.
Proof. by destruct d. Qed.
Lemma rep_nd m p d k a x b :
  rep m p (nd d k a x b) <-> x <> NULL /\ m !! x = Some (mknd d k p (ptr a) (ptr b)) /\ rep m x a /\ rep m x b.
Proof. destruct d; cbn; tauto. Qed.
Lemma elem_of_nd y d k a x b : y ∈ elems (nd d k a x b) <-> y = x \/ y ∈ elems a \/ y ∈ elems b.
Proof. destruct d; cbn; rewrite elem_of_app, elem_of_cons; tauto. Qed.
Lemma NoDup_nd d k a x b :
  NoDup (elems (nd d k a x b)) <->
  x ∉ elems a /\ x ∉ elems b /\ (forall y, y ∈ elems a -> y ∉ elems b) /\ NoDup (elems a) /\ NoDup (elems b).
Proof.
  destruct d; cbn; rewrite NoDup_app, NoDup_cons; set_solver.
Qed.

Create Rewrite HintDb bst.
#[export] Hint Rewrite child_mknd child_mknd_other rank_mknd parent_mknd set_child_mknd set_child_mknd_other
  set_parent_mknd set_rank_mknd ptr_nd rk_nd negb_involutive : bst.

(** ** Zipping *)
Lemma at_zip s d x k sib c t : at_ctx s (Fr d x k sib :: c) t <-> at_ctx s c (nd d k t x sib).
Proof.
  split; intros [Hr Hh Hn].
  - destruct Hh as (Hx & Hm & Hs & Hh). constructor; [by apply rep_nd|by rewrite ptr_nd|done].
  - apply rep_nd in Hr as (Hx & Hm & Ha & Hs). rewrite ptr_nd in Hh. by constructor.
Qed.

Lemma at_holds s c t : at_ctx s c t <-> holds s (plug c t).
Proof.
  revert t. induction c as [|[d x k sib] c IH]; intros t; [done|]. rewrite at_zip. apply IH.
Qed.

Lemma at_disjoint s c t : at_ctx s c t ->
  NoDup (elems t) /\ (forall y, y ∈ elems t -> y ∉ pre c /\ y ∉ post c) /\ NoDup (pre c ++ post c).
Proof.
  intros [_ _ Hn]. rewrite elems_plug in Hn. apply NoDup_app in Hn as (Hp & H1 & Hn).
  apply NoDup_app in Hn as (Ht & H2 & Hq). split_and!; [done| |].
  - intros y Hy. split; [|by apply H2]. intros Hp'. apply (H1 y Hp'). apply elem_of_app. by left.
  - apply NoDup_app. split_and!; [done| |done]. intros y Hy Hq'. apply (H1 y Hy). apply elem_of_app. by right.
Qed.

Lemma at_ptr_nonzero m p t : rep m p t -> t <> Leaf -> ptr t <> NULL.
Proof. destruct t; [done|]. by intros [? _]. Qed.

Lemma rep_elem_nonzero m p t y : rep m p t -> y ∈ elems t -> y <> NULL /\ is_Some (m !! y).
Proof.
  revert p. induction t as [|k l IHl x r IHr]; intros p; cbn; [by intros _ ?%elem_of_nil|].
  intros (Hx & Hm & Hl & Hr) [Hy|[->|Hy]%elem_of_cons]%elem_of_app; [by eapply IHl|by split; [|eexists]|by eapply IHr].
Qed.

(** ** Frames *)
Lemma rep_frame m m' p t : (forall y, y ∈ elems t -> m' !! y = m !! y) -> rep m p t -> rep m' p t.
Proof.
  revert p. induction t as [|k l IHl x r IHr]; intros p Hm; cbn; [done|]. intros (Hx & Hlk & Hl & Hr).
  split_and!; [done| | |].
  - rewrite Hm by (cbn; apply elem_of_app; right; by left). done.
  - apply IHl; [|done]. intros y Hy. apply Hm. cbn. apply elem_of_app. by left.
  - apply IHr; [|done]. intros y Hy. apply Hm. cbn. apply elem_of_app. right. by right.
Qed.

Lemma rep_ctx_frame s s' c h :
  (forall y, y ∈ pre c \/ y ∈ post c -> bst_nodes s' !! y = bst_nodes s !! y) -> root s' = root s -> rep_ctx s c h -> rep_ctx s' c h.
Proof.
  revert h. induction c as [|[d x k sib] c IH]; intros h Hm Hroot; cbn; [congruence|]. intros (Hx & Hlk & Hs & Hh).
  assert (forall y, y = x \/ y ∈ elems sib \/ y ∈ pre c \/ y ∈ post c -> bst_nodes s' !! y = bst_nodes s !! y) as Hm'.
  { intros y Hy. apply Hm. destruct d; cbn; set_solver. }
  split_and!; [done|rewrite Hm'; auto| |].
  - eapply rep_frame; [|done]. auto.
  - apply IH; auto.
Qed.

(** The parent of a subtree changes. *)
Lemma rep_reparent m p q t :
  NoDup (elems t) -> rep m p t -> rep (alter (set_parent q) (ptr t) m) q t.
Proof.
  destruct t as [|k l x r]; [done|]. cbn. intros Hn (Hx & Hm & Hl & Hr).
  apply (NoDup_nd false k l x r) in Hn as (Hxl & Hxr & _).
  split_and!; [done|by rewrite lookup_alter_eq, Hm| |]; (eapply rep_frame; [|done]); intros y Hy; apply lookup_alter_ne; congruence.
Qed.

(** The context's pointer to its hole. *)
Definition redirect (c : ctx) (new : Z) (s : bst_root) : bst_root :=
  match c with
  | [] => with_root new s
  | Fr d x _ _ :: _ => with_nodes (alter (set_child d new) x) s
  end.

Lemma redirect_lookup c new s y : y <> cptr c \/ c = [] -> bst_nodes (redirect c new s) !! y = bst_nodes s !! y.
Proof. destruct c as [|[d x k sib] c]; cbn; [done|]. intros [Hy|]; [by rewrite lookup_alter_ne|done]. Qed.

Lemma rep_ctx_redirect s c old new : NoDup (pre c ++ post c) -> rep_ctx s c old -> rep_ctx (redirect c new s) c new.
Proof.
  destruct c as [|[d x k sib] c]; cbn; [done|]. intros Hn (Hx & Hm & Hs & Hh).
  assert (x ∉ elems sib /\ (forall y, y ∈ pre c \/ y ∈ post c -> y <> x)) as [Hxs Hxc].
  { destruct d; cbn in Hn; rewrite ?NoDup_app, ?NoDup_cons in Hn; set_solver. }
  split_and!; [done|by rewrite lookup_alter_eq, Hm; cbn; rewrite set_child_mknd| |].
  - eapply rep_frame; [|done]. intros y Hy. apply lookup_alter_ne. set_solver.
  - apply (rep_ctx_frame s); [|done|done]. intros y Hy. apply lookup_alter_ne. by apply not_eq_sym, Hxc.
Qed.

Lemma cptr_in_ctx c : c <> [] -> cptr c ∈ pre c \/ cptr c ∈ post c.
Proof. destruct c as [|[[] x k sib] c]; cbn; [by intros Hc; destruct Hc|set_solver|set_solver]. Qed.

(** ** Primitive operations *)
Lemma get_node_eq s p n : p <> NULL -> bst_nodes s !! p = Some n -> get_node p s = Some (n, s).
Proof. intros Hp Hn. apply getsome_eq. by rewrite (proj2 (Z.eqb_neq _ _) Hp). Qed.

Lemma upd_node_eq s p f : p <> NULL -> is_Some (bst_nodes s !! p) -> upd_node p f s = Some (tt, with_nodes (alter f p) s).
Proof.
  intros Hp [n Hn]. unfold upd_node. rewrite (bind_eq _ _ _ _ _ (get_node_eq s p n Hp Hn)). unfold modify, with_nodes.
  do 3 f_equal. apply map_eq. intros i. destruct (decide (i = p)) as [->|].
  - by rewrite lookup_insert_eq, lookup_alter_eq, Hn.
  - by rewrite lookup_insert_ne, lookup_alter_ne.
Qed.

Lemma node_rank_eq s p t : rep (bst_nodes s) p t -> bst_node_rank (ptr t) s = Some (rk t, s).
Proof.
  destruct t as [|k l x r]; cbn; [done|]. intros (Hx & Hm & _). unfold bst_node_rank.
  rewrite (proj2 (Z.eqb_neq _ _) Hx). by rewrite (bind_eq _ _ _ _ _ (get_node_eq s x _ Hx Hm)).
Qed.

Lemma ptr_elem t : t <> Leaf -> ptr t ∈ elems t.
Proof. destruct t; [done|]. intros _. cbn. set_solver. Qed.

(** The side a context's hole is on. *)
Definition side (c : ctx) : bool := match c with [] => false | Fr d _ _ _ :: _ => d end.

(** A node where the context says it is. *)
Definition hole_at s (c : ctx) x n : Prop :=
  x <> NULL /\ bst_nodes s !! x = Some n /\ parent n = cptr c /\ rep_ctx s c x /\ x ∉ pre c /\ x ∉ post c.

Lemma at_hole_at s c d k a x b : at_ctx s c (nd d k a x b) -> hole_at s c x (mknd d k (cptr c) (ptr a) (ptr b)).
Proof.
  intros Hat. destruct (at_disjoint _ _ _ Hat) as (_ & Hd & _). destruct Hat as [Hr Hh _]. rewrite ptr_nd in Hh.
  apply rep_nd in Hr as (Hx & Hm & _). split_and!; [done|done|by rewrite parent_mknd|done|..]; apply Hd, elem_of_nd; by left.
Qed.

Lemma is_right_child_run s c x n : hole_at s c x n -> bst_is_right_child x s = Some (side c, s).
Proof.
  intros (Hx & Hm & Hp & Hh & Hpre & Hpost). unfold bst_is_right_child.
  rewrite (bind_eq _ _ _ _ _ (get_node_eq s x n Hx Hm)), Hp. destruct c as [|[d y k sib] c]; [done|].
  cbn in Hh. destruct Hh as (Hy & Hmy & Hs & _). cbn [cptr]. rewrite (proj2 (Z.eqb_neq _ _) Hy).
  rewrite (bind_eq _ _ _ _ _ (get_node_eq s y _ Hy Hmy)).
  assert (ptr sib <> x) as Hne.
  { intros <-. assert (sib <> Leaf) as Hs' by (by intros ->). apply ptr_elem in Hs'. destruct d; cbn in Hpre, Hpost; set_solver. }
  destruct d; cbn; rewrite ?Z.eqb_refl, ?orb_true_r, ?(proj2 (Z.eqb_neq _ _) Hne); done.
Qed.

Lemma redirect_root_lookup c new s : c <> [] -> root (redirect c new s) = root s.
Proof. by destruct c as [|[] c]. Qed.

Lemma parent_ptr_run s c x n :
  hole_at s c x n ->
  exists l, bst_parent_ptr x s = Some (l, s) /\ forall v, store l v s = Some (tt, redirect c v s).
Proof.
  intros Hat. pose proof (is_right_child_run _ _ _ _ Hat) as Hrc. destruct Hat as (Hx & Hm & Hp & Hh & _).
  unfold bst_parent_ptr. rewrite (bind_eq _ _ _ _ _ (get_node_eq s x n Hx Hm)), Hp. destruct c as [|[d y k sib] c]; cbn [cptr].
  - exists RootPtr. cbn in Hh. cbn. split; [|done]. unfold bind, gets, assert_. cbn. by rewrite Hh, Z.eqb_refl.
  - cbn in Hh. destruct Hh as (Hy & Hmy & _). exists (ChildPtr y d). rewrite (proj2 (Z.eqb_neq _ _) Hy).
    rewrite bind_assoc, (bind_eq _ _ _ _ _ Hrc). cbn [side]. rewrite ret_bind. cbn [load].
    rewrite bind_assoc, (bind_eq _ _ _ _ _ (get_node_eq s y _ Hy Hmy)), ret_bind, child_mknd, Z.eqb_refl.
    split; [done|]. intros v. cbn [store redirect]. by apply upd_node_eq; [|eexists].
Qed.

Definition moved_node c old new (s : bst_root) : bst_root :=
  let s1 := redirect c new s in
  let s2 := if new =? NULL then s1 else with_nodes (alter (set_parent (cptr c)) new) s1 in
  with_nodes (alter (set_parent NULL) old) s2.

Lemma redirect_is_Some c new s y : is_Some (bst_nodes (redirect c new s) !! y) <-> is_Some (bst_nodes s !! y).
Proof. destruct c as [|[d x k sib] c]; cbn; [done|]. apply lookup_alter_is_Some. Qed.

Lemma move_run s c old new n :
  hole_at s c old n -> new = NULL \/ (new <> NULL /\ is_Some (bst_nodes s !! new)) -> bst_move_node old new s = Some (tt, moved_node c old new s).
Proof.
  intros Hat Hnew. destruct (parent_ptr_run _ _ _ _ Hat) as (l & Hl & Hst). destruct Hat as (Hx & Hm & Hp & Hh & Hpre & Hpost).
  unfold bst_move_node. rewrite (bind_eq _ _ _ _ _ Hl), (bind_eq _ _ _ _ _ (Hst new)).
  assert (bst_nodes (redirect c new s) !! old = Some n) as Hm'.
  { rewrite redirect_lookup; [done|]. destruct (decide (c = [])) as [|Hc]; [by right|left]. intros ->.
    destruct (cptr_in_ctx c Hc); done. }
  rewrite (bind_eq _ _ _ _ _ (get_node_eq _ old n Hx Hm')), Hp. unfold when, moved_node.
  destruct Hnew as [->|[Hne Hs]].
  - rewrite Z.eqb_refl. cbn [negb]. rewrite ret_bind. apply upd_node_eq; [done|by eexists].
  - rewrite (proj2 (Z.eqb_neq _ _) Hne). cbn [negb].
    rewrite (bind_eq _ _ _ _ _ (upd_node_eq _ new _ Hne (proj2 (redirect_is_Some c new s new) Hs))).
    apply upd_node_eq; [done|]. cbn. apply lookup_alter_is_Some. by eexists.
Qed.

Lemma link_run s p d x :
  p <> NULL -> is_Some (bst_nodes s !! p) -> x = NULL \/ (x <> NULL /\ is_Some (bst_nodes s !! x)) ->
  bst_link_node p d x s = Some (tt,
    let s1 := with_nodes (alter (set_child d x) p) s in if x =? NULL then s1 else with_nodes (alter (set_parent p) x) s1).
Proof.
  intros Hp Hs Hx. unfold bst_link_node. rewrite (bind_eq _ _ _ _ _ (upd_node_eq _ p _ Hp Hs)). unfold when.
  destruct Hx as [->|[Hne Hx]]; [done|]. rewrite (proj2 (Z.eqb_neq _ _) Hne). cbn. apply upd_node_eq; [done|].
  cbn. by apply lookup_alter_is_Some.
Qed.
