(* ===== verification/BstOps.v ===== *)
(** * Rotations and rebalancing of trees in memory *)
From stdpp Require Import base gmap list.
From Stdlib Require Import ZArith Lia.
From S2P Require Import Prelude Bst BstRep.

Local Open Scope Z_scope.
Local Open Scope lk_scope.

(** Nodes outside a tree are left alone, and no node comes or goes. *)
Definition same_outside (l : list Z) (s s' : bst_root) : Prop :=
  (forall y, y ∉ l -> bst_nodes s' !! y = bst_nodes s !! y) /\ dom (bst_nodes s') = dom (bst_nodes s).

Lemma same_outside_refl l s : same_outside l s s.
Proof. done. Qed.
Lemma same_outside_trans l s s1 s2 : same_outside l s s1 -> same_outside l s1 s2 -> same_outside l s s2.
Proof. intros [H1 H2] [H3 H4]. split; [|congruence]. intros y Hy. rewrite H3 by done. by apply H1. Qed.

Lemma same_outside_alter l f y s : y ∈ l -> same_outside l s (with_nodes (alter f y) s).
Proof. intros Hy. split; cbn; [|apply dom_alter_L]. intros z Hz. apply lookup_alter_ne. congruence. Qed.

Lemma same_outside_redirect l c new s : (c <> [] -> cptr c ∈ l) -> same_outside l s (redirect c new s).
Proof.
  destruct c as [|[d x k sib] c]; intros Hl; [done|]. apply same_outside_alter, (Hl ltac:(done)).
Qed.

Lemma elems_rotate d ku kd A up B down C :
  elems (nd (negb d) ku (nd d kd B down C) up A) = elems (nd d kd (nd d ku A up B) down C).
Proof. destruct d; cbn; by rewrite <- ?app_assoc. Qed.

Lemma elems_plug_eq c t t' : elems t = elems t' -> elems (plug c t) = elems (plug c t').
Proof. intros He. by rewrite !elems_plug, He. Qed.

(** What [NoDup] says of two joined nodes. *)
Lemma nodup_two d ku kd A up B down C :
  NoDup (elems (nd d kd (nd d ku A up B) down C)) ->
  up <> down /\ NoDup (elems B) /\
  (forall y, y ∈ elems A -> y <> up /\ y <> down /\ y ∉ elems B) /\
  (forall y, y ∈ elems B -> y <> up /\ y <> down) /\
  (forall y, y ∈ elems C -> y <> up /\ y <> down /\ y ∉ elems B).
Proof.
  intros (Hd1 & Hd2 & Hd3 & Hn & _)%NoDup_nd. apply NoDup_nd in Hn as (Hu1 & Hu2 & Hu3 & _ & HnB).
  setoid_rewrite elem_of_nd in Hd1. setoid_rewrite elem_of_nd in Hd3.
  split_and!; [naive_solver|done|naive_solver|naive_solver|]. intros y Hy. split_and!; [|naive_solver|naive_solver].
  intros ->. by apply (Hd3 up); [left|].
Qed.

Definition rotated c d ku kd A up B down C (s' : bst_root) : Prop :=
  at_ctx s' c (nd (negb d) ku (nd d kd B down C) up A).

Lemma ptr_is_Some m p t : rep m p t -> ptr t = NULL \/ (ptr t <> NULL /\ is_Some (m !! ptr t)).
Proof. destruct t as [|k l x r]; [by left|]. intros (Hx & Hm & _). right. split; [done|by eexists]. Qed.

Definition set_parent_opt (q : Z) (p : Z) (m : gmap Z bst_node) : gmap Z bst_node :=
  if p =? NULL then m else alter (set_parent q) p m.

Lemma set_parent_opt_ne q p m y : y <> p -> set_parent_opt q p m !! y = m !! y.
Proof. intros Hy. unfold set_parent_opt. destruct (p =? NULL); [done|]. by rewrite lookup_alter_ne. Qed.

Lemma rep_set_parent_opt m p q t : NoDup (elems t) -> rep m p t -> rep (set_parent_opt q (ptr t) m) q t.
Proof.
  intros Hn Hr. unfold set_parent_opt. destruct (Z.eqb_spec (ptr t) NULL) as [He|]; [|by eapply rep_reparent].
  destruct t as [|k l x r]; [done|]. cbn in He. by destruct Hr.
Qed.

Lemma with_nodes_opt q p s :
  (if p =? NULL then s else with_nodes (alter (set_parent q) p) s) = with_nodes (set_parent_opt q p) s.
Proof. unfold set_parent_opt, with_nodes. destruct s. by destruct (p =? NULL). Qed.

Lemma rotate_run s c d ku kd A up B down C :
  at_ctx s c (nd d kd (nd d ku A up B) down C) ->
  exists s', bst_rotate up down d s = Some (tt, s') /\ at_ctx s' c (nd (negb d) ku (nd d kd B down C) up A) /\
    same_outside (elems (plug c (nd d kd (nd d ku A up B) down C))) s s'.
Proof.
  intros Hat. pose proof (at_hole_at _ _ _ _ _ _ _ Hat) as Hhole. rewrite ptr_nd in Hhole.
  destruct (at_disjoint _ _ _ Hat) as (Hn & Hctx & Hnc).
  destruct (nodup_two _ _ _ _ _ _ _ _ Hn) as (Hud & HnB & HA & HB & HC).
  pose proof Hat as [Hr Hh Hnd]. apply rep_nd in Hr as (Hd0 & Hmd & Hu & HrC). rewrite ptr_nd in Hmd.
  apply rep_nd in Hu as (Hu0 & Hmu & HrA & HrB).
  set (s1 := moved_node c down up s). set (m1 := alter (set_parent NULL) down (alter (set_parent (cptr c)) up (bst_nodes (redirect c up s)))).
  assert (bst_nodes s1 = m1) as Hs1 by (unfold s1, moved_node; by rewrite (proj2 (Z.eqb_neq _ _) Hu0)).
  assert (root s1 = root (redirect c up s)) as Hroot1 by (unfold s1, moved_node; by rewrite (proj2 (Z.eqb_neq _ _) Hu0)).
  assert (bst_move_node down up s = Some (tt, s1)) as Hmv by (eapply move_run; [exact Hhole|right; split; [done|by eexists]]).
  clearbody s1.
  assert (forall y, y ∈ elems (nd d kd (nd d ku A up B) down C) -> y <> cptr c \/ c = []) as Hcp.
  { intros y Hy. destruct (decide (c = [])) as [|Hc]; [by right|left]. intros ->. destruct (Hctx _ Hy).
    by destruct (cptr_in_ctx c Hc). }
  assert (forall y, y ∈ elems (nd d kd (nd d ku A up B) down C) -> y <> up -> y <> down -> m1 !! y = bst_nodes s !! y) as Hm1.
  { intros y Hy Hyu Hyd. unfold m1. rewrite !lookup_alter_ne by done. by apply redirect_lookup, Hcp. }
  assert (m1 !! down = Some (mknd d kd NULL up (ptr C))) as Hm1d.
  { unfold m1. rewrite lookup_alter_eq, lookup_alter_ne by done. rewrite redirect_lookup by (apply Hcp, elem_of_nd; by left).
    rewrite Hmd. cbn. by rewrite set_parent_mknd. }
  assert (m1 !! up = Some (mknd d ku (cptr c) (ptr A) (ptr B))) as Hm1u.
  { unfold m1. rewrite lookup_alter_ne, lookup_alter_eq by done.
    rewrite redirect_lookup by (apply Hcp, elem_of_nd; right; left; apply elem_of_nd; by left).
    rewrite Hmu. cbn. by rewrite set_parent_mknd. }
  assert (forall y, y ∈ elems B -> y ∈ elems (nd d kd (nd d ku A up B) down C)) as HBin by (intros; rewrite !elem_of_nd; auto).
  set (m2 := set_parent_opt down (ptr B) (alter (set_child d (ptr B)) down m1)).
  set (m3 := alter (set_parent up) down (alter (set_child (negb d) down) up m2)).
  assert (forall y, y <> down -> y <> up -> (B = Leaf \/ y <> ptr B) -> m3 !! y = m1 !! y) as Hm3.
  { intros y Hy1 Hy2 Hy3. unfold m3, m2. rewrite !lookup_alter_ne by done.
    destruct Hy3 as [->|Hy3]; [cbn|rewrite set_parent_opt_ne by done]; by rewrite lookup_alter_ne. }
  assert (B = Leaf \/ ptr B ∈ elems B) as HpB by (destruct (decide (B = Leaf)); [by left|right; by apply ptr_elem]).
  assert (forall y, y ∈ pre c \/ y ∈ post c -> m3 !! y = bst_nodes (redirect c up s) !! y) as Hm3c.
  { intros y Hy. assert (y ∉ elems (nd d kd (nd d ku A up B) down C)) as Hny by (intros Hin; destruct (Hctx y Hin); tauto).
    rewrite !elem_of_nd in Hny. rewrite Hm3.
    - unfold m1. by rewrite !lookup_alter_ne by naive_solver.
    - naive_solver.
    - naive_solver.
    - destruct HpB; [by left|right]. intros ->. tauto. }
  exists (mk_bst_root m3 (root s1)). split_and!.
  - unfold bst_rotate. rewrite (bind_eq _ _ _ _ _ (get_node_eq s down _ Hd0 Hmd)), child_mknd, Z.eqb_refl. cbn [assert_].
    rewrite ret_bind, (bind_eq _ _ _ _ _ (get_node_eq s up _ Hu0 Hmu)), child_mknd_other.
    rewrite (bind_eq _ _ _ _ _ Hmv).
    assert (bst_link_node down d (ptr B) s1 = Some (tt, mk_bst_root m2 (root s1))) as Hlk.
    { rewrite link_run; [|done|rewrite Hs1, Hm1d; by eexists|].
      - cbn zeta. rewrite with_nodes_opt. unfold with_nodes. cbn. by rewrite Hs1.
      - destruct (ptr_is_Some _ _ _ HrB) as [|[Hp0 Hp]]; [by left|right]. split; [done|].
        destruct HpB as [->|HpB]; [done|]. rewrite Hs1, Hm1; [done|by apply HBin|by apply HB|by apply HB]. }
    rewrite (bind_eq _ _ _ _ _ Hlk). rewrite link_run; cbn [bst_nodes].
    + cbn zeta. rewrite (proj2 (Z.eqb_neq _ _) Hd0). done.
    + done.
    + unfold m2. rewrite set_parent_opt_ne by (destruct HpB as [->|HpB]; [done|]; intros ->; by apply HB in HpB as [? _]).
      rewrite lookup_alter_ne by done. rewrite Hm1u. by eexists.
    + right. split; [done|]. unfold m2. rewrite set_parent_opt_ne by (destruct HpB as [->|HpB]; [done|]; intros ->; by apply HB in HpB as [_ ?]).
      rewrite lookup_alter_eq, Hm1d. by eexists.
  - constructor.
    + cbn [bst_nodes]. apply rep_nd. rewrite ptr_nd, mknd_negb. split_and!; [done| | |].
      * unfold m3, m2. rewrite lookup_alter_ne, lookup_alter_eq by done.
        rewrite set_parent_opt_ne by (destruct HpB as [->|HpB]; [done|]; intros ->; by apply HB in HpB as [? _]).
        rewrite lookup_alter_ne by done. rewrite Hm1u. cbn. by rewrite set_child_mknd_other.
      * apply rep_nd. split_and!; [done| | |].
        -- unfold m3, m2. rewrite lookup_alter_eq, lookup_alter_ne by done.
           rewrite set_parent_opt_ne by (destruct HpB as [->|HpB]; [done|]; intros ->; by apply HB in HpB as [_ ?]).
           rewrite lookup_alter_eq, Hm1d. cbn. by rewrite set_child_mknd, set_parent_mknd.
        -- apply (rep_frame m2).
           { intros y Hy. unfold m3. rewrite !lookup_alter_ne; [done|by apply not_eq_sym, HB|by apply not_eq_sym, HB]. }
           apply (rep_set_parent_opt _ up); [done|]. eapply rep_frame; [|exact HrB]. intros y Hy.
           rewrite lookup_alter_ne by (by apply not_eq_sym, HB). apply Hm1; [by apply HBin|by apply HB|by apply HB].
        -- eapply rep_frame; [|exact HrC]. intros y Hy. destruct (HC y Hy) as (? & ? & HyB). rewrite Hm3; [|done|done|].
           ++ apply Hm1; [rewrite !elem_of_nd; auto|done|done].
           ++ destruct HpB; [by left|right; congruence].
      * eapply rep_frame; [|exact HrA]. intros y Hy. destruct (HA y Hy) as (? & ? & HyB). rewrite Hm3; [|done|done|].
        -- apply Hm1; [rewrite !elem_of_nd; auto|done|done].
        -- destruct HpB; [by left|right; congruence].
    + rewrite ptr_nd. apply (rep_ctx_frame (redirect c up s)); [exact Hm3c|exact Hroot1|].
      eapply rep_ctx_redirect; [done|]. rewrite ptr_nd in Hh. exact Hh.
    + by rewrite (elems_plug_eq c _ _ (elems_rotate d ku kd A up B down C)).
  - split.
    + cbn. intros y Hy. rewrite elems_plug, !elem_of_app, !elem_of_nd in Hy. rewrite Hm3; [| | |].
      * unfold m1. rewrite !lookup_alter_ne by naive_solver. apply redirect_lookup.
        destruct (decide (c = [])) as [|Hc]; [by right|left]. intros ->. destruct (cptr_in_ctx c Hc); tauto.
      * naive_solver.
      * naive_solver.
      * destruct HpB; [by left|right]. intros ->. tauto.
    + cbn. unfold m3, m2, m1. rewrite !dom_alter_L. unfold set_parent_opt. destruct (ptr B =? NULL); rewrite ?dom_alter_L;
        (destruct c as [|[] c]; cbn; by rewrite ?dom_alter_L).
Qed.

(** ** Ranks *)
Lemma rerank_run s c d k a x b f :
  at_ctx s c (nd d k a x b) ->
  exists s', upd_node x (fun n => set_rank (f (rank n)) n) s = Some (tt, s') /\ at_ctx s' c (nd d (f k) a x b) /\
    same_outside (elems (plug c (nd d k a x b))) s s'.
Proof.
  intros Hat. destruct (at_disjoint _ _ _ Hat) as (Hn & Hctx & Hnc). pose proof Hat as [Hr Hh Hnd].
  apply rep_nd in Hr as (Hx & Hm & Ha & Hb). apply NoDup_nd in Hn as (Hxa & Hxb & _).
  eexists. split; [by apply upd_node_eq; [|eexists]|]. split.
  - constructor.
    + apply rep_nd. cbn. split_and!; [done|by rewrite lookup_alter_eq, Hm; cbn; rewrite rank_mknd, set_rank_mknd| |];
        (eapply rep_frame; [|done]); intros y Hy; apply lookup_alter_ne; congruence.
    + rewrite ptr_nd in *. apply (rep_ctx_frame s); [|done|done]. intros y Hy. apply lookup_alter_ne. intros <-.
      destruct (Hctx x) as [? ?]; [apply elem_of_nd; by left|]. tauto.
    + rewrite (elems_plug_eq c _ (nd d k a x b)) by (by destruct d). done.
  - apply same_outside_alter. rewrite elems_plug, !elem_of_app, elem_of_nd. auto.
Qed.

Definition diff_ok (k r : Z) : Prop := k = r + 1 \/ k = r + 2.

(** The WAVL rank rule. *)
Fixpoint wavl (t : tree) : Prop :=
  match t with
  | Leaf => True
  | Node k l _ r => wavl l /\ wavl r /\ diff_ok k (rk l) /\ diff_ok k (rk r) /\ (l = Leaf -> r = Leaf -> k = 1)
  end.

(** ... of the nodes around a hole filled by a tree of rank [r]. *)
Fixpoint wctx (c : ctx) (r : Z) : Prop :=
  match c with
  | [] => True
  | Fr d x k sib :: c => wavl sib /\ diff_ok k (rk sib) /\ diff_ok k r /\ (r = 0 -> sib = Leaf -> k = 1) /\ wctx c k
  end.

(** The rank at the root. *)
Fixpoint top (c : ctx) (r : Z) : Z := match c with [] => r | Fr _ _ k _ :: c => top c k end.

Lemma wavl_nd d k a x b :
  wavl (nd d k a x b) <-> wavl a /\ wavl b /\ diff_ok k (rk a) /\ diff_ok k (rk b) /\ (a = Leaf -> b = Leaf -> k = 1).
Proof. destruct d; cbn; tauto. Qed.

Lemma wavl_rk t : wavl t -> 0 <= rk t /\ (rk t = 0 <-> t = Leaf).
Proof.
  induction t as [|k l IHl x r IHr]; cbn; [done|]. intros (Hl & Hr & Hdl & _).
  destruct (IHl Hl). unfold diff_ok in *. split; [lia|]. split; [lia|done].
Qed.

Lemma wavl_plug c t : wavl t -> wctx c (rk t) -> wavl (plug c t).
Proof.
  revert t. induction c as [|[d x k sib] c IH]; cbn; intros t Ht; [done|]. intros (Hs & Hds & Hdt & Hl & Hc).
  apply IH; [|by rewrite rk_nd]. apply wavl_nd. split_and!; try done. intros ->. by apply Hl.
Qed.

Lemma wavl_unplug c t : wavl (plug c t) -> wavl t /\ wctx c (rk t).
Proof.
  revert t. induction c as [|[d x k sib] c IH]; cbn; intros t Ht; [done|]. apply IH in Ht as [Ht Hc].
  apply wavl_nd in Ht as (Ht & Hs & Hdt & Hds & Hl). rewrite rk_nd in Hc. split_and!; try done.
  intros Hr. apply Hl. by apply (wavl_rk t).
Qed.

Lemma top_plug c t : top c (rk t) = rk (plug c t).
Proof. revert t. induction c as [|[d x k sib] c IH]; intros t; [done|]. cbn. by rewrite <- IH, rk_nd. Qed.

Lemma top_ge c r : wctx c r -> r <= top c r.
Proof.
  revert r. induction c as [|[d x k sib] c IH]; cbn; intros r; [lia|]. intros (_ & _ & Hd & _ & Hc). specialize (IH k Hc).
  unfold diff_ok in Hd. lia.
Qed.

(** The rank of a tree is at most twice the logarithm of its size. *)
Lemma wavl_size t : wavl t -> 2 ^ rk t <= (Z.of_nat (length (elems t)) + 1) * (Z.of_nat (length (elems t)) + 1).
Proof.
  induction t as [|k l IHl x r IHr]; cbn; [lia|]. intros (Hl & Hr & Hdl & Hdr & Hlf). specialize (IHl Hl). specialize (IHr Hr).
  rewrite length_app. cbn. destruct (wavl_rk l Hl) as [Hl0 _]. destruct (wavl_rk r Hr) as [Hr0 _].
  set (a := Z.of_nat (length (elems l))) in *. set (b := Z.of_nat (length (elems r))) in *.
  assert (Z.of_nat (length (elems l) + Datatypes.S (length (elems r))) = a + b + 1) as -> by lia.
  assert (0 <= a /\ 0 <= b) as [? ?] by lia.
  assert (2 ^ k <= 4 * 2 ^ rk l /\ 2 ^ k <= 4 * 2 ^ rk r) as [H1 H2].
  { split; [destruct Hdl as [->| ->]|destruct Hdr as [->| ->]]; rewrite Z.pow_add_r by lia; cbn; lia. }
  destruct (Z.le_ge_cases a b); nia.
Qed.

Lemma wavl_rank_small t : wavl t -> Z.of_nat (length (elems t)) < 2 ^ 62 -> rk t < 2 ^ 62.
Proof.
  intros Ht Hn. pose proof (wavl_size t Ht) as Hs. destruct (wavl_rk t Ht) as [H0 _].
  assert (2 ^ rk t < 2 ^ 126) as Hlt.
  { eapply Z.le_lt_trans; [exact Hs|]. change (2 ^ 126) with (2 ^ 63 * 2 ^ 63). change (2 ^ 62) with 4611686018427387904 in Hn.
    change (2 ^ 63) with 9223372036854775808. nia. }
  apply Z.pow_lt_mono_r_iff in Hlt; lia.
Qed.

(** ** After an insertion *)
Lemma at_child s c d k a x b : at_ctx s c (nd d k a x b) -> at_ctx s (Fr d x k b :: c) a.
Proof. by intros ?%at_zip. Qed.

Lemma at_up s c d k a x b : at_ctx s (Fr d x k b :: c) a -> at_ctx s c (nd d k a x b).
Proof. by intros ?%at_zip. Qed.

Lemma at_other s c d k a x b : at_ctx s c (nd d k a x b) <-> at_ctx s (Fr (negb d) x k a :: c) b.
Proof. by rewrite at_zip, nd_negb. Qed.

Lemma at_up_other s c d k a x b : at_ctx s (Fr (negb d) x k a :: c) b -> at_ctx s c (nd d k a x b).
Proof. by intros ?%at_other. Qed.

Lemma bst_node_at s c d k a x b : at_ctx s c (nd d k a x b) -> get_node x s = Some (mknd d k (cptr c) (ptr a) (ptr b), s).
Proof. intros [Hr _ _]. apply rep_nd in Hr as (Hx & Hm & _). by apply get_node_eq. Qed.

Lemma rank_at s c t : at_ctx s c t -> bst_node_rank (ptr t) s = Some (rk t, s).
Proof. intros [Hr _ _]. by eapply node_rank_eq. Qed.

Lemma rank_at_child s c d k a x b :
  at_ctx s c (nd d k a x b) -> bst_node_rank (ptr a) s = Some (rk a, s) /\ bst_node_rank (ptr b) s = Some (rk b, s).
Proof. intros [Hr _ _]. apply rep_nd in Hr as (_ & _ & Ha & Hb). by split; eapply node_rank_eq. Qed.

Lemma elems_nd_eq d k k' a a' x b b' :
  elems a = elems a' -> elems b = elems b' -> elems (nd d k a x b) = elems (nd d k' a' x b').
Proof. intros Ha Hb. destruct d; cbn; by rewrite Ha, Hb. Qed.

(** A tree split at its other side. *)
Lemma tree_cases d t : t = Leaf \/ exists k a x b, t = nd d k a x b.
Proof. destruct t as [|k l x r]; [by left|right]. destruct d; [by exists k, r, x, l|by exists k, l, x, r]. Qed.

(** Trees with the same sequence of nodes. *)
Ltac flatten_elems d := cbn [plug]; rewrite ?elems_plug; destruct d; cbn; repeat (rewrite <- app_assoc; cbn).

Lemma same_outside_at c c' t t' s s1 s2 :
  same_outside (elems (plug c' t')) s s1 -> elems (plug c' t') = elems (plug c t) ->
  same_outside (elems (plug c t)) s1 s2 -> same_outside (elems (plug c t)) s s2.
Proof. intros H1 He. rewrite He in H1. by apply same_outside_trans. Qed.

Lemma rotate_insert_single s c d k A up B down C :
  at_ctx s c (nd d k (nd d k A up B) down C) -> 2 <= k < 2 ^ 63 -> rk B = k - 2 -> rk C = k - 2 ->
  wavl A -> wavl B -> wavl C -> diff_ok k (rk A) ->
  exists s' t', bst_rotate_insert up down d s = Some (tt, s') /\ at_ctx s' c t' /\ wavl t' /\ rk t' = k /\
    elems t' = elems (nd d k (nd d k A up B) down C) /\ same_outside (elems (plug c (nd d k (nd d k A up B) down C))) s s'.
Proof.
  intros Hat Hk HB HC HwA HwB HwC HA. pose proof (at_child _ _ _ _ _ _ _ Hat) as Hup.
  destruct (rank_at_child _ _ _ _ _ _ _ Hat) as [_ HrC]. destruct (rank_at_child _ _ _ _ _ _ _ Hup) as [_ HrB].
  destruct (rotate_run _ _ _ _ _ _ _ _ _ _ Hat) as (s1 & Hrot & Hat1 & Hs1).
  pose proof (at_child _ _ _ _ _ _ _ Hat1) as Hdown.
  destruct (rerank_run _ _ _ _ _ _ _ (fun r => u64 (r + -1)) Hdown) as (s2 & Hadd & Hat2 & Hs2).
  rewrite u64_small in Hat2 by lia. apply at_up in Hat2.
  exists s2, (nd (negb d) k (nd d (k + -1) B down C) up A). split_and!.
  - unfold bst_rotate_insert. rewrite (bind_eq _ _ _ _ _ (bst_node_at _ _ _ _ _ _ _ Hat)).
    autorewrite with bst. rewrite Z.eqb_refl. cbn [assert_]. rewrite ret_bind.
    rewrite (bind_eq _ _ _ _ _ (bst_node_at _ _ _ _ _ _ _ Hup)). rewrite !rank_mknd, Z.eqb_refl. cbn [assert_]. rewrite ret_bind.
    autorewrite with bst. rewrite (bind_eq _ _ _ _ _ HrC). rewrite HC, !u64_small by lia.
    rewrite assert_bind by (rewrite Z.geb_leb; apply Z.leb_le; lia).
    autorewrite with bst. rewrite (bind_eq _ _ _ _ _ HrB), HB. destruct (Z.geb_spec (k - 2) (k - 1)); [lia|].
    by rewrite (bind_eq _ _ _ _ _ Hrot).
  - done.
  - apply wavl_nd. rewrite rk_nd. split_and!; [|done|left; lia|done|by destruct d].
    apply wavl_nd. split_and!; [done|done|left; lia|left; lia|]. intros -> _. cbn in HB. lia.
  - by rewrite rk_nd.
  - rewrite <- (elems_rotate d k k A up B down C). by apply elems_nd_eq; [apply elems_nd_eq|].
  - eapply same_outside_trans; [exact Hs1|]. cbn [plug] in Hs2.
    rewrite (elems_plug_eq c _ _ (elems_rotate d k k A up B down C)) in Hs2. exact Hs2.
Qed.

Lemma rotate_insert_double s c d k A up X up2 Y down C :
  at_ctx s c (nd d k (nd d k A up (nd (negb d) (k - 1) X up2 Y)) down C) -> 2 <= k < 2 ^ 63 -> rk C = k - 2 -> rk A = k - 2 ->
  wavl A -> wavl (nd (negb d) (k - 1) X up2 Y) -> wavl C ->
  exists s' t', bst_rotate_insert up down d s = Some (tt, s') /\ at_ctx s' c t' /\ wavl t' /\ rk t' = k /\
    elems t' = elems (nd d k (nd d k A up (nd (negb d) (k - 1) X up2 Y)) down C) /\
    same_outside (elems (plug c (nd d k (nd d k A up (nd (negb d) (k - 1) X up2 Y)) down C))) s s'.
Proof.
  intros Hat Hk HC HA HwA HwB HwC. pose proof (at_child _ _ _ _ _ _ _ Hat) as Hup.
  destruct (rank_at_child _ _ _ _ _ _ _ Hat) as [_ HrC]. destruct (rank_at_child _ _ _ _ _ _ _ Hup) as [_ HrB].
  rewrite ptr_nd, rk_nd in HrB.
  pose proof (proj1 (at_other _ _ _ _ _ _ _) Hup) as H2.
  destruct (rerank_run _ _ _ _ _ _ _ (fun r => u64 (r + 1)) H2) as (s1 & Hadd1 & H3 & Ho1).
  rewrite u64_small in H3 by lia. replace (k - 1 + 1) with k in H3 by lia. pose proof (bst_node_at _ _ _ _ _ _ _ H3) as Hn2.
  apply at_up_other in H3. pose proof (bst_node_at _ _ _ _ _ _ _ H3) as Hn1. rewrite <- (nd_negb d k) in H3.
  destruct (rotate_run _ _ _ _ _ _ _ _ _ _ H3) as (s2 & Hrot1 & H4 & Ho2). rewrite negb_involutive in H4.
  apply at_child in H4. destruct (rerank_run _ _ _ _ _ _ _ (fun r => u64 (r + -1)) H4) as (s3 & Hadd2 & H5 & Ho3).
  rewrite u64_small in H5 by lia. apply at_up, at_up in H5.
  destruct (rotate_run _ _ _ _ _ _ _ _ _ _ H5) as (s4 & Hrot2 & H6 & Ho4).
  apply at_child in H6. destruct (rerank_run _ _ _ _ _ _ _ (fun r => u64 (r + -1)) H6) as (s5 & Hadd3 & H7 & Ho5).
  rewrite u64_small in H7 by lia. apply at_up in H7.
  exists s5. eexists. split_and!; [|exact H7| | | |].
  - unfold bst_rotate_insert. rewrite (bind_eq _ _ _ _ _ (bst_node_at _ _ _ _ _ _ _ Hat)).
    autorewrite with bst. rewrite Z.eqb_refl. cbn [assert_]. rewrite ret_bind.
    rewrite (bind_eq _ _ _ _ _ (bst_node_at _ _ _ _ _ _ _ Hup)). rewrite !rank_mknd, Z.eqb_refl. cbn [assert_]. rewrite ret_bind.
    autorewrite with bst. rewrite (bind_eq _ _ _ _ _ HrC). rewrite HC, !u64_small by lia.
    rewrite assert_bind by (rewrite Z.geb_leb; apply Z.leb_le; lia).
    autorewrite with bst. rewrite (bind_eq _ _ _ _ _ HrB). destruct (Z.geb_spec (k - 1) (k - 1)); [|lia].
    rewrite Z.eqb_refl. cbn [assert_]. rewrite ret_bind. unfold add_rank. rewrite (bind_eq _ _ _ _ _ Hadd1).
    rewrite (bind_eq _ _ _ _ _ Hn1), (bind_eq _ _ _ _ _ Hn2), !rank_mknd, Z.eqb_refl. cbn [assert_]. rewrite ret_bind.
    by rewrite (bind_eq _ _ _ _ _ Hrot1), (bind_eq _ _ _ _ _ Hadd2), (bind_eq _ _ _ _ _ Hrot2).
  - apply wavl_nd in HwB as (HwX & HwY & HdX & HdY & Hlf). unfold diff_ok in *.
    apply wavl_nd. rewrite !rk_nd. split_and!; [| |left; lia|left; lia|by destruct d].
    + apply wavl_nd. unfold diff_ok. split_and!; [done|done|lia|lia|]. intros -> ->. cbn in *. lia.
    + apply wavl_nd. unfold diff_ok. split_and!; [done|done|lia|lia|]. intros -> ->. cbn in *. lia.
  - by rewrite rk_nd.
  - by flatten_elems d.
  - set (T0 := nd d k (nd d k A up _) down C).
    eapply same_outside_at; [exact Ho1|by flatten_elems d|]. eapply same_outside_at; [exact Ho2|by flatten_elems d|].
    eapply same_outside_at; [exact Ho3|by flatten_elems d|]. eapply same_outside_at; [exact Ho4|by flatten_elems d|].
    eapply same_outside_at; [exact Ho5|by flatten_elems d|]. apply same_outside_refl.
Qed.

(** A subtree that has grown by one: a new leaf, or a node whose children now
    differ in rank. *)
Definition grown (t : tree) : Prop :=
  (exists x, t = Node 1 Leaf x Leaf) \/
  exists d k a x b, t = nd d k a x b /\ rk a = k - 1 /\ rk b = k - 2.

Lemma rotate_insert_run s c d k t down C :
  at_ctx s c (nd d k t down C) -> 2 <= k < 2 ^ 63 -> grown t -> rk t = k -> wavl t -> rk C = k - 2 -> wavl C ->
  exists s' t', bst_rotate_insert (ptr t) down d s = Some (tt, s') /\ at_ctx s' c t' /\ wavl t' /\ rk t' = k /\
    elems t' = elems (nd d k t down C) /\ same_outside (elems (plug c (nd d k t down C))) s s'.
Proof.
  intros Hat Hk [(x & ->)|(d2 & q & a & x & b & -> & Ha & Hb)] Hrk Hw HC HwC; [cbn in Hrk; lia|].
  rewrite rk_nd in Hrk. subst q. apply wavl_nd in Hw as (Hwa & Hwb & Hda & Hdb & _). rewrite ptr_nd.
  destruct (decide (d2 = d)) as [->|Hd]; [by eapply rotate_insert_single|].
  assert (d2 = negb d) as -> by (by destruct d, d2). rewrite nd_negb in *.
  destruct (tree_cases (negb d) a) as [->|(k2 & X & up2 & Y & ->)]; [cbn in Ha; lia|]. rewrite rk_nd in Ha. subst k2.
  by eapply rotate_insert_double.
Qed.

Lemma update_rank_insert_run c : forall fuel s t,
  at_ctx s c t -> grown t -> wavl t -> wctx c (rk t - 1) -> top c (rk t - 1) < 2 ^ 62 -> (length c < fuel)%nat ->
  exists s' t', update_rank_insert fuel (ptr t) s = Some (tt, s') /\ holds s' t' /\ wavl t' /\
    elems t' = elems (plug c t) /\ same_outside (elems (plug c t)) s s'.
Proof.
  induction c as [|[d y k sib] c IH]; intros [|fuel] s t Hat Hg Hw Hc Htop Hfuel; cbn in Hfuel; try lia.
  all: assert (exists d' q a x b, t = nd d' q a x b) as (d' & q & a & x & b & ->)
    by (destruct Hg as [(x & ->)|(d' & q & a & x & b & -> & _)]; [exists false, 1, Leaf, x, Leaf; done|by exists d', q, a, x, b]).
  all: rewrite rk_nd in Hc, Htop; pose proof (is_right_child_run _ _ _ _ (at_hole_at _ _ _ _ _ _ _ Hat)) as Hrc;
    pose proof (bst_node_at _ _ _ _ _ _ _ Hat) as Hn; assert (x <> NULL) as Hx by (destruct Hat as [Hr _ _]; by apply rep_nd in Hr as [? _]).
  all: cbn [update_rank_insert]; rewrite ptr_nd, (proj2 (Z.eqb_neq _ _) Hx), (bind_eq _ _ _ _ _ Hrc), (bind_eq _ _ _ _ _ Hn); autorewrite with bst.
  - exists s, (nd d' q a x b). cbn. split_and!; [done|done|done|done|apply same_outside_refl].
  - cbn [cptr side]. destruct Hc as (Hws & Hds & Hdk & Hlf & Hcc). cbn in Htop. pose proof (top_ge c k Hcc) as Htk.
    destruct (wavl_rk _ Hws) as [Hs0 _]. pose proof (wavl_rk _ Hw) as [Hq0 Hq1]. rewrite rk_nd in Hq0, Hq1.
    assert (1 <= q) as Hq by (destruct (decide (q = 0)) as [->|]; [exfalso; destruct d'; discriminate (proj1 Hq1 eq_refl)|lia]).
    apply at_up in Hat. pose proof (bst_node_at _ _ _ _ _ _ _ Hat) as Hny. pose proof (rank_at_child _ _ _ _ _ _ _ Hat) as [_ Hrs].
    assert (y <> NULL) as Hy by (destruct Hat as [Hr _ _]; by apply rep_nd in Hr as [? _]).
    rewrite (proj2 (Z.eqb_neq _ _) Hy), (bind_eq _ _ _ _ _ Hny). autorewrite with bst. unfold diff_ok in *.
    rewrite (u64_small (q + 1)) by lia. destruct (Z.geb_spec k (q + 1)) as [Hge|Hlt].
    + assert (k = q + 1) as -> by lia. rewrite Z.eqb_refl. exists s, (plug c (nd d (q + 1) (nd d' q a x b) y sib)). split_and!; [done| | | |].
      * exact (proj1 (at_holds s c _) Hat).
      * apply wavl_plug; [apply wavl_nd|by rewrite rk_nd]. rewrite rk_nd. unfold diff_ok. split_and!; [done|done|lia|lia|by destruct d'].
      * done.
      * apply same_outside_refl.
    + assert (k = q) as -> by lia. rewrite (u64_small (q + 1)) by lia. rewrite Z.eqb_refl. cbn [assert_]. rewrite ret_bind.
      rewrite (bind_eq _ _ _ _ _ Hrs), (u64_small (rk sib + 2)) by lia. destruct (Z.ltb_spec (rk sib + 2) (q + 1)) as [Hrot|Hpro].
      * destruct (rotate_insert_run s c d q (nd d' q a x b) y sib Hat) as (s' & t' & Hr & Hat' & Hw' & Hrk' & He & Ho);
          [lia|done|by rewrite rk_nd|done|lia|done|]. rewrite ptr_nd in *.
        exists s', (plug c t'). split_and!; [done|exact (proj1 (at_holds s' c _) Hat')|apply wavl_plug; [done|by rewrite Hrk']|exact (elems_plug_eq c _ _ He)|done].
      * destruct (rerank_run _ _ _ _ _ _ _ (fun _ => q + 1) Hat) as (s1 & Hr1 & Hat1 & Ho1).
        change (fun n => set_rank (q + 1) n) with (set_rank (q + 1)) in Hr1. rewrite ptr_nd in *. rewrite (bind_eq _ _ _ _ _ Hr1).
        destruct (IH fuel s1 (nd d (q + 1) (nd d' q a x b) y sib)) as (s' & t' & Hr & Hh & Hw' & He & Ho); try done.
        -- right. exists d, (q + 1), (nd d' q a x b), y, sib. rewrite rk_nd. split_and!; [done|lia|lia].
        -- apply wavl_nd. rewrite rk_nd. unfold diff_ok. split_and!; [done|done|lia|lia|by destruct d'].
        -- rewrite rk_nd. by replace (q + 1 - 1) with q by lia.
        -- rewrite rk_nd. by replace (q + 1 - 1) with q by lia.
        -- lia.
        -- rewrite ptr_nd in Hr. exists s', t'. split_and!; [done|done|done| |].
           ++ rewrite He. by flatten_elems d.
           ++ eapply same_outside_at; [exact Ho1|by flatten_elems d|]. cbn [plug].
              by rewrite (elems_plug_eq c _ (nd d (q + 1) (nd d' q a x b) y sib)) by (by destruct d).
Qed.
