(* ===== verification/BstInsert.v ===== *)
(** * Searching and inserting

    What the caller's comparison has to do is cut the tree in three: the nodes
    before the searched place, those that match and those after it. *)
From stdpp Require Import base gmap list.
From Stdlib Require Import ZArith Lia.
From S2P Require Import Prelude Bst BstRep BstOps.

Local Open Scope Z_scope.
Local Open Scope lk_scope.

Record cut (cmp : Z -> Z) (l l1 eqs l2 : list Z) : Prop := {
  cut_list : l = l1 ++ eqs ++ l2;
  cut_before : forall y, y ∈ l1 -> 0 < cmp y;
  cut_match : forall y, y ∈ eqs -> cmp y = 0;
  cut_after : forall y, y ∈ l2 -> cmp y < 0
}.

(** The parts are determined by the comparison. *)
Lemma cut_filter cmp l l1 eqs l2 : cut cmp l l1 eqs l2 ->
  l1 = filter (fun y => 0 < cmp y) l /\ eqs = filter (fun y => cmp y = 0) l /\ l2 = filter (fun y => cmp y < 0) l.
Proof.
  intros [-> H1 H2 H3].
  assert (forall (P : Z -> Prop) `{forall y, Decision (P y)} (k : list Z), (forall y, y ∈ k -> P y) -> filter P k = k) as Hall.
  { clear. intros P HP k. induction k as [|y k IH]; intros Hk; [done|]. rewrite filter_cons_True by (apply Hk; by left).
    f_equal. apply IH. intros z Hz. apply Hk. by right. }
  assert (forall (P : Z -> Prop) `{forall y, Decision (P y)} (k : list Z), (forall y, y ∈ k -> ~ P y) -> filter P k = []) as Hnone.
  { clear. intros P HP k. induction k as [|y k IH]; intros Hk; [done|]. rewrite filter_cons_False by (apply Hk; by left).
    apply IH. intros z Hz. apply Hk. by right. }
  rewrite !filter_app. split_and!.
  - rewrite Hall, !Hnone, !app_nil_r; [done|intros y Hy; specialize (H3 y Hy); lia|intros y Hy; specialize (H2 y Hy); lia|done].
  - rewrite (Hnone _ _ l1), (Hnone _ _ l2), Hall, app_nil_r; [done|done|intros y Hy; specialize (H3 y Hy); lia|intros y Hy; specialize (H1 y Hy); lia].
  - rewrite (Hnone _ _ l1), (Hnone _ _ eqs), Hall; [done|done|intros y Hy; specialize (H2 y Hy); lia|intros y Hy; specialize (H1 y Hy); lia].
Qed.

Lemma cut_split cmp l l1 eqs l2 p y q : cut cmp l l1 eqs l2 -> l = p ++ y :: q ->
  (0 < cmp y -> forall z, z ∈ p -> 0 < cmp z) /\ (cmp y < 0 -> forall z, z ∈ q -> cmp z < 0).
Proof.
  intros [-> H1 H2 H3] Heq. split.
  - intros Hy z Hz. destruct (decide (z ∈ l1)) as [|Hn]; [by apply H1|]. exfalso.
    apply list_elem_of_split in Hz as (p1 & p2 & ->). rewrite <- app_assoc in Heq. cbn in Heq.
    destruct (app_eq_inv _ _ _ _ Heq) as [(k & -> & Hk)|(k & -> & Hk)].
    + destruct k as [|z' k]; cbn in Hk; [|injection Hk as -> Hk; apply Hn; set_solver].
      assert (y ∈ eqs ++ l2) as Hin by (rewrite <- Hk; set_solver).
      apply elem_of_app in Hin as [Hin%H2|Hin%H3]; lia.
    + assert (y ∈ eqs ++ l2) as Hin by (rewrite Hk; set_solver). apply elem_of_app in Hin as [Hin%H2|Hin%H3]; lia.
  - intros Hy z Hz. destruct (decide (z ∈ l2)) as [|Hn]; [by apply H3|]. exfalso.
    apply list_elem_of_split in Hz as (p1 & p2 & ->).
    assert ((l1 ++ eqs) ++ l2 = (p ++ y :: p1) ++ z :: p2) as Heq' by (rewrite <- !app_assoc; cbn; exact Heq).
    destruct (app_eq_inv _ _ _ _ Heq') as [(k & Hk & _)|(k & _ & ->)]; [|set_solver].
    assert (y ∈ l1 ++ eqs) as Hin by (rewrite Hk; set_solver). apply elem_of_app in Hin as [Hin%H1|Hin%H2]; lia.
Qed.

(** The place of a context among its nodes. *)
Definition placed (cmp : Z -> Z) (c : ctx) : Prop := (forall y, y ∈ pre c -> 0 < cmp y) /\ (forall y, y ∈ post c -> cmp y < 0).

Lemma placed_down cmp c k l x r l1 eqs l2 :
  cut cmp (elems (plug c (Node k l x r))) l1 eqs l2 -> placed cmp c ->
  (0 < cmp x -> placed cmp (Fr true x k l :: c)) /\ (cmp x < 0 -> placed cmp (Fr false x k r :: c)).
Proof.
  intros Hcut [Hp Hq]. rewrite elems_plug in Hcut. cbn in Hcut.
  assert (pre c ++ (elems l ++ x :: elems r) ++ post c = (pre c ++ elems l) ++ x :: (elems r ++ post c)) as Heq
    by (by rewrite <- !app_assoc).
  destruct (cut_split _ _ _ _ _ _ _ _ Hcut Heq) as [H1 H2]. split; intros Hx; (split; [|try done]); cbn; try done; intros y.
  - rewrite !elem_of_app, list_elem_of_singleton. intros [?|[?| ->]]; [by apply Hp|apply H1; [done|set_solver]|done].
  - rewrite elem_of_cons, elem_of_app. intros [->|[?|?]]; [done|apply H2; [done|set_solver]|by apply Hq].
Qed.

Lemma tree_shape c d x k sib t : plug (Fr d x k sib :: c) t = plug c (nd d k t x sib).
Proof. done. Qed.

Fixpoint height (t : tree) : nat := match t with Leaf => O | Node _ l _ r => S (max (height l) (height r)) end.

Lemma height_length t : (height t <= length (elems t))%nat.
Proof. induction t as [|k l IHl x r IHr]; cbn; [done|]. rewrite length_app. cbn. lia. Qed.

Lemma wavl_height t : wavl t -> Z.of_nat (height t) <= rk t.
Proof. induction t as [|k l IHl x r IHr]; cbn; [done|]. intros (Hl%IHl & Hr%IHr & Hdl & Hdr & _). unfold diff_ok in *. lia. Qed.

Lemma search_from_run cmp fuel : forall s c t l1 eqs l2,
  at_ctx s c t -> placed cmp c -> cut cmp (elems (plug c t)) l1 eqs l2 -> (height t < fuel)%nat ->
  exists r, search_from fuel cmp (ptr t) s = Some (r, s) /\ (eqs = [] -> r = NULL) /\ (eqs <> [] -> r ∈ eqs).
Proof.
  induction fuel as [|fuel IH]; intros s c t l1 eqs l2 Hat Hpl Hcut Hf; [lia|]. destruct t as [|k l x r].
  - exists NULL. cbn. split_and!; [done|done|]. intros He. exfalso. destruct eqs as [|y eqs]; [done|].
    assert (y ∈ elems (plug c Leaf)) as Hy by (rewrite (cut_list _ _ _ _ _ Hcut); set_solver).
    assert (cmp y = 0) as H0 by (apply (cut_match _ _ _ _ _ Hcut); by left).
    rewrite elems_plug in Hy. cbn in Hy. apply elem_of_app in Hy as [Hy|Hy]; apply Hpl in Hy; lia.
  - cbn [search_from ptr]. pose proof (bst_node_at s c false k l x r Hat) as Hn.
    assert (x <> NULL) as Hx by (by destruct Hat as [[? _] _ _]).
    rewrite (proj2 (Z.eqb_neq _ _) Hx), (bind_eq _ _ _ _ _ Hn). destruct (placed_down _ _ _ _ _ _ _ _ _ Hcut Hpl) as [Hgt Hlt].
    cbn in Hf.
    destruct (Z.eqb_spec (cmp x) 0) as [H0|H0].
    + exists x. assert (x ∈ eqs) as Hin.
      { assert (x ∈ elems (plug c (Node k l x r))) as Hin by (rewrite elems_plug; set_solver).
        rewrite (cut_list _ _ _ _ _ Hcut), !elem_of_app in Hin.
        destruct Hin as [Hin%(cut_before _ _ _ _ _ Hcut)|[|Hin%(cut_after _ _ _ _ _ Hcut)]]; [lia|done|lia]. }
      split_and!; [done| |done]. intros ->. by apply elem_of_nil in Hin.
    + destruct (Z.gtb_spec (cmp x) 0) as [H1|H1].
      * apply (IH s (Fr true x k l :: c) r l1 eqs l2); [by apply at_zip|by apply Hgt|done|lia].
      * apply (IH s (Fr false x k r :: c) l l1 eqs l2); [by apply at_zip|apply Hlt; lia|done|lia].
Qed.

(** ** Sizes *)
Lemma ctx_length c : (length c <= length (pre c ++ post c))%nat.
Proof.
  induction c as [|[[] x k sib] c IH]; cbn; [done| |]; rewrite ?length_app in *; cbn; rewrite ?length_app; cbn; lia.
Qed.

Lemma holds_size s t : holds s t -> (length (elems t) <= size (bst_nodes s))%nat.
Proof.
  intros [Hr _ Hn]. cbn in Hn. rewrite <- (size_list_to_set (C := gset Z)) by done.
  rewrite <- size_dom. apply subseteq_size. intros y Hy%elem_of_list_to_set. apply elem_of_dom.
  by eapply rep_elem_nonzero.
Qed.

Definition fits s : Prop := Z.of_nat (size (bst_nodes s)) < 2 ^ 62.

Definition ctx_ptr (c : ctx) : bst_ptr := match c with [] => RootPtr | Fr d x _ _ :: _ => ChildPtr x d end.

Lemma load_run s c t : at_ctx s c t -> load (ctx_ptr c) s = Some (ptr t, s).
Proof.
  intros [_ Hh _]. destruct c as [|[d x k sib] c]; cbn in *; [unfold gets; by rewrite Hh|]. destruct Hh as (Hx & Hm & _).
  rewrite (bind_eq _ _ _ _ _ (get_node_eq _ _ _ Hx Hm)). by rewrite child_mknd.
Qed.

Lemma store_run s c t v : at_ctx s c t -> store (ctx_ptr c) v s = Some (tt, redirect c v s).
Proof.
  intros [_ Hh _]. destruct c as [|[d x k sib] c]; cbn in *; [done|]. destruct Hh as (Hx & Hm & _).
  apply upd_node_eq; [done|by eexists].
Qed.

(** A new leaf in the hole of a context. *)
Lemma plant_run s c node n :
  at_ctx s c Leaf -> node <> NULL -> bst_nodes s !! node = Some n -> node ∉ elems (plug c Leaf) ->
  exists s', bind (upd_node node (fun _ => mk_bst_node 1 (cptr c) NULL NULL)) (fun _ => store (ctx_ptr c) node) s = Some (tt, s') /\
    at_ctx s' c (Node 1 Leaf node Leaf) /\ same_outside (elems (plug c (Node 1 Leaf node Leaf))) s s'.
Proof.
  intros Hat Hn0 Hn Hni. destruct (at_disjoint _ _ _ Hat) as (_ & _ & Hnc). rewrite elems_plug in Hni. cbn in Hni.
  assert (node ∉ pre c /\ node ∉ post c) as [Hp Hq] by set_solver.
  set (s1 := with_nodes (alter (fun _ => mk_bst_node 1 (cptr c) NULL NULL) node) s).
  assert (rep_ctx s1 c NULL) as Hc1.
  { apply (rep_ctx_frame s); [|done|apply (at_hole _ _ _ Hat)]. intros y Hy. apply lookup_alter_ne. set_solver. }
  assert (node <> cptr c \/ c = []) as Hne.
  { destruct (decide (c = [])) as [|Hc]; [by right|left]. intros ->. destruct (cptr_in_ctx c Hc); done. }
  assert (at_ctx s1 c Leaf) as Hat1 by (constructor; [done|done|apply Hat]).
  exists (redirect c node s1). split; [|split].
  - rewrite (bind_eq _ _ _ _ _ (upd_node_eq s node _ Hn0 ltac:(by eexists))). by apply (store_run s1 c Leaf).
  - constructor.
    + cbn. split_and!; [done| |done|done]. rewrite redirect_lookup by done. cbn. by rewrite lookup_alter_eq, Hn.
    + by eapply rep_ctx_redirect.
    + rewrite elems_plug. cbn. apply NoDup_app in Hnc as (H1 & H2 & H3). rewrite NoDup_app, NoDup_cons. set_solver.
  - apply (same_outside_trans _ s s1).
    + apply same_outside_alter. rewrite elems_plug. set_solver.
    + apply same_outside_redirect. intros Hc. rewrite elems_plug. destruct (cptr_in_ctx c Hc); set_solver.
Qed.

Lemma insert_at_run compare node n fuel : forall s c t l1 eqs l2,
  at_ctx s c t -> fits s -> wavl (plug c t) -> node <> NULL -> bst_nodes s !! node = Some n -> node ∉ elems (plug c t) ->
  placed (fun y => compare y node) c -> cut (fun y => compare y node) (elems (plug c t)) l1 eqs l2 ->
  (length (elems t) < fuel)%nat ->
  if bool_decide (eqs = []) then
    exists s' t', insert_at compare fuel node (cptr c) (ctx_ptr c) s = Some (true, s') /\ holds s' t' /\ wavl t' /\
      elems t' = l1 ++ node :: l2 /\ same_outside (node :: elems (plug c t)) s s'
  else insert_at compare fuel node (cptr c) (ctx_ptr c) s = Some (false, s).
Proof.
  induction fuel as [|fuel IH]; intros s c t l1 eqs l2 Hat Hfit Hw Hn0 Hn Hni Hpl Hcut Hf; [lia|].
  cbn [insert_at]. rewrite (bind_eq _ _ _ _ _ (load_run _ _ _ Hat)). destruct t as [|k l x r].
  - cbn [ptr]. rewrite Z.eqb_refl. destruct (cut_filter _ _ _ _ _ Hcut) as (E1 & E2 & E3).
    assert (cut (fun y => compare y node) (elems (plug c Leaf)) (pre c) [] (post c)) as Hcut'.
    { destruct Hpl. constructor; [by rewrite elems_plug|done|by intros y ?%elem_of_nil|done]. }
    destruct (cut_filter _ _ _ _ _ Hcut') as (F1 & F2 & F3). rewrite bool_decide_eq_true_2 by congruence.
    destruct (plant_run s c node n Hat Hn0 Hn Hni) as (s1 & Hpr & Hat1 & Ho1).
    rewrite (bind_then _ _ _ _ _ _ Hpr). unfold bst_update_rank_insert.
    destruct (wavl_unplug _ _ Hw) as [_ Hwc].
    assert (holds s (plug c Leaf)) as Hh by (exact (proj1 (at_holds s c _) Hat)). pose proof (holds_size _ _ Hh) as Hsz.
    destruct (update_rank_insert_run c (Datatypes.S (size (bst_nodes s1))) s1 (Node 1 Leaf node Leaf) Hat1) as (s2 & t' & Hr & Hh' & Hw' & He & Ho).
    + left. by exists node.
    + cbn. unfold diff_ok. split_and!; auto.
    + exact Hwc.
    + change (rk (Node 1 Leaf node Leaf) - 1) with (rk Leaf). rewrite top_plug. apply wavl_rank_small; [done|]. unfold fits in Hfit. lia.
    + rewrite <- size_dom, (proj2 Ho1), size_dom. rewrite elems_plug in Hsz. cbn in Hsz. pose proof (ctx_length c). lia.
    + cbn [ptr] in Hr. assert (get_node node s1 = Some (mk_bst_node 1 (cptr c) NULL NULL, s1)) as Hg
        by (exact (bst_node_at s1 c false 1 Leaf node Leaf Hat1)).
      rewrite bind_assoc, (bind_eq _ _ _ _ _ Hg). cbn [rank]. rewrite Z.eqb_refl. cbn [assert_]. rewrite bind_assoc, ret_bind.
      unfold bst_fuel. rewrite bind_assoc, gets_bind, (bind_eq _ _ _ _ _ Hr). exists s2, t'. split_and!; [done|done|done| |].
      * rewrite He, elems_plug. cbn. congruence.
      * assert (forall A B, (forall y, y ∈ A <-> y ∈ B) -> same_outside A s s2 -> same_outside B s s2) as Hsub.
        { intros A B HAB [H1 H2]. split; [|done]. intros y Hy. apply H1. by rewrite HAB. }
        eapply Hsub; [|eapply same_outside_trans; [exact Ho1|exact Ho]]. intros y. rewrite !elems_plug. cbn. set_solver.
  - cbn [ptr]. assert (x <> NULL) as Hx by (by destruct Hat as [[? _] _ _]). rewrite (proj2 (Z.eqb_neq _ _) Hx).
    destruct (placed_down _ _ _ _ _ _ _ _ _ Hcut Hpl) as [Hgt Hlt]. cbn in Hf. rewrite length_app in Hf. cbn in Hf.
    destruct (Z.eqb_spec (compare x node) 0) as [H0|H0].
    + rewrite bool_decide_eq_false_2; [done|]. intros ->.
      assert (x ∈ elems (plug c (Node k l x r))) as Hin by (rewrite elems_plug; set_solver).
      rewrite (cut_list _ _ _ _ _ Hcut) in Hin. cbn in Hin.
      apply elem_of_app in Hin as [Hin%(cut_before _ _ _ _ _ Hcut)|Hin%(cut_after _ _ _ _ _ Hcut)]; lia.
    + destruct (Z.gtb_spec (compare x node) 0) as [H1|H1].
      * apply (IH s (Fr true x k l :: c) r l1 eqs l2); try done; [by apply at_zip|by apply Hgt|lia].
      * apply (IH s (Fr false x k r :: c) l l1 eqs l2); try done; [by apply at_zip|apply Hlt; lia|lia].
Qed.
