(* ===== verification/BstDelete.v ===== *)
(** * Deleting a node *)
From stdpp Require Import base gmap list.
From Stdlib Require Import ZArith Lia.
From S2P Require Import Prelude Bst BstRep BstOps BstInsert.

Local Open Scope Z_scope.
Local Open Scope lk_scope.

(** ** Rotations *)
Lemma add_rank_run s c d k a x b i :
  at_ctx s c (nd d k a x b) -> 0 <= k + i < 2 ^ 64 ->
  exists s', add_rank x i s = Some (tt, s') /\ at_ctx s' c (nd d (k + i) a x b) /\ same_outside (elems (plug c (nd d k a x b))) s s'.
Proof.
  intros Hat Hi. destruct (rerank_run _ _ _ _ _ _ _ (fun r => u64 (r + i)) Hat) as (s' & Hr & Hat' & Ho).
  rewrite u64_small in Hat' by lia. by exists s'.
Qed.

Lemma rotate_delete_single s c d k A up B down C :
  at_ctx s c (nd d k (nd d (k - 1) A up B) down C) -> 3 <= k < 2 ^ 63 -> rk C = k - 3 -> rk A = k - 2 ->
  wavl (nd d (k - 1) A up B) -> wavl C ->
  exists s' t', bst_rotate_delete up down d s = Some (tt, s') /\ at_ctx s' c t' /\ wavl t' /\ rk t' = k /\
    elems t' = elems (nd d k (nd d (k - 1) A up B) down C) /\
    same_outside (elems (plug c (nd d k (nd d (k - 1) A up B) down C))) s s'.
Proof.
  intros Hat Hk HC HA Hw HwC. pose proof (at_child _ _ _ _ _ _ _ Hat) as Hup.
  destruct (rank_at_child _ _ _ _ _ _ _ Hat) as [_ HrC]. destruct (rank_at_child _ _ _ _ _ _ _ Hup) as [HrA _].
  apply wavl_nd in Hw as (HwA & HwB & _ & HdB & _). unfold diff_ok in HdB.
  destruct (rotate_run _ _ _ _ _ _ _ _ _ _ Hat) as (s1 & Hrot & H1 & Ho1).
  destruct (add_rank_run _ _ _ _ _ _ _ 1 H1) as (s2 & Hadd1 & H2 & Ho2); [lia|]. replace (k - 1 + 1) with k in H2 by lia.
  apply at_child in H2. destruct (add_rank_run _ _ _ _ _ _ _ (-1) H2) as (s3 & Hadd2 & H3 & Ho3); [lia|].
  pose proof (bst_node_at _ _ _ _ _ _ _ H3) as Hn3. destruct (rank_at_child _ _ _ _ _ _ _ H3) as [HrB3 HrC3].
  set (m := if rk B =? k - 3 then -1 else 0).
  assert (exists s4, (r0 <- bst_node_rank (child0 (mknd d (k + -1) up (ptr B) (ptr C))) ;;
       (if r0 =? u64 (k + -1 - 2) then r1 <- bst_node_rank (child1 (mknd d (k + -1) up (ptr B) (ptr C))) ;;
          when (r1 =? u64 (k + -1 - 2)) (add_rank down (-1)) else ret tt)) s3 = Some (tt, s4) /\
       at_ctx s4 (Fr (negb d) up k A :: c) (nd d (k - 1 + m) B down C) /\
       same_outside (elems (plug (Fr (negb d) up k A :: c) (nd d (k + -1) B down C))) s3 s4) as (s4 & Hr4 & H4 & Ho4).
  { replace (k + -1 - 2) with (k - 3) by lia. rewrite (u64_small (k - 3)) by lia.
    destruct (add_rank_run _ _ _ _ _ _ _ (-1) H3) as (s4 & Hadd3 & H4 & Ho4); [lia|].
    unfold m. destruct (Z.eqb_spec (rk B) (k - 3)) as [HB|HB].
    - exists s4. replace (k - 1 + -1) with (k + -1 + -1) by lia. split_and!; [|done|done].
      destruct d; cbn [mknd child0 child1]; rewrite (bind_eq _ _ _ _ _ HrB3) || rewrite (bind_eq _ _ _ _ _ HrC3);
        rewrite ?HB, ?HC, Z.eqb_refl; rewrite (bind_eq _ _ _ _ _ HrB3) || rewrite (bind_eq _ _ _ _ _ HrC3);
        rewrite ?HB, ?HC, Z.eqb_refl; exact Hadd3.
    - exists s3. replace (k - 1 + 0) with (k + -1) by lia. split_and!; [|done|apply same_outside_refl].
      destruct d; cbn [mknd child0 child1].
      + rewrite (bind_eq _ _ _ _ _ HrC3), HC, Z.eqb_refl, (bind_eq _ _ _ _ _ HrB3). by rewrite (proj2 (Z.eqb_neq _ _) HB).
      + rewrite (bind_eq _ _ _ _ _ HrB3). by rewrite (proj2 (Z.eqb_neq _ _) HB). }
  apply at_up in H4. exists s4. eexists. split_and!; [|exact H4| | | |].
  - unfold bst_rotate_delete. rewrite (bind_eq _ _ _ _ _ (bst_node_at _ _ _ _ _ _ _ Hat)).
    autorewrite with bst. rewrite Z.eqb_refl. cbn [assert_]. rewrite ret_bind.
    rewrite (bind_eq _ _ _ _ _ (bst_node_at _ _ _ _ _ _ _ Hup)), rank_mknd, u64_small, Z.eqb_refl by lia. cbn [assert_]. rewrite ret_bind.
    rewrite (bind_eq _ _ _ _ _ HrC), HC, u64_small by lia. replace (k - 3 + 3) with k by lia. rewrite Z.eqb_refl. cbn [assert_]. rewrite ret_bind.
    autorewrite with bst. rewrite (bind_eq _ _ _ _ _ HrA), HA, u64_small by lia. destruct (Z.leb_spec (k - 2) (k - 3)); [lia|].
    rewrite (bind_eq _ _ _ _ _ Hrot), (bind_eq _ _ _ _ _ Hadd1), (bind_eq _ _ _ _ _ Hadd2), (bind_eq _ _ _ _ _ Hn3).
    cbn [cptr]. rewrite rank_mknd. exact Hr4.
  - assert (m = 0 /\ rk B = k - 2 \/ m = -1 /\ rk B = k - 3) as Hm by (unfold m; destruct (Z.eqb_spec (rk B) (k - 3)); lia).
    clearbody m. apply wavl_nd. rewrite rk_nd. unfold diff_ok. split_and!; [|done|lia|lia|by destruct d].
    apply wavl_nd. unfold diff_ok. split_and!; [done|done|lia|lia|]. intros -> ->. cbn in *. lia.
  - by rewrite rk_nd.
  - by flatten_elems d.
  - eapply same_outside_at; [exact Ho1|by flatten_elems d|]. eapply same_outside_at; [exact Ho2|by flatten_elems d|].
    eapply same_outside_at; [exact Ho3|by flatten_elems d|]. eapply same_outside_at; [exact Ho4|by flatten_elems d|].
    apply same_outside_refl.
Qed.

Lemma rotate_delete_double s c d k A up X up2 Y down C :
  at_ctx s c (nd d k (nd d (k - 1) A up (nd (negb d) (k - 2) X up2 Y)) down C) -> 3 <= k < 2 ^ 63 -> rk C = k - 3 -> rk A = k - 3 ->
  wavl A -> wavl (nd (negb d) (k - 2) X up2 Y) -> wavl C ->
  exists s' t', bst_rotate_delete up down d s = Some (tt, s') /\ at_ctx s' c t' /\ wavl t' /\ rk t' = k /\
    elems t' = elems (nd d k (nd d (k - 1) A up (nd (negb d) (k - 2) X up2 Y)) down C) /\
    same_outside (elems (plug c (nd d k (nd d (k - 1) A up (nd (negb d) (k - 2) X up2 Y)) down C))) s s'.
Proof.
  intros Hat Hk HC HA HwA HwB HwC. pose proof (at_child _ _ _ _ _ _ _ Hat) as Hup.
  destruct (rank_at_child _ _ _ _ _ _ _ Hat) as [_ HrC]. destruct (rank_at_child _ _ _ _ _ _ _ Hup) as [HrA HrB].
  rewrite ptr_nd, rk_nd in HrB. pose proof (proj1 (at_other _ _ _ _ _ _ _) Hup) as H0. pose proof (bst_node_at _ _ _ _ _ _ _ H0) as Hn2.
  pose proof Hup as H1. rewrite <- (nd_negb d (k - 1)) in H1.
  destruct (rotate_run _ _ _ _ _ _ _ _ _ _ H1) as (s1 & Hrot1 & H2 & Ho1). rewrite negb_involutive in H2. apply at_up in H2.
  destruct (rotate_run _ _ _ _ _ _ _ _ _ _ H2) as (s2 & Hrot2 & H3 & Ho2).
  destruct (add_rank_run _ _ _ _ _ _ _ 2 H3) as (s3 & Hadd1 & H4 & Ho3); [lia|]. replace (k - 2 + 2) with k in H4 by lia.
  pose proof (proj1 (at_other _ _ _ _ _ _ _) H4) as H5. destruct (add_rank_run _ _ _ _ _ _ _ (-1) H5) as (s4 & Hadd2 & H6 & Ho4); [lia|].
  apply at_up_other in H6. apply at_child in H6. destruct (add_rank_run _ _ _ _ _ _ _ (-2) H6) as (s5 & Hadd3 & H7 & Ho5); [lia|].
  apply at_up in H7. exists s5. eexists. split_and!; [|exact H7| | | |].
  - unfold bst_rotate_delete. rewrite (bind_eq _ _ _ _ _ (bst_node_at _ _ _ _ _ _ _ Hat)).
    autorewrite with bst. rewrite Z.eqb_refl. cbn [assert_]. rewrite ret_bind.
    rewrite (bind_eq _ _ _ _ _ (bst_node_at _ _ _ _ _ _ _ Hup)), rank_mknd, (u64_small (k - 1)), Z.eqb_refl by lia. cbn [assert_]. rewrite ret_bind.
    rewrite (bind_eq _ _ _ _ _ HrC), HC, (u64_small (k - 3 + 3)) by lia. replace (k - 3 + 3) with k by lia. rewrite Z.eqb_refl. cbn [assert_]. rewrite ret_bind.
    autorewrite with bst. rewrite (bind_eq _ _ _ _ _ HrA), HA, (u64_small (k - 3)) by lia. destruct (Z.leb_spec (k - 3) (k - 3)); [|lia].
    rewrite (bind_eq _ _ _ _ _ HrB), (u64_small (k - 2)), Z.eqb_refl by lia. cbn [assert_]. rewrite !ret_bind.
    rewrite (bind_eq _ _ _ _ _ Hn2), rank_mknd, Z.eqb_refl. cbn [assert_]. rewrite ret_bind.
    rewrite (bind_eq _ _ _ _ _ Hrot1), (bind_eq _ _ _ _ _ Hrot2), (bind_eq _ _ _ _ _ Hadd1), (bind_eq _ _ _ _ _ Hadd2). exact Hadd3.
  - apply wavl_nd in HwB as (HwX & HwY & HdX & HdY & Hlf). unfold diff_ok in *.
    apply wavl_nd. rewrite !rk_nd. unfold diff_ok. split_and!; [| |lia|lia|by destruct d].
    + apply wavl_nd. unfold diff_ok. split_and!; [done|done|lia|lia|]. intros -> ->. cbn in *. lia.
    + apply wavl_nd. unfold diff_ok. split_and!; [done|done|lia|lia|]. intros -> ->. cbn in *. lia.
  - by rewrite rk_nd.
  - by flatten_elems d.
  - eapply same_outside_at; [exact Ho1|by flatten_elems d|]. eapply same_outside_at; [exact Ho2|by flatten_elems d|].
    eapply same_outside_at; [exact Ho3|by flatten_elems d|]. eapply same_outside_at; [exact Ho4|by flatten_elems d|].
    eapply same_outside_at; [exact Ho5|by flatten_elems d|]. apply same_outside_refl.
Qed.

(** The sibling [t] of the shrunk side is one below its parent [k]. *)
Lemma rotate_delete_run s c d k up1 down C :
  at_ctx s c (nd d k up1 down C) -> 3 <= k < 2 ^ 63 -> rk C = k - 3 -> rk up1 = k - 1 -> wavl up1 -> wavl C ->
  (forall A x B, up1 <> nd d (k - 1) A x B \/ ~ (rk A = k - 3 /\ rk B = k - 3)) ->
  exists s' t', bst_rotate_delete (ptr up1) down d s = Some (tt, s') /\ at_ctx s' c t' /\ wavl t' /\ rk t' = k /\
    elems t' = elems (nd d k up1 down C) /\ same_outside (elems (plug c (nd d k up1 down C))) s s'.
Proof.
  intros Hat Hk HC Hup Hw HwC Hnd. destruct (tree_cases d up1) as [->|(q & A & up & B & ->)]; [cbn in Hup; lia|].
  rewrite rk_nd in Hup. subst q. rewrite ptr_nd. pose proof Hw as (HwA & HwB & HdA & HdB & _)%wavl_nd. unfold diff_ok in *.
  destruct (decide (rk A = k - 2)) as [HA|HA]; [by apply rotate_delete_single|].
  destruct (Hnd A up B) as [|HAB]; [done|]. destruct (tree_cases (negb d) B) as [->|(q & X & up2 & Y & ->)]; [cbn in *; lia|].
  rewrite rk_nd in *. assert (q = k - 2) as -> by lia. apply rotate_delete_double; try done. lia.
Qed.

(** One round where the parent is demoted. [sib'] is its other child, demoted
    too if it had to be. *)
Lemma demoted_wavl d k t y sib :
  wavl t -> wavl sib -> k = rk t + 3 \/ (t = Leaf /\ sib = Leaf /\ k = 2) -> rk sib = k - 2 -> wavl (nd d (k - 1) t y sib).
Proof.
  intros Ht Hs Hk Hr. pose proof (wavl_rk t Ht) as [H0 H1]. apply wavl_nd. unfold diff_ok. split_and!; [done|done| |lia|].
  - destruct Hk as [?|(-> & -> & ->)]; [lia|cbn; lia].
  - intros -> ->. cbn in *. lia.
Qed.

(** What one round of the loop does with the parent [y] of the shrunk side. *)
Lemma delete_round s c d k t y sib fuel :
  at_ctx s c (nd d k t y sib) -> wavl t -> wavl sib -> diff_ok k (rk sib) -> diff_ok k (rk t + 1) -> k < 2 ^ 62 ->
  (exists s' t', update_rank_delete (Datatypes.S fuel) y d s = Some (tt, s') /\ at_ctx s' c t' /\ wavl t' /\ rk t' = k /\
     elems t' = elems (nd d k t y sib) /\ same_outside (elems (plug c (nd d k t y sib))) s s') \/
  (exists s' sib', update_rank_delete (Datatypes.S fuel) y d s = update_rank_delete fuel (cptr c) (side c) s' /\
     at_ctx s' c (nd d (k - 1) t y sib') /\ wavl (nd d (k - 1) t y sib') /\ elems sib' = elems sib /\
     same_outside (elems (plug c (nd d k t y sib))) s s').
Proof.
  intros Hat Hwt Hws Hds Hdt Hk. pose proof (wavl_rk t Hwt) as [Ht0 Ht1]. pose proof (wavl_rk sib Hws) as [Hs0 Hs1].
  assert (y <> NULL) as Hy by (destruct Hat as [Hr _ _]; by apply rep_nd in Hr as [? _]).
  destruct (rank_at_child _ _ _ _ _ _ _ Hat) as [Hrt Hrs]. unfold diff_ok in *.
  assert (forall d' k', (child0 (mknd d' k' (cptr c) (ptr t) (ptr sib)) =? NULL) && (child1 (mknd d' k' (cptr c) (ptr t) (ptr sib)) =? NULL) =
    bool_decide (t = Leaf /\ sib = Leaf)) as Hleaf.
  { intros d' k'. destruct Hat as [Hr _ _]. apply rep_nd in Hr as (_ & _ & Hrt' & Hrs').
    assert (forall m p u, rep m p u -> (ptr u =? NULL) = bool_decide (u = Leaf)) as Hz.
    { intros m p [|? ? x ?]; cbn; [done|]. intros [Hx _]. rewrite bool_decide_eq_false_2 by done. by apply Z.eqb_neq. }
    rewrite bool_decide_and, <- (Hz _ _ t Hrt'), <- (Hz _ _ sib Hrs'). destruct d'; cbn; [apply andb_comm|done]. }
  cbn [update_rank_delete]. rewrite (proj2 (Z.eqb_neq _ _) Hy), (bind_eq _ _ _ _ _ (bst_node_at _ _ _ _ _ _ _ Hat)).
  rewrite Hleaf. autorewrite with bst. rewrite (bind_eq _ _ _ _ _ Hrs), (bind_eq _ _ _ _ _ Hrt).
  rewrite assert_bind by (rewrite Z.gtb_ltb; apply Z.ltb_lt; lia). rewrite (u64_small (k - 1)) by lia.
  rewrite assert_bind by (rewrite Z.gtb_ltb; apply Z.ltb_lt; lia). rewrite (u64_small (rk sib + 2)) by lia.
  rewrite assert_bind by (apply Z.leb_le; lia). rewrite (u64_small (rk t + 2)) by lia.
  assert (((if bool_decide (t = Leaf /\ sib = Leaf) then assert_ (k =? 2) else ret tt) : M bst_root unit) s = Some (tt, s)) as Hl2.
  { case_bool_decide as Hb; [|done]. destruct Hb as [-> ->]. cbn in *. by replace k with 2 by lia. }
  rewrite (bind_eq _ _ _ _ _ Hl2). destruct (negb _ && _) eqn:Hstop.
  - left. bprop. apply bool_decide_eq_false in H. exists s, (nd d k t y sib).
    split_and!; [done|done| |by rewrite rk_nd|done|apply same_outside_refl]. apply wavl_nd. unfold diff_ok. split_and!; [done|done|lia|lia|].
    intros -> ->. by destruct H.
  - assert (k = rk t + 3 \/ (t = Leaf /\ sib = Leaf /\ k = 2)) as Hk3.
    { apply andb_false_iff in Hstop as [Hb|Hb]; bprop; [right|left; lia]. apply bool_decide_eq_true in Hb as [-> ->]. cbn in *. split_and!; [done|done|lia]. }
    rewrite assert_bind by (rewrite Z.gtb_ltb; apply Z.ltb_lt; lia).
    destruct (add_rank_run _ _ _ _ _ _ _ (-1) Hat) as (s1 & Hadd & H1 & Ho1); [lia|]. rewrite (bind_eq _ _ _ _ _ Hadd).
    pose proof (is_right_child_run _ _ _ _ (at_hole_at _ _ _ _ _ _ _ H1)) as Hrc1. pose proof (bst_node_at _ _ _ _ _ _ _ H1) as Hn1.
    rewrite (bind_eq _ _ _ _ _ Hn1). autorewrite with bst.
    destruct (Z.leb_spec (k + -1) (rk sib)) as [Hle|Hgt].
    + assert (k - 1 = rk sib) as Hks by lia. replace (k + -1) with (rk sib) by lia. rewrite Z.eqb_refl. cbn [assert_]. rewrite ret_bind.
      destruct (tree_cases false sib) as [->|(q & A & u & B & ->)]; [cbn in *; lia|]. rewrite ptr_nd. rewrite rk_nd in *. subst q.
      pose proof (proj1 (at_other _ _ _ _ _ _ _) H1) as H2. pose proof (bst_node_at _ _ _ _ _ _ _ H2) as Hn2.
      destruct (rank_at_child _ _ _ _ _ _ _ H2) as [HrA HrB].
      rewrite (bind_eq _ _ _ _ _ Hn2). cbn [mknd child0 child1]. rewrite (bind_eq _ _ _ _ _ HrA), (bind_eq _ _ _ _ _ HrB).
      assert (k = rk t + 3) as Hkt by (destruct Hk3 as [?|(_ & ? & _)]; done).
      replace (k - 1 - 2) with (k - 3) by lia. rewrite (u64_small (k - 3)) by lia. pose proof Hws as (HwA & HwB & HdA & HdB & _)%wavl_nd. unfold diff_ok in *.
      destruct ((rk A =? k - 3) && (rk B =? k - 3)) eqn:Hdem.
      * right. bprop. destruct (add_rank_run _ _ _ _ _ _ _ (-1) H2) as (s2 & Hadd2 & H3 & Ho2); [lia|]. apply at_up_other in H3.
        replace (k + -1) with (k - 1) in * by lia. replace (k - 1 + -1) with (k - 2) in * by lia.
        pose proof (is_right_child_run _ _ _ _ (at_hole_at _ _ _ _ _ _ _ H3)) as Hrc3. pose proof (bst_node_at _ _ _ _ _ _ _ H3) as Hn3.
        exists s2, (nd false (k - 2) A u B). split_and!.
        -- by rewrite (bind_eq _ _ _ _ _ Hadd2), (bind_eq _ _ _ _ _ Hrc3), (bind_eq _ _ _ _ _ Hn3), parent_mknd.
        -- done.
        -- apply demoted_wavl; [done| |by left|by rewrite rk_nd].
           apply wavl_nd. unfold diff_ok. split_and!; [done|done|lia|lia|]. intros -> ->. cbn in *. lia.
        -- done.
        -- eapply same_outside_at; [exact Ho1|by flatten_elems d|]. eapply same_outside_at; [exact Ho2|by flatten_elems d|]. apply same_outside_refl.
      * left. destruct (add_rank_run _ _ _ _ _ _ _ 1 H1) as (s2 & Hadd2 & H3 & Ho2); [lia|]. replace (k + -1 + 1) with k in H3 by lia.
        rewrite (bind_eq _ _ _ _ _ Hadd2). rewrite <- (nd_negb d k) in H3.
        destruct (rotate_delete_run s2 c (negb d) k (nd false (k - 1) A u B) y t H3) as (s3 & t' & Hr & H4 & Hw' & Hrk' & He & Ho3);
          [lia|lia|by rewrite rk_nd|done|done| |].
        { intros A' x B'. destruct (decide (rk A = k - 3 /\ rk B = k - 3)) as [[E1 E2]|Hn]; [rewrite E1, E2, Z.eqb_refl in Hdem; done|].
          destruct (decide (nd false (k - 1) A u B = nd (negb d) (k - 1) A' x B')) as [E|]; [right|by left].
          destruct d; cbn in E; injection E as <- _ <-; tauto. }
        rewrite ptr_nd in Hr. exists s3, t'. split_and!; [exact Hr|done|done|done|by rewrite He; flatten_elems d|].
        eapply same_outside_at; [exact Ho1|by flatten_elems d|]. eapply same_outside_at; [exact Ho2|by flatten_elems d|].
        eapply same_outside_at; [exact Ho3|by flatten_elems d|]. apply same_outside_refl.
    + right. exists s1, sib. replace (k - 1) with (k + -1) by lia. split_and!; [|done| |done|done].
      * by rewrite (bind_eq _ _ _ _ _ Hrc1), (bind_eq _ _ _ _ _ Hn1), parent_mknd.
      * replace (k + -1) with (k - 1) by lia. apply demoted_wavl; [done|done|done|lia].
Qed.

Lemma update_rank_delete_run c : forall fuel s d y k sib t,
  at_ctx s (Fr d y k sib :: c) t -> wavl t -> wavl sib -> diff_ok k (rk sib) -> diff_ok k (rk t + 1) -> wctx c k ->
  top c k < 2 ^ 62 -> (length c < fuel)%nat ->
  exists s' t', update_rank_delete fuel y d s = Some (tt, s') /\ holds s' t' /\ wavl t' /\
    elems t' = elems (plug (Fr d y k sib :: c) t) /\ same_outside (elems (plug (Fr d y k sib :: c) t)) s s'.
Proof.
  induction c as [|[d' y' k' sib'] c IH]; intros [|fuel] s d y k sib t Hat Hwt Hws Hds Hdt Hc Htop Hf; cbn in Hf; try lia.
  all: apply at_up in Hat; pose proof (top_ge _ k Hc) as Hge;
    destruct (delete_round s _ d k t y sib fuel Hat Hwt Hws Hds Hdt ltac:(lia))
      as [(s' & t' & Hr & Hat' & Hw' & Hrk & He & Ho)|(s' & sib2 & Hr & Hat' & Hw' & He & Ho)]; rewrite Hr.
  - exists s', t'. by split_and!.
  - exists s', (nd d (k - 1) t y sib2). cbn [cptr side]. destruct fuel; cbn; (split_and!; [done|done|done|by apply elems_nd_eq|done]).
  - exists s', (plug (Fr d' y' k' sib' :: c) t'). split_and!; [done|exact (proj1 (at_holds s' _ _) Hat')| |exact (elems_plug_eq _ _ _ He)|done].
    apply wavl_plug; [done|]. by rewrite Hrk.
  - destruct Hc as (Hws' & Hds' & Hdt' & _ & Hc'). cbn [cptr side].
    destruct (IH fuel s' d' y' k' sib' (nd d (k - 1) t y sib2)) as (s2 & t' & Hr2 & Hh & Hw2 & He2 & Ho2);
      [done|done|done|done|by rewrite rk_nd; replace (k - 1 + 1) with k by lia|done|done|lia|].
    exists s2, t'. split_and!; [done|done|done| |].
    + rewrite He2. apply (elems_plug_eq (Fr d' y' k' sib' :: c)). by apply elems_nd_eq.
    + eapply same_outside_at; [exact Ho|apply (elems_plug_eq (Fr d' y' k' sib' :: c)); by apply elems_nd_eq|].
      change (plug (Fr d y k sib :: Fr d' y' k' sib' :: c) t) with (plug (Fr d' y' k' sib' :: c) (nd d k t y sib)).
      rewrite (elems_plug_eq (Fr d' y' k' sib' :: c) _ (nd d (k - 1) t y sib2)) by (by apply elems_nd_eq). exact Ho2.
Qed.

(** ** Edges *)
Lemma plug_app c c' t : plug (c ++ c') t = plug c' (plug c t).
Proof. revert t. induction c as [|[d x k sib] c IH]; intros t; [done|]. cbn. apply IH. Qed.

Lemma cptr_app c c' : cptr (c ++ c') = if decide (c = []) then cptr c' else cptr c.
Proof. by destruct c as [|[] c]. Qed.

Lemma find_edge_run fuel : forall s c t e,
  at_ctx s c t -> t <> Leaf -> (length (elems t) <= fuel)%nat ->
  exists c' k x u, find_edge fuel (ptr t) e s = Some (x, s) /\ t = plug c' (nd e k Leaf x u) /\
    at_ctx s (c' ++ c) (nd e k Leaf x u) /\ Forall (fun f => fr_side f = e) c'.
Proof.
  induction fuel as [|fuel IH]; intros s c t e Hat Ht Hf.
  { destruct t; [done|]. cbn in Hf. rewrite length_app in Hf. cbn in Hf. lia. }
  destruct (tree_cases e t) as [|(k & a & x & b & ->)]; [done|]. cbn [find_edge]. rewrite ptr_nd.
  rewrite (bind_eq _ _ _ _ _ (bst_node_at _ _ _ _ _ _ _ Hat)). autorewrite with bst.
  destruct (decide (a = Leaf)) as [->|Ha].
  - exists [], k, x, b. cbn. by split_and!.
  - assert (ptr a <> NULL) as Hp.
    { eapply at_ptr_nonzero; [|done]. destruct Hat as [Hr _ _]. apply rep_nd in Hr as (_ & _ & ? & _). done. }
    rewrite (proj2 (Z.eqb_neq _ _) Hp). apply at_child in Hat.
    destruct (IH s _ a e Hat Ha) as (c' & k' & x' & u & Hr & -> & Hat' & Hall).
    { destruct e; cbn in Hf; rewrite length_app in Hf; cbn in Hf; lia. }
    exists (c' ++ [Fr e x k b]), k', x', u. split_and!; [done| | |].
    + by rewrite plug_app.
    + by rewrite <- app_assoc.
    + apply Forall_app. split; [done|]. by constructor.
Qed.

Lemma edge_fuel s c t : at_ctx s c t -> (length (elems t) <= Datatypes.S (size (bst_nodes s)))%nat.
Proof.
  intros Hat. pose proof (holds_size _ _ (proj1 (at_holds s c t) Hat)) as Hs. rewrite elems_plug, !length_app in Hs. lia.
Qed.

(** ** Taking a node with at most one child out *)
Lemma splice_run s c d k x u :
  at_ctx s c (nd d k Leaf x u) ->
  exists s', bst_move_node x (ptr u) s = Some (tt, s') /\ at_ctx s' c u /\
    bst_nodes s' !! x = Some (mknd d k NULL NULL (ptr u)) /\ same_outside (elems (plug c (nd d k Leaf x u))) s s'.
Proof.
  intros Hat. pose proof (at_hole_at _ _ _ _ _ _ _ Hat) as Hh. destruct (at_disjoint _ _ _ Hat) as (Hn & Hctx & Hnc).
  pose proof Hat as [Hr Hrc Hnd]. rewrite ptr_nd in Hrc. apply rep_nd in Hr as (Hx & Hm & _ & Hu).
  apply NoDup_nd in Hn as (_ & Hxu & _ & _ & Hnu).
  assert (x <> cptr c \/ c = []) as Hxc.
  { destruct (decide (c = [])) as [|Hc]; [by right|left]. intros ->. destruct (Hctx (cptr c)); [apply elem_of_nd; by left|].
    by destruct (cptr_in_ctx c Hc). }
  assert (forall y, y ∈ elems u -> y <> cptr c \/ c = []) as Huc.
  { intros y Hy. destruct (decide (c = [])) as [|Hc]; [by right|left]. intros ->. destruct (Hctx (cptr c)); [apply elem_of_nd; auto|].
    by destruct (cptr_in_ctx c Hc). }
  exists (moved_node c x (ptr u) s). split; [|split_and!].
  - eapply move_run; [exact Hh|]. by eapply ptr_is_Some.
  - unfold moved_node. rewrite with_nodes_opt. constructor.
    + apply (rep_frame (set_parent_opt (cptr c) (ptr u) (bst_nodes (redirect c (ptr u) s)))).
      { intros y Hy. cbn. apply lookup_alter_ne. congruence. }
      apply (rep_set_parent_opt _ x); [done|]. eapply rep_frame; [|exact Hu]. intros y Hy. by apply redirect_lookup, Huc.
    + apply (rep_ctx_frame (redirect c (ptr u) s)); [|done|by eapply rep_ctx_redirect].
      intros y Hy. cbn. rewrite lookup_alter_ne by (intros <-; destruct (Hctx x); [apply elem_of_nd; by left|tauto]).
      apply set_parent_opt_ne. intros ->. destruct (decide (u = Leaf)) as [->|Hul].
      * cbn in Hy. destruct (rep_elem_nonzero (bst_nodes s) NULL (plug c (nd d k Leaf x Leaf)) NULL) as [? _]; [|rewrite elems_plug; set_solver|done].
        apply (proj1 (at_holds s c _) Hat).
      * destruct (Hctx (ptr u)); [apply elem_of_nd; right; right; by apply ptr_elem|tauto].
    + rewrite elems_plug in *. eapply sublist_NoDup; [exact Hnd|]. apply sublist_app; [done|].
      apply sublist_app; [|done]. destruct d; cbn; [|by apply sublist_cons]. rewrite <- (app_nil_r (elems u)) at 1.
      apply sublist_app; [done|]. apply sublist_nil_l.
  - unfold moved_node. rewrite with_nodes_opt. cbn. rewrite lookup_alter_eq. rewrite set_parent_opt_ne.
    + rewrite redirect_lookup by done. rewrite Hm. cbn. by rewrite set_parent_mknd.
    + destruct (decide (u = Leaf)) as [->|Hul]; [done|]. intros ->. by apply ptr_elem in Hul.
  - unfold moved_node. rewrite with_nodes_opt. assert (x ∈ elems (plug c (nd d k Leaf x u))) as Hin by (rewrite elems_plug, !elem_of_app, elem_of_nd; auto).
    eapply same_outside_trans; [|by apply same_outside_alter].
    eapply same_outside_trans; [apply (same_outside_redirect _ c (ptr u) s)|].
    + intros Hc. rewrite elems_plug, !elem_of_app. destruct (cptr_in_ctx c Hc); auto.
    + unfold set_parent_opt, with_nodes. destruct (Z.eqb_spec (ptr u) NULL) as [|Hp]; [by destruct (redirect _ _ _)|].
      apply same_outside_alter. rewrite elems_plug, !elem_of_app, elem_of_nd.
      destruct (decide (u = Leaf)) as [->|Hul]; [done|]. apply ptr_elem in Hul. auto.
Qed.

(** ** A detached node takes another's place *)
Section adopt.
Context (s : bst_root) (c : ctx) (k x z : Z) (l r : tree) (zn : bst_node).
Hypothesis (Hat : at_ctx s c (Node k l x r)) (Hz : z <> NULL) (Hzn : bst_nodes s !! z = Some zn)
  (Hzi : z ∉ elems (plug c (Node k l x r))).

Let m1 := set_parent_opt z (ptr l) (alter (set_child false (ptr l)) z (bst_nodes s)).
Let m2 := set_parent_opt z (ptr r) (alter (set_child true (ptr r)) z m1).
Let m3 := alter (set_rank k) z m2.

Lemma adopt_fresh : z <> x /\ z ∉ elems l /\ z ∉ elems r /\ z ∉ pre c /\ z ∉ post c.
Proof. rewrite elems_plug in Hzi. cbn in Hzi. set_solver. Qed.

Lemma adopt_ptr t : z ∉ elems t -> rep (bst_nodes s) x t -> z <> ptr t.
Proof. intros Hn Hr ->. destruct t; [done|]. apply Hn. cbn. set_solver. Qed.

Lemma adopt_parts :
  rep (bst_nodes s) x l /\ rep (bst_nodes s) x r /\ NoDup (elems l) /\ NoDup (elems r) /\
  (forall y, y ∈ elems l -> y ∉ elems r) /\ x ∉ elems l /\ x ∉ elems r /\ z <> ptr l /\ z <> ptr r /\ x <> ptr l /\ x <> ptr r.
Proof.
  destruct adopt_fresh as (Hzx & Hzl & Hzr & _). destruct (at_disjoint _ _ _ Hat) as (Hn & _ & _).
  destruct Hat as [(Hx & Hm & Hl & Hr) _ _]. apply (NoDup_nd false k l x r) in Hn as (H1 & H2 & H3 & H4 & H5).
  split_and!; try done; try (by apply adopt_ptr).
  - intros ->. destruct l; [done|]. apply H1. cbn. set_solver.
  - intros ->. destruct r; [done|]. apply H2. cbn. set_solver.
Qed.

Lemma adopt_lookup y : y <> z -> (y <> ptr l \/ l = Leaf) -> (y <> ptr r \/ r = Leaf) -> m3 !! y = bst_nodes s !! y.
Proof.
  intros Hy Hl Hr. unfold m3, m2, m1.
  assert (forall q u m, (y <> ptr u \/ u = Leaf) -> set_parent_opt q (ptr u) m !! y = m !! y) as Ho.
  { intros q u m [Hu| ->]; [by apply set_parent_opt_ne|done]. }
  rewrite lookup_alter_ne by done. rewrite Ho by done. rewrite lookup_alter_ne by done. rewrite Ho by done. by apply lookup_alter_ne.
Qed.

Lemma adopt_z : m3 !! z = Some (mk_bst_node k (parent zn) (ptr l) (ptr r)).
Proof.
  destruct adopt_parts as (_ & _ & _ & _ & _ & _ & _ & Hl & Hr & _). unfold m3, m2, m1.
  rewrite lookup_alter_eq, set_parent_opt_ne, lookup_alter_eq, set_parent_opt_ne, lookup_alter_eq, Hzn by done. by destruct zn.
Qed.

Lemma adopt_children_rep : rep m3 z l /\ rep m3 z r.
Proof.
  destruct adopt_parts as (Hl & Hr & Hnl & Hnr & Hd & Hxl & Hxr & _). destruct adopt_fresh as (_ & Hzl & Hzr & _).
  assert (forall t y, t <> Leaf -> y = ptr t -> y ∈ elems t) as Hp by (intros t y ? ->; by apply ptr_elem).
  split.
  - apply (rep_frame (set_parent_opt z (ptr l) (alter (set_child false (ptr l)) z (bst_nodes s)))).
    + intros y Hy. unfold m3, m2. rewrite lookup_alter_ne by (intros <-; done). fold m1.
      destruct (decide (r = Leaf)) as [->|Hrl]; [cbn|rewrite set_parent_opt_ne by (intros ->; by apply (Hd (ptr r)), ptr_elem)];
        (rewrite lookup_alter_ne; [done|intros <-; done]).
    + apply (rep_set_parent_opt _ x); [done|]. eapply rep_frame; [|exact Hl]. intros y Hy. apply lookup_alter_ne. by intros <-.
  - apply (rep_frame m2).
    { intros y Hy. unfold m3. apply lookup_alter_ne. by intros <-. }
    apply (rep_set_parent_opt _ x); [done|]. eapply rep_frame; [|exact Hr]. intros y Hy.
    rewrite lookup_alter_ne by (by intros <-). unfold m1.
    destruct (decide (l = Leaf)) as [->|Hll]; [cbn|rewrite set_parent_opt_ne by (intros ->; by apply (Hd (ptr l)); [apply ptr_elem|])];
      (rewrite lookup_alter_ne; [done|by intros <-]).
Qed.

Lemma adopt_run : adopt_children x z s = Some (tt, mk_bst_root m3 (root s)).
Proof.
  destruct adopt_parts as (Hl & Hr & Hnl & Hnr & Hd & Hxl & Hxr & Hzl & Hzr & Hxpl & Hxpr). destruct adopt_fresh as (Hzx & _).
  destruct Hat as [(Hx & Hm & _) _ _]. unfold adopt_children. rewrite (bind_eq _ _ _ _ _ (get_node_eq s x _ Hx Hm)). cbn [child0].
  assert (bst_link_node z false (ptr l) s = Some (tt, mk_bst_root m1 (root s))) as H1.
  { rewrite link_run; [cbn zeta; by rewrite with_nodes_opt|done|by eexists|by eapply ptr_is_Some]. }
  rewrite (bind_eq _ _ _ _ _ H1).
  assert (m1 !! x = bst_nodes s !! x) as Hm1 by (unfold m1; rewrite set_parent_opt_ne, lookup_alter_ne by done; done).
  assert (get_node x (mk_bst_root m1 (root s)) = Some (mk_bst_node k (cptr c) (ptr l) (ptr r), mk_bst_root m1 (root s))) as G1
    by (apply get_node_eq; [done|cbn; by rewrite Hm1]).
  rewrite (bind_eq _ _ _ _ _ G1). cbn [child1].
  assert (is_Some (m1 !! z)) as Hz1 by (unfold m1; rewrite set_parent_opt_ne, lookup_alter_eq, Hzn by done; by eexists).
  assert (bst_link_node z true (ptr r) (mk_bst_root m1 (root s)) = Some (tt, mk_bst_root m2 (root s))) as H2.
  { rewrite link_run; [cbn zeta; by rewrite with_nodes_opt|done|done|]. cbn [bst_nodes].
    destruct (ptr_is_Some _ _ _ Hr) as [|[Hp Hs]]; [by left|right]. split; [done|]. unfold m1, set_parent_opt.
    destruct (ptr l =? NULL); rewrite ?lookup_alter_is_Some; done. }
  rewrite (bind_eq _ _ _ _ _ H2).
  assert (m2 !! x = bst_nodes s !! x) as Hm2 by (unfold m2; rewrite set_parent_opt_ne, lookup_alter_ne by done; done).
  assert (get_node x (mk_bst_root m2 (root s)) = Some (mk_bst_node k (cptr c) (ptr l) (ptr r), mk_bst_root m2 (root s))) as G2
    by (apply get_node_eq; [done|cbn; by rewrite Hm2]).
  rewrite (bind_eq _ _ _ _ _ G2). cbn [rank]. apply upd_node_eq; [done|]. cbn.
  unfold m2. rewrite set_parent_opt_ne, lookup_alter_eq by done. destruct Hz1 as [? ->]. by eexists.
Qed.

(** ... and the move that follows. *)
Lemma replace_run :
  exists s', bst_move_node x z (mk_bst_root m3 (root s)) = Some (tt, s') /\ at_ctx s' c (Node k l z r) /\ is_Some (bst_nodes s' !! x) /\
    same_outside (z :: elems (plug c (Node k l x r))) s s'.
Proof.
  destruct adopt_parts as (Hl & Hr & Hnl & Hnr & Hd & Hxl & Hxr & Hzl & Hzr & Hxpl & Hxpr). destruct adopt_fresh as (Hzx & Hz1 & Hz2 & Hzp & Hzq).
  destruct adopt_children_rep as [Hl3 Hr3]. destruct (at_disjoint _ _ _ Hat) as (_ & Hctx & Hnc).
  destruct (Hctx x ltac:(cbn; set_solver)) as [Hxp Hxq]. pose proof Hat as [(Hx & Hm & _) Hrc Hnd]. cbn [ptr] in Hrc.
  set (s3 := mk_bst_root m3 (root s)).
  assert (forall y, y ∈ pre c \/ y ∈ post c -> m3 !! y = bst_nodes s !! y) as Hc3.
  { intros y Hy. apply adopt_lookup; [intros ->; tauto| |].
    - destruct (decide (l = Leaf)); [by right|left]. intros ->. destruct (Hctx (ptr l)); [cbn; rewrite elem_of_app; left; by apply ptr_elem|tauto].
    - destruct (decide (r = Leaf)); [by right|left]. intros ->. destruct (Hctx (ptr r)); [cbn; rewrite elem_of_app, elem_of_cons; right; right; by apply ptr_elem|tauto]. }
  assert (hole_at s3 c x (mk_bst_node k (cptr c) (ptr l) (ptr r))) as Hh.
  { split_and!; [done| |done| |done|done].
    - cbn. rewrite adopt_lookup by auto. exact Hm.
    - by apply (rep_ctx_frame s). }
  assert (forall y, y = z \/ y ∈ elems l \/ y ∈ elems r -> y <> cptr c \/ c = []) as Hnc'.
  { intros y Hy. destruct (decide (c = [])) as [|Hc]; [by right|left]. intros ->. destruct (cptr_in_ctx c Hc) as [Hin|Hin];
      (destruct Hy as [E|Hy]; [by rewrite E in Hin|]); destruct (Hctx (cptr c)); try done; cbn; set_solver. }
  exists (moved_node c x z s3). split; [|split_and!].
  - eapply move_run; [exact Hh|]. right. split; [done|]. cbn. rewrite adopt_z. by eexists.
  - unfold moved_node. rewrite (proj2 (Z.eqb_neq _ _) Hz). constructor.
    + cbn [rep]. split_and!; [done| | |].
      * cbn. rewrite lookup_alter_ne, lookup_alter_eq by done. rewrite redirect_lookup by auto. cbn. by rewrite adopt_z.
      * eapply rep_frame; [|exact Hl3]. intros y Hy. cbn. rewrite !lookup_alter_ne by congruence. rewrite redirect_lookup by auto. done.
      * eapply rep_frame; [|exact Hr3]. intros y Hy. cbn. rewrite !lookup_alter_ne by congruence. rewrite redirect_lookup by auto. done.
    + cbn [ptr]. apply (rep_ctx_frame (redirect c z s3)); [|done|].
      * intros y Hy. cbn. rewrite !lookup_alter_ne; [done|intros <-; tauto|intros <-; tauto].
      * eapply rep_ctx_redirect; [done|]. by apply Hh.
    + rewrite elems_plug in *. cbn in *. clear -Hnd Hzi.
      rewrite !NoDup_app, NoDup_cons in *. set_solver.
  - unfold moved_node. rewrite (proj2 (Z.eqb_neq _ _) Hz). cbn. rewrite !lookup_alter_is_Some, redirect_is_Some. cbn.
    rewrite adopt_lookup by auto. by eexists.
  - assert (forall y, y ∈ elems (plug c (Node k l x r)) <-> y ∈ pre c \/ y ∈ elems l \/ y = x \/ y ∈ elems r \/ y ∈ post c) as Hin.
    { intros y. rewrite elems_plug. cbn. set_solver. }
    split.
    + intros y Hy. rewrite elem_of_cons, Hin in Hy. unfold moved_node. rewrite (proj2 (Z.eqb_neq _ _) Hz). cbn.
      rewrite !lookup_alter_ne by (intros <-; tauto). rewrite redirect_lookup.
      * apply adopt_lookup; [tauto| |].
        -- destruct (decide (l = Leaf)) as [|Hll]; [by right|left]. intros ->. apply ptr_elem in Hll. tauto.
        -- destruct (decide (r = Leaf)) as [|Hrl]; [by right|left]. intros ->. apply ptr_elem in Hrl. tauto.
      * destruct (decide (c = [])) as [|Hc]; [by right|left]. intros ->. destruct (cptr_in_ctx c Hc); tauto.
    + unfold moved_node. rewrite (proj2 (Z.eqb_neq _ _) Hz). cbn. rewrite !dom_alter_L.
      assert (dom (bst_nodes (redirect c z s3)) = dom m3) as -> by (destruct c as [|[] ?]; cbn; by rewrite ?dom_alter_L).
      unfold m3, m2, m1, set_parent_opt. destruct (ptr l =? NULL), (ptr r =? NULL); by rewrite !dom_alter_L.
Qed.
End adopt.

(** ** The whole deletion *)
Lemma at_app s c' c t : at_ctx s (c' ++ c) t <-> at_ctx s c (plug c' t).
Proof.
  revert t. induction c' as [|[d x k sib] c' IH]; intros t; [done|]. cbn. rewrite at_zip. apply IH.
Qed.

(** Ranks do not depend on which node a frame is. *)
Lemma wctx_rename c' d x z k sib c r : wctx (c' ++ Fr d x k sib :: c) r -> wctx (c' ++ Fr d z k sib :: c) r.
Proof. revert r. induction c' as [|[d' y k' sib'] c' IH]; intros r; [done|]. cbn. naive_solver. Qed.

Lemma top_rename c' d x z k sib c r : top (c' ++ Fr d x k sib :: c) r = top (c' ++ Fr d z k sib :: c) r.
Proof. revert r. induction c' as [|[d' y k' sib'] c' IH]; intros r; [done|]. apply IH. Qed.

Lemma one_child_rank d k x u : wavl (nd d k Leaf x u) -> rk u = k - 1.
Proof.
  intros (_ & Hu & Hd & Hdu & Hlf)%wavl_nd. pose proof (wavl_rk u Hu) as [H0 H1]. unfold diff_ok in *. cbn in Hd.
  destruct (decide (u = Leaf)) as [->|Hne]; [specialize (Hlf eq_refl eq_refl); cbn; lia|].
  assert (rk u <> 0) by (by rewrite H1). lia.
Qed.

Lemma not_in_frame s s' c t y f :
  at_ctx s c t -> y ∉ elems (plug c t) -> s' = with_nodes (alter f y) s -> at_ctx s' c t.
Proof.
  intros [Hr Hh Hn] Hy ->. rewrite elems_plug in Hy. constructor; [| |done].
  - eapply rep_frame; [|exact Hr]. intros z Hz. apply lookup_alter_ne. set_solver.
  - apply (rep_ctx_frame s); [|done|done]. intros z Hz. apply lookup_alter_ne. set_solver.
Qed.

(** The update after something left the hole of [c]. *)
Lemma update_after_run s c u :
  at_ctx s c u -> wavl u -> wctx c (rk u + 1) -> top c (rk u + 1) < 2 ^ 62 ->
  exists s' t', (if cptr c =? NULL then ret tt else bst_update_rank_delete (cptr c) (side c)) s = Some (tt, s') /\
    holds s' t' /\ wavl t' /\ elems t' = elems (plug c u) /\ same_outside (elems (plug c u)) s s'.
Proof.
  intros Hat Hw Hc Htop. destruct c as [|[d y k sib] c].
  - exists s, u. by split_and!.
  - cbn [cptr side]. pose proof Hat as Hat0. apply at_up in Hat.
    assert (y <> NULL) as Hy by (destruct Hat as [Hr _ _]; by apply rep_nd in Hr as [? _]).
    rewrite (proj2 (Z.eqb_neq _ _) Hy). destruct Hc as (Hws & Hds & Hdu & Hlf & Hc). destruct (rank_at_child _ _ _ _ _ _ _ Hat) as [Hru Hrs].
    unfold bst_update_rank_delete. rewrite (bind_eq _ _ _ _ _ (bst_node_at _ _ _ _ _ _ _ Hat)). autorewrite with bst.
    rewrite (bind_eq _ _ _ _ _ Hru), (bind_eq _ _ _ _ _ Hrs).
    rewrite assert_bind by (unfold diff_ok in *; apply Z.leb_le; lia). unfold bst_fuel. rewrite gets_bind.
    pose proof (holds_size _ _ (proj1 (at_holds s c _) Hat)) as Hsz.
    apply update_rank_delete_run; try done.
    rewrite elems_plug, length_app in Hsz. pose proof (ctx_length c). rewrite length_app in *. lia.
Qed.

(** A list without a node. *)
Definition without (x : Z) (l : list Z) : list Z := filter (fun y => y <> x) l.

Lemma filter_remove (x : Z) (l1 l2 : list Z) : NoDup (l1 ++ x :: l2) -> without x (l1 ++ x :: l2) = l1 ++ l2.
Proof.
  intros Hn. unfold without. assert (forall l : list Z, x ∉ l -> filter (fun y => y <> x) l = l) as Hall.
  { clear. induction l as [|y l IH]; intros Hx; [done|]. rewrite filter_cons_True by set_solver. f_equal. apply IH. set_solver. }
  apply NoDup_app in Hn as (_ & H1 & (H2 & _)%NoDup_cons). rewrite filter_app, filter_cons_False by (intros Hx; by apply Hx).
  rewrite !Hall; [done|done|]. intros Hx. apply (H1 x Hx). by left.
Qed.

Lemma edge_ctx e c : Forall (fun f => fr_side f = e) c -> (if e then post c else pre c) = [].
Proof. induction 1 as [|[d x k sib] c Hd _ IH]; [by destruct e|]. cbn in Hd. subst d. by destruct e. Qed.

Lemma elem_of_without x y l : y ∈ without x l <-> y <> x /\ y ∈ l.
Proof. unfold without. by rewrite list_elem_of_filter. Qed.

Lemma one_elems c d k x u : NoDup (elems (plug c (nd d k Leaf x u))) -> elems (plug c u) = without x (elems (plug c (nd d k Leaf x u))).
Proof.
  intros Hnd. rewrite !elems_plug in *. destruct d; cbn in *; [|by rewrite filter_remove].
  assert (pre c ++ (elems u ++ [x]) ++ post c = (pre c ++ elems u) ++ x :: post c) as E by (by rewrite <- !app_assoc).
  rewrite E in Hnd |- *. rewrite filter_remove by done. by rewrite <- app_assoc.
Qed.

(** The end of a deletion: [x] is out of the tree and its rank is cleared. *)
Lemma delete_finish s c u x n :
  at_ctx s c u -> wavl u -> wctx c (rk u + 1) -> top c (rk u + 1) < 2 ^ 62 ->
  x <> NULL -> bst_nodes s !! x = Some n -> x ∉ elems (plug c u) ->
  exists s' t', bind (upd_node x (set_rank 0)) (fun _ => if cptr c =? NULL then ret tt else bst_update_rank_delete (cptr c) (side c)) s = Some (tt, s') /\
    holds s' t' /\ wavl t' /\ elems t' = elems (plug c u) /\ bst_nodes s' !! x = Some (set_rank 0 n) /\
    same_outside (x :: elems (plug c u)) s s'.
Proof.
  intros Hat Hw Hc Htop Hx Hn Hni. rewrite (bind_eq _ _ _ _ _ (upd_node_eq s x (set_rank 0) Hx ltac:(by eexists))).
  pose proof (not_in_frame _ _ _ _ _ (set_rank 0) Hat Hni eq_refl) as Hat1.
  destruct (update_after_run _ _ _ Hat1 Hw Hc Htop) as (s' & t' & Hr & Hh & Hw' & He & Ho1 & Ho2). exists s', t'. split_and!; try done.
  - rewrite Ho1 by done. cbn. by rewrite lookup_alter_eq, Hn.
  - split.
    + intros y Hy. rewrite Ho1 by set_solver. apply lookup_alter_ne. set_solver.
    + rewrite Ho2. apply dom_alter_L.
Qed.

(** A node with a missing child. *)
Lemma delete_one_run s c d k x u :
  at_ctx s c (nd d k Leaf x u) -> fits s -> wavl (plug c (nd d k Leaf x u)) ->
  exists s' t', (_ <- bst_move_node x (ptr u) ;; _ <- upd_node x (set_rank 0) ;;
      (if cptr c =? NULL then ret tt else bst_update_rank_delete (cptr c) (side c))) s = Some (tt, s') /\
    holds s' t' /\ wavl t' /\ elems t' = without x (elems (plug c (nd d k Leaf x u))) /\
    (exists n, bst_nodes s' !! x = Some n /\ rank n = 0) /\ same_outside (elems (plug c (nd d k Leaf x u))) s s'.
Proof.
  intros Hat Hfit Hw. destruct (splice_run _ _ _ _ _ _ Hat) as (s1 & Hr1 & Hat1 & Hx1 & Ho1).
  pose proof (holds_size _ _ (proj1 (at_holds s c _) Hat)) as Hsz. pose proof (wavl_rank_small _ Hw ltac:(unfold fits in Hfit; lia)) as Htop.
  destruct (wavl_unplug _ _ Hw) as [Hwx Hwc]. pose proof (one_child_rank _ _ _ _ Hwx) as Hru. apply wavl_nd in Hwx as (_ & Hwu & _).
  rewrite <- top_plug in Htop. rewrite rk_nd in Hwc, Htop. replace k with (rk u + 1) in Hwc, Htop by lia.
  pose proof Hat as [Hr _ Hnd]. apply rep_nd in Hr as (Hx & _).
  pose proof (one_elems _ _ _ _ _ Hnd) as Hel.
  destruct (delete_finish s1 c u x _ Hat1 Hwu Hwc Htop Hx Hx1) as (s' & t' & Hr2 & Hh & Hw' & He & Hx' & Ho2).
  { rewrite Hel, elem_of_without. tauto. }
  exists s', t'. rewrite (bind_eq _ _ _ _ _ Hr1). split_and!; [done|done|done|by rewrite He|eexists; split; [exact Hx'|by destruct d]|].
  eapply same_outside_trans; [exact Ho1|]. destruct Ho2 as [Ho2 Hd2]. split; [|done]. intros y Hy. apply Ho2. rewrite Hel.
  rewrite elem_of_cons, elem_of_without. intros [->|[_ ?]]; [|done]. apply Hy. rewrite elems_plug, !elem_of_app, elem_of_nd. auto.
Qed.

(** A node with both children: the neighbour [z] in order takes its place. *)
Section two.
Context (c c' : ctx) (e : bool) (k ke : Z) (a E : tree) (x z : Z).
Let b := plug c' (nd e ke Leaf z E).
Let C := c' ++ Fr (negb e) z k a :: c.
Hypothesis (Hall : Forall (fun f => fr_side f = e) c').

Lemma two_elems : NoDup (elems (plug c (nd e k a x b))) -> elems (plug C E) = without x (elems (plug c (nd e k a x b))).
Proof.
  intros Hnd. unfold C. rewrite plug_app. cbn [plug]. rewrite nd_negb. rewrite !elems_plug in *. unfold b in *. clear b.
  pose proof (edge_ctx e c' Hall) as Hc. destruct e; cbn in *; rewrite !elems_plug in *; cbn in *; rewrite Hc in *; cbn in *; rewrite ?app_nil_r in *.
  - assert (forall t y (u : list Z), pre c ++ ((pre c' ++ t ++ [z]) ++ y :: elems a) ++ u = (pre c ++ pre c' ++ t ++ [z]) ++ y :: elems a ++ u) as Ea
      by (intros; by rewrite <- !app_assoc).
    rewrite Ea in Hnd |- *. rewrite filter_remove by done. by rewrite <- !app_assoc.
  - assert (pre c ++ (elems a ++ x :: z :: elems E ++ post c') ++ post c = (pre c ++ elems a) ++ x :: (z :: elems E ++ post c') ++ post c) as Ea
      by (by rewrite <- !app_assoc).
    rewrite Ea in Hnd |- *. rewrite filter_remove by done. by rewrite <- !app_assoc.
Qed.

Lemma two_start s :
  at_ctx s c (nd e k a x b) ->
  (if cptr (c' ++ Fr (negb e) x k a :: c) =? x then (z, negb e)
   else (cptr (c' ++ Fr (negb e) x k a :: c), side (c' ++ Fr (negb e) x k a :: c))) = (cptr C, side C) /\ cptr C <> NULL.
Proof.
  intros Hat. pose proof (at_nodup _ _ _ Hat) as Hn. pose proof (at_rep _ _ _ Hat) as Hr.
  assert (forall y, y ∈ elems b -> y <> x /\ y <> NULL) as Hb.
  { intros y Hy. split.
    - intros ->. rewrite elems_plug in Hn. apply NoDup_app in Hn as (_ & _ & (Hn & _)%NoDup_app). by apply NoDup_nd in Hn as (_ & Hn & _).
    - eapply rep_elem_nonzero; [exact Hr|]. rewrite elem_of_nd. auto. }
  unfold C. destruct c' as [|[d y q sib] c1] eqn:Ec; cbn.
  - rewrite Z.eqb_refl. split; [done|]. apply Hb. unfold b. rewrite ?Ec. cbn. rewrite elem_of_nd. by left.
  - destruct (Hb y) as [H1 H2].
    { unfold b. rewrite ?Ec, elems_plug, !elem_of_app. destruct (cptr_in_ctx (Fr d y q sib :: c1)); auto. }
    by rewrite (proj2 (Z.eqb_neq _ _) H1).
Qed.
End two.

Lemma nd_Node e k a x b : nd e k a x b = Node k (if e then b else a) x (if e then a else b).
Proof. by destruct e. Qed.

Lemma delete_two_run s c k x a b e :
  at_ctx s c (nd e k a x b) -> fits s -> wavl (plug c (nd e k a x b)) -> b <> Leaf ->
  exists s' t', (edge_node <- bst_find_edge (ptr b) e ;; en <- get_node edge_node ;; d <- bst_is_right_child edge_node ;;
      let start := if parent en =? x then (edge_node, negb e) else (parent en, d) in
      _ <- assert_ (negb (fst start =? NULL)) ;;
      _ <- bst_move_node edge_node (child (negb e) en) ;;
      _ <- adopt_children x edge_node ;;
      _ <- bst_move_node x edge_node ;; _ <- upd_node x (set_rank 0) ;;
      (if fst start =? NULL then ret tt else bst_update_rank_delete (fst start) (snd start))) s = Some (tt, s') /\
    holds s' t' /\ wavl t' /\ elems t' = without x (elems (plug c (nd e k a x b))) /\
    (exists n, bst_nodes s' !! x = Some n /\ rank n = 0) /\ same_outside (elems (plug c (nd e k a x b))) s s'.
Proof.
  intros Hat Hfit Hw Hb. pose proof (holds_size _ _ (proj1 (at_holds s c _) Hat)) as Hsz.
  pose proof (wavl_rank_small _ Hw ltac:(unfold fits in Hfit; lia)) as Htop.
  pose proof (proj1 (at_other _ _ _ _ _ _ _) Hat) as Hatb.
  destruct (find_edge_run _ s _ b e Hatb Hb (edge_fuel _ _ _ Hatb)) as (c' & ke & z & E & Hfe & -> & Hatz & Hall).
  destruct (splice_run _ _ _ _ _ _ Hatz) as (s1 & Hr1 & Hat1 & Hz1 & Ho1).
  destruct (two_start c c' e k ke a E x z Hall s Hat) as [Hstart Hstart0].
  pose proof (two_elems c c' e k ke a E x z Hall (at_nodup _ _ _ Hat)) as Hel.
  pose proof (at_rep _ _ _ Hatz) as (Hz & _)%rep_nd.
  pose proof (is_right_child_run _ _ _ _ (at_hole_at _ _ _ _ _ _ _ Hatz)) as Hrc.
  unfold bst_find_edge, bst_fuel. rewrite bind_assoc, gets_bind, (bind_eq _ _ _ _ _ Hfe), (bind_eq _ _ _ _ _ (bst_node_at _ _ _ _ _ _ _ Hatz)), (bind_eq _ _ _ _ _ Hrc).
  autorewrite with bst. rewrite Hstart. cbn [fst snd]. rewrite assert_bind by (by rewrite (proj2 (Z.eqb_neq _ _) Hstart0)).
  rewrite (bind_eq _ _ _ _ _ Hr1). apply at_app, at_up_other in Hat1. rewrite nd_Node in Hat1.
  assert (z ∉ elems (plug c (nd e k a x (plug c' E)))) as Hzi.
  { pose proof (one_elems _ _ _ _ _ (at_nodup _ _ _ Hatz)) as Hone. rewrite !plug_app in Hone. cbn [plug] in Hone.
    rewrite !nd_negb in Hone. rewrite Hone, elem_of_without. tauto. }
  rewrite nd_Node in Hzi. rewrite (bind_eq _ _ _ _ _ (adopt_run s1 c k x z _ _ _ Hat1 Hz Hz1 Hzi)).
  destruct (replace_run s1 c k x z _ _ _ Hat1 Hz Hz1 Hzi) as (s2 & Hr2 & Hat2 & [n Hn] & Ho2).
  rewrite (bind_eq _ _ _ _ _ Hr2). rewrite <- nd_Node in Hat2. apply at_other, at_app in Hat2.
  assert (plug c (nd e k a x (plug c' (nd e ke Leaf z E))) = plug (c' ++ Fr (negb e) x k a :: c) (nd e ke Leaf z E)) as Ep
    by (by rewrite plug_app; cbn [plug]; rewrite nd_negb).
  pose proof Hw as Hwz. rewrite Ep in Hwz, Htop. apply wavl_unplug in Hwz as [HwE Hwc]. pose proof (one_child_rank _ _ _ _ HwE) as HrE.
  apply wavl_nd in HwE as (_ & HwE & _). rewrite <- top_plug, rk_nd, (top_rename _ _ _ z) in Htop. rewrite rk_nd in Hwc. apply (wctx_rename _ _ _ z) in Hwc.
  replace ke with (rk E + 1) in Hwc, Htop by lia.
  destruct (delete_finish s2 (c' ++ Fr (negb e) z k a :: c) E x n Hat2 HwE Hwc Htop) as (s' & t' & Hr3 & Hh & Hw' & He & Hx' & Ho3).
  - by pose proof (at_rep _ _ _ Hat) as (? & _)%rep_nd.
  - done.
  - rewrite Hel, elem_of_without. tauto.
  - exists s', t'. split_and!; [exact Hr3|done|done|by rewrite He|by eexists|].
    assert (forall y, y ∈ z :: elems (plug c (nd e k a x (plug c' E))) \/ y ∈ x :: elems (plug (c' ++ Fr (negb e) z k a :: c) E) ->
      y ∈ elems (plug c (nd e k a x (plug c' (nd e ke Leaf z E))))) as Hin.
    { intros y. rewrite Hel, !elem_of_cons, elem_of_without. rewrite !elems_plug, !elem_of_app, !elem_of_nd, !elems_plug, !elem_of_app, !elem_of_nd. tauto. }
    eapply same_outside_trans; [rewrite Ep; exact Ho1|]. eapply same_outside_trans.
    + destruct Ho2 as [Ho2 Hd2]. split; [|exact Hd2]. intros y Hy. apply Ho2. rewrite <- nd_Node. intros Hy'. apply Hy, Hin. by left.
    + destruct Ho3 as [Ho3 Hd3]. split; [|exact Hd3]. intros y Hy. apply Ho3. intros Hy'. apply Hy, Hin. by right.
Qed.
