(* ===== verification/BstProps.v ===== *)
(** * What the tree operations do *)
From stdpp Require Import base gmap list.
From Stdlib Require Import ZArith Lia.
From S2P Require Import Prelude Bst BstRep BstOps BstInsert BstDelete.

Local Open Scope Z_scope.
Local Open Scope lk_scope.

Lemma unzip x t : x ∈ elems t -> exists c k l r, t = plug c (Node k l x r).
Proof.
  assert (forall c, x ∈ elems t -> exists c' k l r, plug c t = plug c' (Node k l x r)) as H; [|by apply (H [])].
  induction t as [|k l IHl y r IHr]; intros c; cbn; [by intros ?%elem_of_nil|].
  intros [Hx|[->|Hx]%elem_of_cons]%elem_of_app.
  - by apply (IHl (Fr false y k r :: c)).
  - by exists c, k, l, r.
  - by apply (IHr (Fr true y k l :: c)).
Qed.

Lemma bst_delete_run s t x :
  holds s t -> fits s -> wavl t -> x ∈ elems t ->
  exists s' t', bst_delete x s = Some (tt, s') /\ holds s' t' /\ wavl t' /\ elems t' = without x (elems t) /\
    (exists n, bst_nodes s' !! x = Some n /\ rank n = 0) /\ same_outside (elems t) s s'.
Proof.
  intros Hh Hfit Hw (c & k & l & r & ->)%unzip. apply at_holds in Hh.
  pose proof (is_right_child_run _ _ _ _ (at_hole_at _ _ false _ _ _ _ Hh)) as Hrc. pose proof (bst_node_at _ _ false _ _ _ _ Hh) as Hn.
  unfold bst_delete. rewrite (bind_eq _ _ _ _ _ Hrc), (bind_eq _ _ _ _ _ Hn). cbn [mknd child0 child1 parent].
  assert (forall u, u = l \/ u = r -> (ptr u =? NULL) = bool_decide (u = Leaf)) as Hz.
  { intros [|? ? y ?] Hu; [done|]. rewrite bool_decide_eq_false_2 by done. apply Z.eqb_neq. cbn.
    pose proof (at_rep _ _ _ Hh) as (_ & _ & Hl & Hr). by destruct Hu as [<-|<-]; [destruct Hl|destruct Hr]. }
  rewrite !Hz by auto. destruct (decide (l = Leaf)) as [->|Hl].
  - cbn. exact (delete_one_run s c false k x r Hh Hfit Hw).
  - rewrite bool_decide_eq_false_2 by done. destruct (decide (r = Leaf)) as [->|Hr].
    + cbn. exact (delete_one_run s c true k x l Hh Hfit Hw).
    + rewrite bool_decide_eq_false_2 by done. set (e := side c).
      replace (Node k l x r) with (nd e k (if e then r else l) x (if e then l else r)) in * by (by destruct e).
      destruct (delete_two_run s c k x _ _ e Hh Hfit Hw) as (s' & t' & Hd & Hrest); [by destruct e|].
      exists s', t'. split; [|exact Hrest]. rewrite <- Hd. clear.
      assert (child (negb e) (mk_bst_node k (cptr c) (ptr l) (ptr r)) = ptr (if e then l else r)) as -> by (by destruct e).
      unfold bind, ret. destruct (bst_find_edge _ _ _) as [[z s1]|]; [|done]. destruct (get_node z s1) as [[en s2]|]; [|done].
      destruct (bst_is_right_child z s2) as [[d s3]|]; [|done]. cbn zeta. destruct (if parent en =? x then _ else _) as [start d']. cbn [fst snd].
      destruct (assert_ _ s3) as [[? s4]|]; [|done]. destruct (bst_move_node z _ s4) as [[? s5]|]; [|done].
      by destruct (adopt_children x z s5) as [[? s6]|].
Qed.

(** ** Neighbours in order *)
Definition edge_of (e : bool) (l : list Z) : Z := default NULL (if e then last l else head l).

Lemma edge_of_app e l l' : l <> [] -> edge_of e (if e then l' ++ l else l ++ l') = edge_of e l.
Proof.
  intros Hl. unfold edge_of. destruct e.
  - rewrite last_app. destruct (last l) eqn:E; [done|]. by apply last_None in E.
  - by destruct l.
Qed.

Lemma edge_elem c e k x u : Forall (fun f => fr_side f = e) c -> edge_of e (elems (plug c (nd e k Leaf x u))) = x.
Proof.
  intros Hc%edge_ctx. rewrite elems_plug. unfold edge_of. destruct e; cbn; rewrite Hc.
  - by rewrite app_nil_r, app_assoc, last_snoc.
  - done.
Qed.

Lemma find_edge_edge s c t e : at_ctx s c t -> t <> Leaf -> bst_find_edge (ptr t) e s = Some (edge_of e (elems t), s).
Proof.
  intros Hat Ht. unfold bst_find_edge, bst_fuel. rewrite gets_bind.
  destruct (find_edge_run _ s c t e Hat Ht (edge_fuel _ _ _ Hat)) as (c' & k & x & u & Hr & -> & _ & Hall). by rewrite edge_elem.
Qed.

Lemma next_parent_run dir c : forall fuel s t,
  at_ctx s c t -> t <> Leaf -> (length c < fuel)%nat ->
  next_parent fuel (ptr t) dir s = Some (edge_of (negb dir) (if dir then post c else pre c), s).
Proof.
  induction c as [|[d y k sib] c IH]; intros [|fuel] s t Hat Ht Hf; cbn in Hf; try lia;
    destruct t as [|q l x r]; try done; cbn [next_parent ptr];
    rewrite (bind_eq _ _ _ _ _ (is_right_child_run _ _ _ _ (at_hole_at _ _ false _ _ _ _ Hat))), (bind_eq _ _ _ _ _ (bst_node_at _ _ false _ _ _ _ Hat));
    cbn [mknd parent cptr side].
  - by destruct dir.
  - apply at_up in Hat. assert (y <> NULL) as Hy by (by destruct Hat as [(? & _)%rep_nd _ _]).
    destruct (Bool.eqb d dir) eqn:Ed.
    + apply Bool.eqb_prop in Ed as ->. rewrite (proj2 (Z.eqb_neq _ _) Hy). rewrite <- (ptr_nd dir k (Node q l x r) y sib) at 1.
      rewrite (IH fuel s _ Hat); [by destruct dir|by destruct dir|lia].
    + unfold ret. destruct d, dir; try done; cbn. by rewrite app_assoc, last_snoc.
Qed.

Lemma prev_next_run dir s c k a x b :
  at_ctx s c (nd dir k a x b) ->
  bst_prev_next x dir s = Some (edge_of (negb dir) (if dir then elems a ++ post c else pre c ++ elems a), s).
Proof.
  intros Hat. pose proof (at_rep _ _ _ Hat) as (Hx & _ & Ha & _)%rep_nd. unfold bst_prev_next. rewrite (proj2 (Z.eqb_neq _ _) Hx). cbn [andb].
  rewrite bind_assoc, (bind_eq _ _ _ _ _ (bst_node_at _ _ _ _ _ _ _ Hat)), ret_bind. autorewrite with bst.
  destruct (decide (a = Leaf)) as [->|Hl].
  - cbn [ptr]. rewrite Z.eqb_refl. cbn [negb]. unfold bst_fuel. rewrite gets_bind. rewrite <- (ptr_nd dir k Leaf x b) at 1.
    rewrite (next_parent_run dir c _ s (nd dir k Leaf x b)); [|done|by destruct dir|].
    + cbn. by rewrite app_nil_r.
    + pose proof (edge_fuel s [] _ (proj1 (at_holds s c _) Hat)) as Hs. rewrite elems_plug, !length_app in Hs. pose proof (ctx_length c) as Hc.
      rewrite length_app in Hc. destruct dir; cbn in Hs; rewrite ?length_app in Hs; cbn in Hs; lia.
  - rewrite (proj2 (Z.eqb_neq _ _) (at_ptr_nonzero _ _ _ Ha Hl)). cbn [negb].
    rewrite (find_edge_edge s _ a (negb dir) (at_child _ _ _ _ _ _ _ Hat) Hl). do 2 f_equal.
    assert (elems a <> []) as Hne by (destruct a as [|? a1 ? ?]; [done|]; cbn; by destruct (elems a1)).
    rewrite <- (edge_of_app (negb dir) (elems a) (if dir then post c else pre c) Hne). by destruct dir.
Qed.

Lemma app_cons_unique (x : Z) l1 l2 k1 k2 : NoDup (l1 ++ x :: l2) -> l1 ++ x :: l2 = k1 ++ x :: k2 -> l1 = k1 /\ l2 = k2.
Proof.
  intros Hn He. assert (x ∉ l1 /\ x ∉ k1) as [H1 H2].
  { split; intros Hx; [|rewrite He in Hn]; apply NoDup_app in Hn as (_ & Hn & _); apply (Hn x Hx); by left. }
  clear Hn. revert k1 H2 He. induction l1 as [|y l1 IH]; intros [|z k1] H2 He; cbn in He; simplify_eq.
  - done.
  - set_solver.
  - set_solver.
  - destruct (IH ltac:(set_solver) k1 ltac:(set_solver) ltac:(done)) as [-> ->]. done.
Qed.

Lemma neighbours_run s t l1 x l2 :
  holds s t -> elems t = l1 ++ x :: l2 ->
  bst_next x s = Some (default NULL (head l2), s) /\ bst_prev x s = Some (default NULL (last l1), s).
Proof.
  intros Hh He. destruct (unzip x t) as (c & k & l & r & ->); [rewrite He; set_solver|].
  pose proof (at_nodup _ _ _ Hh) as Hn. cbn [plug] in Hn. apply at_holds in Hh. rewrite elems_plug in He, Hn. cbn in He, Hn.
  assert (pre c ++ (elems l ++ x :: elems r) ++ post c = (pre c ++ elems l) ++ x :: (elems r ++ post c)) as E by (by rewrite <- !app_assoc).
  rewrite E in He, Hn. destruct (app_cons_unique _ _ _ _ _ Hn He) as [<- <-]. split.
  - exact (prev_next_run true s c k r x l Hh).
  - exact (prev_next_run false s c k l x r Hh).
Qed.

Lemma ends_run s t : holds s t -> bst_next NULL s = Some (default NULL (head (elems t)), s) /\ bst_prev NULL s = Some (default NULL (last (elems t)), s).
Proof.
  intros Hh. pose proof (at_hole _ _ _ Hh) as Hroot. cbn in Hroot.
  assert (forall dir, bst_prev_next NULL dir s = Some (edge_of (negb dir) (elems t), s)) as H; [|by split; [apply (H true)|apply (H false)]].
  intros dir. unfold bst_prev_next. rewrite Z.eqb_refl, gets_bind, Hroot. destruct (decide (t = Leaf)) as [->|Ht].
  - cbn. by destruct dir.
  - rewrite (proj2 (Z.eqb_neq _ _) (at_ptr_nonzero _ _ _ (at_rep _ _ _ Hh) Ht)). cbn [andb negb]. by apply (find_edge_edge s []).
Qed.

(** ** The loops over a tree *)
Definition on_tree {U : Type} (A : Type) (m : M bst_root A) : M (bst_root * U) A :=
  fun su => match m (fst su) with Some (a, s') => Some (a, (s', snd su)) | None => None end.

Lemma on_tree_eq {U A} (m : M bst_root A) s (u : U) a s' : m s = Some (a, s') -> on_tree A m (s, u) = Some (a, (s', u)).
Proof. unfold on_tree. cbn. by intros ->. Qed.

(** The leftmost node comes out of the tree. *)
Lemma delete_all_helper_run s t x rest :
  holds s t -> elems t = x :: rest ->
  exists s' t' k, bst_delete_all_helper x s = Some (tt, s') /\ holds s' t' /\ elems t' = rest /\
    (exists q l r, t = plug q (Node k l x r)) /\ (exists y, bst_nodes s' !! x = Some (mk_bst_node k NULL NULL y)) /\ same_outside (elems t) s s'.
Proof.
  intros Hh He. destruct (unzip x t) as (c & k & l & r & ->); [rewrite He; set_solver|]. pose proof (at_nodup _ _ _ Hh) as Hn. cbn [plug] in Hn.
  assert (pre c = [] /\ elems l = []) as [Hc Hl].
  { rewrite elems_plug in He, Hn. cbn in He, Hn.
    assert (pre c ++ (elems l ++ x :: elems r) ++ post c = (pre c ++ elems l) ++ x :: (elems r ++ post c)) as E by (by rewrite <- !app_assoc).
    rewrite E in He, Hn. destruct (app_cons_unique _ _ _ [] _ Hn He) as [Hnil _]. by apply app_nil in Hnil. }
  assert (l = Leaf) as -> by (destruct l as [|? l1 ? ?]; [done|]; cbn in Hl; by destruct (elems l1)).
  apply at_holds in Hh. destruct (splice_run s c false k x r Hh) as (s' & Hr & Hat' & Hx & Ho).
  exists s', (plug c r), k. split_and!; [|exact (proj1 (at_holds s' c _) Hat')| |by exists c, Leaf, r|by exists (ptr r)|exact Ho].
  - unfold bst_delete_all_helper. rewrite (bind_eq _ _ _ _ _ (bst_node_at _ _ false _ _ _ _ Hh)). cbn [mknd child0 child1 ptr].
    rewrite Z.eqb_refl. exact Hr.
  - rewrite elems_plug in He |- *. cbn in He. rewrite Hc in He |- *. cbn in He |- *. congruence.
Qed.

Section loops.
Context {U : Type} (visit : Z -> U -> U) (body : Z -> M (bst_root * U) unit).

Definition visited (l : list Z) (u : U) : U := fold_left (fun u x => visit x u) l u.

(** The body of [bst_for_every_entry] may take its entry out of the tree, but
    nothing else. *)
Definition keeps_others : Prop := forall x s u t,
  holds s t -> wavl t -> fits s -> x ∈ elems t ->
  exists s' t', body x (s, u) = Some (tt, (s', visit x u)) /\ holds s' t' /\ wavl t' /\ fits s' /\
    (elems t' = elems t \/ elems t' = without x (elems t)).

(** ... and that of [bst_for_every_entry_delete] may do what it likes with its
    entry, which is no longer in the tree. *)
Definition keeps_rest : Prop := forall x s u t,
  holds s t -> x ∉ elems t -> exists s', body x (s, u) = Some (tt, (s', visit x u)) /\ holds s' t.

Lemma for_every_run (Hbody : keeps_others) todo : forall fuel s u t kept,
  holds s t -> wavl t -> fits s -> elems t = kept ++ todo -> (length todo <= fuel)%nat ->
  exists s' t', for_every_entry on_tree body fuel (default NULL (head todo)) (s, u) = Some (tt, (s', visited todo u)) /\
    holds s' t' /\ wavl t' /\ fits s' /\ sublist (elems t') (elems t).
Proof.
  induction todo as [|x todo IH]; intros fuel s u t kept Hh Hw Hf He Hlen.
  { exists s, t. by split_and!; [destruct fuel|..]. }
  cbn in Hlen. destruct fuel as [|fuel]; [lia|]. cbn [for_every_entry head from_option]. unfold id at 1 2 3.
  assert (x <> NULL) as Hx.
  { eapply (rep_elem_nonzero _ _ _ _ (at_rep _ _ _ Hh)). rewrite He. set_solver. }
  rewrite (proj2 (Z.eqb_neq _ _) Hx).
  destruct (neighbours_run s t kept x todo Hh He) as [Hnext _]. rewrite (bind_eq _ _ _ _ _ (on_tree_eq _ _ u _ _ Hnext)).
  destruct (Hbody x s u t Hh Hw Hf) as (s1 & t1 & Hb & Hh1 & Hw1 & Hf1 & Hor); [rewrite He; set_solver|]. rewrite (bind_eq _ _ _ _ _ Hb).
  assert (exists kept', elems t1 = kept' ++ todo /\ sublist (elems t1) (elems t)) as (kept' & He1 & Hsub).
  { pose proof (at_nodup _ _ _ Hh) as Hn. cbn in Hn. destruct Hor as [Ho|Ho].
    - exists (kept ++ [x]). by rewrite Ho, He, <- app_assoc.
    - exists kept. rewrite He in Ho, Hn. rewrite filter_remove in Ho by done. split; [done|]. rewrite Ho, He. apply sublist_app; [done|]. by apply sublist_cons. }
  destruct (IH fuel s1 (visit x u) t1 kept' Hh1 Hw1 Hf1 He1 ltac:(lia)) as (s' & t' & Hr & Hh' & Hw' & Hf' & Hs').
  exists s', t'. split_and!; [exact Hr|done|done|done|by etrans].
Qed.

Lemma for_every_delete_run (Hbody : keeps_rest) todo : forall fuel s u t,
  holds s t -> elems t = todo -> (length todo <= fuel)%nat ->
  exists s', for_every_entry_delete on_tree body fuel (default NULL (head todo)) (s, u) = Some (tt, (s', visited todo u)) /\ holds s' Leaf.
Proof.
  induction todo as [|x todo IH]; intros fuel s u t Hh He Hlen.
  { assert (t = Leaf) as -> by (destruct t as [|? l ? ?]; [done|]; cbn in He; by destruct (elems l)).
    exists s. split; [by destruct fuel|done]. }
  cbn in Hlen. destruct fuel as [|fuel]; [lia|]. cbn [for_every_entry_delete head from_option]. unfold id at 1 2 3 4.
  assert (x <> NULL) as Hx.
  { eapply (rep_elem_nonzero _ _ _ _ (at_rep _ _ _ Hh)). rewrite He. set_solver. }
  rewrite (proj2 (Z.eqb_neq _ _) Hx). destruct (neighbours_run s t [] x todo Hh He) as [Hnext _].
  rewrite (bind_eq _ _ _ _ _ (on_tree_eq _ _ u _ _ Hnext)).
  destruct (delete_all_helper_run s t x todo Hh He) as (s1 & t1 & k & Hr1 & Hh1 & He1 & _).
  rewrite (bind_eq _ _ _ _ _ (on_tree_eq _ _ u _ _ Hr1)).
  pose proof (at_nodup _ _ _ Hh) as Hn. cbn in Hn. rewrite He in Hn. apply NoDup_cons in Hn as [Hxn _].
  destruct (Hbody x s1 u t1 Hh1 ltac:(by rewrite He1)) as (s2 & Hb & Hh2). rewrite (bind_eq _ _ _ _ _ Hb).
  apply (IH fuel s2 (visit x u) t1 Hh2 He1). lia.
Qed.
End loops.

(** ** Properties *)
Lemma search_from_mono cmp fuel : forall p s r fuel', search_from fuel cmp p s = Some r -> (fuel <= fuel')%nat -> search_from fuel' cmp p s = Some r.
Proof.
  induction fuel as [|fuel IH]; intros p s r [|fuel'] Hr Hf; cbn in *; try lia; try done; destruct (p =? NULL); try done.
  apply bind_Some in Hr as (n & s1 & H1 & H2). rewrite (bind_eq _ _ _ _ _ H1). destruct (cmp p =? 0); [done|]. apply IH; [done|lia].
Qed.

Lemma wavl_height_log t fuel : wavl t -> (Z.of_nat (length (elems t)) + 1) * (Z.of_nat (length (elems t)) + 1) <= 2 ^ Z.of_nat fuel -> (height t <= fuel)%nat.
Proof.
  intros Hw Hf. pose proof (wavl_height t Hw). pose proof (wavl_size t Hw). destruct (wavl_rk t Hw) as [Hr0 _].
  assert (2 ^ rk t <= 2 ^ Z.of_nat fuel) as Hp by lia. apply Z.pow_le_mono_r_iff in Hp; lia.
Qed.

(** C31: [bst_insert] of a node that is in no tree returns [true] and leaves it
    between the nodes before and after it, or returns [false] and changes nothing
    if a node of the tree matches it. The tree keeps the rank rule, no other node
    is written and no assertion fails. *)
Theorem bst_insert_places compare s t node n l1 eqs l2 :
  holds s t -> wavl t -> fits s -> node <> NULL -> bst_nodes s !! node = Some n -> rank n = 0 -> node ∉ elems t ->
  cut (fun y => compare y node) (elems t) l1 eqs l2 ->
  match eqs with
  | [] => exists s' t', bst_insert compare node s = Some (true, s') /\ holds s' t' /\ wavl t' /\ elems t' = l1 ++ node :: l2 /\
            same_outside (node :: elems t) s s'
  | _ => bst_insert compare node s = Some (false, s)
  end.
Proof.
  intros Hh Hw Hf Hx Hn H0 Hni Hcut. unfold bst_insert, bst_fuel.
  rewrite (bind_eq _ _ _ _ _ (get_node_eq _ _ _ Hx Hn)), assert_bind by (by apply Z.eqb_eq). rewrite gets_bind.
  pose proof (holds_size _ _ Hh) as Hsz.
  pose proof (insert_at_run compare node n (S (S (size (bst_nodes s)))) s [] t l1 eqs l2 Hh Hf Hw Hx Hn Hni) as Hins.
  specialize (Hins ltac:(split; intros y Hy; by apply elem_of_nil in Hy) Hcut ltac:(lia)). by destruct eqs; [case_bool_decide|].
Qed.

(** C32: A search ends after at most [2 log (n + 1)] steps and returns a node that
    matches, or [NULL] if none does. *)
Theorem bst_search_logarithmic {K : Type} (compare_key : Z -> K -> Z) key s t l1 eqs l2 :
  holds s t -> wavl t -> cut (fun y => compare_key y key) (elems t) l1 eqs l2 ->
  exists r, bst_search_key compare_key key s = Some (r, s) /\ (eqs = [] -> r = NULL) /\ (eqs <> [] -> r ∈ eqs) /\
    forall steps, (Z.of_nat (length (elems t)) + 1) * (Z.of_nat (length (elems t)) + 1) <= 2 ^ Z.of_nat steps ->
      search_from (S steps) (fun y => compare_key y key) (root s) s = Some (r, s).
Proof.
  intros Hh Hw Hcut. pose proof (holds_size _ _ Hh) as Hsz. pose proof (height_length t) as Hht.
  assert (placed (fun y => compare_key y key) []) as Hpl by (split; intros y Hy; by apply elem_of_nil in Hy).
  pose proof (at_hole _ _ _ Hh) as Hroot. cbn in Hroot.
  destruct (search_from_run _ (S (size (bst_nodes s))) s [] t l1 eqs l2 Hh Hpl Hcut ltac:(lia)) as (r & Hr & H1 & H2).
  exists r. split_and!; [|done|done|].
  - unfold bst_search_key, bst_fuel. by rewrite !gets_bind, Hroot.
  - intros steps Hst%wavl_height_log; [|done]. rewrite Hroot.
    destruct (search_from_run _ (S steps) s [] t l1 eqs l2 Hh Hpl Hcut ltac:(lia)) as (r' & Hr' & _). rewrite Hr'.
    destruct (Nat.le_ge_cases (S steps) (S (size (bst_nodes s)))) as [Hle|Hle].
    + by rewrite <- (search_from_mono _ _ _ _ _ _ Hr' Hle).
    + by rewrite <- (search_from_mono _ _ _ _ _ _ Hr Hle).
Qed.

(** C33: [bst_delete] of a node of the tree takes just this node out, keeps the
    order of the others and the rank rule, clears the rank of the node and fails
    no assertion, whichever children the node has and whichever rotations
    follow. *)
Theorem bst_delete_removes s t x :
  holds s t -> wavl t -> fits s -> x ∈ elems t ->
  exists s' t', bst_delete x s = Some (tt, s') /\ holds s' t' /\ wavl t' /\ elems t' = without x (elems t) /\
    (exists n, bst_nodes s' !! x = Some n /\ rank n = 0) /\ same_outside (elems t) s s'.
Proof. intros Hh Hw Hf Hx. by apply bst_delete_run. Qed.

(** [bst_next] and [bst_prev] go to the neighbours in order, from [NULL] to
    the two ends, and to [NULL] at the ends. *)
Theorem bst_next_prev_in_order s t :
  holds s t ->
  (bst_next NULL s = Some (default NULL (head (elems t)), s) /\ bst_prev NULL s = Some (default NULL (last (elems t)), s)) /\
  forall l1 x l2, elems t = l1 ++ x :: l2 ->
    bst_next x s = Some (default NULL (head l2), s) /\ bst_prev x s = Some (default NULL (last l1), s).
Proof. intros Hh. split; [by apply ends_run|]. intros l1 x l2. by apply neighbours_run. Qed.

(** [bst_for_every_entry] visits every entry once and in order, also when its
    body deletes the entries it is given. *)
Theorem bst_for_every_entry_visits {U : Type} (visit : Z -> U -> U) body s t u :
  holds s t -> wavl t -> fits s -> keeps_others visit body ->
  exists s' t', bst_for_every_entry on_tree body (size (bst_nodes s)) (s, u) = Some (tt, (s', visited visit (elems t) u)) /\
    holds s' t' /\ wavl t' /\ sublist (elems t') (elems t).
Proof.
  intros Hh Hw Hf Hb. unfold bst_for_every_entry. destruct (ends_run s t Hh) as [Hfirst _].
  rewrite (bind_eq _ _ _ _ _ (on_tree_eq _ _ u _ _ Hfirst)).
  destruct (for_every_run visit body Hb (elems t) (size (bst_nodes s)) s u t [] Hh Hw Hf eq_refl (holds_size _ _ Hh))
    as (s' & t' & Hr & Hh' & Hw' & _ & Hs). by exists s', t'.
Qed.

(** [bst_for_every_entry_delete] hands every entry to its body once and in
    order, each after it has left the tree, and leaves the tree empty; the body may
    free the entry. *)
Theorem bst_for_every_entry_delete_empties {U : Type} (visit : Z -> U -> U) body s t u :
  holds s t -> keeps_rest visit body ->
  exists s', bst_for_every_entry_delete on_tree body (size (bst_nodes s)) (s, u) = Some (tt, (s', visited visit (elems t) u)) /\
    bst_is_empty s' = Some (true, s').
Proof.
  intros Hh Hb. unfold bst_for_every_entry_delete. destruct (ends_run s t Hh) as [Hfirst _].
  rewrite (bind_eq _ _ _ _ _ (on_tree_eq _ _ u _ _ Hfirst)).
  destruct (for_every_delete_run visit body Hb (elems t) (size (bst_nodes s)) s u t Hh eq_refl (holds_size _ _ Hh)) as (s' & Hr & Hh').
  exists s'. split; [exact Hr|]. pose proof (at_hole _ _ _ Hh') as Hroot. cbn in Hroot. unfold bst_is_empty, gets. by rewrite Hroot.
Qed.

(** A node that [bst_for_every_entry_delete] took out keeps its rank, which
    the header reserves for nodes in a tree: inserting it again fails the
    assertion of [bst_insert]. *)
Theorem bst_delete_all_keeps_rank compare s t x rest :
  holds s t -> wavl t -> elems t = x :: rest ->
  exists s', bst_delete_all_helper x s = Some (tt, s') /\ bst_insert compare x s' = None.
Proof.
  intros Hh Hw He. destruct (delete_all_helper_run s t x rest Hh He) as (s' & t' & k & Hr & _ & _ & (q & l & r & ->) & (y & Hx) & _).
  exists s'. split; [done|]. apply wavl_unplug in Hw as [Hw _]. pose proof (wavl_rk _ Hw) as [Hk0 Hk1]. cbn in Hk0, Hk1.
  assert (x <> NULL) as Hx0 by (eapply (rep_elem_nonzero _ _ _ _ (at_rep _ _ _ Hh)); rewrite He; by left).
  unfold bst_insert. rewrite (bind_eq _ _ _ _ _ (get_node_eq _ _ _ Hx0 Hx)). cbn [rank].
  destruct (Z.eqb_spec k 0) as [Hk|]; [by apply Hk1 in Hk|done].
Qed.

(** ** A tree of seven nodes, ordered by address *)
Definition by_address (a b : Z) : Z := b - a.
Definition fresh_nodes : bst_root := mk_bst_root (list_to_map ((fun a => (a, mk_bst_node 0 NULL NULL NULL)) <$> seqZ 1 8)) NULL.
Fixpoint insert_all (l : list Z) : M bst_root unit :=
  match l with [] => ret tt | x :: l => bind (bst_insert by_address x) (fun _ => insert_all l) end.
Definition demo_tree : tree :=
  Node 3 (Node 2 (Node 1 Leaf 1 Leaf) 2 (Node 1 Leaf 3 Leaf)) 4 (Node 2 (Node 1 Leaf 5 Leaf) 6 (Node 1 Leaf 7 Leaf)).
Definition demo : bst_root := match insert_all [1; 2; 3; 4; 5; 6; 7] fresh_nodes with Some (_, s) => s | None => fresh_nodes end.

Lemma demo_holds : holds demo demo_tree.
Proof.
  constructor.
  - cbn. split_and!; try done; vm_compute; reflexivity.
  - vm_compute. reflexivity.
  - cbn. repeat (apply NoDup_cons; split; [set_solver|]). apply NoDup_nil_2.
Qed.

Lemma demo_wavl : wavl demo_tree.
Proof. cbn. unfold diff_ok. cbn. split_and!; try done; lia. Qed.

Lemma demo_fits : fits demo.
Proof. vm_compute. reflexivity. Qed.

Lemma demo_elems : elems demo_tree = [1; 2; 3; 4; 5; 6; 7].
Proof. reflexivity. Qed.

Lemma bst_insert_places_witness :
  exists s' t', bst_insert by_address 8 demo = Some (true, s') /\ holds s' t' /\ elems t' = [1; 2; 3; 4; 5; 6; 7; 8].
Proof.
  destruct (bst_insert_places by_address demo demo_tree 8 (mk_bst_node 0 NULL NULL NULL) [1; 2; 3; 4; 5; 6; 7] [] [])
    as (s' & t' & Hr & Hh & _ & He & _).
  - exact demo_holds.
  - exact demo_wavl.
  - exact demo_fits.
  - done.
  - vm_compute. reflexivity.
  - done.
  - rewrite demo_elems. set_solver.
  - split; [done| | |]; apply Forall_forall; repeat constructor.
  - exists s', t'. split; [exact Hr|split; [exact Hh|exact He]].
Defined.

Lemma bst_search_logarithmic_witness :
  bst_search_key by_address 5 demo = Some (5, demo) /\ search_from 7 (fun y => by_address y 5) (root demo) demo = Some (5, demo).
Proof.
  destruct (bst_search_logarithmic by_address 5 demo demo_tree [1; 2; 3; 4] [5] [6; 7]) as (r & Hr & _ & Hin & Hst).
  - exact demo_holds.
  - exact demo_wavl.
  - split; [done| | |]; apply Forall_forall; repeat constructor.
  - assert (r = 5) as -> by (by apply list_elem_of_singleton, Hin). split; [exact Hr|]. apply Hst. vm_compute. discriminate.
Defined.

Lemma bst_delete_removes_witness :
  exists s' t', bst_delete 4 demo = Some (tt, s') /\ holds s' t' /\ wavl t' /\ elems t' = [1; 2; 3; 5; 6; 7].
Proof.
  destruct (bst_delete_removes demo demo_tree 4) as (s' & t' & Hr & Hh & Hw & He & _).
  - exact demo_holds.
  - exact demo_wavl.
  - exact demo_fits.
  - rewrite demo_elems. set_solver.
  - exists s', t'. split; [exact Hr|split; [exact Hh|split; [exact Hw|exact He]]].
Defined.

Lemma bst_next_prev_in_order_witness : bst_next 4 demo = Some (5, demo) /\ bst_prev 4 demo = Some (3, demo) /\ bst_next NULL demo = Some (1, demo).
Proof.
  destruct (bst_next_prev_in_order demo demo_tree demo_holds) as [[H1 _] H2]. destruct (H2 [1; 2; 3] 4 [5; 6; 7] eq_refl) as [H3 H4].
  split; [exact H3|split; [exact H4|exact H1]].
Defined.

(** A body that deletes its entry and notes it. *)
Definition delete_and_note (x : Z) : M (bst_root * list Z) unit :=
  on_tree unit (bst_delete x) ;; modify (fun su => (fst su, snd su ++ [x])).

Lemma delete_and_note_ok : keeps_others (fun x u => u ++ [x]) delete_and_note.
Proof.
  intros x s u t Hh Hw Hf Hx. destruct (bst_delete_run s t x Hh Hf Hw Hx) as (s' & t' & Hr & Hh' & Hw' & He & _ & _ & Hd).
  exists s', t'. split_and!; [|done|done| |by right].
  - unfold delete_and_note. by rewrite (bind_eq _ _ _ _ _ (on_tree_eq _ _ u _ _ Hr)).
  - unfold fits in *. by rewrite <- size_dom, Hd, size_dom.
Qed.

Lemma bst_for_every_entry_visits_witness :
  exists s' t', bst_for_every_entry on_tree delete_and_note (size (bst_nodes demo)) (demo, []) = Some (tt, (s', [1; 2; 3; 4; 5; 6; 7])) /\ holds s' t'.
Proof.
  destruct (bst_for_every_entry_visits (fun x u => u ++ [x]) delete_and_note demo demo_tree [] demo_holds demo_wavl demo_fits delete_and_note_ok)
    as (s' & t' & Hr & Hh & _). exists s', t'. split; [exact Hr|exact Hh].
Defined.

Definition note (x : Z) : M (bst_root * list Z) unit := modify (fun su => (fst su, snd su ++ [x])).

Lemma note_ok : keeps_rest (fun x u => u ++ [x]) note.
Proof. intros x s u t Hh _. by exists s. Qed.

Lemma bst_for_every_entry_delete_empties_witness :
  exists s', bst_for_every_entry_delete on_tree note (size (bst_nodes demo)) (demo, []) = Some (tt, (s', [1; 2; 3; 4; 5; 6; 7])) /\
    bst_is_empty s' = Some (true, s').
Proof. apply (bst_for_every_entry_delete_empties (fun x u => u ++ [x]) note demo demo_tree [] demo_holds note_ok). Defined.

Lemma bst_delete_all_keeps_rank_witness :
  exists s', bst_delete_all_helper 1 demo = Some (tt, s') /\ bst_insert by_address 1 s' = None.
Proof. exact (bst_delete_all_keeps_rank by_address demo demo_tree 1 [2; 3; 4; 5; 6; 7] demo_holds demo_wavl eq_refl). Defined.
