(* ===== verification/LibcMem.v ===== *)
(** * Copying and filling memory (lib/libc/string)

    Memory is a map from addresses to bytes; an address outside the map may not
    be touched. A pointer is an address, a word has eight bytes and may only be
    accessed at a multiple of eight, as the routines take care to do. [size_t] is
    64 bits wide and [int], which the routines count with, 32 bits. *)
From stdpp Require Import base gmap list.
From Stdlib Require Import ZArith Lia.
From S2P Require Import Prelude.

Local Open Scope Z_scope.
Local Open Scope lk_scope.

Abbreviation mem := (gmap Z Z).
Abbreviation MM := (M mem).

Definition load8 (p : Z) : MM Z := getsome (fun m => m !! p).
Definition store8 (p v : Z) : MM unit := _ <- load8 p ;; modify (insert p (u8 v)).

Definition lsize : Z := 8.
Definition lmask : Z := 7.
Definition aligned (p : Z) : bool := Z.land p lmask =? 0.

(** The bytes of a word in memory order. *)
Fixpoint load_bytes (n : nat) (p : Z) : MM (list Z) :=
  match n with
  | O => ret []
  | S n => c <- load8 p ;; l <- load_bytes n (p + 1) ;; ret (c :: l)
  end.
Fixpoint store_bytes (p : Z) (l : list Z) : MM unit :=
  match l with
  | [] => ret tt
  | c :: l => store8 p c ;; store_bytes (p + 1) l
  end.

Fixpoint copy_bytes_up (n : nat) (d s : Z) : MM unit :=
  match n with
  | O => ret tt
  | S n => c <- load8 s ;; store8 d c ;; copy_bytes_up n (d + 1) (s + 1)
  end.
Definition copy_word (d s : Z) : MM unit :=
  assert_ (aligned d && aligned s) ;; w <- load_bytes (Z.to_nat lsize) s ;; store_bytes d w.
Fixpoint copy_words_up (n : nat) (d s : Z) : MM unit :=
  match n with
  | O => ret tt
  | S n => copy_word d s ;; copy_words_up n (d + lsize) (s + lsize)
  end.
Fixpoint copy_bytes_down (n : nat) (d s : Z) : MM unit :=
  match n with
  | O => ret tt
  | S n => c <- load8 (s - 1) ;; store8 (d - 1) c ;; copy_bytes_down n (d - 1) (s - 1)
  end.
Fixpoint copy_words_down (n : nat) (d s : Z) : MM unit :=
  match n with
  | O => ret tt
  | S n => copy_word (d - lsize) (s - lsize) ;; copy_words_down n (d - lsize) (s - lsize)
  end.

(** How many bytes to move before the pointers are at word boundaries: all of them
    if they never reach one together or there are too few ([small]). *)
Definition prologue (d s count : Z) (small : bool) (rest : Z) : Z :=
  if negb (Z.land (Z.lor d s) lmask =? 0) then
    if negb (Z.land (Z.lxor d s) lmask =? 0) || small then i32 count else i32 rest
  else 0.

(** Then words are copied, then the rest. *)
Definition copy_forward (d s count : Z) : MM unit :=
  let len := prologue d s count (count <? lsize) (lsize - Z.land d lmask) in
  let count := u64 (count - len) in
  copy_bytes_up (Z.to_nat len) d s ;;
  let d := d + Z.max 0 len in
  let s := s + Z.max 0 len in
  let len := i32 (count / lsize) in
  copy_words_up (Z.to_nat len) d s ;;
  let d := d + lsize * Z.max 0 len in
  let s := s + lsize * Z.max 0 len in
  copy_bytes_up (Z.to_nat (Z.land count lmask)) d s.

Definition memcpy (dest src count : Z) : MM Z :=
  if (count =? 0) || (dest =? src) then ret dest
  else copy_forward dest src count ;; ret dest.

Definition copy_backward (dest src count : Z) : MM unit :=
  let d := dest + count in
  let s := src + count in
  let len := prologue d s count (count <=? lsize) (Z.land d lmask) in
  let count := u64 (count - len) in
  copy_bytes_down (Z.to_nat len) d s ;;
  let d := d - Z.max 0 len in
  let s := s - Z.max 0 len in
  let len := i32 (count / lsize) in
  copy_words_down (Z.to_nat len) d s ;;
  let d := d - lsize * Z.max 0 len in
  let s := s - lsize * Z.max 0 len in
  copy_bytes_down (Z.to_nat (Z.land count lmask)) d s.

Definition memmove (dest src count : Z) : MM Z :=
  if (count =? 0) || (dest =? src) then ret dest
  else if dest <? src then copy_forward dest src count ;; ret dest
  else copy_backward dest src count ;; ret dest.

Definition bcopy (src dest count : Z) : MM unit := memcpy dest src count ;; ret tt.

Fixpoint set_bytes (n : nat) (p c : Z) : MM unit :=
  match n with
  | O => ret tt
  | S n => store8 p c ;; set_bytes n (p + 1) c
  end.

(** The bytes of a 64-bit value. *)
Definition word_bytes (v : Z) : list Z := (fun i => u8 (Z.shiftr v (8 * i))) <$> seqZ 0 lsize.
Fixpoint set_words (n : nat) (p v : Z) : MM unit :=
  match n with
  | O => ret tt
  | S n => assert_ (aligned p) ;; store_bytes p (word_bytes v) ;; set_words n (p + lsize) v
  end.

Definition memset (s c count : Z) : MM Z :=
  let len := Z.land (u64 (- s)) lmask in
  let cc := Z.land c 0xff in
  (if count >? len then
     let count := count - len in
     let cc := u64 (Z.lor cc (Z.shiftl cc 8)) in
     let cc := u64 (Z.lor cc (Z.shiftl cc 16)) in
     let cc := u64 (Z.lor cc (Z.shiftl cc 32)) in
     set_bytes (Z.to_nat len) s c ;;
     let xs := s + len in
     set_words (Z.to_nat (count / lsize)) xs cc ;;
     let xs := xs + lsize * (count / lsize) in
     set_bytes (Z.to_nat (Z.land count lmask)) xs c
   else set_bytes (Z.to_nat count) s c) ;;
  ret s.

Definition bzero (dst count : Z) : MM unit := memset dst 0 count ;; ret tt.

Fixpoint memchr_from (n : nat) (b x : Z) : MM Z :=
  match n with
  | O => ret 0
  | S n => c <- load8 b ;; if c =? x then ret b else memchr_from n (b + 1) x
  end.
Definition memchr (buf c len : Z) : MM Z := memchr_from (Z.to_nat len) buf (Z.land c 0xff).

Fixpoint memcmp_from (n : nat) (su1 su2 : Z) : MM Z :=
  match n with
  | O => ret 0
  | S n => a <- load8 su1 ;; b <- load8 su2 ;;
      if negb (a - b =? 0) then ret (a - b) else memcmp_from n (su1 + 1) (su2 + 1)
  end.
Definition memcmp (cs ct count : Z) : MM Z := memcmp_from (Z.to_nat count) cs ct.

Fixpoint memscan_from (n : nat) (p c : Z) : MM Z :=
  match n with
  | O => ret p
  | S n => x <- load8 p ;; if x =? c then ret p else memscan_from n (p + 1) c
  end.
Definition memscan (addr c size : Z) : MM Z := memscan_from (Z.to_nat size) addr c.

(** ** What a copy does *)
Definition bytes_ok (m : mem) : Prop := forall p v, m !! p = Some v -> 0 <= v < 256.
Definition mapped (m : mem) (p n : Z) : Prop := forall q, p <= q < p + n -> is_Some (m !! q).

Definition copied (m : mem) (d s n : Z) (m' : mem) : Prop :=
  forall p, m' !! p = if bool_decide (d <= p < d + n) then m !! (s + (p - d)) else m !! p.

Lemma u8_small v : 0 <= v < 256 -> u8 v = v.
Proof. intros Hv. apply Z.mod_small. lia. Qed.

Lemma load8_eq m p v : m !! p = Some v -> load8 p m = Some (v, m).
Proof. apply getsome_eq. Qed.

Lemma store8_eq m p v : is_Some (m !! p) -> store8 p v m = Some (tt, <[p := u8 v]> m).
Proof. intros [x Hx]. unfold store8. by rewrite (bind_eq _ _ _ _ _ (load8_eq _ _ _ Hx)). Qed.

Lemma copied_0 m d s : copied m d s 0 m.
Proof. intros p. rewrite bool_decide_eq_false_2 by lia. done. Qed.

Lemma copied_mapped m d s n m' p k : mapped m s n -> copied m d s n m' -> mapped m p k -> mapped m' p k.
Proof. intros Hs Hc Hp q Hq. rewrite Hc. case_bool_decide; [apply Hs; lia|by apply Hp]. Qed.

Lemma copied_bytes m d s n m' : bytes_ok m -> copied m d s n m' -> bytes_ok m'.
Proof. intros Hb Hc p v. rewrite Hc. case_bool_decide; apply Hb. Qed.

Lemma mapped_sub m p n q k : mapped m p n -> p <= q -> q + k <= p + n -> mapped m q k.
Proof. intros Hm H1 H2 r Hr. apply Hm. lia. Qed.

(** Two adjacent copies, upwards and downwards. *)
Lemma copied_up m d s n k m1 m2 :
  d <= s \/ s + n + k <= d -> 0 <= n -> 0 <= k ->
  copied m d s n m1 -> copied m1 (d + n) (s + n) k m2 -> copied m d s (n + k) m2.
Proof.
  intros Hds Hn Hk H1 H2 p. rewrite H2. case_bool_decide as Hp.
  - rewrite H1, (bool_decide_eq_false_2 (d <= s + n + (p - (d + n)) < d + n)) by lia.
    rewrite bool_decide_eq_true_2 by lia. f_equal. lia.
  - rewrite H1. case_bool_decide; [by rewrite bool_decide_eq_true_2 by lia|by rewrite bool_decide_eq_false_2 by lia].
Qed.

Lemma copied_down m d s n k m1 m2 :
  s <= d \/ d + n + k <= s -> 0 <= n -> 0 <= k ->
  copied m (d + k) (s + k) n m1 -> copied m1 d s k m2 -> copied m d s (n + k) m2.
Proof.
  intros Hds Hn Hk H1 H2 p. rewrite H2. case_bool_decide as Hp.
  - rewrite H1, (bool_decide_eq_false_2 (d + k <= s + (p - d) < d + k + n)) by lia. by rewrite bool_decide_eq_true_2 by lia.
  - rewrite H1. case_bool_decide.
    + rewrite bool_decide_eq_true_2 by lia. f_equal. lia.
    + by rewrite bool_decide_eq_false_2 by lia.
Qed.

(** A routine that copies [n] bytes from [s] to [d]. *)
Definition copies (op : MM unit) (m : mem) (d s n : Z) : Prop := exists m', op m = Some (tt, m') /\ copied m d s n m'.

(** Memory that both ends of a copy are in. *)
Definition copyable (m : mem) (d s n : Z) : Prop := bytes_ok m /\ mapped m d n /\ mapped m s n.

Lemma copyable_sub m d s n i k : copyable m d s n -> 0 <= i -> i + k <= n -> copyable m (d + i) (s + i) k.
Proof. intros (Hb & Hd & Hs) Hi Hk. split_and!; [done|eapply mapped_sub; [exact Hd|lia|lia]|eapply mapped_sub; [exact Hs|lia|lia]]. Qed.

Lemma copyable_prefix m d s n k : copyable m d s n -> k <= n -> copyable m d s k.
Proof. intros (Hb & Hd & Hs) Hk. split_and!; [done|eapply mapped_sub; [exact Hd|lia|lia]|eapply mapped_sub; [exact Hs|lia|lia]]. Qed.

Lemma copyable_after m d s n m' d0 s0 k : copyable m d0 s0 k -> mapped m s n -> copied m d s n m' -> copyable m' d0 s0 k.
Proof.
  intros (Hb & Hd & Hs) Hsn Hc. split_and!; [by eapply copied_bytes|by eapply copied_mapped|by eapply copied_mapped].
Qed.

Lemma copies_seq_up op1 op2 m d s n k :
  d <= s \/ s + n + k <= d -> 0 <= n -> 0 <= k -> copyable m d s (n + k) ->
  copies op1 m d s n -> (forall m1, copyable m1 (d + n) (s + n) k -> copies op2 m1 (d + n) (s + n) k) ->
  copies (op1 ;; op2) m d s (n + k).
Proof.
  intros Hds Hn Hk Hm (m1 & Hr1 & Hc1) H2.
  assert (copyable m1 (d + n) (s + n) k) as Hm1.
  { eapply copyable_after; [apply (copyable_sub m d s (n + k)); [done|lia|lia]| |exact Hc1].
    eapply mapped_sub; [exact (proj2 (proj2 Hm))|lia|lia]. }
  destruct (H2 m1 Hm1) as (m2 & Hr2 & Hc2). exists m2. split; [by rewrite (bind_eq _ _ _ _ _ Hr1)|by eapply copied_up].
Qed.

Lemma copies_seq_down op1 op2 m d s n k :
  s <= d \/ d + n + k <= s -> 0 <= n -> 0 <= k -> copyable m d s (n + k) ->
  copies op1 m (d + k) (s + k) n -> (forall m1, copyable m1 d s k -> copies op2 m1 d s k) ->
  copies (op1 ;; op2) m d s (n + k).
Proof.
  intros Hds Hn Hk Hm (m1 & Hr1 & Hc1) H2.
  assert (copyable m1 d s k) as Hm1.
  { eapply copyable_after; [eapply copyable_prefix; [exact Hm|lia]| |exact Hc1]. eapply mapped_sub; [exact (proj2 (proj2 Hm))|lia|lia]. }
  destruct (H2 m1 Hm1) as (m2 & Hr2 & Hc2). exists m2. split; [by rewrite (bind_eq _ _ _ _ _ Hr1)|by eapply copied_down].
Qed.

Lemma copies_nothing m d s : copies (ret tt) m d s 0.
Proof. exists m. split; [done|apply copied_0]. Qed.

Lemma copies_byte m d s : copyable m d s 1 -> copies (c <- load8 s ;; store8 d c) m d s 1.
Proof.
  intros (Hb & Hd & Hs). destruct (Hs s ltac:(lia)) as [v Hv]. exists (<[d := v]> m). split.
  - rewrite (bind_eq _ _ _ _ _ (load8_eq _ _ _ Hv)), store8_eq by (apply Hd; lia). by rewrite u8_small by (by eapply Hb).
  - intros p. case_bool_decide as Hp.
    + replace p with d by lia. rewrite lookup_insert_eq, Z.sub_diag, Z.add_0_r. done.
    + apply lookup_insert_ne. lia.
Qed.

(** Words are read as a whole before they are written. *)
Lemma load_bytes_run n : forall m p, mapped m p (Z.of_nat n) ->
  exists l, load_bytes n p m = Some (l, m) /\ length l = n /\ forall i, (i < n)%nat -> m !! (p + Z.of_nat i) = l !! i.
Proof.
  induction n as [|n IH]; intros m p Hm; [exists []; by split_and!; [..|lia]|].
  destruct (Hm p ltac:(lia)) as [v Hv]. destruct (IH m (p + 1)) as (l & Hr & Hlen & Hl).
  { eapply mapped_sub; [exact Hm|lia|lia]. }
  exists (v :: l). split_and!; [|cbn; lia|].
  - cbn. by rewrite (bind_eq _ _ _ _ _ (load8_eq _ _ _ Hv)), (bind_eq _ _ _ _ _ Hr).
  - intros [|i] Hi; [by rewrite Z.add_0_r|]. cbn. rewrite <- Hl by lia. f_equal. lia.
Qed.

Lemma store_bytes_run l : forall m p, mapped m p (Z.of_nat (length l)) ->
  exists m', store_bytes p l m = Some (tt, m') /\
    forall q, m' !! q = if bool_decide (p <= q < p + Z.of_nat (length l)) then u8 <$> l !! Z.to_nat (q - p) else m !! q.
Proof.
  induction l as [|c l IH]; intros m p Hm; cbn [length] in Hm.
  { exists m. split; [done|]. intros q. rewrite bool_decide_eq_false_2 by (cbn; lia). done. }
  destruct (IH (<[p := u8 c]> m) (p + 1)) as (m' & Hr & Hm').
  { intros q Hq. rewrite lookup_insert_ne by lia. apply Hm. lia. }
  exists m'. split; [cbn; by rewrite (bind_eq _ _ _ _ _ (store8_eq m p c ltac:(apply Hm; lia)))|].
  intros q. rewrite Hm'. cbn [length]. case_bool_decide as Hq.
  - rewrite bool_decide_eq_true_2 by lia. by replace (Z.to_nat (q - p)) with (S (Z.to_nat (q - (p + 1)))) by lia.
  - destruct (decide (q = p)) as [->|Hne].
    + rewrite lookup_insert_eq, bool_decide_eq_true_2 by lia. by rewrite Z.sub_diag.
    + rewrite lookup_insert_ne by done. by rewrite bool_decide_eq_false_2 by lia.
Qed.

Lemma copies_word m d s : copyable m d s 8 -> aligned d = true -> aligned s = true -> copies (copy_word d s) m d s 8.
Proof.
  intros (Hb & Hd & Hs) Had Has. destruct (load_bytes_run 8 m s Hs) as (l & Hr & Hlen & Hl).
  destruct (store_bytes_run l m d) as (m' & Hr' & Hm'); [by rewrite Hlen|]. exists m'. split.
  - unfold copy_word. rewrite assert_bind by (by rewrite Had, Has). change (Z.to_nat lsize) with 8%nat. by rewrite (bind_eq _ _ _ _ _ Hr).
  - intros p. rewrite Hm', Hlen. change (Z.of_nat 8) with 8. case_bool_decide as Hp; [|done].
    replace (s + (p - d)) with (s + Z.of_nat (Z.to_nat (p - d))) by lia. rewrite Hl by lia.
    destruct (l !! Z.to_nat (p - d)) as [v|] eqn:Hv; [|done]. cbn. f_equal. apply u8_small. apply (Hb (s + (p - d))).
    rewrite <- Hv, <- Hl by lia. f_equal. lia.
Qed.

Lemma copy_bytes_up_run n : forall m d s, d <= s \/ s + Z.of_nat n <= d -> copyable m d s (Z.of_nat n) -> copies (copy_bytes_up n d s) m d s (Z.of_nat n).
Proof.
  induction n as [|n IH]; intros m d s Hds Hm; [apply copies_nothing|].
  replace (Z.of_nat (S n)) with (1 + Z.of_nat n) in * by lia. cbn [copy_bytes_up].
  destruct (copies_seq_up (c <- load8 s ;; store8 d c) (copy_bytes_up n (d + 1) (s + 1)) m d s 1 (Z.of_nat n)) as (m' & Hr & Hc); try lia; try done.
  - apply copies_byte. eapply copyable_prefix; [exact Hm|lia].
  - intros m1 Hm1. apply IH; [lia|done].
  - exists m'. by rewrite bind_assoc in Hr.
Qed.

Lemma land_lmask p : Z.land p lmask = p mod 8.
Proof. exact (Z.land_ones p 3 ltac:(lia)). Qed.

Lemma aligned_mod p : aligned p = true <-> p mod 8 = 0.
Proof. unfold aligned. rewrite land_lmask. apply Z.eqb_eq. Qed.

Lemma lor_aligned d s : Z.land (Z.lor d s) lmask = 0 <-> aligned d = true /\ aligned s = true.
Proof. unfold aligned. rewrite Z.land_lor_distr_l, Z.lor_eq_0_iff, !Z.eqb_eq. done. Qed.

Lemma lxor_aligned d s : Z.land (Z.lxor d s) lmask = 0 <-> d mod 8 = s mod 8.
Proof.
  assert (Z.land (Z.lxor d s) lmask = Z.lxor (Z.land d lmask) (Z.land s lmask)) as ->.
  { apply Z.bits_inj'. intros i Hi. rewrite !Z.land_spec, !Z.lxor_spec, !Z.land_spec. by destruct (Z.testbit d i), (Z.testbit s i), (Z.testbit lmask i). }
  rewrite !land_lmask. split; [apply Z.lxor_eq|intros ->; apply Z.lxor_nilpotent].
Qed.

Lemma copy_words_up_run n : forall m d s, d <= s \/ s + 8 * Z.of_nat n <= d -> aligned d = true -> aligned s = true ->
  copyable m d s (8 * Z.of_nat n) -> copies (copy_words_up n d s) m d s (8 * Z.of_nat n).
Proof.
  induction n as [|n IH]; intros m d s Hds Hd Hs Hm; [apply copies_nothing|].
  replace (8 * Z.of_nat (S n)) with (8 + 8 * Z.of_nat n) in * by lia. apply copies_seq_up; try lia; try done.
  - apply copies_word; [eapply copyable_prefix; [exact Hm|lia]|done|done].
  - intros m1 Hm1. unfold lsize. apply IH; [lia| | |done]; rewrite aligned_mod in *; rewrite Z.add_mod by lia; [by rewrite Hd|by rewrite Hs].
Qed.

Lemma copyable_suffix m d s n k : copyable m d s (n + k) -> 0 <= n -> 0 <= k -> copyable m (d + k) (s + k) n.
Proof. intros Hm Hn Hk. apply (copyable_sub m d s (n + k)); [done|lia|lia]. Qed.

Lemma copy_bytes_down_run n : forall m d s, s <= d \/ d + Z.of_nat n <= s -> copyable m d s (Z.of_nat n) ->
  copies (copy_bytes_down n (d + Z.of_nat n) (s + Z.of_nat n)) m d s (Z.of_nat n).
Proof.
  induction n as [|n IH]; intros m d s Hds Hm; [apply copies_nothing|]. replace (Z.of_nat (S n)) with (1 + Z.of_nat n) in * by lia. cbn [copy_bytes_down].
  replace (d + (1 + Z.of_nat n) - 1) with (d + Z.of_nat n) by lia. replace (s + (1 + Z.of_nat n) - 1) with (s + Z.of_nat n) by lia.
  destruct (copies_seq_down (c <- load8 (s + Z.of_nat n) ;; store8 (d + Z.of_nat n) c) (copy_bytes_down n (d + Z.of_nat n) (s + Z.of_nat n)) m d s 1 (Z.of_nat n))
    as (m' & Hr & Hc); try lia; try done.
  - apply copies_byte, copyable_suffix; [done|lia|lia].
  - intros m1 Hm1. apply IH; [lia|done].
  - exists m'. by rewrite bind_assoc in Hr.
Qed.

Lemma copy_words_down_run n : forall m d s, s <= d \/ d + 8 * Z.of_nat n <= s -> aligned d = true -> aligned s = true ->
  copyable m d s (8 * Z.of_nat n) -> copies (copy_words_down n (d + 8 * Z.of_nat n) (s + 8 * Z.of_nat n)) m d s (8 * Z.of_nat n).
Proof.
  induction n as [|n IH]; intros m d s Hds Hd Hs Hm; [apply copies_nothing|]. replace (8 * Z.of_nat (S n)) with (8 + 8 * Z.of_nat n) in * by lia.
  cbn [copy_words_down]. unfold lsize. replace (d + (8 + 8 * Z.of_nat n) - 8) with (d + 8 * Z.of_nat n) by lia.
  replace (s + (8 + 8 * Z.of_nat n) - 8) with (s + 8 * Z.of_nat n) by lia. apply copies_seq_down; try lia; try done.
  - apply copies_word; [apply copyable_suffix; [done|lia|lia]| |]; rewrite aligned_mod in *; rewrite (Z.mul_comm 8), Z.mod_add by lia; done.
  - intros m1 Hm1. apply IH; [lia|done|done|done].
Qed.

Lemma prologue_ok d s count small rest :
  0 < count < 2 ^ 31 -> (small = false -> rest <= count) -> 0 <= rest <= 8 ->
  0 <= prologue d s count small rest <= count /\
  (prologue d s count small rest = count \/
   aligned d = true /\ aligned s = true /\ prologue d s count small rest = 0 \/
   d mod 8 = s mod 8 /\ prologue d s count small rest = rest).
Proof.
  intros Hc Hs Hr. unfold prologue. rewrite !i32_small by (unfold INT_MIN, INT_MAX; lia).
  destruct (Z.eqb_spec (Z.land (Z.lor d s) lmask) 0) as [Ha|Ha]; cbn [negb].
  - apply lor_aligned in Ha as [? ?]. split; [lia|auto].
  - destruct (Z.eqb_spec (Z.land (Z.lxor d s) lmask) 0) as [Hx|Hx]; cbn [negb orb]; [|split; [lia|by left]].
    destruct small; [split; [lia|by left]|]. apply lxor_aligned in Hx. specialize (Hs eq_refl). split; [lia|auto].
Qed.

Lemma copies_zero op m d s : op m = Some (tt, m) -> copies op m d s 0.
Proof. intros Hr. exists m. split; [done|apply copied_0]. Qed.

(** What follows the prologue: words, then the bytes that are left. *)
Lemma words_split count : 0 <= count < 2 ^ 31 -> i32 (count / lsize) = count / 8 /\ Z.land count lmask = count mod 8 /\ count = 8 * (count / 8) + count mod 8 /\ 0 <= count / 8.
Proof.
  intros Hc. rewrite land_lmask. unfold lsize. pose proof (Z.div_mod count 8 ltac:(lia)). pose proof (Z.mod_pos_bound count 8 ltac:(lia)).
  rewrite i32_small by (unfold INT_MIN, INT_MAX; lia). lia.
Qed.

Lemma words_up_run m d s count :
  d <= s \/ s + count <= d -> 0 <= count < 2 ^ 31 -> count = 0 \/ aligned d = true /\ aligned s = true -> copyable m d s count ->
  copies (copy_words_up (Z.to_nat (i32 (count / lsize))) d s ;;
          copy_bytes_up (Z.to_nat (Z.land count lmask)) (d + lsize * Z.max 0 (i32 (count / lsize))) (s + lsize * Z.max 0 (i32 (count / lsize)))) m d s count.
Proof.
  intros Hds Hc Ha Hm. destruct (words_split count Hc) as (-> & -> & Heq & Hq). pose proof (Z.mod_pos_bound count 8 ltac:(lia)) as Hr.
  destruct Ha as [->|[Hd Hs]]; [by apply copies_zero|]. set (q := count / 8) in *. set (r := count mod 8) in *. clearbody q r. subst count.
  rewrite Z.max_r by lia. unfold lsize. assert (8 * q = 8 * Z.of_nat (Z.to_nat q)) as Eq by lia. rewrite !Eq in *. apply copies_seq_up; try lia; [done| |].
  - apply copy_words_up_run; [lia|done|done|]. eapply copyable_prefix; [exact Hm|lia].
  - intros m1 Hm1. assert (r = Z.of_nat (Z.to_nat r)) as Er by lia. rewrite Er in Hm1 |- *. rewrite Nat2Z.id. apply copy_bytes_up_run; [lia|exact Hm1].
Qed.

Lemma words_down_run m d s count :
  s <= d \/ d + count <= s -> 0 <= count < 2 ^ 31 -> count = 0 \/ aligned (d + count) = true /\ aligned (s + count) = true -> copyable m d s count ->
  copies (copy_words_down (Z.to_nat (i32 (count / lsize))) (d + count) (s + count) ;;
          copy_bytes_down (Z.to_nat (Z.land count lmask)) (d + count - lsize * Z.max 0 (i32 (count / lsize))) (s + count - lsize * Z.max 0 (i32 (count / lsize)))) m d s count.
Proof.
  intros Hds Hc Ha Hm. destruct (words_split count Hc) as (-> & -> & Heq & Hq). pose proof (Z.mod_pos_bound count 8 ltac:(lia)) as Hr.
  destruct Ha as [->|[Hd Hs]]; [by apply copies_zero|]. set (q := count / 8) in *. set (r := count mod 8) in *. clearbody q r. subst count.
  rewrite Z.max_r by lia. unfold lsize. assert (8 * q = 8 * Z.of_nat (Z.to_nat q)) as Eq by lia. rewrite !Eq in *.
  assert (r = Z.of_nat (Z.to_nat r)) as Er by lia. apply copies_seq_down; try lia; [done| |].
  - rewrite !(Z.add_comm (8 * _) r), !Z.add_assoc. apply copy_words_down_run; [lia| | |].
    + rewrite aligned_mod in *. rewrite <- (Z.mod_add (d + r) (Z.of_nat (Z.to_nat q))) by lia. rewrite <- Hd. f_equal. lia.
    + rewrite aligned_mod in *. rewrite <- (Z.mod_add (s + r) (Z.of_nat (Z.to_nat q))) by lia. rewrite <- Hs. f_equal. lia.
    + apply copyable_suffix; [exact Hm|lia|lia].
  - intros m1 Hm1. rewrite Er in Hm1 |- *. rewrite Nat2Z.id.
    replace (d + (8 * Z.of_nat (Z.to_nat q) + Z.of_nat (Z.to_nat r)) - 8 * Z.of_nat (Z.to_nat q)) with (d + Z.of_nat (Z.to_nat r)) by lia.
    replace (s + (8 * Z.of_nat (Z.to_nat q) + Z.of_nat (Z.to_nat r)) - 8 * Z.of_nat (Z.to_nat q)) with (s + Z.of_nat (Z.to_nat r)) by lia.
    apply copy_bytes_down_run; [lia|exact Hm1].
Qed.

Lemma copies_eq op m d s n n' : n = n' -> copies op m d s n -> copies op m d s n'.
Proof. by intros ->. Qed.

Lemma bytes_up_run m d s n : 0 <= n -> d <= s \/ s + n <= d -> copyable m d s n -> copies (copy_bytes_up (Z.to_nat n) d s) m d s n.
Proof. intros Hn. rewrite <- (Z2Nat.id n) at 1 2 4 by done. apply copy_bytes_up_run. Qed.

Lemma bytes_down_run m d s d' s' n : 0 <= n -> d' = d + n -> s' = s + n -> s <= d \/ d + n <= s -> copyable m d s n ->
  copies (copy_bytes_down (Z.to_nat n) d' s') m d s n.
Proof. intros Hn -> ->. rewrite <- (Z2Nat.id n) at 1 2 4 5 6 by done. apply copy_bytes_down_run. Qed.

Lemma mod8_add_sub x : x mod 8 <= 8 -> aligned (x + (8 - x mod 8)) = true.
Proof.
  intros _. apply aligned_mod. pose proof (Z.div_mod x 8 ltac:(lia)). replace (x + (8 - x mod 8)) with (0 + (x / 8 + 1) * 8) by lia. by rewrite Z.mod_add.
Qed.

Lemma mod8_sub x : aligned (x - x mod 8) = true.
Proof.
  apply aligned_mod. pose proof (Z.div_mod x 8 ltac:(lia)). replace (x - x mod 8) with (0 + (x / 8) * 8) by lia. by rewrite Z.mod_add.
Qed.

Lemma copy_forward_run m d s count :
  d <= s \/ s + count <= d -> 0 < count < 2 ^ 31 -> copyable m d s count -> copies (copy_forward d s count) m d s count.
Proof.
  intros Hds Hc Hm. unfold copy_forward. pose proof (Z.mod_pos_bound d 8 ltac:(lia)) as Hdm. rewrite land_lmask.
  destruct (prologue_ok d s count (count <? lsize) (lsize - d mod 8)) as [Hlen Hcase]; unfold lsize in *; [lia|rewrite Z.ltb_ge; lia|lia|].
  set (len := prologue _ _ _ _ _) in *. clearbody len. cbn zeta. rewrite u64_small, (Z.max_r 0 len) by lia.
  apply (copies_eq _ _ _ _ (len + (count - len))); [lia|].
  assert (copyable m d s (len + (count - len))) as Hm' by (by replace (len + (count - len)) with count by lia). apply copies_seq_up; try lia; [done| |].
  - apply bytes_up_run; [lia|lia|]. eapply copyable_prefix; [exact Hm|lia].
  - intros m1 Hm1. apply words_up_run; [lia|lia| |done]. destruct Hcase as [->|[(Ha & Hb & ->)|[Hxy Hl]]]; [left; lia|right|right].
    + by rewrite !Z.add_0_r.
    + rewrite Hl. split; [by apply mod8_add_sub; lia|]. rewrite Hxy. apply mod8_add_sub. lia.
Qed.

Lemma copy_backward_run m d s count :
  s <= d \/ d + count <= s -> 0 < count < 2 ^ 31 -> copyable m d s count -> copies (copy_backward d s count) m d s count.
Proof.
  intros Hds Hc Hm. unfold copy_backward. pose proof (Z.mod_pos_bound (d + count) 8 ltac:(lia)) as Hdm. rewrite land_lmask.
  destruct (prologue_ok (d + count) (s + count) count (count <=? lsize) ((d + count) mod 8)) as [Hlen Hcase]; unfold lsize in *; [lia|rewrite Z.leb_gt; lia|lia|].
  set (len := prologue _ _ _ _ _) in *. clearbody len. cbn zeta. rewrite u64_small, (Z.max_r 0 len) by lia.
  apply (copies_eq _ _ _ _ (len + (count - len))); [lia|].
  assert (copyable m d s (len + (count - len))) as Hm' by (by replace (len + (count - len)) with count by lia).
  replace (d + count - len) with (d + (count - len)) by lia. replace (s + count - len) with (s + (count - len)) by lia.
  apply copies_seq_down; try lia; [done| |].
  - apply bytes_down_run; try lia. apply copyable_suffix; [done|lia|lia].
  - intros m1 Hm1. apply words_down_run; [lia|lia| |done]. destruct Hcase as [->|[(Ha & Hb & ->)|[Hxy Hl]]]; [left; lia|right|right].
    + by rewrite Z.sub_0_r.
    + rewrite Hl at 1. rewrite Z.add_sub_assoc. split; [apply mod8_sub|]. rewrite Hl, Hxy, Z.add_sub_assoc. apply mod8_sub.
Qed.

(** C34: for counts below 2^31 (what the int of the byte loops holds; see
    [memcpy_large_misaligned] for 2^31), [memcpy] between memory that does not overlap
    (or to lower addresses) and [memmove] between any memory move [count] bytes and
    change nothing else, however the pointers are aligned; every word access is aligned
    and every access is inside the two ranges. *)
Theorem memcpy_memmove_copy m dest src count :
  0 <= count < 2 ^ 31 -> copyable m dest src count ->
  (exists m', memmove dest src count m = Some (dest, m') /\ copied m dest src count m') /\
  (dest <= src \/ src + count <= dest -> exists m', memcpy dest src count m = Some (dest, m') /\ copied m dest src count m').
Proof.
  intros Hc Hm. assert (dest = src \/ count = 0 -> copied m dest src count m) as Hself.
  { intros [->| ->] p; [case_bool_decide; [f_equal; lia|done]|apply copied_0]. }
  assert (forall op, copies op m dest src count -> exists m', bind op (fun _ => ret dest) m = Some (dest, m') /\ copied m dest src count m') as Hop.
  { intros op (m' & Hr & Hc'). exists m'. by rewrite (bind_eq _ _ _ _ _ Hr). }
  unfold memmove, memcpy. destruct ((count =? 0) || (dest =? src)) eqn:He.
  - apply orb_true_iff in He. rewrite !Z.eqb_eq in He. split; [|intros _]; exists m; (split; [done|apply Hself; tauto]).
  - apply orb_false_iff in He as [Hc0%Z.eqb_neq Hne%Z.eqb_neq]. split; [|intros Hds; apply Hop, copy_forward_run; [done|lia|done]].
    destruct (Z.ltb_spec dest src); apply Hop; [apply copy_forward_run|apply copy_backward_run]; try done; lia.
Qed.

(** ** Filling *)
Definition filled (m : mem) (p n c : Z) (m' : mem) : Prop :=
  forall q, m' !! q = if bool_decide (p <= q < p + n) then Some (u8 c) else m !! q.
Definition fills (op : MM unit) (m : mem) (p n c : Z) : Prop := exists m', op m = Some (tt, m') /\ filled m p n c m'.

Lemma fills_seq op1 op2 m p n k c :
  0 <= n -> 0 <= k -> mapped m p (n + k) -> fills op1 m p n c -> (forall m1, mapped m1 (p + n) k -> fills op2 m1 (p + n) k c) ->
  fills (op1 ;; op2) m p (n + k) c.
Proof.
  intros Hn Hk Hm (m1 & Hr1 & H1) H2. destruct (H2 m1) as (m2 & Hr2 & Hf2).
  { intros q Hq. rewrite H1. case_bool_decide; [by eexists|apply Hm; lia]. }
  exists m2. split; [by rewrite (bind_eq _ _ _ _ _ Hr1)|]. intros q. rewrite Hf2, H1.
  case_bool_decide; [by rewrite bool_decide_eq_true_2 by lia|]. case_bool_decide; [by rewrite bool_decide_eq_true_2 by lia|by rewrite bool_decide_eq_false_2 by lia].
Qed.

Lemma fills_nothing m p c : fills (ret tt) m p 0 c.
Proof. exists m. split; [done|]. intros q. by rewrite bool_decide_eq_false_2 by lia. Qed.

Lemma set_bytes_run n : forall m p c, mapped m p (Z.of_nat n) -> fills (set_bytes n p c) m p (Z.of_nat n) c.
Proof.
  induction n as [|n IH]; intros m p c Hm; [apply fills_nothing|]. replace (Z.of_nat (S n)) with (1 + Z.of_nat n) in * by lia.
  cbn [set_bytes]. apply fills_seq; try lia; [done| |intros m1; apply IH]. exists (<[p := u8 c]> m).
  split; [apply store8_eq, Hm; lia|]. intros q. case_bool_decide as Hq; [replace q with p by lia; apply lookup_insert_eq|apply lookup_insert_ne; lia].
Qed.

Lemma bytes_fill_run n m p c : 0 <= n -> mapped m p n -> fills (set_bytes (Z.to_nat n) p c) m p n c.
Proof. intros Hn. rewrite <- (Z2Nat.id n) at 1 3 by done. apply set_bytes_run. Qed.

Definition spread (cc : Z) : Z :=
  let cc := u64 (Z.lor cc (Z.shiftl cc 8)) in let cc := u64 (Z.lor cc (Z.shiftl cc 16)) in u64 (Z.lor cc (Z.shiftl cc 32)).

Lemma spread_bytes c : 0 <= c < 256 -> word_bytes (spread c) = replicate 8 c.
Proof.
  assert (forallb (fun c => bool_decide (word_bytes (spread c) = replicate 8 c)) (seqZ 0 256) = true) as H by (vm_compute; reflexivity).
  intros Hc. rewrite forallb_forall in H. specialize (H c). rewrite bool_decide_eq_true in H. apply H, list_elem_of_In, elem_of_seqZ. lia.
Qed.

Lemma u8_land c : u8 c = Z.land c 0xff.
Proof. symmetry. exact (Z.land_ones c 8 ltac:(lia)). Qed.

Lemma set_words_run n : forall m p c, aligned p = true -> mapped m p (8 * Z.of_nat n) ->
  fills (set_words n p (spread (Z.land c 0xff))) m p (8 * Z.of_nat n) c.
Proof.
  induction n as [|n IH]; intros m p c Ha Hm; [apply fills_nothing|]. replace (8 * Z.of_nat (S n)) with (8 + 8 * Z.of_nat n) in * by lia.
  assert (0 <= u8 c < 256) as Hc by (apply Z.mod_pos_bound; lia).
  destruct (fills_seq (store_bytes p (word_bytes (spread (Z.land c 255)))) (set_words n (p + lsize) (spread (Z.land c 255))) m p 8 (8 * Z.of_nat n) c)
    as (m' & Hr & Hf); try lia; try done.
  - rewrite <- u8_land, spread_bytes by done.
    destruct (store_bytes_run (replicate 8 (u8 c)) m p) as (m' & Hr & Hm'); [eapply mapped_sub; [exact Hm|lia|cbn; lia]|].
    exists m'. split; [done|]. intros q. rewrite Hm'. rewrite length_replicate. change (Z.of_nat 8) with 8. case_bool_decide as Hq; [|done].
    rewrite lookup_replicate_2 by lia. cbn. by rewrite u8_small.
  - intros m1 Hm1. apply IH; [|done]. unfold lsize. rewrite aligned_mod in *. rewrite Z.add_mod by lia. by rewrite Ha.
  - exists m'. split; [|done]. cbn [set_words]. by rewrite assert_bind.
Qed.

(** [memset] writes the low byte of [c] to each of the [count] bytes and
    changes nothing else, also where it writes whole words. *)
Theorem memset_fills m s c count :
  0 <= count -> mapped m s count -> exists m', memset s c count m = Some (s, m') /\ filled m s count c m'.
Proof.
  intros Hc Hm. assert (forall op, fills op m s count c -> exists m', bind op (fun _ => ret s) m = Some (s, m') /\ filled m s count c m') as Hop.
  { intros op (m' & Hr & Hf). exists m'. by rewrite (bind_eq _ _ _ _ _ Hr). }
  unfold memset. rewrite land_lmask. assert (u64 (- s) mod 8 = (- s) mod 8) as ->.
  { unfold u64. change (2 ^ 64) with (8 * 2 ^ 61). rewrite Z.rem_mul_r by lia. rewrite (Z.mul_comm 8 (_ mod 2 ^ 61)), Z.mod_add by lia. apply Z.mod_mod. lia. }
  pose proof (Z.mod_pos_bound (- s) 8 ltac:(lia)) as Hl. set (len := (- s) mod 8) in *. assert (aligned (s + len) = true) as Ha.
  { apply aligned_mod. unfold len. rewrite Zplus_mod_idemp_r. by replace (s + - s) with 0 by lia. }
  clearbody len. apply Hop. rewrite Z.gtb_ltb. destruct (Z.ltb_spec len count) as [Hgt|Hle]; [|by apply bytes_fill_run].
  cbn zeta. fold (spread (Z.land c 255)). unfold lsize. rewrite land_lmask. pose proof (Z.div_mod (count - len) 8 ltac:(lia)) as Hdm.
  pose proof (Z.mod_pos_bound (count - len) 8 ltac:(lia)) as Hr. pose proof (Z.div_pos (count - len) 8 ltac:(lia) ltac:(lia)) as Hq.
  set (q := (count - len) / 8) in *. set (r := (count - len) mod 8) in *. clearbody q r. replace count with (len + (8 * q + r)) in * by lia.
  apply fills_seq; try lia; [done|apply bytes_fill_run; [lia|eapply mapped_sub; [exact Hm|lia|lia]]|]. intros m1 Hm1.
  apply fills_seq; try lia; [done| |intros m2 Hm2; apply bytes_fill_run; [lia|done]]. rewrite <- (Z2Nat.id q) at 2 by lia. apply set_words_run; [done|].
  rewrite Z2Nat.id by lia. eapply mapped_sub; [exact Hm1|lia|lia].
Qed.

(** The [int] the routines count with does not hold 2 GB: for pointers that never
    reach a word boundary together, the byte loop is skipped and [count] becomes
    4 GB, to be copied as words at addresses that are not word boundaries. *)
Theorem memcpy_large_misaligned m dest src :
  dest mod 8 <> src mod 8 -> memcpy dest src (2 ^ 31) m = None.
Proof.
  intros Hne. unfold memcpy. destruct (Z.eqb_spec dest src) as [->|_]; [done|]. change (2 ^ 31 =? 0) with false. cbn [orb].
  unfold copy_forward. assert (prologue dest src (2 ^ 31) (2 ^ 31 <? lsize) (lsize - Z.land dest lmask) = - 2 ^ 31) as ->.
  { unfold prologue. assert (Z.land (Z.lxor dest src) lmask <> 0) as Hx by (by rewrite lxor_aligned).
    rewrite (proj2 (Z.eqb_neq _ _) Hx). destruct (Z.eqb_spec (Z.land (Z.lor dest src) lmask) 0) as [[Hd%aligned_mod Hs%aligned_mod]%lor_aligned|]; [congruence|].
    reflexivity. }
  cbn zeta. change (Z.to_nat (- 2 ^ 31)) with 0%nat. change (i32 (u64 (2 ^ 31 - - 2 ^ 31) / lsize)) with (2 ^ 29). rewrite Z.max_l, !Z.add_0_r by lia.
  cbn [copy_bytes_up]. unfold bind at 1. rewrite ret_bind. replace (Z.to_nat (2 ^ 29)) with (S (Z.to_nat (2 ^ 29 - 1))) by lia.
  cbn [copy_words_up]. unfold copy_word. destruct (aligned dest && aligned src) eqn:Ha; [|done].
  apply andb_true_iff in Ha as [Hd%aligned_mod Hs%aligned_mod]. congruence.
Qed.

(** ** Witnesses *)
Definition bytes_at (p : Z) (l : list Z) : mem := list_to_map (zip (seqZ p (Z.of_nat (length l))) l).

Lemma mapped_check m p n : forallb (fun q => bool_decide (is_Some (m !! q))) (seqZ p n) = true -> mapped m p n.
Proof.
  intros H q Hq. rewrite forallb_forall in H. specialize (H q). rewrite bool_decide_eq_true in H. apply H, list_elem_of_In, elem_of_seqZ. lia.
Qed.

Lemma bytes_check m : forallb (fun x => bool_decide (0 <= x.2 < 256)) (map_to_list m) = true -> bytes_ok m.
Proof.
  intros H p v Hv. rewrite forallb_forall in H. specialize (H (p, v)). rewrite bool_decide_eq_true in H. by apply H, list_elem_of_In, elem_of_map_to_list.
Qed.

Definition forty : mem := bytes_at 1000 (seqZ 1 40).

Lemma memcpy_memmove_copy_witness :
  exists m', memmove 1003 1000 21 forty = Some (1003, m') /\ copied forty 1003 1000 21 m'.
Proof.
  assert (copyable forty 1003 1000 21) as Hm
    by (split_and!; [apply bytes_check; vm_compute; reflexivity|apply mapped_check; vm_compute; reflexivity|apply mapped_check; vm_compute; reflexivity]).
  exact (proj1 (memcpy_memmove_copy forty 1003 1000 21 ltac:(lia) Hm)).
Defined.

Lemma memset_fills_witness : exists m', memset 1003 300 21 forty = Some (1003, m') /\ filled forty 1003 21 300 m'.
Proof. apply (memset_fills forty 1003 300 21); [lia|apply mapped_check; vm_compute; reflexivity]. Defined.
