(* ===== verification/LibcStr.v ===== *)
(** * Strings (lib/libc/string, ctype.c)

    A string is a run of non-zero bytes with a zero behind it. The loops that go on
    to the end of a string run on fuel, one round per byte of the memory and one
    more, which is enough for any string that lies in it. *)
From stdpp Require Import base gmap list.
From Stdlib Require Import ZArith Lia.
From S2P Require Import Prelude LibcMem.

Local Open Scope Z_scope.
Local Open Scope lk_scope.

Definition str_fuel : MM nat := gets (fun m => S (size m)).

(** Whether plain [char] is signed is the compiler's choice. *)
Class CharSign := char_signed : bool.
Definition to_char `{CharSign} (b : Z) : Z := if char_signed && (128 <=? b) then b - 256 else b.

(** ** ctype.c *)
Definition isblank (c : Z) : bool := (c =? 32) || (c =? 9).
Definition isspace (c : Z) : bool := (c =? 32) || (c =? 12) || (c =? 10) || (c =? 13) || (c =? 9) || (c =? 11).
Definition islower (c : Z) : bool := (c >=? 97) && (c <=? 122).
Definition isupper (c : Z) : bool := (c >=? 65) && (c <=? 90).
Definition isdigit (c : Z) : bool := (c >=? 48) && (c <=? 57).
Definition isalpha (c : Z) : bool := isupper c || islower c.
Definition isalnum (c : Z) : bool := isalpha c || isdigit c.
Definition isxdigit (c : Z) : bool := isdigit c || ((c >=? 97) && (c <=? 102)) || ((c >=? 65) && (c <=? 70)).
Definition isgraph (c : Z) : bool := (c >? 32) && (c <? 0x7f).
Definition iscntrl (c : Z) : bool := (c <? 32) || (c =? 0x7f).
Definition isprint (c : Z) : bool := (c >=? 0x20) && (c <? 0x7f).
Definition ispunct (c : Z) : bool := isgraph c && negb (isalnum c).
Definition tolower (c : Z) : Z := if (c >=? 65) && (c <=? 90) then c + (97 - 65) else c.
Definition toupper (c : Z) : Z := if (c >=? 97) && (c <=? 122) then c + (65 - 97) else c.

(** ** Lengths *)
Fixpoint strlen_from (fuel : nat) (s i : Z) : MM Z :=
  match fuel with
  | O => panic
  | S fuel => c <- load8 (s + i) ;; if c =? 0 then ret i else strlen_from fuel s (i + 1)
  end.
Definition strlen (s : Z) : MM Z := fuel <- str_fuel ;; strlen_from fuel s 0.

Fixpoint strnlen_from (fuel : nat) (sc count : Z) : MM Z :=
  if count =? 0 then ret sc
  else
    match fuel with
    | O => panic
    | S fuel => c <- load8 sc ;; if c =? 0 then ret sc else strnlen_from fuel (sc + 1) (count - 1)
    end.
Definition strnlen (s count : Z) : MM Z := fuel <- str_fuel ;; sc <- strnlen_from fuel s count ;; ret (sc - s).

(** ** Copying *)
Fixpoint strcpy_from (fuel : nat) (dest src : Z) : MM unit :=
  match fuel with
  | O => panic
  | S fuel => c <- load8 src ;; store8 dest c ;; if c =? 0 then ret tt else strcpy_from fuel (dest + 1) (src + 1)
  end.
Definition strcpy (dest src : Z) : MM Z := fuel <- str_fuel ;; strcpy_from fuel dest src ;; ret dest.

Fixpoint strncpy_from (fuel : nat) (dest src count : Z) : MM unit :=
  if count =? 0 then ret tt
  else
    match fuel with
    | O => panic
    | S fuel => c <- load8 src ;; store8 dest c ;; if c =? 0 then ret tt else strncpy_from fuel (dest + 1) (src + 1) (count - 1)
    end.
Definition strncpy (dest src count : Z) : MM Z := fuel <- str_fuel ;; strncpy_from fuel dest src count ;; ret dest.

(** To the end of a string. *)
Fixpoint skip_string (fuel : nat) (dest : Z) : MM Z :=
  match fuel with
  | O => panic
  | S fuel => c <- load8 dest ;; if c =? 0 then ret dest else skip_string fuel (dest + 1)
  end.

Definition strcat (dest src : Z) : MM Z :=
  fuel <- str_fuel ;; d <- skip_string fuel dest ;; strcpy_from fuel d src ;; ret dest.

Fixpoint strncat_from (fuel : nat) (dest src count : Z) : MM unit :=
  match fuel with
  | O => panic
  | S fuel =>
      c <- load8 src ;; store8 dest c ;;
      if c =? 0 then ret tt
      else if count - 1 =? 0 then store8 (dest + 1) 0
      else strncat_from fuel (dest + 1) (src + 1) (count - 1)
  end.
Definition strncat (dest src count : Z) : MM Z :=
  (if count >? 0 then fuel <- str_fuel ;; d <- skip_string fuel dest ;; strncat_from fuel d src count else ret tt) ;;
  ret dest.

(** The loop that [strlcpy] and [strlcat] share: the number of bytes copied. *)
Fixpoint strl_copy (fuel : nat) (dst src s i : Z) : MM Z :=
  if i <? s - 1 then
    match fuel with
    | O => panic
    | S fuel =>
        c <- load8 (src + i) ;;
        if c =? 0 then ret i else store8 (dst + i) c ;; strl_copy fuel dst src s (i + 1)
    end
  else ret i.

Definition strlcpy (dst src s : Z) : MM Z :=
  if s =? 0 then strlen src
  else
    fuel <- str_fuel ;;
    i <- strl_copy fuel dst src s 0 ;;
    store8 (dst + i) 0 ;;
    n <- strlen (src + i) ;;
    ret (i + n).

Definition strlcat (dst src s : Z) : MM Z :=
  j <- strnlen dst s ;;
  if s =? 0 then n <- strlen src ;; ret (j + n)
  else
    let dst := dst + j in
    fuel <- str_fuel ;;
    i <- strl_copy fuel dst src s 0 ;;
    store8 (dst + i) 0 ;;
    n <- strlen (src + i) ;;
    ret (j + i + n).

Definition strdup (malloc : Z -> MM Z) (str : Z) : MM Z :=
  n <- strlen str ;;
  copy <- malloc (n + 1) ;;
  if copy =? 0 then ret 0 else memcpy copy str (n + 1) ;; ret copy.

Definition strxfrm (dest src n : Z) : MM Z :=
  len <- strlen src ;;
  (if negb (n =? 0) then
     let copy_len := if len <? n then len else n - 1 in
     memcpy dest src copy_len ;; store8 (dest + copy_len) 0
   else ret tt) ;;
  ret len.

(** ** Comparing *)
Fixpoint strcmp_from (fuel : nat) (su1 su2 : Z) : MM Z :=
  match fuel with
  | O => panic
  | S fuel =>
      a <- load8 su1 ;; b <- load8 su2 ;;
      if negb (a - b =? 0) || (a =? 0) then ret (a - b) else strcmp_from fuel (su1 + 1) (su2 + 1)
  end.
Definition strcmp (cs ct : Z) : MM Z := fuel <- str_fuel ;; strcmp_from fuel cs ct.
Definition strcoll (s1 s2 : Z) : MM Z := strcmp s1 s2.

Fixpoint strncmp_from (fuel : nat) (su1 su2 count res : Z) : MM Z :=
  if count >? 0 then
    match fuel with
    | O => panic
    | S fuel =>
        a <- load8 su1 ;; b <- load8 su2 ;;
        if negb (a - b =? 0) || (a =? 0) then ret (a - b) else strncmp_from fuel (su1 + 1) (su2 + 1) (count - 1) (a - b)
    end
  else ret res.
Definition strncmp (cs ct count : Z) : MM Z := fuel <- str_fuel ;; strncmp_from fuel cs ct count 0.

Fixpoint strnicmp_from (fuel : nat) (s1 s2 len : Z) : MM Z :=
  match fuel with
  | O => panic
  | S fuel =>
      c1 <- load8 s1 ;; c2 <- load8 s2 ;;
      if (c1 =? 0) || (c2 =? 0) then ret (c1 - c2)
      else
        let next c1 c2 := if len - 1 =? 0 then ret (c1 - c2) else strnicmp_from fuel (s1 + 1) (s2 + 1) (len - 1) in
        if c1 =? c2 then next c1 c2
        else if negb (tolower c1 =? tolower c2) then ret (tolower c1 - tolower c2)
        else next (tolower c1) (tolower c2)
  end.
Definition strnicmp (s1 s2 len : Z) : MM Z := if len >? 0 then fuel <- str_fuel ;; strnicmp_from fuel s1 s2 len else ret 0.

(** ** Searching *)
Fixpoint strchr_from (fuel : nat) (s c : Z) : MM Z :=
  match fuel with
  | O => panic
  | S fuel => x <- load8 s ;; if x =? u8 c then ret s else if x =? 0 then ret 0 else strchr_from fuel (s + 1) c
  end.
Definition strchr (s c : Z) : MM Z := fuel <- str_fuel ;; strchr_from fuel s c.

Fixpoint strrchr_from `{CharSign} (fuel : nat) (s c last : Z) : MM Z :=
  match fuel with
  | O => panic
  | S fuel => x <- load8 s ;; if x =? 0 then ret last else strrchr_from fuel (s + 1) c (if to_char x =? c then s else last)
  end.
Definition strrchr `{CharSign} (s c : Z) : MM Z :=
  fuel <- str_fuel ;; strrchr_from fuel s c (if c =? 0 then s else 0).

Fixpoint strstr_from (fuel : nat) (s1 s2 l1 l2 : Z) : MM Z :=
  if l1 >=? l2 then
    match fuel with
    | O => panic
    | S fuel => r <- memcmp s1 s2 l2 ;; if r =? 0 then ret s1 else strstr_from fuel (s1 + 1) s2 (l1 - 1) l2
    end
  else ret 0.
Definition strstr (s1 s2 : Z) : MM Z :=
  n2 <- strlen s2 ;;
  let l2 := i32 n2 in
  if l2 =? 0 then ret s1
  else
    n1 <- strlen s1 ;;
    fuel <- str_fuel ;;
    strstr_from fuel s1 s2 (i32 n1) l2.

(** Whether a character is in a string: the inner loop of [strspn] and
    [strpbrk]. *)
Fixpoint in_set (fuel : nat) (x a : Z) : MM bool :=
  match fuel with
  | O => panic
  | S fuel => c <- load8 a ;; if c =? 0 then ret false else if x =? c then ret true else in_set fuel x (a + 1)
  end.

Fixpoint strspn_from (fuel : nat) (p accept count : Z) : MM Z :=
  match fuel with
  | O => panic
  | S fuel =>
      x <- load8 p ;;
      if x =? 0 then ret count
      else
        f <- str_fuel ;; b <- in_set f x accept ;;
        if b then strspn_from fuel (p + 1) accept (count + 1) else ret count
  end.
Definition strspn (s accept : Z) : MM Z := fuel <- str_fuel ;; strspn_from fuel s accept 0.

Fixpoint strpbrk_from (fuel : nat) (sc1 ct : Z) : MM Z :=
  match fuel with
  | O => panic
  | S fuel =>
      x <- load8 sc1 ;;
      if x =? 0 then ret 0
      else f <- str_fuel ;; b <- in_set f x ct ;; if b then ret sc1 else strpbrk_from fuel (sc1 + 1) ct
  end.
Definition strpbrk (cs ct : Z) : MM Z := fuel <- str_fuel ;; strpbrk_from fuel cs ct.

(** [saved] is the static [___strtok]; the results are the token and the new
    value of [___strtok]. *)
Definition strtok (saved s ct : Z) : MM (Z * Z) :=
  let sbegin := if s =? 0 then saved else s in
  if sbegin =? 0 then ret (0, saved)
  else
    n <- strspn sbegin ct ;;
    let sbegin := sbegin + n in
    c <- load8 sbegin ;;
    if c =? 0 then ret (0, 0)
    else
      send <- strpbrk sbegin ct ;;
      if negb (send =? 0) then
        e <- load8 send ;;
        if negb (e =? 0) then store8 send 0 ;; ret (sbegin, send + 1) else ret (sbegin, send)
      else ret (sbegin, send).

(** ** Strings in memory *)
Fixpoint cstr (m : mem) (p : Z) (l : list Z) : Prop :=
  match l with
  | [] => m !! p = Some 0
  | c :: l => 0 < c < 256 /\ m !! p = Some c /\ cstr m (p + 1) l
  end.

Abbreviation zlen l := (Z.of_nat (length l)).

Lemma cstr_lookup m p l i : cstr m p l -> (i < length l)%nat -> m !! (p + Z.of_nat i) = l !! i.
Proof.
  revert p i. induction l as [|c l IH]; intros p [|i] Hl Hi; cbn in Hi; try lia.
  - rewrite Z.add_0_r. apply Hl.
  - cbn. rewrite <- (IH (p + 1)) by (try apply Hl; lia). f_equal. lia.
Qed.

Lemma cstr_end m p l : cstr m p l -> m !! (p + zlen l) = Some 0.
Proof.
  revert p. induction l as [|c l IH]; intros p Hl; cbn; [by rewrite Z.add_0_r|]. rewrite <- (IH (p + 1)) by apply Hl. f_equal. lia.
Qed.

Lemma cstr_app m p a b : cstr m p (a ++ b) -> cstr m (p + zlen a) b.
Proof.
  revert p. induction a as [|c a IH]; intros p Hl; cbn; [by rewrite Z.add_0_r|]. apply proj2, proj2, IH in Hl.
  replace (p + Z.of_nat (S (length a))) with (p + 1 + zlen a) by lia. done.
Qed.

Lemma cstr_mapped m p l : cstr m p l -> mapped m p (zlen l + 1).
Proof.
  intros Hl q Hq. destruct (decide (q = p + zlen l)) as [->|Hne]; [rewrite (cstr_end m p l Hl); by eexists|].
  replace q with (p + Z.of_nat (Z.to_nat (q - p))) by lia. rewrite (cstr_lookup m p l) by (done || lia). apply lookup_lt_is_Some. lia.
Qed.

Lemma mapped_size m p n : 0 <= n -> mapped m p n -> n <= Z.of_nat (size m).
Proof.
  intros Hn Hm. assert (list_to_set (seqZ p n) ⊆ dom m) as Hs.
  { intros q Hq%elem_of_list_to_set. apply elem_of_dom, Hm. apply elem_of_seqZ in Hq. lia. }
  apply subseteq_size in Hs. rewrite size_list_to_set, length_seqZ, size_dom in Hs by apply NoDup_seqZ. lia.
Qed.

Lemma cstr_size m p l : cstr m p l -> (length l < size m)%nat.
Proof. intros Hm%cstr_mapped. apply mapped_size in Hm; lia. Qed.

Lemma cstr_frame m m' p l : (forall q, p <= q <= p + zlen l -> m' !! q = m !! q) -> cstr m p l -> cstr m' p l.
Proof.
  revert p. induction l as [|c l IH]; intros p Hm; cbn in *; [intros Hp; rewrite Hm by lia; done|]. intros (Hc & Hp & Hl).
  split; [exact Hc|]. split; [rewrite Hm by lia; done|]. apply IH; [|done]. intros q Hq. apply Hm. lia.
Qed.

Lemma cstr_take m p l k m' p' :
  cstr m p l -> (k <= length l)%nat -> (forall i, (i < k)%nat -> m' !! (p' + Z.of_nat i) = l !! i) -> m' !! (p' + Z.of_nat k) = Some 0 -> cstr m' p' (take k l).
Proof.
  revert p p' k. induction l as [|c l IH]; intros p p' [|k] Hl Hk Hm H0; cbn in *; try lia; try (by rewrite Z.add_0_r in H0).
  destruct Hl as (Hc & _ & Hl). split; [exact Hc|]. split; [pose proof (Hm 0%nat ltac:(lia)) as Hz; cbn in Hz; by rewrite Z.add_0_r in Hz|].
  apply (IH (p + 1)); [done|lia| |].
  - intros i Hi. pose proof (Hm (S i) ltac:(lia)) as Hs. cbn in Hs. etrans; [|exact Hs]. f_equal. lia.
  - rewrite <- H0. f_equal. lia.
Qed.

Lemma str_fuel_bind {A} (k : nat -> MM A) m : bind str_fuel k m = k (S (size m)) m.
Proof. done. Qed.

(** The first character of a string, zero included. *)
Lemma load_nil m p : cstr m p [] -> load8 p m = Some (0, m).
Proof. apply load8_eq. Qed.
Lemma load_cons m p c l : cstr m p (c :: l) -> load8 p m = Some (c, m) /\ c <> 0 /\ cstr m (p + 1) l.
Proof. intros (Hc & Hp & Hl). split_and!; [by apply load8_eq|lia|done]. Qed.

(** ** Lengths *)
Lemma strlen_from_run l : forall m s i fuel, cstr m (s + i) l -> (length l < fuel)%nat -> strlen_from fuel s i m = Some (i + zlen l, m).
Proof.
  induction l as [|c l IH]; intros m s i [|fuel] Hl Hf; cbn in Hf; try lia; cbn [strlen_from].
  - rewrite (bind_eq _ _ _ _ _ (load_nil _ _ Hl)). cbn. by rewrite Z.add_0_r.
  - apply load_cons in Hl as (Hr & Hc & Hl). rewrite (bind_eq _ _ _ _ _ Hr), (proj2 (Z.eqb_neq _ _) Hc). rewrite IH; [|by rewrite Z.add_assoc|lia].
    do 2 f_equal. cbn. lia.
Qed.

Lemma strlen_run m s l : cstr m s l -> strlen s m = Some (zlen l, m).
Proof.
  intros Hl. unfold strlen. rewrite str_fuel_bind. pose proof (cstr_size _ _ _ Hl). by apply (strlen_from_run l); [rewrite Z.add_0_r|lia].
Qed.

Lemma strnlen_from_run l : forall m s n fuel, cstr m s l -> 0 <= n -> (length l < fuel)%nat ->
  strnlen_from fuel s n m = Some (s + Z.min n (zlen l), m).
Proof.
  induction l as [|c l IH]; intros m s n [|fuel] Hl Hn Hf; cbn in Hf; try lia; cbn [strnlen_from]; destruct (Z.eqb_spec n 0) as [->|].
  - unfold ret. do 2 f_equal. lia.
  - rewrite (bind_eq _ _ _ _ _ (load_nil _ _ Hl)). cbn. unfold ret. do 2 f_equal. lia.
  - unfold ret. do 2 f_equal. lia.
  - apply load_cons in Hl as (Hr & Hc & Hl). rewrite (bind_eq _ _ _ _ _ Hr), (proj2 (Z.eqb_neq _ _) Hc).
    rewrite IH; [|done|lia|lia]. do 2 f_equal. cbn. lia.
Qed.

Lemma strnlen_run m s l n : cstr m s l -> 0 <= n -> strnlen s n m = Some (Z.min n (zlen l), m).
Proof.
  intros Hl Hn. unfold strnlen. rewrite str_fuel_bind. pose proof (cstr_size _ _ _ Hl).
  rewrite (bind_eq _ _ _ _ _ (strnlen_from_run l m s n (S (size m)) Hl Hn ltac:(lia))). unfold ret. do 2 f_equal. lia.
Qed.

(** ** Comparison *)
Fixpoint first_diff (a b : list Z) : Z :=
  match a, b with
  | [], [] => 0
  | x :: _, [] => x
  | [], y :: _ => - y
  | x :: a, y :: b => if x =? y then first_diff a b else x - y
  end.

Inductive lex : list Z -> list Z -> Prop :=
  | lex_nil y b : lex [] (y :: b)
  | lex_lt x y a b : x < y -> lex (x :: a) (y :: b)
  | lex_eq x a b : lex a b -> lex (x :: a) (x :: b).

Lemma first_diff_lex a b : Forall (fun c => 0 < c) a -> Forall (fun c => 0 < c) b ->
  (first_diff a b = 0 <-> a = b) /\ (first_diff a b < 0 <-> lex a b).
Proof.
  intros Ha. revert b. induction Ha as [|x a Hx Ha IH]; intros b Hb; destruct Hb as [|y b Hy Hb]; cbn.
  - split; [done|]. split; [lia|]. intros Hl. inversion Hl.
  - split; [split; [lia|done]|]. split; [constructor|lia].
  - split; [split; [lia|done]|]. split; [lia|]. intros Hl. inversion Hl.
  - destruct (IH b Hb) as [H1 H2]. destruct (Z.eqb_spec x y) as [->|Hne].
    + split; [rewrite H1; split; [by intros ->|by intros [= ->]]|]. rewrite H2. split; [by constructor|].
      intros Hl. inversion Hl; subst; [lia|done].
    + split; [split; [lia|congruence]|]. split; [intros ?; constructor; lia|]. intros Hl. inversion Hl; subst; [lia|done].
Qed.

Lemma strcmp_from_run a : forall m p q b fuel, cstr m p a -> cstr m q b -> (length a < fuel)%nat ->
  strcmp_from fuel p q m = Some (first_diff a b, m).
Proof.
  induction a as [|x a IH]; intros m p q b [|fuel] Ha Hb Hf; cbn in Hf; try lia; cbn [strcmp_from].
  - rewrite (bind_eq _ _ _ _ _ (load_nil _ _ Ha)). destruct b as [|y b]; [by rewrite (bind_eq _ _ _ _ _ (load_nil _ _ Hb))|].
    apply load_cons in Hb as (Hr & Hy & _). rewrite (bind_eq _ _ _ _ _ Hr). rewrite orb_true_r. done.
  - apply load_cons in Ha as (Hra & Hx & Ha). rewrite (bind_eq _ _ _ _ _ Hra). destruct b as [|y b].
    + rewrite (bind_eq _ _ _ _ _ (load_nil _ _ Hb)), Z.sub_0_r, (proj2 (Z.eqb_neq x 0) Hx). done.
    + apply load_cons in Hb as (Hrb & Hy & Hb). rewrite (bind_eq _ _ _ _ _ Hrb), (proj2 (Z.eqb_neq x 0) Hx), orb_false_r. cbn [first_diff].
      destruct (Z.eqb_spec x y) as [->|Hne]; [rewrite Z.sub_diag; cbn; apply IH; [done|done|lia]|].
      by rewrite (proj2 (Z.eqb_neq (x - y) 0)) by lia.
Qed.

Lemma cstr_pos m p l : cstr m p l -> Forall (fun c => 0 < c) l.
Proof. revert p. induction l as [|c l IH]; intros p; cbn; [done|]. intros (? & _ & Hl). constructor; [lia|by eapply IH]. Qed.

(** ** Bounded copies *)
Lemma copied_byte m d s c : m !! s = Some c -> copied m d s 1 (<[d := c]> m).
Proof.
  intros Hs p. case_bool_decide as Hp; [replace p with d by lia; rewrite lookup_insert_eq, <- Hs; f_equal; lia|apply lookup_insert_ne; lia].
Qed.

Lemma strl_copy_run l : forall m dst src s i fuel,
  let k := Z.max 0 (Z.min (s - 1 - i) (zlen l)) in
  cstr m (src + i) l -> mapped m (dst + i) k -> dst + k <= src \/ src + zlen l < dst -> (length l < fuel)%nat ->
  exists m', strl_copy fuel dst src s i m = Some (i + k, m') /\ copied m (dst + i) (src + i) k m'.
Proof.
  induction l as [|c l IH]; intros m dst src s i [|fuel] k Hl Hm Hd Hf; cbn in Hf; try lia; cbn [strl_copy]; destruct (Z.ltb_spec i (s - 1)) as [Hi|Hi].
  - exists m. replace k with 0 by (unfold k; cbn; lia). rewrite (bind_eq _ _ _ _ _ (load_nil _ _ Hl)). cbn. split; [|apply copied_0]. unfold ret. do 2 f_equal. lia.
  - exists m. replace k with 0 by (unfold k; cbn; lia). split; [|apply copied_0]. unfold ret. do 2 f_equal. lia.
  - pose proof Hl as (Hc8 & Hlk & _). apply load_cons in Hl as (Hr & Hc & Hl). rewrite (bind_eq _ _ _ _ _ Hr), (proj2 (Z.eqb_neq _ _) Hc).
    assert (k = 1 + Z.max 0 (Z.min (s - 1 - (i + 1)) (zlen l))) as Hk by (unfold k; cbn [length]; lia). clearbody k. cbn [length] in Hd.
    rewrite (bind_eq _ _ _ _ _ (store8_eq m (dst + i) c ltac:(apply Hm; lia))), u8_small by lia.
    destruct (IH (<[dst + i := c]> m) dst src s (i + 1) fuel) as (m' & Hr' & Hc').
    + rewrite Z.add_assoc. eapply cstr_frame; [|exact Hl]. intros q Hq. apply lookup_insert_ne. lia.
    + intros q Hq. rewrite lookup_insert_ne by lia. apply Hm. lia.
    + lia.
    + lia.
    + exists m'. split; [rewrite Hr'; do 2 f_equal; lia|]. rewrite Hk. eapply copied_up; [|lia|lia|by apply copied_byte|by rewrite <- !Z.add_assoc]. lia.
  - exists m. replace k with 0 by (unfold k; cbn [length]; lia). split; [|apply copied_0]. unfold ret. do 2 f_equal. lia.
Qed.

(** The end of [strlcpy] and [strlcat]: a bounded copy of [l] to [dst], a zero, and
    the length of what was left. *)
Lemma strl_finish m dst src s l :
  let k := Z.min (s - 1) (zlen l) in
  cstr m src l -> 0 < s -> mapped m dst (k + 1) -> dst + k < src \/ src + zlen l < dst ->
  exists m', (fuel <- str_fuel ;; i <- strl_copy fuel dst src s 0 ;; store8 (dst + i) 0 ;; n <- strlen (src + i) ;; ret (i + n)) m = Some (zlen l, m') /\
    cstr m' dst (take (Z.to_nat k) l) /\ (forall q, q < dst \/ dst + k < q -> m' !! q = m !! q).
Proof.
  intros k Hl Hs Hm Hd. pose proof (cstr_size _ _ _ Hl) as Hsz. assert (Z.max 0 (Z.min (s - 1 - 0) (zlen l)) = k) as Hk by lia.
  destruct (strl_copy_run l m dst src s 0 (S (size m))) as (m1 & Hr1 & Hc1).
  { by rewrite Z.add_0_r. } { rewrite Hk, Z.add_0_r. eapply mapped_sub; [exact Hm|lia|lia]. } { lia. } { lia. }
  rewrite Hk, ?Z.add_0_r in *. cbn in Hr1. replace (0 + k) with k in Hr1 by lia.
  rewrite str_fuel_bind, (bind_eq _ _ _ _ _ Hr1). assert (is_Some (m1 !! (dst + k))) as Hz.
  { rewrite Hc1, bool_decide_eq_false_2 by lia. apply Hm. lia. }
  rewrite (bind_eq _ _ _ _ _ (store8_eq m1 (dst + k) 0 Hz)). change (u8 0) with 0. set (m2 := <[dst + k := 0]> m1).
  assert (forall q, q < dst \/ dst + k < q -> m2 !! q = m !! q) as Hout.
  { intros q Hq. unfold m2. rewrite lookup_insert_ne by lia. rewrite Hc1, bool_decide_eq_false_2 by lia. done. }
  assert (cstr m2 (src + k) (drop (Z.to_nat k) l)) as Hrest.
  { eapply cstr_frame; [intros q Hq; apply Hout; rewrite length_drop in Hq; lia|]. rewrite <- (take_drop (Z.to_nat k) l) in Hl.
    apply cstr_app in Hl. rewrite length_take_le in Hl by lia. by rewrite Z2Nat.id in Hl by lia. }
  rewrite (bind_eq _ _ _ _ _ (strlen_run _ _ _ Hrest)), length_drop. exists m2. split_and!; [unfold ret; do 2 f_equal; lia| |exact Hout].
  eapply cstr_take; [exact Hl|lia| |].
  - intros i Hi. unfold m2. rewrite lookup_insert_ne by lia. rewrite Hc1, bool_decide_eq_true_2 by lia.
    rewrite <- (cstr_lookup m src l i Hl) by lia. f_equal. lia.
  - unfold m2. rewrite Z2Nat.id by lia. apply lookup_insert_eq.
Qed.

Lemma cstr_cat m m' p a b :
  cstr m p a -> (forall q, p <= q < p + zlen a -> m' !! q = m !! q) -> cstr m' (p + zlen a) b -> cstr m' p (a ++ b).
Proof.
  revert p. induction a as [|c a IH]; intros p Ha Hm Hb; cbn [app length] in *; [by rewrite Z.add_0_r in Hb|].
  destruct Ha as (Hc & Hp & Ha). split; [exact Hc|]. split; [rewrite Hm by lia; done|]. apply IH; [done|intros q Hq; apply Hm; lia|].
  by replace (p + 1 + zlen a) with (p + Z.of_nat (S (length a))) by lia.
Qed.

(** ** Searching *)
Lemma strchr_from_run c l : forall m s fuel, cstr m s l -> (length l < fuel)%nat -> 0 < u8 c ->
  strchr_from fuel s c m = Some (match list_find (fun x => x = u8 c) l with Some (i, _) => s + Z.of_nat i | None => 0 end, m).
Proof.
  induction l as [|x l IH]; intros m s [|fuel] Hl Hf Hc; cbn in Hf; try lia; cbn [strchr_from list_find].
  - rewrite (bind_eq _ _ _ _ _ (load_nil _ _ Hl)). by rewrite (proj2 (Z.eqb_neq 0 (u8 c))) by lia.
  - apply load_cons in Hl as (Hr & Hx & Hl). rewrite (bind_eq _ _ _ _ _ Hr). destruct (Z.eqb_spec x (u8 c)) as [He|He].
    + rewrite decide_True by done. cbn. by rewrite Z.add_0_r.
    + rewrite decide_False by done. rewrite (proj2 (Z.eqb_neq _ _) Hx). rewrite IH by (done || lia).
      destruct (list_find _ l) as [[i y]|]; cbn; [|done]. do 2 f_equal. lia.
Qed.

Lemma strchr_zero_run l : forall m s fuel, cstr m s l -> (length l < fuel)%nat -> strchr_from fuel s 0 m = Some (s + zlen l, m).
Proof.
  induction l as [|x l IH]; intros m s [|fuel] Hl Hf; cbn in Hf; try lia; cbn [strchr_from].
  - rewrite (bind_eq _ _ _ _ _ (load_nil _ _ Hl)). cbn. by rewrite Z.add_0_r.
  - apply load_cons in Hl as (Hr & Hx & Hl). rewrite (bind_eq _ _ _ _ _ Hr). change (u8 0) with 0. rewrite (proj2 (Z.eqb_neq _ _) Hx).
    rewrite IH by (done || lia). do 2 f_equal. cbn [length]. lia.
Qed.

Lemma strrchr_from_run `{CharSign} c l : forall m s fuel last, cstr m s l -> (length l < fuel)%nat ->
  exists r, strrchr_from fuel s c last m = Some (r, m) /\
    ((r = last /\ (forall x, x ∈ l -> to_char x <> c)) \/
     exists l1 x l2, l = l1 ++ x :: l2 /\ to_char x = c /\ r = s + zlen l1 /\ forall y, y ∈ l2 -> to_char y <> c).
Proof.
  induction l as [|x l IH]; intros m s [|fuel] last Hl Hf; cbn in Hf; try lia; cbn [strrchr_from].
  - rewrite (bind_eq _ _ _ _ _ (load_nil _ _ Hl)). cbn. exists last. split; [done|]. left. split; [done|]. by intros x ?%elem_of_nil.
  - apply load_cons in Hl as (Hr & Hx & Hl). rewrite (bind_eq _ _ _ _ _ Hr), (proj2 (Z.eqb_neq _ _) Hx).
    destruct (IH m (s + 1) fuel (if to_char x =? c then s else last) Hl ltac:(lia)) as (r & Hrun & Hcase). exists r. split; [done|].
    destruct Hcase as [[-> Hno]|(l1 & y & l2 & -> & Hy & -> & Hno)].
    + destruct (Z.eqb_spec (to_char x) c) as [He|He].
      * right. exists [], x, l. split_and!; [done|done|cbn; lia|done].
      * left. split; [done|]. intros y [->|Hy]%elem_of_cons; [done|by apply Hno].
    + right. exists (x :: l1), y, l2. split_and!; [done|done|cbn [length]; lia|done].
Qed.

Lemma memcmp_run n : forall m p q, mapped m p (Z.of_nat n) -> mapped m q (Z.of_nat n) ->
  exists r, memcmp_from n p q m = Some (r, m) /\ (r = 0 <-> forall i, (i < n)%nat -> m !! (p + Z.of_nat i) = m !! (q + Z.of_nat i)).
Proof.
  induction n as [|n IH]; intros m p q Hp Hq; [exists 0; split; [done|]; split; [intros _ i Hi; lia|done]|].
  destruct (Hp p ltac:(lia)) as [a Ha]. destruct (Hq q ltac:(lia)) as [b Hb]. cbn [memcmp_from].
  rewrite (bind_eq _ _ _ _ _ (load8_eq _ _ _ Ha)), (bind_eq _ _ _ _ _ (load8_eq _ _ _ Hb)).
  destruct (Z.eqb_spec (a - b) 0) as [He|He]; cbn [negb].
  - destruct (IH m (p + 1) (q + 1)) as (r & Hr & Hiff); [eapply mapped_sub; [exact Hp|lia|lia]|eapply mapped_sub; [exact Hq|lia|lia]|].
    exists r. split; [done|]. rewrite Hiff. split; intros Hall i Hi.
    + destruct i as [|i]; [rewrite !Z.add_0_r, Ha, Hb; f_equal; lia|]. specialize (Hall i ltac:(lia)).
      replace (p + Z.of_nat (S i)) with (p + 1 + Z.of_nat i) by lia. by replace (q + Z.of_nat (S i)) with (q + 1 + Z.of_nat i) by lia.
    + specialize (Hall (S i) ltac:(lia)). replace (p + 1 + Z.of_nat i) with (p + Z.of_nat (S i)) by lia.
      by replace (q + 1 + Z.of_nat i) with (q + Z.of_nat (S i)) by lia.
  - exists (a - b). split; [done|]. split; [done|]. intros Hall. specialize (Hall 0%nat ltac:(lia)). rewrite !Z.add_0_r, Ha, Hb in Hall.
    injection Hall as ->. lia.
Qed.

(** [b] is at position [i] of [a]. *)
Definition occurs (b a : list Z) (i : nat) : Prop := b `prefix_of` drop i a.

Lemma memcmp_prefix m p q a b : cstr m p a -> cstr m q b -> (length b <= length a)%nat ->
  exists r, memcmp p q (zlen b) m = Some (r, m) /\ (r = 0 <-> b `prefix_of` a).
Proof.
  intros Ha Hb Hlen. unfold memcmp. rewrite Nat2Z.id. pose proof (cstr_mapped _ _ _ Ha) as Hma. pose proof (cstr_mapped _ _ _ Hb) as Hmb.
  destruct (memcmp_run (length b) m p q) as (r & Hr & Hiff).
  { eapply mapped_sub; [exact Hma|lia|lia]. } { eapply mapped_sub; [exact Hmb|lia|lia]. }
  exists r. split; [done|]. rewrite Hiff. split.
  - intros Hall. exists (drop (length b) a). rewrite <- (take_drop (length b) a) at 1. f_equal. apply list_eq. intros i.
    destruct (decide (i < length b)%nat) as [Hi|Hi].
    + rewrite lookup_take_lt by done. rewrite <- (cstr_lookup m p a i Ha), <- (cstr_lookup m q b i Hb) by lia. by apply Hall.
    + rewrite !lookup_ge_None_2; [done|lia|rewrite length_take; lia].
  - intros [c ->] i Hi. rewrite (cstr_lookup m p (b ++ c) i Ha), (cstr_lookup m q b i Hb) by (rewrite ?length_app; lia). by apply lookup_app_l.
Qed.

Lemma strstr_from_run fuel : forall m p q a b, cstr m p a -> cstr m q b -> (length a < fuel)%nat ->
  (exists i, strstr_from fuel p q (zlen a) (zlen b) m = Some (p + Z.of_nat i, m) /\ occurs b a i /\ (i <= length a)%nat /\ forall j, (j < i)%nat -> ~ occurs b a j) \/
  strstr_from fuel p q (zlen a) (zlen b) m = Some (0, m) /\ forall j, (j < length a)%nat -> ~ occurs b a j.
Proof.
  induction fuel as [|fuel IH]; intros m p q a b Ha Hb Hf; [lia|]. cbn [strstr_from]. rewrite Z.geb_leb.
  destruct (Z.leb_spec (zlen b) (zlen a)) as [Hle|Hlt].
  - destruct (memcmp_prefix m p q a b Ha Hb ltac:(lia)) as (r & Hr & Hiff). rewrite (bind_eq _ _ _ _ _ Hr). destruct (Z.eqb_spec r 0) as [H0|H0].
    + left. exists 0%nat. split_and!; [by rewrite Z.add_0_r|by apply Hiff|lia|lia].
    + destruct a as [|c a].
      { exfalso. apply H0, Hiff. destruct b; [by exists []|cbn in Hle; lia]. }
      pose proof Ha as (_ & _ & Ha'). replace (zlen (c :: a) - 1) with (zlen a) by (cbn [length]; lia).
      destruct (IH m (p + 1) q a b Ha' Hb ltac:(cbn in Hf; lia)) as [(i & Hri & Hoc & Hi & Hno)|[Hri Hno]].
      * left. exists (S i). split_and!; [rewrite Hri; do 2 f_equal; lia|done|cbn; lia|]. intros [|j] Hj; [by rewrite <- Hiff|]. apply Hno. lia.
      * right. split; [done|]. intros [|j] Hj; [by rewrite <- Hiff|]. apply Hno. cbn in Hj. lia.
  - right. split; [done|]. intros j Hj Hoc. apply prefix_length in Hoc. rewrite length_drop in Hoc. lia.
Qed.

(** ** Properties *)
(** [strcmp] ends within the two strings and returns 0 exactly if they are
    equal and a negative number exactly if the first comes before the second in
    the order of unsigned characters. *)
Theorem strcmp_orders m p q a b :
  cstr m p a -> cstr m q b ->
  exists r, strcmp p q m = Some (r, m) /\ (r = 0 <-> a = b) /\ (r < 0 <-> lex a b).
Proof.
  intros Ha Hb. exists (first_diff a b). pose proof (cstr_size _ _ _ Ha). destruct (first_diff_lex a b) as [H1 H2]; [by eapply cstr_pos|by eapply cstr_pos|].
  split; [|split; [exact H1|exact H2]]. unfold strcmp. rewrite str_fuel_bind. by apply strcmp_from_run; [..|lia].
Qed.

(** [strlcpy] of a string of [n] bytes to a buffer of [s] bytes leaves the
    first [s - 1] of them with a zero behind, writes nowhere else and returns [n];
    with an empty buffer it writes nothing. *)
Theorem strlcpy_truncates m dst src s l :
  let k := Z.min (s - 1) (zlen l) in
  cstr m src l -> 0 <= s -> mapped m dst (k + 1) -> dst + k < src \/ src + zlen l < dst ->
  if s =? 0 then strlcpy dst src s m = Some (zlen l, m)
  else exists m', strlcpy dst src s m = Some (zlen l, m') /\ cstr m' dst (take (Z.to_nat k) l) /\ k < s /\
         (forall q, q < dst \/ dst + k < q -> m' !! q = m !! q).
Proof.
  intros k Hl Hs Hm Hd. unfold strlcpy. destruct (Z.eqb_spec s 0) as [->|Hne]; [by apply strlen_run|].
  destruct (strl_finish m dst src s l Hl ltac:(lia) Hm Hd) as (m' & Hr & Hc & Ho). exists m'. split_and!; [done|done|unfold k; lia|done].
Qed.

(** [strlcat] appends at most [s - 1] bytes to the string in the buffer of [s]
    bytes, whatever its length: a result that fits is right, but one that has to
    be truncated is written past the end of the buffer, at most [zlen a] bytes
    too far, while the number returned is the one asked for. *)
Theorem strlcat_overruns m dst src s a l :
  let j := zlen a in let k := Z.min (s - 1) (zlen l) in
  cstr m dst a -> j < s -> cstr m src l -> mapped m (dst + j) (k + 1) -> dst + j + k < src \/ src + zlen l < dst + j ->
  exists m', strlcat dst src s m = Some (j + zlen l, m') /\ cstr m' dst (a ++ take (Z.to_nat k) l) /\
    (forall q, q < dst + j \/ dst + j + k < q -> m' !! q = m !! q) /\
    (j + zlen l < s -> take (Z.to_nat k) l = l /\ dst + j + k < dst + s) /\
    (s <= j + zlen l -> 0 < j -> m' !! (dst + j + k) = Some 0 /\ dst + s <= dst + j + k).
Proof.
  intros j k Ha Hj Hl Hm Hd. unfold strlcat. rewrite (bind_eq _ _ _ _ _ (strnlen_run _ _ _ s Ha ltac:(lia))). rewrite (proj2 (Z.eqb_neq s 0)) by lia.
  rewrite Z.min_r by lia. fold j. destruct (strl_finish m (dst + j) src s l Hl ltac:(lia) Hm ltac:(lia)) as (m' & Hr & Hc & Ho). exists m'.
  split_and!.
  - cbn zeta. revert Hr. rewrite !str_fuel_bind. intros (i & m1 & H1 & Hr)%bind_Some. rewrite (bind_eq _ _ _ _ _ H1).
    apply bind_Some in Hr as (u & m2 & H2 & Hr). rewrite (bind_eq _ _ _ _ _ H2). apply bind_Some in Hr as (n & m3 & H3 & Hr).
    rewrite (bind_eq _ _ _ _ _ H3). unfold ret in Hr |- *. injection Hr as Hr ->. do 2 f_equal. lia.
  - apply (cstr_cat m); [done|intros q Hq; apply Ho; unfold j in *; lia|done].
  - exact Ho.
  - intros Hfit. rewrite take_ge by (unfold k; lia). split; [done|unfold k; lia].
  - intros Hs Hj0. split; [|unfold k; lia]. apply cstr_end in Hc. rewrite <- Hc. f_equal. rewrite length_take. unfold k. lia.
Qed.

(** [strstr] returns the first place where the second string occurs in the
    first, or [NULL] if it does not. *)
Theorem strstr_first m p q a b :
  cstr m p a -> cstr m q b -> zlen a < 2 ^ 31 -> zlen b < 2 ^ 31 ->
  (exists i, strstr p q m = Some (p + Z.of_nat i, m) /\ occurs b a i /\ forall j, (j < i)%nat -> ~ occurs b a j) \/
  (strstr p q m = Some (0, m) /\ forall j, ~ occurs b a j).
Proof.
  intros Ha Hb Hla Hlb. unfold strstr. rewrite (bind_eq _ _ _ _ _ (strlen_run _ _ _ Hb)), i32_small by (unfold INT_MIN, INT_MAX; lia).
  destruct (Z.eqb_spec (zlen b) 0) as [H0|H0].
  { left. exists 0%nat. split_and!; [by rewrite Z.add_0_r|destruct b; [by exists (drop 0 a)|cbn in H0; lia]|lia]. }
  rewrite (bind_eq _ _ _ _ _ (strlen_run _ _ _ Ha)), i32_small by (unfold INT_MIN, INT_MAX; lia). rewrite str_fuel_bind. pose proof (cstr_size _ _ _ Ha).
  destruct (strstr_from_run (S (size m)) m p q a b Ha Hb ltac:(lia)) as [(i & Hr & Hoc & _ & Hno)|[Hr Hno]]; [left; by exists i|right; split; [done|]].
  intros j Hoc. destruct (decide (j < length a)%nat) as [Hj|Hj]; [by eapply Hno|]. apply prefix_length in Hoc. rewrite length_drop in Hoc.
  destruct b; [done|cbn in *; lia].
Qed.

Lemma cstr_range m p l c : cstr m p l -> c ∈ l -> 0 < c < 256.
Proof.
  revert p. induction l as [|x l IH]; intros p Hl; [by intros ?%elem_of_nil|]. destruct Hl as (Hx & _ & Hl).
  intros [->|Hc]%elem_of_cons; [done|by eapply IH].
Qed.

Lemma to_char_zero `{CharSign} c : 0 < c < 256 -> to_char c <> 0.
Proof. intros Hc. unfold to_char. destruct char_signed, (Z.leb_spec 128 c); cbn; lia. Qed.

(** For the terminator, which is a part of the string, [strchr] returns its place
    but [strrchr] the beginning of the string. *)
Theorem strrchr_of_zero `{CharSign} m s l :
  cstr m s l -> strchr s 0 m = Some (s + zlen l, m) /\ strrchr s 0 m = Some (s, m).
Proof.
  intros Hl. pose proof (cstr_size _ _ _ Hl). unfold strchr, strrchr. rewrite !str_fuel_bind. split; [by apply strchr_zero_run; [|lia]|].
  destruct (strrchr_from_run 0 l m s (S (size m)) s Hl ltac:(lia)) as (r & Hr & Hcase). change (0 =? 0) with true. cbn iota. rewrite Hr. do 2 f_equal.
  destruct Hcase as [[-> _]|(l1 & x & l2 & -> & Hx & _)]; [done|]. exfalso. apply (to_char_zero x); [|done]. eapply cstr_range; [exact Hl|set_solver].
Qed.

(** ** Witnesses: the strings ab at 1000, in a buffer of four bytes, and abcab at
    1020. *)
Definition text : mem := bytes_at 1000 ([97; 98; 0; 0; 1; 2; 3; 4; 5; 6; 7; 8; 9; 10; 11; 12; 13; 14; 15; 16] ++ [97; 98; 99; 97; 98; 0; 99; 97; 0]).

Ltac check_string := cbn [cstr]; repeat split; vm_compute; reflexivity.

Lemma text_ab : cstr text 1000 [97; 98].
Proof. check_string. Qed.
Lemma text_abcab : cstr text 1020 [97; 98; 99; 97; 98].
Proof. check_string. Qed.
Lemma text_ca : cstr text 1026 [99; 97].
Proof. check_string. Qed.

Lemma strcmp_orders_witness : exists r, strcmp 1000 1020 text = Some (r, text) /\ r < 0.
Proof.
  destruct (strcmp_orders text 1000 1020 [97; 98] [97; 98; 99; 97; 98] text_ab text_abcab) as (r & Hr & _ & Hlt).
  exists r. split; [exact Hr|]. apply Hlt, lex_eq, lex_eq, lex_nil.
Defined.

Lemma strlcpy_truncates_witness : exists m', strlcpy 1000 1020 4 text = Some (5, m') /\ cstr m' 1000 [97; 98; 99].
Proof.
  assert (mapped text 1000 4) as Hm by (apply mapped_check; vm_compute; reflexivity).
  destruct (strlcpy_truncates text 1000 1020 4 [97; 98; 99; 97; 98] text_abcab ltac:(lia) Hm ltac:(left; vm_compute; reflexivity)) as (m' & Hr & Hc & _).
  exists m'. split; [exact Hr|exact Hc].
Defined.

Lemma strlcat_overruns_witness :
  exists m', strlcat 1000 1020 4 text = Some (7, m') /\ cstr m' 1000 [97; 98; 97; 98; 99] /\ m' !! 1005 = Some 0.
Proof.
  assert (mapped text 1002 4) as Hm by (apply mapped_check; vm_compute; reflexivity).
  destruct (strlcat_overruns text 1000 1020 4 [97; 98] [97; 98; 99; 97; 98] text_ab ltac:(vm_compute; reflexivity) text_abcab Hm ltac:(left; vm_compute; reflexivity))
    as (m' & Hr & Hc & _ & _ & Hover).
  exists m'. split; [exact Hr|]. split; [exact Hc|]. apply Hover; [vm_compute; discriminate|vm_compute; reflexivity].
Defined.

Lemma strstr_first_witness : exists i, strstr 1020 1026 text = Some (1020 + Z.of_nat i, text) /\ occurs [99; 97] [97; 98; 99; 97; 98] i.
Proof.
  destruct (strstr_first text 1020 1026 [97; 98; 99; 97; 98] [99; 97] text_abcab text_ca ltac:(vm_compute; reflexivity) ltac:(vm_compute; reflexivity))
    as [(i & Hr & Ho & _)|[_ Hno]].
  - exists i. split; [exact Hr|exact Ho].
  - exfalso. apply (Hno 2%nat). by exists [98].
Defined.
