(* ===== verification/LibcNum.v ===== *)
(** * Reading numbers (lib/libc/atoi.c, strtol.c, strtoll.c)

    [long] and [long long] have 64 bits. Signed overflow has no defined outcome, so
    signed arithmetic goes through [slong], which fails; unsigned arithmetic
    wraps. The functions leave memory alone but for [*endptr] and [errno], which
    are returned beside the value ([None] where they are not written). *)
From stdpp Require Import base gmap list.
From Stdlib Require Import ZArith Lia.
From S2P Require Import Prelude LibcMem LibcStr.

Local Open Scope Z_scope.
Local Open Scope lk_scope.

Definition LONG_MAX : Z := 2 ^ 63 - 1.
Definition LONG_MIN : Z := - 2 ^ 63.
Definition LLONG_MAX : Z := 2 ^ 63 - 1.
Definition LLONG_MIN : Z := - 2 ^ 63.
Definition ULONG_MAX : Z := 2 ^ 64 - 1.
Definition EINVAL : Z := 22.
Definition ERANGE : Z := 34.

Definition slong (z : Z) : MM Z := assert_ ((LONG_MIN <=? z) && (z <=? LONG_MAX)) ;; ret z.

Section num.
Context `{CharSign}.

Definition load_char (p : Z) : MM Z := c <- load8 p ;; ret (to_char c).

Definition hexval (c : Z) : Z :=
  if (c >=? 48) && (c <=? 57) then c - 48
  else if (c >=? 97) && (c <=? 102) then c - 97 + 10
  else if (c >=? 65) && (c <=? 70) then c - 65 + 10
  else 0.

(** The loops of the [ato] functions; [step] adds a character to the value. *)
Fixpoint ato_loop (fuel : nat) (isd : Z -> bool) (step : Z -> Z -> MM Z) (num value : Z) : MM Z :=
  match fuel with
  | O => panic
  | S fuel =>
      c <- load_char num ;;
      if negb (c =? 0) && isd c then v <- step value c ;; ato_loop fuel isd step (num + 1) v
      else ret value
  end.

Definition is_hex (num : Z) : MM bool :=
  a <- load_char num ;; if a =? 48 then b <- load_char (num + 1) ;; ret (b =? 120) else ret false.

Definition atol (num : Z) : MM Z :=
  hex <- is_hex num ;;
  fuel <- str_fuel ;;
  if hex then
    ato_loop fuel isxdigit (fun v c => v <- slong (v * 16) ;; slong (v + hexval c)) (num + 2) 0
  else
    c <- load_char num ;;
    let neg := c =? 45 in
    value <- ato_loop fuel isdigit (fun v c => v <- slong (v * 10) ;; v <- slong (v + c) ;; slong (v - 48))
               (if neg then num + 1 else num) 0 ;;
    if neg then slong (- value) else ret value.

Definition atoi (num : Z) : MM Z := v <- atol num ;; ret (i32 v).

Definition atoull (num : Z) : MM Z :=
  hex <- is_hex num ;;
  fuel <- str_fuel ;;
  if hex then ato_loop fuel isxdigit (fun v c => ret (u64 (v * 16 + hexval c))) (num + 2) 0
  else ato_loop fuel isdigit (fun v c => ret (u64 (v * 10 + c - 48))) num 0.
Definition atoul (num : Z) : MM Z := atoull num.
Definition atoui (num : Z) : MM Z := v <- atoul num ;; ret (u32 v).

(** ** strtoul *)
Fixpoint skip_space (fuel : nat) (p : Z) : MM Z :=
  match fuel with
  | O => panic
  | S fuel => c <- load_char p ;; if isspace c then skip_space fuel (p + 1) else ret p
  end.

(** The digit a character stands for in any base, -1 if none. *)
Definition digit_value (c : Z) : Z :=
  if (c >=? 65) && (c <=? 90) then c - 65 + 10
  else if (c >=? 97) && (c <=? 122) then c - 97 + 10
  else if (c >=? 48) && (c <=? 57) then c - 48
  else - 1.

Fixpoint strtoul_loop (fuel : nat) (nptr base r : Z) (errno : option Z) : MM (Z * Z * option Z) :=
  match fuel with
  | O => panic
  | S fuel =>
      c <- load_char nptr ;;
      let v := digit_value c in
      if (v <? 0) || (v >=? base) then ret (r, nptr, errno)
      else
        let new_ret := u64 (r * base) in
        if negb (new_ret / base =? r) || (u64 (new_ret + v) <? new_ret) || (r =? ULONG_MAX)
        then strtoul_loop fuel (nptr + 1) base ULONG_MAX (Some ERANGE)
        else strtoul_loop fuel (nptr + 1) base (u64 (new_ret + v)) errno
  end.

Definition strtoul (nptr : Z) (endptr : bool) (base : Z) : MM (Z * option Z * option Z) :=
  if (base <? 0) || (base =? 1) || (base >? 36) then ret (0, None, Some EINVAL)
  else
    fuel <- str_fuel ;;
    p <- skip_space fuel nptr ;;
    c <- load_char p ;;
    let neg := c =? 45 in
    let p := if (c =? 43) || (c =? 45) then p + 1 else p in
    c0 <- load_char p ;;
    hex <- (if ((base =? 0) || (base =? 16)) && (c0 =? 48) then c1 <- load_char (p + 1) ;; ret (c1 =? 120) else ret false) ;;
    let '(p, base) :=
      if hex then (p + 2, 16)
      else if (base =? 0) && (c0 =? 48) then (p + 1, 8)
      else if base =? 0 then (p, 10) else (p, base) in
    r <- strtoul_loop fuel p base 0 None ;;
    let '(v, e, errno) := r in
    ret (if neg && negb (v =? ULONG_MAX) then u64 (- v) else v, if endptr then Some e else None, errno).

(** ** strtol and strtoll

    The two are the same but for the type of the value, which has the range
    [MIN .. MAX]. *)
Fixpoint skip_space_next (fuel : nat) (s : Z) : MM (Z * Z) :=
  match fuel with
  | O => panic
  | S fuel => c <- load8 s ;; if isspace c then skip_space_next fuel (s + 1) else ret (c, s + 1)
  end.

Definition digit (c : Z) : option Z :=
  if isdigit c then Some (c - 48)
  else if isalpha c then Some (c - (if isupper c then 65 - 10 else 97 - 10))
  else None.

(** [c] is the current character and [s] points behind it. *)
Fixpoint strtol_loop (fuel : nat) (neg : bool) (MIN MAX cutoff cutlim base : Z) (c s acc any : Z) (errno : option Z)
    : MM (Z * Z * Z * option Z) :=
  match fuel with
  | O => panic
  | S fuel =>
      let next acc any errno := c <- load8 s ;; strtol_loop fuel neg MIN MAX cutoff cutlim base c (s + 1) acc any errno in
      match digit c with
      | None => ret (acc, any, s, errno)
      | Some c =>
          if c >=? base then ret (acc, any, s, errno)
          else if any <? 0 then next acc any errno
          else if neg then
            if (acc <? cutoff) || ((acc =? cutoff) && (c >? cutlim)) then next MIN (- 1) (Some ERANGE)
            else a <- slong (acc * base) ;; a <- slong (a - c) ;; next a 1 errno
          else
            if (acc >? cutoff) || ((acc =? cutoff) && (c >? cutlim)) then next MAX (- 1) (Some ERANGE)
            else a <- slong (acc * base) ;; a <- slong (a + c) ;; next a 1 errno
      end
  end.

Definition cut_values (neg : bool) (MIN MAX base : Z) : Z * Z :=
  let cutoff := if neg then MIN else MAX in
  let cutlim := Z.rem cutoff base in
  let cutoff := Z.quot cutoff base in
  if neg then
    let '(cutlim, cutoff) := if cutlim >? 0 then (cutlim - base, cutoff + 1) else (cutlim, cutoff) in
    (cutoff, - cutlim)
  else (cutoff, cutlim).

Definition strto_signed (MIN MAX : Z) (nptr : Z) (endptr : bool) (base : Z) : MM (Z * option Z * option Z) :=
  fuel <- str_fuel ;;
  r <- skip_space_next fuel nptr ;;
  let '(c, s) := r in
  let neg := c =? 45 in
  r <- (if neg || (c =? 43) then c <- load_char s ;; ret (c, s + 1) else ret (c, s)) ;;
  let '(c, s) := r in
  hex <- (if ((base =? 0) || (base =? 16)) && (c =? 48) then x <- load_char s ;; ret ((x =? 120) || (x =? 88)) else ret false) ;;
  r <- (if hex then c <- load_char (s + 1) ;; ret (c, s + 2, 16) else ret (c, s, base)) ;;
  let '(c, s, base) := r in
  let base := if base =? 0 then (if c =? 48 then 8 else 10) else base in
  let '(cutoff, cutlim) := cut_values neg MIN MAX base in
  r <- strtol_loop fuel neg MIN MAX cutoff cutlim base c s 0 0 None ;;
  let '(acc, any, s, errno) := r in
  ret (acc, if endptr then Some (if negb (any =? 0) then s - 1 else nptr) else None, errno).

Definition strtol (nptr : Z) (endptr : bool) (base : Z) : MM (Z * option Z * option Z) := strto_signed LONG_MIN LONG_MAX nptr endptr base.
Definition strtoll (nptr : Z) (endptr : bool) (base : Z) : MM (Z * option Z * option Z) := strto_signed LLONG_MIN LLONG_MAX nptr endptr base.
End num.

(** ** What the characters of a number mean *)
Fixpoint drop_spaces (l : list Z) : list Z :=
  match l with c :: l' => if isspace c then drop_spaces l' else l | [] => [] end.
Definition sign (l : list Z) : bool * list Z :=
  match l with
  | c :: l' => if c =? 45 then (true, l') else if c =? 43 then (false, l') else (false, l)
  | [] => (false, [])
  end.
(** The base and what follows its prefix. *)
Definition radix (base : Z) (l : list Z) : Z * list Z :=
  let plain := (if base =? 0 then (if hd 0 l =? 48 then 8 else 10) else base, l) in
  match l with
  | c :: x :: l' => if ((base =? 0) || (base =? 16)) && (c =? 48) && ((x =? 120) || (x =? 88)) then (16, l') else plain
  | _ => plain
  end.
Fixpoint digits (base : Z) (l : list Z) : list Z :=
  match l with
  | c :: l => match digit c with Some v => if v >=? base then [] else v :: digits base l | None => [] end
  | [] => []
  end.
Definition number (base a : Z) (ds : list Z) : Z := fold_left (fun a v => a * base + v) ds a.

Lemma number_ge base ds : forall a, 2 <= base -> 0 <= a -> Forall (fun v => 0 <= v) ds -> a <= number base a ds.
Proof.
  induction ds as [|v ds IH]; intros a Hb Ha Hds; cbn; [done|]. inversion Hds; subst. etrans; [|apply IH; [done|nia|done]]. nia.
Qed.

Lemma digit_nonneg c v : digit c = Some v -> 0 <= v.
Proof.
  unfold digit, isalpha, isdigit, isupper, islower. intros Hd. destruct ((c >=? 48) && (c <=? 57)) eqn:E1; [injection Hd as <-; bprop; lia|].
  destruct ((c >=? 65) && (c <=? 90)) eqn:E2; cbn in Hd; [injection Hd as <-; bprop; lia|].
  destruct ((c >=? 97) && (c <=? 122)) eqn:E3; [injection Hd as <-; bprop; lia|done].
Qed.

Lemma digits_range base l : Forall (fun v => 0 <= v < base) (digits base l).
Proof.
  induction l as [|c l IH]; cbn; [done|]. destruct (digit c) as [v|] eqn:Hv; [|done]. rewrite Z.geb_leb. destruct (Z.leb_spec base v); [done|].
  constructor; [|done]. split; [by eapply digit_nonneg|lia].
Qed.

Lemma digits_nonneg base l : Forall (fun v => 0 <= v) (digits base l).
Proof. eapply Forall_impl; [apply digits_range|]. intros v ?. cbn in *. lia. Qed.

(** ** The loop of strtol *)
Section strtol.
Context `{CharSign}.

Lemma to_char_ascii b k : 0 <= b < 256 -> 0 <= k < 128 -> (to_char b =? k) = (b =? k).
Proof.
  intros Hb Hk. unfold to_char. destruct (char_signed && (128 <=? b)) eqn:E; [|done]. bprop.
  rewrite (proj2 (Z.eqb_neq (b - 256) k)), (proj2 (Z.eqb_neq b k)) by lia. done.
Qed.

Lemma digit_to_char b : 0 <= b < 256 -> digit (to_char b) = digit b.
Proof.
  intros Hb. unfold to_char. destruct (char_signed && (128 <=? b)) eqn:E; [|done]. bprop.
  assert (forall c, c < 0 \/ 128 <= c -> digit c = None) as Hn; [|rewrite !Hn by lia; done].
  intros c Hc. unfold digit, isalpha, isdigit, isupper, islower. rewrite !Z.geb_leb.
  destruct (Z.leb_spec 48 c), (Z.leb_spec c 57), (Z.leb_spec 65 c), (Z.leb_spec c 90), (Z.leb_spec 97 c), (Z.leb_spec c 122); cbn; lia || done.
Qed.

(** The largest absolute value of a result, and a value by its sign. *)
Definition limit (neg : bool) : Z := if neg then - LONG_MIN else LONG_MAX.
Definition signed (neg : bool) (a : Z) : Z := if neg then - a else a.

Lemma limit_pos neg : 2 ^ 63 - 1 <= limit neg <= 2 ^ 63.
Proof. unfold limit, LONG_MIN, LONG_MAX. destruct neg; lia. Qed.

Lemma cut_values_eq neg base : 2 <= base -> cut_values neg LONG_MIN LONG_MAX base = (signed neg (limit neg / base), limit neg mod base).
Proof.
  intros Hb. unfold cut_values, signed, limit. destruct neg.
  - unfold LONG_MIN. rewrite Z.rem_opp_l', Z.quot_opp_l, Z.rem_mod_nonneg, Z.quot_div_nonneg by lia. rewrite Z.opp_involutive.
    pose proof (Z.mod_pos_bound (2 ^ 63) base ltac:(lia)). rewrite Z.gtb_ltb. destruct (Z.ltb_spec 0 (- (2 ^ 63 mod base))); [lia|]. by rewrite Z.opp_involutive.
  - unfold LONG_MAX. by rewrite Z.rem_mod_nonneg, Z.quot_div_nonneg by lia.
Qed.

Lemma cut_test L a v base : 0 < base -> 0 <= v < base -> 0 <= L -> 0 <= a ->
  (a >? L / base) || ((a =? L / base) && (v >? L mod base)) = (L <? a * base + v).
Proof.
  intros Hb Hv HL Ha. rewrite !Z.gtb_ltb. pose proof (Z.div_mod L base ltac:(lia)) as Hdm. pose proof (Z.mod_pos_bound L base ltac:(lia)) as Hm.
  set (q := L / base) in *. set (r := L mod base) in *. clearbody q r.
  destruct (Z.ltb_spec q a); cbn [orb]; [symmetry; apply Z.ltb_lt; nia|].
  destruct (Z.eqb_spec a q) as [->|Hne]; cbn [andb].
  - destruct (Z.ltb_spec r v); symmetry; [apply Z.ltb_lt; nia|apply Z.ltb_ge; nia].
  - symmetry. apply Z.ltb_ge. assert (a + 1 <= q) by lia. nia.
Qed.

Abbreviation loop neg base fuel :=
  (strtol_loop fuel neg LONG_MIN LONG_MAX (signed neg (limit neg / base)) (limit neg mod base) base).

Lemma slong_eq z m : LONG_MIN <= z <= LONG_MAX -> slong z m = Some (z, m).
Proof. intros Hz. unfold slong. rewrite assert_bind; [done|]. apply andb_true_iff. rewrite !Z.leb_le. lia. Qed.

Lemma loop_step neg base fuel c v s a any errno m x :
  2 <= base <= 36 -> digit c = Some v -> v < base -> 0 <= any -> 0 <= a <= limit neg -> m !! s = Some x ->
  loop neg base (S fuel) c s (signed neg a) any errno m =
    if limit neg <? a * base + v then loop neg base fuel x (s + 1) (signed neg (limit neg)) (- 1) (Some ERANGE) m
    else loop neg base fuel x (s + 1) (signed neg (a * base + v)) 1 errno m.
Proof.
  intros Hb Hd Hv Hany Ha Hx. pose proof (digit_nonneg _ _ Hd) as Hv0. pose proof (limit_pos neg) as HL. cbn [strtol_loop]. rewrite Hd.
  rewrite Z.geb_leb. destruct (Z.leb_spec base v); [lia|]. destruct (Z.ltb_spec any 0); [lia|].
  pose proof (cut_test (limit neg) a v base ltac:(lia) ltac:(lia) ltac:(lia) ltac:(lia)) as Hcut. unfold signed in *. destruct neg.
  - assert ((- a <? - (limit true / base)) || ((- a =? - (limit true / base)) && (v >? limit true mod base)) = (limit true <? a * base + v)) as ->.
    { rewrite <- Hcut, Z.gtb_ltb. f_equal; [destruct (Z.ltb_spec (- a) (- (limit true / base))), (Z.ltb_spec (limit true / base) a); lia || done|].
      f_equal. destruct (Z.eqb_spec (- a) (- (limit true / base))), (Z.eqb_spec a (limit true / base)); lia || done. }
    destruct (Z.ltb_spec (limit true) (a * base + v)) as [Hov|Hok].
    + by rewrite (bind_eq _ _ _ _ _ (load8_eq _ _ _ Hx)).
    + change (limit true) with (2 ^ 63) in *. unfold LONG_MIN in *. rewrite (bind_eq _ _ _ _ _ (slong_eq (- a * base) m ltac:(unfold LONG_MIN, LONG_MAX; nia))).
      rewrite (bind_eq _ _ _ _ _ (slong_eq (- a * base - v) m ltac:(unfold LONG_MIN, LONG_MAX; nia))). rewrite (bind_eq _ _ _ _ _ (load8_eq _ _ _ Hx)).
      by replace (- a * base - v) with (- (a * base + v)) by lia.
  - rewrite Hcut. destruct (Z.ltb_spec (limit false) (a * base + v)) as [Hov|Hok].
    + by rewrite (bind_eq _ _ _ _ _ (load8_eq _ _ _ Hx)).
    + change (limit false) with LONG_MAX in *. rewrite (bind_eq _ _ _ _ _ (slong_eq (a * base) m ltac:(unfold LONG_MIN, LONG_MAX in *; nia))).
      rewrite (bind_eq _ _ _ _ _ (slong_eq (a * base + v) m ltac:(unfold LONG_MIN, LONG_MAX in *; nia))). by rewrite (bind_eq _ _ _ _ _ (load8_eq _ _ _ Hx)).
Qed.

Lemma cstr_head m p l : cstr m p l -> m !! p = Some (hd 0 l).
Proof. destruct l; [done|]. by intros (_ & ? & _). Qed.

Lemma digit_nul : digit 0 = None.
Proof. done. Qed.

(** After an overflow only the position moves on. *)
Lemma loop_over neg base l : forall m s c acc errno fuel,
  digit c = digit (hd 0 l) -> cstr m (s - 1) l -> (length l < fuel)%nat ->
  loop neg base fuel c s acc (- 1) errno m = Some ((acc, - 1, s + zlen (digits base l), errno), m).
Proof.
  induction l as [|x l IH]; intros m s c acc errno [|fuel] Hc Hl Hf; cbn in Hf; try lia; cbn [strtol_loop]; rewrite Hc; cbn [hd digits].
  - rewrite digit_nul. cbn. by rewrite Z.add_0_r.
  - destruct (digit x) as [v|] eqn:Hv; [|cbn; by rewrite Z.add_0_r]. destruct (v >=? base); [cbn; by rewrite Z.add_0_r|]. change (-1 <? 0) with true. cbn iota.
    destruct Hl as (_ & _ & Hl). replace (s - 1 + 1) with s in Hl by lia. rewrite (bind_eq _ _ _ _ _ (load8_eq _ _ _ (cstr_head _ _ _ Hl))).
    rewrite IH; [|done|by replace (s + 1 - 1) with s by lia|lia]. do 3 f_equal. cbn [length]. f_equal. lia.
Qed.

Definition loop_result neg base a any errno s l : Z * Z * Z * option Z :=
  let ds := digits base l in let n := number base a ds in
  if limit neg <? n then (signed neg (limit neg), - 1, s + zlen ds, Some ERANGE)
  else (signed neg n, match ds with [] => any | _ => 1 end, s + zlen ds, errno).

Lemma loop_run neg base l : forall m s c a any errno fuel,
  2 <= base <= 36 -> digit c = digit (hd 0 l) -> cstr m (s - 1) l -> (length l < fuel)%nat -> 0 <= any -> 0 <= a <= limit neg ->
  loop neg base fuel c s (signed neg a) any errno m = Some (loop_result neg base a any errno s l, m).
Proof.
  induction l as [|x l IH]; intros m s c a any errno [|fuel] Hb Hc Hl Hf Hany Ha; cbn in Hf; try lia; unfold loop_result.
  - cbn [strtol_loop]. rewrite Hc. cbn. rewrite (proj2 (Z.ltb_ge _ _)) by lia. by rewrite Z.add_0_r.
  - cbn [digits]. cbn [hd] in Hc. destruct (digit x) as [v|] eqn:Hv.
    2: { cbn [strtol_loop]. rewrite Hc. cbn. rewrite (proj2 (Z.ltb_ge _ _)) by lia. by rewrite Z.add_0_r. }
    rewrite Z.geb_leb. destruct (Z.leb_spec base v) as [Hge|Hlt].
    { cbn [strtol_loop]. rewrite Hc, Z.geb_leb, (proj2 (Z.leb_le _ _) Hge). cbn. rewrite (proj2 (Z.ltb_ge _ _)) by lia. by rewrite Z.add_0_r. }
    destruct Hl as (_ & _ & Hl). replace (s - 1 + 1) with s in Hl by lia. pose proof (digit_nonneg _ _ Hv) as Hv0.
    rewrite (loop_step neg base fuel c v s a any errno m (hd 0 l)); [|done|done|done|done|done|by apply cstr_head].
    assert (cstr m (s + 1 - 1) l) as Hl' by (by replace (s + 1 - 1) with s by lia).
    change (number base a (v :: digits base l)) with (number base (a * base + v) (digits base l)).
    destruct (Z.ltb_spec (limit neg) (a * base + v)) as [Hov|Hok].
    + rewrite (loop_over neg base l) by (done || lia). assert (a * base + v <= number base (a * base + v) (digits base l)) as Hn
        by (apply number_ge; [lia|nia|apply digits_nonneg]).
      rewrite (proj2 (Z.ltb_lt _ _)) by lia. do 3 f_equal. cbn [length]. f_equal. lia.
    + rewrite IH by (done || lia || nia). unfold loop_result. destruct (Z.ltb_spec (limit neg) (number base (a * base + v) (digits base l))).
      * do 3 f_equal. cbn [length]. f_equal. lia.
      * destruct (digits base l); cbn [length]; do 4 f_equal; lia.
Qed.

(** [c] is the first character of the string [l], whose second is at [s]. *)
Definition at_char (m : mem) (c s : Z) (l : list Z) : Prop :=
  digit c = digit (hd 0 l) /\ (c =? 48) = (hd 0 l =? 48) /\ cstr m (s - 1) l.

Lemma cstr_hd_range m p l : cstr m p l -> 0 <= hd 0 l < 256.
Proof. destruct l; cbn; [lia|]. intros (? & _). lia. Qed.

Lemma load_char_head m s l : cstr m s l -> load_char s m = Some (to_char (hd 0 l), m) /\ at_char m (to_char (hd 0 l)) (s + 1) l.
Proof.
  intros Hl. pose proof (cstr_hd_range _ _ _ Hl) as Hr. split.
  - unfold load_char. by rewrite (bind_eq _ _ _ _ _ (load8_eq _ _ _ (cstr_head _ _ _ Hl))).
  - split_and!; [by apply digit_to_char|by apply to_char_ascii|by replace (s + 1 - 1) with s by lia].
Qed.

Lemma skip_space_next_run l : forall m s fuel, cstr m s l -> (length l < fuel)%nat ->
  skip_space_next fuel s m = Some ((hd 0 (drop_spaces l), s + (zlen l - zlen (drop_spaces l)) + 1), m) /\
  cstr m (s + (zlen l - zlen (drop_spaces l))) (drop_spaces l).
Proof.
  induction l as [|c l IH]; intros m s [|fuel] Hl Hf; cbn in Hf; try lia; cbn [skip_space_next drop_spaces].
  - rewrite (bind_eq _ _ _ _ _ (load_nil _ _ Hl)). cbn. by rewrite Z.add_0_r.
  - pose proof Hl as Hl0. apply load_cons in Hl as (Hr & Hc & Hl). rewrite (bind_eq _ _ _ _ _ Hr). destruct (isspace c).
    + destruct (IH m (s + 1) fuel Hl ltac:(lia)) as [IH1 IH2]. rewrite IH1. cbn [length].
      replace (s + (Z.of_nat (S (length l)) - zlen (drop_spaces l))) with (s + 1 + (zlen l - zlen (drop_spaces l))) by lia. done.
    + rewrite Z.sub_diag, Z.add_0_r. done.
Qed.

Lemma at_head m s l : cstr m s l -> at_char m (hd 0 l) (s + 1) l.
Proof. intros Hl. split_and!; [done..|by replace (s + 1 - 1) with s by lia]. Qed.

Lemma sign_run m s l :
  cstr m s l ->
  exists c s', (if (hd 0 l =? 45) || (hd 0 l =? 43) then c <- load_char (s + 1) ;; ret (c, s + 1 + 1) else ret (hd 0 l, s + 1)) m = Some ((c, s'), m) /\
    (hd 0 l =? 45) = fst (sign l) /\ at_char m c s' (snd (sign l)) /\ s' - 1 = s + (zlen l - zlen (snd (sign l))).
Proof.
  intros Hl. destruct l as [|c l]; cbn [hd sign].
  { exists 0, (s + 1). cbn. split; [done|split; [done|split; [by apply (at_head m s [])|cbn; lia]]]. }
  destruct (Z.eqb_spec c 45) as [->|H1]; [|destruct (Z.eqb_spec c 43) as [->|H2]]; cbn [orb fst snd].
  - destruct Hl as (_ & _ & Hl). destruct (load_char_head m (s + 1) l Hl) as [Hr Hat]. rewrite (bind_eq _ _ _ _ _ Hr).
    eexists _, _. split; [done|split; [done|split; [exact Hat|cbn [length]; lia]]].
  - destruct Hl as (_ & _ & Hl). destruct (load_char_head m (s + 1) l Hl) as [Hr Hat]. rewrite (bind_eq _ _ _ _ _ Hr).
    eexists _, _. split; [done|split; [done|split; [exact Hat|cbn [length]; lia]]].
  - exists c, (s + 1). split; [done|split; [done|split; [by apply (at_head m s (c :: l))|lia]]].
Qed.

Lemma radix_run m s l c base :
  at_char m c s l ->
  exists c' s' b, (hex <- (if ((base =? 0) || (base =? 16)) && (c =? 48) then x <- load_char s ;; ret ((x =? 120) || (x =? 88)) else ret false) ;;
      (if hex then c <- load_char (s + 1) ;; ret (c, s + 2, 16) else ret (c, s, base))) m = Some ((c', s', b), m) /\
    (if b =? 0 then (if c' =? 48 then 8 else 10) else b) = fst (radix base l) /\
    at_char m c' s' (snd (radix base l)) /\ s' - 1 = s - 1 + (zlen l - zlen (snd (radix base l))).
Proof.
  intros Hat. pose proof Hat as (Hd & Hz & Hl). rewrite Hz.
  assert (forall hex, hex = false -> radix base l = (if base =? 0 then (if hd 0 l =? 48 then 8 else 10) else base, l) ->
    exists c' s' b, (if hex then c <- load_char (s + 1) ;; ret (c, s + 2, 16) else ret (c, s, base)) m = Some ((c', s', b), m) /\
    (if b =? 0 then (if c' =? 48 then 8 else 10) else b) = fst (radix base l) /\
    at_char m c' s' (snd (radix base l)) /\ s' - 1 = s - 1 + (zlen l - zlen (snd (radix base l)))) as Hplain.
  { intros hex -> ->. exists c, s, base. cbn. rewrite Hz. split; [done|split; [done|split; [exact Hat|lia]]]. }
  destruct (((base =? 0) || (base =? 16)) && (hd 0 l =? 48)) eqn:Hp.
  - apply andb_true_iff in Hp as [Hb H0%Z.eqb_eq]. destruct l as [|c0 l]; [done|]. cbn in H0. subst c0. pose proof Hl as (_ & _ & Hl').
    replace (s - 1 + 1) with s in Hl' by lia. destruct (load_char_head m s l Hl') as [Hr _]. rewrite bind_assoc, (bind_eq _ _ _ _ _ Hr), ret_bind.
    pose proof (cstr_hd_range _ _ _ Hl') as Hx. rewrite !to_char_ascii by (done || lia).
    destruct ((hd 0 l =? 120) || (hd 0 l =? 88)) eqn:Hh; [|apply (Hplain false); [done|]].
    + destruct l as [|x l]; [done|]. cbn in Hh. pose proof Hl' as (_ & _ & Hl2). destruct (load_char_head m (s + 1) l Hl2) as [Hr2 Hat2].
      rewrite (bind_eq _ _ _ _ _ Hr2). unfold radix. rewrite Hb, Hh. cbn [andb Z.eqb fst snd]. eexists _, _, _. split; [done|split; [done|split]].
      * replace (s + 2) with (s + 1 + 1) by lia. exact Hat2.
      * cbn -[Z.of_nat]. lia.
    + destruct l as [|x l]; [done|]. unfold radix. cbn in Hh. rewrite Hh, !andb_false_r. done.
  - rewrite ret_bind. apply (Hplain false); [done|]. destruct l as [|c0 [|x l]]; [done|done|]. unfold radix. cbn in Hp. by rewrite Hp.
Qed.

Lemma radix_base base l : base = 0 \/ 2 <= base <= 36 -> 2 <= fst (radix base l) <= 36.
Proof.
  intros Hb. assert (2 <= (if base =? 0 then (if hd 0 l =? 48 then 8 else 10) else base) <= 36) as Hp.
  { destruct (Z.eqb_spec base 0); [destruct (_ =? 48); lia|lia]. }
  unfold radix. destruct l as [|c [|x l]]; cbn [fst]; try done. destruct (_ && _); cbn [fst]; [lia|done].
Qed.

Lemma strl_lengths l : (length (drop_spaces l) <= length l)%nat /\ (length (snd (sign l)) <= length l)%nat /\ forall b, (length (snd (radix b l)) <= length l)%nat.
Proof.
  split; [|split].
  - induction l as [|c l IH]; cbn; [done|]. destruct (isspace c); cbn; lia.
  - destruct l as [|c l]; cbn; [done|]. destruct (c =? 45), (c =? 43); cbn; lia.
  - intros b. unfold radix. destruct l as [|c [|x l]]; cbn; try lia. destruct (_ && _); cbn; lia.
Qed.

Lemma strto_run m p l (endptr : bool) base :
  cstr m p l -> base = 0 \/ 2 <= base <= 36 ->
  let '(neg, l1) := sign (drop_spaces l) in
  let '(b, body) := radix base l1 in
  let ds := digits b body in let n := number b 0 ds in
  strto_signed LONG_MIN LONG_MAX p endptr base m =
    Some ((signed neg (Z.min n (limit neg)), if endptr then Some (match ds with [] => p | _ => p + (zlen l - zlen body) + zlen ds end) else None, if limit neg <? n then Some ERANGE else None), m).
Proof.
  intros Hl Hb. pose proof (cstr_size _ _ _ Hl) as Hsz. pose proof (strl_lengths l) as (Hn1 & _). pose proof (strl_lengths (drop_spaces l)) as (_ & Hn2 & _).
  destruct (skip_space_next_run l m p (S (size m)) Hl ltac:(lia)) as [Hskip Hl1].
  destruct (sign_run m _ _ Hl1) as (c & s & Hsign & Hneg & Hat & Hs). destruct (sign (drop_spaces l)) as [neg l1]. cbn [fst snd] in *.
  destruct (radix_run m s l1 c base Hat) as (c' & s' & b & Hrad & Hbase & Hat' & Hs'). pose proof (radix_base base l1 Hb) as Hbr.
  pose proof (strl_lengths l1) as (_ & _ & Hn3). specialize (Hn3 base). destruct (radix base l1) as [b' body]. cbn [fst snd] in *.
  destruct Hat' as (Hd & _ & Hbody). cbn zeta.
  unfold strto_signed. rewrite str_fuel_bind, (bind_eq _ _ _ _ _ Hskip). cbn iota beta zeta.
  rewrite (bind_eq _ _ _ _ _ Hsign). cbn iota beta zeta. rewrite <- (bind_assoc _ _ _ m), (bind_eq _ _ _ _ _ Hrad). cbn iota beta zeta. rewrite Hbase, Hneg, cut_values_eq by lia.
  pose proof (limit_pos neg) as HL. pose proof (loop_run neg b' body m s' c' 0 0 None (S (size m)) Hbr Hd Hbody ltac:(lia) ltac:(lia) ltac:(lia)) as Hloop.
  replace (signed neg 0) with 0 in Hloop by (by destruct neg). rewrite (bind_eq _ _ _ _ _ Hloop). unfold loop_result.
  destruct (Z.ltb_spec (limit neg) (number b' 0 (digits b' body))) as [Hov|Hok].
  - rewrite Z.min_r by lia. cbn. destruct (digits b' body) as [|d ds] eqn:Hds; [cbn in Hov; lia|]. unfold ret. do 4 f_equal.
    destruct endptr; [|done]. f_equal. lia.
  - rewrite Z.min_l by lia. cbn iota beta zeta. unfold ret. do 4 f_equal. destruct endptr; [|done]. destruct (digits b' body) as [|d ds]; [done|]. cbn -[Z.of_nat]. f_equal. lia.
Qed.

(** C35: [strtol] and [strtoll] read a number after spaces, a sign and a prefix:
    the value is that of the digits of the base as far as they go, brought into
    the range of the type if it is outside ([ERANGE] says so), and [*endptr] is
    behind the last digit, or the beginning if there is none. No step
    overflows. *)
Theorem strtol_saturates m p l (endptr : bool) base :
  cstr m p l -> base = 0 \/ 2 <= base <= 36 ->
  let '(neg, l1) := sign (drop_spaces l) in
  let '(b, body) := radix base l1 in
  let ds := digits b body in let n := number b 0 ds in
  let result := Some ((signed neg (Z.min n (limit neg)),
                       if endptr then Some (match ds with [] => p | _ => p + (zlen l - zlen body) + zlen ds end) else None,
                       if limit neg <? n then Some ERANGE else None), m) in
  strtol p endptr base m = result /\ strtoll p endptr base m = result.
Proof.
  intros Hl Hb. pose proof (strto_run m p l endptr base Hl Hb) as Hr. destruct (sign (drop_spaces l)) as [neg l1]. destruct (radix base l1) as [b body]. by split.
Qed.
End strtol.

(** ** Witness: two spaces, a negative hexadecimal number and a letter *)
Definition num_text : mem := bytes_at 1000 [32; 32; 45; 48; 120; 49; 102; 122; 0].

Lemma strtol_saturates_witness :
  @strtol true 1000 true 0 num_text = Some ((- 31, Some 1007, None), num_text) /\ @strtoll true 1000 true 0 num_text = Some ((- 31, Some 1007, None), num_text).
Proof.
  assert (cstr num_text 1000 [32; 32; 45; 48; 120; 49; 102; 122]) as Hl by check_string.
  exact (@strtol_saturates true num_text 1000 _ true 0 Hl (or_introl eq_refl)).
Defined.
