(* ===== verification/LibcSearch.v ===== *)
(** * Binary search in an array (lib/libc/bsearch.c)

    [compare a] compares the key with the element at the address [a]; it is
    [None] where there is no element, as the callback may not be given such an
    address. Indices are of type [size_t] and wrap. The loop halves the interval,
    so 65 rounds are enough for any array. *)
From stdpp Require Import base list.
From Stdlib Require Import ZArith Lia.
From S2P Require Import Prelude.

Local Open Scope Z_scope.

Section bsearch.
Context (compare : Z -> option Z) (base size : Z).

Fixpoint bsearch_loop (fuel : nat) (low high : Z) : option Z :=
  match fuel with
  | O => None
  | S fuel =>
      let mid := u64 (low + u64 (high - low) / 2) in
      let mid_elem := base + mid * size in
      match compare mid_elem with
      | None => None
      | Some r =>
          if r <? 0 then
            if mid =? 0 then Some 0 else bsearch_loop fuel low (u64 (mid - 1))
          else if r >? 0 then
            let low := u64 (mid + 1) in
            if (low <? mid) || (low >? high) then Some 0 else bsearch_loop fuel low high
          else Some mid_elem
      end
  end.

Definition bsearch (num_elems : Z) : option Z :=
  if num_elems =? 0 then Some 0 else bsearch_loop 65 0 (u64 (num_elems - 1)).

(** The array: [l1] elements before the key, [eqs] that match it, the rest after
    it. *)
Record cut_array (num l1 eqs : Z) : Prop := {
  cut_sizes : 0 <= l1 /\ 0 <= eqs /\ l1 + eqs <= num < 2 ^ 63;
  cut_less : forall i, 0 <= i < l1 -> exists r, compare (base + i * size) = Some r /\ 0 < r;
  cut_equal : forall i, l1 <= i < l1 + eqs -> compare (base + i * size) = Some 0;
  cut_greater : forall i, l1 + eqs <= i < num -> exists r, compare (base + i * size) = Some r /\ r < 0;
  cut_outside : forall i, num <= i < 2 ^ 64 -> compare (base + i * size) = None
}.

Lemma midpoint low high : 0 <= low <= high -> high < 2 ^ 63 -> exists mid, u64 (low + u64 (high - low) / 2) = mid /\ low <= mid <= high /\ mid - low <= (high - low) / 2 /\ high - mid <= (high - low) / 2 + 1 /\ (low < high -> mid < high).
Proof.
  intros Hl Hh. rewrite (u64_small (high - low)) by lia. pose proof (Z.div_mod (high - low) 2 ltac:(lia)). pose proof (Z.mod_pos_bound (high - low) 2 ltac:(lia)).
  rewrite u64_small by lia. eexists. split; [reflexivity|]. lia.
Qed.

Lemma bsearch_round fuel low high mid :
  u64 (low + u64 (high - low) / 2) = mid ->
  bsearch_loop (S fuel) low high =
    match compare (base + mid * size) with
    | None => None
    | Some r =>
        if r <? 0 then if mid =? 0 then Some 0 else bsearch_loop fuel low (u64 (mid - 1))
        else if r >? 0 then
          if (u64 (mid + 1) <? mid) || (u64 (mid + 1) >? high) then Some 0 else bsearch_loop fuel (u64 (mid + 1)) high
        else Some (base + mid * size)
    end.
Proof. by intros <-. Qed.

(** While there is a match between the bounds it is not lost. *)
Lemma bsearch_loop_run num l1 eqs fuel : forall low high,
  cut_array num l1 eqs -> 0 <= low <= high -> high < num -> low < l1 + eqs -> l1 <= high -> 0 < eqs -> high - low < 2 ^ Z.of_nat fuel ->
  exists i, bsearch_loop (S fuel) low high = Some (base + i * size) /\ l1 <= i < l1 + eqs.
Proof.
  induction fuel as [|fuel IH]; intros low high Hcut Hl Hh Hlow Hhigh Heq Hf; pose proof (cut_sizes _ _ _ Hcut) as (Hs1 & Hs2 & Hs3);
    destruct (midpoint low high ltac:(lia) ltac:(lia)) as (mid & Hmid & Hb & Hm1 & Hm2 & Hm3); rewrite (bsearch_round _ _ _ _ Hmid).
  - assert (mid = low /\ high = low) as [-> ->] by (cbn in Hf; lia). rewrite (cut_equal _ _ _ Hcut) by lia. cbn. exists low. split; [done|lia].
  - rewrite Nat2Z.inj_succ, Z.pow_succ_r in Hf by lia. pose proof (Z.div_mod (high - low) 2 ltac:(lia)). pose proof (Z.mod_pos_bound (high - low) 2 ltac:(lia)).
    destruct (decide (mid < l1)) as [H1|H1]; [|destruct (decide (l1 + eqs <= mid)) as [H2|H2]].
    + destruct (cut_less _ _ _ Hcut mid ltac:(lia)) as (r & -> & Hr). rewrite (proj2 (Z.ltb_ge _ _)) by lia. rewrite Z.gtb_ltb, (proj2 (Z.ltb_lt _ _)) by lia.
      rewrite u64_small by lia. rewrite (proj2 (Z.ltb_ge _ _)) by lia. rewrite Z.gtb_ltb, (proj2 (Z.ltb_ge _ _)) by lia. cbn [orb]. apply IH; try done; lia.
    + destruct (cut_greater _ _ _ Hcut mid ltac:(lia)) as (r & -> & Hr). rewrite (proj2 (Z.ltb_lt _ _)) by lia. rewrite (proj2 (Z.eqb_neq _ _)) by lia.
      rewrite u64_small by lia. apply IH; try done; lia.
    + rewrite (cut_equal _ _ _ Hcut) by lia. cbn. exists mid. split; [done|lia].
Qed.

(** A key between the last two elements: the interval shrinks to the last one, the
    upper bound passes below the lower one, and the next index is outside. *)
Lemma bsearch_over num fuel : forall low,
  cut_array num (num - 1) 0 -> 2 <= num -> 0 <= low < num -> bsearch_loop fuel low (num - 1) = None.
Proof.
  induction fuel as [|fuel IH]; intros low Hcut Hn Hlow; [done|]. pose proof (cut_sizes _ _ _ Hcut) as (_ & _ & Hs).
  destruct (midpoint low (num - 1) ltac:(lia) ltac:(lia)) as (mid & Hmid & Hb & Hm1 & Hm2 & Hm3). rewrite (bsearch_round _ _ _ _ Hmid).
  destruct (decide (mid < num - 1)) as [H1|H1].
  - destruct (cut_less _ _ _ Hcut mid ltac:(lia)) as (r & -> & Hr). rewrite (proj2 (Z.ltb_ge _ _)) by lia. rewrite Z.gtb_ltb, (proj2 (Z.ltb_lt _ _)) by lia.
    rewrite u64_small by lia. rewrite (proj2 (Z.ltb_ge _ _)) by lia. rewrite Z.gtb_ltb, (proj2 (Z.ltb_ge _ _)) by lia. cbn [orb]. apply IH; try done; lia.
  - assert (mid = num - 1 /\ low = num - 1) as [-> ->] by lia.
    destruct (cut_greater _ _ _ Hcut (num - 1) ltac:(lia)) as (r & -> & Hr). rewrite (proj2 (Z.ltb_lt _ _)) by lia. rewrite (proj2 (Z.eqb_neq _ _)) by lia.
    rewrite u64_small by lia. destruct fuel as [|fuel]; [done|].
    assert (u64 (num - 1 + u64 (num - 1 - 1 - (num - 1)) / 2) = num - 1 + (2 ^ 63 - 1)) as Hmid2.
    { replace (num - 1 - 1 - (num - 1)) with (- 1) by lia. change (u64 (- 1) / 2) with (2 ^ 63 - 1). apply u64_small. lia. }
    rewrite (bsearch_round _ _ _ _ Hmid2). by rewrite (cut_outside _ _ _ Hcut) by lia.
Qed.

(** [bsearch] in a sorted array finds an element that matches the key if there
    is one, and returns [NULL] for a key before the first or behind the last
    element; but for a key between the last two elements it goes on with a
    wrapped length and hands an address outside the array to the callback. *)
Theorem bsearch_finds_or_overruns num l1 eqs :
  cut_array num l1 eqs ->
  (0 < eqs -> exists i, bsearch num = Some (base + i * size) /\ l1 <= i < l1 + eqs) /\
  (eqs = 0 -> 2 <= num -> l1 = num - 1 -> bsearch num = None).
Proof.
  intros Hcut. pose proof (cut_sizes _ _ _ Hcut) as (Hs1 & Hs2 & Hs3). unfold bsearch. split.
  - intros Heq. rewrite (proj2 (Z.eqb_neq _ _)) by lia. rewrite u64_small by lia. apply (bsearch_loop_run num l1 eqs 64 0 (num - 1) Hcut); [lia|lia|lia|lia|lia|]. change (Z.of_nat 64) with 64. lia.
  - intros -> Hn ->. rewrite (proj2 (Z.eqb_neq _ _)) by lia. rewrite u64_small by lia. apply (bsearch_over num 65 0 Hcut); lia.
Qed.
End bsearch.

(** ** Witness: the array 10, 20, 30 at address 100 *)
Definition ten_twenty_thirty (key a : Z) : option Z := (fun x => key - x) <$> ([10; 20; 30] !! Z.to_nat ((a - 100) / 8)).

Lemma cut_array_check key l1 eqs :
  (l1 = 1 /\ eqs = 1 /\ key = 20) \/ (l1 = 2 /\ eqs = 0 /\ key = 25) -> cut_array (ten_twenty_thirty key) 100 8 3 l1 eqs.
Proof.
  assert (forall i, ten_twenty_thirty key (100 + i * 8) = (fun x => key - x) <$> ([10; 20; 30] !! Z.to_nat i)) as Heq.
  { intros i. unfold ten_twenty_thirty. replace (100 + i * 8 - 100) with (i * 8) by lia. by rewrite Z.div_mul. }
  intros Hk. constructor; [lia| | | |]; intros i Hi; rewrite Heq.
  - assert (i = 0 \/ i = 1) as [-> | ->] by lia; cbn; eexists; (split; [reflexivity|lia]).
  - assert (i = 1 /\ key = 20) as [-> ->] by lia. done.
  - assert (i = 2) as -> by lia. cbn. eexists. split; [reflexivity|lia].
  - rewrite lookup_ge_None_2; [done|cbn; lia].
Qed.

Lemma bsearch_finds_or_overruns_witness :
  (exists i, bsearch (ten_twenty_thirty 20) 100 8 3 = Some (100 + i * 8) /\ 1 <= i < 2) /\ bsearch (ten_twenty_thirty 25) 100 8 3 = None.
Proof.
  split.
  - destruct (bsearch_finds_or_overruns (ten_twenty_thirty 20) 100 8 3 1 1) as [Hf _]; [apply cut_array_check; lia|]. destruct (Hf ltac:(lia)) as (i & Hr & Hi). by exists i.
  - destruct (bsearch_finds_or_overruns (ten_twenty_thirty 25) 100 8 3 2 0) as [_ Hn]; [apply cut_array_check; lia|]. apply Hn; lia.
Defined.
