(* ===== verification/Cbuf.v ===== *)
(** * Circular buffers (lib/cbuf, lk/pow2.h)

    The buffer is an array of [2 ^ len_pow2] bytes with two indices of type [uint].
    Its event and spin lock are what other threads see. The event is reached through an
    interface, [EventOps], that event.c implements; a wait or a wake-up that
    may switch the caller out has the outcome [Switched]. A spin lock that is held is
    never taken: a caller on the cpu of the holder would spin for ever. *)
From stdpp Require Import base list.
From Stdlib Require Import ZArith Lia.
From S2P Require Import Prelude Sched.

Local Open Scope Z_scope.
Local Open Scope lk_scope.

(** ** lk/pow2.h *)
Definition ispow2 (val : Z) : bool := Z.land (u32 (val - 1)) val =? 0.
Definition log2_uint (val : Z) : Z := if val =? 0 then 0 else Z.log2 val.
Definition valpow2 (valp2 : Z) : Z := u32 (Z.shiftl 1 valp2).
Definition divpow2 (val divp2 : Z) : Z := Z.shiftr val divp2.
Definition modpow2 (val modp2 : Z) : Z := Z.land val (Z.shiftl 1 modp2 - 1).
Definition round_up_pow2_u32 (v : Z) : Z :=
  let v := u32 (v - 1) in
  let v := Z.lor v (Z.shiftr v 1) in
  let v := Z.lor v (Z.shiftr v 2) in
  let v := Z.lor v (Z.shiftr v 4) in
  let v := Z.lor v (Z.shiftr v 8) in
  let v := Z.lor v (Z.shiftr v 16) in
  u32 (v + 1).

(** The operations on the event of a buffer: [event_init], [event_signal],
    [event_unsignal] and [event_wait]. *)
Class EventOps (E : Type) := {
  ev_init : M E unit;
  ev_signal : bool -> M E (outcome Z);
  ev_unsignal : M E Z;
  ev_wait : M E (outcome Z)
}.

Record cbuf := mk_cbuf { head : Z; tail : Z; len_pow2 : Z; buf : list Z; lock : bool }.
Record cbuf_sys (E : Type) := mk_cbuf_sys { ev : E; cb : cbuf }.
Arguments mk_cbuf_sys {E}. Arguments ev {E}. Arguments cb {E}.

Definition INC_POINTER (c : cbuf) (p inc : Z) : Z := modpow2 (u32 (p + inc)) (len_pow2 c).
Definition set_head (h : Z) (c : cbuf) : cbuf := mk_cbuf h (tail c) (len_pow2 c) (buf c) (lock c).
Definition set_tail (t : Z) (c : cbuf) : cbuf := mk_cbuf (head c) t (len_pow2 c) (buf c) (lock c).
Definition set_buf (b : list Z) (c : cbuf) : cbuf := mk_cbuf (head c) (tail c) (len_pow2 c) b (lock c).
Definition set_lock (l : bool) (c : cbuf) : cbuf := mk_cbuf (head c) (tail c) (len_pow2 c) (buf c) l.

Definition cbuf_space_avail (c : cbuf) : Z :=
  let consumed := modpow2 (u32 (head c - tail c)) (len_pow2 c) in
  u32 (valpow2 (len_pow2 c) - consumed - 1).
Definition cbuf_space_used (c : cbuf) : Z := modpow2 (u32 (head c - tail c)) (len_pow2 c).
Definition cbuf_size (c : cbuf) : Z := Z.shiftl 1 (len_pow2 c).

Section cbuf.
Context {E : Type} `{!EventOps E}.
Local Abbreviation MC := (M (cbuf_sys E)).

Definition upd_cbuf (f : cbuf -> cbuf) : MC unit := modify (fun s => mk_cbuf_sys (ev s) (f (cb s))).
Definition on_event {A} (op : M E A) : MC A := fun s =>
  match op (ev s) with Some (a, e) => Some (a, mk_cbuf_sys e (cb s)) | None => None end.

Definition spin_lock : MC unit := c <- gets cb ;; assert_ (negb (lock c)) ;; upd_cbuf (set_lock true).
Definition spin_unlock : MC unit := upd_cbuf (set_lock false).

Definition cbuf_initialize_etc (len : Z) (b : list Z) : MC unit :=
  assert_ (len >? 0) ;;
  assert_ (ispow2 (u32 len)) ;;
  upd_cbuf (fun _ => mk_cbuf 0 0 (log2_uint (u32 len)) b false) ;;
  on_event ev_init.
Definition cbuf_initialize (malloc : Z -> list Z) (len : Z) : MC unit := cbuf_initialize_etc len (malloc len).

(** [n] bytes of the caller's buffer from [pos] on, zeros if there is none. *)
Definition source (src : option (list Z)) (pos n : Z) : MC (list Z) :=
  match src with
  | None => ret (replicate (Z.to_nat n) 0)
  | Some d => assert_ (pos + n <=? Z.of_nat (length d)) ;; ret (take (Z.to_nat n) (drop (Z.to_nat pos) d))
  end.
(** [memcpy] into and out of the array, which must be inside it. *)
Definition buf_write (i : Z) (d : list Z) : MC unit :=
  c <- gets cb ;; assert_ (i + Z.of_nat (length d) <=? Z.of_nat (length (buf c))) ;;
  upd_cbuf (set_buf (list_inserts (Z.to_nat i) d (buf c))).
Definition buf_read (i n : Z) : MC (list Z) :=
  c <- gets cb ;; assert_ (i + n <=? Z.of_nat (length (buf c))) ;; ret (take (Z.to_nat n) (drop (Z.to_nat i) (buf c))).

(** The loop of [cbuf_write]; [fuel] bounds its passes. *)
Fixpoint write_loop (fuel : nat) (src : option (list Z)) (len pos : Z) : MC Z :=
  c <- gets cb ;;
  if (pos <? len) && (cbuf_space_avail c >? 0) then
    match fuel with
    | O => panic
    | S fuel =>
        let write_len :=
          if head c >=? tail c then
            if tail c =? 0 then Z.min (u32 (valpow2 (len_pow2 c) - head c - 1)) (len - pos)
            else Z.min (u32 (valpow2 (len_pow2 c) - head c)) (len - pos)
          else Z.min (u32 (tail c - head c - 1)) (len - pos) in
        if write_len =? 0 then ret pos
        else
          d <- source src pos write_len ;;
          buf_write (head c) d ;;
          upd_cbuf (set_head (INC_POINTER c (head c) write_len)) ;;
          write_loop fuel src len (pos + write_len)
    end
  else ret pos.

(** [preempt] is [thread_preempt], of whose effect on the caller only the outcome
    is left. *)
Definition cbuf_write (preempt : M E (outcome unit)) (src : option (list Z)) (len : Z) (canreschedule : bool) : MC (outcome Z) :=
  c <- gets cb ;;
  assert_ (len <? valpow2 (len_pow2 c)) ;;
  spin_lock ;;
  pos <- write_loop 2 src len 0 ;;
  c <- gets cb ;;
  o <- (if negb (head c =? tail c) then on_event (ev_signal false) else ret (Return 0)) ;;
  match o with
  | Switched => ret Switched
  | Return _ =>
      spin_unlock ;;
      if canreschedule then
        o <- on_event preempt ;; ret (match o with Return _ => Return pos | Switched => Switched end)
      else ret (Return pos)
  end.

(** The loop of [cbuf_read]: the bytes read. *)
Fixpoint read_loop (fuel : nat) (buflen : Z) (out : list Z) : MC (list Z) :=
  c <- gets cb ;;
  let pos := Z.of_nat (length out) in
  if (pos <? buflen) && negb (tail c =? head c) then
    match fuel with
    | O => panic
    | S fuel =>
        let read_len :=
          if head c >? tail c then Z.min (u32 (head c - tail c)) (buflen - pos)
          else Z.min (u32 (valpow2 (len_pow2 c) - tail c)) (buflen - pos) in
        d <- buf_read (tail c) read_len ;;
        upd_cbuf (set_tail (INC_POINTER c (tail c) read_len)) ;;
        read_loop fuel buflen (out ++ d)
    end
  else ret out.

(** What [cbuf_read] does under the lock. *)
Definition cbuf_read_locked (buflen : Z) : MC (list Z) :=
  spin_lock ;;
  c <- gets cb ;;
  out <- (if negb (tail c =? head c) then
            out <- read_loop 2 buflen [] ;;
            c <- gets cb ;;
            (if tail c =? head c then
               assert_ (Z.of_nat (length out) >? 0) ;; on_event ev_unsignal ;; ret tt
             else ret tt) ;;
            ret out
          else ret []) ;;
  spin_unlock ;;
  ret out.

(** One pass of [cbuf_read] from the label [retry] on; [None]: it goes back there. *)
Definition cbuf_read_pass (buflen : Z) (block : bool) : MC (outcome (option (list Z))) :=
  o <- (if block then on_event ev_wait else ret (Return 0)) ;;
  match o with
  | Switched => ret Switched
  | Return _ =>
      out <- cbuf_read_locked buflen ;;
      ret (Return (if block && (Z.of_nat (length out) =? 0) then None else Some out))
  end.

(** [fuel] bounds the passes. *)
Fixpoint cbuf_read (fuel : nat) (buflen : Z) (block : bool) : MC (outcome (list Z)) :=
  match fuel with
  | O => panic
  | S fuel =>
      o <- cbuf_read_pass buflen block ;;
      match o with
      | Switched => ret Switched
      | Return None => cbuf_read fuel buflen block
      | Return (Some out) => ret (Return out)
      end
  end.

(** What a caller that was switched out in the wait does when it runs again. *)
Definition cbuf_read_resumed (fuel : nat) (buflen : Z) : MC (outcome (list Z)) :=
  out <- cbuf_read_locked buflen ;;
  if Z.of_nat (length out) =? 0 then cbuf_read fuel buflen true else ret (Return out).

Definition cbuf_reset : MC (outcome (list Z)) := c <- gets cb ;; cbuf_read 1 (cbuf_size c) false.

(** The two regions, each an index into the array (if any) and a length. *)
Definition cbuf_peek : MC (Z * (option Z * Z) * (option Z * Z)) :=
  spin_lock ;;
  c <- gets cb ;;
  let r := cbuf_space_used c in
  let sz := cbuf_size c in
  assert_ (tail c <? sz) ;;
  assert_ (r <=? sz) ;;
  let base0 := if negb (r =? 0) then Some (tail c) else None in
  let regions := if r + tail c >? sz then ((base0, sz - tail c), (Some 0, r - (sz - tail c)))
                 else ((base0, r), (None, 0)) in
  spin_unlock ;;
  ret (r, fst regions, snd regions).

Definition cbuf_write_char (ch : Z) (canreschedule : bool) : MC (outcome Z) :=
  spin_lock ;;
  c <- gets cb ;;
  if cbuf_space_avail c >? 0 then
    buf_write (head c) [ch] ;;
    upd_cbuf (set_head (INC_POINTER c (head c) 1)) ;;
    c <- gets cb ;;
    o <- (if negb (head c =? tail c) then on_event (ev_signal canreschedule) else ret (Return 0)) ;;
    match o with
    | Switched => ret Switched
    | Return _ => spin_unlock ;; ret (Return 1)
    end
  else spin_unlock ;; ret (Return 0).

Definition cbuf_read_char_locked : MC (option Z) :=
  spin_lock ;;
  c <- gets cb ;;
  out <- (if negb (tail c =? head c) then
            d <- buf_read (tail c) 1 ;;
            upd_cbuf (set_tail (INC_POINTER c (tail c) 1)) ;;
            c <- gets cb ;;
            (if tail c =? head c then on_event ev_unsignal ;; ret tt else ret tt) ;;
            ret (list.head d)
          else ret None) ;;
  spin_unlock ;;
  ret out.

Fixpoint cbuf_read_char (fuel : nat) (block : bool) : MC (outcome (option Z)) :=
  match fuel with
  | O => panic
  | S fuel =>
      o <- (if block then on_event ev_wait else ret (Return 0)) ;;
      match o with
      | Switched => ret Switched
      | Return _ =>
          out <- cbuf_read_char_locked ;;
          if block && negb (match out with Some _ => true | None => false end) then cbuf_read_char fuel block
          else ret (Return out)
      end
  end.
End cbuf.
