(* ===== verification/CbufProps.v ===== *)
(** * A circular buffer is a bounded queue of bytes *)
From stdpp Require Import base list.
From Stdlib Require Import ZArith Lia.
From S2P Require Import Prelude Sched Cbuf.

Local Open Scope Z_scope.
Local Open Scope lk_scope.

(** What the buffer relies on of its event. [ev_fresh] says that the event may be
    initialised, [ev_may_wait] which thread makes the call and may wait, [ev_waits]
    which threads wait for the event, [ev_awake] which were woken and may run.
    After a wait [ev_next] is what the thread that runs instead does before it leaves
    the scheduler: it gives the thread lock up. *)
Class EventLaws (E : Type) `{!EventOps E} := {
  ev_ok : E -> Prop;
  ev_fresh : E -> Prop;
  ev_signaled : E -> bool;
  ev_may_wait : E -> Z -> Prop;
  ev_waits : E -> Z -> Prop;
  ev_awake : E -> Z -> Prop;
  ev_next : M E unit;
  ev_init_law e : ev_fresh e -> exists e', ev_init e = Some (tt, e') /\ ev_ok e' /\ ev_signaled e' = false /\
    (forall t, ev_may_wait e t -> ev_may_wait e' t);
  ev_signal_law e : ev_ok e -> exists r e', ev_signal false e = Some (Return r, e') /\ ev_ok e' /\ ev_signaled e' = true /\
    (forall u, ~ ev_waits e' u) /\ (forall u, ev_waits e u -> ev_awake e' u);
  ev_unsignal_law e : ev_ok e -> exists r e', ev_unsignal e = Some (r, e') /\ ev_ok e' /\ ev_signaled e' = false;
  ev_wait_law e : ev_ok e -> ev_signaled e = true -> exists r, ev_wait e = Some (Return r, e);
  ev_wait_unsignaled_law e t : ev_ok e -> ev_may_wait e t -> ev_signaled e = false ->
    exists e1 e', ev_wait e = Some (Switched, e1) /\ ev_next e1 = Some (tt, e') /\ ev_ok e' /\ ev_signaled e' = false /\
      (forall u, ev_waits e' u <-> u = t \/ ev_waits e u)
}.

Abbreviation zlen l := (Z.of_nat (length l)).

(** ** Powers of two *)
Lemma modpow2_mod v k : 0 <= k -> modpow2 v k = v mod 2 ^ k.
Proof. intros Hk. unfold modpow2. rewrite Z.shiftl_1_l. replace (2 ^ k - 1) with (Z.ones k) by (rewrite Z.ones_equiv; lia). by apply Z.land_ones. Qed.

Lemma valpow2_pow k : 0 <= k < 32 -> valpow2 k = 2 ^ k.
Proof. intros Hk. unfold valpow2. rewrite Z.shiftl_1_l. apply u32_small. split; [lia|]. apply Z.pow_lt_mono_r; lia. Qed.

Lemma u32_mod v k : 0 <= k <= 32 -> u32 v mod 2 ^ k = v mod 2 ^ k.
Proof.
  intros Hk. unfold u32. replace 32 with (k + (32 - k)) by lia. rewrite Z.pow_add_r, Z.rem_mul_r by lia.
  rewrite (Z.mul_comm (2 ^ k)), Z.mod_add by lia. apply Z.mod_mod. lia.
Qed.

Definition cap (c : cbuf) : Z := 2 ^ len_pow2 c.

Record cbuf_ok (c : cbuf) : Prop := {
  ok_pow : 0 <= len_pow2 c < 32;
  ok_head : 0 <= head c < cap c;
  ok_tail : 0 <= tail c < cap c;
  ok_buf : zlen (buf c) = cap c
}.

Definition used (c : cbuf) : Z := (head c - tail c) mod cap c.
Definition byte_at (c : cbuf) (i : Z) : Z := default 0 (buf c !! Z.to_nat ((tail c + i) mod cap c)).
Definition contents (c : cbuf) : list Z := byte_at c <$> seqZ 0 (used c).

Lemma cap_pos c : cbuf_ok c -> 0 < cap c <= 2 ^ 31.
Proof.
  intros Hc. pose proof (ok_pow _ Hc). unfold cap. split; [apply Z.pow_pos_nonneg; lia|]. apply Z.pow_le_mono_r; lia.
Qed.

Lemma used_range c : cbuf_ok c -> 0 <= used c < cap c.
Proof. intros Hc. apply Z.mod_pos_bound, cap_pos, Hc. Qed.

Lemma contents_length c : cbuf_ok c -> zlen (contents c) = used c.
Proof. intros Hc. pose proof (used_range c Hc). unfold contents. rewrite length_fmap, length_seqZ. lia. Qed.

Lemma space_used_eq c : cbuf_ok c -> cbuf_space_used c = used c.
Proof. intros Hc. pose proof (ok_pow _ Hc). unfold cbuf_space_used, used. rewrite modpow2_mod, u32_mod by lia. done. Qed.

Lemma space_avail_eq c : cbuf_ok c -> cbuf_space_avail c = cap c - 1 - used c.
Proof.
  intros Hc. pose proof (ok_pow _ Hc). pose proof (cap_pos c Hc). pose proof (used_range c Hc). unfold cbuf_space_avail.
  rewrite modpow2_mod, u32_mod, valpow2_pow by lia. fold (cap c). fold (used c). rewrite u32_small by lia. lia.
Qed.

Lemma inc_eq c p n : cbuf_ok c -> INC_POINTER c p n = (p + n) mod cap c.
Proof. intros Hc. pose proof (ok_pow _ Hc). unfold INC_POINTER. rewrite modpow2_mod, u32_mod by lia. done. Qed.

(** The indices: if the head is not before the tail the bytes are in one piece. *)
Lemma used_cases c : cbuf_ok c -> used c = if head c >=? tail c then head c - tail c else head c - tail c + cap c.
Proof.
  intros Hc. pose proof (ok_head _ Hc). pose proof (ok_tail _ Hc). unfold used. rewrite Z.geb_leb. destruct (Z.leb_spec (tail c) (head c)).
  - apply Z.mod_small. lia.
  - rewrite <- (Z.mod_add _ 1), Z.mul_1_l by lia. apply Z.mod_small. lia.
Qed.

Lemma empty_iff c : cbuf_ok c -> head c = tail c <-> contents c = [].
Proof.
  intros Hc. pose proof (contents_length c Hc) as Hl. pose proof (used_cases c Hc) as Hu. pose proof (ok_head _ Hc). pose proof (ok_tail _ Hc). rewrite Z.geb_leb in Hu.
  split; [intros He|intros He; rewrite He in Hl; cbn in Hl; destruct (Z.leb_spec (tail c) (head c)); lia].
  destruct (contents c); [done|]. cbn in Hl. rewrite He, Z.leb_refl in Hu. lia.
Qed.

Definition written (c : cbuf) (d : list Z) : cbuf :=
  set_head (INC_POINTER c (head c) (zlen d)) (set_buf (list_inserts (Z.to_nat (head c)) d (buf c)) c).

Lemma written_ok c d : cbuf_ok c -> cbuf_ok (written c d).
Proof.
  intros Hc. pose proof (cap_pos c Hc). destruct Hc as [H1 H2 H3 H4]. unfold written. rewrite inc_eq by done.
  split; unfold cap in *; cbn; [done|apply Z.mod_pos_bound; lia|done|by rewrite length_inserts].
Qed.

Lemma used_written c d : cbuf_ok c -> used c + zlen d < cap c -> used (written c d) = used c + zlen d.
Proof.
  intros Hc Hd. pose proof (cap_pos c Hc). pose proof (used_range c Hc). unfold used at 1, written. rewrite inc_eq by done. cbn.
  change (cap (set_head _ _)) with (cap c). rewrite Zminus_mod_idemp_l. replace (head c + zlen d - tail c) with (head c - tail c + zlen d) by lia.
  rewrite <- Zplus_mod_idemp_l. fold (used c). apply Z.mod_small. lia.
Qed.

Lemma byte_at_written_old c d i :
  cbuf_ok c -> used c + zlen d < cap c -> head c + zlen d <= cap c -> 0 <= i < used c -> byte_at (written c d) i = byte_at c i.
Proof.
  intros Hc Hd Hh Hi. pose proof (cap_pos c Hc) as Hcap. pose proof (ok_head _ Hc). pose proof (ok_tail _ Hc).
  assert ((tail c + i) mod cap c < head c \/ head c + zlen d <= (tail c + i) mod cap c) as Hne.
  { pose proof (used_cases c Hc) as Huc. rewrite Z.geb_leb in Huc. destruct (Z.leb_spec (tail c) (head c)).
    - rewrite Z.mod_small by lia. lia.
    - destruct (decide (tail c + i < cap c)); [rewrite Z.mod_small by lia; lia|].
      rewrite <- (Z.mod_add _ (-1)), Z.mod_small by lia. lia. }
  pose proof (Z.mod_pos_bound (tail c + i) (cap c) ltac:(lia)). unfold byte_at. f_equal. change (cap (written c d)) with (cap c).
  change (tail (written c d)) with (tail c). change (buf (written c d)) with (list_inserts (Z.to_nat (head c)) d (buf c)).
  destruct Hne; [apply list_lookup_inserts_lt|apply list_lookup_inserts_ge]; lia.
Qed.

Lemma byte_at_written_new c d j :
  cbuf_ok c -> head c + zlen d <= cap c -> (j < length d)%nat -> Some (byte_at (written c d) (used c + Z.of_nat j)) = d !! j.
Proof.
  intros Hc Hh Hj. pose proof (cap_pos c Hc) as Hcap. pose proof (ok_head _ Hc). pose proof (ok_tail _ Hc). pose proof (ok_buf _ Hc) as Hb.
  unfold byte_at. change (cap (written c d)) with (cap c).
  change (tail (written c d)) with (tail c). change (buf (written c d)) with (list_inserts (Z.to_nat (head c)) d (buf c)).
  assert ((tail c + (used c + Z.of_nat j)) mod cap c = head c + Z.of_nat j) as ->.
  { unfold used. replace (tail c + ((head c - tail c) mod cap c + Z.of_nat j)) with (tail c + Z.of_nat j + (head c - tail c) mod cap c) by lia.
    rewrite Zplus_mod_idemp_r. replace (tail c + Z.of_nat j + (head c - tail c)) with (head c + Z.of_nat j) by lia. apply Z.mod_small. lia. }
  rewrite list_lookup_inserts; [|lia|lia]. replace (Z.to_nat (head c + Z.of_nat j) - Z.to_nat (head c))%nat with j by lia.
  destruct (lookup_lt_is_Some_2 d j Hj) as [x Hx]. by rewrite Hx.
Qed.

(** Sequences given by a function. *)
Lemma fmap_seqZ_lookup {A} (f : Z -> A) p n i : (f <$> seqZ p n) !! i = if bool_decide (Z.of_nat i < n) then Some (f (p + Z.of_nat i)) else None.
Proof. rewrite list_lookup_fmap. case_bool_decide; [by rewrite lookup_seqZ_lt by done|by rewrite lookup_seqZ_ge by lia]. Qed.

Lemma contents_written c d :
  cbuf_ok c -> head c + zlen d <= cap c -> used c + zlen d < cap c -> contents (written c d) = contents c ++ d.
Proof.
  intros Hc Hh Hd. pose proof (used_range c Hc) as Hu. apply list_eq. intros i. unfold contents. rewrite used_written by done.
  rewrite fmap_seqZ_lookup, Z.add_0_l. pose proof (contents_length c Hc) as Hl. unfold contents in Hl. case_bool_decide as Hi.
  - destruct (decide (Z.of_nat i < used c)) as [Hlt|Hge].
    + rewrite lookup_app_l by lia. rewrite fmap_seqZ_lookup, bool_decide_eq_true_2 by lia. f_equal. by apply byte_at_written_old; [..|lia].
    + rewrite lookup_app_r by lia. replace (Z.of_nat i) with (used c + Z.of_nat (i - length (byte_at c <$> seqZ 0 (used c)))) by lia.
      apply byte_at_written_new; [done|done|lia].
  - symmetry. apply lookup_ge_None_2. rewrite length_app. lia.
Qed.

(** ** Reading *)
Definition consumed (c : cbuf) (n : Z) : cbuf := set_tail (INC_POINTER c (tail c) n) c.

Lemma consumed_ok c n : cbuf_ok c -> cbuf_ok (consumed c n).
Proof.
  intros Hc. pose proof (cap_pos c Hc). destruct Hc as [H1 H2 H3 H4]. unfold consumed. rewrite inc_eq by done.
  split; unfold cap in *; cbn; [done|done|apply Z.mod_pos_bound; lia|done].
Qed.

Lemma used_consumed c n : cbuf_ok c -> 0 <= n <= used c -> used (consumed c n) = used c - n.
Proof.
  intros Hc Hn. pose proof (cap_pos c Hc). pose proof (used_range c Hc). unfold used at 1, consumed. rewrite inc_eq by done. cbn.
  change (cap (set_tail _ _)) with (cap c). rewrite Zminus_mod_idemp_r. replace (head c - (tail c + n)) with (head c - tail c - n) by lia.
  rewrite <- Zminus_mod_idemp_l. fold (used c). apply Z.mod_small. lia.
Qed.

Lemma contents_consumed c n :
  cbuf_ok c -> 0 <= n <= used c -> contents (consumed c n) = drop (Z.to_nat n) (contents c).
Proof.
  intros Hc Hn. pose proof (cap_pos c Hc) as Hcap. apply list_eq. intros i. unfold contents. rewrite used_consumed by done.
  rewrite lookup_drop, !fmap_seqZ_lookup, !Z.add_0_l. do 2 case_bool_decide; try lia; [|done]. f_equal. unfold byte_at, consumed. rewrite inc_eq by done. cbn.
  change (cap (set_tail _ _)) with (cap c). rewrite Zplus_mod_idemp_l. do 4 f_equal. lia.
Qed.

(** A piece of the array that does not wrap. *)
Lemma contents_piece c n :
  cbuf_ok c -> 0 <= n <= used c -> tail c + n <= cap c -> take (Z.to_nat n) (drop (Z.to_nat (tail c)) (buf c)) = take (Z.to_nat n) (contents c).
Proof.
  intros Hc Hn Ht. pose proof (cap_pos c Hc) as Hcap. pose proof (ok_tail _ Hc). pose proof (ok_buf _ Hc) as Hb. apply list_eq. intros i.
  destruct (decide (i < Z.to_nat n)%nat) as [Hi|Hi].
  - rewrite !lookup_take_lt by done. rewrite lookup_drop. unfold contents. rewrite fmap_seqZ_lookup, bool_decide_eq_true_2 by lia. unfold byte_at.
    rewrite Z.add_0_l, Z.mod_small by lia. destruct (lookup_lt_is_Some_2 (buf c) (Z.to_nat (tail c) + i)) as [x Hx]; [lia|].
    replace (Z.to_nat (tail c + Z.of_nat i)) with (Z.to_nat (tail c) + i)%nat by lia. by rewrite Hx.
  - rewrite !lookup_ge_None_2; [done|rewrite length_take; lia|rewrite length_take; lia].
Qed.

(** ** The loops *)
Section laws.
Context {E : Type} `{!EventOps E} `{!EventLaws E}.
Implicit Types (c : cbuf) (e : E).

(** What a writer offers. *)
Definition data (src : option (list Z)) (len : Z) : list Z :=
  match src with None => replicate (Z.to_nat len) 0 | Some d => take (Z.to_nat len) d end.
Definition src_ok (src : option (list Z)) (len : Z) : Prop := match src with None => True | Some d => len <= zlen d end.

Lemma data_length src len : 0 <= len -> src_ok src len -> zlen (data src len) = len.
Proof. intros Hl Hs. destruct src as [d|]; cbn in *; [rewrite length_take; lia|rewrite length_replicate; lia]. Qed.

Lemma source_run src len pos n (s : cbuf_sys E) :
  src_ok src len -> 0 <= pos -> 0 <= n -> pos + n <= len ->
  source src pos n s = Some (take (Z.to_nat n) (drop (Z.to_nat pos) (data src len)), s).
Proof.
  intros Hs Hp Hn Hl. destruct src as [d|]; cbn in *.
  - rewrite assert_bind by (apply Z.leb_le; lia). unfold ret. do 2 f_equal. rewrite <- (take_drop (Z.to_nat len) d) at 1.
    rewrite drop_app_le by (rewrite length_take; lia). rewrite take_app_le; [done|]. rewrite length_drop, length_take. lia.
  - unfold ret. do 2 f_equal. rewrite drop_replicate, take_replicate. f_equal. lia.
Qed.

Lemma buf_write_run c e i d :
  zlen (buf c) = cap c -> 0 <= i -> i + zlen d <= cap c ->
  buf_write i d (mk_cbuf_sys e c) = Some (tt, mk_cbuf_sys e (set_buf (list_inserts (Z.to_nat i) d (buf c)) c)).
Proof. intros Hb Hi Hd. unfold buf_write. rewrite gets_bind. cbn [cb]. by rewrite assert_bind by (apply Z.leb_le; lia). Qed.

Definition chunk c (left : Z) : Z :=
  if head c >=? tail c then
    if tail c =? 0 then Z.min (u32 (valpow2 (len_pow2 c) - head c - 1)) left else Z.min (u32 (valpow2 (len_pow2 c) - head c)) left
  else Z.min (u32 (tail c - head c - 1)) left.

Definition passes c (left : Z) : nat :=
  if (0 <? left) && (used c <? cap c - 1) then if (head c >=? tail c) && negb (tail c =? 0) then 2 else 1 else 0.

Lemma chunk_bounds c left :
  cbuf_ok c -> 0 < left -> used c < cap c - 1 ->
  0 < chunk c left <= left /\ used c + chunk c left < cap c /\ head c + chunk c left <= cap c /\
  (chunk c left = left \/ used c + chunk c left = cap c - 1 \/ (tail c <> 0 /\ tail c <= head c /\ head c + chunk c left = cap c)).
Proof.
  intros Hc Hl Hu. pose proof (cap_pos c Hc) as Hcap. pose proof (used_cases c Hc) as Huc. pose proof (ok_head _ Hc). pose proof (ok_tail _ Hc).
  pose proof (ok_pow _ Hc). unfold chunk. rewrite valpow2_pow by lia. fold (cap c). rewrite Z.geb_leb in *. destruct (Z.leb_spec (tail c) (head c)).
  - destruct (Z.eqb_spec (tail c) 0); rewrite u32_small by lia; lia.
  - rewrite u32_small by lia. lia.
Qed.

Lemma chunk_passes c left d :
  cbuf_ok c -> 0 < left -> used c < cap c - 1 -> zlen d = chunk c left -> (S (passes (written c d) (left - chunk c left)) <= passes c left)%nat.
Proof.
  intros Hc Hl Hu Hd. pose proof (cap_pos c Hc) as Hcap. destruct (chunk_bounds c left Hc Hl Hu) as (G1 & G2 & G3 & G4).
  unfold passes at 2. rewrite (proj2 (Z.ltb_lt 0 left)), (proj2 (Z.ltb_lt (used c) _)) by lia. cbn [andb].
  unfold passes. rewrite used_written by (done || lia). rewrite Hd. change (cap (written c d)) with (cap c). change (tail (written c d)) with (tail c).
  change (head (written c d)) with (INC_POINTER c (head c) (zlen d)). rewrite inc_eq, Hd by done. pose proof (ok_tail _ Hc).
  destruct G4 as [G4|[G4|(Ht & Hge & G4)]].
  - rewrite G4, Z.sub_diag. cbn. destruct ((head c >=? tail c) && negb (tail c =? 0)); lia.
  - rewrite G4, Z.ltb_irrefl, andb_false_r. destruct ((head c >=? tail c) && negb (tail c =? 0)); lia.
  - rewrite G4, Z.mod_same by lia. rewrite !Z.geb_leb. rewrite (proj2 (Z.leb_le (tail c) (head c))), (proj2 (Z.eqb_neq (tail c) 0)) by done. cbn [andb negb].
    rewrite (proj2 (Z.leb_gt (tail c) 0)) by lia. cbn [andb]. destruct (_ && _); lia.
Qed.

Lemma write_loop_run src len fuel : forall c e pos,
  cbuf_ok c -> src_ok src len -> 0 <= pos <= len -> (passes c (len - pos) <= fuel)%nat ->
  let k := Z.min (len - pos) (cap c - 1 - used c) in
  exists c', write_loop fuel src len pos (mk_cbuf_sys e c) = Some (pos + k, mk_cbuf_sys e c') /\ cbuf_ok c' /\ cap c' = cap c /\ lock c' = lock c /\
    contents c' = contents c ++ take (Z.to_nat k) (drop (Z.to_nat pos) (data src len)).
Proof.
  induction fuel as [|fuel IH]; intros c e pos Hc Hs Hpos Hp k; pose proof (used_range c Hc) as Hu; cbn [write_loop]; rewrite gets_bind; cbn [cb];
    rewrite space_avail_eq, Z.gtb_ltb by done; (destruct ((pos <? len) && (0 <? cap c - 1 - used c)) eqn:Hgo;
      [|exists c; replace k with 0 by (apply andb_false_iff in Hgo as [?%Z.ltb_ge|?%Z.ltb_ge]; lia); rewrite app_nil_r, Z.add_0_r; by split_and!]);
    apply andb_true_iff in Hgo as [H1%Z.ltb_lt H2%Z.ltb_lt].
  { exfalso. unfold passes in Hp. rewrite (proj2 (Z.ltb_lt 0 (len - pos))), (proj2 (Z.ltb_lt (used c) _)) in Hp by lia. cbn in Hp. destruct (_ && _) in Hp; lia. }
  fold (chunk c (len - pos)). set (n := chunk c (len - pos)) in *. set (d := take (Z.to_nat n) (drop (Z.to_nat pos) (data src len))).
  destruct (chunk_bounds c (len - pos) Hc ltac:(lia) ltac:(lia)) as (Hn & Hcu & Hch & _). fold n in Hn, Hcu, Hch.
  assert (zlen d = n) as Hd by (unfold d; rewrite length_take, length_drop; pose proof (data_length src len ltac:(lia) Hs); lia).
  pose proof (chunk_passes c (len - pos) d Hc ltac:(lia) ltac:(lia) Hd) as Hps. fold n in Hps.
  rewrite (proj2 (Z.eqb_neq n 0)) by lia. rewrite (bind_eq _ _ _ _ _ (source_run src len pos n _ Hs ltac:(lia) ltac:(lia) ltac:(lia))). fold d.
  pose proof (ok_head _ Hc). rewrite (bind_eq _ _ _ _ _ (buf_write_run c e (head c) d (ok_buf _ Hc) ltac:(lia) ltac:(lia))).
  unfold upd_cbuf at 1. rewrite modify_bind. cbn [ev cb].
  replace (set_head (INC_POINTER c (head c) n) (set_buf (list_inserts (Z.to_nat (head c)) d (buf c)) c)) with (written c d) by (unfold written; by rewrite Hd).
  destruct (IH (written c d) e (pos + n) (written_ok _ _ Hc) Hs ltac:(lia)) as (c' & Hr & Hok & Hcap & Hlock & Hcont).
  { replace (len - (pos + n)) with (len - pos - n) by lia. lia. }
  change (cap (written c d)) with (cap c) in *. rewrite used_written, Hd in * by (done || lia). exists c'. split_and!; [|done|done|done|].
  - rewrite Hr. do 2 f_equal. lia.
  - rewrite Hcont, contents_written by (done || lia). rewrite <- app_assoc. f_equal. unfold d.
    replace (Z.to_nat (pos + n)) with (Z.to_nat pos + Z.to_nat n)%nat by lia. rewrite <- drop_drop, take_take_drop. f_equal. lia.
Qed.

Definition piece c (left : Z) : Z :=
  if head c >? tail c then Z.min (u32 (head c - tail c)) left else Z.min (u32 (valpow2 (len_pow2 c) - tail c)) left.

Definition read_passes c (left : Z) : nat :=
  if (0 <? left) && negb (tail c =? head c) then if head c >? tail c then 1 else 2 else 0.

Lemma piece_bounds c left :
  cbuf_ok c -> 0 < left -> tail c <> head c ->
  0 < piece c left <= left /\ piece c left <= used c /\ tail c + piece c left <= cap c /\
  (piece c left = left \/ piece c left = used c \/ (head c < tail c /\ tail c + piece c left = cap c)).
Proof.
  intros Hc Hl Hu. pose proof (cap_pos c Hc) as Hcap. pose proof (used_cases c Hc) as Huc. pose proof (ok_head _ Hc). pose proof (ok_tail _ Hc).
  pose proof (ok_pow _ Hc). unfold piece. rewrite valpow2_pow by lia. fold (cap c). rewrite Z.geb_leb, Z.gtb_ltb in *.
  destruct (Z.ltb_spec (tail c) (head c)), (Z.leb_spec (tail c) (head c)); rewrite u32_small by lia; lia.
Qed.

Lemma piece_passes c left :
  cbuf_ok c -> 0 < left -> tail c <> head c -> (S (read_passes (consumed c (piece c left)) (left - piece c left)) <= read_passes c left)%nat.
Proof.
  intros Hc Hl Hu. pose proof (cap_pos c Hc) as Hcap. destruct (piece_bounds c left Hc Hl Hu) as (G1 & G2 & G3 & G4). pose proof (ok_head _ Hc). pose proof (ok_tail _ Hc).
  unfold read_passes at 2. rewrite (proj2 (Z.ltb_lt 0 left)), (proj2 (Z.eqb_neq (tail c) (head c))) by done. cbn [andb negb].
  unfold read_passes. change (head (consumed c (piece c left))) with (head c). change (tail (consumed c (piece c left))) with (INC_POINTER c (tail c) (piece c left)).
  rewrite inc_eq by done. rewrite !Z.gtb_ltb. destruct G4 as [G4|[G4|(Hlt & G4)]].
  - rewrite G4, Z.sub_diag. cbn. destruct (_ <? _); lia.
  - rewrite G4. unfold used. rewrite Zplus_mod_idemp_r. replace (tail c + (head c - tail c)) with (head c) by lia. rewrite (Z.mod_small (head c) (cap c)) by lia.
    rewrite Z.eqb_refl, andb_false_r. destruct (_ <? _); lia.
  - rewrite G4, Z.mod_same, (proj2 (Z.ltb_ge (tail c) (head c))) by lia. destruct (Z.eqb_spec 0 (head c)); cbn [negb]; [rewrite andb_false_r; lia|].
    rewrite (proj2 (Z.ltb_lt 0 (head c))) by lia. destruct (0 <? _); cbn; lia.
Qed.

Lemma buf_read_run c e n :
  cbuf_ok c -> 0 <= n <= used c -> tail c + n <= cap c ->
  buf_read (tail c) n (mk_cbuf_sys e c) = Some (take (Z.to_nat n) (contents c), mk_cbuf_sys e c).
Proof.
  intros Hc Hn Ht. unfold buf_read. rewrite gets_bind. cbn [cb]. rewrite assert_bind by (apply Z.leb_le; rewrite (ok_buf _ Hc); lia).
  unfold ret. by rewrite contents_piece.
Qed.

Lemma read_loop_run buflen fuel : forall c e out,
  cbuf_ok c -> zlen out <= buflen -> (read_passes c (buflen - zlen out) <= fuel)%nat ->
  let k := Z.min (buflen - zlen out) (used c) in
  exists c', read_loop fuel buflen out (mk_cbuf_sys e c) = Some (out ++ take (Z.to_nat k) (contents c), mk_cbuf_sys e c') /\
    cbuf_ok c' /\ cap c' = cap c /\ lock c' = lock c /\ contents c' = drop (Z.to_nat k) (contents c).
Proof.
  induction fuel as [|fuel IH]; intros c e out Hc Hout Hp k; pose proof (used_range c Hc) as Hu; pose proof (contents_length c Hc) as Hcl;
    cbn [read_loop]; rewrite gets_bind; cbn [cb];
    (destruct ((zlen out <? buflen) && negb (tail c =? head c)) eqn:Hgo;
      [|exists c; replace k with 0 by (apply andb_false_iff in Hgo as [?%Z.ltb_ge|He%negb_false_iff%Z.eqb_eq]; [lia|];
          assert (contents c = []) as Hnil by (by apply empty_iff); rewrite Hnil in Hcl; cbn [length] in Hcl; lia); rewrite app_nil_r; by split_and!]);
    apply andb_true_iff in Hgo as [H1%Z.ltb_lt H2%negb_true_iff%Z.eqb_neq].
  { exfalso. unfold read_passes in Hp. rewrite (proj2 (Z.ltb_lt 0 _)), (proj2 (Z.eqb_neq _ _) H2) in Hp by lia. cbn in Hp. destruct (_ >? _) in Hp; lia. }
  fold (piece c (buflen - zlen out)). set (n := piece c (buflen - zlen out)) in *.
  destruct (piece_bounds c (buflen - zlen out) Hc ltac:(lia) H2) as (Hn & Hnu & Ht & _). pose proof (piece_passes c (buflen - zlen out) Hc ltac:(lia) H2) as Hps.
  fold n in Hn, Hnu, Ht, Hps. rewrite (bind_eq _ _ _ _ _ (buf_read_run c e n Hc ltac:(lia) Ht)). unfold upd_cbuf. rewrite modify_bind. cbn [ev cb].
  fold (consumed c n). set (d := take (Z.to_nat n) (contents c)). assert (zlen (out ++ d) = zlen out + n) as Hd by (rewrite length_app; unfold d; rewrite length_take; lia).
  destruct (IH (consumed c n) e (out ++ d) (consumed_ok _ _ Hc)) as (c' & Hr & Hok & Hcap & Hlock & Hcont).
  { rewrite Hd. lia. } { rewrite Hd. replace (buflen - (zlen out + n)) with (buflen - zlen out - n) by lia. lia. }
  rewrite contents_consumed, used_consumed in * by (done || lia). rewrite Hd in *. exists c'. split_and!; [|done|done|done|].
  - rewrite Hr, <- app_assoc. do 3 f_equal. unfold d. rewrite take_take_drop. f_equal. lia.
  - rewrite Hcont, drop_drop. f_equal. lia.
Qed.

(** ** The operations *)
Record queue_ok (s : cbuf_sys E) : Prop := {
  q_cbuf : cbuf_ok (cb s);
  q_lock : lock (cb s) = false;
  q_event : ev_ok (ev s);
  q_signaled : ev_signaled (ev s) = bool_decide (contents (cb s) <> [])
}.

Lemma lock_bind {A} (k : unit -> M (cbuf_sys E) A) e c :
  lock c = false -> bind spin_lock k (mk_cbuf_sys e c) = k tt (mk_cbuf_sys e (set_lock true c)).
Proof. intros Hl. unfold spin_lock. rewrite bind_assoc, gets_bind. cbn [cb]. rewrite bind_assoc, assert_bind by (by rewrite Hl). done. Qed.

Lemma unlock_bind {A} (k : unit -> M (cbuf_sys E) A) e c : bind spin_unlock k (mk_cbuf_sys e c) = k tt (mk_cbuf_sys e (set_lock false c)).
Proof. done. Qed.

Lemma set_lock_ok b c : cbuf_ok c -> cbuf_ok (set_lock b c).
Proof. by intros [????]. Qed.

Lemma set_lock_same c b : lock c = false -> set_lock false (set_lock b c) = c.
Proof. intros Hl. destruct c; cbn in *; by subst. Qed.

Lemma on_event_bind {A B} (op : M E A) (k : A -> M (cbuf_sys E) B) e c a e' :
  op e = Some (a, e') -> bind (on_event op) k (mk_cbuf_sys e c) = k a (mk_cbuf_sys e' c).
Proof. intros Hop. unfold bind, on_event. cbn. by rewrite Hop. Qed.

Lemma nonempty_test c : cbuf_ok c -> (head c =? tail c) = bool_decide (contents c = []).
Proof.
  intros Hc. case_bool_decide as He; [apply Z.eqb_eq; by apply empty_iff|]. apply Z.eqb_neq. intros Heq. apply He. by apply empty_iff.
Qed.

Ltac nonempty_cases H :=
  match goal with |- context [bool_decide (contents ?c = [])] =>
    destruct (decide (contents c = [])) as [H|H];
    [rewrite (bool_decide_eq_true_2 (contents c = [])) by done|rewrite (bool_decide_eq_false_2 (contents c = [])) by done]
  end.

(** Who waited before is awake after, and nobody waits. *)
Definition all_awake (e e' : E) : Prop := (forall u, ~ ev_waits e' u) /\ forall u, ev_waits e u -> ev_awake e' u.

(** Signalling after bytes came in. *)
Lemma signal_run c e (q0 : list Z) :
  cbuf_ok c -> ev_ok e -> ev_signaled e = bool_decide (q0 <> []) -> (exists x, contents c = q0 ++ x) ->
  exists r e', (if negb (head c =? tail c) then on_event (ev_signal false) else ret (Return 0)) (mk_cbuf_sys e c) = Some (Return r, mk_cbuf_sys e' c) /\
    ev_ok e' /\ ev_signaled e' = bool_decide (contents c <> []) /\ (contents c <> [] -> all_awake e e').
Proof.
  intros Hc He Hs [x Hx]. rewrite nonempty_test by done. nonempty_cases Hn; cbn [negb].
  - exists 0, e. split_and!; [done|done| |done]. rewrite Hs, Hn. rewrite Hn in Hx. symmetry in Hx. apply app_nil in Hx as [-> _]. done.
  - destruct (ev_signal_law e He) as (r & e' & Hr & He' & Hs' & Hw). exists r, e'. unfold on_event. cbn. rewrite Hr. split_and!; [done|done| |done].
    by rewrite Hs', bool_decide_eq_true_2.
Qed.

Lemma cbuf_write_run preempt src len s :
  queue_ok s -> src_ok src len -> 0 <= len < cap (cb s) ->
  let k := Z.min len (cap (cb s) - 1 - zlen (contents (cb s))) in
  exists s', cbuf_write preempt src len false s = Some (Return k, s') /\ queue_ok s' /\ cap (cb s') = cap (cb s) /\
    contents (cb s') = contents (cb s) ++ take (Z.to_nat k) (data src len) /\ (contents (cb s') <> [] -> all_awake (ev s) (ev s')).
Proof.
  intros [Hc Hl He Hs] Hsrc Hlen k. destruct s as [e c]. cbn [ev cb] in *. unfold cbuf_write. rewrite gets_bind. cbn [cb].
  pose proof (ok_pow _ Hc). rewrite assert_bind by (rewrite valpow2_pow by lia; apply Z.ltb_lt; apply Hlen). rewrite lock_bind by done.
  destruct (write_loop_run src len 2 (set_lock true c) e 0 (set_lock_ok _ _ Hc) Hsrc ltac:(lia)) as (c' & Hr & Hok & Hcap & Hlock & Hcont).
  { unfold passes. repeat (destruct (_ && _)); lia. }
  rewrite (bind_eq _ _ _ _ _ Hr), gets_bind. cbn [cb].
  destruct (signal_run c' e (contents c) Hok He Hs ltac:(rewrite Hcont; by eexists)) as (r & e' & Hsig & He' & Hs' & Hw). rewrite (bind_eq _ _ _ _ _ Hsig).
  rewrite unlock_bind. unfold k in *; clear k. rewrite contents_length by done. change (cap (set_lock true c)) with (cap c) in *. change (used (set_lock true c)) with (used c) in *.
  rewrite Z.sub_0_r in *. exists (mk_cbuf_sys e' (set_lock false c')). split_and!; [unfold ret; do 3 f_equal| |exact Hcap|exact Hcont|exact Hw].
  split; cbn [ev cb]; [by apply set_lock_ok|done|done|exact Hs'].
Qed.

(** Unsignalling after bytes went out; the assertion [b] is checked if the buffer
    is empty. *)
Lemma unsignal_run c e (b : bool) :
  cbuf_ok c -> ev_ok e -> ev_signaled e = true -> (contents c = [] -> b = true) ->
  exists e', (if tail c =? head c then assert_ b ;; on_event ev_unsignal ;; ret tt else ret tt) (mk_cbuf_sys e c) = Some (tt, mk_cbuf_sys e' c) /\
    ev_ok e' /\ ev_signaled e' = bool_decide (contents c <> []).
Proof.
  intros Hc He Hs Hb. rewrite Z.eqb_sym, nonempty_test by done. nonempty_cases Hn.
  - rewrite assert_bind by auto. destruct (ev_unsignal_law e He) as (r & e' & Hr & He' & Hs'). exists e'. rewrite (on_event_bind _ _ _ _ _ _ Hr). by rewrite Hs', Hn.
  - exists e. split_and!; [done|done|]. by rewrite Hs, bool_decide_eq_true_2.
Qed.

Lemma cbuf_read_locked_run buflen s :
  queue_ok s -> 0 <= buflen ->
  let k := Z.min buflen (zlen (contents (cb s))) in
  exists s', cbuf_read_locked buflen s = Some (take (Z.to_nat k) (contents (cb s)), s') /\ queue_ok s' /\ cap (cb s') = cap (cb s) /\
    contents (cb s') = drop (Z.to_nat k) (contents (cb s)).
Proof.
  intros [Hc Hl He Hs] Hlen k. destruct s as [e c]. cbn [ev cb] in *. unfold cbuf_read_locked. rewrite lock_bind by done. rewrite gets_bind. cbn [cb].
  change (tail (set_lock true c)) with (tail c). change (head (set_lock true c)) with (head c). rewrite Z.eqb_sym, nonempty_test by done. nonempty_cases Hn; cbn [negb].
  - rewrite ret_bind, unlock_bind. exists (mk_cbuf_sys e c). rewrite set_lock_same by done. rewrite Hn, take_nil, drop_nil. split_and!; done.
  - destruct (read_loop_run buflen 2 (set_lock true c) e [] (set_lock_ok _ _ Hc)) as (c' & Hr & Hok & Hcap & Hlock & Hcont); [cbn; lia| |].
    { unfold read_passes. repeat case_match; lia. }
    rewrite bind_assoc, (bind_eq _ _ _ _ _ Hr), bind_assoc, gets_bind. cbn [cb]. change (contents (set_lock true c)) with (contents c) in *.
    change (used (set_lock true c)) with (used c) in *. unfold k in *; clear k. rewrite contents_length by done. cbn [length app] in *. change (Z.of_nat 0) with 0 in *. rewrite Z.sub_0_r in *.
    destruct (unsignal_run c' e (zlen (take (Z.to_nat (buflen `min` used c)) (contents c)) >? 0)) as (e' & Hun & He' & Hs'); [done|done|by rewrite Hs, bool_decide_eq_true_2| |].
    { intros He0. rewrite Hcont in He0. apply (f_equal length) in He0. rewrite length_drop in He0. cbn in He0. rewrite Z.gtb_ltb. apply Z.ltb_lt.
      destruct (contents c) as [|x l]; [done|]. rewrite length_take. cbn [length] in *. lia. }
    rewrite bind_assoc, (bind_eq _ _ _ _ _ Hun), ret_bind, unlock_bind. exists (mk_cbuf_sys e' (set_lock false c')).
    split; [done|]. split; [|by split]. split; cbn [ev cb]; [by apply set_lock_ok|done|done|exact Hs'].
Qed.

(** A blocking call that finds bytes does not wait. *)
Lemma wait_run {A} block (k : outcome Z -> M (cbuf_sys E) A) s :
  queue_ok s -> (block = true -> contents (cb s) <> []) -> exists r, bind (if block then on_event ev_wait else ret (Return 0)) k s = k (Return r) s.
Proof.
  intros Hq Hb. destruct block; [|by exists 0]. destruct s as [e c]. pose proof Hq as [Hc Hl He Hs]. cbn [ev cb] in *.
  rewrite bool_decide_eq_true_2 in Hs by auto. destruct (ev_wait_law e He Hs) as (r & Hr). exists r. exact (on_event_bind _ _ _ _ _ _ Hr).
Qed.

Lemma cbuf_read_pass_run buflen block s :
  queue_ok s -> 0 <= buflen -> (block = true -> contents (cb s) <> []) ->
  let k := Z.min buflen (zlen (contents (cb s))) in
  exists s', cbuf_read_pass buflen block s = Some (Return (if block && (k =? 0) then None else Some (take (Z.to_nat k) (contents (cb s)))), s') /\
    queue_ok s' /\ cap (cb s') = cap (cb s) /\ contents (cb s') = drop (Z.to_nat k) (contents (cb s)).
Proof.
  intros Hq Hlen Hb k. unfold cbuf_read_pass. destruct (wait_run block (fun o => match o with
      | Switched => ret Switched
      | Return _ => out <- cbuf_read_locked buflen ;; ret (Return (if block && (zlen out =? 0) then None else Some out))
      end) s Hq Hb) as (r & ->).
  destruct (cbuf_read_locked_run buflen s Hq Hlen) as (s' & Hr & Hx). exists s'. rewrite (bind_eq _ _ _ _ _ Hr). split; [|exact Hx]. fold k.
  assert (zlen (take (Z.to_nat k) (contents (cb s))) = k) as -> by (rewrite length_take; lia). done.
Qed.

(** Asked for no bytes, a pass leaves everything as it is and goes back to [retry]. *)
Lemma cbuf_read_pass_zero s : queue_ok s -> contents (cb s) <> [] -> cbuf_read_pass 0 true s = Some (Return None, s).
Proof.
  intros Hq Hn. unfold cbuf_read_pass. destruct (wait_run true (fun o => match o with
      | Switched => ret Switched
      | Return _ => out <- cbuf_read_locked 0 ;; ret (Return (if true && (zlen out =? 0) then None else Some out))
      end) s Hq ltac:(done)) as (r & ->).
  assert (cbuf_read_locked 0 s = Some ([], s)) as Hr; [|by rewrite (bind_eq _ _ _ _ _ Hr)].
  destruct Hq as [Hc Hl _ _]. destruct s as [e c]. cbn [ev cb] in *. unfold cbuf_read_locked. rewrite lock_bind, gets_bind by done. cbn [cb].
  change (tail (set_lock true c)) with (tail c). change (head (set_lock true c)) with (head c).
  assert (tail c =? head c = false) as Ht by (rewrite Z.eqb_sym, nonempty_test by done; by apply bool_decide_eq_false_2).
  rewrite Ht. cbn [negb read_loop]. rewrite bind_assoc, bind_assoc, gets_bind. cbn [cb andb]. change (zlen [] <? 0) with false. cbn [andb].
  rewrite ret_bind, bind_assoc, gets_bind. cbn [cb]. change (tail (set_lock true c)) with (tail c). change (head (set_lock true c)) with (head c).
  by rewrite Ht, bind_assoc, ret_bind, ret_bind, unlock_bind, set_lock_same.
Qed.

Lemma cbuf_read_run fuel buflen block s :
  queue_ok s -> 0 <= buflen -> (block = true -> contents (cb s) <> [] /\ 0 < buflen) ->
  let k := Z.min buflen (zlen (contents (cb s))) in
  exists s', cbuf_read (S fuel) buflen block s = Some (Return (take (Z.to_nat k) (contents (cb s))), s') /\ queue_ok s' /\ cap (cb s') = cap (cb s) /\
    contents (cb s') = drop (Z.to_nat k) (contents (cb s)).
Proof.
  intros Hq Hlen Hb k. cbn [cbuf_read]. destruct (cbuf_read_pass_run buflen block s Hq Hlen) as (s' & Hr & Hx); [by intros ?; apply Hb|].
  exists s'. split; [|exact Hx]. rewrite (bind_eq _ _ _ _ _ Hr). fold k. destruct block; [|done]. destruct (Hb eq_refl) as [Hne Hpos].
  rewrite (proj2 (Z.eqb_neq k 0)); [done|]. unfold k. destruct (contents (cb s)); [done|]. cbn [length]. lia.
Qed.

(** An empty buffer: the caller waits, and keeps its place among those who do. *)
Lemma wait_empty_run {A} (k : outcome Z -> M (cbuf_sys E) A) t s :
  queue_ok s -> contents (cb s) = [] -> ev_may_wait (ev s) t ->
  exists s1 s', bind (on_event ev_wait) k s = k Switched s1 /\ on_event ev_next s1 = Some (tt, s') /\ queue_ok s' /\ cb s' = cb s /\ forall u, ev_waits (ev s') u <-> u = t \/ ev_waits (ev s) u.
Proof.
  intros [Hc Hl He Hs] Hn Hw. destruct s as [e c]. cbn [ev cb] in *. rewrite Hn in Hs.
  destruct (ev_wait_unsignaled_law e t He Hw Hs) as (e1 & e' & Hr & Hr' & He' & Hs' & Hws). exists (mk_cbuf_sys e1 c), (mk_cbuf_sys e' c).
  split_and!; [exact (on_event_bind _ _ _ _ _ _ Hr)|unfold on_event; cbn; by rewrite Hr'| |done|exact Hws].
  split; cbn [ev cb]; [done|done|done|by rewrite Hs', Hn].
Qed.

Lemma cbuf_read_waits fuel n t s :
  queue_ok s -> contents (cb s) = [] -> ev_may_wait (ev s) t ->
  exists s1 s', cbuf_read (S fuel) n true s = Some (Switched, s1) /\ on_event ev_next s1 = Some (tt, s') /\ queue_ok s' /\ cb s' = cb s /\ forall u, ev_waits (ev s') u <-> u = t \/ ev_waits (ev s) u.
Proof.
  intros Hq Hn Hw. cbn [cbuf_read]. unfold cbuf_read_pass. rewrite bind_assoc.
  destruct (wait_empty_run (fun o => bind (match o with
      | Switched => ret Switched
      | Return _ => out <- cbuf_read_locked n ;; ret (Return (if true && (zlen out =? 0) then None else Some out))
      end) (fun o => match o with
      | Switched => ret Switched
      | Return None => cbuf_read fuel n true
      | Return (Some out) => ret (Return out)
      end)) t s Hq Hn Hw) as (s1 & s' & -> & Hx). by exists s1, s'.
Qed.

(** Under the lock nothing happens then. *)
Lemma cbuf_read_locked_empty n s : queue_ok s -> contents (cb s) = [] -> cbuf_read_locked n s = Some ([], s).
Proof.
  intros [Hc Hl _ _] Hn. destruct s as [e c]. cbn [ev cb] in *. unfold cbuf_read_locked. rewrite lock_bind, gets_bind by done. cbn [cb].
  change (tail (set_lock true c)) with (tail c). change (head (set_lock true c)) with (head c).
  rewrite Z.eqb_sym, nonempty_test, bool_decide_eq_true_2 by done. cbn [negb]. by rewrite ret_bind, unlock_bind, set_lock_same.
Qed.

Lemma cbuf_write_char_run ch s :
  queue_ok s ->
  let room := zlen (contents (cb s)) <? cap (cb s) - 1 in
  exists s', cbuf_write_char ch false s = Some (Return (Z.b2z room), s') /\ queue_ok s' /\ cap (cb s') = cap (cb s) /\
    contents (cb s') = contents (cb s) ++ (if room then [ch] else []) /\ (room = true -> all_awake (ev s) (ev s')).
Proof.
  intros [Hc Hl He Hs] room. destruct s as [e c]. cbn [ev cb] in *. unfold cbuf_write_char. rewrite lock_bind, gets_bind by done. cbn [cb].
  rewrite space_avail_eq by (by apply set_lock_ok). change (cap (set_lock true c)) with (cap c). change (used (set_lock true c)) with (used c). subst room.
  rewrite contents_length, Z.gtb_ltb by done. replace (0 <? cap c - 1 - used c) with (used c <? cap c - 1) by (destruct (Z.ltb_spec (used c) (cap c - 1)); symmetry; [apply Z.ltb_lt|apply Z.ltb_ge]; lia).
  pose proof (ok_head _ Hc). destruct (Z.ltb_spec (used c) (cap c - 1)) as [Hroom|Hroom].
  - rewrite (bind_eq _ _ _ _ _ (buf_write_run (set_lock true c) e (head c) [ch] (ok_buf _ Hc) ltac:(lia) ltac:(change (head c + 1 <= cap c); lia))). unfold upd_cbuf. rewrite modify_bind, gets_bind. cbn [ev cb].
    change (set_head _ _) with (set_lock true (written c [ch])).
    pose proof (contents_written c [ch] Hc ltac:(cbn; lia) ltac:(cbn; lia)) as Hcont.
    destruct (signal_run (set_lock true (written c [ch])) e (contents c) (set_lock_ok _ _ (written_ok _ _ Hc)) He Hs) as (r & e' & Hsig & He' & Hs' & Hw); [by exists [ch]|].
    rewrite (bind_eq _ _ _ _ _ Hsig), unlock_bind. exists (mk_cbuf_sys e' (written c [ch])).
    split; [rewrite set_lock_same by exact Hl; done|]. split; [split; cbn [ev cb]; [by apply written_ok|exact Hl|done|exact Hs']|].
    split_and!; [done|exact Hcont|]. intros _. apply Hw. change (contents (written c [ch]) <> []). rewrite Hcont. by intros [_ ?]%app_nil.
  - rewrite unlock_bind, set_lock_same by done. exists (mk_cbuf_sys e c). rewrite app_nil_r. by split_and!.
Qed.

Lemma cbuf_read_char_locked_run s :
  queue_ok s ->
  exists s', cbuf_read_char_locked s = Some (list.head (contents (cb s)), s') /\ queue_ok s' /\ cap (cb s') = cap (cb s) /\
    contents (cb s') = list.tail (contents (cb s)).
Proof.
  intros [Hc Hl He Hs]. destruct s as [e c]. cbn [ev cb] in *. unfold cbuf_read_char_locked. rewrite lock_bind, gets_bind by done. cbn [cb].
  change (tail (set_lock true c)) with (tail c). change (head (set_lock true c)) with (head c). rewrite Z.eqb_sym, nonempty_test by done. nonempty_cases Hn; cbn [negb].
  - rewrite ret_bind, unlock_bind, set_lock_same by done. exists (mk_cbuf_sys e c). rewrite Hn. by split.
  - pose proof (contents_length c Hc) as Hlen. destruct (contents c) as [|x l] eqn:Hxl; [done|]. cbn [length] in Hlen.
    pose proof (ok_tail _ Hc). assert (buf_read (tail c) 1 (mk_cbuf_sys e (set_lock true c)) = Some ([x], mk_cbuf_sys e (set_lock true c))) as Hrd.
    { change (tail c) with (tail (set_lock true c)). rewrite (buf_read_run (set_lock true c) e 1 (set_lock_ok _ _ Hc)); [|change (0 <= 1 <= used c); lia|change (tail c + 1 <= cap c); lia].
      change (contents (set_lock true c)) with (contents c). by rewrite Hxl. }
    rewrite bind_assoc, (bind_eq _ _ _ _ _ Hrd). unfold upd_cbuf. rewrite bind_assoc, modify_bind, bind_assoc, gets_bind. cbn [ev cb].
    change (set_tail _ _) with (set_lock true (consumed c 1)). pose proof (contents_consumed c 1 Hc ltac:(lia)) as Hcont. rewrite Hxl in Hcont.
    destruct (unsignal_run (set_lock true (consumed c 1)) e true (set_lock_ok _ _ (consumed_ok _ _ Hc)) He) as (e' & Hun & He' & Hs'); [by rewrite Hs|done|].
    change (assert_ true ;; on_event ev_unsignal ;; ret tt) with (on_event ev_unsignal ;; ret tt) in Hun.
    rewrite bind_assoc, (bind_eq _ _ _ _ _ Hun), ret_bind, unlock_bind, set_lock_same by exact Hl. exists (mk_cbuf_sys e' (consumed c 1)).
    split; [done|]. split; [|by split]. split; cbn [ev cb]; [by apply consumed_ok|exact Hl|done|exact Hs'].
Qed.

Lemma cbuf_read_char_run fuel block s :
  queue_ok s -> (block = true -> contents (cb s) <> []) ->
  exists s', cbuf_read_char (S fuel) block s = Some (Return (list.head (contents (cb s))), s') /\ queue_ok s' /\ cap (cb s') = cap (cb s) /\
    contents (cb s') = list.tail (contents (cb s)).
Proof.
  intros Hq Hb. cbn [cbuf_read_char].
  destruct (wait_run block (fun o => match o with
      | Switched => ret Switched
      | Return _ => out <- cbuf_read_char_locked ;; if block && negb (match out with Some _ => true | None => false end) then cbuf_read_char fuel block else ret (Return out)
      end) s Hq Hb) as (r & ->).
  destruct (cbuf_read_char_locked_run s Hq) as (s' & Hr & Hx). rewrite (bind_eq _ _ _ _ _ Hr).
  exists s'. split; [|exact Hx]. destruct block; [|done]. destruct (contents (cb s)) as [|x l]; [by destruct Hb|]. done.
Qed.

(** The bytes a region points at. *)
Definition region_bytes c (r : option Z * Z) : list Z :=
  match fst r with Some i => take (Z.to_nat (snd r)) (drop (Z.to_nat i) (buf c)) | None => [] end.

Lemma cbuf_peek_run s :
  queue_ok s ->
  exists r1 r2, cbuf_peek s = Some ((zlen (contents (cb s)), r1, r2), s) /\
    region_bytes (cb s) r1 ++ region_bytes (cb s) r2 = contents (cb s) /\ snd r1 + snd r2 = zlen (contents (cb s)).
Proof.
  intros [Hc Hl He Hs]. destruct s as [e c]. cbn [ev cb] in *. pose proof (ok_tail _ Hc). pose proof (ok_pow _ Hc). pose proof (used_range c Hc).
  pose proof (contents_length c Hc) as Hlen. unfold cbuf_peek. rewrite lock_bind, gets_bind by done. cbn [cb]. rewrite space_used_eq by (by apply set_lock_ok).
  unfold cbuf_size. change (len_pow2 (set_lock true c)) with (len_pow2 c). rewrite Z.shiftl_1_l. fold (cap c). change (used (set_lock true c)) with (used c).
  change (tail (set_lock true c)) with (tail c). rewrite assert_bind by (apply Z.ltb_lt; lia). rewrite assert_bind by (apply Z.leb_le; lia).
  rewrite unlock_bind, set_lock_same, Hlen, Z.gtb_ltb by done. unfold ret. do 2 eexists. split; [reflexivity|].
  destruct (Z.ltb_spec (cap c) (used c + tail c)); cbn [fst snd].
  - rewrite (proj2 (Z.eqb_neq (used c) 0)) by lia. unfold region_bytes. cbn [negb fst snd]. split; [|lia]. set (n := cap c - tail c).
    rewrite (contents_piece c n) by (done || lia). rewrite <- (take_drop (Z.to_nat n) (contents c)) at 2. f_equal. rewrite <- contents_consumed by (done || lia).
    pose proof (contents_piece (consumed c n) (used c - n) (consumed_ok _ _ Hc)) as Hp. rewrite used_consumed in Hp by (done || lia).
    change (buf (consumed c n)) with (buf c) in Hp. assert (tail (consumed c n) = 0) as Ht.
    { unfold consumed, n. cbn. rewrite inc_eq by done. replace (tail c + (cap c - tail c)) with (cap c) by lia. apply Z.mod_same. lia. }
    rewrite Ht in Hp. change (cap (consumed c n)) with (cap c) in Hp. rewrite Hp by lia. apply take_ge.
    pose proof (contents_length (consumed c n) (consumed_ok _ _ Hc)) as Hl2. rewrite used_consumed in Hl2 by (done || lia). lia.
  - unfold region_bytes. cbn [fst snd]. split; [|lia]. rewrite app_nil_r. destruct (Z.eqb_spec (used c) 0) as [Hz|Hz]; cbn [negb].
    + symmetry. apply nil_length_inv. lia.
    + rewrite contents_piece by (done || lia). apply take_ge. lia.
Qed.

(** A new buffer is empty. *)
Lemma cbuf_initialize_etc_run k b e c :
  0 <= k < 32 -> zlen b = 2 ^ k -> ev_fresh e ->
  exists s', cbuf_initialize_etc (2 ^ k) b (mk_cbuf_sys e c) = Some (tt, s') /\ queue_ok s' /\ cap (cb s') = 2 ^ k /\ contents (cb s') = [] /\
    forall t, ev_may_wait e t -> ev_may_wait (ev s') t.
Proof.
  intros Hk Hb Hf. destruct (ev_init_law e Hf) as (e' & Hi & He & Hs & Hmw). pose proof (Z.pow_pos_nonneg 2 k ltac:(lia) ltac:(lia)). assert (2 ^ k < 2 ^ 32) by (apply Z.pow_lt_mono_r; lia).
  unfold cbuf_initialize_etc. rewrite assert_bind by (rewrite Z.gtb_ltb; apply Z.ltb_lt; lia). rewrite (u32_small (2 ^ k)) by lia. rewrite assert_bind.
  2: { unfold ispow2. rewrite u32_small by lia. apply Z.eqb_eq. replace (2 ^ k - 1) with (Z.ones k) by (rewrite Z.ones_equiv; lia). rewrite Z.land_comm.
       rewrite Z.land_ones by lia. apply Z.mod_same. lia. }
  unfold upd_cbuf. rewrite modify_bind. unfold on_event. cbn [ev cb]. rewrite Hi. eexists. split; [reflexivity|]. cbn [cb].
  assert (log2_uint (2 ^ k) = k) as Hlog by (unfold log2_uint; rewrite (proj2 (Z.eqb_neq _ 0)) by lia; apply Z.log2_pow2; lia).
  rewrite Hlog. assert (cbuf_ok (mk_cbuf 0 0 k b false)) as Hok by (split; unfold cap; cbn; done || lia).
  assert (contents (mk_cbuf 0 0 k b false) = []) as Hn by exact (proj1 (empty_iff _ Hok) eq_refl).
  split; [|by split]. split; cbn [ev cb]; [done|done|done|]. by rewrite Hs, Hn.
Qed.

(** ** The buffer as a bounded queue *)
Inductive cbuf_call :=
  | CWrite (src : option (list Z)) (len : Z)
  | CRead (buflen : Z) (block : bool)
  | CWriteChar (ch : Z)
  | CReadChar (block : bool)
  | CPeek
  | CReset
  | CSpace.
Inductive cbuf_result :=
  | Count (n : Z)
  | Bytes (l : list Z)
  | Char (c : option Z)
  | Pair (n m : Z).

Definition result {A} (f : A -> cbuf_result) (m : M (cbuf_sys E) (outcome A)) : M (cbuf_sys E) cbuf_result :=
  o <- m ;; match o with Return a => ret (f a) | Switched => panic end.

(** A call in which the caller keeps the cpu, with two passes for the retry loop. *)
Definition run_call (preempt : M E (outcome unit)) (x : cbuf_call) : M (cbuf_sys E) cbuf_result :=
  match x with
  | CWrite src len => result Count (cbuf_write preempt src len false)
  | CRead buflen block => result Bytes (cbuf_read 2 buflen block)
  | CWriteChar ch => result Count (cbuf_write_char ch false)
  | CReadChar block => result Char (cbuf_read_char 2 block)
  | CPeek => r <- cbuf_peek ;; c <- gets cb ;; ret (Bytes (region_bytes c (snd (fst r)) ++ region_bytes c (snd r)))
  | CReset => result Bytes cbuf_reset
  | CSpace => c <- gets cb ;; ret (Pair (cbuf_space_used c) (cbuf_space_avail c))
  end.

Fixpoint run_calls preempt (l : list cbuf_call) : M (cbuf_sys E) (list cbuf_result) :=
  match l with
  | [] => ret []
  | x :: l => r <- run_call preempt x ;; rs <- run_calls preempt l ;; ret (r :: rs)
  end.

(** The queue of at most [n - 1] bytes; [None]: the call would wait, or is one the
    buffer refuses. *)
Definition spec_call (n : Z) (x : cbuf_call) (q : list Z) : option (cbuf_result * list Z) :=
  match x with
  | CWrite src len =>
      if bool_decide (0 <= len < n) && (match src with None => true | Some d => len <=? zlen d end) then
        let k := Z.min len (n - 1 - zlen q) in Some (Count k, q ++ take (Z.to_nat k) (data src len))
      else None
  | CRead buflen block =>
      if (0 <=? buflen) && (negb block || (bool_decide (q <> []) && (0 <? buflen))) then
        let k := Z.to_nat (Z.min buflen (zlen q)) in Some (Bytes (take k q), drop k q)
      else None
  | CWriteChar ch => if zlen q <? n - 1 then Some (Count 1, q ++ [ch]) else Some (Count 0, q)
  | CReadChar block => if negb block || bool_decide (q <> []) then Some (Char (list.head q), list.tail q) else None
  | CPeek => Some (Bytes q, q)
  | CReset => Some (Bytes q, [])
  | CSpace => Some (Pair (zlen q) (n - 1 - zlen q), q)
  end.

Fixpoint spec_calls (n : Z) (l : list cbuf_call) (q : list Z) : option (list cbuf_result * list Z) :=
  match l with
  | [] => Some ([], q)
  | x :: l =>
      match spec_call n x q with
      | Some (r, q) => match spec_calls n l q with Some (rs, q) => Some (r :: rs, q) | None => None end
      | None => None
      end
  end.

Definition holds (n : Z) (q : list Z) (s : cbuf_sys E) : Prop := queue_ok s /\ cap (cb s) = n /\ contents (cb s) = q.

Lemma result_run {A} (f : A -> cbuf_result) m a (s s' : cbuf_sys E) : m s = Some (Return a, s') -> result f m s = Some (f a, s').
Proof. intros Hm. unfold result. by rewrite (bind_eq _ _ _ _ _ Hm). Qed.

Lemma spec_call_run preempt n x q s r q' :
  holds n q s -> spec_call n x q = Some (r, q') -> exists s', run_call preempt x s = Some (r, s') /\ holds n q' s'.
Proof.
  intros (Hq & <- & <-) Hx. pose proof (cap_pos _ (q_cbuf _ Hq)). pose proof (contents_length _ (q_cbuf _ Hq)) as Hlen. pose proof (used_range _ (q_cbuf _ Hq)) as Hu.
  destruct x as [src len|buflen block|ch|block| | |]; cbn [run_call spec_call] in *.
  - destruct (_ && _) eqn:Hb in Hx; [|done]. apply andb_true_iff in Hb as [Hb%bool_decide_eq_true Hs]. injection Hx as <- <-.
    destruct (cbuf_write_run preempt src len s Hq) as (s' & Hr & Hq' & Hc & Ho & _); [destruct src; cbn; [by apply Z.leb_le|done]|exact Hb|].
    exists s'. split; [exact (result_run _ _ _ _ _ Hr)|by split].
  - destruct (_ && _) eqn:Hb in Hx; [|done]. apply andb_true_iff in Hb as [Hb%Z.leb_le Hs]. injection Hx as <- <-.
    destruct (cbuf_read_run 1 buflen block s Hq Hb) as (s' & Hr & Hq' & Hc & Ho).
    { intros ->. cbn in Hs. apply andb_true_iff in Hs as [H1%bool_decide_eq_true H2%Z.ltb_lt]. done. }
    exists s'. split; [exact (result_run _ _ _ _ _ Hr)|by split].
  - destruct (cbuf_write_char_run ch s Hq) as (s' & Hr & Hq' & Hc & Ho & _). exists s'. rewrite (result_run _ _ _ _ _ Hr).
    destruct (_ <? _); injection Hx as <- <-; [by split|]. rewrite app_nil_r in Ho. by split.
  - destruct (_ || _) eqn:Hb in Hx; [|done]. injection Hx as <- <-. destruct (cbuf_read_char_run 1 block s Hq) as (s' & Hr & Hq' & Hc & Ho).
    { intros ->. cbn in Hb. by apply bool_decide_eq_true in Hb. }
    exists s'. split; [exact (result_run _ _ _ _ _ Hr)|by split].
  - injection Hx as <- <-. destruct (cbuf_peek_run s Hq) as (r1 & r2 & Hr & Hb & _). exists s. rewrite (bind_eq _ _ _ _ _ Hr), gets_bind. cbn [fst snd]. rewrite Hb. by split.
  - injection Hx as <- <-. unfold cbuf_reset. destruct (cbuf_read_run 0 (cap (cb s)) false s Hq) as (s' & Hr & Hq' & Hc & Ho); [lia|done|].
    exists s'. assert (cbuf_size (cb s) = cap (cb s)) as Hsz by (unfold cbuf_size; by rewrite Z.shiftl_1_l).
    split; [|split; [done|split; [done|]]].
    + apply result_run. rewrite gets_bind, Hsz, Hr. rewrite take_ge by lia. done.
    + rewrite Ho. apply drop_ge. lia.
  - injection Hx as <- <-. exists s. rewrite gets_bind, space_used_eq, space_avail_eq, Hlen by apply Hq. by split.
Qed.

Lemma spec_calls_run preempt n l : forall q s rs q',
  holds n q s -> spec_calls n l q = Some (rs, q') -> exists s', run_calls preempt l s = Some (rs, s') /\ holds n q' s'.
Proof.
  induction l as [|x l IH]; intros q s rs q' Hs Hl; cbn [run_calls spec_calls] in *; [injection Hl as <- <-; by exists s|].
  destruct (spec_call n x q) as [[r q1]|] eqn:Hx; [|done]. destruct (spec_calls n l q1) as [[rs1 q2]|] eqn:Hrs; [|done]. injection Hl as <- <-.
  destruct (spec_call_run preempt n x q s r q1 Hs Hx) as (s1 & Hr1 & Hs1). destruct (IH q1 s1 rs1 q2 Hs1 Hrs) as (s2 & Hr2 & Hs2).
  exists s2. rewrite (bind_eq _ _ _ _ _ Hr1), (bind_eq _ _ _ _ _ Hr2). by split.
Qed.
End laws.
