(* ===== verification/CbufEvent.v ===== *)
(** * The event of a circular buffer is a kernel event (kernel/event.c)

    The interface that lib/cbuf uses, implemented by the operations of Sync on an
    event without [EVENT_FLAG_AUTOUNSIGNAL], for callers that run on [cpu]. *)
From stdpp Require Import base gmap list.
From Stdlib Require Import ZArith Lia.
From S2P Require Import Prelude Timer Sched SchedTimer SchedInv SchedOps SchedApi SchedWait SchedCheck Sync SyncView SyncOps Cbuf CbufProps.

Local Open Scope Z_scope.
Local Open Scope lk_scope.

Section kernel_event.
Context {T : Type} `{!TimerOps T} `{!Config} `{!TimerLaws T} `{!ConfigLaws}.
Context (cpu e : Z).
Implicit Types (k : kernel T).

Definition kernel_event_ops : EventOps (kernel T) := {|
  ev_init := event_init e false 0;
  ev_signal := event_signal cpu e;
  ev_unsignal := event_unsignal e;
  ev_wait := event_wait cpu e
|}.
#[local] Existing Instance kernel_event_ops.

(** Thread [t] runs on the cpu and may wait. *)
Definition may_wait k (t : Z) : Prop :=
  current (ks k) !! cpu = Some t /\ (exists th, threads (ks k) !! t = Some th /\ thread_is_idle th = false) /\ timeout_pending (timers (ks k)) t = false.
(** Thread [t] is blocked on the wait queue of the event. *)
Definition waits k (t : Z) : Prop := exists r, view (ks k) t = Some (Some (WaitQueueAt e), r).
(** Thread [t] was woken, with the result NO_ERROR, and is in its run queue. *)
Definition awake k (t : Z) : Prop := exists th q, threads (ks k) !! t = Some th /\ state th = THREAD_READY /\
  wait_queue_block_ret th = NO_ERROR /\ queues (ks k) !! RunQueue (priority th) = Some q /\ t ∈ q.

Record event_ok k : Prop := {
  eo_inv : sched_inv unlocked (ks k);
  eo_current : is_Some (current (ks k) !! cpu);
  eo_wait : wait_ok (ks k) e;
  eo_event : exists sig, events k !! e = Some (mk_event EVENT_MAGIC sig 0) /\ (sig = true -> queues (ks k) !! WaitList (WaitQueueAt e) = Some [])
}.
Definition event_signaled k : bool := default false (e_signaled <$> events k !! e).
Definition event_fresh k : Prop :=
  sched_inv unlocked (ks k) /\ is_Some (current (ks k) !! cpu) /\
  (queues (ks k) !! WaitList (WaitQueueAt e) = None \/ queues (ks k) !! WaitList (WaitQueueAt e) = Some []).

Lemma get_event_eq k x : events k !! e = Some x -> get_event e k = Some (x, k).
Proof. intros. by apply getsome_eq. Qed.

Lemma nobody_waits k owner : sched_inv owner (ks k) -> queues (ks k) !! WaitList (WaitQueueAt e) = Some [] -> forall u, ~ waits k u.
Proof. intros Hi Hq u [r Hr]. exact (no_waiter_view _ _ _ Hi Hq u r Hr). Qed.

(** Who waits is in the list of the event. *)
Lemma waits_in k owner l u : sched_inv owner (ks k) -> queues (ks k) !! WaitList (WaitQueueAt e) = Some l -> waits k u -> u ∈ l.
Proof.
  intros Hi Hl [r Hv]. unfold view in Hv. destruct (threads (ks k) !! u) as [th|] eqn:Hth; [|done]. cbn in Hv. injection Hv as Hb _. unfold blocked_on in Hb.
  destruct (state_eqb _ _) eqn:Hs; [|done]. apply state_eqb_true in Hs. destruct (wf_blocked _ _ (inv_wf _ _ Hi) _ _ Hth Hs) as (w & l' & Hw & Hl' & Hin); [by intros []|]. congruence.
Qed.

Lemma event_init_ok k : event_fresh k -> exists k', event_init e false 0 k = Some (tt, k') /\ event_ok k' /\ event_signaled k' = false /\
  forall t, may_wait k t -> may_wait k' t.
Proof.
  intros (Hi0 & [c Hcur] & Hq).
  destruct (wait_queue_init_run (WaitQueueAt e) (ks k) unlocked Hi0 Hq) as (s' & Hr & Hi & Ht & Hc & Htm & Hqs & Hws).
  unfold event_init. unfold set_event. rewrite modify_bind.
  exists (with_ks s' (with_events <[e := mk_event EVENT_MAGIC false 0]> k)). split; [by apply lift_eq|]. split_and!.
  - constructor; [done| | |].
    + exists c. change (current s' !! cpu = Some c). by rewrite Hc.
    + unfold wait_ok. change (ks (with_ks s' _)) with s'. rewrite Hqs, Hws, !lookup_insert_eq. split; [by eexists|done].
    + exists false. split; [apply lookup_insert_eq|done].
  - unfold event_signaled. change (events (with_ks s' _)) with (<[e := mk_event EVENT_MAGIC false 0]> (events k)). by rewrite lookup_insert_eq.
  - intros t. unfold may_wait. change (ks (with_ks s' _)) with s'. by rewrite Ht, Hc, Htm.
Qed.

Lemma with_ks_same k : with_ks (ks k) (with_ks (with_owner cpu (ks k)) k) = k.
Proof. by destruct k. Qed.

(** The threads that [wake_all_run] woke. *)
Lemma woken_awake k s' l u :
  sched_inv unlocked s' -> sched_inv cpu (ks k) -> queues (ks k) !! WaitList (WaitQueueAt e) = Some l -> all_woken (WaitQueueAt e) NO_ERROR l (ks k) s' -> waits k u ->
  exists th q, threads s' !! u = Some th /\ state th = THREAD_READY /\ wait_queue_block_ret th = NO_ERROR /\ queues s' !! RunQueue (priority th) = Some q /\ u ∈ q.
Proof.
  intros Hi' Hi Hl Hw Hu. pose proof (waits_in _ _ _ _ Hi Hl Hu) as Hin. destruct (wf_wait _ _ (inv_wf _ _ Hi) _ _ _ Hl Hin) as (th & Hth & _ & _ & Hid & _).
  pose proof (aw_woken _ _ _ _ _ Hw u Hin) as Hth'. rewrite Hth in Hth'. cbn in Hth'.
  destruct (wf_ready _ _ (inv_wf _ _ Hi') _ _ Hth') as (q & Hq & Huq); [done|done|by intros []|]. by exists (woken NO_ERROR th), q.
Qed.

Lemma event_signal_ok k : event_ok k -> exists r k', event_signal cpu e false k = Some (Return r, k') /\ event_ok k' /\ event_signaled k' = true /\
  (forall u, ~ waits k' u) /\ (forall u, waits k u -> awake k' u).
Proof.
  intros Hk. pose proof Hk as [Hi [t Hc] [[l Hl] Hwq] (sig & Hev & Hsig)]. destruct (inv_running _ _ Hi _ _ Hc) as (th & Ht & _).
  unfold event_signal. rewrite (bind_eq _ _ _ _ _ (get_event_eq _ _ Hev)). rewrite assert_bind by done.
  rewrite (bind_eq _ _ _ _ _ (lift_lock k cpu Hi)). cbn [Sync.e_signaled]. destruct sig; cbn [negb].
  - unfold unlock_return. erewrite bind_eq by (eapply unlock_eq; [exact Hi|reflexivity]). eexists _, _. split; [reflexivity|].
    rewrite with_ks_same. pose proof (nobody_waits k _ Hi (Hsig eq_refl)) as Hno. split_and!; [done|by unfold event_signaled; rewrite Hev|done|by intros u ?%Hno].
  - change (autounsignal _) with false. cbn iota. unfold set_event. rewrite modify_bind.
    apply fmap_Some in Hwq as (q & Hq & Hm). set (k1 := with_events _ _).
    assert (sched_inv cpu (ks k1)) as Hi1. { destruct (THREAD_LOCK_run cpu (ks k) Hi) as (s' & _ & -> & Hs). exact Hs. }
    destruct (wake_all_run cpu (ks k1) (WaitQueueAt e) q NO_ERROR t th l Hi1 Hc Ht Hq (eq_sym Hm) Hl) as (s' & Hr & Hi' & Hwk).
    rewrite (bind_eq _ _ _ _ _ (lift_eq _ k1 _ _ Hr)). cbn [snd]. destruct (THREAD_UNLOCK_run cpu s' Hi') as [Hu Hiu].
    unfold unlock_return. rewrite (bind_eq _ _ _ _ _ (lift_eq (THREAD_UNLOCK cpu) (with_ks s' k1) tt (with_owner unlocked s') Hu)).
    eexists _, _. split; [reflexivity|]. split_and!.
    + constructor; [exact Hiu| | |].
      * exists t. change (current s' !! cpu = Some t). by rewrite (aw_current _ _ _ _ _ Hwk).
      * split; [change (is_Some (queues s' !! WaitList (WaitQueueAt e))); by rewrite (aw_empty _ _ _ _ _ Hwk)|].
        change (wq_magic <$> wait_queues s' !! WaitQueueAt e = Some WAIT_QUEUE_MAGIC). rewrite (aw_counts _ _ _ _ _ Hwk), decide_True by done.
        change (wait_queues (ks k1)) with (wait_queues (ks k)). rewrite Hq. cbn. by rewrite Hm.
      * exists true. split; [apply lookup_insert_eq|]. intros _. exact (aw_empty _ _ _ _ _ Hwk).
    + unfold event_signaled. change (events (with_ks _ _)) with (<[e := mk_event EVENT_MAGIC true 0]> (events k)). by rewrite lookup_insert_eq.
    + apply (nobody_waits (with_ks (with_owner unlocked s') (with_ks s' k1)) unlocked Hiu). exact (aw_empty _ _ _ _ _ Hwk).
    + intros u Hu'. exact (woken_awake k1 (with_owner unlocked s') l u Hiu Hi1 Hl ltac:(by destruct Hwk; constructor) Hu').
Qed.

Lemma event_unsignal_ok k : event_ok k -> exists r k', event_unsignal e k = Some (r, k') /\ event_ok k' /\ event_signaled k' = false.
Proof.
  intros [Hi Hc Hq (sig & Hev & Hsig)]. unfold event_unsignal. rewrite (bind_eq _ _ _ _ _ (get_event_eq _ _ Hev)), assert_bind by done.
  unfold set_event. rewrite modify_bind. eexists _, _. split; [reflexivity|]. split.
  - constructor; [done|done|done|]. exists false. split; [apply lookup_insert_eq|done].
  - unfold event_signaled. change (events (with_events _ _)) with (<[e := mk_event EVENT_MAGIC false 0]> (events k)). by rewrite lookup_insert_eq.
Qed.

Lemma event_wait_ok k : event_ok k -> event_signaled k = true -> exists r, event_wait cpu e k = Some (Return r, k).
Proof.
  intros [Hi Hc Hq (sig & Hev & Hsig)] Hs.
  unfold event_signaled in Hs. rewrite Hev in Hs. cbn in Hs. subst sig. unfold event_wait, event_wait_timeout.
  rewrite (bind_eq _ _ _ _ _ (get_event_eq _ _ Hev)), assert_bind by done. rewrite (bind_eq _ _ _ _ _ (lift_lock k cpu Hi)). cbn [Sync.e_signaled].
  change (autounsignal _) with false. cbn [when]. rewrite ret_bind. unfold unlock_return. erewrite bind_eq by (eapply unlock_eq; [exact Hi|reflexivity]).
  eexists. by rewrite with_ks_same.
Qed.

(** The thread that runs next gives the thread lock up. *)
Definition next_unlocks : M (kernel T) unit := lift (THREAD_UNLOCK cpu).

Lemma event_wait_blocks k t : event_ok k -> may_wait k t -> event_signaled k = false ->
  exists k1 k', event_wait cpu e k = Some (Switched, k1) /\ next_unlocks k1 = Some (tt, k') /\ event_ok k' /\ event_signaled k' = false /\ (forall u, waits k' u <-> u = t \/ waits k u).
Proof.
  intros [Hi _ Hq (sig & Hev & Hsig)] (Hc & (th & Ht & Hid) & Hp) Hs.
  unfold event_signaled in Hs. rewrite Hev in Hs. cbn in Hs. subst sig. unfold event_wait, event_wait_timeout.
  rewrite (bind_eq _ _ _ _ _ (get_event_eq _ _ Hev)), assert_bind by done. rewrite (bind_eq _ _ _ _ _ (lift_lock k cpu Hi)). cbn [Sync.e_signaled].
  assert (sched_inv cpu (with_owner cpu (ks k))) as Hi1 by (destruct (THREAD_LOCK_run cpu (ks k) Hi) as (s' & _ & -> & Hs); exact Hs).
  pose proof (block_run cpu t th e INFINITE_TIME (with_ks (with_owner cpu (ks k)) k) Hi1 Hc Ht Hid Hq ltac:(by vm_compute) Hp) as Hb.
  change (INFINITE_TIME =? 0) with false in Hb. cbn iota in Hb. destruct Hb as (k' & Hr & Hef & Hk & _ & _ & He).
  rewrite (bind_eq _ _ _ _ _ Hr). pose proof (ef_moved _ _ _ _ _ _ Hef) as Hm. destruct (THREAD_UNLOCK_run cpu (ks k') (mv_inv _ _ _ _ _ _ Hm)) as [Hu Hiu].
  exists k', (with_ks (with_owner unlocked (ks k')) k'). split; [done|]. split; [by apply lift_eq|]. pose proof (ef_view _ _ _ _ _ _ Hef) as Hv. cbn [ks with_ks events] in *. split_and!.
  - constructor; [exact Hiu| |exact (proj2 (wait_ok_effect _ _ _ _ _ _ e Hef) Hq)|exists false; cbn [events with_ks]; by rewrite He].
    destruct (mv_current _ _ _ _ _ _ Hm) as (new & _ & Hcn). exists new. change (current (ks k') !! cpu = Some new). rewrite Hcn. apply lookup_insert_eq.
  - unfold event_signaled. cbn [events with_ks]. by rewrite He, Hev.
  - intros u. unfold waits. change (view (ks (with_ks _ k'))) with (view (ks k')). rewrite Hv. cbn [view_after]. change (view (with_owner cpu (ks k))) with (view (ks k)). case_decide as Hut; [|naive_solver]. split; [by left|intros _; by eexists].
Qed.

Definition kernel_event_laws : EventLaws (kernel T) := {|
  ev_ok := event_ok; ev_fresh := event_fresh; ev_signaled := event_signaled; ev_may_wait := may_wait; ev_waits := waits; ev_awake := awake; ev_next := next_unlocks;
  ev_init_law := event_init_ok; ev_signal_law := event_signal_ok; ev_unsignal_law := event_unsignal_ok;
  ev_wait_law := event_wait_ok; ev_wait_unsignaled_law := event_wait_blocks
|}.
#[local] Existing Instance kernel_event_laws.

Lemma min_take (n : nat) (l : list Z) : take (n `min` length l) l = take n l.
Proof. rewrite <- take_take. by rewrite (take_ge l (length l)). Qed.
Lemma min_drop (n : nat) (l : list Z) : drop (n `min` length l) l = drop n l.
Proof. destruct (Nat.le_ge_cases n (length l)); [by rewrite Nat.min_l|]. rewrite Nat.min_r, !drop_ge by lia. done. Qed.

(** A call that adds bytes. *)
Definition adds_bytes (m : option (outcome Z * cbuf_sys (kernel T))) (s : cbuf_sys (kernel T)) : Prop :=
  exists j s', m = Some (Return j, s') /\ 0 < j /\ queue_ok s' /\ zlen (contents (cb s')) = zlen (contents (cb s)) + j /\
    (forall u, ~ waits (ev s') u) /\ forall u, waits (ev s) u -> awake (ev s') u.

Lemma write_wakes preempt src len (s : cbuf_sys (kernel T)) :
  queue_ok s -> src_ok src len -> 0 < len < cap (cb s) -> zlen (contents (cb s)) < cap (cb s) - 1 -> adds_bytes (cbuf_write preempt src len false s) s.
Proof.
  intros Hq Hsrc Hlen Hroom. destruct (cbuf_write_run preempt src len s Hq Hsrc ltac:(lia)) as (s' & Hr & Hq' & _ & Hcont & Hw).
  pose proof (data_length src len ltac:(lia) Hsrc) as Hd. eexists _, s'. split; [exact Hr|].
  assert (zlen (contents (cb s')) = zlen (contents (cb s)) + len `min` (cap (cb s) - 1 - zlen (contents (cb s)))) as Hl by (rewrite Hcont, length_app, length_take; lia).
  split_and!; [lia|done|done|apply Hw|apply Hw]; intros Hn; rewrite Hn in Hl; cbn [length] in Hl; lia.
Qed.

Lemma write_char_wakes c (s : cbuf_sys (kernel T)) :
  queue_ok s -> zlen (contents (cb s)) < cap (cb s) - 1 -> adds_bytes (cbuf_write_char c false s) s.
Proof.
  intros Hq Hroom%Z.ltb_lt. destruct (cbuf_write_char_run c s Hq) as (s' & Hr & Hq' & _ & Hcont & Hw). rewrite Hroom in *. exists 1, s'.
  split_and!; [exact Hr|lia|done| |by apply Hw|by apply Hw]. rewrite Hcont, length_app. cbn [length]. lia.
Qed.

Lemma read_oldest fuel n (s : cbuf_sys (kernel T)) :
  queue_ok s -> 0 < n -> contents (cb s) <> [] ->
  exists s', cbuf_read (S fuel) n true s = Some (Return (take (Z.to_nat n) (contents (cb s))), s') /\ queue_ok s' /\ contents (cb s') = drop (Z.to_nat n) (contents (cb s)).
Proof.
  intros Hq Hn He. destruct (cbuf_read_run fuel n true s Hq ltac:(lia) ltac:(done)) as (s' & Hr & Hq' & _ & Hc). exists s'.
  assert (Z.to_nat (n `min` zlen (contents (cb s))) = Z.to_nat n `min` length (contents (cb s)))%nat as Hmin by lia.
  rewrite Hmin, ?min_drop, ?min_take in *. done.
Qed.

Lemma resumed_oldest fuel n (s : cbuf_sys (kernel T)) :
  queue_ok s -> 0 < n -> contents (cb s) <> [] ->
  exists s', cbuf_read_resumed (S fuel) n s = Some (Return (take (Z.to_nat n) (contents (cb s))), s') /\ queue_ok s' /\ contents (cb s') = drop (Z.to_nat n) (contents (cb s)).
Proof.
  intros Hq Hn He. destruct (cbuf_read_locked_run n s Hq ltac:(lia)) as (s' & Hr & Hq' & _ & Hc). exists s'.
  assert (Z.to_nat (n `min` zlen (contents (cb s))) = Z.to_nat n `min` length (contents (cb s)))%nat as Hmin by lia.
  rewrite Hmin, ?min_drop, ?min_take in *. unfold cbuf_read_resumed. rewrite (bind_eq _ _ _ _ _ Hr), (proj2 (Z.eqb_neq _ 0)); [done|].
  rewrite length_take. destruct (contents (cb s)); [done|]. cbn [length]. lia.
Qed.

(** A pass that goes back to the start in the same state does so for ever. *)
Lemma read_zero_retries (s : cbuf_sys (kernel T)) : cbuf_read_pass 0 true s = Some (Return None, s) -> forall f, cbuf_read f 0 true s = None.
Proof. intros Hz f. induction f as [|f IH]; [done|]. cbn [cbuf_read]. by rewrite (bind_eq _ _ _ _ _ Hz). Qed.

(** C39: a buffer of 2^p bytes, once initialised, answers every sequence of writes,
    reads, single characters, peeks, resets and space queries as a queue of at most
    2^p - 1 bytes does: a write takes what fits, a read takes the oldest bytes, and
    the space left is never reported wrongly, wherever the indices wrap. The sequences are
    of calls that keep the cpu: blocking reads only when there are bytes, and writes
    without canreschedule. *)
Theorem cbuf_refines_queue preempt (p : Z) b (s : cbuf_sys (kernel T)) l rs q :
  0 <= p < 32 -> zlen b = 2 ^ p -> event_fresh (ev s) -> spec_calls (2 ^ p) l [] = Some (rs, q) ->
  exists s1 s2, cbuf_initialize_etc (2 ^ p) b s = Some (tt, s1) /\ run_calls preempt l s1 = Some (rs, s2) /\
    contents (cb s2) = q /\ cbuf_space_avail (cb s2) = 2 ^ p - 1 - zlen q /\ lock (cb s2) = false.
Proof.
  intros Hk Hb Hf Hl. destruct s as [ke c]. destruct (cbuf_initialize_etc_run p b ke c Hk Hb ltac:(exact Hf)) as (s1 & Hi & Hq & Hcap & Hn & _).
  destruct (spec_calls_run preempt (2 ^ p) l [] s1 rs q) as (s2 & Hr & Hq2 & Hc2 & Hn2); [by split|done|]. exists s1, s2.
  split_and!; [done|done|done| |apply Hq2]. rewrite space_avail_eq, <- contents_length, Hn2, Hc2 by apply Hq2. done.
Qed.

(** C40: a blocking read of an empty buffer puts the calling thread to the waiters
    of the event (once the next thread has given the thread lock up) and leaves the
    buffer as it was. A call that adds bytes leaves
    nobody waiting: each thread that waited has been made ready, in its run queue. A
    read of a buffer that is not empty, and a read that was woken and finds bytes,
    return the oldest bytes; a woken read that finds none waits again. Asked for no
    bytes, a blocking read of a buffer that is not empty goes back to its start in the
    state it began with, so that it never returns. *)
Theorem cbuf_blocking_read fuel n (s : cbuf_sys (kernel T)) :
  queue_ok s -> 0 < n ->
  (forall t, contents (cb s) = [] -> may_wait (ev s) t ->
     forall m, m = cbuf_read (S fuel) n true s \/ m = cbuf_read_resumed (S fuel) n s ->
     exists s1 s', m = Some (Switched, s1) /\ on_event next_unlocks s1 = Some (tt, s') /\ queue_ok s' /\ cb s' = cb s /\ forall u, waits (ev s') u <-> u = t \/ waits (ev s) u) /\
  (forall preempt src len c, src_ok src len -> 0 < len < cap (cb s) -> zlen (contents (cb s)) < cap (cb s) - 1 ->
     forall m, m = cbuf_write preempt src len false s \/ m = cbuf_write_char c false s ->
     exists j s', m = Some (Return j, s') /\ 0 < j /\ queue_ok s' /\ zlen (contents (cb s')) = zlen (contents (cb s)) + j /\
       (forall u, ~ waits (ev s') u) /\ forall u, waits (ev s) u -> awake (ev s') u) /\
  (contents (cb s) <> [] ->
     cbuf_read_pass 0 true s = Some (Return None, s) /\ (forall f, cbuf_read f 0 true s = None) /\
     forall m, m = cbuf_read (S fuel) n true s \/ m = cbuf_read_resumed (S fuel) n s ->
       exists s', m = Some (Return (take (Z.to_nat n) (contents (cb s))), s') /\ queue_ok s' /\
         contents (cb s') = drop (Z.to_nat n) (contents (cb s))).
Proof.
  intros Hq Hn. split_and!.
  - intros t He Hw m Hm. destruct (cbuf_read_waits fuel n t s Hq He Hw) as (s1 & s' & Hr & Hx). exists s1, s'. split; [|exact Hx].
    destruct Hm as [->| ->]; [exact Hr|]. unfold cbuf_read_resumed. by rewrite (bind_eq _ _ _ _ _ (cbuf_read_locked_empty n s Hq He)).
  - intros preempt src len c Hsrc Hlen Hroom m [->| ->]; [exact (write_wakes preempt src len s Hq Hsrc Hlen Hroom)|exact (write_char_wakes c s Hq Hroom)].
  - intros He. pose proof (cbuf_read_pass_zero s Hq He) as Hz. split_and!; [exact Hz|exact (read_zero_retries s Hz)|].
    intros m [->| ->]; [exact (read_oldest fuel n s Hq Hn He)|exact (resumed_oldest fuel n s Hq Hn He)].
Qed.
End kernel_event.

(** ** A buffer of eight bytes whose event is at 700, used by thread 1 *)
Module CbufExample.
Import SchedCheck.Example.

Definition event_kernel (e : Z) : kernel timer_state := mk_kernel example_sched ∅ ∅ {[e := mk_event EVENT_MAGIC false 0]}.
Definition no_buffer : cbuf := mk_cbuf 0 0 0 [] false.
Definition fresh : cbuf_sys (kernel timer_state) := mk_cbuf_sys (mk_kernel example_sched ∅ ∅ ∅) no_buffer.

Lemma fresh_ok : event_fresh 0 700 (ev fresh).
Proof.
  split_and!; [apply example_inv|by eexists|by left].
Qed.

Definition nobody_else : M (kernel timer_state) (outcome unit) := ret (Return tt).

(** Seven bytes fit; then the indices wrap. *)
Definition calls : list cbuf_call :=
  [CWrite (Some [1; 2; 3; 4; 5]) 5; CRead 3 true; CWrite (Some [6; 7; 8; 9; 10; 11]) 6; CPeek; CSpace; CWriteChar 12; CReadChar true; CRead 7 false].
Definition results : list cbuf_result :=
  [Count 5; Bytes [1; 2; 3]; Count 5; Bytes [4; 5; 6; 7; 8; 9; 10]; Pair 7 0; Count 0; Char (Some 4); Bytes [5; 6; 7; 8; 9; 10]].

(** [cbuf_write_char] may reschedule in [event_signal] before it gives the spin
    lock up: the threads that it lets run find the lock held. *)
Definition waited_for : cbuf_sys (kernel timer_state) := mk_cbuf_sys (event_kernel 500) (mk_cbuf 0 0 3 (replicate 8 0) false).
Lemma cbuf_write_char_switched_locked :
  exists s, @cbuf_write_char _ (kernel_event_ops 0 500) 65 true waited_for = Some (Switched, s) /\ lock (cb s) = true /\
    current (ks (ev s)) !! 0 = Some 5 /\ @cbuf_read_char_locked _ (kernel_event_ops 0 500) s = None.
Proof.
  destruct (@cbuf_write_char _ (kernel_event_ops 0 500) 65 true waited_for) as [[[r|] s]|] eqn:Hs; [vm_compute in Hs; discriminate| |vm_compute in Hs; discriminate].
  exists s. split; [done|].
  assert ((lock (cb s), current (ks (ev s)) !! 0) = (true, Some 5)) as [= Hl Hc].
  { transitivity (match @cbuf_write_char _ (kernel_event_ops 0 500) 65 true waited_for with Some (_, s) => (lock (cb s), current (ks (ev s)) !! 0) | None => (false, None) end);
      [by rewrite Hs|by vm_compute]. }
  split; [done|]. split; [done|]. unfold cbuf_read_char_locked, spin_lock. rewrite bind_assoc, gets_bind, Hl. done.
Qed.
End CbufExample.

Import SchedCheck.Example CbufExample.

Lemma cbuf_refines_queue_witness :
  exists s1 s2, @cbuf_initialize_etc _ (kernel_event_ops 0 700) 8 (replicate 8 0) fresh = Some (tt, s1) /\
    @run_calls _ (kernel_event_ops 0 700) nobody_else calls s1 = Some (results, s2) /\ contents (cb s2) = [] /\
    cbuf_space_avail (cb s2) = 7 /\ lock (cb s2) = false.
Proof.
  apply (cbuf_refines_queue 0 700 nobody_else 3 (replicate 8 0) fresh calls results []); [lia|reflexivity|apply fresh_ok|reflexivity].
Defined.

(** Thread 1 reads from the empty buffer and waits; five bytes come in; it is ready
    again and its read returns the first three. *)
Lemma cbuf_blocking_read_witness : exists s1 s1' s2 s3 s4 : cbuf_sys (kernel timer_state),
  @cbuf_read _ (kernel_event_ops 0 700) 1 3 true s1 = Some (Switched, s1') /\ on_event (next_unlocks 0) s1' = Some (tt, s2) /\ waits 700 (ev s2) 1 /\
  @cbuf_write _ (kernel_event_ops 0 700) nobody_else (Some [1; 2; 3; 4; 5]) 5 false s2 = Some (Return 5, s3) /\ awake (ev s3) 1 /\
  @cbuf_read_resumed _ (kernel_event_ops 0 700) 1 3 s3 = Some (Return [1; 2; 3], s4) /\ contents (cb s4) = [4; 5] /\
  @cbuf_read_pass _ (kernel_event_ops 0 700) 0 true s3 = Some (Return None, s3).
Proof.
  destruct (@cbuf_initialize_etc_run _ (kernel_event_ops 0 700) (kernel_event_laws 0 700) 3 (replicate 8 0) (ev fresh) no_buffer)
    as (s1 & _ & Hq1 & Hc1 & Hn1 & Hw1); [lia|reflexivity|apply fresh_ok|]. exists s1.
  assert (may_wait 0 (ev s1) 1) as Hmay by (apply Hw1; split_and!; [done|by eexists|done]).
  destruct (proj1 (cbuf_blocking_read 0 700 0 3 s1 Hq1 ltac:(lia)) 1 Hn1 Hmay _ (or_introl eq_refl)) as (s1' & s2 & Hr1 & Hu1 & Hq2 & Hcb & Hwt).
  exists s1', s2. assert (waits 700 (ev s2) 1) as Hwaits by (apply Hwt; by left). rewrite <- Hcb in Hc1, Hn1.
  destruct (@cbuf_write_run _ (kernel_event_ops 0 700) (kernel_event_laws 0 700) nobody_else (Some [1; 2; 3; 4; 5]) 5 s2 Hq2 ltac:(cbn; lia) ltac:(rewrite Hc1; lia)) as (s3 & Hr2 & Hq3 & _ & Hn3 & _).
  rewrite Hc1, Hn1 in Hr2, Hn3.
  destruct (proj1 (proj2 (cbuf_blocking_read 0 700 0 3 s2 Hq2 ltac:(lia))) nobody_else (Some [1; 2; 3; 4; 5]) 5 0 ltac:(cbn; lia) ltac:(rewrite Hc1; lia) ltac:(rewrite Hc1, Hn1; cbn; lia)
    _ (or_introl eq_refl)) as (k & s3' & Hr2' & _ & _ & _ & _ & Haw).
  rewrite Hr2 in Hr2'. injection Hr2' as <- <-. exists s3.
  destruct (proj2 (proj2 (cbuf_blocking_read 0 700 0 3 s3 Hq3 ltac:(lia))) ltac:(by rewrite Hn3)) as (Hz & _ & Hr).
  destruct (Hr _ (or_intror eq_refl)) as (s4 & Hr3 & _ & Hn4). rewrite Hn3 in Hr3, Hn4. exists s4. split_and!; [exact Hr1|exact Hu1|exact Hwaits|exact Hr2|by apply Haw|exact Hr3|exact Hn4|exact Hz].
Defined.
