(* ===== verification/SchedLists.v ===== *)
(** * What the scheduler leaves alone

    No operation of Sched touches the list of all threads, the list of dead ones
    or which threads there are: they are the business of Thread. *)
From stdpp Require Import base gmap list.
From Stdlib Require Import ZArith Lia.
From S2P Require Import Prelude Sched.

Local Open Scope Z_scope.
Local Open Scope lk_scope.

Section lists.
Context {T : Type} `{!TimerOps T} `{!Config}.
Local Abbreviation MS := (M (sched T)).

Definition same_lists (s s' : sched T) : Prop :=
  thread_list s' = thread_list s /\ dead_threads s' = dead_threads s /\ dom (threads s') = dom (threads s).
Definition keeps {A} (m : MS A) : Prop := forall s a s', m s = Some (a, s') -> same_lists s s'.

Lemma keeps_ret {A} (a : A) : keeps (ret a).
Proof. intros s b s' [= -> ->]. split_and!; reflexivity. Qed.
Lemma keeps_panic {A} : keeps (panic : MS A).
Proof. done. Qed.
Lemma keeps_bind {A B} (m : MS A) (k : A -> MS B) : keeps m -> (forall a, keeps (k a)) -> keeps (bind m k).
Proof.
  intros Hm Hk s b s' (a & s1 & H1 & H2)%bind_Some. destruct (Hm _ _ _ H1) as (L1 & L2 & L3). destruct (Hk _ _ _ _ H2) as (L4 & L5 & L6).
  unfold same_lists. by rewrite L4, L5, L6.
Qed.
Lemma keeps_assert b : keeps (assert_ b).
Proof. destruct b; [apply keeps_ret|apply keeps_panic]. Qed.
Lemma keeps_gets {A} (f : sched T -> A) : keeps (gets f).
Proof. intros s a s' [= _ <-]. split_and!; reflexivity. Qed.
Lemma keeps_getsome {A} (f : sched T -> option A) : keeps (getsome f).
Proof. intros s a s'. unfold getsome. destruct (f s); [|done]. intros [= _ <-]; split_and!; reflexivity. Qed.
Lemma keeps_modify (f : sched T -> sched T) : (forall s, same_lists s (f s)) -> keeps (modify f).
Proof. intros Hf s a s' [= _ <-]. apply Hf. Qed.
Lemma keeps_when b (m : MS unit) : keeps m -> keeps (when b m).
Proof. destruct b; [done|]. intros _. apply keeps_ret. Qed.
Lemma keeps_upd_thread t f : keeps (upd_thread t f).
Proof.
  intros s a s'. unfold upd_thread. destruct (threads s !! t) as [th|] eqn:Ht; [|done]. intros [= _ <-]. split_and!; try done. cbn.
  apply dom_insert_lookup_L. by eexists.
Qed.
Lemma keeps_on_timers {A} (m : M T A) : keeps (on_timers m).
Proof. intros s a s'. unfold on_timers. destruct (m (timers s)) as [[? ?]|]; [|done]. intros [= _ <-]; split_and!; reflexivity. Qed.
Lemma keeps_THREAD_LOCK cpu : keeps (THREAD_LOCK cpu).
Proof. intros s a s'. unfold THREAD_LOCK. destruct (_ =? _); [|done]. intros [= _ <-]; split_and!; reflexivity. Qed.
Lemma keeps_THREAD_UNLOCK cpu : keeps (THREAD_UNLOCK cpu).
Proof. intros s a s'. unfold THREAD_UNLOCK. destruct (_ =? _); [|done]. intros [= _ <-]; split_and!; reflexivity. Qed.
End lists.

Create HintDb keeps.
#[export] Hint Resolve keeps_ret keeps_panic keeps_assert keeps_gets keeps_getsome keeps_when keeps_upd_thread
  keeps_on_timers keeps_THREAD_LOCK keeps_THREAD_UNLOCK : keeps.

(** Walk through the body of an operation. *)
Ltac keeps :=
  repeat first
    [ progress intros
    | solve [eauto with keeps nocore]
    | simple apply keeps_bind
    | apply keeps_modify; intros ?; split_and!; reflexivity
    | apply keeps_when
    | match goal with
      | |- keeps (if ?b then _ else _) => destruct b
      | |- keeps (match ?x with _ => _ end) => destruct x
      | |- keeps (let '(_, _) := ?x in _) => destruct x
      end ].

Section ops.
Context {T : Type} `{!TimerOps T} `{!Config}.
Local Abbreviation keeps := (@keeps T).

Lemma keeps_get_thread t : keeps (get_thread t). Proof. apply keeps_getsome. Qed.
Lemma keeps_get_current_thread cpu : keeps (get_current_thread cpu). Proof. apply keeps_getsome. Qed.
Lemma keeps_get_list q : keeps (get_list q). Proof. apply keeps_getsome. Qed.
Lemma keeps_get_wait_queue w : keeps (get_wait_queue w). Proof. apply keeps_getsome. Qed.
Lemma keeps_get_cpu_priority c : keeps (get_cpu_priority c). Proof. apply keeps_getsome. Qed.
Lemma keeps_thread_lock_held cpu : keeps (thread_lock_held cpu). Proof. apply keeps_gets. Qed.
Lemma keeps_queue_node_in_list t : keeps (queue_node_in_list t). Proof. apply keeps_gets. Qed.
Hint Resolve keeps_get_thread keeps_get_current_thread keeps_get_list keeps_get_wait_queue keeps_get_cpu_priority
  keeps_thread_lock_held keeps_queue_node_in_list : keeps.

Lemma keeps_set_list q l : keeps (set_list q l). Proof. unfold set_list. keeps. Qed.
Lemma keeps_set_current_thread cpu t : keeps (set_current_thread cpu t). Proof. unfold set_current_thread. keeps. Qed.
Lemma keeps_set_cpu_priority c p : keeps (set_cpu_priority c p). Proof. unfold set_cpu_priority. keeps. Qed.
Lemma keeps_set_wait_queue w q : keeps (set_wait_queue w q). Proof. unfold set_wait_queue. keeps. Qed.
Hint Resolve keeps_set_list keeps_set_current_thread keeps_set_cpu_priority keeps_set_wait_queue : keeps.
Lemma keeps_add_count w d : keeps (add_count w d). Proof. unfold add_count. keeps. Qed.
Lemma keeps_insert_head cpu t : keeps (insert_in_run_queue_head cpu t). Proof. unfold insert_in_run_queue_head. keeps. Qed.
Lemma keeps_insert_tail cpu t : keeps (insert_in_run_queue_tail cpu t). Proof. unfold insert_in_run_queue_tail. keeps. Qed.
Lemma keeps_delete cpu t : keeps (delete_from_run_queue cpu t). Proof. unfold delete_from_run_queue. keeps. Qed.
Lemma keeps_check_cookie t : keeps (thread_check_cookie t). Proof. unfold thread_check_cookie. keeps. Qed.
Hint Resolve keeps_add_count keeps_insert_head keeps_insert_tail keeps_delete keeps_check_cookie : keeps.
Lemma keeps_mp_reschedule cpu m f : keeps (mp_reschedule cpu m f). Proof. unfold mp_reschedule. keeps. Qed.
Hint Resolve keeps_mp_reschedule : keeps.
Lemma keeps_mp_target cpu c t : keeps (thread_get_mp_reschedule_target cpu c t). Proof. unfold thread_get_mp_reschedule_target. keeps. Qed.
Hint Resolve keeps_mp_target : keeps.
Lemma keeps_thread_mp_reschedule cpu c t : keeps (thread_mp_reschedule cpu c t). Proof. unfold thread_mp_reschedule. keeps. Qed.
Hint Resolve keeps_thread_mp_reschedule : keeps.
Lemma keeps_first_eligible cpu l : keeps (first_eligible cpu l).
Proof. induction l; cbn [first_eligible]; keeps. Qed.
Hint Resolve keeps_first_eligible : keeps.
Lemma keeps_top_from fuel cpu u : forall b, keeps (get_top_thread_from fuel cpu u b).
Proof. induction fuel; intros b; cbn [get_top_thread_from]; keeps. Qed.
Hint Resolve keeps_top_from : keeps.
Lemma keeps_top cpu u : keeps (get_top_thread cpu u). Proof. unfold get_top_thread. keeps. Qed.
Hint Resolve keeps_top : keeps.
Lemma keeps_pinned c ct t cpu : keeps (thread_pinned_cond_mp_reschedule c ct t cpu). Proof. unfold thread_pinned_cond_mp_reschedule. keeps. Qed.
Hint Resolve keeps_pinned : keeps.
Lemma keeps_cond cpu : keeps (thread_cond_mp_reschedule cpu). Proof. unfold thread_cond_mp_reschedule. keeps. Qed.
Lemma keeps_vmm cpu a b : keeps (vmm_context_switch cpu a b). Proof. unfold vmm_context_switch. keeps. Qed.
Hint Resolve keeps_cond keeps_vmm : keeps.
Lemma keeps_preempt_timer cpu a b : keeps (switch_preempt_timer cpu a b). Proof. unfold switch_preempt_timer. keeps. Qed.
Hint Resolve keeps_preempt_timer : keeps.
Lemma keeps_switch_threads cpu a b : keeps (switch_threads cpu a b). Proof. unfold switch_threads. keeps. Qed.
Hint Resolve keeps_switch_threads : keeps.
Lemma keeps_thread_resched cpu : keeps (thread_resched cpu). Proof. unfold thread_resched. keeps. Qed.
Hint Resolve keeps_thread_resched : keeps.
Lemma keeps_remove_head q : keeps (remove_head q). Proof. unfold remove_head. keeps. Qed.
Lemma keeps_make_ready t e : keeps (make_ready t e). Proof. unfold make_ready. keeps. Qed.
Hint Resolve keeps_remove_head keeps_make_ready : keeps.
Lemma keeps_wake_loop fuel cpu c w e : forall n m, keeps (wake_loop fuel cpu c w e n m).
Proof. induction fuel; intros n m; cbn [wake_loop]; keeps. Qed.
Hint Resolve keeps_wake_loop : keeps.
Lemma keeps_wake_all cpu w r e : keeps (wait_queue_wake_all cpu w r e). Proof. unfold wait_queue_wake_all. keeps. Qed.
Lemma keeps_block_cancel cpu x : keeps (wait_queue_block_cancel cpu x). Proof. unfold wait_queue_block_cancel. keeps. Qed.
Hint Resolve keeps_block_cancel : keeps.
Lemma keeps_block_resume cpu x : keeps (wait_queue_block_resume cpu x). Proof. unfold wait_queue_block_resume. keeps. Qed.
Hint Resolve keeps_block_resume : keeps.
Lemma keeps_block cpu w x : keeps (wait_queue_block cpu w x). Proof. unfold wait_queue_block. keeps. Qed.
End ops.
