(* ===== verification/Thread.v ===== *)
(** * The life of a thread (kernel/thread.c)

    Creation, detaching, joining, exit and the reaper, over the scheduler of
    Sched. What the allocators and the C library return is an argument of
    [thread_create_etc]; [heap], [regions] and [libc_states] are what they have given out
    and not taken back. A thread whose magic has been cleared is no thread any
    more: its struct is among the [retired] ones until it is freed. *)
From stdpp Require Import base gmap list.
From Stdlib Require Import ZArith Lia.
From S2P Require Import Prelude Sched.

Local Open Scope Z_scope.
Local Open Scope lk_scope.

Definition ERR_FAULT : Z := -40.
Definition THREAD_FLAG_FREE_STACK : Z := 2.
Definition THREAD_FLAG_FREE_STRUCT : Z := 4.
Definition THREAD_FLAG_EXIT_ON_PANIC : Z := 64.
Definition THREAD_FLAG_FREE_SHADOW_STACK : Z := 128.
Definition THREAD_FLAG_FREE_LIBC_STATE : Z := 256.

(** Build options. *)
Class ThreadBuild := {
  KERNEL_SCS_ENABLED : bool;
  LK_LIBC_IMPLEMENTATION_IS_MUSL : bool;
  TEST_BUILD : bool;
  PAGE_SIZE : Z
}.

(** The part of a thread struct that the scheduler does not look at. *)
Record thread_mem := mk_thread_mem {
  stack : Z; stack_high : Z; stack_size : Z; shadow_stack : Z; shadow_stack_size : Z;
  entry : Z; arg : Z; tls : list Z; name : list Z
}.

Record tsys (T : Type) := mk_tsys {
  sd : sched T;
  mems : gmap Z thread_mem;
  retired : gmap Z thread_t;
  heap : gset Z;
  regions : gset Z;
  libc_states : gset Z
}.
Arguments mk_tsys {T}. Arguments sd {T}. Arguments mems {T}. Arguments retired {T}.
Arguments heap {T}. Arguments regions {T}. Arguments libc_states {T}.

(** What [malloc], the two [vmm_alloc] (the address, or an error) and
    [libc_state_thread_init] return. *)
Record allocs := mk_allocs { malloc_ret : option Z; stack_ret : option Z; shadow_ret : option Z; libc_ret : Z }.

Section thread.
Context {T : Type} `{!TimerOps T} `{!Config} `{!ThreadBuild}.
Implicit Types (s : tsys T) (cpu t : Z).
Local Abbreviation MT := (M (tsys T)).

Definition with_sd (x : sched T) s : tsys T := mk_tsys x (mems s) (retired s) (heap s) (regions s) (libc_states s).
Definition with_mems (f : gmap Z thread_mem -> gmap Z thread_mem) s : tsys T :=
  mk_tsys (sd s) (f (mems s)) (retired s) (heap s) (regions s) (libc_states s).
Definition with_retired (f : gmap Z thread_t -> gmap Z thread_t) s : tsys T :=
  mk_tsys (sd s) (mems s) (f (retired s)) (heap s) (regions s) (libc_states s).
Definition with_memory (f g h : gset Z -> gset Z) s : tsys T :=
  mk_tsys (sd s) (mems s) (retired s) (f (heap s)) (g (regions s)) (h (libc_states s)).

(** Run a scheduler operation. *)
Definition on_sched {A} (op : M (sched T) A) : MT A := fun s =>
  match op (sd s) with
  | Some (a, x) => Some (a, with_sd x s)
  | None => None
  end.
Definition get_mem t : MT thread_mem := getsome (fun s => mems s !! t).
Definition upd_mem t (f : thread_mem -> thread_mem) : MT unit := m <- get_mem t ;; modify (with_mems <[t := f m]>).

(** ** Allocators *)
Definition malloc (r : option Z) : MT Z :=
  match r with
  | Some p => modify (with_memory (union {[p]}) id id) ;; ret p
  | None => ret 0
  end.
(** Freeing something [malloc] has not given out has no defined outcome. The struct at
    [p] is gone, with the wait queue in it. *)
Definition free (p : Z) : MT unit :=
  h <- gets heap ;;
  assert_ (bool_decide (p ∈ h)) ;;
  modify (with_memory (fun h => h ∖ {[p]}) id id) ;;
  on_sched (modify (with_threads (delete p))) ;;
  on_sched (modify (with_queues (delete (WaitList (RetcodeWaitQueue p))))) ;;
  on_sched (modify (with_wait_queues (delete (RetcodeWaitQueue p)))) ;;
  modify (with_mems (delete p)) ;;
  modify (with_retired (delete p)).
Definition vmm_alloc (r : option Z) : MT (option Z) :=
  match r with
  | Some v => modify (with_memory id (union {[v]}) id) ;; ret (Some v)
  | None => ret None
  end.
(** An address that is no region is an error, which the callers ignore. *)
Definition vmm_free_region (v : Z) : MT unit := modify (with_memory id (fun r => r ∖ {[v]}) id).

(** ** Creation *)
Definition zero_thread : thread_t := mk_thread 0 0 0 THREAD_SUSPENDED 0 0 0 0 0 None 0 0.
Definition set_cookie (x : Z) (th : thread_t) : thread_t :=
  mk_thread (magic th) x (priority th) (state th) (remaining_quantum th) (flags th) (curr_cpu th)
    (pinned_cpu th) (aspace th) (blocking_wait_queue th) (wait_queue_block_ret th) (retcode th).
Definition set_aspace (x : Z) (th : thread_t) : thread_t :=
  mk_thread (magic th) (cookie th) (priority th) (state th) (remaining_quantum th) (flags th) (curr_cpu th)
    (pinned_cpu th) x (blocking_wait_queue th) (wait_queue_block_ret th) (retcode th).

Definition set_stack (b size : Z) (m : thread_mem) : thread_mem :=
  mk_thread_mem b (b + size) size (shadow_stack m) (shadow_stack_size m) (entry m) (arg m) (tls m) (name m).
Definition set_shadow_stack (b size : Z) (m : thread_mem) : thread_mem :=
  mk_thread_mem (stack m) (stack_high m) (stack_size m) b size (entry m) (arg m) (tls m) (name m).
Definition set_entry (e a : Z) (m : thread_mem) : thread_mem :=
  mk_thread_mem (stack m) (stack_high m) (stack_size m) (shadow_stack m) (shadow_stack_size m) e a (tls m) (name m).
Definition set_tls (x : list Z) (m : thread_mem) : thread_mem :=
  mk_thread_mem (stack m) (stack_high m) (stack_size m) (shadow_stack m) (shadow_stack_size m) (entry m) (arg m) x (name m).
Definition set_name (x : list Z) (m : thread_mem) : thread_mem :=
  mk_thread_mem (stack m) (stack_high m) (stack_size m) (shadow_stack m) (shadow_stack_size m) (entry m) (arg m) (tls m) x.

Definition round_up (n k : Z) : Z := (n + k - 1) / k * k.
Definition adjust_shadow_stack_base (base size : Z) : Z := base + (round_up size PAGE_SIZE - size).
Definition revert_shadow_stack_base (base size : Z) : Z := base - (round_up size PAGE_SIZE - size).

(** [thread_set_pinned_cpu] of a suspended thread does not reschedule. [name] has
    room for 31 characters and the terminating zero. *)
Definition init_thread_struct cpu t (nm : list Z) : MT unit :=
  on_sched (modify (with_threads <[t := set_magic THREAD_MAGIC zero_thread]>)) ;;
  modify (with_mems <[t := mk_thread_mem 0 0 0 0 0 0 0 [] []]>) ;;
  c <- on_sched (getsome (thread_get_expected_cookie t)) ;;
  on_sched (upd_thread t (set_cookie c)) ;;
  o <- on_sched (thread_set_pinned_cpu cpu t (-1)) ;;
  match o with
  | Return _ => upd_mem t (set_name (take 31 nm))
  | Switched => panic
  end.

(** The way out when the C library has no room for its state. *)
Definition create_fail_libc (fl t : Z) : MT Z :=
  m <- get_mem t ;;
  when (KERNEL_SCS_ENABLED && negb (Z.land fl THREAD_FLAG_FREE_SHADOW_STACK =? 0)) (free (shadow_stack m)) ;;
  when (negb (Z.land fl THREAD_FLAG_FREE_STACK =? 0)) (free (stack m)) ;;
  when (negb (Z.land fl THREAD_FLAG_FREE_STRUCT =? 0)) (free t) ;;
  ret 0.

(** The last steps: flags, thread local storage, C library, the thread list. *)
Definition create_finish cpu t (fl : Z) (al : allocs) : MT Z :=
  on_sched (upd_thread t (set_flags fl)) ;;
  current_thread <- on_sched (get_current_thread cpu) ;;
  cm <- get_mem current_thread ;;
  upd_mem t (set_tls (tls cm)) ;;
  if LK_LIBC_IMPLEMENTATION_IS_MUSL && negb (libc_ret al =? NO_ERROR) then create_fail_libc fl t
  else
    when LK_LIBC_IMPLEMENTATION_IS_MUSL (modify (with_memory id id (union {[t]}))) ;;
    on_sched (THREAD_LOCK cpu) ;;
    on_sched (modify (with_thread_lists (cons t) id)) ;;
    on_sched (THREAD_UNLOCK cpu) ;;
    ret t.

Definition create_shadow_stack cpu t (fl shadow_size : Z) (al : allocs) : MT Z :=
  if KERNEL_SCS_ENABLED then
    upd_mem t (fun m => set_shadow_stack (shadow_stack m) (round_up shadow_size 8) m) ;;
    r <- vmm_alloc (shadow_ret al) ;;
    match r with
    | None =>
        m <- get_mem t ;;
        when (negb (Z.land fl THREAD_FLAG_FREE_STACK =? 0)) (free (stack m)) ;;
        when (negb (Z.land fl THREAD_FLAG_FREE_STRUCT =? 0)) (free t) ;;
        ret 0
    | Some v =>
        upd_mem t (fun m => set_shadow_stack (adjust_shadow_stack_base v (shadow_stack_size m)) (shadow_stack_size m) m) ;;
        create_finish cpu t (Z.lor fl THREAD_FLAG_FREE_SHADOW_STACK) al
    end
  else create_finish cpu t fl al.

(** [t] and [stk] are 0 for NULL. *)
Definition thread_create_etc cpu (al : allocs) t (nm : list Z) (ent arg0 prio stk stk_size shadow_size : Z) : MT Z :=
  assert_ (prio >? IDLE_PRIORITY) ;;
  assert_ (prio <=? HIGHEST_PRIORITY) ;;
  r <- (if t =? 0 then p <- malloc (malloc_ret al) ;; ret (p, THREAD_FLAG_FREE_STRUCT) else ret (t, 0)) ;;
  let '(t, fl) := r in
  if t =? 0 then ret 0
  else
    init_thread_struct cpu t nm ;;
    upd_mem t (set_entry ent arg0) ;;
    on_sched (upd_thread t (set_priority prio)) ;;
    on_sched (upd_thread t (set_state THREAD_SUSPENDED)) ;;
    on_sched (upd_thread t (set_wait None NO_ERROR)) ;;
    on_sched (upd_thread t (set_curr_cpu (-1))) ;;
    on_sched (upd_thread t (set_retcode 0)) ;;
    on_sched (wait_queue_init (RetcodeWaitQueue t)) ;;
    on_sched (upd_thread t (set_aspace 0)) ;;
    r <- (if stk =? 0 then r <- vmm_alloc (stack_ret al) ;; ret (r, Z.lor fl THREAD_FLAG_FREE_STACK) else ret (Some stk, fl)) ;;
    match r with
    | (None, _) => when (negb (Z.land fl THREAD_FLAG_FREE_STRUCT =? 0)) (free t) ;; ret 0
    | (Some v, fl) =>
        upd_mem t (set_stack v stk_size) ;;
        create_shadow_stack cpu t fl shadow_size al
    end.

Definition thread_create cpu (al : allocs) (nm : list Z) (ent arg0 prio stk_size shadow_size : Z) : MT Z :=
  thread_create_etc cpu al 0 nm ent arg0 prio 0 stk_size shadow_size.

(** ** The end of a thread *)

(** [t->magic = 0]: from here on the struct is no thread. *)
Definition clear_magic t : MT unit :=
  th <- on_sched (get_thread t) ;;
  on_sched (modify (with_threads (delete t))) ;;
  modify (with_retired <[t := set_magic 0 th]>).

Definition thread_free t : MT unit :=
  th <- getsome (fun s => retired s !! t) ;;
  m <- get_mem t ;;
  when (LK_LIBC_IMPLEMENTATION_IS_MUSL && has_flag THREAD_FLAG_FREE_LIBC_STATE th)
    (modify (with_memory id id (fun l => l ∖ {[t]}))) ;;
  when (has_flag THREAD_FLAG_FREE_STACK th && negb (stack m =? 0)) (vmm_free_region (stack m)) ;;
  when (KERNEL_SCS_ENABLED && has_flag THREAD_FLAG_FREE_SHADOW_STACK th)
    (assert_ (negb (shadow_stack m =? 0)) ;;
     let v := revert_shadow_stack_base (shadow_stack m) (shadow_stack_size m) in
     upd_mem t (set_shadow_stack v (shadow_stack_size m)) ;;
     vmm_free_region v) ;;
  if has_flag THREAD_FLAG_FREE_STRUCT th then free t else modify (with_retired (delete t)).

(** [list_delete(&t->thread_list_node)]: the node is on one of the two lists. *)
Definition list_delete_thread t : MT unit :=
  l <- on_sched (gets (fun x => thread_list x ++ dead_threads x)) ;;
  assert_ (bool_decide (t ∈ l)) ;;
  on_sched (modify (with_thread_lists (filter (fun x => x <> t)) (filter (fun x => x <> t)))).

(** [thread_join] once the thread is dead, with the lock held. *)
Definition join_dead cpu t : MT (Z * option Z) :=
  th <- on_sched (get_thread t) ;;
  assert_ (magic th =? THREAD_MAGIC) ;;
  assert_ (state_eqb (state th) THREAD_DEATH) ;;
  assert_ (match blocking_wait_queue th with None => true | Some _ => false end) ;;
  linked <- on_sched (queue_node_in_list t) ;;
  assert_ (negb linked) ;;
  list_delete_thread t ;;
  clear_magic t ;;
  on_sched (THREAD_UNLOCK cpu) ;;
  thread_free t ;;
  ret (NO_ERROR, Some (retcode th)).

(** What is done with the result of the wait. *)
Definition thread_join_finish cpu t (err : Z) : MT (Z * option Z) :=
  if err <? 0 then on_sched (THREAD_UNLOCK cpu) ;; ret (err, None) else join_dead cpu t.

(** The error and the return code, if it is stored. *)
Definition thread_join cpu t (timeout : Z) : MT (outcome (Z * option Z)) :=
  th <- on_sched (get_thread t) ;;
  assert_ (magic th =? THREAD_MAGIC) ;;
  on_sched (THREAD_LOCK cpu) ;;
  if has_flag THREAD_FLAG_DETACHED th then
    on_sched (THREAD_UNLOCK cpu) ;; ret (Return (ERR_THREAD_DETACHED, None))
  else if negb (state_eqb (state th) THREAD_DEATH) then
    o <- on_sched (wait_queue_block cpu (RetcodeWaitQueue t) timeout) ;;
    match o with
    | Return err => r <- thread_join_finish cpu t err ;; ret (Return r)
    | Switched => ret Switched
    end
  else r <- join_dead cpu t ;; ret (Return r).

(** The caller of [thread_join] is back on a cpu after its wait. *)
Definition thread_join_resumed cpu t (timeout : Z) : MT (Z * option Z) :=
  err <- on_sched (wait_queue_block_resume cpu timeout) ;;
  thread_join_finish cpu t err.

Definition thread_detach cpu t : MT (outcome Z) :=
  th <- on_sched (get_thread t) ;;
  assert_ (magic th =? THREAD_MAGIC) ;;
  on_sched (THREAD_LOCK cpu) ;;
  _ <- on_sched (wait_queue_wake_all cpu (RetcodeWaitQueue t) false ERR_THREAD_DETACHED) ;;
  th <- on_sched (get_thread t) ;;
  if state_eqb (state th) THREAD_DEATH then
    on_sched (upd_thread t (set_flags (Z.ldiff (flags th) THREAD_FLAG_DETACHED))) ;;
    on_sched (THREAD_UNLOCK cpu) ;;
    o <- thread_join cpu t 0 ;;
    ret (match o with Return r => Return (fst r) | Switched => Switched end)
  else
    on_sched (upd_thread t (set_flags (Z.lor (flags th) THREAD_FLAG_DETACHED))) ;;
    on_sched (THREAD_UNLOCK cpu) ;;
    ret (Return NO_ERROR).

Definition thread_detach_and_resume cpu (ints_disabled : bool) t : MT (outcome Z) :=
  o <- thread_detach cpu t ;;
  match o with
  | Return err => if err <? 0 then ret (Return err) else on_sched (thread_resume cpu ints_disabled t)
  | Switched => ret Switched
  end.

(** [thread_exit]: the thread never runs again. *)
Definition thread_exit cpu (code : Z) : MT (outcome unit) :=
  current_thread <- on_sched (get_current_thread cpu) ;;
  th <- on_sched (get_thread current_thread) ;;
  assert_ (magic th =? THREAD_MAGIC) ;;
  assert_ (negb (thread_is_idle th)) ;;
  assert_ (state_eqb (state th) THREAD_RUNNING) ;;
  on_sched (thread_check_cookie current_thread) ;;
  on_sched (THREAD_LOCK cpu) ;;
  on_sched (upd_thread current_thread (set_state THREAD_DEATH)) ;;
  on_sched (upd_thread current_thread (set_retcode code)) ;;
  (if has_flag THREAD_FLAG_DETACHED th then
     list_delete_thread current_thread ;;
     on_sched (modify (with_thread_lists id (fun l => l ++ [current_thread]))) ;;
     on_sched (wait_queue_wake_all cpu ReaperWaitQueue false 0)
   else on_sched (wait_queue_wake_all cpu (RetcodeWaitQueue current_thread) false 0)) ;;
  o <- on_sched (thread_resched cpu) ;;
  match o with
  | Return _ => panic
  | Switched => ret Switched
  end.

Definition thread_exit_from_panic cpu : MT (outcome unit) :=
  current_thread <- on_sched (get_current_thread cpu) ;;
  th <- on_sched (get_thread current_thread) ;;
  assert_ (has_flag THREAD_FLAG_EXIT_ON_PANIC th) ;;
  on_sched (THREAD_LOCK cpu) ;;
  on_sched (upd_thread current_thread (set_flags (Z.ldiff (flags th) THREAD_FLAG_EXIT_ON_PANIC))) ;;
  assert_ (state_eqb (state th) THREAD_RUNNING || state_eqb (state th) THREAD_READY) ;;
  when TEST_BUILD
    (c <- on_sched (getsome (thread_get_expected_cookie current_thread)) ;;
     on_sched (upd_thread current_thread (set_cookie c))) ;;
  when (state_eqb (state th) THREAD_READY)
    (if TEST_BUILD then
       on_sched (delete_from_run_queue cpu current_thread) ;;
       on_sched (upd_thread current_thread (set_state THREAD_RUNNING))
     else panic) ;;
  on_sched (THREAD_UNLOCK cpu) ;;
  thread_exit cpu ERR_FAULT.

(** ** The reaper *)

(** The inner loop; other cpus may take the lock while a thread is freed. *)
Fixpoint reap_dead (fuel : nat) cpu : MT unit :=
  l <- on_sched (gets dead_threads) ;;
  match l with
  | [] => ret tt
  | t :: l' =>
      match fuel with
      | O => panic
      | S fuel =>
          on_sched (modify (with_thread_lists id (fun _ => l'))) ;;
          clear_magic t ;;
          on_sched (THREAD_UNLOCK cpu) ;;
          thread_free t ;;
          on_sched (THREAD_LOCK cpu) ;;
          reap_dead fuel cpu
      end
  end.

(** The outer loop: up to the wait, and from a wait to the next. *)
Fixpoint reaper_loop (rounds fuel : nat) cpu : MT (outcome unit) :=
  match rounds with
  | O => panic
  | S rounds =>
      o <- on_sched (wait_queue_block cpu ReaperWaitQueue INFINITE_TIME) ;;
      match o with
      | Switched => ret Switched
      | Return _ => reap_dead fuel cpu ;; reaper_loop rounds fuel cpu
      end
  end.
Definition reaper_thread_routine (rounds fuel : nat) cpu : MT (outcome unit) := on_sched (THREAD_LOCK cpu) ;; reaper_loop rounds fuel cpu.
Definition reaper_resumed (rounds fuel : nat) cpu : MT (outcome unit) :=
  _ <- on_sched (wait_queue_block_resume cpu INFINITE_TIME) ;;
  reap_dead fuel cpu ;; reaper_loop rounds fuel cpu.
End thread.
