(* ===== verification/ThreadInv.v ===== *)
(** * Threads come and go: the invariant and the scheduler's part

    [thread_inv] adds to the scheduler invariant which list a thread is on, who
    may wait for it and which memory is allocated for it. Here the scheduler
    invariant is carried through the appearance and disappearance of threads. *)
From stdpp Require Import base gmap list.
From Stdlib Require Import ZArith Lia.
From S2P Require Import Prelude Sched SchedInv SchedOps SchedApi SchedWait Thread.

Local Open Scope Z_scope.
Local Open Scope lk_scope.

Section sched_part.
Context {T : Type} `{!TimerOps T} `{!Config} `{!TimerLaws T} `{!ConfigLaws}.
Implicit Types (s : sched T) (t cpu : Z) (th : thread_t) (w : wait_queue_ptr).

Lemma valid_cpu_0 : valid_cpu 0.
Proof. pose proof smp_range. unfold valid_cpu. lia. Qed.

Lemma preempt_wf_current s s' c :
  timers s' = timers s -> current s' = current s -> (forall t, current s !! c = Some t -> threads s' !! t = threads s !! t) ->
  preempt_wf s c -> preempt_wf s' c.
Proof.
  intros Htm Hc Ht [Hok Hp]. split; [by rewrite Htm|]. rewrite Htm, Hc. intros t th Hcu Hth. rewrite (Ht t Hcu) in Hth. by apply (Hp t).
Qed.

(** What changes when the threads map changes at a thread that is on no cpu. *)
Lemma sched_inv_threads o s s' :
  sched_inv o s -> sched_wf none s' -> thread_lock_owner s' = thread_lock_owner s -> timers s' = timers s -> current s' = current s ->
  (forall c t, current s !! c = Some t -> threads s' !! t = threads s !! t) -> sched_inv o s'.
Proof.
  intros [Hwf Ho Hr Hp] Hwf' Ho' Htm Hc Ht. constructor; [done|by rewrite Ho'| |].
  - intros c t Hct. rewrite Hc in Hct. rewrite (Ht c t Hct). by apply Hr in Hct.
  - intros c. eapply preempt_wf_current; [done|done| |done]. intros t. by apply Ht.
Qed.

(** A thread that is dead disappears. *)
Lemma forget_thread_inv o s t th :
  sched_inv o s -> threads s !! t = Some th -> state th = THREAD_DEATH -> thread_is_idle th = false ->
  sched_inv o (with_threads (delete t) s).
Proof.
  intros Hinv Ht Hst Hi. assert (forall c x, current s !! c = Some x -> x <> t) as Hcur.
  { intros c x Hx ->. destruct (inv_running _ _ Hinv _ _ Hx) as (y & ? & ?). congruence. }
  assert (forall c, valid_cpu c -> idle_thread c <> t) as Hidle.
  { intros c Hc Heq. destruct (wf_idle _ _ (inv_wf _ _ Hinv) c Hc) as (y & Hy & ?). rewrite Heq in Hy. congruence. }
  eapply sched_inv_threads; [exact Hinv| |done|done|done|intros c x Hx; apply lookup_delete_ne; intros ->; by eapply Hcur].
  assert (forall x y, delete t (threads s) !! x = Some y -> threads s !! x = Some y /\ x <> t) as Hd.
  { intros x y [? ?]%lookup_delete_Some. done. }
  pose proof (inv_wf _ _ Hinv) as [Hq Hc]. split.
  - destruct Hq as [H1 H2 H3 H4 H5 H6 H7 H8 H9 H10 H11 H12 H13]. constructor; cbn; try done.
    + intros p q x Hq Hx. destruct (H1 p q x Hq Hx) as (y & Hy & Hys & ?). exists y. rewrite lookup_delete_ne by congruence. done.
    + intros w l x Hq Hx. destruct (H2 w l x Hq Hx) as (y & Hy & Hys & ?). exists y. rewrite lookup_delete_ne by congruence. done.
    + intros x y [? ?]%Hd. by apply H8.
    + intros x y [? ?]%Hd. by apply H9.
    + intros x y [? ?]%Hd. by apply (H10 x).
    + intros x y [Hx ?]%Hd. specialize (H11 _ _ Hx). unfold thread_get_expected_cookie in *. cbn. rewrite lookup_delete_ne; [done|].
      intros Heq. symmetry in Heq. revert Heq. apply Hidle, valid_cpu_0.
    + intros c Hv. destruct (H12 c Hv) as (y & ? & ?). exists y. rewrite lookup_delete_ne by (intros Heq; by apply (Hidle c Hv)). done.
  - destruct Hc as [H1 H2 H3 H4]. constructor; cbn; try done.
    + intros c x Hx. destruct (H2 c x Hx) as (? & y & Hy & ?). split; [done|]. exists y. rewrite lookup_delete_ne; [done|]. intros ->. by eapply Hcur.
    + intros x y [? ?]%Hd. by apply H3.
    + intros x y [? ?]%Hd. by apply H4.
Qed.

(** A wait queue nobody waits on disappears. *)
Lemma forget_wait_queue_inv o s w :
  sched_inv o s -> queues s !! WaitList w = Some [] \/ queues s !! WaitList w = None ->
  sched_inv o (with_wait_queues (delete w) (with_queues (delete (WaitList w)) s)).
Proof.
  intros Hinv Hw. eapply sched_inv_threads; [exact Hinv| |done|done|done|done].
  pose proof (inv_wf _ _ Hinv) as [Hq Hc]. split; [|by destruct Hc; constructor].
  assert (forall h q, delete (WaitList w) (queues s) !! h = Some q -> queues s !! h = Some q /\ h <> WaitList w) as Hd.
  { intros h q [? ?]%lookup_delete_Some. done. }
  destruct Hq as [H1 H2 H3 H4 H5 H6 H7 H8 H9 H10 H11 H12 H13]. constructor; cbn; try done.
  - intros p q t [Hx _]%Hd. by apply H1.
  - intros w' l t [Hx _]%Hd. by apply H2.
  - intros h q [Hx _]%Hd. by eapply H3.
  - intros p Hp. rewrite lookup_delete_ne by done. by apply H4.
  - intros p q [Hx _]%Hd. by apply H6.
  - intros w' l [Hx Hne]%Hd. rewrite lookup_delete_ne by congruence. by apply H7.
  - intros t th Ht Hst He. destruct (H8 t th Ht Hst He) as (w' & l & Hb & Hl & Hin). exists w', l. rewrite lookup_delete_ne; [done|].
    intros [= <-]. destruct Hw as [Hw|Hw]; rewrite Hw in Hl; [injection Hl as <-; by apply elem_of_nil in Hin|done].
  - intros t th Ht Hst Hi He. destruct (H9 t th Ht Hst Hi He) as (q & Hx & Hin). exists q. by rewrite lookup_delete_ne.
Qed.

(** A suspended thread appears, with a wait queue. *)
Lemma new_thread_inv o s t th :
  sched_inv o s -> threads s !! t = None -> state th = THREAD_SUSPENDED -> curr_cpu th = -1 -> magic th = THREAD_MAGIC ->
  0 <= priority th < NUM_PRIORITIES -> -1 <= pinned_cpu th < SMP_MAX_CPUS -> thread_get_expected_cookie t s = Some (cookie th) ->
  sched_inv o (with_threads <[t := th]> s).
Proof.
  intros Hinv Ht Hst Hcc Hm Hp Hpin Hck.
  assert (forall x y, threads s !! x = Some y -> x <> t) as Hne by congruence.
  eapply sched_inv_threads; [exact Hinv| |done|done|done|].
  2: { intros c x Hx. destruct (inv_running _ _ Hinv _ _ Hx) as (y & Hy & _). apply lookup_insert_ne. intros ->. congruence. }
  pose proof (inv_wf _ _ Hinv) as [Hq Hc]. split.
  - destruct Hq as [H1 H2 H3 H4 H5 H6 H7 H8 H9 H10 H11 H12 H13]. constructor; cbn; try done.
    + intros p q x Hq Hx. destruct (H1 p q x Hq Hx) as (y & Hy & ?). exists y. rewrite lookup_insert_ne by (intros ->; congruence). done.
    + intros w l x Hq Hx. destruct (H2 w l x Hq Hx) as (y & Hy & ?). exists y. rewrite lookup_insert_ne by (intros ->; congruence). done.
    + intros x y [[<- <-]|[? ?]]%lookup_insert_Some; [congruence|by apply H8].
    + intros x y [[<- <-]|[? ?]]%lookup_insert_Some; [congruence|by apply H9].
    + intros x y [[<- <-]|[? ?]]%lookup_insert_Some; [done|by apply (H10 x)].
    + assert (forall x, thread_get_expected_cookie x (with_threads <[t := th]> s) = thread_get_expected_cookie x s) as Hex.
      { intros x. unfold thread_get_expected_cookie. cbn. destruct (H12 0 valid_cpu_0) as (y & Hy & _). rewrite lookup_insert_ne; [done|].
        intros Heq. rewrite <- Heq in Hy. congruence. }
      intros x y [[<- <-]|[? ?]]%lookup_insert_Some; rewrite Hex; [done|by apply H11].
    + intros c Hv. destruct (H12 c Hv) as (y & Hy & ?). exists y. rewrite lookup_insert_ne; [done|]. intros Heq. rewrite <- Heq in Hy. congruence.
  - destruct Hc as [H1 H2 H3 H4]. constructor; cbn; try done.
    + intros c x Hx. destruct (H2 c x Hx) as (? & y & Hy & ?). split; [done|]. exists y. rewrite lookup_insert_ne; [done|]. intros ->. congruence.
    + intros x y [[<- <-]|[? ?]]%lookup_insert_Some; [by left|by apply H3].
    + intros x y [[<- <-]|[? ?]]%lookup_insert_Some; [congruence|by apply H4].
Qed.

(** A flag the scheduler does not look at. *)
Lemma update_flags_inv o s t th f :
  sched_inv o s -> threads s !! t = Some th ->
  Z.land f (Z.lor THREAD_FLAG_REAL_TIME THREAD_FLAG_IDLE) = Z.land (flags th) (Z.lor THREAD_FLAG_REAL_TIME THREAD_FLAG_IDLE) ->
  sched_inv o (with_threads <[t := set_flags f th]> s).
Proof.
  intros Hinv Ht Hf. assert (thread_is_idle (set_flags f th) = thread_is_idle th) as Hi.
  { assert (forall z, Z.land z THREAD_FLAG_IDLE = Z.land (Z.land z (Z.lor THREAD_FLAG_REAL_TIME THREAD_FLAG_IDLE)) THREAD_FLAG_IDLE) as Hz
      by (intros z; by rewrite <- Z.land_assoc).
    unfold thread_is_idle, has_flag. cbn [flags set_flags]. by rewrite Hz, Hf, <- Hz. }
  assert (thread_is_real_time_or_idle (set_flags f th) = thread_is_real_time_or_idle th) as Hri.
  { unfold thread_is_real_time_or_idle, has_flag. cbn [flags set_flags]. by rewrite Hf. }
  assert (forall x y, threads s !! x = Some y -> exists y', <[t := set_flags f th]> (threads s) !! x = Some y' /\ (y' = y \/ x = t /\ y = th /\ y' = set_flags f th)) as Hto.
  { intros x y Hx. destruct (decide (x = t)) as [->|]; [|exists y; rewrite lookup_insert_ne by done; tauto].
    rewrite lookup_insert_eq. eexists. split; [done|]. right. split_and!; [done|congruence|done]. }
  assert (forall x y', <[t := set_flags f th]> (threads s) !! x = Some y' -> exists y, threads s !! x = Some y /\ (y' = y \/ x = t /\ y = th /\ y' = set_flags f th)) as Hfrom.
  { intros x y' [[<- <-]|[? ?]]%lookup_insert_Some; [exists th|exists y']; split; try done; [right|by left]. done. }
  destruct Hinv as [[Hq Hc] Ho Hr Hp]. constructor; [split|done| |].
  - destruct Hq as [H1 H2 H3 H4 H5 H6 H7 H8 H9 H10 H11 H12 H13]. constructor; cbn; try done.
    + intros p q x Hq Hx. destruct (H1 p q x Hq Hx) as (y & Hy & Hys). destruct (Hto x y Hy) as (y' & Hy' & [->|(-> & -> & ->)]); eexists; (split; [done|]); [done|by rewrite Hi].
    + intros w l x Hq Hx. destruct (H2 w l x Hq Hx) as (y & Hy & Hys). destruct (Hto x y Hy) as (y' & Hy' & [->|(-> & -> & ->)]); eexists; (split; [done|]); [done|by rewrite Hi].
    + intros x y' Hx. destruct (Hfrom x y' Hx) as (y & Hy & [->|(-> & -> & ->)]); exact (H8 _ _ Hy).
    + intros x y' Hx. destruct (Hfrom x y' Hx) as (y & Hy & [->|(-> & -> & ->)]); [exact (H9 _ _ Hy)|rewrite Hi; exact (H9 _ _ Hy)].
    + intros x y' Hx. destruct (Hfrom x y' Hx) as (y & Hy & [->|(-> & -> & ->)]); exact (H10 _ _ Hy).
    + assert (forall x, thread_get_expected_cookie x (with_threads <[t := set_flags f th]> s) = thread_get_expected_cookie x s) as Hex.
      { intros x. unfold thread_get_expected_cookie. cbn. destruct (H12 0 valid_cpu_0) as (y & Hy & _). destruct (Hto _ y Hy) as (y' & -> & Hyy). rewrite Hy. cbn. by destruct Hyy as [->|(_ & -> & ->)]. }
      intros x y' Hx. rewrite Hex. destruct (Hfrom x y' Hx) as (y & Hy & [->|(-> & -> & ->)]); exact (H11 _ _ Hy).
    + intros c Hv. destruct (H12 c Hv) as (y & Hy & Hys). destruct (Hto _ y Hy) as (y' & Hy' & [->|(_ & -> & ->)]); eexists; (split; [exact Hy'|]); [done|by rewrite Hi].
  - destruct Hc as [H1 H2 H3 H4]. constructor; cbn; try done.
    + intros c x Hx. destruct (H2 c x Hx) as (? & y & Hy & Hys). split; [done|]. destruct (Hto x y Hy) as (y' & Hy' & [->|(-> & -> & ->)]); by eexists.
    + intros x y' Hx. destruct (Hfrom x y' Hx) as (y & Hy & [->|(-> & -> & ->)]); exact (H3 _ _ Hy).
    + intros x y' Hx. destruct (Hfrom x y' Hx) as (y & Hy & [->|(-> & -> & ->)]); exact (H4 _ _ Hy).
  - intros c x Hx. destruct (Hr c x Hx) as (y & Hy & Hst). destruct (Hto x y Hy) as (y' & Hy' & [->|(-> & -> & ->)]); by eexists.
  - intros c. destruct (Hp c) as [Hok Hpp]. split; [done|]. cbn. intros x y' Hx Hy'. destruct (Hfrom x y' Hy') as (y & Hy & [->|(-> & -> & ->)]); [by eapply Hpp|].
    rewrite Hri. exact (Hpp _ _ Hx Hy).
Qed.
End sched_part.

(** ** What is on which list and who owns what *)
Section life.
Context {T : Type} `{!TimerOps T} `{!Config} `{!ThreadBuild} `{!TimerLaws T} `{!ConfigLaws}.
Implicit Types (s : tsys T) (t cpu : Z) (th : thread_t).

(** The regions that go with a thread: its stacks, if they are the kernel's. *)
Definition own_regions th (m : thread_mem) : list Z :=
  (if has_flag THREAD_FLAG_FREE_STACK th && negb (stack m =? 0) then [stack m] else []) ++
  (if KERNEL_SCS_ENABLED && has_flag THREAD_FLAG_FREE_SHADOW_STACK th
   then [revert_shadow_stack_base (shadow_stack m) (shadow_stack_size m)] else []).

(** The state of the C library, if it goes with the thread. *)
Definition own_libc th : bool := LK_LIBC_IMPLEMENTATION_IS_MUSL && has_flag THREAD_FLAG_FREE_LIBC_STATE th.

Definition dead th : bool := state_eqb (state th) THREAD_DEATH.
Definition detached th : bool := has_flag THREAD_FLAG_DETACHED th.
Definition queue_at (x : sched T) (w : wait_queue_ptr) : Prop :=
  is_Some (queues x !! WaitList w) /\ wq_magic <$> wait_queues x !! w = Some WAIT_QUEUE_MAGIC.

(** A live thread is on the thread list, a dead detached one on the list of the
    reaper. What is allocated belongs to exactly one thread. [life_inv] adds that
    the reaper waits only if that list is empty and that who is dead or detached
    has no joiners. *)
Record life_core s : Prop := {
  lf_nodup : NoDup (thread_list (sd s) ++ dead_threads (sd s));
  lf_listed : forall t, t ∈ thread_list (sd s) ++ dead_threads (sd s) -> is_Some (threads (sd s) !! t);
  lf_thread : forall t th, threads (sd s) !! t = Some th -> thread_is_idle th = false ->
    if dead th && detached th then t ∈ dead_threads (sd s) else t ∈ thread_list (sd s);
  lf_dead : forall t th, t ∈ dead_threads (sd s) -> threads (sd s) !! t = Some th -> dead th = true /\ detached th = true;
  lf_dead_idle : forall t th, threads (sd s) !! t = Some th -> dead th = true -> thread_is_idle th = false;
  lf_blocking : forall t th, threads (sd s) !! t = Some th -> state th <> THREAD_BLOCKED -> blocking_wait_queue th = None;
  lf_queue : forall t th, threads (sd s) !! t = Some th -> thread_is_idle th = false -> queue_at (sd s) (RetcodeWaitQueue t);
  lf_reaper : queue_at (sd s) ReaperWaitQueue;
  lf_mem : forall t, is_Some (threads (sd s) !! t) -> is_Some (mems s !! t);
  lf_retired : retired s = ∅;
  lf_heap : forall t, t ∈ heap s <-> exists th, threads (sd s) !! t = Some th /\ has_flag THREAD_FLAG_FREE_STRUCT th = true;
  lf_regions : forall r, r ∈ regions s <-> exists t th m, threads (sd s) !! t = Some th /\ mems s !! t = Some m /\ r ∈ own_regions th m;
  lf_regions_once : forall r t t' th th' m m', threads (sd s) !! t = Some th -> mems s !! t = Some m -> threads (sd s) !! t' = Some th' ->
    mems s !! t' = Some m' -> r ∈ own_regions th m -> r ∈ own_regions th' m' -> t = t';
  lf_shadow : forall t th m, threads (sd s) !! t = Some th -> mems s !! t = Some m ->
    KERNEL_SCS_ENABLED = true -> has_flag THREAD_FLAG_FREE_SHADOW_STACK th = true -> shadow_stack m <> 0
}.

(** Wait queues on which nobody may be. *)
Definition must_be_empty s (w : wait_queue_ptr) : Prop :=
  match w with
  | RetcodeWaitQueue t => exists th, threads (sd s) !! t = Some th /\ thread_is_idle th = false /\ dead th || detached th = true
  | ReaperWaitQueue => dead_threads (sd s) <> []
  | WaitQueueAt _ => False
  end.
Definition life_empty s : Prop := forall w, must_be_empty s w -> queues (sd s) !! WaitList w = Some [].

Record life_inv s : Prop := { lf_core :> life_core s; lf_empty : life_empty s }.

Definition thread_inv (owner : Z) s : Prop := sched_inv owner (sd s) /\ life_inv s.
End life.
