(* ===== verification/ThreadOps.v ===== *)
(** * Detaching, joining, exit and the reaper, one operation at a time *)
From stdpp Require Import base gmap list.
From Stdlib Require Import ZArith Lia.
From S2P Require Import Prelude Sched SchedInv SchedOps SchedApi SchedWait SchedLists Thread ThreadInv.

Local Open Scope Z_scope.
Local Open Scope lk_scope.

Lemma elem_of_taken (b : bool) (v r : Z) (R : gset Z) : r ∈ R ∖ (if b then {[v]} else ∅) <-> r ∈ R /\ r ∉ (if b then [v] else []).
Proof. rewrite elem_of_difference. destruct b; [by rewrite elem_of_singleton, list_elem_of_singleton|]. split; intros [? _]; (split; [done|]); [apply not_elem_of_nil|apply not_elem_of_empty]. Qed.

Section ops.
Context {T : Type} `{!TimerOps T} `{!Config} `{!ThreadBuild} `{!TimerLaws T} `{!ConfigLaws}.
Implicit Types (s : tsys T) (t cpu : Z) (th : thread_t).

Lemma on_sched_bind {A B} (op : M (sched T) A) (k : A -> M (tsys T) B) s a x :
  op (sd s) = Some (a, x) -> bind (on_sched op) k s = k a (with_sd x s).
Proof. intros Hop. unfold bind, on_sched. by rewrite Hop. Qed.

Lemma on_sched_same {A B} (op : M (sched T) A) (k : A -> M (tsys T) B) s a :
  op (sd s) = Some (a, sd s) -> bind (on_sched op) k s = k a s.
Proof. intros Hop. rewrite (on_sched_bind _ _ _ _ _ Hop). by destruct s. Qed.

Lemma modify_sched {A} (f : sched T -> sched T) (k : unit -> M (tsys T) A) s :
  bind (on_sched (modify f)) k s = k tt (with_sd (f (sd s)) s).
Proof. done. Qed.

Lemma get_mem_bind {A} t m (k : thread_mem -> M (tsys T) A) s : mems s !! t = Some m -> bind (get_mem t) k s = k m s.
Proof. intros Hm. apply bind_eq. by apply getsome_eq. Qed.

(** ** Freeing *)
Definition struct_gone t (x : sched T) : sched T :=
  with_wait_queues (delete (RetcodeWaitQueue t)) (with_queues (delete (WaitList (RetcodeWaitQueue t))) (with_threads (delete t) x)).

Lemma free_run t s :
  t ∈ heap s ->
  free t s = Some (tt, mk_tsys (struct_gone t (sd s)) (delete t (mems s)) (delete t (retired s)) (heap s ∖ {[t]}) (regions s) (libc_states s)).
Proof. intros Ht. unfold free. rewrite gets_bind. by rewrite assert_bind by (by apply bool_decide_eq_true). Qed.

Record freed t th m s s' : Prop := {
  fr_sched : sd s' = if has_flag THREAD_FLAG_FREE_STRUCT th then struct_gone t (sd s) else sd s;
  fr_mems : forall x, x <> t -> mems s' !! x = mems s !! x;
  fr_retired : retired s' = delete t (retired s);
  fr_heap : heap s' = if has_flag THREAD_FLAG_FREE_STRUCT th then heap s ∖ {[t]} else heap s;
  fr_regions : forall r, r ∈ regions s' <-> r ∈ regions s /\ r ∉ own_regions th m;
  fr_libc : libc_states s' = if own_libc th then libc_states s ∖ {[t]} else libc_states s
}.

Lemma thread_free_run t th m s :
  retired s !! t = Some th -> mems s !! t = Some m -> (has_flag THREAD_FLAG_FREE_STRUCT th = true -> t ∈ heap s) ->
  (KERNEL_SCS_ENABLED = true -> has_flag THREAD_FLAG_FREE_SHADOW_STACK th = true -> shadow_stack m <> 0) ->
  exists s', thread_free t s = Some (tt, s') /\ freed t th m s s'.
Proof.
  intros Hr Hm Hh Hsh. unfold thread_free. rewrite (bind_eq _ _ _ _ _ (getsome_eq (fun s => retired s !! t) s th Hr)), (get_mem_bind _ _ _ _ Hm).
  set (s1 := if LK_LIBC_IMPLEMENTATION_IS_MUSL && has_flag THREAD_FLAG_FREE_LIBC_STATE th then with_memory id id (fun l => l ∖ {[t]}) s else s).
  rewrite (bind_eq _ _ _ tt s1) by (unfold s1; by destruct (_ && _)).
  assert (sd s1 = sd s /\ mems s1 = mems s /\ retired s1 = retired s /\ heap s1 = heap s /\ regions s1 = regions s /\
    libc_states s1 = if own_libc th then libc_states s ∖ {[t]} else libc_states s) as (E1 & E2 & E3 & E4 & E5 & E6) by (unfold s1, own_libc; by destruct (_ && _)).
  clearbody s1.
  set (s2 := with_memory id (fun r => r ∖ (if has_flag THREAD_FLAG_FREE_STACK th && negb (stack m =? 0) then {[stack m]} else ∅)) id s1).
  assert (forall r, r ∈ regions s2 <-> r ∈ regions s /\ r ∉ (if has_flag THREAD_FLAG_FREE_STACK th && negb (stack m =? 0) then [stack m] else [])) as Hreg2.
  { intros r. unfold s2. cbn. rewrite E5. apply elem_of_taken. }
  rewrite (bind_eq _ _ _ tt s2).
  2: { unfold s2. destruct (_ && _); [done|]. cbn. do 2 f_equal. destruct s1. unfold with_memory. cbn. f_equal. by rewrite difference_empty_L. }
  set (v := revert_shadow_stack_base (shadow_stack m) (shadow_stack_size m)) in *.
  set (sh := KERNEL_SCS_ENABLED && has_flag THREAD_FLAG_FREE_SHADOW_STACK th) in *.
  assert (exists s3, (forall A (k : unit -> M (tsys T) A), bind (when sh (assert_ (negb (shadow_stack m =? 0)) ;; upd_mem t (set_shadow_stack v (shadow_stack_size m)) ;; vmm_free_region v)) k s2 = k tt s3) /\
      sd s3 = sd s /\ (forall x, x <> t -> mems s3 !! x = mems s !! x) /\ retired s3 = retired s /\ heap s3 = heap s /\
      libc_states s3 = libc_states s1 /\ forall r, r ∈ regions s3 <-> r ∈ regions s /\ r ∉ own_regions th m) as (s3 & Hs3 & G1 & G2 & G3 & G4 & G6 & G5).
  { unfold own_regions. fold v. fold sh. destruct sh eqn:Hshb.
    - unfold sh in Hshb. apply andb_true_iff in Hshb as [Hb1 Hb2].
      exists (with_memory id (fun r => r ∖ {[v]}) id (with_mems <[t := set_shadow_stack v (shadow_stack_size m) m]> s2)). split.
      + intros A k. cbn [when]. rewrite bind_assoc, assert_bind by (by apply negb_true_iff, Z.eqb_neq, Hsh). unfold upd_mem.
        rewrite bind_assoc, bind_assoc, get_mem_bind with (m := m) by (cbn; by rewrite E2). done.
      + cbn. split_and!; [done|intros x Hx; by rewrite lookup_insert_ne, E2|done|done|done|]. intros r. change (r ∈ regions s2 ∖ {[v]} <-> r ∈ regions s /\ r ∉ (if has_flag THREAD_FLAG_FREE_STACK th && negb (stack m =? 0) then [stack m] else []) ++ [v]).
        rewrite elem_of_difference, Hreg2, elem_of_app, elem_of_singleton, list_elem_of_singleton. tauto.
    - exists s2. split; [done|]. cbn. split_and!; [done|by rewrite E2|done|done|done|]. intros r. rewrite app_nil_r. apply Hreg2. }
  rewrite Hs3. destruct (has_flag THREAD_FLAG_FREE_STRUCT th) eqn:Hst.
  - rewrite free_run by (rewrite G4; by apply Hh). eexists. split; [done|]. constructor; rewrite ?Hst; cbn.
    + by rewrite G1.
    + intros x Hx. rewrite lookup_delete_ne by done. by apply G2.
    + by rewrite G3.
    + by rewrite G4.
    + exact G5.
    + by rewrite G6.
  - eexists. split; [done|]. constructor; rewrite ?Hst; cbn; [done|done|by rewrite G3|done|exact G5|by rewrite G6].
Qed.

(** ** A dead thread is gone *)
Record gone t th m s s' : Prop := {
  gn_threads : threads (sd s') = delete t (threads (sd s));
  gn_list : thread_list (sd s') = filter (fun x => x <> t) (thread_list (sd s));
  gn_dead : dead_threads (sd s') = filter (fun x => x <> t) (dead_threads (sd s));
  gn_queues : forall h, h <> WaitList (RetcodeWaitQueue t) -> queues (sd s') !! h = queues (sd s) !! h;
  gn_waits : forall w, w <> RetcodeWaitQueue t -> wait_queues (sd s') !! w = wait_queues (sd s) !! w;
  gn_current : current (sd s') = current (sd s);
  gn_timers : timers (sd s') = timers (sd s);
  gn_mems : forall x, x <> t -> mems s' !! x = mems s !! x;
  gn_retired : retired s' = ∅;
  gn_heap : heap s' = heap s ∖ {[t]};
  gn_regions : forall r, r ∈ regions s' <-> r ∈ regions s /\ r ∉ own_regions th m;
  gn_libc : libc_states s' = if own_libc th then libc_states s ∖ {[t]} else libc_states s
}.

Lemma life_gone t th m s s' :
  life_inv s -> threads (sd s) !! t = Some th -> mems s !! t = Some m -> gone t th m s s' -> life_inv s'.
Proof.
  intros Hs Ht Hm [G1 G2 G3 G4 G5 _ _ G8 G9 G10 G11 _].
  assert (forall x y, threads (sd s') !! x = Some y <-> threads (sd s) !! x = Some y /\ x <> t) as Hth.
  { intros x y. rewrite G1, lookup_delete_Some. naive_solver. }
  assert (forall w, w <> RetcodeWaitQueue t -> queue_at (sd s') w <-> queue_at (sd s) w) as Hqa.
  { intros w Hw. unfold queue_at. by rewrite G4, G5 by congruence. }
  split; [constructor|].
  - rewrite G2, G3, <- filter_app. apply NoDup_filter, Hs.
  - rewrite G2, G3, <- filter_app. intros x [Hx Hin]%list_elem_of_filter. rewrite G1, lookup_delete_ne by done. by apply Hs.
  - intros x y [Hx Hne]%Hth Hi. pose proof (lf_thread _ Hs x y Hx Hi) as Hl. rewrite G2, G3. destruct (_ && _); by apply list_elem_of_filter.
  - intros x y Hin [Hx Hne]%Hth. rewrite G3 in Hin. apply list_elem_of_filter in Hin as [_ Hin]. by apply (lf_dead _ Hs x).
  - intros x y [Hx _]%Hth. by apply (lf_dead_idle _ Hs x).
  - intros x y [Hx _]%Hth. by apply (lf_blocking _ Hs x).
  - intros x y [Hx Hne]%Hth Hi. rewrite Hqa by congruence. by apply (lf_queue _ Hs x y).
  - rewrite Hqa by done. exact (lf_reaper _ Hs).
  - intros x [y [Hx Hne]%Hth]. rewrite G8 by done. by apply Hs.
  - done.
  - intros x. rewrite G10, elem_of_difference, elem_of_singleton, (lf_heap _ Hs). setoid_rewrite Hth. naive_solver.
  - intros r. rewrite G11, (lf_regions _ Hs). split.
    + intros [(x & y & n & Hx & Hn & Hr) Hnot]. destruct (decide (x = t)) as [->|Hne]; [congruence|].
      exists x, y, n. rewrite Hth, G8 by done. done.
    + intros (x & y & n & [Hx Hne]%Hth & Hn & Hr). rewrite G8 in Hn by done. split; [by exists x, y, n|].
      intros Hr'. apply Hne. exact (lf_regions_once _ Hs r x t y th n m Hx Hn Ht Hm Hr Hr').
  - intros r x x' y y' n n' [Hx Hne]%Hth Hn [Hx' Hne']%Hth Hn'. rewrite G8 in Hn, Hn' by done. by eapply (lf_regions_once _ Hs).
  - intros x y n [Hx Hne]%Hth Hn. rewrite G8 in Hn by done. by apply (lf_shadow _ Hs x).
  - intros [a|x|] Hw; cbn [must_be_empty] in Hw; [done| |].
    + destruct Hw as (y & [Hx Hne]%Hth & Hw). rewrite G4 by congruence. apply (lf_empty _ Hs). by exists y.
    + rewrite G4 by done. apply (lf_empty _ Hs). intros He. rewrite G3, He in Hw. done.
Qed.

Lemma thread_lists_inv o (x : sched T) f g : sched_inv o x -> sched_inv o (with_thread_lists f g x).
Proof. intros [[Hq Hc] Ho Hr Hp]. constructor; [split; [by destruct Hq; constructor|by destruct Hc; constructor]|done..]. Qed.

Definition unlisted t s : tsys T :=
  with_sd (with_thread_lists (filter (fun x => x <> t)) (filter (fun x => x <> t)) (sd s)) s.

Lemma retire_run cpu s t th m :
  thread_inv cpu s -> threads (sd s) !! t = Some th -> dead th = true -> mems s !! t = Some m ->
  exists s', (forall A (k : unit -> M (tsys T) A),
      bind (clear_magic t) (fun _ => bind (on_sched (THREAD_UNLOCK cpu)) (fun _ => bind (thread_free t) k)) (unlisted t s) = k tt s') /\
    thread_inv unlocked s' /\ gone t th m s s'.
Proof.
  intros [Hinv Hl] Ht Hd Hm. pose proof (lf_dead_idle _ Hl _ _ Ht Hd) as Hidle. apply state_eqb_true in Hd as Hst.
  pose proof (forget_thread_inv _ _ _ _ (thread_lists_inv _ _ (filter (fun x => x <> t)) (filter (fun x => x <> t)) Hinv) Ht Hst Hidle) as Hinv1.
  destruct (THREAD_UNLOCK_run _ _ Hinv1) as [Hu Hinv2]. set (x2 := with_owner unlocked _) in *.
  set (s2 := with_sd x2 (with_retired <[t := set_magic 0 th]> s)).
  assert (has_flag THREAD_FLAG_FREE_STRUCT th = true <-> t ∈ heap s) as Hstruct.
  { rewrite (lf_heap _ Hl). split; [by exists th|]. intros (y & Hy & ?). congruence. }
  destruct (thread_free_run t (set_magic 0 th) m s2) as (s' & Hr & [F1 F2 F3 F4 F5 F6]).
  { unfold s2. cbn. by rewrite lookup_insert_eq. } { exact Hm. } { apply Hstruct. } { exact (lf_shadow _ Hl t th m Ht Hm). }
  change (has_flag THREAD_FLAG_FREE_STRUCT (set_magic 0 th)) with (has_flag THREAD_FLAG_FREE_STRUCT th) in *.
  assert (gone t th m s s') as Hg.
  { constructor.
    - rewrite F1. destruct (has_flag _ _); cbn; [apply delete_delete_eq|done].
    - rewrite F1. by destruct (has_flag _ _).
    - rewrite F1. by destruct (has_flag _ _).
    - intros h Hh. rewrite F1. destruct (has_flag _ _); cbn; [by rewrite lookup_delete_ne|done].
    - intros w Hw. rewrite F1. destruct (has_flag _ _); cbn; [by rewrite lookup_delete_ne|done].
    - rewrite F1. by destruct (has_flag _ _).
    - rewrite F1. by destruct (has_flag _ _).
    - done.
    - rewrite F3. cbn. rewrite (lf_retired _ Hl). apply map_eq. intros x. destruct (decide (x = t)) as [->|];
        [by rewrite lookup_delete_eq|by rewrite lookup_delete_ne, lookup_insert_ne].
    - rewrite F4. cbn. destruct (has_flag _ _) eqn:Hf; [done|]. symmetry. apply difference_disjoint_L. apply disjoint_singleton_r. intros Hin.
      apply Hstruct in Hin. congruence.
    - exact F5.
    - exact F6. }
  exists s'. split; [|split; [split|]; [|by eapply life_gone|done]].
  - intros A k. unfold clear_magic. rewrite bind_assoc. rewrite (on_sched_same _ _ _ th); [|by apply get_thread_eq].
    rewrite bind_assoc, modify_sched, modify_bind. rewrite (on_sched_bind _ _ _ tt x2) by exact Hu. exact (bind_eq _ _ _ _ _ Hr).
  - rewrite F1. destruct (has_flag _ _); [|exact Hinv2]. unfold struct_gone.
    assert (with_threads (delete t) (sd s2) = sd s2) as ->.
    { cbn. unfold x2, with_threads, with_owner. cbn. f_equal. apply delete_delete_eq. }
    apply forget_wait_queue_inv; [exact Hinv2|]. left. cbn. apply (lf_empty _ Hl). exists th. by rewrite Hd.
Qed.

(** ** Joining a dead thread, and the reaper *)
Lemma filter_absent (t : Z) (l : list Z) : t ∉ l -> filter (fun x => x <> t) l = l.
Proof.
  induction l as [|x l IH]; [done|]. intros [Hne Hl]%not_elem_of_cons. rewrite filter_cons_True by congruence. by rewrite IH.
Qed.

Lemma dead_elem s t th : life_inv s -> threads (sd s) !! t = Some th -> dead th = true ->
  if detached th then t ∈ dead_threads (sd s) /\ t ∉ thread_list (sd s) else t ∈ thread_list (sd s) /\ t ∉ dead_threads (sd s).
Proof.
  intros Hl Ht Hd. pose proof (lf_thread _ Hl _ _ Ht (lf_dead_idle _ Hl _ _ Ht Hd)) as Hin. rewrite Hd in Hin. cbn [andb] in Hin.
  pose proof (lf_nodup _ Hl) as (_ & Hdis & _)%NoDup_app. destruct (detached th); (split; [done|]); intros Hx; by eapply Hdis.
Qed.

Lemma join_dead_run cpu s t th m :
  thread_inv cpu s -> threads (sd s) !! t = Some th -> dead th = true -> detached th = false -> mems s !! t = Some m ->
  exists s', join_dead cpu t s = Some ((NO_ERROR, Some (retcode th)), s') /\ thread_inv unlocked s' /\ gone t th m s s'.
Proof.
  intros Hs Ht Hd Hnd Hm. pose proof Hs as [Hinv Hl]. destruct (wf_thread _ _ (inv_wf _ _ Hinv) _ _ Ht) as (Hmag & _).
  apply state_eqb_true in Hd as Hst. pose proof (dead_elem _ _ _ Hl Ht Hd) as Hin. rewrite Hnd in Hin. destruct Hin as [Hin Hnin].
  destruct (retire_run cpu s t th m Hs Ht Hd Hm) as (s' & Hr & Hi' & Hg). exists s'. split; [|done].
  unfold join_dead. rewrite (on_sched_same _ _ _ th) by (by apply get_thread_eq). rewrite assert_bind by (by apply Z.eqb_eq). rewrite assert_bind by done.
  rewrite (lf_blocking _ Hl _ _ Ht) by congruence. rewrite assert_bind by done.
  rewrite (on_sched_same _ _ _ false); [|unfold queue_node_in_list, gets; by rewrite (wf_unqueued none _ _ _ (inv_wf _ _ Hinv) Ht) by congruence].
  rewrite assert_bind by done. unfold list_delete_thread. rewrite bind_assoc. rewrite (on_sched_same _ _ _ (thread_list (sd s) ++ dead_threads (sd s))) by done.
  rewrite bind_assoc, assert_bind by (apply bool_decide_eq_true, elem_of_app; by left). rewrite modify_sched. apply Hr.
Qed.

(** The threads of [l] are gone and their memory with them. *)
Record reaped (l : list Z) s s' : Prop := {
  rp_dead : dead_threads (sd s') = [];
  rp_list : thread_list (sd s') = thread_list (sd s);
  rp_threads : forall t, threads (sd s') !! t = if decide (t ∈ l) then None else threads (sd s) !! t;
  rp_current : current (sd s') = current (sd s);
  rp_timers : timers (sd s') = timers (sd s);
  rp_heap : forall t, t ∈ heap s' <-> t ∈ heap s /\ t ∉ l;
  rp_regions : forall r, r ∈ regions s' <-> r ∈ regions s /\
    forall t th m, t ∈ l -> threads (sd s) !! t = Some th -> mems s !! t = Some m -> r ∉ own_regions th m;
  rp_mems : forall t, t ∉ l -> mems s' !! t = mems s !! t;
  rp_libc : forall t, t ∈ libc_states s' <-> t ∈ libc_states s /\ forall th, t ∈ l -> threads (sd s) !! t = Some th -> own_libc th = false
}.

Lemma reap_dead_run cpu l : forall fuel s,
  thread_inv cpu s -> dead_threads (sd s) = l -> (length l <= fuel)%nat ->
  exists s', reap_dead fuel cpu s = Some (tt, s') /\ thread_inv cpu s' /\ reaped l s s'.
Proof.
  induction l as [|t l IH]; intros fuel s Hs Hdl Hf.
  - exists s. split; [|split; [done|]].
    + destruct fuel; cbn [reap_dead]; rewrite (on_sched_same _ _ _ []) by (unfold gets; by rewrite Hdl); done.
    + constructor; try done; intros r; (split; [|tauto]); intros Hr; (split; [done|]); [apply not_elem_of_nil| |]; [by intros x ? ? Hx%elem_of_nil|by intros ? Hx%elem_of_nil].
  - destruct fuel as [|fuel]; [cbn in Hf; lia|]. pose proof Hs as [Hinv Hl].
    assert (t ∈ dead_threads (sd s)) as Hin by (rewrite Hdl; left). destruct (lf_listed _ Hl t) as [th Ht]; [apply elem_of_app; by right|].
    destruct (lf_dead _ Hl _ _ Hin Ht) as [Hd Hdet]. destruct (lf_mem _ Hl t ltac:(by eexists)) as [m Hm].
    destruct (retire_run cpu s t th m Hs Ht Hd Hm) as (s1 & Hr & [Hi1 Hl1] & Hg).
    pose proof (dead_elem _ _ _ Hl Ht Hd) as Hnin. rewrite Hdet in Hnin. destruct Hnin as [_ Hnin].
    pose proof (lf_nodup _ Hl) as (_ & _ & Hnd)%NoDup_app. rewrite Hdl in Hnd. apply NoDup_cons in Hnd as [Htl Hnd].
    destruct (THREAD_LOCK_run cpu _ Hi1) as (x2 & Hlk & Hx2 & Hi2). set (s2 := with_sd x2 s1).
    assert (thread_inv cpu s2) as Hs2. { split; [exact Hi2|]. subst x2. destruct Hl1 as [Hc1 He1]. split; [by destruct Hc1; constructor|exact He1]. }
    assert (dead_threads (sd s2) = l) as Hdl2.
    { cbn. rewrite Hx2. cbn. rewrite (gn_dead _ _ _ _ _ Hg), Hdl. rewrite filter_cons_False by congruence. by apply filter_absent. }
    destruct (IH fuel s2 Hs2 Hdl2) as (s' & Hr' & Hs' & [P1 P2 P3 P4 P7 P5 P6 P8 P9]); [cbn in Hf; lia|]. exists s'. split; [|split; [done|]].
    + cbn [reap_dead]. rewrite (on_sched_same _ _ _ (t :: l)) by (unfold gets; by rewrite Hdl). rewrite modify_sched.
      assert (with_sd (with_thread_lists id (fun _ => l) (sd s)) s = unlisted t s) as ->.
      { unfold unlisted, with_thread_lists. rewrite (filter_absent t (thread_list (sd s))) by done. rewrite Hdl, filter_cons_False by congruence. by rewrite filter_absent. }
      rewrite Hr. by rewrite (on_sched_bind _ _ _ tt x2).
    + assert (sd s2 = x2) as Hsd by done. rewrite Hsd, Hx2 in P2, P3, P4, P7, P6, P9. cbn in P2, P3, P4, P7, P5, P6, P8, P9. destruct Hg as [G1 G2 G3 G4 G5 G6 G7 G8 G9 G10 G11 G12].
      constructor; [done|rewrite P2, G2; by apply filter_absent| |by rewrite P4, G6|by rewrite P7, G7| | | |].
      * intros x. rewrite P3, G1. destruct (decide (x = t)) as [->|Hne].
        -- rewrite lookup_delete_eq. destruct (decide (t ∈ t :: l)) as [|Hn]; [by case_decide|]. exfalso. apply Hn. left.
        -- rewrite lookup_delete_ne by done. destruct (decide (x ∈ l)) as [Hx|Hx], (decide (x ∈ t :: l)) as [Hx'|Hx']; try done;
             exfalso; [apply Hx'; by right|]. apply elem_of_cons in Hx' as [?|?]; done.
      * intros x. rewrite P5, G10, elem_of_difference, elem_of_singleton, not_elem_of_cons. tauto.
      * intros r. rewrite P6, G11. split.
        -- intros [[Hr1 Hr2] Hr3]. split; [done|]. intros x y n [->|Hx]%elem_of_cons Hy Hn; [congruence|].
           apply (Hr3 x y n Hx); [rewrite G1, lookup_delete_ne; [done|intros ->; done]|rewrite G8; [done|intros ->; done]].
        -- intros [Hr1 Hr2]. split; [split; [done|by apply (Hr2 t); [left|..]]|]. intros x y n Hx Hy Hn.
           assert (x <> t) as Hne by (intros ->; done). rewrite G1, lookup_delete_ne in Hy by done. rewrite G8 in Hn by done. by apply (Hr2 x); [right|..].
      * intros x [Hxt Hx]%not_elem_of_cons. by rewrite P8, G8.
      * intros x. rewrite P9, G12. destruct (decide (x = t)) as [->|Hne].
        -- destruct (own_libc th) eqn:Ho.
           ++ split; [intros [[_ Hx]%elem_of_difference _]; exfalso; by apply Hx, elem_of_singleton|]. intros [_ Hx]. specialize (Hx th ltac:(left) Ht). congruence.
           ++ split; [intros [Hx _]; split; [done|]; intros y _ Hy; congruence|intros [Hx _]; split; [done|by intros y Hy]].
        -- assert (x ∈ (if own_libc th then libc_states s ∖ {[t]} else libc_states s) <-> x ∈ libc_states s) as -> by (destruct (own_libc th); [set_solver|done]).
           rewrite G1, lookup_delete_ne by done. split; intros [Hx Hy]; (split; [done|]); intros y Hx2'; apply Hy; [by apply elem_of_cons in Hx2' as [?|?]|by right].
Qed.

(** ** Steps of the scheduler do not change whose life is over *)
Definition same_life th th' : Prop :=
  flags th' = flags th /\ dead th' = dead th /\ (state th' <> THREAD_BLOCKED -> blocking_wait_queue th' = None).
(** The same, but a thread that is not dead may get detached. *)
Definition same_role th th' : Prop :=
  (forall f, Z.land f THREAD_FLAG_DETACHED = 0 -> has_flag f th' = has_flag f th) /\ dead th' = dead th /\
  (dead th = true -> detached th' = detached th) /\ (state th' <> THREAD_BLOCKED -> blocking_wait_queue th' = None).

(** Every thread of [x'] is one of [x], wait queues stay, empty ones stay empty. *)
Record scheduled (x x' : sched T) : Prop := {
  sc_threads : forall t th', threads x' !! t = Some th' -> exists th, threads x !! t = Some th /\ same_life th th';
  sc_queue_at : forall w, queue_at x w -> queue_at x' w;
  sc_empty : forall w, queues x !! WaitList w = Some [] -> queues x' !! WaitList w = Some []
}.

Lemma scheduled_trans x y z : scheduled x y -> scheduled y z -> scheduled x z.
Proof.
  intros [S1 S2 S3] [S4 S5 S6]. constructor; [|auto|auto]. intros t th'' Ht. destruct (S4 _ _ Ht) as (th' & Ht' & Hf & Hd & Hb).
  destruct (S1 _ _ Ht') as (th & Hth & Hf' & Hd' & _). exists th. split; [done|]. unfold same_life. by rewrite Hf, Hd, Hf', Hd'.
Qed.

Lemma same_life_flag f th th' : same_life th th' -> has_flag f th' = has_flag f th.
Proof. intros (Hf & _). unfold has_flag. by rewrite Hf. Qed.

Lemma same_lists_back (x x' : sched T) t th : same_lists x x' -> threads x !! t = Some th -> is_Some (threads x' !! t).
Proof. intros (_ & _ & Hd) Ht. apply elem_of_dom. rewrite Hd. apply elem_of_dom. by eexists. Qed.

Lemma core_step s x' : life_core s -> same_lists (sd s) x' ->
  (forall t th', threads x' !! t = Some th' -> exists th, threads (sd s) !! t = Some th /\ same_role th th') ->
  (forall w, queue_at (sd s) w -> queue_at x' w) -> life_core (with_sd x' s).
Proof.
  intros Hc Hsl Hth Hqa. pose proof Hsl as (HL1 & HL2 & _).
  assert (forall t th', threads x' !! t = Some th' -> exists th, threads (sd s) !! t = Some th /\ dead th' = dead th /\
    dead th' && detached th' = dead th && detached th /\ thread_is_idle th' = thread_is_idle th) as Hx.
  { intros t th' Ht. destruct (Hth _ _ Ht) as (th & Hy & Hfl & Hd & Hdt & _). exists th. unfold thread_is_idle. rewrite Hfl, Hd by done.
    split_and!; [done|done| |done]. destruct (dead th); [cbn; by apply Hdt|done]. }
  assert (forall f t th th', Z.land f THREAD_FLAG_DETACHED = 0 -> threads (sd s) !! t = Some th -> threads x' !! t = Some th' -> has_flag f th' = has_flag f th) as Hflag.
  { intros f t th th' Hf Ht Ht'. destruct (Hth _ _ Ht') as (y & Hy & Hfl & _). assert (y = th) as -> by congruence. by apply Hfl. }
  assert (forall t th th' m, threads (sd s) !! t = Some th -> threads x' !! t = Some th' -> own_regions th' m = own_regions th m) as Hown.
  { intros t th th' m Ht Ht'. unfold own_regions. by rewrite !(Hflag _ t th th') by done. }
  constructor; cbn [sd with_sd mems retired heap regions]; rewrite ?HL1, ?HL2; try apply Hc.
  - intros t Hin. destruct (lf_listed _ Hc t Hin) as [th Ht]. by eapply same_lists_back.
  - intros t th' Ht. destruct (Hx _ _ Ht) as (th & Hy & _ & -> & ->). by apply Hc.
  - intros t th' Hin Ht. destruct (Hx _ _ Ht) as (th & Hy & -> & Hb & _). destruct (lf_dead _ Hc t th Hin Hy) as [Hd Hdt].
    rewrite Hd, Hdt in Hb. by apply andb_true_iff in Hb as [_ Hb].
  - intros t th' Ht. destruct (Hx _ _ Ht) as (th & Hy & -> & _ & ->). by apply (lf_dead_idle _ Hc t).
  - intros t th' Ht Hst. destruct (Hth _ _ Ht) as (_ & _ & _ & _ & _ & Hb). by apply Hb.
  - intros t th' Ht Hi. destruct (Hx _ _ Ht) as (th & Hy & _ & _ & He). apply Hqa, (lf_queue _ Hc t th Hy). congruence.
  - exact (Hqa _ (lf_reaper _ Hc)).
  - intros t [th' Ht]. destruct (Hx _ _ Ht) as (th & Hy & _). apply (lf_mem _ Hc). by eexists.
  - intros t. rewrite (lf_heap _ Hc). split.
    + intros (th & Ht & Hf). destruct (same_lists_back _ _ _ _ Hsl Ht) as [th' Ht']. exists th'. split; [done|]. by rewrite (Hflag _ t th th').
    + intros (th' & Ht' & Hf). destruct (Hx _ _ Ht') as (th & Hy & _). exists th. split; [done|]. by rewrite <- (Hflag _ t th th').
  - intros r. rewrite (lf_regions _ Hc). split.
    + intros (t & th & m & Ht & Hm & Hr). destruct (same_lists_back _ _ _ _ Hsl Ht) as [th' Ht']. exists t, th', m. by rewrite (Hown _ _ _ _ Ht Ht').
    + intros (t & th' & m & Ht' & Hm & Hr). destruct (Hth _ _ Ht') as (th & Ht & _). exists t, th, m. by rewrite <- (Hown _ _ _ _ Ht Ht').
  - intros r t u th' uh' m n Ht' Hm Hu' Hn Hr Hr'. destruct (Hth _ _ Ht') as (th & Ht & _). destruct (Hth _ _ Hu') as (uh & Hu & _).
    rewrite (Hown _ _ _ _ Ht Ht') in Hr. rewrite (Hown _ _ _ _ Hu Hu') in Hr'. by eapply (lf_regions_once _ Hc).
  - intros t th' m Ht' Hm Hk Hf. destruct (Hx _ _ Ht') as (th & Hy & _). apply (lf_shadow _ Hc t th); [done..|]. by rewrite <- (Hflag _ t th th').
Qed.

Lemma same_life_role th th' : same_life th th' -> same_role th th'.
Proof. intros Hs. pose proof Hs as (Hf & Hd & Hb). split_and!; [intros f _; by apply same_life_flag|done| |done]. intros _. by apply same_life_flag. Qed.

Lemma scheduled_role (x x' : sched T) : scheduled x x' ->
  forall t th', threads x' !! t = Some th' -> exists th, threads x !! t = Some th /\ same_role th th'.
Proof. intros Hs t th' Ht. destruct (sc_threads _ _ Hs _ _ Ht) as (th & ? & ?). exists th. split; [done|by apply same_life_role]. Qed.

Lemma must_be_empty_step s x' w : same_lists (sd s) x' ->
  (forall t th', threads x' !! t = Some th' -> exists th, threads (sd s) !! t = Some th /\ same_life th th') ->
  must_be_empty (with_sd x' s) w -> must_be_empty s w.
Proof.
  intros (_ & HL2 & _) Hth. destruct w as [a|t|]; cbn; [done| |by rewrite HL2]. intros (th' & Ht & Hi & Hd). destruct (Hth _ _ Ht) as (th & Hy & Hs).
  exists th. unfold detached, thread_is_idle in *. rewrite !(same_life_flag _ _ _ Hs) in *. destruct Hs as (_ & <- & _). done.
Qed.

Lemma life_step s x' : life_inv s -> same_lists (sd s) x' -> scheduled (sd s) x' -> life_inv (with_sd x' s).
Proof.
  intros [Hc He] Hsl Hs. split; [apply core_step; [done|done|by apply scheduled_role|apply Hs]|]. intros w Hw. apply (sc_empty _ _ Hs), He. eapply must_be_empty_step; [done|apply Hs|done].
Qed.

Lemma scheduled_owner o x : (forall t th, threads x !! t = Some th -> state th <> THREAD_BLOCKED -> blocking_wait_queue th = None) -> scheduled x (with_owner o x).
Proof. intros Hb. constructor; [|done..]. intros t th Ht. exists th. split; [done|]. split_and!; [done|done|]. by apply (Hb t). Qed.

Lemma woken_scheduled cpu w err l x x' : sched_busy none cpu x ->
  (forall t th, threads x !! t = Some th -> state th <> THREAD_BLOCKED -> blocking_wait_queue th = None) ->
  queues x !! WaitList w = Some l -> all_woken w err l x x' -> scheduled x x'.
Proof.
  intros Hbz Hb Hl [A1 A2 A3 A4 A5 A6 A7 A8]. constructor.
  - intros t th' Ht. destruct (decide (t ∈ l)) as [Hin|Hin].
    + destruct (wf_wait _ _ (busy_wf _ _ _ Hbz) _ _ _ Hl Hin) as (th & Hth & Hst & _). rewrite (A1 t Hin), Hth in Ht. injection Ht as <-.
      exists th. split; [done|]. split_and!; [done|unfold dead; by rewrite Hst|done].
    + rewrite (A2 t Hin) in Ht. exists th'. split; [done|]. split_and!; [done|done|]. by apply (Hb t).
  - intros w' [[l' Hl'] Hm]. split; [destruct (decide (w' = w)) as [->|]; [by rewrite A3|rewrite A4 by done; by eexists]|].
    rewrite A6. case_decide; [|done]. subst. destruct (wait_queues x !! w) as [q|]; [|done]. cbn in *. done.
  - intros w' Hw'. destruct (decide (w' = w)) as [->|]; [done|by rewrite A4].
Qed.

Lemma idle_not_blocked E (x : sched T) t th : sched_wf E x -> ~ E t -> threads x !! t = Some th -> thread_is_idle th = true -> state th <> THREAD_BLOCKED.
Proof.
  intros Hwf He Ht Hi Hst. destruct (wf_blocked _ _ Hwf _ _ Ht Hst He) as (w & l & _ & Hl & Hin).
  destruct (wf_wait _ _ Hwf _ _ _ Hl Hin) as (? & ? & _ & _ & ? & _). congruence.
Qed.

Lemma rescheduled_scheduled cpu old new o (x x' : sched T) : sched_wf none x -> valid_cpu cpu ->
  (forall t th, threads x !! t = Some th -> dead th = true -> thread_is_idle th = false) ->
  (forall t th, threads x !! t = Some th -> state th <> THREAD_BLOCKED -> blocking_wait_queue th = None) ->
  rescheduled x cpu old new o x' -> scheduled x x'.
Proof.
  intros Hwf Hv Hdi Hb Hrs. destruct (rs_new _ _ _ _ _ _ Hrs) as (n & n' & Hn & Hn' & Hst' & _ & _ & _ & Hfl & _ & Hbw & _).
  assert (state n = THREAD_READY \/ thread_is_idle n = true) as Hnst.
  { destruct (rs_best _ _ _ _ _ _ Hrs) as [s1 Htop]. inversion Htop as [| |p q1 t q2 th Hq Hth]; subst.
    - right. destruct (wf_idle _ _ Hwf cpu Hv) as (? & ? & ?). congruence.
    - left. destruct (wf_run _ _ Hwf _ _ new Hq) as (? & ? & ? & _); [set_solver|congruence]. }
  assert (dead n = false) as Hnd.
  { destruct Hnst as [Hnst|Hi]; [unfold dead; by rewrite Hnst|]. destruct (dead n) eqn:Hd; [|done]. rewrite (Hdi _ _ Hn Hd) in Hi. done. }
  assert (state n <> THREAD_BLOCKED) as Hnb by (destruct Hnst as [Hnst|Hi]; [congruence|exact (idle_not_blocked none x new n Hwf (fun z => z) Hn Hi)]).
  constructor.
  - intros t th' Ht. destruct (decide (t = new)) as [->|Hne].
    + assert (th' = n') as -> by congruence. exists n. split; [done|]. split_and!; [done|unfold dead at 1; by rewrite Hst', Hnd|]. intros _. rewrite Hbw. by apply (Hb _ _ Hn).
    + destruct (decide (t = old)) as [->|Hne'].
      * rewrite (rs_old _ _ _ _ _ _ Hrs) in Ht by congruence. destruct (threads x !! old) as [th|] eqn:Hth; [|done]. injection Ht as <-.
        exists th. split; [done|]. split_and!; [done|done|]. exact (Hb old th Hth).
      * rewrite (rs_other _ _ _ _ _ _ Hrs) in Ht by done. exists th'. split; [done|]. split_and!; [done|done|]. by apply (Hb t).
  - intros w [[l Hl] Hm]. split; [|by rewrite (rs_wait_queues _ _ _ _ _ _ Hrs)]. rewrite (rs_queues _ _ _ _ _ _ Hrs), node_delete_lookup, Hl. by eexists.
  - intros w Hl. rewrite (rs_queues _ _ _ _ _ _ Hrs), node_delete_lookup, Hl. done.
Qed.
End ops.
