(* ===== verification/ThreadCalls.v ===== *)
(** * Exit, detaching and joining keep the invariant *)
From stdpp Require Import base gmap list.
From Stdlib Require Import ZArith Lia.
From S2P Require Import Prelude Sched SchedInv SchedOps SchedApi SchedWait SchedLists Thread ThreadInv ThreadOps.

Local Open Scope Z_scope.
Local Open Scope lk_scope.

Section calls.
Context {T : Type} `{!TimerOps T} `{!Config} `{!ThreadBuild} `{!TimerLaws T} `{!ConfigLaws}.
Implicit Types (s : tsys T) (t cpu : Z) (th : thread_t).

(** ** Exit *)
Definition ended (code : Z) th : thread_t := set_retcode code (set_state THREAD_DEATH th).

(** A thread that ends moves to the list of the reaper if it is detached. *)
Definition moved_lists t th (x : sched T) : sched T :=
  if detached th then with_thread_lists (filter (fun y => y <> t)) (fun l => l ++ [t]) x else x.
Definition end_state t th (code : Z) (x : sched T) : sched T := moved_lists t th (with_threads <[t := ended code th]> x).

Lemma end_state_fields t th code x :
  threads (end_state t th code x) = <[t := ended code th]> (threads x) /\ queues (end_state t th code x) = queues x /\
  wait_queues (end_state t th code x) = wait_queues x /\ current (end_state t th code x) = current x /\
  thread_list (end_state t th code x) = (if detached th then filter (fun y => y <> t) (thread_list x) else thread_list x) /\
  dead_threads (end_state t th code x) = (if detached th then dead_threads x ++ [t] else dead_threads x).
Proof. unfold end_state, moved_lists. by destruct (detached th). Qed.

Lemma core_end s t th code :
  life_core s -> threads (sd s) !! t = Some th -> dead th = false -> thread_is_idle th = false -> state th <> THREAD_BLOCKED ->
  life_core (with_sd (end_state t th code (sd s)) s).
Proof.
  intros Hc Ht Hd Hi Hnb. destruct (end_state_fields t th code (sd s)) as (E1 & E2 & E3 & _ & E5 & E6).
  pose proof (lf_thread _ Hc _ _ Ht Hi) as Hin. rewrite Hd in Hin. cbn [andb] in Hin.
  pose proof (lf_nodup _ Hc) as (Hnd1 & Hdis & Hnd2)%NoDup_app.
  set (th2 := ended code th) in *. assert (forall y z, <[t := th2]> (threads (sd s)) !! y = Some z -> (y = t /\ z = th2) \/ (y <> t /\ threads (sd s) !! y = Some z)) as Hfrom.
  { intros y z [[<- <-]|[? ?]]%lookup_insert_Some; [by left|by right]. }
  assert (forall y z, threads (sd s) !! y = Some z -> exists z', <[t := th2]> (threads (sd s)) !! y = Some z' /\ flags z' = flags z) as Hto.
  { intros y z Hy. destruct (decide (y = t)) as [->|]; [exists th2; rewrite lookup_insert_eq; split; [done|]; by simplify_eq|exists z; by rewrite lookup_insert_ne]. }
  assert (forall y z, <[t := th2]> (threads (sd s)) !! y = Some z -> exists z', threads (sd s) !! y = Some z' /\ flags z = flags z') as Hback.
  { intros y z [[-> ->]|[? ?]]%Hfrom; [by exists th|by exists z]. }
  assert (forall f y z, flags y = flags z -> has_flag f y = has_flag f z) as Hfl by (intros f y z He; unfold has_flag; by rewrite He).
  assert (forall y z m, flags y = flags z -> own_regions y m = own_regions z m) as Hown by (intros y z m He; unfold own_regions; by rewrite !(Hfl _ _ _ He)).
  assert (forall w, queue_at (end_state t th code (sd s)) w <-> queue_at (sd s) w) as Hqa by (intros w; unfold queue_at; by rewrite E2, E3).
  constructor; cbn [sd with_sd mems retired heap regions]; rewrite ?E1, ?E5, ?E6.
  - destruct (detached th); [|apply Hc]. rewrite app_assoc. rewrite Permutation_app_comm. apply NoDup_cons. split.
    + rewrite elem_of_app, list_elem_of_filter. intros [[? _]|Hx]; [done|by eapply Hdis].
    + apply NoDup_app. split_and!; [by apply NoDup_filter| |done]. intros x [_ Hx]%list_elem_of_filter. by apply Hdis.
  - intros x Hx. apply lookup_insert_is_Some'. destruct (decide (x = t)) as [->|Hne]; [by left|right]. apply (lf_listed _ Hc). revert Hx.
    destruct (detached th); [|done]. rewrite !elem_of_app, list_elem_of_filter, list_elem_of_singleton. naive_solver.
  - intros x y [[-> ->]|[Hne Hx]]%Hfrom Hxi.
    + change (detached th2) with (detached th). change (dead th2) with true. cbn [andb]. destruct (detached th); [apply elem_of_app; right; by left|done].
    + pose proof (lf_thread _ Hc _ _ Hx Hxi) as Hy. destruct (detached th); [|done]. destruct (_ && _); [apply elem_of_app; by left|by apply list_elem_of_filter].
  - intros x y Hx [[-> ->]|[Hne Hy]]%Hfrom.
    + split; [done|]. change (detached th2) with (detached th). destruct (detached th); [done|]. exfalso. by eapply Hdis.
    + apply (lf_dead _ Hc x); [|done]. destruct (detached th); [|done]. apply elem_of_app in Hx as [Hx|Hx%list_elem_of_singleton]; done.
  - intros x y [[-> ->]|[Hne Hx]]%Hfrom; [done|by apply (lf_dead_idle _ Hc x)].
  - intros x y [[-> ->]|[Hne Hx]]%Hfrom; [intros _; by apply (lf_blocking _ Hc t th)|by apply (lf_blocking _ Hc x)].
  - intros x y [[-> ->]|[Hne Hx]]%Hfrom Hxi; apply Hqa; [by apply (lf_queue _ Hc t th)|by apply (lf_queue _ Hc x y)].
  - exact (proj2 (Hqa _) (lf_reaper _ Hc)).
  - intros x [y Hx]. destruct (Hback _ _ Hx) as (z & Hz & _). apply (lf_mem _ Hc). by eexists.
  - apply Hc.
  - intros x. rewrite (lf_heap _ Hc). split.
    + intros (y & Hy & Hf). destruct (Hto _ _ Hy) as (z & Hz & He). exists z. by rewrite (Hfl _ _ _ He).
    + intros (y & Hy & Hf). destruct (Hback _ _ Hy) as (z & Hz & He). exists z. by rewrite <- (Hfl _ _ _ He).
  - intros r. rewrite (lf_regions _ Hc). split.
    + intros (x & y & m & Hy & Hm & Hr). destruct (Hto _ _ Hy) as (z & Hz & He). exists x, z, m. by rewrite (Hown _ _ _ He).
    + intros (x & y & m & Hy & Hm & Hr). destruct (Hback _ _ Hy) as (z & Hz & He). exists x, z, m. by rewrite <- (Hown _ _ _ He).
  - intros r x x' y y' m m' Hx Hm Hx' Hm'. destruct (Hback _ _ Hx) as (z & Hz & He), (Hback _ _ Hx') as (z' & Hz' & He').
    rewrite (Hown _ _ _ He), (Hown _ _ _ He'). by apply (lf_regions_once _ Hc).
  - intros x y m Hx Hm Hk. destruct (Hback _ _ Hx) as (z & Hz & He). rewrite (Hfl _ _ _ He). by apply (lf_shadow _ Hc x z).
Qed.

Lemma busy_lists E cpu (x : sched T) f g : sched_busy E cpu x -> sched_busy E cpu (with_thread_lists f g x).
Proof. intros [[Hq Hc] Ho Hp]. constructor; [split; [by destruct Hq; constructor|by destruct Hc; constructor]|done..]. Qed.

(** The cpu's own thread ends: the scheduler between the calls that do so. *)
Lemma end_busy cpu (x : sched T) t th code :
  sched_inv cpu x -> current x !! cpu = Some t -> threads x !! t = Some th -> sched_busy none cpu (end_state t th code x).
Proof.
  intros Hinv Hc Ht. destruct (wf_thread _ _ (inv_wf _ _ Hinv) _ _ Ht) as (_ & Hp & _).
  destruct (upd_self cpu x t th (ended code th)) as [Hb Ht']; [by eapply detach_self|done..|].
  assert (sched_busy none cpu (with_threads <[t := ended code th]> x)) as Hb2 by (eapply busy_attach; [exact Hb|by intros []|exact Ht'|done..]).
  unfold end_state, moved_lists. destruct (detached th); [by apply busy_lists|done].
Qed.

Definition death_queue t th : wait_queue_ptr := if detached th then ReaperWaitQueue else RetcodeWaitQueue t.

Lemma not_rescheduled cpu (x x' : sched T) t th new o :
  sched_wf none x -> valid_cpu cpu -> threads x !! t = Some th -> thread_is_idle th = false -> state th <> THREAD_READY ->
  rescheduled x cpu t new o x' -> new <> t /\ o = Switched.
Proof.
  intros Hwf Hv Ht Hi Hst Hrs. assert (new <> t) as Hne.
  { intros ->. destruct (rs_best _ _ _ _ _ _ Hrs) as [s1 Htop]. inversion Htop as [| |p q1 u q2 uh Hq Huh]; subst.
    - destruct (wf_idle _ _ Hwf cpu Hv) as (? & ? & ?). congruence.
    - destruct (wf_run _ _ Hwf _ _ t Hq) as (? & ? & ? & _); [set_solver|congruence]. }
  split; [done|]. rewrite (rs_outcome _ _ _ _ _ _ Hrs). by case_decide.
Qed.

(** What is left when [t] has exited with [code]. *)
Record exited cpu t th (code : Z) s s' : Prop := {
  ex_thread : exists th', threads (sd s') !! t = Some th' /\ dead th' = true /\ retcode th' = code /\ flags th' = flags th;
  ex_current : exists new, new <> t /\ current (sd s') = <[cpu := new]> (current (sd s));
  ex_list : thread_list (sd s') = if detached th then filter (fun y => y <> t) (thread_list (sd s)) else thread_list (sd s);
  ex_dead : dead_threads (sd s') = if detached th then dead_threads (sd s) ++ [t] else dead_threads (sd s);
  ex_woken : forall l u, queues (sd s) !! WaitList (death_queue t th) = Some l -> u ∈ l ->
    exists uh, threads (sd s') !! u = Some uh /\ wait_queue_block_ret uh = 0 /\ blocking_wait_queue uh = None /\ (state uh = THREAD_READY \/ state uh = THREAD_RUNNING);
  ex_queue : queues (sd s') !! WaitList (death_queue t th) = Some [];
  ex_memory : heap s' = heap s /\ regions s' = regions s /\ mems s' = mems s
}.

(** The woken threads when their waker has gone. *)
Lemma woken_after cpu w l t new o (x y z : sched T) :
  sched_busy none cpu x -> queues x !! WaitList w = Some l -> t ∉ l -> all_woken w 0 l x y -> rescheduled y cpu t new o z ->
  forall u, u ∈ l -> exists uh, threads z !! u = Some uh /\ wait_queue_block_ret uh = 0 /\ blocking_wait_queue uh = None /\
    (state uh = THREAD_READY \/ state uh = THREAD_RUNNING).
Proof.
  intros Hb Hl Htl Hw Hrs u Hu. destruct (wf_wait _ _ (busy_wf _ _ _ Hb) _ _ _ Hl Hu) as (uh & Huh & _).
  pose proof (aw_woken _ _ _ _ _ Hw u Hu) as Hy. rewrite Huh in Hy. cbn in Hy. destruct (decide (u = new)) as [->|Hne].
  - destruct (rs_new _ _ _ _ _ _ Hrs) as (n & n' & Hn & Hn' & Hst' & _ & _ & _ & _ & Hr & Hbw & _). assert (n = woken 0 uh) as -> by congruence.
    exists n'. split_and!; [done|by rewrite Hr|by rewrite Hbw|by right].
  - rewrite (rs_other _ _ _ _ _ _ Hrs) by (done || by intros ->). eexists. split; [exact Hy|]. split_and!; [done|done|by left].
Qed.

Lemma thread_exit_run cpu s t th code :
  thread_inv unlocked s -> current (sd s) !! cpu = Some t -> threads (sd s) !! t = Some th -> thread_is_idle th = false ->
  exists s', thread_exit cpu code s = Some (Switched, s') /\ thread_inv cpu s' /\ exited cpu t th code s s'.
Proof.
  intros [Hinv [Hc He]] Hcur Ht Hi. destruct (inv_running _ _ Hinv _ _ Hcur) as (? & ? & Hst). simplify_eq.
  destruct (wf_thread _ _ (inv_wf _ _ Hinv) _ _ Ht) as (Hmag & _). destruct (wf_current _ _ (inv_wf _ _ Hinv) _ _ Hcur) as [Hv _].
  assert (dead th = false) as Hd by (unfold dead; by rewrite Hst).
  destruct (THREAD_LOCK_run cpu _ Hinv) as (x1 & Hlk & Hx1 & Hinv1). set (s1 := with_sd x1 s).
  assert (life_core s1) as Hc1 by (subst s1 x1; by destruct Hc; constructor).
  assert (current x1 !! cpu = Some t) as Hcur1 by (by rewrite Hx1). assert (threads x1 !! t = Some th) as Ht1 by (by rewrite Hx1).
  pose proof (core_end s1 t th code Hc1 Ht1 Hd Hi ltac:(congruence)) as Hc3. cbn [sd s1 with_sd] in Hc3.
  pose proof (end_busy cpu x1 t th code Hinv1 Hcur1 Ht1) as Hb3. destruct (end_state_fields t th code x1) as (E1 & E2 & E3 & E4 & E5 & E6).
  set (x3 := end_state t th code x1) in *. assert (threads x3 !! t = Some (ended code th)) as Ht3 by (rewrite E1; apply lookup_insert_eq).
  assert (queue_at (sd s) (death_queue t th)) as [[l Hl] (q & Hq & Hm)%fmap_Some].
  { unfold death_queue. destruct (detached th); [exact (lf_reaper _ Hc)|exact (lf_queue _ Hc t th Ht Hi)]. }
  assert (queues x3 !! WaitList (death_queue t th) = Some l) as Hl3 by (by rewrite E2, Hx1).
  assert (wait_queues x3 !! death_queue t th = Some q) as Hq3 by (by rewrite E3, Hx1).
  assert (t ∉ l) as Htl by (eapply (not_waiting none x3); [apply Hb3|exact Ht3|done|exact Hl3]).
  destruct (wake_all_busy_run cpu x3 (death_queue t th) q 0 t (ended code th) l) as (x4 & Hr4 & Hb4 & Hw4); [done|by rewrite E4|done|done|done|done|done|done|].
  assert (threads x4 !! t = Some (ended code th)) as Ht4 by (by rewrite (aw_other _ _ _ _ _ Hw4)).
  destruct (resched_run cpu x4 t (ended code th)) as (o & new & x5 & Hr5 & Hrs & Hinv5); [done|by rewrite (aw_current _ _ _ _ _ Hw4), E4|done|done|].
  destruct (not_rescheduled cpu x4 x5 t (ended code th) new o (busy_wf _ _ _ Hb4) Hv Ht4 Hi ltac:(done) Hrs) as [Hne ->].
  set (s3 := with_sd x3 s1) in *.
  pose proof (woken_scheduled cpu _ 0 l x3 x4 Hb3 (lf_blocking _ Hc3) Hl3 Hw4) as Hsc4.
  pose proof (keeps_wake_all cpu _ false 0 _ _ _ Hr4) as Hsl4. pose proof (keeps_thread_resched cpu _ _ _ Hr5) as Hsl5.
  pose proof (core_step s3 x4 Hc3 Hsl4 (scheduled_role _ _ Hsc4) (sc_queue_at _ _ Hsc4)) as Hc4.
  pose proof (rescheduled_scheduled cpu t new Switched x4 x5 (busy_wf _ _ _ Hb4) Hv (lf_dead_idle _ Hc4) (lf_blocking _ Hc4) Hrs) as Hsc5.
  exists (with_sd x5 s). split; [|split; [split; [exact Hinv5|split]|]].
  - unfold thread_exit. rewrite (on_sched_same _ _ _ t) by (by apply get_current_eq). rewrite (on_sched_same _ _ _ th) by (by apply get_thread_eq).
    rewrite assert_bind by (by apply Z.eqb_eq). rewrite assert_bind by (by rewrite Hi). rewrite assert_bind by (by apply state_eqb_true).
    rewrite (on_sched_same _ _ _ tt) by (eapply check_cookie_eq; [apply (inv_wf _ _ Hinv)|done]). rewrite (on_sched_bind _ _ _ tt x1 Hlk).
    rewrite (on_sched_bind _ _ _ tt (with_threads <[t := set_state THREAD_DEATH th]> x1)) by (by apply upd_thread_eq).
    rewrite (on_sched_bind _ _ _ tt (with_threads <[t := ended code th]> x1)).
    2: { cbn [sd with_sd]. rewrite (upd_thread_eq _ t (set_state THREAD_DEATH th)) by apply lookup_insert_eq. by rewrite with_threads_twice. }
    fold (detached th). unfold x3, end_state, moved_lists, death_queue in *. destruct (detached th) eqn:Hdet.
    + pose proof (lf_thread _ Hc1 _ _ Ht1 Hi) as Hin. rewrite Hd in Hin. cbn [andb] in Hin.
      unfold list_delete_thread. rewrite bind_assoc, bind_assoc. rewrite (on_sched_same _ _ _ (thread_list x1 ++ dead_threads x1)) by done.
      rewrite bind_assoc, assert_bind by (apply bool_decide_eq_true, elem_of_app; by left).
      pose proof (lf_nodup _ Hc1) as (_ & Hdis & _)%NoDup_app. assert (filter (fun y => y <> t) (dead_threads x1) = dead_threads x1) as Hfd by (by apply filter_absent, Hdis).
      rewrite modify_sched, ?bind_assoc, modify_sched. rewrite (on_sched_bind _ _ _ _ x4) by (unfold with_thread_lists in *; cbn in *; rewrite Hfd; exact Hr4). by rewrite (on_sched_bind _ _ _ _ x5) by exact Hr5.
    + rewrite (on_sched_bind _ _ _ _ x4) by exact Hr4. by rewrite (on_sched_bind _ _ _ _ x5) by exact Hr5.
  - exact (core_step (with_sd x4 s3) x5 Hc4 Hsl5 (scheduled_role _ _ Hsc5) (sc_queue_at _ _ Hsc5)).
  - intros w Hw. apply (must_be_empty_step (with_sd x4 s3) x5 w Hsl5 (sc_threads _ _ Hsc5)) in Hw.
    apply (must_be_empty_step s3 x4 w Hsl4 (sc_threads _ _ Hsc4)) in Hw. change (queues x5 !! WaitList w = Some []). apply (sc_empty _ _ Hsc5).
    destruct (decide (w = death_queue t th)) as [->|Hwne]; [apply (aw_empty _ _ _ _ _ Hw4)|]. apply (sc_empty _ _ Hsc4). rewrite E2, Hx1. apply He.
    destruct w as [a|u|]; cbn [must_be_empty sd s3 with_sd] in Hw |- *; [done| |].
    + destruct Hw as (uh & Hu & Hui & Hud). rewrite E1, Hx1 in Hu. apply lookup_insert_Some in Hu as [[<- <-]|[? ?]]; [|by exists uh].
      exists th. split_and!; [done|done|]. change (detached (ended code th)) with (detached th) in Hud. unfold death_queue in Hwne. destruct (detached th); [apply orb_true_r|done].
    + rewrite E6, Hx1 in Hw. unfold death_queue in Hwne. by destruct (detached th).
  - destruct Hsl4 as (L1 & L2 & _), Hsl5 as (L3 & L4 & _). constructor; cbn [sd with_sd heap regions mems].
    + rewrite (rs_old _ _ _ _ _ _ Hrs Hne), Ht4. eexists. split; [done|]. done.
    + exists new. split; [done|]. by rewrite (rs_current _ _ _ _ _ _ Hrs), (aw_current _ _ _ _ _ Hw4), E4, Hx1.
    + by rewrite L3, L1, E5, Hx1.
    + by rewrite L4, L2, E6, Hx1.
    + intros l' u Hl' Hu. rewrite Hl in Hl'. injection Hl' as <-. exact (woken_after cpu _ l t new _ x3 x4 x5 Hb3 Hl3 Htl Hw4 Hrs u Hu).
    + apply (sc_empty _ _ Hsc5), (aw_empty _ _ _ _ _ Hw4).
    + done.
Qed.

(** ** Joining *)
Lemma scheduled_same (x x' : sched T) :
  threads x' = threads x -> queues x' = queues x -> wait_queues x' = wait_queues x ->
  (forall t th, threads x !! t = Some th -> state th <> THREAD_BLOCKED -> blocking_wait_queue th = None) -> scheduled x x'.
Proof.
  intros Ht Hq Hw Hb. constructor; [|intros w; unfold queue_at; by rewrite Hq, Hw|by rewrite Hq].
  intros t th Hth. rewrite Ht in Hth. exists th. split; [done|]. split_and!; [done|done|]. by apply (Hb t).
Qed.

Lemma life_same s (x' : sched T) :
  life_inv s -> same_lists (sd s) x' -> threads x' = threads (sd s) -> queues x' = queues (sd s) -> wait_queues x' = wait_queues (sd s) ->
  life_inv (with_sd x' s).
Proof. intros Hl Hsl Ht Hq Hw. apply life_step; [done|done|]. apply scheduled_same; [done|done|done|apply Hl]. Qed.

Lemma lock_life cpu s : thread_inv unlocked s ->
  exists x, THREAD_LOCK cpu (sd s) = Some (tt, x) /\ x = with_owner cpu (sd s) /\ thread_inv cpu (with_sd x s).
Proof.
  intros [Hi Hl]. destruct (THREAD_LOCK_run cpu _ Hi) as (x & Hr & -> & Hi'). eexists. split_and!; [done|done|split; [done|]].
  by apply life_same.
Qed.

Lemma unlock_life cpu s : thread_inv cpu s ->
  exists x, THREAD_UNLOCK cpu (sd s) = Some (tt, x) /\ x = with_owner unlocked (sd s) /\ thread_inv unlocked (with_sd x s).
Proof.
  intros [Hi Hl]. destruct (THREAD_UNLOCK_run cpu _ Hi) as (Hr & Hi'). eexists. split_and!; [done|done|split; [done|]].
  by apply life_same.
Qed.

Lemma with_sd_twice x y s : with_sd x (with_sd y s) = with_sd x s.
Proof. done. Qed.
Lemma unlock_lock s cpu : thread_inv unlocked s -> with_sd (with_owner unlocked (sd (with_sd (with_owner cpu (sd s)) s))) (with_sd (with_owner cpu (sd s)) s) = s.
Proof. intros [Hi _]. pose proof (inv_owner _ _ Hi) as Ho. destruct s as [x ? ? ? ? ?]. destruct x. cbn in *. by subst. Qed.

(** What becomes of the threads when [u] goes to wait at [w] and another thread takes its cpu. *)
Record took_over cpu u uh w (x x' : sched T) (new : Z) : Prop := {
  to_current : current x' = <[cpu := new]> (current x);
  to_other_thread : new <> u;
  to_waiter : threads x' !! u = Some (set_curr_cpu (-1) (blocked w uh));
  to_others : forall t, t <> new -> t <> u -> threads x' !! t = threads x !! t;
  to_new : exists n n', threads x !! new = Some n /\ threads x' !! new = Some n' /\ state n' = THREAD_RUNNING /\
    flags n' = flags n /\ priority n' = priority n /\ pinned_cpu n' = pinned_cpu n /\ aspace n' = aspace n
}.

Lemma took_over_current cpu u uh w (x x' : sched T) new : took_over cpu u uh w x x' new -> current x' !! cpu <> Some u.
Proof. intros [Hc Hn _ _ _]. rewrite Hc, lookup_insert_eq. congruence. Qed.

(** The cpu's thread goes to the end of a wait queue that may have waiters. *)
Lemma block_life cpu s u uh w timeout :
  thread_inv cpu s -> current (sd s) !! cpu = Some u -> threads (sd s) !! u = Some uh -> thread_is_idle uh = false ->
  queue_at (sd s) w -> ~ must_be_empty s w -> 0 < timeout <= INFINITE_TIME -> timeout_pending (timers (sd s)) u = false ->
  exists l x, queues (sd s) !! WaitList w = Some l /\ wait_queue_block cpu w timeout (sd s) = Some (Switched, x) /\
    thread_inv cpu (with_sd x s) /\ queues x !! WaitList w = Some (l ++ [u]) /\ exists new, took_over cpu u uh w (sd s) x new.
Proof.
  intros [Hinv Hl] Hc Hu Hi [[l Hq] (q & Hwq & Hm)%fmap_Some] Hne Hto Hp.
  destruct (wait_queue_block_run cpu (sd s) w timeout u uh q l Hinv Hc Hu Hi Hwq (eq_sym Hm) Hq Hto Hp)
    as (x2 & new & x & Hr & Ht2 & Hq2 & Hw2 & Hc2 & _ & Hwf2 & Hrs & Hinv' & Hnew).
  destruct (wf_current _ _ (inv_wf _ _ Hinv) _ _ Hc) as [Hv _]. destruct (inv_running _ _ Hinv _ _ Hc) as (? & ? & Hst). simplify_eq.
  assert (forall t th', threads x2 !! t = Some th' -> exists th, threads (sd s) !! t = Some th /\ same_life th th') as Hth.
  { intros t th' Ht. rewrite Ht2 in Ht. apply lookup_insert_Some in Ht as [[<- <-]|[? Ht]].
    - exists uh. split; [done|]. split_and!; [done|unfold dead at 2; by rewrite Hst|done].
    - exists th'. split; [done|]. split_and!; [done|done|]. by apply (lf_blocking _ Hl t). }
  assert (forall t th, threads x2 !! t = Some th -> dead th = true -> thread_is_idle th = false) as Hdi.
  { intros t th Ht Hd. destruct (Hth _ _ Ht) as (y & Hy & Hs). unfold thread_is_idle. rewrite (same_life_flag _ _ _ Hs). apply (lf_dead_idle _ Hl t y); [done|].
    by destruct Hs as (_ & <- & _). }
  pose proof (rescheduled_scheduled cpu u new Switched x2 x Hwf2 Hv Hdi ltac:(intros t th Ht; by destruct (Hth _ _ Ht) as (? & _ & _ & _ & Hb)) Hrs) as Hsc.
  pose proof (keeps_block cpu w timeout _ _ _ Hr) as Hsl.
  assert (forall w', queue_at (sd s) w' -> queue_at x2 w') as Hqa.
  { intros w' [[l' Hl'] Hm']. unfold queue_at. rewrite Hq2, Hw2. destruct (decide (w' = w)) as [->|].
    - rewrite !lookup_insert_eq. split; [by eexists|]. cbn. by rewrite <- Hm.
    - rewrite !lookup_insert_ne by congruence. split; [by eexists|done]. }
  assert (forall t th', threads x !! t = Some th' -> exists th, threads (sd s) !! t = Some th /\ same_life th th') as Hth'.
  { intros t th' Ht. destruct (sc_threads _ _ Hsc _ _ Ht) as (y & Hy & Hf & Hd & Hb). destruct (Hth _ _ Hy) as (z & Hz & Hf' & Hd' & _).
    exists z. split; [done|]. unfold same_life. by rewrite Hf, Hd. }
  exists l, x. split_and!; [done|done|split; [exact Hinv'|split]| |].
  - apply core_step; [apply Hl|done| |intros w' Hw'; by apply (sc_queue_at _ _ Hsc), Hqa]. intros t th' Ht. destruct (Hth' _ _ Ht) as (y & ? & ?). exists y. split; [done|by apply same_life_role].
  - intros w' Hw'. apply (must_be_empty_step s x w' Hsl Hth') in Hw'. apply (sc_empty _ _ Hsc). rewrite Hq2.
    rewrite lookup_insert_ne by (intros [= <-]; done). by apply (lf_empty _ Hl).
  - rewrite (rs_queues _ _ _ _ _ _ Hrs), node_delete_lookup, Hq2, lookup_insert_eq. cbn. f_equal. apply filter_absent.
    intros Hin. assert (queues x2 !! WaitList w = Some (l ++ [u])) as Hlw by (by rewrite Hq2, lookup_insert_eq).
    destruct (rs_best _ _ _ _ _ _ Hrs) as [s1 Htop]. destruct (wf_wait _ _ Hwf2 _ _ _ Hlw Hin) as (nh & Hnh & Hns & _ & Hni & _).
    inversion Htop as [| |p q1 t q2 th Hqp Hthn]; subst.
    + destruct (wf_idle _ _ Hwf2 cpu Hv) as (? & ? & ?). congruence.
    + destruct (wf_run _ _ Hwf2 _ _ new Hqp) as (? & ? & ? & _); [set_solver|congruence].
  - exists new. constructor.
    + by rewrite (rs_current _ _ _ _ _ _ Hrs), Hc2.
    + done.
    + rewrite (rs_old _ _ _ _ _ _ Hrs) by done. by rewrite Ht2, lookup_insert_eq.
    + intros t Hn Hu'. rewrite (rs_other _ _ _ _ _ _ Hrs), Ht2 by done. by rewrite lookup_insert_ne.
    + destruct (rs_new _ _ _ _ _ _ Hrs) as (n & n' & Hn & Hn' & R1 & R2 & R3 & R4 & R5 & _). exists n, n'. rewrite Ht2, lookup_insert_ne in Hn by done. done.
Qed.

(** Thread [t] is no more and what it had is given back. *)
Definition joined t th s s' : Prop := thread_inv unlocked s' /\ exists m, mems s !! t = Some m /\ gone t th m s s'.

Lemma gone_owner o t th m s s' : gone t th m (with_sd (with_owner o (sd s)) s) s' -> gone t th m s s'.
Proof. intros [????? ??????]. by constructor. Qed.

Lemma join_dead_joined o cpu s t th :
  thread_inv cpu (with_sd (with_owner o (sd s)) s) -> threads (sd s) !! t = Some th -> dead th = true -> detached th = false ->
  exists s', join_dead cpu t (with_sd (with_owner o (sd s)) s) = Some ((NO_ERROR, Some (retcode th)), s') /\ joined t th s s'.
Proof.
  intros Hi Ht Hd Hnd. destruct (lf_mem _ (proj2 Hi) t) as [m Hm]; [by exists th|].
  destruct (join_dead_run cpu _ t th m Hi Ht Hd Hnd Hm) as (s' & Hr & Hi' & Hg). exists s'. split; [done|]. split; [done|]. exists m. split; [exact Hm|by eapply gone_owner].
Qed.

Lemma thread_join_run cpu s u uh t th timeout :
  thread_inv unlocked s -> current (sd s) !! cpu = Some u -> threads (sd s) !! u = Some uh -> thread_is_idle uh = false ->
  threads (sd s) !! t = Some th -> thread_is_idle th = false -> 0 <= timeout <= INFINITE_TIME -> timeout_pending (timers (sd s)) u = false ->
  exists o s', thread_join cpu t timeout s = Some (o, s') /\
    if detached th then o = Return (ERR_THREAD_DETACHED, None) /\ s' = s
    else if dead th then o = Return (NO_ERROR, Some (retcode th)) /\ joined t th s s'
    else if timeout =? 0 then o = Return (ERR_TIMED_OUT, None) /\ s' = s
    else o = Switched /\ thread_inv cpu s' /\ current (sd s') !! cpu <> Some u /\
      exists l, queues (sd s) !! WaitList (RetcodeWaitQueue t) = Some l /\ queues (sd s') !! WaitList (RetcodeWaitQueue t) = Some (l ++ [u]).
Proof.
  intros Hs Hc Hu Hui Ht Hi Hto Hp. pose proof Hs as [Hinv Hl]. destruct (wf_thread _ _ (inv_wf _ _ Hinv) _ _ Ht) as (Hm & _).
  destruct (lock_life cpu s Hs) as (x & Hlk & -> & Hs1). destruct (unlock_life cpu _ Hs1) as (x & Hul & Hx & Hs2).
  assert (with_sd x (with_sd (with_owner cpu (sd s)) s) = s) as Hid by (rewrite Hx; by apply unlock_lock).
  unfold thread_join. rewrite (on_sched_same _ _ _ th) by (by apply get_thread_eq). rewrite assert_bind by (by apply Z.eqb_eq).
  rewrite (on_sched_bind _ _ _ _ _ Hlk). fold (detached th). fold (dead th). destruct (detached th) eqn:Hdt.
  { rewrite (on_sched_bind _ _ _ _ _ Hul), Hid. by eexists _, _. }
  destruct (dead th) eqn:Hd; cbn [negb].
  { destruct (join_dead_joined _ cpu s t th Hs1 Ht Hd Hdt) as (s' & Hr & Hj). rewrite (bind_eq _ _ _ _ _ Hr). by eexists _, _. }
  destruct (inv_running _ _ Hinv _ _ Hc) as (y & Hy & Hst). assert (y = uh) as -> by congruence.
  assert (queue_at (sd s) (RetcodeWaitQueue t)) as Hq by (by apply (lf_queue _ Hl t th)).
  destruct (Z.eqb_spec timeout 0) as [->|Hne].
  - assert (wait_queue_block cpu (RetcodeWaitQueue t) 0 (with_owner cpu (sd s)) = Some (Return ERR_TIMED_OUT, with_owner cpu (sd s))) as Hr.
    { destruct Hq as [_ (q & Hq & Hqm)%fmap_Some]. unfold wait_queue_block. rewrite (bind_eq _ _ _ _ _ (get_current_eq (with_owner cpu (sd s)) _ _ Hc)), (bind_eq _ _ _ _ _ (get_wait_queue_eq (with_owner cpu (sd s)) _ _ Hq)), (bind_eq _ _ _ _ _ (get_thread_eq (with_owner cpu (sd s)) _ _ Hu)). rewrite assert_bind by (by apply Z.eqb_eq).
      rewrite assert_bind by (apply state_eqb_true; congruence). unfold thread_lock_held. rewrite gets_bind. by rewrite assert_bind by (by apply Z.eqb_eq). }
    rewrite (on_sched_same _ _ _ (Return ERR_TIMED_OUT)) by exact Hr. unfold thread_join_finish. change (ERR_TIMED_OUT <? 0) with true. cbn iota. rewrite bind_assoc, (on_sched_bind _ _ _ _ _ Hul), ret_bind, Hid. by eexists _, _.
  - destruct (block_life cpu _ u uh (RetcodeWaitQueue t) timeout Hs1 Hc Hu Hui Hq) as (l & x5 & Hl5 & Hr5 & Hs5 & Hq5 & Hc5); [|lia|done|].
    { intros (z & Hz & _ & Hyd). cbn in Hz. assert (z = th) as -> by congruence. by rewrite Hd, Hdt in Hyd. }
    rewrite (on_sched_bind _ _ _ Switched x5) by exact Hr5. eexists _, _. split; [done|]. split; [done|]. split; [exact Hs5|]. split; [destruct Hc5 as [new Hc5]; by eapply took_over_current|]. by exists l.
Qed.

(** The joiner is back; with a result of 0 the thread it waited for is dead. *)
Lemma thread_join_resumed_run cpu s u uh t timeout :
  thread_inv cpu s -> current (sd s) !! cpu = Some u -> threads (sd s) !! u = Some uh ->
  (timeout <> INFINITE_TIME -> timeout_live (timers (sd s)) u = true) ->
  (0 <= wait_queue_block_ret uh -> exists th, threads (sd s) !! t = Some th /\ dead th = true /\ detached th = false) ->
  exists r s', thread_join_resumed cpu t timeout s = Some (r, s') /\ thread_inv unlocked s' /\
    if wait_queue_block_ret uh <? 0 then r = (wait_queue_block_ret uh, None) /\ threads (sd s') = threads (sd s)
    else exists th m, threads (sd s) !! t = Some th /\ mems s !! t = Some m /\ r = (NO_ERROR, Some (retcode th)) /\ gone t th m (with_sd (with_timers (timers (sd s')) (sd s)) s) s'.
Proof.
  intros [Hinv Hl] Hc Hu Hto Hret. destruct (wait_queue_block_resume_run cpu (sd s) u uh timeout Hinv Hc Hu Hto) as (x & Hr & Hinv' & _).
  assert (thread_inv cpu (with_sd (with_timers x (sd s)) s)) as Hs1 by (split; [exact Hinv'|by apply life_same]).
  unfold thread_join_resumed. rewrite (on_sched_bind _ _ _ _ _ Hr). unfold thread_join_finish. destruct (Z.ltb_spec (wait_queue_block_ret uh) 0) as [Hlt|Hge].
  - destruct (unlock_life cpu _ Hs1) as (x2 & Hul & Hx2 & Hs2). rewrite (on_sched_bind _ _ _ _ _ Hul). eexists _, _. split; [done|]. split; [exact Hs2|].
    split; [done|]. cbn. by rewrite Hx2.
  - destruct (Hret Hge) as (th & Ht & Hd & Hdt). destruct (lf_mem _ Hl t) as [m Hm]; [by exists th|].
    destruct (join_dead_run cpu _ t th m Hs1 Ht Hd Hdt Hm) as (s' & Hr' & Hi' & Hg). exists (NO_ERROR, Some (retcode th)), s'. split_and!; [done|done|].
    exists th, m. split_and!; [done|done|done|]. by rewrite (gn_timers _ _ _ _ _ Hg).
Qed.

(** ** Detaching *)
Lemma wake_all_nobody cpu (x : sched T) w err c cth :
  sched_inv cpu x -> current x !! cpu = Some c -> threads x !! c = Some cth -> queue_at x w -> queues x !! WaitList w = Some [] ->
  wait_queue_wake_all cpu w false err x = Some ((0, Return tt), x).
Proof.
  intros Hinv Hc Hcth [_ (q & Hq & Hm)%fmap_Some] Hl. destruct (inv_running _ _ Hinv _ _ Hc) as (? & ? & Hst). simplify_eq.
  pose proof (wf_count_of none x w [] q (inv_wf _ _ Hinv) Hl Hq) as Hcnt.
  unfold wait_queue_wake_all. do 3 sstep. unfold thread_lock_held. rewrite gets_bind. rewrite assert_bind by (apply Z.eqb_eq, (inv_owner _ _ Hinv)).
  cbn [andb when]. rewrite ret_bind. sstep. cbn [length wake_loop]. unfold remove_head. rewrite !bind_assoc. sstep. cbn. sstep. rewrite assert_bind by (by apply Z.eqb_eq).
  sstep. rewrite assert_bind; [done|]. apply negb_true_iff, state_eqb_false. congruence.
Qed.

Lemma detached_flags th : detached th = false -> set_flags (Z.ldiff (flags th) THREAD_FLAG_DETACHED) th = th.
Proof.
  intros Hd. assert (Z.ldiff (flags th) THREAD_FLAG_DETACHED = flags th) as ->; [|by destruct th].
  apply negb_false_iff, Z.eqb_eq in Hd. rewrite Z.ldiff_land. apply Z.bits_inj'. intros n Hn. rewrite Z.land_spec, Z.lnot_spec by done.
  apply (f_equal (fun z => Z.testbit z n)) in Hd. rewrite Z.land_spec, Z.bits_0 in Hd. destruct (Z.testbit (flags th) n); [|done]. cbn in Hd. by rewrite Hd.
Qed.

Lemma detach_role th : dead th = false -> (state th <> THREAD_BLOCKED -> blocking_wait_queue th = None) ->
  same_role th (set_flags (Z.lor (flags th) THREAD_FLAG_DETACHED) th).
Proof.
  intros Hd Hb. split_and!; [|done|congruence|done]. intros f Hf. unfold has_flag. cbn [flags set_flags].
  by rewrite Z.land_lor_distr_l, (Z.land_comm THREAD_FLAG_DETACHED), Hf, Z.lor_0_r.
Qed.

(** What detaching a live thread leaves. *)
Record detached_from t s s' : Prop := {
  dt_thread : exists th', threads (sd s') !! t = Some th' /\ detached th' = true /\ dead th' = false;
  dt_woken : forall l u, queues (sd s) !! WaitList (RetcodeWaitQueue t) = Some l -> u ∈ l -> u <> t ->
    exists uh, threads (sd s) !! u = Some uh /\ threads (sd s') !! u = Some (woken ERR_THREAD_DETACHED uh);
  dt_queue : queues (sd s') !! WaitList (RetcodeWaitQueue t) = Some [];
  dt_current : current (sd s') = current (sd s);
  dt_memory : heap s' = heap s /\ regions s' = regions s
}.

Lemma thread_detach_alive_run cpu s u t th :
  thread_inv unlocked s -> current (sd s) !! cpu = Some u -> threads (sd s) !! t = Some th -> thread_is_idle th = false ->
  detached th = false -> dead th = false ->
  exists s', thread_detach cpu t s = Some (Return NO_ERROR, s') /\ thread_inv unlocked s' /\ detached_from t s s'.
Proof.
  intros Hs Hc Ht Hi Hdt Hd. pose proof Hs as [Hinv Hl]. destruct (wf_thread _ _ (inv_wf _ _ Hinv) _ _ Ht) as (Hm & _).
  destruct (inv_running _ _ Hinv _ _ Hc) as (uh & Hu & Hust). destruct (lock_life cpu s Hs) as (x & Hlk & -> & Hs1).
  pose proof Hs1 as [Hinv1 Hl1]. destruct (lf_queue _ Hl t th Ht Hi) as [[l Hq] (q & Hwq & Hqm)%fmap_Some].
  destruct (wake_all_run cpu (with_owner cpu (sd s)) (RetcodeWaitQueue t) q ERR_THREAD_DETACHED u uh l Hinv1 Hc Hu Hwq (eq_sym Hqm) Hq) as (x2 & Hr2 & Hinv2 & Hw2).
  pose proof (keeps_wake_all cpu _ false _ _ _ _ Hr2) as Hsl2.
  pose proof (woken_scheduled cpu _ _ l (with_owner cpu (sd s)) x2 (inv_busy _ _ Hinv1) (lf_blocking _ Hl1) Hq Hw2) as Hsc2.
  pose proof (life_step _ x2 Hl1 Hsl2 Hsc2) as Hl2.
  destruct (same_lists_back (sd (with_sd (with_owner cpu (sd s)) s)) x2 t th Hsl2 Ht) as [th2 Ht2].
  destruct (sc_threads _ _ Hsc2 _ _ Ht2) as (y & Hy & Hlife). cbn in Hy. assert (y = th) as -> by congruence.
  assert (dead th2 = false) as Hd2 by (destruct Hlife as (_ & -> & _); done).
  assert (thread_is_idle th2 = false) as Hi2 by (unfold thread_is_idle; by rewrite (same_life_flag _ _ _ Hlife)).
  set (th3 := set_flags (Z.lor (flags th2) THREAD_FLAG_DETACHED) th2). set (x3 := with_threads <[t := th3]> x2).
  assert (sched_inv cpu x3) as Hinv3. { apply update_flags_inv; [done|done|]. by rewrite Z.land_lor_distr_l, Z.lor_0_r. }
  pose proof (detach_role th2 Hd2 (lf_blocking _ Hl2 t th2 Ht2)) as Hrole. fold th3 in Hrole.
  assert (forall v vh, threads x3 !! v = Some vh -> exists vh', threads x2 !! v = Some vh' /\ same_role vh' vh) as Hth3.
  { intros v vh Hv. cbn in Hv. apply lookup_insert_Some in Hv as [[<- <-]|[? Hv]]; [by exists th2|]. exists vh. split; [done|]. split_and!; [done|done|done|].
    by apply (lf_blocking _ Hl2 v). }
  assert (same_lists x2 x3) as Hsl3. { split_and!; [done|done|]. cbn. apply dom_insert_lookup_L. by eexists. }
  assert (thread_inv cpu (with_sd x3 s)) as Hs3.
  { split; [exact Hinv3|]. split; [exact (core_step (with_sd x2 s) x3 (lf_core _ Hl2) Hsl3 Hth3 (fun w H => H))|].
    intros [a|v|] Hw; cbn [must_be_empty] in Hw; [done| |apply (lf_empty _ Hl2 ReaperWaitQueue Hw)].
    destruct (decide (v = t)) as [->|Hne]; [apply (aw_empty _ _ _ _ _ Hw2)|]. apply (lf_empty _ Hl2 (RetcodeWaitQueue v)).
    destruct Hw as (vh & Hv & Hvd). cbn in Hv. rewrite lookup_insert_ne in Hv by done. by exists vh. }
  destruct (unlock_life cpu _ Hs3) as (x4 & Hul & Hx4 & Hs4). exists (with_sd x4 s). split; [|split; [exact Hs4|]].
  - unfold thread_detach. rewrite (on_sched_same _ _ _ th) by (by apply get_thread_eq). rewrite assert_bind by (by apply Z.eqb_eq).
    rewrite (on_sched_bind _ _ _ _ _ Hlk). rewrite (on_sched_bind _ _ _ _ x2) by exact Hr2. rewrite (on_sched_same _ _ _ th2) by (by apply get_thread_eq).
    fold (dead th2). rewrite Hd2. rewrite (on_sched_bind _ _ _ tt x3) by (by apply upd_thread_eq). by rewrite (on_sched_bind _ _ _ tt x4) by exact Hul.
  - cbn [sd with_sd] in Hx4. constructor; cbn [sd with_sd heap regions].
    + exists th3. rewrite Hx4. cbn. rewrite lookup_insert_eq. split_and!; [done| |done]. unfold detached, has_flag. cbn [flags set_flags th3].
      apply negb_true_iff, Z.eqb_neq. rewrite Z.land_lor_distr_l. change (Z.land THREAD_FLAG_DETACHED THREAD_FLAG_DETACHED) with 1. intros He.
      apply Z.lor_eq_0_iff in He as [_ He]. done.
    + intros l' v Hl' Hv Hne. rewrite Hq in Hl'. injection Hl' as <-. destruct (wf_wait _ _ (inv_wf _ _ Hinv) _ _ _ Hq Hv) as (vh & Hvh & _). exists vh. split; [done|].
      rewrite Hx4. cbn. rewrite lookup_insert_ne by done. rewrite (aw_woken _ _ _ _ _ Hw2 v Hv). cbn. by rewrite Hvh.
    + rewrite Hx4. apply (aw_empty _ _ _ _ _ Hw2).
    + rewrite Hx4. cbn. by rewrite (aw_current _ _ _ _ _ Hw2).
    + done.
Qed.

Lemma thread_detach_dead_run cpu s u t th :
  thread_inv unlocked s -> current (sd s) !! cpu = Some u -> threads (sd s) !! t = Some th -> detached th = false -> dead th = true ->
  exists s', thread_detach cpu t s = Some (Return NO_ERROR, s') /\ joined t th s s'.
Proof.
  intros Hs Hc Ht Hdt Hd. pose proof Hs as [Hinv Hl]. destruct (wf_thread _ _ (inv_wf _ _ Hinv) _ _ Ht) as (Hm & _).
  pose proof (lf_dead_idle _ Hl _ _ Ht Hd) as Hi.
  destruct (inv_running _ _ Hinv _ _ Hc) as (uh & Hu & Hust). destruct (lock_life cpu s Hs) as (x & Hlk & -> & Hs1).
  destruct (unlock_life cpu _ Hs1) as (x & Hul & Hx & Hs2).
  assert (with_sd x (with_sd (with_owner cpu (sd s)) s) = s) as Hid by (rewrite Hx; by apply unlock_lock).
  assert (wait_queue_wake_all cpu (RetcodeWaitQueue t) false ERR_THREAD_DETACHED (with_owner cpu (sd s)) = Some ((0, Return tt), with_owner cpu (sd s))) as Hw.
  { apply (wake_all_nobody cpu _ _ _ u uh); [apply Hs1|done|done|by apply (lf_queue _ Hl t th)|]. apply (lf_empty _ Hl). exists th. by rewrite Hd. }
  destruct (join_dead_joined _ cpu s t th Hs1 Ht Hd Hdt) as (s' & Hr & Hj). exists s'. split; [|done].
  unfold thread_detach. rewrite (on_sched_same _ _ _ th) by (by apply get_thread_eq). rewrite assert_bind by (by apply Z.eqb_eq).
  rewrite (on_sched_bind _ _ _ _ _ Hlk). rewrite (on_sched_same _ _ _ (0, Return tt)) by exact Hw. rewrite (on_sched_same _ _ _ th) by (by apply get_thread_eq).
  fold (dead th). rewrite Hd. rewrite (on_sched_same _ _ _ tt).
  2: { rewrite (upd_thread_eq _ t th) by done. rewrite (detached_flags th Hdt). cbn. do 2 f_equal. unfold with_threads, with_owner. cbn. by rewrite insert_id. }
  rewrite (on_sched_bind _ _ _ _ _ Hul), Hid. unfold thread_join. rewrite bind_assoc, (on_sched_same _ _ _ th) by (by apply get_thread_eq).
  rewrite bind_assoc, assert_bind by (by apply Z.eqb_eq). rewrite bind_assoc, (on_sched_bind _ _ _ _ _ Hlk). fold (detached th) (dead th). rewrite Hdt, Hd. cbn [negb].
  rewrite bind_assoc, (bind_eq _ _ _ _ _ Hr). done.
Qed.
End calls.
