(* ===== verification/ThreadCreate.v ===== *)
(** * Creating a thread

    A thread in the making is in no list, on no cpu and nobody knows it:
    [newborn] is a state with such a thread, and each step of
    [thread_create_etc] changes only that thread or what has been allocated
    for it. *)
From stdpp Require Import base gmap list.
From Stdlib Require Import ZArith Lia.
From S2P Require Import Prelude Sched SchedInv SchedOps SchedApi Thread ThreadInv ThreadOps ThreadCalls.

Local Open Scope Z_scope.
Local Open Scope lk_scope.

Section create.
Context {T : Type} `{!TimerOps T} `{!Config} `{!ThreadBuild} `{!TimerLaws T} `{!ConfigLaws}.
Implicit Types (s : tsys T) (t cpu : Z) (th : thread_t) (m : thread_mem).

(** Nothing is at address [t]. *)
Record fresh s t : Prop := {
  fs_null : t <> 0;
  fs_thread : threads (sd s) !! t = None;
  fs_mem : mems s !! t = None;
  fs_list : queues (sd s) !! WaitList (RetcodeWaitQueue t) = None;
  fs_queue : wait_queues (sd s) !! RetcodeWaitQueue t = None
}.

Definition born_sched t th (x : sched T) : sched T :=
  with_queues <[WaitList (RetcodeWaitQueue t) := []]>
    (with_wait_queues <[RetcodeWaitQueue t := mk_wait_queue WAIT_QUEUE_MAGIC 0]> (with_threads <[t := th]> x)).
Definition newborn t th m s : tsys T :=
  mk_tsys (born_sched t th (sd s)) (<[t := m]> (mems s)) (retired s) (heap s) (regions s) (libc_states s).

(** ** Steps on a newborn thread *)
Lemma born_upd {A} t f th m s (k : unit -> M (tsys T) A) :
  bind (on_sched (upd_thread t f)) k (newborn t th m s) = k tt (newborn t (f th) m s).
Proof.
  assert (upd_thread t f (born_sched t th (sd s)) = Some (tt, born_sched t (f th) (sd s))) as Hu.
  { rewrite (upd_thread_eq _ t th) by apply lookup_insert_eq. do 2 f_equal. unfold born_sched, with_threads. cbn. by rewrite insert_insert_eq. }
  exact (on_sched_bind _ k (newborn t th m s) tt _ Hu).
Qed.

Lemma born_get_mem {A} t th m s (k : thread_mem -> M (tsys T) A) : bind (get_mem t) k (newborn t th m s) = k m (newborn t th m s).
Proof. apply get_mem_bind, lookup_insert_eq. Qed.

Lemma born_upd_mem {A} t f th m s (k : unit -> M (tsys T) A) :
  bind (upd_mem t f) k (newborn t th m s) = k tt (newborn t th (f m) s).
Proof. unfold upd_mem. rewrite bind_assoc, born_get_mem, modify_bind. unfold newborn, with_mems. cbn. by rewrite insert_insert_eq. Qed.

Lemma struct_gone_born t th s : fresh s t -> struct_gone t (born_sched t th (sd s)) = sd s.
Proof.
  intros [_ F1 _ F3 F4]. destruct (sd s) as [thr tl dl qs b cp wq cu o p mc si ti]. cbn [threads queues wait_queues] in *.
  transitivity (mk_sched (delete t (<[t := th]> thr)) tl dl (delete (WaitList (RetcodeWaitQueue t)) (<[WaitList (RetcodeWaitQueue t) := []]> qs)) b cp
    (delete (RetcodeWaitQueue t) (<[RetcodeWaitQueue t := mk_wait_queue WAIT_QUEUE_MAGIC 0]> wq)) cu o p mc si ti); [done|].
  by rewrite !delete_insert_id.
Qed.

Lemma born_free t th m s :
  fresh s t -> retired s = ∅ -> t ∈ heap s -> free t (newborn t th m s) = Some (tt, with_memory (fun h => h ∖ {[t]}) id id s).
Proof.
  intros Hf Hr Ht. rewrite free_run by done. cbn [sd newborn mems retired]. rewrite (struct_gone_born t th s Hf), (delete_insert_id _ _ _ (fs_mem _ _ Hf)), Hr, delete_empty, <- Hr.
  by destruct s.
Qed.

(** ** The struct is initialised *)
Definition blank_thread (c : Z) : thread_t := set_pinned (-1) (set_cookie c (set_magic THREAD_MAGIC zero_thread)).
Definition blank_mem (nm : list Z) : thread_mem := set_name (take 31 nm) (mk_thread_mem 0 0 0 0 0 0 0 [] []).

Lemma cookie_others t (th : thread_t) u (x : sched T) :
  t <> idle_thread 0 -> thread_get_expected_cookie u (with_threads <[t := th]> x) = thread_get_expected_cookie u x.
Proof. intros Hne. unfold thread_get_expected_cookie. cbn. by rewrite lookup_insert_ne. Qed.

Lemma not_idle o (x : sched T) t c : sched_inv o x -> threads x !! t = None -> valid_cpu c -> t <> idle_thread c.
Proof. intros Hi Ht Hv ->. destruct (wf_idle _ _ (inv_wf _ _ Hi) c Hv) as (? & ? & ?). congruence. Qed.

Lemma expected_cookie o (x : sched T) t : sched_inv o x -> exists c, thread_get_expected_cookie t x = Some c.
Proof. intros Hi. unfold thread_get_expected_cookie. destruct (wf_idle _ _ (inv_wf _ _ Hi) 0 valid_cpu_0) as (y & -> & _). by eexists. Qed.

(** Pinning a suspended thread to no cpu. *)
Lemma unpin_suspended cpu (x : sched T) u uh t th :
  thread_lock_owner x = unlocked -> 0 <= cpu < unlocked -> current x !! cpu = Some u -> threads x !! u = Some uh -> u <> t ->
  threads x !! t = Some th -> magic th = THREAD_MAGIC -> state th = THREAD_SUSPENDED -> pinned_cpu th <> -1 ->
  thread_set_pinned_cpu cpu t (-1) x = Some (Return tt, with_threads <[t := set_pinned (-1) th]> x).
Proof.
  intros Ho Hv Hc Hu Hne Ht Hm Hst Hp. pose proof smp_range as Hsmp. unfold thread_set_pinned_cpu, thread_lock_held.
  rewrite (bind_eq _ _ _ _ _ (get_thread_eq _ _ _ Ht)). rewrite assert_bind by (by apply Z.eqb_eq).
  rewrite assert_bind by (apply andb_true_iff; split; [done|apply Z.ltb_lt; lia]). rewrite gets_bind.
  rewrite assert_bind by (apply negb_true_iff, Z.eqb_neq; rewrite Ho; lia).
  unfold THREAD_LOCK, THREAD_UNLOCK. unfold bind at 1. rewrite Ho. rewrite Z.eqb_refl.
  rewrite (proj2 (Z.eqb_neq _ _) Hp). rewrite (bind_eq _ _ _ _ _ (upd_thread_eq (with_owner cpu x) t th _ Ht)). change ((-1 >? -1) && _) with false. cbn iota.
  unfold set_pinned_cpu_switch. rewrite bind_assoc, (bind_eq _ _ _ u (with_threads <[t := set_pinned (-1) th]> (with_owner cpu x))) by (by apply get_current_eq).
  rewrite bind_assoc, (bind_eq _ _ _ uh (with_threads <[t := set_pinned (-1) th]> (with_owner cpu x))) by (apply get_thread_eq; cbn; by rewrite lookup_insert_ne).
  rewrite Hst, ret_bind. unfold finish, THREAD_UNLOCK, bind. cbn. rewrite Z.eqb_refl. unfold unlocked in Ho. unfold ret, with_owner, with_threads. cbn. by rewrite <- Ho.
Qed.

(** A thread whose wait queue is not there yet. *)
Definition unborn t th m s : tsys T :=
  mk_tsys (with_threads <[t := th]> (sd s)) (<[t := m]> (mems s)) (retired s) (heap s) (regions s) (libc_states s).

Lemma unborn_upd {A} t f th m s (k : unit -> M (tsys T) A) :
  bind (on_sched (upd_thread t f)) k (unborn t th m s) = k tt (unborn t (f th) m s).
Proof.
  assert (upd_thread t f (with_threads <[t := th]> (sd s)) = Some (tt, with_threads <[t := f th]> (sd s))) as Hu.
  { rewrite (upd_thread_eq _ t th) by apply lookup_insert_eq. by rewrite with_threads_twice. }
  exact (on_sched_bind _ k (unborn t th m s) tt _ Hu).
Qed.

Lemma unborn_upd_mem {A} t f th m s (k : unit -> M (tsys T) A) :
  bind (upd_mem t f) k (unborn t th m s) = k tt (unborn t th (f m) s).
Proof.
  unfold upd_mem. rewrite bind_assoc, (get_mem_bind _ m) by apply lookup_insert_eq. rewrite modify_bind.
  unfold unborn, with_mems. cbn. by rewrite insert_insert_eq.
Qed.

Lemma unborn_queue {A} t th m s (k : unit -> M (tsys T) A) :
  bind (on_sched (wait_queue_init (RetcodeWaitQueue t))) k (unborn t th m s) = k tt (newborn t th m s).
Proof. done. Qed.

Lemma init_thread_struct_run cpu s u t nm c :
  sched_inv unlocked (sd s) -> current (sd s) !! cpu = Some u -> fresh s t -> thread_get_expected_cookie t (sd s) = Some c ->
  init_thread_struct cpu t nm s = Some (tt, unborn t (blank_thread c) (blank_mem nm) s).
Proof.
  intros Hinv Hcur [_ Ht _ _ _] Hc. destruct (inv_running _ _ Hinv _ _ Hcur) as (uh & Hu & _).
  destruct (wf_current _ _ (inv_wf _ _ Hinv) _ _ Hcur) as [Hv _]. pose proof (not_idle _ _ _ _ Hinv Ht valid_cpu_0) as Hni.
  set (th0 := set_magic THREAD_MAGIC zero_thread). set (m0 := mk_thread_mem 0 0 0 0 0 0 0 [] []).
  unfold init_thread_struct. rewrite modify_sched, modify_bind. change (mk_tsys _ _ _ _ _ _) with (unborn t th0 m0 s).
  change (with_mems _ _) with (unborn t th0 m0 s).
  rewrite (on_sched_same _ _ (unborn t th0 m0 s) c) by (apply getsome_eq; by rewrite <- Hc; apply cookie_others). rewrite unborn_upd.
  assert (thread_set_pinned_cpu cpu t (-1) (with_threads <[t := set_cookie c th0]> (sd s)) =
    Some (Return tt, with_threads <[t := blank_thread c]> (sd s))) as Hpin.
  { rewrite (unpin_suspended cpu _ u uh t (set_cookie c th0)); [by rewrite with_threads_twice| | | | | | | | |].
    - apply (inv_owner _ _ Hinv).
    - unfold valid_cpu in Hv. unfold unlocked. lia.
    - done.
    - cbn. rewrite lookup_insert_ne; [done|]. congruence.
    - congruence.
    - apply lookup_insert_eq.
    - done.
    - done.
    - done. }
  rewrite (on_sched_bind _ _ (unborn t (set_cookie c th0) m0 s) (Return tt) _ Hpin).
  change (with_sd _ _) with (unborn t (blank_thread c) m0 s).
  unfold upd_mem. rewrite (get_mem_bind _ m0) by apply lookup_insert_eq. unfold modify, unborn, with_mems. cbn. by rewrite insert_insert_eq.
Qed.

(** ** What is created *)
Definition created_thread (c prio fl : Z) : thread_t :=
  mk_thread THREAD_MAGIC c prio THREAD_SUSPENDED 0 fl (-1) (-1) 0 None NO_ERROR 0.
Definition created_mem (nm : list Z) (ent arg0 stk stk_size shadow shadow_size : Z) (tl : list Z) : thread_mem :=
  mk_thread_mem stk (stk + stk_size) stk_size shadow shadow_size ent arg0 tl (take 31 nm).
Definition created t th m s : tsys T := with_sd (with_thread_lists (cons t) id (born_sched t th (sd s))) (newborn t th m s).

Definition struct_flag (t : Z) : Z := if t =? 0 then THREAD_FLAG_FREE_STRUCT else 0.
Definition stack_flag (stk : Z) : Z := if stk =? 0 then THREAD_FLAG_FREE_STACK else 0.
Definition shadow_flag : Z := if KERNEL_SCS_ENABLED then THREAD_FLAG_FREE_SHADOW_STACK else 0.

Lemma create_finish_run cpu t fl al th m s u cm :
  thread_lock_owner (sd s) = unlocked -> current (sd s) !! cpu = Some u -> u <> t -> mems s !! u = Some cm ->
  (LK_LIBC_IMPLEMENTATION_IS_MUSL = true -> libc_ret al = NO_ERROR) ->
  create_finish cpu t fl al (newborn t th m s) =
    Some (t, created t (set_flags fl th) (set_tls (tls cm) m) (with_memory id id (if LK_LIBC_IMPLEMENTATION_IS_MUSL then union {[t]} else id) s)).
Proof.
  intros Ho Hc Hne Hm Hl. unfold create_finish. rewrite born_upd. rewrite (on_sched_same _ _ _ u) by (by apply get_current_eq).
  rewrite (get_mem_bind _ cm) by (cbn; by rewrite lookup_insert_ne). rewrite born_upd_mem.
  assert (LK_LIBC_IMPLEMENTATION_IS_MUSL && negb (libc_ret al =? NO_ERROR) = false) as ->.
  { destruct LK_LIBC_IMPLEMENTATION_IS_MUSL; [|done]. by rewrite Hl. }
  set (n := newborn t _ _ _). set (n' := with_memory id id (if LK_LIBC_IMPLEMENTATION_IS_MUSL then union {[t]} else id) n).
  rewrite (bind_eq _ _ n tt n') by (unfold n'; by destruct LK_LIBC_IMPLEMENTATION_IS_MUSL).
  assert (THREAD_LOCK cpu (sd n') = Some (tt, with_owner cpu (sd n'))) as Hlk by (unfold THREAD_LOCK; cbn; by rewrite Ho, Z.eqb_refl).
  rewrite (on_sched_bind _ _ _ _ _ Hlk), modify_sched.
  assert (THREAD_UNLOCK cpu (with_thread_lists (cons t) id (with_owner cpu (sd n'))) = Some (tt, with_thread_lists (cons t) id (sd n'))) as Hul.
  { unfold THREAD_UNLOCK. cbn. rewrite Z.eqb_refl. unfold unlocked in Ho. unfold with_owner, with_thread_lists. cbn. by rewrite <- Ho. }
  by rewrite (on_sched_bind _ _ (with_sd _ _) tt _ Hul).
Qed.

(** The stack, or the caller's; the shadow stack is always the kernel's. *)
Definition stack_of (al : allocs) (stk : Z) : option Z := if stk =? 0 then stack_ret al else Some stk.
Definition shadow_base (v shadow_size : Z) : Z := adjust_shadow_stack_base v (round_up shadow_size 8).

Lemma create_shadow_stack_run cpu t fl sz al c prio nm ent arg0 stk stk_size s u cm v :
  thread_lock_owner (sd s) = unlocked -> current (sd s) !! cpu = Some u -> u <> t -> mems s !! u = Some cm ->
  (LK_LIBC_IMPLEMENTATION_IS_MUSL = true -> libc_ret al = NO_ERROR) -> (KERNEL_SCS_ENABLED = true -> shadow_ret al = Some v) ->
  create_shadow_stack cpu t fl sz al (newborn t (created_thread c prio 0) (created_mem nm ent arg0 stk stk_size 0 0 []) s) =
    Some (t, created t (created_thread c prio (Z.lor fl shadow_flag))
      (created_mem nm ent arg0 stk stk_size (if KERNEL_SCS_ENABLED then shadow_base v sz else 0) (if KERNEL_SCS_ENABLED then round_up sz 8 else 0) (tls cm))
      (with_memory id (if KERNEL_SCS_ENABLED then union {[v]} else id) (if LK_LIBC_IMPLEMENTATION_IS_MUSL then union {[t]} else id) s)).
Proof.
  intros Ho Hc Hne Hm Hl Hsh. unfold create_shadow_stack, shadow_flag. destruct KERNEL_SCS_ENABLED.
  - rewrite born_upd_mem, Hsh by done. cbn [vmm_alloc]. rewrite bind_assoc, modify_bind, ret_bind.
    change (with_memory _ _ _ (newborn t ?th ?m s)) with (newborn t th m (with_memory id (union {[v]}) id s)). rewrite born_upd_mem.
    by rewrite (create_finish_run cpu t _ al _ _ _ u cm).
  - rewrite Z.lor_0_r. by rewrite (create_finish_run cpu t _ al _ _ _ u cm).
Qed.

(** ** [thread_create_etc] *)
Lemma create_prefix {A} cpu s u t nm c ent arg0 prio (k : M (tsys T) A) :
  sched_inv unlocked (sd s) -> current (sd s) !! cpu = Some u -> fresh s t -> thread_get_expected_cookie t (sd s) = Some c ->
  (init_thread_struct cpu t nm ;; upd_mem t (set_entry ent arg0) ;; on_sched (upd_thread t (set_priority prio)) ;;
   on_sched (upd_thread t (set_state THREAD_SUSPENDED)) ;; on_sched (upd_thread t (set_wait None NO_ERROR)) ;;
   on_sched (upd_thread t (set_curr_cpu (-1))) ;; on_sched (upd_thread t (set_retcode 0)) ;;
   on_sched (wait_queue_init (RetcodeWaitQueue t)) ;; on_sched (upd_thread t (set_aspace 0)) ;; k) s =
  k (newborn t (created_thread c prio 0) (set_entry ent arg0 (blank_mem nm)) s).
Proof.
  intros Hs Hc Hf Hck. rewrite (bind_eq _ _ _ _ _ (init_thread_struct_run cpu s u t nm c Hs Hc Hf Hck)).
  by rewrite unborn_upd_mem, !unborn_upd, unborn_queue, born_upd.
Qed.

Lemma fresh_memory f g h s t : fresh s t -> fresh (with_memory f g h s) t.
Proof. intros [F1 F2 F3 F4 F5]. by constructor. Qed.

Lemma priority_ok prio : IDLE_PRIORITY < prio <= HIGHEST_PRIORITY -> prio >? IDLE_PRIORITY = true /\ prio <=? HIGHEST_PRIORITY = true.
Proof. intros [? ?]. rewrite Z.gtb_ltb. split; [by apply Z.ltb_lt|by apply Z.leb_le]. Qed.

Definition struct_of (al : allocs) (t : Z) : option Z := if t =? 0 then malloc_ret al else Some t.

(** The thread and what has been allocated for it, if every allocation works. *)
Definition after_create s p c prio (al : allocs) t nm ent arg0 stk v stk_size w sz (tl : list Z) : tsys T :=
  created p (created_thread c prio (Z.lor (Z.lor (struct_flag t) (stack_flag stk)) shadow_flag))
    (created_mem nm ent arg0 v stk_size (if KERNEL_SCS_ENABLED then shadow_base w sz else 0) (if KERNEL_SCS_ENABLED then round_up sz 8 else 0) tl)
    (with_memory (if t =? 0 then union {[p]} else id)
      (fun r => (if KERNEL_SCS_ENABLED then union {[w]} else id) ((if stk =? 0 then union {[v]} else id) r))
      (if LK_LIBC_IMPLEMENTATION_IS_MUSL then union {[p]} else id) s).

Lemma create_struct {A} al t p (k : Z * Z -> M (tsys T) A) s :
  struct_of al t = Some p ->
  bind (if t =? 0 then p <- malloc (malloc_ret al) ;; ret (p, THREAD_FLAG_FREE_STRUCT) else ret (t, 0)) k s =
    k (p, struct_flag t) (with_memory (if t =? 0 then union {[p]} else id) id id s).
Proof.
  unfold struct_of, struct_flag. destruct (t =? 0); intros Hp.
  - rewrite Hp. done.
  - injection Hp as ->. rewrite ret_bind. by destruct s.
Qed.

Lemma thread_create_etc_run cpu s u cm p c prio al t nm ent arg0 stk v stk_size w sz :
  thread_inv unlocked s -> current (sd s) !! cpu = Some u -> mems s !! u = Some cm -> fresh s p ->
  thread_get_expected_cookie p (sd s) = Some c -> IDLE_PRIORITY < prio <= HIGHEST_PRIORITY ->
  struct_of al t = Some p -> stack_of al stk = Some v -> (KERNEL_SCS_ENABLED = true -> shadow_ret al = Some w) ->
  (LK_LIBC_IMPLEMENTATION_IS_MUSL = true -> libc_ret al = NO_ERROR) ->
  thread_create_etc cpu al t nm ent arg0 prio stk stk_size sz s =
    Some (p, after_create s p c prio al t nm ent arg0 stk v stk_size w sz (tls cm)).
Proof.
  intros Hs Hc Hm Hf Hck Hprio Hp Hv Hw Hl. pose proof Hs as [Hinv Hli]. destruct (priority_ok _ Hprio) as [P1 P2].
  unfold thread_create_etc. rewrite assert_bind by done. rewrite assert_bind by done. rewrite (create_struct _ _ p) by done.
  rewrite (proj2 (Z.eqb_neq p 0) (fs_null _ _ Hf)). set (s0 := with_memory _ _ _ s).
  rewrite (create_prefix cpu s0 u p nm c ent arg0 prio) by (done || by apply fresh_memory).
  set (fl1 := Z.lor (struct_flag t) (stack_flag stk)). set (s1 := with_memory id (if stk =? 0 then union {[v]} else id) id s0).
  match goal with |- bind ?m ?k ?x = _ => rewrite (bind_eq m k x (Some v, fl1) (newborn p (created_thread c prio 0) (set_entry ent arg0 (blank_mem nm)) s1)) end.
  2: { unfold stack_of in Hv. unfold fl1, stack_flag, s1. destruct (stk =? 0); [rewrite Hv; done|]. injection Hv as ->. by rewrite Z.lor_0_r. }
  cbn iota beta. rewrite born_upd_mem.
  assert (u <> p) as Hne. { destruct (inv_running _ _ Hinv _ _ Hc) as (uh & Hu & _). pose proof (fs_thread _ _ Hf). congruence. }
  exact (create_shadow_stack_run cpu p fl1 sz al c prio nm ent arg0 v stk_size s1 u cm w (inv_owner _ _ Hinv) Hc Hne Hm Hl Hw).
Qed.

(** ** No memory *)
Lemma memory_back s p : p ∉ heap s -> with_memory (fun h => h ∖ {[p]}) id id (with_memory (union {[p]}) id id s) = s.
Proof.
  intros Hp. destruct s as [x me re h r l]. unfold with_memory, id. cbn in *. f_equal. apply leibniz_equiv. intros y.
  rewrite elem_of_difference, elem_of_union, elem_of_singleton. naive_solver.
Qed.

Lemma create_no_struct cpu al nm ent arg0 prio stk stk_size sz s :
  IDLE_PRIORITY < prio <= HIGHEST_PRIORITY -> malloc_ret al = None ->
  thread_create_etc cpu al 0 nm ent arg0 prio stk stk_size sz s = Some (0, s).
Proof.
  intros Hprio Hm. destruct (priority_ok _ Hprio) as [P1 P2]. unfold thread_create_etc. rewrite assert_bind by done. rewrite assert_bind by done.
  cbn. by rewrite Hm.
Qed.

(** Without room for the state of the C library the stack is given to [free], too. *)
Lemma free_no_heap v (s1 : tsys T) : v ∉ heap s1 -> free v s1 = None.
Proof. intros Hv. unfold free. rewrite gets_bind. unfold bind at 1. by rewrite bool_decide_eq_false_2. Qed.

Lemma fail_libc_stuck p fl th m (s1 : tsys T) :
  stack m ∉ heap s1 -> negb (Z.land fl THREAD_FLAG_FREE_STACK =? 0) = true -> create_fail_libc fl p (newborn p th m s1) = None.
Proof.
  intros Hv Hfl. unfold create_fail_libc. rewrite born_get_mem, Hfl. cbn [when]. destruct (KERNEL_SCS_ENABLED && _); cbn [when].
  - destruct (decide (shadow_stack m ∈ heap (newborn p th m s1))) as [Hin|Hin].
    + rewrite (bind_eq _ _ _ _ _ (free_run _ _ Hin)). unfold bind at 1. rewrite free_no_heap; [done|]. cbn. set_solver.
    + unfold bind at 1. by rewrite free_no_heap.
  - rewrite ret_bind. unfold bind at 1. by rewrite free_no_heap.
Qed.

(** Up to the stack, when [malloc] has returned [p]. *)
Section to_stack.
Context (cpu : Z) (s : tsys T) (u p c prio : Z) (al : allocs).
Context (Hs : thread_inv unlocked s) (Hc : current (sd s) !! cpu = Some u) (Hf : fresh s p)
  (Hck : thread_get_expected_cookie p (sd s) = Some c) (Hprio : IDLE_PRIORITY < prio <= HIGHEST_PRIORITY)
  (Hp : malloc_ret al = Some p).

Lemma heap_fresh : p ∉ heap s.
Proof using Hs Hf. intros Hin. apply (lf_heap _ (proj2 Hs)) in Hin as (th & Ht & _). pose proof (fs_thread _ _ Hf). congruence. Qed.

Definition with_struct : tsys T := with_memory (union {[p]}) id id s.

Lemma give_back_struct th m : free p (newborn p th m with_struct) = Some (tt, s).
Proof using Hs Hf.
  rewrite (born_free p th m with_struct); [|by apply fresh_memory|apply (lf_retired _ (proj2 Hs))|cbn; by apply elem_of_union_l, elem_of_singleton].
  unfold with_struct. by rewrite memory_back by apply heap_fresh.
Qed.

Lemma create_no_stack nm ent arg0 stk_size sz :
  stack_ret al = None -> thread_create_etc cpu al 0 nm ent arg0 prio 0 stk_size sz s = Some (0, s).
Proof using All.
  intros Hst. destruct (priority_ok _ Hprio) as [P1 P2]. unfold thread_create_etc. rewrite assert_bind by done. rewrite assert_bind by done.
  rewrite (create_struct al 0 p) by done. rewrite (proj2 (Z.eqb_neq p 0) (fs_null _ _ Hf)). change (with_memory _ _ _ s) with with_struct.
  rewrite (create_prefix cpu with_struct u p nm c ent arg0 prio) by (apply Hs || done || by apply fresh_memory).
  change (0 =? 0) with true. cbn iota. rewrite Hst. cbn [vmm_alloc]. rewrite bind_assoc, !ret_bind. cbn iota.
  change (when (negb (Z.land (struct_flag 0) THREAD_FLAG_FREE_STRUCT =? 0)) (free p)) with (free (T := T) p).
  by rewrite (bind_eq _ _ _ _ _ (give_back_struct _ _)).
Qed.

(** With a stack of its own and a shadow stack, the allocation of the shadow
    stack may fail; then the stack, a region of the kernel, is given to [free]. *)
Lemma create_no_shadow_stack v nm ent arg0 stk_size sz :
  stack_ret al = Some v -> v ∉ heap s -> v <> p -> KERNEL_SCS_ENABLED = true -> shadow_ret al = None ->
  thread_create_etc cpu al 0 nm ent arg0 prio 0 stk_size sz s = None.
Proof using All.
  intros Hst Hv Hvp Hscs Hsh. destruct (priority_ok _ Hprio) as [P1 P2]. unfold thread_create_etc. rewrite assert_bind by done. rewrite assert_bind by done.
  rewrite (create_struct al 0 p) by done. rewrite (proj2 (Z.eqb_neq p 0) (fs_null _ _ Hf)). change (with_memory _ _ _ s) with with_struct.
  rewrite (create_prefix cpu with_struct u p nm c ent arg0 prio) by (apply Hs || done || by apply fresh_memory).
  change (0 =? 0) with true. cbn iota. rewrite Hst. cbn [vmm_alloc]. rewrite bind_assoc, bind_assoc, modify_bind, !ret_bind. cbn iota.
  change (with_memory id (union {[v]}) id (newborn p ?th ?m with_struct)) with (newborn p th m (with_memory id (union {[v]}) id with_struct)).
  rewrite born_upd_mem. unfold create_shadow_stack. rewrite Hscs, born_upd_mem, Hsh. cbn [vmm_alloc]. rewrite ret_bind, born_get_mem.
  change (when (negb (Z.land (Z.lor (struct_flag 0) THREAD_FLAG_FREE_STACK) THREAD_FLAG_FREE_STACK =? 0)) (free ?b)) with (free (T := T) b).
  unfold bind at 1, free at 1. rewrite gets_bind. unfold bind at 1. cbn [stack set_shadow_stack set_stack heap newborn with_memory with_struct id].
  rewrite bool_decide_eq_false_2; [done|]. rewrite elem_of_union, elem_of_singleton. naive_solver.
Qed.

Lemma create_no_libc v w nm ent arg0 stk_size sz cm :
  stack_ret al = Some v -> v ∉ heap s -> v <> p -> (KERNEL_SCS_ENABLED = true -> shadow_ret al = Some w) -> mems s !! u = Some cm -> u <> p ->
  LK_LIBC_IMPLEMENTATION_IS_MUSL = true -> libc_ret al <> NO_ERROR ->
  thread_create_etc cpu al 0 nm ent arg0 prio 0 stk_size sz s = None.
Proof using All.
  intros Hst Hv Hvp Hsh Hcm Hup Hmusl Hlibc. destruct (priority_ok _ Hprio) as [P1 P2]. unfold thread_create_etc. rewrite assert_bind by done. rewrite assert_bind by done.
  rewrite (create_struct al 0 p) by done. rewrite (proj2 (Z.eqb_neq p 0) (fs_null _ _ Hf)). change (with_memory _ _ _ s) with with_struct.
  rewrite (create_prefix cpu with_struct u p nm c ent arg0 prio) by (apply Hs || done || by apply fresh_memory).
  change (0 =? 0) with true. cbn iota. rewrite Hst. cbn [vmm_alloc]. rewrite bind_assoc, bind_assoc, modify_bind, !ret_bind. cbn iota.
  set (s1 := with_memory id (union {[v]}) id with_struct).
  change (with_memory id (union {[v]}) id (newborn p ?th ?m with_struct)) with (newborn p th m s1). rewrite born_upd_mem.
  assert (forall fl th m (s2 : tsys T), stack m = v -> heap s2 = heap s1 -> current (sd s2) = current (sd s) -> mems s2 = mems s ->
    negb (Z.land fl THREAD_FLAG_FREE_STACK =? 0) = true -> create_finish cpu p fl al (newborn p th m s2) = None) as Hfin.
  { intros fl th m s2 Hm Hh Hcu Hms Hfl. unfold create_finish. rewrite born_upd, (on_sched_same _ _ _ u) by (apply get_current_eq; cbn; by rewrite Hcu).
    rewrite (get_mem_bind _ cm) by (cbn; by rewrite lookup_insert_ne, Hms). rewrite born_upd_mem, Hmusl, (proj2 (Z.eqb_neq _ _) Hlibc). cbn [andb negb].
    apply fail_libc_stuck; [|done]. cbn. rewrite Hm, Hh. cbn. rewrite elem_of_union, elem_of_singleton. naive_solver. }
  unfold create_shadow_stack. destruct KERNEL_SCS_ENABLED eqn:Hscs; [|by apply Hfin]. rewrite born_upd_mem, Hsh by done. cbn [vmm_alloc]. rewrite bind_assoc, modify_bind, ret_bind.
  change (with_memory id (union {[w]}) id (newborn p ?th ?m s1)) with (newborn p th m (with_memory id (union {[w]}) id s1)). rewrite born_upd_mem. by apply Hfin.
Qed.
End to_stack.

(** ** The new thread joins the others *)
Lemma created_sched_inv o s t th :
  sched_inv o (sd s) -> fresh s t -> state th = THREAD_SUSPENDED -> curr_cpu th = -1 -> magic th = THREAD_MAGIC ->
  0 <= priority th < NUM_PRIORITIES -> -1 <= pinned_cpu th < SMP_MAX_CPUS -> thread_get_expected_cookie t (sd s) = Some (cookie th) ->
  sched_inv o (born_sched t th (sd s)).
Proof.
  intros Hi [_ Ht _ Hq _] Hst Hcc Hm Hp Hpin Hck. pose proof (new_thread_inv o (sd s) t th Hi Ht Hst Hcc Hm Hp Hpin Hck) as Hn.
  destruct (wait_queue_init_run (RetcodeWaitQueue t) _ o Hn) as (x & Hr & Hx & _); [by left|]. injection Hr as <-. exact Hx.
Qed.

Lemma life_created s t th m (H' R' : gset Z) (L' : gset Z) :
  life_inv s -> fresh s t -> state th = THREAD_SUSPENDED -> thread_is_idle th = false -> detached th = false -> blocking_wait_queue th = None ->
  (forall x, x ∈ H' <-> x ∈ heap s \/ x = t /\ has_flag THREAD_FLAG_FREE_STRUCT th = true) ->
  (forall r, r ∈ R' <-> r ∈ regions s \/ r ∈ own_regions th m) -> (forall r, r ∈ own_regions th m -> r ∉ regions s) ->
  (KERNEL_SCS_ENABLED = true -> has_flag THREAD_FLAG_FREE_SHADOW_STACK th = true -> shadow_stack m <> 0) ->
  life_inv (mk_tsys (with_thread_lists (cons t) id (born_sched t th (sd s))) (<[t := m]> (mems s)) (retired s) H' R' L').
Proof.
  intros [Hc He] [F1 F2 F3 F4 F5] Hst Hi Hdt Hb HH HR HRn Hsh. assert (dead th = false) as Hd by (unfold dead; by rewrite Hst).
  assert (forall x y, <[t := th]> (threads (sd s)) !! x = Some y -> (x = t /\ y = th) \/ (x <> t /\ threads (sd s) !! x = Some y)) as Hfrom.
  { intros x y [[<- <-]|[? ?]]%lookup_insert_Some; [by left|right]. done. }
  assert (forall x, is_Some (threads (sd s) !! x) -> x <> t) as Hne by (intros x [y Hy]; congruence).
  assert (forall x, x ∈ thread_list (sd s) ++ dead_threads (sd s) -> x <> t) as Hnl by (intros x Hx; by apply Hne, Hc).
  assert (forall w, queue_at (sd s) w -> queue_at (born_sched t th (sd s)) w) as Hqa.
  { intros w [Hx Hy]. unfold queue_at. cbn. rewrite !lookup_insert_ne; [done| |].
    - intros <-. by rewrite F5 in Hy.
    - intros [= <-]. rewrite F4 in Hx. by destruct Hx. }
  assert (forall x y, x <> t -> (exists z n, <[t := th]> (threads (sd s)) !! x = Some z /\ <[t := m]> (mems s) !! x = Some n /\ y ∈ own_regions z n) <->
    (exists z n, threads (sd s) !! x = Some z /\ mems s !! x = Some n /\ y ∈ own_regions z n)) as Hown.
  { intros x y Hx. by rewrite !lookup_insert_ne. }
  split; [constructor; cbn [sd mems heap regions retired]|].
  - change (NoDup (t :: thread_list (sd s) ++ dead_threads (sd s))). apply NoDup_cons. split; [intros Hin; by apply (Hnl t)|apply Hc].
  - intros x [->|Hx]%elem_of_cons; cbn; [by rewrite lookup_insert_eq; eexists|]. rewrite lookup_insert_ne; [by apply Hc|]. intros Heq. symmetry in Heq. by apply (Hnl x).
  - intros x y [[-> ->]|[Hx Hy]]%Hfrom Hxi; cbn; [rewrite Hd; by left|]. pose proof (lf_thread _ Hc x y Hy Hxi) as Hin. destruct (_ && _); [done|by right].
  - intros x y Hin [[-> ->]|[Hx Hy]]%Hfrom; [exfalso; apply (Hnl t); [apply elem_of_app; by right|done]|by apply (lf_dead _ Hc x)].
  - intros x y [[-> ->]|[Hx Hy]]%Hfrom; [congruence|by apply (lf_dead_idle _ Hc x)].
  - intros x y [[-> ->]|[Hx Hy]]%Hfrom; [done|by apply (lf_blocking _ Hc x)].
  - intros x y [[-> ->]|[Hx Hy]]%Hfrom Hxi; [|by apply Hqa, (lf_queue _ Hc x y)]. unfold queue_at. cbn. rewrite !lookup_insert_eq. split; [by eexists|done].
  - exact (Hqa _ (lf_reaper _ Hc)).
  - intros x [y [[-> ->]|[Hx Hy]]%Hfrom]; [rewrite lookup_insert_eq; by eexists|]. rewrite lookup_insert_ne by done. apply (lf_mem _ Hc). by eexists.
  - apply Hc.
  - intros x. rewrite HH, (lf_heap _ Hc). cbn. split.
    + intros [(y & Hy & Hfl)|[-> Hfl]]; [|exists th; by rewrite lookup_insert_eq]. exists y. rewrite lookup_insert_ne; [done|]. intros ->. congruence.
    + intros (y & [[-> ->]|[Hx Hy]]%Hfrom & Hfl); [by right|left; by exists y].
  - intros r. rewrite HR, (lf_regions _ Hc). split.
    + intros [(x & y & n & Hx & Hn & Hr)|Hr]; [|exists t, th, m; cbn; by rewrite !lookup_insert_eq].
      exists x. apply (Hown x); [apply Hne; by eexists|]. by exists y, n.
    + intros (x & y & n & Hx & Hn & Hr). destruct (decide (x = t)) as [->|Hxt].
      * right. cbn in Hx, Hn. rewrite lookup_insert_eq in Hx. rewrite lookup_insert_eq in Hn. by simplify_eq.
      * left. exists x. apply (Hown x); [done|]. by exists y, n.
  - assert (forall x y n r, <[t := th]> (threads (sd s)) !! x = Some y -> <[t := m]> (mems s) !! x = Some n -> r ∈ own_regions y n ->
      x = t /\ r ∉ regions s \/ r ∈ regions s /\ threads (sd s) !! x = Some y /\ mems s !! x = Some n) as Hcase.
    { intros x y n r [[-> ->]|[Hx Hy]]%Hfrom Hn Hr.
      - rewrite lookup_insert_eq in Hn. injection Hn as <-. left. split; [done|by apply HRn].
      - rewrite lookup_insert_ne in Hn by done. right. split; [|done]. apply (lf_regions _ Hc). by exists x, y, n. }
    intros r x x' y y' n n' Hx Hn Hx' Hn' Hr Hr'.
    destruct (Hcase _ _ _ _ Hx Hn Hr) as [[-> G1]|(G1 & G2 & G3)], (Hcase _ _ _ _ Hx' Hn' Hr') as [[-> G4]|(G4 & G5 & G6)]; try done.
    exact (lf_regions_once _ Hc r x x' y y' n n' G2 G3 G5 G6 Hr Hr').
  - intros x y n [[-> ->]|[Hx Hy]]%Hfrom Hn; [rewrite lookup_insert_eq in Hn; by injection Hn as <-|]. rewrite lookup_insert_ne in Hn by done. by apply (lf_shadow _ Hc x).
  - intros w Hw. destruct (decide (w = RetcodeWaitQueue t)) as [->|Hwt]; [cbn; by rewrite lookup_insert_eq|]. cbn. rewrite lookup_insert_ne by congruence. apply He.
    destruct w as [a|x|]; [done| |done]. destruct Hw as (y & [[-> ->]|[Hx Hy]]%Hfrom & Hyi); [done|by exists y].
Qed.

Lemma round_up_ge n k : 0 < k -> n <= round_up n k.
Proof. intros Hk. unfold round_up. pose proof (Z.div_mod (n + k - 1) k ltac:(lia)). pose proof (Z.mod_pos_bound (n + k - 1) k Hk). nia. Qed.

Lemma revert_adjust base size : revert_shadow_stack_base (adjust_shadow_stack_base base size) size = base.
Proof. unfold revert_shadow_stack_base, adjust_shadow_stack_base. lia. Qed.

(** What the kernel's address space gives out is not at 0 and not given out twice. *)
Record regions_ok s (stk v w : Z) : Prop := {
  ro_page : 0 < PAGE_SIZE;
  ro_stack : stk = 0 -> v <> 0 /\ v ∉ regions s;
  ro_shadow : KERNEL_SCS_ENABLED = true -> 0 < w /\ w ∉ regions s /\ (stk = 0 -> w <> v)
}.

Definition new_regions (stk v w : Z) : list Z := (if stk =? 0 then [v] else []) ++ (if KERNEL_SCS_ENABLED then [w] else []).

Lemma created_flag t stk f :
  f = THREAD_FLAG_FREE_STRUCT \/ f = THREAD_FLAG_FREE_STACK \/ f = THREAD_FLAG_FREE_SHADOW_STACK \/ f = THREAD_FLAG_DETACHED \/ f = THREAD_FLAG_IDLE ->
  forall c prio, has_flag f (created_thread c prio (Z.lor (Z.lor (struct_flag t) (stack_flag stk)) shadow_flag)) =
    (t =? 0) && (f =? THREAD_FLAG_FREE_STRUCT) || (stk =? 0) && (f =? THREAD_FLAG_FREE_STACK) ||
    KERNEL_SCS_ENABLED && (f =? THREAD_FLAG_FREE_SHADOW_STACK).
Proof.
  intros Hf c prio. unfold has_flag, created_thread, struct_flag, stack_flag, shadow_flag. cbn [flags].
  destruct (t =? 0), (stk =? 0), KERNEL_SCS_ENABLED, Hf as [->|[->|[->|[->| ->]]]]; reflexivity.
Qed.

Lemma created_regions c prio t stk nm ent arg0 v stk_size w sz tl : (stk = 0 -> v <> 0) ->
  own_regions (created_thread c prio (Z.lor (Z.lor (struct_flag t) (stack_flag stk)) shadow_flag))
    (created_mem nm ent arg0 v stk_size (if KERNEL_SCS_ENABLED then shadow_base w sz else 0) (if KERNEL_SCS_ENABLED then round_up sz 8 else 0) tl) = new_regions stk v w.
Proof.
  intros Hv. unfold own_regions, new_regions. rewrite !created_flag by auto 6. cbn [stack shadow_stack shadow_stack_size created_mem]. f_equal.
  - change (THREAD_FLAG_FREE_STACK =? _) with false at 1. change (THREAD_FLAG_FREE_STACK =? _) with true at 1. change (THREAD_FLAG_FREE_STACK =? _) with false.
    rewrite !andb_false_r, orb_false_r, andb_true_r. cbn [orb]. destruct (Z.eqb_spec stk 0) as [->|]; [|done]. cbn [andb]. rewrite (proj2 (Z.eqb_neq v 0)) by auto. done.
  - change (THREAD_FLAG_FREE_SHADOW_STACK =? _) with false at 1. change (THREAD_FLAG_FREE_SHADOW_STACK =? _) with false at 1. change (THREAD_FLAG_FREE_SHADOW_STACK =? _) with true.
    rewrite !andb_false_r, andb_true_r. cbn [orb]. destruct KERNEL_SCS_ENABLED; [|done]. cbn. unfold shadow_base. by rewrite revert_adjust.
Qed.

Lemma created_inv s p c prio al t nm ent arg0 stk v stk_size w sz tl :
  thread_inv unlocked s -> fresh s p -> thread_get_expected_cookie p (sd s) = Some c -> IDLE_PRIORITY < prio <= HIGHEST_PRIORITY ->
  regions_ok s stk v w -> thread_inv unlocked (after_create s p c prio al t nm ent arg0 stk v stk_size w sz tl).
Proof.
  intros [Hi Hl] Hf Hck Hprio [R1 R2 R3]. pose proof smp_range as Hsmp. unfold IDLE_PRIORITY, HIGHEST_PRIORITY, NUM_PRIORITIES in *.
  set (th := created_thread c prio (Z.lor (Z.lor (struct_flag t) (stack_flag stk)) shadow_flag)).
  split; [apply thread_lists_inv, (created_sched_inv _ s p th); try done; cbn; unfold NUM_PRIORITIES; lia|].
  pose proof (created_regions c prio t stk nm ent arg0 v stk_size w sz tl) as Hown. fold th in Hown.
  apply (life_created s p th); try done.
  - unfold thread_is_idle, th. rewrite created_flag by auto 6. by rewrite !andb_false_r.
  - unfold detached, th. rewrite created_flag by auto 6. by rewrite !andb_false_r.
  - intros x. unfold th. rewrite created_flag by auto. rewrite !andb_false_r, andb_true_r, !orb_false_r. cbn. destruct (t =? 0).
    + rewrite elem_of_union, elem_of_singleton. tauto.
    + unfold id. naive_solver.
  - intros r. rewrite Hown by (intros; by apply R2). unfold new_regions. rewrite elem_of_app. cbn [with_memory regions].
    destruct (stk =? 0), KERNEL_SCS_ENABLED; unfold id; clear; set_solver.
  - intros r. rewrite Hown by (intros; by apply R2). unfold new_regions. destruct (Z.eqb_spec stk 0) as [E1|], KERNEL_SCS_ENABLED;
      cbn [app]; rewrite ?elem_of_cons, ?elem_of_nil; intros Hr; destruct_or?; subst; try done; (by apply R2) || by apply R3.
  - intros Hk _. cbn [shadow_stack created_mem]. rewrite Hk. destruct (R3 Hk) as [Hw _]. unfold shadow_base, adjust_shadow_stack_base.
    pose proof (round_up_ge (round_up sz 8) PAGE_SIZE R1). lia.
Qed.
End create.
