(* ===== verification/ThreadProps.v ===== *)
(** * The life of a thread: what the operations of thread.c promise *)
From stdpp Require Import base gmap list.
From Stdlib Require Import ZArith Lia.
From S2P Require Import Prelude Timer Sched SchedTimer SchedInv SchedOps SchedApi SchedWait SchedCheck SchedLists Thread ThreadInv ThreadOps ThreadCalls ThreadCreate.

Local Open Scope Z_scope.
Local Open Scope lk_scope.

Section reaper.
Context {T : Type} `{!TimerOps T} `{!Config} `{!ThreadBuild} `{!TimerLaws T} `{!ConfigLaws}.
Implicit Types (s : tsys T) (t cpu : Z).

(** The reaper goes back to its wait. *)
Lemma reaper_blocks rounds fuel cpu s u uh :
  thread_inv cpu s -> current (sd s) !! cpu = Some u -> threads (sd s) !! u = Some uh -> thread_is_idle uh = false ->
  timeout_pending (timers (sd s)) u = false -> dead_threads (sd s) = [] ->
  exists l s', reaper_loop (S rounds) fuel cpu s = Some (Switched, s') /\ thread_inv cpu s' /\
    queues (sd s) !! WaitList ReaperWaitQueue = Some l /\ queues (sd s') !! WaitList ReaperWaitQueue = Some (l ++ [u]) /\
    exists x' new, s' = with_sd x' s /\ same_lists (sd s) x' /\ took_over cpu u uh ReaperWaitQueue (sd s) x' new.
Proof.
  intros Hs Hc Hu Hi Hp Hd. destruct (block_life cpu s u uh ReaperWaitQueue INFINITE_TIME Hs Hc Hu Hi) as (l & x & Hl & Hr & Hs' & Hq & new & Hcu).
  - apply (lf_reaper _ (proj2 Hs)).
  - intros Hn. by apply Hn.
  - done.
  - done.
  - exists l, (with_sd x s). split; [cbn [reaper_loop]; by rewrite (on_sched_bind _ _ _ _ _ Hr)|]. split_and!; [done..|].
    exists x, new. split_and!; [done| |done]. exact (keeps_block cpu ReaperWaitQueue INFINITE_TIME _ _ _ Hr).
Qed.

(** What the reaper [u] leaves when it waits again: the dead detached threads are gone,
    with their structs, their regions and the states of the C library they owned; of the
    others, what they own and their memory is as before, and so are the threads themselves,
    but for the reaper and the thread [new] that has its cpu. *)
Record reaper_done cpu u uh s s' : Prop := {
  rd_inv : thread_inv cpu s';
  rd_dead : dead_threads (sd s') = [];
  rd_list : thread_list (sd s') = thread_list (sd s);
  rd_threads : forall t, is_Some (threads (sd s') !! t) <-> is_Some (threads (sd s) !! t) /\ t ∉ dead_threads (sd s);
  rd_heap : forall t, t ∈ heap s' <-> t ∈ heap s /\ t ∉ dead_threads (sd s);
  rd_regions : forall r, r ∈ regions s' <-> r ∈ regions s /\
    forall t th m, t ∈ dead_threads (sd s) -> threads (sd s) !! t = Some th -> mems s !! t = Some m -> r ∉ own_regions th m;
  rd_libc : forall t, t ∈ libc_states s' <-> t ∈ libc_states s /\
    forall th, t ∈ dead_threads (sd s) -> threads (sd s) !! t = Some th -> own_libc th = false;
  rd_mems : forall t, t ∉ dead_threads (sd s) -> mems s' !! t = mems s !! t;
  rd_waits : exists l, queues (sd s') !! WaitList ReaperWaitQueue = Some (l ++ [u]);
  rd_others : exists new, current (sd s') = <[cpu := new]> (current (sd s)) /\ new <> u /\
    threads (sd s') !! u = Some (set_curr_cpu (-1) (blocked ReaperWaitQueue uh)) /\
    (forall t, t ∉ dead_threads (sd s) -> t <> new -> t <> u -> threads (sd s') !! t = threads (sd s) !! t) /\
    exists n n', threads (sd s) !! new = Some n /\ threads (sd s') !! new = Some n' /\ state n' = THREAD_RUNNING /\
      flags n' = flags n /\ priority n' = priority n /\ pinned_cpu n' = pinned_cpu n /\ aspace n' = aspace n
}.

Lemma reaper_round rounds fuel cpu s u uh :
  thread_inv cpu s -> current (sd s) !! cpu = Some u -> threads (sd s) !! u = Some uh -> thread_is_idle uh = false ->
  timeout_pending (timers (sd s)) u = false -> (length (dead_threads (sd s)) <= fuel)%nat ->
  exists s', reaper_resumed (S rounds) fuel cpu s = Some (Switched, s') /\ reaper_done cpu u uh s s'.
Proof.
  intros [Hi Hl] Hc Hu Hid Hp Hf. destruct (inv_running _ _ Hi _ _ Hc) as (? & Hu' & Hst). simplify_eq.
  destruct (wait_queue_block_resume_run cpu (sd s) u uh INFINITE_TIME Hi Hc Hu ltac:(done)) as (x & Hr & Hi1 & Hpe & _).
  set (s1 := with_sd (with_timers x (sd s)) s).
  assert (thread_inv cpu s1) as Hs1 by (split; [exact Hi1|by apply life_same]).
  destruct (reap_dead_run cpu (dead_threads (sd s)) fuel s1 Hs1 ltac:(done) Hf) as (s2 & Hr2 & Hs2 & [P1 P2 P3 P4 P5 P6 P7 P8 P9]).
  assert (u ∉ dead_threads (sd s)) as Hun.
  { intros Hin. destruct (lf_dead _ Hl u uh Hin Hu) as [Hd _]. unfold dead in Hd. rewrite Hst in Hd. done. }
  assert (threads (sd s2) !! u = Some uh) as Hu2 by (by rewrite P3, decide_False).
  assert (timeout_pending (timers (sd s2)) u = false) as Hp2.
  { rewrite P5. change (timeout_pending x u = false). rewrite Hpe, decide_True by done. exact Hp. }
  destruct (reaper_blocks rounds fuel cpu s2 u uh Hs2) as (l & s3 & Hr3 & Hs3 & _ & Hq3 & x3 & new & -> & (L1 & L2 & L3) & [T1 T2 T3 T4 (n & n' & T5 & T6)]); [by rewrite P4|done..|].
  exists (with_sd x3 s2). split.
  - unfold reaper_resumed. rewrite (on_sched_bind _ _ _ _ _ Hr). by rewrite (bind_eq _ _ _ _ _ Hr2).
  - constructor; [done|cbn; by rewrite L2|cbn; by rewrite L1, P2| |exact P6|exact P7|exact P9|exact P8|by exists l|].
    + intros t. cbn. rewrite <- elem_of_dom, L3, elem_of_dom, P3. destruct (decide _); split; [by intros []|tauto|done|tauto].
    + exists new. split_and!; [cbn; by rewrite T1, P4|done|done| |].
      * intros t Hd Hn Htu. cbn. rewrite T4, P3 by done. by rewrite decide_False.
      * exists n, n'. rewrite P3 in T5. by destruct (decide _).
Qed.
End reaper.

Section props.
Context {T : Type} `{!TimerOps T} `{!Config} `{!ThreadBuild} `{!TimerLaws T} `{!ConfigLaws}.
Implicit Types (s : tsys T) (t cpu : Z).

(** What the allocators may return: free memory, and a region is not in the heap. *)
Record fresh_allocs s (al : allocs) : Prop := {
  fa_page : 0 < PAGE_SIZE;
  fa_struct : forall p, malloc_ret al = Some p -> fresh s p;
  fa_stack : forall v, stack_ret al = Some v -> v <> 0 /\ v ∉ regions s /\ v ∉ heap s /\ malloc_ret al <> Some v;
  fa_shadow : forall w, shadow_ret al = Some w -> 0 < w /\ w ∉ regions s /\ stack_ret al <> Some w
}.

(** C12: thread_create returns a suspended thread at the head of the thread list that
    owns its struct, its stack and its shadow stack, all of which were free before, or
    it returns NULL and leaves everything as it was. It goes wrong if the shadow stack
    cannot be allocated or the C library has no room for its state, because it then gives
    the stack, a region of the kernel's address space, to free. *)
Theorem thread_create_whole cpu s u prio al nm ent arg0 stk_size sz :
  thread_inv unlocked s -> current (sd s) !! cpu = Some u -> IDLE_PRIORITY < prio <= HIGHEST_PRIORITY -> fresh_allocs s al ->
  match malloc_ret al, stack_ret al, (if KERNEL_SCS_ENABLED then shadow_ret al else Some 0) with
  | Some p, Some v, Some w =>
      if LK_LIBC_IMPLEMENTATION_IS_MUSL && negb (libc_ret al =? NO_ERROR) then thread_create cpu al nm ent arg0 prio stk_size sz s = None
      else
      exists s' th m, thread_create cpu al nm ent arg0 prio stk_size sz s = Some (p, s') /\ thread_inv unlocked s' /\
        threads (sd s') = <[p := th]> (threads (sd s)) /\ mems s' = <[p := m]> (mems s) /\
        state th = THREAD_SUSPENDED /\ priority th = prio /\ detached th = false /\ entry m = ent /\ arg m = arg0 /\
        thread_list (sd s') = p :: thread_list (sd s) /\ heap s' = {[p]} ∪ heap s /\
        own_regions th m = v :: (if KERNEL_SCS_ENABLED then [w] else []) /\ (forall r, r ∈ regions s' <-> r ∈ regions s \/ r ∈ own_regions th m)
  | Some p, Some v, None => thread_create cpu al nm ent arg0 prio stk_size sz s = None
  | _, _, _ => thread_create cpu al nm ent arg0 prio stk_size sz s = Some (0, s)
  end.
Proof.
  intros Hs Hc Hprio [A1 A2 A3 A4]. pose proof Hs as [Hi Hli]. destruct (malloc_ret al) as [p|] eqn:Hp; [|by apply create_no_struct].
  pose proof (A2 p eq_refl) as Hf. destruct (expected_cookie _ _ p Hi) as [c Hck].
  destruct (stack_ret al) as [v|] eqn:Hv; [|by apply (create_no_stack cpu s u p c prio)].
  destruct (A3 v eq_refl) as (V1 & V2 & V3 & V4). destruct (inv_running _ _ Hi _ _ Hc) as (uh & Hu & _).
  destruct (lf_mem _ Hli u ltac:(by eexists)) as [cm Hcm].
  assert (forall w, (KERNEL_SCS_ENABLED = true -> shadow_ret al = Some w) -> (LK_LIBC_IMPLEMENTATION_IS_MUSL = true -> libc_ret al = NO_ERROR) ->
    let s' := after_create s p c prio al 0 nm ent arg0 0 v stk_size w sz (tls cm) in
    thread_create cpu al nm ent arg0 prio stk_size sz s = Some (p, s') /\ thread_inv unlocked s') as Hrun.
  { intros w Hw Hl. split.
    - apply (thread_create_etc_run cpu s u cm p c); try done.
    - apply created_inv; [done|done|done|done|]. constructor; [done|done|]. intros Hk. destruct (A4 w (Hw Hk)) as (? & ? & ?). split_and!; [done|done|]. congruence. }
  destruct (if KERNEL_SCS_ENABLED then shadow_ret al else Some 0) as [w|] eqn:Hw.
  - assert (KERNEL_SCS_ENABLED = true -> shadow_ret al = Some w) as Hsh by (intros Hk; by rewrite Hk in Hw).
    destruct (LK_LIBC_IMPLEMENTATION_IS_MUSL && negb (libc_ret al =? NO_ERROR)) eqn:Hl.
    { apply andb_true_iff in Hl as [Hl1 Hl2%negb_true_iff%Z.eqb_neq]. apply (create_no_libc cpu s u p c prio) with v w cm; try done; [congruence|].
      intros ->. pose proof (fs_thread _ _ Hf). congruence. }
    destruct (Hrun w) as [Hr Hinv]; [done|intros Hk; rewrite Hk in Hl; by apply negb_false_iff, Z.eqb_eq in Hl|]. eexists _, _, _. split_and!; [exact Hr|exact Hinv|reflexivity|reflexivity|done|done| |done|done|done|done| |].
    + unfold detached. rewrite created_flag by auto 6. by rewrite !andb_false_r.
    + by rewrite created_regions.
    + intros r. rewrite created_regions by done. unfold new_regions. cbn. destruct KERNEL_SCS_ENABLED; unfold id; clear; set_solver.
  - destruct KERNEL_SCS_ENABLED eqn:Hk; [|done]. apply (create_no_shadow_stack cpu s u p c prio) with v; try done. intros ->. done.
Qed.

(** C13: thread_exit never returns and fails no assertion. The thread is dead with its
    code, another thread has the cpu, and exactly those who wait for the end are woken:
    the joiners, or for a detached thread, which moves to the end of the list of the
    dead, the reaper. *)
Theorem thread_exit_hands_over cpu s t th code :
  thread_inv unlocked s -> current (sd s) !! cpu = Some t -> threads (sd s) !! t = Some th -> thread_is_idle th = false ->
  exists s', thread_exit cpu code s = Some (Switched, s') /\ thread_inv cpu s' /\ exited cpu t th code s s'.
Proof. apply thread_exit_run. Qed.

(** C14: thread_join of a detached thread is refused; of a dead one it returns its code
    and frees the thread and all it owns; of a live one it waits at the end of the
    thread's queue, or times out at once if it may not wait. *)
Theorem thread_join_outcomes cpu s u uh t th timeout :
  thread_inv unlocked s -> current (sd s) !! cpu = Some u -> threads (sd s) !! u = Some uh -> thread_is_idle uh = false ->
  threads (sd s) !! t = Some th -> thread_is_idle th = false -> 0 <= timeout <= INFINITE_TIME -> timeout_pending (timers (sd s)) u = false ->
  exists o s', thread_join cpu t timeout s = Some (o, s') /\
    if detached th then o = Return (ERR_THREAD_DETACHED, None) /\ s' = s
    else if dead th then o = Return (NO_ERROR, Some (retcode th)) /\ joined t th s s'
    else if timeout =? 0 then o = Return (ERR_TIMED_OUT, None) /\ s' = s
    else o = Switched /\ thread_inv cpu s' /\ current (sd s') !! cpu <> Some u /\
      exists l, queues (sd s) !! WaitList (RetcodeWaitQueue t) = Some l /\ queues (sd s') !! WaitList (RetcodeWaitQueue t) = Some (l ++ [u]).
Proof. apply thread_join_run. Qed.

(** When the joiner runs again it returns the error it was woken with and touches no
    thread, or, woken by the exit, the code of the dead thread, which is freed. *)
Theorem thread_join_collects cpu s u uh t timeout :
  thread_inv cpu s -> current (sd s) !! cpu = Some u -> threads (sd s) !! u = Some uh ->
  (timeout <> INFINITE_TIME -> timeout_live (timers (sd s)) u = true) ->
  (0 <= wait_queue_block_ret uh -> exists th, threads (sd s) !! t = Some th /\ dead th = true /\ detached th = false) ->
  exists r s', thread_join_resumed cpu t timeout s = Some (r, s') /\ thread_inv unlocked s' /\
    if wait_queue_block_ret uh <? 0 then r = (wait_queue_block_ret uh, None) /\ threads (sd s') = threads (sd s)
    else exists th m, threads (sd s) !! t = Some th /\ mems s !! t = Some m /\ r = (NO_ERROR, Some (retcode th)) /\
      threads (sd s') = delete t (threads (sd s)) /\ t ∉ thread_list (sd s') /\ t ∉ heap s' /\
      forall x, x ∈ regions s' <-> x ∈ regions s /\ x ∉ own_regions th m.
Proof.
  intros Hs Hc Hu Hto Hret. destruct (thread_join_resumed_run cpu s u uh t timeout Hs Hc Hu Hto Hret) as (r & s' & Hr & Hs' & Hif).
  exists r, s'. split_and!; [done|done|]. destruct (_ <? 0); [done|]. destruct Hif as (th & m & Ht & Hm & Hre & [G1 G2 G3 _ _ _ _ _ _ G10 G11]).
  exists th, m. split_and!; [done|done|done|exact G1| | |exact G11].
  - rewrite G2. by intros [? _]%list_elem_of_filter.
  - rewrite G10. intros [_ Hn]%elem_of_difference. by apply Hn, elem_of_singleton.
Qed.

(** Detaching a live thread wakes all who wait for it with ERR_THREAD_DETACHED and
    leaves nobody waiting; detaching a dead thread frees it. *)
Theorem thread_detach_outcomes cpu s u t th :
  thread_inv unlocked s -> current (sd s) !! cpu = Some u -> threads (sd s) !! t = Some th -> thread_is_idle th = false -> detached th = false ->
  exists s', thread_detach cpu t s = Some (Return NO_ERROR, s') /\
    if dead th then joined t th s s' else thread_inv unlocked s' /\ detached_from t s s'.
Proof.
  intros Hs Hc Ht Hi Hdt. destruct (dead th) eqn:Hd; [by apply (thread_detach_dead_run cpu s u)|by apply (thread_detach_alive_run cpu s u t th)].
Qed.

(** C15: a woken reaper frees every dead detached thread: its struct, its stacks and, where
    it owns one, the state of the C library; then it waits again. Every other thread keeps
    its struct, its memory and its libc state, and is as it was but for the reaper itself,
    which blocks, and the thread that takes its cpu. One round for each dead thread is
    enough. *)
Theorem reaper_frees_dead rounds fuel cpu s u uh :
  thread_inv cpu s -> current (sd s) !! cpu = Some u -> threads (sd s) !! u = Some uh -> thread_is_idle uh = false ->
  timeout_pending (timers (sd s)) u = false -> (length (dead_threads (sd s)) <= fuel)%nat ->
  exists s', reaper_resumed (S rounds) fuel cpu s = Some (Switched, s') /\ reaper_done cpu u uh s s'.
Proof. apply reaper_round. Qed.
End props.

(** ** An example

    On cpu 0 runs thread 1, for whom thread 2 waits; thread 3 is dead and not
    joined yet, 4 is dead and detached; the reaper 5 runs on cpu 1. *)
Module ThreadExample.
Import SchedCheck.Example.
#[export] Instance build : ThreadBuild := {
  KERNEL_SCS_ENABLED := true; LK_LIBC_IMPLEMENTATION_IS_MUSL := true; TEST_BUILD := true; PAGE_SIZE := 4096 }.

Definition owned : Z := Z.lor THREAD_FLAG_FREE_STACK (Z.lor THREAD_FLAG_FREE_STRUCT THREAD_FLAG_FREE_SHADOW_STACK).

Definition life_threads : gmap Z thread_t := list_to_map
  [example_thread 1000 0 THREAD_READY THREAD_FLAG_IDLE (-1) 0 None;
   example_thread 1001 0 THREAD_READY THREAD_FLAG_IDLE (-1) 1 None;
   example_thread 1 16 THREAD_RUNNING 0 0 (-1) None;
   example_thread 2 16 THREAD_BLOCKED 0 (-1) (-1) (Some (RetcodeWaitQueue 1));
   example_thread 3 16 THREAD_DEATH owned (-1) (-1) None;
   example_thread 4 16 THREAD_DEATH (Z.lor THREAD_FLAG_DETACHED owned) (-1) (-1) None;
   example_thread 5 24 THREAD_RUNNING 0 1 (-1) None].

Definition life_mem (stk : Z) : thread_mem := created_mem [] 0 0 stk 4096 (shadow_base (stk + 8192) 1024) 1024 [].
Definition life_mems : gmap Z thread_mem := list_to_map
  [(1000, created_mem [] 0 0 0 0 0 0 []); (1001, created_mem [] 0 0 0 0 0 0 []); (1, created_mem [] 0 0 0 0 0 0 []);
   (2, created_mem [] 0 0 0 0 0 0 []); (3, life_mem 65536); (4, life_mem 131072); (5, created_mem [] 0 0 0 0 0 0 [])].

Definition retcode_queue (t : Z) (l : list Z) : queue_head * list Z := (WaitList (RetcodeWaitQueue t), l).
Definition life_queues : gmap queue_head (list Z) := list_to_map
  (retcode_queue 1 [2] :: retcode_queue 2 [] :: retcode_queue 3 [] :: retcode_queue 4 [] :: retcode_queue 5 [] ::
   (WaitList ReaperWaitQueue, []) :: ((fun p => (RunQueue (Z.of_nat p), [])) <$> seq 0 32)).
Definition life_wait_queues : gmap wait_queue_ptr wait_queue_t := list_to_map
  [(RetcodeWaitQueue 1, mk_wait_queue WAIT_QUEUE_MAGIC 1); (RetcodeWaitQueue 2, mk_wait_queue WAIT_QUEUE_MAGIC 0);
   (RetcodeWaitQueue 3, mk_wait_queue WAIT_QUEUE_MAGIC 0); (RetcodeWaitQueue 4, mk_wait_queue WAIT_QUEUE_MAGIC 0);
   (RetcodeWaitQueue 5, mk_wait_queue WAIT_QUEUE_MAGIC 0); (ReaperWaitQueue, mk_wait_queue WAIT_QUEUE_MAGIC 0)].

Definition life_timers : timer_state :=
  mk_timer_state (list_to_map [(1, preempt_object 0 true); (5, preempt_object 1 true)])
    (list_to_map [(0, [1]); (1, [5])]) false (list_to_map [(0, 2000); (1, 2000)]).

Definition life_sched (o : Z) : sched timer_state :=
  mk_sched life_threads [1; 2; 3; 5] [4] life_queues 0 (list_to_map [(0, 16); (1, 24)]) life_wait_queues
    (list_to_map [(0, 1); (1, 5)]) o (mk_mp 3 0 0) (list_to_map [(0, 0); (1, 0)]) [] life_timers.

Definition life (o : Z) : tsys timer_state :=
  mk_tsys (life_sched o) life_mems ∅ {[3; 4]} {[65536; 73728; 131072; 139264]} ∅.

Lemma life_sched_wf : sched_wf none (life_sched unlocked).
Proof. apply sched_wf_check_sound. vm_compute. reflexivity. Qed.

Lemma life_timers_ok : kernel_timers_ok life_timers.
Proof.
  constructor.
  - constructor; intros cpu q; cbn [timer_queue life_timers].
    + intros t Hq%elem_of_list_to_map_2 Ht. set_unfold in Hq. destruct_or! Hq; simplify_eq; set_unfold in Ht;
        destruct Ht as [->|[]]; (split; [|done]); eexists; (split; [reflexivity|by vm_compute]).
    + intros Hq%elem_of_list_to_map_2. set_unfold in Hq. destruct_or! Hq; simplify_eq; apply NoDup_singleton.
    + intros Hq%elem_of_list_to_map_2. set_unfold in Hq. destruct_or! Hq; simplify_eq; repeat constructor.
  - done.
  - intros cpu Hc. cbn in Hc. assert (cpu = 0 \/ cpu = 1) as [->| ->] by lia; by eexists.
  - intros cpu Hc. cbn in Hc. assert (cpu = 0 \/ cpu = 1) as [->| ->] by lia; (split; [reflexivity|]); intros _; by eexists.
Qed.

Lemma life_running c t : current (life_sched unlocked) !! c = Some t -> exists th, life_threads !! t = Some th /\ state th = THREAD_RUNNING.
Proof. intros Hc%elem_of_list_to_map_2. set_unfold in Hc. destruct_or! Hc; simplify_eq; eexists; split; reflexivity. Qed.

Lemma life_sched_inv o : sched_inv o (life_sched o).
Proof.
  constructor; [exact (sched_wf_owner (life_sched unlocked) o life_sched_wf life_running)|done|exact life_running|].
  intros c. split; [apply life_timers_ok|]. intros t th Hc%elem_of_list_to_map_2. set_unfold in Hc.
  destruct_or! Hc; simplify_eq; intros [= <-]; reflexivity.
Qed.

Lemma life_all (P : Z -> thread_t -> bool) :
  forallb (fun p => P p.1 p.2) (map_to_list life_threads) = true -> forall t th, life_threads !! t = Some th -> P t th = true.
Proof. intros Hf t th Ht. rewrite forallb_forall in Hf. apply (Hf (t, th)), list_elem_of_In. by apply elem_of_map_to_list. Qed.

Definition regions_at (t : Z) : list Z :=
  match life_threads !! t, life_mems !! t with Some th, Some m => own_regions th m | _, _ => [] end.
Lemma regions_at_eq t th m : life_threads !! t = Some th -> life_mems !! t = Some m -> own_regions th m = regions_at t.
Proof. intros Ht Hm. unfold regions_at. by rewrite Ht, Hm. Qed.
Lemma regions_at_in t r : life_threads !! t <> None -> r ∈ regions_at t -> (t = 3 /\ (r = 65536 \/ r = 73728)) \/ (t = 4 /\ (r = 131072 \/ r = 139264)).
Proof.
  destruct (life_threads !! t) as [th|] eqn:Ht; [|done]. intros _. apply elem_of_list_to_map_2 in Ht. set_unfold in Ht.
  unfold example_thread in Ht. destruct_or! Ht; simplify_eq; vm_compute regions_at; set_solver.
Qed.

Lemma life_holds o : thread_inv o (life o).
Proof.
  split; [apply life_sched_inv|]. split; [constructor|].
  - cbn. apply (bool_decide_unpack _). by vm_compute.
  - cbn. intros t Ht. set_unfold in Ht. destruct_or! Ht; subst; by eexists.
  - intros t th Ht Hi. pose proof (life_all (fun t th => thread_is_idle th || bool_decide (t ∈ (if dead th && detached th then [4] else [1; 2; 3; 5]))) eq_refl t th Ht) as Hb.
    cbn beta in Hb. rewrite Hi in Hb. apply bool_decide_eq_true_1 in Hb. by destruct (_ && _).
  - intros t th Hin. cbn in Hin. set_unfold in Hin. destruct Hin as [->|[]]. by intros [= <-].
  - intros t th Ht. pose proof (life_all (fun t th => negb (dead th) || negb (thread_is_idle th)) eq_refl t th Ht) as Hb.
    cbn beta in Hb. intros Hd. rewrite Hd in Hb. by apply negb_true_iff.
  - intros t th Ht Hst. pose proof (life_all (fun t th => state_eqb (state th) THREAD_BLOCKED || bool_decide (blocking_wait_queue th = None)) eq_refl t th Ht) as Hb.
    cbn beta in Hb. rewrite (proj2 (state_eqb_false _ _) Hst) in Hb. by apply bool_decide_eq_true_1 in Hb.
  - intros t th Ht Hi. pose proof (life_all (fun t th => thread_is_idle th || bool_decide (t ∈ [1; 2; 3; 4; 5])) eq_refl t th Ht) as Hb.
    cbn beta in Hb. rewrite Hi in Hb. apply bool_decide_eq_true_1 in Hb. set_unfold in Hb. destruct_or! Hb; subst; split; (reflexivity || by eexists).
  - split; [by eexists|done].
  - intros t. rewrite <- !elem_of_dom. assert (dom (threads (sd (life o))) = dom (mems (life o))) as ->; [|done]. cbn. by vm_compute.
  - done.
  - intros t. split.
    + intros Ht. cbn in Ht. apply elem_of_union in Ht as [->%elem_of_singleton| ->%elem_of_singleton]; by eexists.
    + intros (th & Ht & Hf). pose proof (life_all (fun t th => negb (has_flag THREAD_FLAG_FREE_STRUCT th) || bool_decide (t ∈ [3; 4])) eq_refl t th Ht) as Hb.
      cbn beta in Hb. rewrite Hf in Hb. cbn [negb orb] in Hb. apply bool_decide_eq_true_1 in Hb. cbn. set_solver.
  - intros r. split.
    + intros Hr. cbn in Hr. rewrite !elem_of_union, !elem_of_singleton in Hr. destruct_or! Hr; subst; [exists 3|exists 3|exists 4|exists 4];
        eexists _, _; (split_and!; [reflexivity|reflexivity|apply (bool_decide_unpack _); by vm_compute]).
    + intros (t & th & m & Ht & Hm & Hr). rewrite (regions_at_eq t th m Ht Hm) in Hr. apply regions_at_in in Hr; [|change (life_threads !! t = Some th) in Ht; by rewrite Ht].
      cbn. rewrite !elem_of_union, !elem_of_singleton. lia.
  - intros r t t' th th' m m' Ht Hm Ht' Hm'. rewrite (regions_at_eq t th m Ht Hm), (regions_at_eq t' th' m' Ht' Hm').
    change (life_threads !! t = Some th) in Ht. change (life_threads !! t' = Some th') in Ht'. intros Hr%regions_at_in Hr'%regions_at_in; [lia|congruence..].
  - intros t th m Ht Hm _ Hf. pose proof (life_all (fun t th => negb (has_flag THREAD_FLAG_FREE_SHADOW_STACK th) || bool_decide (t ∈ [3; 4])) eq_refl t th Ht) as Hb.
    cbn beta in Hb. rewrite Hf in Hb. cbn [negb orb] in Hb. apply bool_decide_eq_true_1 in Hb. set_unfold in Hb. destruct_or! Hb; subst; cbn in Hm; by injection Hm as <-.
  - intros [a|t|] Hw; cbn in Hw; [done| |done]. destruct Hw as (th & Ht & Hi & Hd).
    pose proof (life_all (fun t th => negb (dead th || detached th) || bool_decide (t ∈ [3; 4])) eq_refl t th Ht) as Hb.
    cbn beta in Hb. rewrite Hd in Hb. cbn [negb orb] in Hb. apply bool_decide_eq_true_1 in Hb. set_unfold in Hb. by destruct_or! Hb; subst.
Qed.

Definition example_allocs : allocs := mk_allocs (Some 6) (Some 200704) (Some 208896) NO_ERROR.
Lemma example_fresh : fresh_allocs (life unlocked) example_allocs.
Proof.
  constructor; [done| | |].
  - intros p [= <-]. by constructor.
  - intros v [= <-]. split_and!; [done|by vm_compute|by vm_compute|done].
  - intros w [= <-]. split_and!; [done|by vm_compute|done].
Qed.

Definition thread1 : thread_t := snd (example_thread 1 16 THREAD_RUNNING 0 0 (-1) None).
Definition thread2 : thread_t := snd (example_thread 2 16 THREAD_BLOCKED 0 (-1) (-1) (Some (RetcodeWaitQueue 1))).
Definition thread3 : thread_t := snd (example_thread 3 16 THREAD_DEATH owned (-1) (-1) None).
Definition thread5 : thread_t := snd (example_thread 5 24 THREAD_RUNNING 0 1 (-1) None).

Lemma thread_create_whole_witness :
  exists s' th m, thread_create 0 example_allocs [104; 105] 4096 7 16 4096 1024 (life unlocked) = Some (6, s') /\ thread_inv unlocked s' /\
    threads (sd s') = <[6 := th]> life_threads /\ own_regions th m = [200704; 208896].
Proof.
  destruct (thread_create_whole 0 (life unlocked) 1 16 example_allocs [104; 105] 4096 7 4096 1024) as (s' & th & m & Hr & Hi & Ht & _ & _ & _ & _ & _ & _ & _ & _ & Ho & _);
    [apply life_holds|reflexivity|done|apply example_fresh|]. exists s', th, m. by split_and!.
Defined.

Lemma thread_exit_hands_over_witness :
  exists s', thread_exit 0 42 (life unlocked) = Some (Switched, s') /\ thread_inv 0 s' /\ exited 0 1 thread1 42 (life unlocked) s'.
Proof. apply (thread_exit_hands_over 0 (life unlocked) 1 thread1 42); [apply life_holds|reflexivity..]. Defined.

Lemma thread_join_outcomes_witness :
  exists s', thread_join 0 3 INFINITE_TIME (life unlocked) = Some (Return (NO_ERROR, Some 0), s') /\ joined 3 thread3 (life unlocked) s'.
Proof.
  destruct (thread_join_outcomes 0 (life unlocked) 1 thread1 3 thread3 INFINITE_TIME) as (o & s' & Hr & -> & Hj);
    [apply life_holds|reflexivity..|by vm_compute|reflexivity|]. by exists s'.
Defined.

Lemma thread_join_collects_witness :
  exists s', thread_join_resumed 0 3 INFINITE_TIME (life 0) = Some ((NO_ERROR, Some 0), s') /\ 3 ∉ heap s'.
Proof.
  destruct (thread_join_collects 0 (life 0) 1 thread1 3 INFINITE_TIME) as (r & s' & Hr & _ & th & m & Ht & _ & -> & _ & _ & Hh & _);
    [apply life_holds|reflexivity|reflexivity|done|by exists thread3|]. injection Ht as <-. by exists s'.
Defined.

Lemma thread_detach_outcomes_witness :
  (exists s', thread_detach 0 2 (life unlocked) = Some (Return NO_ERROR, s') /\ detached_from 2 (life unlocked) s') /\
  exists s', thread_detach 0 3 (life unlocked) = Some (Return NO_ERROR, s') /\ joined 3 thread3 (life unlocked) s'.
Proof.
  split.
  - destruct (thread_detach_outcomes 0 (life unlocked) 1 2 thread2) as (s' & Hr & _ & Hd); [apply life_holds|reflexivity..|]. by exists s'.
  - destruct (thread_detach_outcomes 0 (life unlocked) 1 3 thread3) as (s' & Hr & Hd); [apply life_holds|reflexivity..|]. by exists s'.
Defined.

Lemma reaper_frees_dead_witness :
  exists s', reaper_resumed 1 1 1 (life 1) = Some (Switched, s') /\ reaper_done 1 5 thread5 (life 1) s'.
Proof. apply (reaper_frees_dead 0 1 1 (life 1) 5 thread5); [apply life_holds|reflexivity..|by cbn; lia]. Defined.
End ThreadExample.
