(* ===== verification/Pmm.v ===== *)
(** * Physical pages (kernel/vm/pmm.c, kernel/vm/vm.c)

    Memory comes in arenas. An arena has an array of [vm_page] structs, one for each
    page, and a list of its free pages; a page is named by the address of its
    struct. Clearing a page is logged with its address in the kernel. Sums of [uint]
    and of [size_t] wrap at 32 and 64 bits where the code computes them. *)
From stdpp Require Import base gmap list.
From Stdlib Require Import ZArith Lia.
From S2P Require Import Prelude.

Local Open Scope Z_scope.
Local Open Scope lk_scope.

Definition NO_ERROR : Z := 0.
Definition ERR_NO_MEMORY : Z := -5.
Definition ERR_INVALID_ARGS : Z := -8.
Definition VM_PAGE_FLAG_NONFREE : Z := 1.
Definition VM_PAGE_FLAG_RESERVED : Z := 2.
Definition PMM_ARENA_FLAG_KMAP : Z := 1.
Definition PMM_ALLOC_FLAG_KMAP : Z := 1.
Definition PMM_ALLOC_FLAG_CONTIGUOUS : Z := 2.
Definition PMM_ALLOC_FLAG_FROM_RESERVED : Z := 4.
Definition PMM_ALLOC_FLAG_NO_CLEAR : Z := 8.
Definition PMM_ALLOC_FLAG_ALLOW_TAGGED : Z := 16.
Definition MMU_INITIAL_MAPPING_TEMPORARY : Z := 1.

(** [~0UL] *)
Definition no_run : Z := 2 ^ 64 - 1.
Definition sizeof_vm_page : Z := 24.

(** [round_up] and [round_down] of lk/macros.h, for 64 bits. *)
Definition round_up (val alignment : Z) : Z := Z.ldiff (u64 (val + (alignment - 1))) (alignment - 1).
Definition round_down (val alignment : Z) : Z := Z.ldiff val (alignment - 1).

Record mmu_initial_mapping := mk_mapping { phys : Z; virt : Z; map_size : Z; map_flags : Z }.

Class PmmConfig := {
  PAGE_SIZE_SHIFT : Z;
  mmu_initial_mappings : list mmu_initial_mapping
}.

Definition PAGE_SIZE `{!PmmConfig} : Z := Z.shiftl 1 PAGE_SIZE_SHIFT.

Record pmm_arena_t := mk_arena {
  ar_flags : Z; priority : Z; base : Z; kvaddr : Z; size : Z;
  free_count : Z; reserved_count : Z; page_array : Z
}.

(** The lists a page can be on: an arena's free list, a list of the caller, or the
    list in a local variable, which is initialised where it is declared. *)
Inductive page_list := FreeList (a : Z) | PageList (l : Z) | LocalList.
#[export] Instance page_list_eq_dec : EqDecision page_list.
Proof. solve_decision. Defined.
#[export] Instance page_list_countable : Countable page_list.
Proof.
  apply (inj_countable'
    (fun l => match l with FreeList a => (0%nat, a) | PageList a => (1%nat, a) | LocalList => (2%nat, 0) end)
    (fun p => match p with (0%nat, a) => FreeList a | (1%nat, a) => PageList a | _ => LocalList end)).
  by intros [].
Defined.

Record pmm := mk_pmm {
  arenas : gmap Z pmm_arena_t;
  arena_list : list Z;
  pages : gmap Z Z;
  lists : gmap page_list (list Z);
  cleared : list Z;
  lock : bool;
  aux_slock : bool
}.

Definition with_arenas (f : gmap Z pmm_arena_t -> gmap Z pmm_arena_t) (s : pmm) : pmm :=
  mk_pmm (f (arenas s)) (arena_list s) (pages s) (lists s) (cleared s) (lock s) (aux_slock s).
Definition with_arena_list (f : list Z -> list Z) (s : pmm) : pmm :=
  mk_pmm (arenas s) (f (arena_list s)) (pages s) (lists s) (cleared s) (lock s) (aux_slock s).
Definition with_pages (f : gmap Z Z -> gmap Z Z) (s : pmm) : pmm :=
  mk_pmm (arenas s) (arena_list s) (f (pages s)) (lists s) (cleared s) (lock s) (aux_slock s).
Definition with_lists (f : gmap page_list (list Z) -> gmap page_list (list Z)) (s : pmm) : pmm :=
  mk_pmm (arenas s) (arena_list s) (pages s) (f (lists s)) (cleared s) (lock s) (aux_slock s).
Definition with_cleared (f : list Z -> list Z) (s : pmm) : pmm :=
  mk_pmm (arenas s) (arena_list s) (pages s) (lists s) (f (cleared s)) (lock s) (aux_slock s).
Definition with_lock (b : bool) (s : pmm) : pmm :=
  mk_pmm (arenas s) (arena_list s) (pages s) (lists s) (cleared s) b (aux_slock s).
Definition with_aux_slock (b : bool) (s : pmm) : pmm :=
  mk_pmm (arenas s) (arena_list s) (pages s) (lists s) (cleared s) (lock s) b.

Local Abbreviation MP := (M pmm).

Section pmm.
Context `{!PmmConfig}.
Implicit Types (a : Z) (ar : pmm_arena_t).

(** ** Locks and objects *)

(** A lock that is taken is waited for: no outcome from this state. *)
Definition mutex_acquire : MP unit := b <- gets lock ;; assert_ (negb b) ;; modify (with_lock true).
Definition mutex_release : MP unit := modify (with_lock false).
Definition spin_lock : MP unit := b <- gets aux_slock ;; assert_ (negb b) ;; modify (with_aux_slock true).
Definition spin_unlock : MP unit := modify (with_aux_slock false).

Definition get_arena a : MP pmm_arena_t := getsome (fun s => arenas s !! a).
Definition upd_arena a (f : pmm_arena_t -> pmm_arena_t) : MP unit := ar <- get_arena a ;; modify (with_arenas <[a := f ar]>).
Definition get_page (p : Z) : MP Z := getsome (fun s => pages s !! p).
Definition upd_page (p : Z) (f : Z -> Z) : MP unit := fl <- get_page p ;; modify (with_pages <[p := f fl]>).

Definition has_flag (f x : Z) : bool := negb (Z.land x f =? 0).
Definition set_counts (fr re : Z) ar : pmm_arena_t :=
  mk_arena (ar_flags ar) (priority ar) (base ar) (kvaddr ar) (size ar) fr re (page_array ar).
Definition set_kvaddr (v : Z) ar : pmm_arena_t :=
  mk_arena (ar_flags ar) (priority ar) (base ar) v (size ar) (free_count ar) (reserved_count ar) (page_array ar).
Definition set_page_array (v : Z) ar : pmm_arena_t :=
  mk_arena (ar_flags ar) (priority ar) (base ar) (kvaddr ar) (size ar) (free_count ar) (reserved_count ar) v.
Definition set_ar_flags (v : Z) ar : pmm_arena_t :=
  mk_arena v (priority ar) (base ar) (kvaddr ar) (size ar) (free_count ar) (reserved_count ar) (page_array ar).

(** ** Lists of pages *)
Definition get_list (l : page_list) : MP (list Z) := getsome (fun s => lists s !! l).
Definition list_initialize (l : page_list) : MP unit := modify (with_lists <[l := []]>).
Definition in_list (p : Z) : MP bool := gets (fun s => node_in_list p (lists s)).
(** Linking a node that is linked already corrupts a list. *)
Definition list_add_tail (l : page_list) (p : Z) : MP unit :=
  b <- in_list p ;; assert_ (negb b) ;; q <- get_list l ;; modify (with_lists <[l := q ++ [p]]>).
Definition list_add_head (l : page_list) (p : Z) : MP unit :=
  b <- in_list p ;; assert_ (negb b) ;; q <- get_list l ;; modify (with_lists <[l := p :: q]>).
Definition list_delete (p : Z) : MP unit := modify (with_lists (node_delete p)).
Definition list_remove_head (l : page_list) : MP (option Z) :=
  q <- get_list l ;;
  match q with
  | [] => ret None
  | p :: q => modify (with_lists <[l := q]>) ;; ret (Some p)
  end.
Definition list_splice_tail (l l' : page_list) : MP unit :=
  q <- get_list l ;; q' <- get_list l' ;; modify (with_lists <[l := q ++ q']>) ;; list_initialize l'.

(** ** Pages and addresses *)
Definition page_count ar : Z := size ar / PAGE_SIZE.
Definition page_at ar (i : Z) : Z := page_array ar + i * sizeof_vm_page.
Definition PAGE_BELONGS_TO_ARENA (p : Z) ar : bool := (page_array ar <=? p) && (p <? page_array ar + page_count ar * sizeof_vm_page).
Definition PAGE_ADDRESS_FROM_ARENA (p : Z) ar : Z := u64 ((p - page_array ar) / sizeof_vm_page * PAGE_SIZE + base ar).
Definition ADDRESS_IN_ARENA (address : Z) ar : bool := (base ar <=? address) && (address <=? u64 (base ar + size ar - 1)).

(** The first arena of a list that satisfies a test. *)
Fixpoint find_arena (l : list Z) (test : pmm_arena_t -> bool) : MP (option Z) :=
  match l with
  | [] => ret None
  | a :: l => ar <- get_arena a ;; if test ar then ret (Some a) else find_arena l test
  end.

Definition vm_page_to_paddr (p : Z) : MP Z :=
  l <- gets arena_list ;;
  r <- find_arena l (PAGE_BELONGS_TO_ARENA p) ;;
  match r with
  | Some a => ar <- get_arena a ;; ret (PAGE_ADDRESS_FROM_ARENA p ar)
  | None => ret (2 ^ 64 - 1)
  end.

Definition paddr_to_vm_page (addr : Z) : MP (option Z) :=
  l <- gets arena_list ;;
  r <- find_arena l (ADDRESS_IN_ARENA addr) ;;
  match r with
  | Some a => ar <- get_arena a ;; ret (Some (page_at ar ((addr - base ar) / PAGE_SIZE)))
  | None => ret None
  end.

Definition pmm_paddr_to_kvaddr (pa : Z) : MP Z :=
  spin_lock ;;
  l <- gets arena_list ;;
  r <- find_arena l (fun ar => negb (kvaddr ar =? 0) && ADDRESS_IN_ARENA pa ar) ;;
  va <- match r with
        | Some a => ar <- get_arena a ;; ret (u64 (kvaddr ar + (pa - base ar)))
        | None => ret 0
        end ;;
  spin_unlock ;;
  ret va.

(** [paddr_to_kvaddr] of vm.c: the initial mappings, up to one of size 0, then the arenas. *)
Fixpoint find_mapping (pa : Z) (l : list mmu_initial_mapping) : option Z :=
  match l with
  | [] => None
  | map :: l =>
      if map_size map >? 0 then
        if negb (has_flag MMU_INITIAL_MAPPING_TEMPORARY (map_flags map)) && (phys map <=? pa) && (pa <=? u64 (phys map + map_size map - 1))
        then Some (u64 (virt map + (pa - phys map)))
        else find_mapping pa l
      else None
  end.
Definition paddr_to_kvaddr (pa : Z) : MP Z :=
  match find_mapping pa mmu_initial_mappings with
  | Some va => ret va
  | None => pmm_paddr_to_kvaddr pa
  end.

Definition clear_page (p : Z) : MP unit :=
  pa <- vm_page_to_paddr p ;;
  assert_ (negb (pa =? 2 ^ 64 - 1)) ;;
  kva <- paddr_to_kvaddr pa ;;
  assert_ (negb (kva =? 0)) ;;
  modify (with_cleared (cons kva)).

(** ** Arenas *)
Fixpoint insert_by_priority (prio a : Z) (l : list Z) : MP (list Z) :=
  match l with
  | [] => ret [a]
  | b :: l' =>
      br <- get_arena b ;;
      if priority br >? prio then ret (a :: b :: l')
      else r <- insert_by_priority prio a l' ;; ret (b :: r)
  end.
Definition insert_arena a : MP unit :=
  ar <- get_arena a ;;
  l <- gets arena_list ;;
  l' <- insert_by_priority (priority ar) a l ;;
  modify (with_arena_list (fun _ => l')).

(** The structs of the array from page [i] on; [n] pages are left. *)
Fixpoint init_pages (n : nat) a (i page_count reserved_at_start reserved_at_end : Z) : MP unit :=
  match n with
  | O => ret tt
  | S n =>
      ar <- get_arena a ;;
      (if (i <? reserved_at_start) || (i >=? u64 (page_count - reserved_at_end)) then
         upd_page (page_at ar i) (Z.lor VM_PAGE_FLAG_NONFREE)
       else
         list_add_tail (FreeList a) (page_at ar i) ;;
         upd_arena a (fun ar => set_counts (u64 (free_count ar + 1)) (reserved_count ar) ar)) ;;
      init_pages n a (i + 1) page_count reserved_at_start reserved_at_end
  end.
Fixpoint zero_pages (n : nat) (ar : pmm_arena_t) (m : gmap Z Z) : gmap Z Z :=
  match n with
  | O => m
  | S n => <[page_at ar (Z.of_nat n) := 0]> (zero_pages n ar m)
  end.
Definition init_page_array a (page_count reserved_at_start reserved_at_end : Z) : MP unit :=
  assert_ (reserved_at_start <? page_count) ;;
  assert_ (reserved_at_end <=? page_count) ;;
  ar <- get_arena a ;;
  modify (with_pages (zero_pages (Z.to_nat page_count) ar)) ;;
  init_pages (Z.to_nat page_count) a 0 page_count reserved_at_start reserved_at_end.

Definition is_page_aligned (x : Z) : bool := Z.land x (PAGE_SIZE - 1) =? 0.

(** [mem] is what [boot_alloc_mem] returns. *)
Definition pmm_add_arena a (mem : Z) : MP Z :=
  ar <- get_arena a ;;
  assert_ (is_page_aligned (base ar)) ;;
  assert_ (is_page_aligned (size ar)) ;;
  assert_ (size ar >? 0) ;;
  upd_arena a (set_counts 0 0) ;;
  list_initialize (FreeList a) ;;
  (if has_flag PMM_ARENA_FLAG_KMAP (ar_flags ar) then
     va <- paddr_to_kvaddr (base ar) ;;
     upd_arena a (set_kvaddr va) ;;
     assert_ (negb (va =? 0))
   else upd_arena a (set_kvaddr 0)) ;;
  upd_arena a (set_page_array mem) ;;
  init_page_array a (page_count ar) 0 0 ;;
  insert_arena a ;;
  ret NO_ERROR.

(** [mapped] is what [vmm_alloc_physical_etc] returns: an error or the address. *)
Definition pmm_add_arena_late_etc a (reserve_at_start reserve_at_end : Z) (mapped : Z + Z) : MP Z :=
  ar <- get_arena a ;;
  assert_ (is_page_aligned (base ar)) ;;
  assert_ (is_page_aligned (size ar)) ;;
  assert_ (size ar >? 0) ;;
  upd_arena a (set_counts 0 0) ;;
  list_initialize (FreeList a) ;;
  let n := page_count ar in
  if u64 (round_up (u64 (reserve_at_start + n * sizeof_vm_page)) PAGE_SIZE + round_up reserve_at_end PAGE_SIZE) >? size ar then ret ERR_INVALID_ARGS
  else
    r <- (if has_flag PMM_ARENA_FLAG_KMAP (ar_flags ar) then
            va <- paddr_to_kvaddr (base ar) ;;
            ret (if va =? 0 then inl ERR_INVALID_ARGS else inr va)
          else
            match mapped with
            | inl rc => ret (inl rc)
            | inr va => upd_arena a (fun ar => set_ar_flags (Z.lor (ar_flags ar) PMM_ARENA_FLAG_KMAP) ar) ;; ret (inr va)
            end) ;;
    match r with
    | inl rc => ret rc
    | inr va =>
        upd_arena a (set_kvaddr va) ;;
        upd_arena a (set_page_array (u64 (va + reserve_at_start))) ;;
        let reserve_at_start := u64 (reserve_at_start + n * sizeof_vm_page) in
        init_page_array a n (round_up reserve_at_start PAGE_SIZE / PAGE_SIZE) (round_up reserve_at_end PAGE_SIZE / PAGE_SIZE) ;;
        mutex_acquire ;;
        spin_lock ;;
        insert_arena a ;;
        spin_unlock ;;
        mutex_release ;;
        ret NO_ERROR
    end.

(** ** Runs of free pages *)

(** The first of the pages [start + i, start + count) that is in use. *)
Fixpoint first_used (n : nat) ar (start i : Z) : MP (option Z) :=
  match n with
  | O => ret None
  | S n =>
      fl <- get_page (page_at ar (start + i)) ;;
      if has_flag VM_PAGE_FLAG_NONFREE fl then ret (Some i) else first_used n ar start (i + 1)
  end.

(** From one aligned page to the next. *)
Fixpoint search_run (fuel : nat) ar (count aligned_offset step start : Z) : MP Z :=
  if (start <? page_count ar) && (u32 (start + count) <=? page_count ar) then
    match fuel with
    | O => panic
    | S fuel =>
        r <- first_used (Z.to_nat count) ar start 0 ;;
        match r with
        | Some i => search_run fuel ar count aligned_offset step (u32 (round_up (u32 (start - aligned_offset + i + 1)) step + aligned_offset))
        | None => ret start
        end
    end
  else ret no_run.

Definition pmm_arena_find_free_run a (count alignment_log2 : Z) : MP Z :=
  ar <- get_arena a ;;
  let alignment_log2 := Z.max alignment_log2 PAGE_SIZE_SHIFT in
  assert_ (alignment_log2 <? 64) ;;
  let rounded_base := round_up (base ar) (Z.shiftl 1 alignment_log2) in
  if (rounded_base <? base ar) || (rounded_base >? u64 (base ar + (size ar - 1))) then ret no_run
  else
    let aligned_offset := u32 ((rounded_base - base ar) / PAGE_SIZE) in
    search_run (S (Z.to_nat (page_count ar))) ar count aligned_offset (Z.shiftl 1 (alignment_log2 - PAGE_SIZE_SHIFT)) aligned_offset.

(** ** Reservations *)
Fixpoint check_available (l : list Z) (count : Z) (reserve : bool) : MP Z :=
  match l with
  | [] => ret count
  | a :: l =>
      ar <- get_arena a ;;
      assert_ (free_count ar >=? reserved_count ar) ;;
      let available_count := free_count ar - reserved_count ar in
      if available_count =? 0 then check_available l count reserve
      else
        let n := Z.min count available_count in
        when reserve (upd_arena a (fun ar => set_counts (free_count ar) (reserved_count ar + n) ar)) ;;
        if count - n =? 0 then ret 0 else check_available l (count - n) reserve
  end.
Definition check_available_pages (count : Z) (reserve : bool) : MP Z :=
  l <- gets arena_list ;; check_available l count reserve.

Definition pmm_reserve_pages (count : Z) : MP Z :=
  mutex_acquire ;;
  remaining_count <- check_available_pages count false ;;
  if negb (remaining_count =? 0) then mutex_release ;; ret ERR_NO_MEMORY
  else
    _ <- check_available_pages count true ;;
    mutex_release ;;
    ret NO_ERROR.

(** The count left. *)
Fixpoint unreserve (l : list Z) (count : Z) : MP Z :=
  match l with
  | [] => ret count
  | a :: l =>
      ar <- get_arena a ;;
      let n := Z.min count (reserved_count ar) in
      upd_arena a (fun ar => set_counts (free_count ar) (reserved_count ar - n) ar) ;;
      if count - n =? 0 then ret 0 else unreserve l (count - n)
  end.
Definition pmm_unreserve_pages (count : Z) : MP unit :=
  mutex_acquire ;;
  l <- gets arena_list ;;
  left <- unreserve l count ;;
  mutex_release ;;
  assert_ (left =? 0).

(** ** Freeing *)

(** Every page of the list goes to the head of its arena's free list; a page of no
    arena is dropped. *)
Fixpoint free_pages (fuel : nat) (pl : page_list) (count : Z) : MP Z :=
  r <- list_remove_head pl ;;
  match r with
  | None => ret count
  | Some p =>
      match fuel with
      | O => panic
      | S fuel =>
          fl <- get_page p ;;
          assert_ (has_flag VM_PAGE_FLAG_NONFREE fl) ;;
          l <- gets arena_list ;;
          r <- find_arena l (PAGE_BELONGS_TO_ARENA p) ;;
          match r with
          | None => free_pages fuel pl count
          | Some a =>
              upd_page p (fun fl => Z.ldiff fl VM_PAGE_FLAG_NONFREE) ;;
              list_add_head (FreeList a) p ;;
              upd_arena a (fun ar => set_counts (free_count ar + 1) (reserved_count ar) ar) ;;
              when (has_flag VM_PAGE_FLAG_RESERVED fl)
                (upd_arena a (fun ar => set_counts (free_count ar) (reserved_count ar + 1) ar) ;;
                 upd_page p (fun fl => Z.ldiff fl VM_PAGE_FLAG_RESERVED)) ;;
              free_pages fuel pl (u32 (count + 1))
          end
      end
  end.
Definition pmm_free_locked (pl : page_list) : MP Z :=
  q <- get_list pl ;; free_pages (length q) pl 0.
Definition pmm_free (pl : page_list) : MP Z :=
  mutex_acquire ;; n <- pmm_free_locked pl ;; mutex_release ;; ret n.
Definition pmm_free_page (p : Z) : MP Z :=
  list_initialize LocalList ;; list_add_head LocalList p ;; pmm_free LocalList.

(** ** Allocation *)

(** What has been allocated so far, the next page of a run, the array [pages]. *)
Definition walk : Type := Z * Z * list Z.

(** What is done with a page that is off its list. *)
Definition take_one (flags a p : Z) : MP unit :=
  when (negb (has_flag PMM_ALLOC_FLAG_NO_CLEAR flags)) (clear_page p) ;;
  when (has_flag PMM_ALLOC_FLAG_FROM_RESERVED flags)
    (upd_arena a (fun ar => set_counts (free_count ar) (reserved_count ar - 1) ar) ;; upd_page p (Z.lor VM_PAGE_FLAG_RESERVED)) ;;
  upd_arena a (fun ar => set_counts (free_count ar - 1) (reserved_count ar) ar) ;;
  upd_page p (Z.lor VM_PAGE_FLAG_NONFREE) ;;
  list_add_tail LocalList p.

Fixpoint take_pages (n : nat) a (count flags : Z) (want : bool) (x : walk) : MP walk :=
  let '(allocated, free_run_start, out) := x in
  match n with
  | O => ret x
  | S n =>
      ar <- get_arena a ;;
      if (if has_flag PMM_ALLOC_FLAG_FROM_RESERVED flags then reserved_count ar =? 0 else free_count ar <=? reserved_count ar) then ret x
      else
        r <- (if has_flag PMM_ALLOC_FLAG_CONTIGUOUS flags then
                assert_ (free_run_start <? page_count ar) ;;
                let p := page_at ar free_run_start in
                fl <- get_page p ;;
                assert_ (negb (has_flag VM_PAGE_FLAG_NONFREE fl)) ;;
                b <- in_list p ;;
                assert_ b ;;
                list_delete p ;;
                ret (Some p)
              else list_remove_head (FreeList a)) ;;
        match r with
        | None => ret x
        | Some p =>
            take_one flags a p ;;
            take_pages n a count flags want
              (allocated + 1, free_run_start + 1,
               if want && ((allocated =? 0) || negb (has_flag PMM_ALLOC_FLAG_CONTIGUOUS flags)) then out ++ [p] else out)
        end
  end.

(** The walk over the arenas; it does not stop when all pages have been found. *)
Fixpoint alloc_arenas (l : list Z) (count flags align_log2 : Z) (want : bool) (x : walk) : MP walk :=
  match l with
  | [] => ret x
  | a :: l =>
      ar <- get_arena a ;;
      assert_ (free_count ar >=? reserved_count ar) ;;
      if has_flag PMM_ALLOC_FLAG_KMAP flags && negb (has_flag PMM_ARENA_FLAG_KMAP (ar_flags ar)) then alloc_arenas l count flags align_log2 want x
      else
        let '(allocated, free_run_start, out) := x in
        start <- (if has_flag PMM_ALLOC_FLAG_CONTIGUOUS flags then pmm_arena_find_free_run a count align_log2 else ret free_run_start) ;;
        if has_flag PMM_ALLOC_FLAG_CONTIGUOUS flags && (start =? no_run) then alloc_arenas l count flags align_log2 want (allocated, start, out)
        else
          x <- take_pages (Z.to_nat (count - allocated)) a count flags want (allocated, start, out) ;;
          alloc_arenas l count flags align_log2 want x
  end.

(** [page_list] may be NULL. The second result is what has been written to [pages]. *)
Definition pmm_alloc_pages_locked (pl : option page_list) (want : bool) (count flags align_log2 : Z) : MP (Z * list Z) :=
  list_initialize LocalList ;;
  assert_ ((align_log2 =? 0) || has_flag PMM_ALLOC_FLAG_CONTIGUOUS flags) ;;
  let flags := if has_flag PMM_ALLOC_FLAG_CONTIGUOUS flags && (count =? 1) && (align_log2 <=? PAGE_SIZE_SHIFT)
               then Z.ldiff flags PMM_ALLOC_FLAG_CONTIGUOUS else flags in
  l <- gets arena_list ;;
  x <- alloc_arenas l count flags align_log2 want (0, no_run, []) ;;
  let '(allocated, _, out) := x in
  if negb (allocated =? count) then _ <- pmm_free_locked LocalList ;; ret (ERR_NO_MEMORY, out)
  else
    match pl with Some l => list_splice_tail l LocalList | None => ret tt end ;;
    ret (0, out).

Fixpoint range_pages (n : nat) a (address count : Z) (pl : page_list) (allocated : Z) : MP (Z * Z) :=
  match n with
  | O => ret (address, allocated)
  | S n =>
      ar <- get_arena a ;;
      if negb (ADDRESS_IN_ARENA address ar) || (free_count ar <=? reserved_count ar) then ret (address, allocated)
      else
        let index := (address - base ar) / PAGE_SIZE in
        assert_ (index <? page_count ar) ;;
        let p := page_at ar index in
        fl <- get_page p ;;
        if has_flag VM_PAGE_FLAG_NONFREE fl then ret (address, allocated)
        else
          b <- in_list p ;;
          assert_ b ;;
          list_delete p ;;
          upd_page p (Z.lor VM_PAGE_FLAG_NONFREE) ;;
          list_add_tail pl p ;;
          upd_arena a (fun ar => set_counts (free_count ar - 1) (reserved_count ar) ar) ;;
          range_pages n a (u64 (address + PAGE_SIZE)) count pl (allocated + 1)
  end.
Fixpoint range_arenas (l : list Z) (address count : Z) (pl : page_list) (allocated : Z) : MP Z :=
  match l with
  | [] => ret allocated
  | a :: l =>
      r <- range_pages (Z.to_nat (count - allocated)) a address count pl allocated ;;
      let '(address, allocated) := r in
      if allocated =? count then ret allocated else range_arenas l address count pl allocated
  end.
Definition pmm_alloc_range (address count : Z) (pl : page_list) : MP Z :=
  if count =? 0 then ret 0
  else
    mutex_acquire ;;
    l <- gets arena_list ;;
    n <- range_arenas l (round_down address PAGE_SIZE) count pl 0 ;;
    mutex_release ;;
    ret n.

(** The number of pages, and the address that is stored. *)
Definition pmm_alloc_contiguous (count alignment_log2 : Z) (pl : option page_list) : MP (Z * option Z) :=
  if count =? 0 then ret (0, None)
  else
    let alignment_log2 := Z.max alignment_log2 PAGE_SIZE_SHIFT in
    mutex_acquire ;;
    r <- pmm_alloc_pages_locked pl true count (Z.lor PMM_ALLOC_FLAG_KMAP PMM_ALLOC_FLAG_CONTIGUOUS) alignment_log2 ;;
    mutex_release ;;
    match r with
    | (0, out) =>
        p <- getsome (fun _ => out !! 0%nat) ;;
        pa <- vm_page_to_paddr p ;;
        ret (count, Some pa)
    | _ => ret (0, None)
    end.

(** The address in the kernel, 0 if there is no memory. *)
Definition pmm_alloc_kpages (count : Z) (pl : option page_list) : MP Z :=
  r <- pmm_alloc_contiguous count PAGE_SIZE_SHIFT pl ;;
  match r with
  | (0, _) => ret 0
  | (_, pa) => pa <- getsome (fun _ => pa) ;; paddr_to_kvaddr pa
  end.

(** [vaddr_to_paddr] asks the page tables. *)
Fixpoint kpages_list (n : nat) (vaddr_to_paddr : Z -> Z) (ptr : Z) : MP unit :=
  match n with
  | O => ret tt
  | S n =>
      r <- paddr_to_vm_page (vaddr_to_paddr ptr) ;;
      match r with
      | Some p => list_add_tail LocalList p
      | None => ret tt
      end ;;
      kpages_list n vaddr_to_paddr (u64 (ptr + PAGE_SIZE))
  end.
Definition pmm_free_kpages (vaddr_to_paddr : Z -> Z) (ptr count : Z) : MP Z :=
  list_initialize LocalList ;;
  kpages_list (Z.to_nat count) vaddr_to_paddr ptr ;;
  pmm_free LocalList.
End pmm.
