(* ===== verification/PmmInv.v ===== *)
(** * Physical pages: the invariant

    A page is free exactly if it is on the free list of its arena, the counts of an
    arena are those of its lists, and no page is on two lists. *)
From stdpp Require Import base gmap list.
From Stdlib Require Import ZArith Lia.
From S2P Require Import Prelude Pmm.

Local Open Scope Z_scope.
Local Open Scope lk_scope.

Class PmmLaws `{!PmmConfig} := {
  page_shift_range : 1 <= PAGE_SIZE_SHIFT < 32;
  mapping_not_null : forall pa va, find_mapping pa mmu_initial_mappings = Some va -> va <> 0
}.

Section inv.
Context `{!PmmConfig} `{!PmmLaws}.
Implicit Types (s : pmm) (a p i : Z) (ar : pmm_arena_t) (pl : page_list) (l q ps : list Z).

Definition nonfree (fl : Z) : bool := has_flag VM_PAGE_FLAG_NONFREE fl.
Definition reserved (fl : Z) : bool := has_flag VM_PAGE_FLAG_RESERVED fl.

Record arena_ok ar : Prop := {
  ao_base : 0 <= base ar /\ Z.land (base ar) (PAGE_SIZE - 1) = 0;
  ao_size : PAGE_SIZE <= size ar /\ base ar + size ar <= 2 ^ 64;
  ao_pages : Z.land (size ar) (PAGE_SIZE - 1) = 0;
  ao_count : page_count ar < 2 ^ 32;
  ao_reserved : 0 <= reserved_count ar <= free_count ar
}.

(** [p] is the struct of page [i] of the arena [a]. *)
Definition is_page s a ar i p : Prop :=
  a ∈ arena_list s /\ arenas s !! a = Some ar /\ 0 <= i < page_count ar /\ p = page_at ar i.

Record pmm_wf s : Prop := {
  pw_arenas : NoDup (arena_list s);
  pw_arena : forall a, a ∈ arena_list s -> exists ar q, arenas s !! a = Some ar /\ arena_ok ar /\
    lists s !! FreeList a = Some q /\ free_count ar = Z.of_nat (length q);
  pw_page : forall a ar i p, is_page s a ar i p -> exists fl, pages s !! p = Some fl /\
    (nonfree fl = false -> reserved fl = false /\ exists q, lists s !! FreeList a = Some q /\ p ∈ q);
  pw_disjoint : forall a b ar br p, a ∈ arena_list s -> b ∈ arena_list s -> arenas s !! a = Some ar -> arenas s !! b = Some br ->
    PAGE_BELONGS_TO_ARENA p ar = true -> PAGE_BELONGS_TO_ARENA p br = true -> a = b;
  pw_lists : forall pl q p, lists s !! pl = Some q -> p ∈ q -> exists a ar i fl, is_page s a ar i p /\ pages s !! p = Some fl /\
    match pl with FreeList b => b = a /\ nonfree fl = false | _ => nonfree fl = true end;
  pw_nodup : forall pl q, lists s !! pl = Some q -> NoDup q;
  pw_unique : forall pl pl' q q' p, lists s !! pl = Some q -> lists s !! pl' = Some q' -> p ∈ q -> p ∈ q' -> pl = pl'
}.

(** The part of it that the lists do not matter for. *)
Record arenas_wf s : Prop := {
  aw_arena : forall a, a ∈ arena_list s -> exists ar, arenas s !! a = Some ar /\ arena_ok ar;
  aw_disjoint : forall a b ar br p, a ∈ arena_list s -> b ∈ arena_list s -> arenas s !! a = Some ar -> arenas s !! b = Some br ->
    PAGE_BELONGS_TO_ARENA p ar = true -> PAGE_BELONGS_TO_ARENA p br = true -> a = b
}.
Lemma wf_arenas s : pmm_wf s -> arenas_wf s.
Proof. intros Hw. constructor; [|apply Hw]. intros a Ha. destruct (pw_arena _ Hw a Ha) as (ar & _ & ? & ? & _). by exists ar. Qed.
Lemma arenas_wf_ext s s' : arena_list s' = arena_list s -> arenas s' = arenas s -> arenas_wf s -> arenas_wf s'.
Proof. intros Hl Ha [H1 H2]. constructor; rewrite Hl, Ha; done. Qed.

(** ** Page numbers and addresses *)
Lemma page_size_pos : 2 <= PAGE_SIZE.
Proof.
  unfold PAGE_SIZE. destruct page_shift_range as [H1 _]. rewrite Z.shiftl_1_l. change 2 with (2 ^ 1) at 1. apply Z.pow_le_mono_r; lia.
Qed.

Lemma page_bounds ar i : 0 <= i < page_count ar -> 0 <= i * PAGE_SIZE /\ i * PAGE_SIZE + PAGE_SIZE <= size ar.
Proof.
  pose proof page_size_pos as Hps. assert (0 < PAGE_SIZE) as Hpos by lia. unfold page_count. intros Hi. pose proof (Z.mul_div_le (size ar) _ Hpos).
  assert (PAGE_SIZE * (i + 1) <= PAGE_SIZE * (size ar / PAGE_SIZE)) by (apply Z.mul_le_mono_nonneg_l; lia).
  split; [apply Z.mul_nonneg_nonneg; lia|]. rewrite Z.mul_add_distr_l in *. lia.
Qed.

Lemma page_belongs s a ar i p : is_page s a ar i p -> PAGE_BELONGS_TO_ARENA p ar = true.
Proof. intros (_ & _ & Hi & ->). unfold PAGE_BELONGS_TO_ARENA, page_at, sizeof_vm_page. lia. Qed.

Lemma is_page_inj s a b ar br i j p : arenas_wf s -> is_page s a ar i p -> is_page s b br j p -> a = b /\ ar = br /\ i = j.
Proof.
  intros Hw Ha Hb. assert (a = b) as <-.
  { destruct Ha as (H1 & H2 & H3 & H4) eqn:E. eapply (aw_disjoint _ Hw a b); [exact H1|apply Hb|exact H2|apply Hb|by eapply page_belongs|by eapply page_belongs]. }
  destruct Ha as (_ & Ha & _ & Hp), Hb as (_ & Hb & _ & Hp'). assert (ar = br) as <- by congruence. split_and!; [done|done|].
  rewrite Hp in Hp'. unfold page_at, sizeof_vm_page in Hp'. lia.
Qed.

Lemma find_arena_run l test s :
  (forall a, a ∈ l -> is_Some (arenas s !! a)) ->
  exists r, find_arena l test s = Some (r, s) /\
    match r with
    | Some a => a ∈ l /\ exists ar, arenas s !! a = Some ar /\ test ar = true
    | None => forall a ar, a ∈ l -> arenas s !! a = Some ar -> test ar = false
    end.
Proof.
  induction l as [|a l IH]; intros Hl; [exists None; split; [done|]; by intros a ar Ha%elem_of_nil|].
  destruct (Hl a ltac:(left)) as [ar Har]. cbn [find_arena]. rewrite (bind_eq _ _ s ar s) by (by apply getsome_eq).
  destruct (test ar) eqn:Ht; [exists (Some a); split; [done|]; split; [left|by exists ar]|].
  destruct IH as (r & Hr & Hm); [intros b Hb; apply Hl; by right|]. exists r. split; [done|]. destruct r as [b|].
  - destruct Hm as (Hb & Hx). split; [by right|done].
  - intros b br [->|Hb]%elem_of_cons Hbr; [congruence|by eapply Hm].
Qed.

Lemma arena_some s a : arenas_wf s -> a ∈ arena_list s -> is_Some (arenas s !! a).
Proof. intros Hw Ha. destruct (aw_arena _ Hw a Ha) as (ar & ? & _). by eexists. Qed.

(** The arena of a page is found. *)
Lemma find_belongs s a ar i p : arenas_wf s -> is_page s a ar i p -> find_arena (arena_list s) (PAGE_BELONGS_TO_ARENA p) s = Some (Some a, s).
Proof.
  intros Hw Hp. destruct (find_arena_run (arena_list s) (PAGE_BELONGS_TO_ARENA p) s) as ([b|] & Hr & Hm); [intros b; by apply arena_some| |].
  - rewrite Hr. destruct Hm as (Hb & br & Hbr & Hbel). do 3 f_equal. eapply (aw_disjoint _ Hw b a); [done|apply Hp|done|apply Hp|done|by eapply page_belongs].
  - specialize (Hm a ar). rewrite (page_belongs _ _ _ _ _ Hp) in Hm. discriminate Hm; apply Hp.
Qed.

Lemma page_address s a ar i p : arenas_wf s -> is_page s a ar i p -> vm_page_to_paddr p s = Some (base ar + i * PAGE_SIZE, s).
Proof.
  intros Hw Hp. unfold vm_page_to_paddr. rewrite gets_bind, (bind_eq _ _ _ _ _ (find_belongs _ _ _ _ _ Hw Hp)).
  pose proof Hp as (Hin & Ha & Hi & ->). rewrite (bind_eq _ _ s ar s) by (by apply getsome_eq). unfold ret. do 2 f_equal.
  destruct (aw_arena _ Hw a Hin) as (? & ? & [A1 A2 _ _ _]). simplify_eq. pose proof page_size_pos as Hps.
  unfold PAGE_ADDRESS_FROM_ARENA, page_at, sizeof_vm_page. replace (page_array ar + i * 24 - page_array ar) with (i * 24) by lia. rewrite Z.div_mul by lia.
  pose proof (page_bounds ar i Hi). rewrite u64_small; lia.
Qed.

(** ** Clearing *)

(** The kernel can write to the pages of the arena. *)
Definition in_kernel ar : Prop := kvaddr ar <> 0 /\ 0 < kvaddr ar /\ kvaddr ar + size ar <= 2 ^ 64.
Definition clearable s a ar : Prop := in_kernel ar /\ a ∈ arena_list s /\ arenas s !! a = Some ar /\
  forall b br, b ∈ arena_list s -> arenas s !! b = Some br -> kvaddr br <> 0 -> in_kernel br.

Lemma paddr_to_kvaddr_run s pa a ar :
  arenas_wf s -> aux_slock s = false -> clearable s a ar -> base ar <= pa < base ar + size ar ->
  exists va, paddr_to_kvaddr pa s = Some (va, s) /\ va <> 0.
Proof.
  intros Hw Hl (Hk & Hin & Ha & Hall) Hpa. unfold paddr_to_kvaddr. destruct (find_mapping _ _) as [va|] eqn:Hm.
  { exists va. split; [done|]. by eapply mapping_not_null. }
  unfold pmm_paddr_to_kvaddr, spin_lock. rewrite bind_assoc, gets_bind, bind_assoc, assert_bind by (by rewrite Hl). rewrite modify_bind, gets_bind.
  destruct (find_arena_run (arena_list s) (fun ar => negb (kvaddr ar =? 0) && ADDRESS_IN_ARENA pa ar) (with_aux_slock true s)) as (r & Hr & Hres).
  { intros b Hb. by apply (arena_some s). }
  change (arena_list (with_aux_slock true s)) with (arena_list s). rewrite (bind_eq _ _ _ _ _ Hr).
  assert (with_aux_slock false (with_aux_slock true s) = s) as Hs by (destruct s; cbn in *; by rewrite Hl).
  destruct r as [b|].
  - destruct Hres as (Hb & br & Hbr & [Ht0 Ht]%andb_true_iff). apply negb_true_iff, Z.eqb_neq in Ht0. change (arenas s !! b = Some br) in Hbr. rewrite bind_assoc, (bind_eq _ _ _ br (with_aux_slock true s)) by (by apply getsome_eq).
    rewrite ret_bind. unfold spin_unlock. rewrite modify_bind, Hs. eexists. split; [reflexivity|].
    destruct (Hall b br Hb Hbr Ht0) as (_ & K1 & K2). apply andb_true_iff in Ht as [Ht1 Ht2].
    destruct (aw_arena _ Hw b Hb) as (? & ? & [[B1 _] [B2 B3] _ _ _]). simplify_eq. pose proof page_size_pos.
    rewrite (u64_small (base br + _ - 1)) in Ht2 by lia. rewrite u64_small by lia. lia.
  - specialize (Hres a ar Hin Ha). cbn beta in Hres. destruct Hk as (K0 & K1 & K2).
    destruct (aw_arena _ Hw a Hin) as (? & ? & [[B1 _] [B2 B3] _ _ _]). simplify_eq. pose proof page_size_pos.
    unfold ADDRESS_IN_ARENA in Hres. rewrite u64_small in Hres by lia. lia.
Qed.

Lemma clear_page_run s a ar i p :
  arenas_wf s -> aux_slock s = false -> clearable s a ar -> is_page s a ar i p -> exists va, clear_page p s = Some (tt, with_cleared (cons va) s).
Proof.
  intros Hw Hl Hk Hp. unfold clear_page. rewrite (bind_eq _ _ _ _ _ (page_address _ _ _ _ _ Hw Hp)).
  pose proof Hp as (Hin & Ha & Hi & _). destruct (aw_arena _ Hw a Hin) as (? & ? & [[B1 B0] [B2 B3] _ _ _]). simplify_eq. pose proof page_size_pos as Hps.
  pose proof (page_bounds ar i Hi).
  rewrite assert_bind by (apply negb_true_iff, Z.eqb_neq; lia).
  destruct (paddr_to_kvaddr_run s (base ar + i * PAGE_SIZE) a ar Hw Hl Hk) as (va & Hva & Hne); [lia|].
  rewrite (bind_eq _ _ _ _ _ Hva). rewrite assert_bind by (by apply negb_true_iff, Z.eqb_neq). by exists va.
Qed.
End inv.
