(* ===== verification/PmmGrab.v ===== *)
(** * Taking pages out of the free lists and putting them back *)
From stdpp Require Import base gmap list.
From Stdlib Require Import ZArith Lia.
From S2P Require Import Prelude Pmm PmmInv.

Local Open Scope Z_scope.
Local Open Scope lk_scope.

Section grab.
Context `{!PmmConfig} `{!PmmLaws}.
Implicit Types (s : pmm) (a p i : Z) (ar : pmm_arena_t) (pl : page_list) (l q ps : list Z).

(** The flags of a page that has been allocated, from the reserved pages or not. *)
Definition mark (res : bool) (fl : Z) : Z := Z.lor VM_PAGE_FLAG_NONFREE (if res then Z.lor VM_PAGE_FLAG_RESERVED fl else fl).
(** How many of the pages are in the arena, and what is left of it without them. *)
Definition cnt ar ps : Z := Z.of_nat (length (filter (fun p => PAGE_BELONGS_TO_ARENA p ar = true) ps)).
Definition cost (res : bool) (n : Z) ar : pmm_arena_t := set_counts (free_count ar - n) (if res then reserved_count ar - n else reserved_count ar) ar.
Definition is_free_list (pl : page_list) : bool := match pl with FreeList _ => true | _ => false end.
Definition without ps q : list Z := filter (fun x => x ∉ ps) q.
Definition free_in s p : Prop := exists a ar i fl, is_page s a ar i p /\ pages s !! p = Some fl /\ nonfree fl = false.

(** [ps] have been taken, in this order, and put at the end of the list [dst]. *)
Record grabbed (dst : page_list) (res : bool) ps s s' : Prop := {
  gr_list : arena_list s' = arena_list s;
  gr_arenas : forall a, arenas s' !! a = (if decide (a ∈ arena_list s) then (fun ar => cost res (cnt ar ps) ar) else id) <$> arenas s !! a;
  gr_pages : forall p, pages s' !! p = (if decide (p ∈ ps) then mark res else id) <$> pages s !! p;
  gr_lists : forall pl, lists s' !! pl = (fun q => without ps q ++ (if decide (pl = dst) then ps else [])) <$> lists s !! pl;
  gr_locks : lock s' = lock s /\ aux_slock s' = aux_slock s;
  gr_nodup : NoDup ps;
  gr_free : forall p, p ∈ ps -> free_in s p
}.

(** ** Flags *)
Lemma bits_flag f n : 0 <= n -> f = Z.shiftl 1 n -> forall x, has_flag f x = Z.testbit x n.
Proof.
  intros Hn -> x. unfold has_flag. destruct (Z.testbit x n) eqn:Ht.
  - apply negb_true_iff, Z.eqb_neq. intros He. assert (Z.testbit (Z.land x (Z.shiftl 1 n)) n = true) as Hb; [|by rewrite He, Z.bits_0 in Hb].
    rewrite Z.land_spec, Ht, Z.shiftl_1_l, Z.pow2_bits_true by done. done.
  - apply negb_false_iff, Z.eqb_eq. apply Z.bits_inj'. intros m Hm. rewrite Z.bits_0, Z.land_spec, Z.shiftl_1_l, Z.pow2_bits_eqb by done.
    destruct (Z.eqb_spec n m) as [->|]; [by rewrite Ht|by rewrite andb_false_r].
Qed.
Lemma nonfree_bit fl : nonfree fl = Z.testbit fl 0.
Proof. by apply bits_flag. Qed.
Lemma reserved_bit fl : reserved fl = Z.testbit fl 1.
Proof. by apply bits_flag. Qed.

Lemma mark_nonfree res fl : nonfree (mark res fl) = true.
Proof. rewrite nonfree_bit. unfold mark. by rewrite Z.lor_spec. Qed.
Lemma mark_reserved res fl : reserved (mark res fl) = res || reserved fl.
Proof. rewrite !reserved_bit. unfold mark. rewrite Z.lor_spec. destruct res; [by rewrite Z.lor_spec|done]. Qed.
(** What [pmm_free] does to the flags. *)
Definition unmark (fl : Z) : Z :=
  if reserved fl then Z.ldiff (Z.ldiff fl VM_PAGE_FLAG_NONFREE) VM_PAGE_FLAG_RESERVED else Z.ldiff fl VM_PAGE_FLAG_NONFREE.
Lemma bit_of_one n : 0 <= n -> Z.testbit 1 n = (n =? 0).
Proof. intros Hn. destruct (Z.eqb_spec n 0) as [->|]; [done|]. rewrite Z.bits_above_log2; [done|lia|]. cbn. lia. Qed.
Lemma bit_of_two n : 0 <= n -> Z.testbit 2 n = (n =? 1).
Proof.
  intros Hn. destruct (Z.eqb_spec n 1) as [->|]; [done|]. destruct (Z.eqb_spec n 0) as [->|]; [done|].
  rewrite Z.bits_above_log2; [done|lia|]. cbn. lia.
Qed.
Lemma unmark_mark res fl : nonfree fl = false -> reserved fl = false -> unmark (mark res fl) = fl.
Proof.
  intros Hn Hr. unfold unmark. rewrite mark_reserved, Hr, orb_false_r. rewrite nonfree_bit in Hn. rewrite reserved_bit in Hr.
  apply Z.bits_inj'. intros n Hnn. unfold mark, VM_PAGE_FLAG_NONFREE, VM_PAGE_FLAG_RESERVED.
  destruct (decide (n = 0)) as [Hz|Hz]; [subst n; destruct res; rewrite ?Z.ldiff_spec, ?Z.lor_spec; by rewrite Hn|].
  destruct (decide (n = 1)) as [Hz'|Hz']; [subst n; destruct res; rewrite ?Z.ldiff_spec, ?Z.lor_spec; by rewrite Hr|].
  destruct res; rewrite ?Z.ldiff_spec, ?Z.lor_spec, ?bit_of_one, ?bit_of_two by done; rewrite (proj2 (Z.eqb_neq n 0) Hz), ?(proj2 (Z.eqb_neq n 1) Hz');
    by rewrite ?andb_true_r.
Qed.
Lemma unmark_free fl : nonfree (unmark fl) = false /\ reserved (unmark fl) = false.
Proof.
  unfold unmark. destruct (reserved fl) eqn:Hr; rewrite reserved_bit in Hr; rewrite nonfree_bit, reserved_bit, !Z.ldiff_spec by lia; unfold VM_PAGE_FLAG_NONFREE, VM_PAGE_FLAG_RESERVED;
    rewrite ?bit_of_one, ?bit_of_two by lia; change (0 =? 0) with true; change (1 =? 1) with true; cbn [negb]; by rewrite ?andb_false_r, ?Hr.
Qed.

(** ** Lists and counts *)
Lemma cnt_app ar ps ps' : cnt ar (ps ++ ps') = cnt ar ps + cnt ar ps'.
Proof. unfold cnt. rewrite filter_app, length_app. lia. Qed.
Lemma cnt_nonneg ar ps : 0 <= cnt ar ps.
Proof. unfold cnt. lia. Qed.
Lemma without_app ps ps' q : without (ps ++ ps') q = without ps' (without ps q).
Proof.
  unfold without. induction q as [|x q IH]; [done|]. rewrite !filter_cons. pose proof (elem_of_app ps ps' x).
  destruct (decide (x ∉ ps)) as [Hx|Hx]; [rewrite filter_cons|]; repeat case_decide; rewrite ?IH; try done; tauto.
Qed.
Lemma in_without ps q p : p ∈ without ps q <-> p ∈ q /\ p ∉ ps.
Proof. unfold without. rewrite list_elem_of_filter. tauto. Qed.
Lemma without_nil q : without [] q = q.
Proof. unfold without. induction q as [|x q IH]; [done|]. rewrite filter_cons_True by apply not_elem_of_nil. by rewrite IH. Qed.
Lemma without_none ps q : (forall p, p ∈ ps -> p ∉ q) -> without ps q = q.
Proof. intros Hn. induction q as [|x q IH]; [done|]. unfold without. rewrite filter_cons_True by (intros Hx; apply (Hn x Hx); left). f_equal. apply IH. intros p Hp Hq. apply (Hn p Hp). by right. Qed.
Lemma length_partition (P : Z -> Prop) `{forall x, Decision (P x)} q : length q = (length (filter P q) + length (filter (fun x => ~ P x) q))%nat.
Proof. induction q as [|x q IH]; [done|]. rewrite !filter_cons. repeat case_decide; cbn; try tauto; lia. Qed.

Lemma is_page_list s s' a ar ar' i p :
  arena_list s' = arena_list s -> arenas s' !! a = Some ar' -> size ar' = size ar -> page_array ar' = page_array ar -> is_page s a ar i p -> is_page s' a ar' i p.
Proof. intros Hl Ha Hs Hp (H1 & H2 & H3 & H4). unfold is_page, page_count, page_at. by rewrite Hl, Hs, Hp. Qed.

Section grabbed.
Context (dst : page_list) (res : bool) (ps : list Z) (s s' : pmm) (Hw : pmm_wf s) (Hg : grabbed dst res ps s s').

Lemma grabbed_page a ar i p : is_page s a ar i p -> is_page s' a (cost res (cnt ar ps) ar) i p.
Proof using Hg.
  intros Hp. apply (is_page_list s s' a ar); [apply Hg| |done|done|done]. rewrite (gr_arenas _ _ _ _ _ Hg), decide_True by apply Hp. destruct Hp as (_ & -> & _). done.
Qed.
Lemma grabbed_back a ar' i p : is_page s' a ar' i p -> exists ar, is_page s a ar i p /\ ar' = cost res (cnt ar ps) ar.
Proof using Hg.
  intros (Hin & Ha & Hi). rewrite (gr_list _ _ _ _ _ Hg) in Hin. rewrite (gr_arenas _ _ _ _ _ Hg), decide_True in Ha by done.
  apply fmap_Some in Ha as (ar & Har & ->). exists ar. by split.
Qed.

Lemma free_page_arena p a ar : p ∈ ps -> a ∈ arena_list s -> arenas s !! a = Some ar -> PAGE_BELONGS_TO_ARENA p ar = true ->
  exists i fl, is_page s a ar i p /\ pages s !! p = Some fl /\ nonfree fl = false.
Proof using Hg Hw.
  intros Hp Ha Har Hb. destruct (gr_free _ _ _ _ _ Hg p Hp) as (b & br & i & fl & Hpg & Hfl & Hnf).
  assert (b = a) as -> by (eapply (pw_disjoint _ Hw); [apply Hpg|done|apply Hpg|done|by eapply page_belongs|done]).
  assert (br = ar) as -> by (destruct Hpg as (_ & ? & _); congruence). by exists i, fl.
Qed.

(** As many free pages have gone as were taken from the arena. *)
Lemma grabbed_length a ar q : a ∈ arena_list s -> arenas s !! a = Some ar -> lists s !! FreeList a = Some q ->
  Z.of_nat (length (without ps q)) = Z.of_nat (length q) - cnt ar ps.
Proof using Hg Hw.
  intros Ha Har Hq. rewrite (length_partition (fun x => x ∈ ps) q). unfold without, cnt.
  assert (filter (fun x => x ∈ ps) q ≡ₚ filter (fun p => PAGE_BELONGS_TO_ARENA p ar = true) ps) as ->; [|lia].
  apply NoDup_Permutation; [apply NoDup_filter; by apply (pw_nodup _ Hw (FreeList a))|apply NoDup_filter, Hg|].
  intros p. rewrite !list_elem_of_filter. split; [|].
  - intros [Hp Hin]. split; [|done]. destruct (pw_lists _ Hw _ _ _ Hq Hin) as (b & br & i & fl & Hpg & _ & -> & _).
    assert (br = ar) as -> by (destruct Hpg as (_ & ? & _); congruence). by eapply page_belongs.
  - intros [Hb Hp]. split; [done|]. destruct (free_page_arena p a ar Hp Ha Har Hb) as (i & fl & Hpg & Hfl & Hnf).
    destruct (pw_page _ Hw _ _ _ _ Hpg) as (fl' & ? & Hfree). assert (fl' = fl) as -> by congruence. destruct (Hfree Hnf) as (_ & q' & ? & ?). congruence.
Qed.

Lemma grabbed_wf :
  (forall a ar, a ∈ arena_list s' -> arenas s' !! a = Some ar -> 0 <= reserved_count ar <= free_count ar) -> is_Some (lists s !! dst) -> is_free_list dst = false -> pmm_wf s'.
Proof using Hg Hw.
  intros Hc [loc Hloc] Hdst. pose proof Hg as [G1 G2 G3 G4 G5 G6 G7].
  assert (forall a q, lists s !! FreeList a = Some q -> lists s' !! FreeList a = Some (without ps q)) as Hfl.
  { intros a q Hq. rewrite G4, Hq. cbn [fmap option_fmap option_map]. rewrite decide_False by (intros <-; done). by rewrite app_nil_r. }
  assert (forall pl q p, lists s' !! pl = Some q -> p ∈ q -> (p ∉ ps /\ exists q0, lists s !! pl = Some q0 /\ p ∈ q0) \/ (pl = dst /\ p ∈ ps)) as Hfrom.
  { intros pl q p Hq Hin. rewrite G4 in Hq. apply fmap_Some in Hq as (q0 & Hq0 & ->). apply elem_of_app in Hin as [[? ?]%in_without|Hin]; [left; split; [done|by exists q0]|].
    case_decide; [by right|by apply elem_of_nil in Hin]. }
  constructor.
  - rewrite G1. apply Hw.
  - intros a Ha. pose proof Ha as Ha'. rewrite G1 in Ha'. destruct (pw_arena _ Hw a Ha') as (ar & q & Har & [A1 A2 A5 A3 A4] & Hq & Hn).
    exists (cost res (cnt ar ps) ar), (without ps q). assert (arenas s' !! a = Some (cost res (cnt ar ps) ar)) as Har' by (by rewrite G2, decide_True, Har).
    split_and!; [done| | |].
    + constructor; [done|done|done|done|]. by apply (Hc a).
    + by apply Hfl.
    + cbn. rewrite (grabbed_length a ar q Ha' Har Hq). lia.
  - intros a ar' i p (ar & Hpg & ->)%grabbed_back. destruct (pw_page _ Hw _ _ _ _ Hpg) as (fl & Hf & Hfree). rewrite G3, Hf. eexists. split; [done|].
    destruct (decide (p ∈ ps)) as [Hp|Hp]; [by rewrite mark_nonfree|]. intros Hnf. destruct (Hfree Hnf) as (Hr & q & Hq & Hin). split; [done|].
    exists (without ps q). split; [by apply Hfl|]. by apply in_without.
  - intros a b ar br p Ha Hb Har Hbr. rewrite G1 in Ha, Hb. rewrite G2, decide_True in Har by done. rewrite G2, decide_True in Hbr by done.
    apply fmap_Some in Har as (ar0 & Har & ->). apply fmap_Some in Hbr as (br0 & Hbr & ->). by apply (pw_disjoint _ Hw a b ar0 br0).
  - intros pl q p Hq Hin. destruct (Hfrom _ _ _ Hq Hin) as [(Hn & q0 & Hq0 & Hin0)|[-> Hp]].
    + destruct (pw_lists _ Hw _ _ _ Hq0 Hin0) as (a & ar & i & fl & Hpg & Hf & Hm). exists a, (cost res (cnt ar ps) ar), i, fl.
      split; [by apply grabbed_page|]. rewrite G3, decide_False, Hf by done. done.
    + destruct (G7 p Hp) as (a & ar & i & fl & Hpg & Hf & _). exists a, (cost res (cnt ar ps) ar), i, (mark res fl).
      split; [by apply grabbed_page|]. rewrite G3, decide_True, Hf by done. split; [done|]. destruct dst; [done|apply mark_nonfree..].
  - intros pl q Hq. rewrite G4 in Hq. apply fmap_Some in Hq as (q0 & Hq0 & ->). pose proof (pw_nodup _ Hw _ _ Hq0) as Hnd.
    case_decide as Hd; [|rewrite app_nil_r; by apply NoDup_filter]. apply NoDup_app. split_and!; [by apply NoDup_filter| |done]. by intros x [_ ?]%in_without.
  - intros pl pl' q q' p Hq Hq' Hin Hin'. destruct (Hfrom _ _ _ Hq Hin) as [(Hn & q0 & Hq0 & Hin0)|[-> Hp]], (Hfrom _ _ _ Hq' Hin') as [(Hn' & q1 & Hq1 & Hin1)|[-> Hp']]; try done.
    by eapply (pw_unique _ Hw).
Qed.
End grabbed.

(** ** Sequences of takings *)
Lemma cost_0 res ar : cost res 0 ar = ar.
Proof. unfold cost, set_counts. rewrite !Z.sub_0_r. by destruct res, ar. Qed.
Lemma cost_cost res n k ar : cost res n (cost res k ar) = cost res (k + n) ar.
Proof. unfold cost, set_counts. cbn. f_equal; [lia|]. destruct res; lia. Qed.

Lemma grabbed_nothing dst res s c : grabbed dst res [] s (with_cleared (fun _ => c) s).
Proof.
  constructor; cbn; try done.
  - intros a. case_decide; [|by rewrite option_fmap_id]. destruct (arenas s !! a); [|done]. cbn. by rewrite cost_0.
  - intros p. rewrite decide_False by apply not_elem_of_nil. by rewrite option_fmap_id.
  - intros pl. destruct (lists s !! pl) as [q|]; [|done]. cbn. rewrite without_nil. by destruct (decide _); rewrite app_nil_r.
  - by apply NoDup_nil_2.
  - by intros p ?%elem_of_nil.
Qed.

Lemma grabbed_trans dst res ps ps' s s1 s2 : grabbed dst res ps s s1 -> grabbed dst res ps' s1 s2 -> grabbed dst res (ps ++ ps') s s2.
Proof.
  intros Hg Hg'. pose proof Hg as [G1 G2 G3 G4 [G5 G5'] G6 G7]. pose proof Hg' as [E1 E2 E3 E4 [E5 E5'] E6 E7].
  assert (forall p, p ∈ ps' -> p ∉ ps) as Hdis.
  { intros p Hp Hin. destruct (E7 p Hp) as (a & ar & i & fl & _ & Hfl & Hnf). rewrite G3, decide_True in Hfl by done.
    apply fmap_Some in Hfl as (fl0 & _ & ->). by rewrite mark_nonfree in Hnf. }
  constructor.
  - congruence.
  - intros a. rewrite E2, G1, G2. case_decide; [|by rewrite <- option_fmap_compose]. destruct (arenas s !! a) as [ar|]; [|done]. cbn. f_equal.
    change (cnt (cost res (cnt ar ps) ar) ps') with (cnt ar ps'). by rewrite cost_cost, cnt_app.
  - intros p. rewrite E3, G3. destruct (decide (p ∈ ps)) as [Hp|Hp].
    + rewrite (decide_False (P := p ∈ ps')), (decide_True (P := p ∈ ps ++ ps')) by (try (intros Hp'; by apply (Hdis p Hp')); apply elem_of_app; by left). by rewrite option_fmap_id.
    + rewrite option_fmap_id. destruct (decide (p ∈ ps')) as [Hp'|Hp']; [rewrite decide_True by (apply elem_of_app; by right); done|].
      rewrite decide_False; [done|]. by intros [?|?]%elem_of_app.
  - intros pl. rewrite E4, G4, <- option_fmap_compose. apply option_fmap_ext. intros q. cbn. rewrite without_app. destruct (decide (pl = dst)).
    + unfold without at 1. rewrite filter_app. fold (without ps' (without ps q)) (without ps' ps). rewrite (without_none ps' ps) by done. by rewrite app_assoc.
    + by rewrite !app_nil_r.
  - split; congruence.
  - apply NoDup_app. split_and!; [done| |done]. intros p Hp Hp'. by apply (Hdis p Hp').
  - intros p [Hp|Hp]%elem_of_app; [by apply G7|]. destruct (E7 p Hp) as (a & ar & i & fl & Hpg & Hfl & Hnf).
    destruct (grabbed_back dst res ps s s1 Hg _ _ _ _ Hpg) as (ar0 & Hpg0 & _). rewrite G3, decide_False, option_fmap_id in Hfl by (by apply Hdis). by exists a, ar0, i, fl.
Qed.
End grab.
