(* ===== verification/PmmAlloc.v ===== *)
(** * Allocation out of one arena *)
From stdpp Require Import base gmap list.
From Stdlib Require Import ZArith Lia.
From S2P Require Import Prelude Pmm PmmInv PmmGrab.

Local Open Scope Z_scope.
Local Open Scope lk_scope.

Section alloc.
Context `{!PmmConfig} `{!PmmLaws}.
Implicit Types (s : pmm) (a p i : Z) (ar : pmm_arena_t) (pl : page_list) (l q ps : list Z).

Lemma get_arena_bind {A} a ar (k : pmm_arena_t -> M pmm A) s : arenas s !! a = Some ar -> bind (get_arena a) k s = k ar s.
Proof. intros Ha. apply bind_eq. by apply getsome_eq. Qed.
Lemma upd_arena_bind {A} a ar f (k : unit -> M pmm A) s : arenas s !! a = Some ar -> bind (upd_arena a f) k s = k tt (with_arenas <[a := f ar]> s).
Proof. intros Ha. unfold upd_arena. by rewrite bind_assoc, (get_arena_bind a ar). Qed.
Lemma get_page_bind {A} p fl (k : Z -> M pmm A) s : pages s !! p = Some fl -> bind (get_page p) k s = k fl s.
Proof. intros Hp. apply bind_eq. by apply getsome_eq. Qed.
Lemma upd_page_bind {A} p fl f (k : unit -> M pmm A) s : pages s !! p = Some fl -> bind (upd_page p f) k s = k tt (with_pages <[p := f fl]> s).
Proof. intros Hp. unfold upd_page. by rewrite bind_assoc, (get_page_bind p fl). Qed.
Lemma get_list_bind {A} pl q (k : list Z -> M pmm A) s : lists s !! pl = Some q -> bind (get_list pl) k s = k q s.
Proof. intros Hq. apply bind_eq. by apply getsome_eq. Qed.
Lemma add_tail_bind {A} pl p q (k : unit -> M pmm A) s :
  node_in_list p (lists s) = false -> lists s !! pl = Some q -> bind (list_add_tail pl p) k s = k tt (with_lists <[pl := q ++ [p]]> s).
Proof. intros Hn Hq. unfold list_add_tail, in_list. rewrite bind_assoc, gets_bind, bind_assoc, assert_bind by (by rewrite Hn). by rewrite bind_assoc, (get_list_bind pl q). Qed.
Lemma add_head_bind {A} pl p q (k : unit -> M pmm A) s :
  node_in_list p (lists s) = false -> lists s !! pl = Some q -> bind (list_add_head pl p) k s = k tt (with_lists <[pl := p :: q]> s).
Proof. intros Hn Hq. unfold list_add_head, in_list. rewrite bind_assoc, gets_bind, bind_assoc, assert_bind by (by rewrite Hn). by rewrite bind_assoc, (get_list_bind pl q). Qed.

(** ** One page *)
Definition from_reserved (flags : Z) : bool := has_flag PMM_ALLOC_FLAG_FROM_RESERVED flags.
Definition contiguous (flags : Z) : bool := has_flag PMM_ALLOC_FLAG_CONTIGUOUS flags.
Definition no_clear (flags : Z) : bool := has_flag PMM_ALLOC_FLAG_NO_CLEAR flags.
Definition budget (res : bool) ar : Z := if res then reserved_count ar else free_count ar - reserved_count ar.
Definition may_clear (flags : Z) s a ar : Prop := no_clear flags = true \/ clearable s a ar.

(** [p] is off its list and nothing else has happened. *)
Record unlinked p s s1 : Prop := {
  un_arenas : arenas s1 = arenas s;
  un_list : arena_list s1 = arena_list s;
  un_pages : pages s1 = pages s;
  un_lists : forall pl, lists s1 !! pl = without [p] <$> lists s !! pl;
  un_locks : lock s1 = lock s /\ aux_slock s1 = aux_slock s
}.

Lemma cnt_one s a ar i p : is_page s a ar i p -> cnt ar [p] = 1.
Proof. intros Hp. unfold cnt. rewrite filter_cons_True by (by eapply page_belongs). done. Qed.
Lemma cnt_other s a b ar br i p : pmm_wf s -> is_page s a ar i p -> b ∈ arena_list s -> arenas s !! b = Some br -> b <> a -> cnt br [p] = 0.
Proof.
  intros Hw Hp Hb Hbr Hne. unfold cnt. rewrite filter_cons_False; [done|]. intros Hbel. apply Hne.
  eapply (pw_disjoint _ Hw b a); [done|apply Hp|done|apply Hp|done|by eapply page_belongs].
Qed.

Lemma unlinked_not_linked p s s1 : unlinked p s s1 -> node_in_list p (lists s1) = false.
Proof.
  intros Hu. apply node_in_list_false. intros pl q Hq. rewrite (un_lists _ _ _ Hu) in Hq. apply fmap_Some in Hq as (q0 & _ & ->).
  intros [_ Hn]%in_without. apply Hn. by left.
Qed.

Lemma clear_run flags s s1 a ar i p :
  pmm_wf s -> aux_slock s = false -> is_page s a ar i p -> may_clear flags s a ar -> unlinked p s s1 ->
  exists c, when (negb (no_clear flags)) (clear_page p) s1 = Some (tt, with_cleared (fun _ => c) s1).
Proof.
  intros Hw Hlk Hpg Hcl [U1 U2 U3 U4 [U5 U6]]. destruct (no_clear flags) eqn:Hn; [exists (cleared s1); cbn; by destruct s1|].
  destruct Hcl as [Hcl|Hcl]; [congruence|]. destruct (clear_page_run s1 a ar i p) as (va & Hr).
  - apply (arenas_wf_ext s); [done..|by apply wf_arenas].
  - congruence.
  - unfold clearable. rewrite U1, U2. exact Hcl.
  - unfold is_page. rewrite U1, U2. exact Hpg.
  - by exists (va :: cleared s1).
Qed.

Lemma take_one_run flags s s1 a ar i p fl loc :
  pmm_wf s -> aux_slock s = false -> is_page s a ar i p -> pages s !! p = Some fl -> nonfree fl = false -> may_clear flags s a ar ->
  lists s !! LocalList = Some loc -> unlinked p s s1 ->
  exists s2, take_one flags a p s1 = Some (tt, s2) /\ grabbed LocalList (from_reserved flags) [p] s s2.
Proof.
  intros Hw Hlk Hpg Hfl Hnf Hcl Hloc Hun. destruct (clear_run flags s s1 a ar i p Hw Hlk Hpg Hcl Hun) as (c & Hclear).
  pose proof Hun as [U1 U2 U3 U4 [U5 U6]]. unfold take_one. fold (no_clear flags) (from_reserved flags). rewrite (bind_eq _ _ _ _ _ Hclear).
  set (s2 := with_cleared (fun _ => c) s1). pose proof Hpg as (Hin & Har & _). set (res := from_reserved flags) in *.
  assert (arenas s2 !! a = Some ar) as Har2 by (cbn; by rewrite U1). assert (pages s2 !! p = Some fl) as Hfl2 by (cbn; by rewrite U3).
  set (s3 := if res then with_pages <[p := Z.lor VM_PAGE_FLAG_RESERVED fl]> (with_arenas <[a := set_counts (free_count ar) (reserved_count ar - 1) ar]> s2) else s2).
  rewrite (bind_eq _ _ s2 tt s3).
  2: { unfold s3. destruct res; [|done]. cbn [when]. rewrite (upd_arena_bind a ar) by done. unfold upd_page. by rewrite (get_page_bind p fl). }
  set (ar3 := set_counts (free_count ar) (if res then reserved_count ar - 1 else reserved_count ar) ar).
  set (fl3 := if res then Z.lor VM_PAGE_FLAG_RESERVED fl else fl).
  assert (arenas s3 !! a = Some ar3) as Har3. { unfold s3, ar3. destruct res; [apply lookup_insert_eq|]. rewrite Har2. f_equal. by destruct ar. }
  assert (pages s3 !! p = Some fl3) as Hfl3. { unfold s3, fl3. destruct res; [apply lookup_insert_eq|done]. }
  assert (lists s3 = lists s1) as Hl3 by (unfold s3; by destruct res).
  rewrite (upd_arena_bind a ar3) by done. rewrite (upd_page_bind p fl3) by done. unfold list_add_tail, in_list.
  rewrite gets_bind, assert_bind by (cbn; by rewrite Hl3, (unlinked_not_linked p s s1)). rewrite (get_list_bind LocalList (without [p] loc)) by (cbn; by rewrite Hl3, U4, Hloc).
  eexists. split; [reflexivity|]. constructor.
  - cbn. unfold s3. destruct res; cbn; done.
  - intros b. assert (arenas s3 !! b = if decide (b = a) then Some ar3 else arenas s !! b) as Hb3.
    { case_decide as E; [by subst|]. unfold s3, s2. destruct res; cbn; rewrite ?lookup_insert_ne by done; by rewrite U1. }
    cbn. destruct (decide (b = a)) as [->|Hne].
    + rewrite lookup_insert_eq, decide_True, Har by done. cbn. rewrite (cnt_one _ _ _ _ _ Hpg). unfold ar3, cost, set_counts. cbn. do 2 f_equal; destruct res; done.
    + rewrite lookup_insert_ne, Hb3 by done. case_decide as Hbl; [|by rewrite option_fmap_id]. destruct (arenas s !! b) as [br|] eqn:Hbr; [|done].
      cbn. rewrite (cnt_other _ _ _ _ _ _ _ Hw Hpg Hbl Hbr Hne). by rewrite cost_0.
  - intros x. cbn. destruct (decide (x = p)) as [->|Hne].
    + rewrite lookup_insert_eq, decide_True, Hfl by (by left). cbn. unfold fl3, mark. by destruct res.
    + rewrite lookup_insert_ne, decide_False, option_fmap_id by (rewrite ?list_elem_of_singleton; done). unfold s3, s2. destruct res; cbn; rewrite ?lookup_insert_ne by done; by rewrite U3.
  - intros pl. cbn. rewrite Hl3. destruct (decide (pl = LocalList)) as [->|Hne].
    + by rewrite lookup_insert_eq, Hloc.
    + rewrite lookup_insert_ne, U4 by done. destruct (lists s !! pl); [|done]. cbn. by rewrite app_nil_r.
  - cbn. unfold s3. by destruct res.
  - apply NoDup_singleton.
  - intros x ->%list_elem_of_singleton. by exists a, ar, i, fl.
Qed.

(** ** The loop *)
Lemma unlink_head s a p q : pmm_wf s -> lists s !! FreeList a = Some (p :: q) -> unlinked p s (with_lists <[FreeList a := q]> s).
Proof.
  intros Hw Hq. constructor; cbn; try done. intros pl. destruct (decide (pl = FreeList a)) as [->|Hne].
  - rewrite lookup_insert_eq, Hq. change (Some q = Some (without [p] (p :: q))). unfold without. rewrite filter_cons_False by (intros Hn; apply Hn; by left). f_equal. symmetry. apply without_none.
    intros x ->%list_elem_of_singleton. pose proof (pw_nodup _ Hw _ _ Hq) as [? _]%NoDup_cons. done.
  - rewrite lookup_insert_ne by done. destruct (lists s !! pl) as [q'|] eqn:Hq'; [|done]. cbn. f_equal. symmetry. apply without_none.
    intros x ->%list_elem_of_singleton Hin. apply Hne. eapply (pw_unique _ Hw); [exact Hq'|exact Hq|exact Hin|by left].
Qed.

Lemma unlink_delete s p : unlinked p s (with_lists (node_delete p) s).
Proof.
  constructor; cbn; try done. intros pl. rewrite node_delete_lookup. apply option_fmap_ext. intros q. unfold without. apply filter_ext_in.
  intros x _. by rewrite list_elem_of_singleton.
Qed.

Lemma may_clear_grabbed flags res ps s s' a ar : a ∈ arena_list s -> arenas s !! a = Some ar -> grabbed LocalList res ps s s' -> may_clear flags s a ar -> may_clear flags s' a (cost res (cnt ar ps) ar).
Proof.
  intros Ha Har Hg [?|(Hk & _ & _ & Hall)]; [by left|right]. split_and!; [exact Hk|by rewrite (gr_list _ _ _ _ _ Hg)| |].
  - by rewrite (gr_arenas _ _ _ _ _ Hg), decide_True, Har.
  - intros b br Hb Hbr. rewrite (gr_list _ _ _ _ _ Hg) in Hb. rewrite (gr_arenas _ _ _ _ _ Hg), decide_True in Hbr by done.
    apply fmap_Some in Hbr as (br0 & Hbr & ->). apply (Hall b br0 Hb Hbr).
Qed.

Lemma take_wf res s s' a ar i p : pmm_wf s -> is_page s a ar i p -> is_Some (lists s !! LocalList) -> 0 < budget res ar -> grabbed LocalList res [p] s s' -> pmm_wf s'.
Proof.
  intros Hw Hpg Hloc Hb Hg. apply (grabbed_wf LocalList res [p] s s' Hw Hg); [|done|done]. intros b br Hbl Hbr. rewrite (gr_list _ _ _ _ _ Hg) in Hbl.
  rewrite (gr_arenas _ _ _ _ _ Hg), decide_True in Hbr by done. apply fmap_Some in Hbr as (br0 & Hbr & ->).
  destruct (pw_arena _ Hw b Hbl) as (? & _ & ? & [_ _ _ _ Hc] & _). simplify_eq. destruct (decide (b = a)) as [->|Hne].
  - assert (br0 = ar) as -> by (destruct Hpg as (_ & ? & _); congruence). rewrite (cnt_one s a ar i p Hpg). unfold budget in Hb. cbn. destruct res; lia.
  - rewrite (cnt_other _ _ _ _ _ _ _ Hw Hpg Hbl Hbr Hne). cbn. destruct res; lia.
Qed.

Lemma local_some res ps s s' : grabbed LocalList res ps s s' -> is_Some (lists s !! LocalList) -> is_Some (lists s' !! LocalList).
Proof. intros Hg [q Hq]. rewrite (gr_lists _ _ _ _ _ Hg), Hq. by eexists. Qed.

(** The pages a loop may take: [n] pages from number [frs] on are free. *)
Definition run_free s ar (frs : Z) (n : nat) : Prop :=
  0 <= frs /\ frs + Z.of_nat n <= page_count ar /\ forall k, frs <= k < frs + Z.of_nat n -> exists fl, pages s !! page_at ar k = Some fl /\ nonfree fl = false.

Definition outs (want cont : bool) (al : Z) (ps out : list Z) : list Z :=
  if want then if cont then if al =? 0 then out ++ take 1 ps else out else out ++ ps else out.

Lemma budget_cost res ar n : budget res (cost res n ar) = budget res ar - n.
Proof. unfold budget, cost, set_counts. cbn. destruct res; lia. Qed.

Lemma free_listed s a ar i p fl : pmm_wf s -> is_page s a ar i p -> pages s !! p = Some fl -> nonfree fl = false -> exists q, lists s !! FreeList a = Some q /\ p ∈ q.
Proof. intros Hw Hpg Hfl Hnf. destruct (pw_page _ Hw _ _ _ _ Hpg) as (fl' & ? & Hx). assert (fl' = fl) as -> by congruence. apply (Hx Hnf). Qed.

(** The next page: off its list, free, and next in the run. *)
Lemma next_page flags s a ar frs n :
  pmm_wf s -> a ∈ arena_list s -> arenas s !! a = Some ar -> 0 < budget (from_reserved flags) ar ->
  (contiguous flags = true -> run_free s ar frs (S n)) ->
  exists p i fl s1, (if contiguous flags then
      assert_ (frs <? page_count ar) ;; fl <- get_page (page_at ar frs) ;; assert_ (negb (has_flag VM_PAGE_FLAG_NONFREE fl)) ;;
      b <- in_list (page_at ar frs) ;; assert_ b ;; list_delete (page_at ar frs) ;; ret (Some (page_at ar frs))
    else list_remove_head (FreeList a)) s = Some (Some p, s1) /\
    unlinked p s s1 /\ is_page s a ar i p /\ pages s !! p = Some fl /\ nonfree fl = false /\ (contiguous flags = true -> i = frs).
Proof.
  intros Hw Ha Har Hb Hrun. destruct (contiguous flags).
  - destruct (Hrun eq_refl) as (R1 & R2 & R3). destruct (R3 frs ltac:(lia)) as (fl & Hfl & Hnf).
    assert (is_page s a ar frs (page_at ar frs)) as Hpg by (split_and!; [done|done|lia|lia|done]).
    exists (page_at ar frs), frs, fl, (with_lists (node_delete (page_at ar frs)) s). split_and!; [|apply unlink_delete|done|done|done|done].
    rewrite assert_bind by (apply Z.ltb_lt; lia). rewrite (get_page_bind _ fl) by done. unfold nonfree in Hnf. rewrite assert_bind by (by rewrite Hnf).
    unfold in_list. rewrite gets_bind. destruct (free_listed _ _ _ _ _ _ Hw Hpg Hfl Hnf) as (q & Hq & Hin).
    by rewrite assert_bind by (apply node_in_list_true; by exists (FreeList a), q).
  - destruct (pw_arena _ Hw a Ha) as (? & q & ? & [_ _ _ _ Hc] & Hq & Hn). simplify_eq. destruct q as [|p q]; [unfold budget in Hb; cbn in Hn; destruct (from_reserved flags); lia|].
    destruct (pw_lists _ Hw _ _ p Hq ltac:(left)) as (b & br & i & fl & Hpg & Hfl & -> & Hnf).
    assert (br = ar) as -> by (destruct Hpg as (_ & ? & _); congruence).
    exists p, i, fl, (with_lists <[FreeList b := q]> s). split_and!; [|by apply unlink_head|done|done|done|done].
    unfold list_remove_head. by rewrite (get_list_bind _ (p :: q)).
Qed.

Lemma run_free_next res s s' a ar frs n :
  pmm_wf s -> a ∈ arena_list s -> arenas s !! a = Some ar -> grabbed LocalList res [page_at ar frs] s s' -> run_free s ar frs (S n) ->
  run_free s' (cost res (cnt ar [page_at ar frs]) ar) (frs + 1) n.
Proof.
  intros Hw Ha Har Hg (R1 & R2 & R3). split_and!; [lia|unfold cost, page_count, set_counts in *; cbn in *; lia|]. intros k Hk.
  destruct (R3 k ltac:(lia)) as (fl & Hfl & Hnf). exists fl. split; [|done]. change (page_at (cost _ _ ar) k) with (page_at ar k).
  rewrite (gr_pages _ _ _ _ _ Hg), decide_False, Hfl; [done|]. rewrite list_elem_of_singleton. unfold page_at, sizeof_vm_page. lia.
Qed.

Lemma outs_cons want cont al p ps out :
  0 <= al -> outs want cont (al + 1) ps (outs want cont al [p] out) = outs want cont al (p :: ps) out.
Proof.
  intros Hal. unfold outs. destruct want; [|done]. destruct cont; [|by rewrite <- app_assoc]. rewrite (proj2 (Z.eqb_neq (al + 1) 0)) by lia. by destruct (al =? 0).
Qed.

(** What a loop over an arena takes: as many pages as it may, in the run if there is one. *)
Record taken flags a ar (frs : Z) (n : nat) ps s s' : Prop := {
  tk_grabbed : grabbed LocalList (from_reserved flags) ps s s';
  tk_wf : pmm_wf s';
  tk_length : Z.of_nat (length ps) = Z.min (Z.of_nat n) (budget (from_reserved flags) ar);
  tk_arena : forall p, p ∈ ps -> PAGE_BELONGS_TO_ARENA p ar = true;
  tk_run : contiguous flags = true -> ps = page_at ar <$> seqZ frs (Z.of_nat (length ps))
}.

Lemma take_pages_run flags want n : forall s a ar count al frs out,
  pmm_wf s -> aux_slock s = false -> a ∈ arena_list s -> arenas s !! a = Some ar -> may_clear flags s a ar -> is_Some (lists s !! LocalList) ->
  0 <= al -> (contiguous flags = true -> run_free s ar frs n) ->
  exists ps s' frs', take_pages n a count flags want (al, frs, out) s = Some ((al + Z.of_nat (length ps), frs', outs want (contiguous flags) al ps out), s') /\
    taken flags a ar frs n ps s s'.
Proof.
  induction n as [|n IH]; intros s a ar count al frs out Hw Hlk Ha Har Hcl Hloc Hal Hrun;
    destruct (pw_arena _ Hw a Ha) as (ar0 & _ & Har0 & [_ _ _ _ Hc] & _); assert (ar0 = ar) as -> by congruence; clear Har0.
  - exists [], s, frs. split; [|constructor].
    + cbn. unfold outs, ret. rewrite Z.add_0_r. do 3 f_equal. destruct want; [|done]. destruct (contiguous flags); [|by rewrite app_nil_r]. destruct (al =? 0); [by rewrite app_nil_r|done].
    + replace s with (with_cleared (fun _ => cleared s) s) at 2 by (by destruct s). apply grabbed_nothing.
    + done.
    + cbn. unfold budget. destruct (from_reserved flags); lia.
    + by intros p ?%elem_of_nil.
    + done.
  - cbn [take_pages]. rewrite (get_arena_bind a ar) by done. fold (from_reserved flags) (contiguous flags).
    assert ((if from_reserved flags then reserved_count ar =? 0 else free_count ar <=? reserved_count ar) = (budget (from_reserved flags) ar <=? 0)) as ->.
    { unfold budget. destruct (from_reserved flags); [|lia]. destruct (Z.eqb_spec (reserved_count ar) 0); lia. }
    destruct (Z.leb_spec (budget (from_reserved flags) ar) 0) as [Hb|Hb].
    + exists [], s, frs. split; [|constructor].
      * cbn. unfold outs, ret. rewrite Z.add_0_r. do 3 f_equal. destruct want; [|done]. destruct (contiguous flags); [|by rewrite app_nil_r]. destruct (al =? 0); [by rewrite app_nil_r|done].
      * replace s with (with_cleared (fun _ => cleared s) s) at 2 by (by destruct s). apply grabbed_nothing.
      * done.
      * cbn. unfold budget in *. destruct (from_reserved flags); lia.
      * by intros p ?%elem_of_nil.
      * done.
    + destruct (next_page flags s a ar frs n Hw Ha Har Hb Hrun) as (p & i & fl & s1 & Hr1 & Hun & Hpg & Hfl & Hnf & Hi).
      rewrite (bind_eq _ _ _ _ _ Hr1). destruct Hloc as [loc Hloc].
      destruct (take_one_run flags s s1 a ar i p fl loc Hw Hlk Hpg Hfl Hnf Hcl Hloc Hun) as (s2 & Hr2 & Hg2). cbn iota beta. rewrite (bind_eq _ _ _ _ _ Hr2).
      assert (is_Some (lists s !! LocalList)) as Hloc' by (by eexists). pose proof (take_wf _ s s2 a ar i p Hw Hpg Hloc' Hb Hg2) as Hw2.
      set (res := from_reserved flags) in *. set (ar2 := cost res (cnt ar [p]) ar).
      assert (arenas s2 !! a = Some ar2) as Har2 by (by rewrite (gr_arenas _ _ _ _ _ Hg2), decide_True, Har).
      destruct (IH s2 a ar2 count (al + 1) (frs + 1) (outs want (contiguous flags) al [p] out)) as (ps & s' & frs' & Hr & [T1 T2 T3 T4 T5]).
      * done.
      * by destruct (gr_locks _ _ _ _ _ Hg2) as [_ ->].
      * by rewrite (gr_list _ _ _ _ _ Hg2).
      * done.
      * by eapply may_clear_grabbed.
      * by eapply local_some.
      * lia.
      * intros Hco. assert (p = page_at ar frs) as -> by (destruct Hpg as (_ & _ & _ & ->); by rewrite Hi). by apply (run_free_next res s s2 a ar frs n Hw Ha Har Hg2), Hrun.
      * exists (p :: ps), s', frs'. split; [|constructor].
        -- rewrite outs_cons in Hr by done. cbn [length]. replace (al + Z.of_nat (S (length ps))) with (al + 1 + Z.of_nat (length ps)) by lia. rewrite <- Hr. f_equal. f_equal.
           unfold outs. destruct want; [|done]. destruct (contiguous flags); [|by rewrite orb_true_r]. by rewrite orb_false_r.
        -- by apply (grabbed_trans LocalList res [p] ps s s2 s').
        -- done.
        -- fold res in T3. unfold ar2 in T3. rewrite budget_cost, (cnt_one s a ar i p Hpg) in T3. cbn [length]. fold res. lia.
        -- intros x [->|Hx]%elem_of_cons; [by eapply page_belongs|by apply T4].
        -- intros Hco. assert (p = page_at ar frs) as Hp by (destruct Hpg as (_ & _ & _ & ->); by rewrite Hi). specialize (T5 Hco).
           cbn [length]. rewrite Nat2Z.inj_succ, seqZ_cons by lia. cbn [fmap list_fmap]. rewrite <- Hp. f_equal. rewrite Z.pred_succ, <- Z.add_1_r. exact T5.
Qed.
End alloc.
