(* ===== verification/PmmRun.v ===== *)
(** * The search for a run of free pages *)
From stdpp Require Import base gmap list.
From Stdlib Require Import ZArith Lia.
From S2P Require Import Prelude Pmm PmmInv PmmGrab PmmAlloc.

Local Open Scope Z_scope.
Local Open Scope lk_scope.

Lemma ldiff_mask x k : 0 <= k -> Z.ldiff x (2 ^ k - 1) = x - x mod 2 ^ k.
Proof.
  intros Hk. replace (2 ^ k - 1) with (Z.ones k) by (rewrite Z.ones_equiv; lia). rewrite Z.ldiff_ones_r by done.
  rewrite Z.shiftl_mul_pow2, Z.shiftr_div_pow2 by done. pose proof (Z.div_mod x (2 ^ k) ltac:(lia)). lia.
Qed.

(** [round_up] when the sum does not wrap: the least multiple that is not smaller. *)
Lemma round_up_spec x k : 0 <= k -> 0 <= x -> x + 2 ^ k - 1 < 2 ^ 64 ->
  x <= round_up x (2 ^ k) < x + 2 ^ k /\ round_up x (2 ^ k) mod 2 ^ k = 0.
Proof.
  intros Hk Hx Hb. unfold round_up. pose proof (Z.pow_pos_nonneg 2 k ltac:(lia) Hk). rewrite u64_small, ldiff_mask by lia.
  set (y := x + (2 ^ k - 1)). pose proof (Z.mod_pos_bound y (2 ^ k) ltac:(lia)). split; [lia|].
  rewrite (Z.div_mod y (2 ^ k)) at 1 by lia. replace (2 ^ k * (y / 2 ^ k) + y mod 2 ^ k - y mod 2 ^ k) with (y / 2 ^ k * 2 ^ k) by lia. apply Z.mod_mul. lia.
Qed.

(** When it wraps it is below. *)
Lemma round_up_wraps x k : 0 <= k < 64 -> 0 <= x < 2 ^ 64 -> 2 ^ 64 <= x + 2 ^ k - 1 -> round_up x (2 ^ k) < x.
Proof.
  intros Hk Hx Hb. unfold round_up. pose proof (Z.pow_pos_nonneg 2 k ltac:(lia) ltac:(lia)). assert (2 ^ k <= 2 ^ 63) by (apply Z.pow_le_mono_r; lia).
  rewrite ldiff_mask by lia. unfold u64. assert ((x + (2 ^ k - 1)) mod 2 ^ 64 = x + (2 ^ k - 1) - 2 ^ 64) as ->.
  { symmetry. apply (Z.mod_unique _ _ 1); lia. }
  pose proof (Z.mod_pos_bound (x + (2 ^ k - 1) - 2 ^ 64) (2 ^ k) ltac:(lia)). lia.
Qed.

Lemma multiple_le x y m : 0 < m -> x mod m = 0 -> y mod m = 0 -> x < y -> x + m <= y.
Proof.
  intros Hm Hx Hy Hlt. apply Z.mod_divide in Hx as [a ->]; [|lia]. apply Z.mod_divide in Hy as [b ->]; [|lia]. assert (a + 1 <= b) by nia. nia.
Qed.

Section run.
Context `{!PmmConfig} `{!PmmLaws}.
Implicit Types (s : pmm) (a p i : Z) (ar : pmm_arena_t).

(** A run of [count] pages from [st] on lies in the arena and is aligned. *)
Definition candidate ar (al count st : Z) : Prop :=
  0 <= st < page_count ar /\ st + count <= page_count ar /\ (base ar + st * PAGE_SIZE) mod 2 ^ al = 0.

(** The first aligned run of free pages, [no_run] if there is none. *)
Definition first_run s ar (al count r : Z) : Prop :=
  (r = no_run \/ candidate ar al count r /\ run_free s ar r (Z.to_nat count)) /\
  forall st, candidate ar al count st -> run_free s ar st (Z.to_nat count) -> r <> no_run /\ r <= st.

(** ** Multiples of the alignment are the offset and multiples of the step *)
Section aligned.
Context (ar : pmm_arena_t) (al : Z) (Hok : arena_ok ar) (Hal : PAGE_SIZE_SHIFT <= al < 64).
Let rounded : Z := round_up (base ar) (2 ^ al).
Let offset : Z := (rounded - base ar) / PAGE_SIZE.
Let step : Z := 2 ^ (al - PAGE_SIZE_SHIFT).

Lemma page_size_pow : PAGE_SIZE = 2 ^ PAGE_SIZE_SHIFT.
Proof. unfold PAGE_SIZE. destruct page_shift_range. by rewrite Z.shiftl_1_l. Qed.
Lemma step_page : 2 ^ al = step * PAGE_SIZE.
Proof. unfold step. rewrite page_size_pow, <- Z.pow_add_r by (pose proof page_shift_range; lia). f_equal. lia. Qed.
Lemma step_pos : 0 < step.
Proof. apply Z.pow_pos_nonneg; lia. Qed.

Lemma page_aligned_mod x : Z.land x (PAGE_SIZE - 1) = 0 -> x mod PAGE_SIZE = 0.
Proof.
  rewrite page_size_pow. pose proof page_shift_range. replace (2 ^ PAGE_SIZE_SHIFT - 1) with (Z.ones PAGE_SIZE_SHIFT) by (rewrite Z.ones_equiv; lia).
  by rewrite Z.land_ones by lia.
Qed.
Lemma base_mod : base ar mod PAGE_SIZE = 0.
Proof. apply page_aligned_mod, Hok. Qed.
Lemma size_mod : size ar mod PAGE_SIZE = 0.
Proof. apply page_aligned_mod, Hok. Qed.

Context (Hin : base ar <= rounded <= base ar + size ar - 1).

Lemma rounded_spec : rounded mod 2 ^ al = 0 /\ rounded < base ar + 2 ^ al.
Proof.
  destruct Hok as [[Hb _] [Hs Hs'] _ _ _]. pose proof page_size_pos. pose proof page_shift_range. destruct (Z.lt_ge_cases (base ar + 2 ^ al - 1) (2 ^ 64)) as [Hlt|Hge].
  - destruct (round_up_spec (base ar) al) as [? ?]; [lia..|]. split; [done|]. unfold rounded. lia.
  - pose proof (round_up_wraps (base ar) al ltac:(lia) ltac:(lia) Hge). unfold rounded in Hin. lia.
Qed.

Lemma rounded_offset : rounded = base ar + offset * PAGE_SIZE /\ 0 <= offset < page_count ar.
Proof.
  destruct rounded_spec as [Hm _]. pose proof page_size_pos as Hps. pose proof base_mod as Hb. rewrite step_page in Hm.
  assert (rounded mod PAGE_SIZE = 0) as Hr. { apply Z.mod_divide in Hm; [|pose proof step_pos; nia]. apply Z.mod_divide; [lia|]. eapply Z.divide_trans; [apply Z.divide_factor_r|exact Hm]. }
  assert ((rounded - base ar) mod PAGE_SIZE = 0) as Hd by (rewrite Zminus_mod, Hr, Hb; done).
  assert (rounded - base ar = offset * PAGE_SIZE) as Ho. { unfold offset. assert (PAGE_SIZE <> 0) as Hp0 by lia. pose proof (Z.div_mod (rounded - base ar) _ Hp0). lia. }
  split; [lia|]. assert (0 <= offset) by (unfold offset; apply Z.div_pos; lia). split; [done|]. unfold page_count.
  apply Z.lt_le_trans with (offset + 1); [lia|]. apply Z.div_le_lower_bound; [lia|].
  assert (offset * PAGE_SIZE + PAGE_SIZE <= size ar); [|lia]. apply multiple_le; [lia|apply Z.mod_mul; lia|apply size_mod|lia].
Qed.

Lemma candidate_step count st :
  candidate ar al count st <-> offset <= st < page_count ar /\ st + count <= page_count ar /\ (st - offset) mod step = 0.
Proof.
  destruct rounded_spec as [Hm Hlt], rounded_offset as [Hro [Ho Ho']]. pose proof page_size_pos as Hps. pose proof step_pos as Hsp. pose proof step_page as Hst.
  assert (0 < 2 ^ al) as Hpow by lia. unfold candidate. split.
  - intros ((H1 & H2) & H3 & H4). assert (rounded <= base ar + st * PAGE_SIZE) as Hle.
    { destruct (Z.le_gt_cases rounded (base ar + st * PAGE_SIZE)) as [|Hgt]; [done|]. pose proof (multiple_le _ _ _ Hpow H4 Hm Hgt). assert (0 <= st * PAGE_SIZE) by (apply Z.mul_nonneg_nonneg; lia). lia. }
    assert (offset <= st) by (apply (Z.mul_le_mono_pos_r _ _ PAGE_SIZE); lia). split_and!; [done|done|done|].
    assert (((st - offset) * PAGE_SIZE) mod (step * PAGE_SIZE) = 0) as Hmod.
    { rewrite <- Hst. replace ((st - offset) * PAGE_SIZE) with (base ar + st * PAGE_SIZE - rounded) by lia. by rewrite Zminus_mod, H4, Hm. }
    rewrite Z.mul_mod_distr_r in Hmod by lia. apply Z.mul_eq_0 in Hmod. lia.
  - intros ((H1 & H2) & H3 & H4). split_and!; [lia|done|done|].
    replace (base ar + st * PAGE_SIZE) with (rounded + (st - offset) * PAGE_SIZE) by lia. rewrite Zplus_mod, Hm, Hst, Z.mul_mod_distr_r, H4 by lia. done.
Qed.

Lemma first_used_run n : forall s start i,
  (forall k, start + i <= k < start + i + Z.of_nat n -> exists fl, pages s !! page_at ar k = Some fl) ->
  exists r, first_used n ar start i s = Some (r, s) /\
    match r with
    | Some j => i <= j < i + Z.of_nat n /\ exists fl, pages s !! page_at ar (start + j) = Some fl /\ nonfree fl = true
    | None => forall k, start + i <= k < start + i + Z.of_nat n -> exists fl, pages s !! page_at ar k = Some fl /\ nonfree fl = false
    end.
Proof.
  induction n as [|n IH]; intros s start i Hp; [exists None; split; [done|]; intros k Hk; lia|].
  destruct (Hp (start + i) ltac:(lia)) as (fl & Hfl). cbn [first_used]. rewrite (get_page_bind _ fl) by done. fold (nonfree fl).
  destruct (nonfree fl) eqn:Hn; [exists (Some i); split; [done|]; split; [lia|by exists fl]|].
  destruct (IH s start (i + 1)) as (r & Hr & Hm); [intros k Hk; apply Hp; lia|]. exists r. split; [done|]. destruct r as [j|].
  - destruct Hm as [Hj Hx]. split; [lia|done].
  - intros k Hk. destruct (decide (k = start + i)) as [->|]; [by exists fl|]. apply Hm. lia.
Qed.

Context (s : pmm) (count : Z) (Hcount : 0 <= count) (Hfit : page_count ar + count < 2 ^ 32) (Hstep : page_count ar + step <= 2 ^ 32)
  (Hpages : forall i, 0 <= i < page_count ar -> exists fl, pages s !! page_at ar i = Some fl).

Lemma run_free_used st k fl : run_free s ar st (Z.to_nat count) -> pages s !! page_at ar k = Some fl -> nonfree fl = true -> st <= k < st + count -> False.
Proof. intros (_ & _ & Hr) Hfl Hn Hk. destruct (Hr k ltac:(lia)) as (fl' & ? & ?). congruence. Qed.

(** The next start after page [start + i] has been found in use. *)
Lemma next_start start i :
  offset <= start -> (start - offset) mod step = 0 -> 0 <= i < count -> start + count <= page_count ar ->
  let next := u32 (round_up (u32 (start - offset + i + 1)) step + offset) in
  start + i < next /\ (next - offset) mod step = 0 /\ forall st, offset <= st -> (st - offset) mod step = 0 -> st < next -> st <= start + i.
Proof.
  intros H1 H2 H3 H4. cbn zeta. destruct rounded_offset as [_ [Ho Ho']]. pose proof step_pos as Hsp.
  set (x := start - offset + i + 1). assert (0 <= x <= page_count ar) as Hx by lia. rewrite (u32_small x) by lia.
  assert (x + step - 1 < 2 ^ 64) as Hb by lia.
  assert (0 <= al - PAGE_SIZE_SHIFT) as Hk by lia. assert (0 <= x) as Hx0 by lia.
  destruct (round_up_spec x _ Hk Hx0 Hb) as [[R1 R2] R3]. fold step in R1, R2, R3.
  set (y := round_up x step) in *. rewrite u32_small by lia. split_and!; [lia| |].
  - by replace (y + offset - offset) with y by lia.
  - intros st S1 S2 S3. pose proof (multiple_le (st - offset) y step Hsp S2 R3 ltac:(lia)). lia.
Qed.

Lemma search_run_run fuel : forall start,
  offset <= start -> (start - offset) mod step = 0 -> page_count ar - start <= Z.of_nat fuel ->
  (forall st, candidate ar al count st -> st < start -> ~ run_free s ar st (Z.to_nat count)) ->
  exists r, search_run fuel ar count offset step start s = Some (r, s) /\ first_run s ar al count r.
Proof.
  destruct rounded_offset as [_ [Ho Ho']].
  induction fuel as [|fuel IH]; intros start H1 H2 H3 H4.
  - exists no_run. cbn [search_run]. rewrite (proj2 (Z.ltb_ge start _)) by lia. split; [done|]. split; [by left|].
    intros st Hst Hr. exfalso. apply (H4 st Hst); [destruct Hst; lia|done].
  - cbn [search_run]. destruct (Z.ltb_spec start (page_count ar)) as [Hlt|Hge]; cbn [andb].
    + rewrite (u32_small (start + count)) by lia. destruct (Z.leb_spec (start + count) (page_count ar)) as [Hle|Hgt].
      * destruct (first_used_run (Z.to_nat count) s start 0) as (r & Hr & Hm); [intros k Hk; apply Hpages; lia|]. rewrite (bind_eq _ _ _ _ _ Hr). destruct r as [i|].
        -- destruct Hm as [Hi (fl & Hfl & Hn)]. destruct (next_start start i H1 H2 ltac:(lia) Hle) as (N1 & N2 & N3). cbn zeta in *. set (next := u32 _) in *.
           apply IH; [lia|done|lia|]. intros st Hst Hlt' Hrf. destruct (Z.lt_ge_cases st start) as [|Hge]; [by apply (H4 st)|].
           apply candidate_step in Hst as ([C1 C2] & C3 & C4). pose proof (N3 st C1 C4 Hlt'). apply (run_free_used st (start + i) fl Hrf Hfl Hn). lia.
        -- exists start. split; [done|]. assert (candidate ar al count start) as Hcs by (by apply candidate_step). split.
           ++ right. split; [done|]. split_and!; [lia|lia|]. intros k Hk. apply Hm. lia.
           ++ intros st Hst Hrf. split; [unfold no_run; destruct Hok; lia|]. destruct (Z.le_gt_cases start st) as [|Hgt]; [done|]. exfalso. by apply (H4 st Hst).
      * exists no_run. split; [done|]. split; [by left|]. intros st Hst Hrf. exfalso. apply (H4 st Hst); [destruct Hst; lia|done].
    + exists no_run. split; [done|]. split; [by left|]. intros st Hst Hrf. exfalso. apply (H4 st Hst); [destruct Hst; lia|done].
Qed.
End aligned.

(** Bounds that keep the [uint] arithmetic of the search from wrapping. *)
Record search_ok ar (count al : Z) : Prop := {
  so_align : 0 <= al < 64;
  so_count : 0 <= count /\ page_count ar + count < 2 ^ 32;
  so_step : page_count ar + 2 ^ (Z.max al PAGE_SIZE_SHIFT - PAGE_SIZE_SHIFT) <= 2 ^ 32
}.

Lemma find_free_run_run s a ar count al :
  pmm_wf s -> a ∈ arena_list s -> arenas s !! a = Some ar -> search_ok ar count al ->
  exists r, pmm_arena_find_free_run a count al s = Some (r, s) /\ first_run s ar (Z.max al PAGE_SIZE_SHIFT) count r.
Proof.
  intros Hw Ha Har [S1 [S2 S3] S4]. destruct (pw_arena _ Hw a Ha) as (? & _ & ? & Hok & _). simplify_eq. pose proof page_shift_range as Hsh. pose proof page_size_pos as Hps.
  unfold pmm_arena_find_free_run. rewrite (get_arena_bind a ar) by done. set (m := Z.max al PAGE_SIZE_SHIFT) in *.
  assert (PAGE_SIZE_SHIFT <= m < 64) as Hm by lia. rewrite assert_bind by (apply Z.ltb_lt; lia).
  rewrite !Z.shiftl_1_l. pose proof Hok as [[B1 B2] [B3 B4] _ B5 _]. rewrite (u64_small (base ar + _)) by lia.
  destruct (Z.ltb_spec (round_up (base ar) (2 ^ m)) (base ar)) as [Hlt|Hge]; cbn [orb].
  - exists no_run. split; [done|]. split; [by left|]. intros st [[C1 C2] [C3 C4]] _. exfalso.
    destruct (Z.lt_ge_cases (base ar + 2 ^ m - 1) (2 ^ 64)) as [Hb|Hb]; [destruct (round_up_spec (base ar) m ltac:(lia) B1 Hb); lia|].
    pose proof (page_bounds ar st (conj C1 C2)). assert (0 < 2 ^ m) as Hp0 by (apply Z.pow_pos_nonneg; lia).
    assert (2 ^ 64 mod 2 ^ m = 0) as Hmod by (replace (2 ^ 64) with (2 ^ (64 - m) * 2 ^ m) by (rewrite <- Z.pow_add_r by lia; f_equal; lia); apply Z.mod_mul; lia).
    assert (base ar + st * PAGE_SIZE < 2 ^ 64) as Hlt64 by lia. pose proof (multiple_le _ _ _ Hp0 C4 Hmod Hlt64). lia.
  - rewrite Z.gtb_ltb. destruct (Z.ltb_spec (base ar + (size ar - 1)) (round_up (base ar) (2 ^ m))) as [Hlt|Hle].
    + exists no_run. split; [done|]. split; [by left|]. intros st [[C1 C2] [C3 C4]] _. exfalso. pose proof (page_bounds ar st (conj C1 C2)).
      destruct (Z.lt_ge_cases (base ar + 2 ^ m - 1) (2 ^ 64)) as [Hb|Hb]; [|pose proof (round_up_wraps (base ar) m ltac:(lia) ltac:(lia) Hb); lia].
      destruct (round_up_spec (base ar) m ltac:(lia) B1 Hb) as [[R1 R2] R3]. assert (0 < 2 ^ m) as Hp0 by lia.
      pose proof (multiple_le _ _ _ Hp0 C4 R3 ltac:(lia)). lia.
    + assert (base ar <= round_up (base ar) (2 ^ m) <= base ar + size ar - 1) as Hin by lia.
      destruct (rounded_offset ar m Hok Hm Hin) as [_ [O1 O2]]. rewrite (u32_small (_ / PAGE_SIZE)) by lia.
      apply (search_run_run ar m Hok Hm Hin s count S2 S3 S4); [|done|by rewrite Z.sub_diag, Z.mod_0_l by (apply Z.pow_nonzero; lia)|lia|].
      * intros i Hi. destruct (pw_page _ Hw a ar i (page_at ar i)) as (fl & Hfl & _); [exact (conj Ha (conj Har (conj Hi eq_refl)))|by exists fl].
      * intros st Hst Hlt _. apply (candidate_step ar m Hok Hm Hin) in Hst. lia.
Qed.
End run.
