(* ===== verification/PmmFree.v ===== *)
(** * Giving pages back

    [pmm_free] puts the pages of a list back at the head of the free lists of their
    arenas; a page that had been taken from the reserved ones is reserved again. *)
From stdpp Require Import base gmap list.
From Stdlib Require Import ZArith Lia.
From S2P Require Import Prelude Pmm PmmInv PmmGrab PmmAlloc.

Local Open Scope Z_scope.
Local Open Scope lk_scope.

Section free.
Context `{!PmmConfig} `{!PmmLaws}.
Implicit Types (s : pmm) (a p i : Z) (ar : pmm_arena_t) (pl : page_list) (l q ps : list Z).

Definition page_reserved s p : bool := match pages s !! p with Some fl => reserved fl | None => false end.
(** [k] is the free list [p] goes back to. *)
Definition owns s (k : page_list) p : bool :=
  match k with
  | FreeList a => bool_decide (a ∈ arena_list s) && match arenas s !! a with Some ar => PAGE_BELONGS_TO_ARENA p ar | None => false end
  | _ => false
  end.
Definition back s k ps : list Z := reverse (filter (fun p => owns s k p = true) ps).
Definition gain s ps ar : pmm_arena_t :=
  set_counts (free_count ar + cnt ar ps) (reserved_count ar + cnt ar (filter (fun p => page_reserved s p = true) ps)) ar.

(** The pages [ps] of [pl] have been given back and [rest] is left. *)
Record released pl ps rest s s' : Prop := {
  rl_list : arena_list s' = arena_list s;
  rl_arenas : forall a, arenas s' !! a = (if decide (a ∈ arena_list s) then gain s ps else id) <$> arenas s !! a;
  rl_pages : forall p, pages s' !! p = (if decide (p ∈ ps) then unmark else id) <$> pages s !! p;
  rl_lists : forall k, lists s' !! k = (if decide (k = pl) then fun _ => rest else app (back s k ps)) <$> lists s !! k;
  rl_rest : cleared s' = cleared s /\ lock s' = lock s /\ aux_slock s' = aux_slock s
}.

Lemma gain_nil s ar : gain s [] ar = ar.
Proof. unfold gain, set_counts. rewrite filter_nil, !Z.add_0_r. by destruct ar. Qed.
Lemma released_nothing pl q s : lists s !! pl = Some q -> released pl [] q s s.
Proof.
  intros Hq. constructor; [done| | | |done].
  - intros a. case_decide; [|by rewrite option_fmap_id]. destruct (arenas s !! a); [|done]. cbn. by rewrite gain_nil.
  - intros p. rewrite decide_False by apply not_elem_of_nil. by rewrite option_fmap_id.
  - intros k. case_decide as E; [by rewrite E, Hq|]. destruct (lists s !! k); done.
Qed.

Lemma owns_page s a ar i p k : pmm_wf s -> is_page s a ar i p -> owns s k p = bool_decide (k = FreeList a).
Proof.
  intros Hw Hpg. destruct k as [b| |]; cbn; [|done|done]. destruct (decide (b = a)) as [->|Hne].
  - rewrite !bool_decide_true by (try done; apply Hpg). pose proof Hpg as (_ & -> & _). cbn. by eapply page_belongs.
  - rewrite (bool_decide_false (FreeList b = _)) by congruence. case_bool_decide as Hin; [|done]. cbn. destruct (arenas s !! b) as [br|] eqn:Hbr; [|done].
    destruct (PAGE_BELONGS_TO_ARENA p br) eqn:Hb; [|done]. exfalso. apply Hne. eapply (pw_disjoint _ Hw b a); [done|apply Hpg|done|apply Hpg|done|by eapply page_belongs].
Qed.

Lemma cnt_filter (P : Z -> Prop) `{forall x, Decision (P x)} ar ps : 0 <= cnt ar (filter P ps) <= cnt ar ps.
Proof.
  split; [apply cnt_nonneg|]. unfold cnt. apply inj_le, submseteq_length. induction ps as [|x l IH]; [done|].
  rewrite (filter_cons P). rewrite (filter_cons _ x l). case_decide; rewrite ?filter_cons; case_decide; try done; [by apply submseteq_skip|by apply submseteq_cons].
Qed.

Lemma gain_snoc s ps p ar : gain s (ps ++ [p]) ar =
  set_counts (free_count (gain s ps ar) + cnt ar [p]) (reserved_count (gain s ps ar) + if page_reserved s p then cnt ar [p] else 0) (gain s ps ar).
Proof.
  unfold gain, set_counts. cbn. rewrite cnt_app, filter_app, cnt_app. f_equal; [lia|]. rewrite !filter_cons, filter_nil. destruct (page_reserved s p); [rewrite decide_True by done; lia|].
  rewrite decide_False by done. unfold cnt. rewrite filter_nil. cbn. lia.
Qed.
Lemma back_snoc s k ps p : back s k (ps ++ [p]) = (if owns s k p then [p] else []) ++ back s k ps.
Proof. unfold back. rewrite filter_app, reverse_app. f_equal. rewrite filter_cons, filter_nil. by destruct (owns s k p). Qed.

Section one.
Context (pl : page_list) (ps rest : list Z) (p : Z) (s s1 : pmm) (Hw : pmm_wf s) (Hpl : is_free_list pl = false).

Lemma released_arenas_wf : released pl ps rest s s1 -> arenas_wf s1.
Proof.
  intros Hr. pose proof (wf_arenas _ Hw) as [A1 A2]. destruct Hr as [R1 R2 _ _ _]. constructor; rewrite R1.
  - intros a Ha. destruct (pw_arena _ Hw a Ha) as (ar & q & Har & [B1 B2 B3 B4 B5] & _). exists (gain s ps ar). rewrite R2, decide_True, Har by done. split; [done|].
    constructor; [done..|]. pose proof (cnt_filter (fun p => page_reserved s p = true) ar ps). cbn. lia.
  - intros a b ar br x Ha Hb Har Hbr. rewrite R2, decide_True in Har by done. rewrite R2, decide_True in Hbr by done.
    apply fmap_Some in Har as (? & Har & ->), Hbr as (? & Hbr & ->). by apply (A2 a b _ _ x Ha Hb Har Hbr).
Qed.

Context (Hq : lists s !! pl = Some (ps ++ p :: rest)) (Hr : released pl ps (p :: rest) s s1).

Lemma released_next : p ∉ ps /\ p ∉ rest /\ node_in_list p (lists (with_lists <[pl := rest]> s1)) = false.
Proof.
  pose proof (pw_nodup _ Hw _ _ Hq) as (Hnd & Hdis & [Hnr _]%NoDup_cons)%NoDup_app.
  assert (p ∉ ps) as Hnp by (intros Hin; apply (Hdis p Hin); left). split_and!; [done|done|].
  apply node_in_list_false. intros k q. cbn. destruct (decide (k = pl)) as [->|Hne]; [rewrite lookup_insert_eq; intros [= <-]; done|].
  rewrite lookup_insert_ne, (rl_lists _ _ _ _ _ Hr) by done. rewrite decide_False by done. intros (q0 & Hq0 & ->)%fmap_Some.
  intros [Hb|Hin]%elem_of_app; [unfold back in Hb; rewrite elem_of_reverse, list_elem_of_filter in Hb; by destruct Hb|].
  apply Hne. eapply (pw_unique _ Hw); [exact Hq0|exact Hq|exact Hin|]. apply elem_of_app. right. left.
Qed.

Lemma released_step a ar i fl :
  is_page s a ar i p -> pages s !! p = Some fl -> nonfree fl = true ->
  exists s2, (upd_page p (fun fl => Z.ldiff fl VM_PAGE_FLAG_NONFREE) ;;
              list_add_head (FreeList a) p ;;
              upd_arena a (fun ar => set_counts (free_count ar + 1) (reserved_count ar) ar) ;;
              when (has_flag VM_PAGE_FLAG_RESERVED fl)
                (upd_arena a (fun ar => set_counts (free_count ar) (reserved_count ar + 1) ar) ;;
                 upd_page p (fun fl => Z.ldiff fl VM_PAGE_FLAG_RESERVED))) (with_lists <[pl := rest]> s1) = Some (tt, s2) /\
    released pl (ps ++ [p]) rest s s2.
Proof.
  intros Hpg Hfl Hnf. destruct released_next as (Hnp & Hnr & Hnl). pose proof Hr as [R1 R2 R3 R4 R5]. pose proof Hpg as (Hin & Har & _).
  fold (reserved fl). set (s1a := with_lists <[pl := rest]> s1) in *.
  assert (pages s1a !! p = Some fl) as Hfl1. { change (pages s1 !! p = Some fl). by rewrite R3, decide_False, Hfl by done. }
  assert (arenas s1a !! a = Some (gain s ps ar)) as Har1. { change (arenas s1 !! a = Some (gain s ps ar)). by rewrite R2, decide_True, Har by done. }
  destruct (pw_arena _ Hw a Hin) as (? & qa & ? & _ & Hqa & _). simplify_eq.
  assert (FreeList a <> pl) as Hne by (intros <-; done).
  assert (lists s1a !! FreeList a = Some (back s (FreeList a) ps ++ qa)) as Hl1.
  { unfold s1a. cbn. rewrite lookup_insert_ne, R4, decide_False, Hqa by done. done. }
  rewrite (upd_page_bind p fl) by done. rewrite (add_head_bind _ _ (back s (FreeList a) ps ++ qa)) by done. rewrite (upd_arena_bind a (gain s ps ar)) by done.
  assert (page_reserved s p = reserved fl) as Hpr by (unfold page_reserved; by rewrite Hfl).
  eexists. split.
  { instantiate (1 := if reserved fl then _ else _). destruct (reserved fl); [|reflexivity]. cbn [when].
    erewrite upd_arena_bind by (cbn; apply lookup_insert_eq). unfold upd_page. erewrite get_page_bind by (cbn; apply lookup_insert_eq). reflexivity. }
  constructor.
  - destruct (reserved fl); cbn; done.
  - intros b. destruct (decide (b = a)) as [->|Hb].
    + rewrite decide_True, Har by done. cbn [fmap option_fmap option_map]. rewrite gain_snoc, (cnt_one s a ar i p Hpg), Hpr.
      destruct (reserved fl); cbn; rewrite lookup_insert_eq; [done|]. by rewrite Z.add_0_r.
    + transitivity (arenas s1 !! b); [destruct (reserved fl); cbn; by rewrite ?lookup_insert_ne by done|]. rewrite R2. case_decide as Hbl; [|done].
      destruct (arenas s !! b) as [br|] eqn:Hbr; [|done]. cbn [fmap option_fmap option_map]. rewrite gain_snoc, (cnt_other s a b ar br i p Hw Hpg Hbl Hbr Hb), !Z.add_0_r. f_equal.
      destruct (page_reserved s p); rewrite ?Z.add_0_r; done.
  - intros x. destruct (decide (x = p)) as [->|Hx].
    + rewrite decide_True, Hfl by (apply elem_of_app; right; by left). cbn [fmap option_fmap option_map]. unfold unmark. destruct (reserved fl); cbn; by rewrite lookup_insert_eq.
    + transitivity (pages s1 !! x); [destruct (reserved fl); cbn; by rewrite ?lookup_insert_ne by done|]. rewrite R3.
assert (x ∈ ps ++ [p] <-> x ∈ ps) by (rewrite elem_of_app, list_elem_of_singleton; tauto). repeat case_decide; tauto.
  - intros k. transitivity (<[FreeList a := p :: back s (FreeList a) ps ++ qa]> (lists s1a) !! k); [by destruct (reserved fl)|].
    destruct (decide (k = FreeList a)) as [->|Hk].
    + rewrite lookup_insert_eq, decide_False, Hqa by done. cbn [fmap option_fmap option_map]. rewrite back_snoc, (owns_page s a ar i p _ Hw Hpg), bool_decide_true; done.
    + rewrite lookup_insert_ne by done. unfold s1a. cbn [lists with_lists]. destruct (decide (k = pl)) as [->|Hkp]; [by rewrite lookup_insert_eq, Hq|].
      rewrite lookup_insert_ne, R4, decide_False by done. rewrite back_snoc, (owns_page s a ar i p _ Hw Hpg), bool_decide_false; done.
  - destruct (reserved fl); cbn; done.
Qed.
End one.

Lemma u32_succ n : u32 (u32 (Z.of_nat n) + 1) = u32 (Z.of_nat (S n)).
Proof. unfold u32. rewrite Zplus_mod_idemp_l. f_equal. lia. Qed.

Lemma remove_head_bind {A} pl p q (k : option Z -> M pmm A) s : lists s !! pl = Some (p :: q) -> bind (list_remove_head pl) k s = k (Some p) (with_lists <[pl := q]> s).
Proof. intros Hq. unfold list_remove_head. by rewrite bind_assoc, (get_list_bind pl (p :: q)). Qed.

Lemma free_pages_run pl s : pmm_wf s -> is_free_list pl = false -> forall rest ps s1,
  lists s !! pl = Some (ps ++ rest) -> released pl ps rest s s1 ->
  exists s2, free_pages (length rest) pl (u32 (Z.of_nat (length ps))) s1 = Some (u32 (Z.of_nat (length (ps ++ rest))), s2) /\ released pl (ps ++ rest) [] s s2.
Proof.
  intros Hw Hpl rest. induction rest as [|p rest IH]; intros ps s1 Hq Hr.
  { exists s1. rewrite app_nil_r. split; [|done]. cbn. unfold list_remove_head. rewrite bind_assoc, (get_list_bind pl []); [done|]. by rewrite (rl_lists _ _ _ _ _ Hr), decide_True, Hq. }
  destruct (pw_lists _ Hw _ _ p Hq ltac:(apply elem_of_app; right; left)) as (a & ar & i & fl & Hpg & Hfl & Hnf).
  assert (nonfree fl = true) as Hnf' by (destruct pl; [done|exact Hnf..]). clear Hnf.
  destruct (released_step pl ps rest p s s1 Hw Hpl Hq Hr a ar i fl Hpg Hfl Hnf') as (s2 & Hs2 & Hr2).
  destruct (released_next pl ps rest p s s1 Hw Hq Hr) as (Hnp & _ & _).
  destruct (IH (ps ++ [p]) s2) as (s3 & Hs3 & Hr3); [by rewrite <- app_assoc|done|]. rewrite <- app_assoc in Hs3, Hr3. exists s3. split; [|done].
  cbn [free_pages length]. rewrite (remove_head_bind pl p rest) by (by rewrite (rl_lists _ _ _ _ _ Hr), decide_True, Hq).
  set (s1a := with_lists <[pl := rest]> s1) in *. rewrite (get_page_bind p fl) by (unfold s1a; cbn; by rewrite (rl_pages _ _ _ _ _ Hr), decide_False, Hfl).
  rewrite assert_bind by done. rewrite gets_bind. rewrite (bind_eq _ _ s1a (Some a) s1a).
  2: { assert (arenas_wf s1a) as Haw by (apply (arenas_wf_ext s1); [done..|exact (released_arenas_wf pl ps (p :: rest) s s1 Hw Hr)]).
    assert (is_page s1a a (gain s ps ar) i p) as Hpg1; [|exact (find_belongs _ _ _ _ _ Haw Hpg1)]. apply (is_page_list s s1a a ar); [apply Hr| |done..].
    unfold s1a. cbn. rewrite (rl_arenas _ _ _ _ _ Hr), decide_True by apply Hpg. destruct Hpg as (_ & -> & _). done. }
  rewrite length_app, Nat.add_1_r in Hs3. rewrite <- u32_succ in Hs3. etransitivity; [|exact Hs3].
  do 3 rewrite <- bind_assoc. rewrite (bind_eq _ _ s1a tt s2); [done|]. rewrite !bind_assoc. rewrite <- Hs2. done.
Qed.

(** ** What is left is well formed *)
Section all.
Context (pl : page_list) (ps : list Z) (s s' : pmm) (Hw : pmm_wf s) (Hpl : is_free_list pl = false) (Hq : lists s !! pl = Some ps) (Hr : released pl ps [] s s').

Lemma owns_arena a ar p : a ∈ arena_list s -> arenas s !! a = Some ar -> owns s (FreeList a) p = PAGE_BELONGS_TO_ARENA p ar.
Proof. intros Ha Har. cbn. by rewrite bool_decide_true, Har. Qed.

Lemma owns_inv k p : p ∈ ps -> owns s k p = true -> exists a ar i fl, k = FreeList a /\ is_page s a ar i p /\ pages s !! p = Some fl.
Proof.
  intros Hp Ho. destruct (pw_lists _ Hw _ _ p Hq Hp) as (a & ar & i & fl & Hpg & Hfl & _). rewrite (owns_page s a ar i p k Hw Hpg) in Ho. apply bool_decide_eq_true in Ho as ->.
  by exists a, ar, i, fl.
Qed.

Lemma released_from k q p : lists s' !! k = Some q -> p ∈ q -> k <> pl /\ ((p ∈ ps /\ owns s k p = true) \/ exists q0, lists s !! k = Some q0 /\ p ∈ q0 /\ p ∉ ps).
Proof.
  intros Hk Hin. rewrite (rl_lists _ _ _ _ _ Hr) in Hk. destruct (decide (k = pl)) as [->|Hne]; [rewrite Hq in Hk; by injection Hk as <-; apply elem_of_nil in Hin|].
  apply fmap_Some in Hk as (q0 & Hq0 & ->). split; [done|]. apply elem_of_app in Hin as [Hb|Hin].
  - left. unfold back in Hb. rewrite elem_of_reverse, list_elem_of_filter in Hb. tauto.
  - right. exists q0. split_and!; [done|done|]. intros Hp. apply Hne. by apply (pw_unique _ Hw k pl q0 ps p).
Qed.

Lemma released_page a ar i p : is_page s a ar i p -> is_page s' a (gain s ps ar) i p.
Proof. intros Hpg. apply (is_page_list s s' a ar); [apply Hr| |done..]. rewrite (rl_arenas _ _ _ _ _ Hr), decide_True by apply Hpg. destruct Hpg as (_ & -> & _). done. Qed.

Lemma released_free a q : a ∈ arena_list s -> lists s !! FreeList a = Some q -> lists s' !! FreeList a = Some (back s (FreeList a) ps ++ q).
Proof. intros Ha Hqa. rewrite (rl_lists _ _ _ _ _ Hr), decide_False, Hqa by (intros <-; done). done. Qed.

Lemma released_wf : pmm_wf s'.
Proof.
  pose proof (released_arenas_wf pl ps [] s s' Hw Hr) as [A1 A2]. pose proof Hr as [R1 R2 R3 R4 R5]. constructor.
  - rewrite R1. apply Hw.
  - intros a Ha. destruct (A1 a Ha) as (ar' & Har' & Hok). rewrite R1 in Ha. destruct (pw_arena _ Hw a Ha) as (ar & q & Har & _ & Hqa & Hn).
    exists ar', (back s (FreeList a) ps ++ q). split_and!; [done|done|by apply released_free|]. rewrite R2, decide_True, Har in Har' by done. injection Har' as <-.
    cbn. rewrite Hn, length_app. unfold back. rewrite length_reverse. unfold cnt. rewrite Nat2Z.inj_add, Z.add_comm. do 3 f_equal. apply filter_ext_in. intros p _. by rewrite (owns_arena a ar).
  - intros a ar' i p (Ha & Har & Hi & Hp). rewrite R1 in Ha. rewrite R2, decide_True in Har by done. apply fmap_Some in Har as (ar & Har & ->).
    assert (is_page s a ar i p) as Hpg by done. destruct (pw_page _ Hw _ _ _ _ Hpg) as (fl & Hfl & Hfree). destruct (pw_arena _ Hw a Ha) as (_ & qa & _ & _ & Hqa & _).
    rewrite R3, Hfl. eexists. split; [done|]. intros Hnf. destruct (decide (p ∈ ps)) as [Hin|Hin].
    + split; [apply unmark_free|]. exists (back s (FreeList a) ps ++ qa). split; [by apply released_free|]. apply elem_of_app. left. unfold back.
      rewrite elem_of_reverse, list_elem_of_filter, (owns_page s a ar i p _ Hw Hpg), bool_decide_true; done.
    + destruct (Hfree Hnf) as (Hre & q & Hqq & Hinq). split; [done|]. exists (back s (FreeList a) ps ++ q). split; [by apply released_free|]. apply elem_of_app. by right.
  - exact A2.
  - intros k q p Hk Hin. destruct (released_from k q p Hk Hin) as (Hne & [[Hp Ho]|(q0 & Hq0 & Hin0 & Hnp)]).
    + destruct (owns_inv k p Hp Ho) as (a & ar & i & fl & -> & Hpg & Hfl). exists a, (gain s ps ar), i, (unmark fl). split; [by apply released_page|].
      rewrite R3, decide_True, Hfl by done. split; [done|]. split; [done|]. apply unmark_free.
    + destruct (pw_lists _ Hw _ _ _ Hq0 Hin0) as (a & ar & i & fl & Hpg & Hfl & Hm). exists a, (gain s ps ar), i, fl. split; [by apply released_page|].
      by rewrite R3, decide_False, Hfl.
  - intros k q Hk. rewrite R4 in Hk. destruct (decide (k = pl)) as [->|Hne]; [rewrite Hq in Hk; injection Hk as <-; by apply NoDup_nil_2|].
    apply fmap_Some in Hk as (q0 & Hq0 & ->). apply NoDup_app. split_and!.
    + unfold back. rewrite reverse_Permutation. apply NoDup_filter. by apply (pw_nodup _ Hw pl).
    + intros p Hb Hin. unfold back in Hb. rewrite elem_of_reverse, list_elem_of_filter in Hb. apply Hne. apply (pw_unique _ Hw k pl q0 ps p); tauto.
    + by apply (pw_nodup _ Hw k).
  - intros k k' q q' p Hk Hk' Hin Hin'. destruct (released_from k q p Hk Hin) as (_ & [[Hp Ho]|(q0 & Hq0 & Hin0 & Hnp)]), (released_from k' q' p Hk' Hin') as (_ & [[Hp' Ho']|(q1 & Hq1 & Hin1 & Hnp')]); try done.
    + destruct (owns_inv k p Hp Ho) as (a & ar & i & _ & -> & Hpg & _). rewrite (owns_page s a ar i p _ Hw Hpg) in Ho'. by apply bool_decide_eq_true in Ho'.
    + by eapply (pw_unique _ Hw).
Qed.

Lemma pmm_free_locked_run : exists s2, pmm_free_locked pl s = Some (u32 (Z.of_nat (length ps)), s2) /\ released pl ps [] s s2.
Proof.
  destruct (free_pages_run pl s Hw Hpl ps [] s Hq (released_nothing pl ps s Hq)) as (s2 & Hs2 & Hr2). exists s2. split; [|done].
  unfold pmm_free_locked. by rewrite (get_list_bind pl ps).
Qed.
End all.

(** ** Taking and giving back *)

(** The same pages on the same lists; a free list may be in another order, and what
    has been cleared does not matter. *)
Definition same_list (k : page_list) q q' : Prop := if is_free_list k then q ≡ₚ q' else q = q'.
Record pmm_equiv s s' : Prop := {
  pe_arena_list : arena_list s' = arena_list s;
  pe_arenas : forall a, arenas s' !! a = arenas s !! a;
  pe_pages : forall p, pages s' !! p = pages s !! p;
  pe_lists : forall k, option_Forall2 (same_list k) (lists s !! k) (lists s' !! k);
  pe_locks : lock s' = lock s /\ aux_slock s' = aux_slock s
}.
#[export] Instance same_list_equiv k : Equivalence (same_list k).
Proof. unfold same_list. destruct (is_free_list k); apply _. Qed.
#[export] Instance pmm_equiv_equiv : Equivalence pmm_equiv.
Proof.
  split.
  - intros s. by constructor.
  - intros s s' [E1 E2 E3 E4 [E5 E6]]. constructor; [done..| |done]. intros k. symmetry. apply E4.
  - intros s1 s2 s3 [E1 E2 E3 E4 [E5 E6]] [D1 D2 D3 D4 [D5 D6]]. constructor; [congruence|congruence|congruence| |split; congruence].
    intros k. etransitivity; [apply E4|apply D4].
Qed.

Lemma page_flag_grabbed dst res ps s s' p : pmm_wf s -> grabbed dst res ps s s' -> p ∈ ps -> page_reserved s' p = res.
Proof.
  intros Hw Hg Hp. destruct (gr_free _ _ _ _ _ Hg p Hp) as (a & ar & i & fl & Hpg & Hfl & Hnf). unfold page_reserved. rewrite (gr_pages _ _ _ _ _ Hg), decide_True, Hfl by done. cbn.
  destruct (pw_page _ Hw _ _ _ _ Hpg) as (fl' & ? & Hx). simplify_eq. rewrite mark_reserved. destruct (Hx Hnf) as [-> _]. by rewrite orb_false_r.
Qed.

Lemma cost_gain dst res ps s s' ar : pmm_wf s -> grabbed dst res ps s s' -> gain s' ps (cost res (cnt ar ps) ar) = ar.
Proof.
  intros Hw Hg. unfold gain, cost, set_counts. cbn.
  assert (filter (fun p => page_reserved s' p = true) ps = if res then ps else []) as ->.
  { pose proof (fun p => page_flag_grabbed dst res ps s s' p Hw Hg) as Hf. clear Hg. induction ps as [|p l IH]; [by destruct res|].
    rewrite filter_cons, IH by (intros x Hx; apply Hf; by right). pose proof (Hf p ltac:(left)). destruct res; case_decide; congruence. }
  change (cnt (mk_arena _ _ _ _ _ _ _ _)) with (cnt ar). destruct ar as [? ? ? ? ? f r ?]. cbn. f_equal; [lia|]. destruct res; [lia|]. unfold cnt. rewrite filter_nil. cbn. lia.
Qed.

Lemma grabbed_owns dst res ps s s' k : grabbed dst res ps s s' -> owns s' k = owns s k.
Proof.
  intros Hg. unfold owns. destruct k as [a| |]; [|done..]. rewrite (gr_list _ _ _ _ _ Hg). case_bool_decide as Ha; [|done]. rewrite (gr_arenas _ _ _ _ _ Hg), decide_True by done.
  by destruct (arenas s !! a).
Qed.

Lemma back_owns s s' k ps : owns s' k = owns s k -> back s' k ps = back s k ps.
Proof. intros Ho. unfold back. by rewrite Ho. Qed.
Lemma back_other s k ps : is_free_list k = false -> back s k ps = [].
Proof.
  intros Hk. unfold back. replace (filter (fun p => owns s k p = true) ps) with (@nil Z); [done|]. induction ps as [|p l IH]; [done|].
  rewrite filter_cons_False by (by destruct k). done.
Qed.

Lemma grabbed_released dst res ps s s' s'' :
  pmm_wf s -> is_free_list dst = false -> lists s !! dst = Some [] -> grabbed dst res ps s s' -> released dst ps [] s' s'' -> pmm_equiv s s''.
Proof.
  intros Hw Hdst Hd Hg Hr. pose proof Hg as [G1 G2 G3 G4 [G5 G5'] G6 G7]. pose proof Hr as [R1 R2 R3 R4 [_ [R5 R5']]]. constructor.
  - congruence.
  - intros a. rewrite R2, G1, G2. case_decide; [|by rewrite !option_fmap_id]. destruct (arenas s !! a) as [ar|]; [|done]. cbn. f_equal. exact (cost_gain dst res ps s s' ar Hw Hg).
  - intros p. rewrite R3, G3. case_decide as Hp; [|by rewrite !option_fmap_id]. destruct (G7 p Hp) as (a & ar & i & fl & Hpg & Hfl & Hnf). rewrite Hfl. cbn. f_equal.
    apply unmark_mark; [done|]. destruct (pw_page _ Hw _ _ _ _ Hpg) as (fl' & ? & Hx). simplify_eq. by apply Hx.
  - intros k. rewrite R4, G4. unfold same_list. destruct (decide (k = dst)) as [->|Hne]; [rewrite Hd, Hdst; by constructor|].
    destruct (lists s !! k) as [q|] eqn:Hk; [|constructor]. cbn. constructor. rewrite app_nil_r. rewrite (back_owns s s') by apply (grabbed_owns dst res ps s s' k Hg).
    destruct (is_free_list k) eqn:Hkf.
    + destruct k as [a| |]; [|done..]. unfold back. rewrite reverse_Permutation. apply NoDup_Permutation; [by apply (pw_nodup _ Hw (FreeList a))| |].
      * apply NoDup_app. split_and!; [by apply NoDup_filter|by intros x [_ ?]%list_elem_of_filter [_ ?]%in_without|apply NoDup_filter; by apply (pw_nodup _ Hw (FreeList a))].
      * intros x. rewrite elem_of_app, list_elem_of_filter, in_without. split.
        -- intros Hx. destruct (decide (x ∈ ps)) as [Hp|Hp]; [left; split; [|done]|by right].
           destruct (pw_lists _ Hw _ _ x Hk Hx) as (b & ar & i & fl & Hpg & Hfl & -> & _). rewrite (owns_page s b ar i x _ Hw Hpg). by apply bool_decide_true.
        -- intros [[Ho Hp]|[? _]]; [|done]. destruct (G7 x Hp) as (b & ar & i & fl & Hpg & Hfl & Hnf).
           rewrite (owns_page s b ar i x _ Hw Hpg) in Ho. apply bool_decide_eq_true in Ho. injection Ho as <-. destruct (free_listed s a ar i x fl Hw Hpg Hfl Hnf) as (q' & ? & ?). by simplify_eq.
    + rewrite without_none; [by rewrite back_other|]. intros p Hp Hin. destruct (pw_lists _ Hw _ _ p Hk Hin) as (? & ? & ? & fl & _ & Hfl & Hnf), (G7 p Hp) as (? & ? & ? & ? & _ & ? & ?).
      simplify_eq. destruct k; [done|congruence..].
  - split; congruence.
Qed.
End free.
