(* ===== verification/PmmPages.v ===== *)
(** * Allocation from all arenas

    What [pmm_alloc_pages_locked] allocates: any pages, as many as the arenas may
    give, or one run of pages; and what is left when it fails. *)
From stdpp Require Import base gmap list.
From Stdlib Require Import ZArith Lia.
From S2P Require Import Prelude Pmm PmmInv PmmGrab PmmAlloc PmmRun PmmFree.

Local Open Scope Z_scope.
Local Open Scope lk_scope.

Section pages.
Context `{!PmmConfig} `{!PmmLaws}.
Implicit Types (s : pmm) (a p i : Z) (ar : pmm_arena_t) (pl : page_list) (l q ps : list Z).

(** An arena the flags allow to allocate from. *)
Definition arena_eligible (flags : Z) ar : bool := negb (has_flag PMM_ALLOC_FLAG_KMAP flags && negb (has_flag PMM_ARENA_FLAG_KMAP (ar_flags ar))).
Definition share (flags : Z) s a : Z :=
  match arenas s !! a with Some ar => if arena_eligible flags ar then budget (from_reserved flags) ar else 0 | None => 0 end.
(** The pages the arenas may give. *)
Definition avail (flags : Z) s l : Z := foldr (fun a n => share flags s a + n) 0 l.

(** The arenas can be cleared where it matters. *)
Definition clear_ok (flags : Z) s l : Prop := forall a ar, a ∈ l -> arenas s !! a = Some ar -> arena_eligible flags ar = true -> may_clear flags s a ar.

Lemma budget_nonneg res ar : arena_ok ar -> 0 <= budget res ar.
Proof. intros [_ _ _ _ Hc]. unfold budget. destruct res; lia. Qed.
Lemma avail_nonneg flags s l : pmm_wf s -> (forall a, a ∈ l -> a ∈ arena_list s) -> 0 <= avail flags s l.
Proof.
  intros Hw. induction l as [|a l IH]; intros Hl; [done|]. cbn. specialize (IH (fun x Hx => Hl x (list_elem_of_further _ _ _ Hx))). fold (avail flags s l) in *.
  destruct (pw_arena _ Hw a (Hl a (list_elem_of_here _ _))) as (ar & _ & Har & Hok & _). unfold share. rewrite Har. pose proof (budget_nonneg (from_reserved flags) ar Hok). destruct (arena_eligible flags ar); lia.
Qed.

Lemma cnt_elsewhere s a b ar br ps : pmm_wf s -> a ∈ arena_list s -> b ∈ arena_list s -> arenas s !! a = Some ar -> arenas s !! b = Some br ->
  (forall p, p ∈ ps -> PAGE_BELONGS_TO_ARENA p ar = true) -> b <> a -> cnt br ps = 0.
Proof.
  intros Hw Ha Hb Har Hbr Hps Hne. unfold cnt. replace (filter (fun p => PAGE_BELONGS_TO_ARENA p br = true) ps) with (@nil Z); [done|].
  induction ps as [|p l IH]; [done|]. rewrite filter_cons_False; [apply IH; intros x Hx; apply Hps; by right|].
  intros Hb'. apply Hne. eapply (pw_disjoint _ Hw b a); [done..|apply Hps; left].
Qed.

(** What is taken from one arena is not missing in another. *)
Lemma taken_elsewhere flags s s' a ar frs n ps b br : pmm_wf s -> a ∈ arena_list s -> arenas s !! a = Some ar -> taken flags a ar frs n ps s s' ->
  b ∈ arena_list s -> b <> a -> arenas s !! b = Some br -> arenas s' !! b = Some br.
Proof.
  intros Hw Ha Har [T1 _ _ T4 _] Hb Hne Hbr. rewrite (gr_arenas _ _ _ _ _ T1), decide_True, Hbr by done. cbn.
  by rewrite (cnt_elsewhere s a b ar br ps Hw Ha Hb Har Hbr T4 Hne), cost_0.
Qed.

Lemma avail_ext flags s s' l : (forall a, a ∈ l -> arenas s' !! a = arenas s !! a) -> avail flags s' l = avail flags s l.
Proof.
  induction l as [|a l IH]; intros Hl; [done|]. cbn. fold (avail flags s l) (avail flags s' l). rewrite IH by (intros x Hx; apply Hl; by right).
  unfold share. by rewrite (Hl a ltac:(left)).
Qed.

Lemma clear_ok_taken flags s s' a ar frs n ps l : pmm_wf s -> a ∈ arena_list s -> arenas s !! a = Some ar -> taken flags a ar frs n ps s s' ->
  (forall b, b ∈ l -> b ∈ arena_list s /\ b <> a) -> clear_ok flags s l -> clear_ok flags s' l.
Proof.
  intros Hw Ha Har Ht Hl Hcl b br' Hb Hbr He. destruct (Hl b Hb) as [Hbl Hne]. pose proof (arena_some s b (wf_arenas _ Hw) Hbl) as [br Hbr0].
  rewrite (taken_elsewhere flags s s' a ar frs n ps b br Hw Ha Har Ht Hbl Hne Hbr0) in Hbr. injection Hbr as <-.
  pose proof (may_clear_grabbed flags _ ps s s' b br Hbl Hbr0 (tk_grabbed _ _ _ _ _ _ _ _ Ht) (Hcl b br Hb Hbr0 He)) as Hm.
  destruct Ht as [T1 _ _ T4 _]. rewrite (cnt_elsewhere s a b ar br ps Hw Ha Hbl Har Hbr0 T4 Hne), cost_0 in Hm. exact Hm.
Qed.

(** ** Any pages *)
Lemma alloc_arenas_run flags want lg count : contiguous flags = false -> forall l s al frs out,
  pmm_wf s -> aux_slock s = false -> NoDup l -> (forall a, a ∈ l -> a ∈ arena_list s) -> clear_ok flags s l -> is_Some (lists s !! LocalList) -> 0 <= al <= count ->
  exists ps s' frs', alloc_arenas l count flags lg want (al, frs, out) s = Some ((al + Z.of_nat (length ps), frs', if want then out ++ ps else out), s') /\
    grabbed LocalList (from_reserved flags) ps s s' /\ pmm_wf s' /\ Z.of_nat (length ps) = Z.min (count - al) (avail flags s l).
Proof.
  intros Hnc l. induction l as [|a l IH]; intros s al frs out Hw Hlk Hnd Hl Hcl Hloc Hal.
  - exists [], s, frs. split; [|split_and!].
    + cbn. unfold ret. rewrite Z.add_0_r, app_nil_r. by destruct want.
    + replace s with (with_cleared (fun _ => cleared s) s) at 2 by (by destruct s). apply grabbed_nothing.
    + done.
    + cbn. lia.
  - apply NoDup_cons in Hnd as [Hni Hnd]. pose proof (Hl a ltac:(left)) as Ha. destruct (pw_arena _ Hw a Ha) as (ar & _ & Har & Hok & _).
    assert (forall b, b ∈ l -> b ∈ arena_list s /\ b <> a) as Hl' by (intros b Hb; split; [apply Hl; by right|congruence]).
    assert (clear_ok flags s l) as Hcl' by (intros b br Hb; apply Hcl; by right).
    cbn [alloc_arenas avail foldr]. fold (avail flags s l). rewrite (get_arena_bind a ar) by done. rewrite assert_bind by (destruct Hok; lia).
    fold (contiguous flags). rewrite Hnc. cbn [andb]. unfold share. rewrite Har.
    assert (has_flag PMM_ALLOC_FLAG_KMAP flags && negb (has_flag PMM_ARENA_FLAG_KMAP (ar_flags ar)) = negb (arena_eligible flags ar)) as -> by (unfold arena_eligible; by rewrite negb_involutive).
    destruct (arena_eligible flags ar) eqn:He; cbn [negb]; [|apply IH; try done; by intros b Hb; apply Hl'].
    rewrite ret_bind. destruct (take_pages_run flags want (Z.to_nat (count - al)) s a ar count al frs out Hw Hlk Ha Har (Hcl a ar ltac:(left) Har He) Hloc) as (ps & s1 & frs1 & Hr1 & Ht); [lia|congruence|].
    rewrite (bind_eq _ _ _ _ _ Hr1). pose proof Ht as [T1 T2 T3 T4 _]. pose proof (budget_nonneg (from_reserved flags) ar Hok) as Hbn.
    destruct (IH s1 (al + Z.of_nat (length ps)) frs1 (outs want (contiguous flags) al ps out)) as (ps' & s2 & frs2 & Hr2 & Hg2 & Hw2 & Hn2).
    + done.
    + by destruct (gr_locks _ _ _ _ _ T1) as [_ ->].
    + done.
    + intros b Hb. rewrite (gr_list _ _ _ _ _ T1). by apply Hl'.
    + exact (clear_ok_taken flags s s1 a ar frs _ ps l Hw Ha Har Ht Hl' Hcl').
    + exact (local_some _ _ _ _ T1 Hloc).
    + lia.
    + exists (ps ++ ps'), s2, frs2. split; [|split_and!].
      * rewrite length_app, Nat2Z.inj_add, Z.add_assoc, Hr2. unfold outs. rewrite Hnc. destruct want; [|done]. by rewrite app_assoc.
      * exact (grabbed_trans LocalList _ ps ps' s s1 s2 T1 Hg2).
      * done.
      * rewrite length_app, Nat2Z.inj_add, Hn2. rewrite (avail_ext flags s s1 l).
        -- assert (0 <= avail flags s l) by (apply avail_nonneg; [done|by intros b Hb; apply Hl']). lia.
        -- intros b Hb. destruct (Hl' b Hb) as [Hbl Hne]. pose proof (arena_some s b (wf_arenas _ Hw) Hbl) as [br Hbr]. rewrite Hbr. exact (taken_elsewhere flags s s1 a ar frs _ ps b br Hw Ha Har Ht Hbl Hne Hbr).
Qed.

(** ** A run of pages *)
Definition searchable flags s l (count lg : Z) : Prop := forall a ar, a ∈ l -> arenas s !! a = Some ar -> arena_eligible flags ar = true -> search_ok ar count lg.
(** The arena has an aligned run of free pages. *)
Definition has_run s ar (lg count : Z) : Prop := exists st, candidate ar (Z.max lg PAGE_SIZE_SHIFT) count st /\ run_free s ar st (Z.to_nat count).
Definition no_runs flags s l (lg count : Z) : Prop := forall a ar, a ∈ l -> arenas s !! a = Some ar -> arena_eligible flags ar = true -> ~ has_run s ar lg count.
(** An arena with a run may give that many pages. *)
Definition stocked flags s l (lg count : Z) : Prop :=
  forall a ar, a ∈ l -> arenas s !! a = Some ar -> arena_eligible flags ar = true -> has_run s ar lg count -> count <= budget (from_reserved flags) ar.

Lemma first_run_none s ar m count : first_run s ar m count no_run -> forall st, candidate ar m count st -> ~ run_free s ar st (Z.to_nat count).
Proof. intros [_ Hf] st Hc Hr. by destruct (Hf st Hc Hr). Qed.
Lemma first_run_some s ar m count r : first_run s ar m count r -> r <> no_run -> candidate ar m count r /\ run_free s ar r (Z.to_nat count).
Proof. intros [[?|?] _] Hn; [done|done]. Qed.

Section contig.
Context (flags : Z) (want : bool) (lg count : Z) (Hco : contiguous flags = true).

Lemma eligible_test ar : has_flag PMM_ALLOC_FLAG_KMAP flags && negb (has_flag PMM_ARENA_FLAG_KMAP (ar_flags ar)) = negb (arena_eligible flags ar).
Proof. unfold arena_eligible. by rewrite negb_involutive. Qed.

(** The step of the walk at an arena, up to the pages taken from it. *)
Lemma contig_step a l al frs out s : pmm_wf s -> (forall b, b ∈ a :: l -> b ∈ arena_list s) -> searchable flags s (a :: l) count lg ->
  (exists ar, arenas s !! a = Some ar /\ (arena_eligible flags ar = false \/ ~ has_run s ar lg count) /\ exists frs',
    alloc_arenas (a :: l) count flags lg want (al, frs, out) s = alloc_arenas l count flags lg want (al, frs', out) s) \/
  (exists ar st, arenas s !! a = Some ar /\ arena_eligible flags ar = true /\ first_run s ar (Z.max lg PAGE_SIZE_SHIFT) count st /\ st <> no_run /\
    alloc_arenas (a :: l) count flags lg want (al, frs, out) s =
    (x <- take_pages (Z.to_nat (count - al)) a count flags want (al, st, out) ;; alloc_arenas l count flags lg want x) s).
Proof.
  intros Hw Hl Hs. pose proof (Hl a ltac:(left)) as Ha. destruct (pw_arena _ Hw a Ha) as (ar & _ & Har & Hok & _).
  cbn [alloc_arenas]. rewrite (get_arena_bind a ar) by done. rewrite assert_bind by (destruct Hok; lia). fold (contiguous flags). rewrite Hco, eligible_test. cbn [andb].
  destruct (arena_eligible flags ar) eqn:He; cbn [negb]; [|left; exists ar; split_and!; [done|by left|by exists frs]].
  destruct (find_free_run_run s a ar count lg Hw Ha Har (Hs a ar ltac:(left) Har He)) as (st & Hst & Hf). rewrite (bind_eq _ _ _ _ _ Hst).
  destruct (Z.eqb_spec st no_run) as [->|Hne]; [|right; by exists ar, st].
  left. exists ar. split_and!; [done| |by exists no_run]. right. intros (st & Hc & Hr). exact (first_run_none _ _ _ _ Hf st Hc Hr).
Qed.

(** When all pages have been found the walk goes on and changes nothing. *)
Lemma contig_done l : forall s frs out, pmm_wf s -> (forall a, a ∈ l -> a ∈ arena_list s) -> searchable flags s l count lg ->
  exists frs', alloc_arenas l count flags lg want (count, frs, out) s = Some ((count, frs', out), s).
Proof.
  induction l as [|a l IH]; intros s frs out Hw Hl Hs; [by exists frs|].
  assert (forall b, b ∈ l -> b ∈ arena_list s) as Hl' by (intros b Hb; apply Hl; by right). assert (searchable flags s l count lg) as Hs' by (intros b br Hb; apply Hs; by right).
  destruct (contig_step a l count frs out s Hw Hl Hs) as [(ar & _ & _ & frs' & ->)|(ar & st & _ & _ & _ & _ & ->)]; [by apply IH|].
  rewrite Z.sub_diag. change (Z.to_nat 0) with 0%nat. cbn [take_pages]. rewrite ret_bind. by apply IH.
Qed.

Lemma contig_run l : forall s frs out, pmm_wf s -> aux_slock s = false -> 0 < count -> NoDup l -> (forall a, a ∈ l -> a ∈ arena_list s) -> is_Some (lists s !! LocalList) ->
  clear_ok flags s l -> searchable flags s l count lg -> stocked flags s l lg count ->
  (no_runs flags s l lg count /\ exists frs', alloc_arenas l count flags lg want (0, frs, out) s = Some ((0, frs', out), s)) \/
  (exists l1 a l2 ar st ps s' frs', l = l1 ++ a :: l2 /\ no_runs flags s l1 lg count /\ arenas s !! a = Some ar /\ arena_eligible flags ar = true /\
    first_run s ar (Z.max lg PAGE_SIZE_SHIFT) count st /\ st <> no_run /\ ps = page_at ar <$> seqZ st count /\
    grabbed LocalList (from_reserved flags) ps s s' /\ pmm_wf s' /\
    alloc_arenas l count flags lg want (0, frs, out) s = Some ((count, frs', outs want true 0 ps out), s')).
Proof.
  induction l as [|a l IH]; intros s frs out Hw Hlk Hc0 Hnd Hl Hloc Hcl Hs Hst; [left; split; [by intros a ar ?%elem_of_nil|by exists frs]|].
  assert (forall b, b ∈ l -> b ∈ arena_list s) as Hl' by (intros b Hb; apply Hl; by right). assert (searchable flags s l count lg) as Hs' by (intros b br Hb; apply Hs; by right).
  assert (clear_ok flags s l) as Hcl' by (intros b br Hb; apply Hcl; by right). assert (stocked flags s l lg count) as Hst' by (intros b br Hb; apply Hst; by right).
  apply NoDup_cons in Hnd as [Hni Hnd].
  destruct (contig_step a l 0 frs out s Hw Hl Hs) as [(ar & Har & Hno & frs' & ->)|(ar & st & Har & He & Hf & Hne & ->)].
  - assert (forall l1, no_runs flags s l1 lg count -> no_runs flags s (a :: l1) lg count) as Hcons.
    { intros l1 Hl1 b br [->|Hb]%elem_of_cons Hbr Hbe; [|by apply (Hl1 b br)]. assert (br = ar) as -> by congruence. destruct Hno as [?|?]; [congruence|done]. }
    destruct (IH s frs' out Hw Hlk Hc0 Hnd Hl' Hloc Hcl' Hs' Hst') as [(Hn & Hr)|(l1 & b & l2 & br & st & ps & s' & frs2 & -> & Hn & Hx)]; [left; split; [by apply Hcons|done]|].
    right. exists (a :: l1), b, l2, br, st, ps, s', frs2. split; [done|]. split; [by apply Hcons|done].
  - right. pose proof (Hl a ltac:(left)) as Ha. destruct (first_run_some _ _ _ _ _ Hf Hne) as [Hca Hrf]. rewrite Z.sub_0_r.
    destruct (take_pages_run flags want (Z.to_nat count) s a ar count 0 st out Hw Hlk Ha Har (Hcl a ar ltac:(left) Har He) Hloc ltac:(lia) (fun _ => Hrf)) as (ps & s1 & frs1 & Hr1 & Ht).
    pose proof Ht as [T1 T2 T3 T4 T5]. assert (count <= budget (from_reserved flags) ar) as Hb by (apply (Hst a ar); [left|done|done|by exists st]).
    assert (Z.of_nat (length ps) = count) as Hn by lia. specialize (T5 Hco). rewrite Hn in T5.
    rewrite (bind_eq _ _ _ _ _ Hr1), Z.add_0_l, Hn.
    assert (forall b, b ∈ l -> b ∈ arena_list s /\ b <> a) as Hla by (intros b Hb2; split; [by apply Hl'|congruence]).
    destruct (contig_done l s1 frs1 (outs want (contiguous flags) 0 ps out) T2) as (frs2 & Hr2).
    + intros b Hb'. rewrite (gr_list _ _ _ _ _ T1). by apply Hla.
    + intros b br' Hb' Hbr He'. destruct (Hla b Hb') as [Hbl Hbne]. pose proof (arena_some s b (wf_arenas _ Hw) Hbl) as [br Hbr0].
      rewrite (taken_elsewhere flags s s1 a ar st _ ps b br Hw Ha Har Ht Hbl Hbne Hbr0) in Hbr. injection Hbr as <-. by apply (Hs' b br).
    + exists [], a, l, ar, st, ps, s1, frs2. rewrite Hco in Hr2 |- *. split_and!; try done. by intros b br ?%elem_of_nil.
Qed.
End contig.

(** ** The whole call *)

(** The list in the local variable is empty. *)
Definition local s : pmm := with_lists <[LocalList := []]> s.

Lemma local_wf s : pmm_wf s -> pmm_wf (local s).
Proof.
  intros Hw. assert (forall k q p, lists (local s) !! k = Some q -> p ∈ q -> lists s !! k = Some q) as Hk.
  { intros k q p. cbn. destruct (decide (k = LocalList)) as [->|]; [rewrite lookup_insert_eq; by intros [= <-] ?%elem_of_nil|by rewrite lookup_insert_ne]. }
  assert (forall a q, lists s !! FreeList a = Some q -> lists (local s) !! FreeList a = Some q) as Hf by (intros a q Hq; cbn; by rewrite lookup_insert_ne).
  constructor; try apply Hw.
  - intros a Ha. destruct (pw_arena _ Hw a Ha) as (ar & q & ? & ? & Hq & ?). exists ar, q. split_and!; [done|done|by apply Hf|done].
  - intros a ar i p Hp. destruct (pw_page _ Hw _ _ _ _ Hp) as (fl & Hfl & Hx). exists fl. split; [done|]. intros Hn. destruct (Hx Hn) as (Hr & q & Hq & Hin). split; [done|]. exists q. split; [by apply Hf|done].
  - intros k q p Hq Hin. exact (pw_lists _ Hw k q p (Hk _ _ _ Hq Hin) Hin).
  - intros k q. cbn. destruct (decide (k = LocalList)) as [->|]; [rewrite lookup_insert_eq; intros [= <-]; by apply NoDup_nil_2|]. rewrite lookup_insert_ne by done. apply (pw_nodup _ Hw).
  - intros k k' q q' p Hq Hq' Hin Hin'. exact (pw_unique _ Hw k k' q q' p (Hk _ _ _ Hq Hin) (Hk _ _ _ Hq' Hin') Hin Hin').
Qed.

Lemma grabbed_counts dst res ps s s' : grabbed dst res ps s s' -> pmm_wf s' -> forall a ar, a ∈ arena_list s -> arenas s' !! a = Some ar -> 0 <= reserved_count ar <= free_count ar.
Proof.
  intros Hg Hw a ar Ha Har. rewrite <- (gr_list _ _ _ _ _ Hg) in Ha. destruct (pw_arena _ Hw a Ha) as (? & _ & ? & [_ _ _ _ Hc] & _). by simplify_eq.
Qed.

Lemma page_splice_run dst res ps s s' q : pmm_wf s -> grabbed LocalList res ps s s' -> pmm_wf s' -> lists s !! LocalList = Some [] -> lists s !! dst = Some q -> is_free_list dst = false -> dst <> LocalList ->
  exists s2, list_splice_tail dst LocalList s' = Some (tt, s2) /\ grabbed dst res ps s s2 /\ pmm_wf s2.
Proof.
  intros Hw Hg Hw' Hloc Hq Hf Hne. pose proof Hg as [G1 G2 G3 G4 G5 G6 G7].
  assert (forall k q', is_free_list k = false -> lists s !! k = Some q' -> without ps q' = q') as Hwo.
  { intros k q' Hk Hq'. apply without_none. intros p Hp Hin. destruct (pw_lists _ Hw _ _ p Hq' Hin) as (? & ? & ? & fl & _ & Hfl & Hnf), (G7 p Hp) as (? & ? & ? & ? & _ & ? & ?). simplify_eq. destruct k; [done|congruence..]. }
  assert (lists s' !! dst = Some q) as Hq' by (rewrite G4, Hq, decide_False by done; cbn [fmap option_fmap option_map]; by rewrite (Hwo dst q Hf Hq), app_nil_r).
  assert (lists s' !! LocalList = Some ps) as Hl' by (by rewrite G4, Hloc, decide_True).
  eexists. split; [unfold list_splice_tail; rewrite (get_list_bind dst q), (get_list_bind LocalList ps), modify_bind by done; reflexivity|].
  assert (grabbed dst res ps s (with_lists <[LocalList := []]> (with_lists <[dst := q ++ ps]> s'))) as Hgd.
  { constructor; try done. intros k. cbn. destruct (decide (k = LocalList)) as [->|Hk].
    - rewrite lookup_insert_eq, Hloc. cbn [fmap option_fmap option_map]. rewrite decide_False by congruence. done.
    - rewrite lookup_insert_ne by done. destruct (decide (k = dst)) as [->|Hkd].
      + rewrite lookup_insert_eq, Hq. cbn [fmap option_fmap option_map]. by rewrite (Hwo dst q Hf Hq).
      + rewrite lookup_insert_ne, G4, decide_False by done. done. }
  split; [exact Hgd|]. apply (grabbed_wf dst res ps s _ Hw Hgd); [|by eexists|done]. intros a ar Ha Har. apply (grabbed_counts _ _ _ _ _ Hg Hw' a ar); [by rewrite <- G1|done].
Qed.

(** What the call leaves: the pages on the list of the caller, or everything where it
    was. *)
Definition into (pl : option page_list) : page_list := match pl with Some l => l | None => LocalList end.
Definition target s (pl : option page_list) : Prop :=
  match pl with Some l => l <> LocalList /\ is_free_list l = false /\ is_Some (lists s !! l) | None => True end.

Definition alloc_finish (pl : option page_list) (count : Z) (x : walk) : M pmm (Z * list Z) :=
  let '(allocated, _, out) := x in
  if negb (allocated =? count) then _ <- pmm_free_locked LocalList ;; ret (ERR_NO_MEMORY, out)
  else
    match pl with Some l => list_splice_tail l LocalList | None => ret tt end ;;
    ret (0, out).

Lemma finish_ok (pl : option page_list) count frs out res ps s s' : pmm_wf s -> lists s !! LocalList = Some [] -> target s pl -> grabbed LocalList res ps s s' -> pmm_wf s' ->
  exists s2, alloc_finish pl count (count, frs, out) s' = Some ((0, out), s2) /\ grabbed (into pl) res ps s s2 /\ pmm_wf s2.
Proof.
  intros Hw Hloc Ht Hg Hw'. unfold alloc_finish. rewrite Z.eqb_refl. cbn [negb]. destruct pl as [l|]; [|by exists s'].
  destruct Ht as (Hne & Hf & q & Hq). destruct (page_splice_run l res ps s s' q Hw Hg Hw' Hloc Hq Hf Hne) as (s2 & Hs2 & Hg2). exists s2. by rewrite (bind_eq _ _ _ _ _ Hs2).
Qed.

Lemma finish_err (pl : option page_list) count al frs out res ps s s' : pmm_wf s -> lists s !! LocalList = Some [] -> grabbed LocalList res ps s s' -> pmm_wf s' -> al <> count ->
  exists s2, alloc_finish pl count (al, frs, out) s' = Some ((ERR_NO_MEMORY, out), s2) /\ pmm_equiv s s2 /\ pmm_wf s2.
Proof.
  intros Hw Hloc Hg Hw' Hne. unfold alloc_finish. rewrite (proj2 (Z.eqb_neq al count) Hne). cbn [negb].
  assert (lists s' !! LocalList = Some ps) as Hl' by (by rewrite (gr_lists _ _ _ _ _ Hg), Hloc, decide_True).
  destruct (pmm_free_locked_run LocalList ps s' Hw' eq_refl Hl') as (s2 & Hs2 & Hr2). exists s2. rewrite (bind_eq _ _ _ _ _ Hs2). split_and!; [done| |].
  - exact (grabbed_released LocalList res ps s s' s2 Hw eq_refl Hloc Hg Hr2).
  - exact (released_wf LocalList ps s' s2 Hw' eq_refl Hl' Hr2).
Qed.

(** The flags after the test for a single page. *)
Definition effective (count flags lg : Z) : Z :=
  if contiguous flags && (count =? 1) && (lg <=? PAGE_SIZE_SHIFT) then Z.ldiff flags PMM_ALLOC_FLAG_CONTIGUOUS else flags.

Lemma pmm_alloc_pages_locked_eq (pl : option page_list) want count flags lg s : lg = 0 \/ contiguous flags = true ->
  pmm_alloc_pages_locked pl want count flags lg s =
  (x <- alloc_arenas (arena_list s) count (effective count flags lg) lg want (0, no_run, []) ;; alloc_finish pl count x) (local s).
Proof.
  intros Hf. unfold pmm_alloc_pages_locked, list_initialize. rewrite modify_bind. rewrite assert_bind by (unfold contiguous in Hf; destruct Hf as [->| ->]; [done|by rewrite orb_true_r]).
  by rewrite gets_bind.
Qed.
End pages.
