(* ===== verification/PmmReserve.v ===== *)
(** * Reservations

    A reservation takes no page; it keeps so many of the free pages of each arena
    for allocations from the reserved ones. *)
From stdpp Require Import base gmap list.
From Stdlib Require Import ZArith Lia.
From S2P Require Import Prelude Pmm PmmInv PmmGrab PmmAlloc PmmRun PmmFree PmmPages.

Local Open Scope Z_scope.
Local Open Scope lk_scope.

Section reserve.
Context `{!PmmConfig} `{!PmmLaws}.
Implicit Types (s : pmm) (a p i : Z) (ar : pmm_arena_t) (pl : page_list) (l q ps : list Z).

(** The pages that are reserved and those that may still be. *)
Definition total (f : pmm_arena_t -> Z) s l : Z := foldr (fun a n => match arenas s !! a with Some ar => f ar | None => 0 end + n) 0 l.
Definition unreserved ar : Z := free_count ar - reserved_count ar.

Lemma counts_total_ext f s s' l : (forall a, a ∈ l -> arenas s' !! a = arenas s !! a) -> total f s' l = total f s l.
Proof.
  induction l as [|a l IH]; intros Hl; [done|]. cbn. fold (total f s l) (total f s' l). rewrite IH by (intros x Hx; apply Hl; by right). by rewrite (Hl a ltac:(left)).
Qed.
Lemma counts_total_nonneg f s l : (forall a ar, a ∈ l -> arenas s !! a = Some ar -> 0 <= f ar) -> 0 <= total f s l.
Proof.
  induction l as [|a l IH]; intros Hl; [done|]. cbn. fold (total f s l). specialize (IH ltac:(intros x xr Hx; apply Hl; by right)).
  destruct (arenas s !! a) as [ar|] eqn:Har; [specialize (Hl a ar ltac:(left) Har)|]; lia.
Qed.

(** Only the reserved counts of the arenas [l] differ. *)
Record reserving l s s' : Prop := {
  re_list : arena_list s' = arena_list s;
  re_in : forall a, a ∈ l -> exists ar r, arenas s !! a = Some ar /\ arenas s' !! a = Some (set_counts (free_count ar) r ar) /\ 0 <= r <= free_count ar;
  re_out : forall a, a ∉ l -> arenas s' !! a = arenas s !! a;
  re_rest : pages s' = pages s /\ lists s' = lists s /\ cleared s' = cleared s /\ lock s' = lock s /\ aux_slock s' = aux_slock s
}.

Lemma reserving_wf s s' : pmm_wf s -> reserving (arena_list s) s s' -> pmm_wf s'.
Proof.
  intros Hw [E1 E2 _ (E3 & E4 & _)].
  assert (forall a ar', a ∈ arena_list s -> arenas s' !! a = Some ar' -> exists ar, arenas s !! a = Some ar /\ ar' = set_counts (free_count ar) (reserved_count ar') ar) as Hb.
  { intros a ar' Ha Har'. destruct (E2 a Ha) as (ar & r & Har & Hr & _). exists ar. split; [done|]. rewrite Hr in Har'. by injection Har' as <-. }
  assert (forall a ar' i p, is_page s' a ar' i p -> exists ar, is_page s a ar i p) as Hback.
  { intros a ar' i p (Ha & Har & Hi & Hp). rewrite E1 in Ha. destruct (Hb a ar' Ha Har) as (ar & Har0 & He). exists ar. rewrite He in Hi, Hp. done. }
  assert (forall a ar i p, is_page s a ar i p -> exists ar', is_page s' a ar' i p) as Hfwd.
  { intros a ar i p (Ha & Har & Hi & Hp). destruct (E2 a Ha) as (ar0 & r & Har0 & Har' & _). assert (ar0 = ar) as -> by congruence. eexists. unfold is_page. rewrite E1. done. }
  constructor.
  - rewrite E1. apply Hw.
  - intros a Ha. rewrite E1 in Ha. destruct (pw_arena _ Hw a Ha) as (ar & q & Har & [A1 A2 A3 A4 A5] & Hq & Hn), (E2 a Ha) as (ar0 & r & Har0 & Har' & Hr).
    assert (ar0 = ar) as -> by congruence. exists (set_counts (free_count ar) r ar), q. split_and!; [done|by constructor|by rewrite E4|done].
  - intros a ar' i p Hp. destruct (Hback _ _ _ _ Hp) as (ar & Hp0). rewrite E3, E4. exact (pw_page _ Hw a ar i p Hp0).
  - intros a b ar br p Ha Hb' Har Hbr. rewrite E1 in Ha, Hb'. destruct (Hb a ar Ha Har) as (ar0 & Har0 & ->), (Hb b br Hb' Hbr) as (br0 & Hbr0 & ->). exact (pw_disjoint _ Hw a b ar0 br0 p Ha Hb' Har0 Hbr0).
  - intros k q p Hq Hin. rewrite E4 in Hq. destruct (pw_lists _ Hw k q p Hq Hin) as (a & ar & i & fl & Hp & Hfl & Hm). destruct (Hfwd _ _ _ _ Hp) as (ar' & Hp'). exists a, ar', i, fl. by rewrite E3.
  - rewrite E4. apply Hw.
  - rewrite E4. apply Hw.
Qed.

(** ** The walks *)
Lemma reserving_nothing l s : (forall a, a ∈ l -> exists ar, arenas s !! a = Some ar /\ 0 <= reserved_count ar <= free_count ar) -> reserving l s s.
Proof.
  intros Hl. constructor; try done. intros a Ha. destruct (Hl a Ha) as (ar & Har & Hr). exists ar, (reserved_count ar). split_and!; [done| |lia|lia]. rewrite Har. by destruct ar.
Qed.
Lemma reserving_cons a ar r l s s' : a ∉ l -> arenas s !! a = Some ar -> 0 <= r <= free_count ar ->
  reserving l (with_arenas <[a := set_counts (free_count ar) r ar]> s) s' -> reserving (a :: l) s s'.
Proof.
  intros Hn Har Hr [R1 R2 R3 R4]. constructor; [done| | |exact R4].
  - intros b [->|Hb]%elem_of_cons.
    + exists ar, r. split_and!; [done| |lia|lia]. rewrite R3 by done. apply lookup_insert_eq.
    + destruct (R2 b Hb) as (br & r' & Hbr & Hx). exists br, r'. split; [|done]. cbn in Hbr. by rewrite lookup_insert_ne in Hbr by congruence.
  - intros b [Hb1 Hb2]%not_elem_of_cons. rewrite R3 by done. by apply lookup_insert_ne.
Qed.

(** The part of the invariant the walks rely on. *)
Definition counts_ok l s : Prop := NoDup l /\ forall a, a ∈ l -> exists ar, arenas s !! a = Some ar /\ 0 <= reserved_count ar <= free_count ar.
Lemma counts_ok_wf s : pmm_wf s -> counts_ok (arena_list s) s.
Proof. intros Hw. split; [apply Hw|]. intros a Ha. destruct (pw_arena _ Hw a Ha) as (ar & _ & Har & [_ _ _ _ Hc] & _). by exists ar. Qed.
Lemma counts_ok_cons a l s r ar : counts_ok (a :: l) s -> arenas s !! a = Some ar -> a ∉ l /\ counts_ok l s /\ counts_ok l (with_arenas <[a := set_counts (free_count ar) r ar]> s).
Proof.
  intros [[Hn Hnd]%NoDup_cons Hl] Har. split_and!; [done|split; [done|intros b Hb; apply Hl; by right]|]. split; [done|].
  intros b Hb. destruct (Hl b ltac:(by right)) as (br & Hbr & Hx). exists br. split; [|done]. cbn. by rewrite lookup_insert_ne by congruence.
Qed.
Lemma total_cons f a ar l s : arenas s !! a = Some ar -> total f s (a :: l) = f ar + total f s l.
Proof. intros Har. cbn. by rewrite Har. Qed.
Lemma total_other f a ar l s : a ∉ l -> total f (with_arenas <[a := ar]> s) l = total f s l.
Proof. intros Hn. apply counts_total_ext. intros b Hb. cbn. apply lookup_insert_ne. congruence. Qed.
Lemma unreserved_nonneg l s : counts_ok l s -> 0 <= total unreserved s l.
Proof. intros [_ Hl]. apply counts_total_nonneg. intros a ar Ha Har. destruct (Hl a Ha) as (? & ? & ?). simplify_eq. unfold unreserved. lia. Qed.
Lemma reserved_nonneg l s : counts_ok l s -> 0 <= total reserved_count s l.
Proof. intros [_ Hl]. apply counts_total_nonneg. intros a ar Ha Har. destruct (Hl a Ha) as (? & ? & ?). simplify_eq. lia. Qed.

Lemma check_available_run l (b : bool) : forall count s, counts_ok l s -> 0 <= count ->
  exists s', check_available l count b s = Some (Z.max 0 (count - total unreserved s l), s') /\
    if b then reserving l s s' /\ total reserved_count s' l = total reserved_count s l + Z.min count (total unreserved s l) else s' = s.
Proof.
  induction l as [|a l IH]; intros count s Hok Hc.
  - exists s. split; [cbn; unfold ret; do 2 f_equal; lia|]. destruct b; [|done]. split; [by apply reserving_nothing; intros a ?%elem_of_nil|cbn; lia].
  - destruct (proj2 Hok a ltac:(left)) as (ar & Har & Hr). set (u := unreserved ar). assert (0 <= u) as Hu by (unfold u, unreserved; lia).
    destruct (counts_ok_cons a l s (reserved_count ar + Z.min count u) ar Hok Har) as (Hn & Hok' & Hok2). pose proof (unreserved_nonneg l s Hok') as Hun.
    cbn [check_available]. rewrite (get_arena_bind a ar) by done. rewrite assert_bind by lia. cbn zeta. fold (unreserved ar). fold u. rewrite !(total_cons _ a ar) by done. fold u.
    destruct (Z.eqb_spec u 0) as [Hz|Hz].
    + destruct (IH count s Hok' Hc) as (s' & Hs' & Hm). exists s'. rewrite Hz, Z.add_0_l. split; [done|]. destruct b; [|done]. destruct Hm as [Hm1 Hm2].
      assert (with_arenas <[a := set_counts (free_count ar) (reserved_count ar) ar]> s = s) as Hsame.
      { destruct s, ar. unfold with_arenas, set_counts. cbn in *. f_equal. by apply insert_id. }
      split; [apply (reserving_cons a ar (reserved_count ar)); [done|done|lia|by rewrite Hsame]|].
      cbn. rewrite (re_out _ _ _ Hm1), Har by done. fold (total reserved_count s' l). lia.
    + set (n := Z.min count u). set (s1 := if b then with_arenas <[a := set_counts (free_count ar) (reserved_count ar + n) ar]> s else s).
      rewrite (bind_eq _ _ s tt s1) by (unfold s1; destruct b; [cbn [when]; unfold upd_arena; by rewrite (get_arena_bind a ar)|done]).
      assert (total unreserved s1 l = total unreserved s l) as Ht by (unfold s1; destruct b; [by apply total_other|done]).
      assert (total reserved_count s1 l = total reserved_count s l) as Htr by (unfold s1; destruct b; [by apply total_other|done]).
      assert (counts_ok l s1) as Hok1 by (unfold s1; by destruct b).
      assert (forall s', reserving l s1 s' -> b = true -> reserving (a :: l) s s' /\ total reserved_count s' (a :: l) = reserved_count ar + n + total reserved_count s' l) as Hfin.
      { intros s' Hre ->. unfold s1 in Hre. split; [apply (reserving_cons a ar (reserved_count ar + n)); [done|done|unfold n, u, unreserved in *; lia|done]|].
        rewrite (total_cons _ a (set_counts (free_count ar) (reserved_count ar + n) ar)); [done|]. rewrite (re_out _ _ _ Hre) by done. apply lookup_insert_eq. }
      destruct (Z.eqb_spec (count - n) 0) as [Hd|Hd].
      * exists s1. split; [unfold ret; do 2 f_equal; unfold n in *; lia|]. destruct b; [|done]. destruct (Hfin s1) as [F1 F2]; [by apply reserving_nothing, Hok1|done|]. split; [done|].
        rewrite F2, Htr. unfold n in *. lia.
      * destruct (IH (count - n) s1 Hok1) as (s' & Hs' & Hm); [unfold n; lia|]. exists s'. rewrite Hs', Ht. split; [unfold n in *; do 2 f_equal; lia|].
        destruct b; [|done]. destruct Hm as [Hm1 Hm2]. destruct (Hfin s' Hm1 eq_refl) as [F1 F2]. split; [done|]. rewrite F2, Hm2, Htr, Ht. unfold n in *. lia.
Qed.

Lemma unreserve_run l : forall count s, counts_ok l s -> 0 <= count ->
  exists s', unreserve l count s = Some (Z.max 0 (count - total reserved_count s l), s') /\ reserving l s s' /\
    total reserved_count s' l = total reserved_count s l - Z.min count (total reserved_count s l).
Proof.
  induction l as [|a l IH]; intros count s Hok Hc.
  - exists s. split_and!; [cbn; unfold ret; do 2 f_equal; lia|by apply reserving_nothing; intros a ?%elem_of_nil|cbn; lia].
  - destruct (proj2 Hok a ltac:(left)) as (ar & Har & Hr). set (n := Z.min count (reserved_count ar)).
    destruct (counts_ok_cons a l s (reserved_count ar - n) ar Hok Har) as (Hn & Hok' & Hok2). pose proof (reserved_nonneg l s Hok') as Hun.
    cbn [unreserve]. rewrite (get_arena_bind a ar) by done. cbn zeta. fold n. rewrite (upd_arena_bind a ar) by done. set (s1 := with_arenas _ s) in *. rewrite !(total_cons _ a ar) by done.
    assert (total reserved_count s1 l = total reserved_count s l) as Htr by (by apply total_other).
    assert (forall s', reserving l s1 s' -> reserving (a :: l) s s' /\ total reserved_count s' (a :: l) = reserved_count ar - n + total reserved_count s' l) as Hfin.
    { intros s' Hre. split; [apply (reserving_cons a ar (reserved_count ar - n)); [done|done|unfold n in *; lia|done]|].
      rewrite (total_cons _ a (set_counts (free_count ar) (reserved_count ar - n) ar)); [done|]. rewrite (re_out _ _ _ Hre) by done. apply lookup_insert_eq. }
    destruct (Z.eqb_spec (count - n) 0) as [Hd|Hd].
    + exists s1. split; [unfold ret; do 2 f_equal; unfold n in *; lia|]. destruct (Hfin s1) as [F1 F2]; [by apply reserving_nothing, Hok2|]. split; [done|]. rewrite F2, Htr. unfold n in *. lia.
    + destruct (IH (count - n) s1 Hok2) as (s' & Hs' & Hm1 & Hm2); [unfold n; lia|]. exists s'. rewrite Hs', Htr. split; [unfold n in *; do 2 f_equal; lia|].
      destruct (Hfin s' Hm1) as [F1 F2]. split; [done|]. rewrite F2, Hm2, Htr. unfold n in *. lia.
Qed.
End reserve.
