(* ===== verification/PmmInit.v ===== *)
(** * Adding an arena

    What [pmm_add_arena] makes of a description of memory: all pages free, or all but
    those at the start and the end, and the arena in the list by its priority. *)
From stdpp Require Import base gmap list sorting.
From Stdlib Require Import ZArith Lia.
From S2P Require Import Prelude Pmm PmmInv PmmGrab PmmAlloc PmmPages.

Local Open Scope Z_scope.
Local Open Scope lk_scope.

Section init.
Context `{!PmmConfig} `{!PmmLaws}.
Implicit Types (s : pmm) (a p i : Z) (ar : pmm_arena_t) (pl : page_list) (l q ps : list Z).

(** ** Lookups that only read the listed arenas *)
Lemma find_arena_ext l test s s' r : (forall a, a ∈ l -> arenas s' !! a = arenas s !! a) -> find_arena l test s = Some (r, s) -> find_arena l test s' = Some (r, s').
Proof.
  induction l as [|a l IH]; intros Hl; [by intros [= <-]|]. cbn [find_arena]. destruct (arenas s !! a) as [ar|] eqn:Har; [|unfold bind, get_arena, getsome; by rewrite Har].
  rewrite (get_arena_bind a ar) by done. rewrite (get_arena_bind a ar) by (by rewrite Hl by left). destruct (test ar); [by intros [= <-]|]. apply IH. intros b Hb. apply Hl. by right.
Qed.

(** The address of [pa] in the kernel. *)
Definition kvaddr_is s pa va : Prop := paddr_to_kvaddr pa s = Some (va, s).
Lemma kvaddr_is_ext s s' pa va : arenas_wf s -> aux_slock s = false -> aux_slock s' = false -> arena_list s' = arena_list s -> (forall a, a ∈ arena_list s -> arenas s' !! a = arenas s !! a) ->
  kvaddr_is s pa va -> kvaddr_is s' pa va.
Proof.
  intros Haw Hk Hk' Hl Ha. unfold kvaddr_is, paddr_to_kvaddr. destruct (find_mapping _ _); [by intros [= <-]|]. unfold pmm_paddr_to_kvaddr, spin_lock, spin_unlock.
  rewrite !bind_assoc, !gets_bind, !bind_assoc, !assert_bind by (by rewrite ?Hk, ?Hk'). rewrite !modify_bind, !gets_bind.
  change (arena_list (with_aux_slock true s)) with (arena_list s). change (arena_list (with_aux_slock true s')) with (arena_list s'). rewrite Hl.
  set (test := fun ar => _).
  destruct (find_arena_run (arena_list s) test (with_aux_slock true s)) as (r & Hr & Hm); [intros a Hin; by apply (arena_some s a Haw)|].
  rewrite (bind_eq _ _ _ _ _ Hr). rewrite (bind_eq _ _ _ _ _ (find_arena_ext _ _ (with_aux_slock true s) (with_aux_slock true s') r Ha Hr)).
  assert (forall x, aux_slock x = false -> with_aux_slock false (with_aux_slock true x) = x) as Hs by (intros []; cbn; by intros ->).
  destruct r as [b|].
  - destruct Hm as (Hb & br & Hbr & _). rewrite !bind_assoc, (get_arena_bind b br _ (with_aux_slock true s)) by done.
    rewrite (get_arena_bind b br _ (with_aux_slock true s')) by (cbn in *; by rewrite Ha). rewrite !ret_bind, !modify_bind, !Hs by done. unfold ret. by intros [= <-].
  - rewrite !ret_bind, !modify_bind, !Hs by done. unfold ret. by intros [= <-].
Qed.

(** ** The array of pages *)
Lemma page_at_inj ar i j : page_at ar i = page_at ar j -> i = j.
Proof. unfold page_at, sizeof_vm_page. lia. Qed.
Lemma zero_pages_in n ar m k : 0 <= k < Z.of_nat n -> zero_pages n ar m !! page_at ar k = Some 0.
Proof.
  induction n as [|n IH]; intros Hk; [lia|]. cbn. destruct (decide (k = Z.of_nat n)) as [->|]; [apply lookup_insert_eq|].
  rewrite lookup_insert_ne by (intros ?%page_at_inj; lia). apply IH. lia.
Qed.
Lemma zero_pages_out n ar m p : (forall k, 0 <= k < Z.of_nat n -> p <> page_at ar k) -> zero_pages n ar m !! p = m !! p.
Proof. induction n as [|n IH]; intros Hp; [done|]. cbn. rewrite lookup_insert_ne by (intros He; apply (Hp (Z.of_nat n)); [lia|done]). apply IH. intros k Hk. apply Hp. lia. Qed.

(** The pages that are not reserved, and the flags of a page. *)
Definition in_use (n rs re i : Z) : bool := (i <? rs) || (i >=? n - re).
Definition free_pages_of (n rs re : Z) (k : Z) (m : nat) : list Z := filter (fun i => in_use n rs re i = false) (seqZ k (Z.of_nat m)).

Lemma seqZ_S k m : seqZ k (Z.of_nat (S m)) = k :: seqZ (k + 1) (Z.of_nat m).
Proof. rewrite seqZ_cons by lia. f_equal. f_equal; lia. Qed.

Lemma init_pages_run n rs re a : 0 <= n < 2 ^ 32 -> 0 <= re <= n -> forall m k s ar q,
  arenas s !! a = Some ar -> lists s !! FreeList a = Some q -> 0 <= free_count ar -> free_count ar + Z.of_nat m < 2 ^ 64 ->
  (forall j, k <= j < k + Z.of_nat m -> pages s !! page_at ar j = Some 0 /\ node_in_list (page_at ar j) (lists s) = false) ->
  exists s', init_pages m a k n rs re s = Some (tt, s') /\ arena_list s' = arena_list s /\
    arenas s' = <[a := set_counts (free_count ar + Z.of_nat (length (free_pages_of n rs re k m))) (reserved_count ar) ar]> (arenas s) /\
    lists s' = <[FreeList a := q ++ (page_at ar <$> free_pages_of n rs re k m)]> (lists s) /\
    (forall j, k <= j < k + Z.of_nat m -> pages s' !! page_at ar j = Some (if in_use n rs re j then VM_PAGE_FLAG_NONFREE else 0)) /\
    (forall p, (forall j, k <= j < k + Z.of_nat m -> p <> page_at ar j) -> pages s' !! p = pages s !! p) /\
    lock s' = lock s /\ aux_slock s' = aux_slock s.
Proof.
  intros Hn Hre m. induction m as [|m IH]; intros k s ar q Har Hq Hf0 Hf Hp.
  - exists s. split_and!; [done|done| | |lia|done..].
    + cbn. rewrite Z.add_0_r. symmetry. apply insert_id. rewrite Har. by destruct ar.
    + cbn. rewrite app_nil_r. symmetry. by apply insert_id.
  - cbn [init_pages]. rewrite (get_arena_bind a ar) by done. destruct (Hp k ltac:(lia)) as [Hk0 Hkn]. rewrite (u64_small (n - re)) by lia.
    unfold free_pages_of. rewrite seqZ_S. change (_ || _) with (in_use n rs re k). destruct (in_use n rs re k) eqn:Hu.
    + rewrite (upd_page_bind (page_at ar k) 0) by done. set (s1 := with_pages _ s).
      destruct (IH (k + 1) s1 ar q) as (s' & Hs' & E1 & E2 & E3 & E4 & E5 & E6 & E7); [done|done|done|lia| |].
      { intros j Hj. destruct (Hp j ltac:(lia)). split; [|done]. unfold s1. cbn. rewrite lookup_insert_ne; [done|]. intros ?%page_at_inj. lia. }
      exists s'. rewrite filter_cons_False by congruence. split_and!; [done|done|done|done| | |done|done].
      * intros j Hj. destruct (decide (j = k)) as [->|]; [|apply E4; lia]. rewrite E5 by (intros j' Hj' ?%page_at_inj; lia). unfold s1. cbn. rewrite lookup_insert_eq, Hu. done.
      * intros p Hpn. rewrite E5 by (intros j Hj; apply Hpn; lia). unfold s1. cbn. apply lookup_insert_ne. intros He. apply (Hpn k); [lia|done].
    + rewrite bind_assoc, (add_tail_bind (FreeList a) (page_at ar k) q) by done. rewrite (upd_arena_bind a ar) by done. rewrite u64_small by lia. set (ar1 := set_counts (free_count ar + 1) (reserved_count ar) ar). set (s1 := with_arenas _ _).
      destruct (IH (k + 1) s1 ar1 (q ++ [page_at ar k])) as (s' & Hs' & E1 & E2 & E3 & E4 & E5 & E6 & E7).
      * apply lookup_insert_eq.
      * apply lookup_insert_eq.
      * cbn. lia.
      * cbn. lia.
      * intros j Hj. destruct (Hp j ltac:(lia)) as [H1 H2]. split; [done|]. apply node_in_list_false. intros pl x. unfold s1. cbn.
        destruct (decide (pl = FreeList a)) as [->|]; [rewrite lookup_insert_eq; intros [= <-]|rewrite lookup_insert_ne by done; by apply node_in_list_false].
        rewrite elem_of_app, list_elem_of_singleton. intros [Hin|?%(page_at_inj ar)]; [|lia]. by apply (proj1 (node_in_list_false _ _) H2 (FreeList a) q).
      * exists s'. rewrite filter_cons_True by done. split_and!; [done|done| | | | |done|done].
        -- rewrite E2. unfold s1. cbn [arenas with_arenas]. rewrite insert_insert_eq. f_equal. unfold ar1, set_counts. cbn [free_count reserved_count length]. fold (free_pages_of n rs re (k + 1) m). f_equal. lia.
        -- rewrite E3. unfold s1. cbn [lists with_arenas with_lists]. rewrite insert_insert_eq, <- app_assoc. done.
        -- intros j Hj. destruct (decide (j = k)) as [->|]; [|apply E4; lia]. rewrite E5 by (intros j' Hj' ?%(page_at_inj ar); lia). unfold s1. cbn. by rewrite Hu.
        -- intros p Hpn. rewrite E5 by (intros j Hj; apply Hpn; lia). done.
Qed.

(** ** A new arena in a well-formed state *)
Definition separate s ar : Prop := forall b br p, b ∈ arena_list s -> arenas s !! b = Some br -> PAGE_BELONGS_TO_ARENA p br = true -> PAGE_BELONGS_TO_ARENA p ar = false.

Lemma belongs_inv ar p i : 0 <= i < page_count ar -> p = page_at ar i -> PAGE_BELONGS_TO_ARENA p ar = true.
Proof. intros Hi ->. unfold PAGE_BELONGS_TO_ARENA, page_at, sizeof_vm_page. lia. Qed.

Lemma free_pages_of_spec n rs re m i : i ∈ free_pages_of n rs re 0 m <-> 0 <= i < Z.of_nat m /\ in_use n rs re i = false.
Proof. unfold free_pages_of. rewrite list_elem_of_filter, elem_of_seqZ. rewrite Z.add_0_l. tauto. Qed.

(** [s'] is [s] with the arena. *)
Record arena_added a ar (rs re : Z) s s' : Prop := {
  ad_list : arena_list s' ≡ₚ a :: arena_list s;
  ad_arena : arenas s' !! a = Some ar;
  ad_others : forall b, b <> a -> arenas s' !! b = arenas s !! b;
  ad_lists : lists s' = <[FreeList a := page_at ar <$> free_pages_of (page_count ar) rs re 0 (Z.to_nat (page_count ar))]> (lists s);
  ad_pages : forall i, 0 <= i < page_count ar -> pages s' !! page_at ar i = Some (if in_use (page_count ar) rs re i then VM_PAGE_FLAG_NONFREE else 0);
  ad_rest : forall p, (forall i, 0 <= i < page_count ar -> p <> page_at ar i) -> pages s' !! p = pages s !! p;
  ad_counts : free_count ar = Z.of_nat (length (free_pages_of (page_count ar) rs re 0 (Z.to_nat (page_count ar)))) /\ reserved_count ar = 0;
  ad_locks : lock s' = lock s /\ aux_slock s' = aux_slock s
}.

Section added.
Context (a : Z) (ar : pmm_arena_t) (rs re : Z) (s s' : pmm) (Hw : pmm_wf s) (Hn : a ∉ arena_list s) (Hok : arena_ok ar) (Hsep : separate s ar) (Had : arena_added a ar rs re s s').
Let fr : list Z := free_pages_of (page_count ar) rs re 0 (Z.to_nat (page_count ar)).

Lemma added_in b : b ∈ arena_list s' <-> b = a \/ b ∈ arena_list s.
Proof. rewrite (ad_list _ _ _ _ _ _ Had). apply elem_of_cons. Qed.
Lemma added_page b br i p : is_page s' b br i p -> b = a /\ br = ar /\ 0 <= i < page_count ar /\ p = page_at ar i \/ is_page s b br i p /\ b <> a.
Proof.
  intros (Hb & Hbr & Hi & Hp). apply added_in in Hb as [->|Hb].
  - left. rewrite (ad_arena _ _ _ _ _ _ Had) in Hbr. injection Hbr as <-. done.
  - right. assert (b <> a) as Hne by congruence. split; [|done]. rewrite (ad_others _ _ _ _ _ _ Had b Hne) in Hbr. done.
Qed.
Lemma added_old b br i p : is_page s b br i p -> is_page s' b br i p /\ b <> a /\ pages s' !! p = pages s !! p.
Proof.
  intros Hpg. pose proof Hpg as (Hb & Hbr & Hi & Hp). assert (b <> a) as Hne by congruence. split_and!; [|done|].
  - split_and!; [by apply added_in; right|by rewrite (ad_others _ _ _ _ _ _ Had)|lia|lia|done].
  - apply (ad_rest _ _ _ _ _ _ Had). intros j Hj He. pose proof (Hsep b br p Hb Hbr (page_belongs _ _ _ _ _ Hpg)) as Hf. by rewrite (belongs_inv ar p j Hj He) in Hf.
Qed.
Lemma added_new i : 0 <= i < page_count ar -> is_page s' a ar i (page_at ar i).
Proof. intros Hi. split_and!; [by apply added_in; left|apply Had|lia|lia|done]. Qed.
Lemma added_list k : k <> FreeList a -> lists s' !! k = lists s !! k.
Proof. intros Hk. rewrite (ad_lists _ _ _ _ _ _ Had). by apply lookup_insert_ne. Qed.
Lemma added_own : lists s' !! FreeList a = Some (page_at ar <$> fr).
Proof. rewrite (ad_lists _ _ _ _ _ _ Had). apply lookup_insert_eq. Qed.
Lemma own_page p : p ∈ page_at ar <$> fr -> exists i, 0 <= i < page_count ar /\ p = page_at ar i /\ in_use (page_count ar) rs re i = false.
Proof. intros (i & -> & Hi)%list_elem_of_fmap. apply free_pages_of_spec in Hi. exists i. split_and!; [lia|lia|done|tauto]. Qed.
Lemma own_fresh k q p : lists s !! k = Some q -> p ∈ q -> p ∉ page_at ar <$> fr.
Proof.
  intros Hq Hin (i & Hi & -> & _)%own_page. destruct (pw_lists _ Hw _ _ _ Hq Hin) as (b & br & j & fl & Hpg & _).
  pose proof (Hsep b br _ (proj1 Hpg) (proj1 (proj2 Hpg)) (page_belongs _ _ _ _ _ Hpg)) as Hf. by rewrite (belongs_inv ar _ i Hi eq_refl) in Hf.
Qed.

Lemma arena_added_wf : pmm_wf s'.
Proof.
  constructor.
  - rewrite (ad_list _ _ _ _ _ _ Had). apply NoDup_cons. split; [done|apply Hw].
  - intros b [->|Hb]%added_in.
    + exists ar, (page_at ar <$> fr). split_and!; [apply Had|done|apply added_own|]. rewrite length_fmap. apply Had.
    + destruct (pw_arena _ Hw b Hb) as (br & q & Hbr & Hx & Hq & Hc). assert (b <> a) as Hne by congruence. exists br, q. split_and!; [by rewrite (ad_others _ _ _ _ _ _ Had)|done|rewrite added_list by congruence; done|done].
  - intros b br i p [(-> & -> & Hi & ->)|[Hpg Hne]]%added_page.
    + rewrite (ad_pages _ _ _ _ _ _ Had i Hi). eexists. split; [done|]. destruct (in_use (page_count ar) rs re i) eqn:Hu; [done|]. intros _. split; [done|].
      exists (page_at ar <$> fr). split; [apply added_own|]. apply list_elem_of_fmap_2. apply free_pages_of_spec. split; [lia|done].
    + destruct (added_old _ _ _ _ Hpg) as (_ & _ & ->). rewrite added_list by congruence. by apply (pw_page _ Hw b br i p).
  - intros b c br cr p Hb Hc Hbr Hcr Hpb Hpc.
    assert (forall x xr, x ∈ arena_list s' -> arenas s' !! x = Some xr -> x = a /\ xr = ar \/ x ∈ arena_list s /\ arenas s !! x = Some xr /\ x <> a) as Hcase.
    { intros x xr [->|Hx]%added_in Hxr; [left; rewrite (ad_arena _ _ _ _ _ _ Had) in Hxr; by injection Hxr as <-|right]. assert (x <> a) as Hne by congruence. rewrite (ad_others _ _ _ _ _ _ Had x Hne) in Hxr. done. }
    destruct (Hcase b br Hb Hbr) as [[-> ->]|(Hb' & Hbr' & _)], (Hcase c cr Hc Hcr) as [[-> ->]|(Hc' & Hcr' & _)]; [done| | |by apply (pw_disjoint _ Hw b c br cr p)].
    + by rewrite (Hsep c cr p Hc' Hcr' Hpc) in Hpb.
    + by rewrite (Hsep b br p Hb' Hbr' Hpb) in Hpc.
  - intros k q p Hq Hin. destruct (decide (k = FreeList a)) as [->|Hk].
    + rewrite added_own in Hq. injection Hq as <-. destruct (own_page p Hin) as (i & Hi & -> & Hu). exists a, ar, i, 0. split_and!; [by apply added_new| |done|done]. by rewrite (ad_pages _ _ _ _ _ _ Had i Hi), Hu.
    + rewrite added_list in Hq by done. destruct (pw_lists _ Hw _ _ _ Hq Hin) as (b & br & i & fl & Hpg & Hfl & Hm). destruct (added_old _ _ _ _ Hpg) as (Hpg' & _ & He). exists b, br, i, fl. by rewrite He.
  - intros k q Hq. destruct (decide (k = FreeList a)) as [->|Hk]; [|rewrite added_list in Hq by done; by apply (pw_nodup _ Hw k)].
    rewrite added_own in Hq. injection Hq as <-. apply NoDup_fmap_2; [intros i j; apply page_at_inj|]. apply NoDup_filter, NoDup_seqZ.
  - intros k k' q q' p Hq Hq' Hin Hin'. destruct (decide (k = FreeList a)) as [->|Hk], (decide (k' = FreeList a)) as [->|Hk']; [done| | |].
    + rewrite added_own in Hq. injection Hq as <-. rewrite added_list in Hq' by done. by destruct (own_fresh k' q' p Hq' Hin').
    + rewrite added_own in Hq'. injection Hq' as <-. rewrite added_list in Hq by done. by destruct (own_fresh k q p Hq Hin).
    + rewrite added_list in Hq by done. rewrite added_list in Hq' by done. by apply (pw_unique _ Hw k k' q q' p).
Qed.
End added.
End init.
