(* ===== verification/PmmArena.v ===== *)
(** * pmm_add_arena and pmm_add_arena_late_etc *)
From stdpp Require Import base gmap list sorting.
From Stdlib Require Import ZArith Lia.
From S2P Require Import Prelude Pmm PmmInv PmmGrab PmmAlloc PmmRun PmmPages PmmInit.

Local Open Scope Z_scope.
Local Open Scope lk_scope.

Section arena.
Context `{!PmmConfig} `{!PmmLaws}.
Implicit Types (s : pmm) (a p i : Z) (ar : pmm_arena_t) (pl : page_list) (l q ps : list Z).

(** ** The list of arenas *)
Definition arena_prio s a : Z := match arenas s !! a with Some ar => priority ar | None => 0 end.
Definition before s a b : Prop := arena_prio s a <= arena_prio s b.
Definition in_order s : Prop := StronglySorted (before s) (arena_list s).

Lemma insert_by_priority_run prio a s l : (forall b, b ∈ l -> is_Some (arenas s !! b)) ->
  exists l1 l2, l = l1 ++ l2 /\ (forall x, arenas x = arenas s -> insert_by_priority prio a l x = Some (l1 ++ a :: l2, x)) /\
    (forall b, b ∈ l1 -> arena_prio s b <= prio) /\ match l2 with b :: _ => prio < arena_prio s b | [] => True end.
Proof.
  induction l as [|b l IH]; intros Hl; [exists [], []; split_and!; [done|done|by intros b ?%elem_of_nil|done]|].
  destruct (Hl b ltac:(left)) as [br Hbr].
  assert (forall x, arenas x = arenas s -> insert_by_priority prio a (b :: l) x = (if priority br >? prio then ret (a :: b :: l) else r <- insert_by_priority prio a l ;; ret (b :: r)) x) as Hstep.
  { intros x Hx. cbn [insert_by_priority]. by rewrite (get_arena_bind b br) by (by rewrite Hx). }
  rewrite Z.gtb_ltb in Hstep. destruct (Z.ltb_spec prio (priority br)) as [Hlt|Hge].
  - exists [], (b :: l). split_and!; [done|exact Hstep|by intros x ?%elem_of_nil|]. unfold arena_prio. by rewrite Hbr.
  - destruct IH as (l1 & l2 & -> & Hr & H1 & H2); [intros x Hx; apply Hl; by right|]. exists (b :: l1), l2. split_and!; [done|intros x Hx; rewrite Hstep, (bind_eq _ _ _ _ _ (Hr x Hx)) by done; done| |done].
    intros x [->|Hx]%elem_of_cons; [unfold arena_prio; by rewrite Hbr|by apply H1].
Qed.

Lemma sorted_insert (R : Z -> Z -> Prop) `{!Transitive R} l1 l2 a : StronglySorted R (l1 ++ l2) -> (forall b, b ∈ l1 -> R b a) -> match l2 with b :: _ => R a b | [] => True end -> StronglySorted R (l1 ++ a :: l2).
Proof.
  intros Hs H1 H2. induction l1 as [|b l1 IH]; cbn in *.
  - constructor; [done|]. destruct l2 as [|b l2]; [constructor|]. apply StronglySorted_inv in Hs as [_ Hf]. constructor; [done|]. eapply Forall_impl; [exact Hf|]. cbn. intros x Hx. by transitivity b.
  - apply StronglySorted_inv in Hs as [Hs Hf]. constructor; [apply IH; [done|intros x Hx; apply H1; by right]|]. apply Forall_app in Hf as [Hf1 Hf2]. apply Forall_app. split; [done|]. constructor; [apply H1; by left|done].
Qed.

Lemma insert_arena_run a ar s : (forall b, b ∈ arena_list s -> is_Some (arenas s !! b)) -> arenas s !! a = Some ar ->
  exists l, (forall x, arena_list x = arena_list s -> arenas x = arenas s -> insert_arena a x = Some (tt, with_arena_list (fun _ => l) x)) /\ l ≡ₚ a :: arena_list s /\ (in_order s -> StronglySorted (before s) l).
Proof.
  intros Hl Ha. destruct (insert_by_priority_run (priority ar) a s (arena_list s) Hl) as (l1 & l2 & He & Hr & H1 & H2). exists (l1 ++ a :: l2). split_and!.
  - intros x Hx1 Hx2. unfold insert_arena. rewrite (get_arena_bind a ar), gets_bind by (by rewrite Hx2). by rewrite Hx1, (bind_eq _ _ _ _ _ (Hr x Hx2)).
  - rewrite He. by rewrite <- Permutation_middle.
  - unfold in_order. rewrite He. intros Hs. assert (arena_prio s a = priority ar) as Hp by (unfold arena_prio; by rewrite Ha). apply sorted_insert; [|done| |].
    + intros x y z. unfold before. lia.
    + intros b Hb. unfold before. rewrite Hp. by apply H1.
    + destruct l2 as [|b l2]; [done|]. unfold before. rewrite Hp. lia.
Qed.

(** ** The pages of the arena and its place in the list *)

(** [s1] is [s] with the arena described, but without pages. *)
Record prepared a ar s s1 : Prop := {
  pp_list : arena_list s1 = arena_list s;
  pp_arena : arenas s1 !! a = Some ar;
  pp_others : forall b, b <> a -> arenas s1 !! b = arenas s !! b;
  pp_lists : lists s1 = <[FreeList a := []]> (lists s);
  pp_rest : pages s1 = pages s /\ lock s1 = lock s /\ aux_slock s1 = aux_slock s
}.
Definition stocked_arena (n rs re : Z) ar : pmm_arena_t := set_counts (Z.of_nat (length (free_pages_of n rs re 0 (Z.to_nat n)))) 0 ar.

Lemma init_page_array_run a ar rs re s s1 : pmm_wf s -> prepared a ar s s1 -> separate s ar -> free_count ar = 0 -> reserved_count ar = 0 ->
  0 <= page_count ar < 2 ^ 32 -> rs < page_count ar -> 0 <= re <= page_count ar ->
  exists s2, init_page_array a (page_count ar) rs re s1 = Some (tt, s2) /\ arena_list s2 = arena_list s /\ lock s2 = lock s /\ aux_slock s2 = aux_slock s /\
    forall l, l ≡ₚ a :: arena_list s -> arena_added a (stocked_arena (page_count ar) rs re ar) rs re s (with_arena_list (fun _ => l) s2).
Proof.
  intros Hw [P1 P2 P3 P4 (P5 & P6 & P7)] Hsep Hf Hr Hn Hrs Hre. set (n := page_count ar) in *. unfold init_page_array.
  rewrite !assert_bind by lia. rewrite (get_arena_bind a ar) by done. rewrite modify_bind. set (s1z := with_pages _ s1).
  assert (forall j, 0 <= j < n -> node_in_list (page_at ar j) (lists s1z) = false) as Hnl.
  { intros j Hj. apply node_in_list_false. intros k q. change (lists s1z) with (lists s1). rewrite P4. destruct (decide (k = FreeList a)) as [->|Hk]; [rewrite lookup_insert_eq; intros [= <-]; apply not_elem_of_nil|].
    rewrite lookup_insert_ne by done. intros Hq Hin. destruct (pw_lists _ Hw _ _ _ Hq Hin) as (b & br & i & fl & Hpg & _).
    pose proof (Hsep b br _ (proj1 Hpg) (proj1 (proj2 Hpg)) (page_belongs _ _ _ _ _ Hpg)) as Hs. by rewrite (belongs_inv ar _ j Hj eq_refl) in Hs. }
  destruct (init_pages_run n rs re a ltac:(lia) Hre (Z.to_nat n) 0 s1z ar []) as (s2 & Hs2 & E1 & E2 & E3 & E4 & E5 & E6 & E7).
  - done.
  - change (lists s1z) with (lists s1). rewrite P4. apply lookup_insert_eq.
  - lia.
  - lia.
  - intros j Hj. split; [|apply Hnl; lia]. unfold s1z. cbn. apply zero_pages_in. lia.
  - exists s2. split; [done|]. split_and!; [by rewrite E1|by rewrite E6|by rewrite E7|]. rewrite Z2Nat.id, Z.add_0_l in E4, E5 by lia. intros l Hl. constructor.
    + exact Hl.
    + cbn. rewrite E2, lookup_insert_eq, Hf, Hr. done.
    + intros b Hb. cbn. rewrite E2, lookup_insert_ne by done. by apply P3.
    + cbn. rewrite E3. change (lists s1z) with (lists s1). rewrite P4, insert_insert_eq. done.
    + intros i Hi. cbn. apply (E4 i Hi).
    + intros p Hp. cbn. rewrite E5 by exact Hp. unfold s1z. cbn. rewrite zero_pages_out by (intros k Hk; apply Hp; change (0 <= k < n); lia). by rewrite P5.
    + done.
    + cbn. split; [by rewrite E6|by rewrite E7].
Qed.

Lemma added_order a ar rs re s s2 l : arena_added a ar rs re s (with_arena_list (fun _ => l) s2) -> arena_list s2 = arena_list s -> a ∉ arena_list s ->
  in_order s -> (in_order s2 -> StronglySorted (before s2) l) -> in_order (with_arena_list (fun _ => l) s2).
Proof.
  intros Had Hl Hn Ho Hs. apply Hs. unfold in_order in *. rewrite Hl. assert (forall b, b ∈ arena_list s -> arena_prio s2 b = arena_prio s b) as He.
  { intros b Hb. unfold arena_prio. by rewrite <- (ad_others _ _ _ _ _ _ Had b) by congruence. }
  clear -Ho He. induction Ho as [|b l' Hl IH Hf]; [constructor|]. constructor; [apply IH; intros x Hx; apply He; by right|].
  apply Forall_forall. intros x Hx. rewrite Forall_forall in Hf. unfold before. rewrite !He by (try left; by right). by apply Hf.
Qed.

(** ** The operations *)

(** What the caller promises about the arena: aligned memory of the address space. *)
Record described ar : Prop := {
  de_base : 0 <= base ar /\ is_page_aligned (base ar) = true;
  de_size : 0 < size ar /\ is_page_aligned (size ar) = true /\ base ar + size ar <= 2 ^ 64;
  de_count : page_count ar < 2 ^ 32
}.

Lemma described_count ar : described ar -> PAGE_SIZE <= size ar /\ 0 < page_count ar.
Proof.
  intros [_ (D1 & D2 & _) _]. pose proof page_size_pos as Hps. unfold is_page_aligned in D2. apply Z.eqb_eq in D2.
  assert (size ar mod PAGE_SIZE = 0) as Hm.
  { rewrite page_size_pow in *. replace (2 ^ PAGE_SIZE_SHIFT - 1) with (Z.ones PAGE_SIZE_SHIFT) in D2 by (rewrite Z.ones_equiv; lia). destruct page_shift_range. rewrite Z.land_ones in D2 by lia. done. }
  assert (PAGE_SIZE <= size ar) as Hle by (destruct (Z.lt_ge_cases (size ar) PAGE_SIZE) as [Hlt|]; [rewrite Z.mod_small in Hm by lia; lia|done]).
  split; [done|]. unfold page_count. apply Z.div_str_pos. lia.
Qed.

Definition kernel_mapped s ar va : Prop := if has_flag PMM_ARENA_FLAG_KMAP (ar_flags ar) then kvaddr_is s (base ar) va /\ va <> 0 else va = 0.
(** The arena with its address in the kernel and its array of pages. *)
Definition placed (va mem : Z) ar : pmm_arena_t := mk_arena (ar_flags ar) (priority ar) (base ar) va (size ar) 0 0 mem.

Lemma stocked_ok n rs re ar : described ar -> arena_ok (stocked_arena n rs re ar).
Proof.
  intros Hd. pose proof (described_count ar Hd) as [Hs _]. destruct Hd as [[D1 D2] (D3 & D4 & D5) D6]. constructor; cbn; [|split; [done|lia]| |done|lia].
  - split; [done|]. by apply Z.eqb_eq.
  - by apply Z.eqb_eq.
Qed.

Lemma add_start_run {A} a ar s (k : unit -> M pmm A) : described ar -> arenas s !! a = Some ar ->
  bind (assert_ (is_page_aligned (base ar))) (fun _ => bind (assert_ (is_page_aligned (size ar))) (fun _ => bind (assert_ (size ar >? 0)) (fun _ =>
    bind (upd_arena a (set_counts 0 0)) (fun _ => bind (list_initialize (FreeList a)) k)))) s =
  k tt (with_lists <[FreeList a := []]> (with_arenas <[a := set_counts 0 0 ar]> s)).
Proof. intros [[_ D1] (D2 & D3 & _) _] Ha. rewrite !assert_bind by (done || lia). by rewrite (upd_arena_bind a ar). Qed.

Lemma filter_all (P : Z -> Prop) `{forall x, Decision (P x)} l : (forall x, x ∈ l -> P x) -> filter P l = l.
Proof. induction l as [|x l IH]; intros Hp; [done|]. rewrite filter_cons_True by (apply Hp; left). rewrite IH; [done|]. intros y Hy. apply Hp. by right. Qed.
Lemma filter_no (P : Z -> Prop) `{forall x, Decision (P x)} l : (forall x, x ∈ l -> ~ P x) -> filter P l = [].
Proof. induction l as [|x l IH]; intros Hp; [done|]. rewrite filter_cons_False by (apply Hp; left). apply IH. intros y Hy. apply Hp. by right. Qed.
(** The pages that are free at first. *)
Lemma free_pages_range n rs re : 0 <= rs -> 0 <= re -> rs + re <= n -> free_pages_of n rs re 0 (Z.to_nat n) = seqZ rs (n - rs - re).
Proof.
  intros H1 H2 H3. unfold free_pages_of. rewrite Z2Nat.id by lia. assert (seqZ 0 n = seqZ 0 rs ++ seqZ rs (n - rs - re) ++ seqZ (n - re) re) as ->.
  { replace n with (rs + ((n - rs - re) + re)) at 1 by lia. rewrite !seqZ_app by lia. do 3 f_equal. lia. }
  rewrite !filter_app.
  rewrite (filter_no _ (seqZ 0 rs)), (filter_all _ (seqZ _ (n - rs - re))), (filter_no _ (seqZ _ re)), app_nil_r; [done|..]; intros x Hx%elem_of_seqZ; unfold in_use; lia.
Qed.

Lemma pmm_add_arena_run a ar mem va s : pmm_wf s -> in_order s -> aux_slock s = false -> a ∉ arena_list s -> arenas s !! a = Some ar -> described ar -> kernel_mapped s ar va -> separate s (placed va mem ar) ->
  exists s', pmm_add_arena a mem s = Some (NO_ERROR, s') /\ pmm_wf s' /\ in_order s' /\ arena_added a (set_counts (page_count ar) 0 (placed va mem ar)) 0 0 s s'.
Proof.
  intros Hw Ho Hlk Hn Ha Hd Hk Hsep. unfold pmm_add_arena. rewrite (get_arena_bind a ar) by done. rewrite (add_start_run a ar) by done.
  set (s1 := with_lists _ _). set (s2 := with_arenas <[a := placed va mem ar]> s1).
  assert (arenas s1 !! a = Some (set_counts 0 0 ar)) as Ha1 by apply lookup_insert_eq.
  assert (prepared a (placed va mem ar) s s2) as Hp.
  { constructor; try done; cbn; [apply lookup_insert_eq|]. intros b Hb. by rewrite !lookup_insert_ne. }
  assert (forall A (k : M pmm A), ((if has_flag PMM_ARENA_FLAG_KMAP (ar_flags ar) then va <- paddr_to_kvaddr (base ar) ;; upd_arena a (set_kvaddr va) ;; assert_ (negb (va =? 0)) else upd_arena a (set_kvaddr 0)) ;;
    upd_arena a (set_page_array mem) ;; k) s1 = k s2) as Hmid.
  { intros A k. assert (forall v, with_arenas <[a := set_page_array mem (set_kvaddr v (set_counts 0 0 ar))]> (with_arenas <[a := set_kvaddr v (set_counts 0 0 ar)]> s1) = with_arenas <[a := placed v mem ar]> s1) as Hs.
    { intros v. unfold with_arenas. cbn. by rewrite insert_insert_eq. }
    unfold kernel_mapped in Hk. destruct (has_flag PMM_ARENA_FLAG_KMAP (ar_flags ar)).
    - destruct Hk as [Hk Hv]. rewrite bind_assoc. rewrite (bind_eq _ _ s1 va s1).
      2: { apply (kvaddr_is_ext s s1); try done; [by apply wf_arenas|]. intros b Hb. cbn. apply lookup_insert_ne. congruence. }
      rewrite bind_assoc, (upd_arena_bind a (set_counts 0 0 ar)) by done. rewrite assert_bind by (by apply negb_true_iff, Z.eqb_neq).
      rewrite (upd_arena_bind a (set_kvaddr va (set_counts 0 0 ar))) by (cbn; apply lookup_insert_eq). by rewrite Hs.
    - subst va. rewrite (upd_arena_bind a (set_counts 0 0 ar)) by done. rewrite (upd_arena_bind a (set_kvaddr 0 (set_counts 0 0 ar))) by (cbn; apply lookup_insert_eq). by rewrite Hs. }
  rewrite Hmid. pose proof (described_count ar Hd) as [_ Hc]. pose proof (de_count _ Hd) as Hc'.
  destruct (init_page_array_run a (placed va mem ar) 0 0 s s2 Hw Hp Hsep) as (s3 & Hs3 & I1 & I2 & I3 & I4); [done|done|change (page_count (placed va mem ar)) with (page_count ar); lia..|].
  change (page_count (placed va mem ar)) with (page_count ar) in Hs3, I4. rewrite (bind_eq _ _ _ _ _ Hs3).
  assert (stocked_arena (page_count ar) 0 0 (placed va mem ar) = set_counts (page_count ar) 0 (placed va mem ar)) as Hst.
  { unfold stocked_arena. f_equal. rewrite free_pages_range by lia. rewrite length_seqZ. lia. }
  rewrite Hst in I4. set (ar' := set_counts (page_count ar) 0 (placed va mem ar)) in *. pose proof (I4 (a :: arena_list s) ltac:(done)) as Had0.
  destruct (insert_arena_run a ar' s3) as (l & Hl & Hperm & Hsort).
  - rewrite I1. intros b Hb. pose proof (ad_others _ _ _ _ _ _ Had0 b ltac:(congruence)) as Hbo. cbn in Hbo. rewrite Hbo. apply (arena_some s b (wf_arenas _ Hw) Hb).
  - apply (ad_arena _ _ _ _ _ _ Had0).
  - rewrite I1 in Hperm. pose proof (I4 l Hperm) as Had. exists (with_arena_list (fun _ => l) s3). rewrite (bind_eq _ _ _ _ _ (Hl s3 eq_refl eq_refl)). split_and!; [done| | |done].
    + apply (arena_added_wf a ar' 0 0 s _ Hw Hn); [|exact Hsep|exact Had]. rewrite <- Hst. exact (stocked_ok (page_count ar) 0 0 (placed va mem ar) (Build_described (placed va mem ar) (de_base _ Hd) (de_size _ Hd) (de_count _ Hd))).
    + exact (added_order a ar' 0 0 s s3 l Had I1 Hn Ho Hsort).
Qed.

(** *** After start-up *)
Definition late_mapped s ar (mapped : Z + Z) va flags : Prop :=
  if has_flag PMM_ARENA_FLAG_KMAP (ar_flags ar) then kvaddr_is s (base ar) va /\ va <> 0 /\ flags = ar_flags ar
  else mapped = inr va /\ flags = Z.lor (ar_flags ar) PMM_ARENA_FLAG_KMAP.
Definition pages_for (n : Z) : Z := round_up n PAGE_SIZE / PAGE_SIZE.

Lemma pages_for_spec n : 0 <= n -> n + PAGE_SIZE - 1 < 2 ^ 64 -> round_up n PAGE_SIZE = pages_for n * PAGE_SIZE /\ n <= pages_for n * PAGE_SIZE < n + PAGE_SIZE /\ 0 <= pages_for n.
Proof.
  intros Hn Hb. pose proof page_size_pos as Hps. unfold pages_for. rewrite page_size_pow in *. destruct page_shift_range as [Q1 Q2]. assert (0 <= PAGE_SIZE_SHIFT) as Q3 by lia. destruct (round_up_spec n PAGE_SIZE_SHIFT Q3 Hn Hb) as [R1 R2].
  assert (round_up n (2 ^ PAGE_SIZE_SHIFT) = round_up n (2 ^ PAGE_SIZE_SHIFT) / 2 ^ PAGE_SIZE_SHIFT * 2 ^ PAGE_SIZE_SHIFT) as He.
  { rewrite (Z.div_mod (round_up n (2 ^ PAGE_SIZE_SHIFT)) (2 ^ PAGE_SIZE_SHIFT)) at 1 by lia. rewrite R2. lia. }
  split_and!; [done|lia|lia|]. apply Z.div_pos; lia.
Qed.

(** The sizes do not wrap. *)
Record late_ok ar (rs re : Z) : Prop := {
  lo_start : 0 <= rs;
  lo_end : 0 <= re;
  lo_sum : rs + page_count ar * sizeof_vm_page + re + 2 * PAGE_SIZE < 2 ^ 64
}.
(** The pages set aside at the start. *)
Definition at_start ar rs : Z := pages_for (rs + page_count ar * sizeof_vm_page).

Lemma late_test ar rs re : described ar -> late_ok ar rs re ->
  u64 (rs + page_count ar * sizeof_vm_page) = rs + page_count ar * sizeof_vm_page /\
  (u64 (round_up (u64 (rs + page_count ar * sizeof_vm_page)) PAGE_SIZE + round_up re PAGE_SIZE) >? size ar) = negb (at_start ar rs + pages_for re <=? page_count ar) /\
  0 <= at_start ar rs /\ 0 <= pages_for re.
Proof.
  intros Hd [L1 L2 L3]. pose proof (described_count ar Hd) as [Hs Hc]. pose proof page_size_pos as Hps. set (x := rs + page_count ar * sizeof_vm_page) in *.
  assert (0 <= x) as Hx by (unfold x, sizeof_vm_page; lia). assert (x + PAGE_SIZE - 1 < 2 ^ 64) as Hx1 by lia. assert (re + PAGE_SIZE - 1 < 2 ^ 64) as Hx2 by lia.
  rewrite !(u64_small x) by lia. destruct (pages_for_spec x Hx Hx1) as (P1 & P2 & P3), (pages_for_spec re L2 Hx2) as (P4 & P5 & P6). split_and!; [done| |done|done].
  rewrite P1, P4, <- Z.mul_add_distr_r. unfold at_start. fold x. set (k := pages_for x + pages_for re) in *.
  assert (0 <= k * PAGE_SIZE < 2 ^ 64) as Hk by (unfold k; rewrite Z.mul_add_distr_r; lia). rewrite u64_small by done.
  rewrite Z.gtb_ltb, Z.ltb_antisym. f_equal. assert (k * PAGE_SIZE <= size ar <-> k <= page_count ar) as Hiff.
  { unfold page_count. split; [intros Hle; apply Z.div_le_lower_bound; lia|]. intros Hle. transitivity (size ar / PAGE_SIZE * PAGE_SIZE); [by apply Z.mul_le_mono_nonneg_r; lia|].
    pose proof (Z.mul_div_le (size ar) PAGE_SIZE). lia. }
  destruct (Z.leb_spec (k * PAGE_SIZE) (size ar)), (Z.leb_spec k (page_count ar)); tauto || lia.
Qed.

(** What is left of the arguments that are refused. *)
Definition refused a ar s : pmm := with_lists <[FreeList a := []]> (with_arenas <[a := set_counts 0 0 ar]> s).

Lemma late_refused_run a ar rs re mapped s : arenas s !! a = Some ar -> described ar -> late_ok ar rs re -> page_count ar < at_start ar rs + pages_for re ->
  pmm_add_arena_late_etc a rs re mapped s = Some (ERR_INVALID_ARGS, refused a ar s).
Proof.
  intros Ha Hd Hl Hn. destruct (late_test ar rs re Hd Hl) as (_ & Ht & _). unfold pmm_add_arena_late_etc. rewrite (get_arena_bind a ar) by done. rewrite (add_start_run a ar) by done.
  cbv zeta. rewrite Ht. by rewrite (proj2 (Z.leb_gt _ _) Hn).
Qed.

Lemma late_start_run a ar rs re mapped va flags s : pmm_wf s -> aux_slock s = false -> a ∉ arena_list s -> arenas s !! a = Some ar -> described ar -> late_ok ar rs re ->
  late_mapped s ar mapped va flags -> at_start ar rs + pages_for re <= page_count ar ->
  exists s2, prepared a (mk_arena flags (priority ar) (base ar) va (size ar) 0 0 (u64 (va + rs))) s s2 /\
    pmm_add_arena_late_etc a rs re mapped s =
    (init_page_array a (page_count ar) (at_start ar rs) (pages_for re) ;; mutex_acquire ;; spin_lock ;; insert_arena a ;; spin_unlock ;; mutex_release ;; ret NO_ERROR) s2.
Proof.
  intros Hw Hlk Hn Ha Hd Hl Hm Hfit. destruct (late_test ar rs re Hd Hl) as (Hu & Ht & _). unfold pmm_add_arena_late_etc. rewrite (get_arena_bind a ar) by done. rewrite (add_start_run a ar) by done.
  fold (refused a ar s). set (s1 := refused a ar s). set (arf := mk_arena flags (priority ar) (base ar) va (size ar) 0 0 (u64 (va + rs))). exists (with_arenas <[a := arf]> s1). split.
  { constructor; try done; cbn; [apply lookup_insert_eq|]. intros b Hb. by rewrite !lookup_insert_ne. }
  cbv zeta. rewrite Ht, (proj2 (Z.leb_le _ _) Hfit). cbn [negb]. rewrite Hu. fold (at_start ar rs) (pages_for re).
  change (round_up (rs + page_count ar * sizeof_vm_page) PAGE_SIZE / PAGE_SIZE) with (at_start ar rs). change (round_up re PAGE_SIZE / PAGE_SIZE) with (pages_for re).
  assert (arenas s1 !! a = Some (set_counts 0 0 ar)) as Ha1 by apply lookup_insert_eq. unfold late_mapped in Hm. destruct (has_flag PMM_ARENA_FLAG_KMAP (ar_flags ar)).
  - destruct Hm as (Hk & Hv & ->). rewrite bind_assoc. rewrite (bind_eq _ _ s1 va s1).
    2: { apply (kvaddr_is_ext s s1); try done; [by apply wf_arenas|]. intros b Hb. cbn. apply lookup_insert_ne. congruence. }
    rewrite ret_bind, (proj2 (Z.eqb_neq va 0) Hv). rewrite (upd_arena_bind a (set_counts 0 0 ar)) by done. rewrite (upd_arena_bind a (set_kvaddr va (set_counts 0 0 ar))) by (cbn; apply lookup_insert_eq).
    unfold with_arenas at 1 2. cbn. rewrite insert_insert_eq. done.
  - destruct Hm as (-> & ->). rewrite bind_assoc, (upd_arena_bind a (set_counts 0 0 ar)) by done. rewrite ret_bind.
    rewrite (upd_arena_bind a (set_ar_flags (Z.lor (ar_flags ar) PMM_ARENA_FLAG_KMAP) (set_counts 0 0 ar))) by (cbn; apply lookup_insert_eq).
    rewrite (upd_arena_bind a (set_kvaddr va (set_ar_flags (Z.lor (ar_flags ar) PMM_ARENA_FLAG_KMAP) (set_counts 0 0 ar)))) by (cbn; apply lookup_insert_eq).
    unfold with_arenas. cbn. by rewrite !insert_insert_eq.
Qed.

Lemma insert_locked_run a s l : lock s = false -> aux_slock s = false -> (forall x, arena_list x = arena_list s -> arenas x = arenas s -> insert_arena a x = Some (tt, with_arena_list (fun _ => l) x)) ->
  (mutex_acquire ;; spin_lock ;; insert_arena a ;; spin_unlock ;; mutex_release ;; ret NO_ERROR) s = Some (NO_ERROR, with_arena_list (fun _ => l) s).
Proof.
  intros Hk Hak Hi. unfold mutex_acquire, spin_lock, spin_unlock, mutex_release.
  rewrite bind_assoc, gets_bind, bind_assoc, assert_bind by (by rewrite Hk). rewrite modify_bind.
  rewrite bind_assoc, gets_bind, bind_assoc, assert_bind by (cbn; by rewrite Hak). rewrite modify_bind.
  rewrite (bind_eq _ _ _ _ _ (Hi (with_aux_slock true (with_lock true s)) eq_refl eq_refl)), !modify_bind. unfold ret. do 2 f_equal.
  destruct s; cbn in *; subst; done.
Qed.

Lemma pmm_add_arena_late_run a ar rs re mapped va flags s : pmm_wf s -> in_order s -> lock s = false -> aux_slock s = false -> a ∉ arena_list s -> arenas s !! a = Some ar -> described ar -> late_ok ar rs re ->
  late_mapped s ar mapped va flags -> at_start ar rs + pages_for re <= page_count ar -> at_start ar rs < page_count ar ->
  let ar' := mk_arena flags (priority ar) (base ar) va (size ar) (page_count ar - at_start ar rs - pages_for re) 0 (u64 (va + rs)) in
  separate s ar' ->
  exists s', pmm_add_arena_late_etc a rs re mapped s = Some (NO_ERROR, s') /\ pmm_wf s' /\ in_order s' /\ arena_added a ar' (at_start ar rs) (pages_for re) s s'.
Proof.
  intros Hw Ho Hk Hak Hn Ha Hd Hl Hm Hfit Hlt ar' Hsep. destruct (late_start_run a ar rs re mapped va flags s Hw Hak Hn Ha Hd Hl Hm Hfit) as (s2 & Hp & ->).
  destruct (late_test ar rs re Hd Hl) as (_ & _ & Q1 & Q2). pose proof (de_count _ Hd) as Hc'. set (ar0 := mk_arena _ _ _ _ _ 0 0 _) in *.
  assert (forall x, separate s x -> page_array x = page_array ar0 -> size x = size ar0 -> separate s ar0) as Hse.
  { intros x Hx E1 E2 b br p Hb Hbr Hbel. rewrite <- (Hx b br p Hb Hbr Hbel). unfold PAGE_BELONGS_TO_ARENA, page_count. by rewrite E1, E2. }
  destruct (init_page_array_run a ar0 (at_start ar rs) (pages_for re) s s2 Hw Hp (Hse ar' Hsep eq_refl eq_refl)) as (s3 & Hs3 & I1 & I2 & I3 & I4);
    [done|done|change (page_count ar0) with (page_count ar); lia..|]. change (page_count ar0) with (page_count ar) in Hs3, I4. rewrite (bind_eq _ _ _ _ _ Hs3).
  assert (stocked_arena (page_count ar) (at_start ar rs) (pages_for re) ar0 = ar') as Hst.
  { unfold stocked_arena. rewrite free_pages_range by lia. rewrite length_seqZ, Z2Nat.id by lia. done. }
  rewrite Hst in I4. pose proof (I4 (a :: arena_list s) ltac:(done)) as Had0.
  assert (forall b, b ∈ arena_list s3 -> is_Some (arenas s3 !! b)) as Hsome.
  { rewrite I1. intros b Hb. pose proof (ad_others _ _ _ _ _ _ Had0 b ltac:(congruence)) as Hbo. cbn in Hbo. rewrite Hbo. apply (arena_some s b (wf_arenas _ Hw) Hb). }
  destruct (insert_arena_run a ar' s3 Hsome (ad_arena _ _ _ _ _ _ Had0)) as (l & Hi & Hperm & Hsort). rewrite I1 in Hperm. pose proof (I4 l Hperm) as Had.
  rewrite (insert_locked_run a s3 l); [|by rewrite I2|by rewrite I3|].
  - exists (with_arena_list (fun _ => l) s3). split_and!; [done| | |done].
    + apply (arena_added_wf a ar' (at_start ar rs) (pages_for re) s _ Hw Hn); [|exact Hsep|exact Had]. rewrite <- Hst. exact (stocked_ok _ _ _ ar0 (Build_described ar0 (de_base _ Hd) (de_size _ Hd) (de_count _ Hd))).
    + exact (added_order a ar' _ _ s s3 l Had I1 Hn Ho Hsort).
  - exact Hi.
Qed.

(** An arena that its own page structs fill passes the test for space, and the
    initialisation of the array refuses it with an assertion. *)
Lemma late_full_run a ar rs re mapped va flags s : pmm_wf s -> aux_slock s = false -> a ∉ arena_list s -> arenas s !! a = Some ar -> described ar -> late_ok ar rs re ->
  late_mapped s ar mapped va flags -> at_start ar rs + pages_for re <= page_count ar -> page_count ar <= at_start ar rs -> pmm_add_arena_late_etc a rs re mapped s = None.
Proof.
  intros Hw Hak Hn Ha Hd Hl Hm Hfit Hge. destruct (late_start_run a ar rs re mapped va flags s Hw Hak Hn Ha Hd Hl Hm Hfit) as (s2 & _ & ->).
  unfold init_page_array. rewrite bind_assoc. by rewrite (proj2 (Z.ltb_ge _ _) Hge).
Qed.
End arena.
