(* ===== verification/PmmOutcome.v ===== *)
(** * The outcomes of an allocation *)
From stdpp Require Import base gmap list.
From Stdlib Require Import ZArith Lia.
From S2P Require Import Prelude Pmm PmmInv PmmGrab PmmAlloc PmmRun PmmFree PmmPages PmmReserve.

Local Open Scope Z_scope.
Local Open Scope lk_scope.

Section outcome.
Context `{!PmmConfig} `{!PmmLaws}.
Implicit Types (s : pmm) (a p i : Z) (ar : pmm_arena_t) (l q ps : list Z) (pl : option page_list).

(** ** The flags that are used *)
Lemma effective_flag f n count flags lg : 0 <= n -> f = Z.shiftl 1 n -> n <> 1 -> has_flag f (effective count flags lg) = has_flag f flags.
Proof.
  intros Hn Hf Hne. unfold effective. destruct (_ && _); [|done]. rewrite !(bits_flag f n Hn Hf), Z.ldiff_spec. change PMM_ALLOC_FLAG_CONTIGUOUS with 2. rewrite bit_of_two by done.
  rewrite (proj2 (Z.eqb_neq n 1) Hne). by rewrite andb_true_r.
Qed.
Lemma effective_eligible count flags lg ar : arena_eligible (effective count flags lg) ar = arena_eligible flags ar.
Proof. unfold arena_eligible. by rewrite (effective_flag PMM_ALLOC_FLAG_KMAP 0). Qed.
Lemma effective_reserved count flags lg : from_reserved (effective count flags lg) = from_reserved flags.
Proof. by apply (effective_flag _ 2). Qed.
Lemma effective_clear count flags lg : no_clear (effective count flags lg) = no_clear flags.
Proof. by apply (effective_flag _ 3). Qed.
Lemma effective_avail count flags lg s l : avail (effective count flags lg) s l = avail flags s l.
Proof. unfold avail. induction l as [|a l IH]; [done|]. cbn. rewrite IH. unfold share. destruct (arenas s !! a); [|done]. by rewrite effective_eligible, effective_reserved. Qed.
Lemma effective_clear_ok count flags lg s l : clear_ok flags s l -> clear_ok (effective count flags lg) s l.
Proof. intros Hc a ar Ha Har He. rewrite effective_eligible in He. unfold may_clear. rewrite effective_clear. by apply Hc. Qed.

(** ** What the caller provides *)
Record alloc_ok pl (count flags lg : Z) s : Prop := {
  al_wf : pmm_wf s;
  al_lock : aux_slock s = false;
  al_count : 0 < count;
  al_align : lg = 0 \/ contiguous flags = true;
  al_target : target s pl;
  al_clear : clear_ok flags s (arena_list s);
  al_run : contiguous (effective count flags lg) = true -> searchable flags s (arena_list s) count lg /\ stocked flags s (arena_list s) lg count
}.

Lemma local_clear_ok flags s l : clear_ok flags s l -> clear_ok flags (local s) l.
Proof. done. Qed.
Lemma local_target s pl : target s pl -> target (local s) pl.
Proof. destruct pl as [l|]; [|done]. intros (Hne & Hf & [q Hq]). split_and!; [done|done|]. exists q. cbn. by rewrite lookup_insert_ne. Qed.
Lemma local_list s : lists (local s) !! LocalList = Some [].
Proof. apply lookup_insert_eq. Qed.

(** Success: so many pages are on the list of the caller. Failure: nothing has changed. *)
Definition succeeded pl (count flags : Z) ps s s' : Prop :=
  grabbed (into pl) (from_reserved flags) ps (local s) s' /\ pmm_wf s' /\ Z.of_nat (length ps) = count.
Definition failed s s' : Prop := pmm_equiv (local s) s' /\ pmm_wf s'.

Lemma alloc_any_run pl want count flags lg s : alloc_ok pl count flags lg s -> contiguous (effective count flags lg) = false ->
  if count <=? avail flags s (arena_list s)
  then exists ps s', pmm_alloc_pages_locked pl want count flags lg s = Some ((0, if want then ps else []), s') /\ succeeded pl count flags ps s s'
  else exists out s', pmm_alloc_pages_locked pl want count flags lg s = Some ((ERR_NO_MEMORY, out), s') /\ failed s s'.
Proof.
  intros [Hw Hlk Hc Hal Ht Hcl _] Hnc. rewrite (pmm_alloc_pages_locked_eq pl want count flags lg s Hal). set (ef := effective count flags lg) in *.
  pose proof (local_wf s Hw) as Hwl. assert (is_Some (lists (local s) !! LocalList)) as Hls by (eexists; apply local_list).
  destruct (alloc_arenas_run ef want lg count Hnc (arena_list s) (local s) 0 no_run []) as (ps & s1 & frs & Hr & Hg & Hw1 & Hn); [done|done|apply Hw|done|by apply effective_clear_ok|done|lia|].
  rewrite (bind_eq _ _ _ _ _ Hr). unfold ef in Hn, Hg. rewrite effective_avail in Hn. rewrite effective_reserved in Hg. rewrite Z.sub_0_r in Hn. change (avail flags (local s)) with (avail flags s) in Hn. rewrite Z.add_0_l.
  destruct (Z.leb_spec count (avail flags s (arena_list s))) as [Hle|Hgt].
  - assert (Z.of_nat (length ps) = count) as Hl by lia. rewrite Hl.
    destruct (finish_ok pl count frs (if want then [] ++ ps else []) _ ps (local s) s1 Hwl (local_list s) (local_target s pl Ht) Hg Hw1) as (s2 & Hs2 & Hg2). exists ps, s2. split; [exact Hs2|]. destruct Hg2. by split_and!.
  - destruct (finish_err pl count (Z.of_nat (length ps)) frs (if want then [] ++ ps else []) _ ps (local s) s1 Hwl (local_list s) Hg Hw1) as (s2 & Hs2 & Hg2); [lia|]. by eexists _, s2.
Qed.

(** The run that is found: the first of the first arena that has one. *)
Definition chosen (flags lg count : Z) s ps : Prop :=
  exists l1 a l2 ar st, arena_list s = l1 ++ a :: l2 /\ no_runs flags s l1 lg count /\ arenas s !! a = Some ar /\ arena_eligible flags ar = true /\
    first_run s ar (Z.max lg PAGE_SIZE_SHIFT) count st /\ st <> no_run /\ ps = page_at ar <$> seqZ st count.

Lemma effective_contiguous count flags lg : contiguous (effective count flags lg) = true -> effective count flags lg = flags.
Proof.
  unfold effective. destruct (_ && _) eqn:He; [|done]. unfold contiguous. rewrite (bits_flag PMM_ALLOC_FLAG_CONTIGUOUS 1), Z.ldiff_spec by done.
  change PMM_ALLOC_FLAG_CONTIGUOUS with 2. rewrite bit_of_two by done. cbn. by rewrite andb_false_r.
Qed.

Lemma alloc_run_run pl want count flags lg s : alloc_ok pl count flags lg s -> contiguous (effective count flags lg) = true ->
  (exists ps s', pmm_alloc_pages_locked pl want count flags lg s = Some ((0, if want then take 1 ps else []), s') /\ succeeded pl count flags ps s s' /\ chosen flags lg count s ps) \/
  (exists out s', pmm_alloc_pages_locked pl want count flags lg s = Some ((ERR_NO_MEMORY, out), s') /\ failed s s' /\ no_runs flags s (arena_list s) lg count).
Proof.
  intros [Hw Hlk Hc Hal Ht Hcl Hrun] Hco. destruct (Hrun Hco) as [Hse Hst]. rewrite (pmm_alloc_pages_locked_eq pl want count flags lg s Hal), (effective_contiguous count flags lg Hco).
  rewrite (effective_contiguous count flags lg Hco) in Hco. pose proof (local_wf s Hw) as Hwl. assert (is_Some (lists (local s) !! LocalList)) as Hls by (eexists; apply local_list).
  destruct (contig_run flags want lg count Hco (arena_list s) (local s) no_run []) as [(Hn & frs & Hr)|(l1 & a & l2 & ar & st & ps & s1 & frs & He & Hn & Har & Hel & Hf & Hne & Hps & Hg & Hw1 & Hr)]; [done|done|done|apply Hw|done|done|done|done|done| |].
  - right. rewrite (bind_eq _ _ _ _ _ Hr). assert (grabbed LocalList (from_reserved flags) [] (local s) (local s)) as Hg by exact (grabbed_nothing LocalList _ (local s) (cleared s)).
    destruct (finish_err pl count 0 frs [] _ [] (local s) (local s) Hwl (local_list s) Hg Hwl) as (s2 & Hs2 & Hf); [lia|]. by exists [], s2.
  - left. rewrite (bind_eq _ _ _ _ _ Hr). assert (Z.of_nat (length ps) = count) as Hl by (rewrite Hps, length_fmap, length_seqZ; lia).
    destruct (finish_ok pl count frs (outs want true 0 ps []) _ ps (local s) s1 Hwl (local_list s) (local_target s pl Ht) Hg Hw1) as (s2 & Hs2 & Hg2 & Hw2).
    exists ps, s2. split; [by rewrite Hs2|]. split; [done|]. exists l1, a, l2, ar, st. done.
Qed.

(** Either way a call that succeeds has put the pages on the list, and one that fails
    has changed nothing. *)
Lemma alloc_outcome pl want count flags lg s : alloc_ok pl count flags lg s -> exists r out s', pmm_alloc_pages_locked pl want count flags lg s = Some ((r, out), s') /\
  ((r = 0 /\ exists ps, succeeded pl count flags ps s s') \/ (r = ERR_NO_MEMORY /\ failed s s')).
Proof.
  intros Hok. destruct (contiguous (effective count flags lg)) eqn:Hco.
  - destruct (alloc_run_run pl want count flags lg s Hok Hco) as [(ps & s' & Hr & Hs & _)|(out & s' & Hr & Hf & _)]; eexists _, _, s'; (split; [exact Hr|]); [left|right]; split; try done. by exists ps.
  - pose proof (alloc_any_run pl want count flags lg s Hok Hco) as Ha. destruct (count <=? _); destruct Ha as (x & s' & Hr & Hs); eexists _, _, s'; (split; [exact Hr|]); [left|right]; split; try done. by exists x.
Qed.

(** ** Giving all of it back *)
Lemma pmm_free_run (l : page_list) s q : pmm_wf s -> lock s = false -> is_free_list l = false -> lists s !! l = Some q ->
  exists s', pmm_free l s = Some (u32 (Z.of_nat (length q)), s') /\ released l q [] s s' /\ pmm_wf s'.
Proof.
  intros Hw Hk Hf Hq. destruct (pmm_free_locked_run l q s Hw Hf Hq) as (s1 & Hs1 & Hr1).
  assert (forall b x, pmm_wf x -> pmm_wf (with_lock b x)) as Hwl by (intros b x [W1 W2 W3 W4 W5 W6 W7]; constructor; done).
  pose proof (Hwl true s Hw) as Hwt. destruct (pmm_free_locked_run l q (with_lock true s) Hwt Hf Hq) as (s2 & Hs2 & Hr2). exists (with_lock false s2).
  unfold pmm_free, mutex_acquire, mutex_release. rewrite bind_assoc, gets_bind, bind_assoc, assert_bind by (by rewrite Hk). rewrite modify_bind, (bind_eq _ _ _ _ _ Hs2), modify_bind. split; [done|]. split.
  - destruct Hr2 as [R1 R2 R3 R4 (R5 & R6 & R7)]. constructor; try done.
  - apply Hwl. exact (released_wf l q (with_lock true s) s2 Hwt Hf Hq Hr2).
Qed.
End outcome.

(** * Pages, addresses and the public allocators *)

Section addr.
Context `{!PmmConfig} `{!PmmLaws}.
Implicit Types (s : pmm) (a p i : Z) (ar : pmm_arena_t) (l q ps : list Z) (pl : option page_list).

(** ** The page at an address *)
Definition addresses_disjoint s : Prop := forall a b ar br x, a ∈ arena_list s -> b ∈ arena_list s -> arenas s !! a = Some ar -> arenas s !! b = Some br ->
  ADDRESS_IN_ARENA x ar = true -> ADDRESS_IN_ARENA x br = true -> a = b.

Lemma address_in ar x : arena_ok ar -> ADDRESS_IN_ARENA x ar = true <-> base ar <= x < base ar + size ar.
Proof. intros [[B1 _] [B2 B3] _ _ _]. pose proof page_size_pos. unfold ADDRESS_IN_ARENA. rewrite u64_small by lia. lia. Qed.

Lemma page_of_address s a ar i p off : pmm_wf s -> addresses_disjoint s -> is_page s a ar i p -> 0 <= off < PAGE_SIZE ->
  paddr_to_vm_page (base ar + i * PAGE_SIZE + off) s = Some (Some p, s).
Proof.
  intros Hw Hd Hpg Hoff. pose proof Hpg as (Ha & Har & Hi & Hp). destruct (aw_arena _ (wf_arenas _ Hw) a Ha) as (? & ? & Hok). simplify_eq.
  pose proof (page_bounds ar i Hi) as [P1 P2]. set (x := base ar + i * PAGE_SIZE + off). assert (ADDRESS_IN_ARENA x ar = true) as Hx by (apply address_in; [done|unfold x; lia]).
  unfold paddr_to_vm_page. rewrite gets_bind. destruct (find_arena_run (arena_list s) (ADDRESS_IN_ARENA x) s) as (r & Hr & Hm); [intros b Hb; by apply (arena_some s b (wf_arenas _ Hw))|].
  rewrite (bind_eq _ _ _ _ _ Hr). destruct r as [b|]; [|specialize (Hm a ar Ha Har); congruence]. destruct Hm as (Hb & br & Hbr & Ht).
  assert (b = a) as -> by exact (Hd b a br ar x Hb Ha Hbr Har Ht Hx). rewrite (get_arena_bind a ar) by done. unfold ret. do 3 f_equal. unfold x.
  replace (base ar + i * PAGE_SIZE + off - base ar) with (off + i * PAGE_SIZE) by lia. pose proof page_size_pos. rewrite Z.div_add, Z.div_small by lia. done.
Qed.

(** ** Locking does not change what the pages are *)
Lemma lock_wf b s : pmm_wf s -> pmm_wf (with_lock b s).
Proof. intros [W1 W2 W3 W4 W5 W6 W7]. by constructor. Qed.
Lemma unlock_pmm s : lock s = false -> with_lock false (with_lock true s) = s.
Proof. destruct s. cbn. by intros ->. Qed.
Lemma acquire_bind {A} s (k : unit -> M pmm A) : lock s = false -> bind mutex_acquire k s = k tt (with_lock true s).
Proof. intros Hk. unfold mutex_acquire. by rewrite bind_assoc, gets_bind, bind_assoc, assert_bind by (by rewrite Hk). Qed.
Lemma release_bind {A} s (k : unit -> M pmm A) : bind mutex_release k s = k tt (with_lock false s).
Proof. done. Qed.

(** ** Reservations *)
Definition listed_total (f : pmm_arena_t -> Z) s : Z := total f s (arena_list s).

Lemma reserve_pages_run count s : pmm_wf s -> lock s = false -> 0 <= count ->
  if count <=? listed_total unreserved s
  then exists s', pmm_reserve_pages count s = Some (NO_ERROR, s') /\ pmm_wf s' /\ reserving (arena_list s) s s' /\ listed_total reserved_count s' = listed_total reserved_count s + count
  else pmm_reserve_pages count s = Some (ERR_NO_MEMORY, s).
Proof.
  intros Hw Hk Hc. set (sl := with_lock true s). pose proof (counts_ok_wf sl (lock_wf true s Hw)) as Hok. unfold pmm_reserve_pages. rewrite acquire_bind by done. fold sl.
  destruct (check_available_run (arena_list s) false count sl Hok Hc) as (? & Hr & ->). unfold check_available_pages. rewrite bind_assoc, gets_bind. change (arena_list sl) with (arena_list s).
  rewrite (bind_eq _ _ _ _ _ Hr). change (total unreserved sl (arena_list s)) with (listed_total unreserved s).
  destruct (Z.leb_spec count (listed_total unreserved s)) as [Hle|Hgt].
  - rewrite Z.max_l by lia. cbn [negb Z.eqb]. rewrite bind_assoc, gets_bind. change (arena_list sl) with (arena_list s).
    destruct (check_available_run (arena_list s) true count sl Hok Hc) as (s1 & Hr1 & Hre & Ht). rewrite (bind_eq _ _ _ _ _ Hr1), release_bind.
    change (total unreserved sl (arena_list s)) with (listed_total unreserved s) in Ht. rewrite Z.min_l in Ht by lia.
    assert (reserving (arena_list s) s (with_lock false s1)) as Hre'.
    { destruct Hre as [R1 R2 R3 (R4 & R5 & R6 & R7 & R8)]. constructor; try done. }
    exists (with_lock false s1). split_and!; [done|by apply (reserving_wf s)|done|]. unfold listed_total. change (arena_list (with_lock false s1)) with (arena_list s1).
    rewrite (re_list _ _ _ Hre). exact Ht.
  - rewrite (proj2 (Z.eqb_neq _ _)) by lia. cbn [negb]. rewrite release_bind. unfold sl. by rewrite (unlock_pmm s Hk).
Qed.

Lemma unreserve_pages_run count s : pmm_wf s -> lock s = false -> 0 <= count <= listed_total reserved_count s ->
  exists s', pmm_unreserve_pages count s = Some (tt, s') /\ pmm_wf s' /\ reserving (arena_list s) s s' /\ listed_total reserved_count s' = listed_total reserved_count s - count.
Proof.
  intros Hw Hk Hc. set (sl := with_lock true s). pose proof (counts_ok_wf sl (lock_wf true s Hw)) as Hok. unfold pmm_unreserve_pages. rewrite acquire_bind by done. fold sl. rewrite gets_bind.
  destruct (unreserve_run (arena_list s) count sl Hok ltac:(lia)) as (s1 & Hr & Hre & Ht). change (arena_list sl) with (arena_list s). rewrite (bind_eq _ _ _ _ _ Hr), release_bind.
  change (total reserved_count sl (arena_list s)) with (listed_total reserved_count s) in *. rewrite Z.max_l, Z.eqb_refl by lia. rewrite Z.min_l in Ht by lia.
  assert (reserving (arena_list s) s (with_lock false s1)) as Hre'.
  { destruct Hre as [R1 R2 R3 (R4 & R5 & R6 & R7 & R8)]. constructor; try done. }
  exists (with_lock false s1). split_and!; [done|by apply (reserving_wf s)|done|]. unfold listed_total. change (arena_list (with_lock false s1)) with (arena_list s1). rewrite (re_list _ _ _ Hre). exact Ht.
Qed.

(** Taking pages that are not reserved leaves the reservations. *)
Lemma grabbed_reserved dst ps s s' : grabbed dst false ps s s' -> listed_total reserved_count s' = listed_total reserved_count s.
Proof.
  intros Hg. unfold listed_total. rewrite (gr_list _ _ _ _ _ Hg). assert (forall l, (forall a, a ∈ l -> a ∈ arena_list s) -> total reserved_count s' l = total reserved_count s l) as Hl; [|by apply Hl].
  induction l as [|a l IH]; intros Hl; [done|]. cbn. fold (total reserved_count s l) (total reserved_count s' l). rewrite IH by (intros b Hb; apply Hl; by right).
  rewrite (gr_arenas _ _ _ _ _ Hg), decide_True by (apply Hl; left). by destruct (arenas s !! a).
Qed.
Lemma avail_reserved flags s l : has_flag PMM_ALLOC_FLAG_KMAP flags = false -> from_reserved flags = true -> avail flags s l = total reserved_count s l.
Proof.
  intros Hk Hr. induction l as [|a l IH]; [done|]. cbn. fold (avail flags s l) (total reserved_count s l). rewrite IH. f_equal. unfold share, arena_eligible. destruct (arenas s !! a); [|done]. by rewrite Hk, Hr.
Qed.

(** ** pmm_alloc_contiguous *)
Definition run_flags : Z := Z.lor PMM_ALLOC_FLAG_KMAP PMM_ALLOC_FLAG_CONTIGUOUS.

Lemma base_aligned ar i : arena_ok ar -> (base ar + i * PAGE_SIZE) mod PAGE_SIZE = 0.
Proof.
  intros [[_ B] _ _ _ _]. pose proof page_size_pos as Hps. rewrite Z.mod_add by lia. rewrite page_size_pow in *. destruct page_shift_range as [Q1 Q2]. assert (0 <= PAGE_SIZE_SHIFT) as Q3 by lia.
  replace (2 ^ PAGE_SIZE_SHIFT - 1) with (Z.ones PAGE_SIZE_SHIFT) in B by (rewrite Z.ones_equiv; lia). by rewrite Z.land_ones in B.
Qed.

(** The pages are those of the memory from [pa] on. *)
Definition run_at s (pa m count : Z) ps : Prop :=
  exists a ar st, a ∈ arena_list s /\ arenas s !! a = Some ar /\ 0 <= st /\ st + count <= page_count ar /\ ps = page_at ar <$> seqZ st count /\
    pa = base ar + st * PAGE_SIZE /\ pa mod 2 ^ m = 0.

Lemma chosen_at flags lg count s ps : chosen flags lg count s ps -> exists pa, run_at s pa (Z.max lg PAGE_SIZE_SHIFT) count ps.
Proof.
  intros (l1 & a & l2 & ar & st & Hl & _ & Har & _ & Hf & Hne & ->). assert (a ∈ arena_list s) as Ha by (rewrite Hl; apply elem_of_app; right; left).
  destruct (first_run_some _ _ _ _ _ Hf Hne) as [([C1 C2] & C3 & C4) _]. exists (base ar + st * PAGE_SIZE), a, ar, st. split_and!; [done|done|lia|lia|done..].
Qed.

Lemma single_at s p : pmm_wf s -> free_in s p -> exists pa, run_at s pa PAGE_SIZE_SHIFT 1 [p].
Proof.
  intros Hw (a & ar & i & fl & (Ha & Har & Hi & ->) & _). destruct (aw_arena _ (wf_arenas _ Hw) a Ha) as (? & ? & Hok). simplify_eq.
  exists (base ar + i * PAGE_SIZE), a, ar, i. split_and!; [done|done|lia|lia|done|done|]. rewrite <- page_size_pow. by apply base_aligned.
Qed.

(** Nothing to give, and no arena with a page that it may not give: no page is free. *)
Lemma nothing_free flags s l lg : pmm_wf s -> (forall a, a ∈ l -> a ∈ arena_list s) -> avail flags s l < 1 -> stocked flags s l lg 1 -> no_runs flags s l lg 1.
Proof.
  intros Hw Hl Hav Hst a ar Ha Har Hel Hrun. pose proof (Hst a ar Ha Har Hel Hrun) as Hb.
  assert (budget (from_reserved flags) ar <= avail flags s l) as Hle; [|lia]. clear Hrun Hb Hst Hav. induction l as [|b l IH]; [by apply elem_of_nil in Ha|].
  assert (forall x, x ∈ l -> x ∈ arena_list s) as Hl' by (intros x Hx; apply Hl; by right). pose proof (avail_nonneg flags s l Hw Hl') as Hn.
  destruct (arena_some s b (wf_arenas _ Hw)) as [br Hbr]; [apply Hl; left|]. cbn. fold (avail flags s l). unfold share at 1. rewrite Hbr.
  apply elem_of_cons in Ha as [->|Ha]; [assert (br = ar) as -> by congruence; rewrite Hel; lia|]. specialize (IH Hl' Ha).
  assert (0 <= (if arena_eligible flags br then budget (from_reserved flags) br else 0)); [|lia]. destruct (arena_eligible flags br); [|done].
  destruct (aw_arena _ (wf_arenas _ Hw) b) as (? & ? & Hok); [apply Hl; left|]. simplify_eq. by apply budget_nonneg.
Qed.

(** The call itself, the lock held. *)
Lemma alloc_run_outcome pl count m s : alloc_ok pl count run_flags m s -> stocked run_flags s (arena_list s) m count -> PAGE_SIZE_SHIFT <= m ->
  (exists p ps s' pa, pmm_alloc_pages_locked pl true count run_flags m s = Some ((0, [p]), s') /\ succeeded pl count run_flags ps s s' /\ ps !! 0%nat = Some p /\ run_at s pa m count ps) \/
  (exists out s', pmm_alloc_pages_locked pl true count run_flags m s = Some ((ERR_NO_MEMORY, out), s') /\ failed s s' /\ no_runs run_flags s (arena_list s) m count).
Proof.
  intros Hok Hst Hm. destruct (contiguous (effective count run_flags m)) eqn:Hco.
  - destruct (alloc_run_run pl true count run_flags m s Hok Hco) as [(ps & s' & Hr & Hs & Hch)|(out & s' & Hr & Hf & Hno)]; [left|right; by exists out, s'].
    destruct (chosen_at _ _ _ _ _ Hch) as (pa & Hpa). rewrite Z.max_l in Hpa by lia. destruct Hs as (Hg & Hw' & Hn). destruct ps as [|p ps]; [pose proof (al_count _ _ _ _ _ Hok); cbn in Hn; lia|].
    by exists p, (p :: ps), s', pa.
  - assert (count = 1 /\ m = PAGE_SIZE_SHIFT) as [-> ->].
    { unfold effective in Hco. change (contiguous run_flags) with true in Hco. cbn [andb] in Hco. destruct (Z.eqb_spec count 1); cbn [andb] in Hco; [|done]. destruct (Z.leb_spec m PAGE_SIZE_SHIFT); [|done]. split; lia. }
    pose proof (alloc_any_run pl true 1 run_flags PAGE_SIZE_SHIFT s Hok Hco) as Ha. destruct (Z.leb_spec 1 (avail run_flags s (arena_list s))); destruct Ha as (x & s' & Hr & Hs); [left|right].
    2: { exists x, s'. split_and!; [done|done|]. by apply nothing_free; [apply Hok| |lia|]. }
    pose proof Hs as (Hg & Hw' & Hn). destruct x as [|p [|]]; [cbn in Hn; lia| |cbn in Hn; lia].
    assert (free_in s p) as Hfr by (apply (gr_free _ _ _ _ _ Hg); left). destruct (single_at s p (al_wf _ _ _ _ _ Hok) Hfr) as (pa & Hpa). by exists p, [p], s', pa.
Qed.

Lemma succeeded_unlock pl count flags ps s s' : lock s = false -> succeeded pl count flags ps (with_lock true s) s' -> succeeded pl count flags ps s (with_lock false s').
Proof.
  intros Hk ([G1 G2 G3 G4 [G5 G5'] G6 G7] & Hw & Hn). split_and!; [|by apply lock_wf|done]. constructor; done.
Qed.
Lemma failed_unlock s s' : lock s = false -> failed (with_lock true s) s' -> failed s (with_lock false s').
Proof. intros Hk ([E1 E2 E3 E4 [E5 E5']] & Hw). split; [|by apply lock_wf]. constructor; done. Qed.

Lemma alloc_contiguous_run pl count al s : lock s = false -> alloc_ok pl count run_flags (Z.max al PAGE_SIZE_SHIFT) (with_lock true s) ->
  stocked run_flags s (arena_list s) (Z.max al PAGE_SIZE_SHIFT) count ->
  (exists ps s' pa, pmm_alloc_contiguous count al pl s = Some ((count, Some pa), s') /\ succeeded pl count run_flags ps s s' /\ run_at s pa (Z.max al PAGE_SIZE_SHIFT) count ps) \/
  (exists s', pmm_alloc_contiguous count al pl s = Some ((0, None), s') /\ failed s s' /\ no_runs run_flags s (arena_list s) (Z.max al PAGE_SIZE_SHIFT) count).
Proof.
  intros Hk Hok Hstk. set (m := Z.max al PAGE_SIZE_SHIFT) in *. assert (PAGE_SIZE_SHIFT <= m) as Hm by lia. pose proof (al_count _ _ _ _ _ Hok) as Hc.
  assert (forall r out s', pmm_alloc_pages_locked pl true count run_flags m (with_lock true s) = Some ((r, out), s') ->
    pmm_alloc_contiguous count al pl s = match r with 0 => p <- getsome (fun _ => out !! 0%nat) ;; pa <- vm_page_to_paddr p ;; ret (count, Some pa) | _ => ret (0, None) end (with_lock false s')) as Heq.
  { intros r out s' Hr. unfold pmm_alloc_contiguous. rewrite (proj2 (Z.eqb_neq count 0)) by lia. fold m run_flags. rewrite acquire_bind by done. by rewrite (bind_eq _ _ _ _ _ Hr), release_bind. }
  destruct (alloc_run_outcome pl count m (with_lock true s) Hok Hstk Hm) as [(p & ps & s' & pa & Hr & Hs & Hp & Hrun)|(out & s' & Hr & Hf & Hno)].
  - left. exists ps, (with_lock false s'), pa. split_and!; [|by apply succeeded_unlock|done]. rewrite (Heq 0 [p] s' Hr). rewrite (bind_eq _ _ (with_lock false s') p (with_lock false s')) by done.
    destruct Hrun as (a & ar & st & Ha & Har & Hst & Hle & -> & -> & _). destruct Hs as (Hg & Hw' & Hn).
    assert (p = page_at ar st) as -> by (revert Hp; replace count with (Z.of_nat (S (Z.to_nat (count - 1)))) by lia; rewrite seqZ_cons by lia; by intros [= <-]).
    assert (is_page (local (with_lock true s)) a ar st (page_at ar st)) as Hpg by (split_and!; [done|done|lia|lia|done]).
    pose proof (grabbed_page _ _ _ _ _ Hg a ar st _ Hpg) as Hpg'.
    rewrite (bind_eq _ _ _ _ _ (page_address (with_lock false s') a _ st (page_at ar st) (wf_arenas _ (lock_wf false s' Hw')) Hpg')). done.
  - right. exists (with_lock false s'). split_and!; [|by apply failed_unlock|exact Hno]. by rewrite (Heq ERR_NO_MEMORY out s' Hr).
Qed.
End addr.
