(* ===== verification/PmmExample.v ===== *)
(** * A machine with two arenas

    Four pages from 0x40001000 and three pages from 0x40100000, added the way a
    platform adds them; the witnesses of the properties are about it. *)
From stdpp Require Import base gmap list.
From Stdlib Require Import ZArith Lia.
From S2P Require Import Prelude Pmm PmmInv PmmGrab PmmAlloc PmmRun PmmFree PmmPages PmmReserve PmmInit PmmArena.

Local Open Scope Z_scope.
Local Open Scope lk_scope.

Module PmmExample.
#[export] Instance example_config : PmmConfig := {
  PAGE_SIZE_SHIFT := 12;
  mmu_initial_mappings := [mk_mapping 0x40000000 0xFFFF000040000000 0x10000000 0]
}.
#[export] Instance example_laws : PmmLaws.
Proof.
  split; [done|]. intros pa va. cbn. destruct (_ && _) eqn:Hin; [|done]. intros [= <-]. apply andb_true_iff in Hin as [H1 H2]. change (u64 _) with 0x4fffffff in H2.
  apply Z.leb_le in H1. apply Z.leb_le in H2. rewrite u64_small by lia. lia.
Qed.

Definition low : pmm_arena_t := mk_arena PMM_ARENA_FLAG_KMAP 1 0x40001000 0 0x4000 0 0 0.
Definition high : pmm_arena_t := mk_arena PMM_ARENA_FLAG_KMAP 2 0x40100000 0 0x3000 0 0 0.
(** The arenas are at the addresses 1 and 2, their page arrays are in boot memory. *)
Definition low_mem : Z := 0xFFFF000041000000.
Definition high_mem : Z := 0xFFFF000041001000.
Definition my_list : page_list := PageList 7.

Definition boot : pmm := mk_pmm (<[1 := low]> {[2 := high]}) [] ∅ {[my_list := []]} [] false false.
Definition after (m : M pmm Z) (s : pmm) : pmm := match m s with Some (_, s') => s' | None => s end.
Definition with_low : pmm := after (pmm_add_arena 1 low_mem) boot.
Definition machine : pmm := after (pmm_add_arena 2 high_mem) with_low.

Lemma boot_wf : pmm_wf boot /\ in_order boot.
Proof.
  split; [|constructor]. constructor; try (by intros a ?%elem_of_nil).
  - constructor.
  - by intros a ar i p (Ha%elem_of_nil & _).
  - by intros a b ar br p ?%elem_of_nil.
  - intros pl q p Hq Hin. cbn in Hq. apply lookup_singleton_Some in Hq as [_ <-]. by apply elem_of_nil in Hin.
  - intros pl q Hq. cbn in Hq. apply lookup_singleton_Some in Hq as [_ <-]. constructor.
  - intros pl pl' q q' p Hq _ Hin _. cbn in Hq. apply lookup_singleton_Some in Hq as [_ <-]. by apply elem_of_nil in Hin.
Qed.

Lemma with_low_wf : pmm_wf with_low /\ in_order with_low.
Proof.
  destruct boot_wf as [Hw Ho]. destruct (pmm_add_arena_run 1 low low_mem 0xFFFF000040001000 boot Hw Ho) as (s' & Hr & Hw' & Ho' & _).
  - done.
  - by intros ?%elem_of_nil.
  - done.
  - by split.
  - by split.
  - by intros b br p ?%elem_of_nil.
  - unfold with_low, after. by rewrite Hr.
Qed.

Lemma machine_wf : pmm_wf machine /\ in_order machine.
Proof.
  destruct with_low_wf as [Hw Ho]. destruct (pmm_add_arena_run 2 high high_mem 0xFFFF000040100000 with_low Hw Ho) as (s' & Hr & Hw' & Ho' & _).
  - by vm_compute.
  - replace (arena_list with_low) with [1] by (by vm_compute). by intros ?%list_elem_of_singleton.
  - by vm_compute.
  - by split.
  - split; [by vm_compute|done].
  - replace (arena_list with_low) with [1] by (by vm_compute). intros b br p Hb Hbr Hp. replace (arena_list with_low) with [1] in Hb by (by vm_compute).
    apply list_elem_of_singleton in Hb as ->. assert (Some br = Some (set_counts 4 0 (placed 0xFFFF000040001000 low_mem low))) as [= ->] by (rewrite <- Hbr; by vm_compute).
    unfold PAGE_BELONGS_TO_ARENA in *. change (page_count (placed 0xFFFF000040100000 high_mem high)) with 3. change (page_count (set_counts 4 0 (placed 0xFFFF000040001000 low_mem low))) with 4 in Hp.
    unfold sizeof_vm_page in *. cbn in *. unfold low_mem, high_mem in *. lia.
  - unfold machine, after. by rewrite Hr.
Qed.
End PmmExample.
