(* ===== verification/PmmProps.v ===== *)
(** * Properties of the physical page manager *)
From stdpp Require Import base gmap list sorting.
From Stdlib Require Import ZArith Lia.
From S2P Require Import Prelude Pmm PmmInv PmmGrab PmmAlloc PmmRun PmmFree PmmPages PmmReserve PmmInit PmmArena PmmOutcome PmmExample.

Local Open Scope Z_scope.
Local Open Scope lk_scope.

(** The search as a specification: the first page number from which on there are
    [count] free pages in the arena, at an aligned address. *)
Definition all_free `{!PmmConfig} (s : pmm) (ar : pmm_arena_t) (st count : Z) : bool :=
  forallb (fun i => match pages s !! page_at ar i with Some fl => negb (nonfree fl) | None => false end) (seqZ st count).
Definition is_run `{!PmmConfig} (s : pmm) (ar : pmm_arena_t) (m count st : Z) : bool :=
  (st + count <=? page_count ar) && ((base ar + st * PAGE_SIZE) mod 2 ^ m =? 0) && all_free s ar st count.
Definition search_spec `{!PmmConfig} (s : pmm) (ar : pmm_arena_t) (m count : Z) : Z :=
  match filter (fun st => is_run s ar m count st = true) (seqZ 0 (page_count ar)) with
  | st :: _ => st
  | [] => no_run
  end.

Section spec.
Context `{!PmmConfig} `{!PmmLaws}.
Implicit Types (s : pmm) (ar : pmm_arena_t).

Lemma all_free_run s ar st count : 0 <= count -> all_free s ar st count = true <-> forall k, st <= k < st + count -> exists fl, pages s !! page_at ar k = Some fl /\ nonfree fl = false.
Proof.
  intros Hc. unfold all_free. rewrite forallb_forall. split; intros Hx k Hk.
  - specialize (Hx k). destruct (pages s !! page_at ar k) as [fl|]; [exists fl; split; [done|]; apply negb_true_iff, Hx|discriminate Hx]; apply list_elem_of_In, elem_of_seqZ; lia.
  - apply list_elem_of_In, elem_of_seqZ in Hk. destruct (Hx k Hk) as (fl & -> & ->). done.
Qed.

Lemma is_run_spec s ar m count st : 0 <= count -> 0 <= st < page_count ar -> is_run s ar m count st = true <-> candidate ar m count st /\ run_free s ar st (Z.to_nat count).
Proof.
  intros Hc Hst. unfold is_run, candidate, run_free. rewrite !andb_true_iff, all_free_run, Z.leb_le, Z.eqb_eq, Z2Nat.id by done. naive_solver lia.
Qed.

Lemma filter_head_first (P : Z -> Prop) `{!forall x, Decision (P x)} n st l : filter P (seqZ 0 n) = st :: l -> 0 <= st < n /\ P st /\ forall k, 0 <= k < n -> P k -> st <= k.
Proof.
  intros He. assert (st ∈ filter P (seqZ 0 n)) as Hin by (rewrite He; left). apply list_elem_of_filter in Hin as [Hp Hr%elem_of_seqZ]. split_and!; [lia|lia|done|].
  intros k Hk Hpk. assert (StronglySorted Z.le (filter P (seqZ 0 n))) as Hs.
  { assert (forall n' x, StronglySorted Z.le (seqZ x (Z.of_nat n'))) as Hseq.
    { induction n' as [|n' IH]; intros x; [constructor|]. rewrite seqZ_cons by lia. constructor; [replace (Z.pred (Z.of_nat (S n'))) with (Z.of_nat n') by lia; apply IH|]. apply Forall_forall. intros y Hy%elem_of_seqZ. lia. }
    specialize (Hseq (Z.to_nat n) 0). rewrite Z2Nat.id in Hseq by lia. revert Hseq. generalize (seqZ 0 n). clear. intros l Hl. induction Hl as [|x l Hl IH Hf]; [constructor|].
    rewrite filter_cons. case_decide; [|done]. constructor; [done|]. apply Forall_forall. rewrite Forall_forall in Hf. intros y [_ Hy]%list_elem_of_filter. by apply Hf. }
  assert (k ∈ filter P (seqZ 0 n)) as Hk' by (apply list_elem_of_filter; split; [done|apply elem_of_seqZ; lia]). rewrite He in Hs, Hk'. apply StronglySorted_inv in Hs as [_ Hf]. rewrite Forall_forall in Hf.
  apply elem_of_cons in Hk' as [->|Hk']; [lia|by apply Hf].
Qed.
End spec.

Section props.
Context `{!PmmConfig} `{!PmmLaws}.
Implicit Types (s : pmm) (a p i : Z) (ar : pmm_arena_t) (pl : option page_list).

(** C16: an allocation that does not ask for a contiguous run succeeds exactly if the
    pages the arenas may give (all their unreserved pages, or their reserved ones if the
    flags say so, of the mapped arenas only if they say so) are enough. It then has put
    so many free pages on the caller's list, marked and accounted for in their arenas;
    otherwise it reports ERR_NO_MEMORY and has put back every page it had taken. *)
Theorem pmm_alloc_pages_any pl want count flags lg s :
  alloc_ok pl count flags lg s -> contiguous (effective count flags lg) = false ->
  if count <=? avail flags s (arena_list s)
  then exists ps s', pmm_alloc_pages_locked pl want count flags lg s = Some ((0, if want then ps else []), s') /\ succeeded pl count flags ps s s'
  else exists out s', pmm_alloc_pages_locked pl want count flags lg s = Some ((ERR_NO_MEMORY, out), s') /\ failed s s'.
Proof. exact (alloc_any_run pl want count flags lg s). Qed.

(** C17: as long as every mapped arena that has a run of [count] free pages at the
    alignment asked for may also give that many pages (so many are free and not
    reserved; without that the walk goes on to the next arena in the middle of a run, see
    [contiguous_from_two_arenas]), and the bounds of the search hold, pmm_alloc_contiguous
    either has put [count] pages on the caller's list that are consecutive pages of one
    arena, and reports the address of the first, which has the alignment; or no mapped
    arena has such a run, and it reports no page and has changed nothing. *)
Theorem pmm_alloc_contiguous_run pl count al s :
  let m := Z.max al PAGE_SIZE_SHIFT in let l := arena_list s in
  pmm_wf s -> lock s = false -> aux_slock s = false -> 0 < count -> target s pl -> clear_ok run_flags s l ->
  (forall a ar, a ∈ l -> arenas s !! a = Some ar -> arena_eligible run_flags ar = true -> search_ok ar count m) ->
  (forall a ar, a ∈ l -> arenas s !! a = Some ar -> arena_eligible run_flags ar = true -> has_run s ar m count -> count <= free_count ar - reserved_count ar) ->
  (exists ps s' pa, pmm_alloc_contiguous count al pl s = Some ((count, Some pa), s') /\ succeeded pl count run_flags ps s s' /\ run_at s pa m count ps) \/
  (exists s', pmm_alloc_contiguous count al pl s = Some ((0, None), s') /\ failed s s' /\ no_runs run_flags s l m count).
Proof.
  intros m l Hw Hk Hak Hc Ht Hcl Hse Hst. apply alloc_contiguous_run; [done| |exact Hst]. constructor; [by apply lock_wf|exact Hak|exact Hc|by right|exact Ht|exact Hcl|]. by intros _.
Qed.

(** C18: whatever an allocation has put on an empty list of the caller, pmm_free puts
    back: it reports as many pages, and every page, every arena's counts (reserved pages
    are reserved again) and every free list, up to its order, is as before. *)
Theorem pmm_alloc_free_round_trip (l : page_list) want count flags lg s out s' :
  alloc_ok (Some l) count flags lg s -> lock s = false -> lists s !! l = Some [] ->
  pmm_alloc_pages_locked (Some l) want count flags lg s = Some ((0, out), s') ->
  exists s'', pmm_free l s' = Some (u32 count, s'') /\ pmm_wf s'' /\ pmm_equiv (local s) s''.
Proof.
  intros Hok Hk Hl Hr. destruct (alloc_outcome _ want _ _ _ _ Hok) as (r & out' & s1 & Hr' & Hc). rewrite Hr in Hr'. injection Hr' as <- <- <-.
  destruct Hc as [(_ & ps & Hg & Hw' & Hn)|[Hr0 _]]; [|done]. cbn [into] in Hg. destruct Hok as [Hw _ _ _ (Hne & Hf & _) _ _].
  assert (lists (local s) !! l = Some []) as Hll by (cbn; by rewrite lookup_insert_ne).
  assert (lists s' !! l = Some ps) as Hps by (by rewrite (gr_lists _ _ _ _ _ Hg), Hll, decide_True).
  assert (lock s' = false) as Hk' by (by rewrite (proj1 (gr_locks _ _ _ _ _ Hg))).
  destruct (pmm_free_run l s' ps Hw' Hk' Hf Hps) as (s2 & Hs2 & Hr2 & Hw2). exists s2. rewrite <- Hn. split_and!; [done|done|].
  exact (grabbed_released l _ ps (local s) s' s2 (local_wf s Hw) Hf Hll Hg Hr2).
Qed.

(** C19: the search of pmm_arena_find_free_run, which skips from one page in use to the
    next aligned page, finds what trying every page number in order would find, as long as
    its 32-bit sums do not wrap ([search_ok]: the alignment is below 2^64, and the number
    of pages of the arena plus [count], or plus the alignment in pages, stays within 2^32;
    beyond that start + count wraps, the test against the end of the arena passes and the
    search reads behind its pages). *)
Theorem pmm_find_free_run_spec a ar count al s :
  pmm_wf s -> a ∈ arena_list s -> arenas s !! a = Some ar -> search_ok ar count al ->
  pmm_arena_find_free_run a count al s = Some (search_spec s ar (Z.max al PAGE_SIZE_SHIFT) count, s).
Proof.
  intros Hw Ha Har Hok. destruct (find_free_run_run s a ar count al Hw Ha Har Hok) as (r & Hr & Hf & Hfirst). rewrite Hr. do 2 f_equal. set (m := Z.max al PAGE_SIZE_SHIFT) in *.
  pose proof (proj1 (so_count _ _ _ Hok)) as Hc. unfold search_spec. destruct (filter _ _) as [|st l] eqn:He.
  - destruct Hf as [->|[Hca Hrf]]; [done|]. exfalso. assert (r ∈ filter (fun st => is_run s ar m count st = true) (seqZ 0 (page_count ar))) as Hin; [|rewrite He in Hin; by apply elem_of_nil in Hin].
    pose proof Hca as (C1 & _). apply list_elem_of_filter. split; [by apply is_run_spec|]. apply elem_of_seqZ. lia.
  - apply filter_head_first in He as (Hst & Hrun & Hmin). apply is_run_spec in Hrun as [Hca Hrf]; [|done..]. destruct (Hfirst st Hca Hrf) as [Hne Hle]. destruct Hf as [->|[Hcr Hrr]]; [done|].
    pose proof Hcr as (C1 & _). pose proof (Hmin r C1 (proj2 (is_run_spec s ar m count r Hc C1) (conj Hcr Hrr))). lia.
Qed.

(** A reservation succeeds exactly if so many free pages are not reserved, and only
    the reserved counts change, by that number in total; cancelling it takes the same
    number from the total. A reservation that fails changes nothing. *)
Theorem pmm_reserve_pages_outcome count s :
  pmm_wf s -> lock s = false -> 0 <= count ->
  if count <=? listed_total unreserved s
  then exists s', pmm_reserve_pages count s = Some (NO_ERROR, s') /\ pmm_wf s' /\ reserving (arena_list s) s s' /\ listed_total reserved_count s' = listed_total reserved_count s + count /\
    exists s'', pmm_unreserve_pages count s' = Some (tt, s'') /\ pmm_wf s'' /\ reserving (arena_list s) s' s'' /\ listed_total reserved_count s'' = listed_total reserved_count s
  else pmm_reserve_pages count s = Some (ERR_NO_MEMORY, s).
Proof.
  intros Hw Hk Hc. pose proof (reserve_pages_run count s Hw Hk Hc) as Hr. destruct (count <=? _); [|done]. destruct Hr as (s' & Hr & Hw' & Hre & Ht). exists s'. split_and!; try done.
  pose proof (re_rest _ _ _ Hre) as (_ & _ & _ & Hk' & _). destruct (unreserve_pages_run count s' Hw') as (s'' & Hu & Hw'' & Hre' & Ht'); [by rewrite Hk'|pose proof (reserved_nonneg (arena_list s) s (counts_ok_wf s Hw)); unfold listed_total in *; lia|].
  rewrite (re_list _ _ _ Hre) in Hre'. exists s''. split_and!; [done..|]. lia.
Qed.

(** C20: reserved pages are there when they are asked for: after a reservation of [n]
    pages, and after any allocation from the unreserved pages, an allocation of up to [n]
    pages from the reserved ones succeeds, if it asks neither for a contiguous run nor for
    mapped arenas only nor for an alignment. *)
Theorem pmm_reservation_honoured n s s1 pl count flags ps s2 pl' want' count' flags' :
  pmm_wf s -> lock s = false -> 0 <= n -> pmm_reserve_pages n s = Some (NO_ERROR, s1) ->
  from_reserved flags = false -> succeeded pl count flags ps s1 s2 ->
  alloc_ok pl' count' flags' 0 s2 -> from_reserved flags' = true -> has_flag PMM_ALLOC_FLAG_KMAP flags' = false -> contiguous (effective count' flags' 0) = false -> count' <= n ->
  exists ps' s3, pmm_alloc_pages_locked pl' want' count' flags' 0 s2 = Some ((0, if want' then ps' else []), s3) /\ succeeded pl' count' flags' ps' s2 s3.
Proof.
  intros Hw Hk Hn Hr Hfr [Hg _] Hok Hfr' Hkm Hco Hle. pose proof (reserve_pages_run n s Hw Hk Hn) as Hrr. destruct (n <=? _); [|rewrite Hr in Hrr; discriminate Hrr].
  destruct Hrr as (s1' & Hr' & Hw1 & _ & Ht). rewrite Hr in Hr'. injection Hr' as <-. rewrite Hfr in Hg. pose proof (grabbed_reserved _ _ _ _ Hg) as Hsame.
  pose proof (alloc_any_run pl' want' count' flags' 0 s2 Hok Hco) as Ha. rewrite (avail_reserved flags' s2 _ Hkm Hfr') in Ha. fold (listed_total reserved_count s2) in Ha. rewrite Hsame in Ha.
  change (listed_total reserved_count (local s1)) with (listed_total reserved_count s1) in Ha. pose proof (reserved_nonneg _ s (counts_ok_wf s Hw)) as Hnn. fold (listed_total reserved_count s) in Hnn.
  rewrite (proj2 (Z.leb_le count' (listed_total reserved_count s1))) in Ha by lia. exact Ha.
Qed.

(** Pmm_add_arena makes a well-formed state out of a well-formed one: all pages of
    the arena are free and on its list, the arena is in the list of arenas, which stays
    in order of priority, and nothing else has changed. *)
Theorem pmm_add_arena_ok a ar mem va s :
  pmm_wf s -> in_order s -> aux_slock s = false -> a ∉ arena_list s -> arenas s !! a = Some ar -> described ar -> kernel_mapped s ar va -> separate s (placed va mem ar) ->
  exists s', pmm_add_arena a mem s = Some (NO_ERROR, s') /\ pmm_wf s' /\ in_order s' /\ arena_added a (set_counts (page_count ar) 0 (placed va mem ar)) 0 0 s s'.
Proof. exact (pmm_add_arena_run a ar mem va s). Qed.

(** Pmm_add_arena_late_etc refuses an arena too small for its own page structs and
    the reserved parts; otherwise the arena is added with the pages at its start and end
    in use and the others free. An arena of which nothing would be left at the start
    passes the first test and fails an assertion. *)
Theorem pmm_add_arena_late_ok a ar rs re mapped va flags s :
  pmm_wf s -> in_order s -> lock s = false -> aux_slock s = false -> a ∉ arena_list s -> arenas s !! a = Some ar -> described ar -> late_ok ar rs re -> late_mapped s ar mapped va flags ->
  let ar' := mk_arena flags (priority ar) (base ar) va (size ar) (page_count ar - at_start ar rs - pages_for re) 0 (u64 (va + rs)) in
  separate s ar' ->
  if page_count ar <? at_start ar rs + pages_for re then pmm_add_arena_late_etc a rs re mapped s = Some (ERR_INVALID_ARGS, refused a ar s)
  else if page_count ar <=? at_start ar rs then pmm_add_arena_late_etc a rs re mapped s = None
  else exists s', pmm_add_arena_late_etc a rs re mapped s = Some (NO_ERROR, s') /\ pmm_wf s' /\ in_order s' /\ arena_added a ar' (at_start ar rs) (pages_for re) s s'.
Proof.
  intros Hw Ho Hk Hak Hn Ha Hd Hl Hm ar' Hsep. destruct (Z.ltb_spec (page_count ar) (at_start ar rs + pages_for re)) as [Hlt|Hge]; [by apply late_refused_run|].
  destruct (Z.leb_spec (page_count ar) (at_start ar rs)) as [Hle|Hgt]; [by apply (late_full_run a ar rs re mapped va flags s)|].
  exact (pmm_add_arena_late_run a ar rs re mapped va flags s Hw Ho Hk Hak Hn Ha Hd Hl Hm Hge Hgt Hsep).
Qed.

(** Vm_page_to_paddr gives a page a page-aligned address, and paddr_to_vm_page finds
    the page again from each of its bytes. *)
Theorem vm_page_paddr_round_trip s a ar i p :
  pmm_wf s -> addresses_disjoint s -> is_page s a ar i p ->
  exists pa, vm_page_to_paddr p s = Some (pa, s) /\ pa mod PAGE_SIZE = 0 /\ forall off, 0 <= off < PAGE_SIZE -> paddr_to_vm_page (pa + off) s = Some (Some p, s).
Proof.
  intros Hw Hd Hpg. exists (base ar + i * PAGE_SIZE). split_and!; [exact (page_address s a ar i p (wf_arenas _ Hw) Hpg)| |].
  - destruct (aw_arena _ (wf_arenas _ Hw) a (proj1 Hpg)) as (ar0 & Har & Hok). assert (ar0 = ar) as -> by (destruct Hpg as (_ & ? & _); congruence). by apply base_aligned.
  - intros off Hoff. exact (page_of_address s a ar i p off Hw Hd Hpg Hoff).
Qed.
End props.

Module PmmWitness.
Import PmmExample.

Definition low_arena : pmm_arena_t := set_counts 4 0 (placed 0xFFFF000040001000 low_mem low).
Definition high_arena : pmm_arena_t := set_counts 3 0 (placed 0xFFFF000040100000 high_mem high).
Lemma machine_list : arena_list machine = [1; 2].
Proof. by vm_compute. Qed.
Lemma machine_low : arenas machine !! 1 = Some low_arena.
Proof. by vm_compute. Qed.
Lemma machine_high : arenas machine !! 2 = Some high_arena.
Proof. by vm_compute. Qed.
Lemma machine_arena a ar : a ∈ arena_list machine -> arenas machine !! a = Some ar -> ar = low_arena \/ ar = high_arena.
Proof.
  rewrite machine_list. intros [->|Ha]%elem_of_cons; [rewrite machine_low; intros [= <-]; by left|]. apply list_elem_of_singleton in Ha as ->. rewrite machine_high. intros [= <-]. by right.
Qed.
Lemma machine_clear flags : clear_ok flags machine (arena_list machine).
Proof.
  assert (forall b br, b ∈ arena_list machine -> arenas machine !! b = Some br -> in_kernel br) as Hk.
  { intros b br Hb Hbr. unfold in_kernel. destruct (machine_arena b br Hb Hbr) as [->| ->]; cbn; lia. }
  intros a ar Ha Har _. right. split_and!; [by apply (Hk a)|done|done|]. intros b br Hb Hbr _. by apply (Hk b).
Qed.
Lemma machine_target : target machine (Some my_list).
Proof. split_and!; [done|done|]. exists []. by vm_compute. Qed.

Lemma machine_any_ok count flags : 0 < count -> contiguous flags = false -> alloc_ok (Some my_list) count flags 0 machine.
Proof.
  intros Hc Hf. assert (contiguous (effective count flags 0) = false) as He by (unfold effective; by rewrite Hf).
  constructor; [apply machine_wf|by vm_compute|done|by left|exact machine_target|exact (machine_clear flags)|congruence].
Qed.
Lemma alloc_ok_lock b pl count flags lg s : alloc_ok pl count flags lg s -> alloc_ok pl count flags lg (with_lock b s).
Proof. intros [A1 A2 A3 A4 A5 A6 A7]. constructor; [by apply lock_wf|exact A2|exact A3|exact A4|exact A5|exact A6|exact A7]. Qed.
Lemma small_search ar count : page_count ar <= 4 -> 0 <= count <= 4 -> search_ok ar count 14.
Proof. intros Hp Hc. constructor; [lia|lia|]. change (2 ^ (Z.max 14 PAGE_SIZE_SHIFT - PAGE_SIZE_SHIFT)) with 4. lia. Qed.
Lemma machine_run_ok : alloc_ok (Some my_list) 2 run_flags 14 machine.
Proof.
  constructor; [apply machine_wf|by vm_compute|done|by right|exact machine_target|exact (machine_clear run_flags)|]. intros _. split.
  - intros a ar Ha Har _. destruct (machine_arena a ar Ha Har) as [->| ->]; apply small_search; (lia || by vm_compute).
  - intros a ar Ha Har _ _. destruct (machine_arena a ar Ha Har) as [->| ->]; by vm_compute.
Qed.

Lemma pmm_alloc_pages_any_witness :
  (exists ps s', pmm_alloc_pages_locked (Some my_list) true 6 0 0 machine = Some ((0, ps), s') /\ succeeded (Some my_list) 6 0 ps machine s') /\
  (exists out s', pmm_alloc_pages_locked (Some my_list) true 8 0 0 machine = Some ((ERR_NO_MEMORY, out), s') /\ failed machine s').
Proof.
  pose proof (pmm_alloc_pages_any (Some my_list) true 6 0 0 machine (machine_any_ok 6 0 eq_refl eq_refl) eq_refl) as H6.
  pose proof (pmm_alloc_pages_any (Some my_list) true 8 0 0 machine (machine_any_ok 8 0 eq_refl eq_refl) eq_refl) as H8.
  assert (avail 0 machine (arena_list machine) = 7) as Ha by (by vm_compute). rewrite Ha in H6, H8. split; [exact H6|exact H8].
Defined.

Lemma pmm_alloc_contiguous_run_witness :
  exists ps s' pa, pmm_alloc_contiguous 2 14 (Some my_list) machine = Some ((2, Some pa), s') /\ succeeded (Some my_list) 2 run_flags ps machine s' /\ run_at machine pa 14 2 ps.
Proof.
  destruct machine_run_ok as [M1 M2 M3 M4 M5 M6 M7]. destruct (M7 eq_refl) as [Hse Hst].
  destruct (pmm_alloc_contiguous_run (Some my_list) 2 14 machine M1 eq_refl M2 M3 M5 M6 Hse Hst) as [Hx|(s' & Hr & _)].
  - exact Hx.
  - exfalso. assert (fst <$> pmm_alloc_contiguous 2 14 (Some my_list) machine = Some (2, Some 0x40100000)) as Hc by (by vm_compute). by rewrite Hr in Hc.
Defined.

Lemma pmm_alloc_free_round_trip_witness : exists out s' s'',
  pmm_alloc_pages_locked (Some my_list) true 6 0 0 machine = Some ((0, out), s') /\ pmm_free my_list s' = Some (6, s'') /\ pmm_wf s'' /\ pmm_equiv (local machine) s''.
Proof.
  destruct (pmm_alloc_pages_locked (Some my_list) true 6 0 0 machine) as [[[r out] s']|] eqn:Hr.
  - assert (fst <$> (fst <$> pmm_alloc_pages_locked (Some my_list) true 6 0 0 machine) = Some 0) as Hz by (by vm_compute). rewrite Hr in Hz. injection Hz as ->.
    destruct (pmm_alloc_free_round_trip my_list true 6 0 0 machine out s' (machine_any_ok 6 0 eq_refl eq_refl)) as (s'' & Hf & Hw & He); [by vm_compute|by vm_compute|exact Hr|].
    exists out, s', s''. exact (conj eq_refl (conj Hf (conj Hw He))).
  - assert (is_Some (pmm_alloc_pages_locked (Some my_list) true 6 0 0 machine)) as [? Hz] by (vm_compute; by eexists). congruence.
Defined.

(** In the low arena no run of two pages is aligned to 16 Kbytes, one of one page is. *)
Lemma pmm_find_free_run_spec_witness :
  pmm_arena_find_free_run 1 2 14 machine = Some (search_spec machine low_arena (Z.max 14 PAGE_SIZE_SHIFT) 2, machine) /\ search_spec machine low_arena 14 2 = no_run /\
  pmm_arena_find_free_run 1 1 14 machine = Some (search_spec machine low_arena (Z.max 14 PAGE_SIZE_SHIFT) 1, machine) /\ search_spec machine low_arena 14 1 = 3.
Proof.
  assert (1 ∈ arena_list machine) as Hin by (rewrite machine_list; left).
  split_and!; [apply (pmm_find_free_run_spec 1 low_arena 2 14 machine)|by vm_compute|apply (pmm_find_free_run_spec 1 low_arena 1 14 machine)|by vm_compute];
    try exact machine_low; try exact Hin; try apply machine_wf; apply small_search; (lia || by vm_compute).
Defined.

Lemma pmm_reserve_pages_outcome_witness :
  (exists s', pmm_reserve_pages 5 machine = Some (NO_ERROR, s') /\ listed_total reserved_count s' = 5) /\ pmm_reserve_pages 8 machine = Some (ERR_NO_MEMORY, machine).
Proof.
  assert (listed_total unreserved machine = 7) as Hu by (by vm_compute). assert (lock machine = false) as Hk by (by vm_compute). split.
  - pose proof (pmm_reserve_pages_outcome 5 machine (proj1 machine_wf) Hk ltac:(lia)) as Hr. rewrite Hu in Hr. destruct Hr as (s' & Hr & _ & _ & Ht & _). exists s'. split; [exact Hr|]. rewrite Ht. by vm_compute.
  - pose proof (pmm_reserve_pages_outcome 8 machine (proj1 machine_wf) Hk ltac:(lia)) as Hr. rewrite Hu in Hr. exact Hr.
Defined.

Lemma no_clear_ok pl count flags s : pmm_wf s -> aux_slock s = false -> 0 < count -> target s pl -> no_clear flags = true -> contiguous flags = false -> alloc_ok pl count flags 0 s.
Proof.
  intros Hw Hk Hc Ht Hn Hf. assert (contiguous (effective count flags 0) = false) as He by (unfold effective; by rewrite Hf).
  constructor; [done|done|done|by left|done| |congruence]. intros a ar _ _ _. by left.
Qed.

(** Two of the pages that are not reserved are taken first: those are all. *)
Lemma pmm_reservation_honoured_witness : exists s1 ps s2 ps' s3,
  pmm_reserve_pages 5 machine = Some (NO_ERROR, s1) /\ succeeded None 2 PMM_ALLOC_FLAG_NO_CLEAR ps s1 s2 /\
  pmm_alloc_pages_locked None true 5 12 0 s2 = Some ((0, ps'), s3) /\ succeeded None 5 12 ps' s2 s3.
Proof.
  assert (lock machine = false) as Hk by (by vm_compute). assert (aux_slock machine = false) as Hak by (by vm_compute). assert (listed_total unreserved machine = 7) as Hu by (by vm_compute).
  assert (avail PMM_ALLOC_FLAG_NO_CLEAR (after (pmm_reserve_pages 5) machine) (arena_list (after (pmm_reserve_pages 5) machine)) = 2) as Hav by (by vm_compute).
  pose proof (reserve_pages_run 5 machine (proj1 machine_wf) Hk ltac:(lia)) as Hr. rewrite Hu in Hr. destruct Hr as (s1 & Hr1 & Hw1 & Hre & _).
  assert (after (pmm_reserve_pages 5) machine = s1) as He by (unfold after; by rewrite Hr1). rewrite He in Hav.
  assert (aux_slock s1 = false) as Hak1 by (rewrite (proj2 (proj2 (proj2 (proj2 (re_rest _ _ _ Hre))))); exact Hak).
  pose proof (alloc_any_run None true 2 PMM_ALLOC_FLAG_NO_CLEAR 0 s1 (no_clear_ok None 2 PMM_ALLOC_FLAG_NO_CLEAR s1 Hw1 Hak1 eq_refl I eq_refl eq_refl) eq_refl) as H2. rewrite Hav in H2. destruct H2 as (ps & s2 & _ & Hs2).
  pose proof Hs2 as (Hg & Hw2 & _). assert (aux_slock s2 = false) as Hak2 by (rewrite (proj2 (gr_locks _ _ _ _ _ Hg)); exact Hak1).
  destruct (pmm_reservation_honoured 5 machine s1 None 2 PMM_ALLOC_FLAG_NO_CLEAR ps s2 None true 5 12 (proj1 machine_wf) Hk ltac:(lia) Hr1 eq_refl Hs2 (no_clear_ok None 5 12 s2 Hw2 Hak2 eq_refl I eq_refl eq_refl) eq_refl eq_refl eq_refl ltac:(lia)) as (ps' & s3 & Hr3 & Hs3).
  exists s1, ps, s2, ps', s3. exact (conj Hr1 (conj Hs2 (conj Hr3 Hs3))).
Defined.

Lemma pmm_add_arena_ok_witness : exists s', pmm_add_arena 1 low_mem boot = Some (NO_ERROR, s') /\ pmm_wf s' /\ in_order s' /\ arena_added 1 low_arena 0 0 boot s'.
Proof.
  destruct boot_wf as [Hw Ho]. apply (pmm_add_arena_ok 1 low low_mem 0xFFFF000040001000 boot Hw Ho).
  - done.
  - by intros ?%elem_of_nil.
  - done.
  - by split.
  - by split.
  - by intros b br p ?%elem_of_nil.
Defined.

(** An arena of eight pages of which one is reserved at the start and one at the end,
    and an arena of one page. *)
Definition tail_arena (n : Z) : pmm_arena_t := mk_arena PMM_ARENA_FLAG_KMAP 3 0x40200000 0 (n * 4096) 0 0 0.
Definition late (n : Z) : pmm := mk_pmm {[3 := tail_arena n]} [] ∅ {[my_list := []]} [] false false.
Lemma late_wf n : pmm_wf (late n) /\ in_order (late n).
Proof.
  destruct boot_wf as [[_ _ _ _ W5 W6 W7] _]. split; [|constructor]. constructor; try done; [constructor|by intros a ?%elem_of_nil|by intros a ar i p (?%elem_of_nil & _)|by intros a b ar br p ?%elem_of_nil|].
  intros pl q p Hq Hin. cbn in Hq. apply lookup_singleton_Some in Hq as [_ <-]. by apply elem_of_nil in Hin.
Qed.
Lemma tail_described n : 0 < n < 1000 -> described (tail_arena n) /\ late_ok (tail_arena n) 0x1000 0x1000 /\ page_count (tail_arena n) = n.
Proof.
  intros Hn. assert (page_count (tail_arena n) = n) as Hc by (unfold page_count; cbn; by rewrite Z.div_mul). split_and!; [| |done].
  - split; [by split|cbn; split_and!; [lia| |lia]|lia]. apply Z.eqb_eq. change (PAGE_SIZE - 1) with (Z.ones 12). rewrite Z.land_ones by lia. by apply Z.mod_mul.
  - split; [lia|lia|]. rewrite Hc. change PAGE_SIZE with 4096. unfold sizeof_vm_page. lia.
Qed.

Lemma pmm_add_arena_late_ok_witness :
  (exists s', pmm_add_arena_late_etc 3 0x1000 0x1000 (inl 0) (late 8) = Some (NO_ERROR, s') /\ pmm_wf s' /\ (free_count <$> arenas s' !! 3) = Some 5) /\
  pmm_add_arena_late_etc 3 0x1000 0 (inl 0) (late 2) = None.
Proof.
  split.
  - destruct (late_wf 8) as [Hw Ho]. destruct (tail_described 8 ltac:(lia)) as (Hd & Hl & Hc).
    destruct (pmm_add_arena_late_ok 3 (tail_arena 8) 0x1000 0x1000 (inl 0) 0xFFFF000040200000 PMM_ARENA_FLAG_KMAP (late 8) Hw Ho eq_refl eq_refl) as (s' & Hr & Hw' & _ & Had); [by intros ?%elem_of_nil|done|done|done|by split| |].
    + by intros b br p ?%elem_of_nil.
    + exists s'. split_and!; [exact Hr|exact Hw'|]. rewrite (ad_arena _ _ _ _ _ _ Had). by vm_compute.
  - destruct (late_wf 2) as [Hw Ho]. destruct (tail_described 2 ltac:(lia)) as (Hd & _ & Hc).
    apply (pmm_add_arena_late_ok 3 (tail_arena 2) 0x1000 0 (inl 0) 0xFFFF000040200000 PMM_ARENA_FLAG_KMAP (late 2) Hw Ho eq_refl eq_refl); [by intros ?%elem_of_nil|done|done| |by split|].
    + split; [lia|lia|]. rewrite Hc. change PAGE_SIZE with 4096. unfold sizeof_vm_page. lia.
    + by intros b br p ?%elem_of_nil.
Defined.

(** Two pages in a row are asked for. The low arena has a run of two but may give only
    one page, because three of its pages are reserved; the other page is then taken
    from the run of the high arena, and the call reports success. *)
Example contiguous_from_two_arenas :
  fst <$> (_ <- pmm_reserve_pages 3 ;; _ <- pmm_alloc_contiguous 2 0 (Some my_list) ;; gets (fun s => lists s !! my_list)) machine =
  Some (Some [page_at low_arena 0; page_at high_arena 0]).
Proof. by vm_compute. Qed.

Lemma low_below x : ADDRESS_IN_ARENA x low_arena = true -> x < 0x40100000.
Proof. unfold ADDRESS_IN_ARENA. change (u64 (base low_arena + size low_arena - 1)) with 0x40004fff. lia. Qed.
Lemma high_above x : ADDRESS_IN_ARENA x high_arena = true -> 0x40100000 <= x.
Proof. unfold ADDRESS_IN_ARENA. change (base high_arena) with 0x40100000. intros [Hx _]%andb_true_iff. lia. Qed.
Lemma machine_disjoint : addresses_disjoint machine.
Proof.
  intros a b ar br x Ha Hb Har Hbr Hx Hy. rewrite machine_list in Ha, Hb. apply elem_of_cons in Ha as [->|Ha%list_elem_of_singleton], Hb as [->|Hb%list_elem_of_singleton]; rewrite ?Ha, ?Hb in *; [reflexivity|exfalso|exfalso|reflexivity].
  - rewrite machine_low in Har. rewrite machine_high in Hbr. injection Har as <-. injection Hbr as <-. apply low_below in Hx. apply high_above in Hy. lia.
  - rewrite machine_high in Har. rewrite machine_low in Hbr. injection Har as <-. injection Hbr as <-. apply low_below in Hy. apply high_above in Hx. lia.
Qed.

Lemma vm_page_paddr_round_trip_witness : exists pa,
  vm_page_to_paddr (page_at high_arena 1) machine = Some (pa, machine) /\ pa mod PAGE_SIZE = 0 /\ (forall off, 0 <= off < PAGE_SIZE -> paddr_to_vm_page (pa + off) machine = Some (Some (page_at high_arena 1), machine)).
Proof.
  apply (vm_page_paddr_round_trip machine 2 high_arena 1); [apply machine_wf|exact machine_disjoint|].
  split_and!; [rewrite machine_list; right; left|exact machine_high|done|done|done].
Defined.
End PmmWitness.
