(* ===== verification/ResGroup.v ===== *)
(** * Resource groups and memory objects (kernel/vm/res_group.c, pmm.c, vmm.c)

    A resource group holds a reservation of pages that memory objects are made of.
    References are counted by reflist.h, which is not part of the repository: it is
    the class [ObjRefs], and [RefLaws] is what it documents. A reference is named by
    its address; the one a memory object has on its group by the object's address. *)
From stdpp Require Import base gmap list.
From Stdlib Require Import ZArith Lia.
From S2P Require Import Prelude Pmm.

Local Open Scope Z_scope.
Local Open Scope lk_scope.

Definition ERR_OUT_OF_RANGE : Z := -37.
Definition ERR_OBJECT_DESTROYED : Z := -11.
Definition PMM_OBJ_FLAG_NEEDS_CLEAR : Z := 1.
Definition PMM_OBJ_FLAG_ALLOW_TAGGED : Z := 2.

Class ObjRefs := {
  obj : Type;
  obj_init : Z -> obj;
  obj_add_ref : Z -> obj -> obj;
  obj_del_ref : Z -> obj -> obj * bool;
  obj_has_ref : obj -> bool;
  obj_has_only_ref : Z -> obj -> bool
}.

(** What the kernel needs from elsewhere: does the machine have tagged memory? *)
Class ResConfig := { arch_tagging_enabled : bool }.

Section res_group.
Context `{!PmmConfig} `{!ObjRefs} `{!ResConfig}.

Record res_group := mk_group { rg_obj : obj; reserved_pages : Z; used_pages : Z; is_shutdown : bool }.

(** A memory object; its list of pages is [PageList] at its address. There are no
    references before vmm_obj_init. *)
Record pmm_vmm_obj := mk_obj {
  vmm_obj : option obj; chunk_count : Z; chunk_size : Z; o_group : option Z; o_used_pages : Z; o_flags : Z; chunk : list Z
}.

Record rsys := mk_rsys { r_pmm : pmm; groups : gmap Z res_group; objs : gmap Z pmm_vmm_obj; res_group_lock : bool; vmm_lock : bool }.

Definition with_pmm (p : pmm) (s : rsys) : rsys := mk_rsys p (groups s) (objs s) (res_group_lock s) (vmm_lock s).
Definition with_groups (f : gmap Z res_group -> gmap Z res_group) (s : rsys) : rsys := mk_rsys (r_pmm s) (f (groups s)) (objs s) (res_group_lock s) (vmm_lock s).
Definition with_objs (f : gmap Z pmm_vmm_obj -> gmap Z pmm_vmm_obj) (s : rsys) : rsys := mk_rsys (r_pmm s) (groups s) (f (objs s)) (res_group_lock s) (vmm_lock s).
Definition with_group_lock (b : bool) (s : rsys) : rsys := mk_rsys (r_pmm s) (groups s) (objs s) b (vmm_lock s).
Definition with_vmm_lock (b : bool) (s : rsys) : rsys := mk_rsys (r_pmm s) (groups s) (objs s) (res_group_lock s) b.

Local Abbreviation MR := (M rsys).

Definition on_pmm {A} (m : M pmm A) : MR A := fun s => match m (r_pmm s) with Some (a, p) => Some (a, with_pmm p s) | None => None end.
Definition group_lock_acquire : MR unit := b <- gets res_group_lock ;; assert_ (negb b) ;; modify (with_group_lock true).
Definition group_lock_release : MR unit := modify (with_group_lock false).
Definition vmm_lock_acquire : MR unit := b <- gets vmm_lock ;; assert_ (negb b) ;; modify (with_vmm_lock true).
Definition vmm_lock_release : MR unit := modify (with_vmm_lock false).
Definition get_group (g : Z) : MR res_group := getsome (fun s => groups s !! g).
Definition upd_group (g : Z) (f : res_group -> res_group) : MR unit := x <- get_group g ;; modify (with_groups <[g := f x]>).
Definition get_obj (o : Z) : MR pmm_vmm_obj := getsome (fun s => objs s !! o).
Definition upd_obj (o : Z) (f : pmm_vmm_obj -> pmm_vmm_obj) : MR unit := x <- get_obj o ;; modify (with_objs <[o := f x]>).

Definition set_rg_obj (o : obj) (x : res_group) : res_group := mk_group o (reserved_pages x) (used_pages x) (is_shutdown x).
Definition set_reserved (n : Z) (x : res_group) : res_group := mk_group (rg_obj x) n (used_pages x) (is_shutdown x).
Definition set_used (n : Z) (x : res_group) : res_group := mk_group (rg_obj x) (reserved_pages x) n (is_shutdown x).
Definition set_shutdown (x : res_group) : res_group := mk_group (rg_obj x) (reserved_pages x) (used_pages x) true.
Definition set_vmm_obj (v : option obj) (x : pmm_vmm_obj) : pmm_vmm_obj := mk_obj v (chunk_count x) (chunk_size x) (o_group x) (o_used_pages x) (o_flags x) (chunk x).
Definition set_o_group (g : option Z) (n : Z) (x : pmm_vmm_obj) : pmm_vmm_obj := mk_obj (vmm_obj x) (chunk_count x) (chunk_size x) g n (o_flags x) (chunk x).
Definition set_o_flags (f : Z) (x : pmm_vmm_obj) : pmm_vmm_obj := mk_obj (vmm_obj x) (chunk_count x) (chunk_size x) (o_group x) (o_used_pages x) f (chunk x).
Definition set_chunk (l : list Z) (x : pmm_vmm_obj) : pmm_vmm_obj := mk_obj (vmm_obj x) (chunk_count x) (chunk_size x) (o_group x) (o_used_pages x) (o_flags x) l.

(** ** Resource groups *)

(** The counts of pmm_reserve_pages and pmm_unreserve_pages have 32 bits. *)
Definition res_group_destroy (g : Z) : MR Z :=
  x <- get_group g ;;
  assert_ (is_shutdown x) ;;
  assert_ (used_pages x =? 0) ;;
  assert_ (negb (obj_has_ref (rg_obj x))) ;;
  when (negb (reserved_pages x =? 0)) (on_pmm (pmm_unreserve_pages (u32 (reserved_pages x)))) ;;
  modify (with_groups (delete g)) ;;
  ret NO_ERROR.

(** [mem] is what calloc returns. *)
Definition res_group_create (mem : option Z) (pages ref : Z) : MR (option Z) :=
  match mem with
  | None => ret None
  | Some g =>
      r <- on_pmm (pmm_reserve_pages (u32 pages)) ;;
      if negb (r =? 0) then ret None
      else
        modify (with_groups <[g := mk_group (obj_init ref) pages 0 false]>) ;;
        ret (Some g)
  end.

Definition res_group_add_ref (g ref : Z) : MR unit :=
  group_lock_acquire ;;
  upd_group g (fun x => set_rg_obj (obj_add_ref ref (rg_obj x)) x) ;;
  group_lock_release.

Definition res_group_del_ref (g ref : Z) : MR unit :=
  group_lock_acquire ;;
  x <- get_group g ;;
  let '(o, destroy) := obj_del_ref ref (rg_obj x) in
  upd_group g (set_rg_obj o) ;;
  group_lock_release ;;
  when destroy (_ <- res_group_destroy g ;; ret tt).

Definition res_group_shutdown (g : Z) : MR Z :=
  group_lock_acquire ;;
  x <- get_group g ;;
  assert_ (negb (is_shutdown x)) ;;
  upd_group g set_shutdown ;;
  let unused_pages := u64 (reserved_pages x - used_pages x) in
  upd_group g (fun x => set_reserved (u64 (reserved_pages x - unused_pages)) x) ;;
  group_lock_release ;;
  on_pmm (pmm_unreserve_pages (u32 unused_pages)) ;;
  ret NO_ERROR.

Definition check_take (x : res_group) (n : Z) : Z :=
  if is_shutdown x then ERR_OBJECT_DESTROYED
  else if 2 ^ 64 <=? used_pages x + n then ERR_NO_MEMORY
  else if used_pages x + n >? reserved_pages x then ERR_NO_MEMORY
  else NO_ERROR.
Definition res_group_take_mem (g n : Z) : MR Z :=
  group_lock_acquire ;;
  x <- get_group g ;;
  let r := check_take x n in
  when (r =? 0) (upd_group g (fun x => set_used (used_pages x + n) x)) ;;
  group_lock_release ;;
  ret r.
Definition res_group_release_mem (g n : Z) : MR unit :=
  group_lock_acquire ;;
  x <- get_group g ;;
  assert_ (used_pages x >=? n) ;;
  upd_group g (fun x => set_used (used_pages x - n) x) ;;
  group_lock_release.

(** ** Memory objects *)

(** The list head of an object that is freed goes away with it. *)
Definition free_obj (o : Z) : MR unit := modify (with_objs (delete o)) ;; on_pmm (modify (with_lists (delete (PageList o)))).

Definition pmm_alloc_obj (mem : option Z) (count size : Z) : MR (option Z) :=
  assert_ (size mod PAGE_SIZE =? 0) ;;
  if count =? 0 then ret None
  else
    match mem with
    | None => ret None
    | Some o =>
        modify (with_objs <[o := mk_obj None count size None 0 0 []]>) ;;
        on_pmm (list_initialize (PageList o)) ;;
        ret (Some o)
    end.

Definition vmm_obj_init (o ref : Z) : MR unit := upd_obj o (set_vmm_obj (Some (obj_init ref))).

(** [ref] must not be in use. The result is the status and the object. *)
Definition pmm_alloc_from_res_group (mem : option Z) (ref : Z) (ref_active : bool) (g : option Z) (count flags align_log2 : Z) : MR (Z * option Z) :=
  assert_ (negb ref_active) ;;
  assert_ (count >? 0) ;;
  assert_ (negb (has_flag PMM_ALLOC_FLAG_FROM_RESERVED flags) || bool_decide (is_Some g)) ;;
  r <- match g with
       | Some g => assert_ (has_flag PMM_ALLOC_FLAG_FROM_RESERVED flags) ;; res_group_take_mem g count
       | None => ret NO_ERROR
       end ;;
  if negb (r =? 0) then ret (r, None)
  else
    let release := match g with Some g => res_group_release_mem g count | None => ret tt end in
    x <- (if has_flag PMM_ALLOC_FLAG_CONTIGUOUS flags then pmm_alloc_obj mem 1 (u64 (count * PAGE_SIZE))
          else pmm_alloc_obj mem count PAGE_SIZE) ;;
    match x with
    | None => release ;; ret (ERR_NO_MEMORY, None)
    | Some o =>
        on_pmm mutex_acquire ;;
        x <- on_pmm (pmm_alloc_pages_locked (Some (PageList o)) true count flags align_log2) ;;
        let '(r, out) := x in
        upd_obj o (set_chunk out) ;;
        when (has_flag PMM_ALLOC_FLAG_NO_CLEAR flags) (upd_obj o (fun x => set_o_flags (Z.lor (o_flags x) PMM_OBJ_FLAG_NEEDS_CLEAR) x)) ;;
        when (has_flag PMM_ALLOC_FLAG_ALLOW_TAGGED flags)
          (assert_ arch_tagging_enabled ;; upd_obj o (fun x => set_o_flags (Z.lor (o_flags x) PMM_OBJ_FLAG_ALLOW_TAGGED) x)) ;;
        on_pmm mutex_release ;;
        if negb (r =? 0) then free_obj o ;; release ;; ret (r, None)
        else
          match g with
          | Some g => res_group_add_ref g o ;; upd_obj o (set_o_group (Some g) count)
          | None => ret tt
          end ;;
          vmm_obj_init o ref ;;
          ret (NO_ERROR, Some o)
    end.

(** The address and how many bytes follow it, or an error. *)
Definition pmm_vmm_obj_get_page (o offset : Z) : MR (Z + Z * Z) :=
  x <- get_obj o ;;
  let index := offset / chunk_size x in
  let chunk_offset := offset mod chunk_size x in
  if index >=? chunk_count x then ret (inl ERR_OUT_OF_RANGE)
  else
    p <- getsome (fun _ => chunk x !! Z.to_nat index) ;;
    pa <- on_pmm (vm_page_to_paddr p) ;;
    ret (inr (u64 (pa + chunk_offset), chunk_size x - chunk_offset)).

Definition pmm_vmm_obj_destroy (o : Z) : MR unit :=
  _ <- on_pmm (pmm_free (PageList o)) ;;
  x <- get_obj o ;;
  match o_group x with
  | Some g => res_group_release_mem g (o_used_pages x) ;; res_group_del_ref g o
  | None => ret tt
  end ;;
  free_obj o.

Definition obj_flag (f : Z) (x : pmm_vmm_obj) : bool := has_flag f (o_flags x).
(** [o] may be an object of another kind. *)
Definition pmm_vmm_is_pmm_that_needs_clear (o : Z) : MR bool :=
  x <- gets (fun s => objs s !! o) ;; ret (match x with Some x => obj_flag PMM_OBJ_FLAG_NEEDS_CLEAR x | None => false end).
Definition pmm_vmm_is_pmm_that_allows_tagged (o : Z) : MR bool :=
  x <- gets (fun s => objs s !! o) ;; ret (match x with Some x => obj_flag PMM_OBJ_FLAG_ALLOW_TAGGED x | None => false end).
Definition pmm_set_cleared (o offset size : Z) : MR unit :=
  b <- pmm_vmm_is_pmm_that_needs_clear o ;;
  assert_ b ;;
  assert_ (offset =? 0) ;;
  x <- get_obj o ;;
  assert_ (size =? u64 (chunk_count x * chunk_size x)) ;;
  upd_obj o (fun x => set_o_flags (Z.ldiff (o_flags x) PMM_OBJ_FLAG_NEEDS_CLEAR) x).
Definition pmm_set_tagged (o : Z) : MR unit :=
  b <- pmm_vmm_is_pmm_that_allows_tagged o ;;
  assert_ b ;;
  upd_obj o (fun x => set_o_flags (Z.ldiff (o_flags x) PMM_OBJ_FLAG_ALLOW_TAGGED) x).

(** ** References to memory objects *)
Definition get_vmm_obj (o : Z) : MR obj := x <- get_obj o ;; getsome (fun _ => vmm_obj x).
Definition vmm_obj_add_ref (o ref : Z) : MR unit :=
  vmm_lock_acquire ;;
  v <- get_vmm_obj o ;;
  upd_obj o (set_vmm_obj (Some (obj_add_ref ref v))) ;;
  vmm_lock_release.
Definition vmm_obj_del_ref (o ref : Z) : MR unit :=
  vmm_lock_acquire ;;
  v <- get_vmm_obj o ;;
  let '(v, destroy) := obj_del_ref ref v in
  upd_obj o (set_vmm_obj (Some v)) ;;
  vmm_lock_release ;;
  when destroy (pmm_vmm_obj_destroy o).
Definition vmm_obj_has_only_ref (o ref : Z) : MR bool :=
  vmm_lock_acquire ;;
  v <- get_vmm_obj o ;;
  vmm_lock_release ;;
  ret (obj_has_only_ref ref v).
End res_group.
