(* ===== verification/ResInv.v ===== *)
(** * Resource groups: the invariant

    The pages the arenas keep reserved are those the groups have reserved and not
    handed out; what a group has handed out is what its objects hold. *)
From stdpp Require Import base gmap list.
From Stdlib Require Import ZArith Lia.
From S2P Require Import Prelude Pmm PmmInv PmmGrab PmmAlloc PmmFree PmmPages PmmReserve PmmOutcome ResGroup.

Local Open Scope Z_scope.
Local Open Scope lk_scope.

(** What reflist.h documents. *)
Class RefLaws `{!ObjRefs} := {
  obj_refs : obj -> gset Z;
  refs_init r : obj_refs (obj_init r) = {[r]};
  refs_add r v : obj_refs (obj_add_ref r v) = {[r]} ∪ obj_refs v;
  refs_del r v : r ∈ obj_refs v -> obj_refs (fst (obj_del_ref r v)) = obj_refs v ∖ {[r]} /\ snd (obj_del_ref r v) = bool_decide (obj_refs v ∖ {[r]} = ∅);
  refs_has v : obj_has_ref v = negb (bool_decide (obj_refs v = ∅));
  refs_only r v : obj_has_only_ref r v = bool_decide (obj_refs v = {[r]})
}.

(** ** Sums over a map *)
Section msum.
Context {A : Type}.
Implicit Types (f : A -> Z) (m : gmap Z A).

Definition msum f m : Z := map_fold (fun _ x n => f x + n) 0 m.
Lemma msum_empty f : msum f ∅ = 0.
Proof. apply map_fold_empty. Qed.
Lemma msum_fresh f m k x : m !! k = None -> msum f (<[k := x]> m) = f x + msum f m.
Proof. intros Hk. unfold msum. rewrite map_fold_insert_L; [done| |done]. intros; lia. Qed.
Lemma msum_delete f m k x : m !! k = Some x -> msum f m = f x + msum f (delete k m).
Proof. intros Hk. rewrite <- (msum_fresh f (delete k m) k x) by apply lookup_delete_eq. by rewrite insert_delete_id. Qed.
Lemma msum_update f m k x y : m !! k = Some x -> msum f (<[k := y]> m) = msum f m - f x + f y.
Proof.
  intros Hk. rewrite (msum_delete f m k x) by done. rewrite (msum_delete f (<[k := y]> m) k y) by apply lookup_insert_eq. rewrite delete_insert_eq. lia.
Qed.
Lemma msum_nonneg f m : (forall k x, m !! k = Some x -> 0 <= f x) -> 0 <= msum f m.
Proof.
  induction m as [|k x m Hk IH] using map_ind; intros Hf; [by rewrite msum_empty|]. rewrite msum_fresh by done.
  pose proof (Hf k x (lookup_insert_eq _ _ _)). assert (0 <= msum f m); [|lia]. apply IH. intros k' x' Hk'. apply (Hf k'). rewrite lookup_insert_ne; [done|congruence].
Qed.
Lemma msum_zero f m : (forall k x, m !! k = Some x -> f x = 0) -> msum f m = 0.
Proof.
  induction m as [|k x m Hk IH] using map_ind; intros Hf; [by rewrite msum_empty|]. rewrite msum_fresh by done. rewrite (Hf k x (lookup_insert_eq _ _ _)), IH; [done|].
  intros k' x' Hk'. apply (Hf k'). rewrite lookup_insert_ne; [done|congruence].
Qed.
Lemma msum_one f m k x : m !! k = Some x -> (forall k' x', m !! k' = Some x' -> 0 <= f x') -> f x <= msum f m.
Proof.
  intros Hk Hf. rewrite (msum_delete f m k x) by done. assert (0 <= msum f (delete k m)); [|lia]. apply msum_nonneg. intros k' x' Hx. apply (Hf k'). by apply lookup_delete_Some in Hx as [_ ?].
Qed.
Lemma msum_ext f g m : (forall k x, m !! k = Some x -> f x = g x) -> msum f m = msum g m.
Proof.
  induction m as [|k x m Hk IH] using map_ind; intros Hf; [done|]. rewrite !msum_fresh by done. rewrite (Hf k x (lookup_insert_eq _ _ _)), IH; [done|].
  intros k' x' Hk'. apply (Hf k'). rewrite lookup_insert_ne; [done|congruence].
Qed.
End msum.

Section inv.
Context `{!PmmConfig} `{!PmmLaws} `{!ObjRefs} `{!RefLaws} `{!ResConfig}.
Implicit Types (a p i g o r : Z) (ar : pmm_arena_t) (ps q l : list Z).

(** ** How many reserved pages are taken and given back *)
Lemma total_add (f h : pmm_arena_t -> Z) (s : pmm) l : total (fun ar => f ar + h ar) s l = total f s l + total h s l.
Proof. induction l as [|a l IH]; [done|]. cbn. fold (total f s l) (total h s l) (total (fun ar => f ar + h ar) s l). rewrite IH. destruct (arenas s !! a); lia. Qed.
Lemma total_none (f : pmm_arena_t -> Z) (s : pmm) l : (forall a ar, a ∈ l -> arenas s !! a = Some ar -> f ar = 0) -> total f s l = 0.
Proof.
  induction l as [|a l IH]; intros Hf; [done|]. cbn. fold (total f s l). rewrite IH by (intros b br Hb; apply Hf; by right). destruct (arenas s !! a) as [ar|] eqn:Har; [rewrite (Hf a ar ltac:(left) Har)|]; lia.
Qed.
Lemma total_single (f : pmm_arena_t -> Z) (s : pmm) l a ar : NoDup l -> a ∈ l -> arenas s !! a = Some ar -> (forall b br, b ∈ l -> arenas s !! b = Some br -> b <> a -> f br = 0) -> total f s l = f ar.
Proof.
  induction l as [|b l IH]; [by intros _ ?%elem_of_nil|]. intros [Hn Hnd]%NoDup_cons Ha Har Hf. cbn. fold (total f s l). apply elem_of_cons in Ha as [<-|Ha].
  - rewrite Har, total_none; [lia|]. intros b br Hb Hbr. apply (Hf b br); [by right|done|congruence].
  - rewrite (IH Hnd Ha Har) by (intros c cr Hc; apply Hf; by right). destruct (arenas s !! b) as [br|] eqn:Hbr; [|lia]. rewrite (Hf b br); [lia|left|done|congruence].
Qed.

Lemma total_cnt (s : pmm) ps : pmm_wf s -> (forall p, p ∈ ps -> exists a ar i, is_page s a ar i p) -> total (fun ar => cnt ar ps) s (arena_list s) = Z.of_nat (length ps).
Proof.
  intros Hw. induction ps as [|p ps IH]; intros Hp; [by rewrite total_none|]. destruct (Hp p ltac:(left)) as (a & ar & i & Hpg).
  transitivity (total (fun ar => cnt ar [p] + cnt ar ps) s (arena_list s)).
  { clear. induction (arena_list s) as [|b l IH]; [done|]. cbn. fold (total (fun ar => cnt ar (p :: ps)) s l) (total (fun ar => cnt ar [p] + cnt ar ps) s l). rewrite IH. destruct (arenas s !! b) as [br|]; [|done]. by rewrite <- cnt_app. }
  rewrite total_add, IH by (intros x Hx; apply Hp; by right). rewrite (total_single _ s _ a ar (pw_arenas _ Hw) (proj1 Hpg) (proj1 (proj2 Hpg))).
  - rewrite (cnt_one s a ar i p Hpg). cbn [length]. lia.
  - intros b br Hb Hbr Hne. by apply (cnt_other s a b ar br i p).
Qed.

Lemma total_minus (f h f' : pmm_arena_t -> Z) (s s' : pmm) l : (forall a ar, a ∈ l -> arenas s !! a = Some ar -> exists ar', arenas s' !! a = Some ar' /\ f' ar' = f ar - h ar) ->
  (forall a, a ∈ l -> is_Some (arenas s !! a)) -> total f' s' l = total f s l - total h s l.
Proof.
  induction l as [|a l IH]; intros Hf Hs; [done|]. cbn. fold (total f s l) (total h s l) (total f' s' l). rewrite IH; [|by intros b br Hb; apply Hf; right|by intros b Hb; apply Hs; right].
  destruct (Hs a ltac:(left)) as [ar Har]. destruct (Hf a ar ltac:(left) Har) as (ar' & Har' & He). rewrite Har, Har', He. lia.
Qed.

Lemma grabbed_takes dst ps (s s' : pmm) : pmm_wf s -> grabbed dst true ps s s' -> listed_total reserved_count s' = listed_total reserved_count s - Z.of_nat (length ps).
Proof.
  intros Hw Hg. unfold listed_total. rewrite (gr_list _ _ _ _ _ Hg). rewrite <- (total_cnt s ps Hw) by (intros p Hp; destruct (gr_free _ _ _ _ _ Hg p Hp) as (a & ar & i & fl & ? & _); by exists a, ar, i).
  apply total_minus; [|intros a Ha; apply (arena_some s a (wf_arenas _ Hw) Ha)]. intros a ar Ha Har. exists (cost true (cnt ar ps) ar). by rewrite (gr_arenas _ _ _ _ _ Hg), decide_True, Har.
Qed.

Lemma released_gives pl ps (s s' : pmm) : pmm_wf s -> lists s !! pl = Some ps -> released pl ps [] s s' ->
  listed_total reserved_count s' = listed_total reserved_count s + Z.of_nat (length (filter (fun p => page_reserved s p = true) ps)).
Proof.
  intros Hw Hq Hr. unfold listed_total. rewrite (rl_list _ _ _ _ _ Hr). set (qs := filter _ ps). rewrite <- (total_cnt s qs Hw).
  - rewrite (total_minus reserved_count (fun ar => - cnt ar qs) reserved_count s s').
    + assert (total (fun ar => - cnt ar qs) s (arena_list s) = - total (fun ar => cnt ar qs) s (arena_list s)) as ->; [|lia].
      clear. induction (arena_list s) as [|b l IH]; [done|]. cbn. fold (total (fun ar => - cnt ar qs) s l) (total (fun ar => cnt ar qs) s l). rewrite IH. destruct (arenas s !! b); lia.
    + intros a ar Ha Har. exists (gain s ps ar). rewrite (rl_arenas _ _ _ _ _ Hr), decide_True, Har by done. split; [done|]. unfold gain. fold qs. cbn. lia.
    + intros a Ha. apply (arena_some s a (wf_arenas _ Hw) Ha).
  - intros p [_ Hp]%list_elem_of_filter. destruct (pw_lists _ Hw _ _ _ Hq Hp) as (a & ar & i & fl & ? & _). by exists a, ar, i.
Qed.

(** ** Lists that are not free lists may come and go *)
Lemma lists_wf (s : pmm) (L : gmap page_list (list Z)) : pmm_wf s -> (forall a, L !! FreeList a = lists s !! FreeList a) ->
  (forall k q, L !! k = Some q -> q = [] \/ lists s !! k = Some q) -> pmm_wf (with_lists (fun _ => L) s).
Proof.
  intros Hw Hf Hk. assert (forall k q p, L !! k = Some q -> p ∈ q -> lists s !! k = Some q) as Hin by (intros k q p Hq Hp; destruct (Hk k q Hq) as [->|?]; [by apply elem_of_nil in Hp|done]).
  constructor; try apply Hw.
  - intros a Ha. destruct (pw_arena _ Hw a Ha) as (ar & q & ? & ? & Hq & ?). exists ar, q. split_and!; [done|done|by cbn; rewrite Hf|done].
  - intros a ar i p Hp. destruct (pw_page _ Hw _ _ _ _ Hp) as (fl & Hfl & Hx). exists fl. split; [done|]. intros Hn. destruct (Hx Hn) as (Hr & q & Hq & Hi). split; [done|]. exists q. split; [by cbn; rewrite Hf|done].
  - intros k q p Hq Hp. exact (pw_lists _ Hw k q p (Hin _ _ _ Hq Hp) Hp).
  - intros k q Hq. destruct (Hk k q Hq) as [->|Hq']; [by apply NoDup_nil_2|by apply (pw_nodup _ Hw k)].
  - intros k k' q q' p Hq Hq' Hp Hp'. exact (pw_unique _ Hw k k' q q' p (Hin _ _ _ Hq Hp) (Hin _ _ _ Hq' Hp') Hp Hp').
Qed.

(** ** The invariant *)
Implicit Types (s : rsys) (x : res_group) (y : pmm_vmm_obj).

Definition unused x : Z := reserved_pages x - used_pages x.
Definition held g y : Z := if decide (o_group y = Some g) then o_used_pages y else 0.

(** The pages of an object and its reference to its group. *)
Definition obj_ok s o y ps : Prop :=
  match o_group y with
  | Some g => Z.of_nat (length ps) = o_used_pages y /\ (forall p, p ∈ ps -> page_reserved (r_pmm s) p = true) /\ exists x, groups s !! g = Some x /\ o ∈ obj_refs (rg_obj x)
  | None => forall p, p ∈ ps -> page_reserved (r_pmm s) p = false
  end.

Record res_inv s : Prop := {
  ri_pmm : pmm_wf (r_pmm s);
  ri_locks : lock (r_pmm s) = false /\ aux_slock (r_pmm s) = false /\ res_group_lock s = false /\ vmm_lock s = false;
  ri_groups : forall g x, groups s !! g = Some x -> 0 <= used_pages x <= reserved_pages x /\ reserved_pages x < 2 ^ 32;
  ri_total : listed_total reserved_count (r_pmm s) = msum unused (groups s);
  ri_objs : forall o y, objs s !! o = Some y -> exists ps, lists (r_pmm s) !! PageList o = Some ps /\ obj_ok s o y ps;
  ri_used : forall g x, groups s !! g = Some x -> used_pages x = msum (held g) (objs s)
}.
End inv.
