(* ===== verification/ResOps.v ===== *)
(** * Resource groups: the operations *)
From stdpp Require Import base gmap list.
From Stdlib Require Import ZArith Lia.
From S2P Require Import Prelude Pmm PmmInv PmmGrab PmmAlloc PmmFree PmmPages PmmReserve PmmOutcome ResGroup ResInv.

Local Open Scope Z_scope.
Local Open Scope lk_scope.

Section ops.
Context `{!PmmConfig} `{!PmmLaws} `{!ObjRefs} `{!RefLaws} `{!ResConfig}.
Implicit Types (a p i g o n : Z) (s : rsys) (x : res_group) (y : pmm_vmm_obj) (ps q : list Z).

(** ** Steps *)
Lemma on_pmm_bind {A B} (m : M pmm A) (k : A -> M rsys B) s (r : A) (p' : pmm) : m (r_pmm s) = Some (r, p') -> bind (on_pmm m) k s = k r (with_pmm p' s).
Proof. intros Hm. apply bind_eq. unfold on_pmm. by rewrite Hm. Qed.
Lemma group_acquire_bind {A} (k : unit -> M rsys A) s : res_group_lock s = false -> bind group_lock_acquire k s = k tt (with_group_lock true s).
Proof. intros Hk. unfold group_lock_acquire. by rewrite bind_assoc, gets_bind, bind_assoc, assert_bind by (by rewrite Hk). Qed.
Lemma group_release_bind {A} (k : unit -> M rsys A) s : bind group_lock_release k s = k tt (with_group_lock false s).
Proof. done. Qed.
Lemma get_group_bind {A} g x (k : res_group -> M rsys A) s : groups s !! g = Some x -> bind (get_group g) k s = k x s.
Proof. intros Hg. apply bind_eq. by apply getsome_eq. Qed.
Lemma upd_group_bind {A} g x f (k : unit -> M rsys A) s : groups s !! g = Some x -> bind (upd_group g f) k s = k tt (with_groups <[g := f x]> s).
Proof. intros Hg. unfold upd_group. by rewrite bind_assoc, (get_group_bind g x). Qed.
Lemma get_obj_bind {A} o y (k : pmm_vmm_obj -> M rsys A) s : objs s !! o = Some y -> bind (get_obj o) k s = k y s.
Proof. intros Hg. apply bind_eq. by apply getsome_eq. Qed.
Lemma upd_obj_bind {A} o y f (k : unit -> M rsys A) s : objs s !! o = Some y -> bind (upd_obj o f) k s = k tt (with_objs <[o := f y]> s).
Proof. intros Hg. unfold upd_obj. by rewrite bind_assoc, (get_obj_bind o y). Qed.

Lemma group_unlock s : res_group_lock s = false -> with_group_lock false (with_group_lock true s) = s.
Proof. destruct s. cbn. by intros ->. Qed.

(** [m] does not look at the objects. *)
Definition blind {A} (m : M rsys A) : Prop := forall f s, m (with_objs f s) = match m s with Some (r, s') => Some (r, with_objs f s') | None => None end.
Lemma blind_bind {A B} (m : M rsys A) (k : A -> M rsys B) : blind m -> (forall r, blind (k r)) -> blind (bind m k).
Proof. intros Hm Hk f s. unfold bind. rewrite Hm. destruct (m s) as [[r s']|]; [apply Hk|done]. Qed.
Lemma blind_ret {A} (r : A) : blind (ret r).
Proof. done. Qed.
Lemma blind_assert b : blind (assert_ b).
Proof. by destruct b. Qed.
Lemma blind_on_pmm {A} (m : M pmm A) : blind (on_pmm m).
Proof. intros f s. unfold on_pmm. cbn. destruct (m (r_pmm s)) as [[r p]|]; done. Qed.
Lemma blind_get g : blind (get_group g).
Proof. intros f s. unfold get_group, getsome. cbn. by destruct (groups s !! g). Qed.
Lemma blind_when b m : blind m -> blind (when b m).
Proof. by destruct b. Qed.
Lemma blind_acquire : blind group_lock_acquire.
Proof. intros f s. unfold group_lock_acquire, bind, gets. cbn. by destruct (res_group_lock s). Qed.
Create HintDb blind.
Hint Resolve blind_bind blind_ret blind_assert @blind_on_pmm blind_get blind_when blind_acquire : blind.
Lemma blind_upd g f : blind (upd_group g f).
Proof. apply blind_bind; [apply blind_get|done]. Qed.
Hint Resolve blind_upd : blind.
Lemma blind_destroy g : blind (res_group_destroy g).
Proof. unfold res_group_destroy. repeat (apply blind_bind; intros); auto with blind; done. Qed.
Lemma blind_release_mem g n : blind (res_group_release_mem g n).
Proof. unfold res_group_release_mem. repeat (apply blind_bind; intros); auto with blind; done. Qed.
Lemma blind_del_ref g r : blind (res_group_del_ref g r).
Proof.
  unfold res_group_del_ref. apply blind_bind; [apply blind_acquire|intros _]. apply blind_bind; [apply blind_get|intros x]. destruct (obj_del_ref r (rg_obj x)) as [v d].
  apply blind_bind; [apply blind_upd|intros _]. apply blind_bind; [done|intros _]. apply blind_when. apply blind_bind; [apply blind_destroy|done].
Qed.

(** ** What the invariant is about *)
Lemma total_unused s g x : res_inv s -> groups s !! g = Some x -> 0 <= unused x <= listed_total reserved_count (r_pmm s).
Proof.
  intros Hi Hg. rewrite (ri_total _ Hi). pose proof (ri_groups _ Hi g x Hg). split; [unfold unused; lia|]. apply (msum_one unused (groups s) g x Hg). intros k x' Hk. pose proof (ri_groups _ Hi k x' Hk). unfold unused. lia.
Qed.

(** A change of the groups and of the reserved counts only. *)
Lemma res_inv_groups s (p' : pmm) (G : gmap Z res_group) : res_inv s -> pmm_wf p' -> lock p' = false /\ aux_slock p' = false -> pages p' = pages (r_pmm s) -> lists p' = lists (r_pmm s) ->
  (forall g x, G !! g = Some x -> 0 <= used_pages x <= reserved_pages x /\ reserved_pages x < 2 ^ 32 /\ used_pages x = msum (held g) (objs s)) ->
  listed_total reserved_count p' = msum unused G ->
  (forall o y g x, objs s !! o = Some y -> o_group y = Some g -> groups s !! g = Some x -> o ∈ obj_refs (rg_obj x) -> exists x', G !! g = Some x' /\ o ∈ obj_refs (rg_obj x')) ->
  res_inv (mk_rsys p' G (objs s) false false).
Proof.
  intros Hi Hw Hl Hp Hq HG Ht Hr. constructor; cbn.
  - done.
  - naive_solver.
  - intros g x Hg. specialize (HG g x Hg). naive_solver.
  - done.
  - intros o y Hy. destruct (ri_objs _ Hi o y Hy) as (ps & Hps & Hok). exists ps. rewrite Hq. split; [done|]. unfold obj_ok in *. cbn. unfold page_reserved in *. rewrite Hp.
    destruct (o_group y) as [g|] eqn:Hgy; [|done]. destruct Hok as (Q1 & Q2 & x & Hx & Hin). split_and!; [done|done|]. by apply (Hr o y g x).
  - intros g x Hg. by apply HG.
Qed.

Lemma eta s : res_inv s -> mk_rsys (r_pmm s) (groups s) (objs s) false false = s.
Proof. intros Hi. destruct (ri_locks _ Hi) as (_ & _ & Q1 & Q2). destruct s; cbn in *; by subst. Qed.

(** ** Creating and closing a group *)
Lemma create_run s g pages ref : res_inv s -> groups s !! g = None -> (forall o y, objs s !! o = Some y -> o_group y <> Some g) -> 0 <= pages < 2 ^ 32 ->
  if pages <=? listed_total unreserved (r_pmm s)
  then exists s', res_group_create (Some g) pages ref s = Some (Some g, s') /\ res_inv s' /\ objs s' = objs s /\ groups s' = <[g := mk_group (obj_init ref) pages 0 false]> (groups s)
  else res_group_create (Some g) pages ref s = Some (None, s).
Proof.
  intros Hi Hg Ho Hp. destruct (ri_locks _ Hi) as (Hk & Hak & Hgl & Hvl). unfold res_group_create. rewrite u32_small by done. pose proof (reserve_pages_run pages (r_pmm s) (ri_pmm _ Hi) Hk ltac:(lia)) as Hr.
  destruct (pages <=? _).
  - destruct Hr as (p' & Hr & Hw & Hre & Ht). rewrite (on_pmm_bind _ _ _ _ _ Hr). cbn. eexists. split; [reflexivity|]. split; [|done]. destruct (re_rest _ _ _ Hre) as (E1 & E2 & _ & E3 & E4).
    unfold with_groups, with_pmm. cbn. rewrite Hgl, Hvl. apply res_inv_groups; [done|done|split; congruence|done|done| | |].
    + intros g' x. destruct (decide (g' = g)) as [->|Hne]; [rewrite lookup_insert_eq; intros [= <-]|rewrite lookup_insert_ne by done].
      * cbn. split_and!; [lia|lia|lia|]. symmetry. apply msum_zero. intros o y Hy. unfold held. by rewrite decide_False by (by apply (Ho o)).
      * intros Hx. pose proof (ri_groups _ Hi g' x Hx). pose proof (ri_used _ Hi g' x Hx). naive_solver.
    + rewrite msum_fresh, Ht, (ri_total _ Hi) by done. unfold unused. cbn. lia.
    + intros o y g' x Hy Hgy Hx Hin. exists x. split; [|done]. rewrite lookup_insert_ne; [done|congruence].
  - rewrite (on_pmm_bind _ _ s _ _ Hr). cbn. unfold ret. by destruct s.
Qed.

Lemma shutdown_run s g x : res_inv s -> groups s !! g = Some x -> is_shutdown x = false ->
  exists s', res_group_shutdown g s = Some (NO_ERROR, s') /\ res_inv s' /\ objs s' = objs s /\ groups s' = <[g := mk_group (rg_obj x) (used_pages x) (used_pages x) true]> (groups s).
Proof.
  intros Hi Hg Hs. destruct (ri_locks _ Hi) as (Hk & Hak & Hgl & Hvl). pose proof (ri_groups _ Hi g x Hg) as [Hu Hr]. pose proof (total_unused s g x Hi Hg) as Htu.
  unfold res_group_shutdown. rewrite group_acquire_bind by done. rewrite (get_group_bind g x) by done. rewrite assert_bind by (by rewrite Hs). rewrite (upd_group_bind g x) by done. cbv zeta.
  rewrite (upd_group_bind g (set_shutdown x)) by (cbn; apply lookup_insert_eq). rewrite group_release_bind. cbn [reserved_pages set_shutdown]. rewrite (u64_small (reserved_pages x - used_pages x)) by lia. fold (unused x).
  destruct (unreserve_pages_run (unused x) (r_pmm s) (ri_pmm _ Hi) Hk Htu) as (p' & Hrun & Hw & Hre & Ht). rewrite u32_small by (unfold unused in *; lia).
  erewrite on_pmm_bind by exact Hrun. eexists. split; [reflexivity|]. destruct (re_rest _ _ _ Hre) as (E1 & E2 & _ & E3 & E4).
  assert (with_pmm p' (with_group_lock false (with_groups <[g:=set_reserved (u64 (reserved_pages x - unused x)) (set_shutdown x)]> (with_groups <[g:=set_shutdown x]> (with_group_lock true s)))) =
    mk_rsys p' (<[g := mk_group (rg_obj x) (used_pages x) (used_pages x) true]> (groups s)) (objs s) false false) as ->.
  { unfold with_pmm, with_groups, with_group_lock. cbn. rewrite insert_insert_eq, Hvl. f_equal. f_equal. unfold set_reserved, set_shutdown. cbn. f_equal. unfold unused. rewrite u64_small; lia. }
  split; [|done]. apply res_inv_groups; [done|done|split; congruence|done|done| | |].
  - intros g' x'. destruct (decide (g' = g)) as [->|Hne]; [rewrite lookup_insert_eq; intros [= <-]|rewrite lookup_insert_ne by done].
    + cbn. pose proof (ri_used _ Hi g x Hg). lia.
    + intros Hx. pose proof (ri_groups _ Hi g' x' Hx). pose proof (ri_used _ Hi g' x' Hx). naive_solver.
  - rewrite (msum_update _ _ _ x), Ht, (ri_total _ Hi) by done. unfold unused. cbn. lia.
  - intros o y g' x' Hy Hgy Hx Hin. destruct (decide (g' = g)) as [->|Hne]; [|exists x'; by rewrite lookup_insert_ne]. assert (x' = x) as -> by congruence. eexists. by rewrite lookup_insert_eq.
Qed.

(** ** References *)
Lemma add_ref_raw s g x ref : res_group_lock s = false -> groups s !! g = Some x ->
  res_group_add_ref g ref s = Some (tt, with_groups <[g := set_rg_obj (obj_add_ref ref (rg_obj x)) x]> s).
Proof.
  intros Hgl Hg. unfold res_group_add_ref. rewrite group_acquire_bind by done. rewrite (upd_group_bind g x) by done. unfold group_lock_release, modify, with_groups, with_group_lock. cbn. by rewrite Hgl.
Qed.

(** New references of a group, its counts as they were. *)
Lemma res_inv_refs s g x v : res_inv s -> groups s !! g = Some x -> (forall o y, objs s !! o = Some y -> o_group y = Some g -> o ∈ obj_refs (rg_obj x) -> o ∈ obj_refs v) ->
  res_inv (with_groups <[g := set_rg_obj v x]> s).
Proof.
  intros Hi Hg Hv. destruct (ri_locks _ Hi) as (Hk & Hak & Hgl & Hvl). unfold with_groups. rewrite Hgl, Hvl. apply res_inv_groups; [done|apply Hi|done|done|done| | |].
  - intros g' x'. destruct (decide (g' = g)) as [->|Hne]; [rewrite lookup_insert_eq; intros [= <-]|rewrite lookup_insert_ne by done; intros Hx].
    + pose proof (ri_groups _ Hi g x Hg). pose proof (ri_used _ Hi g x Hg). cbn. naive_solver.
    + pose proof (ri_groups _ Hi g' x' Hx). pose proof (ri_used _ Hi g' x' Hx). naive_solver.
  - rewrite (msum_update _ _ _ x), (ri_total _ Hi) by done. unfold unused. cbn. lia.
  - intros o y g' x' Hy Hgy Hx Hin. destruct (decide (g' = g)) as [->|Hne]; [|exists x'; by rewrite lookup_insert_ne]. assert (x' = x) as -> by congruence.
    eexists. rewrite lookup_insert_eq. split; [done|]. by apply (Hv o y).
Qed.

Lemma add_ref_run s g x ref : res_inv s -> groups s !! g = Some x ->
  res_group_add_ref g ref s = Some (tt, with_groups <[g := set_rg_obj (obj_add_ref ref (rg_obj x)) x]> s) /\ res_inv (with_groups <[g := set_rg_obj (obj_add_ref ref (rg_obj x)) x]> s).
Proof.
  intros Hi Hg. split; [apply add_ref_raw; [apply Hi|done]|]. apply res_inv_refs; [done|done|]. intros o y _ _ Hin. rewrite refs_add. set_solver.
Qed.

(** The group once the reference is gone. *)
Definition after_del (ref : Z) g x : gmap Z res_group -> gmap Z res_group :=
  if decide (obj_refs (rg_obj x) ∖ {[ref]} = ∅) then delete g else <[g := set_rg_obj (fst (obj_del_ref ref (rg_obj x))) x]>.

Lemma destroy_run s g x : res_inv s -> groups s !! g = Some x -> is_shutdown x = true -> obj_refs (rg_obj x) = ∅ ->
  exists s', res_group_destroy g s = Some (NO_ERROR, s') /\ res_inv s' /\ objs s' = objs s /\ groups s' = delete g (groups s) /\ lists (r_pmm s') = lists (r_pmm s).
Proof.
  intros Hi Hg Hsd Hre. destruct (ri_locks _ Hi) as (Hk & Hak & Hgl & Hvl). pose proof (ri_groups _ Hi g x Hg) as [Hu Hr].
  assert (forall o y, objs s !! o = Some y -> o_group y <> Some g) as Hno.
  { intros o y Hy Hgy. destruct (ri_objs _ Hi o y Hy) as (ps & _ & Hok). unfold obj_ok in Hok. rewrite Hgy in Hok. destruct Hok as (_ & _ & x' & Hx' & Hin). assert (x' = x) as -> by congruence. by rewrite Hre in Hin. }
  assert (used_pages x = 0) as Hz. { rewrite (ri_used _ Hi g x Hg). apply msum_zero. intros o y Hy. unfold held. by rewrite decide_False by (by apply (Hno o)). }
  unfold res_group_destroy. rewrite (get_group_bind g x) by done. rewrite assert_bind by done. rewrite assert_bind by lia. rewrite assert_bind by (rewrite refs_has, Hre, bool_decide_true; done).
  assert (exists p' : pmm, when (negb (reserved_pages x =? 0)) (on_pmm (pmm_unreserve_pages (u32 (reserved_pages x)))) s = Some (tt, with_pmm p' s) /\ pmm_wf p' /\ lock p' = false /\ aux_slock p' = false /\
    pages p' = pages (r_pmm s) /\ lists p' = lists (r_pmm s) /\ listed_total reserved_count p' = listed_total reserved_count (r_pmm s) - reserved_pages x) as (p' & Hrun & Hw & L1 & L2 & L3 & L4 & Ht).
  { destruct (Z.eqb_spec (reserved_pages x) 0) as [H0'|H0'].
    - exists (r_pmm s). split; [cbn; unfold ret; by destruct s|]. split_and!; [apply Hi|done|done|done|done|lia].
    - rewrite u32_small by lia. pose proof (total_unused s g x Hi Hg) as Htu. unfold unused in Htu.
      destruct (unreserve_pages_run (reserved_pages x) (r_pmm s) (ri_pmm _ Hi) Hk ltac:(lia)) as (p' & Hrun & Hw & Hre' & Ht). exists p'. cbn [negb when]. split; [unfold on_pmm; by rewrite Hrun|].
      destruct (re_rest _ _ _ Hre') as (E1 & E2 & _ & E3 & E4). split_and!; try done; congruence. }
  rewrite (bind_eq _ _ _ _ _ Hrun), modify_bind. eexists. split; [reflexivity|]. split; [|done]. unfold with_groups, with_pmm. cbn. rewrite Hgl, Hvl.
  apply res_inv_groups; [done|done|done|done|done| | |].
  - intros g' x' [_ Hx]%lookup_delete_Some. pose proof (ri_groups _ Hi g' x' Hx). pose proof (ri_used _ Hi g' x' Hx). naive_solver.
  - rewrite Ht, (ri_total _ Hi), (msum_delete unused (groups s) g x Hg). unfold unused at 1. lia.
  - intros o y g' x' Hy Hgy Hx Hin. exists x'. split; [|done]. apply lookup_delete_Some. split; [|done]. intros <-. by apply (Hno o y).
Qed.

Lemma del_ref_run s g x ref : res_inv s -> groups s !! g = Some x -> ref ∈ obj_refs (rg_obj x) -> (forall y, objs s !! ref = Some y -> o_group y <> Some g) ->
  (obj_refs (rg_obj x) ∖ {[ref]} = ∅ -> is_shutdown x = true) ->
  exists s', res_group_del_ref g ref s = Some (tt, s') /\ res_inv s' /\ objs s' = objs s /\ groups s' = after_del ref g x (groups s) /\ lists (r_pmm s') = lists (r_pmm s).
Proof.
  intros Hi Hg Hin Hno Hsd. destruct (ri_locks _ Hi) as (Hk & Hak & Hgl & Hvl). destruct (refs_del ref (rg_obj x) Hin) as [Hv Hd]. set (v := fst (obj_del_ref ref (rg_obj x))) in *.
  set (s1 := with_groups <[g := set_rg_obj v x]> s). assert (res_inv s1) as Hi1.
  { apply res_inv_refs; [done|done|]. intros o y Hy Hgy Ho. rewrite Hv. apply elem_of_difference. split; [done|]. intros ->%elem_of_singleton. by apply (Hno y). }
  assert (res_group_del_ref g ref s = when (bool_decide (obj_refs (rg_obj x) ∖ {[ref]} = ∅)) (_ <- res_group_destroy g ;; ret tt) s1) as ->.
  { unfold res_group_del_ref. rewrite group_acquire_bind by done. rewrite (get_group_bind g x) by done. rewrite <- Hd. unfold v in *. clear Hv Hd Hi1. unfold s1. destruct (obj_del_ref ref (rg_obj x)) as [v' d]. cbn [fst snd] in *.
    rewrite (upd_group_bind g x) by done. rewrite group_release_bind. f_equal. unfold with_group_lock, with_groups. cbn. by rewrite Hgl. }
  unfold after_del. fold v. case_bool_decide as He; [rewrite decide_True by done|rewrite decide_False by done; exists s1; split_and!; done].
  cbn [when]. destruct (destroy_run s1 g (set_rg_obj v x) Hi1) as (s2 & Hs2 & Hi2 & D1 & D2 & D3); [unfold s1; cbn; apply lookup_insert_eq|by apply Hsd|cbn; by rewrite Hv|].
  exists s2. rewrite (bind_eq _ _ _ _ _ Hs2). split_and!; [done|done|done| |done]. rewrite D2. unfold s1. cbn. apply delete_insert_eq.
Qed.
End ops.

(** * Memory objects: making them and destroying them *)

Section objs.
Context `{!PmmConfig} `{!PmmLaws} `{!ObjRefs} `{!RefLaws} `{!ResConfig}.
Implicit Types (a p i g o n : Z) (s : rsys) (x : res_group) (y : pmm_vmm_obj) (ps q : list Z).

(** The invariant without what only matters for the objects. *)
Lemma res_inv_objs s (p' : pmm) (G : gmap Z res_group) (O : gmap Z pmm_vmm_obj) : pmm_wf p' -> lock p' = false /\ aux_slock p' = false ->
  (forall g x, G !! g = Some x -> 0 <= used_pages x <= reserved_pages x /\ reserved_pages x < 2 ^ 32 /\ used_pages x = msum (held g) O) ->
  listed_total reserved_count p' = msum unused G ->
  (forall o y, O !! o = Some y -> exists ps, lists p' !! PageList o = Some ps /\ obj_ok (mk_rsys p' G O false false) o y ps) ->
  res_inv (mk_rsys p' G O false false).
Proof.
  intros Hw Hl HG Ht Ho. constructor; cbn; try done.
  - naive_solver.
  - intros g x Hg. specialize (HG g x Hg). naive_solver.
  - intros g x Hg. specialize (HG g x Hg). naive_solver.
Qed.

Lemma eta_objs s f : res_inv (with_objs f s) -> mk_rsys (r_pmm s) (groups s) (f (objs s)) false false = with_objs f s.
Proof. intros Hi. destruct (ri_locks _ Hi) as (_ & _ & Q1 & Q2). cbn in *. unfold with_objs. by rewrite Q1, Q2. Qed.

(** ** Freeing the object itself *)
Lemma free_obj_run s o : res_inv (with_objs (delete o) s) -> exists s', free_obj o s = Some (tt, s') /\ res_inv s' /\ objs s' = delete o (objs s) /\ groups s' = groups s.
Proof.
  intros Hi. destruct (ri_locks _ Hi) as (Q1 & Q2 & Q3 & Q4). cbn in Q1, Q2, Q3, Q4. eexists. split; [reflexivity|]. split; [|done]. unfold with_pmm, with_objs. cbn. rewrite Q3, Q4.
  apply (res_inv_objs s).
  - apply (lists_wf (r_pmm s) (delete (PageList o) (lists (r_pmm s)))); [apply (ri_pmm _ Hi)| |].
    + intros a. by rewrite lookup_delete_ne.
    + intros k q [_ Hk]%lookup_delete_Some. by right.
  - done.
  - intros g x Hg. pose proof (ri_groups _ Hi g x Hg). pose proof (ri_used _ Hi g x Hg). naive_solver.
  - exact (ri_total _ Hi).
  - intros o' y Hy. pose proof Hy as [Hne _]%lookup_delete_Some. destruct (ri_objs _ Hi o' y Hy) as (ps & Hps & Hok). exists ps. split; [|exact Hok]. cbn. rewrite lookup_delete_ne; [done|congruence].
Qed.

(** ** Giving the pages of an object back *)
Lemma other_pages (s1 : pmm) (pl pl' : page_list) ps q p : pmm_wf s1 -> lists s1 !! pl = Some ps -> lists s1 !! pl' = Some q -> pl <> pl' -> p ∈ q -> p ∉ ps.
Proof. intros Hw Hl Hl' Hne Hp Hp'. apply Hne. by apply (pw_unique _ Hw pl pl' ps q p). Qed.

Lemma freed_others s o y ps (p1 : pmm) G : res_inv s -> objs s !! o = Some y -> lists (r_pmm s) !! PageList o = Some ps -> released (PageList o) ps [] (r_pmm s) p1 ->
  (forall o' y' g x, o' <> o -> objs s !! o' = Some y' -> o_group y' = Some g -> groups s !! g = Some x -> o' ∈ obj_refs (rg_obj x) -> exists x', G !! g = Some x' /\ o' ∈ obj_refs (rg_obj x')) ->
  forall o' y', delete o (objs s) !! o' = Some y' -> exists ps', lists p1 !! PageList o' = Some ps' /\ obj_ok (mk_rsys p1 G (delete o (objs s)) false false) o' y' ps'.
Proof.
  intros Hi Hy Hps Hr HG o' y' [Hne Hy']%lookup_delete_Some. destruct (ri_objs _ Hi o' y' Hy') as (ps' & Hps' & Hok). exists ps'.
  assert (forall p, p ∈ ps' -> page_reserved p1 p = page_reserved (r_pmm s) p) as Hpr.
  { intros p Hp. unfold page_reserved. rewrite (rl_pages _ _ _ _ _ Hr), decide_False; [by rewrite option_fmap_id|]. apply (other_pages (r_pmm s) (PageList o) (PageList o') ps ps'); [apply Hi|done|done|congruence|done]. }
  split; [rewrite (rl_lists _ _ _ _ _ Hr), decide_False, Hps' by congruence; cbn [fmap option_fmap option_map]; by rewrite back_other|]. unfold obj_ok in *. cbn. destruct (o_group y') as [g|] eqn:Hg.
  - destruct Hok as (O1 & O2 & x & Hx & Hin). split_and!; [done|by intros p Hp; rewrite Hpr, O2|]. by apply (HG o' y' g x).
  - intros p Hp. by rewrite Hpr, Hok.
Qed.

Lemma reserved_filter (s1 : pmm) ps b : (forall p, p ∈ ps -> page_reserved s1 p = b) -> length (filter (fun p => page_reserved s1 p = true) ps) = if b then length ps else 0%nat.
Proof.
  induction ps as [|p ps IH]; intros Hp; [by destruct b|]. rewrite filter_cons, (Hp p ltac:(left)). specialize (IH ltac:(intros x Hx; apply Hp; by right)). destruct b; [rewrite decide_True by done; cbn; by rewrite IH|by rewrite decide_False].
Qed.

Lemma held_delete s g o y : objs s !! o = Some y -> msum (held g) (objs s) = held g y + msum (held g) (delete o (objs s)).
Proof. intros Hy. by apply msum_delete. Qed.

(** An object may go if its group has other references or has been shut down. *)
Definition may_go s o y : Prop := forall g x, o_group y = Some g -> groups s !! g = Some x -> obj_refs (rg_obj x) ∖ {[o]} = ∅ -> is_shutdown x = true.
(** The group without the object. *)
Definition groups_without o y (G : gmap Z res_group) : gmap Z res_group :=
  match o_group y with
  | Some g => match G !! g with Some x => let x' := set_used (used_pages x - o_used_pages y) x in after_del o g x' (<[g := x']> G) | None => G end
  | None => G
  end.

Lemma release_mem_raw s g x n : res_group_lock s = false -> groups s !! g = Some x -> n <= used_pages x ->
  res_group_release_mem g n s = Some (tt, with_groups <[g := set_used (used_pages x - n) x]> s).
Proof.
  intros Hgl Hg Hn. unfold res_group_release_mem. rewrite group_acquire_bind by done. rewrite (get_group_bind g x) by done. rewrite assert_bind by lia. rewrite (upd_group_bind g x) by done.
  unfold group_lock_release, modify, with_groups, with_group_lock. cbn. by rewrite Hgl.
Qed.

Lemma destroy_obj_run s o y : res_inv s -> objs s !! o = Some y -> may_go s o y ->
  exists s', pmm_vmm_obj_destroy o s = Some (tt, s') /\ res_inv s' /\ objs s' = delete o (objs s) /\ groups s' = groups_without o y (groups s).
Proof.
  intros Hi Hy Hgo. destruct (ri_locks _ Hi) as (Hk & Hak & Hgl & Hvl). destruct (ri_objs _ Hi o y Hy) as (ps & Hps & Hok).
  destruct (pmm_free_run (PageList o) (r_pmm s) ps (ri_pmm _ Hi) Hk eq_refl Hps) as (p1 & Hfree & Hr & Hw1). destruct (rl_rest _ _ _ _ _ Hr) as (_ & L1 & L2).
  pose proof (released_gives _ _ _ _ (ri_pmm _ Hi) Hps Hr) as Ht. unfold pmm_vmm_obj_destroy. rewrite (on_pmm_bind _ _ _ _ _ Hfree). rewrite (get_obj_bind o y) by done. unfold groups_without. unfold obj_ok in Hok.
  destruct (o_group y) as [g|] eqn:Hgy.
  - destruct Hok as (O1 & O2 & x & Hx & Hin). rewrite Hx. rewrite (reserved_filter _ _ true O2) in Ht. set (n := o_used_pages y) in *. rewrite O1 in Ht. cbv zeta.
    pose proof (ri_groups _ Hi g x Hx) as [Hu Hres]. pose proof (ri_used _ Hi g x Hx) as Hused. rewrite (held_delete s g o y Hy) in Hused. unfold held at 1 in Hused. rewrite decide_True in Hused by done. fold n in Hused.
    assert (0 <= msum (held g) (delete o (objs s))) as Hnn.
    { apply msum_nonneg. intros o' y' [_ Hy']%lookup_delete_Some. unfold held. case_decide as Hg'; [|lia]. destruct (ri_objs _ Hi o' y' Hy') as (? & _ & Hok'). unfold obj_ok in Hok'. rewrite Hg' in Hok'. destruct Hok' as (Hl & _). lia. }
    set (x1 := set_used (used_pages x - n) x). set (s2 := with_groups <[g := x1]> (with_pmm p1 s)). rewrite bind_assoc, (bind_eq _ _ _ tt s2) by (apply release_mem_raw; [done|done|lia]).
    assert (res_inv (with_objs (delete o) s2)) as Hi2.
    { unfold s2, with_objs, with_groups, with_pmm. cbn. rewrite Hgl, Hvl. apply (res_inv_objs s); [done|split; congruence| | |].
      - intros g' x'. destruct (decide (g' = g)) as [->|Hne]; [rewrite lookup_insert_eq; intros [= <-]; unfold x1; cbn; lia|rewrite lookup_insert_ne by done; intros Hx'].
        pose proof (ri_groups _ Hi g' x' Hx'). pose proof (ri_used _ Hi g' x' Hx') as Hu'. rewrite (held_delete s g' o y Hy) in Hu'. unfold held at 1 in Hu'. rewrite decide_False in Hu' by congruence. naive_solver lia.
      - rewrite (msum_update _ _ _ x), Ht, (ri_total _ Hi) by done. unfold unused, x1. cbn. lia.
      - apply (freed_others s o y ps p1 _ Hi Hy Hps Hr). intros o' y' g' x' _ _ _ Hx' Ho'. destruct (decide (g' = g)) as [->|Hne]; [|exists x'; by rewrite lookup_insert_ne].
        assert (x' = x) as -> by congruence. exists x1. by rewrite lookup_insert_eq. }
    assert (groups (with_objs (delete o) s2) !! g = Some x1) as Hx1 by (unfold s2; cbn; apply lookup_insert_eq).
    destruct (del_ref_run (with_objs (delete o) s2) g x1 o Hi2 Hx1) as (s3 & Hs3 & Hi3 & D1 & D2 & D3); [done|intros y' Hy'; cbn in Hy'; by rewrite lookup_delete_eq in Hy'|by apply (Hgo g x)|].
    rewrite (blind_del_ref g o (delete o) s2) in Hs3. destruct (res_group_del_ref g o s2) as [[[] s3']|] eqn:Hd; [|done]. injection Hs3 as <-. rewrite (bind_eq _ _ _ _ _ Hd).
    destruct (free_obj_run s3' o Hi3) as (s4 & Hs4 & Hi4 & F1 & F2). exists s4. split_and!; [done|done| |].
    + rewrite F1. exact D1.
    + rewrite F2. exact D2.
  - rewrite (reserved_filter _ _ false Hok), Z.add_0_r in Ht. rewrite ret_bind.
    destruct (free_obj_run (with_pmm p1 s) o) as (s4 & Hs4 & Hi4 & F1 & F2); [|by exists s4].
    unfold with_objs, with_pmm. cbn. rewrite Hgl, Hvl. apply (res_inv_objs s); [done|split; congruence| | |].
    + intros g x Hx. pose proof (ri_groups _ Hi g x Hx). pose proof (ri_used _ Hi g x Hx) as Hu'. rewrite (held_delete s g o y Hy) in Hu'. unfold held at 1 in Hu'. rewrite decide_False in Hu' by congruence. naive_solver lia.
    + by rewrite Ht, (ri_total _ Hi).
    + apply (freed_others s o y ps p1 _ Hi Hy Hps Hr). intros o' y' g x _ _ _ Hx Ho'. by exists x.
Qed.
End objs.
