(* ===== verification/ResAlloc.v ===== *)
(** * Memory objects: allocation *)
From stdpp Require Import base gmap list.
From Stdlib Require Import ZArith Lia.
From S2P Require Import Prelude Pmm PmmInv PmmGrab PmmAlloc PmmRun PmmFree PmmPages PmmReserve PmmOutcome ResGroup ResInv ResOps.

Local Open Scope Z_scope.
Local Open Scope lk_scope.

Section alloc.
Context `{!PmmConfig} `{!PmmLaws} `{!ObjRefs} `{!RefLaws} `{!ResConfig}.
Implicit Types (a p i g o n : Z) (s : rsys) (x : res_group) (y : pmm_vmm_obj) (ps q : list Z).

(** ** The pages *)

(** The physical memory when the pages are taken. *)
Definition prepared_pmm o (P : pmm) : pmm := with_lock true (with_lists <[PageList o := []]> P).

Record pages_ok (flags count lg : Z) (P : pmm) : Prop := {
  pg_align : lg = 0 \/ contiguous flags = true;
  pg_clear : clear_ok flags P (arena_list P);
  pg_run : contiguous (effective count flags lg) = true -> searchable flags P (arena_list P) count lg /\ stocked flags P (arena_list P) lg count
}.

Lemma prepared_wf o P : pmm_wf P -> pmm_wf (prepared_pmm o P).
Proof.
  intros Hw. apply lock_wf. apply (lists_wf P (<[PageList o := []]> (lists P)) Hw).
  - intros a. by rewrite lookup_insert_ne.
  - intros k q. destruct (decide (k = PageList o)) as [->|]; [rewrite lookup_insert_eq; intros [= <-]; by left|rewrite lookup_insert_ne by done; by right].
Qed.
Lemma prepared_alloc_ok o P flags count lg : pmm_wf P -> aux_slock P = false -> 0 < count -> pages_ok flags count lg P -> alloc_ok (Some (PageList o)) count flags lg (prepared_pmm o P).
Proof.
  intros Hw Hk Hc [Q1 Q2 Q3]. constructor; [by apply prepared_wf|exact Hk|exact Hc|exact Q1| |exact Q2|exact Q3]. split_and!; [done|done|]. exists []. apply lookup_insert_eq.
Qed.

Section outcome.
Context (o : Z) (P P' : pmm) (Hw : pmm_wf P) (flags count : Z) (ps : list Z).

Lemma prepared_total : listed_total reserved_count (local (prepared_pmm o P)) = listed_total reserved_count P.
Proof. done. Qed.

(** What a successful call has done to the lists of the objects. *)
Lemma succeeded_lists : succeeded (Some (PageList o)) count flags ps (prepared_pmm o P) P' ->
  lists P' !! PageList o = Some ps /\ (forall p, p ∈ ps -> page_reserved P' p = from_reserved flags) /\
  forall o' q, o' <> o -> lists P !! PageList o' = Some q -> lists P' !! PageList o' = Some q /\ forall p, p ∈ q -> page_reserved P' p = page_reserved P p.
Proof.
  intros (Hg & Hw' & Hn). set (L := local (prepared_pmm o P)) in *. assert (pmm_wf L) as HwL by (apply local_wf, prepared_wf, Hw). cbn [into] in Hg.
  assert (forall k q, is_free_list k = false -> lists L !! k = Some q -> forall p, p ∈ q -> p ∉ ps) as Hdis.
  { intros k q Hk Hq p Hp Hin. destruct (pw_lists _ HwL _ _ _ Hq Hp) as (? & ? & ? & fl & _ & Hfl & Hnf), (gr_free _ _ _ _ _ Hg p Hin) as (? & ? & ? & ? & _ & ? & ?). simplify_eq. destruct k; [done|congruence..]. }
  split_and!.
  - rewrite (gr_lists _ _ _ _ _ Hg). assert (lists L !! PageList o = Some []) as -> by (unfold L, local; cbn; rewrite lookup_insert_ne by done; apply lookup_insert_eq). cbn [fmap option_fmap option_map]. by rewrite decide_True.
  - intros p Hp. by apply (page_flag_grabbed (PageList o) (from_reserved flags) ps L P').
  - intros o' q Hne Hq. assert (lists L !! PageList o' = Some q) as HqL by (unfold L, local; cbn; rewrite !lookup_insert_ne by congruence; done). split.
    + rewrite (gr_lists _ _ _ _ _ Hg), HqL. cbn [fmap option_fmap option_map]. rewrite decide_False by congruence. rewrite app_nil_r, without_none; [done|]. intros p Hp Hin. by apply (Hdis (PageList o') q eq_refl HqL p).
    + intros p Hp. unfold page_reserved. rewrite (gr_pages _ _ _ _ _ Hg), decide_False by (by apply (Hdis (PageList o') q)). by rewrite option_fmap_id.
Qed.

Lemma succeeded_total : succeeded (Some (PageList o)) count flags ps (prepared_pmm o P) P' -> listed_total reserved_count P' = listed_total reserved_count P - if from_reserved flags then count else 0.
Proof.
  intros (Hg & _ & Hn). destruct (from_reserved flags).
  - rewrite (grabbed_takes _ _ _ _ (local_wf _ (prepared_wf o P Hw)) Hg), prepared_total. lia.
  - rewrite (grabbed_reserved _ _ _ _ Hg), prepared_total. lia.
Qed.
Lemma succeeded_locks : succeeded (Some (PageList o)) count flags ps (prepared_pmm o P) P' -> aux_slock P' = aux_slock P.
Proof. intros (Hg & _ & _). by rewrite (proj2 (gr_locks _ _ _ _ _ Hg)). Qed.
End outcome.

(** ** After a call *)
Lemma success_inv s o y G (P' : pmm) flags count ps : res_inv s -> objs s !! o = None -> 0 < count ->
  succeeded (Some (PageList o)) count flags ps (prepared_pmm o (r_pmm s)) P' ->
  match o_group y with
  | Some g => from_reserved flags = true /\ o_used_pages y = count /\ exists x, groups s !! g = Some x /\ used_pages x + count <= reserved_pages x /\
      G = <[g := set_rg_obj (obj_add_ref o (rg_obj x)) (set_used (used_pages x + count) x)]> (groups s)
  | None => from_reserved flags = false /\ G = groups s
  end ->
  res_inv (mk_rsys (with_lock false P') G (<[o := y]> (objs s)) false false).
Proof.
  intros Hi Ho Hc Hs HG. destruct (ri_locks _ Hi) as (Hk & Hak & Hgl & Hvl). destruct (succeeded_lists o (r_pmm s) P' (ri_pmm _ Hi) flags count ps Hs) as (S1 & S2 & S3).
  pose proof (succeeded_total o (r_pmm s) P' (ri_pmm _ Hi) flags count ps Hs) as Ht. pose proof (succeeded_locks o (r_pmm s) P' flags count ps Hs) as Hl. pose proof Hs as (_ & Hw' & Hn).
  apply (res_inv_objs s); [by apply lock_wf|split; [done|cbn; congruence]| | |].
  - intros g' x' Hx'. assert (msum (held g') (<[o := y]> (objs s)) = held g' y + msum (held g') (objs s)) as -> by (by apply msum_fresh). unfold held at 1. destruct (o_group y) as [g|].
    + destruct HG as (Hf & Hu & x & Hx & Hle & ->). destruct (decide (g' = g)) as [->|Hne].
      * rewrite lookup_insert_eq in Hx'. injection Hx' as <-. pose proof (ri_groups _ Hi g x Hx). rewrite decide_True, <- (ri_used _ Hi g x Hx) by done. cbn. lia.
      * rewrite lookup_insert_ne in Hx' by done. rewrite decide_False by congruence. pose proof (ri_groups _ Hi g' x' Hx'). rewrite <- (ri_used _ Hi g' x' Hx'). lia.
    + destruct HG as (_ & ->). rewrite decide_False by done. pose proof (ri_groups _ Hi g' x' Hx'). rewrite <- (ri_used _ Hi g' x' Hx'). lia.
  - change (listed_total reserved_count (with_lock false P')) with (listed_total reserved_count P'). rewrite Ht, (ri_total _ Hi). destruct (o_group y) as [g|].
    + destruct HG as (-> & Hu & x & Hx & Hle & ->). rewrite (msum_update _ _ _ x) by done. unfold unused. cbn. lia.
    + destruct HG as (-> & ->). lia.
  - intros o' y'. destruct (decide (o' = o)) as [->|Hne].
    + rewrite lookup_insert_eq. intros [= <-]. exists ps. split; [exact S1|]. unfold obj_ok. cbn. destruct (o_group y) as [g|].
      * destruct HG as (Hf & Hu & x & Hx & Hle & ->). split_and!; [lia|intros p Hp; change (page_reserved P' p = true); by rewrite S2|]. eexists. rewrite lookup_insert_eq. split; [done|]. cbn. rewrite refs_add. set_solver.
      * destruct HG as (Hf & ->). intros p Hp. change (page_reserved P' p = false). by rewrite S2.
    + rewrite lookup_insert_ne by done. intros Hy'. destruct (ri_objs _ Hi o' y' Hy') as (q & Hq & Hok). destruct (S3 o' q Hne Hq) as [Hq' Hpr]. exists q. split; [exact Hq'|].
      unfold obj_ok in *. cbn. destruct (o_group y') as [g'|].
      * destruct Hok as (O1 & O2 & x' & Hx' & Hin). split_and!; [done|intros p Hp; change (page_reserved P' p = true); by rewrite Hpr, O2|]. destruct (o_group y) as [g|]; [|destruct HG as [_ ->]; by exists x'].
        destruct HG as (_ & _ & x & Hx & _ & ->). destruct (decide (g' = g)) as [->|Hg']; [|exists x'; by rewrite lookup_insert_ne]. assert (x' = x) as -> by congruence.
        eexists. rewrite lookup_insert_eq. split; [done|]. cbn. rewrite refs_add. set_solver.
      * intros p Hp. change (page_reserved P' p = false). by rewrite Hpr, Hok.
Qed.

Lemma failure_inv s o (P' : pmm) : res_inv s -> objs s !! o = None -> failed (prepared_pmm o (r_pmm s)) P' ->
  res_inv (mk_rsys (with_lists (delete (PageList o)) (with_lock false P')) (groups s) (objs s) false false).
Proof.
  intros Hi Ho ([E1 E2 E3 E4 [E5 E6]] & Hw'). destruct (ri_locks _ Hi) as (Hk & Hak & Hgl & Hvl). apply (res_inv_objs s).
  - apply lock_wf with (b := false) in Hw'. apply (lists_wf (with_lock false P') (delete (PageList o) (lists P')) Hw'); [intros a; by rewrite lookup_delete_ne|intros k q [_ Hq]%lookup_delete_Some; by right].
  - split; [done|]. change (aux_slock P' = false). rewrite E6. exact Hak.
  - intros g x Hx. pose proof (ri_groups _ Hi g x Hx). pose proof (ri_used _ Hi g x Hx). naive_solver.
  - rewrite <- (ri_total _ Hi). unfold listed_total. change (total reserved_count P' (arena_list P') = total reserved_count (r_pmm s) (arena_list (r_pmm s))). rewrite E1. apply counts_total_ext. intros a _. apply E2.
  - intros o' y Hy. assert (o' <> o) as Hne by congruence. destruct (ri_objs _ Hi o' y Hy) as (q & Hq & Hok). exists q. split.
    + change (delete (PageList o) (lists P') !! PageList o' = Some q). rewrite lookup_delete_ne by congruence. specialize (E4 (PageList o')). unfold local, prepared_pmm in E4. cbn in E4. rewrite !lookup_insert_ne, Hq in E4 by congruence.
      inversion E4 as [? q' Hsame|]; subst. unfold same_list in Hsame. cbn in Hsame. by subst.
    + unfold obj_ok in *. cbn. assert (forall p, page_reserved (with_lists (delete (PageList o)) (with_lock false P')) p = page_reserved (r_pmm s) p) as Hpr by (intros p; unfold page_reserved; change (pages (with_lists _ _)) with (pages P'); by rewrite E3).
      destruct (o_group y); [destruct Hok as (O1 & O2 & O3); split_and!; [done|intros p Hp; by rewrite Hpr, O2|done]|intros p Hp; by rewrite Hpr, Hok].
Qed.

(** ** The call *)
Lemma with_objs_twice o y y' s : with_objs <[o := y]> (with_objs <[o := y']> s) = with_objs <[o := y]> s.
Proof. unfold with_objs. cbn. by rewrite insert_insert_eq. Qed.
Lemma with_groups_twice g x x' s : with_groups <[g := x]> (with_groups <[g := x']> s) = with_groups <[g := x]> s.
Proof. unfold with_groups. cbn. by rewrite insert_insert_eq. Qed.
Lemma with_objs_same o y s : objs s !! o = Some y -> with_objs <[o := y]> s = s.
Proof. intros Hy. destruct s. unfold with_objs. cbn in *. by rewrite insert_id. Qed.

Lemma when_upd_bind {A} (b : bool) (h : M rsys unit) o y f (k : unit -> M rsys A) s : objs s !! o = Some y -> (b = true -> h s = Some (tt, s)) ->
  bind (when b (h ;; upd_obj o f)) k s = k tt (with_objs <[o := if b then f y else y]> s).
Proof.
  intros Hy Hh. destruct b; cbn [when]; [|by rewrite ret_bind, with_objs_same]. rewrite bind_assoc, (bind_eq _ _ _ _ _ (Hh eq_refl)). by rewrite (upd_obj_bind o y).
Qed.

Lemma take_mem_raw s g x n : res_group_lock s = false -> groups s !! g = Some x ->
  res_group_take_mem g n s = Some (check_take x n, if check_take x n =? 0 then with_groups <[g := set_used (used_pages x + n) x]> s else s).
Proof.
  intros Hgl Hg. unfold res_group_take_mem. rewrite group_acquire_bind by done. rewrite (get_group_bind g x) by done. cbv zeta. destruct (check_take x n =? 0); cbn [when].
  - rewrite (upd_group_bind g x) by done. rewrite group_release_bind. unfold ret, with_groups, with_group_lock. cbn. by rewrite Hgl.
  - rewrite ret_bind, group_release_bind. unfold ret. by rewrite group_unlock.
Qed.

Lemma check_take_ok x n : check_take x n = 0 -> is_shutdown x = false /\ used_pages x + n <= reserved_pages x.
Proof. unfold check_take. destruct (is_shutdown x); [done|]. destruct (2 ^ 64 <=? _); [done|]. rewrite Z.gtb_ltb. destruct (Z.ltb_spec (reserved_pages x) (used_pages x + n)); [done|]. split; [done|lia]. Qed.

(** What the caller asks for. *)
Record call_ok s (mem : option Z) (go : option Z) (count flags lg : Z) : Prop := {
  ca_count : 0 < count < 2 ^ 32;
  ca_reserved : from_reserved flags = bool_decide (is_Some go);
  ca_group : forall g, go = Some g -> is_Some (groups s !! g);
  ca_tagged : has_flag PMM_ALLOC_FLAG_ALLOW_TAGGED flags = true -> arch_tagging_enabled = true;
  ca_mem : forall o, mem = Some o -> objs s !! o = None;
  ca_pages : pages_ok flags count lg (r_pmm s)
}.
Definition take_code s (go : option Z) count : Z := match go with Some g => match groups s !! g with Some x => check_take x count | None => 0 end | None => NO_ERROR end.
(** The groups when the object has been made. *)
Definition groups_with o (go : option Z) count (G : gmap Z res_group) : gmap Z res_group :=
  match go with
  | Some g => match G !! g with Some x => <[g := set_rg_obj (obj_add_ref o (rg_obj x)) (set_used (used_pages x + count) x)]> G | None => G end
  | None => G
  end.
(** And while it is being made. *)
Definition taken_mem (go : option Z) count s : rsys :=
  match go with Some g => match groups s !! g with Some x => with_groups <[g := set_used (used_pages x + count) x]> s | None => s end | None => s end.

Lemma start_alloc_run {A} s mem go count flags lg (k : Z -> M rsys A) : res_inv s -> call_ok s mem go count flags lg ->
  (assert_ (negb false) ;; assert_ (count >? 0) ;; assert_ (negb (has_flag PMM_ALLOC_FLAG_FROM_RESERVED flags) || bool_decide (is_Some go)) ;;
   r <- match go with Some g => assert_ (has_flag PMM_ALLOC_FLAG_FROM_RESERVED flags) ;; res_group_take_mem g count | None => ret NO_ERROR end ;; k r) s =
  k (take_code s go count) (if take_code s go count =? 0 then taken_mem go count s else s).
Proof.
  intros Hi [C1 C2 C3 _ _ _]. fold (from_reserved flags). rewrite C2. rewrite !assert_bind by (try lia; destruct (bool_decide _); done).
  unfold take_code, taken_mem. destruct go as [g|]; [|done]. destruct (C3 g eq_refl) as [x Hx]. rewrite Hx. rewrite bool_decide_true by done. rewrite bind_assoc, assert_bind by done.
  rewrite (bind_eq _ _ _ _ _ (take_mem_raw s g x count (proj1 (proj2 (proj2 (ri_locks _ Hi)))) Hx)). done.
Qed.

Lemma release_taken s go count : res_inv s -> (forall g, go = Some g -> is_Some (groups s !! g)) -> 0 < count ->
  forall t, groups t = groups (taken_mem go count s) -> res_group_lock t = false ->
  (match go with Some g => res_group_release_mem g count | None => ret tt end) t = Some (tt, with_groups (fun _ => groups s) t).
Proof.
  intros Hi Hg Hc t Ht Hl. unfold taken_mem in Ht. destruct go as [g|]; [|unfold ret; rewrite <- Ht; by destruct t]. destruct (Hg g eq_refl) as [x Hx]. rewrite Hx in Ht. cbn in Ht.
  pose proof (ri_groups _ Hi g x Hx). rewrite (release_mem_raw t g (set_used (used_pages x + count) x)); [|done|rewrite Ht; apply lookup_insert_eq|cbn; lia].
  do 2 f_equal. unfold with_groups. rewrite Ht. f_equal. rewrite insert_insert_eq. apply insert_id. rewrite Hx. f_equal. destruct x. unfold set_used. cbn. f_equal. lia.
Qed.

Lemma page_multiple n : u64 (n * PAGE_SIZE) mod PAGE_SIZE = 0.
Proof.
  unfold u64. rewrite page_size_pow. destruct page_shift_range as [Q1 Q2]. pose proof (Z.pow_pos_nonneg 2 PAGE_SIZE_SHIFT). rewrite Z.mod_mod_divide; [apply Z.mod_mul; lia|].
  exists (2 ^ (64 - PAGE_SIZE_SHIFT)). rewrite <- Z.pow_add_r by lia. f_equal. lia.
Qed.

(** The object at first, and with its pages. *)
Definition chunks (flags count : Z) : Z * Z := if contiguous flags then (1, u64 (count * PAGE_SIZE)) else (count, PAGE_SIZE).
Definition first_obj (flags count : Z) : pmm_vmm_obj := mk_obj None (fst (chunks flags count)) (snd (chunks flags count)) None 0 0 [].
Definition obj_flags (flags : Z) : Z :=
  let f := if no_clear flags then PMM_OBJ_FLAG_NEEDS_CLEAR else 0 in if has_flag PMM_ALLOC_FLAG_ALLOW_TAGGED flags then Z.lor f PMM_OBJ_FLAG_ALLOW_TAGGED else f.
Definition whole_obj (ref : Z) (go : option Z) (flags count : Z) (out : list Z) : pmm_vmm_obj :=
  mk_obj (Some (obj_init ref)) (fst (chunks flags count)) (snd (chunks flags count)) go (match go with Some _ => count | None => 0 end) (obj_flags flags) out.

Lemma pmm_alloc_obj_run (mem : option Z) flags count s : 0 < count ->
  (if has_flag PMM_ALLOC_FLAG_CONTIGUOUS flags then pmm_alloc_obj mem 1 (u64 (count * PAGE_SIZE)) else pmm_alloc_obj mem count PAGE_SIZE) s =
  Some (mem, match mem with Some o => with_pmm (with_lists <[PageList o := []]> (r_pmm s)) (with_objs <[o := first_obj flags count]> s) | None => s end).
Proof.
  intros Hc. unfold first_obj, chunks. fold (contiguous flags). pose proof page_size_pos. unfold pmm_alloc_obj. destruct (contiguous flags); cbn [fst snd].
  - rewrite assert_bind by (by rewrite page_multiple). by destruct mem.
  - rewrite assert_bind by (by rewrite Z.mod_same by lia). rewrite (proj2 (Z.eqb_neq count 0)) by lia. by destruct mem.
Qed.

(** The rest of the call once the pages have been asked for. *)
Lemma marks_run {A} o y out flags (k : unit -> M rsys A) s : objs s !! o = Some y -> o_flags y = 0 -> (has_flag PMM_ALLOC_FLAG_ALLOW_TAGGED flags = true -> arch_tagging_enabled = true) ->
  (upd_obj o (set_chunk out) ;;
   when (has_flag PMM_ALLOC_FLAG_NO_CLEAR flags) (upd_obj o (fun y => set_o_flags (Z.lor (o_flags y) PMM_OBJ_FLAG_NEEDS_CLEAR) y)) ;;
   when (has_flag PMM_ALLOC_FLAG_ALLOW_TAGGED flags) (assert_ arch_tagging_enabled ;; upd_obj o (fun y => set_o_flags (Z.lor (o_flags y) PMM_OBJ_FLAG_ALLOW_TAGGED) y)) ;; k tt) s =
  k tt (with_objs <[o := set_o_flags (obj_flags flags) (set_chunk out y)]> s).
Proof.
  intros Hy Hf Ht. rewrite (upd_obj_bind o y) by done. set (y1 := set_chunk out y). unfold obj_flags. fold (no_clear flags).
  set (y2 := if no_clear flags then set_o_flags (Z.lor (o_flags y1) PMM_OBJ_FLAG_NEEDS_CLEAR) y1 else y1).
  assert (forall B (k' : unit -> M rsys B), bind (when (no_clear flags) (upd_obj o (fun y => set_o_flags (Z.lor (o_flags y) PMM_OBJ_FLAG_NEEDS_CLEAR) y))) k' (with_objs <[o := y1]> s) = k' tt (with_objs <[o := y2]> s)) as ->.
  { intros B k'. unfold y2. destruct (no_clear flags); cbn [when]; [|done]. rewrite (upd_obj_bind o y1) by (cbn; apply lookup_insert_eq). by rewrite with_objs_twice. }
  rewrite (when_upd_bind _ _ o y2) by (first [cbn; apply lookup_insert_eq|intros Hb; rewrite Ht by done; done]). rewrite with_objs_twice. do 3 f_equal. unfold y2, y1.
  destruct (no_clear flags), (has_flag PMM_ALLOC_FLAG_ALLOW_TAGGED flags); unfold set_o_flags, set_chunk; cbn; rewrite ?Hf; done.
Qed.

Section core.
Context (s : rsys) (o ref : Z) (go : option Z) (count flags lg : Z) (Hi : res_inv s) (Hca : call_ok s (Some o) go count flags lg) (Hcode : take_code s go count = 0).

(** The state when the pages are asked for. *)
Let t0 : rsys := with_objs <[o := first_obj flags count]> (taken_mem go count s).

Lemma taken_fields : r_pmm (taken_mem go count s) = r_pmm s /\ objs (taken_mem go count s) = objs s /\ res_group_lock (taken_mem go count s) = false /\ vmm_lock (taken_mem go count s) = false.
Proof. destruct (ri_locks _ Hi) as (_ & _ & Q1 & Q2). unfold taken_mem. destruct go as [g|]; [destruct (groups s !! g)|]; done. Qed.

Lemma core_run r out P' : pmm_alloc_pages_locked (Some (PageList o)) true count flags lg (prepared_pmm o (r_pmm s)) = Some ((r, out), P') ->
  pmm_alloc_from_res_group (Some o) ref false go count flags lg s =
  (if negb (r =? 0) then free_obj o ;; match go with Some g => res_group_release_mem g count | None => ret tt end ;; ret (r, None)
   else match go with Some g => res_group_add_ref g o ;; upd_obj o (set_o_group (Some g) count) | None => ret tt end ;; vmm_obj_init o ref ;; ret (NO_ERROR, Some o))
    (with_pmm (with_lock false P') (with_objs <[o := set_o_flags (obj_flags flags) (set_chunk out (first_obj flags count))]> (taken_mem go count s))).
Proof.
  intros Hrun. unfold pmm_alloc_from_res_group. rewrite (start_alloc_run s (Some o) go count flags lg _ Hi Hca). rewrite Hcode. cbn [Z.eqb negb]. cbv zeta.
  destruct taken_fields as (F1 & F2 & F3 & F4). rewrite (bind_eq _ _ _ _ _ (pmm_alloc_obj_run (Some o) flags count (taken_mem go count s) (proj1 (ca_count _ _ _ _ _ _ Hca)))).
  set (t1 := with_pmm _ _). rewrite (on_pmm_bind mutex_acquire _ t1 tt (prepared_pmm o (r_pmm s))).
  2: { unfold t1. cbn. rewrite F1. unfold mutex_acquire, bind, gets, assert_, modify. cbn. destruct (ri_locks _ Hi) as (-> & _). done. }
  rewrite (on_pmm_bind _ _ (with_pmm (prepared_pmm o (r_pmm s)) t1) (r, out) P') by exact Hrun. cbn iota beta.
  set (t2 := with_pmm P' _). assert (objs t2 !! o = Some (first_obj flags count)) as Ho by (unfold t2, t1; cbn; apply lookup_insert_eq).
  pose proof (marks_run o (first_obj flags count) out flags (fun _ => on_pmm mutex_release ;;
     if negb (r =? 0) then free_obj o ;; match go with Some g => res_group_release_mem g count | None => ret tt end ;; ret (r, None)
     else match go with Some g => res_group_add_ref g o ;; upd_obj o (set_o_group (Some g) count) | None => ret tt end ;; vmm_obj_init o ref ;; ret (NO_ERROR, Some o)) t2 Ho eq_refl (ca_tagged _ _ _ _ _ _ Hca)) as Hm.
  cbn beta in Hm. etransitivity; [exact Hm|]. rewrite (on_pmm_bind mutex_release _ _ tt (with_lock false P')) by done.
  f_equal. unfold t2, t1, with_pmm, with_objs. cbn. by rewrite insert_insert_eq.
Qed.

Lemma core_failure out P' : pmm_alloc_pages_locked (Some (PageList o)) true count flags lg (prepared_pmm o (r_pmm s)) = Some ((ERR_NO_MEMORY, out), P') -> failed (prepared_pmm o (r_pmm s)) P' ->
  exists s', pmm_alloc_from_res_group (Some o) ref false go count flags lg s = Some ((ERR_NO_MEMORY, None), s') /\ res_inv s' /\ objs s' = objs s /\ groups s' = groups s.
Proof.
  intros Hrun Hf. pose proof (ca_mem _ _ _ _ _ _ Hca o eq_refl) as Ho. rewrite (core_run _ _ _ Hrun). change (negb (ERR_NO_MEMORY =? 0)) with true. cbv iota. destruct taken_fields as (F1 & F2 & F3 & F4).
  unfold free_obj. rewrite bind_assoc, modify_bind. set (t := with_objs (delete o) _). rewrite (on_pmm_bind _ _ t tt (with_lists (delete (PageList o)) (with_lock false P'))) by done. set (t' := with_pmm _ t).
  rewrite (bind_eq _ _ _ _ _ (release_taken s go count Hi (ca_group _ _ _ _ _ _ Hca) (proj1 (ca_count _ _ _ _ _ _ Hca)) t' eq_refl F3)). eexists. split; [reflexivity|].
  assert (with_groups (fun _ => groups s) t' = mk_rsys (with_lists (delete (PageList o)) (with_lock false P')) (groups s) (objs s) false false) as ->; [|split; [by apply failure_inv|done]].
  unfold with_groups, t', t. cbn. rewrite F2, F3, F4, delete_insert_eq, delete_id by done. done.
Qed.

Lemma take_code_group g : go = Some g -> exists x, groups s !! g = Some x /\ check_take x count = 0.
Proof. intros ->. destruct (ca_group _ _ _ _ _ _ Hca g eq_refl) as [x Hx]. exists x. split; [done|]. unfold take_code in Hcode. by rewrite Hx in Hcode. Qed.

Lemma core_success out P' ps : pmm_alloc_pages_locked (Some (PageList o)) true count flags lg (prepared_pmm o (r_pmm s)) = Some ((0, out), P') ->
  succeeded (Some (PageList o)) count flags ps (prepared_pmm o (r_pmm s)) P' ->
  exists s', pmm_alloc_from_res_group (Some o) ref false go count flags lg s = Some ((NO_ERROR, Some o), s') /\ res_inv s' /\
    objs s' = <[o := whole_obj ref go flags count out]> (objs s) /\ groups s' = groups_with o go count (groups s) /\ r_pmm s' = with_lock false P'.
Proof.
  intros Hrun Hs. pose proof (ca_mem _ _ _ _ _ _ Hca o eq_refl) as Ho. pose proof (proj1 (ca_count _ _ _ _ _ _ Hca)) as Hc. pose proof (ca_reserved _ _ _ _ _ _ Hca) as Hfr.
  pose proof take_code_group as Htcg. rewrite (core_run _ _ _ Hrun). cbn [Z.eqb negb]. cbv iota. destruct taken_fields as (F1 & F2 & F3 & F4). destruct (ri_locks _ Hi) as (Hk & Hak & Hgl & Hvl).
  set (y1 := set_o_flags _ _). set (t := with_pmm _ _). set (yw := whole_obj ref go flags count out).
  assert (exists t', match go with Some g => res_group_add_ref g o ;; upd_obj o (set_o_group (Some g) count) | None => ret tt end t = Some (tt, t') /\
    exists y2, objs t' !! o = Some y2 /\ set_vmm_obj (Some (obj_init ref)) y2 = yw /\ with_objs <[o := yw]> t' = mk_rsys (with_lock false P') (groups_with o go count (groups s)) (<[o := yw]> (objs s)) false false) as (t' & Ht' & y2 & Hy2 & Hyw & He).
  { unfold yw, groups_with in *. destruct go as [g|] eqn:Hgo.
    - destruct (Htcg g eq_refl) as (x & Hx & _). rewrite Hx. assert (groups t !! g = Some (set_used (used_pages x + count) x)) as Hgt by (unfold t, taken_mem; cbn; rewrite Hx; cbn; apply lookup_insert_eq).
      rewrite (bind_eq _ _ _ _ _ (add_ref_raw t g _ o F3 Hgt)). assert (objs t !! o = Some y1) as Hyt by (unfold t; cbn; apply lookup_insert_eq).
      eexists. split; [unfold upd_obj; rewrite (get_obj_bind o y1) by exact Hyt; reflexivity|]. exists (set_o_group (Some g) count y1). split_and!; [apply lookup_insert_eq|done|].
      unfold t, taken_mem, with_objs, with_groups, with_pmm. rewrite Hx. cbn. rewrite !insert_insert_eq, Hgl, Hvl. done.
    - exists t. split; [done|]. exists y1. split_and!; [unfold t; cbn; apply lookup_insert_eq|done|]. unfold t, taken_mem, with_objs, with_pmm. cbn. by rewrite insert_insert_eq, Hgl, Hvl. }
  rewrite (bind_eq _ _ _ _ _ Ht'). unfold vmm_obj_init. rewrite (upd_obj_bind o y2) by done. rewrite Hyw, He. eexists. split; [reflexivity|]. split; [|done].
  apply (success_inv s o yw (groups_with o go count (groups s)) P' flags count ps Hi Ho Hc Hs). unfold yw, groups_with in *. destruct go as [g|] eqn:Hgo; cbn.
  - destruct (Htcg g eq_refl) as (x & Hx & Hct). destruct (check_take_ok x count Hct) as [_ Hle]. rewrite Hx. split_and!; [by rewrite Hfr, bool_decide_true|done|]. exists x. split_and!; done.
  - split; [by rewrite Hfr, bool_decide_false by (by intros [? ?])|done].
Qed.
End core.

(** The call fails without a trace when the group refuses or there is no memory for the
    object. *)
Lemma alloc_refused_run s mem ref go count flags lg : res_inv s -> call_ok s mem go count flags lg -> take_code s go count <> 0 \/ mem = None ->
  pmm_alloc_from_res_group mem ref false go count flags lg s = Some ((if take_code s go count =? 0 then ERR_NO_MEMORY else take_code s go count, None), s).
Proof.
  intros Hi Hca Hno. unfold pmm_alloc_from_res_group. rewrite (start_alloc_run s mem go count flags lg _ Hi Hca). destruct (Z.eqb_spec (take_code s go count) 0) as [Hz|Hz]; cbn [negb]; [|done].
  destruct Hno as [?|Hm]; [done|]. rewrite Hm in *. cbv zeta. rewrite (bind_eq _ _ _ _ _ (pmm_alloc_obj_run None flags count (taken_mem go count s) (proj1 (ca_count _ _ _ _ _ _ Hca)))). cbv iota.
  destruct (ri_locks _ Hi) as (_ & _ & Q1 & _).
  rewrite (bind_eq _ _ _ _ _ (release_taken s go count Hi (ca_group _ _ _ _ _ _ Hca) (proj1 (ca_count _ _ _ _ _ _ Hca)) (taken_mem go count s) eq_refl ltac:(unfold taken_mem; destruct go as [g|]; [destruct (groups s !! g)|]; done))).
  unfold ret. do 2 f_equal. unfold taken_mem. destruct go as [g|]; [destruct (groups s !! g)|]; by destruct s.
Qed.
End alloc.
