(* ===== verification/ResProps.v ===== *)
(** * Properties of resource groups and memory objects *)
From stdpp Require Import base gmap list relations.
From Stdlib Require Import ZArith Lia.
From S2P Require Import Prelude Pmm PmmInv PmmGrab PmmAlloc PmmFree PmmPages PmmReserve PmmOutcome PmmExample ResGroup ResInv ResOps ResAlloc.

Local Open Scope Z_scope.
Local Open Scope lk_scope.

Section calls.
Context `{!PmmConfig} `{!PmmLaws} `{!ObjRefs} `{!RefLaws} `{!ResConfig}.
Implicit Types (a p i g o n : Z) (s : rsys) (x : res_group) (y : pmm_vmm_obj) (ps q : list Z).

(** ** The calls, and who may make them when *)
Inductive call :=
  | Create (mem : option Z) (pages ref : Z)
  | AddRef (g ref : Z)
  | DelRef (g ref : Z)
  | Shutdown (g : Z)
  | Alloc (mem : option Z) (ref : Z) (go : option Z) (count flags align_log2 : Z)
  | ObjAddRef (o ref : Z)
  | ObjDelRef (o ref : Z).

Definition run_call (c : call) : M rsys unit :=
  match c with
  | Create mem pages ref => _ <- res_group_create mem pages ref ;; ret tt
  | AddRef g ref => res_group_add_ref g ref
  | DelRef g ref => res_group_del_ref g ref
  | Shutdown g => _ <- res_group_shutdown g ;; ret tt
  | Alloc mem ref go count flags lg => _ <- pmm_alloc_from_res_group mem ref false go count flags lg ;; ret tt
  | ObjAddRef o ref => vmm_obj_add_ref o ref
  | ObjDelRef o ref => vmm_obj_del_ref o ref
  end.

(** New memory is not in use; a reference that is dropped is held, and not the one an
    object has on its group; the last one of a group is dropped after its shutdown, and
    so is the last one of an object that keeps its group alive. *)
Definition permitted s (c : call) : Prop :=
  match c with
  | Create mem pages ref => 0 <= pages < 2 ^ 32 /\ forall g, mem = Some g -> groups s !! g = None /\ forall o y, objs s !! o = Some y -> o_group y <> Some g
  | AddRef g ref => is_Some (groups s !! g)
  | DelRef g ref => exists x, groups s !! g = Some x /\ ref ∈ obj_refs (rg_obj x) /\ (forall y, objs s !! ref = Some y -> o_group y <> Some g) /\
      (obj_refs (rg_obj x) ∖ {[ref]} = ∅ -> is_shutdown x = true)
  | Shutdown g => exists x, groups s !! g = Some x /\ is_shutdown x = false
  | Alloc mem ref go count flags lg => call_ok s mem go count flags lg
  | ObjAddRef o ref => exists y v, objs s !! o = Some y /\ vmm_obj y = Some v
  | ObjDelRef o ref => exists y v, objs s !! o = Some y /\ vmm_obj y = Some v /\ ref ∈ obj_refs v /\ (obj_refs v ∖ {[ref]} = ∅ -> may_go s o y)
  end.
Definition rstep s s' : Prop := exists c, permitted s c /\ run_call c s = Some (tt, s').

(** ** Each of them *)
Lemma res_inv_vmm s o y v : res_inv s -> objs s !! o = Some y -> res_inv (with_objs <[o := set_vmm_obj v y]> s).
Proof.
  intros Hi Hy. destruct (ri_locks _ Hi) as (Q1 & Q2 & Q3 & Q4). unfold with_objs. rewrite Q3, Q4. apply (res_inv_objs s); [apply Hi|done| |apply Hi|].
  - intros g x Hg. rewrite (msum_update _ _ _ y) by done. pose proof (ri_groups _ Hi g x Hg). rewrite <- (ri_used _ Hi g x Hg). change (held g (set_vmm_obj v y)) with (held g y). lia.
  - intros o' y'. destruct (decide (o' = o)) as [->|Hne]; [rewrite lookup_insert_eq; intros [= <-]; exact (ri_objs _ Hi o y Hy)|rewrite lookup_insert_ne by done; exact (ri_objs _ Hi o' y')].
Qed.

Lemma vmm_acquire_bind {A} (k : unit -> M rsys A) s : vmm_lock s = false -> bind vmm_lock_acquire k s = k tt (with_vmm_lock true s).
Proof. intros Hk. unfold vmm_lock_acquire. by rewrite bind_assoc, gets_bind, bind_assoc, assert_bind by (by rewrite Hk). Qed.
Lemma get_vmm_obj_bind {A} o y v (k : obj -> M rsys A) s : objs s !! o = Some y -> vmm_obj y = Some v -> bind (get_vmm_obj o) k s = k v s.
Proof. intros Hy Hv. unfold get_vmm_obj. rewrite bind_assoc, (get_obj_bind o y) by done. apply bind_eq. by apply getsome_eq. Qed.

Lemma vmm_obj_add_ref_run s o y v ref : res_inv s -> objs s !! o = Some y -> vmm_obj y = Some v ->
  vmm_obj_add_ref o ref s = Some (tt, with_objs <[o := set_vmm_obj (Some (obj_add_ref ref v)) y]> s).
Proof.
  intros Hi Hy Hv. destruct (ri_locks _ Hi) as (_ & _ & _ & Hvl). unfold vmm_obj_add_ref. rewrite vmm_acquire_bind by done. rewrite (get_vmm_obj_bind o y v) by done. rewrite (upd_obj_bind o y) by done.
  unfold vmm_lock_release, modify, with_objs, with_vmm_lock. cbn. by rewrite Hvl.
Qed.

Lemma vmm_obj_del_ref_run s o y v ref : res_inv s -> objs s !! o = Some y -> vmm_obj y = Some v -> ref ∈ obj_refs v -> (obj_refs v ∖ {[ref]} = ∅ -> may_go s o y) ->
  exists s', vmm_obj_del_ref o ref s = Some (tt, s') /\ res_inv s' /\
    if decide (obj_refs v ∖ {[ref]} = ∅) then objs s' = delete o (objs s) /\ groups s' = groups_without o y (groups s)
    else objs s' = <[o := set_vmm_obj (Some (fst (obj_del_ref ref v))) y]> (objs s) /\ groups s' = groups s.
Proof.
  intros Hi Hy Hv Hin Hgo. destruct (ri_locks _ Hi) as (_ & _ & _ & Hvl). destruct (refs_del ref v Hin) as [Hv' Hd]. set (s1 := with_objs <[o := set_vmm_obj (Some (fst (obj_del_ref ref v))) y]> s).
  assert (vmm_obj_del_ref o ref s = when (bool_decide (obj_refs v ∖ {[ref]} = ∅)) (pmm_vmm_obj_destroy o) s1) as ->.
  { unfold vmm_obj_del_ref. rewrite vmm_acquire_bind by done. rewrite (get_vmm_obj_bind o y v) by done. rewrite <- Hd. unfold s1. destruct (obj_del_ref ref v) as [v' d]. cbn [fst snd]. rewrite (upd_obj_bind o y) by done.
    unfold vmm_lock_release. rewrite modify_bind. f_equal. unfold with_vmm_lock, with_objs. cbn. by rewrite Hvl. }
  pose proof (res_inv_vmm s o y (Some (fst (obj_del_ref ref v))) Hi Hy) as Hi1. fold s1 in Hi1. case_bool_decide as He; destruct (decide (obj_refs v ∖ {[ref]} = ∅)) as [He'|He']; [|done|done|by exists s1]. cbn [when].
  destruct (destroy_obj_run s1 o (set_vmm_obj (Some (fst (obj_del_ref ref v))) y) Hi1) as (s2 & Hs2 & Hi2 & D1 & D2); [unfold s1; cbn; apply lookup_insert_eq|exact (Hgo He)|].
  exists s2. split_and!; [done|done| |exact D2]. rewrite D1. unfold s1. cbn. apply delete_insert_eq.
Qed.

Lemma alloc_defined s mem ref go count flags lg : res_inv s -> call_ok s mem go count flags lg ->
  exists r s', pmm_alloc_from_res_group mem ref false go count flags lg s = Some (r, s') /\ res_inv s'.
Proof.
  intros Hi Hca. destruct mem as [o|]; [|eexists _, s; split; [apply (alloc_refused_run s None ref go count flags lg Hi Hca); by right|done]].
  destruct (decide (take_code s go count = 0)) as [Hz|Hz]; [|eexists _, s; split; [apply (alloc_refused_run s (Some o) ref go count flags lg Hi Hca); by left|done]].
  destruct (alloc_outcome (Some (PageList o)) true count flags lg (prepared_pmm o (r_pmm s))) as (r & out & P' & Hrun & [(-> & ps & Hs)|(-> & Hf)]).
  - apply prepared_alloc_ok; [apply Hi|apply Hi|apply Hca|apply Hca].
  - destruct (core_success s o ref go count flags lg Hi Hca Hz out P' ps Hrun Hs) as (s' & Hs' & Hi' & _). by eexists _, s'.
  - destruct (core_failure s o ref go count flags lg Hi Hca Hz out P' Hrun Hf) as (s' & Hs' & Hi' & _). by eexists _, s'.
Qed.

Lemma call_defined s c : res_inv s -> permitted s c -> exists s', run_call c s = Some (tt, s') /\ res_inv s'.
Proof.
  intros Hi Hp. destruct c as [mem pages ref|g ref|g ref|g|mem ref go count flags lg|o ref|o ref]; cbn [run_call permitted] in *.
  - destruct Hp as [Hpg Hm]. destruct mem as [g|]; [|by exists s]. destruct (Hm g eq_refl) as [Hg Ho]. pose proof (create_run s g pages ref Hi Hg Ho Hpg) as Hr. destruct (pages <=? _).
    + destruct Hr as (s' & Hr & Hi' & _). exists s'. by rewrite (bind_eq _ _ _ _ _ Hr).
    + exists s. by rewrite (bind_eq _ _ _ _ _ Hr).
  - destruct Hp as [x Hx]. destruct (add_ref_run s g x ref Hi Hx). by eexists.
  - destruct Hp as (x & Hx & Hin & Hno & Hsd). destruct (del_ref_run s g x ref Hi Hx Hin Hno Hsd) as (s' & Hr & Hi' & _). by exists s'.
  - destruct Hp as (x & Hx & Hsd). destruct (shutdown_run s g x Hi Hx Hsd) as (s' & Hr & Hi' & _). exists s'. by rewrite (bind_eq _ _ _ _ _ Hr).
  - destruct (alloc_defined s mem ref go count flags lg Hi Hp) as (r & s' & Hr & Hi'). exists s'. by rewrite (bind_eq _ _ _ _ _ Hr).
  - destruct Hp as (y & v & Hy & Hv). eexists. split; [by apply vmm_obj_add_ref_run|]. by apply res_inv_vmm.
  - destruct Hp as (y & v & Hy & Hv & Hin & Hgo). destruct (vmm_obj_del_ref_run s o y v ref Hi Hy Hv Hin Hgo) as (s' & Hr & Hi' & _). by exists s'.
Qed.

(** C21: in every run of calls on groups and memory objects from a well-formed state, no
    call fails an assertion (no count of used pages goes below zero, no reservation is
    cancelled twice, no page is given back that is free), and the pages the arenas keep
    reserved are exactly those the groups have reserved and not handed out. *)
Theorem res_group_invariant s0 s :
  res_inv s0 -> rtc rstep s0 s ->
  res_inv s /\ forall c, permitted s c -> exists s', run_call c s = Some (tt, s').
Proof.
  intros Hi Hr. assert (res_inv s) as His; [|split; [done|]; intros c Hp; destruct (call_defined s c His Hp) as (s' & ? & _); by exists s'].
  induction Hr as [|s s1 s2 (c & Hp & Hc) Hr IH]; [done|]. apply IH. destruct (call_defined s c Hi Hp) as (s' & Hc' & Hi'). congruence.
Qed.

(** C22: a group gets what it has reserved. An allocation of any pages from a group that
    has not been shut down succeeds exactly if the pages the group has in use and the new
    ones do not exceed its reservation; the object then has so many pages, and a failing
    call leaves everything as it was. *)
Theorem group_memory_guaranteed s o ref g x count flags :
  res_inv s -> groups s !! g = Some x -> call_ok s (Some o) (Some g) count flags 0 -> contiguous (effective count flags 0) = false -> has_flag PMM_ALLOC_FLAG_KMAP flags = false ->
  if check_take x count =? 0
  then exists s' out, pmm_alloc_from_res_group (Some o) ref false (Some g) count flags 0 s = Some ((NO_ERROR, Some o), s') /\ res_inv s' /\
    objs s' = <[o := whole_obj ref (Some g) flags count out]> (objs s) /\ groups s' = groups_with o (Some g) count (groups s) /\
    lists (r_pmm s') !! PageList o = Some out /\ Z.of_nat (length out) = count
  else pmm_alloc_from_res_group (Some o) ref false (Some g) count flags 0 s = Some ((check_take x count, None), s).
Proof.
  intros Hi Hx Hca Hco Hkm. assert (take_code s (Some g) count = check_take x count) as Hcode by (unfold take_code; by rewrite Hx). destruct (Z.eqb_spec (check_take x count) 0) as [Hz|Hz].
  - assert (from_reserved flags = true) as Hfr by (rewrite (ca_reserved _ _ _ _ _ _ Hca); by apply bool_decide_true).
    assert (alloc_ok (Some (PageList o)) count flags 0 (prepared_pmm o (r_pmm s))) as Hok by (apply prepared_alloc_ok; [apply Hi|apply Hi|apply Hca|apply Hca]).
    pose proof (alloc_any_run _ true _ _ _ _ Hok Hco) as Ha. rewrite (avail_reserved flags (prepared_pmm o (r_pmm s)) _ Hkm Hfr) in Ha.
    change (total reserved_count (prepared_pmm o (r_pmm s)) (arena_list (prepared_pmm o (r_pmm s)))) with (listed_total reserved_count (r_pmm s)) in Ha.
    pose proof (total_unused s g x Hi Hx) as Htu. destruct (check_take_ok x count Hz) as [_ Hle]. rewrite (proj2 (Z.leb_le count _)) in Ha by (unfold unused in Htu; lia). destruct Ha as (ps & P' & Hrun & Hs).
    rewrite <- Hcode in Hz. destruct (core_success s o ref (Some g) count flags 0 Hi Hca Hz ps P' ps Hrun Hs) as (s' & Hs' & Hi' & C1 & C2 & C3). exists s', ps. split_and!; try done.
    + rewrite C3. exact (proj1 (succeeded_lists o (r_pmm s) P' (ri_pmm _ Hi) flags count ps Hs)).
    + apply Hs.
  - pose proof (alloc_refused_run s (Some o) ref (Some g) count flags 0 Hi Hca) as Hr. rewrite Hcode in Hr. rewrite (proj2 (Z.eqb_neq _ _) Hz) in Hr. apply Hr. by left.
Qed.

(** C23: an object that is made from a group and whose only reference is then dropped
    leaves the group, if it has other references, as it was: the pages in use, the
    reservation and the references; and the pages are reserved again. *)
Theorem vmm_obj_round_trip s o ref g x count flags lg s1 :
  res_inv s -> groups s !! g = Some x -> call_ok s (Some o) (Some g) count flags lg -> o ∉ obj_refs (rg_obj x) -> obj_refs (rg_obj x) <> ∅ ->
  pmm_alloc_from_res_group (Some o) ref false (Some g) count flags lg s = Some ((NO_ERROR, Some o), s1) ->
  exists s2 v, vmm_obj_del_ref o ref s1 = Some (tt, s2) /\ res_inv s2 /\ objs s2 = objs s /\ groups s2 = <[g := set_rg_obj v x]> (groups s) /\ obj_refs v = obj_refs (rg_obj x) /\
    listed_total reserved_count (r_pmm s2) = listed_total reserved_count (r_pmm s).
Proof.
  intros Hi Hx Hca Ho Hne Hr. pose proof (ca_mem _ _ _ _ _ _ Hca o eq_refl) as Hfresh. set (y := fun out => whole_obj ref (Some g) flags count out).
  assert (exists out, res_inv s1 /\ objs s1 = <[o := y out]> (objs s) /\ groups s1 = groups_with o (Some g) count (groups s)) as (out & Hi1 & Ho1 & Hg1).
  { destruct (decide (take_code s (Some g) count = 0)) as [Hz|Hz]; [|rewrite (alloc_refused_run s (Some o) ref (Some g) count flags lg Hi Hca (or_introl Hz)) in Hr; discriminate Hr].
    destruct (alloc_outcome (Some (PageList o)) true count flags lg (prepared_pmm o (r_pmm s))) as (r & out & P' & Hrun & [(-> & ps & Hs)|(-> & Hf)]).
    - apply prepared_alloc_ok; [apply Hi|apply Hi|apply Hca|apply Hca].
    - destruct (core_success s o ref (Some g) count flags lg Hi Hca Hz out P' ps Hrun Hs) as (s' & Hs' & Hi' & C1 & C2 & _). exists out. assert (s1 = s') as -> by congruence. done.
    - destruct (core_failure s o ref (Some g) count flags lg Hi Hca Hz out P' Hrun Hf) as (s' & Hs' & _). rewrite Hs' in Hr. discriminate Hr. }
  unfold groups_with in Hg1. rewrite Hx in Hg1. set (x1 := set_rg_obj _ _) in Hg1. assert (obj_refs (rg_obj x1) ∖ {[o]} = obj_refs (rg_obj x)) as Hrefs by (unfold x1; cbn; rewrite refs_add; set_solver).
  assert (groups s1 !! g = Some x1) as Hx1 by (rewrite Hg1; apply lookup_insert_eq).
  destruct (vmm_obj_del_ref_run s1 o (y out) (obj_init ref) ref Hi1) as (s2 & Hs2 & Hi2 & Hend); [by rewrite Ho1, lookup_insert_eq|done|rewrite refs_init; set_solver| |].
  { intros _ g' x' Hg' Hx' He. injection Hg' as <-. assert (x' = x1) as -> by congruence. congruence. }
  rewrite decide_True in Hend by (rewrite refs_init; set_solver). destruct Hend as [E1 E2]. exists s2, (fst (obj_del_ref o (rg_obj x1))).
  assert (objs s2 = objs s) as Hos by (rewrite E1, Ho1, delete_insert_id by done; done).
  assert (groups s2 = <[g := set_rg_obj (fst (obj_del_ref o (rg_obj x1))) x]> (groups s)) as Hgs.
  { rewrite E2. unfold groups_without. cbn [o_group y whole_obj]. rewrite Hx1. cbv zeta. unfold after_del. cbn [rg_obj set_used]. rewrite decide_False by (by rewrite Hrefs). rewrite insert_insert_eq, Hg1, insert_insert_eq. f_equal.
    unfold set_rg_obj, set_used, x1. cbn. f_equal. unfold set_rg_obj. cbn. lia. }
  split_and!; [done|done|done|done| |].
  - destruct (refs_del o (rg_obj x1)) as [-> _]; [unfold x1; cbn; rewrite refs_add; set_solver|exact Hrefs].
  - rewrite (ri_total _ Hi2), (ri_total _ Hi), Hgs, (msum_update _ _ _ x) by done. unfold unused. cbn. lia.
Qed.
End calls.

Module ResExample.
Import PmmExample.

#[export] Instance example_refs : ObjRefs := {
  obj := gset Z;
  obj_init r := {[r]};
  obj_add_ref r v := {[r]} ∪ v;
  obj_del_ref r v := (v ∖ {[r]}, bool_decide (v ∖ {[r]} = ∅));
  obj_has_ref v := negb (bool_decide (v = ∅));
  obj_has_only_ref r v := bool_decide (v = {[r]})
}.
#[export] Instance example_ref_laws : RefLaws.
Proof. refine (@Build_RefLaws example_refs (fun v : gset Z => v) _ _ _ _ _); done. Defined.
#[export] Instance example_res_config : ResConfig := { arch_tagging_enabled := false }.

(** The machine with two arenas, and then a group of five pages. *)
Definition start : rsys := mk_rsys machine ∅ ∅ false false.
Definition one_group : rsys := match run_call (Create (Some 100) 5 200) start with Some (_, s) => s | None => start end.

Lemma res_start_inv : res_inv start.
Proof.
  apply (res_inv_objs start machine ∅ ∅).
  - apply machine_wf.
  - split; by vm_compute.
  - intros g x Hg. by rewrite lookup_empty in Hg.
  - by vm_compute.
  - intros o y Hy. by rewrite lookup_empty in Hy.
Qed.
Lemma create_permitted : permitted start (Create (Some 100) 5 200).
Proof. split; [lia|]. intros g [= <-]. split; [done|]. intros o y Hy. unfold start in Hy. cbn in Hy. by rewrite lookup_empty in Hy. Qed.
Lemma one_group_run : run_call (Create (Some 100) 5 200) start = Some (tt, one_group).
Proof. destruct (call_defined start _ res_start_inv create_permitted) as (s' & Hr & _). unfold one_group. by rewrite Hr. Qed.
Lemma one_group_inv : res_inv one_group.
Proof. destruct (call_defined start _ res_start_inv create_permitted) as (s' & Hr & Hi). unfold one_group. by rewrite Hr. Qed.
Definition the_group : res_group := mk_group (obj_init 200) 5 0 false.
Lemma one_group_lookup : groups one_group !! 100 = Some the_group.
Proof. by vm_compute. Qed.
Lemma example_call count : 0 < count < 2 ^ 32 -> call_ok one_group (Some 300) (Some 100) count 12 0.
Proof.
  intros Hc. constructor; [done|done| |done| |].
  - intros g [= <-]. eexists. exact one_group_lookup.
  - intros o [= <-]. by vm_compute.
  - constructor; [by left|intros a ar _ _ _; by left|]. unfold effective. done.
Qed.

Lemma res_group_invariant_witness : res_inv one_group /\ forall c, permitted one_group c -> exists s', run_call c one_group = Some (tt, s').
Proof. apply (res_group_invariant start one_group res_start_inv). apply rtc_once. exists (Create (Some 100) 5 200). exact (conj create_permitted one_group_run). Defined.

Lemma group_memory_guaranteed_witness :
  (exists s' out, pmm_alloc_from_res_group (Some 300) 301 false (Some 100) 3 12 0 one_group = Some ((NO_ERROR, Some 300), s') /\ Z.of_nat (length out) = 3 /\ lists (r_pmm s') !! PageList 300 = Some out) /\
  pmm_alloc_from_res_group (Some 300) 301 false (Some 100) 6 12 0 one_group = Some ((ERR_NO_MEMORY, None), one_group).
Proof.
  split.
  - destruct (group_memory_guaranteed one_group 300 301 100 the_group 3 12 one_group_inv one_group_lookup (example_call 3 ltac:(lia)) eq_refl eq_refl) as (s' & out & Hr & _ & _ & _ & Hl & Hn). exists s', out. exact (conj Hr (conj Hn Hl)).
  - exact (group_memory_guaranteed one_group 300 301 100 the_group 6 12 one_group_inv one_group_lookup (example_call 6 ltac:(lia)) eq_refl eq_refl).
Defined.

Lemma vmm_obj_round_trip_witness : exists s1 s2,
  pmm_alloc_from_res_group (Some 300) 301 false (Some 100) 3 12 0 one_group = Some ((NO_ERROR, Some 300), s1) /\ vmm_obj_del_ref 300 301 s1 = Some (tt, s2) /\ objs s2 = objs one_group.
Proof.
  destruct (pmm_alloc_from_res_group (Some 300) 301 false (Some 100) 3 12 0 one_group) as [[r s1]|] eqn:Hr.
  - assert (fst <$> pmm_alloc_from_res_group (Some 300) 301 false (Some 100) 3 12 0 one_group = Some (NO_ERROR, Some 300)) as Hz by (by vm_compute). rewrite Hr in Hz. injection Hz as ->.
    destruct (vmm_obj_round_trip one_group 300 301 100 the_group 3 12 0 s1 one_group_inv one_group_lookup (example_call 3 ltac:(lia))) as (s2 & v & Hd & _ & Ho & _); [by vm_compute|by vm_compute|exact Hr|].
    exists s1, s2. exact (conj eq_refl (conj Hd Ho)).
  - assert (fst <$> pmm_alloc_from_res_group (Some 300) 301 false (Some 100) 3 12 0 one_group = Some (NO_ERROR, Some 300)) as Hz by (by vm_compute). by rewrite Hr in Hz.
Defined.

(** The number of pages of a group has 64 bits and that of a reservation 32: a group of
    2^32 pages is made on a machine with seven, and reserves none. *)
Example group_reserves_nothing :
  (fun r => (fst r, reserved_pages <$> groups (snd r) !! 100, listed_total reserved_count (r_pmm (snd r)))) <$> res_group_create (Some 100) (2 ^ 32) 200 start =
  Some (Some 100, Some (2 ^ 32), 0).
Proof. by vm_compute. Qed.
End ResExample.
