(* ===== verification/Vmm.v ===== *)
(** * Virtual memory (kernel/vm/vmm.c)

    An address space has a tree of regions; a region that only reserves addresses is
    backed by an object with a tree of its own. Nodes of all trees are in one memory,
    and a region and the node in it have the same address. The objects that back
    regions with pages are the class [PhysObjs], the page tables the class [ArchMmu].
    Addresses and sizes have 64 bits and their sums wrap where the code lets them. *)
From stdpp Require Import base gmap list.
From Stdlib Require Import ZArith Lia.
From S2P Require Import Prelude Bst Pmm ResGroup.

Local Open Scope Z_scope.
Local Open Scope lk_scope.

Definition ERR_NOT_FOUND : Z := -2.
Definition VMM_ASPACE_FLAG_KERNEL : Z := 1.
Definition VMM_ASPACE_FLAG_BTI : Z := 2.
Definition ARCH_ASPACE_FLAG_KERNEL : Z := 1.
Definition ARCH_ASPACE_FLAG_BTI : Z := 2.
Definition VMM_REGION_FLAG_RESERVED : Z := 1.
Definition VMM_REGION_FLAG_PHYSICAL : Z := 2.
Definition VMM_REGION_FLAG_INTERNAL_MASK : Z := 65535.
Definition VMM_FLAG_VALLOC_SPECIFIC : Z := 2 ^ 16.
Definition VMM_FLAG_NO_START_GUARD : Z := 2 ^ 17.
Definition VMM_FLAG_NO_END_GUARD : Z := 2 ^ 18.
Definition VMM_FLAG_NO_PHYSICAL : Z := 2 ^ 19.
Definition VMM_FLAG_QUOTA : Z := 2 ^ 20.
Definition VMM_FREE_REGION_FLAG_EXPAND : Z := 1.
Definition ARCH_MMU_FLAG_PERM_RO : Z := 8.
Definition ARCH_MMU_FLAG_PERM_NO_EXECUTE : Z := 16.
Definition ARCH_MMU_FLAG_TAGGED : Z := 64.
Definition ARCH_MMU_FLAG_INVALID : Z := 128.
(** [(vaddr_t)-1] *)
Definition no_spot : Z := 2 ^ 64 - 1.

(** ** What vmm.c uses of other parts *)

(** arch/mmu.h and arch/tbi.h, which every architecture implements. Calls that can
    fail return a status beside the page tables they leave. *)
Class ArchMmu := {
  arch_aspace_t : Type;
  arch_mmu_init_aspace : Z -> Z -> Z -> arch_aspace_t * Z;
  arch_mmu_destroy_aspace : arch_aspace_t -> arch_aspace_t;
  arch_mmu_map : Z -> Z -> Z -> Z -> arch_aspace_t -> arch_aspace_t * Z;
  arch_mmu_map_replace : Z -> Z -> Z -> Z -> arch_aspace_t -> arch_aspace_t * Z;
  arch_mmu_unmap : Z -> Z -> arch_aspace_t -> arch_aspace_t;
  arch_mmu_query : Z -> arch_aspace_t -> option (Z * Z);
  arch_adjusted_vaddr : Z -> bool -> Z
}.

(** The memory objects of vm_obj.h (their operations and references), the allocation of
    new ones, resource groups, and the lock of vmm.c, which the references share. *)
Class PhysObjs (O : Type) := {
  vmm_mutex_held : O -> bool;
  set_vmm_mutex : bool -> O -> O;
  po_check_flags : Z -> Z -> M O (Z + Z);
  po_get_page : Z -> Z -> M O (Z + Z * Z);
  po_destroy : Z -> M O unit;
  po_add_ref : Z -> Z -> M O unit;
  po_del_ref : Z -> Z -> M O bool;
  po_needs_clear : Z -> M O bool;
  po_allows_tagged : Z -> M O bool;
  po_set_cleared : Z -> Z -> Z -> M O unit;
  po_set_tagged : Z -> M O unit;
  po_alloc : option Z -> Z -> option Z -> Z -> Z -> Z -> M O (Z * option Z);
  po_group_create : option Z -> Z -> Z -> M O (option Z);
  po_group_shutdown : Z -> M O unit;
  po_group_del_ref : Z -> Z -> M O unit
}.

(** Build options, and the random numbers of lib/rand, drawn from a generator's state. *)
Class VmmConfig := {
  aslr : bool;
  rand_get_size : Z -> Z -> Z * Z;
  KERNEL_ASPACE_BASE : Z;
  KERNEL_ASPACE_SIZE : Z;
  USER_ASPACE_BASE : Z;
  USER_ASPACE_SIZE : Z;
  kernel_aspace : Z;
  KERNEL_BTI_ENABLED : bool;
  arch_bti_supported : bool
}.

(** ** Data *)

(** [struct vmm_region] without its name and its node. *)
Record vmm_region := mk_region {
  vr_flags : Z; vr_mmu_flags : Z; vr_base : Z; vr_obj : option Z; vr_offset : Z; vr_size : Z
}.

(** A tree of regions belongs to an address space or to a [struct vmm_res_obj]. *)
Inductive region_tree := AspaceTree (a : Z) | ResTree (o : Z).
#[export] Instance region_tree_eq_dec : EqDecision region_tree.
Proof. solve_decision. Defined.
#[export] Instance region_tree_countable : Countable region_tree.
Proof.
  apply (inj_countable'
    (fun t => match t with AspaceTree a => (true, a) | ResTree o => (false, o) end)
    (fun p => match p with (true, a) => AspaceTree a | (false, o) => ResTree o end)).
  by intros [].
Defined.

Section vmm.
Context `{!PmmConfig} `{!ObjRefs} `{!ArchMmu} `{!VmmConfig} {OB : Type} `{!PhysObjs OB} `{!ResConfig}.

(** [struct vmm_aspace] without its name. *)
Record vmm_aspace := mk_aspace {
  va_flags : Z; va_base : Z; va_size : Z; va_group : option Z; va_arch : arch_aspace_t
}.

(** [v_current] is the address space of the current thread, [v_context] the one that is
    loaded, [v_cleared] the ranges of virtual addresses that were cleared. *)
Record vsys := mk_vsys {
  v_nodes : gmap Z bst_node;
  v_roots : gmap region_tree Z;
  v_regions : gmap Z vmm_region;
  v_aspaces : gmap Z vmm_aspace;
  v_list : list Z;
  v_res : gmap Z obj;
  v_objs : OB;
  v_rng : Z;
  v_cleared : list (Z * Z);
  v_current : option Z;
  v_context : option Z
}.

Definition with_vnodes f (s : vsys) : vsys :=
  mk_vsys (f (v_nodes s)) (v_roots s) (v_regions s) (v_aspaces s) (v_list s) (v_res s) (v_objs s) (v_rng s) (v_cleared s) (v_current s) (v_context s).
Definition with_roots f (s : vsys) : vsys :=
  mk_vsys (v_nodes s) (f (v_roots s)) (v_regions s) (v_aspaces s) (v_list s) (v_res s) (v_objs s) (v_rng s) (v_cleared s) (v_current s) (v_context s).
Definition with_regions f (s : vsys) : vsys :=
  mk_vsys (v_nodes s) (v_roots s) (f (v_regions s)) (v_aspaces s) (v_list s) (v_res s) (v_objs s) (v_rng s) (v_cleared s) (v_current s) (v_context s).
Definition with_aspaces f (s : vsys) : vsys :=
  mk_vsys (v_nodes s) (v_roots s) (v_regions s) (f (v_aspaces s)) (v_list s) (v_res s) (v_objs s) (v_rng s) (v_cleared s) (v_current s) (v_context s).
Definition with_vlist f (s : vsys) : vsys :=
  mk_vsys (v_nodes s) (v_roots s) (v_regions s) (v_aspaces s) (f (v_list s)) (v_res s) (v_objs s) (v_rng s) (v_cleared s) (v_current s) (v_context s).
Definition with_res f (s : vsys) : vsys :=
  mk_vsys (v_nodes s) (v_roots s) (v_regions s) (v_aspaces s) (v_list s) (f (v_res s)) (v_objs s) (v_rng s) (v_cleared s) (v_current s) (v_context s).
Definition with_vobjs (x : OB) (s : vsys) : vsys :=
  mk_vsys (v_nodes s) (v_roots s) (v_regions s) (v_aspaces s) (v_list s) (v_res s) x (v_rng s) (v_cleared s) (v_current s) (v_context s).
Definition with_rng g (s : vsys) : vsys :=
  mk_vsys (v_nodes s) (v_roots s) (v_regions s) (v_aspaces s) (v_list s) (v_res s) (v_objs s) g (v_cleared s) (v_current s) (v_context s).
Definition with_vcleared f (s : vsys) : vsys :=
  mk_vsys (v_nodes s) (v_roots s) (v_regions s) (v_aspaces s) (v_list s) (v_res s) (v_objs s) (v_rng s) (f (v_cleared s)) (v_current s) (v_context s).
Definition with_current c (s : vsys) : vsys :=
  mk_vsys (v_nodes s) (v_roots s) (v_regions s) (v_aspaces s) (v_list s) (v_res s) (v_objs s) (v_rng s) (v_cleared s) c (v_context s).
Definition with_context c (s : vsys) : vsys :=
  mk_vsys (v_nodes s) (v_roots s) (v_regions s) (v_aspaces s) (v_list s) (v_res s) (v_objs s) (v_rng s) (v_cleared s) (v_current s) c.

Local Abbreviation MV := (M vsys).

Definition on_objs {A} (m : M OB A) : MV A :=
  fun s => match m (v_objs s) with Some (a, x) => Some (a, with_vobjs x s) | None => None end.
(** A tree operation on the tree [id] in the memory of all nodes. *)
Definition tree_in (id : region_tree) (s : vsys) : option bst_root := mk_bst_root (v_nodes s) <$> v_roots s !! id.
Definition on_tree (id : region_tree) {A} (m : M bst_root A) : MV A :=
  fun s => match tree_in id s with
           | Some b => match m b with
                       | Some (a, b') => Some (a, with_roots <[id := root b']> (with_vnodes (fun _ => bst_nodes b') s))
                       | None => None
                       end
           | None => None
           end.

Definition get_aspace (a : Z) : MV vmm_aspace := getsome (fun s => v_aspaces s !! a).
Definition upd_aspace (a : Z) (f : vmm_aspace -> vmm_aspace) : MV unit := x <- get_aspace a ;; modify (with_aspaces <[a := f x]>).
Definition get_region (r : Z) : MV vmm_region := getsome (fun s => v_regions s !! r).
Definition upd_region (r : Z) (f : vmm_region -> vmm_region) : MV unit := x <- get_region r ;; modify (with_regions <[r := f x]>).
Definition set_arch (p : arch_aspace_t) (x : vmm_aspace) : vmm_aspace := mk_aspace (va_flags x) (va_base x) (va_size x) (va_group x) p.
Definition set_slice (o : option Z) (offset size : Z) (x : vmm_region) : vmm_region := mk_region (vr_flags x) (vr_mmu_flags x) (vr_base x) o offset size.
Definition set_vr_flags (f : Z) (x : vmm_region) : vmm_region := mk_region f (vr_mmu_flags x) (vr_base x) (vr_obj x) (vr_offset x) (vr_size x).
Definition set_vr_base (b : Z) (x : vmm_region) : vmm_region := mk_region (vr_flags x) (vr_mmu_flags x) b (vr_obj x) (vr_offset x) (vr_size x).
(** [free] of a region. *)
Definition free_region (r : Z) : MV unit := modify (with_regions (delete r)) ;; modify (with_vnodes (delete r)).
(** A call that changes the page tables of [a]. *)
Definition on_arch (a : Z) {A} (f : arch_aspace_t -> arch_aspace_t * A) : MV A :=
  x <- get_aspace a ;; let '(p, r) := f (va_arch x) in upd_aspace a (set_arch p) ;; ret r.

Definition vmm_lock_aspace : MV unit := h <- gets (fun s => vmm_mutex_held (v_objs s)) ;; assert_ (negb h) ;; on_objs (modify (set_vmm_mutex true)).
Definition vmm_unlock_aspace : MV unit := on_objs (modify (set_vmm_mutex false)).

Definition get_arch_aspace_flags (flags : Z) : Z :=
  Z.lor (if has_flag VMM_ASPACE_FLAG_KERNEL flags then ARCH_ASPACE_FLAG_KERNEL else 0)
        (if has_flag VMM_ASPACE_FLAG_BTI flags then ARCH_ASPACE_FLAG_BTI else 0).
Definition is_page_aligned (x : Z) : bool := Z.land x (PAGE_SIZE - 1) =? 0.

(** ** Ranges *)
Definition add_overflow (a b : Z) : bool := 2 ^ 64 <=? a + b.

Definition range_contains_range {S} (range_base range_size query_base query_size : Z) : M S bool :=
  assert_ (range_size >? 0) ;;
  assert_ (query_size >? 0) ;;
  assert_ (negb (add_overflow range_base (range_size - 1))) ;;
  assert_ (negb (add_overflow query_base (query_size - 1))) ;;
  ret ((range_base <=? query_base) && (query_base + (query_size - 1) <=? range_base + (range_size - 1))).

Definition is_inside_aspace {S} (asp : vmm_aspace) (vaddr : Z) : M S bool := range_contains_range (va_base asp) (va_size asp) vaddr 1.

Definition is_region_inside_aspace {S} (asp : vmm_aspace) (r : vmm_region) : M S bool :=
  assert_ (va_base asp >=? PAGE_SIZE) ;;
  assert_ (va_size asp >? PAGE_SIZE) ;;
  let aspace_size := if has_flag VMM_FLAG_NO_END_GUARD (vr_flags r) then va_size asp else va_size asp - PAGE_SIZE in
  range_contains_range (va_base asp) aspace_size (vr_base r) (vr_size r).

Definition is_inside_region {S} (r : vmm_region) (vaddr : Z) : M S bool := range_contains_range (vr_base r) (vr_size r) vaddr 1.
Definition is_range_inside_region {S} (r : vmm_region) (vaddr size : Z) : M S bool := range_contains_range (vr_base r) (vr_size r) vaddr size.

Definition trim_to_aspace {S} (asp : vmm_aspace) (vaddr size : Z) : M S Z :=
  b <- is_inside_aspace asp vaddr ;;
  assert_ b ;;
  if size =? 0 then ret size
  else
    let offset := vaddr - va_base asp in
    let size := if u64 (offset + size) <? offset then u64 (2 ^ 64 - 1 - offset - 1) else size in
    ret (if u64 (offset + size) >=? u64 (va_size asp - 1) then va_size asp - offset else size).

Definition vmm_flags_guard (low_flags high_flags : Z) : Z :=
  if has_flag VMM_FLAG_NO_END_GUARD low_flags && has_flag VMM_FLAG_NO_START_GUARD high_flags then 0 else PAGE_SIZE.
Definition vmm_rguard (low high : vmm_region) : Z :=
  if vr_base low >=? vr_base high then 0 else vmm_flags_guard (vr_flags low) (vr_flags high).

Definition vmm_region_cmp (a b : vmm_region) : Z :=
  if vr_base b >? u64 (vr_base a + u64 (vr_size a - 1) + vmm_rguard a b) then 1
  else if vr_base a >? u64 (vr_base b + u64 (vr_size b - 1) + vmm_rguard b a) then -1
  else 0.
(** The comparison the trees get: of the regions two nodes are in. Trees only have nodes
    of regions. *)
Definition cmp_in (m : gmap Z vmm_region) (a b : Z) : Z :=
  match m !! a, m !! b with Some ra, Some rb => vmm_region_cmp ra rb | _, _ => 0 end.
(** ... and of a node with a region in a local variable. *)
Definition cmp_with (m : gmap Z vmm_region) (rb : vmm_region) (a : Z) : Z :=
  match m !! a with Some ra => vmm_region_cmp ra rb | None => 0 end.
Definition local_region : Z := -1.

(** ** Choosing a spot *)

(** The default, which the 64-bit architectures use. *)
Definition arch_mmu_pick_spot (base prev_flags end_ next_flags alignment size mmu_flags : Z) : Z := round_up base alignment.

Definition next_spot (prev_flags next_flags low high align size mmu_flags : Z) : option Z :=
  let candidate := arch_mmu_pick_spot low prev_flags high next_flags align size mmu_flags in
  if (candidate <? low) || (candidate >? high) then None
  else if add_overflow candidate (size - 1) then None
  else if candidate + (size - 1) >? high then None
  else Some candidate.

(** The lowest and the highest free address between two regions. *)
Definition extract_gap {S} (asp : vmm_aspace) (low high : option vmm_region) : M S (option (Z * Z)) :=
  assert_ (negb (va_size asp =? 0)) ;;
  let gap_low :=
    match low with
    | Some low => if add_overflow (vr_base low) (vr_size low) then None
                  else if add_overflow (vr_base low + vr_size low) PAGE_SIZE then None
                  else Some (vr_base low + vr_size low + PAGE_SIZE)
    | None => Some (va_base asp)
    end in
  match gap_low with
  | None => ret None
  | Some gap_low =>
      high_val <- match high with
                  | Some high => assert_ (negb (vr_base high =? 0)) ;; ret (vr_base high - 1)
                  | None => ret (u64 (va_base asp + u64 (va_size asp - 1)))
                  end ;;
      if high_val <? PAGE_SIZE then ret None
      else if gap_low >? high_val - PAGE_SIZE then ret None
      else ret (Some (gap_low, high_val - PAGE_SIZE))
  end.

Definition gap_flags (r : option vmm_region) : Z := match r with Some r => vr_mmu_flags r | None => ARCH_MMU_FLAG_INVALID end.

(** The loop of [scan_gap]. *)
Fixpoint last_spot {S} (fuel : nat) (low_flags high_flags high_addr alignment size mmu_flags first_base final_base : Z) : M S Z :=
  match fuel with
  | O => panic
  | Datatypes.S fuel =>
      match next_spot low_flags high_flags final_base high_addr alignment size mmu_flags with
      | Some spot => ret spot
      | None =>
          if u64 (final_base - first_base) <? PAGE_SIZE then ret final_base
          else last_spot fuel low_flags high_flags high_addr alignment size mmu_flags first_base (u64 (final_base - PAGE_SIZE))
      end
  end.

Definition scan_gap {S} (asp : vmm_aspace) (low high : option vmm_region) (alignment size mmu_flags : Z) : M S Z :=
  g <- extract_gap asp low high ;;
  match g with
  | None => ret 0
  | Some (low_addr, high_addr) =>
      match next_spot (gap_flags low) (gap_flags high) low_addr high_addr alignment size mmu_flags with
      | None => ret 0
      | Some first_base =>
          let final_base := round_down (u64 (high_addr - (size - 1))) PAGE_SIZE in
          final_base <- last_spot (Datatypes.S (Z.to_nat (alignment / PAGE_SIZE))) (gap_flags low) (gap_flags high) high_addr alignment size mmu_flags first_base final_base ;;
          ret (u64 (Z.shiftr (u64 (final_base - first_base)) PAGE_SIZE_SHIFT + 1))
      end
  end.

Definition spot_in_gap {S} (asp : vmm_aspace) (low high : option vmm_region) (align size mmu_flags index : Z) : M S Z :=
  g <- extract_gap asp low high ;;
  match g with
  | None => panic
  | Some (low_addr, high_addr) =>
      match next_spot (gap_flags low) (gap_flags high) low_addr high_addr align size mmu_flags with
      | None => panic
      | Some base =>
          let base := u64 (base + u64 (index * PAGE_SIZE)) in
          match next_spot (gap_flags low) (gap_flags high) base high_addr align size mmu_flags with
          | None => panic
          | Some base => ret base
          end
      end
  end.

(** [bst_for_every_entry] with what the loop carries, and with a way out of it. *)
Section loop.
Context {A R : Type} (id : region_tree) (body : Z -> A -> MV (A + R)).
Fixpoint each_region (fuel : nat) (cursor : Z) (acc : A) : MV (A + R) :=
  if cursor =? NULL then ret (inl acc)
  else
    match fuel with
    | O => panic
    | Datatypes.S fuel =>
        next <- on_tree id (bst_next cursor) ;;
        x <- body cursor acc ;;
        match x with
        | inl acc => each_region fuel next acc
        | inr r => ret (inr r)
        end
    end.
Definition for_each_region (acc : A) : MV (A + R) :=
  fuel <- on_tree id bst_fuel ;;
  first <- on_tree id (bst_next NULL) ;;
  each_region fuel first acc.
End loop.

(** The two passes of [alloc_spot]: the number of choices in each gap, and the gap that
    has the chosen one. Both end with the gap above the last region. *)
Definition count_spots (a : Z) (asp : vmm_aspace) (align size mmu_flags : Z) : MV Z :=
  x <- for_each_region (R := Empty_set) (AspaceTree a) (fun cursor acc =>
         right <- get_region cursor ;;
         n <- scan_gap asp (snd acc) (Some right) align size mmu_flags ;;
         ret (inl (u64 (fst acc + n), Some right))) (0, None) ;;
  match x with
  | inl acc => n <- scan_gap asp (snd acc) None align size mmu_flags ;; ret (u64 (fst acc + n))
  | inr e => match e with end
  end.

Definition pick_gap (a : Z) (asp : vmm_aspace) (align size mmu_flags index : Z) : MV Z :=
  x <- for_each_region (AspaceTree a) (fun cursor acc =>
         right <- get_region cursor ;;
         local_spots <- scan_gap asp (snd acc) (Some right) align size mmu_flags ;;
         if local_spots >? fst acc then spot <- spot_in_gap asp (snd acc) (Some right) align size mmu_flags (fst acc) ;; ret (inr spot)
         else ret (inl (fst acc - local_spots, Some right))) (index, None) ;;
  match x with
  | inl acc => spot_in_gap asp (snd acc) None align size mmu_flags (fst acc)
  | inr spot => ret spot
  end.

Definition choose_index (choices : Z) : MV Z :=
  if aslr then g <- gets v_rng ;; let '(index, g) := rand_get_size (choices - 1) g in modify (with_rng g) ;; ret index
  else ret 0.

(** The shift is defined for less than 64 bits. *)
Definition alloc_spot (a size align_pow2 mmu_flags : Z) : MV Z :=
  asp <- get_aspace a ;;
  assert_ ((size >? 0) && is_page_aligned size) ;;
  let align_pow2 := if align_pow2 <? PAGE_SIZE_SHIFT then PAGE_SIZE_SHIFT else align_pow2 in
  assert_ (align_pow2 <? 64) ;;
  let align := Z.shiftl 1 align_pow2 in
  choices <- count_spots a asp align size mmu_flags ;;
  if choices =? 0 then ret no_spot
  else
    index <- choose_index choices ;;
    pick_gap a asp align size mmu_flags index.

(** The spot, and whether there is one. *)
Definition vmm_find_spot (a size : Z) : MV (Z * bool) :=
  vmm_lock_aspace ;;
  out <- alloc_spot a size PAGE_SIZE_SHIFT 0 ;;
  vmm_unlock_aspace ;;
  ret (out, negb (out =? no_spot)).

(** ** Regions in trees *)
Definition add_region_to_bst (id : region_tree) (r : Z) : MV Z :=
  m <- gets v_regions ;;
  b <- on_tree id (bst_insert (cmp_in m) r) ;;
  if b : bool then ret NO_ERROR
  else
    r_coll <- on_tree id (bst_search (cmp_in m) r) ;;
    _ <- get_region r_coll ;;
    ret ERR_NO_MEMORY.

Definition add_region_to_aspace (a r : Z) : MV Z :=
  asp <- get_aspace a ;;
  x <- get_region r ;;
  inside <- (if vr_size x =? 0 then ret false else is_region_inside_aspace asp x) ;;
  if negb inside then ret ERR_OUT_OF_RANGE else add_region_to_bst (AspaceTree a) r.

Definition add_region_to_vmm_res_obj (o r : Z) : MV Z := add_region_to_bst (ResTree o) r.

(** The address of a region, or NULL. *)
Definition vmm_find_region_in_bst (id : region_tree) (vaddr size : Z) : MV Z :=
  let vaddr := round_down vaddr PAGE_SIZE in
  let r_ref := mk_region (Z.lor VMM_FLAG_NO_START_GUARD VMM_FLAG_NO_END_GUARD) 0 vaddr None 0 (if size =? 0 then PAGE_SIZE else size) in
  m <- gets v_regions ;;
  r <- on_tree id (bst_search (fun a _ => cmp_with m r_ref a) local_region) ;;
  if r =? NULL then ret NULL
  else
    x <- get_region r ;;
    inside <- is_inside_region x vaddr ;;
    if inside : bool then ret r
    else assert_ ((vaddr =? u64 (vr_base x - PAGE_SIZE)) || (vaddr =? u64 (vr_base x + vr_size x))) ;; ret NULL.

Definition vmm_find_region (a vaddr : Z) : MV Z :=
  _ <- get_aspace a ;;
  h <- gets (fun s => vmm_mutex_held (v_objs s)) ;;
  assert_ h ;;
  vmm_find_region_in_bst (AspaceTree a) vaddr PAGE_SIZE.

(** [mem] is what calloc returns. *)
Definition alloc_region_struct (mem : option Z) (base size flags mmu_flags : Z) : MV (option Z) :=
  match mem with
  | None => ret None
  | Some r =>
      modify (with_vnodes <[r := mk_bst_node 0 NULL NULL NULL]>) ;;
      modify (with_regions <[r := mk_region flags mmu_flags base None 0 size]>) ;;
      ret (Some r)
  end.

Definition vmm_obj_to_res_vmm_obj (o : Z) : MV unit := b <- gets (fun s => bool_decide (is_Some (v_res s !! o))) ;; assert_ b.

(** A region at a given address. The result is a status and the tree it went to. *)
Definition place_region (a r vaddr size : Z) : MV (Z * region_tree) :=
  reserved_region <- vmm_find_region_in_bst (AspaceTree a) vaddr size ;;
  if negb (reserved_region =? NULL) then
    x <- get_region reserved_region ;;
    if has_flag VMM_FLAG_NO_PHYSICAL (vr_flags x) then
      inside <- is_range_inside_region x vaddr size ;;
      if negb inside then ret (ERR_INVALID_ARGS, AspaceTree a)
      else
        upd_region r (fun x => set_vr_flags (Z.lor (vr_flags x) (Z.lor VMM_FLAG_NO_START_GUARD VMM_FLAG_NO_END_GUARD)) x) ;;
        o <- getsome (fun _ => vr_obj x) ;;
        vmm_obj_to_res_vmm_obj o ;;
        e <- add_region_to_vmm_res_obj o r ;;
        ret (e, ResTree o)
    else ret (ERR_NO_MEMORY, AspaceTree a)
  else
    e <- add_region_to_aspace a r ;;
    ret (e, AspaceTree a).

(** An error, or the region and its tree. *)
Definition alloc_region (mem : option Z) (a size vaddr align_pow2 vmm_flags region_flags mmu_flags : Z) : MV (Z + Z * region_tree) :=
  asp <- get_aspace a ;;
  assert_ (negb (has_flag VMM_REGION_FLAG_INTERNAL_MASK vmm_flags)) ;;
  assert_ (vaddr =? arch_adjusted_vaddr vaddr (has_flag ARCH_ASPACE_FLAG_KERNEL (va_flags asp))) ;;
  x <- alloc_region_struct mem vaddr size (Z.lor region_flags vmm_flags) mmu_flags ;;
  match x with
  | None => ret (inl ERR_NO_MEMORY)
  | Some r =>
      if has_flag VMM_FLAG_VALLOC_SPECIFIC vmm_flags then
        x <- place_region a r vaddr size ;;
        let '(e, root) := x in
        if e <? 0 then free_region r ;; ret (inl e) else ret (inr (r, root))
      else if has_flag VMM_FLAG_NO_START_GUARD vmm_flags || has_flag VMM_FLAG_NO_END_GUARD vmm_flags then
        free_region r ;; ret (inl ERR_INVALID_ARGS)
      else
        vaddr <- alloc_spot a size align_pow2 mmu_flags ;;
        if vaddr =? no_spot then free_region r ;; ret (inl ERR_NO_MEMORY)
        else
          upd_region r (set_vr_base vaddr) ;;
          m <- gets v_regions ;;
          b <- on_tree (AspaceTree a) (bst_insert (cmp_in m) r) ;;
          assert_ b ;;
          ret (inr (r, AspaceTree a))
  end.

Definition vmm_reserve_space (mem : option Z) (a size vaddr : Z) : MV Z :=
  asp <- get_aspace a ;;
  assert_ (is_page_aligned vaddr) ;;
  assert_ (is_page_aligned size) ;;
  if size =? 0 then ret NO_ERROR
  else
    inside <- is_inside_aspace asp vaddr ;;
    if negb inside then ret ERR_OUT_OF_RANGE
    else
      size <- trim_to_aspace asp vaddr size ;;
      vmm_lock_aspace ;;
      asp <- get_aspace a ;;
      let mmu_flags := match arch_mmu_query vaddr (va_arch asp) with Some (_, f) => f | None => 0 end in
      x <- alloc_region mem a size vaddr 0 VMM_FLAG_VALLOC_SPECIFIC VMM_REGION_FLAG_RESERVED mmu_flags ;;
      vmm_unlock_aspace ;;
      ret (match x with inl e => e | inr _ => NO_ERROR end).

(** ** Objects: those of this file, which have no pages, and others *)
Definition is_res (o : Z) : MV bool := gets (fun s => bool_decide (is_Some (v_res s !! o))).

Definition obj_check_flags (o mmu_flags : Z) : MV (Z + Z) :=
  b <- is_res o ;; if b : bool then ret (inr mmu_flags) else on_objs (po_check_flags o mmu_flags).
Definition obj_get_page (o offset : Z) : MV (Z + Z * Z) :=
  b <- is_res o ;; if b : bool then ret (inl ERR_INVALID_ARGS) else on_objs (po_get_page o offset).
(** obj_add_ref and obj_del_ref. *)
Definition obj_take (o ref : Z) : MV unit :=
  b <- is_res o ;;
  if b : bool then v <- getsome (fun s => v_res s !! o) ;; modify (with_res <[o := obj_add_ref ref v]>)
  else on_objs (po_add_ref o ref).
Definition obj_drop (o ref : Z) : MV bool :=
  b <- is_res o ;;
  if b : bool then
    v <- getsome (fun s => v_res s !! o) ;;
    let '(v, dead) := obj_del_ref ref v in modify (with_res <[o := v]>) ;; ret dead
  else on_objs (po_del_ref o ref).

(** The reference of a region's slice is named by the region's address. *)
Definition vmm_obj_slice_bind_locked (r o offset size : Z) : MV unit :=
  x <- get_region r ;;
  assert_ (bool_decide (vr_obj x = None)) ;;
  obj_take o r ;;
  upd_region r (set_slice (Some o) offset size).
Definition vmm_obj_slice_release_locked (r : Z) : MV unit :=
  x <- get_region r ;;
  dead <- match vr_obj x with
          | Some o => dead <- obj_drop o r ;; upd_region r (fun x => set_slice None (vr_offset x) (vr_size x) x) ;; ret dead
          | None => ret false
          end ;;
  assert_ (negb dead).

(** Reserving objects can be inside one another: [fuel] is the depth. *)
Section destroy.
Context (del_ref : Z -> Z -> MV unit).
Definition slice_release (r : Z) : MV unit :=
  x <- get_region r ;;
  match vr_obj x with
  | Some o => del_ref o r ;; upd_region r (fun x => set_slice None (vr_offset x) (vr_size x) x)
  | None => ret tt
  end.
Definition vmm_res_obj_destroy (o : Z) : MV unit :=
  vmm_obj_to_res_vmm_obj o ;;
  fuel <- on_tree (ResTree o) bst_fuel ;;
  bst_for_every_entry_delete (fun _ => on_tree (ResTree o)) (fun r => slice_release r ;; free_region r) fuel ;;
  modify (with_res (delete o)) ;;
  modify (with_roots (delete (ResTree o))).
End destroy.
Fixpoint any_obj_del_ref (fuel : nat) (o ref : Z) : MV unit :=
  vmm_lock_aspace ;;
  dead <- obj_drop o ref ;;
  vmm_unlock_aspace ;;
  if dead : bool then
    b <- is_res o ;;
    if b : bool then match fuel with Datatypes.S fuel => vmm_res_obj_destroy (any_obj_del_ref fuel) o | O => panic end
    else on_objs (po_destroy o)
  else ret tt.
Definition vmm_obj_unref (o ref : Z) : MV unit := fuel <- gets (fun s => base.size (v_res s)) ;; any_obj_del_ref fuel o ref.
Definition vmm_obj_slice_release (r : Z) : MV unit := slice_release vmm_obj_unref r.
End vmm.
