(* ===== verification/VmmApi.v ===== *)
(** * The calls of vmm.c and vm.c

    Mapping the pages of regions, allocating, finding and freeing them, and address
    spaces. *)
From stdpp Require Import base gmap list.
From Stdlib Require Import ZArith Lia.
From S2P Require Import Prelude Bst Pmm ResGroup Vmm.

Local Open Scope Z_scope.
Local Open Scope lk_scope.

Section vmm_api.
Context `{!PmmConfig} `{!ObjRefs} `{!ArchMmu} `{!VmmConfig} {OB : Type} `{!PhysObjs OB} `{!ResConfig}.
Local Abbreviation MV := (M (vsys (OB := OB))).

(** ** Mapping *)

(** The loop of [vmm_map_obj_locked]: the error, and how far it came. *)
Fixpoint map_pages (fuel : nat) (a r mmu_flags : Z) (replace : bool) (off : Z) : MV (Z * Z) :=
  x <- get_region r ;;
  if off <? vr_size x then
    match fuel with
    | O => panic
    | Datatypes.S fuel =>
        o <- getsome (fun _ => vr_obj x) ;;
        p <- obj_get_page o (u64 (off + vr_offset x)) ;;
        match p with
        | inl err => ret (err, off)
        | inr (pa, pa_size) =>
            let pa_size := Z.min pa_size (vr_size x - off) in
            assert_ (is_page_aligned pa) ;;
            assert_ (negb (pa_size =? 0)) ;;
            assert_ (is_page_aligned pa_size) ;;
            assert_ (negb (add_overflow (vr_base x) off)) ;;
            let va := vr_base x + off in
            assert_ (is_page_aligned va) ;;
            assert_ (va <=? u64 (vr_base x + u64 (vr_size x - 1))) ;;
            err <- on_arch a (fun t => if replace then arch_mmu_map_replace va pa (pa_size / PAGE_SIZE) mmu_flags t
                                       else arch_mmu_map va pa (pa_size / PAGE_SIZE) mmu_flags t) ;;
            if negb (err =? 0) then ret (err, if replace then vr_size x else off)
            else map_pages fuel a r mmu_flags replace (off + pa_size)
        end
    end
  else ret (NO_ERROR, off).

Definition arch_unmap (a va count : Z) : MV unit := on_arch a (fun t => (arch_mmu_unmap va count t, tt)).

Definition vmm_map_obj_locked (a r mmu_flags : Z) (replace : bool) : MV Z :=
  x <- get_region r ;;
  e <- map_pages (Datatypes.S (Z.to_nat (vr_size x / PAGE_SIZE))) a r mmu_flags replace 0 ;;
  when (negb (fst e =? 0)) (arch_unmap a (vr_base x) (snd e / PAGE_SIZE)) ;;
  ret (fst e).

Definition clear_range (base size : Z) : MV unit := modify (with_vcleared (fun l => l ++ [(base, size)])).

(** What [vmm_alloc_obj] does with a new region that has pages. *)
Definition map_new_region (a r o offset size mmu_flags : Z) : MV Z :=
  let tagged := has_flag ARCH_MMU_FLAG_TAGGED mmu_flags in
  res <- is_res o ;;
  allow_tagged <- (if res : bool then ret false else on_objs (po_allows_tagged o)) ;;
  needs_clear <- (if res : bool then ret false else on_objs (po_needs_clear o)) ;;
  if tagged && negb allow_tagged then ret ERR_INVALID_ARGS
  else
    e <- (if needs_clear : bool then
            e <- vmm_map_obj_locked a r (Z.lor ARCH_MMU_FLAG_PERM_NO_EXECUTE (if allow_tagged : bool then ARCH_MMU_FLAG_TAGGED else 0)) false ;;
            if negb (e =? 0) then ret e
            else
              x <- get_region r ;;
              clear_range (vr_base x) size ;;
              on_objs (po_set_cleared o offset size) ;;
              ret 0
          else ret 0) ;;
    if negb (e =? 0) then ret e
    else
      e <- vmm_map_obj_locked a r mmu_flags needs_clear ;;
      if negb (e =? 0) then ret e
      else when tagged (on_objs (po_set_tagged o)) ;; ret 0.

(** [ptr] is the pointer the caller passes the address of: the result is the status and
    its new value. *)
Definition vmm_alloc_obj (mem : option Z) (a o offset size ptr align_log2 vmm_flags mmu_flags : Z) : MV (Z * Z) :=
  _ <- get_aspace a ;;
  assert_ (is_page_aligned offset) ;;
  assert_ (is_page_aligned size) ;;
  let vaddr := if has_flag VMM_FLAG_VALLOC_SPECIFIC vmm_flags then ptr else 0 in
  c <- obj_check_flags o mmu_flags ;;
  match c with
  | inl e => ret (e, ptr)
  | inr mmu_flags =>
      vmm_lock_aspace ;;
      x <- alloc_region mem a size vaddr align_log2 vmm_flags VMM_REGION_FLAG_PHYSICAL mmu_flags ;;
      match x with
      | inl e => vmm_unlock_aspace ;; ret (e, ptr)
      | inr (r, region_root) =>
          vmm_obj_slice_bind_locked r o offset size ;;
          e <- (if has_flag VMM_FLAG_NO_PHYSICAL vmm_flags then ret 0 else map_new_region a r o offset size mmu_flags) ;;
          if e =? 0 then
            x <- get_region r ;;
            vmm_unlock_aspace ;;
            ret (NO_ERROR, vr_base x)
          else
            vmm_obj_slice_release_locked r ;;
            on_tree region_root (bst_delete r) ;;
            free_region r ;;
            vmm_unlock_aspace ;;
            ret (e, ptr)
      end
  end.

(** The loop of [vmm_alloc_physical_etc], which goes on after an error. *)
Fixpoint map_physical (a base page_size mmu_flags i : Z) (paddr : list Z) : MV unit :=
  match paddr with
  | [] => ret tt
  | pa :: paddr =>
      _ <- on_arch a (arch_mmu_map (u64 (base + u64 (i * page_size))) pa (page_size / PAGE_SIZE) mmu_flags) ;;
      map_physical a base page_size mmu_flags (i + 1) paddr
  end.

Definition vmm_alloc_physical_etc (mem : option Z) (a size ptr align_log2 : Z) (paddr : list Z) (vmm_flags mmu_flags : Z) : MV (Z * Z) :=
  _ <- get_aspace a ;;
  assert_ (forallb is_page_aligned paddr) ;;
  assert_ (is_page_aligned size) ;;
  if size =? 0 then ret (NO_ERROR, ptr)
  else
    match paddr with
    | [] => ret (ERR_INVALID_ARGS, ptr)
    | pa0 :: _ =>
        let page_size := size / Z.of_nat (length paddr) in
        if negb (is_page_aligned pa0) || negb (is_page_aligned page_size) then ret (ERR_INVALID_ARGS, ptr)
        else
          let vaddr := if has_flag VMM_FLAG_VALLOC_SPECIFIC vmm_flags then ptr else 0 in
          vmm_lock_aspace ;;
          x <- alloc_region mem a size vaddr align_log2 vmm_flags VMM_REGION_FLAG_PHYSICAL mmu_flags ;;
          match x with
          | inl e => vmm_unlock_aspace ;; ret (e, ptr)
          | inr (r, _) =>
              x <- get_region r ;;
              map_physical a (vr_base x) page_size mmu_flags 0 paddr ;;
              vmm_unlock_aspace ;;
              ret (NO_ERROR, vr_base x)
          end
    end.

(** [mem_obj] and [mem] are what the callocs of the object and of the region return, [ref]
    is the local reference. *)
Definition vmm_alloc_pmm (mem_obj mem : option Z) (ref a size ptr align_pow2 vmm_flags mmu_flags pmm_alloc_flags pmm_alloc_align_pow2 : Z) : MV (Z * Z) :=
  assert_ (negb (has_flag VMM_FLAG_NO_PHYSICAL vmm_flags)) ;;
  let size := round_up size PAGE_SIZE in
  let num_pages := u32 (size / PAGE_SIZE) in
  if size =? 0 then ret (ERR_INVALID_ARGS, ptr)
  else if has_flag ARCH_MMU_FLAG_TAGGED mmu_flags && negb arch_tagging_enabled then ret (ERR_INVALID_ARGS, ptr)
  else
    let pmm_alloc_flags := if has_flag ARCH_MMU_FLAG_TAGGED mmu_flags
                           then Z.lor pmm_alloc_flags (Z.lor PMM_ALLOC_FLAG_NO_CLEAR PMM_ALLOC_FLAG_ALLOW_TAGGED) else pmm_alloc_flags in
    asp <- get_aspace a ;;
    let quota := has_flag VMM_FLAG_QUOTA vmm_flags in
    if quota && bool_decide (va_group asp = None) then ret (ERR_INVALID_ARGS, ptr)
    else
      let res_group := if quota then va_group asp else None in
      let pmm_alloc_flags := if quota then Z.lor pmm_alloc_flags PMM_ALLOC_FLAG_FROM_RESERVED else pmm_alloc_flags in
      x <- on_objs (po_alloc mem_obj ref res_group num_pages pmm_alloc_flags pmm_alloc_align_pow2) ;;
      let '(e, o) := x in
      if negb (e =? 0) then ret (e, ptr)
      else
        o <- getsome (fun _ => o) ;;
        x <- vmm_alloc_obj mem a o 0 size ptr align_pow2 vmm_flags mmu_flags ;;
        vmm_obj_unref o ref ;;
        ret x.

Definition vmm_alloc_contiguous (mem_obj mem : option Z) (ref a size ptr align_pow2 vmm_flags mmu_flags : Z) : MV (Z * Z) :=
  vmm_alloc_pmm mem_obj mem ref a size ptr align_pow2 vmm_flags mmu_flags PMM_ALLOC_FLAG_CONTIGUOUS align_pow2.

Definition vmm_alloc_no_physical (mem_obj mem : option Z) (ref a size ptr align_pow2 vmm_flags mmu_flags : Z) : MV (Z * Z) :=
  if has_flag ARCH_MMU_FLAG_PERM_RO mmu_flags then ret (ERR_INVALID_ARGS, ptr)
  else
    let size := round_up size PAGE_SIZE in
    if size =? 0 then ret (ERR_INVALID_ARGS, ptr)
    else
      match mem_obj with
      | None => ret (ERR_NO_MEMORY, ptr)
      | Some o =>
          modify (with_res <[o := obj_init ref]>) ;;
          modify (with_roots <[ResTree o := NULL]>) ;;
          x <- vmm_alloc_obj mem a o 0 size ptr align_pow2 (Z.lor vmm_flags VMM_FLAG_NO_PHYSICAL) mmu_flags ;;
          vmm_obj_unref o ref ;;
          ret x
      end.

Definition vmm_alloc (mem_obj mem : option Z) (ref a size ptr align_pow2 vmm_flags mmu_flags : Z) : MV (Z * Z) :=
  if has_flag VMM_FLAG_NO_PHYSICAL vmm_flags then vmm_alloc_no_physical mem_obj mem ref a size ptr align_pow2 vmm_flags mmu_flags
  else vmm_alloc_pmm mem_obj mem ref a size ptr align_pow2 vmm_flags mmu_flags 0 0.

(** ** Finding, freeing *)

Definition get_obj_error (e : Z) : MV (Z * option (Z * Z * Z)) := vmm_unlock_aspace ;; ret (e, None).

(** The status and the slice: its object, offset and size. *)
Definition vmm_get_obj (a vaddr size ref : Z) : MV (Z * option (Z * Z * Z)) :=
  if size =? 0 then ret (ERR_INVALID_ARGS, None)
  else
    vmm_lock_aspace ;;
    asp <- get_aspace a ;;
    let vaddr := arch_adjusted_vaddr vaddr (has_flag ARCH_ASPACE_FLAG_KERNEL (va_flags asp)) in
    region <- vmm_find_region a vaddr ;;
    if region =? NULL then get_obj_error ERR_NOT_FOUND
    else
      x <- get_region region ;;
      region <- (if has_flag VMM_FLAG_NO_PHYSICAL (vr_flags x) then
                   o <- getsome (fun _ => vr_obj x) ;;
                   vmm_obj_to_res_vmm_obj o ;;
                   vmm_find_region_in_bst (ResTree o) vaddr size
                 else ret region) ;;
      if region =? NULL then get_obj_error ERR_NOT_FOUND
      else
        x <- get_region region ;;
        if add_overflow vaddr (size - 1) then get_obj_error ERR_INVALID_ARGS
        else if u64 (vr_base x + u64 (vr_size x - 1)) <? vaddr + (size - 1) then get_obj_error ERR_OUT_OF_RANGE
        else
          match vr_obj x with
          | None => get_obj_error ERR_OUT_OF_RANGE
          | Some o =>
              obj_take o ref ;;
              vmm_unlock_aspace ;;
              ret (NO_ERROR, Some (o, u64 (u64 (vaddr - vr_base x) + vr_offset x), size))
          end.

Definition vmm_region_is_match (r va size flags : Z) : MV bool :=
  if r =? NULL then ret false
  else
    x <- get_region r ;;
    if has_flag VMM_FREE_REGION_FLAG_EXPAND flags then is_range_inside_region x va size
    else ret ((vr_base x =? va) && (vr_size x =? size)).

Definition vmm_free_region_etc (a vaddr size flags : Z) : MV Z :=
  asp <- get_aspace a ;;
  assert_ (vaddr =? arch_adjusted_vaddr vaddr (has_flag ARCH_ASPACE_FLAG_KERNEL (va_flags asp))) ;;
  vmm_lock_aspace ;;
  r <- vmm_find_region a vaddr ;;
  b <- vmm_region_is_match r vaddr size flags ;;
  if negb b then vmm_unlock_aspace ;; ret ERR_NOT_FOUND
  else
    x <- get_region r ;;
    on_tree (AspaceTree a) (bst_delete r) ;;
    arch_unmap a (vr_base x) (vr_size x / PAGE_SIZE) ;;
    vmm_unlock_aspace ;;
    vmm_obj_slice_release r ;;
    free_region r ;;
    ret NO_ERROR.

Definition vmm_free_region (a vaddr : Z) : MV Z := vmm_free_region_etc a vaddr 1 VMM_FREE_REGION_FLAG_EXPAND.

(** ** Address spaces *)

Definition vmm_init_preheap : MV unit :=
  let flags := if KERNEL_BTI_ENABLED && arch_bti_supported then Z.lor VMM_ASPACE_FLAG_KERNEL VMM_ASPACE_FLAG_BTI else VMM_ASPACE_FLAG_KERNEL in
  let '(p, _) := arch_mmu_init_aspace KERNEL_ASPACE_BASE KERNEL_ASPACE_SIZE (get_arch_aspace_flags flags) in
  modify (with_aspaces <[kernel_aspace := mk_aspace flags KERNEL_ASPACE_BASE KERNEL_ASPACE_SIZE None p]>) ;;
  modify (with_roots <[AspaceTree kernel_aspace := NULL]>) ;;
  modify (with_vlist (fun l => kernel_aspace :: l)).

(** The name of the reference of an address space on its group is the address. [mem] and
    [mem_group] are what calloc returns. The result is the status and the address. *)
Definition vmm_create_aspace_with_quota (mem mem_group : option Z) (size flags : Z) : MV (Z * option Z) :=
  match mem with
  | None => ret (ERR_NO_MEMORY, None)
  | Some a =>
      let kernel := has_flag VMM_ASPACE_FLAG_KERNEL flags in
      let base := if kernel then KERNEL_ASPACE_BASE else USER_ASPACE_BASE in
      let asize := if kernel then KERNEL_ASPACE_SIZE else USER_ASPACE_SIZE in
      let '(p, err) := arch_mmu_init_aspace base asize (get_arch_aspace_flags flags) in
      if err <? 0 then ret (err, None)
      else
        modify (with_aspaces <[a := mk_aspace flags base asize None p]>) ;;
        modify (with_roots <[AspaceTree a := NULL]>) ;;
        err <- (if size =? 0 then ret 0
                else
                  let num_pages := u32 (round_up size PAGE_SIZE / PAGE_SIZE) in
                  g <- on_objs (po_group_create mem_group num_pages a) ;;
                  match g with
                  | None =>
                      when (negb kernel) (on_arch a (fun p => (arch_mmu_destroy_aspace p, tt))) ;;
                      modify (with_aspaces (delete a)) ;;
                      modify (with_roots (delete (AspaceTree a))) ;;
                      ret ERR_NO_MEMORY
                  | Some g =>
                      upd_aspace a (fun x => mk_aspace (va_flags x) (va_base x) (va_size x) (Some g) (va_arch x)) ;;
                      ret 0
                  end) ;;
        if negb (err =? 0) then ret (err, None)
        else
          vmm_lock_aspace ;;
          modify (with_vlist (fun l => a :: l)) ;;
          vmm_unlock_aspace ;;
          ret (NO_ERROR, Some a)
  end.

Definition vmm_context_switch (newaspace : option Z) : MV unit := modify (with_context newaspace).

(** Both loops of [vmm_free_aspace]. *)
Definition unmap_regions (a : Z) : MV unit :=
  _ <- for_each_region (R := Empty_set) (AspaceTree a) (fun r (_ : unit) =>
         x <- get_region r ;;
         arch_unmap a (vr_base x) (vr_size x / PAGE_SIZE) ;;
         upd_region r (fun x => set_slice (vr_obj x) (vr_offset x) 0 x) ;;
         ret (inl tt)) tt ;;
  ret tt.
Definition free_regions (a : Z) : MV unit :=
  _ <- for_each_region (R := Empty_set) (AspaceTree a) (fun r (_ : unit) =>
         x <- get_region r ;;
         assert_ (vr_size x =? 0) ;;
         on_tree (AspaceTree a) (bst_delete r) ;;
         vmm_obj_slice_release r ;;
         free_region r ;;
         ret (inl tt)) tt ;;
  ret tt.

Definition vmm_free_aspace (a : Z) : MV Z :=
  _ <- get_aspace a ;;
  vmm_lock_aspace ;;
  b <- gets (fun s => bool_decide (a ∈ v_list s)) ;;
  if negb b then vmm_unlock_aspace ;; ret ERR_INVALID_ARGS
  else
    modify (with_vlist (filter (fun x => x <> a))) ;;
    unmap_regions a ;;
    vmm_unlock_aspace ;;
    free_regions a ;;
    c <- gets v_current ;;
    when (bool_decide (c = Some a)) (modify (with_current None) ;; vmm_context_switch None) ;;
    on_arch a (fun p => (arch_mmu_destroy_aspace p, tt)) ;;
    asp <- get_aspace a ;;
    match va_group asp with
    | Some g => on_objs (po_group_shutdown g) ;; on_objs (po_group_del_ref g a)
    | None => ret tt
    end ;;
    modify (with_aspaces (delete a)) ;;
    modify (with_roots (delete (AspaceTree a))) ;;
    ret NO_ERROR.

Definition vmm_set_active_aspace (a : option Z) : MV unit :=
  c <- gets v_current ;;
  if bool_decide (a = c) then ret tt
  else modify (with_current a) ;; vmm_context_switch a.

Definition is_kernel_address (va : Z) : bool :=
  let va := arch_adjusted_vaddr va true in (KERNEL_ASPACE_BASE <=? va) && (va <=? u64 (KERNEL_ASPACE_BASE + u64 (KERNEL_ASPACE_SIZE - 1))).
Definition is_user_address (va : Z) : bool :=
  let va := arch_adjusted_vaddr va false in (USER_ASPACE_BASE <=? va) && (va <=? u64 (USER_ASPACE_BASE + u64 (USER_ASPACE_SIZE - 1))).
Definition vaddr_to_aspace (va : Z) : MV (option Z) :=
  if is_kernel_address va then ret (Some kernel_aspace)
  else if is_user_address va then gets v_current
  else ret None.
Definition vaddr_to_paddr (va : Z) : MV Z :=
  a <- vaddr_to_aspace va ;;
  match a with
  | None => ret 0
  | Some a => asp <- get_aspace a ;; ret (match arch_mmu_query va (va_arch asp) with Some (pa, _) => pa | None => 0 end)
  end.

(** What is written about an address, with the regions in place of their names. *)
Inductive description :=
  | Unavailable
  | Inside (r : Z)
  | Between (after_bytes after before_bytes before : Z)
  | Before (bytes r : Z)
  | After (bytes r : Z)
  | NoRegion.

(** [aspace->regions] is read even if there is no address space. *)
Definition vmm_get_address_description (vaddr : Z) : MV description :=
  h <- gets (fun s => vmm_mutex_held (v_objs s)) ;;
  if h : bool then ret Unavailable
  else
    vmm_lock_aspace ;;
    aspace <- vaddr_to_aspace vaddr ;;
    x <- match aspace with
         | Some a =>
             asp <- get_aspace a ;;
             let vaddr := arch_adjusted_vaddr vaddr (has_flag ARCH_ASPACE_FLAG_KERNEL (va_flags asp)) in
             region <- vmm_find_region_in_bst (AspaceTree a) vaddr 0 ;;
             ret (vaddr, region)
         | None => ret (vaddr, NULL)
         end ;;
    let '(vaddr, region) := x in
    d <- (if negb (region =? NULL) then ret (Inside region)
          else
            let near va := a <- getsome (fun _ => aspace) ;; vmm_find_region_in_bst (AspaceTree a) va 0 in
            before <- (if add_overflow vaddr PAGE_SIZE then ret NULL else near (vaddr + PAGE_SIZE)) ;;
            after <- (if vaddr <? PAGE_SIZE then ret NULL else near (vaddr - PAGE_SIZE)) ;;
            let bytes_before := x <- get_region before ;; ret (u64 (vr_base x - vaddr)) in
            let bytes_after := x <- get_region after ;; ret (u64 (vaddr - u64 (vr_base x + vr_size x))) in
            if negb (before =? NULL) && negb (after =? NULL) then m <- bytes_after ;; n <- bytes_before ;; ret (Between m after n before)
            else if negb (before =? NULL) then n <- bytes_before ;; ret (Before n before)
            else if negb (after =? NULL) then m <- bytes_after ;; ret (After m after)
            else ret NoRegion) ;;
    vmm_unlock_aspace ;;
    ret d.

(** vm_init_postheap in kernel/vm/vm.c: the initial mappings are reserved in the kernel's
    address space. The mappings end at one without size; [mems] are what calloc returns. *)
Fixpoint reserve_mappings (maps : list mmu_initial_mapping) (mems : list (option Z)) : MV unit :=
  match maps with
  | [] => ret tt
  | m :: maps =>
      if map_size m >? 0 then
        if has_flag MMU_INITIAL_MAPPING_TEMPORARY (map_flags m) then reserve_mappings maps mems
        else
          match mems with
          | [] => panic
          | mem :: mems => _ <- vmm_reserve_space mem kernel_aspace (map_size m) (virt m) ;; reserve_mappings maps mems
          end
      else ret tt
  end.
Definition vm_init_postheap (mems : list (option Z)) : MV unit := reserve_mappings mmu_initial_mappings mems.
End vmm_api.
