(* ===== verification/VmmSpot.v ===== *)
(** * Where a region fits

    The gaps between regions, the spots in a gap, and the choice among them, as
    arithmetic on regions that do not wrap around. *)
From stdpp Require Import base gmap list.
From Stdlib Require Import ZArith Lia.
From S2P Require Import Prelude Bst Pmm PmmInv PmmRun ResGroup Vmm.

Local Open Scope Z_scope.
Local Open Scope lk_scope.

Section spot.
Context `{!PmmConfig} `{!PmmLaws} `{!ArchMmu}.
Implicit Types (asp : vmm_aspace) (x y low high : vmm_region).

(** ** Pages *)
Definition paged (z : Z) : Prop := z mod PAGE_SIZE = 0.
Lemma paged_aligned z : is_page_aligned z = true <-> paged z.
Proof.
  unfold is_page_aligned, paged. rewrite page_size_pow, Z.eqb_eq. pose proof page_shift_range.
  replace (2 ^ PAGE_SIZE_SHIFT - 1) with (Z.ones PAGE_SIZE_SHIFT) by (rewrite Z.ones_equiv; lia). rewrite Z.land_ones by lia. done.
Qed.
Lemma paged_mult z : paged z <-> exists n, z = n * PAGE_SIZE.
Proof.
  pose proof page_size_pos. unfold paged. split.
  - intros Hz. exists (z / PAGE_SIZE). rewrite (Z.div_mod z PAGE_SIZE) at 1 by lia. lia.
  - intros [n ->]. apply Z.mod_mul. lia.
Qed.
Lemma paged_add a b : paged a -> paged b -> paged (a + b).
Proof. rewrite !paged_mult. intros [m ->] [n ->]. exists (m + n). lia. Qed.
Lemma paged_sub a b : paged a -> paged b -> paged (a - b).
Proof. rewrite !paged_mult. intros [m ->] [n ->]. exists (m - n). lia. Qed.
Lemma paged_page : paged PAGE_SIZE.
Proof. apply paged_mult. exists 1. lia. Qed.
(** Two page addresses that differ do so by a page. *)
Lemma paged_lt a b : paged a -> paged b -> a < b -> a + PAGE_SIZE <= b.
Proof. intros Ha Hb Hlt. pose proof page_size_pos. apply multiple_le; [lia|done..]. Qed.
Lemma paged_pos a : paged a -> 0 < a -> PAGE_SIZE <= a.
Proof. intros Ha Hp. pose proof page_size_pos. apply (paged_lt 0); [|done..]. apply paged_mult. by exists 0. Qed.
Lemma paged_pow k : PAGE_SIZE_SHIFT <= k -> paged (2 ^ k).
Proof.
  intros Hk. apply paged_mult. exists (2 ^ (k - PAGE_SIZE_SHIFT)). pose proof page_shift_range.
  rewrite page_size_pow, <- Z.pow_add_r by lia. f_equal. lia.
Qed.
Lemma paged_aligned_at k z : PAGE_SIZE_SHIFT <= k -> z mod 2 ^ k = 0 -> paged z.
Proof.
  intros Hk Hz. pose proof page_shift_range. pose proof (paged_pow k Hk) as [n Hn]%paged_mult. apply paged_mult.
  exists (z / 2 ^ k * n). rewrite (Z.div_mod z (2 ^ k)) at 1 by lia. lia.
Qed.

(** The first and the last aligned address from [z]. *)
Definition align_up k z : Z := - ((- z) / 2 ^ k) * 2 ^ k.
Definition align_down k z : Z := z / 2 ^ k * 2 ^ k.

Lemma align_up_spec k z : 0 <= k -> z <= align_up k z < z + 2 ^ k /\ align_up k z mod 2 ^ k = 0.
Proof.
  intros Hk. unfold align_up. assert (0 < 2 ^ k) as Hp by lia. pose proof (Z.div_mod (- z) (2 ^ k)) as Q1. pose proof (Z.mod_pos_bound (- z) (2 ^ k) Hp) as Q2.
  split; [nia|]. rewrite Z.mod_mul by lia. done.
Qed.
Lemma align_up_least k z c : 0 <= k -> z <= c -> c mod 2 ^ k = 0 -> align_up k z <= c.
Proof.
  intros Hk Hz Hc. apply Z.mod_divide in Hc as [q ->]; [|lia]. unfold align_up.
  assert (- q <= - z / 2 ^ k) by (apply Z.div_le_lower_bound; lia). apply Z.mul_le_mono_nonneg_r; lia.
Qed.
Lemma align_up_mono k z z' : 0 <= k -> z <= z' -> align_up k z <= align_up k z'.
Proof. intros Hk Hz. destruct (align_up_spec k z' Hk) as [? ?]. apply align_up_least; [done|lia|done]. Qed.
Lemma align_up_id k z : 0 <= k -> z mod 2 ^ k = 0 -> align_up k z = z.
Proof. intros Hk Hz. pose proof (align_up_least k z z Hk ltac:(lia) Hz). pose proof (align_up_spec k z Hk). lia. Qed.
Lemma align_down_spec k z : 0 <= k -> z - 2 ^ k < align_down k z <= z /\ align_down k z mod 2 ^ k = 0.
Proof.
  intros Hk. unfold align_down. assert (0 < 2 ^ k) as Hp by lia. pose proof (Z.div_mod z (2 ^ k)) as Q1. pose proof (Z.mod_pos_bound z (2 ^ k) Hp) as Q2.
  split; [nia|]. rewrite Z.mod_mul by lia. done.
Qed.
Lemma align_down_most k z c : 0 <= k -> c <= z -> c mod 2 ^ k = 0 -> c <= align_down k z.
Proof.
  intros Hk Hz Hc. apply Z.mod_divide in Hc as [q ->]; [|lia]. unfold align_down.
  assert (q <= z / 2 ^ k) by (apply Z.div_le_lower_bound; lia). apply Z.mul_le_mono_nonneg_r; lia.
Qed.
Lemma round_down_spec k z : 0 <= k -> round_down z (2 ^ k) = align_down k z.
Proof. intros Hk. unfold round_down, align_down. rewrite ldiff_mask by done. rewrite Z.mod_eq by lia. lia. Qed.

(** The spot is the first aligned address, if the region does not reach beyond the gap. *)
Lemma next_spot_spec pf nf lo hi k size mf : 0 <= k < 64 -> 0 <= lo -> hi < 2 ^ 64 -> 0 < size ->
  next_spot pf nf lo hi (2 ^ k) size mf = if decide (align_up k lo + (size - 1) <= hi) then Some (align_up k lo) else None.
Proof.
  intros Hk Hlo Hhi Hs. pose proof (align_up_spec k lo ltac:(lia)) as [[A1 A2] A3]. unfold next_spot, arch_mmu_pick_spot, add_overflow.
  destruct (Z_lt_ge_dec hi lo) as [Hg|Hg].
  { rewrite decide_False by lia. destruct (_ <? lo) eqn:E1; [done|]. destruct (_ >? hi) eqn:E2; [done|]. bprop. lia. }
  assert (2 ^ k <= 2 ^ 63) as Hp by (apply Z.pow_le_mono_r; lia). destruct (Z_lt_ge_dec (lo + 2 ^ k - 1) (2 ^ 64)) as [Hw|Hw].
  - assert (round_up lo (2 ^ k) = align_up k lo) as ->.
    { destruct (round_up_spec lo k ltac:(lia) Hlo Hw) as (E1 & E2). pose proof (align_up_least k lo _ ltac:(lia) (proj1 E1) E2).
      destruct (Z_lt_ge_dec (align_up k lo) (round_up lo (2 ^ k))) as [Hlt|]; [|lia]. pose proof (multiple_le _ _ (2 ^ k) ltac:(lia) A3 E2 Hlt). lia. }
    rewrite (proj2 (Z.ltb_ge _ _) A1). cbn [orb]. destruct (Z.gtb_spec (align_up k lo) hi); [by rewrite decide_False by lia|].
    destruct (Z.leb_spec (2 ^ 64) (align_up k lo + (size - 1))); [by rewrite decide_False by lia|].
    destruct (Z.gtb_spec (align_up k lo + (size - 1)) hi); [by rewrite decide_False by lia|]. by rewrite decide_True by lia.
  - pose proof (round_up_wraps lo k Hk ltac:(lia) ltac:(lia)) as Hr. rewrite (proj2 (Z.ltb_lt _ _) Hr). cbn [orb].
    rewrite decide_False; [done|]. assert (2 ^ 64 mod 2 ^ k = 0) as Hm.
    { replace (2 ^ 64) with (2 ^ (64 - k) * 2 ^ k) by (rewrite <- Z.pow_add_r by lia; f_equal; lia). apply Z.mod_mul. lia. }
    destruct (Z_lt_ge_dec (align_up k lo) (2 ^ 64)) as [Hlt|]; [|lia]. pose proof (multiple_le _ _ (2 ^ k) ltac:(lia) A3 Hm Hlt). lia.
Qed.

(** ** Regions *)
Definition vr_end x : Z := vr_base x + vr_size x.
Definition end_guard x : Z := if has_flag VMM_FLAG_NO_END_GUARD (vr_flags x) then 0 else PAGE_SIZE.

(** A region that leaves a page at both ends of memory. *)
Record region_ok x : Prop := {
  rk_base : PAGE_SIZE <= vr_base x; rk_size : 0 < vr_size x; rk_end : vr_end x + PAGE_SIZE <= 2 ^ 64;
  rk_base_paged : paged (vr_base x); rk_size_paged : paged (vr_size x)
}.
Record aspace_ok asp : Prop := {
  ak_base : PAGE_SIZE <= va_base asp; ak_size : PAGE_SIZE < va_size asp; ak_end : va_base asp + va_size asp <= 2 ^ 64;
  ak_base_paged : paged (va_base asp); ak_size_paged : paged (va_size asp)
}.
Definition inside asp x : Prop := va_base asp <= vr_base x /\ vr_end x + end_guard x <= va_base asp + va_size asp.

(** [x] lies below [y], with a page in between if one of them wants it. *)
Definition below x y : Prop := vr_end x + vmm_flags_guard (vr_flags x) (vr_flags y) <= vr_base y.
#[export] Instance below_dec x y : Decision (below x y).
Proof. unfold below. apply _. Defined.

Lemma guard_range f g : 0 <= vmm_flags_guard f g <= PAGE_SIZE.
Proof. pose proof page_size_pos. unfold vmm_flags_guard. destruct (_ && _); lia. Qed.
Lemma rk_end_paged x : region_ok x -> paged (vr_end x).
Proof. intros [_ _ _ Q1 Q2]. by apply paged_add. Qed.
Lemma below_trans x y z : region_ok x -> region_ok y -> region_ok z -> below x y -> below y z -> below x z.
Proof.
  unfold below. intros Hx Hy Hz Q1 Q2. pose proof (guard_range (vr_flags x) (vr_flags y)). pose proof (guard_range (vr_flags x) (vr_flags z)). pose proof (guard_range (vr_flags y) (vr_flags z)).
  pose proof (paged_pos _ (rk_size_paged _ Hy) (rk_size _ Hy)). unfold vr_end in *. lia.
Qed.
Lemma below_not_above x y : region_ok x -> region_ok y -> below x y -> ~ below y x.
Proof.
  unfold below. intros Hx Hy Q1 Q2. pose proof (guard_range (vr_flags x) (vr_flags y)). pose proof (guard_range (vr_flags y) (vr_flags x)).
  pose proof (rk_size _ Hx). pose proof (rk_size _ Hy). unfold vr_end in *. lia.
Qed.

(** A range that is looked for may end where memory does if it is one page. *)
Definition span_ok y : Prop := 0 <= vr_base y /\ 0 < vr_size y /\ (vr_end y + PAGE_SIZE <= 2 ^ 64 \/ (vr_end y <= 2 ^ 64 /\ vr_size y <= PAGE_SIZE)).
Lemma region_span x : region_ok x -> span_ok x.
Proof. intros [X1 X2 X3 _ _]. pose proof page_size_pos. unfold span_ok. split_and!; [lia|done|by left]. Qed.

(** The comparison without wrapping. *)
Lemma region_cmp_spec x y : region_ok x -> span_ok y ->
  vmm_region_cmp x y = if decide (below x y) then 1 else if decide (below y x) then -1 else 0.
Proof.
  intros Hx (Y1 & Y2 & Y3). unfold vmm_region_cmp. pose proof page_size_pos. pose proof (paged_pos _ (rk_size_paged _ Hx) (rk_size _ Hx)) as X0. destruct Hx as [X1 X2 X3 _ _].
  assert (vr_base y >? u64 (vr_base x + u64 (vr_size x - 1) + vmm_rguard x y) = bool_decide (below x y)) as ->.
  { unfold below, vr_end in *. rewrite (u64_small (vr_size x - 1)) by lia. pose proof (guard_range (vr_flags x) (vr_flags y)).
    unfold vmm_rguard. destruct (Z.geb_spec (vr_base x) (vr_base y)); rewrite u64_small by lia; case_bool_decide; rewrite Z.gtb_ltb; [lia|apply Z.ltb_ge; lia|apply Z.ltb_lt; lia|apply Z.ltb_ge; lia]. }
  assert (vr_base x >? u64 (vr_base y + u64 (vr_size y - 1) + vmm_rguard y x) = bool_decide (below y x)) as ->.
  { unfold below, vr_end in *. rewrite (u64_small (vr_size y - 1)) by lia. pose proof (guard_range (vr_flags y) (vr_flags x)).
    unfold vmm_rguard. destruct (Z.geb_spec (vr_base y) (vr_base x)); rewrite u64_small by lia; case_bool_decide; rewrite Z.gtb_ltb; [lia|apply Z.ltb_ge; lia|apply Z.ltb_lt; lia|apply Z.ltb_ge; lia]. }
  by repeat case_bool_decide; repeat case_decide.
Qed.

(** ** Gaps *)
Definition opt_ok (o : option vmm_region) : Prop := match o with Some x => region_ok x | None => True end.
Definition gap_low asp (low : option vmm_region) : Z := match low with Some x => vr_end x + PAGE_SIZE | None => va_base asp end.
Definition gap_high asp (high : option vmm_region) : Z := (match high with Some x => vr_base x | None => va_base asp + va_size asp end) - 1 - PAGE_SIZE.

Lemma gap_bounds asp lo hi : aspace_ok asp -> opt_ok lo -> opt_ok hi -> 0 <= gap_low asp lo /\ gap_high asp hi < 2 ^ 64.
Proof.
  pose proof page_size_pos. intros [A1 A2 A3 _ _] Hl Hh. unfold gap_low, gap_high, vr_end. split.
  - destruct lo as [x|]; [|lia]. destruct Hl as [L1 L2 _ _ _]. lia.
  - destruct hi as [x|]; [|lia]. destruct Hh as [_ L2 L3 _ _]. unfold vr_end in L3. lia.
Qed.

Lemma extract_gap_spec {S} asp lo hi (s : S) : aspace_ok asp -> opt_ok lo -> opt_ok hi ->
  extract_gap asp lo hi s = Some (if decide (gap_low asp lo <= gap_high asp hi) then Some (gap_low asp lo, gap_high asp hi) else None, s).
Proof.
  pose proof page_size_pos as Hps. intros Ha Hl Hh. destruct (gap_bounds asp lo hi Ha Hl Hh) as [_ Hb]. destruct Ha as [A1 A2 A3 _ _].
  unfold extract_gap. rewrite assert_bind by (rewrite (proj2 (Z.eqb_neq _ _)) by lia; done).
  assert (match lo with
          | Some low => if add_overflow (vr_base low) (vr_size low) then None
                        else if add_overflow (vr_base low + vr_size low) PAGE_SIZE then None else Some (vr_base low + vr_size low + PAGE_SIZE)
          | None => Some (va_base asp)
          end = if decide (gap_low asp lo < 2 ^ 64) then Some (gap_low asp lo) else None) as ->.
  { unfold gap_low, add_overflow. destruct lo as [x|]; [|by rewrite decide_True by lia]. unfold vr_end.
    destruct Hl as [_ _ L3 _ _]. unfold vr_end in L3. rewrite (proj2 (Z.leb_gt _ _)) by lia. case_decide; [by rewrite (proj2 (Z.leb_gt _ _)) by lia|].
    by rewrite (proj2 (Z.leb_le _ _)) by lia. }
  destruct (decide (gap_low asp lo < 2 ^ 64)) as [Hlt|Hge]; [|rewrite decide_False by lia; done].
  assert (forall k : Z -> M S (option (Z * Z)), bind match hi with
            | Some high => assert_ (negb (vr_base high =? 0)) ;; ret (vr_base high - 1)
            | None => ret (u64 (va_base asp + u64 (va_size asp - 1)))
            end k s = k (gap_high asp hi + PAGE_SIZE) s) as ->.
  { intros k. unfold gap_high. destruct hi as [x|].
    - destruct Hh as [L1 _ _ _ _]. rewrite bind_assoc, assert_bind by (rewrite (proj2 (Z.eqb_neq _ _)) by lia; done). rewrite ret_bind. f_equal. lia.
    - rewrite ret_bind, (u64_small (va_size asp - 1)), u64_small by lia. f_equal. lia. }
  replace (gap_high asp hi + PAGE_SIZE - PAGE_SIZE) with (gap_high asp hi) by lia.
  assert (0 <= gap_low asp lo) as Hg0. { unfold gap_low. destruct lo as [x|]; [|lia]. destruct Hl as [L1 L2 _ _ _]. unfold vr_end. lia. }
  destruct (Z.ltb_spec (gap_high asp hi + PAGE_SIZE) PAGE_SIZE); [by rewrite decide_False by lia|].
  destruct (Z.gtb_spec (gap_low asp lo) (gap_high asp hi)); [by rewrite decide_False by lia|]. by rewrite decide_True by lia.
Qed.

(** ** Spots *)
Section spots.
Context (k size mf : Z) (Hk : PAGE_SIZE_SHIFT <= k < 64) (Hsize : 0 < size).

Lemma k_nonneg : 0 <= k.
Proof. pose proof page_shift_range. lia. Qed.

Definition first_spot g1 : Z := align_up k g1.
Definition final_spot g2 : Z := align_down k (g2 - (size - 1)).
Definition spots g1 g2 : Z := if decide (first_spot g1 + (size - 1) <= g2) then (final_spot g2 - first_spot g1) / PAGE_SIZE + 1 else 0.

Lemma final_spec g1 g2 : first_spot g1 + (size - 1) <= g2 ->
  first_spot g1 <= final_spot g2 /\ final_spot g2 + (size - 1) <= g2 /\ g2 - (size - 1) < final_spot g2 + 2 ^ k.
Proof.
  pose proof k_nonneg as Hk0. intros Hf. unfold final_spot. destruct (align_down_spec k (g2 - (size - 1)) Hk0) as [D1 D2]. destruct (align_up_spec k g1 Hk0) as [U1 U2]. unfold first_spot in *.
  pose proof (align_down_most k (g2 - (size - 1)) (align_up k g1) Hk0 ltac:(lia) U2). lia.
Qed.
Lemma first_paged g : paged (first_spot g).
Proof. apply (paged_aligned_at k); [lia|]. apply align_up_spec, k_nonneg. Qed.
Lemma final_paged g : paged (final_spot g).
Proof. apply (paged_aligned_at k); [lia|]. apply align_down_spec, k_nonneg. Qed.

Lemma spots_range g1 g2 : 0 <= spots g1 g2.
Proof.
  unfold spots. case_decide as Hd; [|lia]. pose proof (final_spec _ _ Hd). pose proof page_size_pos.
  assert (0 <= (final_spot g2 - first_spot g1) / PAGE_SIZE) by (apply Z.div_pos; lia). lia.
Qed.

Lemma last_spot_spec {S} lf hf g1 g2 fuel : forall f (s : S),
  0 <= g1 -> g2 < 2 ^ 64 -> first_spot g1 + (size - 1) <= g2 -> paged f -> final_spot g2 <= f -> f <= g2 -> f - final_spot g2 < Z.of_nat fuel * PAGE_SIZE ->
  last_spot fuel lf hf g2 (2 ^ k) size mf (first_spot g1) f s = Some (final_spot g2, s).
Proof.
  pose proof page_size_pos as Hps. pose proof k_nonneg as Hk0. induction fuel as [|fuel IH]; intros f s Hg1 Hg2 Hf Hp Hlo Hhi Hfuel; [lia|]. destruct (final_spec _ _ Hf) as (F1 & F2 & F3).
  assert (0 <= first_spot g1) as F0. { pose proof (align_up_spec k g1 Hk0). unfold first_spot. lia. }
  cbn [last_spot]. rewrite next_spot_spec by lia. destruct (decide (f = final_spot g2)) as [->|Hne].
  - assert (align_up k (final_spot g2) = final_spot g2) as -> by (apply align_up_id; [done|apply align_down_spec, Hk0]). by rewrite decide_True by lia.
  - pose proof (paged_lt _ _ (final_paged g2) Hp ltac:(lia)) as Hstep. rewrite decide_False.
    + rewrite (u64_small (f - first_spot g1)) by lia. rewrite (proj2 (Z.ltb_ge _ _)) by lia. rewrite u64_small by lia.
      apply IH; [done|done|done|by apply paged_sub; [|apply paged_page]|lia|lia|lia].
    + pose proof (align_up_spec k f Hk0) as [[U1 _] U2]. intros Hfit. assert (final_spot g2 < align_up k f) as Hlt by lia.
      pose proof (multiple_le _ _ (2 ^ k) ltac:(lia) (proj2 (align_down_spec k (g2 - (size - 1)) Hk0)) U2 Hlt). unfold final_spot in *. lia.
Qed.

Lemma scan_gap_spec {S} asp lo hi (s : S) : aspace_ok asp -> opt_ok lo -> opt_ok hi ->
  scan_gap asp lo hi (2 ^ k) size mf s = Some (spots (gap_low asp lo) (gap_high asp hi), s).
Proof.
  pose proof page_size_pos as Hps. pose proof k_nonneg as Hk0. intros Ha Hl Hh. destruct (gap_bounds asp lo hi Ha Hl Hh) as [B1 B2]. unfold scan_gap. rewrite (bind_eq _ _ _ _ _ (extract_gap_spec asp lo hi s Ha Hl Hh)).
  set (g1 := gap_low asp lo) in *. set (g2 := gap_high asp hi) in *. unfold spots. destruct (align_up_spec k g1 Hk0) as [U1 U2]. fold (first_spot g1) in U1, U2.
  destruct (decide (g1 <= g2)) as [Hg|Hg]; [|by rewrite decide_False by lia]. rewrite next_spot_spec by lia. fold (first_spot g1).
  case_decide as Hd; [|done]. destruct (final_spec _ _ Hd) as (F1 & F2 & F3).
  rewrite (u64_small (g2 - (size - 1))) by lia. rewrite page_size_pow at 2. pose proof page_shift_range. rewrite round_down_spec by lia.
  assert (0 <= PAGE_SIZE_SHIFT) as Hsh by lia. destruct (align_down_spec PAGE_SIZE_SHIFT (g2 - (size - 1)) Hsh) as [D1 D2]. set (f0 := align_down PAGE_SIZE_SHIFT (g2 - (size - 1))) in *. rewrite <- page_size_pow in D1, D2.
  assert (final_spot g2 <= f0) as Hf0. { apply align_down_most; [lia|lia|]. rewrite <- page_size_pow. apply final_paged. }
  erewrite bind_eq; [|apply last_spot_spec; [lia..|exact D2|done|lia|]].
  - rewrite (u64_small (final_spot g2 - first_spot g1)) by lia. rewrite Z.shiftr_div_pow2 by lia. rewrite <- page_size_pow.
    assert (0 <= (final_spot g2 - first_spot g1) / PAGE_SIZE) by (apply Z.div_pos; lia). assert ((final_spot g2 - first_spot g1) / PAGE_SIZE <= (2 ^ 64 - 1) / 2) as Hle.
    { transitivity ((2 ^ 64 - 1) / PAGE_SIZE); [apply Z.div_le_mono; lia|]. apply Z.div_le_compat_l; lia. }
    change ((2 ^ 64 - 1) / 2) with (2 ^ 63 - 1) in Hle. rewrite u64_small by lia. done.
  - destruct (proj1 (paged_mult _) (paged_pow k (proj1 Hk))) as [n Hn]. rewrite Hn, Z.div_mul by lia. nia.
Qed.

Lemma index_bound g1 g2 index : 0 <= index < spots g1 g2 ->
  first_spot g1 + (size - 1) <= g2 /\ index * PAGE_SIZE <= final_spot g2 - first_spot g1 /\ align_up k (first_spot g1 + index * PAGE_SIZE) <= final_spot g2.
Proof.
  pose proof page_size_pos as Hps. pose proof k_nonneg as Hk0. unfold spots. intros Hi. case_decide as Hd; [|lia].
  assert (index * PAGE_SIZE <= final_spot g2 - first_spot g1) as Hle.
  { transitivity ((final_spot g2 - first_spot g1) / PAGE_SIZE * PAGE_SIZE); [apply Z.mul_le_mono_nonneg_r; lia|]. rewrite Z.mul_comm. apply Z.mul_div_le. lia. }
  split_and!; [done|done|]. apply align_up_least; [done|lia|apply align_down_spec, Hk0].
Qed.

Lemma spot_in_gap_spec {S} asp lo hi index (s : S) : aspace_ok asp -> opt_ok lo -> opt_ok hi -> 0 <= index < spots (gap_low asp lo) (gap_high asp hi) ->
  spot_in_gap asp lo hi (2 ^ k) size mf index s = Some (align_up k (first_spot (gap_low asp lo) + index * PAGE_SIZE), s).
Proof.
  pose proof page_size_pos as Hps. pose proof k_nonneg as Hk0. intros Ha Hl Hh Hi. destruct (gap_bounds asp lo hi Ha Hl Hh) as [B1 B2]. unfold spot_in_gap. rewrite (bind_eq _ _ _ _ _ (extract_gap_spec asp lo hi s Ha Hl Hh)).
  set (g1 := gap_low asp lo) in *. set (g2 := gap_high asp hi) in *. destruct (align_up_spec k g1 Hk0) as [U1 U2]. fold (first_spot g1) in U1, U2.
  destruct (index_bound _ _ _ Hi) as (Hd & Hle & Hup). destruct (final_spec _ _ Hd) as (F1 & F2 & F3). rewrite decide_True by lia. rewrite next_spot_spec by lia. fold (first_spot g1). rewrite decide_True by done.
  rewrite (u64_small (index * PAGE_SIZE)), u64_small by nia. rewrite next_spot_spec by nia. rewrite decide_True; [done|].
  lia.
Qed.

(** What a spot of the gap is, and that there is one if any aligned address would do. *)
Lemma spot_fits g1 g2 index : 0 <= index < spots g1 g2 ->
  let c := align_up k (first_spot g1 + index * PAGE_SIZE) in c mod 2 ^ k = 0 /\ g1 <= c /\ c + (size - 1) <= g2.
Proof.
  pose proof page_size_pos as Hps. pose proof k_nonneg as Hk0. intros Hi. destruct (index_bound _ _ _ Hi) as (Hd & Hle & Hup). destruct (final_spec _ _ Hd) as (F1 & F2 & F3).
  destruct (align_up_spec k g1 Hk0) as [U1 U2]. fold (first_spot g1) in U1, U2. destruct (align_up_spec k (first_spot g1 + index * PAGE_SIZE) Hk0) as [C1 C2].
  cbn zeta. split_and!; [done|nia|lia].
Qed.
Lemma spot_exists g1 g2 c : c mod 2 ^ k = 0 -> g1 <= c -> c + (size - 1) <= g2 -> 0 < spots g1 g2 /\ first_spot g1 <= c.
Proof.
  pose proof page_size_pos as Hps. pose proof k_nonneg as Hk0. intros C1 C2 C3. pose proof (align_up_least k g1 c Hk0 C2 C1) as Hle. fold (first_spot g1) in Hle. split; [|done].
  unfold spots. rewrite decide_True by lia. destruct (final_spec g1 g2 ltac:(lia)) as (F1 & _). assert (0 <= (final_spot g2 - first_spot g1) / PAGE_SIZE) by (apply Z.div_pos; lia). lia.
Qed.
Lemma spots_bound g1 g2 : g1 <= g2 + 1 -> spots g1 g2 * PAGE_SIZE <= g2 - g1 + 1 + PAGE_SIZE.
Proof.
  pose proof page_size_pos as Hps. pose proof k_nonneg as Hk0. intros Hg. unfold spots. case_decide as Hd; [|lia]. destruct (final_spec _ _ Hd) as (F1 & F2 & _). destruct (align_up_spec k g1 Hk0) as [U1 _]. fold (first_spot g1) in U1.
  assert (PAGE_SIZE * ((final_spot g2 - first_spot g1) / PAGE_SIZE) <= final_spot g2 - first_spot g1) by (apply Z.mul_div_le; lia). lia.
Qed.
End spots.
End spot.
