(* ===== verification/VmmTree.v ===== *)
(** * Trees of regions

    What a tree holds as a list of regions in order, loops over it, and the choice of a
    spot between the regions of an address space. *)
From stdpp Require Import base gmap list.
From Stdlib Require Import ZArith Lia Sorted.
From S2P Require Import Prelude Bst BstRep BstOps BstInsert BstDelete BstProps Pmm PmmInv PmmRun ResGroup Vmm VmmSpot.

Local Open Scope Z_scope.
Local Open Scope lk_scope.

Section tree.
Context `{!PmmConfig} `{!PmmLaws} `{!ObjRefs} `{!ArchMmu} `{!VmmConfig} {OB : Type} `{!PhysObjs OB}.
Implicit Types (s : vsys (OB := OB)) (id : region_tree) (asp : vmm_aspace) (x y : vmm_region) (l : list (Z * vmm_region)).

(** The tree [id] has the regions [l], in order. *)
Record has_tree s id l : Prop := {
  ht_tree : exists b t, tree_in id s = Some b /\ holds b t /\ wavl t /\ fits b /\ elems t = l.*1;
  ht_regions : forall r x, (r, x) ∈ l -> v_regions s !! r = Some x
}.
Definition in_order l : Prop := StronglySorted (fun p q => below p.2 q.2) l.
Definition regions_ok l : Prop := Forall (fun p => region_ok p.2) l.

Lemma on_tree_read id {A} (m : M bst_root A) s b a : tree_in id s = Some b -> m b = Some (a, b) -> on_tree id m s = Some (a, s).
Proof.
  unfold on_tree. intros Hb Hm. rewrite Hb, Hm. unfold tree_in in Hb. destruct (v_roots s !! id) as [r|] eqn:Hr; [|done]. cbn in Hb. injection Hb as <-.
  cbn. do 2 f_equal. unfold with_roots, with_vnodes. cbn. rewrite insert_id by done. by destruct s.
Qed.

Lemma get_region_bind {A} r x (f : vmm_region -> M (vsys (OB := OB)) A) s : v_regions s !! r = Some x -> bind (get_region r) f s = f x s.
Proof. intros Hr. apply bind_eq. by apply getsome_eq. Qed.
Lemma get_aspace_bind {A} a asp (f : vmm_aspace -> M (vsys (OB := OB)) A) s : v_aspaces s !! a = Some asp -> bind (get_aspace a) f s = f asp s.
Proof. intros Ha. apply bind_eq. by apply getsome_eq. Qed.

(** ** A loop that only reads *)
Section loop.
Context {A R : Type} (body : Z -> A -> M (vsys (OB := OB)) (A + R)) (s : vsys (OB := OB)) (id : region_tree) (l : list (Z * vmm_region)).
Context (I : list (Z * vmm_region) -> A -> Prop) (Q : A + R -> Prop).
Hypothesis body_reads : forall pre r x rest acc, l = pre ++ (r, x) :: rest -> v_regions s !! r = Some x -> I ((r, x) :: rest) acc ->
  exists res, body r acc s = Some (res, s) /\ match res with inl acc' => I rest acc' | inr v => Q (inr v) end.
Hypothesis at_end : forall acc, I [] acc -> Q (inl acc).

Lemma each_region_read (Ht : has_tree s id l) rest : forall pre fuel acc,
  l = pre ++ rest -> (length rest <= fuel)%nat -> I rest acc ->
  exists res, each_region id body fuel (default NULL (head rest.*1)) acc s = Some (res, s) /\ Q res.
Proof.
  destruct Ht as [(b & t & Hb & Hh & _ & _ & He) Hreg]. induction rest as [|[r x] rest IH]; intros pre fuel acc Hl Hf Hi.
  { exists (inl acc). split; [by destruct fuel|by apply at_end]. }
  cbn in Hf. destruct fuel as [|fuel]; [lia|]. cbn [fmap list_fmap head fst from_option]. cbn [each_region].
  assert (elems t = pre.*1 ++ r :: rest.*1) as He' by (by rewrite He, Hl, fmap_app).
  assert (r <> NULL) as Hr. { eapply (rep_elem_nonzero _ _ _ _ (at_rep _ _ _ Hh)). rewrite He'. apply elem_of_app. right. by left. }
  cbn. rewrite (proj2 (Z.eqb_neq _ _) Hr). destruct (neighbours_run b t _ _ _ Hh He') as [Hn _].
  rewrite (bind_eq _ _ _ _ _ (on_tree_read _ _ s b _ Hb Hn)).
  destruct (body_reads pre r x rest acc Hl) as ([acc'|v] & Hrun & Hres); [apply Hreg; rewrite Hl; apply elem_of_app; right; by left|done| |]; rewrite (bind_eq _ _ _ _ _ Hrun).
  - apply (IH (pre ++ [(r, x)])); [by rewrite <- app_assoc|lia|done].
  - by exists (inr v).
Qed.

Lemma for_each_region_read acc : has_tree s id l -> I l acc -> exists res, for_each_region id body acc s = Some (res, s) /\ Q res.
Proof.
  intros Ht Hi. pose proof Ht as [(b & t & Hb & Hh & _ & _ & He) _]. unfold for_each_region.
  assert (bst_fuel b = Some (Datatypes.S (base.size (bst_nodes b)), b)) as Hfuel by done.
  rewrite (bind_eq _ _ _ _ _ (on_tree_read _ _ s b _ Hb Hfuel)). destruct (ends_run b t Hh) as [Hn _]. rewrite (bind_eq _ _ _ _ _ (on_tree_read _ _ s b _ Hb Hn)).
  rewrite He. apply (each_region_read Ht l []); [done| |done]. pose proof (holds_size _ _ Hh) as Hs. rewrite He, length_fmap in Hs. lia.
Qed.
End loop.

(** ** The choice of a spot *)

(** A spot in an address space is aligned, and a page away from each of its regions and
    from its end. *)
Definition fits_at asp l (k size c : Z) : Prop :=
  c mod 2 ^ k = 0 /\ va_base asp <= c /\ c + size + PAGE_SIZE <= va_base asp + va_size asp /\
  forall x, x ∈ l.*2 -> c + size + PAGE_SIZE <= vr_base x \/ vr_end x + PAGE_SIZE <= c.

(** The number of choices from a gap on. *)
Fixpoint choices asp (k size : Z) (left : option vmm_region) (rest : list (Z * vmm_region)) : Z :=
  match rest with
  | [] => spots k size (gap_low asp left) (gap_high asp None)
  | p :: rest => spots k size (gap_low asp left) (gap_high asp (Some p.2)) + choices asp k size (Some p.2) rest
  end.

Section choose.
Context (s : vsys (OB := OB)) (a : Z) (asp : vmm_aspace) (l : list (Z * vmm_region)) (k size mf : Z).
Context (Hk : PAGE_SIZE_SHIFT <= k < 64) (Hsize : 0 < size) (Hasp : aspace_ok asp).
Context (Ht : has_tree s (AspaceTree a) l) (Hok : regions_ok l) (Hord : in_order l) (Hin : Forall (fun p => inside asp p.2) l).

Definition left_end (left : option vmm_region) : Z := match left with Some x => vr_end x | None => va_base asp end.

(** Before a gap: its left neighbour is below what comes, and everything that came before
    is below it. *)
Record at_gap (rest : list (Z * vmm_region)) (left : option vmm_region) : Prop := {
  ag_ok : opt_ok left;
  ag_left : va_base asp <= gap_low asp left;
  ag_rest : forall y, y ∈ rest.*2 -> left_end left <= vr_base y;
  ag_end : left_end left <= va_base asp + va_size asp;
  ag_before : forall y, y ∈ l.*2 -> y ∈ rest.*2 \/ vr_end y + PAGE_SIZE <= gap_low asp left
}.

Lemma in_regions y : y ∈ l.*2 -> region_ok y /\ inside asp y.
Proof.
  intros (p & -> & Hp)%list_elem_of_fmap. split; [exact (proj1 (Forall_forall _ _) Hok p Hp)|exact (proj1 (Forall_forall _ _) Hin p Hp)].
Qed.

Lemma at_first_gap : at_gap l None.
Proof.
  destruct Hasp as [A1 A2 A3 _ _]. pose proof page_size_pos. split; cbn; [done|lia| |lia|by left].
  intros y Hy. destruct (in_regions y Hy) as [_ [? _]]. lia.
Qed.

Lemma at_next_gap pre r x rest left : l = pre ++ (r, x) :: rest -> at_gap ((r, x) :: rest) left -> at_gap rest (Some x).
Proof.
  intros Hl Hg. assert (x ∈ l.*2) as Hx by (rewrite Hl, fmap_app; apply elem_of_app; right; by left). destruct (in_regions x Hx) as [Hxo [Hx1 Hx2]].
  assert (forall y, y ∈ rest.*2 -> below x y) as Hb.
  { intros y (p & -> & Hp)%list_elem_of_fmap. pose proof Hord as Ho. rewrite Hl in Ho. clear -Ho Hp. induction pre as [|q pre IH].
    - apply StronglySorted_inv in Ho as [_ Ho]. exact (proj1 (Forall_forall _ _) Ho p Hp).
    - apply StronglySorted_inv in Ho as [Ho _]. by apply IH. }
  pose proof page_size_pos. destruct Hxo as [X1 X2 X3 _ _]. split; cbn.
  - constructor; [done..|apply (in_regions x Hx)|apply (in_regions x Hx)].
  - unfold vr_end. lia.
  - intros y Hy. pose proof (Hb y Hy) as Hxy. unfold below in Hxy. pose proof (guard_range (vr_flags x) (vr_flags y)). lia.
  - unfold end_guard in Hx2. destruct (has_flag _ _); lia.
  - intros y Hy. destruct (ag_before _ _ Hg y Hy) as [[->|Hr]%elem_of_cons|Hle]; [right; cbn; lia|by left|right].
    pose proof (ag_rest _ _ Hg x ltac:(by left)) as Hlx. destruct left as [z|]; cbn in Hle, Hlx |- *; unfold vr_end in *; lia.
Qed.

Lemma gap_bound rest left hi : at_gap rest left -> hi = va_base asp + va_size asp \/ (exists x, left_end left <= vr_base x /\ hi = vr_base x /\ region_ok x) ->
  spots k size (gap_low asp left) (hi - 1 - PAGE_SIZE) * PAGE_SIZE <= hi - left_end left.
Proof.
  intros Hg Hhi. pose proof page_size_pos as Hps. assert (left_end left <= hi) as Hle.
  { destruct Hhi as [->|(x & ? & -> & _)]; [apply Hg|done]. }
  assert (left_end left <= gap_low asp left) as Hl by (destruct left; cbn; lia).
  destruct (Z_lt_ge_dec (gap_low asp left) (hi - PAGE_SIZE + 1)) as [Hlt|Hge].
  - assert (gap_low asp left <= hi - 1 - PAGE_SIZE + 1) as Hb by lia. pose proof (spots_bound k size Hk Hsize _ _ Hb). lia.
  - unfold spots. rewrite decide_False; [lia|]. pose proof (align_up_spec k (gap_low asp left) (k_nonneg k Hk)). unfold first_spot. lia.
Qed.

Lemma choices_nonneg rest : forall left, 0 <= choices asp k size left rest.
Proof.
  induction rest as [|p rest IH]; intros left; cbn; [apply (spots_range k size Hk)|].
  pose proof (IH (Some p.2)). pose proof (spots_range k size Hk (gap_low asp left) (gap_high asp (Some p.2))). lia.
Qed.

Lemma u64_pages n b : 0 <= n -> n * PAGE_SIZE <= b -> b <= 2 ^ 64 -> u64 n = n.
Proof. pose proof page_size_pos. intros Hn Hb Hle. apply u64_small. nia. Qed.

(** The counts do not wrap. *)
Lemma count_spots_run : count_spots a asp (2 ^ k) size mf s = Some (choices asp k size None l, s).
Proof.
  pose proof page_size_pos as Hps. pose proof (ak_end _ Hasp) as Hend.
  set (T := choices asp k size None l).
  set (I := fun rest (acc : Z * option vmm_region) => at_gap rest acc.2 /\ 0 <= acc.1 /\ acc.1 * PAGE_SIZE <= left_end acc.2 /\ acc.1 + choices asp k size acc.2 rest = T).
  set (Q := fun r : (Z * option vmm_region) + Empty_set => match r with inl acc => I [] acc | inr _ => False end).
  unfold count_spots. edestruct (fun body => for_each_region_read body s (AspaceTree a) l I Q) as (res & Hrun & Hq); [| |exact Ht| |rewrite (bind_eq _ _ _ _ _ Hrun)].
  - intros pre r x rest [n left] Hl Hr (Hg & Hn & Hle & Hsum). cbn [fst snd] in *. rewrite (get_region_bind r x) by done.
    assert (opt_ok (Some x)) as Hx by (apply in_regions; rewrite Hl, fmap_app; apply elem_of_app; right; by left).
    rewrite (bind_eq _ _ _ _ _ (scan_gap_spec k size mf Hk Hsize asp left (Some x) s Hasp (ag_ok _ _ Hg) Hx)).
    eexists. split; [done|]. pose proof (spots_range k size Hk (gap_low asp left) (gap_high asp (Some x))) as H0s.
    pose proof (ag_rest _ _ Hg x ltac:(by left)) as Hlx. pose proof (gap_bound _ _ (vr_base x) Hg ltac:(right; by exists x)) as Hgb. change (vr_base x - 1 - PAGE_SIZE) with (gap_high asp (Some x)) in Hgb.
    pose proof (rk_end x Hx). pose proof (rk_size x Hx). unfold vr_end in *.
    cbn [choices] in Hsum. cbn [snd] in Hsum. rewrite (u64_pages _ (vr_base x)) by lia.
    split; [by apply (at_next_gap pre r _ _ left)|]. cbn. unfold vr_end. split_and!; lia.
  - intros acc Hacc. exact Hacc.
  - split; [exact at_first_gap|]. cbn. destruct Hasp as [A1 _ _ _ _]. split_and!; [lia|lia|done].
  - destruct res as [[n left]|[]]. destruct Hq as (Hg & Hn & Hle & Hsum). cbn [fst snd] in *.
    rewrite (bind_eq _ _ _ _ _ (scan_gap_spec k size mf Hk Hsize asp left None s Hasp (ag_ok _ _ Hg) Logic.I)).
    pose proof (gap_bound _ _ (va_base asp + va_size asp) Hg ltac:(by left)) as Hgb. pose proof (spots_range k size Hk (gap_low asp left) (gap_high asp None)).
    cbn [choices] in Hsum. change (va_base asp + va_size asp - 1 - PAGE_SIZE) with (gap_high asp None) in Hgb.
    rewrite (u64_pages _ (va_base asp + va_size asp)) by lia. unfold ret. do 2 f_equal. exact Hsum.
Qed.

(** Where a chosen spot is, and where it cannot be. *)
Lemma gap_fits rest left c : (exists pre, l = pre ++ rest) -> at_gap rest left ->
  c mod 2 ^ k = 0 -> gap_low asp left <= c -> c + (size - 1) <= gap_high asp (head rest.*2) -> fits_at asp l k size c.
Proof.
  intros [pre Hl] Hg Hc Hlo Hhi. pose proof page_size_pos as Hps. pose proof (ag_left _ _ Hg).
  assert (forall y, y ∈ rest.*2 -> c + size + PAGE_SIZE <= vr_base y) as Hrest.
  { intros y Hy. destruct rest as [|[r x] rest]; [by apply elem_of_nil in Hy|]. cbn in Hy. cbn in Hhi. unfold gap_high in Hhi. apply elem_of_cons in Hy as [->|Hy]; [lia|].
    pose proof (ag_rest _ _ (at_next_gap pre r x rest left Hl Hg) y Hy) as Hxy. cbn in Hxy.
    destruct (in_regions x) as [[X1 X2 _ _ _] _]; [rewrite Hl, fmap_app; apply elem_of_app; right; by left|]. unfold vr_end in Hxy. lia. }
  split_and!; [done|lia| |].
  - destruct rest as [|[r x] rest]; cbn in Hhi; unfold gap_high in Hhi; [lia|]. destruct (in_regions x) as [[X1 X2 _ _ _] [_ Hx]]; [rewrite Hl, fmap_app; apply elem_of_app; right; by left|].
    assert (0 <= end_guard x) by (unfold end_guard; destruct (has_flag _ _); lia). unfold vr_end in Hx. lia.
  - intros y Hy. destruct (ag_before _ _ Hg y Hy) as [Hr|Hle]; [left; by apply Hrest|right; lia].
Qed.

Lemma fits_above pre r x rest left c : l = pre ++ (r, x) :: rest -> fits_at asp l k size c -> gap_low asp left <= c ->
  spots k size (gap_low asp left) (gap_high asp (Some x)) = 0 -> gap_low asp (Some x) <= c.
Proof.
  intros Hl (F1 & F2 & F3 & F4) Hlo Hz. destruct (F4 x) as [Hle|Hle]; [rewrite Hl, fmap_app; apply elem_of_app; right; by left| |exact Hle].
  assert (c + (size - 1) <= gap_high asp (Some x)) as Hhi by (unfold gap_high; lia). pose proof (spot_exists k size Hk _ _ c F1 Hlo Hhi). lia.
Qed.

Lemma pick_gap_run index : 0 <= index < choices asp k size None l ->
  exists c, pick_gap a asp (2 ^ k) size mf index s = Some (c, s) /\ fits_at asp l k size c /\ (index = 0 -> forall c', fits_at asp l k size c' -> c <= c').
Proof.
  intros Hi. pose proof page_size_pos as Hps. pose proof (k_nonneg k Hk) as Hk0.
  set (best := fun c => fits_at asp l k size c /\ (index = 0 -> forall c', fits_at asp l k size c' -> c <= c')).
  set (I := fun rest (acc : Z * option vmm_region) => at_gap rest acc.2 /\ 0 <= acc.1 < choices asp k size acc.2 rest /\
    (index = 0 -> acc.1 = 0 /\ forall c', fits_at asp l k size c' -> gap_low asp acc.2 <= c')).
  set (Q := fun r : (Z * option vmm_region) + Z => match r with inl acc => I [] acc | inr c => best c end).
  assert (forall rest left n, (exists pre, l = pre ++ rest) -> at_gap rest left -> 0 <= n < spots k size (gap_low asp left) (gap_high asp (head rest.*2)) ->
    (index = 0 -> n = 0 /\ forall c', fits_at asp l k size c' -> gap_low asp left <= c') ->
    best (align_up k (first_spot k (gap_low asp left) + n * PAGE_SIZE))) as Hbest.
  { intros rest left n Hl Hg Hn Hz. destruct (spot_fits k size Hk _ _ _ Hn) as (C1 & C2 & C3). split; [by apply (gap_fits rest left)|].
    intros Hi0 c' Hc'. destruct (Hz Hi0) as [-> Hall]. rewrite Z.add_0_r. unfold first_spot. destruct (align_up_spec k (gap_low asp left) Hk0) as [_ Hal].
    rewrite (align_up_id k _ Hk0 Hal). apply align_up_least; [done|by apply Hall|apply Hc']. }
  unfold pick_gap. edestruct (fun body => for_each_region_read body s (AspaceTree a) l I Q) as (res & Hrun & Hq); [| |exact Ht| |rewrite (bind_eq _ _ _ _ _ Hrun)].
  - intros pre r x rest [n left] Hl Hr (Hg & Hn & Hz). cbn [fst snd] in *. rewrite (get_region_bind r x) by done.
    assert (opt_ok (Some x)) as Hx by (apply in_regions; rewrite Hl, fmap_app; apply elem_of_app; right; by left).
    rewrite (bind_eq _ _ _ _ _ (scan_gap_spec k size mf Hk Hsize asp left (Some x) s Hasp (ag_ok _ _ Hg) Hx)).
    cbn [choices snd] in Hn. destruct (Z.gtb_spec (spots k size (gap_low asp left) (gap_high asp (Some x))) n) as [Hlt|Hge].
    + rewrite (bind_eq _ _ _ _ _ (spot_in_gap_spec k size mf Hk Hsize asp left (Some x) n s Hasp (ag_ok _ _ Hg) Hx (conj (proj1 Hn) Hlt))).
      eexists. split; [done|]. cbn. apply (Hbest ((r, x) :: rest)); [by exists pre|done|cbn; lia|done].
    + eexists. split; [done|]. split; [by apply (at_next_gap pre r _ _ left)|]. cbn [fst snd]. split; [lia|]. intros Hi0. destruct (Hz Hi0) as [-> Hall].
      assert (spots k size (gap_low asp left) (gap_high asp (Some x)) = 0) as Hs0. { pose proof (spots_range k size Hk (gap_low asp left) (gap_high asp (Some x))). lia. }
      split; [lia|]. intros c' Hc'. apply (fits_above pre r x rest left); auto.
  - intros acc Hacc. exact Hacc.
  - split; [exact at_first_gap|]. split; [done|]. intros ->. split; [done|]. by intros c' (_ & ? & _).
  - destruct res as [[n left]|c]; [|by exists c]. destruct Hq as (Hg & Hn & Hz). cbn [fst snd choices] in *. eexists. split.
    + apply (spot_in_gap_spec k size mf Hk Hsize asp left None n s Hasp (ag_ok _ _ Hg) Logic.I). done.
    + apply (Hbest []); [exists l; by rewrite app_nil_r|done|done|done].
Qed.

Lemma no_choice c : choices asp k size None l = 0 -> ~ fits_at asp l k size c.
Proof.
  intros Hz Hc. pose proof page_size_pos as Hps.
  assert (forall rest pre left, l = pre ++ rest -> at_gap rest left -> choices asp k size left rest = 0 -> gap_low asp left <= c -> False) as Hall.
  { induction rest as [|[r x] rest IH]; intros pre left Hl Hg Hch Hlo; cbn [choices snd] in Hch.
    - destruct Hc as (C1 & C2 & C3 & _). assert (c + (size - 1) <= gap_high asp None) as Hhi by (unfold gap_high; lia). pose proof (spot_exists k size Hk _ _ c C1 Hlo Hhi). lia.
    - pose proof (choices_nonneg rest (Some x)). pose proof (spots_range k size Hk (gap_low asp left) (gap_high asp (Some x))).
      apply (IH (pre ++ [(r, x)]) (Some x)); [by rewrite <- app_assoc|by apply (at_next_gap pre r _ _ left)|lia|]. apply (fits_above pre r x rest left); [done|done|done|lia]. }
  apply (Hall l [] None); [done|exact at_first_gap|done|apply Hc].
Qed.
End choose.
End tree.
