(* ===== verification/VmmRegions.v ===== *)
(** * Regions going into trees and out of them

    All trees of regions share the memory of nodes: [trees_wf] is what holds of them, and
    each operation on one of them leaves the others as they were. *)
From stdpp Require Import base gmap list.
From Stdlib Require Import ZArith Lia Sorted.
From S2P Require Import Prelude Bst BstRep BstOps BstInsert BstDelete BstProps Pmm PmmInv PmmRun ResGroup Vmm VmmSpot VmmTree.

Local Open Scope Z_scope.
Local Open Scope lk_scope.

Section regions.
Context `{!PmmConfig} `{!PmmLaws} `{!ObjRefs} `{!ArchMmu} `{!VmmConfig} {OB : Type} `{!PhysObjs OB}.
Implicit Types (s : vsys (OB := OB)) (id : region_tree) (asp : vmm_aspace) (x y : vmm_region) (l : list (Z * vmm_region)).

(** ** The regions a range touches *)
Definition touches x y : Prop := ~ below x y /\ ~ below y x.

Lemma below_through x y z : region_ok y -> below x y -> below y z -> below x z.
Proof.
  unfold below. intros Hy Q1 Q2. pose proof (guard_range (vr_flags x) (vr_flags y)). pose proof (guard_range (vr_flags x) (vr_flags z)). pose proof (guard_range (vr_flags y) (vr_flags z)).
  pose proof (paged_pos _ (rk_size_paged _ Hy) (rk_size _ Hy)). unfold vr_end in *. lia.
Qed.

(** [l] is split at [y]: below, touching, above. *)
Record split_at l y l1 eqs l2 : Prop := {
  sp_list : l = l1 ++ eqs ++ l2;
  sp_below : forall p, p ∈ l1 -> below p.2 y;
  sp_touch : forall p, p ∈ eqs -> touches p.2 y;
  sp_above : forall p, p ∈ l2 -> below y p.2
}.

Lemma split_exists l y : regions_ok l -> in_order l -> exists l1 eqs l2, split_at l y l1 eqs l2.
Proof.
  intros Hok Ho. induction Ho as [|p l Ho IH Hp]; [exists [], [], []; by constructor; [|intros ? ?%elem_of_nil..]|].
  apply Forall_cons in Hok as [Hpo Hok]. rewrite Forall_forall in Hp. destruct (IH Hok) as (l1 & eqs & l2 & [-> Q1 Q2 Q3]).
  destruct (decide (below p.2 y)) as [Hlo|Hlo]; [|destruct (decide (below y p.2)) as [Hhi|Hhi]].
  - exists (p :: l1), eqs, l2. constructor; [done| |done|done]. intros q [->|Hq]%elem_of_cons; [done|by apply Q1].
  - exists [], [], (p :: l1 ++ eqs ++ l2). constructor; [done|by intros ? ?%elem_of_nil..|]. intros q [->|Hq]%elem_of_cons; [done|].
    apply (below_through _ p.2); [done|done|by apply Hp].
  - assert (l1 = []) as ->.
    { destruct l1 as [|q l1]; [done|]. exfalso. apply Hlo. apply (below_through _ q.2).
      - apply (proj1 (Forall_forall _ _) Hok q). by left.
      - apply Hp. by left.
      - apply Q1. by left. }
    exists [], (p :: eqs), l2. constructor; [done|by intros ? ?%elem_of_nil| |done]. intros q [->|Hq]%elem_of_cons; [done|by apply Q2].
Qed.

(** The comparison finds the split. *)
Lemma split_cut l y l1 eqs l2 (f : Z -> Z) : regions_ok l -> span_ok y -> split_at l y l1 eqs l2 ->
  (forall r x, (r, x) ∈ l -> f r = vmm_region_cmp x y) -> cut f l.*1 l1.*1 eqs.*1 l2.*1.
Proof.
  intros Hok Hy [-> Q1 Q2 Q3] Hf. unfold regions_ok in Hok. rewrite !Forall_app in Hok. destruct Hok as (O1 & O2 & O3).
  assert (forall part r, r ∈ part.*1 -> (forall p, p ∈ part -> p ∈ l1 ++ eqs ++ l2) -> Forall (fun p => region_ok p.2) part ->
    exists x, (r, x) ∈ part /\ f r = if decide (below x y) then 1 else if decide (below y x) then -1 else 0) as Hpart.
  { intros part r ([r' x] & -> & Hx)%list_elem_of_fmap Hsub Hpo. exists x. split; [done|]. cbn [fst].
    rewrite (Hf r' x (Hsub _ Hx)). apply region_cmp_spec; [exact (proj1 (Forall_forall _ _) Hpo _ Hx)|done]. }
  constructor.
  - by rewrite !fmap_app.
  - intros r Hr. destruct (Hpart l1 r Hr) as (x & Hx & ->); [set_solver|done|]. by rewrite decide_True by exact (Q1 _ Hx).
  - intros r Hr. destruct (Hpart eqs r Hr) as (x & Hx & ->); [set_solver|done|]. destruct (Q2 _ Hx) as [T1 T2]. by rewrite !decide_False.
  - intros r Hr. destruct (Hpart l2 r Hr) as (x & Hx & ->); [set_solver|done|]. pose proof (Q3 _ Hx) as Hb. cbn in Hb. rewrite decide_False; [by rewrite decide_True|].
    intros Hb'. pose proof (proj1 (Forall_forall _ _) O3 _ Hx) as [_ X2 _ _ _]. destruct Hy as (_ & Y2 & _). unfold below, vr_end in *. cbn in *.
    pose proof (guard_range (vr_flags x) (vr_flags y)). pose proof (guard_range (vr_flags y) (vr_flags x)). lia.
Qed.

(** ** Searching *)
Lemma search_tree s id l y l1 eqs l2 (f : Z -> Z -> Z) node : has_tree s id l -> regions_ok l -> span_ok y -> split_at l y l1 eqs l2 ->
  node <> NULL -> (forall r x, (r, x) ∈ l -> f r node = vmm_region_cmp x y) ->
  exists r, on_tree id (bst_search f node) s = Some (r, s) /\ (eqs = [] -> r = NULL) /\ (eqs <> [] -> exists x, (r, x) ∈ eqs).
Proof.
  intros [(b & t & Hb & Hh & Hw & _ & He) _] Hok Hy Hsp Hn Hf. pose proof (split_cut l y l1 eqs l2 (fun r => f r node) Hok Hy Hsp Hf) as Hcut. rewrite <- He in Hcut.
  assert (placed (fun r => f r node) []) as Hpl by (split; intros r Hr; by apply elem_of_nil in Hr).
  pose proof (at_hole _ _ _ Hh) as Hroot. cbn in Hroot. pose proof (holds_size _ _ Hh). pose proof (height_length t).
  destruct (search_from_run _ (Datatypes.S (base.size (bst_nodes b))) b [] t _ _ _ Hh Hpl Hcut ltac:(lia)) as (r & Hr & R1 & R2). exists r. split_and!.
  - apply on_tree_read with b; [done|]. unfold bst_search, bst_fuel. rewrite assert_bind by (rewrite (proj2 (Z.eqb_neq _ _) Hn); done). by rewrite !gets_bind, Hroot.
  - intros ->. by apply R1.
  - intros Hne. assert (eqs.*1 <> []) as Hne' by (by destruct eqs). apply R2 in Hne'. apply list_elem_of_fmap in Hne' as ([r' x] & -> & Hx). by exists x.
Qed.

(** ** Changing one tree *)

(** Only nodes in [ns] and the root of [id] change. *)
Definition tree_changed id (ns : list Z) s s' : Prop :=
  exists ro nodes, s' = with_roots <[id := ro]> (with_vnodes (fun _ => nodes) s) /\
    (forall q, q ∉ ns -> nodes !! q = v_nodes s !! q) /\ dom nodes = dom (v_nodes s).

Lemma on_tree_run id {A} (m : M bst_root A) s b a b' ns : tree_in id s = Some b -> m b = Some (a, b') -> same_outside ns b b' ->
  exists s', on_tree id m s = Some (a, s') /\ tree_changed id ns s s' /\ tree_in id s' = Some b'.
Proof.
  unfold on_tree. intros Hb Hm [Hn Hd]. rewrite Hb, Hm. eexists. split; [done|]. unfold tree_in in *. destruct (v_roots s !! id) as [ro|] eqn:Hr; [|done]. cbn in Hb. injection Hb as <-. cbn in *.
  split; [by exists (root b'), (bst_nodes b')|]. cbn. rewrite lookup_insert_eq. by destruct b'.
Qed.

Lemma holds_frame b b' t : root b' = root b -> (forall q, q ∈ elems t -> bst_nodes b' !! q = bst_nodes b !! q) -> holds b t -> holds b' t.
Proof.
  intros Hroot Hn [Q1 Q2 Q3]. constructor; [|cbn in *; congruence|done]. by apply (rep_frame (bst_nodes b)).
Qed.

(** A tree is as it was if its root, its nodes and its regions are. *)
Lemma has_tree_frame s s' id l : has_tree s id l -> v_roots s' !! id = v_roots s !! id -> (forall q, q ∈ l.*1 -> v_nodes s' !! q = v_nodes s !! q) ->
  (forall q, q ∈ l.*1 -> v_regions s' !! q = v_regions s !! q) -> Z.of_nat (base.size (v_nodes s')) < 2 ^ 62 -> has_tree s' id l.
Proof.
  intros [(b & t & Hb & Hh & Hw & _ & He) Hreg] Hroot Hn Hr Hf. unfold tree_in in Hb. destruct (v_roots s !! id) as [ro|] eqn:Hro; [|done]. cbn in Hb. injection Hb as <-. split.
  - exists (mk_bst_root (v_nodes s') ro), t. split_and!; [by unfold tree_in; rewrite Hroot| |done|done|done].
    apply (holds_frame (mk_bst_root (v_nodes s) ro)); [done| |done]. rewrite He. exact Hn.
  - intros r x Hx. rewrite Hr; [by apply Hreg|]. apply list_elem_of_fmap. by exists (r, x).
Qed.

Lemma has_tree_size s id l : has_tree s id l -> Z.of_nat (base.size (v_nodes s)) < 2 ^ 62.
Proof. intros [(b & t & Hb & _ & _ & Hf & _) _]. unfold tree_in in Hb. destruct (v_roots s !! id); [|done]. cbn in Hb. injection Hb as <-. exact Hf. Qed.

Lemma other_tree id ns s s' id' l : tree_changed id ns s s' -> id' <> id -> (forall q, q ∈ l.*1 -> q ∉ ns) -> has_tree s id' l -> has_tree s' id' l.
Proof.
  intros (ro & nodes & -> & Hn & Hd) Hne Hdis Ht. pose proof (has_tree_size _ _ _ Ht) as Hs. apply (has_tree_frame s); [done|cbn; by apply lookup_insert_ne| |done|].
  - intros q Hq. cbn. apply Hn. by apply Hdis.
  - cbn. by rewrite <- size_dom, Hd, size_dom.
Qed.

Section insert.
Context s id l (r : Z) (n : bst_node) y l1 eqs l2 (Ht : has_tree s id l) (Hok : regions_ok l) (Hy : region_ok y) (Hsp : split_at l y l1 eqs l2).
Context (Hr : r <> NULL) (Hn : v_nodes s !! r = Some n) (Hrk : rank n = 0) (Hni : r ∉ l.*1) (Hry : v_regions s !! r = Some y).

Lemma insert_setup : exists b, tree_in id s = Some b /\
  if bool_decide (eqs = []) then exists b' t', bst_insert (cmp_in (v_regions s)) r b = Some (true, b') /\ holds b' t' /\ wavl t' /\ fits b' /\
    elems t' = l1.*1 ++ r :: l2.*1 /\ same_outside (r :: l.*1) b b'
  else bst_insert (cmp_in (v_regions s)) r b = Some (false, b).
Proof.
  pose proof Ht as [(b & t & Hb & Hh & Hw & Hf & He) Hreg]. exists b. split; [done|].
  assert (bst_nodes b !! r = Some n) as Hbn by (unfold tree_in in Hb; destruct (v_roots s !! id); [|done]; cbn in Hb; by injection Hb as <-).
  assert (cut (fun q => cmp_in (v_regions s) q r) (elems t) l1.*1 eqs.*1 l2.*1) as Hcut.
  { rewrite He. apply (split_cut l y l1 eqs l2 (fun q => cmp_in (v_regions s) q r)); [done|by apply region_span|done|].
    intros q x Hx. unfold cmp_in. by rewrite (Hreg q x Hx), Hry. }
  pose proof (holds_size _ _ Hh) as Hsz. assert (r ∉ elems t) as Hnt by (by rewrite He).
  assert (placed (fun q => cmp_in (v_regions s) q r) []) as Hpl by (split; intros q Hq; by apply elem_of_nil in Hq).
  pose proof (insert_at_run (cmp_in (v_regions s)) r n (Datatypes.S (Datatypes.S (base.size (bst_nodes b)))) b [] t l1.*1 eqs.*1 l2.*1 Hh Hf Hw Hr Hbn Hnt Hpl Hcut ltac:(lia)) as Hins.
  assert (forall o, insert_at (cmp_in (v_regions s)) (Datatypes.S (Datatypes.S (base.size (bst_nodes b)))) r NULL RootPtr b = o -> bst_insert (cmp_in (v_regions s)) r b = o) as Hrun.
  { intros o Ho. unfold bst_insert, bst_fuel. rewrite (bind_eq _ _ _ _ _ (get_node_eq _ _ n Hr Hbn)), assert_bind by (by apply Z.eqb_eq). by rewrite gets_bind. }
  rewrite (bool_decide_ext (eqs.*1 = []) (eqs = [])) in Hins by (by destruct eqs). case_bool_decide; [|by apply Hrun].
  destruct Hins as (b' & t' & Hi & Hh' & Hw' & He' & Hso). exists b', t'. cbn in Hso. rewrite He in Hso. split_and!; [by apply Hrun|done|done| |done|done].
  unfold fits in *. by rewrite <- size_dom, (proj2 Hso), size_dom.
Qed.

Lemma insert_tree : eqs = [] ->
  exists s', on_tree id (bst_insert (cmp_in (v_regions s)) r) s = Some (true, s') /\ tree_changed id (r :: l.*1) s s' /\ has_tree s' id (l1 ++ (r, y) :: l2).
Proof.
  intros He. destruct insert_setup as (b & Hb & Hins). rewrite bool_decide_eq_true_2 in Hins by done. destruct Hins as (b' & t' & Hrun & Hh' & Hw' & Hf' & He' & Hso).
  destruct (on_tree_run id _ s b true b' (r :: l.*1) Hb Hrun Hso) as (s' & Hs' & Hch & Hb').
  exists s'. split_and!; [done|done|]. destruct Hch as (ro & nodes & -> & _). split.
  - exists b', t'. split_and!; [done|done|done|done|by rewrite He', fmap_app].
  - intros q x Hx. cbn. apply elem_of_app in Hx as [Hx|[[= -> ->]|Hx]%elem_of_cons]; [|done|]; apply (ht_regions _ _ _ Ht); rewrite (sp_list _ _ _ _ _ Hsp), He; set_solver.
Qed.

Lemma insert_collides : eqs <> [] -> on_tree id (bst_insert (cmp_in (v_regions s)) r) s = Some (false, s).
Proof.
  intros He. destruct insert_setup as (b & Hb & Hins). rewrite bool_decide_eq_false_2 in Hins by done. by apply on_tree_read with b.
Qed.
End insert.

Lemma delete_tree s id l r : has_tree s id l -> r ∈ l.*1 ->
  exists s', on_tree id (bst_delete r) s = Some (tt, s') /\ tree_changed id l.*1 s s' /\ has_tree s' id (filter (fun p => p.1 <> r) l) /\
    exists n, v_nodes s' !! r = Some n /\ rank n = 0.
Proof.
  intros Ht Hr. pose proof Ht as [(b & t & Hb & Hh & Hw & Hf & He) Hreg]. rewrite <- He in Hr.
  destruct (bst_delete_run b t r Hh Hf Hw Hr) as (b' & t' & Hrun & Hh' & Hw' & He' & (n & Hn & Hrk) & Hso). rewrite He in Hso.
  destruct (on_tree_run id _ s b tt b' l.*1 Hb Hrun Hso) as (s' & Hs' & Hch & Hb'). exists s'. split_and!; [done|done| |].
  - destruct Hch as (ro & nodes & -> & _). split.
    + exists b', t'. split_and!; [done|done|done| |].
      * unfold fits in *. by rewrite <- size_dom, (proj2 Hso), size_dom.
      * rewrite He', He. unfold without. clear. induction l as [|p l IH]; [done|]. rewrite fmap_cons, !filter_cons. repeat case_decide; try done; rewrite ?fmap_cons; by rewrite IH.
    + intros q x [_ Hx]%list_elem_of_filter. cbn. by apply Hreg.
  - exists n. split; [|done]. unfold tree_in in Hb'. destruct (v_roots s' !! id); [|done]. cbn in Hb'. injection Hb' as <-. exact Hn.
Qed.

(** ** All trees *)
Record trees_wf s (ls : gmap region_tree (list (Z * vmm_region))) : Prop := {
  tw_tree : forall id l, ls !! id = Some l -> has_tree s id l;
  tw_ok : forall id l, ls !! id = Some l -> regions_ok l /\ in_order l;
  tw_disjoint : forall id id' l l' r, ls !! id = Some l -> ls !! id' = Some l' -> r ∈ l.*1 -> r ∈ l'.*1 -> id = id'
}.
Definition linked (ls : gmap region_tree (list (Z * vmm_region))) (r : Z) : Prop := exists id l, ls !! id = Some l /\ r ∈ l.*1.

(** Whatever is left alone by [s'] stays well-formed. *)
Lemma trees_frame s s' ls : trees_wf s ls -> (forall id, is_Some (ls !! id) -> v_roots s' !! id = v_roots s !! id) ->
  (forall q, linked ls q -> v_nodes s' !! q = v_nodes s !! q /\ v_regions s' !! q = v_regions s !! q) -> Z.of_nat (base.size (v_nodes s')) < 2 ^ 62 -> trees_wf s' ls.
Proof.
  intros [T1 T2 T3] Hroot Hn Hs. constructor; [|done|done]. intros id l Hl. apply (has_tree_frame s); [by apply T1|by apply Hroot; exists l| | |done].
  - intros q Hq. apply Hn. by exists id, l.
  - intros q Hq. apply Hn. by exists id, l.
Qed.

(** A new struct, which is in no tree yet. *)
Definition new_region (r : Z) x s := with_regions <[r := x]> (with_vnodes <[r := mk_bst_node 0 NULL NULL NULL]> s).
Definition room s : Prop := Z.of_nat (base.size (v_nodes s)) + 1 < 2 ^ 62.
Definition unused_mem s (r : Z) : Prop := r <> NULL /\ v_nodes s !! r = None /\ v_regions s !! r = None.

Lemma unused_unlinked s ls r : trees_wf s ls -> unused_mem s r -> ~ linked ls r.
Proof.
  intros Hw (_ & _ & Hr) (id & l & Hl & Hin). apply list_elem_of_fmap in Hin as ([q x] & -> & Hx). pose proof (ht_regions _ _ _ (tw_tree _ _ Hw id l Hl) q x Hx) as Hq. cbn in Hr. congruence.
Qed.
Lemma trees_new s ls r x : trees_wf s ls -> room s -> unused_mem s r -> trees_wf (new_region r x s) ls.
Proof.
  intros Hw Hroom Hu. pose proof (unused_unlinked _ _ _ Hw Hu) as Hnl. apply (trees_frame s); [done|done| |].
  - intros q Hq. assert (q <> r) by congruence. cbn. by rewrite !lookup_insert_ne by done.
  - cbn. destruct Hu as (_ & Hn & _). rewrite map_size_insert_None by done. unfold room in Hroom. lia.
Qed.
Lemma struct_run {A} r base size flags mf (f : option Z -> M vsys A) s :
  bind (alloc_region_struct (Some r) base size flags mf) f s = f (Some r) (new_region r (mk_region flags mf base None 0 size) s).
Proof. unfold alloc_region_struct. rewrite bind_assoc, modify_bind. by rewrite bind_assoc, modify_bind. Qed.
(** Giving it back leaves things as they were. *)
Lemma free_new {A} r x (f : unit -> M vsys A) s : unused_mem s r -> bind (free_region r) f (new_region r x s) = f tt s.
Proof.
  intros (_ & Hn & Hr). unfold free_region. rewrite bind_assoc, modify_bind, modify_bind. unfold new_region, with_regions, with_vnodes. cbn.
  rewrite !delete_insert_id by done. by destruct s.
Qed.

Lemma split_in_order l y l1 l2 : in_order l -> split_at l y l1 [] l2 -> forall r, in_order (l1 ++ (r, y) :: l2).
Proof.
  intros Ho [Hl Q1 _ Q3] r. cbn in Hl. subst l. induction l1 as [|p l1 IH]; cbn in *.
  - constructor; [done|]. apply Forall_forall. intros q Hq. by apply Q3.
  - apply StronglySorted_inv in Ho as [Ho Hp]. constructor; [by apply IH; [|intros q Hq; apply Q1; by right]|].
    apply Forall_app in Hp as [P1 P2]. apply Forall_app. split; [done|]. constructor; [|done]. apply (Q1 p). by left.
Qed.
Lemma elem_of_split l y l1 l2 r : split_at l y l1 [] l2 -> forall q, q ∈ (l1 ++ (r, y) :: l2).*1 <-> q = r \/ q ∈ l.*1.
Proof. intros [-> _ _ _] q. cbn. rewrite !fmap_app, fmap_cons. set_solver. Qed.

Lemma trees_insert s ls id l r n y l1 l2 : trees_wf s ls -> ls !! id = Some l -> split_at l y l1 [] l2 -> region_ok y ->
  r <> NULL -> v_nodes s !! r = Some n -> rank n = 0 -> ~ linked ls r -> v_regions s !! r = Some y ->
  exists s', on_tree id (bst_insert (cmp_in (v_regions s)) r) s = Some (true, s') /\ tree_changed id (r :: l.*1) s s' /\ trees_wf s' (<[id := l1 ++ (r, y) :: l2]> ls).
Proof.
  intros Hw Hl Hsp Hy Hr Hn Hrk Hnl Hry. pose proof Hw as [T1 T2 T3]. destruct (T2 _ _ Hl) as [Hok Ho]. assert (r ∉ l.*1) as Hni by (intros Hx; apply Hnl; by exists id, l).
  destruct (insert_tree s id l r n y l1 [] l2 (T1 _ _ Hl) Hok Hy Hsp Hr Hn Hrk Hni Hry eq_refl) as (s' & Hs' & Hch & Ht'). exists s'. split_and!; [done|done|]. constructor.
  - intros id' l' Hl'. destruct (decide (id' = id)) as [->|Hne]; [rewrite lookup_insert_eq in Hl'; by injection Hl' as <-|]. rewrite lookup_insert_ne in Hl' by done.
    apply (other_tree id (r :: l.*1) s); [done|done| |by apply T1]. intros q Hq [->|Hql]%elem_of_cons; [apply Hnl; by exists id', l'|]. apply Hne. by apply (T3 id' id l' l q).
  - intros id' l' Hl'. destruct (decide (id' = id)) as [->|Hne]; [rewrite lookup_insert_eq in Hl'; injection Hl' as <-|rewrite lookup_insert_ne in Hl' by done; by apply (T2 id')].
    split; [|by apply (split_in_order l)]. unfold regions_ok in *. rewrite (sp_list _ _ _ _ _ Hsp) in Hok. cbn in Hok. apply Forall_app in Hok as [O1 O2]. apply Forall_app. split; [done|by constructor].
  - intros id1 id2 k1 k2 q Hk1 Hk2. destruct (decide (id1 = id)) as [->|D1], (decide (id2 = id)) as [->|D2]; rewrite ?lookup_insert_eq, ?lookup_insert_ne in * by done.
    + done.
    + injection Hk1 as <-. intros [->|Hq]%(elem_of_split l y l1 l2 r Hsp) Hq2; [destruct Hnl; by exists id2, k2|by apply (T3 _ _ l k2 q)].
    + injection Hk2 as <-. intros Hq1 [->|Hq]%(elem_of_split l y l1 l2 r Hsp); [destruct Hnl; by exists id1, k1|by apply (T3 _ _ k1 l q)].
    + by apply (T3 _ _ k1 k2 q).
Qed.

Lemma trees_delete s ls id l r : trees_wf s ls -> ls !! id = Some l -> r ∈ l.*1 ->
  exists s', on_tree id (bst_delete r) s = Some (tt, s') /\ tree_changed id l.*1 s s' /\ trees_wf s' (<[id := filter (fun p => p.1 <> r) l]> ls) /\
    (exists n, v_nodes s' !! r = Some n /\ rank n = 0) /\ ~ linked (<[id := filter (fun p => p.1 <> r) l]> ls) r.
Proof.
  intros Hw Hl Hr. pose proof Hw as [T1 T2 T3]. destruct (T2 _ _ Hl) as [Hok Ho]. destruct (delete_tree s id l r (T1 _ _ Hl) Hr) as (s' & Hs' & Hch & Ht' & Hn). exists s'.
  assert (forall q, q ∈ (filter (fun p : Z * vmm_region => p.1 <> r) l).*1 -> q <> r /\ q ∈ l.*1) as Hsub.
  { intros q (p & -> & [Hp Hpl]%list_elem_of_filter)%list_elem_of_fmap. split; [done|]. apply list_elem_of_fmap. by exists p. }
  assert (forall (P : Z * vmm_region -> Prop) k, Forall P k -> Forall P (filter (fun p : Z * vmm_region => p.1 <> r) k)) as Hkeep.
  { intros P k Hk. apply Forall_forall. intros p [_ Hp]%list_elem_of_filter. by apply (proj1 (Forall_forall _ _) Hk). }
  split_and!; [done|done| |done|].
  - constructor.
    + intros id' l' Hl'. destruct (decide (id' = id)) as [->|Hne]; [rewrite lookup_insert_eq in Hl'; by injection Hl' as <-|]. rewrite lookup_insert_ne in Hl' by done.
      apply (other_tree id l.*1 s); [done|done| |by apply T1]. intros q Hq Hql. apply Hne. by apply (T3 id' id l' l q).
    + intros id' l' Hl'. destruct (decide (id' = id)) as [->|Hne]; [rewrite lookup_insert_eq in Hl'; injection Hl' as <-|rewrite lookup_insert_ne in Hl' by done; by apply (T2 id')].
      split; [apply Hkeep, Hok|]. clear -Ho Hkeep. unfold in_order in *. induction Ho as [|p l Ho IH Hp]; [constructor|]. rewrite filter_cons. case_decide; [|done]. constructor; [done|]. by apply Hkeep.
    + intros id1 id2 k1 k2 q Hk1 Hk2. destruct (decide (id1 = id)) as [->|D1], (decide (id2 = id)) as [->|D2]; rewrite ?lookup_insert_eq, ?lookup_insert_ne in * by done.
      * done.
      * injection Hk1 as <-. intros [_ Hq]%Hsub Hq2. by apply (T3 _ _ l k2 q).
      * injection Hk2 as <-. intros Hq1 [_ Hq]%Hsub. by apply (T3 _ _ k1 l q).
      * by apply (T3 _ _ k1 k2 q).
  - intros (id' & l' & Hl' & Hq). destruct (decide (id' = id)) as [->|Hne].
    + rewrite lookup_insert_eq in Hl'. injection Hl' as <-. by apply Hsub in Hq as [? _].
    + rewrite lookup_insert_ne in Hl' by done. apply Hne. by apply (T3 id' id l' l r).
Qed.
End regions.
