(* ===== verification/VmmPlace.v ===== *)
(** * Finding regions and placing them *)
From stdpp Require Import base gmap list.
From Stdlib Require Import ZArith Lia Sorted.
From S2P Require Import Prelude Bst BstRep BstOps Pmm PmmInv PmmRun PmmGrab ResGroup Vmm VmmSpot VmmTree VmmRegions.

Local Open Scope Z_scope.
Local Open Scope lk_scope.

Section place.
Context `{!PmmConfig} `{!PmmLaws} `{!ObjRefs} `{!ArchMmu} `{!VmmConfig} {OB : Type} `{!PhysObjs OB}.
Implicit Types (s : vsys (OB := OB)) (id : region_tree) (asp : vmm_aspace) (x y : vmm_region) (l : list (Z * vmm_region)).

(** ** Ranges *)
Definition contains x (v : Z) : Prop := vr_base x <= v < vr_end x.
#[export] Instance contains_dec x v : Decision (contains x v).
Proof. unfold contains. apply _. Defined.
#[export] Instance inside_dec asp x : Decision (inside asp x).
Proof. unfold inside. apply _. Defined.

Lemma range_run {S} rb rs qb qs (s : S) : 0 < rs -> 0 < qs -> rb + rs <= 2 ^ 64 -> qb + qs <= 2 ^ 64 ->
  range_contains_range rb rs qb qs s = Some (bool_decide (rb <= qb /\ qb + qs <= rb + rs), s).
Proof.
  intros Q1 Q2 Q3 Q4. unfold range_contains_range, add_overflow. rewrite assert_bind by (apply Z.gtb_lt; lia). rewrite assert_bind by (apply Z.gtb_lt; lia).
  rewrite assert_bind by (rewrite (proj2 (Z.leb_gt _ _)) by lia; done). rewrite assert_bind by (rewrite (proj2 (Z.leb_gt _ _)) by lia; done).
  unfold ret. do 2 f_equal. case_bool_decide as Hd.
  - apply andb_true_iff. split; apply Z.leb_le; lia.
  - apply andb_false_iff. destruct (Z.leb_spec rb qb); [right; apply Z.leb_gt; lia|by left].
Qed.

Lemma inside_region_run {S} x v (s : S) : region_ok x -> 0 <= v < 2 ^ 64 -> is_inside_region x v s = Some (bool_decide (contains x v), s).
Proof.
  intros [X1 X2 X3 _ _] Hv. pose proof page_size_pos. unfold vr_end in X3. unfold is_inside_region. rewrite range_run by lia. do 2 f_equal. apply bool_decide_ext. unfold contains, vr_end. lia.
Qed.

Lemma region_inside_run {S} asp x (s : S) : aspace_ok asp -> region_ok x -> is_region_inside_aspace asp x s = Some (bool_decide (inside asp x), s).
Proof.
  intros [A1 A2 A3 _ _] [X1 X2 X3 _ _]. pose proof page_size_pos. unfold vr_end in X3. unfold is_region_inside_aspace. rewrite assert_bind by (apply Z.geb_le; lia). rewrite assert_bind by (apply Z.gtb_lt; lia).
  assert (0 <= end_guard x <= PAGE_SIZE) as Hg by (unfold end_guard; destruct (has_flag _ _); lia).
  replace (if has_flag VMM_FLAG_NO_END_GUARD (vr_flags x) then va_size asp else va_size asp - PAGE_SIZE) with (va_size asp - end_guard x) by (unfold end_guard; destruct (has_flag _ _); lia).
  cbn zeta. rewrite range_run by lia. do 2 f_equal. apply bool_decide_ext. unfold inside, vr_end. lia.
Qed.

Lemma round_down_page v : round_down v PAGE_SIZE = align_down PAGE_SIZE_SHIFT v.
Proof. rewrite page_size_pow. pose proof page_shift_range. apply round_down_spec. lia. Qed.
Lemma round_down_paged v : paged v -> round_down v PAGE_SIZE = v.
Proof. intros Hv. rewrite round_down_page. unfold align_down. rewrite <- page_size_pow. pose proof page_size_pos. unfold paged in Hv. pose proof (Z.div_mod v PAGE_SIZE). lia. Qed.
Lemma page_spec v : 0 <= v < 2 ^ 64 -> let p := round_down v PAGE_SIZE in paged p /\ 0 <= p /\ p <= v < p + PAGE_SIZE /\ p + PAGE_SIZE <= 2 ^ 64.
Proof.
  intros Hv. cbn zeta. rewrite round_down_page. pose proof page_shift_range as Hr. assert (0 <= PAGE_SIZE_SHIFT) as Hsh by lia. destruct (align_down_spec PAGE_SIZE_SHIFT v Hsh) as [D1 D2]. rewrite <- page_size_pow in *.
  assert (0 <= align_down PAGE_SIZE_SHIFT v). { apply align_down_most; [done|lia|]. apply Z.mod_0_l. pose proof page_size_pos. rewrite <- page_size_pow. lia. }
  split_and!; [done|done|lia|lia|]. assert (paged (2 ^ 64)) as H64. { apply paged_pow. lia. }
  destruct (Z_lt_ge_dec (align_down PAGE_SIZE_SHIFT v) (2 ^ 64)) as [Hlt|]; [|lia]. by apply paged_lt.
Qed.

(** ** Looking for a range *)
Definition sought (v size : Z) : vmm_region := mk_region (Z.lor VMM_FLAG_NO_START_GUARD VMM_FLAG_NO_END_GUARD) 0 v None 0 size.

Lemma guard_low x v size : vmm_flags_guard (vr_flags x) (vr_flags (sought v size)) = end_guard x.
Proof. unfold vmm_flags_guard, end_guard. cbn. by destruct (has_flag VMM_FLAG_NO_END_GUARD (vr_flags x)). Qed.
Definition start_guard x : Z := if has_flag VMM_FLAG_NO_START_GUARD (vr_flags x) then 0 else PAGE_SIZE.
Lemma guard_high x v size : vmm_flags_guard (vr_flags (sought v size)) (vr_flags x) = start_guard x.
Proof. unfold vmm_flags_guard, start_guard. cbn. by destruct (has_flag VMM_FLAG_NO_START_GUARD (vr_flags x)). Qed.
Lemma guard_max x y : end_guard x <= vmm_flags_guard (vr_flags x) (vr_flags y) /\ start_guard y <= vmm_flags_guard (vr_flags x) (vr_flags y).
Proof. pose proof page_size_pos. unfold end_guard, start_guard, vmm_flags_guard. destruct (has_flag VMM_FLAG_NO_END_GUARD _), (has_flag VMM_FLAG_NO_START_GUARD _); cbn; lia. Qed.

(** The tree is asked for a region that touches the range; which one is not said. It is
    an assertion that such a region has the first page or is next to it. *)
Definition found x (v : Z) : option bool :=
  if decide (contains x v) then Some true else if decide (v = vr_base x - PAGE_SIZE \/ v = vr_end x) then Some false else None.

Lemma elem_nonzero s id l r x : has_tree s id l -> (r, x) ∈ l -> r <> NULL.
Proof.
  intros [(b & t & _ & Hh & _ & _ & He) _] Hx. eapply (rep_elem_nonzero _ _ _ _ (at_rep _ _ _ Hh)). rewrite He. apply list_elem_of_fmap. by exists (r, x).
Qed.

Lemma find_run s id l vaddr size l1 eqs l2 : has_tree s id l -> regions_ok l -> 0 <= vaddr < 2 ^ 64 ->
  let v := round_down vaddr PAGE_SIZE in let y := sought v (if size =? 0 then PAGE_SIZE else size) in
  span_ok y -> split_at l y l1 eqs l2 ->
  (eqs = [] /\ vmm_find_region_in_bst id vaddr size s = Some (NULL, s)) \/
  exists r x, (r, x) ∈ eqs /\ vmm_find_region_in_bst id vaddr size s = (fun b : bool => (if b then r else NULL, s)) <$> found x v.
Proof.
  intros Ht Hok Hva v y Hy Hsp. destruct (page_spec vaddr Hva) as (V1 & V2 & V3 & V4). fold v in V1, V2, V3, V4. pose proof page_size_pos.
  destruct (search_tree s id l y l1 eqs l2 (fun q _ => cmp_with (v_regions s) y q) local_region Ht Hok Hy Hsp) as (r & Hr & R1 & R2); [done| |].
  { intros q x Hx. unfold cmp_with. by rewrite (ht_regions _ _ _ Ht q x Hx). }
  assert (vmm_find_region_in_bst id vaddr size s = (if r =? NULL then ret NULL else x <- get_region r ;; inside <- is_inside_region x v ;;
    if inside : bool then ret r else assert_ ((v =? u64 (vr_base x - PAGE_SIZE)) || (v =? u64 (vr_base x + vr_size x))) ;; ret NULL) s) as ->.
  { unfold vmm_find_region_in_bst. rewrite gets_bind. fold v y. by rewrite (bind_eq _ _ _ _ _ Hr). }
  destruct (decide (eqs = [])) as [He|He]; [left; split; [done|]; by rewrite (R1 He)|right]. destruct (R2 He) as (x & Hx). exists r, x. split; [done|].
  assert ((r, x) ∈ l) as Hxl by (rewrite (sp_list _ _ _ _ _ Hsp); set_solver). rewrite (proj2 (Z.eqb_neq _ _)) by (by eapply elem_nonzero).
  rewrite (get_region_bind r x) by (by apply (ht_regions _ _ _ Ht)). pose proof (proj1 (Forall_forall _ _) Hok _ Hxl) as Hxo. cbn in Hxo.
  rewrite (bind_eq _ _ _ _ _ (inside_region_run x v s Hxo ltac:(lia))). unfold found. case_bool_decide as Hc; [by rewrite decide_True|]. rewrite decide_False by done.
  destruct Hxo as [X1 X2 X3 _ _]. unfold vr_end in *. rewrite !u64_small by lia. case_decide as Hd.
  - rewrite assert_bind; [done|]. apply orb_true_iff. destruct Hd; [left|right]; by apply Z.eqb_eq.
  - assert ((v =? vr_base x - PAGE_SIZE) || (v =? vr_base x + vr_size x) = false) as ->; [|done]. apply orb_false_iff. split; apply Z.eqb_neq; intros E; apply Hd; auto.
Qed.

(** ** Looking for an address *)
Lemma order_total l p q : in_order l -> p ∈ l -> q ∈ l -> p = q \/ below p.2 q.2 \/ below q.2 p.2.
Proof.
  intros Ho. induction Ho as [|z l Ho IH Hz]; [by intros ?%elem_of_nil|]. rewrite Forall_forall in Hz.
  intros [->|Hp]%elem_of_cons [->|Hq]%elem_of_cons; [by left| | |by apply IH]; right; [left|right]; by apply Hz.
Qed.

(** Only the region that has a page touches it, if there is one. *)
Lemma contains_touches l r x v q z : in_order l -> (r, x) ∈ l -> (q, z) ∈ l -> region_ok x -> paged v -> contains x v -> touches z (sought v PAGE_SIZE) -> (q, z) = (r, x).
Proof.
  intros Ho Hx Hz Hxo Hv Hc [T1 T2]. pose proof (rk_end_paged _ Hxo) as Hep. destruct (order_total l (r, x) (q, z) Ho Hx Hz) as [?|[Hb|Hb]]; [done|exfalso..]; cbn in Hb; unfold below in Hb, T1, T2.
  - apply T2. rewrite guard_high. pose proof (guard_max x z). unfold contains in Hc. pose proof (paged_lt _ _ Hv Hep (proj2 Hc)). unfold vr_end at 1. cbn. lia.
  - apply T1. rewrite guard_low. pose proof (guard_max z x). unfold contains in Hc. cbn. lia.
Qed.
Lemma touches_page x v : region_ok x -> paged v -> touches x (sought v PAGE_SIZE) -> contains x v \/ v = vr_base x - PAGE_SIZE \/ v = vr_end x.
Proof.
  intros Hxo Hv [T1 T2]. pose proof (rk_end_paged _ Hxo) as Hep. pose proof (rk_base_paged _ Hxo) as Hbp. unfold below in T1, T2. rewrite guard_low in T1. rewrite guard_high in T2. cbn in T1. unfold vr_end at 1 in T2. cbn in T2.
  pose proof page_size_pos. pose proof paged_page as Hpp.
  assert (end_guard x <= PAGE_SIZE /\ start_guard x <= PAGE_SIZE) as [G1 G2] by (unfold end_guard, start_guard; split; destruct (has_flag _ _); lia).
  destruct (Z_lt_ge_dec v (vr_base x)) as [Hlo|Hlo].
  - right. left. pose proof (paged_lt _ _ Hv Hbp Hlo). destruct (Z_lt_ge_dec (v + PAGE_SIZE) (vr_base x)) as [Hlt|]; [|lia].
    pose proof (paged_lt _ _ (paged_add _ _ Hv Hpp) Hbp Hlt). lia.
  - destruct (Z_lt_ge_dec v (vr_end x)) as [Hhi|Hhi]; [left; unfold contains; lia|]. right. right.
    destruct (Z_lt_ge_dec (vr_end x) v) as [Hlt|]; [|lia]. pose proof (paged_lt _ _ Hep Hv Hlt). lia.
Qed.

Lemma contains_page x v : region_ok x -> 0 <= v < 2 ^ 64 -> contains x (round_down v PAGE_SIZE) <-> contains x v.
Proof.
  intros Hx Hv. destruct (page_spec v Hv) as (V1 & _ & V3 & _). set (p := round_down v PAGE_SIZE) in *. unfold contains. pose proof (rk_end_paged _ Hx) as Hep. pose proof (rk_base_paged _ Hx) as Hbp. split; intros [C1 C2].
  - pose proof (paged_lt _ _ V1 Hep C2). lia.
  - split; [|lia]. destruct (Z_lt_ge_dec p (vr_base x)) as [Hlt|]; [|lia]. pose proof (paged_lt _ _ V1 Hbp Hlt). lia.
Qed.

Lemma sought_page_span v : 0 <= v < 2 ^ 64 -> span_ok (sought (round_down v PAGE_SIZE) PAGE_SIZE).
Proof. intros Hv. destruct (page_spec v Hv) as (_ & V2 & _ & V4). pose proof page_size_pos. unfold span_ok, vr_end. cbn. lia. Qed.

Lemma find_page_run s id l vaddr size : has_tree s id l -> regions_ok l -> in_order l -> 0 <= vaddr < 2 ^ 64 -> size = PAGE_SIZE \/ size = 0 ->
  (exists r x, (r, x) ∈ l /\ contains x vaddr /\ vmm_find_region_in_bst id vaddr size s = Some (r, s)) \/
  ((forall r x, (r, x) ∈ l -> ~ contains x vaddr) /\ vmm_find_region_in_bst id vaddr size s = Some (NULL, s)).
Proof.
  intros Ht Hok Ho Hva Hsz. pose proof page_size_pos as Hps. destruct (page_spec vaddr Hva) as (V1 & V2 & V3 & V4). set (v := round_down vaddr PAGE_SIZE) in *.
  assert ((if size =? 0 then PAGE_SIZE else size) = PAGE_SIZE) as Hs by (destruct (Z.eqb_spec size 0); lia).
  pose proof (sought_page_span vaddr Hva) as Hspan. fold v in Hspan. destruct (split_exists l (sought v PAGE_SIZE) Hok Ho) as (l1 & eqs & l2 & Hsp).
  pose proof (find_run s id l vaddr size l1 eqs l2 Ht Hok Hva) as Hf. cbn zeta in Hf. rewrite Hs in Hf. destruct (Hf Hspan Hsp) as [[-> Hr]|(r & x & Hx & Hr)].
  - right. split; [|done]. intros r x Hx Hc. pose proof (proj1 (Forall_forall _ _) Hok _ Hx) as Hxo. apply (contains_page x vaddr Hxo Hva) in Hc. fold v in Hc.
    rewrite (sp_list _ _ _ _ _ Hsp) in Hx. cbn in Hx. apply elem_of_app in Hx as [Hx|Hx].
    + pose proof (sp_below _ _ _ _ _ Hsp _ Hx) as Hb. unfold below in Hb. rewrite guard_low in Hb. cbn in Hb. unfold contains in Hc. unfold end_guard in Hb. destruct (has_flag _ _); lia.
    + pose proof (sp_above _ _ _ _ _ Hsp _ Hx) as Hb. unfold below in Hb. rewrite guard_high in Hb. unfold contains in Hc. unfold vr_end in Hb at 1. cbn in Hb. unfold start_guard in Hb. destruct (has_flag _ _); lia.
  - assert ((r, x) ∈ l) as Hxl by (rewrite (sp_list _ _ _ _ _ Hsp); set_solver). pose proof (proj1 (Forall_forall _ _) Hok _ Hxl) as Hxo. cbn in Hxo. pose proof (sp_touch _ _ _ _ _ Hsp _ Hx) as Htx. cbn in Htx. fold v in Hr.
    unfold found in Hr. destruct (decide (contains x v)) as [Hc|Hc].
    + left. exists r, x. split_and!; [done| |done]. by apply (contains_page x vaddr Hxo Hva).
    + right. destruct (touches_page x v Hxo V1 Htx) as [?|Hn]; [done|]. rewrite decide_True in Hr by done. split; [|exact Hr].
      intros q z Hz Hcz. pose proof (proj1 (Forall_forall _ _) Hok _ Hz) as Hzo. apply (contains_page z vaddr Hzo Hva) in Hcz. fold v in Hcz.
      pose proof (contains_touches l q z v r x Ho Hz Hxl Hzo V1 Hcz Htx). by simplify_eq.
Qed.
End place.
