(* ===== verification/VmmAlloc.v ===== *)
(** * Allocating a region: at a given address, or where there is room *)
From stdpp Require Import base gmap list.
From Stdlib Require Import ZArith Lia Sorted.
From S2P Require Import Prelude Bst BstRep BstOps Pmm PmmInv PmmRun PmmGrab ResGroup Vmm VmmSpot VmmTree VmmRegions VmmPlace.

Local Open Scope Z_scope.
Local Open Scope lk_scope.

(** Random numbers are within the bound. *)
Class VmmLaws `{!VmmConfig} := { rand_in_range : forall max g, 0 <= max -> 0 <= fst (rand_get_size max g) <= max }.

Section alloc.
Context `{!PmmConfig} `{!PmmLaws} `{!ObjRefs} `{!ArchMmu} `{!VmmConfig} `{!VmmLaws} {OB : Type} `{!PhysObjs OB}.
Implicit Types (s : vsys (OB := OB)) (id : region_tree) (asp : vmm_aspace) (x y : vmm_region) (l : list (Z * vmm_region)).

#[export] Instance touches_dec x y : Decision (touches x y).
Proof. unfold touches. apply _. Defined.

Lemma flag_above n f rflags flags : 16 <= n -> f = Z.shiftl 1 n -> 0 <= rflags < 2 ^ 16 -> has_flag f (Z.lor rflags flags) = has_flag f flags.
Proof.
  intros Hn Hf Hr. rewrite !(bits_flag f n ltac:(lia) Hf), Z.lor_spec. assert (Z.testbit rflags n = false) as ->; [|done].
  destruct (decide (rflags = 0)) as [->|Hne]; [apply Z.bits_0|]. apply Z.bits_above_log2; [lia|]. assert (Z.log2 rflags < 16) by (apply Z.log2_lt_pow2; lia). lia.
Qed.

(** ** Adding a struct to a tree *)
Lemma add_region_run s ls id l r n y l1 eqs l2 : trees_wf s ls -> ls !! id = Some l -> split_at l y l1 eqs l2 -> region_ok y ->
  r <> NULL -> v_nodes s !! r = Some n -> rank n = 0 -> ~ linked ls r -> v_regions s !! r = Some y ->
  if decide (eqs = []) then exists s', add_region_to_bst id r s = Some (NO_ERROR, s') /\ tree_changed id (r :: l.*1) s s' /\ trees_wf s' (<[id := l1 ++ (r, y) :: l2]> ls)
  else add_region_to_bst id r s = Some (ERR_NO_MEMORY, s).
Proof.
  intros Hw Hl Hsp Hy Hr Hn Hrk Hnl Hry. destruct (tw_ok _ _ Hw _ _ Hl) as [Hok _]. unfold add_region_to_bst. rewrite gets_bind. destruct (decide (eqs = [])) as [->|He].
  - destruct (trees_insert s ls id l r n y l1 l2 Hw Hl Hsp Hy Hr Hn Hrk Hnl Hry) as (s' & Hs' & Hch & Hw'). exists s'. by rewrite (bind_eq _ _ _ _ _ Hs').
  - assert (r ∉ l.*1) as Hni by (intros Hx; apply Hnl; by exists id, l).
    rewrite (bind_eq _ _ _ _ _ (insert_collides s id l r n y l1 eqs l2 (tw_tree _ _ Hw _ _ Hl) Hok Hy Hsp Hr Hn Hrk Hni Hry He)).
    destruct (search_tree s id l y l1 eqs l2 (cmp_in (v_regions s)) r (tw_tree _ _ Hw _ _ Hl) Hok (region_span y Hy) Hsp Hr) as (q & Hq & _ & Hqe).
    { intros q x Hx. unfold cmp_in. by rewrite (ht_regions _ _ _ (tw_tree _ _ Hw _ _ Hl) q x Hx), Hry. }
    rewrite (bind_eq _ _ _ _ _ Hq). destruct (Hqe He) as (x & Hx). rewrite (get_region_bind q x); [done|].
    apply (ht_regions _ _ _ (tw_tree _ _ Hw _ _ Hl)). rewrite (sp_list _ _ _ _ _ Hsp). set_solver.
Qed.

(** ** A request for an address *)

(** A region [y] that collides, or is not in the address space. *)
Definition specific_error asp y : Z := if decide (inside asp y) then ERR_NO_MEMORY else ERR_OUT_OF_RANGE.
(** [x] is in the way of [y]. *)
Definition in_the_way asp y x : option Z :=
  if decide (touches x (sought (vr_base y) (vr_size y))) then
    match found x (vr_base y) with
    | Some true => Some ERR_NO_MEMORY
    | Some false => Some (specific_error asp y)
    | None => None
    end
  else Some (specific_error asp y).

Lemma touches_sought x y : touches x (sought (vr_base y) (vr_size y)) -> touches x y.
Proof.
  unfold touches, below. rewrite guard_low, guard_high. unfold vr_end at 2 4. cbn. intros [T1 T2]. pose proof (guard_max x y). pose proof (guard_max y x). unfold vr_end in *. split; lia.
Qed.

Section specific.
Context s ls (a : Z) asp l (Hw : trees_wf s ls) (Hl : ls !! AspaceTree a = Some l) (Hasp : v_aspaces s !! a = Some asp) (Hao : aspace_ok asp).
Context (r : Z) y (Hu : unused_mem s r) (Hroom : room s) (Hy : region_ok y).
Let s1 := new_region r y s.

Lemma new_facts : trees_wf s1 ls /\ ~ linked ls r /\ v_nodes s1 !! r = Some (mk_bst_node 0 NULL NULL NULL) /\ v_regions s1 !! r = Some y /\ v_aspaces s1 !! a = Some asp.
Proof.
  split_and!; [by apply trees_new|by apply (unused_unlinked s)|unfold s1; cbn; apply lookup_insert_eq|unfold s1; cbn; apply lookup_insert_eq|done].
Qed.

Lemma add_to_aspace_run l1 eqs l2 : split_at l y l1 eqs l2 ->
  if decide (eqs = [] /\ inside asp y) then
    exists s', add_region_to_aspace a r s1 = Some (NO_ERROR, s') /\ tree_changed (AspaceTree a) (r :: l.*1) s1 s' /\ trees_wf s' (<[AspaceTree a := l1 ++ (r, y) :: l2]> ls)
  else add_region_to_aspace a r s1 = Some (specific_error asp y, s1).
Proof.
  intros Hsp. destruct new_facts as (Hw1 & Hnl & Hn1 & Hr1 & Ha1). unfold add_region_to_aspace. rewrite (get_aspace_bind a asp) by done. rewrite (get_region_bind r y) by done.
  rewrite (proj2 (Z.eqb_neq (vr_size y) 0)) by (destruct Hy; lia). rewrite (bind_eq _ _ _ _ _ (region_inside_run asp y s1 Hao Hy)).
  unfold specific_error. case_bool_decide as Hin; cbn [negb].
  - pose proof (add_region_run s1 ls (AspaceTree a) l r _ y l1 eqs l2 Hw1 Hl Hsp Hy (proj1 Hu) Hn1 eq_refl Hnl Hr1) as Hadd.
    destruct (decide (eqs = [])) as [He|He]; [by rewrite decide_True|]. rewrite decide_False by tauto. by rewrite decide_True.
  - rewrite decide_False by tauto. by rewrite decide_False.
Qed.

Lemma y_span : span_ok (sought (vr_base y) (vr_size y)).
Proof. pose proof page_size_pos. destruct Hy as [Y1 Y2 Y3 _ _]. unfold span_ok, vr_end in *. cbn. lia. Qed.

(** The search before the insertion. *)
Lemma seek_run l1 eqs l2 : split_at l y l1 eqs l2 ->
  ((forall q x, (q, x) ∈ l -> ~ touches x (sought (vr_base y) (vr_size y))) /\ vmm_find_region_in_bst (AspaceTree a) (vr_base y) (vr_size y) s1 = Some (NULL, s1)) \/
  exists q x, (q, x) ∈ eqs /\ touches x (sought (vr_base y) (vr_size y)) /\
    vmm_find_region_in_bst (AspaceTree a) (vr_base y) (vr_size y) s1 = (fun b : bool => (if b then q else NULL, s1)) <$> found x (vr_base y).
Proof.
  intros Hsp. destruct new_facts as (Hw1 & _). destruct (tw_ok _ _ Hw1 _ _ Hl) as [Hok Ho]. pose proof page_size_pos as Hps.
  destruct (split_exists l (sought (vr_base y) (vr_size y)) Hok Ho) as (k1 & es & k2 & Hsp').
  assert (0 <= vr_base y < 2 ^ 64) as Hb. { destruct Hy as [Y1 Y2 Y3 _ _]. unfold vr_end in Y3. lia. }
  pose proof (find_run s1 (AspaceTree a) l (vr_base y) (vr_size y) k1 es k2 (tw_tree _ _ Hw1 _ _ Hl) Hok Hb) as Hf. cbn zeta in Hf.
  rewrite (round_down_paged _ (rk_base_paged _ Hy)) in Hf. rewrite (proj2 (Z.eqb_neq (vr_size y) 0)) in Hf by (destruct Hy; lia).
  destruct (Hf y_span Hsp') as [[-> Hr]|(q & x & Hx & Hr)].
  - left. split; [|done]. intros q x Hx [T1 T2]. rewrite (sp_list _ _ _ _ _ Hsp') in Hx. cbn in Hx. apply elem_of_app in Hx as [Hx|Hx]; [apply T1, (sp_below _ _ _ _ _ Hsp' _ Hx)|apply T2, (sp_above _ _ _ _ _ Hsp' _ Hx)].
  - right. exists q, x. pose proof (sp_touch _ _ _ _ _ Hsp' _ Hx) as Ht. split_and!; [|done|done].
    assert ((q, x) ∈ l) as Hxl by (rewrite (sp_list _ _ _ _ _ Hsp'); set_solver). rewrite (sp_list _ _ _ _ _ Hsp) in Hxl.
    apply touches_sought in Ht as [T1 T2]. apply elem_of_app in Hxl as [Hxl|[?|Hxl]%elem_of_app]; [destruct T1; exact (sp_below _ _ _ _ _ Hsp _ Hxl)|done|destruct T2; exact (sp_above _ _ _ _ _ Hsp _ Hxl)].
Qed.

(** A request where nothing is in the way. *)
Lemma place_free_run l1 l2 : split_at l y l1 [] l2 ->
  if decide (inside asp y) then exists s', place_region a r (vr_base y) (vr_size y) s1 = Some ((NO_ERROR, AspaceTree a), s') /\ tree_changed (AspaceTree a) (r :: l.*1) s1 s' /\
    trees_wf s' (<[AspaceTree a := l1 ++ (r, y) :: l2]> ls)
  else place_region a r (vr_base y) (vr_size y) s1 = Some ((ERR_OUT_OF_RANGE, AspaceTree a), s1).
Proof.
  intros Hsp. unfold place_region. destruct (seek_run l1 [] l2 Hsp) as [[_ Hf]|(q & x & Hx & _)]; [|by apply elem_of_nil in Hx]. rewrite (bind_eq _ _ _ _ _ Hf).
  rewrite Z.eqb_refl. cbn [negb]. pose proof (add_to_aspace_run l1 [] l2 Hsp) as Ha. unfold specific_error in Ha. destruct (decide (inside asp y)) as [Hin|Hin].
  - rewrite decide_True in Ha by done. destruct Ha as (s' & Hs' & Hch & Hw'). exists s'. by rewrite (bind_eq _ _ _ _ _ Hs').
  - rewrite decide_False in Ha by tauto. by rewrite (bind_eq _ _ _ _ _ Ha).
Qed.

(** A request where something is: one of the regions that touch it decides. *)
Lemma place_taken_run l1 eqs l2 : split_at l y l1 eqs l2 -> eqs <> [] -> (forall q x, (q, x) ∈ eqs -> has_flag VMM_FLAG_NO_PHYSICAL (vr_flags x) = false) ->
  exists q x, (q, x) ∈ eqs /\ place_region a r (vr_base y) (vr_size y) s1 = (fun e => ((e, AspaceTree a), s1)) <$> in_the_way asp y x.
Proof.
  intros Hsp Hne Hph. pose proof (add_to_aspace_run l1 eqs l2 Hsp) as Ha. rewrite decide_False in Ha by tauto. destruct new_facts as (Hw1 & _). unfold place_region, in_the_way.
  destruct (seek_run l1 eqs l2 Hsp) as [[Hno Hf]|(q & x & Hx & Ht & Hf)].
  - destruct eqs as [|[q x] eqs]; [done|]. exists q, x. split; [by left|]. rewrite (bind_eq _ _ _ _ _ Hf). rewrite Z.eqb_refl. cbn [negb]. rewrite (bind_eq _ _ _ _ _ Ha).
    rewrite decide_False; [done|]. apply (Hno q). rewrite (sp_list _ _ _ _ _ Hsp). set_solver.
  - exists q, x. split; [done|]. rewrite decide_True by done. assert ((q, x) ∈ l) as Hxl by (rewrite (sp_list _ _ _ _ _ Hsp); set_solver).
    destruct (found x (vr_base y)) as [[]|] eqn:Hfd; cbn [fmap option_fmap option_map] in Hf.
    + rewrite (bind_eq _ _ _ _ _ Hf). rewrite (proj2 (Z.eqb_neq _ _)) by (eapply elem_nonzero; [exact (tw_tree _ _ Hw1 _ _ Hl)|done]). cbn [negb].
      rewrite (get_region_bind q x) by (by apply (ht_regions _ _ _ (tw_tree _ _ Hw1 _ _ Hl))). by rewrite (Hph q x Hx).
    + rewrite (bind_eq _ _ _ _ _ Hf). rewrite Z.eqb_refl. cbn [negb]. by rewrite (bind_eq _ _ _ _ _ Ha).
    + unfold bind. by rewrite Hf.
Qed.
End specific.

(** ** The whole of alloc_region *)
Definition fresh_region (rflags flags mf base size : Z) : vmm_region := mk_region (Z.lor rflags flags) mf base None 0 size.

Section call.
Context s ls (a : Z) asp l (Hw : trees_wf s ls) (Hl : ls !! AspaceTree a = Some l) (Hasp : v_aspaces s !! a = Some asp) (Hao : aspace_ok asp).
Context (r vaddr size lg flags rflags mf : Z) (Hu : unused_mem s r) (Hroom : room s).
Context (Hmask : has_flag VMM_REGION_FLAG_INTERNAL_MASK flags = false) (Hrf : 0 <= rflags < 2 ^ 16).
Context (Hadj : arch_adjusted_vaddr vaddr (has_flag ARCH_ASPACE_FLAG_KERNEL (va_flags asp)) = vaddr).
Let y := fresh_region rflags flags mf vaddr size.

Lemma alloc_start : alloc_region (Some r) a size vaddr lg flags rflags mf s =
  (if has_flag VMM_FLAG_VALLOC_SPECIFIC flags then
     x <- place_region a r vaddr size ;; let '(e, root) := x in if e <? 0 then free_region r ;; ret (inl e) else ret (inr (r, root))
   else if has_flag VMM_FLAG_NO_START_GUARD flags || has_flag VMM_FLAG_NO_END_GUARD flags then free_region r ;; ret (inl ERR_INVALID_ARGS)
   else
     vaddr <- alloc_spot a size lg mf ;;
     if vaddr =? no_spot then free_region r ;; ret (inl ERR_NO_MEMORY)
     else upd_region r (set_vr_base vaddr) ;; m <- gets v_regions ;; b <- on_tree (AspaceTree a) (bst_insert (cmp_in m) r) ;; assert_ b ;; ret (inr (r, AspaceTree a))) (new_region r y s).
Proof.
  unfold alloc_region. rewrite (get_aspace_bind a asp) by done. rewrite assert_bind by (by rewrite Hmask). rewrite assert_bind by (rewrite Hadj; apply Z.eqb_refl). by rewrite struct_run.
Qed.

Lemma alloc_specific_free l1 l2 : has_flag VMM_FLAG_VALLOC_SPECIFIC flags = true -> region_ok y -> split_at l y l1 [] l2 ->
  if decide (inside asp y) then exists s', alloc_region (Some r) a size vaddr lg flags rflags mf s = Some (inr (r, AspaceTree a), s') /\
    tree_changed (AspaceTree a) (r :: l.*1) (new_region r y s) s' /\ trees_wf s' (<[AspaceTree a := l1 ++ (r, y) :: l2]> ls)
  else alloc_region (Some r) a size vaddr lg flags rflags mf s = Some (inl ERR_OUT_OF_RANGE, s).
Proof.
  intros Hsp Hy Hsplit. pose proof (place_free_run s ls a asp l Hw Hl Hasp Hao r y Hu Hroom Hy l1 l2 Hsplit) as Hp. rewrite alloc_start, Hsp. change (vr_base y) with vaddr in Hp. change (vr_size y) with size in Hp.
  destruct (decide (inside asp y)).
  - destruct Hp as (s' & Hs' & Hch & Hw'). exists s'. by rewrite (bind_eq _ _ _ _ _ Hs').
  - rewrite (bind_eq _ _ _ _ _ Hp). cbv iota beta. change (ERR_OUT_OF_RANGE <? 0) with true. cbv iota. by rewrite free_new.
Qed.

Lemma alloc_specific_taken l1 eqs l2 : has_flag VMM_FLAG_VALLOC_SPECIFIC flags = true -> region_ok y -> split_at l y l1 eqs l2 -> eqs <> [] ->
  (forall q x, (q, x) ∈ eqs -> has_flag VMM_FLAG_NO_PHYSICAL (vr_flags x) = false) ->
  exists q x, (q, x) ∈ eqs /\ alloc_region (Some r) a size vaddr lg flags rflags mf s = (fun e => (inl e, s)) <$> in_the_way asp y x.
Proof.
  intros Hsp Hy Hsplit Hne Hph. destruct (place_taken_run s ls a asp l Hw Hl Hasp Hao r y Hu Hroom Hy l1 eqs l2 Hsplit Hne Hph) as (q & x & Hx & Hp). exists q, x. split; [done|].
  change (vr_base y) with vaddr in Hp. change (vr_size y) with size in Hp. rewrite alloc_start, Hsp. assert (forall e, in_the_way asp y x = Some e -> e < 0) as Hneg.
  { intros e. unfold in_the_way, specific_error. repeat case_decide; try destruct (found _ _) as [[]|]; intros [= <-]; done. }
  destruct (in_the_way asp y x) as [e|]; cbn [fmap option_fmap option_map] in *.
  - rewrite (bind_eq _ _ _ _ _ Hp). cbv iota beta. rewrite (proj2 (Z.ltb_lt _ _) (Hneg e eq_refl)). by rewrite free_new.
  - unfold bind. by rewrite Hp.
Qed.

Lemma alloc_guards : has_flag VMM_FLAG_VALLOC_SPECIFIC flags = false -> has_flag VMM_FLAG_NO_START_GUARD flags || has_flag VMM_FLAG_NO_END_GUARD flags = true ->
  alloc_region (Some r) a size vaddr lg flags rflags mf s = Some (inl ERR_INVALID_ARGS, s).
Proof. intros Hsp Hg. rewrite alloc_start, Hsp, Hg. by rewrite free_new. Qed.
End call.

(** ** A request for any address *)
Section spot.
Context s (a : Z) asp l (size lg mf : Z) (Hasp : v_aspaces s !! a = Some asp) (Hao : aspace_ok asp).
Context (Ht : has_tree s (AspaceTree a) l) (Hok : regions_ok l) (Ho : in_order l) (Hin : Forall (fun p => inside asp p.2) l).
Context (Hsize : 0 < size) (Hpaged : paged size) (Hlg : lg < 64).

Definition spot_align : Z := Z.max lg PAGE_SIZE_SHIFT.

(** No spot, because there is none, or one of those there are, without random numbers the lowest. *)
Definition spot_choice (out : Z) : Prop :=
  (out = no_spot /\ forall c, ~ fits_at asp l spot_align size c) \/
  (out <> no_spot /\ fits_at asp l spot_align size out /\ (aslr = false -> forall c, fits_at asp l spot_align size c -> out <= c)).

Lemma alloc_spot_run : exists out g, alloc_spot a size lg mf s = Some (out, with_rng g s) /\ spot_choice out.
Proof.
  pose proof page_shift_range as Hsh. assert (PAGE_SIZE_SHIFT <= spot_align < 64) as Hk by (unfold spot_align; lia).
  unfold alloc_spot. rewrite (get_aspace_bind a asp) by done. rewrite assert_bind by (apply andb_true_iff; split; [by apply Z.gtb_lt|by apply paged_aligned]). cbv zeta.
  assert ((if lg <? PAGE_SIZE_SHIFT then PAGE_SIZE_SHIFT else lg) = spot_align) as -> by (unfold spot_align; destruct (Z.ltb_spec lg PAGE_SIZE_SHIFT); lia).
  rewrite assert_bind by (apply Z.ltb_lt; lia). rewrite Z.shiftl_1_l.
  pose proof (count_spots_run s a asp l spot_align size mf Hk Hsize Hao Ht Hok Ho Hin) as Hc. rewrite (bind_eq _ _ _ _ _ Hc).
  destruct (Z.eqb_spec (choices asp spot_align size None l) 0) as [Hz|Hz].
  - exists no_spot, (v_rng s). split; [unfold ret; do 2 f_equal; by destruct s|]. left. split; [done|]. intros c. by apply (no_choice asp l spot_align size Hk Hao Hok Ho Hin).
  - pose proof (choices_nonneg asp spot_align size Hk l None) as Hn.
    assert (exists index g, choose_index (choices asp spot_align size None l) s = Some (index, with_rng g s) /\ 0 <= index < choices asp spot_align size None l /\ (aslr = false -> index = 0)) as (index & g & Hci & Hi & Hi0).
    { unfold choose_index. destruct aslr.
      - rewrite gets_bind. assert (0 <= choices asp spot_align size None l - 1) as Hr0 by lia. pose proof (rand_in_range _ (v_rng s) Hr0) as Hr. destruct (rand_get_size _ _) as [index g]. cbn [fst] in Hr.
        exists index, g. rewrite modify_bind. split_and!; [done|lia|lia|done].
      - exists 0, (v_rng s). split_and!; [unfold ret; do 2 f_equal; by destruct s|lia|lia|done]. }
    rewrite (bind_eq _ _ _ _ _ Hci). assert (has_tree (with_rng g s) (AspaceTree a) l) as Htg by (by destruct Ht; split).
    destruct (pick_gap_run (with_rng g s) a asp l spot_align size mf Hk Hsize Hao Htg Hok Ho Hin index Hi) as (c & Hp & Hf & Hlow). exists c, g. split; [done|]. right. split_and!; [|done|].
    + intros ->. destruct Hf as (F1 & _). apply paged_aligned_at in F1; [|lia]. apply paged_mult in F1 as [n Hn']. unfold no_spot in Hn'. rewrite page_size_pow in Hn'.
      assert (2 ^ PAGE_SIZE_SHIFT = 2 * 2 ^ (PAGE_SIZE_SHIFT - 1)) as E by (rewrite <- Z.pow_succ_r by lia; f_equal; lia). rewrite E in Hn'. lia.
    + intros Ha. apply Hlow. by apply Hi0.
Qed.
End spot.

Lemma fits_split asp l k size c y : regions_ok l -> in_order l -> fits_at asp l k size c -> vr_base y = c -> vr_size y = size ->
  has_flag VMM_FLAG_NO_START_GUARD (vr_flags y) = false -> has_flag VMM_FLAG_NO_END_GUARD (vr_flags y) = false -> exists l1 l2, split_at l y l1 [] l2.
Proof.
  intros Hok Ho (_ & _ & _ & Hf) Hb Hs Hg1 Hg2. destruct (split_exists l y Hok Ho) as (l1 & eqs & l2 & Hsp). exists l1, l2. destruct eqs as [|[q x] eqs]; [done|exfalso].
  destruct (sp_touch _ _ _ _ _ Hsp (q, x) ltac:(by left)) as [T1 T2]. unfold below, vmm_flags_guard in T1, T2. cbn in T1, T2. rewrite Hg1 in T1. rewrite Hg2 in T2. rewrite andb_false_r in T1. cbn in T2.
  assert (x ∈ l.*2) as Hx. { apply list_elem_of_fmap. exists (q, x). split; [done|]. rewrite (sp_list _ _ _ _ _ Hsp). set_solver. }
  destruct (Hf x Hx); unfold vr_end in *; lia.
Qed.

Section anywhere.
Context s ls (a : Z) asp l (Hw : trees_wf s ls) (Hl : ls !! AspaceTree a = Some l) (Hasp : v_aspaces s !! a = Some asp) (Hao : aspace_ok asp).
Context (Hin : Forall (fun p => inside asp p.2) l).
Context (r vaddr size lg flags rflags mf : Z) (Hu : unused_mem s r) (Hroom : room s).
Context (Hmask : has_flag VMM_REGION_FLAG_INTERNAL_MASK flags = false) (Hrf : 0 <= rflags < 2 ^ 16).
Context (Hadj : arch_adjusted_vaddr vaddr (has_flag ARCH_ASPACE_FLAG_KERNEL (va_flags asp)) = vaddr).
Context (Hns : has_flag VMM_FLAG_VALLOC_SPECIFIC flags = false) (Hg1 : has_flag VMM_FLAG_NO_START_GUARD flags = false) (Hg2 : has_flag VMM_FLAG_NO_END_GUARD flags = false).
Context (Hsize : 0 < size) (Hpaged : paged size) (Hlg : lg < 64).

Lemma alloc_anywhere_run : exists out g, spot_choice asp l size lg out /\
  if decide (out = no_spot) then alloc_region (Some r) a size vaddr lg flags rflags mf s = Some (inl ERR_NO_MEMORY, with_rng g s)
  else let y := fresh_region rflags flags mf out size in exists s' l1 l2, alloc_region (Some r) a size vaddr lg flags rflags mf s = Some (inr (r, AspaceTree a), s') /\
    tree_changed (AspaceTree a) (r :: l.*1) (new_region r y (with_rng g s)) s' /\ trees_wf s' (<[AspaceTree a := l1 ++ (r, y) :: l2]> ls) /\
    split_at l y l1 [] l2 /\ region_ok y /\ inside asp y.
Proof.
  pose proof page_size_pos as Hps. pose proof page_shift_range as Hsh. destruct (tw_ok _ _ Hw _ _ Hl) as [Hok Ho]. set (y0 := fresh_region rflags flags mf vaddr size).
  pose proof (trees_new s ls r y0 Hw Hroom Hu) as Hw0.
  destruct (alloc_spot_run (new_region r y0 s) a asp l size lg mf Hasp Hao (tw_tree _ _ Hw0 _ _ Hl) Hok Ho Hin Hsize Hpaged Hlg) as (out & g & Hsp & Hch).
  exists out, g. split; [done|]. rewrite (alloc_start s a asp Hasp r vaddr size lg flags rflags mf Hmask Hadj), Hns, Hg1, Hg2. cbn [orb]. rewrite (bind_eq _ _ _ _ _ Hsp).
  change (with_rng g (new_region r y0 s)) with (new_region r y0 (with_rng g s)). assert (unused_mem (with_rng g s) r) as Hu' by exact Hu. destruct (decide (out = no_spot)) as [->|Hne].
  { rewrite Z.eqb_refl. by rewrite free_new. }
  rewrite (proj2 (Z.eqb_neq _ _) Hne). cbv zeta. set (y := fresh_region rflags flags mf out size). destruct Hch as [[? _]|(_ & Hf & _)]; [done|]. pose proof Hf as (F1 & F2 & F3 & _).
  destruct Hao as [A1 A2 A3 A4 A5]. assert (region_ok y) as Hy.
  { constructor; unfold vr_end; cbn; [lia|done|lia| |done]. apply (paged_aligned_at (spot_align lg)); [unfold spot_align; lia|done]. }
  assert (has_flag VMM_FLAG_NO_START_GUARD (vr_flags y) = false) as G1 by (cbn; by rewrite (flag_above 17)).
  assert (has_flag VMM_FLAG_NO_END_GUARD (vr_flags y) = false) as G2 by (cbn; by rewrite (flag_above 18)).
  destruct (fits_split asp l _ size out y Hok Ho Hf eq_refl eq_refl G1 G2) as (l1 & l2 & Hsplit).
  assert (upd_region r (set_vr_base out) (new_region r y0 (with_rng g s)) = Some (tt, new_region r y (with_rng g s))) as Hupd.
  { unfold upd_region. rewrite (get_region_bind r y0) by (cbn; apply lookup_insert_eq). unfold modify, new_region, with_regions, with_vnodes. cbn. by rewrite insert_insert_eq. }
  rewrite (bind_eq _ _ _ _ _ Hupd), gets_bind. assert (trees_wf (with_rng g s) ls) as Hwg. { apply (trees_frame s); [done|done|done|]. exact (has_tree_size _ _ _ (tw_tree _ _ Hw _ _ Hl)). }
  destruct (new_facts (with_rng g s) ls a asp Hwg Hasp r y Hu' Hroom) as (Hw1 & Hnl & Hn1 & Hr1 & _).
  destruct (trees_insert _ ls (AspaceTree a) l r _ y l1 l2 Hw1 Hl Hsplit Hy (proj1 Hu) Hn1 eq_refl Hnl Hr1) as (s' & Hs' & Hchg & Hw').
  exists s', l1, l2. rewrite (bind_eq _ _ _ _ _ Hs'). split_and!; [done|done|done|done|done|]. split; unfold end_guard, vr_end; rewrite ?G2; cbn; lia.
Qed.
End anywhere.
End alloc.
