(* ===== verification/VmmInv.v ===== *)
(** * The state of the virtual memory manager

    [PhysLaws] is what vmm.c relies on of the objects that back regions; [vmm_wf] is the
    invariant of address spaces whose regions are reserved or backed by such objects. *)
From stdpp Require Import base gmap list.
From Stdlib Require Import ZArith Lia Sorted.
From S2P Require Import Prelude Bst BstRep BstOps Pmm PmmInv ResGroup Vmm VmmApi VmmSpot VmmTree VmmRegions VmmPlace VmmAlloc.

Local Open Scope Z_scope.
Local Open Scope lk_scope.

(** The references on an object keep it alive; when the last is dropped it is destroyed,
    if [phys_may_go] holds. An object has a size if it has to be cleared when it is
    mapped; [phys_page] is the address of the page at an offset. No call changes the pages of an object that
    lives on. A new object has one reference and the size that was asked for. *)
Class PhysLaws (OB : Type) `{!PhysObjs OB} `{!PmmConfig} := {
  phys_ok : OB -> Prop;
  phys_refs : OB -> Z -> option (gset Z);
  phys_may_go : OB -> Z -> Prop;
  phys_whole : OB -> Z -> Z -> Prop;
  phys_page : OB -> Z -> Z -> option Z;
  phys_needs : OB -> Z -> bool;
  phys_tagged : OB -> Z -> bool;
  same_memory (x y : OB) : Prop := forall o, is_Some (phys_refs x o) -> is_Some (phys_refs y o) -> (forall off, phys_page y o off = phys_page x o off) /\ forall n, phys_whole x o n -> phys_whole y o n;
  same_go (x y : OB) : Prop := forall o, phys_may_go x o -> phys_may_go y o;
  lock_held b (x : OB) : vmm_mutex_held (set_vmm_mutex b x) = b;
  lock_twice b c (x : OB) : set_vmm_mutex b (set_vmm_mutex c x) = set_vmm_mutex b x;
  lock_same (x : OB) : set_vmm_mutex (vmm_mutex_held x) x = x;
  lock_ok b (x : OB) : phys_ok x -> phys_ok (set_vmm_mutex b x);
  lock_refs b (x : OB) o : phys_refs (set_vmm_mutex b x) o = phys_refs x o;
  lock_may_go b (x : OB) o : phys_may_go x o -> phys_may_go (set_vmm_mutex b x) o;
  lock_memory b (x : OB) : same_memory x (set_vmm_mutex b x);
  lock_needs b (x : OB) o : phys_needs (set_vmm_mutex b x) o = phys_needs x o;
  check_flags_reads (x : OB) o R mf : phys_ok x -> phys_refs x o = Some R -> exists c, po_check_flags o mf x = Some (c, x) /\ (c <> inl 0);
  get_page_reads (x : OB) o R off : phys_ok x -> phys_refs x o = Some R -> 0 <= off < 2 ^ 64 -> paged off ->
    exists p, po_get_page o off x = Some (p, x) /\
      match p with inl e => e <> 0 /\ forall n, phys_whole x o n -> n <= off | inr (pa, n) => paged pa /\ paged n /\ 0 < n /\ forall j, 0 <= j < n -> paged j -> phys_page x o (off + j) = Some (pa + j) end;
  needs_clear_reads (x : OB) o : po_needs_clear o x = Some (phys_needs x o, x);
  allows_tagged_reads (x : OB) o : po_allows_tagged o x = Some (phys_tagged x o, x);
  add_ref_run (x : OB) o R ref : phys_ok x -> phys_refs x o = Some R ->
    exists x', po_add_ref o ref x = Some (tt, x') /\ phys_ok x' /\ vmm_mutex_held x' = vmm_mutex_held x /\ same_memory x x' /\ same_go x x' /\ phys_needs x' o = phys_needs x o /\
      forall o', phys_refs x' o' = if decide (o' = o) then Some ({[ref]} ∪ R) else phys_refs x o';
  del_ref_run (x : OB) o R ref : phys_ok x -> phys_refs x o = Some R -> ref ∈ R ->
    exists x', po_del_ref o ref x = Some (bool_decide (R ∖ {[ref]} = ∅), x') /\ phys_ok x' /\ vmm_mutex_held x' = vmm_mutex_held x /\ same_memory x x' /\
      (forall o', phys_refs x' o' = if decide (o' = o) then Some (R ∖ {[ref]}) else phys_refs x o') /\ same_go x x';
  destroy_run (x : OB) o : phys_ok x -> phys_refs x o = Some ∅ -> phys_may_go x o -> vmm_mutex_held x = false ->
    exists x', po_destroy o x = Some (tt, x') /\ phys_ok x' /\ vmm_mutex_held x' = false /\ same_memory x x' /\ (forall o', phys_refs x' o' = if decide (o' = o) then None else phys_refs x o');
  set_cleared_run (x : OB) o R n : phys_ok x -> phys_refs x o = Some R -> phys_whole x o n -> phys_needs x o = true ->
    exists x', po_set_cleared o 0 n x = Some (tt, x') /\ phys_ok x' /\ vmm_mutex_held x' = vmm_mutex_held x /\ same_memory x x' /\ same_go x x' /\ phys_tagged x' o = phys_tagged x o /\
      (forall o', phys_refs x' o' = phys_refs x o');
  set_tagged_run (x : OB) o R : phys_ok x -> phys_refs x o = Some R -> phys_tagged x o = true ->
    exists x', po_set_tagged o x = Some (tt, x') /\ phys_ok x' /\ vmm_mutex_held x' = vmm_mutex_held x /\ same_memory x x' /\ same_go x x' /\ (forall o', phys_refs x' o' = phys_refs x o');
  phys_may_alloc : OB -> option Z -> Z -> option Z -> Z -> Z -> Z -> Prop;
  alloc_run (x : OB) mem ref g n flags lg : phys_ok x -> vmm_mutex_held x = false -> phys_may_alloc x mem ref g n flags lg ->
    exists e out x', po_alloc mem ref g n flags lg x = Some ((e, out), x') /\ phys_ok x' /\ vmm_mutex_held x' = false /\ same_memory x x' /\
      match out with
      | Some o => e = 0 /\ mem = Some o /\ phys_refs x o = None /\ phys_whole x' o (n * PAGE_SIZE) /\ phys_may_go x' o /\ forall o', phys_refs x' o' = if decide (o' = o) then Some {[ref]} else phys_refs x o'
      | None => e <> 0 /\ forall o', phys_refs x' o' = phys_refs x o'
      end
}.

Section inv.
Context `{!PmmConfig} `{!PmmLaws} `{!ObjRefs} `{!ArchMmu} `{!VmmConfig} {OB : Type} `{!PhysObjs OB} `{!PhysLaws OB}.
Implicit Types (s : vsys (OB := OB)) (id : region_tree) (asp : vmm_aspace) (x y : vmm_region) (l : list (Z * vmm_region)) (ls : gmap region_tree (list (Z * vmm_region))).

(** Memory stays the same over several steps in which no object comes to life. *)
Lemma memory_trans (x y z : OB) : same_memory x y -> same_memory y z -> (forall o, is_Some (phys_refs z o) -> is_Some (phys_refs y o)) -> same_memory x z.
Proof. intros Q1 Q2 Hz o Hx Ho. destruct (Q2 o (Hz o Ho) Ho) as [P2 W2], (Q1 o Hx (Hz o Ho)) as [P1 W1]. split; [intros off; by rewrite P2|]. intros n Hn. by apply W2, W1. Qed.
Lemma memory_refl (x : OB) : same_memory x x.
Proof. done. Qed.
Lemma go_refl (x : OB) : same_go x x.
Proof. by intros o Ho. Qed.

(** A region's object lives, and the region's reference is one of those that keep it so. *)
Definition backed s (r : Z) x : Prop :=
  forall o, vr_obj x = Some o -> v_res s !! o = None /\ exists R, phys_refs (v_objs s) o = Some R /\ r ∈ R.

Record vmm_wf s ls : Prop := {
  vw_trees : trees_wf s ls;
  vw_aspace : forall a asp, v_aspaces s !! a = Some asp -> aspace_ok asp /\ exists l, ls !! AspaceTree a = Some l /\ Forall (fun p => inside asp p.2) l;
  vw_objs : phys_ok (v_objs s);
  vw_unlocked : vmm_mutex_held (v_objs s) = false;
  vw_backed : forall id l r x, ls !! id = Some l -> (r, x) ∈ l -> backed s r x /\ has_flag VMM_FLAG_NO_PHYSICAL (vr_flags x) = false
}.

(** ** The lock *)
Definition locked b s : vsys := with_vobjs (set_vmm_mutex b (v_objs s)) s.
Lemma vmm_lock_bind {A} (f : unit -> M vsys A) s : vmm_mutex_held (v_objs s) = false -> bind vmm_lock_aspace f s = f tt (locked true s).
Proof. intros Hl. unfold vmm_lock_aspace. rewrite bind_assoc, gets_bind, bind_assoc, Hl. done. Qed.
Lemma vmm_unlock_bind {A} (f : unit -> M vsys A) s : bind vmm_unlock_aspace f s = f tt (locked false s).
Proof. done. Qed.
Lemma relocked s : vmm_mutex_held (v_objs s) = false -> locked false (locked true s) = s.
Proof.
  intros Hl. unfold locked, with_vobjs. cbn. rewrite lock_twice. pose proof (lock_same (v_objs s)) as E. rewrite Hl in E. rewrite E. by destruct s.
Qed.
Lemma locked_trees b s ls : trees_wf s ls -> trees_wf (locked b s) ls.
Proof. intros [T1 T2 T3]. constructor; [|done|done]. intros id l Hl. destruct (T1 id l Hl). by split. Qed.

(** An object that is not one of this file's. *)
Lemma not_res_bind {A} o (f : bool -> M vsys A) s : v_res s !! o = None -> bind (is_res o) f s = f false s.
Proof. intros Hr. unfold is_res. rewrite gets_bind, Hr. done. Qed.
Lemma on_objs_bind {A B} (m : M OB A) (f : A -> M vsys B) s v (x' : OB) : m (v_objs s) = Some (v, x') -> bind (on_objs m) f s = f v (with_vobjs x' s).
Proof. intros Hm. unfold bind, on_objs. by rewrite Hm. Qed.
Lemma on_objs_read {A B} (m : M OB A) (f : A -> M vsys B) s v : m (v_objs s) = Some (v, v_objs s) -> bind (on_objs m) f s = f v s.
Proof. intros Hm. rewrite (on_objs_bind m f s v (v_objs s) Hm). f_equal. by destruct s. Qed.

(** ** Regions that change in place *)
Lemma trees_update s ls id l1 r x x' l2 : trees_wf s ls -> ls !! id = Some (l1 ++ (r, x) :: l2) ->
  vr_base x' = vr_base x -> vr_size x' = vr_size x -> vr_flags x' = vr_flags x ->
  trees_wf (with_regions <[r := x']> s) (<[id := l1 ++ (r, x') :: l2]> ls).
Proof.
  intros [T1 T2 T3] Hl Hb Hs Hf. assert (forall q, q ∈ (l1 ++ (r, x') :: l2).*1 <-> q ∈ (l1 ++ (r, x) :: l2).*1) as Hfst by (intros q; by rewrite !fmap_app, !fmap_cons).
  assert (forall id' l' q, ls !! id' = Some l' -> q ∈ l'.*1 -> q = r -> id' = id) as Hother.
  { intros id' l' q Hl' Hq ->. apply (T3 id' id l' _ r Hl' Hl Hq). rewrite fmap_app, fmap_cons. set_solver. }
  pose proof (T1 _ _ Hl) as [(b & t & Hbt & Hh & Hw & Hft & He) Hreg]. assert (NoDup (l1 ++ (r, x) :: l2).*1) as Hnd by (rewrite <- He; exact (at_nodup _ _ _ Hh)).
  constructor.
  - intros id' l' Hl'. destruct (decide (id' = id)) as [->|Hne]; [rewrite lookup_insert_eq in Hl'; injection Hl' as <-|rewrite lookup_insert_ne in Hl' by done].
    + split.
      * exists b, t. split_and!; [done|done|done|done|]. by rewrite He, !fmap_app, !fmap_cons.
      * intros q z Hz. cbn. rewrite fmap_app, fmap_cons in Hnd. apply NoDup_app in Hnd as (_ & N1 & (N2 & _)%NoDup_cons). cbn in N1, N2.
        apply elem_of_app in Hz as [Hz|[[= -> ->]|Hz]%elem_of_cons].
        -- rewrite lookup_insert_ne; [apply Hreg; set_solver|]. intros ->. apply (N1 q); [|by left]. apply list_elem_of_fmap. by exists (q, z).
        -- apply lookup_insert_eq.
        -- rewrite lookup_insert_ne; [apply Hreg; set_solver|]. intros ->. apply N2. apply list_elem_of_fmap. by exists (q, z).
    + apply (has_tree_frame s); [by apply T1|done|done| |exact (has_tree_size _ _ _ (T1 _ _ Hl'))].
      intros q Hq. cbn. apply lookup_insert_ne. intros ->. apply Hne. by apply (Hother id' l' q).
  - intros id' l' Hl'. destruct (decide (id' = id)) as [->|Hne]; [rewrite lookup_insert_eq in Hl'; injection Hl' as <-|rewrite lookup_insert_ne in Hl' by done; by apply (T2 id')].
    destruct (T2 _ _ Hl) as [Hok Ho]. split.
    + unfold regions_ok in *. apply Forall_app in Hok as [O1 (O2 & O3)%Forall_cons]. apply Forall_app. split; [done|]. constructor; [|done]. cbn in *. destruct O2. constructor; unfold vr_end in *; rewrite ?Hb, ?Hs; done.
    + assert (forall z, below x' z <-> below x z) as B1 by (intros z; unfold below, vr_end; by rewrite Hb, Hs, Hf). assert (forall z, below z x' <-> below z x) as B2 by (intros z; unfold below; by rewrite Hb, Hf).
      clear -Ho B1 B2. unfold in_order in *. induction l1 as [|p l1 IH]; cbn in *.
      * apply StronglySorted_inv in Ho as [Ho Hp]. constructor; [done|]. eapply Forall_impl; [exact Hp|]. intros q. apply B1.
      * apply StronglySorted_inv in Ho as [Ho Hp]. constructor; [by apply IH|]. apply Forall_app in Hp as [P1 (P2 & P3)%Forall_cons]. apply Forall_app. split; [done|]. constructor; [by apply B2|done].
  - intros id1 id2 k1 k2 q Hk1 Hk2. destruct (decide (id1 = id)) as [->|D1], (decide (id2 = id)) as [->|D2]; rewrite ?lookup_insert_eq, ?lookup_insert_ne in * by done; simplify_eq; rewrite ?Hfst; [done|..]; by eapply T3.
Qed.
End inv.
#[export] Hint Resolve memory_refl go_refl : core.

(** * The calls on address spaces keep them well-formed *)

Section calls.
Context `{!PmmConfig} `{!PmmLaws} `{!ObjRefs} `{!ArchMmu} `{!VmmConfig} `{!VmmLaws} {OB : Type} `{!PhysObjs OB} `{!PhysLaws OB}.
Local Abbreviation MV := (M (vsys (OB := OB))).
Implicit Types (s : vsys (OB := OB)) (id : region_tree) (asp : vmm_aspace) (x y : vmm_region) (l : list (Z * vmm_region)) (ls : gmap region_tree (list (Z * vmm_region))).

(** ** References of objects with pages *)
Definition refs_without (ref o : Z) (R : gset Z) (x : OB) (o' : Z) : option (gset Z) :=
  if decide (o' = o) then if decide (R ∖ {[ref]} = ∅) then None else Some (R ∖ {[ref]}) else phys_refs x o'.

Lemma del_ref_obj_run fuel s o R ref : phys_ok (v_objs s) -> vmm_mutex_held (v_objs s) = false -> v_res s !! o = None -> phys_refs (v_objs s) o = Some R -> ref ∈ R ->
  (R ∖ {[ref]} = ∅ -> phys_may_go (v_objs s) o) ->
  exists x' : OB, any_obj_del_ref fuel o ref s = Some (tt, with_vobjs x' s) /\ phys_ok x' /\ vmm_mutex_held x' = false /\ same_memory (v_objs s) x' /\ (R ∖ {[ref]} <> ∅ -> same_go (v_objs s) x') /\ forall o', phys_refs x' o' = refs_without ref o R (v_objs s) o'.
Proof.
  intros Hok Hl Hres HR Hin Hgo. destruct (del_ref_run (set_vmm_mutex true (v_objs s)) o R ref (lock_ok _ _ Hok) ltac:(by rewrite lock_refs) Hin) as (x1 & Hx1 & Ok1 & L1 & M1 & R1 & G1).
  rewrite lock_held in L1. set (x2 := set_vmm_mutex false x1).
  assert (forall o', phys_refs x2 o' = if decide (o' = o) then Some (R ∖ {[ref]}) else phys_refs (v_objs s) o') as R2 by (intros o'; unfold x2; rewrite lock_refs, R1, lock_refs; done).
  assert (same_memory (v_objs s) x2) as M2.
  { apply (memory_trans _ x1); [apply (memory_trans _ (set_vmm_mutex true (v_objs s))); [apply lock_memory|done|]|apply lock_memory|intros o'; unfold x2; by rewrite lock_refs].
    intros o'. rewrite lock_refs, R1, lock_refs. destruct (decide (o' = o)) as [->|]; [by rewrite HR|done]. }
  assert (any_obj_del_ref fuel o ref s = (if bool_decide (R ∖ {[ref]} = ∅) then on_objs (po_destroy o) else ret tt) (with_vobjs x2 s)) as ->.
  { destruct fuel; cbn [any_obj_del_ref]; rewrite vmm_lock_bind by done; unfold obj_drop; rewrite bind_assoc, not_res_bind by done; rewrite (on_objs_bind _ _ (locked true s) _ x1 Hx1); rewrite vmm_unlock_bind.
    all: case_bool_decide; [|done]; by rewrite not_res_bind. }
  case_bool_decide as He.
  - destruct (destroy_run x2 o) as (x3 & Hx3 & Ok3 & L3 & M3 & R3); [by apply lock_ok| | |by apply lock_held|].
    + rewrite R2, decide_True by done. by rewrite He.
    + apply lock_may_go, G1, lock_may_go, Hgo, He.
    + exists x3. unfold on_objs. cbn. rewrite Hx3. split_and!; [done|done|done| |done|].
      * apply (memory_trans _ x2); [done|done|]. intros o'. rewrite R3. case_decide; [by intros []|done].
      * intros o'. rewrite R3. unfold refs_without. case_decide; [by rewrite decide_True|]. by rewrite R2, decide_False.
  - exists x2. split_and!; [done|by apply lock_ok|apply lock_held|done|intros _ o' Hg; by apply lock_may_go, G1, lock_may_go|]. intros o'. rewrite R2. unfold refs_without. case_decide; [by rewrite decide_False|done].
Qed.

(** ** Freeing *)
Definition matches (vaddr size flags : Z) x : Prop :=
  contains x vaddr /\ if has_flag VMM_FREE_REGION_FLAG_EXPAND flags then vaddr + size <= vr_end x else vr_base x = vaddr /\ vr_size x = size.

Lemma contains_unique s ls id l r x q z v : trees_wf s ls -> ls !! id = Some l -> (r, x) ∈ l -> (q, z) ∈ l -> contains x v -> contains z v -> (q, z) = (r, x).
Proof.
  intros Hw Hl Hx Hz [C1 C2] [C3 C4]. destruct (tw_ok _ _ Hw _ _ Hl) as [Hok Ho]. pose proof page_size_pos.
  destruct (order_total l (r, x) (q, z) Ho Hx Hz) as [?|[Hb|Hb]]; [done|exfalso..]; unfold below in Hb; cbn in Hb; pose proof (guard_range (vr_flags x) (vr_flags z)); pose proof (guard_range (vr_flags z) (vr_flags x)); lia.
Qed.

Lemma find_region_run s ls a asp l vaddr : trees_wf s ls -> v_aspaces s !! a = Some asp -> ls !! AspaceTree a = Some l -> 0 <= vaddr < 2 ^ 64 -> vmm_mutex_held (v_objs s) = true ->
  (exists r x, (r, x) ∈ l /\ contains x vaddr /\ vmm_find_region a vaddr s = Some (r, s)) \/ ((forall r x, (r, x) ∈ l -> ~ contains x vaddr) /\ vmm_find_region a vaddr s = Some (NULL, s)).
Proof.
  intros Hw Ha Hl Hv Hlk. destruct (tw_ok _ _ Hw _ _ Hl) as [Hok Ho].
  assert (vmm_find_region a vaddr s = vmm_find_region_in_bst (AspaceTree a) vaddr PAGE_SIZE s) as ->.
  { unfold vmm_find_region. rewrite (get_aspace_bind a asp) by done. rewrite gets_bind, Hlk. by rewrite assert_bind. }
  apply (find_page_run s _ l vaddr PAGE_SIZE (tw_tree _ _ Hw _ _ Hl) Hok Ho Hv). by left.
Qed.

Lemma match_run s ls id l r x vaddr size flags : trees_wf s ls -> ls !! id = Some l -> (r, x) ∈ l -> contains x vaddr -> 0 < size -> 0 <= vaddr -> vaddr + size <= 2 ^ 64 ->
  exists b : bool, vmm_region_is_match r vaddr size flags s = Some (b, s) /\ (b = true <-> matches vaddr size flags x).
Proof.
  intros Hw Hl Hx Hc Hs Hv Hv2. unfold vmm_region_is_match, matches. pose proof (tw_tree _ _ Hw _ _ Hl) as Ht. destruct (tw_ok _ _ Hw _ _ Hl) as [Hok _].
  rewrite (proj2 (Z.eqb_neq _ _)) by (by eapply elem_nonzero). rewrite (get_region_bind r x) by (by apply (ht_regions _ _ _ Ht)). pose proof page_size_pos.
  pose proof (proj1 (Forall_forall _ _) Hok _ Hx) as [X1 X2 X3 _ _]. cbn in X1, X2, X3. destruct (has_flag VMM_FREE_REGION_FLAG_EXPAND flags).
  - unfold is_range_inside_region, vr_end in *. rewrite range_run by lia. eexists. split; [done|]. rewrite bool_decide_eq_true. unfold contains, vr_end in *. lia.
  - eexists. split; [done|]. rewrite andb_true_iff, !Z.eqb_eq. tauto.
Qed.

Lemma arch_bind {A B} a asp (g : arch_aspace_t -> arch_aspace_t * B) (f : B -> M vsys A) s : v_aspaces s !! a = Some asp ->
  bind (on_arch a g) f s = f (snd (g (va_arch asp))) (with_aspaces <[a := set_arch (fst (g (va_arch asp))) asp]> s).
Proof.
  intros Ha. unfold on_arch. rewrite bind_assoc, (get_aspace_bind a asp) by done. destruct (g (va_arch asp)) as [p b]. unfold upd_aspace.
  by rewrite !bind_assoc, (get_aspace_bind a asp), modify_bind by done.
Qed.
Lemma unmap_bind {A} a asp va n (f : unit -> M vsys A) s : v_aspaces s !! a = Some asp ->
  bind (arch_unmap a va n) f s = f tt (with_aspaces <[a := set_arch (arch_mmu_unmap va n (va_arch asp)) asp]> s).
Proof. intros Ha. unfold arch_unmap. exact (arch_bind a asp (fun t => (arch_mmu_unmap va n t, tt)) f s Ha). Qed.

(** What does not touch trees or regions. *)
Definition same_trees s s' : Prop := v_nodes s' = v_nodes s /\ v_roots s' = v_roots s /\ v_regions s' = v_regions s.
Lemma same_trees_wf s s' ls : same_trees s s' -> trees_wf s ls -> trees_wf s' ls.
Proof.
  intros (E1 & E2 & E3) [T1 T2 T3]. constructor; [|done|done]. intros id l Hl. destruct (T1 id l Hl) as [Hb Hr]. split; [|by rewrite E3]. unfold tree_in in *. by rewrite E1, E2.
Qed.

(** Address spaces keep their bounds. *)
Lemma aspaces_arch s ls a asp p : (forall b bsp, v_aspaces s !! b = Some bsp -> aspace_ok bsp /\ exists l, ls !! AspaceTree b = Some l /\ Forall (fun q => inside bsp q.2) l) ->
  v_aspaces s !! a = Some asp -> forall b bsp, <[a := set_arch p asp]> (v_aspaces s) !! b = Some bsp -> aspace_ok bsp /\ exists l, ls !! AspaceTree b = Some l /\ Forall (fun q => inside bsp q.2) l.
Proof.
  intros Hall Ha b bsp. destruct (decide (b = a)) as [->|Hne]; [rewrite lookup_insert_eq; intros [= <-]|rewrite lookup_insert_ne by done; apply Hall].
  destruct (Hall a asp Ha) as [[A1 A2 A3 A4 A5] (l & Hl & Hin)]. split; [by constructor|]. exists l. done.
Qed.
Lemma aspaces_list s ls a asp l l' : (forall b bsp, v_aspaces s !! b = Some bsp -> aspace_ok bsp /\ exists l, ls !! AspaceTree b = Some l /\ Forall (fun q => inside bsp q.2) l) ->
  v_aspaces s !! a = Some asp -> Forall (fun q => inside asp q.2) l' ->
  forall b bsp, v_aspaces s !! b = Some bsp -> aspace_ok bsp /\ exists l, <[AspaceTree a := l']> ls !! AspaceTree b = Some l /\ Forall (fun q => inside bsp q.2) l.
Proof.
  intros Hall Ha Hin b bsp Hb. destruct (Hall b bsp Hb) as [Hok (k & Hk & Hkin)]. split; [done|]. destruct (decide (b = a)) as [->|Hne].
  - exists l'. rewrite lookup_insert_eq. split; [done|]. by assert (bsp = asp) as -> by congruence.
  - exists k. by rewrite lookup_insert_ne by congruence.
Qed.

(** The references that are left when the region [r] is gone. *)
Definition refs_after r x (X : OB) (o' : Z) : option (gset Z) :=
  match vr_obj x with
  | Some o => match phys_refs X o with Some R => refs_without r o R X o' | None => None end
  | None => phys_refs X o'
  end.
Definition may_release r x (X : OB) : Prop := forall o R, vr_obj x = Some o -> phys_refs X o = Some R -> R ∖ {[r]} = ∅ -> phys_may_go X o.

Lemma release_slice_run s r x : v_regions s !! r = Some x -> phys_ok (v_objs s) -> vmm_mutex_held (v_objs s) = false -> backed s r x -> may_release r x (v_objs s) ->
  exists (X : OB) y, vmm_obj_slice_release r s = Some (tt, with_regions <[r := y]> (with_vobjs X s)) /\ phys_ok X /\ vmm_mutex_held X = false /\ same_memory (v_objs s) X /\
    forall o', phys_refs X o' = refs_after r x (v_objs s) o'.
Proof.
  intros Hr Hok Hlk Hb Hgo. unfold vmm_obj_slice_release, slice_release, refs_after. rewrite (get_region_bind r x) by done. destruct (vr_obj x) as [o|] eqn:Hxo.
  - destruct (Hb o Hxo) as [Hres (R & HR & Hin)]. rewrite HR. unfold vmm_obj_unref. rewrite bind_assoc, gets_bind.
    destruct (del_ref_obj_run (base.size (v_res s)) s o R r Hok Hlk Hres HR Hin) as (X & Hd & D1 & D2 & D4 & _ & D3); [intros He; by apply (Hgo o R)|].
    exists X, (set_slice None (vr_offset x) (vr_size x) x). rewrite (bind_eq _ _ _ _ _ Hd). unfold upd_region. by rewrite (get_region_bind r x).
  - exists (v_objs s), x. split_and!; [|done|done|done|done]. unfold ret. do 2 f_equal. unfold with_regions, with_vobjs. cbn. rewrite insert_id by done. by destruct s.
Qed.

(** Other regions keep their references. *)
Lemma backed_after s r x q z (X : OB) : backed s r x -> backed s q z -> q <> r -> (forall o', phys_refs X o' = refs_after r x (v_objs s) o') ->
  forall o, vr_obj z = Some o -> v_res s !! o = None /\ exists R, phys_refs X o = Some R /\ q ∈ R.
Proof.
  intros Hbx Hbz Hqr HX o Ho. destruct (Hbz o Ho) as [Hres (R & HR & Hin)]. split; [done|]. rewrite HX. unfold refs_after.
  destruct (vr_obj x) as [ox|] eqn:Hxo; [|by exists R]. destruct (Hbx ox Hxo) as [_ (Rx & HRx & Hinx)]. rewrite HRx. unfold refs_without. case_decide as Hd; [|by exists R].
  subst ox. assert (Rx = R) as -> by congruence. rewrite decide_False by set_solver. exists (R ∖ {[r]}). split; [done|set_solver].
Qed.

(** The regions of an address space without one of them, and its page tables with the
    region unmapped. *)
Definition freed a asp l r x s s' ls : Prop :=
  vmm_wf s' (<[AspaceTree a := filter (fun p => p.1 <> r) l]> ls) /\
  v_aspaces s' = <[a := set_arch (arch_mmu_unmap (vr_base x) (vr_size x / PAGE_SIZE) (va_arch asp)) asp]> (v_aspaces s) /\ unused_mem s' r /\ same_memory (v_objs s) (v_objs s') /\
  forall o', phys_refs (v_objs s') o' = refs_after r x (v_objs s) o'.

Lemma free_start a asp vaddr size flags s : v_aspaces s !! a = Some asp -> vmm_mutex_held (v_objs s) = false -> arch_adjusted_vaddr vaddr (has_flag ARCH_ASPACE_FLAG_KERNEL (va_flags asp)) = vaddr ->
  vmm_free_region_etc a vaddr size flags s = bind (vmm_find_region a vaddr) (fun r => bind (vmm_region_is_match r vaddr size flags) (fun b => (if negb b then vmm_unlock_aspace ;; ret ERR_NOT_FOUND
    else x <- get_region r ;; on_tree (AspaceTree a) (bst_delete r) ;; arch_unmap a (vr_base x) (vr_size x / PAGE_SIZE) ;; vmm_unlock_aspace ;; vmm_obj_slice_release r ;; free_region r ;; ret NO_ERROR) : MV Z)) (locked true s).
Proof. intros Ha Hlk Hadj. unfold vmm_free_region_etc. rewrite (get_aspace_bind a asp) by done. rewrite assert_bind by (rewrite Hadj; apply Z.eqb_refl). by rewrite vmm_lock_bind. Qed.

(** From the deletion on. *)
Lemma free_found_run s ls a asp l r x : vmm_wf s ls -> v_aspaces s !! a = Some asp -> ls !! AspaceTree a = Some l -> (r, x) ∈ l -> may_release r x (v_objs s) ->
  exists s', bind (on_tree (AspaceTree a) (bst_delete r)) (fun _ => arch_unmap a (vr_base x) (vr_size x / PAGE_SIZE) ;; vmm_unlock_aspace ;; vmm_obj_slice_release r ;; free_region r ;; ret NO_ERROR) (locked true s) =
    Some (NO_ERROR, s') /\ freed a asp l r x s s' ls.
Proof.
  intros Hwf Ha Hl Hx Hgo. pose proof Hwf as [Hw Hasp Hok Hlk Hbk]. pose proof (locked_trees true s ls Hw) as Hw0. assert (r ∈ l.*1) as Hr1 by (apply list_elem_of_fmap; by exists (r, x)).
  destruct (trees_delete (locked true s) ls _ l r Hw0 Hl Hr1) as (s1 & Hs1 & Hch & Hw1 & (n & Hn & _) & Hnl). rewrite (bind_eq _ _ _ _ _ Hs1).
  assert (v_regions s1 = v_regions s /\ v_aspaces s1 = v_aspaces s /\ v_objs s1 = set_vmm_mutex true (v_objs s) /\ v_res s1 = v_res s) as (E1 & E2 & E3 & E4) by (by destruct Hch as (ro & nodes & -> & _)).
  rewrite (unmap_bind a asp) by (by rewrite E2). rewrite vmm_unlock_bind. set (asp' := set_arch (arch_mmu_unmap (vr_base x) (vr_size x / PAGE_SIZE) (va_arch asp)) asp).
  set (s2 := locked false (with_aspaces <[a := asp']> s1)). set (ls' := <[AspaceTree a := filter (fun p => p.1 <> r) l]> ls) in *.
  assert (v_objs s2 = v_objs s) as F1. { unfold s2, locked. cbn. rewrite E3, lock_twice. pose proof (lock_same (v_objs s)) as E. by rewrite Hlk in E. }
  assert (v_regions s2 !! r = Some x) as F2. { unfold s2. cbn. rewrite E1. by apply (ht_regions _ _ _ (tw_tree _ _ Hw _ _ Hl)). }
  pose proof (Hbk _ _ r x Hl Hx) as [Hbr _].
  destruct (release_slice_run s2 r x F2) as (X & y & Hrel & Ok' & L' & M' & R'); [by rewrite F1|by rewrite F1|intros o Ho; rewrite F1; destruct (Hbr o Ho) as [Hres ?]; split; [unfold s2; cbn; by rewrite E4|done]|by rewrite F1|].
  rewrite F1 in R'. rewrite (bind_eq _ _ _ _ _ Hrel). unfold free_region. rewrite bind_assoc, modify_bind, modify_bind. eexists. split; [reflexivity|]. rewrite F1 in M'. split_and!; [|cbn; by rewrite E2| |exact M'|exact R'].
  - constructor.
    + apply (trees_frame s1); [done|done| |].
      * intros q Hq. assert (q <> r) by (by intros ->). cbn. by rewrite !lookup_delete_ne, lookup_insert_ne by done.
      * cbn. pose proof (has_tree_size _ _ _ (tw_tree _ _ Hw1 _ _ (lookup_insert_eq _ _ _))) as Hsz. rewrite map_size_delete_Some by (by exists n). lia.
    + cbn. apply (aspaces_arch s1 ls' a asp); [|by rewrite E2]. rewrite E2. unfold ls'. apply (aspaces_list s ls a asp l); [done|done|]. destruct (Hasp a asp Ha) as [_ (k & Hk & Hkin)]. assert (k = l) as -> by congruence.
      apply Forall_forall. intros p [_ Hp]%list_elem_of_filter. exact (proj1 (Forall_forall _ _) Hkin p Hp).
    + exact Ok'.
    + exact L'.
    + intros id k q z Hk Hz. assert (q <> r /\ exists k0, ls !! id = Some k0 /\ (q, z) ∈ k0) as [Hqr (k0 & Hk0 & Hz0)].
      { unfold ls' in Hk. destruct (decide (id = AspaceTree a)) as [->|Hne].
        - rewrite lookup_insert_eq in Hk. injection Hk as <-. apply list_elem_of_filter in Hz as [Hqr Hz]. split; [done|]. by exists l.
        - rewrite lookup_insert_ne in Hk by done. split; [|by exists k]. intros ->. apply Hnl. exists id, k. unfold ls'. rewrite lookup_insert_ne by done. split; [done|]. apply list_elem_of_fmap. by exists (r, z). }
      destruct (Hbk id k0 q z Hk0 Hz0) as [Hbz Hpz]. split; [|done]. intros o Ho. cbn. rewrite E4. by apply (backed_after s r x q z X).
  - split_and!; [by eapply elem_nonzero; [exact (tw_tree _ _ Hw _ _ Hl)|]|cbn; apply lookup_delete_eq|cbn; apply lookup_delete_eq].
Qed.

Lemma free_region_run s ls a asp l vaddr size flags : vmm_wf s ls -> v_aspaces s !! a = Some asp -> ls !! AspaceTree a = Some l ->
  0 <= vaddr -> 0 < size -> vaddr + size <= 2 ^ 64 -> arch_adjusted_vaddr vaddr (has_flag ARCH_ASPACE_FLAG_KERNEL (va_flags asp)) = vaddr ->
  (forall r x, (r, x) ∈ l -> contains x vaddr -> may_release r x (v_objs s)) ->
  (exists r x s', (r, x) ∈ l /\ matches vaddr size flags x /\ vmm_free_region_etc a vaddr size flags s = Some (NO_ERROR, s') /\ freed a asp l r x s s' ls) \/
  ((forall r x, (r, x) ∈ l -> ~ matches vaddr size flags x) /\ vmm_free_region_etc a vaddr size flags s = Some (ERR_NOT_FOUND, s)).
Proof.
  intros Hwf Ha Hl Hv Hs Hvs Hadj Hgo. pose proof Hwf as [Hw Hasp Hok Hlk Hbk]. pose proof (locked_trees true s ls Hw) as Hw0.
  rewrite (free_start a asp) by done.
  destruct (find_region_run (locked true s) ls a asp l vaddr Hw0 Ha Hl ltac:(lia) (lock_held _ _)) as [(r & x & Hx & Hc & Hf)|[Hno Hf]]; rewrite (bind_eq _ _ _ _ _ Hf).
  2: { right. split; [by intros r x Hx [Hc _]; apply (Hno r x Hx)|]. unfold vmm_region_is_match. rewrite Z.eqb_refl, ret_bind. cbn [negb]. rewrite vmm_unlock_bind. by rewrite relocked. }
  destruct (match_run (locked true s) ls _ l r x vaddr size flags Hw0 Hl Hx Hc Hs Hv Hvs) as (b & Hm & Hb). rewrite (bind_eq _ _ _ _ _ Hm). destruct b; cbn [negb].
  - left. destruct (free_found_run s ls a asp l r x Hwf Ha Hl Hx (Hgo r x Hx Hc)) as (s' & Hs' & Hfr). exists r, x, s'. split_and!; [done|by apply Hb| |done].
    rewrite (get_region_bind r x) by (by apply (ht_regions _ _ _ (tw_tree _ _ Hw0 _ _ Hl))). exact Hs'.
  - right. split; [|rewrite vmm_unlock_bind; by rewrite relocked]. intros q z Hz Hmz. pose proof (contains_unique s ls _ l r x q z vaddr Hw Hl Hx Hz Hc (proj1 Hmz)) as E. simplify_eq. by apply Hb in Hmz.
Qed.
End calls.
