(* ===== verification/VmmMap.v ===== *)
(** * Mapping a region

    [ArchLaws] is what arch/mmu.h promises: a call that succeeds maps or unmaps its pages
    and no others, and one that fails to map leaves things as they were. One that fails to replace may have
    changed the pages it was about. *)
From stdpp Require Import base gmap list.
From Stdlib Require Import ZArith Lia Sorted.
From S2P Require Import Prelude Pmm PmmInv ResGroup Vmm VmmApi VmmSpot VmmTree VmmRegions VmmPlace VmmAlloc VmmInv Bst.

Local Open Scope Z_scope.
Local Open Scope lk_scope.

Class ArchLaws `{!ArchMmu} `{!PmmConfig} := {
  translate : arch_aspace_t -> Z -> option (Z * Z);
  map_ok va pa n f t : paged va -> paged pa -> 0 < n -> snd (arch_mmu_map va pa n f t) = 0 -> forall v, paged v ->
    translate (fst (arch_mmu_map va pa n f t)) v = if decide (va <= v < va + n * PAGE_SIZE) then Some (pa + (v - va), f) else translate t v;
  map_fails va pa n f t : snd (arch_mmu_map va pa n f t) <> 0 -> forall v, paged v -> translate (fst (arch_mmu_map va pa n f t)) v = translate t v;
  replace_ok va pa n f t : paged va -> paged pa -> 0 < n -> snd (arch_mmu_map_replace va pa n f t) = 0 -> forall v, paged v ->
    translate (fst (arch_mmu_map_replace va pa n f t)) v = if decide (va <= v < va + n * PAGE_SIZE) then Some (pa + (v - va), f) else translate t v;
  replace_fails va pa n f t : paged va -> snd (arch_mmu_map_replace va pa n f t) <> 0 -> forall v, paged v -> ~ va <= v < va + n * PAGE_SIZE ->
    translate (fst (arch_mmu_map_replace va pa n f t)) v = translate t v;
  unmap_ok va n t : paged va -> 0 <= n -> forall v, paged v -> translate (arch_mmu_unmap va n t) v = if decide (va <= v < va + n * PAGE_SIZE) then None else translate t v
}.

Section map.
Context `{!PmmConfig} `{!PmmLaws} `{!ObjRefs} `{!ArchMmu} `{!ArchLaws} `{!VmmConfig} {OB : Type} `{!PhysObjs OB} `{!PhysLaws OB}.
Local Abbreviation MV := (M (vsys (OB := OB))).
Implicit Types (s : vsys (OB := OB)) (asp : vmm_aspace) (x y : vmm_region).

Definition with_arch (a : Z) asp (t : arch_aspace_t) s : vsys := with_aspaces <[a := set_arch t asp]> s.

(** The page tables when the pages of [x] before [off] are mapped. *)
Definition mapped_to x (o : Z) (X : OB) (mf off : Z) (t0 t : arch_aspace_t) : Prop :=
  forall v, paged v -> if decide (vr_base x <= v < vr_base x + off) then exists pa, phys_page X o (vr_offset x + (v - vr_base x)) = Some pa /\ translate t v = Some (pa, mf)
                       else translate t v = translate t0 v.

Section region.
Context (a r : Z) (x : vmm_region) (o : Z) (R : gset Z) (mf : Z).
Context (Hx : region_ok x) (Hxo : vr_obj x = Some o) (Hoff : 0 <= vr_offset x) (Hoffp : paged (vr_offset x)) (Hend : vr_offset x + vr_size x <= 2 ^ 64).

Definition arch_call (rep : bool) va pa n t : arch_aspace_t * Z := if rep then arch_mmu_map_replace va pa n mf t else arch_mmu_map va pa n mf t.
Lemma arch_call_ok rep va pa n t : paged va -> paged pa -> 0 < n -> snd (arch_call rep va pa n t) = 0 -> forall v, paged v ->
  translate (fst (arch_call rep va pa n t)) v = if decide (va <= v < va + n * PAGE_SIZE) then Some (pa + (v - va), mf) else translate t v.
Proof. destruct rep; [apply replace_ok|apply map_ok]. Qed.

Lemma map_pages_run rep fuel : forall s asp off t0, v_regions s !! r = Some x -> v_aspaces s !! a = Some asp -> v_res s !! o = None -> phys_ok (v_objs s) -> phys_refs (v_objs s) o = Some R ->
  paged off -> 0 <= off <= vr_size x -> vr_size x - off < Z.of_nat fuel * PAGE_SIZE -> (rep = true -> phys_whole (v_objs s) o (vr_offset x + vr_size x)) -> mapped_to x o (v_objs s) mf off t0 (va_arch asp) ->
  exists e off' t, map_pages fuel a r mf rep off s = Some ((e, off'), with_arch a asp t s) /\ paged off' /\ 0 <= off' <= vr_size x /\
    (e = 0 \/ rep = false -> mapped_to x o (v_objs s) mf off' t0 t) /\ (e = 0 -> off' = vr_size x) /\
    (e <> 0 -> rep = true -> off' = vr_size x /\ forall v, paged v -> ~ contains x v -> translate t v = translate t0 v).
Proof.
  pose proof page_size_pos as Hps. assert (forall t asp s, v_aspaces s !! a = Some asp -> va_arch asp = t -> s = with_arch a asp t s) as Hsame.
  { intros t asp s Ha <-. unfold with_arch, with_aspaces. rewrite insert_id; [by destruct s|]. rewrite Ha. by destruct asp. }
  induction fuel as [|fuel IH]; intros s asp off t0 Hr Ha Hres Hok HR Hpo Ho Hf Hwh Hm; [lia|]. cbn [map_pages]. rewrite (get_region_bind r x) by done.
  destruct (Z.ltb_spec off (vr_size x)) as [Hlt|Hge].
  2: { exists 0, off, (va_arch asp). split_and!; [|done|lia|lia|done|lia|done]. unfold ret. do 2 f_equal. by apply Hsame. }
  rewrite (bind_eq _ _ _ _ _ (getsome_eq (fun _ => vr_obj x) s o Hxo)). rewrite u64_small by lia. unfold obj_get_page. rewrite bind_assoc, not_res_bind by done.
  destruct (get_page_reads (v_objs s) o R (off + vr_offset x) Hok HR ltac:(lia) ltac:(by apply paged_add)) as (p & Hp & Hpp). rewrite (on_objs_read _ _ s p Hp).
  destruct p as [e|[pa n]].
  { destruct Hpp as [Hpe Hpn]. exists e, off, (va_arch asp). split_and!; [|done|lia|lia|done|done|intros _ Hrep; specialize (Hpn _ (Hwh Hrep)); lia]. unfold ret. do 2 f_equal. by apply Hsame. }
  destruct Hpp as (P1 & P2 & P3 & P4). cbv zeta. set (m := Z.min n (vr_size x - off)).
  assert (paged m) as Hpm. { unfold m. destruct (Z.min_spec n (vr_size x - off)) as [[_ ->]|[_ ->]]; [done|]. apply paged_sub; [apply Hx|done]. }
  assert (PAGE_SIZE <= m) as Hm1. { apply paged_pos; [done|unfold m; lia]. } assert (m <= vr_size x - off /\ m <= n) as [Hm2 Hm3] by (unfold m; lia).
  pose proof Hx as [X1 X2 X3 X4 X5]. unfold vr_end in X3. set (va := vr_base x + off). assert (paged va) as Hpv by (by apply paged_add).
  rewrite assert_bind by (by apply paged_aligned). rewrite assert_bind by (rewrite (proj2 (Z.eqb_neq m 0)) by lia; done). rewrite assert_bind by (by apply paged_aligned).
  rewrite assert_bind by (unfold add_overflow; rewrite (proj2 (Z.leb_gt _ _)) by lia; done). rewrite assert_bind by (by apply paged_aligned).
  rewrite assert_bind by (apply Z.leb_le; rewrite (u64_small (vr_size x - 1)), u64_small by lia; lia). cbv iota.
  rewrite (arch_bind a asp) by done. change (if rep then arch_mmu_map_replace va pa (m / PAGE_SIZE) mf (va_arch asp) else arch_mmu_map va pa (m / PAGE_SIZE) mf (va_arch asp)) with (arch_call rep va pa (m / PAGE_SIZE) (va_arch asp)). assert (m / PAGE_SIZE * PAGE_SIZE = m) as Hdiv. { apply paged_mult in Hpm as [k ->]. rewrite Z.div_mul by lia. done. }
  assert (0 < m / PAGE_SIZE) as Hcnt by nia. destruct (Z.eqb_spec (snd (arch_call rep va pa (m / PAGE_SIZE) (va_arch asp))) 0) as [He|He]; cbn [negb].
  - set (t := fst (arch_call rep va pa (m / PAGE_SIZE) (va_arch asp))).
    destruct (IH (with_arch a asp t s) (set_arch t asp) (off + m) t0) as (e & off' & t' & Hrun & Hrest); [done|by apply lookup_insert_eq|done|done|done|by apply paged_add|lia|lia|done| |].
    + intros v Hv. cbn. unfold t. rewrite (arch_call_ok rep va pa _ (va_arch asp) Hpv P1 Hcnt He v Hv), Hdiv. specialize (Hm v Hv). cbn in Hm.
      destruct (decide (va <= v < va + m)) as [Hin|Hout].
      * rewrite decide_True by (unfold va in *; lia). exists (pa + (v - va)). split; [|done].
        rewrite <- (P4 (v - va)) by (first [lia|by apply paged_sub]). f_equal. unfold va. lia.
      * destruct (decide (vr_base x <= v < vr_base x + off)); [rewrite decide_True by lia; done|]. rewrite decide_False by (unfold va in *; lia). done.
    + exists e, off', t'. split; [|exact Hrest]. unfold with_arch in Hrun |- *. rewrite Hrun. do 2 f_equal. unfold with_aspaces. cbn. by rewrite insert_insert_eq.
  - exists (snd (arch_call rep va pa (m / PAGE_SIZE) (va_arch asp))), (if rep then vr_size x else off), (fst (arch_call rep va pa (m / PAGE_SIZE) (va_arch asp))).
    split_and!; [done|by destruct rep; [apply Hx|]|destruct rep; lia|destruct rep; lia| |done|].
    + intros [?|Hrep] v Hv; [done|]. subst rep. cbn. rewrite (map_fails va pa _ mf (va_arch asp) He v Hv). exact (Hm v Hv).
    + intros _ Hrep. subst rep. split; [done|]. intros v Hv Hnc. unfold contains, vr_end in Hnc. cbn. rewrite (replace_fails va pa _ mf (va_arch asp) Hpv He v Hv) by (rewrite Hdiv; unfold va; lia).
      specialize (Hm v Hv). by rewrite decide_False in Hm by lia.
Qed.

(** A region is mapped, or its part of the page tables, empty before, is empty again. *)
Lemma map_obj_run rep s asp : v_regions s !! r = Some x -> v_aspaces s !! a = Some asp -> v_res s !! o = None -> phys_ok (v_objs s) -> phys_refs (v_objs s) o = Some R -> (rep = true -> phys_whole (v_objs s) o (vr_offset x + vr_size x)) ->
  exists e t, vmm_map_obj_locked a r mf rep s = Some (e, with_arch a asp t s) /\ (e = 0 -> mapped_to x o (v_objs s) mf (vr_size x) (va_arch asp) t) /\
    (e <> 0 -> rep = true \/ (forall v, paged v -> contains x v -> translate (va_arch asp) v = None) ->
      forall v, paged v -> translate t v = if decide (contains x v) then None else translate (va_arch asp) v).
Proof.
  intros Hr Ha Hres Hok HR Hwh. pose proof page_size_pos as Hps. pose proof Hx as [X1 X2 X3 X4 X5].
  assert (vr_size x / PAGE_SIZE * PAGE_SIZE = vr_size x) as Hdiv. { apply paged_mult in X5 as [k ->]. rewrite Z.div_mul by lia. done. }
  assert (0 <= vr_size x / PAGE_SIZE) as Hq by (apply Z.div_pos; lia).
  destruct (map_pages_run rep (Datatypes.S (Z.to_nat (vr_size x / PAGE_SIZE))) s asp 0 (va_arch asp) Hr Ha Hres Hok HR) as (e & off & t & Hrun & O1 & O2 & Hm & He & Hrp); [by apply paged_mult; exists 0|lia| |done| |].
  - rewrite Nat2Z.inj_succ, Z2Nat.id by done. nia.
  - intros v Hv. by rewrite decide_False by lia.
  - unfold vmm_map_obj_locked. rewrite (get_region_bind r x) by done. rewrite (bind_eq _ _ _ _ _ Hrun). cbn [fst snd]. destruct (Z.eqb_spec e 0) as [->|Hne]; cbn [negb when].
    + exists 0, t. split_and!; [done| |done]. intros _. rewrite <- (He eq_refl). apply Hm. by left.
    + rewrite (unmap_bind a (set_arch t asp)) by (by apply lookup_insert_eq). exists e, (arch_mmu_unmap (vr_base x) (off / PAGE_SIZE) t). split_and!; [|done|].
      * unfold ret. do 2 f_equal. unfold with_arch, with_aspaces. cbn. by rewrite insert_insert_eq.
      * intros _ Hrep v Hv. assert (off / PAGE_SIZE * PAGE_SIZE = off) as Hod. { apply paged_mult in O1 as [k ->]. rewrite Z.div_mul by lia. done. }
        rewrite unmap_ok; [|done|apply Z.div_pos; lia|done]. rewrite Hod. destruct rep.
        -- destruct (Hrp Hne eq_refl) as [-> Hout]. case_decide as Hd; [by rewrite decide_True|]. rewrite decide_False by done. by apply Hout.
        -- destruct Hrep as [?|Hempty]; [done|]. specialize (Hm (or_intror eq_refl) v Hv). destruct (decide (vr_base x <= v < vr_base x + off)) as [Hin|Hout].
           ++ rewrite decide_True; [done|]. unfold contains, vr_end. lia.
           ++ case_decide as Hc; [|exact Hm]. rewrite Hm. by apply Hempty.
Qed.
End region.
End map.

(** * What becomes of a request for a region

    A request that may be made ends with an error and nothing changed, or with a new
    region in the tree of the address space. *)

Section request.
Context `{!PmmConfig} `{!PmmLaws} `{!ObjRefs} `{!ArchMmu} `{!ArchLaws} `{!VmmConfig} `{!VmmLaws} {OB : Type} `{!PhysObjs OB} `{!PhysLaws OB}.
Implicit Types (s : vsys (OB := OB)) (id : region_tree) (asp : vmm_aspace) (x y : vmm_region) (l : list (Z * vmm_region)) (ls : gmap region_tree (list (Z * vmm_region))).

(** A request for an address must not meet a region that overlaps it without its first
    page and is not next to that: this would fail an assertion. *)
Record request_ok asp l (size vaddr lg flags rflags mf : Z) : Prop := {
  rq_mask : has_flag VMM_REGION_FLAG_INTERNAL_MASK flags = false;
  rq_flags : 0 <= rflags < 2 ^ 16;
  rq_adj : arch_adjusted_vaddr vaddr (has_flag ARCH_ASPACE_FLAG_KERNEL (va_flags asp)) = vaddr;
  rq_size : 0 < size;
  rq_paged : paged size;
  rq_lg : lg < 64;
  rq_specific : has_flag VMM_FLAG_VALLOC_SPECIFIC flags = true -> let y := fresh_region rflags flags mf vaddr size in
    region_ok y /\ forall q x, (q, x) ∈ l -> touches x y -> has_flag VMM_FLAG_NO_PHYSICAL (vr_flags x) = false /\ in_the_way asp y x <> None
}.

(** The region [y] has been added behind [l1], in front of [l2]. *)
Record region_added a asp l r y ls l1 l2 s0 s1 : Prop := {
  ra_changed : tree_changed (AspaceTree a) (r :: l.*1) (new_region r y s0) s1;
  ra_trees : trees_wf s1 (<[AspaceTree a := l1 ++ (r, y) :: l2]> ls);
  ra_split : split_at l y l1 [] l2;
  ra_ok : region_ok y;
  ra_inside : inside asp y
}.

Lemma request_run s ls a asp l r size vaddr lg flags rflags mf : trees_wf s ls -> ls !! AspaceTree a = Some l -> v_aspaces s !! a = Some asp -> aspace_ok asp ->
  Forall (fun p => inside asp p.2) l -> unused_mem s r -> room s -> request_ok asp l size vaddr lg flags rflags mf ->
  exists g, (exists e, e < 0 /\ alloc_region (Some r) a size vaddr lg flags rflags mf s = Some (inl e, with_rng g s)) \/
    exists va s1 l1 l2, alloc_region (Some r) a size vaddr lg flags rflags mf s = Some (inr (r, AspaceTree a), s1) /\
      region_added a asp l r (fresh_region rflags flags mf va size) ls l1 l2 (with_rng g s) s1 /\ (has_flag VMM_FLAG_VALLOC_SPECIFIC flags = true -> va = vaddr).
Proof.
  intros Hw Hl Ha Hao Hin Hu Hroom [Q1 Q2 Q3 Q4 Q5 Q6 Q7]. destruct (tw_ok _ _ Hw _ _ Hl) as [Hok Ho]. assert (s = with_rng (v_rng s) s) as Hsame by (by destruct s).
  destruct (has_flag VMM_FLAG_VALLOC_SPECIFIC flags) eqn:Hsp.
  - exists (v_rng s). rewrite <- Hsame. destruct (Q7 eq_refl) as [Hy Hclean]. set (y := fresh_region rflags flags mf vaddr size) in *. destruct (split_exists l y Hok Ho) as (l1 & eqs & l2 & Hsplit).
    assert (forall q x, (q, x) ∈ eqs -> (q, x) ∈ l) as Hsub by (intros q x Hx; rewrite (sp_list _ _ _ _ _ Hsplit); set_solver). destruct (decide (eqs = [])) as [->|Hne].
    + pose proof (alloc_specific_free s ls a asp l Hw Hl Ha Hao r vaddr size lg flags rflags mf Hu Hroom Q1 Q3 l1 l2 Hsp Hy Hsplit) as Hrun. fold y in Hrun. case_decide as Hi.
      * right. destruct Hrun as (s1 & Hs1 & Hch & Hw1). exists vaddr, s1, l1, l2. done.
      * left. by exists ERR_OUT_OF_RANGE.
    + destruct (alloc_specific_taken s ls a asp l Hw Hl Ha Hao r vaddr size lg flags rflags mf Hu Hroom Q1 Q3 l1 eqs l2 Hsp Hy Hsplit Hne) as (q & x & Hx & Hrun).
      { intros q x Hx. apply (Hclean q x); [by apply Hsub|]. exact (sp_touch _ _ _ _ _ Hsplit _ Hx). }
      left. fold y in Hrun. destruct (Hclean q x (Hsub _ _ Hx) (sp_touch _ _ _ _ _ Hsplit _ Hx)) as [_ Hc]. destruct (in_the_way asp y x) as [e|] eqn:He; [|done]. exists e. split; [|done].
      revert He. unfold in_the_way, specific_error. repeat case_decide; try destruct (found _ _) as [[]|]; intros [= <-]; done.
  - destruct (has_flag VMM_FLAG_NO_START_GUARD flags || has_flag VMM_FLAG_NO_END_GUARD flags) eqn:Hg.
    + exists (v_rng s). left. rewrite <- Hsame. exists ERR_INVALID_ARGS. split; [done|]. by apply (alloc_guards s a asp).
    + apply orb_false_iff in Hg as [G1 G2].
      destruct (alloc_anywhere_run s ls a asp l Hw Hl Ha Hao Hin r vaddr size lg flags rflags mf Hu Hroom Q1 Q2 Q3 Hsp G1 G2 Q4 Q5 Q6) as (out & g & _ & Hrun). exists g. case_decide as Hd.
      * left. by exists ERR_NO_MEMORY.
      * right. destruct Hrun as (s1 & l1 & l2 & Hs1 & Hch & Hw1 & Hsplit & Hy & Hi). exists out, s1, l1, l2. done.
Qed.

(** What else the region's addition leaves alone. *)
Lemma added_fields a asp l r y ls l1 l2 s0 s1 : region_added a asp l r y ls l1 l2 s0 s1 ->
  v_regions s1 = <[r := y]> (v_regions s0) /\ v_aspaces s1 = v_aspaces s0 /\ v_objs s1 = v_objs s0 /\ v_res s1 = v_res s0 /\ v_list s1 = v_list s0.
Proof. intros [(ro & nodes & -> & _) _ _ _ _]. done. Qed.

Lemma added_inside asp l r y l1 l2 : Forall (fun p => inside asp p.2) l -> split_at l y l1 [] l2 -> inside asp y -> Forall (fun p => inside asp p.2) (l1 ++ (r, y) :: l2).
Proof.
  intros Hin Hsp Hy. rewrite (sp_list _ _ _ _ _ Hsp) in Hin. apply Forall_app in Hin as [I1 I2]. apply Forall_app. split; [done|]. by constructor.
Qed.

(** An element of the new list is the new region, or was there before. *)
Lemma added_elem l r y l1 l2 q z : split_at l y l1 [] l2 -> (q, z) ∈ l1 ++ (r, y) :: l2 -> (q, z) = (r, y) \/ (q, z) ∈ l.
Proof. intros Hsp Hz. rewrite (sp_list _ _ _ _ _ Hsp). cbn. apply elem_of_app in Hz as [Hz|[Hz|Hz]%elem_of_cons]; [right|by left|right]; set_solver. Qed.
Lemma added_removed l r y' l1 l2 : l = l1 ++ l2 -> r ∉ l.*1 -> filter (fun p => p.1 <> r) (l1 ++ (r, y') :: l2) = l.
Proof.
  intros -> Hr. assert (forall k : list (Z * vmm_region), r ∉ k.*1 -> filter (fun p => p.1 <> r) k = k) as Hkeep.
  { intros k. induction k as [|p k IH]; [done|]. rewrite fmap_cons, not_elem_of_cons. intros [N1 N2]. rewrite filter_cons. rewrite decide_True by done. by rewrite IH. }
  rewrite fmap_app, not_elem_of_app in Hr. rewrite filter_app, filter_cons. rewrite decide_False by (cbn; tauto). by rewrite !Hkeep by tauto.
Qed.
End request.
