(* ===== verification/VmmObj.v ===== *)
(** * Mapping an object in a new region (vmm_alloc_obj) *)
From stdpp Require Import base gmap list.
From Stdlib Require Import ZArith Lia Sorted.
From S2P Require Import Prelude Bst Pmm PmmInv ResGroup Vmm VmmApi VmmSpot VmmTree VmmRegions VmmPlace VmmAlloc VmmInv VmmMap.

Local Open Scope Z_scope.
Local Open Scope lk_scope.

Section object.
Context `{!PmmConfig} `{!PmmLaws} `{!ObjRefs} `{!ArchMmu} `{!ArchLaws} `{!VmmConfig} `{!VmmLaws} {OB : Type} `{!PhysObjs OB} `{!PhysLaws OB}.
Local Abbreviation MV := (M (vsys (OB := OB))).
Implicit Types (s : vsys (OB := OB)) (id : region_tree) (asp : vmm_aspace) (x y : vmm_region) (l : list (Z * vmm_region)) (ls : gmap region_tree (list (Z * vmm_region))).

Lemma mapped_memory x o (X Y : OB) mf off t0 t : same_memory X Y -> is_Some (phys_refs X o) -> is_Some (phys_refs Y o) -> mapped_to x o Y mf off t0 t -> mapped_to x o X mf off t0 t.
Proof.
  intros Hm Hlx Hly Hmap v Hv. specialize (Hmap v Hv). case_decide; [|done]. destruct Hmap as (pa & Hpa & Ht). exists pa. split; [|done]. rewrite <- Hpa. by destruct (Hm o Hlx Hly) as [-> _].
Qed.
(** A region that is mapped again. *)
Lemma mapped_again x o (X : OB) mf mf' t0 t1 t : mapped_to x o X mf (vr_size x) t0 t1 -> mapped_to x o X mf' (vr_size x) t1 t -> mapped_to x o X mf' (vr_size x) t0 t.
Proof. intros H1' H2' v Hv. specialize (H1' v Hv). specialize (H2' v Hv). case_decide; [done|]. congruence. Qed.

(** ** The pages of a new region *)
Definition mapped_state a asp t (X : OB) (cl : list (Z * Z)) s : vsys := with_vcleared (fun k => k ++ cl) (with_vobjs X (with_arch a asp t s)).
Lemma mapped_start a asp s : v_aspaces s !! a = Some asp -> s = mapped_state a asp (va_arch asp) (v_objs s) [] s.
Proof.
  intros Ha. unfold mapped_state, with_vcleared, with_vobjs, with_arch, with_aspaces. cbn. rewrite insert_id; [rewrite app_nil_r; by destruct s|]. rewrite Ha. by destruct asp.
Qed.

Section new.
Context s (a : Z) asp (r : Z) x (o : Z) (R : gset Z) (mf : Z).
Context (Hx : region_ok x) (Hxo : vr_obj x = Some o) (Hoff : 0 <= vr_offset x) (Hoffp : paged (vr_offset x)) (Hend : vr_offset x + vr_size x <= 2 ^ 64).
Context (Hr : v_regions s !! r = Some x) (Ha : v_aspaces s !! a = Some asp) (Hres : v_res s !! o = None) (Hok : phys_ok (v_objs s)) (HR : phys_refs (v_objs s) o = Some R).
Context (Hneeds : phys_needs (v_objs s) o = true -> vr_offset x = 0 /\ phys_whole (v_objs s) o (vr_size x)).
Context (Hempty : forall v, paged v -> contains x v -> translate (va_arch asp) v = None).

(** The first mapping, for clearing the pages. *)
Lemma clear_new_run : phys_needs (v_objs s) o = true -> forall mf0,
  exists e t (X : OB) cl, (e <- vmm_map_obj_locked a r mf0 false ;;
    if negb (e =? 0) then ret e else z <- get_region r ;; clear_range (vr_base z) (vr_size x) ;; on_objs (po_set_cleared o (vr_offset x) (vr_size x)) ;; ret 0) s = Some (e, mapped_state a asp t X cl s) /\
    phys_ok X /\ vmm_mutex_held X = vmm_mutex_held (v_objs s) /\ (forall o', phys_refs X o' = phys_refs (v_objs s) o') /\ same_memory (v_objs s) X /\ same_go (v_objs s) X /\
    if decide (e = 0) then cl = [(vr_base x, vr_size x)] /\ mapped_to x o (v_objs s) mf0 (vr_size x) (va_arch asp) t /\ phys_tagged X o = phys_tagged (v_objs s) o
    else forall v, paged v -> translate t v = translate (va_arch asp) v.
Proof.
  intros Hn mf0. destruct (Hneeds Hn) as [Hz Hwh]. destruct (map_obj_run a r x o R mf0 Hx Hxo Hoff Hoffp Hend false s asp Hr Ha Hres Hok HR) as (e & t & Hrun & Hm & Hf); [done|]. rewrite (bind_eq _ _ _ _ _ Hrun).
  destruct (Z.eqb_spec e 0) as [->|Hne]; cbn [negb].
  - rewrite (get_region_bind r x) by done. unfold clear_range. rewrite modify_bind. destruct (set_cleared_run (v_objs s) o R (vr_size x) Hok HR Hwh Hn) as (X & Hc & K1 & K2 & K3 & K6 & K4 & K5). rewrite Hz.
    rewrite (on_objs_bind _ _ _ tt X) by exact Hc. exists 0, t, X, [(vr_base x, vr_size x)]. split_and!; [done|done|done|done|done|done|]. rewrite decide_True by done. split_and!; [done|by apply Hm|done].
  - exists e, t, (v_objs s), []. split_and!; [|done|done|done|done|done|].
    + unfold ret. do 2 f_equal. unfold mapped_state, with_vcleared, with_vobjs, with_arch, with_aspaces. cbn. by rewrite app_nil_r.
    + rewrite decide_False by done. intros v Hv. rewrite (Hf Hne (or_intror Hempty) v Hv). case_decide; [|done]. symmetry. by apply Hempty.
Qed.

(** The mapping the caller asked for, which replaces the first one if there was one. *)
Lemma remap_run rep t1 (X1 : OB) cl : phys_ok X1 -> phys_refs X1 o = Some R -> same_memory (v_objs s) X1 -> (has_flag ARCH_MMU_FLAG_TAGGED mf = true -> phys_tagged X1 o = true) ->
  (rep = true -> phys_whole X1 o (vr_offset x + vr_size x)) -> (forall v, paged v -> ~ contains x v -> translate t1 v = translate (va_arch asp) v) -> (rep = false -> t1 = va_arch asp) ->
  exists e t (X : OB), (e <- vmm_map_obj_locked a r mf rep ;; if negb (e =? 0) then ret e else when (has_flag ARCH_MMU_FLAG_TAGGED mf) (on_objs (po_set_tagged o)) ;; ret 0) (mapped_state a asp t1 X1 cl s) =
      Some (e, mapped_state a asp t X cl s) /\
    phys_ok X /\ vmm_mutex_held X = vmm_mutex_held X1 /\ (forall o', phys_refs X o' = phys_refs X1 o') /\ same_memory X1 X /\ same_go X1 X /\
    if decide (e = 0) then mapped_to x o (v_objs s) mf (vr_size x) (va_arch asp) t else forall v, paged v -> translate t v = translate (va_arch asp) v.
Proof.
  intros K1 K2 K3 K4 K5 K6 K7. destruct (map_obj_run a r x o R mf Hx Hxo Hoff Hoffp Hend rep (mapped_state a asp t1 X1 cl s) (set_arch t1 asp) Hr) as (e & t & Hrun & Hm & Hf); [by apply lookup_insert_eq|done|done|done|done|].
  rewrite (bind_eq _ _ _ _ _ Hrun). assert (forall t (X : OB), with_vobjs X (with_arch a (set_arch t1 asp) t (mapped_state a asp t1 X1 cl s)) = mapped_state a asp t X cl s) as Hst.
  { intros t' X. unfold mapped_state, with_vcleared, with_vobjs, with_arch, with_aspaces. cbn. by rewrite insert_insert_eq. }
  destruct (Z.eqb_spec e 0) as [->|Hne]; cbn [negb].
  - assert (mapped_to x o (v_objs s) mf (vr_size x) (va_arch asp) t) as Hall.
    { apply (mapped_memory x o (v_objs s) X1); [done|by rewrite HR|by rewrite K2|]. intros v Hv. specialize (Hm eq_refl v Hv). cbn in Hm. case_decide as Hc; [done|]. rewrite Hm. apply K6; [done|]. unfold contains, vr_end. lia. }
    destruct (has_flag ARCH_MMU_FLAG_TAGGED mf); cbn [when].
    + destruct (set_tagged_run X1 o R K1 K2 (K4 eq_refl)) as (X & Hc & L1 & L2 & L4 & L5 & L3). exists 0, t, X. rewrite (on_objs_bind _ _ _ tt X) by exact Hc. rewrite Hst. split_and!; done.
    + exists 0, t, X1. rewrite ret_bind, <- (Hst t X1). split_and!; [done..|by rewrite decide_True].
  - exists e, t, X1. split_and!; [by rewrite <- (Hst t X1)|done|done|done|done|done|]. rewrite decide_False by done. intros v Hv. rewrite (Hf Hne) by (first [done|destruct rep; [by left|right; rewrite (K7 eq_refl); exact Hempty]]). cbn.
    case_decide as Hc; [symmetry; by apply Hempty|by apply K6].
Qed.

Lemma map_new_run : exists e t (X : OB) cl, map_new_region a r o (vr_offset x) (vr_size x) mf s = Some (e, mapped_state a asp t X cl s) /\
  phys_ok X /\ vmm_mutex_held X = vmm_mutex_held (v_objs s) /\ (forall o', phys_refs X o' = phys_refs (v_objs s) o') /\ same_memory (v_objs s) X /\ same_go (v_objs s) X /\
  if decide (e = 0) then cl = (if phys_needs (v_objs s) o then [(vr_base x, vr_size x)] else []) /\ mapped_to x o (v_objs s) mf (vr_size x) (va_arch asp) t
  else forall v, paged v -> translate t v = translate (va_arch asp) v.
Proof.
  unfold map_new_region. cbv zeta. rewrite not_res_bind by done. rewrite (on_objs_read _ _ s _ (allows_tagged_reads (v_objs s) o)). rewrite (on_objs_read _ _ s _ (needs_clear_reads (v_objs s) o)).
  set (tagged := has_flag ARCH_MMU_FLAG_TAGGED mf). destruct (tagged && negb (phys_tagged (v_objs s) o)) eqn:Ht.
  { exists ERR_INVALID_ARGS, (va_arch asp), (v_objs s), []. split_and!; [unfold ret; do 2 f_equal; by apply mapped_start|done|done|done|done|done|]. by rewrite decide_False. }
  assert (phys_needs (v_objs s) o = true \/ phys_needs (v_objs s) o = false) as [Hn|Hn] by (destruct (phys_needs (v_objs s) o); auto); rewrite Hn; cbv iota.
  - destruct (clear_new_run Hn (Z.lor ARCH_MMU_FLAG_PERM_NO_EXECUTE (if phys_tagged (v_objs s) o then ARCH_MMU_FLAG_TAGGED else 0))) as (e & t1 & X1 & cl & Hrun & K1 & K2 & K3 & K4 & K6 & Hp). 
    destruct (decide (e = 0)) as [->|Hne].
    2: { exists e, t1, X1, cl. rewrite (bind_eq _ _ _ _ _ Hrun), (proj2 (Z.eqb_neq e 0) Hne). split_and!; [done..|]. by rewrite decide_False. }
    destruct Hp as (-> & Hm1 & K5). destruct (Hneeds Hn) as [Hz Hwh].
    destruct (remap_run true t1 X1 [(vr_base x, vr_size x)] K1) as (e & t & X & Hrun2 & L1 & L2 & L3 & L5 & L6 & L4); [by rewrite K3|done| | | |done|].
    + intros Htg. rewrite K5. fold tagged in Htg. rewrite Htg in Ht. by destruct (phys_tagged (v_objs s) o).
    + intros _. rewrite Hz. apply (K4 o); [by rewrite HR|by rewrite K3, HR|done].
    + intros v Hv Hnc. specialize (Hm1 v Hv). rewrite decide_False in Hm1; [done|]. unfold contains, vr_end in Hnc. lia.
    + exists e, t, X, [(vr_base x, vr_size x)]. rewrite (bind_eq _ _ _ _ _ Hrun). split_and!; [exact Hrun2|done|congruence|intros o'; by rewrite L3, K3|apply (memory_trans _ X1); [done|done|]; intros o'; by rewrite L3|intros o' Hg; by apply L6, K6|]. case_decide; done.
  - rewrite ret_bind. cbn [negb]. destruct (remap_run false (va_arch asp) (v_objs s) [] Hok HR) as (e & t & X & Hrun2 & L1 & L2 & L3 & L5 & L6 & L4); [by intros o'| |done|done|done|].
    + intros Htg. fold tagged in Htg. rewrite Htg in Ht. by destruct (phys_tagged (v_objs s) o).
    + rewrite <- (mapped_start a asp s Ha) in Hrun2. exists e, t, X, []. split_and!; [exact Hrun2|done|done|done|done|done|]. case_decide; done.
Qed.
End new.

(** ** Page tables show what the regions say *)

(** A page of a region with an object is mapped to the object's page, with the region's
    flags; a page in no region is not mapped. Of reserved addresses nothing is said. *)
Definition shows asp l (X : OB) : Prop := forall v, paged v -> va_base asp <= v < va_base asp + va_size asp ->
  (forall r x o, (r, x) ∈ l -> contains x v -> vr_obj x = Some o ->
     exists pa, phys_page X o (vr_offset x + (v - vr_base x)) = Some pa /\ translate (va_arch asp) v = Some (pa, vr_mmu_flags x)) /\
  ((forall r x, (r, x) ∈ l -> ~ contains x v) -> translate (va_arch asp) v = None).
Record vmm_ok s ls : Prop := {
  vk_wf : vmm_wf s ls;
  vk_tables : forall a asp l, v_aspaces s !! a = Some asp -> ls !! AspaceTree a = Some l -> shows asp l (v_objs s)
}.

Lemma shows_memory asp l (X Y : OB) : same_memory X Y -> (forall r x o, (r, x) ∈ l -> vr_obj x = Some o -> is_Some (phys_refs X o) /\ is_Some (phys_refs Y o)) -> shows asp l X -> shows asp l Y.
Proof.
  intros Hm Hlive Hs v Hv Hr. destruct (Hs v Hv Hr) as [S1 S2]. split; [|done]. intros r x o Hx Hc Ho. destruct (S1 r x o Hx Hc Ho) as (pa & Hpa & Ht). exists pa. split; [|done].
  destruct (Hlive r x o Hx Ho) as [Hlx Hly]. by destruct (Hm o Hlx Hly) as [-> _].
Qed.
Lemma shows_translate asp l (X : OB) t : (forall v, paged v -> translate t v = translate (va_arch asp) v) -> shows asp l X -> shows (set_arch t asp) l X.
Proof. intros Ht Hs v Hv Hr. cbn. rewrite (Ht v Hv). exact (Hs v Hv Hr). Qed.

Lemma inside_range asp x v : aspace_ok asp -> inside asp x -> contains x v -> va_base asp <= v < va_base asp + va_size asp.
Proof.
  intros Hao [I1 I2] [C1 C2]. assert (0 <= end_guard x) by (unfold end_guard; pose proof page_size_pos; destruct (has_flag _ _); lia). lia.
Qed.
(** Where nothing touches a region, nothing is mapped. *)
Lemma room_empty asp l y l1 l2 (X : OB) : aspace_ok asp -> shows asp l X -> split_at l y l1 [] l2 -> inside asp y -> forall v, paged v -> contains y v -> translate (va_arch asp) v = None.
Proof.
  intros Hao Hs Hsp Hy v Hv Hc. apply (Hs v Hv (inside_range asp y v Hao Hy Hc)). intros r x Hx [C1 C2]. rewrite (sp_list _ _ _ _ _ Hsp) in Hx. destruct Hc as [C3 C4].
  pose proof (guard_range (vr_flags x) (vr_flags y)). pose proof (guard_range (vr_flags y) (vr_flags x)).
  apply elem_of_app in Hx as [Hx|Hx]; [pose proof (sp_below _ _ _ _ _ Hsp _ Hx) as Hb|pose proof (sp_above _ _ _ _ _ Hsp _ Hx) as Hb]; unfold below in Hb; cbn in Hb; lia.
Qed.

(** The references that keep regions' objects alive are still there. *)
Definition refs_kept (X Y : OB) : Prop := forall o R, phys_refs X o = Some R -> exists R', phys_refs Y o = Some R' /\ R ⊆ R'.

(** The state with a new region in it. *)
Lemma ok_added s s' ls a asp l r y l1 l2 t : vmm_ok s ls -> ls !! AspaceTree a = Some l -> v_aspaces s !! a = Some asp -> split_at l y l1 [] l2 -> inside asp y -> has_flag VMM_FLAG_NO_PHYSICAL (vr_flags y) = false ->
  trees_wf s' (<[AspaceTree a := l1 ++ (r, y) :: l2]> ls) -> v_aspaces s' = <[a := set_arch t asp]> (v_aspaces s) -> v_res s' = v_res s ->
  phys_ok (v_objs s') -> vmm_mutex_held (v_objs s') = false -> same_memory (v_objs s) (v_objs s') -> refs_kept (v_objs s) (v_objs s') -> backed s' r y -> (forall o, vr_obj y = Some o -> is_Some (phys_refs (v_objs s) o)) ->
  (forall o, vr_obj y = Some o -> mapped_to y o (v_objs s) (vr_mmu_flags y) (vr_size y) (va_arch asp) t) -> (vr_obj y = None -> t = va_arch asp) ->
  vmm_ok s' (<[AspaceTree a := l1 ++ (r, y) :: l2]> ls).
Proof.
  intros [[Hw Hasp Hpk Hlk Hbk] Htb] Hl Ha Hsp Hin Hph Hw' Ea Er K1 K2 K3 K4 Hby Hlive Hmap Hnone. set (ls' := <[AspaceTree a := l1 ++ (r, y) :: l2]> ls) in *.
  assert (forall q x, (q, x) ∈ l1 ++ (r, y) :: l2 -> (q, x) = (r, y) \/ (q, x) ∈ l) as Hel by (intros q x; by apply added_elem).
  assert (forall id k q x, ls !! id = Some k -> (q, x) ∈ k -> backed s' q x) as Hold.
  { intros id k q x Hk Hx o Ho. destruct (Hbk id k q x Hk Hx) as [Hb _]. destruct (Hb o Ho) as [Hres (R & HR & Hq)]. split; [by rewrite Er|]. destruct (K4 o R HR) as (R' & HR' & Hsub). exists R'. split; [done|set_solver]. }
  assert (forall id k q x o, ls !! id = Some k -> (q, x) ∈ k -> vr_obj x = Some o -> is_Some (phys_refs (v_objs s) o) /\ is_Some (phys_refs (v_objs s') o)) as Hboth.
  { intros id k q x o Hk Hx Ho. destruct (Hold id k q x Hk Hx o Ho) as [_ (R & HR & _)]. destruct (Hbk id k q x Hk Hx) as [Hb _]. destruct (Hb o Ho) as [_ (R0 & HR0 & _)]. by rewrite HR, HR0. }
  destruct (Hasp a asp Ha) as [Hao (l' & Hl' & Hlin)]. assert (l' = l) as -> by congruence. split; [constructor|].
  - done.
  - rewrite Ea. apply (aspaces_arch s ls' a asp); [|done]. apply (aspaces_list s ls a asp l); [done|done|]. by apply (added_inside asp l r y l1 l2).
  - done.
  - done.
  - intros id k q x Hk Hx. unfold ls' in Hk. destruct (decide (id = AspaceTree a)) as [->|Hne].
    + rewrite lookup_insert_eq in Hk. injection Hk as <-. destruct (Hel q x Hx) as [[= -> ->]|Hx']; [done|]. split; [by apply (Hold (AspaceTree a) l)|by apply (Hbk (AspaceTree a) l q x)].
    + rewrite lookup_insert_ne in Hk by done. split; [by apply (Hold id k)|by apply (Hbk id k q x)].
  - intros b bsp k Hb Hk. rewrite Ea in Hb. destruct (decide (b = a)) as [->|Hne].
    + unfold ls' in Hk. rewrite lookup_insert_eq in Hb. rewrite lookup_insert_eq in Hk. injection Hb as <-. injection Hk as <-. intros v Hv Hr. cbn in Hr |- *. destruct (Htb a asp l Ha Hl v Hv Hr) as [S1 S2].
      assert (r ∈ (l1 ++ (r, y) :: l2).*1 /\ (r, y) ∈ l1 ++ (r, y) :: l2) as [_ Hry] by set_solver.
      assert (forall o, vr_obj y = Some o -> ~ contains y v -> translate t v = translate (va_arch asp) v) as Hother.
      { intros o Ho Hnc. pose proof (Hmap o Ho v Hv) as Hm. rewrite decide_False in Hm; [done|]. exact Hnc. }
      split.
      * intros q x o Hx Hc Ho. destruct (Hel q x Hx) as [[= -> ->]|Hx'].
        -- pose proof (Hmap o Ho v Hv) as Hm. rewrite decide_True in Hm by exact Hc. destruct Hm as (pa & Hpa & Ht). exists pa. split; [|done]. destruct (Hby o Ho) as [_ (R & HR & _)]. destruct (K3 o) as [-> _]; [by apply Hlive|by rewrite HR|done].
        -- destruct (S1 q x o Hx' Hc Ho) as (pa & Hpa & Ht). exists pa. split; [destruct (Hboth (AspaceTree a) l q x o Hl Hx' Ho) as [B1 B2]; by destruct (K3 o B1 B2) as [-> _]|]. rewrite <- Ht.
           destruct (vr_obj y) as [oy|] eqn:Hoy; [|by rewrite Hnone]. apply (Hother oy); [done|]. intros Hcy.
           pose proof (contains_unique s' ls' (AspaceTree a) _ r y q x v Hw' (lookup_insert_eq _ _ _) Hry Hx Hcy Hc) as E. injection E as -> ->. clear S1 S2.
           pose proof (room_empty asp l y l1 l2 _ Hao (Htb a asp l Ha Hl) Hsp Hin v Hv Hcy). congruence.
      * intros Hno. assert (forall q x, (q, x) ∈ l -> ~ contains x v) as Hno' by (intros q x Hx; apply (Hno q x); rewrite (sp_list _ _ _ _ _ Hsp) in Hx; set_solver). rewrite <- (S2 Hno').
        destruct (vr_obj y) as [oy|] eqn:Hoy; [apply (Hother oy); [done|by apply (Hno r y)]|by rewrite Hnone].
    + rewrite lookup_insert_ne in Hb by done. unfold ls' in Hk. rewrite lookup_insert_ne in Hk by congruence. apply (shows_memory bsp k (v_objs s)); [done| |by apply (Htb b)].
      intros q x o Hx Ho. by apply (Hboth (AspaceTree b) k q x).
Qed.
End object.
