(* ===== verification/VmmNew.v ===== *)
(** * Outcomes of vmm_alloc_obj *)
From stdpp Require Import base gmap list.
From Stdlib Require Import ZArith Lia Sorted.
From S2P Require Import Prelude Bst Pmm PmmInv ResGroup Vmm VmmApi VmmSpot VmmTree VmmRegions VmmPlace VmmAlloc VmmInv VmmMap VmmObj.

Local Open Scope Z_scope.
Local Open Scope lk_scope.

Section new.
Context `{!PmmConfig} `{!PmmLaws} `{!ObjRefs} `{!ArchMmu} `{!ArchLaws} `{!VmmConfig} `{!VmmLaws} {OB : Type} `{!PhysObjs OB} `{!PhysLaws OB}.
Local Abbreviation MV := (M (vsys (OB := OB))).
Implicit Types (s : vsys (OB := OB)) (id : region_tree) (asp : vmm_aspace) (x y : vmm_region) (l : list (Z * vmm_region)) (ls : gmap region_tree (list (Z * vmm_region))).

(** An object that lives and has its pages, to be mapped from [offset] on. *)
Record obj_call s (o : Z) (R : gset Z) (r offset size : Z) : Prop := {
  oc_res : v_res s !! o = None;
  oc_refs : phys_refs (v_objs s) o = Some R;
  oc_live : R <> ∅;
  oc_new : r ∉ R;
  oc_offset : 0 <= offset;
  oc_paged : paged offset;
  oc_end : offset + size <= 2 ^ 64;
  oc_whole : phys_needs (v_objs s) o = true -> offset = 0 /\ phys_whole (v_objs s) o size
}.

(** Nothing has changed but what the architecture may have done to its tables, and these
    say the same as before. *)
Definition same_tables asp asp' : Prop := exists t, asp' = set_arch t asp /\ forall v, paged v -> translate t v = translate (va_arch asp) v.
Record same_state s s' : Prop := {
  ss_regions : v_regions s' = v_regions s;
  ss_res : v_res s' = v_res s;
  ss_refs : forall o, phys_refs (v_objs s') o = phys_refs (v_objs s) o;
  ss_memory : same_memory (v_objs s) (v_objs s');
  ss_go : same_go (v_objs s) (v_objs s');
  ss_tables : forall b, option_Forall2 same_tables (v_aspaces s !! b) (v_aspaces s' !! b)
}.

Lemma same_tables_refl asp : same_tables asp asp.
Proof. exists (va_arch asp). split; [by destruct asp|done]. Qed.
Lemma same_tables_insert s a asp t : v_aspaces s !! a = Some asp -> (forall v, paged v -> translate t v = translate (va_arch asp) v) ->
  forall b, option_Forall2 same_tables (v_aspaces s !! b) (<[a := set_arch t asp]> (v_aspaces s) !! b).
Proof.
  intros Ha Ht b. destruct (decide (b = a)) as [->|Hne]; [rewrite lookup_insert_eq, Ha; constructor; by exists t|]. rewrite lookup_insert_ne by done. destruct (v_aspaces s !! b); constructor. apply same_tables_refl.
Qed.

Lemma ok_same s s' ls : vmm_ok s ls -> trees_wf s' ls -> same_state s s' -> phys_ok (v_objs s') -> vmm_mutex_held (v_objs s') = false -> vmm_ok s' ls.
Proof.
  intros [[Hw Hasp Hpk Hlk Hbk] Htb] Hw' [E1 E2 E3 E4 E6 E5] K1 K2.
  assert (forall b bsp', v_aspaces s' !! b = Some bsp' -> exists bsp, v_aspaces s !! b = Some bsp /\ same_tables bsp bsp') as Hb.
  { intros b bsp' Hb. specialize (E5 b). rewrite Hb in E5. inversion E5 as [bsp ? Hst Hbs|]; subst. by exists bsp. }
  split; [constructor|].
  - done.
  - intros b bsp' Hb'. destruct (Hb b bsp' Hb') as (bsp & Hbs & t & -> & _). destruct (Hasp b bsp Hbs) as [[A1 A2 A3 A4 A5] ?]. split; [by constructor|done].
  - done.
  - done.
  - intros id k q x Hk Hx. destruct (Hbk id k q x Hk Hx) as [Hbq Hf]. split; [|done]. intros o Ho. rewrite E2, E3. by apply Hbq.
  - intros b bsp' k Hb' Hk. destruct (Hb b bsp' Hb') as (bsp & Hbs & t & -> & Ht). apply shows_translate; [done|]. apply (shows_memory bsp k (v_objs s)); [done| |by apply (Htb b)].
    intros q x o Hx Ho. destruct (Hbk _ k q x Hk Hx) as [Hbq _]. destruct (Hbq o Ho) as [_ (R & HR & _)]. by rewrite E3, HR.
Qed.

Section call.
Context s ls (a : Z) asp l (r o : Z) (R : gset Z) (offset size lg flags : Z).
Context (Hk : vmm_ok s ls) (Hl : ls !! AspaceTree a = Some l) (Ha : v_aspaces s !! a = Some asp) (Hu : unused_mem s r) (Hroom : room s) (Hobj : obj_call s o R r offset size).

(** From the new region in its tree on. *)
Context (mf va : Z) s1 l1 l2 (g : Z).
Let y := fresh_region VMM_REGION_FLAG_PHYSICAL flags mf va size.
Let y' := set_slice (Some o) offset size y.
Context (Hadd : region_added a asp l r y ls l1 l2 (locked true (with_rng g s)) s1) (Hph : has_flag VMM_FLAG_NO_PHYSICAL flags = false).

Lemma bound_run : exists X : OB, vmm_obj_slice_bind_locked r o offset size s1 = Some (tt, with_regions <[r := y']> (with_vobjs X s1)) /\ phys_ok X /\ vmm_mutex_held X = true /\ same_memory (v_objs s) X /\ same_go (v_objs s) X /\
  (forall o', phys_refs X o' = if decide (o' = o) then Some ({[r]} ∪ R) else phys_refs (v_objs s) o') /\ phys_needs X o = phys_needs (v_objs s) o.
Proof.
  destruct Hobj as [O1 O2 O3 O4 O5 O6 O7 O8]. destruct (added_fields _ _ _ _ _ _ _ _ _ _ Hadd) as (E1 & E2 & E3 & E4 & _). unfold vmm_obj_slice_bind_locked.
  assert (v_regions s1 !! r = Some y) as Hr by (rewrite E1; apply lookup_insert_eq). rewrite (get_region_bind r y) by done. rewrite assert_bind by done. unfold obj_take. rewrite bind_assoc, not_res_bind by (by rewrite E4).
  assert (v_objs s1 = set_vmm_mutex true (v_objs s)) as Ho by (by rewrite E3).
  destruct (add_ref_run (v_objs s1) o R r) as (X & Hx & K1 & K2 & K3 & K6 & K5 & K4); [rewrite Ho; apply lock_ok, Hk|by rewrite Ho, lock_refs|].
  exists X. rewrite (on_objs_bind _ _ _ tt X) by exact Hx. unfold upd_region. rewrite (get_region_bind r y) by done. split_and!; [done|done|by rewrite K2, Ho, lock_held| | | |by rewrite K5, Ho, lock_needs].
  - apply (memory_trans _ (v_objs s1)); [rewrite Ho; apply lock_memory|done|]. intros o'. rewrite K4, Ho, lock_refs. destruct (decide (o' = o)) as [->|]; [by rewrite O2|done].
  - intros o' Hg. apply K6. rewrite Ho. by apply lock_may_go.
  - intros o'. rewrite K4, Ho, lock_refs. done.
Qed.

(** The region is taken out again. *)
Lemma undone_run t (X : OB) cl : phys_ok X -> vmm_mutex_held X = true -> same_memory (v_objs s) X -> same_go (v_objs s) X -> (forall o', phys_refs X o' = if decide (o' = o) then Some ({[r]} ∪ R) else phys_refs (v_objs s) o') ->
  (forall v, paged v -> translate t v = translate (va_arch asp) v) ->
  exists s', (vmm_obj_slice_release_locked r ;; on_tree (AspaceTree a) (bst_delete r) ;; free_region r ;; vmm_unlock_aspace) (mapped_state a asp t X cl (with_regions <[r := y']> s1)) = Some (tt, s') /\
    vmm_ok s' ls /\ same_state s s' /\ unused_mem s' r.
Proof.
  intros K1 K2 K3 K5 K4 Ht. destruct Hobj as [O1 O2 O3 O4 O5 O6 O7 O8]. destruct (added_fields _ _ _ _ _ _ _ _ _ _ Hadd) as (E1 & E2 & E3 & E4 & _). destruct Hadd as [_ Hw1 Hsp _ _].
  set (s2 := mapped_state a asp t X cl (with_regions <[r := y']> s1)). set (y2 := set_slice None offset size y').
  destruct (del_ref_run X o ({[r]} ∪ R) r K1) as (X2 & Hx & L1 & L2 & L3 & L4 & L5); [by rewrite K4, decide_True|set_solver|].
  assert ((({[r]} ∪ R) ∖ {[r]} : gset Z) = R) as HRr by set_solver. rewrite HRr in Hx, L4. rewrite bool_decide_false in Hx by done.
  assert (vmm_obj_slice_release_locked r s2 = Some (tt, with_regions <[r := y2]> (with_vobjs X2 s2))) as Hrel.
  { unfold vmm_obj_slice_release_locked. rewrite (get_region_bind r y') by (cbn; apply lookup_insert_eq). cbn [vr_obj y' set_slice]. rewrite !bind_assoc. unfold obj_drop. rewrite bind_assoc, not_res_bind by (cbn; by rewrite E4).
    rewrite (on_objs_bind _ _ s2 _ X2 Hx). unfold upd_region. rewrite !bind_assoc, (get_region_bind r y') by (cbn; apply lookup_insert_eq). done. }
  rewrite (bind_eq _ _ _ _ _ Hrel). set (s3 := with_regions <[r := y2]> (with_vobjs X2 s2)). set (ls1 := <[AspaceTree a := l1 ++ (r, y) :: l2]> ls) in *.
  assert (trees_wf s3 (<[AspaceTree a := l1 ++ (r, y2) :: l2]> ls1)) as Hw3.
  { apply (same_trees_wf (with_regions <[r := y2]> s1)); [split_and!; [done|done|cbn; by rewrite insert_insert_eq]|]. apply (trees_update s1 ls1 (AspaceTree a) l1 r y y2 l2 Hw1); [apply lookup_insert_eq|done..]. }
  unfold ls1 in Hw3. rewrite insert_insert_eq in Hw3. assert (r ∈ (l1 ++ (r, y2) :: l2).*1) as Hin by (rewrite fmap_app, fmap_cons; set_solver).
  destruct (trees_delete s3 _ _ _ r Hw3 (lookup_insert_eq _ _ _) Hin) as (s4 & Hs4 & Hch & Hw4 & (n & Hn & _) & Hnl). rewrite (bind_eq _ _ _ _ _ Hs4).
  assert (r ∉ l.*1) as Hnr. { intros Hr. apply (unused_unlinked s ls r (vw_trees _ _ (vk_wf _ _ Hk)) Hu). by exists (AspaceTree a), l. }
  rewrite insert_insert_eq, (added_removed l r y2 l1 l2 (sp_list _ _ _ _ _ Hsp) Hnr), (insert_id ls) in Hw4, Hnl by done.
  assert (v_regions s4 = v_regions s3 /\ v_aspaces s4 = v_aspaces s3 /\ v_objs s4 = X2 /\ v_res s4 = v_res s1) as (F1 & F2 & F3 & F4) by (by destruct Hch as (ro & nodes & -> & _)).
  unfold free_region. rewrite bind_assoc, modify_bind, modify_bind. eexists. split; [reflexivity|]. set (s5 := with_vobjs _ _).
  assert (phys_refs (set_vmm_mutex false X2) o = phys_refs (v_objs s) o /\ forall o', phys_refs (set_vmm_mutex false X2) o' = phys_refs (v_objs s) o') as [_ Href].
  { assert (forall o', phys_refs (set_vmm_mutex false X2) o' = phys_refs (v_objs s) o') as Hr; [|done]. intros o'. rewrite lock_refs, L4. destruct (decide (o' = o)) as [->|Hne]; [by rewrite O2|]. by rewrite K4, decide_False. }
  assert (same_state s s5) as Hss.
  { constructor.
    - cbn. rewrite F1. cbn. rewrite !delete_insert_eq, E1. cbn. rewrite delete_insert_eq. by apply delete_id, Hu.
    - cbn. rewrite F4, E4. done.
    - intros o'. cbn. rewrite F3. apply Href.
    - cbn. rewrite F3. apply (memory_trans _ X2); [apply (memory_trans _ X); [done|done|]|apply lock_memory|intros o'; by rewrite lock_refs].
      intros o'. rewrite L4, K4. destruct (decide (o' = o)) as [->|]; done.
    - intros o' Hg. cbn. rewrite F3. by apply lock_may_go, L5, K5.
    - intros b. cbn. rewrite F2. cbn. rewrite E2. cbn. by apply same_tables_insert. }
  split_and!; [|done|].
  - apply (ok_same s); [done| |done|cbn; rewrite F3; by apply lock_ok|cbn; apply lock_held]. apply (trees_frame s4); [done|done| |].
    + intros q Hq. assert (q <> r) by (by intros ->). cbn. by rewrite !lookup_delete_ne by done.
    + cbn. pose proof (has_tree_size _ _ _ (tw_tree _ _ Hw4 _ _ Hl)) as Hsz. rewrite map_size_delete_Some by (by exists n). lia.
  - split_and!; [apply Hu|cbn; apply lookup_delete_eq|cbn; apply lookup_delete_eq].
Qed.

(** What the caller gets. *)
Definition mapped_region s' (ptr : Z) : Prop := exists z k1 k2, vmm_ok s' (<[AspaceTree a := k1 ++ (r, z) :: k2]> ls) /\ l = k1 ++ k2 /\ inside asp z /\ vr_base z = ptr /\
  vr_obj z = Some o /\ vr_offset z = offset /\ vr_size z = size /\ vr_flags z = Z.lor VMM_REGION_FLAG_PHYSICAL flags /\ (exists t, v_aspaces s' !! a = Some (set_arch t asp)) /\
  forall o', phys_refs (v_objs s') o' = if decide (o' = o) then Some ({[r]} ∪ R) else phys_refs (v_objs s) o'.

Lemma finish_alloc_run ptr : exists e s',
  (vmm_obj_slice_bind_locked r o offset size ;; e <- (if has_flag VMM_FLAG_NO_PHYSICAL flags then ret 0 else map_new_region a r o offset size mf) ;;
   if e =? 0 then x <- get_region r ;; vmm_unlock_aspace ;; ret (NO_ERROR, vr_base x)
   else vmm_obj_slice_release_locked r ;; on_tree (AspaceTree a) (bst_delete r) ;; free_region r ;; vmm_unlock_aspace ;; ret (e, ptr)) s1 = Some ((e, if decide (e = 0) then va else ptr), s') /\
  if decide (e = 0) then mapped_region s' va /\ same_go (v_objs s) (v_objs s') else vmm_ok s' ls /\ same_state s s' /\ unused_mem s' r.
Proof.
  destruct bound_run as (X & Hbound & K1 & K2 & K3 & K6 & K4 & K5). rewrite (bind_eq _ _ _ _ _ Hbound). rewrite Hph. cbv iota. pose proof Hobj as [O1 O2 O3 O4 O5 O6 O7 O8]. destruct (added_fields _ _ _ _ _ _ _ _ _ _ Hadd) as (E1 & E2 & E3 & E4 & _).
  pose proof Hadd as [_ Hw1 Hsp Hy Hin]. pose proof (vk_wf _ _ Hk) as Hwf. destruct (vw_aspace _ _ Hwf a asp Ha) as [Hao _]. pose proof (vk_tables _ _ Hk a asp l Ha Hl) as Hshow.
  assert (region_ok y') as Hy'. { destruct Hy as [Y1 Y2 Y3 Y4 Y5]. constructor; assumption. }
  set (s2 := with_regions <[r := y']> (with_vobjs X s1)).
  destruct (map_new_run s2 a asp r y' o ({[r]} ∪ R) mf) as (e & t & X3 & cl & Hmap & L1 & L2 & L3 & L4 & L6 & L5); try done.
  - cbn. apply lookup_insert_eq.
  - cbn. rewrite E2. done.
  - cbn. by rewrite E4.
  - cbn. by rewrite K4, decide_True.
  - cbn. rewrite K5. intros Hn. destruct (O8 Hn) as [Hz Hwh]. split; [done|]. apply (K3 o); [by rewrite O2|by rewrite K4, decide_True|done].
  - exact (room_empty asp l y l1 l2 _ Hao Hshow Hsp Hin).
  - cbn [vr_offset vr_size y' set_slice] in Hmap. rewrite (bind_eq _ _ _ _ _ Hmap). cbn in L2, L3, L4, L5, L6. exists e. case_decide as He.
    + subst e. cbv iota. rewrite Z.eqb_refl. rewrite (get_region_bind r y') by (cbn; apply lookup_insert_eq). rewrite vmm_unlock_bind. eexists. split; [reflexivity|]. destruct L5 as [_ Hm].
      split; [|intros o' Hg; by apply lock_may_go, L6, K6]. exists y', l1, l2. assert (same_memory (v_objs s) (set_vmm_mutex false X3)) as Hmem.
      { apply (memory_trans _ X3); [apply (memory_trans _ X); [done|done|intros o'; by rewrite L3]|apply lock_memory|intros o'; by rewrite lock_refs]. }
      assert (forall o', phys_refs (set_vmm_mutex false X3) o' = if decide (o' = o) then Some ({[r]} ∪ R) else phys_refs (v_objs s) o') as Hrefs by (intros o'; by rewrite lock_refs, L3, K4).
      split_and!; [|by rewrite (sp_list _ _ _ _ _ Hsp)|exact Hin|done|done|done|done|done|exists t; cbn; rewrite E2; apply lookup_insert_eq|exact Hrefs].
      apply (ok_added s _ ls a asp l r y' l1 l2 t); [done|done|done| |exact Hin| | | | | | | | | | | |].
      * destruct Hsp as [S1 S2 S3 S4]. constructor; [done|exact S2|exact S3|exact S4].
      * cbn. rewrite (flag_above 19); [done|lia|done|done].
      * apply (same_trees_wf (with_regions <[r := y']> s1)); [by split_and!|]. pose proof (trees_update s1 _ (AspaceTree a) l1 r y y' l2 Hw1 (lookup_insert_eq _ _ _)) as Hup. rewrite insert_insert_eq in Hup. by apply Hup.
      * cbn. rewrite E2. done.
      * cbn. rewrite E4. done.
      * cbn. by apply lock_ok.
      * cbn. apply lock_held.
      * exact Hmem.
      * intros o' R' HR'. cbn. rewrite Hrefs. destruct (decide (o' = o)) as [->|]; [|by exists R']. exists ({[r]} ∪ R). split; [done|]. assert (R' = R) as -> by congruence. set_solver.
      * intros o' [= <-]. cbn. split; [by rewrite E4|]. exists ({[r]} ∪ R). rewrite Hrefs, decide_True by done. split; [done|set_solver].
      * intros o' [= <-]. by rewrite O2.
      * intros o' [= <-]. apply (mapped_memory y' o (v_objs s) X); [done|by rewrite O2|by rewrite K4, decide_True|exact Hm].
      * done.
    + rewrite (proj2 (Z.eqb_neq e 0) He). destruct (undone_run t X3 cl) as (s' & Hs' & U1 & U2 & U3); [done|by rewrite L2| |intros o' Hg; by apply L6, K6|intros o'; by rewrite L3, K4|exact L5|].
      * apply (memory_trans _ X); [done|done|intros o'; by rewrite L3].
      * exists s'. split; [|done].
        assert (forall (m1 m2 m3 m4 : MV unit) (z : Z * Z) s0 s9, (m1 ;; m2 ;; m3 ;; m4) s0 = Some (tt, s9) -> (m1 ;; m2 ;; m3 ;; m4 ;; ret z) s0 = Some (z, s9)) as Hret.
        { intros m1 m2 m3 m4 z s0 s9. unfold bind. destruct (m1 s0) as [[u1 q1]|]; [|done]. destruct (m2 q1) as [[u2 q2]|]; [|done]. destruct (m3 q2) as [[u3 q3]|]; [|done]. intros ->. done. }
        apply Hret. exact Hs'.
Qed.
End call.

Definition request_addr (flags ptr : Z) : Z := if has_flag VMM_FLAG_VALLOC_SPECIFIC flags then ptr else 0.

(** The state with the lock held is as good. *)
Lemma locked_memory b s : same_memory (v_objs s) (v_objs (locked b s)).
Proof. apply lock_memory. Qed.

Lemma alloc_obj_run s ls a asp l r o R offset size ptr lg flags mf : vmm_ok s ls -> ls !! AspaceTree a = Some l -> v_aspaces s !! a = Some asp -> unused_mem s r -> room s -> obj_call s o R r offset size ->
  has_flag VMM_FLAG_NO_PHYSICAL flags = false -> (forall mf', request_ok asp l size (request_addr flags ptr) lg flags VMM_REGION_FLAG_PHYSICAL mf') ->
  exists e s', vmm_alloc_obj (Some r) a o offset size ptr lg flags mf s = Some (e, s') /\
    ((fst e = 0 /\ mapped_region s ls a asp l r o R offset size flags s' (snd e) /\ same_go (v_objs s) (v_objs s') /\ (has_flag VMM_FLAG_VALLOC_SPECIFIC flags = true -> snd e = ptr)) \/
     (fst e <> 0 /\ snd e = ptr /\ vmm_ok s' ls /\ same_state s s' /\ unused_mem s' r)).
Proof.
  intros Hk Hl Ha Hu Hroom Hobj Hph Hreq. pose proof Hobj as [O1 O2 O3 O4 O5 O6 O7 O8]. pose proof (vk_wf _ _ Hk) as Hwf. pose proof (rq_paged _ _ _ _ _ _ _ _ (Hreq 0)) as Hps.
  assert (same_state s s) as Hsame. { constructor; try done. intros b. destruct (v_aspaces s !! b); constructor. apply same_tables_refl. }
  unfold vmm_alloc_obj. rewrite (get_aspace_bind a asp) by done. rewrite !assert_bind by (by apply paged_aligned). cbv zeta. change (if has_flag VMM_FLAG_VALLOC_SPECIFIC flags then ptr else 0) with (request_addr flags ptr).
  unfold obj_check_flags. rewrite bind_assoc, not_res_bind by done. destruct (check_flags_reads (v_objs s) o R mf (vw_objs _ _ Hwf) O2) as (c & Hc & Hc0). rewrite (on_objs_read _ _ s c Hc).
  destruct c as [e|mf']. { exists (e, ptr), s. split; [done|]. right. split_and!; try done. cbn. congruence. }
  rewrite vmm_lock_bind by apply Hwf. destruct (vw_aspace _ _ Hwf a asp Ha) as [Hao (l' & Hl' & Hin)]. assert (l' = l) as -> by congruence.
  destruct (request_run (locked true s) ls a asp l r size (request_addr flags ptr) lg flags VMM_REGION_FLAG_PHYSICAL mf' (locked_trees true s ls (vw_trees _ _ Hwf)) Hl Ha Hao Hin Hu Hroom (Hreq mf')) as (g & [(e & He & Hrun)|(va & s1 & l1 & l2 & Hrun & Hadd & Hva)]);
    rewrite (bind_eq _ _ _ _ _ Hrun).
  - rewrite vmm_unlock_bind. exists (e, ptr), (with_rng g s). assert (same_state s (with_rng g s)) as Hss by (by destruct Hsame). split.
    + unfold ret. do 2 f_equal. change (locked false (with_rng g (locked true s))) with (with_rng g (locked false (locked true s))). by rewrite relocked by apply Hwf.
    + right. split_and!; [cbn; lia|done| |done|done]. apply (ok_same s); [done| |done|apply Hwf|apply Hwf]. apply (trees_frame s); [apply Hwf|done|done|]. exact (has_tree_size _ _ _ (tw_tree _ _ (vw_trees _ _ Hwf) _ _ Hl)).
  - destruct (finish_alloc_run s ls a asp l r o R offset size flags Hk Hl Ha Hu Hroom Hobj mf' va s1 l1 l2 g Hadd Hph ptr) as (e & s' & Hs' & Hres).
    exists (e, if decide (e = 0) then va else ptr), s'. split; [exact Hs'|]. cbn. case_decide as He.
    + left. destruct Hres as [Hres Hgo]. split_and!; [done|exact Hres|exact Hgo|]. intros Hsp. rewrite (Hva Hsp). unfold request_addr. by rewrite Hsp.
    + right. done.
Qed.
End new.
