(* ===== verification/VmmSteps.v ===== *)
(** * Freeing, reserving and allocating with the page tables in view *)
From stdpp Require Import base gmap list.
From Stdlib Require Import ZArith Lia Sorted.
From S2P Require Import Prelude Bst Pmm PmmInv PmmArena ResGroup Vmm VmmApi VmmSpot VmmTree VmmRegions VmmPlace VmmAlloc VmmInv VmmMap VmmObj VmmNew.

Local Open Scope Z_scope.
Local Open Scope lk_scope.

Section steps.
Context `{!PmmConfig} `{!PmmLaws} `{!ObjRefs} `{!ArchMmu} `{!ArchLaws} `{!VmmConfig} `{!VmmLaws} {OB : Type} `{!PhysObjs OB} `{!PhysLaws OB} `{!ResConfig}.
Local Abbreviation MV := (M (vsys (OB := OB))).
Implicit Types (s : vsys (OB := OB)) (id : region_tree) (asp : vmm_aspace) (x y : vmm_region) (l : list (Z * vmm_region)) (ls : gmap region_tree (list (Z * vmm_region))).

(** ** Freeing *)
Lemma backed_live s ls id k q x o : vmm_wf s ls -> ls !! id = Some k -> (q, x) ∈ k -> vr_obj x = Some o -> is_Some (phys_refs (v_objs s) o).
Proof. intros Hwf Hk Hx Ho. destruct (vw_backed _ _ Hwf id k q x Hk Hx) as [Hb _]. destruct (Hb o Ho) as [_ (R & HR & _)]. by rewrite HR. Qed.

Lemma ok_freed s s' ls a asp l r x : vmm_ok s ls -> v_aspaces s !! a = Some asp -> ls !! AspaceTree a = Some l -> (r, x) ∈ l -> freed a asp l r x s s' ls ->
  vmm_ok s' (<[AspaceTree a := filter (fun p => p.1 <> r) l]> ls).
Proof.
  intros [Hwf Htb] Ha Hl Hx (Hwf' & Ea & Hu & Hm & _). set (ls' := <[AspaceTree a := filter (fun p => p.1 <> r) l]> ls) in *. split; [done|].
  destruct (tw_ok _ _ (vw_trees _ _ Hwf) _ _ Hl) as [Hok Ho]. pose proof (proj1 (Forall_forall _ _) Hok _ Hx) as [X1 X2 X3 X4 X5]. cbn in X1, X2, X3, X4, X5. pose proof page_size_pos as Hps.
  assert (forall b k q z o, ls' !! AspaceTree b = Some k -> (q, z) ∈ k -> vr_obj z = Some o -> exists k0, ls !! AspaceTree b = Some k0 /\ (q, z) ∈ k0 /\ forall off, phys_page (v_objs s') o off = phys_page (v_objs s) o off) as Hold.
  { intros b k q z o Hk Hz Hoz. assert (exists k0, ls !! AspaceTree b = Some k0 /\ (q, z) ∈ k0) as (k0 & Hk0 & Hz0).
    { unfold ls' in Hk. destruct (decide (b = a)) as [->|Hne]; [rewrite lookup_insert_eq in Hk; injection Hk as <-; apply list_elem_of_filter in Hz as [_ Hz]; by exists l|rewrite lookup_insert_ne in Hk by congruence; by exists k]. }
    exists k0. split_and!; [done|done|]. assert (is_Some (phys_refs (v_objs s) o)) as L1 by (by apply (backed_live s ls (AspaceTree b) k0 q z o)). assert (is_Some (phys_refs (v_objs s') o)) as L2 by (by apply (backed_live s' ls' (AspaceTree b) k q z o)). by destruct (Hm o L1 L2). }
  intros b bsp k Hb Hk v Hv Hr. rewrite Ea in Hb. destruct (decide (b = a)) as [->|Hne].
  - rewrite lookup_insert_eq in Hb. injection Hb as <-. cbn in Hr |- *. destruct (Htb a asp l Ha Hl v Hv Hr) as [S1 S2].
    rewrite unmap_ok by (first [done|apply Z.div_pos; lia]). assert (vr_size x / PAGE_SIZE * PAGE_SIZE = vr_size x) as ->. { apply paged_mult in X5 as [n ->]. rewrite Z.div_mul by lia. done. }
    pose proof Hk as Hk'. unfold ls' in Hk'. rewrite lookup_insert_eq in Hk'. injection Hk' as <-. split.
    + intros q z o Hz Hc Hoz. destruct (Hold _ _ q z o Hk Hz Hoz) as (k0 & _ & _ & ->). apply list_elem_of_filter in Hz as [Hq Hz]. cbn in Hq. rewrite decide_False; [by apply (S1 q z o)|].
      intros Hcx. pose proof (contains_unique s ls _ l r x q z v (vw_trees _ _ Hwf) Hl Hx Hz Hcx Hc). congruence.
    + intros Hno. case_decide as Hc; [done|]. apply S2. intros q z Hz Hcz. destruct (decide (q = r)) as [->|Hq].
      * assert (z = x) as ->; [|by apply Hc]. pose proof (ht_regions _ _ _ (tw_tree _ _ (vw_trees _ _ Hwf) _ _ Hl)) as Hg. pose proof (Hg r x Hx). pose proof (Hg r z Hz). congruence.
      * apply (Hno q z); [|done]. by apply list_elem_of_filter.
  - rewrite lookup_insert_ne in Hb by done. assert (ls !! AspaceTree b = Some k) as Hk0 by (unfold ls' in Hk; by rewrite lookup_insert_ne in Hk by congruence). destruct (Htb b bsp k Hb Hk0 v Hv Hr) as [S1 S2]. split; [|done].
    intros q z o Hz Hc Hoz. destruct (Hold _ _ q z o Hk Hz Hoz) as (_ & _ & _ & ->). by apply (S1 q z o).
Qed.

(** ** Reserving *)
Lemma trim_run {S} asp vaddr size (st : S) : aspace_ok asp -> paged vaddr -> paged size -> va_base asp <= vaddr < va_base asp + va_size asp -> 0 < size < 2 ^ 64 ->
  trim_to_aspace asp vaddr size st = Some (Z.min size (va_base asp + va_size asp - vaddr), st).
Proof.
  intros [A1 A2 A3 A4 A5] Hv Hsz Hin Hs. pose proof page_size_pos as Hps. unfold trim_to_aspace, is_inside_aspace.
  assert (range_contains_range (va_base asp) (va_size asp) vaddr 1 st = Some (true, st)) as Hr by (rewrite range_run by lia; do 2 f_equal; apply bool_decide_eq_true; lia). rewrite (bind_eq _ _ _ _ _ Hr).
  rewrite assert_bind by done. rewrite (proj2 (Z.eqb_neq size 0)) by lia. cbv zeta. unfold ret. do 2 f_equal. set (off := vaddr - va_base asp). assert (0 <= off < va_size asp) as Ho by (unfold off; lia).
  assert (u64 (va_size asp - 1) = va_size asp - 1) as -> by (apply u64_small; lia). replace (va_base asp + va_size asp - vaddr) with (va_size asp - off) by (unfold off; lia).
  destruct (Z_lt_ge_dec (off + size) (2 ^ 64)) as [Hlt|Hge].
  - rewrite (u64_small (off + size)) by lia. rewrite (proj2 (Z.ltb_ge _ _)) by lia. rewrite (u64_small (off + size)) by lia. destruct (Z.geb_spec (off + size) (va_size asp - 1)) as [Hc|Hc].
    + assert (va_size asp <= off + size); [|lia]. assert (paged (off + size)) as Hp by (apply paged_add; [by apply paged_sub|done]). destruct (Z_lt_ge_dec (off + size) (va_size asp)) as [Hl|]; [|lia].
      pose proof (paged_lt _ _ Hp A5 Hl). lia.
    + lia.
  - assert (u64 (off + size) = off + size - 2 ^ 64) as -> by (rewrite <- (u64_small (off + size - 2 ^ 64)) by lia; unfold u64; by rewrite <- (Z_mod_plus_full (off + size - 2 ^ 64) 1), Z.mul_1_l, Z.sub_add).
    rewrite (proj2 (Z.ltb_lt _ _)) by lia. rewrite (u64_small (2 ^ 64 - 1 - off - 1)) by lia. rewrite u64_small by lia. rewrite (proj2 (Z.geb_le _ _)) by lia. lia.
Qed.

Definition reserved_region asp (vaddr size : Z) : vmm_region :=
  fresh_region VMM_REGION_FLAG_RESERVED VMM_FLAG_VALLOC_SPECIFIC (match arch_mmu_query vaddr (va_arch asp) with Some (_, f) => f | None => 0 end) vaddr (Z.min size (va_base asp + va_size asp - vaddr)).

Lemma reserve_start s ls a asp mem vaddr size : vmm_wf s ls -> v_aspaces s !! a = Some asp -> paged vaddr -> paged size -> 0 < size < 2 ^ 64 -> va_base asp <= vaddr < va_base asp + va_size asp ->
  vmm_reserve_space mem a size vaddr s =
  (x <- alloc_region mem a (vr_size (reserved_region asp vaddr size)) vaddr 0 VMM_FLAG_VALLOC_SPECIFIC VMM_REGION_FLAG_RESERVED (vr_mmu_flags (reserved_region asp vaddr size)) ;; vmm_unlock_aspace ;;
   ret (match x with inl e => e | inr _ => NO_ERROR end) : MV Z) (locked true s).
Proof.
  intros Hwf Ha Hv Hs Hsz Hin. destruct (vw_aspace _ _ Hwf a asp Ha) as [Hao _]. pose proof page_size_pos as Hps. pose proof Hao as [A1 A2 A3 A4 A5]. unfold vmm_reserve_space. rewrite (get_aspace_bind a asp) by done. rewrite !assert_bind by (by apply paged_aligned).
  rewrite (proj2 (Z.eqb_neq size 0)) by lia. assert (is_inside_aspace asp vaddr s = Some (true, s)) as Hr by (unfold is_inside_aspace; rewrite range_run by lia; do 2 f_equal; apply bool_decide_eq_true; lia).
  rewrite (bind_eq _ _ _ _ _ Hr). cbn [negb]. rewrite (bind_eq _ _ _ _ _ (trim_run asp vaddr size s Hao Hv Hs Hin Hsz)). rewrite vmm_lock_bind by apply Hwf. by rewrite (get_aspace_bind a asp).
Qed.

Lemma reserve_outside s ls a asp mem vaddr size : vmm_wf s ls -> v_aspaces s !! a = Some asp -> paged vaddr -> paged size -> 0 < size -> 0 <= vaddr < 2 ^ 64 -> ~ va_base asp <= vaddr < va_base asp + va_size asp ->
  vmm_reserve_space mem a size vaddr s = Some (ERR_OUT_OF_RANGE, s).
Proof.
  intros Hwf Ha Hv Hs Hsz Hv64 Hin. destruct (vw_aspace _ _ Hwf a asp Ha) as [[A1 A2 A3 A4 A5] _]. pose proof page_size_pos as Hps. unfold vmm_reserve_space. rewrite (get_aspace_bind a asp) by done. rewrite !assert_bind by (by apply paged_aligned).
  rewrite (proj2 (Z.eqb_neq size 0)) by lia. assert (is_inside_aspace asp vaddr s = Some (false, s)) as Hr by (unfold is_inside_aspace; rewrite range_run by lia; do 2 f_equal; apply bool_decide_eq_false; lia).
  by rewrite (bind_eq _ _ _ _ _ Hr).
Qed.

Lemma reserve_run s ls a asp l r vaddr size : vmm_ok s ls -> v_aspaces s !! a = Some asp -> ls !! AspaceTree a = Some l -> unused_mem s r -> room s ->
  arch_adjusted_vaddr vaddr (has_flag ARCH_ASPACE_FLAG_KERNEL (va_flags asp)) = vaddr -> paged vaddr -> paged size -> 0 < size < 2 ^ 64 -> va_base asp <= vaddr < va_base asp + va_size asp ->
  let y := reserved_region asp vaddr size in region_ok y -> (forall q x, (q, x) ∈ l -> touches x y -> has_flag VMM_FLAG_NO_PHYSICAL (vr_flags x) = false /\ in_the_way asp y x <> None) ->
  (exists s' l1 l2, vmm_reserve_space (Some r) a size vaddr s = Some (NO_ERROR, s') /\ vmm_ok s' (<[AspaceTree a := l1 ++ (r, y) :: l2]> ls) /\ l = l1 ++ l2 /\
     inside asp y /\ (forall q x, (q, x) ∈ l -> ~ touches x y) /\ forall o, phys_refs (v_objs s') o = phys_refs (v_objs s) o) \/
  (exists e, vmm_reserve_space (Some r) a size vaddr s = Some (e, s) /\ e < 0 /\ (~ inside asp y \/ exists q x, (q, x) ∈ l /\ touches x y)).
Proof.
  intros Hk Ha Hl Hu Hroom Hadj Hv Hs Hsz Hin y Hy Hclean. pose proof (vk_wf _ _ Hk) as Hwf. destruct (vw_aspace _ _ Hwf a asp Ha) as [Hao _]. rewrite (reserve_start s ls a asp) by done. fold y.
  pose proof (locked_trees true s ls (vw_trees _ _ Hwf)) as Hw0. destruct (tw_ok _ _ Hw0 _ _ Hl) as [Hok Ho]. destruct (split_exists l y Hok Ho) as (l1 & eqs & l2 & Hsp).
  assert (forall q x, (q, x) ∈ eqs -> (q, x) ∈ l /\ touches x y) as Hsub. { intros q x Hx. split; [rewrite (sp_list _ _ _ _ _ Hsp); set_solver|exact (sp_touch _ _ _ _ _ Hsp _ Hx)]. }
  assert (forall (s0 : vsys (OB := OB)), locked false (locked true s) = s) as Hback by (intros _; by apply relocked, Hwf).
  destruct (decide (eqs = [])) as [->|Hne].
  - pose proof (alloc_specific_free (locked true s) ls a asp l Hw0 Hl Ha Hao r vaddr (vr_size y) 0 VMM_FLAG_VALLOC_SPECIFIC VMM_REGION_FLAG_RESERVED (vr_mmu_flags y) Hu Hroom eq_refl Hadj l1 l2 eq_refl Hy Hsp) as Hrun. fold (reserved_region asp vaddr size) in Hrun.
    change (fresh_region VMM_REGION_FLAG_RESERVED VMM_FLAG_VALLOC_SPECIFIC (vr_mmu_flags y) vaddr (vr_size y)) with y in Hrun. case_decide as Hi.
    + left. destruct Hrun as (s1 & Hs1 & Hch & Hw1). rewrite (bind_eq _ _ _ _ _ Hs1), vmm_unlock_bind. exists (locked false s1), l1, l2.
      assert (v_aspaces s1 = v_aspaces s /\ v_objs s1 = set_vmm_mutex true (v_objs s) /\ v_res s1 = v_res s) as (E2 & E3 & E4) by (by destruct Hch as (ro & nodes & -> & _)).
      assert (v_objs (locked false s1) = v_objs s) as Eo. { cbn. rewrite E3, lock_twice. pose proof (lock_same (v_objs s)) as E. by rewrite (vw_unlocked _ _ Hwf) in E. }
      split_and!; [done| |exact (sp_list _ _ _ _ _ Hsp)|done| |by rewrite Eo].
      * apply (ok_added s _ ls a asp l r y l1 l2 (va_arch asp)); [done|done|done|done|done|done| | |done|rewrite Eo; apply Hwf|rewrite Eo; apply Hwf|by rewrite Eo| |done|done|done|done].
        -- by apply locked_trees.
        -- cbn. rewrite E2, insert_id; [done|]. rewrite Ha. by destruct asp.
        -- intros o R HR. exists R. by rewrite Eo.
      * intros q x Hx [T1 T2]. rewrite (sp_list _ _ _ _ _ Hsp) in Hx. cbn in Hx. apply elem_of_app in Hx as [Hx|Hx]; [apply T1, (sp_below _ _ _ _ _ Hsp _ Hx)|apply T2, (sp_above _ _ _ _ _ Hsp _ Hx)].
    + right. exists ERR_OUT_OF_RANGE. rewrite (bind_eq _ _ _ _ _ Hrun), vmm_unlock_bind, (Hback s). split_and!; [done|done|by left].
  - destruct (alloc_specific_taken (locked true s) ls a asp l Hw0 Hl Ha Hao r vaddr (vr_size y) 0 VMM_FLAG_VALLOC_SPECIFIC VMM_REGION_FLAG_RESERVED (vr_mmu_flags y) Hu Hroom eq_refl Hadj l1 eqs l2 eq_refl Hy Hsp Hne) as (q & x & Hx & Hrun).
    { intros q x Hx. destruct (Hsub q x Hx). by apply (Hclean q x). }
    change (fresh_region VMM_REGION_FLAG_RESERVED VMM_FLAG_VALLOC_SPECIFIC (vr_mmu_flags y) vaddr (vr_size y)) with y in Hrun. destruct (Hsub q x Hx) as [Hxl Ht]. destruct (Hclean q x Hxl Ht) as [_ Hway].
    right. destruct (in_the_way asp y x) as [e|] eqn:He; [|done]. exists e. rewrite (bind_eq _ _ _ _ _ Hrun), vmm_unlock_bind, (Hback s). split_and!; [done| |by right; exists q, x].
    revert He. unfold in_the_way, specific_error. repeat case_decide; try destruct (found _ _) as [[]|]; intros [= <-]; done.
Qed.
End steps.

(** * New memory in a new region: vmm_alloc and vmm_alloc_contiguous *)

Section fresh.
Context `{!PmmConfig} `{!PmmLaws} `{!ObjRefs} `{!ArchMmu} `{!ArchLaws} `{!VmmConfig} `{!VmmLaws} {OB : Type} `{!PhysObjs OB} `{!PhysLaws OB} `{!ResConfig}.
Local Abbreviation MV := (M (vsys (OB := OB))).
Implicit Types (s : vsys (OB := OB)) (id : region_tree) (asp : vmm_aspace) (x y : vmm_region) (l : list (Z * vmm_region)) (ls : gmap region_tree (list (Z * vmm_region))).

(** Other references may come and go. *)
Lemma ok_objs s ls (X : OB) : vmm_ok s ls -> phys_ok X -> vmm_mutex_held X = false -> same_memory (v_objs s) X ->
  (forall id k q x o R, ls !! id = Some k -> (q, x) ∈ k -> vr_obj x = Some o -> phys_refs (v_objs s) o = Some R -> q ∈ R -> exists R', phys_refs X o = Some R' /\ q ∈ R') -> vmm_ok (with_vobjs X s) ls.
Proof.
  intros [[Hw Hasp Hpk Hlk Hbk] Htb] K1 K2 K3 K4.
  assert (forall id k q x, ls !! id = Some k -> (q, x) ∈ k -> backed (with_vobjs X s) q x) as Hb.
  { intros id k q x Hk Hx o Ho. destruct (Hbk id k q x Hk Hx) as [Hb _]. destruct (Hb o Ho) as [Hres (R & HR & Hq)]. split; [done|]. by apply (K4 id k q x o R). }
  split; [constructor; try done|].
  - by apply (same_trees_wf s).
  - intros id k q x Hk Hx. split; [by apply (Hb id k)|by apply (Hbk id k q x)].
  - intros b bsp k Hbs Hk. apply (shows_memory bsp k (v_objs s)); [done| |by apply (Htb b)]. intros q x o Hx Ho. destruct (Hbk _ k q x Hk Hx) as [Hb1 _]. destruct (Hb1 o Ho) as [_ (R & HR & _)].
    destruct (Hb _ k q x Hk Hx o Ho) as [_ (R' & HR' & _)]. by rewrite HR, HR'.
Qed.

(** The caller's reference on the object of a region goes away again. *)
Lemma drop_local s ls o ref R : vmm_ok s ls -> v_res s !! o = None -> phys_refs (v_objs s) o = Some R -> ref ∈ R -> ~ linked ls ref -> (R ∖ {[ref]} = ∅ -> phys_may_go (v_objs s) o) ->
  exists X : OB, vmm_obj_unref o ref s = Some (tt, with_vobjs X s) /\ (forall o', phys_refs X o' = refs_without ref o R (v_objs s) o') /\ same_memory (v_objs s) X /\ (R ∖ {[ref]} <> ∅ -> same_go (v_objs s) X) /\ vmm_ok (with_vobjs X s) ls.
Proof.
  intros Hk Hres HR Hin Hnl Hgo. pose proof (vk_wf _ _ Hk) as Hwf. destruct (del_ref_obj_run (base.size (v_res s)) s o R ref (vw_objs _ _ Hwf) (vw_unlocked _ _ Hwf) Hres HR Hin Hgo) as (X & Hrun & K1 & K2 & K3 & K5 & K4).
  exists X. split_and!; [unfold vmm_obj_unref; by rewrite gets_bind|done|done|done|]. apply ok_objs; [done|done|done|done|]. intros id k q x o' R' Hid Hx Ho HR' Hq. rewrite K4. unfold refs_without. case_decide as Hd; [|by exists R']. subst o'. assert (R' = R) as -> by congruence.
  assert (q ∈ R ∖ {[ref]}) as Hq'. { apply elem_of_difference. split; [done|]. intros ->%elem_of_singleton. apply Hnl. exists id, k. split; [done|]. apply list_elem_of_fmap. by exists (ref, x). }
  rewrite decide_False by set_solver. by exists (R ∖ {[ref]}).
Qed.

(** ** The call *)
Definition quota_group asp (flags : Z) : option Z := if has_flag VMM_FLAG_QUOTA flags then va_group asp else None.
Definition object_flags (flags mf pf : Z) : Z :=
  let f := if has_flag ARCH_MMU_FLAG_TAGGED mf then Z.lor pf (Z.lor PMM_ALLOC_FLAG_NO_CLEAR PMM_ALLOC_FLAG_ALLOW_TAGGED) else pf in
  if has_flag VMM_FLAG_QUOTA flags then Z.lor f PMM_ALLOC_FLAG_FROM_RESERVED else f.
(** Refused at once. *)
Definition bad_call asp (size flags mf : Z) : bool :=
  (pages_for size =? 0) || (has_flag ARCH_MMU_FLAG_TAGGED mf && negb arch_tagging_enabled) || (has_flag VMM_FLAG_QUOTA flags && bool_decide (va_group asp = None)).

(** The number of pages must fit 32 bits: the call would go on with what is left of it. Of
    the allocation of the object something is required only if the call gets that far. *)
Record new_call s ls asp l (mem_obj : option Z) (ref r size ptr lg flags mf pf plg : Z) : Prop := {
  nc_phys : has_flag VMM_FLAG_NO_PHYSICAL flags = false;
  nc_size : 0 <= size;
  nc_round : size + PAGE_SIZE - 1 < 2 ^ 64;
  nc_count : pages_for size < 2 ^ 32;
  nc_mem : forall o, mem_obj = Some o -> v_res s !! o = None;
  nc_ref : ref <> r /\ ~ linked ls ref;
  nc_alloc : bad_call asp size flags mf = false -> phys_may_alloc (v_objs s) mem_obj ref (quota_group asp flags) (pages_for size) (object_flags flags mf pf) plg;
  nc_request : forall mf', 0 < pages_for size -> request_ok asp l (pages_for size * PAGE_SIZE) (request_addr flags ptr) lg flags VMM_REGION_FLAG_PHYSICAL mf'
}.

Lemma pmm_start s ls a asp l mem_obj mem ref r size ptr lg flags mf pf plg : new_call s ls asp l mem_obj ref r size ptr lg flags mf pf plg -> v_aspaces s !! a = Some asp ->
  vmm_alloc_pmm mem_obj mem ref a size ptr lg flags mf pf plg s =
  (if bad_call asp size flags mf then Some ((ERR_INVALID_ARGS, ptr), s)
   else (x <- on_objs (po_alloc mem_obj ref (quota_group asp flags) (pages_for size) (object_flags flags mf pf) plg) ;; let '(e, o) := x in
         if negb (e =? 0) then ret (e, ptr)
         else o <- getsome (fun _ => o) ;; x <- vmm_alloc_obj mem a o 0 (pages_for size * PAGE_SIZE) ptr lg flags mf ;; vmm_obj_unref o ref ;; ret x : MV (Z * Z)) s).
Proof.
  intros [N1 N2 N3 N4 N5 N6 N7 N8] Ha. pose proof page_size_pos as Hps. destruct (pages_for_spec size N2 N3) as (R1 & R2 & R3). unfold vmm_alloc_pmm. rewrite assert_bind by (by rewrite N1). cbv zeta. rewrite R1.
  rewrite Z.div_mul by lia. rewrite u32_small by lia. assert ((pages_for size * PAGE_SIZE =? 0) = (pages_for size =? 0)) as ->. { destruct (Z.eqb_spec (pages_for size) 0) as [->|Hne]; [done|]. apply Z.eqb_neq. nia. }
  unfold bad_call, quota_group, object_flags. destruct (pages_for size =? 0); [done|]. cbn [orb]. destruct (has_flag ARCH_MMU_FLAG_TAGGED mf && negb arch_tagging_enabled); [done|]. cbn [orb].
  rewrite (get_aspace_bind a asp) by done. destruct (has_flag VMM_FLAG_QUOTA flags && bool_decide (va_group asp = None)); [done|]. done.
Qed.

(** Nothing is left of a call that failed. *)
Record left_alone s s' : Prop := {
  la_regions : v_regions s' = v_regions s;
  la_refs : forall o, phys_refs (v_objs s') o = phys_refs (v_objs s) o;
  la_tables : forall b, option_Forall2 same_tables (v_aspaces s !! b) (v_aspaces s' !! b)
}.
Lemma left_alone_refl s : left_alone s s.
Proof. constructor; try done. intros b. destruct (v_aspaces s !! b); constructor. apply same_tables_refl. Qed.

Lemma dead_linked s ls o id k q x : vmm_ok s ls -> phys_refs (v_objs s) o = None -> ls !! id = Some k -> (q, x) ∈ k -> vr_obj x <> Some o.
Proof. intros [Hwf _] Hn Hk Hx Ho. pose proof (backed_live s ls id k q x o Hwf Hk Hx Ho) as [R HR]. congruence. Qed.

Lemma refs_of_new (r ref : Z) : ref <> r -> ({[r]} ∪ {[ref]}) ∖ {[ref]} = ({[r]} ∪ ∅ : gset Z) /\ ({[r]} ∪ ∅ : gset Z) <> ∅.
Proof. intros Hne. split; set_solver. Qed.

Section got.
Context s ls (a : Z) asp l (mem_obj : option Z) (ref r o size ptr lg flags mf pf plg : Z) (X : OB).
Context (Hk : vmm_ok s ls) (Hl : ls !! AspaceTree a = Some l) (Ha : v_aspaces s !! a = Some asp) (Hu : unused_mem s r) (Hroom : room s).
Context (Hc : new_call s ls asp l mem_obj ref r size ptr lg flags mf pf plg) (Hpos : 0 < pages_for size).
Context (K1 : phys_ok X) (K2 : vmm_mutex_held X = false) (K3 : same_memory (v_objs s) X) (Hmem : mem_obj = Some o) (Hnew : phys_refs (v_objs s) o = None) (Hwhole : phys_whole X o (pages_for size * PAGE_SIZE))
  (Hgo : phys_may_go X o) (Hrefs : forall o', phys_refs X o' = if decide (o' = o) then Some {[ref]} else phys_refs (v_objs s) o').
Let s1 := with_vobjs X s.

Lemma got_ok : vmm_ok s1 ls.
Proof.
  apply ok_objs; [done|done|done|done|]. intros id k q x o' R Hid Hx Ho HR Hq. rewrite Hrefs. case_decide as Hd; [|by exists R]. subst o'. by destruct (dead_linked s ls o id k q x Hk Hnew Hid Hx).
Qed.

Lemma got_run : exists e s', (x <- vmm_alloc_obj (Some r) a o 0 (pages_for size * PAGE_SIZE) ptr lg flags mf ;; vmm_obj_unref o ref ;; ret x : MV (Z * Z)) s1 = Some (e, s') /\
  ((fst e = 0 /\ mapped_region s ls a asp l r o ∅ 0 (pages_for size * PAGE_SIZE) flags s' (snd e) /\ phys_may_go (v_objs s') o /\ (has_flag VMM_FLAG_VALLOC_SPECIFIC flags = true -> snd e = ptr)) \/
   (fst e <> 0 /\ snd e = ptr /\ vmm_ok s' ls /\ left_alone s s' /\ unused_mem s' r)).
Proof.
  destruct Hc as [N1 N2 N3 N4 N5 [N6 N6'] N7 N8]. pose proof page_size_pos as Hps. destruct (refs_of_new r ref N6) as [E1 E2]. destruct (pages_for_spec size N2 N3) as (P1 & P2 & P3).
  assert (obj_call s1 o {[ref]} r 0 (pages_for size * PAGE_SIZE)) as Hobj.
  { constructor; [by apply N5|by cbn; rewrite Hrefs, decide_True|set_solver|set_solver|lia|by apply paged_mult; exists 0| |done]. destruct (N8 0 Hpos) as [_ _ _ _ Q _ _]. pose proof (paged_pow 64) as Q64.
    assert (paged (2 ^ 64)) as Q' by (apply Q64; pose proof page_shift_range; lia). destruct (Z_lt_ge_dec (2 ^ 64) (pages_for size * PAGE_SIZE)) as [Hlt|]; [|lia]. pose proof (paged_lt _ _ Q' Q Hlt). lia. }
  destruct (alloc_obj_run s1 ls a asp l r o {[ref]} 0 (pages_for size * PAGE_SIZE) ptr lg flags mf got_ok Hl Ha Hu Hroom Hobj N1) as ([e p] & s2 & Hrun & Hout); [intros mf'; by apply N8|]. rewrite (bind_eq _ _ _ _ _ Hrun). cbn [fst snd] in Hout.
  destruct Hout as [(-> & (z & k1 & k2 & Hok2 & Hl2 & Hin & Hb & Ho & Hof & Hsz & Hfl & Hta & Hr2) & Hsg & Hsp)|(He & -> & Hok2 & [S1 S2 S3 S4 S5 S6] & Hu2)].
  - set (ls2 := <[AspaceTree a := k1 ++ (r, z) :: k2]> ls) in *. assert ((r, z) ∈ k1 ++ (r, z) :: k2) as Hrz by set_solver.
    destruct (vw_backed _ _ (vk_wf _ _ Hok2) (AspaceTree a) _ r z (lookup_insert_eq _ _ _) Hrz) as [Hbk _]. destruct (Hbk o Ho) as [Hres2 _].
    destruct (drop_local s2 ls2 o ref ({[r]} ∪ {[ref]}) Hok2 Hres2) as (X3 & Hdel & D1 & D2 & D4 & D3); [by rewrite Hr2, decide_True|set_solver| |intros E; rewrite E1 in E; by destruct (E2 E)|].
    { intros (id & k & Hk' & Hq). unfold ls2 in Hk'. destruct (decide (id = AspaceTree a)) as [->|Hne].
      - rewrite lookup_insert_eq in Hk'. injection Hk' as <-. apply N6'. exists (AspaceTree a), l. split; [done|]. rewrite Hl2. rewrite fmap_app, fmap_cons in Hq. cbn in Hq. rewrite fmap_app. set_solver.
      - rewrite lookup_insert_ne in Hk' by done. apply N6'. by exists id, k. }
    rewrite (bind_eq _ _ _ _ _ Hdel). exists (0, p), (with_vobjs X3 s2). split; [done|]. left. split_and!; [done| |apply D4; [by rewrite E1|by apply Hsg]|done]. exists z, k1, k2. split_and!; try done.
    intros o'. cbn. rewrite D1. unfold refs_without. rewrite E1. case_decide; [by rewrite decide_False|]. rewrite Hr2, decide_False by done. cbn. rewrite Hrefs. by rewrite decide_False.
  - assert (v_res s2 !! o = None) as Hres2 by (rewrite S2; by apply N5).
    destruct (drop_local s2 ls o ref {[ref]} Hok2 Hres2) as (X3 & Hdel & D1 & D2 & _ & D3); [rewrite S3; cbn; by rewrite Hrefs, decide_True|set_solver|done|intros _; by apply S5|].
    rewrite (bind_eq _ _ _ _ _ Hdel). exists (e, ptr), (with_vobjs X3 s2). split; [done|]. right. split_and!; [done|done|done| |done]. constructor; [done| |done].
    intros o'. cbn. rewrite D1. unfold refs_without. case_decide as Hd; [subst o'; rewrite decide_True by set_solver; done|]. rewrite S3. cbn. by rewrite Hrefs, decide_False.
Qed.
End got.

Lemma alloc_pmm_run s ls a asp l mem_obj ref r size ptr lg flags mf pf plg : vmm_ok s ls -> ls !! AspaceTree a = Some l -> v_aspaces s !! a = Some asp -> unused_mem s r -> room s ->
  new_call s ls asp l mem_obj ref r size ptr lg flags mf pf plg ->
  exists e s', vmm_alloc_pmm mem_obj (Some r) ref a size ptr lg flags mf pf plg s = Some (e, s') /\
    ((fst e = 0 /\ (exists o, mem_obj = Some o /\ phys_refs (v_objs s) o = None /\ mapped_region s ls a asp l r o ∅ 0 (pages_for size * PAGE_SIZE) flags s' (snd e) /\ phys_may_go (v_objs s') o) /\ (has_flag VMM_FLAG_VALLOC_SPECIFIC flags = true -> snd e = ptr)) \/
     (fst e <> 0 /\ snd e = ptr /\ vmm_ok s' ls /\ left_alone s s' /\ unused_mem s' r)).
Proof.
  intros Hk Hl Ha Hu Hroom Hc. rewrite (pmm_start s ls a asp l mem_obj (Some r) ref r size ptr lg flags mf pf plg Hc Ha). destruct (bad_call asp size flags mf) eqn:Hbad.
  { exists (ERR_INVALID_ARGS, ptr), s. split; [done|]. right. split_and!; try done. apply left_alone_refl. }
  pose proof Hc as [_ N2 N3 _ _ _ N7 _]. assert (0 < pages_for size) as Hpos. { destruct (pages_for_spec size N2 N3) as (_ & _ & R3). unfold bad_call in Hbad. destruct (Z.eqb_spec (pages_for size) 0); [done|lia]. }
  pose proof (vk_wf _ _ Hk) as Hwf.
  destruct (alloc_run (v_objs s) mem_obj ref (quota_group asp flags) (pages_for size) (object_flags flags mf pf) plg (vw_objs _ _ Hwf) (vw_unlocked _ _ Hwf) (N7 Hbad)) as (e & out & X & Hrun & K1 & K2 & K3 & Hout).
  rewrite (on_objs_bind _ _ s _ X Hrun). destruct out as [o|].
  - destruct Hout as (-> & Hm & Hnew & Hwhole & Hgo & Hrefs). change (negb (0 =? 0)) with false. cbv iota. rewrite (bind_eq _ _ _ _ _ (getsome_eq (fun _ => Some o) _ o eq_refl)).
    destruct (got_run s ls a asp l mem_obj ref r o size ptr lg flags mf pf plg X Hk Hl Ha Hu Hroom Hc Hpos K1 K2 K3 Hm Hnew Hwhole Hgo Hrefs) as (e & s' & Hs' & Hres).
    exists e, s'. split; [exact Hs'|]. destruct Hres as [(E1 & E2 & E4 & E3)|Hres]; [left|by right]. split_and!; [done|by exists o|done].
  - destruct Hout as [He Hrefs]. rewrite (proj2 (Z.eqb_neq e 0) He). exists (e, ptr), (with_vobjs X s). split; [done|]. right. split_and!; [done|done| | |done].
    + apply ok_objs; [done|done|done|done|]. intros id k q x o' R Hid Hx Ho HR Hq. exists R. by rewrite Hrefs.
    + constructor; [done|done|]. exact (la_tables _ _ (left_alone_refl s)).
Qed.
End fresh.
