(* ===== verification/VmmShape.v ===== *)
(** * What the allocators never change

    Arenas keep their place in memory, their size and their page structs whatever is
    allocated and freed, so the address of a page is always the same. *)
From stdpp Require Import base gmap list.
From Stdlib Require Import ZArith Lia.
From S2P Require Import Prelude Pmm PmmInv ResGroup.

Local Open Scope Z_scope.
Local Open Scope lk_scope.

(** ** Calls that keep states related *)
Definition keeps {S A} (R : S -> S -> Prop) (m : M S A) : Prop := forall s r s', m s = Some (r, s') -> R s s'.

Create HintDb keeps.

Section keeps.
Context {S : Type} (R : S -> S -> Prop) `{!PreOrder R}.
Lemma stays_ret {A} (x : A) : keeps R (ret x).
Proof. intros s r s' [= _ <-]. reflexivity. Qed.
Lemma stays_bind {A B} (m : M S A) (k : A -> M S B) : keeps R m -> (forall x, keeps R (k x)) -> keeps R (bind m k).
Proof.
  intros Hm Hk s r s' Hr. unfold bind in Hr. destruct (m s) as [[x s1]|] eqn:Hs; [|done]. etransitivity; [by apply (Hm s x s1)|by apply (Hk x s1 r s')].
Qed.
Lemma stays_assert b : keeps R (assert_ b).
Proof. destruct b; [apply stays_ret|done]. Qed.
Lemma stays_panic {A} : keeps R (panic : M S A).
Proof. done. Qed.
Lemma stays_gets {A} (f : S -> A) : keeps R (gets f).
Proof. intros s r s' [= _ <-]. reflexivity. Qed.
Lemma stays_getsome {A} (f : S -> option A) : keeps R (getsome f).
Proof. intros s r s' Hr. unfold getsome in Hr. destruct (f s); [|done]. injection Hr as _ <-. reflexivity. Qed.
Lemma stays_when b (m : M S unit) : keeps R m -> keeps R (when b m).
Proof. destruct b; [done|]. intros _. apply stays_ret. Qed.
Lemma stays_modify f : (forall s, R s (f s)) -> keeps R (modify f).
Proof. intros Hf s r s' [= _ <-]. apply Hf. Qed.
End keeps.
#[export] Hint Resolve stays_ret stays_assert stays_panic stays_gets stays_getsome stays_when : keeps.
(** Takes a call apart at its binds and branches. *)
Ltac keeps_step :=
  match goal with
  | |- keeps _ (bind _ _) => refine (stays_bind _ _ _ _ _); [|intros ?]
  | |- keeps _ (when _ _) => refine (stays_when _ _ _ _)
  | |- keeps _ (match ?x with _ => _ end) => destruct x
  | |- keeps _ (let _ := _ in _) => cbv zeta
  | |- keeps _ (modify _) => apply stays_modify; intros ?
  end.

Section shape.
Context `{!PmmConfig}.
Implicit Types (s : pmm) (a p i : Z) (ar : pmm_arena_t).

Definition shape ar : Z * Z * Z := (base ar, size ar, page_array ar).
Definition same_shape s s' : Prop := arena_list s' = arena_list s /\ forall a, shape <$> arenas s' !! a = shape <$> arenas s !! a.
#[export] Instance same_shape_preorder : PreOrder same_shape.
Proof. split; [done|]. intros x y z [L1 A1] [L2 A2]. split; [congruence|]. intros a. by rewrite A2. Qed.

Lemma shape_arenas s f : same_shape s (with_pages f s).
Proof. done. Qed.
Lemma keeps_upd_arena a f : (forall ar, shape (f ar) = shape ar) -> keeps same_shape (upd_arena a f).
Proof.
  intros Hf s r s' Hr. unfold upd_arena, bind, get_arena, getsome in Hr. destruct (arenas s !! a) as [ar|] eqn:Har; [|done]. injection Hr as _ <-. split; [done|]. intros b. cbn.
  destruct (decide (b = a)) as [->|Hne]; [rewrite lookup_insert_eq, Har; cbn; by rewrite Hf|by rewrite lookup_insert_ne].
Qed.

(** ** The calls of pmm.c *)
Local Abbreviation shaped := (keeps same_shape).
Ltac upd_arenas := repeat first [solve [eauto with keeps typeclass_instances]|solve [apply keeps_upd_arena; intros; reflexivity]|keeps_step|solve [split; [reflexivity|intros; reflexivity]]].
Lemma shaped_get_arena a : shaped (get_arena a).
Proof. apply stays_getsome, _. Qed.
Lemma shaped_upd_page p f : shaped (upd_page p f).
Proof. unfold upd_page, get_page. upd_arenas. Qed.
Hint Resolve shaped_get_arena shaped_upd_page : keeps.

Lemma shaped_mutex : shaped mutex_acquire /\ shaped mutex_release /\ shaped spin_lock /\ shaped spin_unlock.
Proof. unfold mutex_acquire, mutex_release, spin_lock, spin_unlock. split_and!; upd_arenas. Qed.
Lemma shaped_acquire : shaped mutex_acquire.
Proof. apply shaped_mutex. Qed.
Lemma shaped_release : shaped mutex_release.
Proof. apply shaped_mutex. Qed.
Lemma shaped_spin_lock : shaped spin_lock.
Proof. apply shaped_mutex. Qed.
Lemma shaped_spin_unlock : shaped spin_unlock.
Proof. apply shaped_mutex. Qed.
Hint Resolve shaped_acquire shaped_release shaped_spin_lock shaped_spin_unlock : keeps.

Lemma shaped_find_arena l test : shaped (find_arena l test).
Proof. induction l as [|a l IH]; cbn [find_arena]; upd_arenas. Qed.
Hint Resolve shaped_find_arena : keeps.
Lemma shaped_lists pl p : shaped (list_initialize pl) /\ shaped (list_add_tail pl p) /\ shaped (list_add_head pl p) /\ shaped (Pmm.list_delete p) /\ shaped (Pmm.list_remove_head pl) /\ shaped (in_list p).
Proof. unfold list_initialize, list_add_tail, list_add_head, Pmm.list_delete, Pmm.list_remove_head, in_list, get_list. split_and!; upd_arenas. Qed.
Lemma shaped_initialize pl : shaped (list_initialize pl).
Proof. by apply (shaped_lists pl 0). Qed.
Lemma shaped_add_tail pl p : shaped (list_add_tail pl p).
Proof. by apply shaped_lists. Qed.
Lemma shaped_add_head pl p : shaped (list_add_head pl p).
Proof. by apply shaped_lists. Qed.
Lemma shaped_delete p : shaped (Pmm.list_delete p).
Proof. by apply (shaped_lists LocalList). Qed.
Lemma shaped_remove_head pl : shaped (Pmm.list_remove_head pl).
Proof. by apply (shaped_lists pl 0). Qed.
Lemma shaped_in_list p : shaped (in_list p).
Proof. by apply (shaped_lists LocalList). Qed.
Hint Resolve shaped_initialize shaped_add_tail shaped_add_head shaped_delete shaped_remove_head shaped_in_list : keeps.
Lemma shaped_splice pl pl' : shaped (list_splice_tail pl pl').
Proof. unfold list_splice_tail, get_list. upd_arenas. Qed.
Hint Resolve shaped_splice : keeps.

Lemma shaped_page_to_paddr p : shaped (vm_page_to_paddr p).
Proof. unfold vm_page_to_paddr. upd_arenas. Qed.
Hint Resolve shaped_page_to_paddr : keeps.
Lemma shaped_clear_page p : shaped (clear_page p).
Proof. unfold clear_page, paddr_to_kvaddr, pmm_paddr_to_kvaddr. upd_arenas. Qed.
Hint Resolve shaped_clear_page : keeps.

Lemma shaped_check l : forall count reserve, shaped (check_available l count reserve).
Proof. induction l as [|a l IH]; intros count reserve; cbn [check_available]; upd_arenas. Qed.
Hint Resolve shaped_check : keeps.
Lemma shaped_reserve count : shaped (pmm_reserve_pages count).
Proof. unfold pmm_reserve_pages, check_available_pages. upd_arenas. Qed.
Lemma shaped_unreserve_walk l : forall count, shaped (unreserve l count).
Proof. induction l as [|a l IH]; intros count; cbn [unreserve]; upd_arenas. Qed.
Hint Resolve shaped_unreserve_walk : keeps.
Lemma shaped_unreserve count : shaped (pmm_unreserve_pages count).
Proof. unfold pmm_unreserve_pages. upd_arenas. Qed.
Lemma shaped_free_pages fuel pl : forall count, shaped (free_pages fuel pl count).
Proof. induction fuel as [|fuel IH]; intros count; cbn [free_pages]; upd_arenas. Qed.
Hint Resolve shaped_reserve shaped_unreserve shaped_free_pages : keeps.
Lemma shaped_free pl : shaped (pmm_free pl).
Proof. unfold pmm_free, pmm_free_locked, get_list. upd_arenas. Qed.
Hint Resolve shaped_free : keeps.

Lemma shaped_first_used n ar start : forall i, shaped (first_used n ar start i).
Proof. induction n as [|n IH]; intros i; cbn [first_used]; unfold get_page; upd_arenas. Qed.
Hint Resolve shaped_first_used : keeps.
Lemma shaped_search fuel ar count off step : forall start, shaped (search_run fuel ar count off step start).
Proof. induction fuel as [|fuel IH]; intros start; cbn [search_run]; upd_arenas. Qed.
Hint Resolve shaped_search : keeps.
Lemma shaped_find_run a count lg : shaped (pmm_arena_find_free_run a count lg).
Proof. unfold pmm_arena_find_free_run. upd_arenas. Qed.
Hint Resolve shaped_find_run : keeps.
Lemma shaped_take_pages n a count flags want : forall x, shaped (take_pages n a count flags want x).
Proof. induction n as [|n IH]; intros [[al st] out]; cbn [take_pages]; unfold take_one, get_page; upd_arenas. Qed.
Hint Resolve shaped_take_pages : keeps.
Lemma shaped_alloc_arenas l count flags lg want : forall x, shaped (alloc_arenas l count flags lg want x).
Proof. induction l as [|a l IH]; intros [[al st] out]; cbn [alloc_arenas]; upd_arenas. Qed.
Hint Resolve shaped_alloc_arenas : keeps.
Lemma shaped_alloc pl want count flags lg : shaped (pmm_alloc_pages_locked pl want count flags lg).
Proof. unfold pmm_alloc_pages_locked, pmm_free_locked, get_list. upd_arenas. Qed.
Hint Resolve shaped_alloc : keeps.

(** ** The address of a page *)
Lemma find_arena_same l test s r s' : find_arena l test s = Some (r, s') -> s' = s.
Proof.
  induction l as [|a l IH]; cbn [find_arena]; [by intros [= _ <-]|]. unfold get_arena, bind, getsome. destruct (arenas s !! a) as [ar|]; [|done]. destruct (test ar); [by intros [= _ <-]|exact IH].
Qed.
Definition page_addr (P : pmm) p : option Z := fst <$> vm_page_to_paddr p P.
Definition pages_of (sh : Z * Z * Z) : Z := snd (fst sh) / PAGE_SIZE.
Lemma shape_belongs p ar ar' : shape ar' = shape ar -> PAGE_BELONGS_TO_ARENA p ar' = PAGE_BELONGS_TO_ARENA p ar /\ PAGE_ADDRESS_FROM_ARENA p ar' = PAGE_ADDRESS_FROM_ARENA p ar.
Proof. unfold shape, PAGE_BELONGS_TO_ARENA, PAGE_ADDRESS_FROM_ARENA, page_count. by intros [= -> -> ->]. Qed.

Lemma shape_find s s' l p : same_shape s s' -> fst <$> find_arena l (PAGE_BELONGS_TO_ARENA p) s' = fst <$> find_arena l (PAGE_BELONGS_TO_ARENA p) s.
Proof.
  intros [_ Hs]. induction l as [|a l IH]; [done|]. cbn [find_arena]. unfold get_arena, bind, getsome. specialize (Hs a). destruct (arenas s !! a) as [ar|], (arenas s' !! a) as [ar'|]; try done.
  cbn in Hs. injection Hs as E1 E2 E3. destruct (shape_belongs p ar ar') as [-> _]; [unfold shape; congruence|]. by destruct (PAGE_BELONGS_TO_ARENA p ar).
Qed.
Lemma page_addr_shape s s' p : same_shape s s' -> page_addr s' p = page_addr s p.
Proof.
  intros Hs. pose proof (shape_find s s' (arena_list s) p Hs) as Hf. destruct Hs as [Hl Ha]. unfold page_addr, vm_page_to_paddr. rewrite !gets_bind, Hl. unfold bind.
  destruct (find_arena (arena_list s) (PAGE_BELONGS_TO_ARENA p) s) as [[r s1]|] eqn:H1, (find_arena (arena_list s) (PAGE_BELONGS_TO_ARENA p) s') as [[r' s1']|] eqn:H2; try done.
  cbn in Hf. injection Hf as ->. assert (s1 = s) as -> by (revert H1; apply find_arena_same). assert (s1' = s') as -> by (revert H2; apply find_arena_same). destruct r as [a|]; [|done].
  unfold get_arena, getsome. specialize (Ha a). destruct (arenas s !! a) as [ar|], (arenas s' !! a) as [ar'|]; try done. cbn in Ha |- *. injection Ha as E1 E2 E3. destruct (shape_belongs p ar ar') as [_ ->]; [unfold shape; congruence|done].
Qed.
End shape.
#[export] Hint Resolve shaped_reserve shaped_unreserve shaped_free shaped_alloc shaped_initialize shaped_acquire shaped_release shaped_page_to_paddr : keeps.
#[export] Hint Extern 0 (keeps same_shape (modify _)) => apply stays_modify; intros; split; [reflexivity|intros; reflexivity] : keeps.

(** ** Groups and objects *)
Section groups.
Context `{!PmmConfig} `{!ObjRefs} `{!ResConfig}.
Implicit Types (s : rsys) (o g n ref : Z).

Definition same_places s s' : Prop := same_shape (r_pmm s) (r_pmm s').
#[export] Instance same_places_preorder : PreOrder same_places.
Proof. unfold same_places. split; [intros x; reflexivity|intros x y z Hxy Hyz; by etransitivity]. Qed.
Local Abbreviation placed := (keeps same_places).

Lemma placed_on_pmm {A} (m : M pmm A) : keeps same_shape m -> placed (on_pmm m).
Proof. intros Hm s r s' Hr. unfold on_pmm in Hr. destruct (m (r_pmm s)) as [[x P]|] eqn:Hx; [|done]. injection Hr as _ <-. by apply (Hm (r_pmm s) x P). Qed.
Lemma placed_modify f : (forall s, r_pmm (f s) = r_pmm s) -> placed (modify f).
Proof. intros Hf s r s' [= _ <-]. unfold same_places. rewrite Hf. reflexivity. Qed.
Hint Resolve placed_on_pmm : keeps.
Hint Extern 0 (keeps same_places (modify _)) => apply placed_modify; reflexivity : keeps.
Ltac groups_placed := repeat first [solve [eauto with keeps typeclass_instances]|keeps_step].

Lemma placed_group g : placed (get_group g) /\ (forall f, placed (upd_group g f)) /\ placed group_lock_acquire /\ placed group_lock_release.
Proof. unfold get_group, upd_group, get_group, group_lock_acquire, group_lock_release. split_and!; intros; groups_placed. Qed.
Lemma placed_get_group g : placed (get_group g).
Proof. apply placed_group. Qed.
Lemma placed_upd_group g f : placed (upd_group g f).
Proof. apply placed_group. Qed.
Lemma placed_lock : placed group_lock_acquire.
Proof. apply (placed_group 0). Qed.
Lemma placed_unlock : placed group_lock_release.
Proof. apply (placed_group 0). Qed.
Lemma placed_get_obj o : placed (get_obj o).
Proof. apply stays_getsome, _. Qed.
Hint Resolve placed_get_group placed_upd_group placed_lock placed_unlock placed_get_obj : keeps.
Lemma placed_upd_obj o f : placed (upd_obj o f).
Proof. unfold upd_obj. groups_placed. Qed.
Hint Resolve placed_upd_obj : keeps.

Lemma placed_release_mem g n : placed (res_group_release_mem g n).
Proof. unfold res_group_release_mem. groups_placed. Qed.
Lemma placed_take_mem g n : placed (res_group_take_mem g n).
Proof. unfold res_group_take_mem. groups_placed. Qed.
Lemma placed_add_ref g ref : placed (res_group_add_ref g ref).
Proof. unfold res_group_add_ref. groups_placed. Qed.
Lemma placed_del_ref g ref : placed (res_group_del_ref g ref).
Proof. unfold res_group_del_ref, res_group_destroy. groups_placed. Qed.
Lemma placed_free_obj o : placed (free_obj o).
Proof. unfold free_obj. groups_placed. Qed.
Lemma placed_alloc_obj mem count size : placed (pmm_alloc_obj mem count size).
Proof. unfold pmm_alloc_obj. groups_placed. Qed.
Hint Resolve placed_release_mem placed_take_mem placed_add_ref placed_del_ref placed_free_obj placed_alloc_obj : keeps.
Lemma placed_destroy o : placed (pmm_vmm_obj_destroy o).
Proof. unfold pmm_vmm_obj_destroy. groups_placed. Qed.
Lemma placed_alloc mem ref act (go : option Z) count flags lg : placed (pmm_alloc_from_res_group mem ref act go count flags lg).
Proof. unfold pmm_alloc_from_res_group, vmm_obj_init. groups_placed. Qed.
End groups.
