(* ===== verification/VmmPhys.v ===== *)
(** * Memory objects of pmm.c behind regions

    The objects of pmm.c, with the resource groups they draw on, keep the laws that
    vmm.c relies on. *)
From stdpp Require Import base gmap list.
From Stdlib Require Import ZArith Lia.
From S2P Require Import Prelude Pmm PmmInv PmmGrab PmmAlloc PmmRun PmmFree PmmPages PmmReserve PmmOutcome ResGroup ResInv ResOps ResAlloc ResProps Vmm VmmSpot VmmInv VmmShape.

Local Open Scope Z_scope.
Local Open Scope lk_scope.

Section phys.
Context `{!PmmConfig} `{!PmmLaws} `{!ObjRefs} `{!RefLaws} `{!ResConfig}.
Implicit Types (o g n ref : Z) (s : rsys) (y : pmm_vmm_obj).

(** All flags are allowed. *)
Definition pmm_vmm_obj_check_flags (o arch_mmu_flags : Z) : M rsys (Z + Z) := ret (inr arch_mmu_flags).
Definition ref_add (o ref : Z) : M rsys unit := v <- get_vmm_obj o ;; upd_obj o (set_vmm_obj (Some (obj_add_ref ref v))).
Definition ref_del (o ref : Z) : M rsys bool :=
  v <- get_vmm_obj o ;; let '(v, dead) := obj_del_ref ref v in upd_obj o (set_vmm_obj (Some v)) ;; ret dead.

#[export] Instance pmm_objs : PhysObjs rsys := {
  vmm_mutex_held := vmm_lock;
  set_vmm_mutex := with_vmm_lock;
  po_check_flags := pmm_vmm_obj_check_flags;
  po_get_page := pmm_vmm_obj_get_page;
  po_destroy := pmm_vmm_obj_destroy;
  po_add_ref := ref_add;
  po_del_ref := ref_del;
  po_needs_clear := pmm_vmm_is_pmm_that_needs_clear;
  po_allows_tagged := pmm_vmm_is_pmm_that_allows_tagged;
  po_set_cleared := pmm_set_cleared;
  po_set_tagged := pmm_set_tagged;
  po_alloc mem ref go n flags lg := pmm_alloc_from_res_group mem ref false go n flags lg;
  po_group_create := res_group_create;
  po_group_shutdown g := _ <- res_group_shutdown g ;; ret tt;
  po_group_del_ref := res_group_del_ref
}.

(** ** What holds of objects *)

(** Each chunk of an object is memory of one arena. *)
Definition chunk_at (P : pmm) (n p : Z) : Prop :=
  exists a ar i, a ∈ arena_list P /\ arenas P !! a = Some ar /\ 0 <= i < page_count ar /\ p = page_at ar i /\ i * PAGE_SIZE + n <= size ar.
Record chunks_ok (P : pmm) y : Prop := {
  co_size : 0 < chunk_size y < 2 ^ 64;
  co_paged : paged (chunk_size y);
  co_count : chunk_count y = Z.of_nat (length (chunk y));
  co_chunk : forall p, p ∈ chunk y -> chunk_at P (chunk_size y) p
}.
Record objs_inv s : Prop := {
  oi_res : res_inv s;
  oi_chunks : forall o y, objs s !! o = Some y -> chunks_ok (r_pmm s) y
}.

Lemma chunk_at_shape P P' n p : same_shape P P' -> chunk_at P n p -> chunk_at P' n p.
Proof.
  intros [Hl Ha] (a & ar & i & H1' & H2' & H3' & H4' & H5'). specialize (Ha a). rewrite H2' in Ha. destruct (arenas P' !! a) as [ar'|] eqn:Har; [|done]. cbn in Ha. injection Ha as E1 E2 E3.
  exists a, ar', i. rewrite Hl. unfold page_count, page_at in *. rewrite E2, E3. done.
Qed.
Lemma chunks_shape P P' y : same_shape P P' -> chunks_ok P y -> chunks_ok P' y.
Proof. intros Hs [C1 C2 C3 C4]. constructor; [done|done|done|]. intros p Hp. by apply (chunk_at_shape P), C4. Qed.

(** The address of the byte at an offset. *)
Definition byte_addr s o (off : Z) : option Z :=
  match objs s !! o with
  | Some y => match chunk y !! Z.to_nat (off / chunk_size y) with Some p => (fun pa => pa + off mod chunk_size y) <$> page_addr (r_pmm s) p | None => None end
  | None => None
  end.

Definition refs_of s o : option (gset Z) := match objs s !! o with Some y => obj_refs <$> vmm_obj y | None => None end.
Definition whole_size s o n : Prop := exists y, objs s !! o = Some y /\ n = chunk_count y * chunk_size y /\ n < 2 ^ 64.
Definition may_be_destroyed s o : Prop := forall y, objs s !! o = Some y -> may_go s o y.
Definition flag_of (f : Z) s o : bool := match objs s !! o with Some y => obj_flag f y | None => false end.

Lemma refs_of_some s o R : refs_of s o = Some R -> exists y v, objs s !! o = Some y /\ vmm_obj y = Some v /\ obj_refs v = R.
Proof. unfold refs_of. destruct (objs s !! o) as [y|]; [|done]. destruct (vmm_obj y) as [v|] eqn:Hv; [|done]. cbn. intros [= <-]. by exists y, v. Qed.
Lemma refs_insert s o y v o' : refs_of (with_objs <[o := set_vmm_obj (Some v) y]> s) o' = if decide (o' = o) then Some (obj_refs v) else refs_of s o'.
Proof. unfold refs_of. cbn. case_decide as Hd; [subst; by rewrite lookup_insert_eq|by rewrite lookup_insert_ne]. Qed.

Lemma unlocked s : with_vmm_lock (vmm_lock s) s = s.
Proof. by destruct s. Qed.

(** An object whose references or flags change stays where it is. *)
Definition same_chunks y y' : Prop := chunk_count y' = chunk_count y /\ chunk_size y' = chunk_size y /\ chunk y' = chunk y.
Lemma byte_addr_insert s o y y' o' : objs s !! o = Some y -> same_chunks y y' -> byte_addr (with_objs <[o := y']> s) o' = byte_addr s o'.
Proof.
  intros Hy (E1 & E2 & E3). destruct (decide (o' = o)) as [->|Hne].
  - unfold byte_addr. cbn. rewrite lookup_insert_eq, Hy. by rewrite E2, E3.
  - unfold byte_addr. cbn. by rewrite lookup_insert_ne.
Qed.
Lemma whole_insert s o y y' o' n : objs s !! o = Some y -> same_chunks y y' -> whole_size s o' n -> whole_size (with_objs <[o := y']> s) o' n.
Proof.
  intros Hy (E1 & E2 & E3) (z & Hz & Hn). destruct (decide (o' = o)) as [->|Hne].
  - exists y'. cbn. rewrite lookup_insert_eq, E1, E2. by assert (z = y) as <- by congruence.
  - exists z. cbn. by rewrite lookup_insert_ne.
Qed.
Lemma go_insert s o y y' o' : objs s !! o = Some y -> o_group y' = o_group y -> may_be_destroyed s o' -> may_be_destroyed (with_objs <[o := y']> s) o'.
Proof.
  intros Hy Hg Hgo z. destruct (decide (o' = o)) as [->|Hne]; cbn; [rewrite lookup_insert_eq; intros [= <-]|rewrite lookup_insert_ne by done; apply Hgo].
  unfold may_go. rewrite Hg. exact (Hgo y Hy).
Qed.
Lemma res_inv_same s o y y' : res_inv s -> objs s !! o = Some y -> o_group y' = o_group y -> o_used_pages y' = o_used_pages y -> res_inv (with_objs <[o := y']> s).
Proof.
  intros Hi Hy Hg Hu. destruct (ri_locks _ Hi) as (Q1 & Q2 & Q3 & Q4). unfold with_objs. rewrite Q3, Q4. apply (res_inv_objs s); [apply Hi|done| |apply Hi|].
  - intros k x Hk. rewrite (msum_update _ _ _ y) by done. pose proof (ri_groups _ Hi k x Hk). rewrite <- (ri_used _ Hi k x Hk). assert (held k y' = held k y) as -> by (unfold held; by rewrite Hg, Hu). lia.
  - intros o' z. destruct (decide (o' = o)) as [->|Hne]; [rewrite lookup_insert_eq; intros [= <-]|rewrite lookup_insert_ne by done; exact (ri_objs _ Hi o' z)].
    destruct (ri_objs _ Hi o y Hy) as (ps & Hps & Hok). exists ps. split; [done|]. unfold obj_ok in *. rewrite Hg, Hu. exact Hok.
Qed.
Lemma objs_inv_insert s o y y' : objs_inv s -> objs s !! o = Some y -> same_chunks y y' -> o_group y' = o_group y -> o_used_pages y' = o_used_pages y -> objs_inv (with_objs <[o := y']> s).
Proof.
  intros [Hi Hc] Hy Hs Hg Hu. split; [by apply (res_inv_same s o y)|]. intros o' z. cbn. destruct (decide (o' = o)) as [->|Hne]; [rewrite lookup_insert_eq; intros [= <-]|rewrite lookup_insert_ne by done; apply Hc].
  destruct (Hc o y Hy) as [C1 C2 C3 C4], Hs as (E1 & E2 & E3). constructor; rewrite ?E1, ?E2, ?E3; done.
Qed.

(** ** Pages of a new object *)
Lemma page_chunk P a ar i p : is_page P a ar i p -> chunk_at P PAGE_SIZE p.
Proof. intros (Q1 & Q2 & Q3 & Q4). exists a, ar, i. pose proof (page_bounds ar i Q3). split_and!; try done; lia. Qed.
Lemma run_chunk P pa m n ps p : run_at P pa m n ps -> 0 < n -> ps !! 0%nat = Some p -> chunk_at P (n * PAGE_SIZE) p.
Proof.
  intros (a & ar & st & Q1 & Q2 & Q3 & Q4 & -> & _) Hn. replace n with (Z.of_nat (S (Z.to_nat (n - 1)))) at 1 by lia. rewrite seqZ_cons by lia. intros [= <-]. exists a, ar, st.
  assert (0 <= st + n - 1 < page_count ar) as Hlast by lia. pose proof (page_bounds ar _ Hlast) as Hb. split_and!; try done; try lia.
Qed.

Lemma alloc_chunks pl count flags lg (P : pmm) : alloc_ok pl count flags lg P -> exists r out P', pmm_alloc_pages_locked pl true count flags lg P = Some ((r, out), P') /\
  ((r = 0 /\ (exists ps, succeeded pl count flags ps P P') /\ Z.of_nat (length out) = fst (chunks flags count) /\ forall p, p ∈ out -> chunk_at P (if contiguous flags then count * PAGE_SIZE else PAGE_SIZE) p) \/
   (r = ERR_NO_MEMORY /\ failed P P')).
Proof.
  intros Hok. pose proof (al_count _ _ _ _ _ Hok) as Hc. unfold chunks. destruct (contiguous (effective count flags lg)) eqn:Hco.
  - pose proof Hco as Hcf. rewrite (effective_contiguous count flags lg Hco) in Hcf. rewrite Hcf.
    destruct (alloc_run_run pl true count flags lg P Hok Hco) as [(ps & P' & Hr & Hs & Hch)|(out & P' & Hr & Hf & _)]; eexists _, _, P'; (split; [exact Hr|]); [left|by right].
    split_and!; [done|by exists ps| |]; destruct (chosen_at _ _ _ _ _ Hch) as (pa & Hpa); destruct Hs as (_ & _ & Hn); (destruct ps as [|p ps]; [cbn in Hn; lia|]); [done|].
    intros q Hq. cbn in Hq. apply list_elem_of_singleton in Hq as ->. exact (run_chunk P pa _ count (p :: ps) p Hpa ltac:(lia) eq_refl).
  - pose proof (alloc_any_run pl true count flags lg P Hok Hco) as Ha. destruct (count <=? _); destruct Ha as (ps & P' & Hr & Hs); eexists _, _, P'; (split; [exact Hr|]); [left|by right].
    assert (forall p, p ∈ ps -> chunk_at P PAGE_SIZE p) as Hp.
    { intros p Hp. destruct Hs as (Hg & _). destruct (gr_free _ _ _ _ _ Hg p Hp) as (a & ar & i & fl & Hpg & _). exact (page_chunk P a ar i p Hpg). }
    pose proof Hs as (_ & _ & Hn). split_and!; [done|by exists ps| |]; destruct (contiguous flags) eqn:Hcf; cbn [fst]; try done.
    + unfold effective in Hco. rewrite Hcf in Hco. cbn [andb] in Hco. destruct (Z.eqb_spec count 1); cbn [andb] in Hco; [lia|congruence].
    + unfold effective in Hco. rewrite Hcf in Hco. cbn [andb] in Hco. destruct (Z.eqb_spec count 1) as [->|]; cbn [andb] in Hco; [|congruence]. by rewrite Z.mul_1_l.
Qed.

Lemma count_bytes n : 0 < n < 2 ^ 32 -> 0 < n * PAGE_SIZE < 2 ^ 64.
Proof.
  intros Hn. pose proof page_size_pos. split; [lia|]. rewrite page_size_pow. destruct page_shift_range as [_ Q2]. pose proof (Z.pow_lt_mono_r 2 PAGE_SIZE_SHIFT 32). replace (2 ^ 64) with (2 ^ 32 * 2 ^ 32) by reflexivity. nia.
Qed.

Definition may_alloc s (mem : option Z) (ref : Z) (go : option Z) (n flags lg : Z) : Prop :=
  call_ok s mem go n flags lg /\ forall g x o, go = Some g -> groups s !! g = Some x -> mem = Some o -> obj_refs (rg_obj x) ∖ {[o]} <> ∅.

Lemma alloc_obj_outcome s mem ref go n flags lg : objs_inv s -> may_alloc s mem ref go n flags lg ->
  exists e out s', pmm_alloc_from_res_group mem ref false go n flags lg s = Some ((e, out), s') /\ objs_inv s' /\
    match out with
    | Some o => e = 0 /\ mem = Some o /\ objs s !! o = None /\ (exists y, objs s' = <[o := y]> (objs s) /\ vmm_obj y = Some (obj_init ref) /\ chunk_count y * chunk_size y = n * PAGE_SIZE) /\ may_be_destroyed s' o
    | None => e <> 0 /\ objs s' = objs s
    end.
Proof.
  intros [Hi Hch] [Hca Hg]. assert (forall r s', pmm_alloc_from_res_group mem ref false go n flags lg s = Some (r, s') -> same_places s s') as Hpl by (intros r s'; apply placed_alloc).
  assert (forall s', same_places s s' -> forall o y, objs s !! o = Some y -> chunks_ok (r_pmm s') y) as Hold by (intros s' Hs o y Hy; apply (chunks_shape (r_pmm s)); [exact Hs|by apply (Hch o)]).
  destruct (decide (take_code s go n <> 0 \/ mem = None)) as [Hno|Hyes].
  { eexists _, None, s. split; [by apply alloc_refused_run|]. split; [by split|]. split; [|done]. destruct (Z.eqb_spec (take_code s go n) 0); [done|]. done. }
  destruct mem as [o|]; [|tauto]. assert (take_code s go n = 0) as Hz by (destruct (decide (take_code s go n = 0)); [done|tauto]).
  destruct (alloc_chunks (Some (PageList o)) n flags lg (prepared_pmm o (r_pmm s))) as (r & out & P' & Hrun & [(-> & (ps & Hs) & Hlen & Hck)|(-> & Hf)]); [apply prepared_alloc_ok; [apply Hi|apply Hi|apply Hca|apply Hca]| |].
  - destruct (core_success s o ref go n flags lg Hi Hca Hz out P' ps Hrun Hs) as (s' & Hs' & Hi' & Eo & Eg & _). exists 0, (Some o), s'. pose proof (Hpl _ _ Hs') as Hp. pose proof (ca_mem _ _ _ _ _ _ Hca o eq_refl) as Ho.
    pose proof (count_bytes n (ca_count _ _ _ _ _ _ Hca)) as Hb. pose proof page_size_pos as Hps.
    assert (snd (chunks flags n) = if contiguous flags then n * PAGE_SIZE else PAGE_SIZE) as Hsz by (unfold chunks; destruct (contiguous flags); [cbn; apply u64_small; lia|done]).
    assert (PAGE_SIZE < 2 ^ 64) as Hp64 by (rewrite page_size_pow; apply Z.pow_lt_mono_r; pose proof page_shift_range; lia).
    split; [done|]. split; [split; [done|]|split_and!; [done|done|done| |]].
    + intros o' y. rewrite Eo. destruct (decide (o' = o)) as [->|Hne]; [rewrite lookup_insert_eq; intros [= <-]|rewrite lookup_insert_ne by done; by apply Hold]. constructor; cbn; rewrite ?Hsz.
      * destruct (contiguous flags); lia.
      * destruct (contiguous flags); [apply paged_mult; by exists n|apply paged_page].
      * done.
      * intros p Hpo. apply (chunk_at_shape (r_pmm s)); [exact Hp|]. exact (Hck p Hpo).
    + exists (whole_obj ref go flags n out). split_and!; [done|done|]. cbn. rewrite Hsz. unfold chunks. destruct (contiguous flags); cbn; lia.
    + intros y. rewrite Eo, lookup_insert_eq. intros [= <-] g x Hgo Hx Hre. cbn in Hgo. subst go. exfalso. destruct (ca_group _ _ _ _ _ _ Hca g eq_refl) as [x0 Hx0]. unfold groups_with in Eg. rewrite Hx0 in Eg. rewrite Eg, lookup_insert_eq in Hx. injection Hx as <-.
      cbn in Hre. rewrite refs_add in Hre. apply (Hg g x0 o eq_refl Hx0 eq_refl). set_solver.
  - destruct (core_failure s o ref go n flags lg Hi Hca Hz out P' Hrun Hf) as (s' & Hs' & Hi' & Eo & _). exists ERR_NO_MEMORY, None, s'. split_and!; [done| |done|done]. split; [done|]. rewrite Eo. apply Hold. by apply (Hpl _ _ Hs').
Qed.

(** ** The laws *)
Definition objs_ok s : Prop := objs_inv (with_vmm_lock false s).

Lemma paged_scale n k : paged n -> paged (n * k).
Proof. intros [m ->]%paged_mult. apply paged_mult. exists (m * k). ring. Qed.

Lemma get_page_law s o R off : objs_ok s -> refs_of s o = Some R -> 0 <= off < 2 ^ 64 -> paged off ->
  exists p, pmm_vmm_obj_get_page o off s = Some (p, s) /\
    match p with
    | inl e => e <> 0 /\ forall n, whole_size s o n -> n <= off
    | inr (pa, n) => paged pa /\ paged n /\ 0 < n /\ forall j, 0 <= j < n -> paged j -> byte_addr s o (off + j) = Some (pa + j)
    end.
Proof.
  intros Hok HR Ho Hpo. destruct (refs_of_some s o R HR) as (y & v & Hy & _ & _). pose proof (oi_chunks _ Hok o y Hy) as [[C1 C1'] C2 C3 C4]. cbn in C4. unfold pmm_vmm_obj_get_page. rewrite (get_obj_bind o y) by done. cbv zeta.
  pose proof (Z.div_mod off (chunk_size y)) as Hdm. pose proof (Z.mod_pos_bound off (chunk_size y) C1) as Hmb. assert (0 <= off / chunk_size y) as Hq by (apply Z.div_pos; lia).
  destruct (Z.geb_spec (off / chunk_size y) (chunk_count y)) as [Hge|Hlt].
  - exists (inl ERR_OUT_OF_RANGE). split; [done|]. split; [done|]. intros n (y' & Hy' & -> & _). assert (y' = y) as -> by congruence. nia.
  - destruct (lookup_lt_is_Some_2 (chunk y) (Z.to_nat (off / chunk_size y))) as [p Hp]; [lia|]. rewrite (bind_eq _ _ _ _ _ (getsome_eq (fun _ : rsys => chunk y !! Z.to_nat (off / chunk_size y)) s p Hp)).
    destruct (C4 p (list_elem_of_lookup_2 _ _ _ Hp)) as (a & ar & i & Q1 & Q2 & Q3 & Q4 & Q5). assert (is_page (r_pmm s) a ar i p) as Hpg by done. pose proof (wf_arenas _ (ri_pmm _ (oi_res _ Hok))) as Haw. cbn in Haw.
    pose proof (page_address (r_pmm s) a ar i p Haw Hpg) as Hpa. rewrite (on_pmm_bind _ _ s _ _ Hpa). destruct (aw_arena _ Haw a Q1) as (? & ? & [[B1 B1'] [B2 B3] _ _ _]). simplify_eq.
    assert (with_pmm (r_pmm s) s = s) as -> by (by destruct s). set (d := off mod chunk_size y) in *. pose proof page_size_pos as Hps. assert (paged d) as Hd. { replace d with (off - chunk_size y * (off / chunk_size y)) by lia. apply paged_sub; [done|by apply paged_scale]. }
    assert (0 <= i * PAGE_SIZE) as Hi0 by nia. eexists. split; [reflexivity|]. cbn beta iota. rewrite u64_small by lia. split_and!; [|by apply paged_sub|lia|].
    + apply paged_add; [apply paged_add; [by apply paged_aligned, Z.eqb_eq|apply paged_mult; by exists i]|done].
    + intros j Hj _. unfold byte_addr. rewrite Hy. assert ((off + j) / chunk_size y = off / chunk_size y) as ->.
      { symmetry. apply (Z.div_unique_pos _ _ _ (d + j)); lia. }
      assert ((off + j) mod chunk_size y = d + j) as ->. { symmetry. apply (Z.mod_unique_pos _ _ (off / chunk_size y)); lia. }
      rewrite Hp. unfold page_addr. rewrite Hpa. cbn. f_equal. lia.
Qed.

(** An operation that changes one object only, and neither its pages nor its group. *)
Definition same_obj y y' : Prop := same_chunks y y' /\ o_group y' = o_group y /\ o_used_pages y' = o_used_pages y.
Lemma one_changed s o y y' : objs_ok s -> objs s !! o = Some y -> same_obj y y' -> let s' := with_objs <[o := y']> s in
  objs_ok s' /\ vmm_lock s' = vmm_lock s /\ (forall o' off, byte_addr s' o' off = byte_addr s o' off) /\ (forall o' n, whole_size s o' n -> whole_size s' o' n) /\ (forall o', may_be_destroyed s o' -> may_be_destroyed s' o').
Proof.
  intros Hok Hy (Hc & Hg & Hu). cbn zeta. split_and!; [|done| | |].
  - apply (objs_inv_insert (with_vmm_lock false s) o y); done.
  - intros o' off. unfold byte_addr. cbn. destruct (decide (o' = o)) as [->|Hne]; [|by rewrite lookup_insert_ne]. rewrite lookup_insert_eq, Hy. destruct Hc as (_ & -> & ->). done.
  - intros o' n. by apply (whole_insert s o y).
  - intros o'. by apply (go_insert s o y).
Qed.

Lemma destroy_law s o : objs_ok s -> refs_of s o = Some ∅ -> may_be_destroyed s o -> vmm_lock s = false ->
  exists s', pmm_vmm_obj_destroy o s = Some (tt, s') /\ objs_ok s' /\ vmm_lock s' = false /\ same_places s s' /\ objs s' = delete o (objs s).
Proof.
  intros Hok HR Hgo Hl. assert (with_vmm_lock false s = s) as Hs by (rewrite <- Hl; apply unlocked). unfold objs_ok in Hok. rewrite Hs in Hok. destruct (refs_of_some s o _ HR) as (y & v & Hy & _).
  destruct (destroy_obj_run s o y (oi_res _ Hok) Hy (Hgo y Hy)) as (s' & Hr & Hi' & Eo & _). exists s'. pose proof (placed_destroy o s tt s' Hr) as Hp. destruct (ri_locks _ Hi') as (_ & _ & _ & Hl').
  split_and!; [done| |done|done|done]. unfold objs_ok. assert (with_vmm_lock false s' = s') as -> by (rewrite <- Hl'; apply unlocked). split; [done|]. intros o' y'. rewrite Eo. intros [_ Hy']%lookup_delete_Some. apply (chunks_shape (r_pmm s)); [exact Hp|by apply (oi_chunks _ Hok o')].
Qed.

Lemma byte_addr_places s s' o : same_places s s' -> objs s' !! o = objs s !! o -> forall off, byte_addr s' o off = byte_addr s o off.
Proof.
  intros Hp Ho off. unfold byte_addr. rewrite Ho. destruct (objs s !! o) as [y|]; [|done]. destruct (chunk y !! _) as [p|]; [|done]. by rewrite (page_addr_shape (r_pmm s) (r_pmm s')).
Qed.

Lemma flags_same y fl : same_obj y (set_o_flags fl y).
Proof. done. Qed.

Lemma set_cleared_law s o n : flag_of PMM_OBJ_FLAG_NEEDS_CLEAR s o = true -> whole_size s o n -> 0 <= n ->
  exists y, objs s !! o = Some y /\ pmm_set_cleared o 0 n s = Some (tt, with_objs <[o := set_o_flags (Z.ldiff (o_flags y) PMM_OBJ_FLAG_NEEDS_CLEAR) y]> s).
Proof.
  intros Hf (y & Hy & -> & Hb) Hn. exists y. split; [done|]. unfold flag_of in Hf. rewrite Hy in Hf. unfold pmm_set_cleared, pmm_vmm_is_pmm_that_needs_clear. rewrite bind_assoc, gets_bind, Hy, ret_bind.
  rewrite assert_bind by done. rewrite assert_bind by done. rewrite (get_obj_bind o y) by done. rewrite assert_bind by (rewrite u64_small by lia; apply Z.eqb_refl). unfold upd_obj. by rewrite (get_obj_bind o y).
Qed.
Lemma set_tagged_law s o : flag_of PMM_OBJ_FLAG_ALLOW_TAGGED s o = true ->
  exists y, objs s !! o = Some y /\ pmm_set_tagged o s = Some (tt, with_objs <[o := set_o_flags (Z.ldiff (o_flags y) PMM_OBJ_FLAG_ALLOW_TAGGED) y]> s).
Proof.
  unfold flag_of. destruct (objs s !! o) as [y|] eqn:Hy; [|done]. intros Hf. exists y. split; [done|]. unfold pmm_set_tagged, pmm_vmm_is_pmm_that_allows_tagged. rewrite bind_assoc, gets_bind, Hy, ret_bind.
  rewrite assert_bind by done. unfold upd_obj. by rewrite (get_obj_bind o y).
Qed.
Lemma cleared_tagged y : obj_flag PMM_OBJ_FLAG_ALLOW_TAGGED (set_o_flags (Z.ldiff (o_flags y) PMM_OBJ_FLAG_NEEDS_CLEAR) y) = obj_flag PMM_OBJ_FLAG_ALLOW_TAGGED y.
Proof. unfold obj_flag. rewrite !(bits_flag PMM_OBJ_FLAG_ALLOW_TAGGED 1) by done. cbn [o_flags set_o_flags]. rewrite Z.ldiff_spec. change (Z.testbit PMM_OBJ_FLAG_NEEDS_CLEAR 1) with false. by rewrite andb_true_r. Qed.
Lemma refs_flags s o y fl o' : objs s !! o = Some y -> refs_of (with_objs <[o := set_o_flags fl y]> s) o' = refs_of s o'.
Proof. intros Hy. unfold refs_of. cbn. destruct (decide (o' = o)) as [->|Hne]; [by rewrite lookup_insert_eq, Hy|by rewrite lookup_insert_ne]. Qed.

Lemma whole_nonneg s o R n : objs_ok s -> refs_of s o = Some R -> whole_size s o n -> 0 <= n.
Proof. intros Hok HR (y & Hy & -> & _). pose proof (oi_chunks _ Hok o y Hy) as [C1 _ C3 _]. nia. Qed.

#[export] Program Instance pmm_obj_laws : PhysLaws rsys := {
  phys_ok := objs_ok;
  phys_refs := refs_of;
  phys_may_go := may_be_destroyed;
  phys_whole := whole_size;
  phys_page := byte_addr;
  phys_needs s o := flag_of PMM_OBJ_FLAG_NEEDS_CLEAR s o;
  phys_tagged s o := flag_of PMM_OBJ_FLAG_ALLOW_TAGGED s o;
  phys_may_alloc := may_alloc
}.
Next Obligation. done. Qed.
Next Obligation. done. Qed.
Next Obligation. intros s. apply unlocked. Qed.
Next Obligation. done. Qed.
Next Obligation. done. Qed.
Next Obligation. done. Qed.
Next Obligation. done. Qed.
Next Obligation. done. Qed.
Next Obligation. intros s o R mf _ _. by exists (inr mf). Qed.
Next Obligation. intros s o R off. apply get_page_law. Qed.
Next Obligation. done. Qed.
Next Obligation. done. Qed.
Next Obligation.
  intros s o R ref Hok HR. destruct (refs_of_some s o R HR) as (y & v & Hy & Hv & <-). destruct (one_changed s o y (set_vmm_obj (Some (obj_add_ref ref v)) y) Hok Hy) as (K1 & K2 & K3 & K4 & K5); [done|].
  eexists. split; [unfold po_add_ref; cbn; unfold ref_add; rewrite (get_vmm_obj_bind o y v) by done; unfold upd_obj; by rewrite (get_obj_bind o y)|].
  split_and!; [done|done|intros o' _ _; split; [intros off; apply K3|apply K4]|done| |].
  - unfold flag_of. cbn. by rewrite lookup_insert_eq, Hy.
  - intros o'. by rewrite refs_insert, refs_add.
Qed.
Next Obligation.
  intros s o R ref Hok HR Hin. destruct (refs_of_some s o R HR) as (y & v & Hy & Hv & <-). destruct (refs_del ref v Hin) as [Hv' Hd]. set (v' := fst (obj_del_ref ref v)) in *.
  destruct (one_changed s o y (set_vmm_obj (Some v') y) Hok Hy) as (K1 & K2 & K3 & K4 & K5); [done|]. exists (with_objs <[o := set_vmm_obj (Some v') y]> s).
  split_and!; [|done|done|intros o' _ _; split; [intros off; apply K3|apply K4]| |done].
  - unfold po_del_ref. cbn. unfold ref_del. rewrite (get_vmm_obj_bind o y v) by done. unfold v' in *. rewrite <- Hd. clear -Hy. destruct (obj_del_ref ref v) as [w d]. cbn [fst snd]. by rewrite (upd_obj_bind o y).
  - intros o'. by rewrite refs_insert, Hv'.
Qed.
Next Obligation.
  intros s o Hok HR Hgo Hl. destruct (destroy_law s o Hok HR Hgo Hl) as (s' & Hr & K1 & K2 & K3 & K4). assert (forall o', o' <> o -> objs s' !! o' = objs s !! o') as Hother by (intros o' Hne; by rewrite K4, lookup_delete_ne).
  assert (forall o', refs_of s' o' = if decide (o' = o) then None else refs_of s o') as Hrefs by (intros o'; unfold refs_of; case_decide as Hd; [subst; by rewrite K4, lookup_delete_eq|by rewrite Hother]).
  exists s'. split_and!; [done|done|done| |done]. intros o' _ Ho'. rewrite Hrefs in Ho'. destruct (decide (o' = o)) as [->|Hne]; [by destruct Ho'|]. split; [by apply byte_addr_places; [done|apply Hother]|]. intros n (y & Hy & Hn). exists y. by rewrite Hother.
Qed.
Next Obligation.
  intros s o R n Hok HR Hwh Hn. destruct (set_cleared_law s o n Hn Hwh (whole_nonneg s o R n Hok HR Hwh)) as (y & Hy & Hr). destruct (one_changed s o y _ Hok Hy (flags_same y (Z.ldiff (o_flags y) PMM_OBJ_FLAG_NEEDS_CLEAR))) as (K1 & K2 & K3 & K4 & K5).
  eexists. split; [exact Hr|]. split_and!; [done|done|intros o' _ _; split; [intros off; apply K3|apply K4]|done| |intros o'; by apply refs_flags].
  unfold flag_of. cbn. rewrite lookup_insert_eq, Hy. apply cleared_tagged.
Qed.
Next Obligation.
  intros s o R Hok HR Ht. destruct (set_tagged_law s o Ht) as (y & Hy & Hr). destruct (one_changed s o y _ Hok Hy (flags_same y (Z.ldiff (o_flags y) PMM_OBJ_FLAG_ALLOW_TAGGED))) as (K1 & K2 & K3 & K4 & K5).
  eexists. split; [exact Hr|]. split_and!; [done|done|intros o' _ _; split; [intros off; apply K3|apply K4]|done|intros o'; by apply refs_flags].
Qed.
Next Obligation.
  intros s mem ref go n flags lg Hok Hl Hma. assert (with_vmm_lock false s = s) as Hs by (rewrite <- Hl; apply unlocked). unfold objs_ok in Hok. rewrite Hs in Hok.
  destruct (alloc_obj_outcome s mem ref go n flags lg Hok Hma) as (e & out & s' & Hr & Hok' & Hout). destruct (ri_locks _ (oi_res _ Hok')) as (_ & _ & _ & Hl'). pose proof (placed_alloc _ _ _ _ _ _ _ s _ s' Hr) as Hp.
  assert (objs_ok s') as Hok2 by (unfold objs_ok; by rewrite <- Hl', unlocked). exists e, out, s'. split; [exact Hr|]. split; [done|]. split; [done|]. destruct out as [o|].
  - destruct Hout as (-> & -> & Ho & (y & Eo & Hv & Hb) & Hgo). assert (forall o', o' <> o -> objs s' !! o' = objs s !! o') as Hother by (intros o' Hne; by rewrite Eo, lookup_insert_ne). split.
    + intros o' Hlive _. destruct (decide (o' = o)) as [->|Hne]; [unfold phys_refs, refs_of in Hlive; rewrite Ho in Hlive; by destruct Hlive|]. split; [by apply byte_addr_places; [done|apply Hother]|]. intros m (z & Hz & Hm). exists z. by rewrite Hother.
    + split_and!; [done|done|unfold refs_of; by rewrite Ho| |done|].
      * exists y. rewrite Eo, lookup_insert_eq. split_and!; [done|done|]. apply count_bytes, (ca_count _ _ _ _ _ _ (proj1 Hma)).
      * intros o'. unfold refs_of. case_decide as Hd; [subst; rewrite Eo, lookup_insert_eq, Hv; cbn; by rewrite refs_init|by rewrite Hother].
  - destruct Hout as [He Eo]. split; [|split; [done|intros o'; unfold refs_of; by rewrite Eo]]. intros o' _ _. split; [apply byte_addr_places; [done|by rewrite Eo]|]. intros m (z & Hz & Hm). exists z. by rewrite Eo.
Qed.
End phys.
