(* ===== verification/VmmProps.v ===== *)
(** * What the virtual memory manager promises *)
From stdpp Require Import base gmap list relations.
From Stdlib Require Import ZArith Lia Sorted.
From S2P Require Import Prelude Bst Pmm PmmInv PmmArena ResGroup Vmm VmmApi VmmSpot VmmTree VmmRegions VmmPlace VmmAlloc VmmInv VmmMap VmmObj VmmNew VmmSteps.

Local Open Scope Z_scope.
Local Open Scope lk_scope.

Section props.
Context `{!PmmConfig} `{!PmmLaws} `{!ObjRefs} `{!ArchMmu} `{!ArchLaws} `{!VmmConfig} `{!VmmLaws} {OB : Type} `{!PhysObjs OB} `{!PhysLaws OB} `{!ResConfig}.
Local Abbreviation MV := (M (vsys (OB := OB))).
Implicit Types (s : vsys (OB := OB)) (asp : vmm_aspace) (x y : vmm_region) (l : list (Z * vmm_region)) (ls : gmap region_tree (list (Z * vmm_region))).

(** ** Runs of calls *)

(** The calls of any number of threads, each as a whole: they hold the lock throughout.
    [r] and [mem] are what calloc returns for the region and the object. *)
Inductive vcall :=
  | Reserve (r a size vaddr : Z)
  | MapObj (r a o offset size ptr lg flags mf : Z)
  | Alloc (contiguous : bool) (mem : option Z) (ref r a size ptr lg flags mf : Z)
  | Free (a vaddr size flags : Z)
  | FindSpot (a size : Z).

Definition run_vcall (c : vcall) : MV unit :=
  match c with
  | Reserve r a size vaddr => _ <- vmm_reserve_space (Some r) a size vaddr ;; ret tt
  | MapObj r a o offset size ptr lg flags mf => _ <- vmm_alloc_obj (Some r) a o offset size ptr lg flags mf ;; ret tt
  | Alloc true mem ref r a size ptr lg flags mf => _ <- vmm_alloc_contiguous mem (Some r) ref a size ptr lg flags mf ;; ret tt
  | Alloc false mem ref r a size ptr lg flags mf => _ <- vmm_alloc mem (Some r) ref a size ptr lg flags mf ;; ret tt
  | Free a vaddr size flags => _ <- vmm_free_region_etc a vaddr size flags ;; ret tt
  | FindSpot a size => _ <- vmm_find_spot a size ;; ret tt
  end.

(** The memory calloc returns is not in use, addresses are canonical, sizes and offsets are
    those of pages, objects live; a request for an address does not meet the assertion of
    [vmm_find_region_in_bst]. *)
Definition usable asp (vaddr : Z) : Prop := arch_adjusted_vaddr vaddr (has_flag ARCH_ASPACE_FLAG_KERNEL (va_flags asp)) = vaddr.
Definition permitted_in s ls (c : vcall) : Prop :=
  match c with
  | Reserve r a size vaddr => exists asp l, v_aspaces s !! a = Some asp /\ ls !! AspaceTree a = Some l /\ unused_mem s r /\ room s /\ usable asp vaddr /\ paged vaddr /\ paged size /\ 0 < size < 2 ^ 64 /\ 0 <= vaddr < 2 ^ 64 /\
      (va_base asp <= vaddr < va_base asp + va_size asp -> region_ok (reserved_region asp vaddr size) /\
         forall q x, (q, x) ∈ l -> touches x (reserved_region asp vaddr size) -> has_flag VMM_FLAG_NO_PHYSICAL (vr_flags x) = false /\ in_the_way asp (reserved_region asp vaddr size) x <> None)
  | MapObj r a o offset size ptr lg flags mf => exists asp l R, v_aspaces s !! a = Some asp /\ ls !! AspaceTree a = Some l /\ unused_mem s r /\ room s /\ obj_call s o R r offset size /\
      has_flag VMM_FLAG_NO_PHYSICAL flags = false /\ forall mf', request_ok asp l size (request_addr flags ptr) lg flags VMM_REGION_FLAG_PHYSICAL mf'
  | Alloc contiguous mem ref r a size ptr lg flags mf => exists asp l, v_aspaces s !! a = Some asp /\ ls !! AspaceTree a = Some l /\ unused_mem s r /\ room s /\
      if contiguous then new_call s ls asp l mem ref r size ptr lg flags mf PMM_ALLOC_FLAG_CONTIGUOUS lg else new_call s ls asp l mem ref r size ptr lg flags mf 0 0
  | Free a vaddr size flags => exists asp l, v_aspaces s !! a = Some asp /\ ls !! AspaceTree a = Some l /\ 0 <= vaddr /\ 0 < size /\ vaddr + size <= 2 ^ 64 /\ usable asp vaddr /\
      forall r x, (r, x) ∈ l -> contains x vaddr -> may_release r x (v_objs s)
  | FindSpot a size => is_Some (v_aspaces s !! a) /\ 0 < size /\ paged size
  end.
(** [ls] are the regions of the trees, which the state determines. *)
Definition vpermitted s (c : vcall) : Prop := forall ls, vmm_ok s ls -> permitted_in s ls c.
Definition vstep s s' : Prop := exists c, vpermitted s c /\ run_vcall c s = Some (tt, s').

Lemma wf_list s ls a asp : vmm_wf s ls -> v_aspaces s !! a = Some asp -> exists l, ls !! AspaceTree a = Some l /\ aspace_ok asp /\ Forall (fun p => inside asp p.2) l.
Proof. intros Hwf Ha. destruct (vw_aspace _ _ Hwf a asp Ha) as [Hao (l & Hl & Hin)]. by exists l. Qed.

Lemma ok_rng s ls g : vmm_ok s ls -> vmm_ok (with_rng g s) ls.
Proof.
  intros [[[T1 T2 T3] Hasp Hpk Hlk Hbk] Htb]. constructor; [constructor; try done|done]. constructor; [|done|done]. intros id l Hl. destruct (T1 id l Hl) as [Hb Hr]. by split.
Qed.

Lemma find_spot_run s ls a asp size : vmm_ok s ls -> v_aspaces s !! a = Some asp -> 0 < size -> paged size -> exists out g, vmm_find_spot a size s = Some ((out, negb (out =? no_spot)), with_rng g s).
Proof.
  intros [Hwf _] Ha Hs Hp. destruct (wf_list s ls a asp Hwf Ha) as (l & Hl & Hao & Hin). pose proof (locked_trees true s ls (vw_trees _ _ Hwf)) as Hw. destruct (tw_ok _ _ Hw _ _ Hl) as [Hok Ho]. pose proof page_shift_range as Hsh.
  destruct (alloc_spot_run (locked true s) a asp l size PAGE_SIZE_SHIFT 0 Ha Hao (tw_tree _ _ Hw _ _ Hl) Hok Ho Hin Hs Hp) as (out & g & Hr & _); [lia|]. exists out, g. unfold vmm_find_spot. rewrite vmm_lock_bind by apply Hwf. rewrite (bind_eq _ _ _ _ _ Hr), vmm_unlock_bind. unfold ret. do 2 f_equal.
  change (locked false (with_rng g (locked true s))) with (with_rng g (locked false (locked true s))). by rewrite relocked by apply Hwf.
Qed.

Lemma vmm_alloc_pmm_eq mem ref r a size ptr lg flags mf s : has_flag VMM_FLAG_NO_PHYSICAL flags = false ->
  vmm_alloc mem (Some r) ref a size ptr lg flags mf s = vmm_alloc_pmm mem (Some r) ref a size ptr lg flags mf 0 0 s.
Proof. intros Hp. unfold vmm_alloc. by rewrite Hp. Qed.

Lemma call_runs s ls c : vmm_ok s ls -> permitted_in s ls c -> exists s' ls', run_vcall c s = Some (tt, s') /\ vmm_ok s' ls'.
Proof.
  intros Hk. destruct c as [r a size vaddr|r a o offset size ptr lg flags mf|[] mem ref r a size ptr lg flags mf|a vaddr size flags|a size]; cbn [permitted_in run_vcall].
  - intros (asp & l & Ha & Hl & Hu & Hroom & Hadj & Hv & Hp & Hs & Hv64 & Hin). destruct (decide (va_base asp <= vaddr < va_base asp + va_size asp)) as [Hi|Hi].
    + destruct (Hin Hi) as [Hy Hcl]. destruct (reserve_run s ls a asp l r vaddr size Hk Ha Hl Hu Hroom Hadj Hv Hp Hs Hi Hy Hcl) as [(s' & l1 & l2 & Hr & Hk' & _)|(e & Hr & _)]; rewrite (bind_eq _ _ _ _ _ Hr); by eexists _, _.
    + rewrite (bind_eq _ _ _ _ _ (reserve_outside s ls a asp (Some r) vaddr size (vk_wf _ _ Hk) Ha Hv Hp (proj1 Hs) Hv64 Hi)). by exists s, ls.
  - intros (asp & l & R & Ha & Hl & Hu & Hroom & Ho & Hph & Hrq).
    destruct (alloc_obj_run s ls a asp l r o R offset size ptr lg flags mf Hk Hl Ha Hu Hroom Ho Hph Hrq) as (e & s' & Hr & [(_ & (z & k1 & k2 & Hk' & _) & _)|(_ & _ & Hk' & _)]); rewrite (bind_eq _ _ _ _ _ Hr); by eexists _, _.
  - intros (asp & l & Ha & Hl & Hu & Hroom & Hc). destruct (alloc_pmm_run s ls a asp l mem ref r size ptr lg flags mf _ _ Hk Hl Ha Hu Hroom Hc) as (e & s' & Hr & [(_ & (o & _ & _ & (z & k1 & k2 & Hk' & _) & _) & _)|(_ & _ & Hk' & _)]);
      unfold vmm_alloc_contiguous; rewrite (bind_eq _ _ _ _ _ Hr); by eexists _, _.
  - intros (asp & l & Ha & Hl & Hu & Hroom & Hc). destruct (alloc_pmm_run s ls a asp l mem ref r size ptr lg flags mf _ _ Hk Hl Ha Hu Hroom Hc) as (e & s' & Hr & [(_ & (o & _ & _ & (z & k1 & k2 & Hk' & _) & _) & _)|(_ & _ & Hk' & _)]);
      rewrite <- vmm_alloc_pmm_eq in Hr by apply Hc; rewrite (bind_eq _ _ _ _ _ Hr); by eexists _, _.
  - intros (asp & l & Ha & Hl & Hv & Hs & Hvs & Hadj & Hgo). destruct (free_region_run s ls a asp l vaddr size flags (vk_wf _ _ Hk) Ha Hl Hv Hs Hvs Hadj Hgo) as [(r & x & s' & Hx & _ & Hr & Hfr)|[_ Hr]]; rewrite (bind_eq _ _ _ _ _ Hr).
    + eexists _, _. split; [done|]. by apply (ok_freed s s' ls a asp l r x).
    + by exists s, ls.
  - intros ([asp Ha] & Hs & Hp). destruct (find_spot_run s ls a asp size Hk Ha Hs Hp) as (out & g & Hr). rewrite (bind_eq _ _ _ _ _ Hr). eexists _, ls. split; [done|]. by apply ok_rng.
Qed.

Lemma runs_ok s0 ls0 s : vmm_ok s0 ls0 -> rtc vstep s0 s -> exists ls, vmm_ok s ls.
Proof.
  intros Hk Hr. revert ls0 Hk. induction Hr as [s1|s1 s2 s3 (c & Hp & Hc) _ IH]; intros ls0 Hk; [by exists ls0|].
  destruct (call_runs s1 ls0 c Hk (Hp ls0 Hk)) as (s' & ls' & Hr' & Hk'). assert (s' = s2) as -> by congruence. by apply (IH ls').
Qed.

(** C24: in every run of permitted calls, from a state where regions lie in order inside
    their address spaces, keep their guard pages and hold references to live objects, and
    where the page tables map each page of a region with an object to the object's page
    with the region's flags and no page outside regions, every call has an outcome (no
    assertion fails) and the state stays like this. *)
Theorem page_tables_match_regions s0 ls0 s :
  vmm_ok s0 ls0 -> rtc vstep s0 s -> (exists ls, vmm_ok s ls) /\ forall c, vpermitted s c -> exists s', run_vcall c s = Some (tt, s') /\ exists ls', vmm_ok s' ls'.
Proof.
  intros Hk Hr. destruct (runs_ok s0 ls0 s Hk Hr) as [ls Hls].
  split; [by exists ls|]. intros c Hp. destruct (call_runs s ls c Hls (Hp ls Hls)) as (s' & ls' & Hr' & Hk'). exists s'. split; [done|by exists ls'].
Qed.

(** C28: [alloc_spot] reports that there is no place exactly if no aligned address has room
    for the size with a guard page on both sides; otherwise it gives such an address,
    without address space randomisation the lowest. *)
Theorem alloc_spot_finds s ls a asp l size lg mf :
  vmm_ok s ls -> v_aspaces s !! a = Some asp -> ls !! AspaceTree a = Some l -> 0 < size -> paged size -> lg < 64 ->
  let fits := fits_at asp l (Z.max lg PAGE_SIZE_SHIFT) size in
  exists out g, alloc_spot a size lg mf s = Some (out, with_rng g s) /\
    (out = no_spot <-> forall c, ~ fits c) /\ (out <> no_spot -> fits out /\ (aslr = false -> forall c, fits c -> out <= c)).
Proof.
  intros [Hwf _] Ha Hl Hs Hp Hlg fits. destruct (wf_list s ls a asp Hwf Ha) as (l' & Hl' & Hao & Hin). assert (l' = l) as -> by congruence. pose proof (vw_trees _ _ Hwf) as Hw. destruct (tw_ok _ _ Hw _ _ Hl) as [Hok Ho].
  destruct (alloc_spot_run s a asp l size lg mf Ha Hao (tw_tree _ _ Hw _ _ Hl) Hok Ho Hin Hs Hp Hlg) as (out & g & Hr & Hc). exists out, g. split; [done|]. destruct Hc as [[-> Hno]|(Hne & Hf & Hlow)]; [done|].
  split; [|done]. split; [done|]. intros Hno. by destruct (Hno out).
Qed.

(** C29: a request for an address succeeds exactly if no region with its guard page touches
    the range and this lies inside the address space with its own guard page; otherwise
    nothing changes, and one of the regions in the way decides between an error and a
    failed assertion (this happens if it overlaps the range, but not its first page). *)
Theorem specific_request s ls a asp l r vaddr size lg flags rflags mf :
  vmm_ok s ls -> v_aspaces s !! a = Some asp -> ls !! AspaceTree a = Some l -> unused_mem s r -> room s ->
  has_flag VMM_REGION_FLAG_INTERNAL_MASK flags = false -> has_flag VMM_FLAG_VALLOC_SPECIFIC flags = true -> usable asp vaddr ->
  let y := fresh_region rflags flags mf vaddr size in region_ok y -> (forall q x, (q, x) ∈ l -> touches x y -> has_flag VMM_FLAG_NO_PHYSICAL (vr_flags x) = false) ->
  if decide (Forall (fun p => ~ touches p.2 y) l) then
    if decide (inside asp y) then exists s' l1 l2, alloc_region (Some r) a size vaddr lg flags rflags mf s = Some (inr (r, AspaceTree a), s') /\ l = l1 ++ l2 /\ trees_wf s' (<[AspaceTree a := l1 ++ (r, y) :: l2]> ls)
    else alloc_region (Some r) a size vaddr lg flags rflags mf s = Some (inl ERR_OUT_OF_RANGE, s)
  else exists q x, (q, x) ∈ l /\ touches x y /\ alloc_region (Some r) a size vaddr lg flags rflags mf s = (fun e => (inl e, s)) <$> in_the_way asp y x.
Proof.
  intros [Hwf _] Ha Hl Hu Hroom Hm Hsp Hadj y Hy Hph. destruct (wf_list s ls a asp Hwf Ha) as (l' & Hl' & Hao & _). assert (l' = l) as -> by congruence. pose proof (vw_trees _ _ Hwf) as Hw. destruct (tw_ok _ _ Hw _ _ Hl) as [Hok Ho].
  destruct (split_exists l y Hok Ho) as (l1 & eqs & l2 & Hsplit). assert (forall q x, (q, x) ∈ eqs -> (q, x) ∈ l /\ touches x y) as Hsub. { intros q x Hx. split; [rewrite (sp_list _ _ _ _ _ Hsplit); set_solver|exact (sp_touch _ _ _ _ _ Hsplit _ Hx)]. }
  destruct (decide (Forall (fun p => ~ touches p.2 y) l)) as [Hno|Hyes].
  - assert (eqs = []) as ->. { destruct eqs as [|[q x] eqs]; [done|]. destruct (Hsub q x) as [Hx Ht]; [by left|]. by destruct (proj1 (Forall_forall _ _) Hno (q, x) Hx). }
    pose proof (alloc_specific_free s ls a asp l Hw Hl Ha Hao r vaddr size lg flags rflags mf Hu Hroom Hm Hadj l1 l2 Hsp Hy Hsplit) as Hr. fold y in Hr. destruct (decide (inside asp y)); [|exact Hr]. destruct Hr as (s' & Hs' & _ & Hw'). exists s', l1, l2. split_and!; [done|exact (sp_list _ _ _ _ _ Hsplit)|exact Hw'].
  - destruct (decide (eqs = [])) as [->|Hne].
    + destruct Hyes. apply Forall_forall. intros [q x] Hx [T1 T2]. rewrite (sp_list _ _ _ _ _ Hsplit) in Hx. cbn in Hx, T1, T2. apply elem_of_app in Hx as [Hx|Hx]; [exact (T1 (sp_below _ _ _ _ _ Hsplit _ Hx))|exact (T2 (sp_above _ _ _ _ _ Hsplit _ Hx))].
    + destruct (alloc_specific_taken s ls a asp l Hw Hl Ha Hao r vaddr size lg flags rflags mf Hu Hroom Hm Hadj l1 eqs l2 Hsp Hy Hsplit Hne) as (q & x & Hx & Hr); [intros q x Hx; destruct (Hsub q x Hx); by apply (Hph q)|].
      destruct (Hsub q x Hx). by exists q, x.
Qed.

(** C30: [vmm_reserve_space] succeeds exactly if the range, with a guard page behind it, lies
    inside the address space and touches no region, and then adds one that reserves it; a
    range that reaches the end is cut off there, and refused because of its guard page. *)
Theorem vmm_reserve_space_outcome s ls a asp l r vaddr size :
  vmm_ok s ls -> v_aspaces s !! a = Some asp -> ls !! AspaceTree a = Some l -> unused_mem s r -> room s -> usable asp vaddr -> paged vaddr -> paged size -> 0 < size < 2 ^ 64 ->
  PAGE_SIZE <= vaddr < 2 ^ 64 -> Z.min (vaddr + size) (va_base asp + va_size asp) + PAGE_SIZE <= 2 ^ 64 ->
  let y := reserved_region asp vaddr size in
  (forall q x, (q, x) ∈ l -> touches x y -> has_flag VMM_FLAG_NO_PHYSICAL (vr_flags x) = false /\ in_the_way asp y x <> None) ->
  if decide (va_base asp <= vaddr /\ vaddr + size + PAGE_SIZE <= va_base asp + va_size asp /\ Forall (fun p => ~ touches p.2 y) l) then
    exists s' l1 l2, vmm_reserve_space (Some r) a size vaddr s = Some (NO_ERROR, s') /\ l = l1 ++ l2 /\ vmm_ok s' (<[AspaceTree a := l1 ++ (r, y) :: l2]> ls) /\ vr_base y = vaddr /\ vr_size y = size
  else exists e, e < 0 /\ vmm_reserve_space (Some r) a size vaddr s = Some (e, s).
Proof.
  intros Hk Ha Hl Hu Hroom Hadj Hv Hp Hs [Hlo Hv64] Hhi y Hcl. pose proof page_size_pos as Hps. destruct (wf_list s ls a asp (vk_wf _ _ Hk) Ha) as (l' & Hl' & [A1 A2 A3 A4 A5] & _). assert (l' = l) as -> by congruence.
  assert (vr_flags y = 65537) as Hfl by reflexivity. assert (end_guard y = PAGE_SIZE) as Hg by (unfold end_guard; by rewrite Hfl). assert (vr_base y = vaddr) as Hb by done. assert (vr_size y = Z.min size (va_base asp + va_size asp - vaddr)) as Hz by done.
  assert (inside asp y <-> va_base asp <= vaddr /\ vaddr + size + PAGE_SIZE <= va_base asp + va_size asp) as Hin by (unfold inside, vr_end; rewrite Hg, Hb, Hz; lia).
  destruct (decide (va_base asp <= vaddr < va_base asp + va_size asp)) as [Hi|Hi].
  - assert (region_ok y) as Hy. { constructor; unfold vr_end; rewrite ?Hb, ?Hz; [done|lia|lia|done|]. destruct (Z.min_spec size (va_base asp + va_size asp - vaddr)) as [[_ ->]|[_ ->]]; [done|]. apply paged_sub; [by apply paged_add|done]. }
    destruct (reserve_run s ls a asp l r vaddr size Hk Ha Hl Hu Hroom Hadj Hv Hp Hs Hi Hy Hcl) as [(s' & l1 & l2 & Hr & Hk' & Hsp & Hins & Hno & _)|(e & Hr & He & Hbad)].
    + apply Hin in Hins as [I1 I2]. rewrite decide_True; [|split_and!; [done|done|by apply Forall_forall; intros [q x] Hx; apply (Hno q)]]. exists s', l1, l2. split_and!; [done|done|exact Hk'|done|]. rewrite Hz. lia.
    + rewrite decide_False; [by exists e|]. intros (I1 & I2 & Hno). destruct Hbad as [Hbad|(q & x & Hx & Ht)]; [apply Hbad, Hin; by split|]. by apply (proj1 (Forall_forall _ _) Hno (q, x) Hx).
  - rewrite decide_False by lia. exists ERR_OUT_OF_RANGE. split; [done|]. apply (reserve_outside s ls a asp); [apply Hk|done|done|done|lia|lia|done].
Qed.

(** [vmm_find_region] returns what a walk over all regions finds: the region with the
    address in it, or NULL. *)
Theorem vmm_find_region_search s ls a asp l vaddr :
  vmm_ok s ls -> v_aspaces s !! a = Some asp -> ls !! AspaceTree a = Some l -> 0 <= vaddr < 2 ^ 64 ->
  vmm_find_region a vaddr (locked true s) = Some (match filter (fun p => contains p.2 vaddr) l with p :: _ => p.1 | [] => NULL end, locked true s).
Proof.
  intros [Hwf _] Ha Hl Hv. pose proof (vw_trees _ _ Hwf) as Hw. destruct (find_region_run (locked true s) ls a asp l vaddr (locked_trees true s ls Hw) Ha Hl Hv (lock_held _ _)) as [(r & x & Hx & Hc & ->)|[Hno ->]].
  - destruct (filter _ l) as [|[q z] k] eqn:Hf; [exfalso; assert ((r, x) ∈ filter (fun p : Z * vmm_region => contains p.2 vaddr) l) as Hin by (by apply list_elem_of_filter); rewrite Hf in Hin; by apply elem_of_nil in Hin|].
    assert ((q, z) ∈ filter (fun p : Z * vmm_region => contains p.2 vaddr) l) as Hin by (rewrite Hf; by left). apply list_elem_of_filter in Hin as [Hcz Hz]. pose proof (contains_unique s ls _ l r x q z vaddr Hw Hl Hx Hz Hc Hcz) as E. by injection E as -> ->.
  - destruct (filter _ l) as [|[q z] k] eqn:Hf; [done|exfalso]. assert ((q, z) ∈ filter (fun p : Z * vmm_region => contains p.2 vaddr) l) as Hin by (rewrite Hf; by left). apply list_elem_of_filter in Hin as [Hcz Hz]. by apply (Hno q z).
Qed.

(** What the page tables of an address space say of an address. *)
Definition shown s (a v : Z) : option (Z * Z) := match v_aspaces s !! a with Some asp => translate (va_arch asp) v | None => None end.

(** The pages of a region that has been mapped. *)
Lemma mapped_pages s ls a asp l r o R offset size flags s' p : ls !! AspaceTree a = Some l -> mapped_region s ls a asp l r o R offset size flags s' p ->
  forall v, paged v -> p <= v < p + size -> exists pa f, phys_page (v_objs s') o (offset + (v - p)) = Some pa /\ shown s' a v = Some (pa, f).
Proof.
  intros Hl (z & k1 & k2 & Hk & _ & Hin & <- & Ho & <- & <- & _ & (t & Ha) & _) v Hv Hr. destruct (vw_aspace _ _ (vk_wf _ _ Hk) a _ Ha) as [Hao _]. assert ((r, z) ∈ k1 ++ (r, z) :: k2) as Hz by set_solver.
  assert (contains z v) as Hc by done. destruct (vk_tables _ _ Hk a _ _ Ha (lookup_insert_eq _ _ _) v Hv (inside_range (set_arch t asp) z v Hao Hin Hc)) as [S1 _]. destruct (S1 r z o Hz Hc Ho) as (pa & Hpa & Ht).
  exists pa, (vr_mmu_flags z). split; [done|]. unfold shown. by rewrite Ha.
Qed.

(** C26: [vmm_alloc_obj] maps the object's part page by page in a new region, at the address
    asked for if one was; or it fails with everything as before: regions, references and
    what the page tables say. *)
Theorem vmm_alloc_obj_maps s ls a asp l r o R offset size ptr lg flags mf :
  vmm_ok s ls -> v_aspaces s !! a = Some asp -> ls !! AspaceTree a = Some l -> unused_mem s r -> room s -> obj_call s o R r offset size -> has_flag VMM_FLAG_NO_PHYSICAL flags = false ->
  (forall mf', request_ok asp l size (request_addr flags ptr) lg flags VMM_REGION_FLAG_PHYSICAL mf') ->
  exists e p s', vmm_alloc_obj (Some r) a o offset size ptr lg flags mf s = Some ((e, p), s') /\
    if decide (e = 0) then mapped_region s ls a asp l r o R offset size flags s' p /\ (has_flag VMM_FLAG_VALLOC_SPECIFIC flags = true -> p = ptr) /\
      forall v, paged v -> p <= v < p + size -> exists pa f, phys_page (v_objs s') o (offset + (v - p)) = Some pa /\ shown s' a v = Some (pa, f)
    else p = ptr /\ vmm_ok s' ls /\ same_state s s' /\ unused_mem s' r.
Proof.
  intros Hk Ha Hl Hu Hroom Ho Hp Hrq. destruct (alloc_obj_run s ls a asp l r o R offset size ptr lg flags mf Hk Hl Ha Hu Hroom Ho Hp Hrq) as ([e p] & s' & Hr & Hout). exists e, p, s'. split; [done|]. cbn in Hout.
  destruct Hout as [(-> & Hm & _ & Hsp)|(He & -> & Hok & Hs & Hu')]; [rewrite decide_True by done|by rewrite decide_False]. split_and!; [done|done|]. by apply (mapped_pages s ls a asp l r o R offset size flags).
Qed.

(** C25: [vmm_alloc] refuses a call without pages, without a group to draw on or for tagged
    memory that does not exist, whatever the state of the page lists, and changes nothing.
    Otherwise it makes an object of so many pages, of which the new region has the only
    reference, and maps each page, or fails with regions, references and page tables as
    before, the object gone again. *)
Theorem vmm_alloc_outcome s ls a asp l mem ref r size ptr lg flags mf :
  vmm_ok s ls -> v_aspaces s !! a = Some asp -> ls !! AspaceTree a = Some l -> unused_mem s r -> room s -> new_call s ls asp l mem ref r size ptr lg flags mf 0 0 ->
  if bad_call asp size flags mf then vmm_alloc mem (Some r) ref a size ptr lg flags mf s = Some ((ERR_INVALID_ARGS, ptr), s)
  else exists e p s', vmm_alloc mem (Some r) ref a size ptr lg flags mf s = Some ((e, p), s') /\
    if decide (e = 0) then exists o, mem = Some o /\ phys_refs (v_objs s) o = None /\ phys_refs (v_objs s') o = Some {[r]} /\ mapped_region s ls a asp l r o ∅ 0 (pages_for size * PAGE_SIZE) flags s' p /\
      forall v, paged v -> p <= v < p + size -> exists pa f, phys_page (v_objs s') o (v - p) = Some pa /\ shown s' a v = Some (pa, f)
    else p = ptr /\ vmm_ok s' ls /\ left_alone s s' /\ unused_mem s' r.
Proof.
  intros Hk Ha Hl Hu Hroom Hc. rewrite vmm_alloc_pmm_eq by apply Hc. destruct (bad_call asp size flags mf) eqn:Hbad.
  { rewrite (pmm_start s ls a asp l mem (Some r) ref r size ptr lg flags mf 0 0 Hc Ha). by rewrite Hbad. }
  destruct (alloc_pmm_run s ls a asp l mem ref r size ptr lg flags mf 0 0 Hk Hl Ha Hu Hroom Hc) as ([e p] & s' & Hr & Hout). exists e, p, s'. split; [done|]. cbn in Hout.
  destruct Hout as [(-> & (o & Hm & Hn & Hmap & _) & _)|(He & -> & Hok & Hs & Hu')]; [rewrite decide_True by done|by rewrite decide_False].
  exists o. pose proof Hmap as (z & k1 & k2 & _ & _ & _ & _ & _ & _ & _ & _ & _ & Hrefs). split_and!; [done|done| |done|].
  - rewrite Hrefs, decide_True by done. f_equal. set_solver.
  - intros v Hv Hvr. pose proof (mapped_pages s ls a asp l r o ∅ 0 _ flags s' p Hl Hmap v Hv) as Hpg. rewrite Z.add_0_l in Hpg. apply Hpg.
    destruct Hc as [_ N2 N3 _ _ _ _ _]. destruct (pages_for_spec size N2 N3) as (_ & R2 & _). lia.
Qed.

(** C27: what [vmm_alloc] has given [vmm_free_region] takes back: the same regions, mapped as
    before, and the same references are left, and the new object is gone. *)
Theorem vmm_alloc_free_round_trip s ls a asp l mem ref r size ptr lg flags mf p s1 :
  vmm_ok s ls -> v_aspaces s !! a = Some asp -> ls !! AspaceTree a = Some l -> unused_mem s r -> room s -> new_call s ls asp l mem ref r size ptr lg flags mf 0 0 ->
  vmm_alloc mem (Some r) ref a size ptr lg flags mf s = Some ((NO_ERROR, p), s1) -> usable asp p ->
  exists s2, vmm_free_region a p s1 = Some (NO_ERROR, s2) /\ vmm_ok s2 ls /\ (forall o, phys_refs (v_objs s2) o = phys_refs (v_objs s) o) /\ unused_mem s2 r.
Proof.
  intros Hk Ha Hl Hu Hroom Hc Hrun Hadj. rewrite vmm_alloc_pmm_eq in Hrun by apply Hc. destruct (alloc_pmm_run s ls a asp l mem ref r size ptr lg flags mf 0 0 Hk Hl Ha Hu Hroom Hc) as ([e p'] & s' & Hr & Hout). rewrite Hr in Hrun. injection Hrun as -> -> ->. cbn in Hout.
  destruct Hout as [(_ & (o & Hm & Hn & (z & k1 & k2 & Hk1 & -> & Hin & Hb & Ho & _ & Hsz & _ & (t & Ha1) & Hrefs) & Hgo) & _)|(? & _)]; [|done].
  set (ls1 := <[AspaceTree a := k1 ++ (r, z) :: k2]> ls) in *. pose proof (vw_trees _ _ (vk_wf _ _ Hk1)) as Hw1. assert (ls1 !! AspaceTree a = Some (k1 ++ (r, z) :: k2)) as Hl1 by apply lookup_insert_eq.
  assert ((r, z) ∈ k1 ++ (r, z) :: k2) as Hz by set_solver. destruct (tw_ok _ _ Hw1 _ _ Hl1) as [Hok1 _]. pose proof (proj1 (Forall_forall _ _) Hok1 _ Hz) as [Z1 Z2 Z3 _ _]. cbn in Z1, Z2, Z3. pose proof page_size_pos as Hps.
  assert (contains z p) as Hcz by (unfold contains, vr_end in *; lia). assert (r ∉ (k1 ++ k2).*1) as Hnr by (intros Hr'; apply (unused_unlinked s ls r (vw_trees _ _ (vk_wf _ _ Hk)) Hu); by exists (AspaceTree a), (k1 ++ k2)).
  destruct (free_region_run s1 ls1 a _ _ p 1 VMM_FREE_REGION_FLAG_EXPAND (vk_wf _ _ Hk1) Ha1 Hl1) as [(q & x & s2 & Hx & [Hcx _] & Hrun & Hfr)|[Hno _]]; [unfold vr_end in Z3; lia|lia|unfold vr_end in Z3; lia|done| | |].
  - intros q x Hx Hcx. pose proof (contains_unique s1 ls1 _ _ r z q x p Hw1 Hl1 Hz Hx Hcz Hcx) as E. injection E as -> ->. intros o' R' Ho' _ _. by assert (o' = o) as -> by congruence.
  - pose proof (contains_unique s1 ls1 _ _ r z q x p Hw1 Hl1 Hz Hx Hcz Hcx) as E. injection E as -> ->. exists s2. split; [exact Hrun|]. pose proof (ok_freed s1 s2 ls1 a _ _ r z Hk1 Ha1 Hl1 Hz Hfr) as Hk2.
    rewrite (added_removed (k1 ++ k2) r z k1 k2 eq_refl Hnr) in Hk2. unfold ls1 in Hk2. rewrite insert_insert_eq, insert_id in Hk2 by done. destruct Hfr as (_ & _ & Hu2 & _ & Hr2). split_and!; [done| |apply Hu2..].
    intros o'. rewrite Hr2. unfold refs_after. rewrite Ho, Hrefs, decide_True by done. unfold refs_without. assert (({[r]} ∪ ∅) ∖ {[r]} = (∅ : gset Z)) as E by set_solver.
    case_decide as Hd; [subst o'; by rewrite decide_True|]. by rewrite Hrefs, decide_False.
  - destruct (Hno r z Hz). split; [done|]. change (p + 1 <= vr_end z). unfold contains, vr_end in *. lia.
Qed.
End props.
