(* ===== verification/VmmExample.v ===== *)
(** * Virtual memory on a small machine

    Page tables that are finite maps, an address space of fifteen pages and the memory
    objects of the machine of PmmExample: the theorems at work. *)
From stdpp Require Import base gmap list relations.
From Stdlib Require Import ZArith Lia Sorted.
From S2P Require Import Prelude Bst BstRep BstOps Pmm PmmInv PmmGrab PmmAlloc PmmArena PmmOutcome PmmExample PmmProps ResGroup ResInv ResAlloc ResProps Vmm VmmApi VmmSpot VmmTree VmmRegions VmmPlace VmmAlloc VmmInv VmmMap VmmObj VmmNew VmmSteps VmmPhys VmmProps.

Local Open Scope Z_scope.
Local Open Scope lk_scope.

Module VmmExample.
Import PmmExample PmmWitness ResExample.

(** ** Page tables *)
Fixpoint map_range (n : nat) (va pa f : Z) (t : gmap Z (Z * Z)) : gmap Z (Z * Z) :=
  match n with O => t | S n => <[va := (pa, f)]> (map_range n (va + PAGE_SIZE) (pa + PAGE_SIZE) f t) end.
Fixpoint unmap_range (n : nat) (va : Z) (t : gmap Z (Z * Z)) : gmap Z (Z * Z) :=
  match n with O => t | S n => delete va (unmap_range n (va + PAGE_SIZE) t) end.
(** Tables have room for 64 pages. *)
Definition try_map (va pa n f : Z) (t : gmap Z (Z * Z)) : gmap Z (Z * Z) * Z :=
  if Z.of_nat (base.size t) + n <=? 64 then (map_range (Z.to_nat n) va pa f t, 0) else (t, ERR_NO_MEMORY).

#[export] Instance table_mmu : ArchMmu := {
  arch_aspace_t := gmap Z (Z * Z);
  arch_mmu_init_aspace _ _ _ := (∅, 0);
  arch_mmu_destroy_aspace _ := ∅;
  arch_mmu_map := try_map;
  arch_mmu_map_replace := try_map;
  arch_mmu_unmap va n := unmap_range (Z.to_nat n) va;
  arch_mmu_query va t := t !! round_down va PAGE_SIZE;
  arch_adjusted_vaddr va _ := va
}.

Lemma map_range_lookup n f t : forall va pa, paged va -> forall v, paged v ->
  map_range n va pa f t !! v = if decide (va <= v < va + Z.of_nat n * PAGE_SIZE) then Some (pa + (v - va), f) else t !! v.
Proof.
  pose proof page_size_pos as Hps. induction n as [|n IH]; intros va pa Hva v Hv; [by rewrite decide_False by lia|]. cbn [map_range]. destruct (decide (v = va)) as [->|Hne].
  - rewrite lookup_insert_eq, decide_True by lia. do 2 f_equal. lia.
  - rewrite lookup_insert_ne, IH by (first [done|by apply paged_add; [|apply paged_page]]). assert (va < v -> va + PAGE_SIZE <= v) as Hgap by (intros Hlt; by apply paged_lt).
    destruct (decide (va + PAGE_SIZE <= v < va + PAGE_SIZE + Z.of_nat n * PAGE_SIZE)); [rewrite decide_True by lia; do 2 f_equal; lia|by rewrite decide_False by lia].
Qed.
Lemma unmap_range_lookup n t : forall va, paged va -> forall v, paged v -> unmap_range n va t !! v = if decide (va <= v < va + Z.of_nat n * PAGE_SIZE) then None else t !! v.
Proof.
  pose proof page_size_pos as Hps. induction n as [|n IH]; intros va Hva v Hv; [by rewrite decide_False by lia|]. cbn [unmap_range]. destruct (decide (v = va)) as [->|Hne].
  - by rewrite lookup_delete_eq, decide_True by lia.
  - rewrite lookup_delete_ne, IH by (first [done|by apply paged_add; [|apply paged_page]]). assert (va < v -> va + PAGE_SIZE <= v) as Hgap by (intros Hlt; by apply paged_lt).
    destruct (decide (va + PAGE_SIZE <= v < va + PAGE_SIZE + Z.of_nat n * PAGE_SIZE)); [by rewrite decide_True by lia|by rewrite decide_False by lia].
Qed.
#[export] Program Instance table_laws : ArchLaws := { translate t v := (t : gmap Z (Z * Z)) !! v }.
Next Obligation.
  intros va pa n f t Hva Hpa Hn He v Hv. cbn in *. unfold try_map in *. destruct (_ <=? 64); [|done]. cbn in *. rewrite map_range_lookup by done. by rewrite Z2Nat.id by lia.
Qed.
Next Obligation. intros va pa n f t He v _. cbn in *. unfold try_map in *. by destruct (_ <=? 64). Qed.
Next Obligation.
  intros va pa n f t Hva Hpa Hn He v Hv. cbn in *. unfold try_map in *. destruct (_ <=? 64); [|done]. cbn in *. rewrite map_range_lookup by done. by rewrite Z2Nat.id by lia.
Qed.
Next Obligation. intros va pa n f t Hva He v _ _. cbn in *. unfold try_map in *. by destruct (_ <=? 64). Qed.
Next Obligation. intros va n t Hva Hn v Hv. cbn. rewrite unmap_range_lookup by done. by rewrite Z2Nat.id. Qed.

#[export] Instance example_vmm_config : VmmConfig := {
  aslr := false; rand_get_size _ g := (0, g);
  KERNEL_ASPACE_BASE := 0x10000; KERNEL_ASPACE_SIZE := 0xF000; USER_ASPACE_BASE := 0x1000; USER_ASPACE_SIZE := 0xF000; kernel_aspace := 10;
  KERNEL_BTI_ENABLED := true; arch_bti_supported := true
}.
#[export] Instance example_vmm_laws : VmmLaws.
Proof. constructor. intros max g Hm. cbn. lia. Defined.

(** ** An address space of fifteen pages from 0x1000 on *)
Definition user_aspace : vmm_aspace := mk_aspace 0 0x1000 0xF000 None (∅ : gmap Z (Z * Z)).
Definition vm_start : vsys (OB := rsys) := mk_vsys ∅ {[AspaceTree 10 := NULL]} ∅ {[10 := user_aspace]} [10] ∅ start 0 [] None None.
Definition no_regions : gmap region_tree (list (Z * vmm_region)) := {[AspaceTree 10 := []]}.

Lemma empty_tree (s : vsys (OB := rsys)) id l : has_tree s id l -> v_roots s !! id = Some NULL -> l = [].
Proof.
  intros [(b & t & Hb & [Hr Hh _] & _ & _ & He) _] Hn. unfold tree_in in Hb. rewrite Hn in Hb. injection Hb as <-. destruct t as [|k lt x rt]; [by destruct l|]. cbn in Hh. destruct Hr as [Hx _]. by destruct Hx.
Qed.
Lemma start_objs : objs_inv start.
Proof. split; [exact res_start_inv|]. intros o y Hy. unfold start in Hy. cbn in Hy. by rewrite lookup_empty in Hy. Qed.
Lemma user_aspace_ok : aspace_ok user_aspace.
Proof. by constructor. Qed.

Lemma only_aspace a asp : v_aspaces vm_start !! a = Some asp -> a = 10 /\ asp = user_aspace.
Proof. intros Ha. cbn in Ha. by apply lookup_singleton_Some in Ha as [<- <-]. Qed.

Lemma start_ok : vmm_ok vm_start no_regions.
Proof.
  assert (forall id l, no_regions !! id = Some l -> id = AspaceTree 10 /\ l = []) as Hno by (unfold no_regions; intros id l [<- <-]%lookup_singleton_Some; done).
  constructor; [constructor; [constructor| | | |]|].
  - intros id l [-> ->]%Hno. constructor; [|by intros r x ?%elem_of_nil]. exists (mk_bst_root ∅ NULL), Leaf. split_and!; [by vm_compute|by constructor; [|done|constructor]|done|by vm_compute|done].
  - intros id l [_ ->]%Hno. by split; constructor.
  - intros id id' l l' r [-> _]%Hno [-> _]%Hno. done.
  - intros a asp [-> ->]%only_aspace. split; [exact user_aspace_ok|]. exists []. by split.
  - exact start_objs.
  - done.
  - intros id l r x [_ ->]%Hno Hx. by apply elem_of_nil in Hx.
  - intros a asp l [-> ->]%only_aspace [_ ->]%Hno v Hv Hr. split; [|done]. by intros r x o ?%elem_of_nil.
Qed.

(** ... with a region that reserves four pages from 0x4000 on. *)
Definition kept : vmm_region := reserved_region user_aspace 0x4000 0x4000.
Definition reserved : vsys (OB := rsys) := match vmm_reserve_space (Some 1000) 10 0x4000 0x4000 vm_start with Some (_, s) => s | None => vm_start end.
Definition one_region : gmap region_tree (list (Z * vmm_region)) := <[AspaceTree 10 := [(1000, kept)]]> no_regions.

Lemma kept_ok : region_ok kept.
Proof. by constructor. Qed.
Lemma start_unused r : r <> NULL -> unused_mem vm_start r.
Proof. intros Hr. by split_and!. Qed.
Lemma no_region (P : Z -> vmm_region -> Prop) : forall q x, (q, x) ∈ ([] : list (Z * vmm_region)) -> P q x.
Proof. by intros q x ?%elem_of_nil. Qed.
Lemma kept_run : exists s', vmm_reserve_space (Some 1000) 10 0x4000 0x4000 vm_start = Some (NO_ERROR, s') /\ vmm_ok s' one_region.
Proof.
  assert (0x1000 <= 0x4000 < 0x1000 + 0xF000) as Hin by lia. assert (0 < 0x4000 < 2 ^ 64) as Hs by lia. assert (paged 0x4000) as Hp by done.
  destruct (reserve_run vm_start no_regions 10 user_aspace [] 1000 0x4000 0x4000 start_ok eq_refl eq_refl (start_unused 1000 ltac:(done)) eq_refl eq_refl Hp Hp Hs Hin kept_ok (no_region _)) as [(s' & l1 & l2 & Hr & Hk & Hl & _)|(e & _ & _ & [Hi|(q & x & Hx & _)])].
  - symmetry in Hl. apply app_eq_nil in Hl as [-> ->]. by exists s'.
  - destruct Hi. by split.
  - by apply elem_of_nil in Hx.
Qed.
Lemma reserved_run : vmm_reserve_space (Some 1000) 10 0x4000 0x4000 vm_start = Some (NO_ERROR, reserved) /\ vmm_ok reserved one_region.
Proof. destruct kept_run as (s' & Hr & Hk). unfold reserved. rewrite Hr. by split. Qed.

Lemma reserved_objs : v_objs reserved = start.
Proof. exact (eq_refl start <: v_objs reserved = start). Qed.
Lemma reserved_aspace : v_aspaces reserved !! 10 = Some user_aspace.
Proof. by vm_compute. Qed.
Lemma reserved_unused : unused_mem reserved 1001.
Proof. split_and!; by vm_compute. Qed.
Lemma reserved_room : room reserved.
Proof. by vm_compute. Qed.
Lemma kept_list : one_region !! AspaceTree 10 = Some [(1000, kept)].
Proof. apply lookup_insert_eq. Qed.

(** A page and a half of new memory, anywhere. *)
Lemma two_pages : new_call reserved one_region user_aspace [(1000, kept)] (Some 300) 301 1001 0x1800 0 0 0 0 0 0.
Proof.
  constructor.
  - done.
  - lia.
  - by vm_compute.
  - by vm_compute.
  - intros o [= <-]; by vm_compute.
  - split; [lia|]. intros (id & l & Hl & Hin). unfold one_region, no_regions in Hl. rewrite insert_singleton_eq in Hl. apply lookup_singleton_Some in Hl as [_ <-]. cbn in Hin. set_solver.
  - intros _. rewrite reserved_objs. split; [|done]. constructor; [by vm_compute|done|done|done| |].
    + intros o [= <-]; by vm_compute.
    + constructor; [by left|apply machine_clear|done].
  - intros mf' _. by constructor.
Qed.

(** Calls that are refused: from the group the address space does not have, or without pages. *)
Lemma no_group : new_call reserved one_region user_aspace [(1000, kept)] (Some 300) 301 1001 0x1800 0 0 VMM_FLAG_QUOTA 0 0 0.
Proof. destruct two_pages as [_ N2 N3 N4 N5 N6 _ _]. constructor; [done|exact N2|exact N3|exact N4|exact N5|exact N6|done|]. intros mf' _. by constructor. Qed.
Lemma no_pages : new_call reserved one_region user_aspace [(1000, kept)] (Some 300) 301 1001 0 0 0 0 0 0 0.
Proof. destruct two_pages as [_ _ _ _ N5 N6 _ _]. constructor; [done|done|by vm_compute|by vm_compute|exact N5|exact N6|done|done]. Qed.

(** ** The theorems at work *)
Lemma may_reserve : vpermitted vm_start (Reserve 1000 10 0x4000 0x4000).
Proof.
  intros ls Hk. destruct (wf_list vm_start ls 10 user_aspace (vk_wf _ _ Hk) eq_refl) as (l & Hl & _). assert (l = []) as -> by (apply (empty_tree vm_start (AspaceTree 10)); [apply (tw_tree _ _ (vw_trees _ _ (vk_wf _ _ Hk)) _ _ Hl)|done]).
  exists user_aspace, []. assert (0x1000 <= 0x4000 < 0x1000 + 0xF000) as Hin by lia. assert (0 < 0x4000 < 2 ^ 64) as Hs by lia. assert (0 <= 0x4000 < 2 ^ 64) as Hv by lia.
  exact (conj eq_refl (conj Hl (conj (start_unused 1000 ltac:(done)) (conj eq_refl (conj eq_refl (conj eq_refl (conj eq_refl (conj Hs (conj Hv (fun _ => conj kept_ok (no_region _))))))))))).
Qed.

Lemma page_tables_match_regions_witness : (exists ls, vmm_ok reserved ls) /\ forall c, vpermitted reserved c -> exists s', run_vcall c reserved = Some (tt, s') /\ exists ls', vmm_ok s' ls'.
Proof.
  apply (page_tables_match_regions vm_start no_regions reserved start_ok). apply rtc_once. exists (Reserve 1000 10 0x4000 0x4000). split; [exact may_reserve|].
  unfold run_vcall. exact (bind_eq _ _ _ _ _ (proj1 reserved_run)).
Defined.

(** Three pages fit above the region only, from 0x9000 on; ten nowhere. *)
Lemma alloc_spot_finds_witness : exists out g, alloc_spot 10 0x3000 0 0 reserved = Some (out, with_rng g reserved) /\ (out <> no_spot -> fits_at user_aspace [(1000, kept)] 12 0x3000 out).
Proof.
  assert (0 < 0x3000) as Hs by lia. assert (0 < 64) as Hlg by lia.
  destruct (alloc_spot_finds reserved one_region 10 user_aspace [(1000, kept)] 0x3000 0 0 (proj2 reserved_run) reserved_aspace kept_list Hs eq_refl Hlg) as (out & g & Hr & _ & Hf). exists out, g. exact (conj Hr (fun Hne => proj1 (Hf Hne))).
Defined.

Lemma only_kept (P : Z -> vmm_region -> Prop) : P 1000 kept -> forall q x, (q, x) ∈ [(1000, kept)] -> P q x.
Proof. by intros Hp q x [= -> ->]%list_elem_of_singleton. Qed.
Lemma kept_physical y : forall q x, (q, x) ∈ [(1000, kept)] -> touches x y -> has_flag VMM_FLAG_NO_PHYSICAL (vr_flags x) = false.
Proof. by apply (only_kept (fun q x => touches x y -> has_flag VMM_FLAG_NO_PHYSICAL (vr_flags x) = false)). Qed.

(** A page behind the region's guard page is free; a request for five pages from 0x1000 on
    overlaps the region behind its own first page, and fails the assertion. *)
Lemma specific_request_witness :
  (exists s', alloc_region (Some 1001) 10 0x1000 0x9000 0 VMM_FLAG_VALLOC_SPECIFIC 0 0 reserved = Some (inr (1001, AspaceTree 10), s')) /\
  alloc_region (Some 1001) 10 0x5000 0x1000 0 VMM_FLAG_VALLOC_SPECIFIC 0 0 reserved = None.
Proof.
  pose proof reserved_unused as Hu. split.
  - assert (region_ok (fresh_region 0 VMM_FLAG_VALLOC_SPECIFIC 0 0x9000 0x1000)) as Hy by (by constructor).
    pose proof (specific_request reserved one_region 10 user_aspace [(1000, kept)] 1001 0x9000 0x1000 0 VMM_FLAG_VALLOC_SPECIFIC 0 0 (proj2 reserved_run) reserved_aspace kept_list Hu reserved_room eq_refl eq_refl eq_refl Hy (kept_physical _)) as Hr.
    rewrite decide_True, decide_True in Hr; [destruct Hr as (s' & l1 & l2 & Hr & _); by exists s'|by split|]. constructor; [|done]. cbn. intros [Ht _]. apply Ht. by vm_compute.
  - assert (region_ok (fresh_region 0 VMM_FLAG_VALLOC_SPECIFIC 0 0x1000 0x5000)) as Hy by (by constructor).
    pose proof (specific_request reserved one_region 10 user_aspace [(1000, kept)] 1001 0x1000 0x5000 0 VMM_FLAG_VALLOC_SPECIFIC 0 0 (proj2 reserved_run) reserved_aspace kept_list Hu reserved_room eq_refl eq_refl eq_refl Hy (kept_physical _)) as Hr.
    rewrite decide_False in Hr; [|intros Hf; inversion Hf as [|p k Hn]; subst; apply Hn; split; by vm_compute].
    destruct Hr as (q & x & Hx & _ & Hr). apply list_elem_of_singleton in Hx. injection Hx as -> ->. rewrite Hr. by vm_compute.
Defined.

Lemma vmm_reserve_space_outcome_witness :
  (exists s', vmm_reserve_space (Some 1001) 10 0x6000 0x9000 reserved = Some (NO_ERROR, s')) /\ (exists e, e < 0 /\ vmm_reserve_space (Some 1001) 10 0x9000 0x9000 reserved = Some (e, reserved)).
Proof.
  pose proof reserved_unused as Hu. assert (0 < 0x6000 < 2 ^ 64) as Hs by lia. assert (0 < 0x9000 < 2 ^ 64) as Hs' by lia. assert (PAGE_SIZE <= 0x9000 < 2 ^ 64) as Hv by (by split).
  assert (forall size, size <> 0 -> ~ touches kept (reserved_region user_aspace 0x9000 size)) as Hno by (intros size _ [Ht _]; apply Ht; by vm_compute).
  split.
  - pose proof (vmm_reserve_space_outcome reserved one_region 10 user_aspace [(1000, kept)] 1001 0x9000 0x6000 (proj2 reserved_run) reserved_aspace kept_list Hu reserved_room eq_refl eq_refl eq_refl Hs Hv ltac:(done)
      (only_kept (fun q x => touches x _ -> _) (fun Ht => match Hno 0x6000 ltac:(done) Ht with end))) as Hr.
    rewrite decide_True in Hr; [destruct Hr as (s' & l1 & l2 & Hr & _); by exists s'|]. split_and!; [done|done|]. constructor; [|done]. by apply Hno.
  - pose proof (vmm_reserve_space_outcome reserved one_region 10 user_aspace [(1000, kept)] 1001 0x9000 0x9000 (proj2 reserved_run) reserved_aspace kept_list Hu reserved_room eq_refl eq_refl eq_refl Hs' Hv ltac:(done)
      (only_kept (fun q x => touches x _ -> _) (fun Ht => match Hno 0x9000 ltac:(done) Ht with end))) as Hr.
    rewrite decide_False in Hr; [exact Hr|]. by intros (_ & Hi & _).
Defined.

Lemma vmm_find_region_search_witness : vmm_find_region 10 0x4567 (locked true reserved) = Some (1000, locked true reserved).
Proof.
  assert (0 <= 0x4567 < 2 ^ 64) as Hv by lia. exact (vmm_find_region_search reserved one_region 10 user_aspace [(1000, kept)] 0x4567 (proj2 reserved_run) reserved_aspace kept_list Hv).
Defined.

(** An object of two pages, on which the caller has the reference 301. *)
Definition new_object : option ((Z * option Z) * rsys) := po_alloc (Some 300) 301 None 2 0 0 start.
Definition object_state : rsys := match new_object with Some (_, X) => X | None => start end.
Definition with_object : vsys (OB := rsys) := with_vobjs object_state reserved.

Lemma object_made : phys_ok object_state /\ vmm_mutex_held object_state = false /\ same_memory start object_state /\ phys_whole object_state 300 (2 * PAGE_SIZE) /\
  forall o, phys_refs object_state o = if decide (o = 300) then Some {[301]} else phys_refs start o.
Proof.
  destruct (alloc_run start (Some 300) 301 None 2 0 0) as (e & out & X & Hr & K1 & K2 & K3 & K4); [exact start_objs|done| |].
  - split; [|done]. constructor; [by vm_compute|done|done|done| |]; [intros o [= <-]; by vm_compute|constructor; [by left|apply machine_clear|done]].
  - assert (fst <$> new_object = Some (0, Some 300)) as E by (by vm_compute). unfold object_state. unfold new_object in *. rewrite Hr in E |- *. cbn in E. injection E as -> ->. destruct K4 as (_ & _ & _ & Hw & _ & Hrefs). by split_and!.
Qed.
Lemma with_object_ok : vmm_ok with_object one_region.
Proof.
  destruct object_made as (K1 & K2 & K3 & _). apply ok_objs; [exact (proj2 reserved_run)|done|done|by rewrite reserved_objs|].
  intros id k q x o R Hk Hx Ho. exfalso. unfold one_region, no_regions in Hk. rewrite insert_singleton_eq in Hk. apply lookup_singleton_Some in Hk as [_ <-]. apply list_elem_of_singleton in Hx. by injection Hx as -> ->.
Qed.

Lemma fresh_ref : 1001 ∉ ({[301]} : gset Z).
Proof. set_solver. Qed.
Lemma live_ref : ({[301]} : gset Z) <> ∅.
Proof. set_solver. Qed.
Lemma object_call : obj_call with_object 300 {[301]} 1001 0 0x2000.
Proof.
  pose proof object_made as (_ & _ & _ & K4 & K5). specialize (K5 300). rewrite decide_True in K5 by done.
  constructor; [by vm_compute|exact K5|exact live_ref|exact fresh_ref|lia|done|lia|]. intros _. split; [done|exact K4].
Qed.
Lemma vmm_alloc_obj_maps_witness : exists e p s', vmm_alloc_obj (Some 1001) 10 300 0 0x2000 0 0 0 0 with_object = Some ((e, p), s') /\
  if decide (e = 0) then forall v, paged v -> p <= v < p + 0x2000 -> exists pa f, phys_page (v_objs s') 300 (0 + (v - p)) = Some pa /\ shown s' 10 v = Some (pa, f) else vmm_ok s' one_region.
Proof.
  assert (forall mf', request_ok user_aspace [(1000, kept)] 0x2000 (request_addr 0 0) 0 0 VMM_REGION_FLAG_PHYSICAL mf') as Hq by (intros mf'; by constructor).
  destruct (vmm_alloc_obj_maps with_object one_region 10 user_aspace [(1000, kept)] 1001 300 {[301]} 0 0x2000 0 0 0 0 with_object_ok reserved_aspace kept_list reserved_unused reserved_room object_call eq_refl Hq) as (e & p & s' & Hr & Hout).
  exists e, p, s'. split; [exact Hr|]. destruct (decide (e = 0)); [apply Hout|apply Hout].
Defined.

Lemma vmm_alloc_outcome_witness :
  (exists p s', vmm_alloc (Some 300) (Some 1001) 301 10 0x1800 0 0 0 0 reserved = Some ((0, p), s') /\
    forall v, paged v -> p <= v < p + 0x1800 -> exists pa f, phys_page (v_objs s') 300 (v - p) = Some pa /\ shown s' 10 v = Some (pa, f)) /\
  vmm_alloc (Some 300) (Some 1001) 301 10 0x1800 0 0 VMM_FLAG_QUOTA 0 reserved = Some ((ERR_INVALID_ARGS, 0), reserved) /\
  vmm_alloc (Some 300) (Some 1001) 301 10 0 0 0 0 0 reserved = Some ((ERR_INVALID_ARGS, 0), reserved).
Proof.
  split_and!.
  - destruct (vmm_alloc_outcome reserved one_region 10 user_aspace [(1000, kept)] (Some 300) 301 1001 0x1800 0 0 0 0 (proj2 reserved_run) reserved_aspace kept_list reserved_unused reserved_room two_pages) as (e & p & s' & Hr & Hout).
    assert (fst <$> vmm_alloc (Some 300) (Some 1001) 301 10 0x1800 0 0 0 0 reserved = Some (0, 0x1000)) as E by (by vm_compute). rewrite Hr in E. cbn in E. injection E as -> ->. rewrite decide_True in Hout by done.
    destruct Hout as (o & Ho & _ & _ & _ & Hp). injection Ho as <-. exists 0x1000, s'. exact (conj Hr Hp).
  - exact (vmm_alloc_outcome reserved one_region 10 user_aspace [(1000, kept)] (Some 300) 301 1001 0x1800 0 0 VMM_FLAG_QUOTA 0 (proj2 reserved_run) reserved_aspace kept_list reserved_unused reserved_room
      no_group).
  - exact (vmm_alloc_outcome reserved one_region 10 user_aspace [(1000, kept)] (Some 300) 301 1001 0 0 0 0 0 (proj2 reserved_run) reserved_aspace kept_list reserved_unused reserved_room
      no_pages).
Defined.

Lemma vmm_alloc_free_round_trip_witness : exists s1 s2, vmm_alloc (Some 300) (Some 1001) 301 10 0x1800 0 0 0 0 reserved = Some ((NO_ERROR, 0x1000), s1) /\
  vmm_free_region 10 0x1000 s1 = Some (NO_ERROR, s2) /\ vmm_ok s2 one_region.
Proof.
  destruct (vmm_alloc (Some 300) (Some 1001) 301 10 0x1800 0 0 0 0 reserved) as [[x s1]|] eqn:Hr; assert (fst <$> vmm_alloc (Some 300) (Some 1001) 301 10 0x1800 0 0 0 0 reserved = Some (0, 0x1000)) as E by (by vm_compute); rewrite Hr in E; [|done]. cbn in E. injection E as ->.
  destruct (vmm_alloc_free_round_trip reserved one_region 10 user_aspace [(1000, kept)] (Some 300) 301 1001 0x1800 0 0 0 0 0x1000 s1 (proj2 reserved_run) reserved_aspace kept_list reserved_unused reserved_room two_pages Hr eq_refl) as (s2 & Hf & Hk & _).
  exists s1, s2. exact (conj eq_refl (conj Hf Hk)).
Defined.

(** Reserving space meets the same assertion. *)
Example reserve_space_panics : fst <$> vmm_reserve_space (Some 1001) 10 0x5000 0x1000 reserved = None.
Proof. by vm_compute. Qed.
End VmmExample.
