(* ===== verification/Printf.v ===== *)
(** * Formatted output (lib/libc/printf.c)

    Memory is that of LibcMem. The engine hands its output, piece by piece, to a function
    it is given; [vsnprintf] gives it one that fills a buffer. Floating point is left
    out of the build (WITH_NO_FP). *)
From stdpp Require Import base gmap list.
From Stdlib Require Import ZArith Lia Ascii.
From S2P Require Import Prelude LibcMem LibcStr LibcNum.

Local Open Scope Z_scope.
Local Open Scope lk_scope.

Definition LONGFLAG : Z := 0x0001.
Definition LONGLONGFLAG : Z := 0x0002.
Definition HALFFLAG : Z := 0x0004.
Definition HALFHALFFLAG : Z := 0x0008.
Definition SIZETFLAG : Z := 0x0010.
Definition INTMAXFLAG : Z := 0x0020.
Definition PTRDIFFFLAG : Z := 0x0040.
Definition ALTFLAG : Z := 0x0080.
Definition CAPSFLAG : Z := 0x0100.
Definition SHOWSIGNFLAG : Z := 0x0200.
Definition SIGNEDFLAG : Z := 0x0400.
Definition LEFTFORMATFLAG : Z := 0x0800.
Definition LEADZEROFLAG : Z := 0x1000.
Definition BLANKPOSFLAG : Z := 0x2000.
Definition FILTERED_ON_RELEASE : Z := 0x4000.

Definition flagged (f flags : Z) : bool := negb (Z.land flags f =? 0).
(** The code of a character. *)
Definition ch (a : ascii) : Z := Z.of_N (N_of_ascii a).

(** RELEASE_BUILD *)
Class PrintfConfig := release_build : bool.

(** What is left of a variable argument list: int or unsigned int, and the types of
    eight bytes. To read one as the other has no defined outcome. *)
Inductive va := VInt (n : Z) | VLong (n : Z).
Definition va_int (ap : list va) : option (Z * list va) := match ap with VInt n :: ap => Some (i32 n, ap) | _ => None end.
Definition va_uint (ap : list va) : option (Z * list va) := match ap with VInt n :: ap => Some (u32 n, ap) | _ => None end.
Definition va_long (ap : list va) : option (Z * list va) := match ap with VLong n :: ap => Some (i64 n, ap) | _ => None end.
Definition va_ulong (ap : list va) : option (Z * list va) := match ap with VLong n :: ap => Some (u64 n, ap) | _ => None end.

Definition i8 (z : Z) : Z := (z + 2 ^ 7) mod 2 ^ 8 - 2 ^ 7.
Definition i16 (z : Z) : Z := (z + 2 ^ 15) mod 2 ^ 16 - 2 ^ 15.
Definition u16 (z : Z) : Z := z mod 2 ^ 16.
Definition on_fst (f : Z -> Z) (x : Z * list va) : Z * list va := (f (fst x), snd x).

(** The argument of %d and that of %u and %x, as an unsigned long long. *)
Definition signed_arg (flags : Z) (ap : list va) : option (Z * list va) :=
  on_fst u64 <$>
    (if flagged LONGLONGFLAG flags then va_long ap
     else if flagged LONGFLAG flags then va_long ap
     else if flagged HALFHALFFLAG flags then on_fst i8 <$> va_int ap
     else if flagged HALFFLAG flags then on_fst i16 <$> va_int ap
     else if flagged SIZETFLAG flags then va_long ap
     else if flagged INTMAXFLAG flags then va_long ap
     else if flagged PTRDIFFFLAG flags then va_long ap
     else va_int ap).
Definition unsigned_arg (flags : Z) (ap : list va) : option (Z * list va) :=
  if flagged LONGLONGFLAG flags then va_ulong ap
  else if flagged LONGFLAG flags then va_ulong ap
  else if flagged HALFHALFFLAG flags then on_fst u8 <$> va_uint ap
  else if flagged HALFFLAG flags then on_fst u16 <$> va_uint ap
  else if flagged SIZETFLAG flags then va_ulong ap
  else if flagged INTMAXFLAG flags then va_ulong ap
  else if flagged PTRDIFFFLAG flags then va_ulong ap
  else va_uint ap.

Section printf.
Context `{PrintfConfig}.

(** ** Numbers

    The buffer is filled from its end on: the list of what is behind [pos]. *)
Definition push (len c : Z) (buf : list Z) : option (list Z) := if zlen buf <? len then Some (c :: buf) else None.
Definition stars (len : Z) (buf : list Z) : option (list Z) :=
  buf ← push len (ch "*") buf; buf ← push len (ch "*") buf; push len (ch "*") buf.
Fixpoint put_decimal (fuel : nat) (len n : Z) (buf : list Z) : option (list Z) :=
  if n >=? 10 then
    match fuel with O => None | S fuel => buf ← push len (n mod 10 + ch "0") buf; put_decimal fuel len (n / 10) buf end
  else push len (n + ch "0") buf.

(** The string, and the new value of [*signchar]. *)
Definition longlong_to_string (n len flag signchar : Z) : option (list Z * Z) :=
  let signed_n := i64 n in
  let negative := flagged SIGNEDFLAG flag && (signed_n <? 0) in
  if negative && (signed_n =? LLONG_MIN) then None
  else
    let n := if negative then - signed_n else n in
    buf ← push len 0 [];
    if release_build && flagged FILTERED_ON_RELEASE flag && (n >? 4096) then (fun buf => (buf, signchar)) <$> stars len buf
    else
      buf ← put_decimal (Z.to_nat len) len n buf;
      Some (buf, if negative then ch "-" else if flagged SHOWSIGNFLAG flag then ch "+" else if flagged BLANKPOSFLAG flag then ch " " else 0).

Definition hex_digit (caps : bool) (d : Z) : Z := if d <? 10 then ch "0" + d else (if caps then ch "A" else ch "a") + (d - 10).
Fixpoint put_hex (fuel : nat) (caps : bool) (len u : Z) (buf : list Z) : option (list Z) :=
  match fuel with
  | O => None
  | S fuel =>
      buf ← push len (hex_digit caps (u mod 16)) buf;
      if u / 16 =? 0 then Some buf else put_hex fuel caps len (u / 16) buf
  end.
Definition longlong_to_hexstring (u len flag : Z) : option (list Z) :=
  buf ← push len 0 [];
  if release_build && flagged FILTERED_ON_RELEASE flag && (u >? 4096) && (u <? 2 ^ 64 - 4096) then stars len buf
  else put_hex (Z.to_nat len) (flagged CAPSFLAG flag) len u buf.

Definition num_buffer : Z := 32.

(** ** The characters of a format *)

(** One that modifies the conversion to come, or is the conversion. *)
Inductive format_char :=
  | Modify (flags format_num : Z) (ap : list va)
  | Undefined
  | Convert.

Definition read_char (c flags format_num : Z) (ap : list va) : format_char :=
  let flag f := Modify (Z.lor flags f) format_num ap in
  if (ch "0" <=? c) && (c <=? ch "9") then
    Modify (if (c =? ch "0") && (format_num =? 0) then Z.lor flags LEADZEROFLAG else flags) (u32 (u32 (format_num * 10) + (c - ch "0"))) ap
  else if c =? ch "." then Modify flags format_num ap
  else if c =? ch "*" then
    match va_int ap with
    | Some (f, ap) => if f <? 0 then if f =? INT_MIN then Undefined else Modify (Z.lor flags LEFTFORMATFLAG) (- f) ap
                      else Modify flags f ap
    | None => Undefined
    end
  else if c =? ch "-" then flag LEFTFORMATFLAG
  else if c =? ch "+" then flag SHOWSIGNFLAG
  else if c =? ch " " then flag BLANKPOSFLAG
  else if c =? ch "#" then flag ALTFLAG
  else if c =? ch "l" then flag (if flagged LONGFLAG flags then Z.lor LONGLONGFLAG LONGFLAG else LONGFLAG)
  else if c =? ch "h" then flag (if flagged HALFFLAG flags then Z.lor HALFHALFFLAG HALFFLAG else HALFFLAG)
  else if c =? ch "z" then flag SIZETFLAG
  else if c =? ch "j" then flag INTMAXFLAG
  else if c =? ch "t" then flag PTRDIFFFLAG
  else Convert.

(** A piece of output: memory, or an array of the engine. *)
Inductive psrc := AtMem (p : Z) | Local (l : list Z).
Definition null_text : list Z := [ch "<"; ch "n"; ch "u"; ch "l"; ch "l"; ch ">"; 0].
Fixpoint local_strlen (l : list Z) : option Z :=
  match l with [] => None | c :: l => if c =? 0 then Some 0 else Z.succ <$> local_strlen l end.

(** ** The engine

    [out] is the output function on a state of its own. Where it reports an error the
    engine stops: [inl]. *)
Section engine.
Context {St : Type} (out : psrc -> Z -> M (mem * St) Z).
Local Abbreviation ME A := (M (mem * St) (Z + A)).

Definition on_mem {A} (m : MM A) : M (mem * St) A :=
  fun s => match m (fst s) with Some (a, m) => Some (a, (m, snd s)) | None => None end.
Definition defined {A} (x : option A) : M (mem * St) A := match x with Some a => ret a | None => panic end.
Definition and_then {A B} (m : ME A) (k : A -> ME B) : ME B := x <- m ;; match x with inl e => ret (inl e) | inr a => k a end.
Local Notation "x <-! m ;; k" := (and_then m (fun x => k)) (at level 100, m at next level, right associativity).

(** OUTPUT_STRING: [err], and [chars_written] after it. *)
Definition output (x : psrc) (len chars_written : Z) : ME (Z * Z) :=
  err <- out x len ;; if err <? 0 then ret (inl err) else ret (inr (err, u64 (chars_written + err))).
Definition output_char (c chars_written : Z) : ME Z := x <-! output (Local [c]) 1 chars_written ;; ret (inr (snd x)).

Fixpoint pad (fuel : nat) (c format_num least chars_written : Z) : ME Z :=
  if format_num >? least then
    match fuel with
    | O => panic
    | S fuel => cw <-! output_char c chars_written ;; pad fuel c (format_num - 1) least cw
    end
  else ret (inr chars_written).

Definition psrc_strlen (x : psrc) : M (mem * St) Z :=
  match x with AtMem p => on_mem (strlen p) | Local l => defined (local_strlen l) end.

(** From the label _output_string on. *)
Definition output_string (s : psrc) (flags format_num signchar cw : Z) : ME Z :=
  string_len <- psrc_strlen s ;;
  if flagged LEFTFORMATFLAG flags then
    x <-! output s string_len cw ;;
    pad (Z.to_nat format_num) (ch " ") format_num (u32 (fst x)) (snd x)
  else
    let format_num := if negb (signchar =? 0) && (format_num >? 0) then format_num - 1 else format_num in
    let leadzero := flagged LEADZEROFLAG flags in
    cw <-! (if leadzero && negb (signchar =? 0) then output_char signchar cw else ret (inr cw)) ;;
    cw <-! pad (Z.to_nat format_num) (if leadzero then ch "0" else ch " ") format_num string_len cw ;;
    cw <-! (if negb leadzero && negb (signchar =? 0) then output_char signchar cw else ret (inr cw)) ;;
    x <-! output s string_len cw ;;
    ret (inr (snd x)).

Definition parse_extra_modifiers (fmt flags : Z) (use_filter_modifiers : bool) : M (mem * St) (Z * Z) :=
  currChar <- on_mem (load8 fmt) ;;
  ret (if (currChar =? 0) || negb use_filter_modifiers then (fmt, flags)
       else if currChar =? ch "x" then (fmt + 1, Z.ldiff flags FILTERED_ON_RELEASE)
       else (fmt, flags)).

Definition is_hex_conversion (c : Z) : bool := (c =? ch "p") || (c =? ch "X") || (c =? ch "x").

(** The conversions. The result is where the format goes on, the arguments left and
    [chars_written]. *)
Definition convert (filtered : bool) (c fmt : Z) (ap : list va) (flags format_num cw : Z) : ME (Z * list va * Z) :=
  if c =? ch "%" then cw <-! output_char (ch "%") cw ;; ret (inr (fmt, ap, cw))
  else if c =? ch "c" then
    x <- defined (va_uint ap) ;;
    cw <-! output_char (u8 (fst x)) cw ;;
    ret (inr (fmt, snd x, cw))
  else if c =? ch "s" then
    x <- defined (va_ulong ap) ;;
    let s := if fst x =? 0 then Local null_text else AtMem (fst x) in
    cw <-! output_string s (Z.ldiff flags LEADZEROFLAG) format_num 0 cw ;;
    ret (inr (fmt, snd x, cw))
  else if (c =? ch "i") || (c =? ch "d") then
    x <- defined (signed_arg flags ap) ;;
    p <- parse_extra_modifiers fmt (Z.lor flags SIGNEDFLAG) filtered ;;
    s <- defined (longlong_to_string (fst x) num_buffer (snd p) 0) ;;
    cw <-! output_string (Local (fst s)) (snd p) format_num (snd s) cw ;;
    ret (inr (fst p, snd x, cw))
  else if c =? ch "u" then
    x <- defined (unsigned_arg flags ap) ;;
    p <- parse_extra_modifiers fmt flags filtered ;;
    s <- defined (longlong_to_string (fst x) num_buffer (snd p) 0) ;;
    cw <-! output_string (Local (fst s)) (snd p) format_num (snd s) cw ;;
    ret (inr (fst p, snd x, cw))
  else if is_hex_conversion c then
    let flags := if c =? ch "p" then Z.lor flags (Z.lor LONGFLAG ALTFLAG) else if c =? ch "X" then Z.lor flags CAPSFLAG else flags in
    x <- defined (unsigned_arg flags ap) ;;
    p <- parse_extra_modifiers fmt flags filtered ;;
    s <- defined (longlong_to_hexstring (fst x) num_buffer (snd p)) ;;
    cw <-! (if flagged ALTFLAG (snd p) then
              cw <-! output_char (ch "0") cw ;; output_char (if flagged CAPSFLAG (snd p) then ch "X" else ch "x") cw
            else ret (inr cw)) ;;
    cw <-! output_string (Local s) (snd p) format_num 0 cw ;;
    ret (inr (fst p, snd x, cw))
  else if c =? ch "n" then
    x <- defined (va_ulong ap) ;;
    let bytes := (if flagged LONGLONGFLAG flags then 8 else if flagged LONGFLAG flags then 8 else if flagged HALFHALFFLAG flags then 1
                  else if flagged HALFFLAG flags then 2 else if flagged SIZETFLAG flags then 8 else 4)%nat in
    on_mem (store_bytes (fst x) (take bytes (word_bytes cw))) ;;
    ret (inr (fmt, snd x, cw))
  else
    cw <-! output_char (ch "%") cw ;;
    cw <-! output_char c cw ;;
    ret (inr (fmt, ap, cw)).

(** From the label next_format on; [None] at the end of the format. *)
Fixpoint next_format (fuel : nat) (filtered : bool) (fmt : Z) (ap : list va) (flags format_num cw : Z) : ME (option (Z * list va * Z)) :=
  match fuel with
  | O => panic
  | S fuel =>
      c <- on_mem (load8 fmt) ;;
      if c =? 0 then ret (inr None)
      else
        match read_char c flags format_num ap with
        | Modify flags format_num ap => next_format fuel filtered (fmt + 1) ap flags format_num cw
        | Undefined => panic
        | Convert => x <-! convert filtered c (fmt + 1) ap flags format_num cw ;; ret (inr (Some x))
        end
  end.

(** How many characters there are before a format or the end, and what is there. *)
Fixpoint regular_chars (fuel : nat) (fmt string_len : Z) : M (mem * St) (Z * Z) :=
  match fuel with
  | O => panic
  | S fuel =>
      c <- on_mem (load8 fmt) ;;
      if (c =? 0) || (c =? ch "%") then ret (c, string_len) else regular_chars fuel (fmt + 1) (string_len + 1)
  end.

Definition start_flags (filtered : bool) : Z := if filtered then FILTERED_ON_RELEASE else 0.

Fixpoint engine_loop (fuel : nat) (filtered : bool) (fmt : Z) (ap : list va) (cw : Z) : ME Z :=
  match fuel with
  | O => panic
  | S fuel =>
      steps <- on_mem str_fuel ;;
      r <- regular_chars steps fmt 0 ;;
      x <-! output (AtMem fmt) (snd r) cw ;;
      if fst r =? 0 then ret (inr (snd x))
      else
        f <-! next_format steps filtered (fmt + snd r + 1) ap (start_flags filtered) 0 (snd x) ;;
        match f with
        | None => ret (inr (snd x))
        | Some (fmt, ap, cw) => engine_loop fuel filtered fmt ap cw
        end
  end.

Definition _printf_engine_internal (fmt : Z) (ap : list va) (filtered : bool) : M (mem * St) Z :=
  fuel <- on_mem str_fuel ;;
  x <- engine_loop fuel filtered fmt ap 0 ;;
  ret (match x with inl err => err | inr chars_written => i32 chars_written end).
Definition _printf_engine (fmt : Z) (ap : list va) : M (mem * St) Z := _printf_engine_internal fmt ap true.
Definition _printf_unfiltered_engine (fmt : Z) (ap : list va) : M (mem * St) Z := _printf_engine_internal fmt ap false.
End engine.

(** ** Output to a buffer *)
Record output_args := mk_output { outstr : Z; out_len : Z; out_pos : Z }.

Definition psrc_byte (x : psrc) (i : Z) : M (mem * output_args) Z :=
  match x with AtMem p => on_mem (load8 (p + i)) | Local l => defined (l !! Z.to_nat i) end.
Fixpoint vsnprintf_copy (n : nat) (str : psrc) (i : Z) : M (mem * output_args) unit :=
  match n with
  | O => ret tt
  | S n =>
      args <- gets snd ;;
      when (out_pos args <? out_len args)
        (c <- psrc_byte str i ;;
         on_mem (store8 (outstr args + out_pos args) c) ;;
         modify (fun s => (fst s, mk_output (outstr args) (out_len args) (out_pos args + 1)))) ;;
      vsnprintf_copy n str (i + 1)
  end.
Definition _vsnprintf_output (str : psrc) (len : Z) : M (mem * output_args) Z := vsnprintf_copy (Z.to_nat len) str 0 ;; ret (i32 len).

(** An engine that fills a buffer: the result, and how much was written. *)
Definition to_buffer (e : (psrc -> Z -> M (mem * output_args) Z) -> M (mem * output_args) Z) (str len : Z) : MM (Z * Z) :=
  fun m => match e _vsnprintf_output (m, mk_output str len 0) with Some (wlen, (m, args)) => Some ((wlen, out_pos args), m) | None => None end.

Definition vsnprintf (str len fmt : Z) (ap : list va) : MM Z :=
  r <- to_buffer (fun out => _printf_unfiltered_engine out fmt ap) str len ;;
  when (len >? 0) (if snd r >=? len then store8 (str + (len - 1)) 0 else store8 (str + fst r) 0) ;;
  ret (fst r).
(** [len - 1] wraps for a buffer without room. *)
Definition vsnprintf_filtered (str len fmt : Z) (ap : list va) : MM Z :=
  r <- to_buffer (fun out => _printf_engine out fmt ap) str len ;;
  (if snd r >=? len then store8 (u64 (str + u64 (len - 1))) 0 else store8 (str + fst r) 0) ;;
  ret (fst r).
Definition vsprintf (str fmt : Z) (ap : list va) : MM Z := vsnprintf str (2 ^ 31 - 1) fmt ap.
Definition sprintf (str fmt : Z) (ap : list va) : MM Z := vsprintf str fmt ap.
Definition snprintf (str len fmt : Z) (ap : list va) : MM Z := vsnprintf str len fmt ap.
Definition snprintf_filtered (str len fmt : Z) (ap : list va) : MM Z := vsnprintf_filtered str len fmt ap.
End printf.
