(* ===== verification/PrintfSpec.v ===== *)
(** * What a format stands for

    [expand] reads a format one character at a time and gives the output as a list; the
    engine hands exactly this to any output function that takes all it is given. *)
From stdpp Require Import base gmap list.
From Stdlib Require Import ZArith Lia Ascii.
From S2P Require Import Prelude LibcMem LibcStr LibcNum Printf.

Local Open Scope Z_scope.
Local Open Scope lk_scope.

Section expand.
Context `{PrintfConfig}.
(** The strings that pointers point to, and whether the call is a filtered one. *)
Context (str : Z -> option (list Z)) (filtered : bool).

Definition blanks (n : Z) (c : Z) : list Z := replicate (Z.to_nat n) c.
(** The field of a string with a sign. A field that is filled up on the right has no sign. *)
Definition justify (flags format_num signchar : Z) (s : list Z) : list Z :=
  if flagged LEFTFORMATFLAG flags then s ++ blanks (format_num - zlen s) (ch " ")
  else
    let sign := if signchar =? 0 then [] else [signchar] in
    let n := (if negb (signchar =? 0) && (format_num >? 0) then format_num - 1 else format_num) - zlen s in
    if flagged LEADZEROFLAG flags then sign ++ blanks n (ch "0") ++ s else blanks n (ch " ") ++ sign ++ s.

(** The characters of a buffer without the zero at its end. *)
Definition text_of (l : list Z) : list Z := take (length l - 1) l.

(** The flags after the modifier behind a conversion of a number, if it is there. *)
Definition extra (l : list Z) (flags : Z) : Z := if filtered && bool_decide (hd 0 l = ch "x") then Z.ldiff flags FILTERED_ON_RELEASE else flags.

Definition number_text (x : Z * list va) (flags format_num : Z) : option (list Z * list va) :=
  s ← longlong_to_string (fst x) num_buffer flags 0; Some (justify flags format_num (snd s) (text_of (fst s)), snd x).

(** The output of a conversion, in front of [l], and the arguments left. *)
Definition conversion (c : Z) (l : list Z) (ap : list va) (flags format_num : Z) : option (list Z * list va) :=
  if c =? ch "%" then Some ([ch "%"], ap)
  else if c =? ch "c" then x ← va_uint ap; Some ([u8 (fst x)], snd x)
  else if c =? ch "s" then
    x ← va_ulong ap;
    s ← (if fst x =? 0 then Some (text_of null_text) else str (fst x));
    Some (justify (Z.ldiff flags LEADZEROFLAG) format_num 0 s, snd x)
  else if (c =? ch "i") || (c =? ch "d") then x ← signed_arg flags ap; number_text x (extra l (Z.lor flags SIGNEDFLAG)) format_num
  else if c =? ch "u" then x ← unsigned_arg flags ap; number_text x (extra l flags) format_num
  else if is_hex_conversion c then
    let flags := if c =? ch "p" then Z.lor flags (Z.lor LONGFLAG ALTFLAG) else if c =? ch "X" then Z.lor flags CAPSFLAG else flags in
    x ← unsigned_arg flags ap;
    let flags := extra l flags in
    s ← longlong_to_hexstring (fst x) num_buffer flags;
    Some ((if flagged ALTFLAG flags then [ch "0"; if flagged CAPSFLAG flags then ch "X" else ch "x"] else []) ++ justify flags format_num 0 (text_of s), snd x)
  else if c =? ch "n" then None
  else Some ([ch "%"; c], ap).
(** Whether a conversion takes the x behind it. *)
Definition takes_extra (c : Z) (l : list Z) : bool :=
  filtered && ((c =? ch "i") || (c =? ch "d") || (c =? ch "u") || is_hex_conversion c) && bool_decide (hd 0 l = ch "x").

(** The output of a format from a character on; within a conversion [st] has its flags and
    its width. A format with %n has none. *)
Fixpoint expand (l : list Z) (st : option (Z * Z)) (ap : list va) : option (list Z) :=
  match l with
  | [] => Some []
  | c :: l =>
      match st with
      | None => if c =? ch "%" then expand l (Some (start_flags filtered, 0)) ap else cons c <$> expand l None ap
      | Some (flags, format_num) =>
          match read_char c flags format_num ap with
          | Modify flags format_num ap => expand l (Some (flags, format_num)) ap
          | Undefined => None
          | Convert =>
              x ← conversion c l ap flags format_num;
              app (fst x) <$> match l with
                              | _ :: l' => if takes_extra c l then expand l' None (snd x) else expand l None (snd x)
                              | [] => Some []
                              end
          end
      end
  end.
End expand.

(** ** Output functions *)

(** An output function that takes all it is given: [R acc] is the state after [acc], and
    [reads p l] says that there is the string [l] at [p], now and later. *)
Class Sink `{PrintfConfig} {St : Type} (out : psrc -> Z -> M (mem * St) Z) := {
  sink : list Z -> mem * St -> Prop;
  reads : Z -> list Z -> Prop;
  reads_now acc s p l : sink acc s -> reads p l -> cstr (fst s) p l;
  reads_on p l1 l2 : reads p (l1 ++ l2) -> reads (p + zlen l1) l2;
  out_mem acc s p l1 l2 : sink acc s -> reads p (l1 ++ l2) -> zlen acc + zlen l1 < 2 ^ 31 -> exists s', out (AtMem p) (zlen l1) s = Some (zlen l1, s') /\ sink (acc ++ l1) s';
  out_local acc s l1 l2 : sink acc s -> zlen acc + zlen l1 < 2 ^ 31 -> exists s', out (Local (l1 ++ l2)) (zlen l1) s = Some (zlen l1, s') /\ sink (acc ++ l1) s'
}.

Section engine.
Context `{PrintfConfig} {St : Type} (out : psrc -> Z -> M (mem * St) Z) `{!Sink out}.
Context (str : Z -> option (list Z)) (str_reads : forall p l, str p = Some l -> reads p l).
Implicit Types (s : mem * St) (acc l o : list Z).

(** A piece of output with the characters [l] at its beginning. *)
Definition piece (x : psrc) l : Prop := match x with AtMem p => exists l2, reads p (l ++ l2) | Local k => exists l2, k = l ++ l2 end.
(** ... and with nothing but them. *)
Definition whole (x : psrc) l : Prop := match x with AtMem p => reads p l | Local k => k = l ++ [0] /\ Forall (fun c => c <> 0) l end.

Lemma whole_piece x l : whole x l -> piece x l.
Proof. destruct x as [p|k]; cbn; [exists []; by rewrite app_nil_r|]. intros [-> _]. by exists [0]. Qed.

Lemma output_run x l acc s : sink acc s -> piece x l -> zlen acc + zlen l < 2 ^ 31 ->
  exists s', output out x (zlen l) (zlen acc) s = Some (inr (zlen l, zlen (acc ++ l)), s') /\ sink (acc ++ l) s'.
Proof.
  intros Hs Hx Hb. assert (exists s', out x (zlen l) s = Some (zlen l, s') /\ sink (acc ++ l) s') as (s' & Hr & Hs').
  { destruct x as [p|k]; cbn in Hx; destruct Hx as [l2 Hx]; [by apply (out_mem acc s p l l2)|]. subst k. by apply (out_local acc s l l2). }
  exists s'. split; [|done]. unfold output. rewrite (bind_eq _ _ _ _ _ Hr). rewrite (proj2 (Z.ltb_ge _ _)) by lia. unfold ret. rewrite u64_small by lia. do 4 f_equal. rewrite length_app. lia.
Qed.

Lemma output_char_run c acc s : sink acc s -> zlen acc + 1 < 2 ^ 31 -> exists s', output_char out c (zlen acc) s = Some (inr (zlen (acc ++ [c])), s') /\ sink (acc ++ [c]) s'.
Proof.
  intros Hs Hb. destruct (output_run (Local [c]) [c] acc s Hs) as (s' & Hr & Hs'); [by exists []|done|]. exists s'. split; [|done].
  unfold output_char, and_then. change 1 with (zlen [c]) at 1. by rewrite (bind_eq _ _ _ _ _ Hr).
Qed.

Lemma and_then_eq {A B} (m : M (mem * St) (Z + A)) (k : A -> M (mem * St) (Z + B)) s a s' : m s = Some (inr a, s') -> and_then m k s = k a s'.
Proof. intros Hm. unfold and_then. by rewrite (bind_eq _ _ _ _ _ Hm). Qed.

Lemma pad_run c least fuel : forall n acc s, sink acc s -> (Z.to_nat (n - least) <= fuel)%nat -> zlen acc + zlen (blanks (n - least) c) < 2 ^ 31 ->
  exists s', pad out fuel c n least (zlen acc) s = Some (inr (zlen (acc ++ blanks (n - least) c)), s') /\ sink (acc ++ blanks (n - least) c) s'.
Proof.
  unfold blanks. induction fuel as [|fuel IH]; intros n acc s Hs Hf Hb; cbn [pad]; rewrite Z.gtb_ltb.
  - assert (Z.to_nat (n - least) = 0%nat) as Hz by lia. rewrite (proj2 (Z.ltb_ge _ _)) by lia. rewrite Hz. cbn. rewrite app_nil_r. by exists s.
  - destruct (Z.ltb_spec least n) as [Hlt|Hge].
    + replace (Z.to_nat (n - least)) with (S (Z.to_nat (n - 1 - least))) in * by lia. cbn [replicate] in *. cbn [length] in Hb.
      destruct (output_char_run c acc s Hs) as (s1 & Hr & Hs1); [lia|]. rewrite (and_then_eq _ _ _ _ _ Hr). destruct (IH (n - 1) (acc ++ [c]) s1 Hs1) as (s2 & Hr2 & Hs2); [lia|rewrite length_app; cbn [length]; lia|].
      exists s2. rewrite Hr2. by rewrite <- !app_assoc in *.
    + replace (Z.to_nat (n - least)) with 0%nat by lia. cbn. rewrite app_nil_r. by exists s.
Qed.

Lemma local_strlen_run l : Forall (fun c => c <> 0) l -> local_strlen (l ++ [0]) = Some (zlen l).
Proof.
  induction l as [|c l IH]; intros Hl; [done|]. apply Forall_cons in Hl as [Hc Hl]. cbn [local_strlen app]. rewrite (proj2 (Z.eqb_neq _ _) Hc), IH by done. cbn -[Z.of_nat]. f_equal. lia.
Qed.
Lemma psrc_strlen_bind {A} (k : Z -> M (mem * St) A) x l acc s : sink acc s -> whole x l -> bind (psrc_strlen x) k s = k (zlen l) s.
Proof.
  intros Hs Hx. destruct x as [p|b]; cbn in Hx.
  - apply bind_eq. unfold psrc_strlen, on_mem. rewrite (strlen_run (fst s) p l) by (by eapply reads_now). by destruct s.
  - destruct Hx as [-> Hl]. unfold psrc_strlen. by rewrite local_strlen_run.
Qed.

Definition opt_char (c : Z) : list Z := if c =? 0 then [] else [c].
Lemma opt_char_run b c acc s : sink acc s -> zlen acc + zlen (if b : bool then opt_char c else []) < 2 ^ 31 ->
  exists s', (if b && negb (c =? 0) then output_char out c (zlen acc) else ret (inr (zlen acc))) s = Some (inr (zlen (acc ++ if b then opt_char c else [])), s') /\
    sink (acc ++ if b then opt_char c else []) s'.
Proof.
  intros Hs Hb. unfold opt_char in *. destruct b; cbn [andb]; [|rewrite app_nil_r; by exists s]. destruct (c =? 0); cbn [negb]; [rewrite app_nil_r; by exists s|]. by apply output_char_run.
Qed.

Lemma output_string_run x l flags n sc acc s : sink acc s -> whole x l -> zlen acc + zlen (justify flags n sc l) < 2 ^ 31 ->
  exists s', output_string out x flags n sc (zlen acc) s = Some (inr (zlen (acc ++ justify flags n sc l)), s') /\ sink (acc ++ justify flags n sc l) s'.
Proof.
  intros Hs Hx Hb. unfold output_string. rewrite (psrc_strlen_bind _ x l acc) by done. pose proof (whole_piece _ _ Hx) as Hp. unfold justify in *.
  destruct (flagged LEFTFORMATFLAG flags).
  - rewrite length_app in Hb. destruct (output_run x l acc s Hs Hp) as (s1 & Hr & Hs1); [lia|]. rewrite (and_then_eq _ _ _ _ _ Hr). cbn [fst snd]. rewrite u32_small by lia.
    destruct (pad_run (ch " ") (zlen l) (Z.to_nat n) n (acc ++ l) s1 Hs1) as (s2 & Hr2 & Hs2); [lia|rewrite length_app; lia|]. exists s2. rewrite Hr2. by rewrite <- !app_assoc in *.
  - cbv zeta. fold (opt_char sc) in *. set (n' := if negb (sc =? 0) && (n >? 0) then n - 1 else n) in *. clearbody n'. set (z := flagged LEADZEROFLAG flags) in *. clearbody z.
    assert (zlen acc + zlen (if z then opt_char sc else []) + zlen (blanks (n' - zlen l) (if z then ch "0" else ch " ")) + zlen (if negb z then opt_char sc else []) + zlen l < 2 ^ 31) as Hlen by (destruct z; rewrite !length_app in Hb; cbn [negb length]; lia).
    destruct (opt_char_run z sc acc s Hs) as (s1 & Hr1 & Hs1); [lia|]. rewrite (and_then_eq _ _ _ _ _ Hr1).
    destruct (pad_run (if z then ch "0" else ch " ") (zlen l) (Z.to_nat n') n' _ s1 Hs1) as (s2 & Hr2 & Hs2); [lia|rewrite length_app; lia|]. rewrite (and_then_eq _ _ _ _ _ Hr2).
    destruct (opt_char_run (negb z) sc _ s2 Hs2) as (s3 & Hr3 & Hs3); [rewrite !length_app; lia|]. rewrite (and_then_eq _ _ _ _ _ Hr3).
    destruct (output_run x l _ s3 Hs3 Hp) as (s4 & Hr4 & Hs4); [rewrite !length_app; lia|]. rewrite (and_then_eq _ _ _ _ _ Hr4). exists s4.
    assert ((((acc ++ (if z then opt_char sc else [])) ++ blanks (n' - zlen l) (if z then ch "0" else ch " ")) ++ (if negb z then opt_char sc else [])) ++ l =
            acc ++ (if z then opt_char sc ++ blanks (n' - zlen l) (ch "0") ++ l else blanks (n' - zlen l) (ch " ") ++ opt_char sc ++ l)) as <- by (rewrite <- !app_assoc; by destruct z; cbn [negb app]).
    done.
Qed.

(** ** Texts of numbers *)
Definition zero_ended (b : list Z) : Prop := exists l, b = l ++ [0] /\ Forall (fun c => c <> 0) l.
Lemma text_of_app l : text_of (l ++ [0]) = l.
Proof. unfold text_of. rewrite length_app, Nat.add_sub. by rewrite take_app_length. Qed.
Lemma zero_ended_whole b : zero_ended b -> whole (Local b) (text_of b).
Proof. intros (l & -> & Hl). rewrite text_of_app. by split. Qed.
Lemma push_nul len b : push len 0 [] = Some b -> zero_ended b.
Proof. unfold push. destruct (_ <? len); [|done]. intros [= <-]. by exists []. Qed.
Lemma push_ended len c b b' : zero_ended b -> c <> 0 -> push len c b = Some b' -> zero_ended b'.
Proof. intros (l & -> & Hl) Hc. unfold push. destruct (_ <? len); [|done]. intros [= <-]. exists (c :: l). split; [done|by constructor]. Qed.
Lemma stars_ended len b b' : zero_ended b -> stars len b = Some b' -> zero_ended b'.
Proof.
  intros Hb (b1 & Q1 & (b2 & Q2 & Q3)%option.bind_Some)%option.bind_Some. assert (ch "*" <> 0) as Hc by done. eapply push_ended; [|done|exact Q3]. eapply push_ended; [|done|exact Q2]. by eapply push_ended.
Qed.
Lemma put_decimal_ended len fuel : forall n b b', 0 <= n -> zero_ended b -> put_decimal fuel len n b = Some b' -> zero_ended b'.
Proof.
  induction fuel as [|fuel IH]; intros n b b' Hn Hb; cbn [put_decimal]; rewrite Z.geb_leb; destruct (Z.leb_spec 10 n) as [Hl|Hl]; try done.
  - apply push_ended; [done|]. change (ch "0") with 48. lia.
  - intros (b1 & Q1 & Q2)%option.bind_Some. apply IH in Q2; [done|apply Z.div_pos; lia|]. eapply push_ended; [exact Hb| |exact Q1]. change (ch "0") with 48. pose proof (Z.mod_pos_bound n 10). lia.
  - apply push_ended; [done|]. change (ch "0") with 48. lia.
Qed.
Lemma hex_digit_nonzero caps d : 0 <= d -> hex_digit caps d <> 0.
Proof. intros Hd. unfold hex_digit. change (ch "0") with 48. change (ch "a") with 97. change (ch "A") with 65. destruct (Z.ltb_spec d 10), caps; lia. Qed.
Lemma put_hex_ended caps len fuel : forall u b b', 0 <= u -> zero_ended b -> put_hex fuel caps len u b = Some b' -> zero_ended b'.
Proof.
  induction fuel as [|fuel IH]; intros u b b' Hu Hb; cbn [put_hex]; [done|]. intros (b1 & Q1 & Q2)%option.bind_Some. pose proof (Z.mod_pos_bound u 16 eq_refl).
  assert (zero_ended b1) as Hb1 by (eapply push_ended; [exact Hb| |exact Q1]; apply hex_digit_nonzero; lia). destruct (u / 16 =? 0); [by injection Q2 as <-|]. eapply IH; [|exact Hb1|exact Q2]. apply Z.div_pos; lia.
Qed.
Lemma longlong_ended n len fl sc b sc' : 0 <= n -> longlong_to_string n len fl sc = Some (b, sc') -> zero_ended b.
Proof.
  intros Hn. unfold longlong_to_string. cbv zeta. destruct (_ && (i64 n =? LLONG_MIN)); [done|]. intros (b1 & Q1%push_nul & Q2)%option.bind_Some.
  destruct (release_build && _ && _).
  - apply fmap_Some in Q2 as (b2 & Q2 & [= -> ->]). by eapply stars_ended.
  - apply option.bind_Some in Q2 as (b2 & Q2 & [= -> _]). eapply put_decimal_ended; [|exact Q1|exact Q2]. destruct (flagged SIGNEDFLAG fl); cbn [andb]; [|done]. destruct (Z.ltb_spec (i64 n) 0); lia.
Qed.
Lemma hexstring_ended u len fl b : 0 <= u -> longlong_to_hexstring u len fl = Some b -> zero_ended b.
Proof.
  intros Hu. unfold longlong_to_hexstring. intros (b1 & Q1%push_nul & Q2)%option.bind_Some. destruct (release_build && _ && _ && _); [by eapply stars_ended|by eapply put_hex_ended].
Qed.
Lemma u64_nonneg n : 0 <= u64 n.
Proof. apply Z.mod_pos_bound. lia. Qed.
Lemma signed_arg_nonneg fl ap x : signed_arg fl ap = Some x -> 0 <= fst x.
Proof. intros (y & _ & ->)%fmap_Some. apply u64_nonneg. Qed.
Lemma unsigned_arg_nonneg fl ap x : unsigned_arg fl ap = Some x -> 0 <= fst x.
Proof.
  assert (forall y, va_ulong ap = Some y -> 0 <= fst y) as Hl by (intros y; unfold va_ulong; destruct ap as [|[n|n] k]; try done; intros [= <-]; apply u64_nonneg).
  assert (forall y, va_uint ap = Some y -> 0 <= fst y) as Hi by (intros y; unfold va_uint; destruct ap as [|[n|n] k]; try done; intros [= <-]; cbn; apply Z.mod_pos_bound; lia).
  assert (forall f y, on_fst f <$> va_uint ap = Some y -> (forall z, 0 <= f z) -> 0 <= fst y) as Hf by (intros f y (z & _ & ->)%fmap_Some Hf; apply Hf).
  unfold unsigned_arg. repeat case_match; intros Hx; try (by apply Hl in Hx); try (by apply Hi in Hx); (eapply Hf; [exact Hx|]; intros z; apply Z.mod_pos_bound; lia).
Qed.

(** ** Conversions *)
Context (filtered : bool).
Definition skips (l : list Z) : bool := filtered && bool_decide (hd 0 l = ch "x").

Lemma load_bind {A} (k : Z -> M (mem * St) A) p l acc s : sink acc s -> reads p l -> bind (on_mem (load8 p)) k s = k (hd 0 l) s.
Proof.
  intros Hs Hp. apply bind_eq. pose proof (reads_now _ _ _ _ Hs Hp) as Hl. unfold on_mem. destruct l as [|c l]; [rewrite (load_nil _ _ Hl)|destruct (load_cons _ _ _ _ Hl) as [-> _]]; by destruct s.
Qed.
Lemma extra_run p l fl acc s : sink acc s -> reads p l -> parse_extra_modifiers p fl filtered s = Some ((if skips l then p + 1 else p, extra filtered l fl), s).
Proof.
  intros Hs Hp. unfold parse_extra_modifiers. rewrite (load_bind _ p l acc) by done. unfold ret, skips, extra. do 2 f_equal. change (ch "x") with 120. destruct filtered; cbn [negb]; [|by rewrite orb_true_r].
  rewrite orb_false_r. cbn [andb]. destruct (Z.eqb_spec (hd 0 l) 0) as [->|_]; [done|]. destruct (Z.eqb_spec (hd 0 l) 120) as [->|Hne]; [done|]. by rewrite bool_decide_eq_false_2.
Qed.
Lemma defined_bind {A B} (x : option A) (k : A -> M (mem * St) B) a s : x = Some a -> bind (defined x) k s = k a s.
Proof. by intros ->. Qed.

(** The string of a number. *)
Lemma number_run (x : Z * list va) l p fl num acc s o ap : sink acc s -> reads p l -> 0 <= fst x -> number_text x (extra filtered l fl) num = Some (o, ap) -> zlen acc + zlen o < 2 ^ 31 ->
  exists s', (p' <- parse_extra_modifiers p fl filtered ;; s0 <- defined (longlong_to_string (fst x) num_buffer (snd p') 0) ;;
     and_then (output_string out (Local (fst s0)) (snd p') num (snd s0) (zlen acc)) (fun cw => ret (inr (fst p', snd x, cw)))) s =
     Some (inr (if skips l then p + 1 else p, ap, zlen (acc ++ o)), s') /\ sink (acc ++ o) s'.
Proof.
  intros Hs Hp Hx Hn Hb. rewrite (bind_eq _ _ _ _ _ (extra_run p l fl acc s Hs Hp)). cbn [fst snd]. apply option.bind_Some in Hn as ([b sc] & Hstr & [= <- <-]). rewrite (defined_bind _ _ _ _ Hstr). cbn [fst snd] in *.
  destruct (output_string_run (Local b) (text_of b) (extra filtered l fl) num sc acc s Hs) as (s' & Hr & Hs'); [by eapply zero_ended_whole, longlong_ended|done|]. exists s'. by rewrite (and_then_eq _ _ _ _ _ Hr).
Qed.

Definition goes_on (c p : Z) (l : list Z) : Z := if takes_extra filtered c l then p + 1 else p.
Lemma goes_on_number c p l : (c =? ch "i") || (c =? ch "d") || (c =? ch "u") || is_hex_conversion c = true -> goes_on c p l = if skips l then p + 1 else p.
Proof. intros Hc. unfold goes_on, takes_extra, skips. rewrite Hc. by rewrite andb_true_r. Qed.
Lemma goes_on_other c p l : (c =? ch "i") || (c =? ch "d") || (c =? ch "u") || is_hex_conversion c = false -> goes_on c p l = p.
Proof. intros Hc. unfold goes_on, takes_extra. rewrite Hc. by rewrite andb_false_r. Qed.

Lemma hex_run fl (x : Z * list va) l p num acc s o ap : sink acc s -> reads p l -> 0 <= fst x ->
  (let fl := extra filtered l fl in b ← longlong_to_hexstring (fst x) num_buffer fl;
   Some ((if flagged ALTFLAG fl then [ch "0"; if flagged CAPSFLAG fl then ch "X" else ch "x"] else []) ++ justify fl num 0 (text_of b), snd x)) = Some (o, ap) -> zlen acc + zlen o < 2 ^ 31 ->
  exists s', (p' <- parse_extra_modifiers p fl filtered ;; b <- defined (longlong_to_hexstring (fst x) num_buffer (snd p')) ;;
     and_then (if flagged ALTFLAG (snd p') then and_then (output_char out (ch "0") (zlen acc)) (fun cw => output_char out (if flagged CAPSFLAG (snd p') then ch "X" else ch "x") cw) else ret (inr (zlen acc)))
       (fun cw => and_then (output_string out (Local b) (snd p') num 0 cw) (fun cw => ret (inr (fst p', snd x, cw))))) s =
     Some (inr (if skips l then p + 1 else p, ap, zlen (acc ++ o)), s') /\ sink (acc ++ o) s'.
Proof.
  intros Hs Hp Hx Hn Hb. rewrite (bind_eq _ _ _ _ _ (extra_run p l fl acc s Hs Hp)). cbn [fst snd]. cbv zeta in Hn. set (fl' := extra filtered l fl) in *. apply option.bind_Some in Hn as (b & Hstr & [= <- <-]).
  rewrite (defined_bind _ _ _ _ Hstr). assert (zero_ended b) as Hz by (by eapply hexstring_ended). rewrite length_app in Hb.
  assert (exists s1, (if flagged ALTFLAG fl' then and_then (output_char out (ch "0") (zlen acc)) (fun cw => output_char out (if flagged CAPSFLAG fl' then ch "X" else ch "x") cw) else ret (inr (zlen acc))) s =
    Some (inr (zlen (acc ++ if flagged ALTFLAG fl' then [ch "0"; if flagged CAPSFLAG fl' then ch "X" else ch "x"] else [])), s1) /\
    sink (acc ++ if flagged ALTFLAG fl' then [ch "0"; if flagged CAPSFLAG fl' then ch "X" else ch "x"] else []) s1) as (s1 & Hr1 & Hs1).
  { destruct (flagged ALTFLAG fl'); [|rewrite app_nil_r; by exists s]. cbn [length] in Hb. destruct (output_char_run (ch "0") acc s Hs) as (s1 & Hr1 & Hs1); [lia|]. rewrite (and_then_eq _ _ _ _ _ Hr1).
    destruct (output_char_run (if flagged CAPSFLAG fl' then ch "X" else ch "x") _ s1 Hs1) as (s2 & Hr2 & Hs2); [rewrite length_app; cbn [length]; lia|]. exists s2. by rewrite <- app_assoc in *. }
  rewrite (and_then_eq _ _ _ _ _ Hr1). destruct (output_string_run (Local b) (text_of b) fl' num 0 _ s1 Hs1) as (s2 & Hr2 & Hs2); [by apply zero_ended_whole|rewrite length_app; lia|].
  exists s2. rewrite (and_then_eq _ _ _ _ _ Hr2). by rewrite <- app_assoc in *.
Qed.

Lemma convert_run c l p ap fl num acc s o ap' : sink acc s -> reads p l -> conversion str filtered c l ap fl num = Some (o, ap') -> zlen acc + zlen o < 2 ^ 31 ->
  exists s', convert out filtered c p ap fl num (zlen acc) s = Some (inr (goes_on c p l, ap', zlen (acc ++ o)), s') /\ sink (acc ++ o) s'.
Proof.
  intros Hs Hp Hc Hb. unfold convert, conversion in *. destruct (Z.eqb_spec c (ch "%")) as [->|N1].
  { injection Hc as <- <-. destruct (output_char_run (ch "%") acc s Hs) as (s' & Hr & Hs'); [cbn in Hb; lia|]. exists s'. by rewrite (and_then_eq _ _ _ _ _ Hr), goes_on_other. }
  destruct (Z.eqb_spec c (ch "c")) as [->|N2].
  { apply option.bind_Some in Hc as (x & Hx & [= <- <-]). rewrite (defined_bind _ _ _ _ Hx). destruct (output_char_run (u8 (fst x)) acc s Hs) as (s' & Hr & Hs'); [cbn in Hb; lia|]. exists s'. by rewrite (and_then_eq _ _ _ _ _ Hr), goes_on_other. }
  destruct (Z.eqb_spec c (ch "s")) as [->|N3].
  { apply option.bind_Some in Hc as (x & Hx & (t & Ht & [= <- <-])%option.bind_Some). rewrite (defined_bind _ _ _ _ Hx). cbv zeta.
    destruct (output_string_run (if fst x =? 0 then Local null_text else AtMem (fst x)) t (Z.ldiff fl LEADZEROFLAG) num 0 acc s Hs) as (s' & Hr & Hs'); [|done|exists s'; by rewrite (and_then_eq _ _ _ _ _ Hr), goes_on_other].
    destruct (fst x =? 0); [injection Ht as <-; split; [done|by repeat constructor]|by apply str_reads]. }
  destruct ((c =? ch "i") || (c =? ch "d")) eqn:N4.
  { apply option.bind_Some in Hc as (x & Hx & Hc). rewrite (defined_bind _ _ _ _ Hx). rewrite goes_on_number by (by rewrite N4). apply number_run; try done. by eapply signed_arg_nonneg. }
  destruct (Z.eqb_spec c (ch "u")) as [->|N5].
  { apply option.bind_Some in Hc as (x & Hx & Hc). rewrite (defined_bind _ _ _ _ Hx). rewrite goes_on_number by done. apply number_run; try done. by eapply unsigned_arg_nonneg. }
  destruct (is_hex_conversion c) eqn:N6.
  { cbv zeta. apply option.bind_Some in Hc as (x & Hx & Hc). rewrite (defined_bind _ _ _ _ Hx). rewrite goes_on_number by (by rewrite N6, orb_true_r). apply hex_run; try done. by eapply unsigned_arg_nonneg. }
  assert (goes_on c p l = p) as Hgo by (apply goes_on_other; rewrite N4, (proj2 (Z.eqb_neq _ _) N5), N6; done).
  destruct (Z.eqb_spec c (ch "n")) as [->|N7]; [done|]. injection Hc as <- <-. cbn in Hb. destruct (output_char_run (ch "%") acc s Hs) as (s1 & Hr1 & Hs1); [lia|]. rewrite (and_then_eq _ _ _ _ _ Hr1).
  destruct (output_char_run c _ s1 Hs1) as (s2 & Hr2 & Hs2); [rewrite length_app; cbn; lia|]. exists s2. rewrite (and_then_eq _ _ _ _ _ Hr2), Hgo. by rewrite <- app_assoc in *.
Qed.

(** ** The loops *)
Lemma reads_next p c l : reads p (c :: l) -> reads (p + 1) l.
Proof. apply (reads_on p [c] l). Qed.

Lemma next_format_run l : forall p ap fl num acc s o fuel, sink acc s -> reads p l -> expand str filtered l (Some (fl, num)) ap = Some o -> zlen acc + zlen o < 2 ^ 31 -> (length l < fuel)%nat ->
  (next_format out fuel filtered p ap fl num (zlen acc) s = Some (inr None, s) /\ o = []) \/
  exists s' o1 o2 p' l' ap', next_format out fuel filtered p ap fl num (zlen acc) s = Some (inr (Some (p', ap', zlen (acc ++ o1))), s') /\ sink (acc ++ o1) s' /\
    reads p' l' /\ (length l' < length l)%nat /\ expand str filtered l' None ap' = Some o2 /\ o = o1 ++ o2.
Proof.
  induction l as [|c l IH]; intros p ap fl num acc s o [|fuel] Hs Hp He Hb Hf; cbn [length] in Hf; try lia; cbn [next_format]; rewrite (load_bind _ p _ acc) by done; cbn [hd expand] in *.
  - left. injection He as <-. done.
  - assert (c <> 0) as Hc by (pose proof (reads_now _ _ _ _ Hs Hp) as Hl; cbn in Hl; lia). rewrite (proj2 (Z.eqb_neq _ _) Hc). pose proof (reads_next _ _ _ Hp) as Hp'.
    destruct (read_char c fl num ap) as [fl' num' ap'| |]; [|done|].
    + destruct (IH (p + 1) ap' fl' num' acc s o fuel Hs Hp' He Hb ltac:(lia)) as [Hend|(s' & o1 & o2 & p2 & l' & ap2 & Hr & Hs' & Hp2 & Hl & He2 & Ho)]; [by left|]. right. exists s', o1, o2, p2, l', ap2. split_and!; try done. cbn [length]. lia.
    + apply option.bind_Some in He as ([o1 ap'] & Hcv & He). apply fmap_Some in He as (o2 & He & ->). cbn [fst snd] in *. rewrite length_app in Hb.
      destruct (convert_run c l (p + 1) ap fl num acc s o1 ap' Hs Hp' Hcv) as (s' & Hr & Hs'); [lia|]. rewrite (and_then_eq _ _ _ _ _ Hr). right. unfold goes_on.
      destruct (takes_extra filtered c l) eqn:Ht.
      * destruct l as [|x l']; [unfold takes_extra in Ht; cbn in Ht; by rewrite andb_false_r in Ht|]. exists s', o1, o2, (p + 1 + 1), l', ap'. split_and!; [done|done|by eapply reads_next|cbn; lia|done|done].
      * exists s', o1, o2, (p + 1), l, ap'. split_and!; [done|done|done|cbn; lia|by destruct l|done].
Qed.

Lemma regular_run l : forall p i fuel acc s, sink acc s -> reads p l -> (length l < fuel)%nat ->
  exists l1 l2, l = l1 ++ l2 /\ Forall (fun c => c <> ch "%") l1 /\ (l2 = [] \/ exists l3, l2 = ch "%" :: l3) /\ regular_chars fuel p i s = Some ((hd 0 l2, i + zlen l1), s).
Proof.
  induction l as [|c l IH]; intros p i [|fuel] acc s Hs Hp Hf; cbn [length] in Hf; try lia; cbn [regular_chars]; rewrite (load_bind _ p _ acc) by done; cbn [hd].
  - exists [], []. rewrite Z.add_0_r. split_and!; [done|done|by left|done].
  - assert (c <> 0) as Hc by (pose proof (reads_now _ _ _ _ Hs Hp) as Hl; cbn in Hl; lia). rewrite (proj2 (Z.eqb_neq _ _) Hc). cbn [orb]. destruct (Z.eqb_spec c (ch "%")) as [->|Hn].
    + exists [], (ch "%" :: l). rewrite Z.add_0_r. split_and!; [done|done|right; by exists l|done].
    + destruct (IH (p + 1) (i + 1) fuel acc s Hs (reads_next _ _ _ Hp) ltac:(lia)) as (l1 & l2 & -> & Hl & Hl2 & Hr). exists (c :: l1), l2. split_and!; [done|by constructor|done|]. rewrite Hr. do 3 f_equal. cbn [length]. lia.
Qed.
Lemma expand_regular l1 l2 ap o : Forall (fun c => c <> ch "%") l1 -> expand str filtered (l1 ++ l2) None ap = Some o -> exists o2, expand str filtered l2 None ap = Some o2 /\ o = l1 ++ o2.
Proof.
  revert o. induction l1 as [|c l1 IH]; intros o Hl He; [by exists o|]. apply Forall_cons in Hl as [Hc Hl]. cbn [app expand] in He. rewrite (proj2 (Z.eqb_neq _ _) Hc) in He. apply fmap_Some in He as (o1 & He & ->). destruct (IH o1 Hl He) as (o2 & He2 & ->). by exists o2.
Qed.

Lemma on_mem_fuel {A} (k : nat -> M (mem * St) A) s : bind (on_mem str_fuel) k s = k (Datatypes.S (base.size (fst s))) s.
Proof. by destruct s. Qed.

Lemma engine_loop_run n : forall l p ap acc s o fuel, (length l <= n)%nat -> sink acc s -> reads p l -> expand str filtered l None ap = Some o -> zlen acc + zlen o < 2 ^ 31 -> (length l < fuel)%nat ->
  exists s', engine_loop out fuel filtered p ap (zlen acc) s = Some (inr (zlen (acc ++ o)), s') /\ sink (acc ++ o) s'.
Proof.
  induction n as [n IH] using lt_wf_ind. intros l p ap acc s o [|fuel] Hn Hs Hp He Hb Hf; [lia|]. cbn [engine_loop]. rewrite on_mem_fuel. pose proof (cstr_size _ _ _ (reads_now _ _ _ _ Hs Hp)) as Hsz.
  destruct (regular_run l p 0 (Datatypes.S (base.size (fst s))) acc s Hs Hp ltac:(lia)) as (l1 & l2 & -> & Hl1 & Hl2 & Hr). rewrite (bind_eq _ _ _ _ _ Hr). cbn [fst snd]. rewrite Z.add_0_l.
  destruct (expand_regular l1 l2 ap o Hl1 He) as (o2 & He2 & ->). rewrite length_app in Hb. destruct (output_run (AtMem p) l1 acc s Hs) as (s1 & Hr1 & Hs1); [by exists l2|lia|]. rewrite (and_then_eq _ _ _ _ _ Hr1). cbn [fst snd].
  destruct Hl2 as [->|[l3 ->]].
  - cbn in He2. injection He2 as <-. exists s1. by rewrite app_nil_r.
  - cbn [hd]. change (ch "%" =? 0) with false. cbn iota. cbn [expand] in He2. change (ch "%" =? ch "%") with true in He2. cbn iota in He2. apply reads_on in Hp. apply reads_next in Hp.
    destruct (next_format_run l3 (p + zlen l1 + 1) ap (start_flags filtered) 0 (acc ++ l1) s1 o2 (Datatypes.S (base.size (fst s))) Hs1 Hp He2) as [[Hrn ->]|(s2 & o3 & o4 & p' & l' & ap' & Hrn & Hs2 & Hp' & Hl' & He' & ->)].
    + rewrite length_app. lia.
    + rewrite length_app in Hsz. cbn [length] in Hsz. lia.
    + rewrite (and_then_eq _ _ _ _ _ Hrn). exists s1. by rewrite app_nil_r.
    + rewrite (and_then_eq _ _ _ _ _ Hrn). rewrite length_app in Hf, Hn, Hb. cbn [length] in Hf, Hn. destruct (IH (length l') ltac:(lia) l' p' ap' ((acc ++ l1) ++ o3) s2 o4 fuel) as (s3 & Hr3 & Hs3); try done; [rewrite !length_app; lia|lia|].
      exists s3. rewrite Hr3. by rewrite <- !app_assoc in *.
Qed.

(** The engine puts out what the format stands for. *)
Lemma engine_run l p ap s o : sink [] s -> reads p l -> expand str filtered l None ap = Some o -> zlen o < 2 ^ 31 ->
  exists s', _printf_engine_internal out p ap filtered s = Some (zlen o, s') /\ sink o s'.
Proof.
  intros Hs Hp He Hb. pose proof (cstr_size _ _ _ (reads_now _ _ _ _ Hs Hp)) as Hsz. unfold _printf_engine_internal. rewrite on_mem_fuel.
  destruct (engine_loop_run (length l) l p ap [] s o (Datatypes.S (base.size (fst s))) ltac:(lia) Hs Hp He ltac:(cbn; lia) ltac:(lia)) as (s' & Hr & Hs'). exists s'. change (zlen (@nil Z)) with 0 in Hr. rewrite (bind_eq _ _ _ _ _ Hr). split; [|done].
  unfold ret. cbn [app]. by rewrite i32_small by (unfold INT_MIN, INT_MAX; lia).
Qed.
End engine.
