(* ===== verification/PrintfProps.v ===== *)
(** * What printf.c promises

    A buffer is a sink of the engine; the calls that fill one are about [expand]. *)
From stdpp Require Import base gmap list strings.
From Stdlib Require Import ZArith Lia Ascii.
From S2P Require Import Prelude LibcMem LibcStr LibcNum Printf PrintfSpec.

Local Open Scope Z_scope.
Local Open Scope lk_scope.

(** ** A buffer *)
Section buffer.
Context `{PrintfConfig} (m : mem) (buf len : Z) (Hlen : 0 <= len) (Hbuf : mapped m buf len).
Implicit Types (acc l o : list Z) (s : mem * output_args).

(** Memory [m'] is [m] with the first [n] characters of [l] in the buffer. *)
Definition filled n l (m' : mem) : Prop := forall q, m' !! q = if decide (buf <= q < buf + n) then u8 <$> l !! Z.to_nat (q - buf) else m !! q.
Definition in_buffer acc s : Prop := let n := Z.min len (zlen acc) in snd s = mk_output buf len n /\ filled n acc (fst s).
(** A string outside the buffer. *)
Definition apart (p : Z) l : Prop := cstr m p l /\ (p + zlen l < buf \/ buf + len <= p).

Lemma filled_start : in_buffer [] (m, mk_output buf len 0).
Proof. unfold in_buffer. cbn. rewrite Z.min_r by lia. split; [done|]. intros q. by rewrite decide_False by lia. Qed.
Lemma in_buffer_keeps acc s p l : in_buffer acc s -> apart p l -> cstr (fst s) p l.
Proof. intros [_ Hf] [Hl Ha]. apply (cstr_frame m); [|done]. intros q Hq. rewrite Hf. apply decide_False. lia. Qed.

(** The next character. *)
Lemma in_buffer_next acc s c : in_buffer acc s ->
  exists s', (when (out_pos (snd s) <? out_len (snd s)) (on_mem (store8 (outstr (snd s) + out_pos (snd s)) c) ;; modify (fun s' => (fst s', mk_output (outstr (snd s)) (out_len (snd s)) (out_pos (snd s) + 1))))) s = Some (tt, s') /\
    in_buffer (acc ++ [c]) s'.
Proof.
  unfold in_buffer. intros [Ha Hf]. destruct s as [m0 a]. cbn in Ha, Hf. subst a. cbn [snd fst out_pos out_len outstr]. rewrite length_app. cbn [length]. destruct (Z.ltb_spec (Z.min len (zlen acc)) len) as [Hlt|Hge].
  - assert (Z.min len (zlen acc) = zlen acc) as E by lia. rewrite E in *. assert (is_Some (m0 !! (buf + zlen acc))) as Hm. { rewrite Hf, decide_False by lia. apply Hbuf. lia. }
    exists (<[buf + zlen acc := u8 c]> m0, mk_output buf len (zlen acc + 1)). split.
    + cbn [when]. unfold bind, on_mem, modify. cbn [fst snd]. by rewrite store8_eq.
    + cbn [fst snd]. replace (Z.min len (Z.of_nat (length acc + 1))) with (zlen acc + 1) by lia. split; [done|]. intros q. destruct (decide (q = buf + zlen acc)) as [->|Hq].
      * rewrite lookup_insert_eq, decide_True by lia. replace (Z.to_nat (buf + zlen acc - buf)) with (length acc) by lia. by rewrite list_lookup_middle.
      * rewrite lookup_insert_ne, Hf by done. destruct (decide (buf <= q < buf + zlen acc)); [rewrite decide_True, lookup_app_l by lia; done|by rewrite decide_False by lia].
  - assert (len <= zlen acc) as Hfull by lia. exists (m0, mk_output buf len (Z.min len (zlen acc))). split; [done|]. cbn [fst snd]. replace (Z.min len (Z.of_nat (length acc + 1))) with len by lia. replace (Z.min len (zlen acc)) with len in * by lia. split; [done|].
    intros q. rewrite Hf. destruct (decide (buf <= q < buf + len)); [by rewrite lookup_app_l by lia|done].
Qed.

(** A source of which the characters from [i] on are [l], whatever is in the buffer. *)
Definition gives (x : psrc) (i : Z) l : Prop := forall acc s j c, in_buffer acc s -> l !! j = Some c -> psrc_byte x (i + Z.of_nat j) s = Some (c, s).
Lemma copy_run x l : forall i acc s, gives x i l -> in_buffer acc s -> exists s', vsnprintf_copy (length l) x i s = Some (tt, s') /\ in_buffer (acc ++ l) s'.
Proof.
  induction l as [|c l IH]; intros i acc s Hx Hs; [exists s; by rewrite app_nil_r|]. cbn [length vsnprintf_copy]. rewrite gets_bind.
  destruct (in_buffer_next acc s c Hs) as (s1 & Hr & Hs1). pose proof (Hx acc s 0%nat c Hs eq_refl) as Hc. rewrite Z.add_0_r in Hc.
  assert (when (out_pos (snd s) <? out_len (snd s)) (c <- psrc_byte x i ;; on_mem (store8 (outstr (snd s) + out_pos (snd s)) c) ;;
    modify (fun s' => (fst s', mk_output (outstr (snd s)) (out_len (snd s)) (out_pos (snd s) + 1)))) s = Some (tt, s1)) as Hw.
  { destruct (_ <? _); cbn [when] in *; [|done]. by rewrite (bind_eq _ _ _ _ _ Hc). }
  rewrite (bind_eq _ _ _ _ _ Hw). destruct (IH (i + 1) (acc ++ [c]) s1) as (s2 & Hr2 & Hs2); [|done|].
  - intros acc' s' j c' Hs' Hj. rewrite <- (Hx acc' s' (S j) c' Hs' Hj). f_equal. lia.
  - exists s2. split; [done|]. by rewrite <- app_assoc in Hs2.
Qed.
Lemma output_filled x l acc s : gives x 0 l -> in_buffer acc s -> zlen acc + zlen l < 2 ^ 31 -> exists s', _vsnprintf_output x (zlen l) s = Some (zlen l, s') /\ in_buffer (acc ++ l) s'.
Proof.
  intros Hx Hs Hb. destruct (copy_run x l 0 acc s Hx Hs) as (s' & Hr & Hs'). exists s'. unfold _vsnprintf_output. rewrite Nat2Z.id, (bind_eq _ _ _ _ _ Hr). split; [|done]. unfold ret. by rewrite i32_small by (unfold INT_MIN, INT_MAX; lia).
Qed.

#[export] Instance buffer_sink : Sink _vsnprintf_output.
Proof.
  refine {| sink := in_buffer; reads := apart |}.
  - exact in_buffer_keeps.
  - intros p l1 l2 [Hl Ha]. split; [by apply cstr_app|]. rewrite length_app in Ha. lia.
  - intros acc s p l1 l2 Hs Hp Hb. apply output_filled; [|done|done]. intros acc' s' j c Hs' Hj. cbn [psrc_byte]. rewrite Z.add_0_l. unfold on_mem.
    pose proof (in_buffer_keeps _ _ _ _ Hs' Hp) as Hl. assert (j < length l1)%nat as Hjl by (by eapply lookup_lt_Some). rewrite load8_eq with (v := c); [by destruct s'|]. rewrite (cstr_lookup _ _ _ _ Hl) by (rewrite length_app; lia). by rewrite lookup_app_l.
  - intros acc s l1 l2 Hs Hb. apply output_filled; [|done|done]. intros acc' s' j c _ Hj. cbn [psrc_byte]. rewrite Z.add_0_l, Nat2Z.id. assert (j < length l1)%nat as Hjl by (by eapply lookup_lt_Some). by rewrite lookup_app_l, Hj by done.
Defined.
End buffer.

(** ** The calls *)

(** The buffer has the text, cut off to make room for the zero behind it, and nothing else
    has changed. *)
Definition holds_text (m : mem) (buf len : Z) (o : list Z) (m' : mem) : Prop :=
  let k := Z.min (len - 1) (zlen o) in
  forall q, m' !! q = if decide (buf <= q < buf + k) then u8 <$> o !! Z.to_nat (q - buf) else if decide (q = buf + k) then Some 0 else m !! q.
Lemma holds_unique m buf len o m1 m2 : holds_text m buf len o m1 -> holds_text m buf len o m2 -> m1 = m2.
Proof. intros Q1 Q2. apply map_eq. intros q. by rewrite Q1, Q2. Qed.

(** What a call may be given: a buffer, a format and, as far as they are printed, strings
    that do not overlap the buffer. *)
Record printable (m : mem) (buf len fmt : Z) (l : list Z) (str : Z -> option (list Z)) : Prop := {
  pr_len : 0 <= len;
  pr_buf : mapped m buf len;
  pr_fmt : apart m buf len fmt l;
  pr_str : forall p t, str p = Some t -> apart m buf len p t
}.

Section calls.
Context `{PrintfConfig} (m : mem) (buf len fmt : Z) (l : list Z) (str : Z -> option (list Z)) (Hp : printable m buf len fmt l str).
Context (ap : list va) (o : list Z) (Ho : zlen o < 2 ^ 31).

Lemma buffer_run filtered : expand str filtered l None ap = Some o ->
  exists m', to_buffer (fun out => _printf_engine_internal out fmt ap filtered) buf len m = Some ((zlen o, Z.min len (zlen o)), m') /\ filled m buf (Z.min len (zlen o)) o m'.
Proof.
  intros He. destruct Hp as [P1 P2 P3 P4].
  destruct (engine_run _vsnprintf_output (Sink0 := buffer_sink m buf len P2) str P4 filtered l fmt ap (m, mk_output buf len 0) o (filled_start m buf len P1) P3 He Ho) as ([m' a] & Hr & Hs).
  exists m'. unfold to_buffer. rewrite Hr. destruct Hs as [Ha Hf]. cbn in Ha, Hf. by subst a.
Qed.

(** The zero at the end. *)
Lemma end_run m1 k : 0 < len -> filled m buf (Z.min len (zlen o)) o m1 -> k = Z.min (len - 1) (zlen o) -> exists m', store8 (buf + k) 0 m1 = Some (tt, m') /\ holds_text m buf len o m'.
Proof.
  intros Hl Hf Hk. destruct Hp as [P1 P2 _ _]. exists (<[buf + k := u8 0]> m1). split.
  - apply store8_eq. rewrite Hf. destruct (decide _) as [Hd|Hd]; [|apply P2; lia]. apply fmap_is_Some, lookup_lt_is_Some_2. lia.
  - intros q. cbn zeta. rewrite <- Hk. destruct (decide (q = buf + k)) as [->|Hq].
    + rewrite lookup_insert_eq, decide_False by lia. done.
    + rewrite lookup_insert_ne, Hf by done. destruct (decide (buf <= q < buf + k)); [by rewrite decide_True by lia|]. rewrite decide_False; [done|]. lia.
Qed.

Lemma vsnprintf_run : expand str false l None ap = Some o -> exists m', vsnprintf buf len fmt ap m = Some (zlen o, m') /\ if decide (len = 0) then m' = m else holds_text m buf len o m'.
Proof.
  intros He. destruct (buffer_run false He) as (m1 & Hr & Hf). unfold vsnprintf, _printf_unfiltered_engine. rewrite (bind_eq _ _ _ _ _ Hr). cbn [fst snd]. pose proof (pr_len _ _ _ _ _ _ Hp) as Hl. rewrite Z.gtb_ltb.
  destruct (decide (len = 0)) as [->|Hne].
  - exists m1. split; [done|]. apply map_eq. intros q. rewrite Hf. rewrite decide_False by lia. done.
  - rewrite (proj2 (Z.ltb_lt _ _)) by lia. cbn [when]. rewrite Z.geb_leb. destruct (Z.leb_spec len (Z.min len (zlen o))) as [Hge|Hlt].
    + destruct (end_run m1 (len - 1)) as (m' & Hs & Hh); [lia|done|lia|]. exists m'. by rewrite (bind_eq _ _ _ _ _ Hs).
    + destruct (end_run m1 (zlen o)) as (m' & Hs & Hh); [lia|done|lia|]. exists m'. by rewrite (bind_eq _ _ _ _ _ Hs).
Qed.
Lemma vsnprintf_filtered_run : 0 < len -> 0 <= buf -> buf + len <= 2 ^ 64 -> expand str true l None ap = Some o -> exists m', vsnprintf_filtered buf len fmt ap m = Some (zlen o, m') /\ holds_text m buf len o m'.
Proof.
  intros Hl Hb0 Hb He. destruct (buffer_run true He) as (m1 & Hr & Hf). unfold vsnprintf_filtered, _printf_engine. rewrite (bind_eq _ _ _ _ _ Hr). cbn [fst snd].
  rewrite Z.geb_leb. destruct (Z.leb_spec len (Z.min len (zlen o))) as [Hge|Hlt].
  - rewrite (u64_small (len - 1)), u64_small by lia. destruct (end_run m1 (len - 1)) as (m' & Hs & Hh); [lia|done|lia|]. exists m'. by rewrite (bind_eq _ _ _ _ _ Hs).
  - destruct (end_run m1 (zlen o)) as (m' & Hs & Hh); [lia|done|lia|]. exists m'. by rewrite (bind_eq _ _ _ _ _ Hs).
Qed.
End calls.

(** A buffer without room: the zero goes in front of it. *)
Lemma vsnprintf_filtered_none `{PrintfConfig} m buf fmt l str (Hp : printable m buf 0 fmt l str) ap o (Ho : zlen o < 2 ^ 31) : expand str true l None ap = Some o ->
  vsnprintf_filtered buf 0 fmt ap m = if decide (is_Some (m !! u64 (buf - 1))) then Some (zlen o, <[u64 (buf - 1) := 0]> m) else None.
Proof.
  intros He. destruct (buffer_run m buf 0 fmt l str Hp ap o Ho true He) as (m1 & Hr & Hf). assert (m1 = m) as -> by (apply map_eq; intros q; rewrite Hf, decide_False by lia; done).
  unfold vsnprintf_filtered, _printf_engine. rewrite (bind_eq _ _ _ _ _ Hr). cbn [fst snd]. rewrite Z.geb_leb, (proj2 (Z.leb_le _ _)) by lia.
  assert (u64 (buf + u64 (0 - 1)) = u64 (buf - 1)) as -> by (unfold u64; rewrite Zplus_mod_idemp_r; f_equal; lia).
  destruct (decide _) as [Hm|Hm]; [by rewrite (bind_eq _ _ _ _ _ (store8_eq _ _ _ Hm))|]. apply eq_None_not_Some in Hm. unfold bind, store8, load8. unfold bind. unfold getsome. by rewrite Hm.
Qed.

(** ** Decimal numbers *)
Section decimal.
Context `{PrintfConfig}.

(** [ds] are the digits of [n]. *)
Definition decimal_of (n : Z) (ds : list Z) : Prop := ds <> [] /\ Forall (fun c => ch "0" <= c <= ch "9") ds /\ fold_left (fun a c => a * 10 + (c - ch "0")) ds 0 = n.

Lemma put_decimal_run len k : forall fuel n b, 0 <= n < 10 ^ Z.of_nat (S k) -> (k <= fuel)%nat -> zlen b + Z.of_nat (S k) <= len ->
  exists ds, put_decimal fuel len n b = Some (ds ++ b) /\ decimal_of n ds /\ zlen ds <= Z.of_nat (S k).
Proof.
  change (ch "0") with 48. change (ch "9") with 57. assert (forall n b, 0 <= n < 10 -> zlen b + 1 <= len -> push len (n + 48) b = Some ([n + 48] ++ b) /\ decimal_of n [n + 48]) as Hone.
  { intros n b Hn Hb. unfold push. rewrite (proj2 (Z.ltb_lt _ _)) by lia. split; [done|]. split; [done|]. change (ch "0") with 48. change (ch "9") with 57. split; [constructor; [lia|done]|cbn; lia]. }
  induction k as [|k IH]; intros fuel n b Hn Hf Hb.
  - change (10 ^ Z.of_nat 1) with 10 in Hn. exists [n + 48]. destruct (Hone n b Hn ltac:(lia)) as [Hp Hd]. split; [|split; [exact Hd|cbn; lia]]. destruct fuel; cbn [put_decimal]; rewrite Z.geb_leb, (proj2 (Z.leb_gt _ _)) by lia; exact Hp.
  - destruct fuel as [|fuel]; [lia|]. cbn [put_decimal]. rewrite Z.geb_leb. destruct (Z.leb_spec 10 n) as [Hge|Hlt].
    + pose proof (Z.mod_pos_bound n 10 eq_refl) as Hm. pose proof (Z.div_mod n 10 ltac:(lia)) as Hdm. unfold push at 1. rewrite (proj2 (Z.ltb_lt _ _)) by lia. cbn [mbind option_bind].
      rewrite Nat2Z.inj_succ, Z.pow_succ_r in Hn by lia. destruct (IH fuel (n / 10) (n mod 10 + 48 :: b)) as (ds & Hr & (D1 & D2 & D3) & Hl); [split; [apply Z.div_pos; lia|apply Z.div_lt_upper_bound; lia]|lia|cbn [length]; lia|].
      change (ch "0") with 48 in *. change (ch "9") with 57 in *. exists (ds ++ [n mod 10 + 48]). split; [rewrite Hr, <- app_assoc; done|]. split; [split_and!|rewrite length_app; cbn [length]; lia].
      * by destruct ds.
      * apply Forall_app. split; [done|]. constructor; [change (ch "0") with 48; change (ch "9") with 57; lia|done].
      * rewrite fold_left_app. change (ch "0") with 48. rewrite D3. cbn. lia.
    + exists [n + 48]. destruct (Hone n b ltac:(lia) ltac:(lia)) as [Hp Hd]. split; [exact Hp|split; [exact Hd|cbn; lia]].
Qed.

(** The digits of a signed number, with no plus or space asked for. *)
Lemma signed_text v flags : LLONG_MIN < v <= LLONG_MAX -> flagged SIGNEDFLAG flags = true -> flagged FILTERED_ON_RELEASE flags = false -> flagged SHOWSIGNFLAG flags = false -> flagged BLANKPOSFLAG flags = false ->
  exists ds, longlong_to_string (u64 v) num_buffer flags 0 = Some (ds ++ [0], if v <? 0 then ch "-" else 0) /\ decimal_of (Z.abs v) ds /\ zlen ds <= 19.
Proof.
  unfold LLONG_MIN, LLONG_MAX. intros Hv F1 F2 F3 F4. assert (i64 (u64 v) = v) as Hi. { unfold i64, u64. rewrite Zplus_mod_idemp_l. rewrite Z.mod_small by lia. lia. }
  unfold longlong_to_string. rewrite Hi, F1, F2, F3, F4, andb_false_r. cbn [andb]. rewrite (proj2 (Z.eqb_neq v LLONG_MIN)) by (unfold LLONG_MIN; lia). rewrite andb_false_r. change (push num_buffer 0 []) with (Some [0]). cbn [mbind option_bind].
  assert ((if v <? 0 then - v else u64 v) = Z.abs v) as ->. { destruct (Z.ltb_spec v 0); [lia|]. rewrite u64_small by lia. lia. }
  destruct (put_decimal_run num_buffer 18 (Z.to_nat num_buffer) (Z.abs v) [0]) as (ds & Hr & Hd & Hl); [change (10 ^ Z.of_nat 19) with (10 ^ 19); lia|unfold num_buffer; lia|done|]. rewrite Hr. by exists ds.
Qed.
End decimal.

Definition chars (s : string) : list Z := ch <$> String.list_ascii_of_string s.
Definition no_strings (p : Z) : option (list Z) := None.

(** ** Printing and reading back *)
Section round_trip.
Context `{PrintfConfig} `{CharSign}.

Lemma digit_char c : ch "0" <= c <= ch "9" -> digit c = Some (c - ch "0").
Proof. change (ch "0") with 48. change (ch "9") with 57. intros Hc. unfold digit, isdigit. rewrite Z.geb_leb, !(proj2 (Z.leb_le _ _)) by lia. done. Qed.
Lemma decimal_digits ds : Forall (fun c => ch "0" <= c <= ch "9") ds -> digits 10 ds = (fun c => c - ch "0") <$> ds.
Proof.
  induction ds as [|c ds IH]; intros Hds; [done|]. apply Forall_cons in Hds as [Hc Hds]. cbn [digits]. rewrite digit_char by done. rewrite Z.geb_leb. change (ch "0") with 48 in *. change (ch "9") with 57 in *. rewrite (proj2 (Z.leb_gt _ _)) by lia. cbn. by rewrite IH.
Qed.
Lemma decimal_number n ds : decimal_of n ds -> number 10 0 (digits 10 ds) = n.
Proof.
  intros (_ & Hds & <-). rewrite decimal_digits by done. clear Hds. unfold number. generalize 0. induction ds as [|c ds IH]; intros a; [done|]. cbn. apply IH.
Qed.

(** What strtol makes of the text of a number. *)
Lemma strtol_text m p v ds : LLONG_MIN < v <= LLONG_MAX -> decimal_of (Z.abs v) ds -> cstr m p (opt_char (if v <? 0 then ch "-" else 0) ++ ds) ->
  strtoll p true 10 m = Some ((v, Some (p + zlen (opt_char (if v <? 0 then ch "-" else 0) ++ ds)), None), m).
Proof.
  unfold LLONG_MIN, LLONG_MAX. intros Hv Hd Hl. pose proof (strto_run m p _ true 10 Hl ltac:(lia)) as Hr. pose proof (decimal_number _ _ Hd) as Hn. destruct Hd as (D1 & D2 & _). destruct ds as [|c ds]; [done|].
  pose proof (proj1 (Forall_cons _ _ _) D2) as [Hc _]. change (ch "0") with 48 in Hc. change (ch "9") with 57 in Hc.
  assert (drop_spaces (opt_char (if v <? 0 then ch "-" else 0) ++ c :: ds) = opt_char (if v <? 0 then ch "-" else 0) ++ c :: ds) as E1.
  { destruct (v <? 0); [done|]. cbn. unfold isspace. rewrite !(proj2 (Z.eqb_neq c _)) by lia. done. }
  assert (sign (opt_char (if v <? 0 then ch "-" else 0) ++ c :: ds) = (v <? 0, c :: ds)) as E2.
  { destruct (v <? 0); [done|]. cbn. rewrite !(proj2 (Z.eqb_neq c _)) by lia. done. }
  assert (radix 10 (c :: ds) = (10, c :: ds)) as E3 by (by destruct ds).
  rewrite E1, E2, E3 in Hr. cbv beta iota zeta in Hr. rewrite Hn in Hr. assert (zlen (digits 10 (c :: ds)) = zlen (c :: ds)) as E4 by (rewrite decimal_digits by done; by rewrite length_fmap).
  unfold strtoll, LLONG_MIN, LLONG_MAX. change LONG_MIN with (- 2 ^ 63) in Hr. change LONG_MAX with (2 ^ 63 - 1) in Hr. rewrite Hr. assert (Z.abs v <= limit (v <? 0)) as Hlim. { unfold limit, LONG_MIN, LONG_MAX. destruct (Z.ltb_spec v 0); lia. }
  rewrite Z.min_l, (proj2 (Z.ltb_ge (limit (v <? 0)) (Z.abs v))) by lia. unfold signed.
  assert ((if v <? 0 then - Z.abs v else Z.abs v) = v) as -> by (destruct (Z.ltb_spec v 0); lia). destruct (digits 10 (c :: ds)) as [|d k]; [cbn in E4; lia|]. do 5 f_equal. rewrite E4, length_app. lia.
Qed.

(** A text in a buffer with room for it. *)
Lemma text_string m buf len o m' : holds_text m buf len o m' -> Forall (fun c => 0 < c < 256) o -> zlen o < len -> cstr m' buf o.
Proof.
  unfold holds_text. intros Hh Ho Hl. rewrite Z.min_r in Hh by lia. assert (forall k, k `suffix_of` o -> cstr m' (buf + (zlen o - zlen k)) k) as Hall; [|specialize (Hall o); rewrite Z.sub_diag, Z.add_0_r in Hall; by apply Hall].
  induction k as [|c k IH]; intros [k0 Hk]; cbn [cstr].
  - rewrite Hh. cbn [length]. rewrite decide_False, decide_True by lia. done.
  - assert (0 < c < 256) as Hc by (apply (proj1 (Forall_forall _ _) Ho); rewrite Hk; set_solver). split; [done|]. assert (zlen o = zlen k0 + 1 + zlen k) as Hz by (rewrite Hk, length_app; cbn [length]; lia). split.
    + rewrite Hh. cbn [length]. rewrite decide_True by lia. replace (Z.to_nat _) with (length k0) by lia. rewrite Hk, list_lookup_middle by done. cbn. by rewrite u8_small by lia.
    + replace (buf + (zlen o - zlen (c :: k)) + 1) with (buf + (zlen o - zlen k)) by (cbn [length]; lia). apply IH. exists (k0 ++ [c]). by rewrite <- app_assoc.
Qed.

Lemma decimal_bytes n ds : decimal_of n ds -> Forall (fun c => 0 < c < 256) ds.
Proof. intros (_ & Hds & _). eapply Forall_impl; [exact Hds|]. change (ch "0") with 48. change (ch "9") with 57. cbn. lia. Qed.

Lemma u64_i64 v : u64 (i64 v) = u64 v.
Proof. unfold u64, i64. rewrite Zminus_mod_idemp_l. f_equal. lia. Qed.

Lemma expand_lld v : LLONG_MIN < v <= LLONG_MAX -> exists ds, decimal_of (Z.abs v) ds /\ zlen ds <= 19 /\ expand no_strings false (chars "%lld") None [VLong v] = Some (opt_char (if v <? 0 then ch "-" else 0) ++ ds).
Proof.
  intros Hv. destruct (signed_text v 0x403 Hv eq_refl eq_refl eq_refl eq_refl) as (ds & Hs & Hd & Hl). exists ds. split_and!; [done|done|].
  change (expand no_strings false (chars "%lld") None [VLong v]) with ((signed_arg 3 [VLong v] ≫= fun x => number_text x (extra false [] 0x403) 0) ≫= fun x => app (fst x) <$> Some (@nil Z)).
  change (signed_arg 3 [VLong v]) with (Some (u64 (i64 v), @nil va)). rewrite u64_i64. cbn [mbind option_bind]. unfold number_text, extra. cbn [fst snd andb]. rewrite Hs. cbn [mbind option_bind fst snd fmap option_fmap option_map]. rewrite text_of_app, app_nil_r. do 2 f_equal. unfold justify. cbn -[ch]. fold (opt_char (if v <? 0 then ch "-" else 0)).
  rewrite andb_false_r. unfold blanks. assert (Z.to_nat (0 - zlen ds) = 0%nat) as -> by lia. done.
Qed.
End round_trip.

(** ** Numbers that filtered output hides

    Two argument lists are alike if they differ in numbers beyond 4096 only; [ints] says
    whether numbers of type int may differ, and not only those of 64 bits. *)
Section hidden.
Context `{PrintfConfig} (Hrel : release_build = true) (str : Z -> option (list Z)) (ints : bool).

Definition hidden (v : Z) : Prop := 4096 < Z.abs v < 2 ^ 63.
Definition alike (a b : va) : Prop :=
  a = b \/ (exists v w, a = VLong v /\ b = VLong w /\ hidden v /\ hidden w) \/
  (ints = true /\ exists v w, a = VInt v /\ b = VInt w /\ hidden (i32 v) /\ hidden (i32 w)).

Definition is_number (c : Z) : bool := (c =? ch "i") || (c =? ch "d") || (c =? ch "u") || is_hex_conversion c.
(** What may come between the percent sign and the conversion. *)
Definition is_modifier (c : Z) : bool :=
  (ch "0" <=? c) && (c <=? ch "9") || (c =? ch ".") || (c =? ch "*") || (c =? ch "-") || (c =? ch "+") || (c =? ch " ") || (c =? ch "#") ||
  (c =? ch "l") || (c =? ch "h") || (c =? ch "z") || (c =? ch "j") || (c =? ch "t").
(** A format that prints no strings and has no x behind the conversion of a number; if
    numbers of type int may differ, none of them is a width, a character or cut down by
    h. [inside]: behind a percent sign. *)
Fixpoint guarded (inside : bool) (l : list Z) : Prop :=
  match l with
  | [] => True
  | c :: l =>
      if inside then
        if is_modifier c then (ints = true -> c <> ch "*" /\ c <> ch "h") /\ guarded true l
        else c <> ch "s" /\ (ints = true -> c <> ch "c") /\ (is_number c = true -> hd 0 l <> ch "x") /\ guarded false l
      else guarded (c =? ch "%") l
  end.

Lemma flagged_or f a b : flagged f (Z.lor a b) = flagged f a || flagged f b.
Proof.
  unfold flagged. rewrite Z.land_lor_distr_l. apply eq_true_iff_eq. rewrite orb_true_iff, !negb_true_iff, !Z.eqb_neq.
  destruct (Z.eq_dec (Z.land a f) 0) as [E|], (Z.eq_dec (Z.land b f) 0) as [E'|]; try (rewrite Z.lor_eq_0_iff; tauto).
Qed.
Lemma flagged_lor f a b : flagged f a = true -> flagged f (Z.lor a b) = true.
Proof. intros Ha. by rewrite flagged_or, Ha. Qed.
(** The flags of a conversion: filtered, and no number of type int is cut down. *)
Definition whole (fl : Z) : Prop := flagged FILTERED_ON_RELEASE fl = true /\ (ints = true -> flagged HALFFLAG fl = false /\ flagged HALFHALFFLAG fl = false).
Lemma whole_lor fl f : whole fl -> flagged HALFFLAG f = false -> flagged HALFHALFFLAG f = false -> whole (Z.lor fl f).
Proof. intros [W1 W2] E1 E2. split; [by apply flagged_lor|]. intros Hi. rewrite !flagged_or, E1, E2. by destruct (W2 Hi) as [-> ->]. Qed.

(** Two results of reading an argument. *)
Definition alike_arg (P : Z -> Prop) (x y : option (Z * list va)) : Prop :=
  match x, y with
  | Some (a, k1), Some (b, k2) => (a = b \/ P a /\ P b) /\ Forall2 alike k1 k2
  | None, None => True
  | _, _ => False
  end.
(** A value of 64 bits that comes from a hidden number. *)
Definition hides (n : Z) : Prop := exists v, hidden v /\ n = u64 v.
Lemma hidden_signed v : hidden (i32 v) -> hides (u64 (i32 v)).
Proof. by exists (i32 v). Qed.
Lemma hidden_unsigned v : hidden (i32 v) -> hides (u32 v).
Proof.
  intros [Hv _]. unfold i32 in Hv. pose proof (Z.mod_pos_bound v (2 ^ 32) ltac:(lia)) as Hb. rewrite <- Zplus_mod_idemp_l in Hv. fold (u32 v) in Hv, Hb. set (x := u32 v) in *.
  exists x. split; [|unfold u64; by rewrite Z.mod_small by lia]. split; [|lia]. destruct (Z.lt_ge_cases x (2 ^ 31)); [rewrite Z.mod_small in Hv by lia|]; lia.
Qed.

Lemma va_int_alike k1 k2 : Forall2 alike k1 k2 -> alike_arg (fun n => ints = true /\ hides (u64 n)) (va_int k1) (va_int k2).
Proof.
  intros [|a b k1' k2' [->|[(v & w & -> & -> & _)|(Hi & v & w & -> & -> & Hv & Hw)]] Hk]; [done| |done|].
  - destruct b; cbn; [by split; [left|]|done].
  - cbn. split; [right|done]. split; (split; [done|by apply hidden_signed]).
Qed.
Lemma va_uint_alike k1 k2 : Forall2 alike k1 k2 -> alike_arg (fun n => ints = true /\ hides n) (va_uint k1) (va_uint k2).
Proof.
  intros [|a b k1' k2' [->|[(v & w & -> & -> & _)|(Hi & v & w & -> & -> & Hv & Hw)]] Hk]; [done| |done|].
  - destruct b; cbn; [by split; [left|]|done].
  - cbn. split; [right|done]. split; (split; [done|by apply hidden_unsigned]).
Qed.
Lemma va_ulong_alike k1 k2 : Forall2 alike k1 k2 -> alike_arg hides (va_ulong k1) (va_ulong k2).
Proof.
  intros [|a b k1' k2' [->|[(v & w & -> & -> & Hv & Hw)|(Hi & v & w & -> & -> & _)]] Hk]; [done| | |done].
  - destruct b; cbn; [done|by split; [left|]].
  - cbn. split; [right; split; [by exists v|by exists w]|done].
Qed.
Lemma va_long_alike k1 k2 : Forall2 alike k1 k2 -> alike_arg (fun n => hides (u64 n)) (va_long k1) (va_long k2).
Proof.
  assert (forall v, u64 (i64 v) = u64 v) as E by (intros v; unfold u64, i64; rewrite Zminus_mod_idemp_l; f_equal; lia).
  intros [|a b k1' k2' [->|[(v & w & -> & -> & Hv & Hw)|(Hi & v & w & -> & -> & _)]] Hk]; [done| | |done].
  - destruct b; cbn; [done|by split; [left|]].
  - cbn. rewrite !E. split; [right; split; [by exists v|by exists w]|done].
Qed.
Lemma alike_map f (P Q : Z -> Prop) x y : (forall n, P n -> Q (f n)) -> alike_arg P x y -> alike_arg Q (on_fst f <$> x) (on_fst f <$> y).
Proof. intros Hf. destruct x as [[a k1]|], y as [[b k2]|]; cbn; try done. intros [[->|[Ha Hb]] Hk]; [by split; [left|]|]. split; [right; auto|done]. Qed.
Lemma alike_weaken (P Q : Z -> Prop) x y : (forall n, P n -> Q n) -> alike_arg P x y -> alike_arg Q x y.
Proof. intros Hf. destruct x as [[a k1]|], y as [[b k2]|]; cbn; try done. intros [[->|[Ha Hb]] Hk]; [by split; [left|]|]. split; [right; auto|done]. Qed.

(** An argument that is cut down is the same in both. *)
Lemma not_half fl (P : Z -> Prop) : whole fl -> flagged HALFHALFFLAG fl = true \/ flagged HALFFLAG fl = true -> forall n, ints = true /\ P n -> False.
Proof. intros [_ Hw] Hf n [Hi _]. destruct (Hw Hi). destruct Hf; congruence. Qed.

Lemma unsigned_alike fl k1 k2 : whole fl -> Forall2 alike k1 k2 -> alike_arg hides (unsigned_arg fl k1) (unsigned_arg fl k2).
Proof.
  intros Hw Hk. pose proof (va_uint_alike k1 k2 Hk) as Hi. pose proof (va_ulong_alike k1 k2 Hk) as Hl. pose proof (not_half fl hides Hw) as Hn. unfold unsigned_arg.
  destruct (flagged LONGLONGFLAG fl); [done|]. destruct (flagged LONGFLAG fl); [done|].
  destruct (flagged HALFHALFFLAG fl) eqn:E1; [eapply alike_map; [|exact Hi]; intros n Hx; destruct (Hn (or_introl eq_refl) n Hx)|].
  destruct (flagged HALFFLAG fl) eqn:E2; [eapply alike_map; [|exact Hi]; intros n Hx; destruct (Hn (or_intror eq_refl) n Hx)|].
  repeat (destruct (flagged _ fl); [done|]). eapply alike_weaken; [|exact Hi]. by intros n [_ ?].
Qed.
Lemma signed_alike fl k1 k2 : whole fl -> Forall2 alike k1 k2 -> alike_arg hides (signed_arg fl k1) (signed_arg fl k2).
Proof.
  intros Hw Hk. pose proof (va_int_alike k1 k2 Hk) as Hi. pose proof (va_long_alike k1 k2 Hk) as Hl. pose proof (not_half fl (fun n => hides (u64 n)) Hw) as Hn. unfold signed_arg.
  apply (alike_map u64 (fun n => hides (u64 n))); [done|]. destruct (flagged LONGLONGFLAG fl); [done|]. destruct (flagged LONGFLAG fl); [done|].
  destruct (flagged HALFHALFFLAG fl) eqn:E1; [eapply alike_map; [|exact Hi]; intros n Hx; destruct (Hn (or_introl eq_refl) n Hx)|].
  destruct (flagged HALFFLAG fl) eqn:E2; [eapply alike_map; [|exact Hi]; intros n Hx; destruct (Hn (or_intror eq_refl) n Hx)|].
  repeat (destruct (flagged _ fl); [done|]). eapply alike_weaken; [|exact Hi]. by intros n [_ ?].
Qed.

(** The strings of hidden numbers. *)
Lemma hidden_stars fl n1 n2 : flagged FILTERED_ON_RELEASE fl = true -> n1 = n2 \/ hides n1 /\ hides n2 -> longlong_to_string n1 num_buffer fl 0 = longlong_to_string n2 num_buffer fl 0.
Proof.
  intros Hf [->|[H1' H2']]; [done|]. assert (forall n, hides n -> longlong_to_string n num_buffer fl 0 = (fun b => (b, 0)) <$> stars num_buffer [0]) as Hall; [|by rewrite !Hall].
  clear n1 n2 H1' H2'. intros n (v & [Hv1 Hv2] & ->). assert (i64 (u64 v) = v) as Hi by (unfold i64, u64; rewrite Zplus_mod_idemp_l, Z.mod_small by lia; lia). unfold longlong_to_string. rewrite Hi, Hf, Hrel.
  rewrite (proj2 (Z.eqb_neq v LLONG_MIN)) by (unfold LLONG_MIN; lia). rewrite andb_false_r. change (push num_buffer 0 []) with (Some [0]). cbn [mbind option_bind andb]. rewrite Z.gtb_ltb, (proj2 (Z.ltb_lt _ _)); [done|].
  destruct (flagged SIGNEDFLAG fl); cbn [andb]; [destruct (Z.ltb_spec v 0); [lia|]|]; unfold u64; [rewrite Z.mod_small by lia; lia|].
  destruct (Z.ltb_spec v 0); [rewrite <- (Z_mod_plus_full v 1), Z.mod_small by lia; lia|rewrite Z.mod_small by lia; lia].
Qed.
Lemma hidden_hex fl n1 n2 : flagged FILTERED_ON_RELEASE fl = true -> n1 = n2 \/ hides n1 /\ hides n2 -> longlong_to_hexstring n1 num_buffer fl = longlong_to_hexstring n2 num_buffer fl.
Proof.
  intros Hf [->|[H1' H2']]; [done|]. assert (forall n, hides n -> longlong_to_hexstring n num_buffer fl = stars num_buffer [0]) as Hall; [|by rewrite !Hall].
  clear n1 n2 H1' H2'. intros n (v & [Hv1 Hv2] & ->). unfold longlong_to_hexstring. rewrite Hf, Hrel. change (push num_buffer 0 []) with (Some [0]). cbn [mbind option_bind andb].
  assert (4096 < u64 v < 2 ^ 64 - 4096) as Hu. { unfold u64. destruct (Z.ltb_spec v 0); [rewrite <- (Z_mod_plus_full v 1)|]; rewrite Z.mod_small by lia; lia. }
  rewrite Z.gtb_ltb, !(proj2 (Z.ltb_lt _ _)) by lia. done.
Qed.

Definition alike_out (x y : option (list Z * list va)) : Prop :=
  match x, y with Some (a, k1), Some (b, k2) => a = b /\ Forall2 alike k1 k2 | None, None => True | _, _ => False end.

Lemma alike_bind (P : Z -> Prop) x y (f g : Z * list va -> option (list Z * list va)) : alike_arg P x y ->
  (forall a b k1 k2, a = b \/ P a /\ P b -> Forall2 alike k1 k2 -> alike_out (f (a, k1)) (g (b, k2))) -> alike_out (x ≫= f) (y ≫= g).
Proof. destruct x as [[a k1]|], y as [[b k2]|]; cbn; try done. intros [Hab Hk] Hf. by apply Hf. Qed.
Lemma number_alike fl num a b k1 k2 : flagged FILTERED_ON_RELEASE fl = true -> a = b \/ hides a /\ hides b -> Forall2 alike k1 k2 -> alike_out (number_text (a, k1) fl num) (number_text (b, k2) fl num).
Proof. intros Hf Hab Hk. unfold number_text. cbn [fst snd]. rewrite (hidden_stars fl a b Hf Hab). destruct (longlong_to_string b num_buffer fl 0) as [[t sc]|]; cbn; [by split|done]. Qed.

Lemma conversion_alike c l k1 k2 fl num : whole fl -> c <> ch "s" -> (ints = true -> c <> ch "c") -> (is_number c = true -> hd 0 l <> ch "x") -> Forall2 alike k1 k2 ->
  alike_out (conversion str true c l k1 fl num) (conversion str true c l k2 fl num).
Proof.
  intros Hw Hs Hcc Hx Hk. pose proof (proj1 Hw) as Hf. unfold conversion. destruct (Z.eqb_spec c (ch "%")); [by split|]. destruct (Z.eqb_spec c (ch "c")) as [Hc|_].
  { apply (alike_bind (fun n => ints = true /\ hides n)); [by apply va_uint_alike|]. intros a b k1' k2' [->|[[Hi _] _]] Hk'; [by split|by destruct (Hcc Hi)]. }
  rewrite (proj2 (Z.eqb_neq c (ch "s"))) by done. assert (is_number c = true -> forall fl, extra true l fl = fl) as He.
  { intros Hc fl'. unfold extra. by rewrite bool_decide_eq_false_2 by (by apply Hx). }
  unfold is_number in He. destruct ((c =? ch "i") || (c =? ch "d")) eqn:Hd.
  { apply (alike_bind hides); [by apply signed_alike|]. intros a b k1' k2' Hab Hk'. rewrite He by done. apply number_alike; [by apply flagged_lor|done|done]. }
  destruct (Z.eqb_spec c (ch "u")) as [->|Hu].
  { apply (alike_bind hides); [by apply unsigned_alike|]. intros a b k1' k2' Hab Hk'. rewrite He by done. by apply number_alike. }
  destruct (is_hex_conversion c) eqn:Hh.
  { cbv zeta. set (fl' := if c =? ch "p" then _ else _). assert (whole fl') as Hf' by (unfold fl'; repeat case_match; first [by apply whole_lor|done]).
    apply (alike_bind hides); [by apply unsigned_alike|]. intros a b k1' k2' Hab Hk'. rewrite He by (by rewrite orb_true_r). cbn [fst snd]. rewrite (hidden_hex fl' a b (proj1 Hf') Hab). destruct (longlong_to_hexstring b num_buffer fl'); cbn; [by split|done]. }
  destruct (c =? ch "n"); [done|by split].
Qed.

Lemma read_alike c fl num k1 k2 : whole fl -> (ints = true -> c <> ch "*" /\ c <> ch "h") -> Forall2 alike k1 k2 -> is_modifier c = true ->
  match read_char c fl num k1, read_char c fl num k2 with
  | Modify f1 n1 k1, Modify f2 n2 k2 => f1 = f2 /\ n1 = n2 /\ Forall2 alike k1 k2 /\ whole f1
  | Undefined, Undefined => True
  | _, _ => False
  end.
Proof.
  intros Hw Hi Hk Hm. unfold read_char, is_modifier in *. destruct ((ch "0" <=? c) && (c <=? ch "9")); [split_and!; [done|done|done|destruct (_ && _); [by apply whole_lor|done]]|].
  destruct (c =? ch "."); [done|]. destruct (Z.eqb_spec c (ch "*")) as [Hstar|_].
  - pose proof (va_int_alike k1 k2 Hk) as Ha. destruct (va_int k1) as [[a k1']|], (va_int k2) as [[b k2']|]; cbn in Ha; try done. destruct Ha as [[->|[[Hit _] _]] Hk']; [|by destruct (proj1 (Hi Hit))].
    destruct (b <? 0); [|done]. destruct (b =? INT_MIN); [done|]. split_and!; [done|done|done|by apply whole_lor].
  - do 4 (destruct (c =? _); [split_and!; [done|done|done|by apply whole_lor]|]). destruct (c =? ch "l"); [split_and!; [done|done|done|by apply whole_lor; [|destruct (flagged LONGFLAG fl)..]]|].
    destruct (Z.eqb_spec c (ch "h")) as [Hh|_]; [|repeat (destruct (c =? _); [split_and!; [done|done|done|by apply whole_lor]|]); done].
    split_and!; [done|done|done|]. split; [apply flagged_lor, Hw|]. intros Hit. by destruct (proj2 (Hi Hit)).
Qed.
(** Any other character ends the conversion. *)
Lemma read_convert c fl num k : is_modifier c = false -> read_char c fl num k = Convert.
Proof.
  unfold is_modifier, read_char. rewrite !orb_false_iff. intros H0. destruct_and! H0. repeat match goal with E : _ = false |- _ => rewrite E; clear E end. done.
Qed.

Definition inside (st : option (Z * Z)) : bool := match st with Some _ => true | None => false end.
Lemma expand_alike l : forall st k1 k2, match st with Some (fl, _) => whole fl | None => True end -> guarded (inside st) l -> Forall2 alike k1 k2 -> expand str true l st k1 = expand str true l st k2.
Proof.
  induction l as [|c l IH]; [done|]. intros st k1 k2 Hst Hg Hk. cbn [expand guarded] in *. destruct st as [[fl num]|]; cbn [inside] in Hg.
  - destruct (is_modifier c) eqn:Hm.
    + destruct Hg as [Hi Hg]. pose proof (read_alike c fl num k1 k2 Hst Hi Hk Hm) as Hr. destruct (read_char c fl num k1) as [f1 n1 k1'| |], (read_char c fl num k2) as [f2 n2 k2'| |]; try done.
      destruct Hr as (-> & -> & Hk' & Hf'). by apply IH.
    + destruct Hg as (Hs & Hcc & Hx & Hg). rewrite !read_convert by done.
      pose proof (conversion_alike c l k1 k2 fl num Hst Hs Hcc Hx Hk) as Hc. destruct (conversion str true c l k1 fl num) as [[o1 k1']|], (conversion str true c l k2 fl num) as [[o2 k2']|]; cbn in Hc; try done.
      destruct Hc as [-> Hk']. cbn. f_equal. destruct l as [|x l']; [done|]. destruct (takes_extra true c (x :: l')) eqn:Ht; [|by apply IH].
      exfalso. unfold takes_extra in Ht. cbn [andb] in Ht. apply andb_true_iff in Ht as [Ht1 Ht2]. apply bool_decide_eq_true in Ht2. by apply Hx.
  - destruct (c =? ch "%"); [by apply IH|]. f_equal. by apply IH.
Qed.
End hidden.

Section left.
Context `{PrintfConfig}.

Lemma i32_int v : - 2 ^ 31 < v < 2 ^ 31 -> i32 v = v.
Proof. intros Hv. apply i32_small. unfold INT_MIN, INT_MAX. lia. Qed.
(** The digits of a number and of its negation. *)
Lemma negated_text v ds sc : 0 < v < 2 ^ 31 -> longlong_to_string (u64 v) num_buffer 0xC00 0 = Some (ds ++ [0], sc) -> longlong_to_string (u64 (- v)) num_buffer 0xC00 0 = Some (ds ++ [0], ch "-").
Proof.
  intros Hv. assert (forall x, - 2 ^ 31 < x < 2 ^ 31 -> i64 (u64 x) = x) as Hi by (intros x Hx; unfold i64, u64; rewrite Zplus_mod_idemp_l, Z.mod_small by lia; lia). unfold longlong_to_string. rewrite !Hi by lia.
  rewrite (proj2 (Z.ltb_ge v 0)), (proj2 (Z.ltb_lt (- v) 0)), (proj2 (Z.eqb_neq (- v) LLONG_MIN)) by (unfold LLONG_MIN; lia). change (flagged SIGNEDFLAG 0xC00) with true. change (flagged FILTERED_ON_RELEASE 0xC00) with false.
  rewrite !andb_false_r. cbn [andb]. change (push num_buffer 0 []) with (Some [0]). cbn [mbind option_bind]. rewrite Z.opp_involutive, u64_small by lia. destruct (put_decimal (Z.to_nat num_buffer) num_buffer v [0]) as [b|]; [|done]. cbn. intros [= -> _]. done.
Qed.
Lemma expand_left w v : 0 <= w < 2 ^ 31 -> v <> 0 -> - 2 ^ 31 < v < 2 ^ 31 -> forall ds sc, longlong_to_string (u64 v) num_buffer 0xC00 0 = Some (ds ++ [0], sc) ->
  expand no_strings false (chars "%-*d") None [VInt w; VInt v] = Some (ds ++ blanks (w - zlen ds) (ch " ")).
Proof.
  intros Hw _ Hv ds sc Hs. assert (read_char (ch "*") 0x800 0 [VInt w; VInt v] = Modify 0x800 w [VInt v]) as Hstar.
  { change (read_char (ch "*") 0x800 0 [VInt w; VInt v]) with (if i32 w <? 0 then if i32 w =? INT_MIN then Undefined else Modify (Z.lor 0x800 LEFTFORMATFLAG) (- i32 w) [VInt v] else Modify 0x800 (i32 w) [VInt v]).
    rewrite i32_int, (proj2 (Z.ltb_ge w 0)) by lia. done. }
  change (chars "%-*d") with [ch "%"; ch "-"; ch "*"; ch "d"]. cbn [expand]. change (ch "%" =? ch "%") with true. cbv iota. change (read_char (ch "-") (start_flags false) 0 [VInt w; VInt v]) with (Modify 0x800 0 [VInt w; VInt v]). cbv iota.
  rewrite Hstar. cbv iota. change (read_char (ch "d") 0x800 w [VInt v]) with Convert. cbv iota.
  change (conversion no_strings false (ch "d") [] [VInt v] 0x800 w) with (number_text (u64 (i32 v), @nil va) 0xC00 w). rewrite i32_int by lia. unfold number_text. cbn [fst snd]. rewrite Hs. cbn [mbind option_bind fmap option_fmap option_map fst snd].
  rewrite text_of_app, app_nil_r. done.
Qed.
End left.

Section theorems.
Context `{PrintfConfig} `{CharSign}.

(** C36: [snprintf] and [snprintf_filtered] return the length of the text the format stands
    for; the buffer gets as much of the text as leaves room for a zero, and the zero, and
    the rest of memory stays as it is. To a buffer without room [snprintf] writes nothing,
    but [snprintf_filtered] writes a zero in front of it, and fails if no memory is there.
    (The text has less than 2^31 characters; the buffer of [snprintf_filtered] lies within
    the 64 bits of an address.) *)
Theorem snprintf_writes m buf len fmt l str ap o (filtered : bool) :
  printable m buf len fmt l str -> expand str filtered l None ap = Some o -> zlen o < 2 ^ 31 -> (filtered = true -> 0 <= buf /\ buf + len <= 2 ^ 64) ->
  let r := (if filtered then snprintf_filtered buf len fmt ap else snprintf buf len fmt ap) m in
  if decide (len = 0)
  then r = if filtered then (if decide (is_Some (m !! u64 (buf - 1))) then Some (zlen o, <[u64 (buf - 1) := 0]> m) else None) else Some (zlen o, m)
  else exists m', r = Some (zlen o, m') /\ holds_text m buf len o m'.
Proof.
  intros Hp He Ho Hf. cbv zeta. pose proof (pr_len _ _ _ _ _ _ Hp) as Hl. destruct filtered.
  - destruct (Hf eq_refl) as (F2 & F3). destruct (decide (len = 0)) as [->|]; [exact (vsnprintf_filtered_none m buf fmt l str Hp ap o Ho He)|].
    exact (vsnprintf_filtered_run m buf len fmt l str Hp ap o Ho ltac:(lia) F2 F3 He).
  - destruct (vsnprintf_run m buf len fmt l str Hp ap o Ho He) as (m' & Hr & Hh). destruct (decide (len = 0)); [by subst m'|by exists m'].
Qed.

(** C37: a number of 64 bits printed with %lld into a buffer that has room for it is read
    back by [strtoll], up to the end of the text. The least number is left out: to negate
    it overflows. *)
Theorem snprintf_strtoll_round_trip m buf len fmt v :
  printable m buf len fmt (chars "%lld") no_strings -> 21 <= len -> LLONG_MIN < v <= LLONG_MAX ->
  exists n m', snprintf buf len fmt [VLong v] m = Some (n, m') /\ strtoll buf true 10 m' = Some ((v, Some (buf + n), None), m').
Proof.
  intros Hp Hl Hv. destruct (expand_lld v Hv) as (ds & Hd & Hn & He). set (o := opt_char (if v <? 0 then ch "-" else 0) ++ ds) in *.
  assert (zlen o <= 20) as Ho by (unfold o, opt_char; destruct (v <? 0); [change (ch "-" =? 0) with false|change (0 =? 0) with true]; rewrite length_app; cbn [length]; lia). assert (zlen o < 2 ^ 31) as Ho2 by lia. destruct (vsnprintf_run m buf len fmt _ no_strings Hp [VLong v] o Ho2 He) as (m' & Hr & Hh).
  rewrite decide_False in Hh by lia. exists (zlen o), m'. split; [exact Hr|]. apply strtol_text; [done|done|]. apply (text_string m buf len o); [done| |lia].
  unfold o. apply Forall_app. split; [unfold opt_char; destruct (v <? 0); [by repeat constructor|done]|by eapply decimal_bytes].
Qed.

(** C38: in a release build filtered output to a buffer with room does not tell numbers beyond 4096 apart: two
    calls with the same format, which prints no strings and does not ask for the plain
    number with an x, do the same if their arguments differ in such numbers only, be they
    of 64 bits or, in a format without %c, widths by * and numbers that h cuts down to 8
    or 16 bits, of type int. *)
Theorem filtered_hides_numbers ints m buf len fmt l k1 k2 o :
  release_build = true -> printable m buf len fmt l no_strings -> 0 < len -> 0 <= buf -> buf + len <= 2 ^ 64 -> guarded ints false l -> Forall2 (alike ints) k1 k2 ->
  expand no_strings true l None k1 = Some o -> zlen o < 2 ^ 31 ->
  exists m', snprintf_filtered buf len fmt k1 m = Some (zlen o, m') /\ snprintf_filtered buf len fmt k2 m = Some (zlen o, m').
Proof.
  intros Hrel Hp Hl Hb0 Hb Hg Hk He Ho. assert (expand no_strings true l None k2 = Some o) as He2 by (by rewrite <- (expand_alike Hrel no_strings ints l None k1 k2)).
  destruct (vsnprintf_filtered_run m buf len fmt l no_strings Hp k1 o Ho Hl Hb0 Hb He) as (m1 & Hr1 & Hh1). destruct (vsnprintf_filtered_run m buf len fmt l no_strings Hp k2 o Ho Hl Hb0 Hb He2) as (m2 & Hr2 & Hh2).
  exists m1. rewrite (holds_unique m buf len o m1 m2 Hh1 Hh2) in *. done.
Qed.

(** A number in a field that is filled up on the right is printed without its sign:
    the calls for a number and for its negation do the same. *)
Theorem left_field_drops_sign m buf len fmt w v :
  printable m buf len fmt (chars "%-*d") no_strings -> 0 <= w < 2 ^ 31 -> 0 < v < 2 ^ 31 ->
  exists r, snprintf buf len fmt [VInt w; VInt v] m = Some r /\ snprintf buf len fmt [VInt w; VInt (- v)] m = Some r.
Proof.
  intros Hp Hw Hv. destruct (signed_text v 0xC00) as (ds & Hs & Hd & Hn); [unfold LLONG_MIN, LLONG_MAX; lia|done..|]. assert (longlong_to_string (u64 (- v)) num_buffer 0xC00 0 = Some (ds ++ [0], ch "-")) as Hs2.
  { rewrite (proj2 (Z.ltb_ge v 0)) in Hs by lia. by eapply negated_text. }
  set (o := ds ++ blanks (w - zlen ds) (ch " ")). assert (zlen o < 2 ^ 31) as Ho by (unfold o, blanks; rewrite length_app, length_replicate; lia).
  pose proof (expand_left w v Hw ltac:(lia) ltac:(lia) ds _ Hs) as He. pose proof (expand_left w (- v) Hw ltac:(lia) ltac:(lia) ds _ Hs2) as He2.
  destruct (vsnprintf_run m buf len fmt _ no_strings Hp _ o Ho He) as (m1 & Hr1 & Hh1). destruct (vsnprintf_run m buf len fmt _ no_strings Hp _ o Ho He2) as (m2 & Hr2 & Hh2).
  exists (zlen o, m1). split; [exact Hr1|]. assert (m1 = m2) as ->; [|exact Hr2]. destruct (decide (len = 0)); [congruence|by apply (holds_unique m buf len o)].
Qed.
End theorems.

(** ** Witnesses: a format at 1000 and a buffer of 40 bytes at 2000 *)
Definition page (fmt : string) : mem := bytes_at 1000 (chars fmt ++ [0]) ∪ bytes_at 2000 (replicate 40 7).
Definition read_back (n : Z) (m : mem) : list Z := omap (fun q => m !! q) (seqZ 2000 n).
(** What a call returns, and what it leaves at the start of the buffer. *)
Definition printed (len : Z) (r : option (Z * mem)) : option (Z * list Z) := (fun x => (fst x, read_back len (snd x))) <$> r.

Ltac check_page := constructor; [lia|apply mapped_check; vm_compute; reflexivity|split; [check_string|left; vm_compute; reflexivity]|discriminate].

Lemma snprintf_writes_witness :
  (exists m', @snprintf false 2000 4 1000 [VInt (-42)] (page "a%05d") = Some (6, m') /\ @holds_text (page "a%05d") 2000 4 (chars "a-0042") m') /\
  @snprintf_filtered true 2000 0 1000 [VInt (-42)] (<[1999 := 7]> (page "a%05d")) = Some (6, <[1999 := 0]> (<[1999 := 7]> (page "a%05d"))).
Proof.
  split.
  - assert (printable (page "a%05d") 2000 4 1000 (chars "a%05d") no_strings) as Hp by check_page.
    exact (@snprintf_writes false (page "a%05d") 2000 4 1000 (chars "a%05d") no_strings [VInt (-42)] (chars "a-0042") false Hp (eq_refl (Some (chars "a-0042"))) ltac:(vm_compute; reflexivity) ltac:(discriminate)).
  - assert (printable (<[1999 := 7]> (page "a%05d")) 2000 0 1000 (chars "a%05d") no_strings) as Hp by check_page.
    rewrite (@snprintf_writes true _ 2000 0 1000 (chars "a%05d") no_strings [VInt (-42)] (chars "a-0042") true Hp (eq_refl (Some (chars "a-0042"))) ltac:(vm_compute; reflexivity) ltac:(lia)).
    change (u64 (2000 - 1)) with 1999. by rewrite decide_True by (by rewrite lookup_insert_eq).
Defined.

Lemma snprintf_strtoll_round_trip_witness : exists n m', @snprintf false 2000 40 1000 [VLong (-7000000000)] (page "%lld") = Some (n, m') /\ @strtoll true 2000 true 10 m' = Some ((-7000000000, Some (2000 + n), None), m').
Proof.
  assert (printable (page "%lld") 2000 40 1000 (chars "%lld") no_strings) as Hp by check_page.
  apply (@snprintf_strtoll_round_trip false true (page "%lld") 2000 40 1000 (-7000000000) Hp); [lia|]. split; [vm_compute; reflexivity|vm_compute; discriminate].
Defined.

(** Numbers of 64 bits next to a character; numbers of type int. *)
Lemma filtered_hides_numbers_witness :
  (exists m', @snprintf_filtered true 2000 40 1000 [VInt 104; VLong 5000; VLong 81985529216486895] (page "%cs%ld %p") = Some (11, m') /\
    @snprintf_filtered true 2000 40 1000 [VInt 104; VLong (-7777); VLong 4097] (page "%cs%ld %p") = Some (11, m')) /\
  (exists m', @snprintf_filtered true 2000 40 1000 [VInt 5000; VInt (-70000); VInt 8; VInt 4097] (page "the %d %08x %u%X") = Some (21, m') /\
    @snprintf_filtered true 2000 40 1000 [VInt (-6000); VInt 9999; VInt 8; VInt 2147483647] (page "the %d %08x %u%X") = Some (21, m')).
Proof.
  assert (forall ints v w, 4096 < Z.abs v < 2 ^ 63 -> 4096 < Z.abs w < 2 ^ 63 -> alike ints (VLong v) (VLong w)) as Hlong by (intros ints v w Hv Hw; right; left; exists v, w; split; [done|split; [done|split; [exact Hv|exact Hw]]]).
  assert (forall v w, 4096 < Z.abs (i32 v) < 2 ^ 63 -> 4096 < Z.abs (i32 w) < 2 ^ 63 -> alike true (VInt v) (VInt w)) as Hint by (intros v w Hv Hw; right; right; split; [done|]; exists v, w; split; [done|split; [done|split; [exact Hv|exact Hw]]]).
  split.
  - assert (printable (page "%cs%ld %p") 2000 40 1000 (chars "%cs%ld %p") no_strings) as Hp by check_page.
    assert (guarded false false (chars "%cs%ld %p")) as Hg by (cbn; repeat split; discriminate).
    assert (Forall2 (alike false) [VInt 104; VLong 5000; VLong 81985529216486895] [VInt 104; VLong (-7777); VLong 4097]) as Hk by (repeat first [apply Forall2_nil_2|apply Forall2_cons_2]; first [by left|apply Hlong; lia]).
    exact (@filtered_hides_numbers true false (page "%cs%ld %p") 2000 40 1000 (chars "%cs%ld %p") _ _ (chars "hs*** 0x***") eq_refl Hp ltac:(lia) ltac:(lia) ltac:(lia) Hg Hk eq_refl ltac:(vm_compute; reflexivity)).
  - assert (printable (page "the %d %08x %u%X") 2000 40 1000 (chars "the %d %08x %u%X") no_strings) as Hp by check_page.
    assert (guarded true false (chars "the %d %08x %u%X")) as Hg by (cbn; repeat split; discriminate).
    assert (Forall2 (alike true) [VInt 5000; VInt (-70000); VInt 8; VInt 4097] [VInt (-6000); VInt 9999; VInt 8; VInt 2147483647]) as Hk
      by (repeat first [apply Forall2_nil_2|apply Forall2_cons_2]; first [by left|apply Hint; vm_compute; split; reflexivity]).
    exact (@filtered_hides_numbers true true (page "the %d %08x %u%X") 2000 40 1000 (chars "the %d %08x %u%X") _ _ (chars "the *** 00000*** 8***") eq_refl Hp ltac:(lia) ltac:(lia) ltac:(lia) Hg Hk eq_refl ltac:(vm_compute; reflexivity)).
Defined.

Lemma left_field_drops_sign_witness : exists r, @snprintf false 2000 40 1000 [VInt 5; VInt 34] (page "%-*d") = Some r /\ @snprintf false 2000 40 1000 [VInt 5; VInt (-34)] (page "%-*d") = Some r.
Proof.
  assert (printable (page "%-*d") 2000 40 1000 (chars "%-*d") no_strings) as Hp by check_page.
  exact (@left_field_drops_sign false (page "%-*d") 2000 40 1000 5 34 Hp ltac:(lia) ltac:(lia)).
Defined.

(** The sign is there in a field that is filled up on the left, with the zeros behind it. *)
Example fields : printed 17 (@snprintf false 2000 40 1000 [VInt (-34); VInt (-56); VInt (-78)] (page "%-5d|%05d|%5d")) = Some (17, chars "34   |-0056|  -78").
Proof. vm_compute. reflexivity. Qed.
(** The prefix of a hexadecimal number is in front of the blanks. *)
Example prefix_field : printed 10 (@snprintf false 2000 40 1000 [VInt 0x2a] (page "%#8X")) = Some (10, chars "0X      2A").
Proof. vm_compute. reflexivity. Qed.
(** A precision counts as more digits of the width. *)
Example precision_is_width : printed 14 (@snprintf false 2000 40 1000 [VInt 7] (page "%1.4d")) = Some (14, chars "             7").
Proof. vm_compute. reflexivity. Qed.
(** Filtered output to a buffer without room writes in front of it. *)
Example filtered_underrun : (fun x => snd x !! 1999) <$> @snprintf_filtered true 2000 0 1000 [] (<[1999 := 7]> (page "ab")) = Some (Some 0).
Proof. vm_compute. reflexivity. Qed.
(** The x behind a conversion lifts the filter; without it a number up to 4096 is shown. *)
Example filter_lifted : printed 18 (@snprintf_filtered true 2000 40 1000 [VInt 5000; VInt 5000; VInt 4096] (page "%d %dx %u")) = Some (13, chars "*** 5000 4096" ++ [0; 7; 7; 7; 7]).
Proof. vm_compute. reflexivity. Qed.
(** The least number cannot be negated. *)
Example least_number : @snprintf false 2000 40 1000 [VLong LLONG_MIN] (page "%lld") = None.
Proof. vm_compute. reflexivity. Qed.
